(* ===== verification/_CoqProject ===== *)
-Q . S2P
Prelude.v
CC.v
Observation.v
Reno.v
Cubic.v
CubicController.v
CubicSpec.v
CubicMachine.v
Registry.v
TransportPacing.v
BbrModel.v
BbrFilter.v
BbrEstimator.v
BbrProbe.v
BbrController.v
BbrMachine.v
BbrModes.v
Rack.v
RackSpec.v
Prr.v
FlowPacer.v
PacerHeap.v
Pacer.v
PacerSpec.v
Bbr3Model.v
Bbr3Congestion.v
Bbr3Probe.v
Bbr3Controller.v
Bbr3Machine.v
Bbr3Evidence.v
CString.v
TcpMemory.v
TcpMemorySpec.v
ServiceConfig.v
ServiceConfigSpec.v
L3Tun.v
L3TunSpec.v
LwipLoop.v
LwipLoopSpec.v
Bridge.v
BridgeFlow.v
BridgeSpec.v
StateMonad.v
AdapterData.v
AdapterDelivery.v
AdapterPacing.v
AdapterRecovery.v
AdapterRate.v
AdapterPolicy.v
Adapter.v
Selector.v
BbrInternal.v
AdapterHooks.v
AdapterWorld.v
AdapterFrame.v
AdapterEvents.v
AdapterLedger.v
AdapterSample.v
AdapterRackPass.v
AdapterTimer.v
AdapterEpisode.v
AdapterGate.v
AdapterFailClosed.v
AdapterRegistry.v
AdapterLife.v
AdapterAccept.v
HostSys.v
HostSetup.v
Firewall.v
FirewallSpec.v
FirewallLife.v
FirewallHost.v
HostSetupSpec.v
ServiceMain.v
ServiceMainSpec.v
ServiceLaunch.v
AdapterWake.v
ServiceTimers.v
Qualification.v
Probe.v
