(* ===== verification/Prelude.v ===== *)
(** * A verification development for tcp-shift

    tcp-shift terminates TCP in user space: packets enter through a TUN device
    into lwIP, and a bridge relays the byte streams to host sockets. The
    program's own logic is what replaces lwIP's congestion control: pluggable
    controllers behind one boundary, loss detection and recovery pacing, and
    the scheduler that releases paced segments. This library models that logic
    and proves what makes it correct.

    ** The parts of the program and their models

    - _Congestion-control boundary_ ([src/cc/cc.h], [src/cc/cc.c]): [CC.v].
      A vtable of handlers over an opaque state. The class [SafeController] is
      the contract a controller owes the boundary; [Reno.v] and
      [CubicController.v] discharge it. Theorems: a failed initialisation is
      never callable; any event sequence publishes windows between one segment
      and the transport limit.
    - _Observation_ ([src/cc/observation.c]): [Observation.v]. RFC 6298 SRTT.
    - _Reno_ ([src/cc/reno.c]): [Reno.v], with the byte-counting RFC 5681
      window as its specification; _registry_ (end of [src/cc/reno.c],
      [src/cc/registry.h]): [Registry.v].
    - _CUBIC_ ([src/cc/cubic.c], [src/cc/cubic_hystart.c],
      [src/cc/cubic_controller.c]): [Cubic.v] (fixed-point arithmetic, epochs,
      handlers), [CubicController.v] (HyStart++, vtable), [CubicSpec.v] (cube
      root, curve, epoch start, Q16 round trip, loss response, refinement of
      RFC 9438), [CubicMachine.v] (the controller as a step relation: epoch
      clock, HyStart++ one-shot).
    - _Transport pacing fallback_ ([src/cc/transport_pacing.c]):
      [TransportPacing.v].
    - _BBR_ ([src/cc/bbr.c], [bbr_pacing.c], [bbr_drain.c], [bbr_probe.c],
      [bbr_recovery.c], [bbr_controller.c]): [BbrModel.v] (estimator and
      STARTUP), [BbrProbe.v] (DRAIN, ProbeBW, ProbeRTT), [BbrController.v]
      (recovery and the controller). [BbrFilter.v] proves the ten-slot ring
      a windowed maximum, [BbrEstimator.v] the bandwidth-delay product, the
      full-pipe detector and the minimum-RTT filter, [BbrMachine.v] progress
      and recovery of the reachable controllers, [BbrModes.v] the gain cycle
      and the ProbeRTT dwell.
    - _RACK-TLP_ ([src/lwip/rack_tlp.c]): [Rack.v] and [RackSpec.v] (reference
      segment, loss rule of RFC 8985, rationed probes).
    - _PRR_ ([src/lwip/prr.c]): [Prr.v] (RFC 9937 credit, bounds over a whole
      recovery episode).
    - _Flow pacer_ ([src/runtime/pacer.h], [src/runtime/pacer.c]):
      [FlowPacer.v] (token-bucket conformance, exact deferral).
    - _Pacing scheduler_ ([src/runtime/pacer.c]): [PacerHeap.v] (the binary
      heap), [Pacer.v] (the scheduler over the interface [PacerOS] of the
      system calls it makes), [PacerSpec.v] (refinement of a priority queue,
      invariant, admission).
    - _BBRv3_ ([src/cc/bbr3_model.c], [bbr3_congestion.c], [bbr3_probe.c],
      [bbr3_controller.c]): [Bbr3Model.v], [Bbr3Congestion.v] (with the exact
      response of one ACK to loss and ECN), [Bbr3Probe.v], [Bbr3Controller.v],
      one file per source file, and [Bbr3Machine.v] (the phase machine, progress
      of ACKs, liveness of probing, exactness of the arithmetic).
    - _BBRv3 lwIP evidence and binding_ ([src/lwip/bbr3_rack_evidence.c],
      [bbr3_loss_round.c], [bbr3_binding.c]): [Bbr3Evidence.v] (a transmission
      is reported lost once, a loss round is a sum, the binding fails closed).
    - _TCP memory accounting_ ([src/lwip/tcp_memory.c]): [CString.v] (the C
      string functions the parsers use), [TcpMemory.v] and [TcpMemorySpec.v]
      (the accounting invariant over all connections, the policy parser).
    - _Service configuration_ ([src/service_config.c]): [ServiceConfig.v] and
      [ServiceConfigSpec.v] (what an accepted file satisfies, round trip).
    - _L3 TUN device_ ([src/lwip/l3_tun.c]): [L3Tun.v] and [L3TunSpec.v] (the
      bounded ring is a FIFO and owns its buffers).
    - _Event loop_ ([src/runtime/lwip_loop.c]): [LwipLoop.v] and
      [LwipLoopSpec.v] (no lost wake-up for queued packets, a cycle returns).
      Composes the pacing scheduler and the device.
    - _Bridge_ ([src/bridge/bridge.c]): [Bridge.v] (flows in a store, the
      handlers of lwIP and of the loop), [BridgeFlow.v] (one flow: laws,
      invariant, each part of a handler), [BridgeSpec.v] (all flows: the streams
      are relayed exactly, memory safety and accounting, wake-ups).
    - _Transport adapter_ ([src/lwip/cc_adapter.c], [cc_adapter.h],
      [cc_hooks.h], [initial_window.h]): computations of the state monad of
      [StateMonad.v] over one flow (the adapter, its control block, the
      process-wide tables, the world): [AdapterData.v] (the data and the
      accesses), [AdapterDelivery.v] (the ledger's slots), [AdapterPacing.v]
      (registry, send gate, effective window), [AdapterRecovery.v] (PRR, RACK,
      TLP, the recovery timer), [AdapterRate.v] (transmissions, rate samples),
      [AdapterPolicy.v] (vtables, policy), [Adapter.v] (the callbacks),
      [AdapterHooks.v] (the hook boundary patched lwIP calls, binding,
      releases). [Selector.v] is [cc_selector.c], [BbrInternal.v] is
      [cc_bbr_internal.c]; [AdapterWorld.v] puts the flows into a heap of
      adapters and control blocks, with the timer entry points and the accept
      paths ([cc_bbr_accept.c] too).
      Proofs: [AdapterFrame.v] (what each function leaves alone),
      [AdapterEvents.v] (a flow's life as a sequence of hook calls and of lwIP's
      own changes, and the rule that lifts a relation from the parts of the
      callbacks to such sequences), [AdapterLedger.v] (delivered bytes are
      counted exactly once), [AdapterSample.v] (the rate sample equals its
      reference), [AdapterRackPass.v] (RACK sees deliveries in the order of
      RFC 8985), [AdapterTimer.v] (the reordering deadline), [AdapterEpisode.v]
      (the recovery episode is a two-state machine; the handle comes back),
      [AdapterGate.v] (the send gate and PRR's credit), [AdapterFailClosed.v]
      (a failing controller gives the connection back to lwIP),
      [AdapterRegistry.v] and [AdapterLife.v] (no dangling pointer, no timer
      reaches the wrong flow), [AdapterAccept.v] (the application sees only
      connections under the configured controller), [AdapterWake.v] (a flow
      that waits has a pending event, against the interface [TimerService]).
    - _Host firewall_ ([src/host/firewall.c], [firewall_legacy.c],
      [firewall_nft.c], [nft_control.c]): [HostSys.v] (system calls, children,
      libnftables and the rules of a machine), [Firewall.v] (checks, both
      backends, rollback, removal), [FirewallSpec.v] and [FirewallLife.v] (the
      machine's rules are always those from before plus what the object
      records, and nothing is leaked), [FirewallHost.v] (a simulated
      host that carries the examples; the scripts and arguments read back as
      exactly the words meant; a working host removes all that is owned).
    - _TUN file and interface_ ([src/host/tun.c], [ifconfig.c],
      [ifconfig_ipv6.c]): [HostSetup.v] and [HostSetupSpec.v] (the steps are
      applied exactly, in order, up to the first failure; no descriptor stays).
    - _Service processes_ ([src/p2_main.c], [p2_ipv6_main.c], [p1_main.c],
      [p1_ipv6_main.c]): [ServiceMain.v] (arguments, start-up, serving loop,
      teardown; the parts of the data path are called through [ServiceParts]),
      [ServiceMainSpec.v] (start-up and teardown are a stack; the process ends),
      [ServiceTimers.v] (the timer services of the product: no wake-up is lost
      between the adapter and the loop).
    - _Pacing qualification_ ([src/lwip/cc_pacing_qualification.c]):
      [Qualification.v] (the window-paced controllers and the table of batch
      allowances of the experimental build: batches are bounded, slots are
      never freed).
    - _Probe listener and platform_ ([src/lwip/probe_listener.c],
      [src/platform.c]): [Probe.v] (ownership of connections and buffers; the
      32-bit clock).
    - _Launcher_ ([src/main.c]): [ServiceLaunch.v] (the settings that were
      loaded are those the service runs with).

    How they interact: lwIP hooks build the transport snapshot and the rate
    sample of an ACK and call the boundary, which publishes a window, a
    threshold and a pacing rate; the fallback supplies a rate when the
    controller has none; rate and quantum go to the flow pacer, which asks the
    scheduler for a wake-up when a segment must wait; RACK-TLP and PRR decide
    what is lost and how much recovery may send. The event loop waits for the
    TUN file and the scheduler's timers, drains the events that are due through
    release callbacks, and keeps the kernel's interest in the TUN file in step
    with the device's ring. The bridge is the loop's client: lwIP calls it with
    the bytes of a public connection, the loop when a backend socket is ready.
    A service process opens the TUN file, configures the interface, brings up
    these parts and last the firewall, and takes them down in reverse; the
    launcher reads the configuration and replaces itself with such a process.

    ** Conventions

    Machine integers are [Z] with every reduction written out ([u32], [u64],
    [+w32], [-w64], ...); one-byte flags that hold 0 or 1 are [bool]; structs are
    records with C-like update [r <| f := v |>]; a handler returns its code, the
    state it leaves (also on its error paths) and the published policy. A
    definition named after a source function takes the pointees of its
    arguments; NULL tests are modelled at the boundary ([null_guard], [ptr]).
    Helper definitions with short names are stretches of one source function.
    [errno] is kept by the host code ([HostSys.v]), which reports it, and not
    elsewhere. System calls and [realloc] are operations of the
    class [PacerOS]; [PacerOSLaws] states their documented behaviour, and
    [PacerSpec.SampleOS] is a model of it. The other classes of this kind are
    [LwipWrite] (lwIP's [tcp_write] and callbacks, for the memory accounting),
    [InetText] ([inet_pton] and [inet_ntop]), [TunOS] with [TunLaws] (the TUN
    file and lwIP's buffers), [LoopOS] and [LoopClients] with [InterestLaws] and
    [ReleaseLaws] (epoll, the clock and the code the loop calls), [BridgeOS]
    with [History] and [BridgeLaws] (sockets and lwIP connections), [AdapterOS]
    (clock, allocator and timer services of the adapter), [LwipParams],
    [LwipTcp] with [LwipTcpLaws] and [LwipApi] with [LwipApiLaws] (the lwIP and
    application code the adapter calls), [ProcessOS] with [ProcessLaws] (clock
    and allocator of the product), [HostSys] with [HostLaws] and [HealthyHost]
    (processes, the loader, the firewall tools), [NetSys] with [NetLaws] (TUN
    and interface requests), [ServiceParts] with [PartLaws] (the data path as
    the service processes see it), [ProbeTcp] with [ProbeLaws] and [PlatformOS]
    (lwIP and the system for the probe listener and the platform); each has a concrete instance at the end of
    a file that uses it, those of the adapter in [AdapterHooks.v] and of the
    host in [FirewallHost.v]. [TimerService] is an interface between two
    parts: [AdapterWake.v] is proved against it, [ServiceTimers.v] discharges it
    with the loop's two pacers.

    ** Fuel

    The cube root runs 32 rounds, one per halving of a 32-bit interval, and is
    proved to finish. [sift_up] gets [index + 1] rounds and [sift_down]
    [heap_len + 1], both proved to reach a heap. The rollback and compaction
    loops are bounded by [heap_len]. The device's flush and drain loops get one
    round more than the ring holds packets. A decimal number of 64 bits has at
    most 20 digits. The bridge's flush gets two rounds more than bytes wait, its
    [recv] loop one more than the bytes to take; they return [None] beyond, which
    [bridge_safe] excludes. The event loop's drain loops have no bound in the code: they
    return [None] when the fuel runs out, and [loop_cycle_returns] proves that
    4097 rounds, one more than a pacer holds, are enough. The adapter's registry
    loop gets two rounds, which [register_loop_total] proves enough; its RACK
    passes get one round per slot, and [rack_passes_sorted] proves that no slot
    is left. Waiting for a child and reading a tool's output get one round per
    interruption the machine still has in store ([sys_retries]) and, for
    reading, per byte of the 256-byte buffer. The services' loop has no bound:
    [serve] returns [None] when the fuel runs out, and [service_ends] proves
    that some fuel is enough when a turn eventually fails or a stop signal
    arrives. [random_loop] returns [None] while every draw is interrupted. All other loops are structural.

    ** Not modelled

    The adapter's optional qualification traces (compiled out by default) and
    the qualification build of [p2_main.c] are test harness; the build contract
    check ([src/config_contract.c]) is preprocessor tests and static
    assertions; messages and the final statistics of the services only print.
    lwIP itself is outside the repository.

    This file holds the shared prelude: word arithmetic, record update,
    division and saturation lemmas, and the development's tactics. *)

From Stdlib Require Import ZArith Lia Bool List.
From stdpp Require Import base tactics numbers list.
Local Open Scope Z_scope.

(** ** Fixed-width unsigned integers

    A [uint32_t] or [uint64_t] is a [Z]; C's modular arithmetic is written
    out with [u32]/[u64] at every operation whose result C reduces. *)

Abbreviation UINT8_MAX := 255 (only parsing).
Abbreviation UINT32_MAX := 4294967295.
Abbreviation UINT64_MAX := 18446744073709551615.
Abbreviation SIZE_MAX := 18446744073709551615 (only parsing).

Definition u8 (x : Z) : Z := x mod 256.
Definition u16 (x : Z) : Z := x mod 65536.
Definition u32 (x : Z) : Z := x mod 4294967296.
Definition u64 (x : Z) : Z := x mod 18446744073709551616.

(** The two's-complement reading of a 32-bit pattern, C's [(int32_t)x]. *)
Definition s32 (x : Z) : Z :=
  if u32 x <? 2147483648 then u32 x else u32 x - 4294967296.

Declare Scope word_scope.
Delimit Scope word_scope with word.
Notation "a +w32 b" := (u32 (a + b)) (at level 50, left associativity) : word_scope.
Notation "a -w32 b" := (u32 (a - b)) (at level 50, left associativity) : word_scope.
Notation "a *w32 b" := (u32 (a * b)) (at level 40, left associativity) : word_scope.
Notation "a +w64 b" := (u64 (a + b)) (at level 50, left associativity) : word_scope.
Notation "a -w64 b" := (u64 (a - b)) (at level 50, left associativity) : word_scope.
Notation "a *w64 b" := (u64 (a * b)) (at level 40, left associativity) : word_scope.
Notation "a <<w64 n" := (u64 (Z.shiftl a n)) (at level 40, left associativity) : word_scope.
#[global] Open Scope word_scope.

(** Range predicates. They are abbreviations, so [lia] sees through them. *)
Abbreviation in_u8 x := (0 <= x <= 255) (only parsing).
Abbreviation in_u32 x := (0 <= x <= 4294967295) (only parsing).
Abbreviation in_u64 x := (0 <= x <= 18446744073709551615) (only parsing).

Lemma u32_range x : in_u32 (u32 x).
Proof. unfold u32. pose proof (Z.mod_pos_bound x 4294967296). lia. Qed.

Lemma u64_range x : in_u64 (u64 x).
Proof. unfold u64. pose proof (Z.mod_pos_bound x 18446744073709551616). lia. Qed.

Lemma u32_small x : in_u32 x -> u32 x = x.
Proof. intros H. unfold u32. apply Z.mod_small. lia. Qed.

Lemma u64_small x : in_u64 x -> u64 x = x.
Proof. intros H. unfold u64. apply Z.mod_small. lia. Qed.

Lemma u8_small x : in_u8 x -> u8 x = x.
Proof. intros H. unfold u8. apply Z.mod_small. lia. Qed.

Lemma u16_small x : 0 <= x <= 65535 -> u16 x = x.
Proof. intros H. unfold u16. apply Z.mod_small. lia. Qed.

Create HintDb word.
#[export] Hint Resolve u32_range u64_range : word.

#[global] Arguments u8 : simpl never.
#[global] Arguments u16 : simpl never.
#[global] Arguments u32 : simpl never.
#[global] Arguments u64 : simpl never.
#[global] Arguments s32 : simpl never.

(** ** Tactics *)

(** Remove every [u32]/[u64] whose argument is provably in range. *)
Ltac unwrap1 :=
  match goal with
  | |- context [u64 ?x] => rewrite (u64_small x) by (lia || nia)
  | |- context [u32 ?x] => rewrite (u32_small x) by (lia || nia)
  | H : context [u64 ?x] |- _ => rewrite (u64_small x) in H by (lia || nia)
  | H : context [u32 ?x] |- _ => rewrite (u32_small x) in H by (lia || nia)
  end.
Ltac unwrap := repeat unwrap1.

(** Learn that every wrapped term in the context is in range. *)
Ltac word_facts :=
  repeat match goal with
  | |- context [u64 ?x] =>
      lazymatch goal with
      | _ : 0 <= u64 x <= _ |- _ => fail
      | _ => pose proof (u64_range x) end
  | |- context [u32 ?x] =>
      lazymatch goal with
      | _ : 0 <= u32 x <= _ |- _ => fail
      | _ => pose proof (u32_range x) end
  | _ : context [u64 ?x] |- _ =>
      lazymatch goal with
      | _ : 0 <= u64 x <= _ |- _ => fail
      | _ => pose proof (u64_range x) end
  | _ : context [u32 ?x] |- _ =>
      lazymatch goal with
      | _ : 0 <= u32 x <= _ |- _ => fail
      | _ => pose proof (u32_range x) end
  end.

(** Case analysis on every [if]/[match] of the goal, then linear arithmetic. *)
Ltac cases := repeat case_match.
Ltac by_cases := cases; simplify_eq/=; try done; try lia.

(** Split and rebuild a [Forall] over an explicit list of fields. *)
Ltac forall_inv H := repeat (apply Forall_cons in H as [? H]).
Ltac forall_solve :=
  cbn; repeat lazymatch goal with
  | |- Forall _ (_ :: _) => apply Forall_cons; split
  | |- Forall _ [] => apply Forall_nil_2
  end.

(** Arithmetic with the Euclidean equations of each division. *)
Ltac div_lia := Z.div_mod_to_equations; lia.
Ltac div_nia := Z.div_mod_to_equations; nia.

(** ** Record update

    [r <| f := v |>] is C's [r->f = v]: an [Eta] instance lists the fields
    of a record once, and the setter of a field replaces its projection in
    that list. *)
Class Eta (R : Type) := eta : R -> R.
Class Setter {R E : Type} (getter : R -> E) := set_field : E -> R -> R.

Ltac build_setter R E getter :=
  let inst := constr:(_ : Eta R) in
  let h := eval red in inst in
  lazymatch h with
  | fun r : R => @?body r =>
      let open_body := constr:(fun (v : E) (r : R) =>
        ltac:(let b := eval cbv beta in (body r) in
              let p := eval pattern (getter r) in b in
              lazymatch p with ?F _ =>
                let t := eval cbv beta in (F v) in exact t end)) in
      exact open_body
  end.

#[global] Hint Extern 1 (@Setter ?R ?E ?getter) =>
  build_setter R E getter : typeclass_instances.

Notation "r <| f := v |>" := (set_field (getter := f) v r)
  (at level 12, left associativity, f at level 0, v at level 99,
   format "r  <| f  :=  v |>").

(** Compare two updated records field by field. *)
Ltac struct_eq :=
  repeat match goal with
  | |- @eq ?T _ _ => lazymatch T with Z => fail | bool => fail | _ => progress f_equal end
  end.
Ltac rec_eq := unfold set_field; cbn; struct_eq.

(** ** Pointers

    Definitions named after a source function take the pointees of its
    pointer arguments. The NULL tests at the entry of a public function are
    the [null_guard] wrappers: with any pointer NULL the result is the error
    code and no object is written. *)
Definition ptr (A : Type) : Type := option A.
Abbreviation NULL := (@None _) (only parsing).

Definition is_null {A} (p : ptr A) : bool :=
  match p with None => true | Some _ => false end.

(** An entry point [int f(S *s, const A *a, const B *b, P *p)]. *)
Definition null_guard4 {S A B P : Type} (f : S -> A -> B -> P -> Z * S * P)
    (s : ptr S) (a : ptr A) (b : ptr B) (p : ptr P) : Z * ptr S * ptr P :=
  match s, a, b, p with
  | Some s', Some a', Some b', Some p' =>
      let '(rc, s'', p'') := f s' a' b' p' in (rc, Some s'', Some p'')
  | _, _, _, _ => (-1, s, p)
  end.

(** An entry point [int f(S *s, const A *a, P *p)]. *)
Definition null_guard3 {S A P : Type} (f : S -> A -> P -> Z * S * P)
    (s : ptr S) (a : ptr A) (p : ptr P) : Z * ptr S * ptr P :=
  match s, a, p with
  | Some s', Some a', Some p' =>
      let '(rc, s'', p'') := f s' a' p' in (rc, Some s'', Some p'')
  | _, _, _ => (-1, s, p)
  end.

(** An entry point [int f(S *s, const A *a)]. *)
Definition null_guard2 {S A : Type} (f : S -> A -> Z * S)
    (s : ptr S) (a : ptr A) : Z * ptr S :=
  match s, a with
  | Some s', Some a' => let '(rc, s'') := f s' a' in (rc, Some s'')
  | _, _ => (-1, s)
  end.

Lemma null_guard4_null {S A B P} (f : S -> A -> B -> P -> Z * S * P) s a b p :
  is_null s || is_null a || is_null b || is_null p = true ->
  null_guard4 f s a b p = (-1, s, p).
Proof. by destruct s, a, b, p. Qed.

(** ** Division and saturation *)

(** Ceiling division, the reference for the round-up helpers. *)
Definition cdiv (a b : Z) : Z := (a + b - 1) / b.

Lemma cdiv_alt a b :
  0 < b -> cdiv a b = a / b + (if a mod b =? 0 then 0 else 1).
Proof. intros Hb. unfold cdiv. case_match; div_nia. Qed.

Lemma cdiv_bounds a b : 0 < b -> a <= b * cdiv a b < a + b.
Proof. intros Hb. unfold cdiv. div_nia. Qed.

Lemma div_ltb_mul m a b : 0 < b -> 0 <= m -> (m / b <? a) = (m <? a * b).
Proof.
  intros Hb Hm. apply eq_true_iff_eq. rewrite !Z.ltb_lt.
  split; intros H; div_nia.
Qed.

(** Saturating addition, written either way round in the sources. *)
Lemma sat_add_u64_lt a b :
  in_u64 a -> in_u64 b ->
  (if (UINT64_MAX -w64 a) <? b then UINT64_MAX else a +w64 b)
  = Z.min UINT64_MAX (a + b).
Proof. intros Ha Hb. unwrap. case_match; unwrap; lia. Qed.

Lemma sat_add_u64_gt a b :
  in_u64 a -> in_u64 b ->
  (if b >? (UINT64_MAX -w64 a) then UINT64_MAX else a +w64 b)
  = Z.min UINT64_MAX (a + b).
Proof. intros Ha Hb. unwrap. case_match; unwrap; lia. Qed.

(** Saturating multiplication with the division overflow test. *)
Lemma sat_mul_u64 a b :
  in_u64 a -> in_u64 b ->
  (if (a =? 0) || (b =? 0) then 0
   else if a >? UINT64_MAX / b then UINT64_MAX else a *w64 b)
  = Z.min UINT64_MAX (a * b).
Proof.
  intros Ha Hb. case_match; [nia|].
  rewrite Z.gtb_ltb, div_ltb_mul by lia.
  case_match; [lia|]. rewrite u64_small by nia. lia.
Qed.

(** Splitting a rational scaling [v * n / d] at the quotient of [v]. *)
Lemma scale_split v n d :
  0 < d -> v * n / d = v / d * n + (v mod d) * n / d.
Proof.
  intros Hd. rewrite <- Z.div_add_l by lia. f_equal.
  rewrite (Z.div_mod v d) at 1 by lia. ring.
Qed.

Lemma scale_split_mod v n d :
  0 < d -> (v * n) mod d = ((v mod d) * n) mod d.
Proof. intros Hd. by rewrite Z.mul_mod_idemp_l by lia. Qed.

Lemma mod_mul_u64 v n d :
  0 < d <= 4294967296 -> 0 <= n <= 4294967295 -> in_u64 ((v mod d) * n).
Proof. intros Hd Hn. pose proof (Z.mod_pos_bound v d). nia. Qed.
