(* ===== verification/CC.v ===== *)
(** * The generic congestion-control boundary ([src/cc/cc.h], [src/cc/cc.c])

    The data that crosses the boundary, the vtable [tcp_shift_cc_ops], the
    handle [tcp_shift_cc] and its five dispatch functions. [SafeController]
    is the contract a controller owes to the transport; [cc_run_safe] is what
    any client of the boundary gets from it. *)

From Stdlib Require Import ZArith Lia Bool List String.
From stdpp Require Import base tactics numbers list.
From S2P Require Import Prelude.
Local Open Scope Z_scope.

(** ** Data *)

Record tcp_shift_cc_transport := mk_transport {
  tp_mss_bytes : Z;
  tp_inflight_bytes : Z;
  tp_send_window_bytes : Z;
  tp_cwnd_limit_bytes : Z
}.

Record tcp_shift_cc_init_cfg := mk_init {
  ini_initial_cwnd_bytes : Z;
  ini_initial_ssthresh_bytes : Z;
  ini_min_cwnd_bytes : Z
}.

Abbreviation TCP_SHIFT_CC_RATE_SAMPLE_VALID := 1.
Abbreviation TCP_SHIFT_CC_RATE_SAMPLE_APP_LIMITED := 2.
Abbreviation TCP_SHIFT_CC_RATE_SAMPLE_RETRANSMITTED := 4.
Abbreviation TCP_SHIFT_CC_RATE_SAMPLE_RTT_VALID := 8.

Record tcp_shift_cc_rate_sample := mk_rate_sample {
  rs_delivery_rate_bytes_per_sec : Z;
  rs_interval_ns : Z;
  rs_send_interval_ns : Z;
  rs_ack_interval_ns : Z;
  rs_rtt_ns : Z;
  rs_prior_delivered_bytes : Z;
  rs_delivered_total_bytes : Z;
  rs_delivered_bytes : Z;
  rs_prior_inflight_bytes : Z;
  rs_flags : Z
}.

(** [(sample->flags & bit) != 0U] *)
Definition has_flag (s : tcp_shift_cc_rate_sample) (bit : Z) : bool :=
  negb (Z.land (rs_flags s) bit =? 0).

Record tcp_shift_cc_ack := mk_ack {
  ack_acked_bytes : Z;
  ack_ack_time_ns : Z;
  ack_smoothed_rtt_ns : Z;
  ack_rate : tcp_shift_cc_rate_sample
}.
#[export] Instance eta_ack : Eta tcp_shift_cc_ack := fun r =>
  mk_ack (ack_acked_bytes r) (ack_ack_time_ns r) (ack_smoothed_rtt_ns r) (ack_rate r).

Record tcp_shift_cc_loss := mk_loss { loss_lost_bytes : Z }.

Record tcp_shift_cc_policy := mk_policy {
  pol_cwnd_bytes : Z;
  pol_ssthresh_bytes : Z;
  pol_pacing_rate_bytes_per_sec : Z
}.
#[export] Instance eta_policy : Eta tcp_shift_cc_policy := fun r =>
  mk_policy (pol_cwnd_bytes r) (pol_ssthresh_bytes r) (pol_pacing_rate_bytes_per_sec r).

(** The vtable. Its callbacks work on the pointees: the dispatch functions
    below have established that no pointer is NULL. A function pointer may
    itself be NULL. Each callback returns C's [int], the controller state it
    leaves behind and the policy object it leaves behind. *)
Record tcp_shift_cc_ops (S : Type) := mk_ops {
  ops_name : ptr string;
  ops_state_size : Z;
  ops_init : ptr (S -> tcp_shift_cc_transport -> tcp_shift_cc_init_cfg ->
                  tcp_shift_cc_policy -> Z * S * tcp_shift_cc_policy);
  ops_on_ack : ptr (S -> tcp_shift_cc_transport -> tcp_shift_cc_ack ->
                    tcp_shift_cc_policy -> Z * S * tcp_shift_cc_policy);
  ops_on_loss : ptr (S -> tcp_shift_cc_transport -> tcp_shift_cc_loss ->
                     tcp_shift_cc_policy -> Z * S * tcp_shift_cc_policy);
  ops_on_ecn : ptr (S -> tcp_shift_cc_transport ->
                    tcp_shift_cc_policy -> Z * S * tcp_shift_cc_policy);
  ops_on_timeout : ptr (S -> tcp_shift_cc_transport ->
                        tcp_shift_cc_policy -> Z * S * tcp_shift_cc_policy)
}.
Arguments mk_ops {S}. Arguments ops_name {S}. Arguments ops_state_size {S}.
Arguments ops_init {S}. Arguments ops_on_ack {S}. Arguments ops_on_loss {S}.
Arguments ops_on_ecn {S}. Arguments ops_on_timeout {S}.

(** The handle. [cc_state] is the caller-owned memory the handle points to;
    after a successful initialisation it is reached only through the handle. *)
Record tcp_shift_cc (S : Type) := mk_cc {
  cc_ops : ptr (tcp_shift_cc_ops S);
  cc_state : ptr S
}.
Arguments mk_cc {S}. Arguments cc_ops {S}. Arguments cc_state {S}.

(** ** Dispatch functions *)

Section Dispatch.
Context {S : Type}.
Implicit Types (cc : ptr (tcp_shift_cc S)) (policy : ptr tcp_shift_cc_policy)
  (transport : ptr tcp_shift_cc_transport).

Definition tcp_shift_cc_valid_transport transport : bool :=
  match transport with
  | None => false
  | Some t => negb (tp_mss_bytes t =? 0) && (tp_cwnd_limit_bytes t >=? tp_mss_bytes t)
  end.

Definition tcp_shift_cc_valid cc policy : bool :=
  match cc with
  | None => false
  | Some c => negb (is_null (cc_ops c)) && negb (is_null (cc_state c)) &&
              negb (is_null policy)
  end.

(** The vtable check of [tcp_shift_cc_init]. *)
Definition tcp_shift_cc_ops_usable (o : tcp_shift_cc_ops S) (state_size : Z) : bool :=
  negb (is_null (ops_name o)) && negb (ops_state_size o =? 0) &&
  negb (state_size <? ops_state_size o) &&
  negb (is_null (ops_init o)) && negb (is_null (ops_on_ack o)) &&
  negb (is_null (ops_on_loss o)) && negb (is_null (ops_on_timeout o)).

(** Result: the return code, [*cc], the caller's state memory and [*policy]. *)
Definition tcp_shift_cc_init cc (ops : ptr (tcp_shift_cc_ops S)) (state : ptr S)
    (state_size : Z) transport (init : ptr tcp_shift_cc_init_cfg) policy
    : Z * ptr (tcp_shift_cc S) * ptr S * ptr tcp_shift_cc_policy :=
  match cc with
  | None => (-1, NULL, state, policy)
  | Some _ =>
    let cleared := Some (mk_cc NULL NULL) in
    match ops, state, init, policy, transport with
    | Some o, Some s, Some i, Some p, Some t =>
      if negb (tcp_shift_cc_valid_transport transport)
         || negb (tcp_shift_cc_ops_usable o state_size)
      then (-1, cleared, state, policy)
      else
        match ops_init o with
        | None => (-1, cleared, state, policy)
        | Some init_fn =>
          let '(result, s', p') := init_fn s t i (mk_policy 0 0 0) in
          if negb (result =? 0) then (result, cleared, Some s', Some p')
          else (0, Some (mk_cc (Some o) (Some s')), Some s', Some p')
        end
    | _, _, _, _, _ => (-1, cleared, state, policy)
    end
  end.

(** [return cc->ops->CALLBACK(cc->state, ...)] once the guards have passed. *)
Definition cc_call (c : tcp_shift_cc S) (p : tcp_shift_cc_policy)
    (callback : tcp_shift_cc_ops S ->
                ptr (S -> tcp_shift_cc_policy -> Z * S * tcp_shift_cc_policy))
    : Z * ptr (tcp_shift_cc S) * ptr tcp_shift_cc_policy :=
  match cc_ops c, cc_state c with
  | Some o, Some s =>
      match callback o with
      | Some f => let '(rc, s', p') := f s p in
                  (rc, Some (mk_cc (Some o) (Some s')), Some p')
      | None => (-1, Some c, Some p)
      end
  | _, _ => (-1, Some c, Some p)
  end.

Definition tcp_shift_cc_on_ack cc transport (ack : ptr tcp_shift_cc_ack) policy
    : Z * ptr (tcp_shift_cc S) * ptr tcp_shift_cc_policy :=
  match cc, transport, ack, policy with
  | Some c, Some t, Some a, Some p =>
      if negb (tcp_shift_cc_valid cc policy)
         || negb (tcp_shift_cc_valid_transport transport)
         || (ack_acked_bytes a =? 0)
      then (-1, cc, policy)
      else cc_call c p (fun o => (fun f s => f s t a) <$> ops_on_ack o)
  | _, _, _, _ => (-1, cc, policy)
  end.

Definition tcp_shift_cc_on_loss cc transport (loss : ptr tcp_shift_cc_loss) policy
    : Z * ptr (tcp_shift_cc S) * ptr tcp_shift_cc_policy :=
  match cc, transport, loss, policy with
  | Some c, Some t, Some l, Some p =>
      if negb (tcp_shift_cc_valid cc policy)
         || negb (tcp_shift_cc_valid_transport transport)
         || (loss_lost_bytes l =? 0)
      then (-1, cc, policy)
      else cc_call c p (fun o => (fun f s => f s t l) <$> ops_on_loss o)
  | _, _, _, _ => (-1, cc, policy)
  end.

Definition tcp_shift_cc_on_ecn cc transport policy
    : Z * ptr (tcp_shift_cc S) * ptr tcp_shift_cc_policy :=
  match cc, transport, policy with
  | Some c, Some t, Some p =>
      if negb (tcp_shift_cc_valid cc policy)
         || negb (tcp_shift_cc_valid_transport transport)
      then (-1, cc, policy)
      else cc_call c p (fun o => (fun f s => f s t) <$> ops_on_ecn o)
  | _, _, _ => (-1, cc, policy)
  end.

Definition tcp_shift_cc_on_timeout cc transport policy
    : Z * ptr (tcp_shift_cc S) * ptr tcp_shift_cc_policy :=
  match cc, transport, policy with
  | Some c, Some t, Some p =>
      if negb (tcp_shift_cc_valid cc policy)
         || negb (tcp_shift_cc_valid_transport transport)
      then (-1, cc, policy)
      else cc_call c p (fun o => (fun f s => f s t) <$> ops_on_timeout o)
  | _, _, _ => (-1, cc, policy)
  end.

(** ** Sequences of events through one handle *)

Inductive cc_event :=
  | EvAck (t : tcp_shift_cc_transport) (a : tcp_shift_cc_ack)
  | EvLoss (t : tcp_shift_cc_transport) (l : tcp_shift_cc_loss)
  | EvEcn (t : tcp_shift_cc_transport)
  | EvTimeout (t : tcp_shift_cc_transport).

Definition ev_transport (e : cc_event) : tcp_shift_cc_transport :=
  match e with EvAck t _ | EvLoss t _ | EvEcn t | EvTimeout t => t end.

Definition cc_event_step (e : cc_event) cc policy :=
  match e with
  | EvAck t a => tcp_shift_cc_on_ack cc (Some t) (Some a) policy
  | EvLoss t l => tcp_shift_cc_on_loss cc (Some t) (Some l) policy
  | EvEcn t => tcp_shift_cc_on_ecn cc (Some t) policy
  | EvTimeout t => tcp_shift_cc_on_timeout cc (Some t) policy
  end.

(** The return code and policy the transport reads after each event. *)
Fixpoint cc_run (evs : list cc_event) cc policy
    : list (cc_event * Z * ptr tcp_shift_cc_policy) :=
  match evs with
  | [] => []
  | e :: evs' =>
      let '(rc, cc', policy') := cc_event_step e cc policy in
      (e, rc, policy') :: cc_run evs' cc' policy'
  end.

End Dispatch.

(** ** The contract between a controller and the transport *)

Definition transport_wf (t : tcp_shift_cc_transport) : Prop :=
  in_u32 (tp_mss_bytes t) /\ in_u32 (tp_inflight_bytes t) /\
  in_u32 (tp_send_window_bytes t) /\ in_u32 (tp_cwnd_limit_bytes t).

Definition init_wf (i : tcp_shift_cc_init_cfg) : Prop :=
  in_u32 (ini_initial_cwnd_bytes i) /\ in_u32 (ini_initial_ssthresh_bytes i) /\
  in_u32 (ini_min_cwnd_bytes i).

Definition rate_sample_wf (r : tcp_shift_cc_rate_sample) : Prop :=
  in_u64 (rs_delivery_rate_bytes_per_sec r) /\ in_u64 (rs_rtt_ns r) /\
  in_u64 (rs_prior_delivered_bytes r) /\ in_u64 (rs_delivered_total_bytes r) /\
  in_u32 (rs_delivered_bytes r) /\ in_u32 (rs_prior_inflight_bytes r) /\
  in_u32 (rs_flags r).

Definition ack_wf (a : tcp_shift_cc_ack) : Prop :=
  in_u32 (ack_acked_bytes a) /\ in_u64 (ack_ack_time_ns a) /\
  in_u64 (ack_smoothed_rtt_ns a) /\ rate_sample_wf (ack_rate a).

Definition loss_wf (l : tcp_shift_cc_loss) : Prop := in_u32 (loss_lost_bytes l).

(** The window a transport may act on: at least one segment, within what
    the transport can represent, with a nonzero slow-start threshold. *)
Definition policy_ok (t : tcp_shift_cc_transport) (p : tcp_shift_cc_policy) : Prop :=
  tp_mss_bytes t <= pol_cwnd_bytes p <= tp_cwnd_limit_bytes t /\
  0 < pol_ssthresh_bytes p <= tp_cwnd_limit_bytes t /\
  in_u64 (pol_pacing_rate_bytes_per_sec p).

(** A callback keeps the controller's invariant, also when it fails, and
    publishes an acceptable policy whenever it reports success. *)
Definition callback_safe {S} (inv : Z -> S -> Prop) (t : tcp_shift_cc_transport)
    (f : S -> tcp_shift_cc_policy -> Z * S * tcp_shift_cc_policy) : Prop :=
  forall s p rc s' p', inv (tp_cwnd_limit_bytes t) s -> f s p = (rc, s', p') ->
    inv (tp_cwnd_limit_bytes t) s' /\ (rc = 0 -> policy_ok t p').

Class SafeController {S : Type} (ops : tcp_shift_cc_ops S) := {
  sc_inv : Z -> S -> Prop;
  sc_init : forall f s t i p s' p', ops_init ops = Some f ->
    transport_wf t -> init_wf i -> tcp_shift_cc_valid_transport (Some t) = true ->
    f s t i p = (0, s', p') ->
    sc_inv (tp_cwnd_limit_bytes t) s' /\ policy_ok t p';
  sc_on_ack : forall f t a, ops_on_ack ops = Some f ->
    transport_wf t -> tcp_shift_cc_valid_transport (Some t) = true ->
    ack_wf a -> ack_acked_bytes a <> 0 ->
    callback_safe sc_inv t (fun s => f s t a);
  sc_on_loss : forall f t l, ops_on_loss ops = Some f ->
    transport_wf t -> tcp_shift_cc_valid_transport (Some t) = true ->
    loss_wf l -> loss_lost_bytes l <> 0 ->
    callback_safe sc_inv t (fun s => f s t l);
  sc_on_ecn : forall f t, ops_on_ecn ops = Some f ->
    transport_wf t -> tcp_shift_cc_valid_transport (Some t) = true ->
    callback_safe sc_inv t (fun s => f s t);
  sc_on_timeout : forall f t, ops_on_timeout ops = Some f ->
    transport_wf t -> tcp_shift_cc_valid_transport (Some t) = true ->
    callback_safe sc_inv t (fun s => f s t)
}.

(** Events as the adapter produces them: in range, with the transport's
    representable limit unchanged over the life of the connection. *)
Definition event_wf (limit : Z) (e : cc_event) : Prop :=
  transport_wf (ev_transport e) /\ tp_cwnd_limit_bytes (ev_transport e) = limit /\
  match e with EvAck _ a => ack_wf a | EvLoss _ l => loss_wf l | _ => True end.

Lemma valid_transport_iff t :
  tcp_shift_cc_valid_transport (Some t) = true <->
  tp_mss_bytes t <> 0 /\ tp_mss_bytes t <= tp_cwnd_limit_bytes t.
Proof. cbn. rewrite andb_true_iff, negb_true_iff, Z.eqb_neq. lia. Qed.

(** A transport the dispatch functions let through. *)
Definition transport_usable (t : tcp_shift_cc_transport) : Prop :=
  transport_wf t /\ 1 <= tp_mss_bytes t <= tp_cwnd_limit_bytes t.

Lemma transport_usable_intro t :
  transport_wf t -> tcp_shift_cc_valid_transport (Some t) = true -> transport_usable t.
Proof. intros Hwf Hv%valid_transport_iff. split; [done|]. destruct Hwf. lia. Qed.

Section Client.
Context {S : Type} (ops : tcp_shift_cc_ops S) {SC : SafeController ops}.

(** A handle whose state satisfies the controller's invariant. *)
Definition handle_ok (limit : Z) (cc : ptr (tcp_shift_cc S)) : Prop :=
  exists s, cc = Some (mk_cc (Some ops) (Some s)) /\ sc_inv limit s.

Lemma cc_call_safe t s p rc cc' p' callback :
  (forall f, callback ops = Some f -> callback_safe sc_inv t f) ->
  sc_inv (tp_cwnd_limit_bytes t) s ->
  cc_call (mk_cc (Some ops) (Some s)) p callback = (rc, cc', p') ->
  handle_ok (tp_cwnd_limit_bytes t) cc' /\
  exists q, p' = Some q /\ (rc = 0 -> policy_ok t q).
Proof.
  intros Hcb Hinv. unfold cc_call; cbn.
  destruct (callback ops) as [f|] eqn:Hf.
  - destruct (f s p) as [[rc0 s'] q] eqn:E. intros [= <- <- <-].
    destruct (Hcb f eq_refl s p rc0 s' q Hinv E) as [Hi Hp].
    split; [by eexists|]. by eexists.
  - intros [= <- <- <-]. split; [by eexists|]. eexists; split; [done|lia].
Qed.

(** One dispatched event keeps the handle usable and, when it succeeds,
    leaves an acceptable policy. *)
Lemma cc_event_step_safe limit e cc p rc cc' p' :
  handle_ok limit cc -> event_wf limit e ->
  cc_event_step e cc (Some p) = (rc, cc', p') ->
  handle_ok limit cc' /\
  exists q, p' = Some q /\ (rc = 0 -> policy_ok (ev_transport e) q).
Proof.
  intros (s & -> & Hinv) (Hwf & <- & Hev).
  assert (Hfail : forall x y, (-1, x, y) = (rc, cc', p') ->
      x = Some (mk_cc (Some ops) (Some s)) -> y = Some p ->
      handle_ok (tp_cwnd_limit_bytes (ev_transport e)) cc' /\
      exists q, p' = Some q /\ (rc = 0 -> policy_ok (ev_transport e) q)).
  { intros x y [= <- <- <-] -> ->. split; [by exists s|]. exists p; split; [done|lia]. }
  destruct e as [t a|t l|t|t]; cbn [ev_transport cc_event_step] in *;
    unfold tcp_shift_cc_on_ack, tcp_shift_cc_on_loss, tcp_shift_cc_on_ecn,
      tcp_shift_cc_on_timeout;
    (case_match eqn:G; [by intros; eapply Hfail|]);
    repeat (apply orb_false_iff in G as [G ?]);
    rewrite ?negb_false_iff, ?Z.eqb_neq in *;
    (eapply cc_call_safe; [|done]); intros f;
    rewrite fmap_Some; intros (g & Hg & ->);
    eauto using sc_on_ack, sc_on_loss, sc_on_ecn, sc_on_timeout.
Qed.

Lemma cc_run_handle_safe limit evs : forall cc p,
  handle_ok limit cc -> Forall (event_wf limit) evs ->
  Forall (fun '(e, rc, q) => rc = 0 ->
            exists q', q = Some q' /\ policy_ok (ev_transport e) q')
    (cc_run evs cc (Some p)).
Proof.
  induction evs as [|e evs IH]; intros cc p Hh Hev; [constructor|].
  apply Forall_cons in Hev as [He Hevs]. cbn.
  destruct (cc_event_step e cc (Some p)) as [[rc cc'] p'] eqn:E.
  destruct (cc_event_step_safe limit e cc p rc cc' p' Hh He E) as (Hh' & q & -> & Hq).
  constructor; eauto.
Qed.

Lemma cc_init_ok cc s size t i p cc' st' p' :
  transport_wf t -> init_wf i ->
  tcp_shift_cc_init (Some cc) (Some ops) (Some s) size (Some t) (Some i) (Some p)
    = (0, cc', st', p') ->
  handle_ok (tp_cwnd_limit_bytes t) cc' /\ exists q, p' = Some q /\ policy_ok t q.
Proof.
  intros Ht Hi. unfold tcp_shift_cc_init.
  destruct (tcp_shift_cc_valid_transport (Some t)) eqn:Hv; [|done]. cbn [negb orb].
  destruct (tcp_shift_cc_ops_usable ops size); cbn [negb]; [|done].
  destruct (ops_init ops) as [f|] eqn:Hf; [|done].
  destruct (f s t i (mk_policy 0 0 0)) as [[rc s'] q] eqn:E.
  destruct (rc =? 0) eqn:Hrc; cbn; intros [=]; subst; [|lia].
  apply Z.eqb_eq in Hrc as ->.
  edestruct sc_init as [? ?]; eauto. split; [by eexists|by eexists].
Qed.

End Client.

(** ** Properties *)

(** A failed [tcp_shift_cc_init] never leaves a callable controller: for
    whatever reason it fails, every event later sent through the handle is
    rejected with -1 and writes neither the handle nor the policy. *)
Theorem cc_init_failure_uncallable {S : Type} cc (ops : ptr (tcp_shift_cc_ops S))
    state size transport init policy rc cc' state' policy' :
  tcp_shift_cc_init cc ops state size transport init policy
    = (rc, cc', state', policy') ->
  rc <> 0 ->
  forall e q, cc_event_step e cc' q = (-1, cc', q).
Proof.
  intros H Hrc e q.
  assert (cc' = NULL \/ cc' = Some (mk_cc NULL NULL)) as [-> | ->].
  { revert H. unfold tcp_shift_cc_init. cases; naive_solver lia. }
  - by destruct e.
  - by destruct e, q.
Qed.

(** A vtable without callbacks is refused, and the handle stays unusable. *)
Lemma cc_init_failure_uncallable_witness :
  cc_event_step (S := unit) (EvTimeout (mk_transport 1460 0 65535 65535))
    (Some (mk_cc NULL NULL)) (Some (mk_policy 1 1 0))
  = (-1, Some (mk_cc NULL NULL), Some (mk_policy 1 1 0)).
Proof.
  apply (cc_init_failure_uncallable
    (Some (mk_cc NULL NULL)) (Some (mk_ops (Some "none"%string) 1 NULL NULL NULL NULL NULL))
    (Some tt) 1 (Some (mk_transport 1460 0 65535 65535)) (Some (mk_init 1460 65535 1460))
    (Some (mk_policy 0 0 0)) (-1) (Some (mk_cc NULL NULL)) (Some tt) (Some (mk_policy 0 0 0))).
  - reflexivity.
  - lia.
Defined.

