(* ===== verification/Observation.v ===== *)
(** * Smoothed RTT estimator ([src/cc/observation.c]) *)

From Stdlib Require Import ZArith Lia Bool List.
From stdpp Require Import base tactics numbers list.
From S2P Require Import Prelude.
Local Open Scope Z_scope.

Record tcp_shift_cc_srtt := mk_srtt {
  smoothed_rtt_ns : Z;
  samples : Z
}.
#[export] Instance eta_srtt : Eta tcp_shift_cc_srtt := fun r =>
  mk_srtt (smoothed_rtt_ns r) (samples r).

Definition tcp_shift_cc_srtt_init : tcp_shift_cc_srtt := mk_srtt 0 0.

(** The estimate after one sample, the three branches of the update. *)
Definition srtt_next (srtt : tcp_shift_cc_srtt) (sample_rtt_ns : Z) : Z :=
  if samples srtt =? 0 then sample_rtt_ns
  else if sample_rtt_ns >=? smoothed_rtt_ns srtt then
    let delta := sample_rtt_ns -w64 smoothed_rtt_ns srtt in
    smoothed_rtt_ns srtt +w64 delta / 8
  else
    let delta := smoothed_rtt_ns srtt -w64 sample_rtt_ns in
    let adjustment := delta / 8 in
    let adjustment := if negb (delta mod 8 =? 0) then adjustment +w64 1 else adjustment in
    smoothed_rtt_ns srtt -w64 adjustment.

Definition tcp_shift_cc_srtt_update (srtt : ptr tcp_shift_cc_srtt) (sample_rtt_ns : Z)
    : Z * ptr tcp_shift_cc_srtt :=
  match srtt with
  | None => (-1, srtt)
  | Some s =>
      if sample_rtt_ns =? 0 then (-1, srtt)
      else
        let s := s <| smoothed_rtt_ns := srtt_next s sample_rtt_ns |> in
        let s := if negb (samples s =? UINT64_MAX)
                 then s <| samples := samples s +w64 1 |> else s in
        (0, Some s)
  end.

(** ** Correctness *)

Definition srtt_wf (s : tcp_shift_cc_srtt) : Prop :=
  in_u64 (smoothed_rtt_ns s) /\ in_u64 (samples s).

(** Both rounding branches are the floor of RFC 6298's weighted mean with
    alpha = 1/8, computed without the product overflowing. *)
Lemma srtt_next_spec s x :
  srtt_wf s -> in_u64 x -> samples s <> 0 ->
  srtt_next s x = (7 * smoothed_rtt_ns s + x) / 8.
Proof.
  intros [Hs _] Hx Hn. unfold srtt_next. rewrite (proj2 (Z.eqb_neq _ _)) by done.
  case_match.
  - rewrite (u64_small (x - _)) by lia. rewrite u64_small by div_lia. div_lia.
  - rewrite (u64_small (smoothed_rtt_ns s - x)) by lia.
    case_match; [rewrite (u64_small (_ + 1)) by div_lia|];
      rewrite u64_small by div_lia; div_lia.
Qed.

(** [tcp_shift_cc_srtt_update] is RFC 6298 smoothing: the first sample is
    taken as is; afterwards the estimate is exactly floor((7*srtt + sample)/8),
    so it always lies between the old estimate and the new sample, never
    overflows, and the sample counter saturates instead of restarting the
    estimator. *)
Theorem srtt_update_rfc6298 s x :
  srtt_wf s -> in_u64 x -> x <> 0 ->
  exists s', tcp_shift_cc_srtt_update (Some s) x = (0, Some s') /\ srtt_wf s' /\
    smoothed_rtt_ns s' =
      (if samples s =? 0 then x else (7 * smoothed_rtt_ns s + x) / 8) /\
    (samples s <> 0 ->
     Z.min (smoothed_rtt_ns s) x <= smoothed_rtt_ns s' <= Z.max (smoothed_rtt_ns s) x) /\
    samples s' = Z.min UINT64_MAX (samples s + 1).
Proof.
  intros [Hs Hn] Hx Hx0. unfold tcp_shift_cc_srtt_update.
  rewrite (proj2 (Z.eqb_neq _ _) Hx0).
  assert (Hv : srtt_next s x =
    if samples s =? 0 then x else (7 * smoothed_rtt_ns s + x) / 8).
  { case_match; [unfold srtt_next; by case_match|].
    apply srtt_next_spec; [done|done|lia]. }
  cbn. rewrite Hv.
  eexists; split; [reflexivity|].
  assert (in_u64 (if samples s =? 0 then x else (7 * smoothed_rtt_ns s + x) / 8))
    by (case_match; div_lia).
  destruct (samples s =? UINT64_MAX) eqn:E; cbn; unfold srtt_wf; cbn;
    [|rewrite u64_small by lia]; repeat split; try lia;
    try (intros; case_match; div_lia).
Qed.

Lemma srtt_update_rfc6298_witness :
  exists s', tcp_shift_cc_srtt_update (Some (mk_srtt 1000 5)) 200 = (0, Some s') /\
    smoothed_rtt_ns s' = 900.
Proof.
  destruct (srtt_update_rfc6298 (mk_srtt 1000 5) 200) as (s' & H & _ & Hv & _).
  - split; cbn; lia.
  - lia.
  - lia.
  - exists s'. split; [exact H|]. rewrite Hv. reflexivity.
Defined.
