(* ===== verification/Reno.v ===== *)
(** * Reno and fixed-pacing Reno ([src/cc/reno.h], [src/cc/reno.c])

    Byte-counting Reno in saturating 32-bit arithmetic, the deterministic
    fixed-rate variant, and their proofs: the machine operations are RFC 5681
    on unbounded integers, both controllers meet [SafeController]. *)

From Stdlib Require Import ZArith Lia Bool List String.
From stdpp Require Import base tactics numbers list.
From S2P Require Import Prelude CC.
Local Open Scope Z_scope.

Record tcp_shift_reno_state := mk_reno {
  reno_cwnd_bytes : Z;
  reno_ssthresh_bytes : Z;
  reno_ca_acked_bytes : Z;
  reno_min_cwnd_bytes : Z
}.
#[export] Instance eta_reno : Eta tcp_shift_reno_state := fun r =>
  mk_reno (reno_cwnd_bytes r) (reno_ssthresh_bytes r) (reno_ca_acked_bytes r)
    (reno_min_cwnd_bytes r).

Abbreviation TCP_SHIFT_FIXED_PACING_RENO_RATE_BYTES_PER_SEC := 65536.

(** ** Helpers *)

Definition tcp_shift_reno_add_sat (value increment : Z) : Z :=
  if increment >? UINT32_MAX -w32 value then UINT32_MAX else value +w32 increment.

Definition tcp_shift_reno_min (left right : Z) : Z := if left <? right then left else right.

Definition tcp_shift_reno_max (left right : Z) : Z := if left >? right then left else right.

Definition tcp_shift_reno_add_cap (value increment limit : Z) : Z :=
  tcp_shift_reno_min (tcp_shift_reno_add_sat value increment) limit.

Definition tcp_shift_reno_mul2_cap (value limit : Z) : Z :=
  if value >? limit / 2 then limit else value *w32 2.

Definition tcp_shift_reno_effective_min (state : tcp_shift_reno_state)
    (transport : tcp_shift_cc_transport) : Z :=
  let effective := tcp_shift_reno_max (reno_min_cwnd_bytes state) (tp_mss_bytes transport) in
  tcp_shift_reno_min effective (tp_cwnd_limit_bytes transport).

Definition tcp_shift_reno_publish (state : tcp_shift_reno_state) : tcp_shift_cc_policy :=
  mk_policy (reno_cwnd_bytes state) (reno_ssthresh_bytes state) 0.

Definition tcp_shift_reno_reduce_ssthresh (state : tcp_shift_reno_state)
    (transport : tcp_shift_cc_transport) : tcp_shift_reno_state :=
  let effective_window := reno_cwnd_bytes state in
  let floor := tcp_shift_reno_mul2_cap (tp_mss_bytes transport)
                 (tp_cwnd_limit_bytes transport) in
  let effective_window :=
    if tp_send_window_bytes transport <? effective_window
    then tp_send_window_bytes transport else effective_window in
  let reduced := effective_window / 2 in
  state <| reno_ssthresh_bytes :=
    tcp_shift_reno_min (tcp_shift_reno_max reduced floor) (tp_cwnd_limit_bytes transport) |>.

(** ** Callbacks *)

Definition tcp_shift_reno_init (state : tcp_shift_reno_state)
    (transport : tcp_shift_cc_transport) (init : tcp_shift_cc_init_cfg)
    (policy : tcp_shift_cc_policy) : Z * tcp_shift_reno_state * tcp_shift_cc_policy :=
  let mss := tp_mss_bytes transport in
  let limit := tp_cwnd_limit_bytes transport in
  let ssthresh_floor := tcp_shift_reno_mul2_cap mss limit in
  if (ini_initial_cwnd_bytes init <? mss) ||
     (ini_min_cwnd_bytes init <? mss) ||
     (ini_initial_cwnd_bytes init <? ini_min_cwnd_bytes init) ||
     (ini_initial_ssthresh_bytes init <? ssthresh_floor) ||
     (ini_initial_cwnd_bytes init >? limit) ||
     (ini_initial_ssthresh_bytes init >? limit) ||
     (ini_min_cwnd_bytes init >? limit)
  then (-1, state, policy)
  else
    let state := mk_reno (ini_initial_cwnd_bytes init) (ini_initial_ssthresh_bytes init)
                   0 (ini_min_cwnd_bytes init) in
    (0, state, tcp_shift_reno_publish state).

(** Growth of an ACK, after the window has been raised to its minimum. *)
Definition reno_ack_growth (state : tcp_shift_reno_state)
    (transport : tcp_shift_cc_transport) (acked_bytes : Z) : tcp_shift_reno_state :=
  if reno_cwnd_bytes state <? reno_ssthresh_bytes state then
    let slow_start_limit := tcp_shift_reno_mul2_cap (tp_mss_bytes transport)
                              (tp_cwnd_limit_bytes transport) in
    let increase := acked_bytes in
    let increase := if increase >? slow_start_limit then slow_start_limit else increase in
    state <| reno_cwnd_bytes :=
      tcp_shift_reno_add_cap (reno_cwnd_bytes state) increase
        (tp_cwnd_limit_bytes transport) |>
  else
    let state := state <| reno_ca_acked_bytes :=
      tcp_shift_reno_add_sat (reno_ca_acked_bytes state) acked_bytes |> in
    if reno_ca_acked_bytes state >=? reno_cwnd_bytes state then
      let state := state <| reno_ca_acked_bytes :=
        reno_ca_acked_bytes state -w32 reno_cwnd_bytes state |> in
      state <| reno_cwnd_bytes :=
        tcp_shift_reno_add_cap (reno_cwnd_bytes state) (tp_mss_bytes transport)
          (tp_cwnd_limit_bytes transport) |>
    else state.

Definition tcp_shift_reno_on_ack (state : tcp_shift_reno_state)
    (transport : tcp_shift_cc_transport) (ack : tcp_shift_cc_ack)
    (policy : tcp_shift_cc_policy) : Z * tcp_shift_reno_state * tcp_shift_cc_policy :=
  let effective_min := tcp_shift_reno_effective_min state transport in
  let state := if reno_cwnd_bytes state <? effective_min
               then state <| reno_cwnd_bytes := effective_min |> else state in
  let state := reno_ack_growth state transport (ack_acked_bytes ack) in
  (0, state, tcp_shift_reno_publish state).

Definition tcp_shift_reno_on_loss (state : tcp_shift_reno_state)
    (transport : tcp_shift_cc_transport) (loss : tcp_shift_cc_loss)
    (policy : tcp_shift_cc_policy) : Z * tcp_shift_reno_state * tcp_shift_cc_policy :=
  let state := tcp_shift_reno_reduce_ssthresh state transport in
  let effective_min := tcp_shift_reno_effective_min state transport in
  let state := state <| reno_cwnd_bytes :=
    tcp_shift_reno_min (tcp_shift_reno_max (reno_ssthresh_bytes state) effective_min)
      (tp_cwnd_limit_bytes transport) |> in
  let state := state <| reno_ca_acked_bytes := 0 |> in
  (0, state, tcp_shift_reno_publish state).

Definition tcp_shift_reno_on_ecn (state : tcp_shift_reno_state)
    (transport : tcp_shift_cc_transport) (policy : tcp_shift_cc_policy)
    : Z * tcp_shift_reno_state * tcp_shift_cc_policy :=
  let congestion := mk_loss 1 in
  tcp_shift_reno_on_loss state transport congestion policy.

Definition tcp_shift_reno_on_timeout (state : tcp_shift_reno_state)
    (transport : tcp_shift_cc_transport) (policy : tcp_shift_cc_policy)
    : Z * tcp_shift_reno_state * tcp_shift_cc_policy :=
  let state := tcp_shift_reno_reduce_ssthresh state transport in
  let state := state <| reno_cwnd_bytes := tcp_shift_reno_effective_min state transport |> in
  let state := state <| reno_ca_acked_bytes := 0 |> in
  (0, state, tcp_shift_reno_publish state).

(** ** Fixed-pacing variant *)

Definition tcp_shift_fixed_pacing_publish
    (r : Z * tcp_shift_reno_state * tcp_shift_cc_policy)
    : Z * tcp_shift_reno_state * tcp_shift_cc_policy :=
  let '(result, state, policy) := r in
  if negb (result =? 0) then (result, state, policy)
  else (0, state, policy <| pol_pacing_rate_bytes_per_sec :=
                    TCP_SHIFT_FIXED_PACING_RENO_RATE_BYTES_PER_SEC |>).

Definition tcp_shift_fixed_pacing_reno_init state transport init policy :=
  tcp_shift_fixed_pacing_publish (tcp_shift_reno_init state transport init policy).

Definition tcp_shift_fixed_pacing_reno_on_ack state transport ack policy :=
  tcp_shift_fixed_pacing_publish (tcp_shift_reno_on_ack state transport ack policy).

Definition tcp_shift_fixed_pacing_reno_on_loss state transport loss policy :=
  tcp_shift_fixed_pacing_publish (tcp_shift_reno_on_loss state transport loss policy).

Definition tcp_shift_fixed_pacing_reno_on_ecn state transport policy :=
  tcp_shift_fixed_pacing_publish (tcp_shift_reno_on_ecn state transport policy).

Definition tcp_shift_fixed_pacing_reno_on_timeout state transport policy :=
  tcp_shift_fixed_pacing_publish (tcp_shift_reno_on_timeout state transport policy).

Definition tcp_shift_reno_ops : tcp_shift_cc_ops tcp_shift_reno_state := {|
  ops_name := Some "reno"%string;
  ops_state_size := 16;
  ops_init := Some tcp_shift_reno_init;
  ops_on_ack := Some tcp_shift_reno_on_ack;
  ops_on_loss := Some tcp_shift_reno_on_loss;
  ops_on_ecn := Some tcp_shift_reno_on_ecn;
  ops_on_timeout := Some tcp_shift_reno_on_timeout
|}.

Definition tcp_shift_fixed_pacing_reno_ops : tcp_shift_cc_ops tcp_shift_reno_state := {|
  ops_name := Some "fixed-pacing-reno"%string;
  ops_state_size := 16;
  ops_init := Some tcp_shift_fixed_pacing_reno_init;
  ops_on_ack := Some tcp_shift_fixed_pacing_reno_on_ack;
  ops_on_loss := Some tcp_shift_fixed_pacing_reno_on_loss;
  ops_on_ecn := Some tcp_shift_fixed_pacing_reno_on_ecn;
  ops_on_timeout := Some tcp_shift_fixed_pacing_reno_on_timeout
|}.

(** ** The machine helpers on unbounded integers *)

Lemma reno_min_spec a b : tcp_shift_reno_min a b = Z.min a b.
Proof. unfold tcp_shift_reno_min. case_match; lia. Qed.

Lemma reno_max_spec a b : tcp_shift_reno_max a b = Z.max a b.
Proof. unfold tcp_shift_reno_max. case_match; lia. Qed.

Lemma reno_add_sat_spec v i :
  in_u32 v -> in_u32 i -> tcp_shift_reno_add_sat v i = Z.min UINT32_MAX (v + i).
Proof. intros. unfold tcp_shift_reno_add_sat. unwrap. case_match; unwrap; lia. Qed.

Lemma reno_add_cap_spec v i limit :
  in_u32 v -> in_u32 i -> in_u32 limit ->
  tcp_shift_reno_add_cap v i limit = Z.min limit (v + i).
Proof.
  intros. unfold tcp_shift_reno_add_cap. rewrite reno_min_spec, reno_add_sat_spec; lia.
Qed.

Lemma reno_mul2_cap_spec v limit :
  in_u32 v -> in_u32 limit -> tcp_shift_reno_mul2_cap v limit = Z.min limit (2 * v).
Proof.
  intros. unfold tcp_shift_reno_mul2_cap. case_match; [div_lia|].
  rewrite u32_small; div_lia.
Qed.

Create Rewrite HintDb reno.
#[export] Hint Rewrite reno_min_spec reno_max_spec : reno.

(** ** The reference: RFC 5681 with byte counting *)

(** Window and acknowledged-byte counter after an ACK of [acked] bytes. *)
Definition rfc5681_ack (mss limit acked : Z) (w ssthresh ca : Z) : Z * Z :=
  if w <? ssthresh then (Z.min limit (w + Z.min acked (2 * mss)), ca)
  else
    let ca := Z.min UINT32_MAX (ca + acked) in
    if w <=? ca then (Z.min limit (w + mss), ca - w) else (w, ca).

(** Threshold after a congestion event. *)
Definition rfc5681_ssthresh (mss limit swnd w : Z) : Z :=
  Z.min limit (Z.max (Z.min w swnd / 2) (2 * mss)).

(** ** Invariant *)

Definition reno_inv (limit : Z) (s : tcp_shift_reno_state) : Prop :=
  in_u32 limit /\ 1 <= reno_cwnd_bytes s <= limit /\ 1 <= reno_ssthresh_bytes s <= limit /\
  in_u32 (reno_ca_acked_bytes s) /\ 1 <= reno_min_cwnd_bytes s <= limit.

Definition reno_floor (s : tcp_shift_reno_state) (t : tcp_shift_cc_transport) : Z :=
  Z.max (reno_min_cwnd_bytes s) (tp_mss_bytes t).

Lemma reno_effective_min_spec s t :
  reno_inv (tp_cwnd_limit_bytes t) s -> transport_usable t ->
  tcp_shift_reno_effective_min s t = reno_floor s t.
Proof.
  intros Hi [_ Ht]. unfold tcp_shift_reno_effective_min, reno_floor, reno_inv in *.
  autorewrite with reno. lia.
Qed.

Lemma reno_reduce_spec s t :
  reno_inv (tp_cwnd_limit_bytes t) s -> transport_usable t ->
  tcp_shift_reno_reduce_ssthresh s t =
  s <| reno_ssthresh_bytes :=
    rfc5681_ssthresh (tp_mss_bytes t) (tp_cwnd_limit_bytes t) (tp_send_window_bytes t)
      (reno_cwnd_bytes s) |>.
Proof.
  intros (? & _) [(? & _ & ? & ?) ?].
  unfold tcp_shift_reno_reduce_ssthresh, rfc5681_ssthresh.
  rewrite reno_mul2_cap_spec by lia. autorewrite with reno.
  replace (if tp_send_window_bytes t <? _ then _ else _)
    with (Z.min (reno_cwnd_bytes s) (tp_send_window_bytes t)) by (case_match; lia).
  f_equal. lia.
Qed.

Lemma rfc5681_ssthresh_range mss limit swnd w :
  1 <= mss <= limit -> 0 <= swnd -> 0 <= w -> 1 <= rfc5681_ssthresh mss limit swnd w <= limit.
Proof. intros. unfold rfc5681_ssthresh. div_lia. Qed.

(** The clamp of the slow-start increase is absorbed by the window limit. *)
Lemma reno_slow_start_cap lim acked w m :
  1 <= w <= lim -> 0 <= acked ->
  Z.min lim (w + (if acked >? Z.min lim m then Z.min lim m else acked))
  = Z.min lim (w + Z.min acked m).
Proof. intros. case_match; lia. Qed.

Lemma reno_on_ack_spec s t a p :
  reno_inv (tp_cwnd_limit_bytes t) s -> transport_usable t -> in_u32 (ack_acked_bytes a) ->
  let '(w, ca) := rfc5681_ack (tp_mss_bytes t) (tp_cwnd_limit_bytes t) (ack_acked_bytes a)
                    (Z.max (reno_cwnd_bytes s) (reno_floor s t))
                    (reno_ssthresh_bytes s) (reno_ca_acked_bytes s) in
  tcp_shift_reno_on_ack s t a p =
    (0, mk_reno w (reno_ssthresh_bytes s) ca (reno_min_cwnd_bytes s),
     mk_policy w (reno_ssthresh_bytes s) 0).
Proof.
  intros Hi Ht Ha. unfold tcp_shift_reno_on_ack.
  rewrite reno_effective_min_spec by done.
  pose proof Hi as (Hlim & Hc & Hs & Hca & Hm). pose proof Ht as [(Hmss & _ & _ & _) Hml].
  set (w0 := Z.max _ _).
  assert (Hw0 : 1 <= w0 <= tp_cwnd_limit_bytes t) by (unfold w0, reno_floor; lia).
  replace (if reno_cwnd_bytes s <? _ then _ else _) with (s <| reno_cwnd_bytes := w0 |>).
  2: { unfold w0. destruct s; cbn in *. unfold reno_floor; cbn. case_match; rec_eq; lia. }
  unfold reno_ack_growth, rfc5681_ack, tcp_shift_reno_publish; cbn.
  rewrite reno_mul2_cap_spec, reno_add_sat_spec by lia.
  destruct (w0 <? reno_ssthresh_bytes s); cbn.
  - rewrite reno_add_cap_spec by (cases; lia).
    by rewrite reno_slow_start_cap by lia.
  - rewrite Z.geb_leb. destruct (w0 <=? _) eqn:E; cbn; [|done].
    rewrite reno_add_cap_spec by lia. rewrite u32_small by lia. done.
Qed.

Lemma reno_on_loss_spec s t l p :
  reno_inv (tp_cwnd_limit_bytes t) s -> transport_usable t ->
  let ssthresh := rfc5681_ssthresh (tp_mss_bytes t) (tp_cwnd_limit_bytes t)
                    (tp_send_window_bytes t) (reno_cwnd_bytes s) in
  let w := Z.max ssthresh (reno_floor s t) in
  tcp_shift_reno_on_loss s t l p =
    (0, mk_reno w ssthresh 0 (reno_min_cwnd_bytes s), mk_policy w ssthresh 0).
Proof.
  intros Hi Ht. unfold tcp_shift_reno_on_loss. rewrite reno_reduce_spec by done.
  pose proof Hi as (? & ? & ? & ? & ?). pose proof Ht as [(? & ? & ? & ?) ?].
  pose proof (rfc5681_ssthresh_range (tp_mss_bytes t) (tp_cwnd_limit_bytes t)
    (tp_send_window_bytes t) (reno_cwnd_bytes s)).
  unfold tcp_shift_reno_effective_min, tcp_shift_reno_publish, reno_floor; cbn.
  autorewrite with reno. rec_eq; lia.
Qed.

Lemma reno_on_timeout_spec s t p :
  reno_inv (tp_cwnd_limit_bytes t) s -> transport_usable t ->
  let ssthresh := rfc5681_ssthresh (tp_mss_bytes t) (tp_cwnd_limit_bytes t)
                    (tp_send_window_bytes t) (reno_cwnd_bytes s) in
  tcp_shift_reno_on_timeout s t p =
    (0, mk_reno (reno_floor s t) ssthresh 0 (reno_min_cwnd_bytes s),
     mk_policy (reno_floor s t) ssthresh 0).
Proof.
  intros Hi Ht. unfold tcp_shift_reno_on_timeout. rewrite reno_reduce_spec by done.
  pose proof Hi as (? & ? & ? & ? & ?). pose proof Ht as [(? & ? & ? & ?) ?].
  unfold tcp_shift_reno_effective_min, tcp_shift_reno_publish, reno_floor; cbn.
  autorewrite with reno. rec_eq; lia.
Qed.

(** ** Reno keeps the controller contract *)

Lemma rfc5681_ack_range mss limit acked w ssthresh ca :
  1 <= mss <= limit -> in_u32 limit -> in_u32 acked -> 1 <= w <= limit -> in_u32 ca ->
  let '(w', ca') := rfc5681_ack mss limit acked w ssthresh ca in
  w <= w' <= limit /\ in_u32 ca'.
Proof. intros. unfold rfc5681_ack. by_cases. Qed.

Lemma reno_init_safe s t i p s' p' :
  transport_usable t -> init_wf i -> tcp_shift_reno_init s t i p = (0, s', p') ->
  reno_inv (tp_cwnd_limit_bytes t) s' /\ policy_ok t p'.
Proof.
  intros [(? & ? & ? & ?) ?] (? & ? & ?). unfold tcp_shift_reno_init.
  rewrite reno_mul2_cap_spec by lia. case_match eqn:G; [done|].
  intros [= <- <-]. unfold reno_inv, policy_ok; cbn. lia.
Qed.

Lemma reno_on_ack_safe t a :
  transport_usable t -> ack_wf a ->
  callback_safe reno_inv t (fun s => tcp_shift_reno_on_ack s t a).
Proof.
  intros Ht (Ha & _) s p rc s' p' Hi. cbn.
  pose proof (reno_on_ack_spec s t a p Hi Ht Ha) as Hspec.
  pose proof Hi as (? & ? & ? & ? & ?). pose proof Ht as [(? & ? & ? & ?) ?].
  pose proof (rfc5681_ack_range (tp_mss_bytes t) (tp_cwnd_limit_bytes t)
    (ack_acked_bytes a) (Z.max (reno_cwnd_bytes s) (reno_floor s t))
    (reno_ssthresh_bytes s) (reno_ca_acked_bytes s)) as Hr.
  unfold reno_floor in *.
  destruct (rfc5681_ack _ _ _ _ _ _) as [w ca]. rewrite Hspec. intros [= <- <- <-].
  unfold reno_inv, policy_ok; cbn. lia.
Qed.

Lemma reno_on_loss_safe t l :
  transport_usable t -> callback_safe reno_inv t (fun s => tcp_shift_reno_on_loss s t l).
Proof.
  intros Ht s p rc s' p' Hi. cbn. rewrite reno_on_loss_spec by done. intros [= <- <- <-].
  pose proof Hi as (? & ? & ? & ? & ?). pose proof Ht as [(? & ? & ? & ?) ?].
  pose proof (rfc5681_ssthresh_range (tp_mss_bytes t) (tp_cwnd_limit_bytes t)
    (tp_send_window_bytes t) (reno_cwnd_bytes s)).
  unfold reno_inv, policy_ok, reno_floor; cbn. lia.
Qed.

Lemma reno_on_timeout_safe t :
  transport_usable t -> callback_safe reno_inv t (fun s => tcp_shift_reno_on_timeout s t).
Proof.
  intros Ht s p rc s' p' Hi. cbn. rewrite reno_on_timeout_spec by done. intros [= <- <- <-].
  pose proof Hi as (? & ? & ? & ? & ?). pose proof Ht as [(? & ? & ? & ?) ?].
  pose proof (rfc5681_ssthresh_range (tp_mss_bytes t) (tp_cwnd_limit_bytes t)
    (tp_send_window_bytes t) (reno_cwnd_bytes s)).
  unfold reno_inv, policy_ok, reno_floor; cbn. lia.
Qed.

#[export] Program Instance reno_safe : SafeController tcp_shift_reno_ops := {|
  sc_inv := reno_inv
|}.
Next Obligation.
  intros; simplify_eq/=. eapply reno_init_safe; eauto. by apply transport_usable_intro.
Qed.
Next Obligation. intros; simplify_eq/=. apply reno_on_ack_safe; eauto using transport_usable_intro. Qed.
Next Obligation. intros; simplify_eq/=. apply reno_on_loss_safe; eauto using transport_usable_intro. Qed.
Next Obligation. intros; simplify_eq/=. apply reno_on_loss_safe; eauto using transport_usable_intro. Qed.
Next Obligation. intros; simplify_eq/=. apply reno_on_timeout_safe; eauto using transport_usable_intro. Qed.

(** The fixed-rate publication preserves the contract of any Reno callback. *)
Lemma fixed_pacing_safe t f :
  callback_safe reno_inv t f ->
  callback_safe reno_inv t (fun s p => tcp_shift_fixed_pacing_publish (f s p)).
Proof.
  intros Hf s p rc s' p' Hi. cbn. destruct (f s p) as [[rc0 s0] p0] eqn:E.
  destruct (Hf s p rc0 s0 p0 Hi E) as [Hi0 Hp0]. cbn.
  destruct (rc0 =? 0) eqn:Hrc; intros [= <- <- <-]; (split; [done|]); intros; [|lia].
  destruct Hp0 as (? & ? & ?); [lia|]. unfold policy_ok; cbn. lia.
Qed.

#[export] Program Instance fixed_pacing_reno_safe :
  SafeController tcp_shift_fixed_pacing_reno_ops := {| sc_inv := reno_inv |}.
Next Obligation.
  intros; simplify_eq/=. unfold tcp_shift_fixed_pacing_reno_init in *.
  destruct (tcp_shift_reno_init s t i p) as [[rc0 s0] p0] eqn:E. cbn in *.
  destruct (rc0 =? 0) eqn:Hrc; simplify_eq/=; try lia.
  apply Z.eqb_eq in Hrc as ->.
  edestruct reno_init_safe as [? (? & ? & ?)]; eauto using transport_usable_intro.
  split; [done|]. unfold policy_ok; cbn. lia.
Qed.
Next Obligation.
  intros; simplify_eq/=. apply fixed_pacing_safe, reno_on_ack_safe; eauto using transport_usable_intro.
Qed.
Next Obligation.
  intros; simplify_eq/=. apply fixed_pacing_safe, reno_on_loss_safe; eauto using transport_usable_intro.
Qed.
Next Obligation.
  intros; simplify_eq/=. apply fixed_pacing_safe, reno_on_loss_safe; eauto using transport_usable_intro.
Qed.
Next Obligation.
  intros; simplify_eq/=. apply fixed_pacing_safe, reno_on_timeout_safe; eauto using transport_usable_intro.
Qed.

(** ** Properties *)

(** C6. Reno's ACK handler implements byte-counting RFC 5681: below the
    threshold the window grows by the acknowledged bytes, at most two segments;
    above it, by one segment each time a full window has been acknowledged,
    the surplus carrying over; always within the transport's limit, in 32-bit
    arithmetic that never wraps. *)
Theorem reno_on_ack_refines_rfc5681 s t a p :
  reno_inv (tp_cwnd_limit_bytes t) s -> transport_usable t -> in_u32 (ack_acked_bytes a) ->
  exists s', tcp_shift_reno_on_ack s t a p = (0, s', tcp_shift_reno_publish s') /\
    (reno_cwnd_bytes s', reno_ca_acked_bytes s') =
      rfc5681_ack (tp_mss_bytes t) (tp_cwnd_limit_bytes t) (ack_acked_bytes a)
        (Z.max (reno_cwnd_bytes s) (reno_floor s t))
        (reno_ssthresh_bytes s) (reno_ca_acked_bytes s) /\
    reno_ssthresh_bytes s' = reno_ssthresh_bytes s.
Proof.
  intros Hi Ht Ha. pose proof (reno_on_ack_spec s t a p Hi Ht Ha) as H.
  destruct (rfc5681_ack _ _ _ _ _ _) as [w ca]. eexists; split; [exact H|done].
Qed.

Lemma reno_on_ack_refines_rfc5681_witness :
  exists s', tcp_shift_reno_on_ack (mk_reno 14600 14600 13000 1460)
      (mk_transport 1460 14600 65535 4294967295)
      (mk_ack 2920 1 1 (mk_rate_sample 0 0 0 0 0 0 0 0 0 0)) (mk_policy 0 0 0)
      = (0, s', tcp_shift_reno_publish s') /\
    (reno_cwnd_bytes s', reno_ca_acked_bytes s') = (16060, 1320).
Proof.
  destruct (reno_on_ack_refines_rfc5681 (mk_reno 14600 14600 13000 1460)
      (mk_transport 1460 14600 65535 4294967295)
      (mk_ack 2920 1 1 (mk_rate_sample 0 0 0 0 0 0 0 0 0 0)) (mk_policy 0 0 0))
    as (s' & H & Hv & _).
  - unfold reno_inv; cbn; lia.
  - unfold transport_usable, transport_wf; cbn; lia.
  - cbn; lia.
  - exists s'. split; [exact H|]. rewrite Hv. reflexivity.
Defined.

(** Reno's reaction to congestion: loss and ECN halve the smaller of the
    window and the peer's window, never below two segments (nor the limit),
    and restart the window there; a timeout sets the same threshold and
    collapses the window to its minimum; all three forget the
    congestion-avoidance credit. A loss never enlarges a window of at least
    four segments, and takes it to at most half when the minimum allows. *)
Theorem reno_congestion_response s t l p :
  reno_inv (tp_cwnd_limit_bytes t) s -> transport_usable t ->
  let ssthresh := rfc5681_ssthresh (tp_mss_bytes t) (tp_cwnd_limit_bytes t)
                    (tp_send_window_bytes t) (reno_cwnd_bytes s) in
  let after w := (0, mk_reno w ssthresh 0 (reno_min_cwnd_bytes s), mk_policy w ssthresh 0) in
  tcp_shift_reno_on_loss s t l p = after (Z.max ssthresh (reno_floor s t)) /\
  tcp_shift_reno_on_ecn s t p = after (Z.max ssthresh (reno_floor s t)) /\
  tcp_shift_reno_on_timeout s t p = after (reno_floor s t) /\
  (4 * tp_mss_bytes t <= reno_cwnd_bytes s ->
   reno_min_cwnd_bytes s <= 2 * tp_mss_bytes t ->
   2 * Z.max ssthresh (reno_floor s t) <= reno_cwnd_bytes s).
Proof.
  intros Hi Ht ssthresh after.
  pose proof Hi as (? & ? & ? & ? & ?). pose proof Ht as [(? & ? & ? & ?) ?].
  split; [by apply reno_on_loss_spec|]. split; [by apply reno_on_loss_spec|].
  split; [by apply reno_on_timeout_spec|].
  intros. unfold ssthresh, rfc5681_ssthresh, reno_floor. div_lia.
Qed.

Lemma reno_congestion_response_witness :
  tcp_shift_reno_on_loss (mk_reno 29200 65535 100 1460)
    (mk_transport 1460 29200 65535 4294967295) (mk_loss 1460) (mk_policy 0 0 0)
  = (0, mk_reno 14600 14600 0 1460, mk_policy 14600 14600 0).
Proof.
  pose proof (reno_congestion_response (mk_reno 29200 65535 100 1460)
    (mk_transport 1460 29200 65535 4294967295) (mk_loss 1460) (mk_policy 0 0 0)) as H.
  destruct H as [H _].
  - unfold reno_inv; cbn; lia.
  - unfold transport_usable, transport_wf; cbn; lia.
  - rewrite H. reflexivity.
Defined.

