(* ===== verification/Cubic.v ===== *)
(** * The CUBIC model ([src/cc/cubic.h], [src/cc/cubic.c])

    RFC 9438 in fixed point: windows in Q16 segments, time in Q10 seconds. The
    file holds the integer routines (cube root, window function, byte/segment
    conversion), the model state and its operations. *)

From Stdlib Require Import ZArith Lia Bool List String.
From stdpp Require Import base tactics numbers list.
From S2P Require Import Prelude CC.
Local Open Scope Z_scope.

Abbreviation TCP_SHIFT_CUBIC_Q_SHIFT := 16.
Abbreviation TCP_SHIFT_CUBIC_TIME_Q_SHIFT := 10.
Abbreviation TCP_SHIFT_CUBIC_BETA_NUM := 7.
Abbreviation TCP_SHIFT_CUBIC_BETA_DEN := 10.
Abbreviation TCP_SHIFT_CUBIC_RENO_ALPHA_NUM := 9.
Abbreviation TCP_SHIFT_CUBIC_RENO_ALPHA_DEN := 17.
Abbreviation TCP_SHIFT_CUBIC_FAST_CONVERGENCE_NUM := 17.
Abbreviation TCP_SHIFT_CUBIC_FAST_CONVERGENCE_DEN := 20.
Abbreviation TCP_SHIFT_CUBIC_HYSTARTPP_CSS_GROWTH_DIVISOR := 4.
Abbreviation TCP_SHIFT_CUBIC_SCALE := 40960.
Abbreviation TCP_SHIFT_NSEC_PER_SEC := 1000000000.

(** One-byte flags of the C struct, only ever assigned 0 or 1, are [bool]. *)
Record tcp_shift_cubic_model := mk_cubic {
  cb_cwnd_q16 : Z;
  cb_ssthresh_q16 : Z;
  cb_w_max_q16 : Z;
  cb_w_est_q16 : Z;
  cb_cwnd_prior_q16 : Z;
  cb_cwnd_epoch_q16 : Z;
  cb_k_q10 : Z;
  cb_epoch_start_ns : Z;
  cb_last_ack_time_ns : Z;
  cb_app_limited_since_ns : Z;
  cb_last_target_q16 : Z;
  cb_hystart_last_round_min_rtt_ns : Z;
  cb_hystart_current_round_min_rtt_ns : Z;
  cb_hystart_css_baseline_min_rtt_ns : Z;
  cb_hystart_next_round_delivered : Z;
  cb_mss_bytes : Z;
  cb_min_cwnd_bytes : Z;
  cb_ack_events : Z;
  cb_loss_events : Z;
  cb_ecn_events : Z;
  cb_timeout_events : Z;
  cb_app_limited_acks : Z;
  cb_hystart_sample_count : Z;
  cb_hystart_css_rounds : Z;
  cb_hystart_exit_events : Z;
  cb_hystart_css_enter_events : Z;
  cb_hystart_css_revert_events : Z;
  cb_has_w_max : bool;
  cb_epoch_active : bool;
  cb_app_limited_paused : bool;
  cb_after_timeout : bool;
  cb_fast_convergence : bool;
  cb_hystart_enabled : bool;
  cb_hystart_css : bool;
  cb_hystart_ack_css : bool;
  cb_hystart_exit_pending : bool;
  cb_hystart_initial_complete : bool;
  cb_hystart_pacing_active : bool
}.

#[export] Instance eta_cubic : Eta tcp_shift_cubic_model := fun r =>
  mk_cubic (cb_cwnd_q16 r) (cb_ssthresh_q16 r) (cb_w_max_q16 r) (cb_w_est_q16 r)
    (cb_cwnd_prior_q16 r) (cb_cwnd_epoch_q16 r) (cb_k_q10 r) (cb_epoch_start_ns r)
    (cb_last_ack_time_ns r) (cb_app_limited_since_ns r) (cb_last_target_q16 r)
    (cb_hystart_last_round_min_rtt_ns r) (cb_hystart_current_round_min_rtt_ns r)
    (cb_hystart_css_baseline_min_rtt_ns r) (cb_hystart_next_round_delivered r)
    (cb_mss_bytes r) (cb_min_cwnd_bytes r) (cb_ack_events r) (cb_loss_events r)
    (cb_ecn_events r) (cb_timeout_events r) (cb_app_limited_acks r)
    (cb_hystart_sample_count r) (cb_hystart_css_rounds r) (cb_hystart_exit_events r)
    (cb_hystart_css_enter_events r) (cb_hystart_css_revert_events r) (cb_has_w_max r)
    (cb_epoch_active r) (cb_app_limited_paused r) (cb_after_timeout r)
    (cb_fast_convergence r) (cb_hystart_enabled r) (cb_hystart_css r)
    (cb_hystart_ack_css r) (cb_hystart_exit_pending r) (cb_hystart_initial_complete r)
    (cb_hystart_pacing_active r).

(** [(struct tcp_shift_cubic_model){0}] *)
Definition cubic_zero : tcp_shift_cubic_model :=
  mk_cubic 0 0 0 0 0 0 0 0 0 0 0 0 0 0 0 0 0 0 0 0 0 0 0 0 0 0 0
    false false false false false false false false false false false.

(** ** Integer routines *)

Definition tcp_shift_cubic_add_sat_u64 (left right : Z) : Z :=
  if right >? UINT64_MAX -w64 left then UINT64_MAX else left +w64 right.

Definition tcp_shift_cubic_mul_sat_u64 (left right : Z) : Z :=
  if (left =? 0) || (right =? 0) then 0
  else if left >? UINT64_MAX / right then UINT64_MAX else left *w64 right.

Definition tcp_shift_cubic_min_u32 (left right : Z) : Z := if left <? right then left else right.
Definition tcp_shift_cubic_max_u32 (left right : Z) : Z := if left >? right then left else right.
Definition tcp_shift_cubic_min_u64 (left right : Z) : Z := if left <? right then left else right.
Definition tcp_shift_cubic_max_u64 (left right : Z) : Z := if left >? right then left else right.

Definition tcp_shift_cubic_mul2_cap (value limit : Z) : Z :=
  if value >? limit / 2 then limit else value *w32 2.

Definition tcp_shift_cubic_q16_from_bytes (bytes mss_bytes : Z) : Z :=
  if mss_bytes =? 0 then 0
  else (bytes <<w64 TCP_SHIFT_CUBIC_Q_SHIFT) / mss_bytes.

Definition tcp_shift_cubic_bytes_from_q16 (value_q16 mss_bytes limit_bytes : Z) : Z :=
  if (mss_bytes =? 0) || (value_q16 =? 0) then 0
  else if value_q16 >? UINT64_MAX / mss_bytes then limit_bytes
  else
    let bytes := Z.shiftr (value_q16 *w64 mss_bytes) TCP_SHIFT_CUBIC_Q_SHIFT in
    if bytes >? limit_bytes then limit_bytes else u32 bytes.

Definition tcp_shift_cubic_rescale_q16 (value_q16 old_mss new_mss : Z) : Z :=
  if (value_q16 =? 0) || (old_mss =? new_mss) then value_q16
  else if (new_mss =? 0) || (value_q16 >? UINT64_MAX / old_mss) then UINT64_MAX
  else (value_q16 *w64 old_mss) / new_mss.

Definition tcp_shift_cubic_time_q10 (time_ns : Z) : Z :=
  let seconds := time_ns / TCP_SHIFT_NSEC_PER_SEC in
  let remainder := time_ns mod TCP_SHIFT_NSEC_PER_SEC in
  if seconds >? Z.shiftr UINT64_MAX TCP_SHIFT_CUBIC_TIME_Q_SHIFT then UINT64_MAX
  else
    let result := seconds <<w64 TCP_SHIFT_CUBIC_TIME_Q_SHIFT in
    result +w64 (remainder <<w64 TCP_SHIFT_CUBIC_TIME_Q_SHIFT) / TCP_SHIFT_NSEC_PER_SEC.

Definition tcp_shift_cubic_nonzero_time_q10 (time_ns : Z) : Z :=
  let value := tcp_shift_cubic_time_q10 time_ns in
  if negb (time_ns =? 0) && (value =? 0) then 1 else value.

Definition tcp_shift_cubic_cube_leq (value limit : Z) : bool :=
  if value =? 0 then true
  else if value >? limit / value then false
  else
    let square := value *w64 value in
    value <=? limit / square.

(** The [while (low < high)] loop; each round halves [high - low], so 32
    rounds search the 32-bit range. *)
Fixpoint cuberoot_loop (fuel : nat) (value low high : Z) : Z :=
  match fuel with
  | O => low
  | S fuel' =>
      if low <? high then
        let middle := low +w64 (high -w64 low +w64 1) / 2 in
        if tcp_shift_cubic_cube_leq middle value
        then cuberoot_loop fuel' value middle high
        else cuberoot_loop fuel' value low (middle -w64 1)
      else low
  end.

Definition tcp_shift_cubic_cuberoot_floor (value : Z) : Z :=
  cuberoot_loop 32 value 0 UINT32_MAX.

Definition tcp_shift_cubic_cube_sat (value : Z) : Z :=
  if value =? 0 then 0
  else if value >? UINT64_MAX / value then UINT64_MAX
  else
    let square := value *w64 value in
    if value >? UINT64_MAX / square then UINT64_MAX
    else square *w64 value.

Definition tcp_shift_cubic_ratio_q16 (numerator denominator : Z) : Z :=
  if denominator =? 0 then 0
  else (numerator <<w64 TCP_SHIFT_CUBIC_Q_SHIFT) / denominator.

(** ** Window function *)

Definition tcp_shift_cubic_window_q16 (model : tcp_shift_cubic_model) (time_q10 : Z) : Z :=
  if time_q10 >=? cb_k_q10 model then
    let distance := time_q10 -w64 cb_k_q10 model in
    let term := tcp_shift_cubic_cube_sat distance / TCP_SHIFT_CUBIC_SCALE in
    tcp_shift_cubic_add_sat_u64 (cb_w_max_q16 model) term
  else
    let distance := cb_k_q10 model -w64 time_q10 in
    let term := tcp_shift_cubic_cube_sat distance / TCP_SHIFT_CUBIC_SCALE in
    if term >=? cb_w_max_q16 model then 0 else cb_w_max_q16 model -w64 term.

(** ** Model operations *)

Definition tcp_shift_cubic_sync_mss (model : tcp_shift_cubic_model) (mss_bytes : Z)
    : Z * tcp_shift_cubic_model :=
  if (mss_bytes =? 0) || (cb_mss_bytes model =? 0) then (-1, model)
  else if cb_mss_bytes model =? mss_bytes then (0, model)
  else
    let old_mss := cb_mss_bytes model in
    let rescale v := tcp_shift_cubic_rescale_q16 v old_mss mss_bytes in
    (0, model <| cb_cwnd_q16 := rescale (cb_cwnd_q16 model) |>
              <| cb_ssthresh_q16 := rescale (cb_ssthresh_q16 model) |>
              <| cb_w_max_q16 := rescale (cb_w_max_q16 model) |>
              <| cb_w_est_q16 := rescale (cb_w_est_q16 model) |>
              <| cb_cwnd_prior_q16 := rescale (cb_cwnd_prior_q16 model) |>
              <| cb_cwnd_epoch_q16 := rescale (cb_cwnd_epoch_q16 model) |>
              <| cb_last_target_q16 := rescale (cb_last_target_q16 model) |>
              <| cb_mss_bytes := mss_bytes |>).

Definition tcp_shift_cubic_effective_min_bytes (model : tcp_shift_cubic_model)
    (transport : tcp_shift_cc_transport) : Z :=
  let minimum := tcp_shift_cubic_max_u32 (cb_min_cwnd_bytes model) (tp_mss_bytes transport) in
  tcp_shift_cubic_min_u32 minimum (tp_cwnd_limit_bytes transport).

Definition tcp_shift_cubic_limit_q16 (transport : tcp_shift_cc_transport) : Z :=
  tcp_shift_cubic_q16_from_bytes (tp_cwnd_limit_bytes transport) (tp_mss_bytes transport).

Definition tcp_shift_cubic_normalize (model : tcp_shift_cubic_model)
    (transport : tcp_shift_cc_transport) : tcp_shift_cubic_model :=
  let limit_q16 := tcp_shift_cubic_limit_q16 transport in
  let minimum_q16 := tcp_shift_cubic_q16_from_bytes
    (tcp_shift_cubic_effective_min_bytes model transport) (tp_mss_bytes transport) in
  let model := model <| cb_cwnd_q16 :=
    tcp_shift_cubic_max_u64 (cb_cwnd_q16 model) minimum_q16 |> in
  let model := model <| cb_cwnd_q16 :=
    tcp_shift_cubic_min_u64 (cb_cwnd_q16 model) limit_q16 |> in
  model <| cb_ssthresh_q16 := tcp_shift_cubic_min_u64 (cb_ssthresh_q16 model) limit_q16 |>.

Definition tcp_shift_cubic_publish (model : tcp_shift_cubic_model)
    (transport : tcp_shift_cc_transport) : tcp_shift_cubic_model * tcp_shift_cc_policy :=
  let mss := tp_mss_bytes transport in
  let limit := tp_cwnd_limit_bytes transport in
  let model := tcp_shift_cubic_normalize model transport in
  let minimum := tcp_shift_cubic_effective_min_bytes model transport in
  let cwnd := tcp_shift_cubic_bytes_from_q16 (cb_cwnd_q16 model) mss limit in
  let ssthresh := tcp_shift_cubic_bytes_from_q16 (cb_ssthresh_q16 model) mss limit in
  let '(cwnd, model) :=
    if cwnd <? minimum
    then (minimum, model <| cb_cwnd_q16 := tcp_shift_cubic_q16_from_bytes minimum mss |>)
    else (cwnd, model) in
  let '(ssthresh, model) :=
    if ssthresh =? 0
    then (minimum, model <| cb_ssthresh_q16 := tcp_shift_cubic_q16_from_bytes minimum mss |>)
    else (ssthresh, model) in
  (model, mk_policy cwnd ssthresh 0).

Definition tcp_shift_cubic_finish_hystartpp (model : tcp_shift_cubic_model)
    : tcp_shift_cubic_model :=
  if negb (cb_hystart_exit_pending model) then model
  else
    model <| cb_ssthresh_q16 := cb_cwnd_q16 model |>
          <| cb_cwnd_prior_q16 := cb_cwnd_q16 model |>
          <| cb_w_max_q16 := cb_cwnd_q16 model |>
          <| cb_has_w_max := true |>
          <| cb_k_q10 := 0 |>
          <| cb_epoch_active := false |>
          <| cb_after_timeout := false |>
          <| cb_hystart_enabled := false |>
          <| cb_hystart_css := false |>
          <| cb_hystart_ack_css := false |>
          <| cb_hystart_exit_pending := false |>
          <| cb_hystart_initial_complete := true |>
          <| cb_hystart_exit_events := cb_hystart_exit_events model +w32 1 |>.

(** The choice of K at the start of an epoch. *)
Definition cubic_epoch_k (model : tcp_shift_cubic_model) : Z :=
  if cb_w_max_q16 model <=? cb_cwnd_q16 model then 0
  else
    let difference := cb_w_max_q16 model -w64 cb_cwnd_q16 model in
    let radicand := tcp_shift_cubic_mul_sat_u64 difference TCP_SHIFT_CUBIC_SCALE in
    tcp_shift_cubic_cuberoot_floor radicand.

Definition tcp_shift_cubic_start_epoch (model : tcp_shift_cubic_model) (now_ns : Z)
    : tcp_shift_cubic_model :=
  let model := model <| cb_epoch_start_ns := now_ns |>
                     <| cb_cwnd_epoch_q16 := cb_cwnd_q16 model |>
                     <| cb_w_est_q16 := cb_cwnd_q16 model |>
                     <| cb_last_target_q16 := cb_cwnd_q16 model |>
                     <| cb_epoch_active := true |> in
  let model := if cb_cwnd_prior_q16 model =? 0
               then model <| cb_cwnd_prior_q16 := cb_cwnd_q16 model |> else model in
  if cb_after_timeout model || negb (cb_has_w_max model) then
    model <| cb_w_max_q16 := cb_cwnd_q16 model |>
          <| cb_has_w_max := true |>
          <| cb_k_q10 := 0 |>
          <| cb_after_timeout := false |>
  else model <| cb_k_q10 := cubic_epoch_k model |>.

Definition tcp_shift_cubic_update_w_est (model : tcp_shift_cubic_model)
    (acked_bytes cwnd_bytes limit_q16 : Z) : tcp_shift_cubic_model :=
  let increment := tcp_shift_cubic_ratio_q16 acked_bytes cwnd_bytes in
  let increment :=
    if cb_w_est_q16 model <? cb_cwnd_prior_q16 model
    then (increment *w64 TCP_SHIFT_CUBIC_RENO_ALPHA_NUM) / TCP_SHIFT_CUBIC_RENO_ALPHA_DEN
    else increment in
  let model := model <| cb_w_est_q16 :=
    tcp_shift_cubic_add_sat_u64 (cb_w_est_q16 model) increment |> in
  model <| cb_w_est_q16 := tcp_shift_cubic_min_u64 (cb_w_est_q16 model) limit_q16 |>.

Definition tcp_shift_cubic_beta_flight_bytes (transport : tcp_shift_cc_transport)
    (floor_segments : Z) : Z :=
  let reduced := (tp_inflight_bytes transport *w64 TCP_SHIFT_CUBIC_BETA_NUM)
                 / TCP_SHIFT_CUBIC_BETA_DEN in
  let floor64 := tp_mss_bytes transport *w64 floor_segments in
  let floor := if floor64 >? tp_cwnd_limit_bytes transport
               then tp_cwnd_limit_bytes transport else u32 floor64 in
  let value := if reduced >? UINT32_MAX then UINT32_MAX else u32 reduced in
  let value := tcp_shift_cubic_max_u32 value floor in
  tcp_shift_cubic_min_u32 value (tp_cwnd_limit_bytes transport).

Definition tcp_shift_cubic_model_init (model : tcp_shift_cubic_model)
    (transport : tcp_shift_cc_transport) (init : tcp_shift_cc_init_cfg)
    (policy : tcp_shift_cc_policy) : Z * tcp_shift_cubic_model * tcp_shift_cc_policy :=
  let mss := tp_mss_bytes transport in
  let limit := tp_cwnd_limit_bytes transport in
  if (mss =? 0) || (limit <? mss) then (-1, model, policy)
  else
    let ssthresh_floor := tcp_shift_cubic_mul2_cap mss limit in
    if (ini_initial_cwnd_bytes init <? mss) ||
       (ini_min_cwnd_bytes init <? mss) ||
       (ini_initial_cwnd_bytes init <? ini_min_cwnd_bytes init) ||
       (ini_initial_ssthresh_bytes init <? ssthresh_floor) ||
       (ini_initial_cwnd_bytes init >? limit) ||
       (ini_initial_ssthresh_bytes init >? limit) ||
       (ini_min_cwnd_bytes init >? limit)
    then (-1, model, policy)
    else
      let model := cubic_zero
        <| cb_mss_bytes := mss |>
        <| cb_min_cwnd_bytes := ini_min_cwnd_bytes init |>
        <| cb_cwnd_q16 := tcp_shift_cubic_q16_from_bytes (ini_initial_cwnd_bytes init) mss |>
        <| cb_ssthresh_q16 :=
             tcp_shift_cubic_q16_from_bytes (ini_initial_ssthresh_bytes init) mss |>
        <| cb_fast_convergence := true |> in
      let '(model, policy) := tcp_shift_cubic_publish model transport in
      (0, model, policy).

(** The entry guard shared by the event handlers: transport sanity, then the
    segment-size synchronisation. *)
Definition cubic_enter (model : tcp_shift_cubic_model) (transport : tcp_shift_cc_transport)
    : Z * tcp_shift_cubic_model :=
  if (tp_mss_bytes transport =? 0) || (tp_cwnd_limit_bytes transport <? tp_mss_bytes transport)
  then (-1, model)
  else tcp_shift_cubic_sync_mss model (tp_mss_bytes transport).

Definition cubic_return (r : tcp_shift_cubic_model * tcp_shift_cc_policy)
    : Z * tcp_shift_cubic_model * tcp_shift_cc_policy :=
  let '(model, policy) := r in (0, model, policy).

(** An application-limited ACK in congestion avoidance pauses the epoch. *)
Definition cubic_pause_epoch (model : tcp_shift_cubic_model) (now_ns : Z)
    : tcp_shift_cubic_model :=
  let model :=
    if negb (cb_app_limited_paused model) then
      model <| cb_app_limited_since_ns :=
                 if negb (cb_ack_events model =? 0) then cb_last_ack_time_ns model else now_ns |>
            <| cb_app_limited_paused := true |>
    else model in
  model <| cb_last_ack_time_ns := now_ns |>
        <| cb_ack_events := cb_ack_events model +w32 1 |>.

(** The next regular ACK shifts the epoch start past the pause. *)
Definition cubic_resume_epoch (model : tcp_shift_cubic_model) (now_ns : Z)
    : tcp_shift_cubic_model :=
  if cb_app_limited_paused model then
    let model :=
      if cb_epoch_active model && (now_ns >=? cb_app_limited_since_ns model)
      then model <| cb_epoch_start_ns :=
             tcp_shift_cubic_add_sat_u64 (cb_epoch_start_ns model)
               (now_ns -w64 cb_app_limited_since_ns model) |>
      else model in
    model <| cb_app_limited_paused := false |> <| cb_app_limited_since_ns := 0 |>
  else model.

Definition cubic_slow_start_ack (model : tcp_shift_cubic_model)
    (transport : tcp_shift_cc_transport) (acked_bytes : Z)
    : tcp_shift_cubic_model * tcp_shift_cc_policy :=
  let mss := tp_mss_bytes transport in
  let limit := tp_cwnd_limit_bytes transport in
  let cwnd_bytes := tcp_shift_cubic_bytes_from_q16 (cb_cwnd_q16 model) mss limit in
  let increase_bytes :=
    if cb_hystart_ack_css model
    then acked_bytes / TCP_SHIFT_CUBIC_HYSTARTPP_CSS_GROWTH_DIVISOR else acked_bytes in
  let cwnd_bytes := if increase_bytes >? limit -w32 cwnd_bytes
                    then limit else cwnd_bytes +w32 increase_bytes in
  let model := model <| cb_cwnd_q16 := tcp_shift_cubic_q16_from_bytes cwnd_bytes mss |> in
  let model := tcp_shift_cubic_finish_hystartpp model in
  tcp_shift_cubic_publish model transport.

(** The concave/convex step towards W_cubic(t + RTT). *)
Definition cubic_target_step (model : tcp_shift_cubic_model)
    (limit_q16 elapsed_q10 smoothed_rtt_ns : Z) : tcp_shift_cubic_model :=
  let rtt_q10 := tcp_shift_cubic_nonzero_time_q10 smoothed_rtt_ns in
  let target_time_q10 := tcp_shift_cubic_add_sat_u64 elapsed_q10 rtt_q10 in
  let target_q16 := tcp_shift_cubic_window_q16 model target_time_q10 in
  let upper_q16 := tcp_shift_cubic_add_sat_u64 (cb_cwnd_q16 model) (cb_cwnd_q16 model / 2) in
  let upper_q16 := tcp_shift_cubic_min_u64 upper_q16 limit_q16 in
  let target_q16 := tcp_shift_cubic_max_u64 target_q16 (cb_cwnd_q16 model) in
  let target_q16 := tcp_shift_cubic_min_u64 target_q16 upper_q16 in
  let model := model <| cb_last_target_q16 := target_q16 |> in
  let difference := target_q16 -w64 cb_cwnd_q16 model in
  if negb (difference =? 0) && negb (cb_cwnd_q16 model =? 0) then
    let increment_q16 := (difference <<w64 TCP_SHIFT_CUBIC_Q_SHIFT) / cb_cwnd_q16 model in
    model <| cb_cwnd_q16 := tcp_shift_cubic_add_sat_u64 (cb_cwnd_q16 model) increment_q16 |>
  else model.

Definition cubic_avoidance_ack (model : tcp_shift_cubic_model)
    (transport : tcp_shift_cc_transport) (acked_bytes now_ns smoothed_rtt_ns : Z)
    : tcp_shift_cubic_model * tcp_shift_cc_policy :=
  let model := if negb (cb_epoch_active model)
               then tcp_shift_cubic_start_epoch model now_ns else model in
  let limit_q16 := tcp_shift_cubic_limit_q16 transport in
  let cwnd_bytes := tcp_shift_cubic_bytes_from_q16 (cb_cwnd_q16 model)
                      (tp_mss_bytes transport) (tp_cwnd_limit_bytes transport) in
  let model := tcp_shift_cubic_update_w_est model acked_bytes cwnd_bytes limit_q16 in
  let elapsed_q10 := tcp_shift_cubic_time_q10 (now_ns -w64 cb_epoch_start_ns model) in
  let current_cubic_q16 := tcp_shift_cubic_window_q16 model elapsed_q10 in
  if current_cubic_q16 <? cb_w_est_q16 model then
    let model := model
      <| cb_cwnd_q16 := tcp_shift_cubic_max_u64 (cb_cwnd_q16 model) (cb_w_est_q16 model) |>
      <| cb_last_target_q16 := cb_w_est_q16 model |> in
    tcp_shift_cubic_publish model transport
  else
    tcp_shift_cubic_publish
      (cubic_target_step model limit_q16 elapsed_q10 smoothed_rtt_ns) transport.

(** What remains of an ACK once the entry guards have passed. *)
Definition cubic_ack_body (model : tcp_shift_cubic_model)
    (transport : tcp_shift_cc_transport) (ack : tcp_shift_cc_ack)
    (now_ns smoothed_rtt_ns : Z) (policy : tcp_shift_cc_policy)
    : Z * tcp_shift_cubic_model * tcp_shift_cc_policy :=
  let app_limited := has_flag (ack_rate ack) TCP_SHIFT_CC_RATE_SAMPLE_APP_LIMITED in
  let model := tcp_shift_cubic_normalize model transport in
  let in_congestion_avoidance := cb_cwnd_q16 model >=? cb_ssthresh_q16 model in
  if negb app_limited && in_congestion_avoidance && (smoothed_rtt_ns =? 0)
  then (-1, model, policy)
  else
    let model := if app_limited
                 then model <| cb_app_limited_acks := cb_app_limited_acks model +w32 1 |>
                 else model in
    if app_limited && in_congestion_avoidance then
      let model := cubic_pause_epoch model now_ns in
      let model := tcp_shift_cubic_finish_hystartpp model in
      cubic_return (tcp_shift_cubic_publish model transport)
    else
      let model := cubic_resume_epoch model now_ns in
      let model := model <| cb_last_ack_time_ns := now_ns |>
                         <| cb_ack_events := cb_ack_events model +w32 1 |> in
      if cb_cwnd_q16 model <? cb_ssthresh_q16 model
      then cubic_return (cubic_slow_start_ack model transport (ack_acked_bytes ack))
      else cubic_return (cubic_avoidance_ack model transport (ack_acked_bytes ack)
                           now_ns smoothed_rtt_ns).

Definition tcp_shift_cubic_model_on_ack (model : tcp_shift_cubic_model)
    (transport : tcp_shift_cc_transport) (ack : tcp_shift_cc_ack)
    (now_ns smoothed_rtt_ns : Z) (policy : tcp_shift_cc_policy)
    : Z * tcp_shift_cubic_model * tcp_shift_cc_policy :=
  if ack_acked_bytes ack =? 0 then (-1, model, policy)
  else
    let '(rc, model) := cubic_enter model transport in
    if negb (rc =? 0) then (-1, model, policy)
    else if negb (cb_ack_events model =? 0) && (now_ns <? cb_last_ack_time_ns model)
    then (-1, model, policy)
    else cubic_ack_body model transport ack now_ns smoothed_rtt_ns policy.

(** Bookkeeping of W_max with fast convergence, common to loss and ECN. *)
Definition cubic_note_w_max (model : tcp_shift_cubic_model) : tcp_shift_cubic_model :=
  let prior_cwnd_q16 := cb_cwnd_q16 model in
  let model :=
    if cb_fast_convergence model && cb_has_w_max model &&
       (prior_cwnd_q16 <? cb_w_max_q16 model)
    then model <| cb_w_max_q16 :=
           (prior_cwnd_q16 *w64 TCP_SHIFT_CUBIC_FAST_CONVERGENCE_NUM)
           / TCP_SHIFT_CUBIC_FAST_CONVERGENCE_DEN |>
    else model <| cb_w_max_q16 := prior_cwnd_q16 |> in
  model <| cb_has_w_max := true |> <| cb_cwnd_prior_q16 := prior_cwnd_q16 |>.

(** Multiplicative decrease to [beta * inflight], floored at [segments] MSS. *)
Definition cubic_reduce (model : tcp_shift_cubic_model)
    (transport : tcp_shift_cc_transport) (segments : Z) : tcp_shift_cubic_model :=
  let reduced_bytes := tcp_shift_cubic_beta_flight_bytes transport segments in
  let minimum_bytes := tcp_shift_cubic_effective_min_bytes model transport in
  let reduced_bytes := tcp_shift_cubic_max_u32 reduced_bytes minimum_bytes in
  let ssthresh_q16 := tcp_shift_cubic_q16_from_bytes reduced_bytes (tp_mss_bytes transport) in
  model <| cb_ssthresh_q16 := ssthresh_q16 |>
        <| cb_cwnd_q16 := ssthresh_q16 |>
        <| cb_epoch_active := false |>
        <| cb_app_limited_paused := false |>
        <| cb_app_limited_since_ns := 0 |>
        <| cb_after_timeout := false |>
        <| cb_k_q10 := 0 |>.

Definition tcp_shift_cubic_model_on_loss (model : tcp_shift_cubic_model)
    (transport : tcp_shift_cc_transport) (loss : tcp_shift_cc_loss)
    (policy : tcp_shift_cc_policy) : Z * tcp_shift_cubic_model * tcp_shift_cc_policy :=
  if loss_lost_bytes loss =? 0 then (-1, model, policy)
  else
    let '(rc, model) := cubic_enter model transport in
    if negb (rc =? 0) then (-1, model, policy)
    else
      let model := tcp_shift_cubic_normalize model transport in
      let model := cubic_note_w_max model in
      let model := cubic_reduce model transport 2 in
      let model := model <| cb_loss_events := cb_loss_events model +w32 1 |> in
      cubic_return (tcp_shift_cubic_publish model transport).

Definition tcp_shift_cubic_model_on_ecn (model : tcp_shift_cubic_model)
    (transport : tcp_shift_cc_transport)
    (policy : tcp_shift_cc_policy) : Z * tcp_shift_cubic_model * tcp_shift_cc_policy :=
  let '(rc, model) := cubic_enter model transport in
  if negb (rc =? 0) then (-1, model, policy)
  else
    let model := tcp_shift_cubic_normalize model transport in
    let model := cubic_note_w_max model in
    let model := cubic_reduce model transport 1 in
    let model := model <| cb_ecn_events := cb_ecn_events model +w32 1 |> in
    cubic_return (tcp_shift_cubic_publish model transport).

Definition tcp_shift_cubic_model_on_timeout (model : tcp_shift_cubic_model)
    (transport : tcp_shift_cc_transport)
    (policy : tcp_shift_cc_policy) : Z * tcp_shift_cubic_model * tcp_shift_cc_policy :=
  let '(rc, model) := cubic_enter model transport in
  if negb (rc =? 0) then (-1, model, policy)
  else
    let mss := tp_mss_bytes transport in
    let model := tcp_shift_cubic_normalize model transport in
    let model := model <| cb_cwnd_prior_q16 := cb_cwnd_q16 model |> in
    let reduced_bytes := tcp_shift_cubic_beta_flight_bytes transport 2 in
    let model := model <| cb_ssthresh_q16 :=
      tcp_shift_cubic_q16_from_bytes reduced_bytes mss |> in
    let minimum_bytes := tcp_shift_cubic_effective_min_bytes model transport in
    let model := model
      <| cb_cwnd_q16 := tcp_shift_cubic_q16_from_bytes minimum_bytes mss |>
      <| cb_epoch_active := false |>
      <| cb_app_limited_paused := false |>
      <| cb_app_limited_since_ns := 0 |>
      <| cb_after_timeout := true |>
      <| cb_k_q10 := 0 |>
      <| cb_timeout_events := cb_timeout_events model +w32 1 |> in
    cubic_return (tcp_shift_cubic_publish model transport).

Definition tcp_shift_cubic_model_set_fast_convergence (model : ptr tcp_shift_cubic_model)
    (enabled : Z) : ptr tcp_shift_cubic_model :=
  (fun m => m <| cb_fast_convergence := negb (enabled =? 0) |>) <$> model.

(** The public entry points with their NULL tests. *)
Definition tcp_shift_cubic_model_init_api := null_guard4 tcp_shift_cubic_model_init.
Definition tcp_shift_cubic_model_on_loss_api := null_guard4 tcp_shift_cubic_model_on_loss.
Definition tcp_shift_cubic_model_on_ecn_api := null_guard3 tcp_shift_cubic_model_on_ecn.
Definition tcp_shift_cubic_model_on_timeout_api := null_guard3 tcp_shift_cubic_model_on_timeout.
Definition tcp_shift_cubic_model_on_ack_api model transport ack now_ns smoothed_rtt_ns policy :=
  null_guard4 (fun m t a p => tcp_shift_cubic_model_on_ack m t a now_ns smoothed_rtt_ns p)
    model transport ack policy.

(** ** The integer routines are exact *)

Lemma cubic_min_u32_spec a b : tcp_shift_cubic_min_u32 a b = Z.min a b.
Proof. unfold tcp_shift_cubic_min_u32. case_match; lia. Qed.
Lemma cubic_max_u32_spec a b : tcp_shift_cubic_max_u32 a b = Z.max a b.
Proof. unfold tcp_shift_cubic_max_u32. case_match; lia. Qed.
Lemma cubic_min_u64_spec a b : tcp_shift_cubic_min_u64 a b = Z.min a b.
Proof. apply cubic_min_u32_spec. Qed.
Lemma cubic_max_u64_spec a b : tcp_shift_cubic_max_u64 a b = Z.max a b.
Proof. apply cubic_max_u32_spec. Qed.

Create Rewrite HintDb cubic.
#[export] Hint Rewrite cubic_min_u32_spec cubic_max_u32_spec cubic_min_u64_spec
  cubic_max_u64_spec : cubic.

Lemma cubic_add_sat_spec a b :
  in_u64 a -> in_u64 b -> tcp_shift_cubic_add_sat_u64 a b = Z.min UINT64_MAX (a + b).
Proof. apply sat_add_u64_gt. Qed.

Lemma cubic_mul_sat_spec a b :
  in_u64 a -> in_u64 b -> tcp_shift_cubic_mul_sat_u64 a b = Z.min UINT64_MAX (a * b).
Proof. apply sat_mul_u64. Qed.

Lemma cubic_mul2_cap_spec v limit :
  in_u32 v -> in_u32 limit -> tcp_shift_cubic_mul2_cap v limit = Z.min limit (2 * v).
Proof.
  intros. unfold tcp_shift_cubic_mul2_cap. case_match; [div_lia|].
  rewrite u32_small; div_lia.
Qed.

Lemma cubic_q16_from_bytes_spec b mss :
  in_u32 b -> 1 <= mss -> tcp_shift_cubic_q16_from_bytes b mss = b * 65536 / mss.
Proof.
  intros. unfold tcp_shift_cubic_q16_from_bytes. rewrite Z.shiftl_mul_pow2 by lia.
  case_match; [lia|]. rewrite u64_small by lia. done.
Qed.

Lemma cubic_q16_from_bytes_range b mss :
  in_u32 b -> 1 <= mss -> 0 <= tcp_shift_cubic_q16_from_bytes b mss <= b * 65536.
Proof. intros. rewrite cubic_q16_from_bytes_spec by done. div_nia. Qed.

Lemma cubic_bytes_from_q16_spec v mss limit :
  in_u64 v -> 1 <= mss <= UINT32_MAX -> in_u32 limit ->
  tcp_shift_cubic_bytes_from_q16 v mss limit = Z.min limit (v * mss / 65536).
Proof.
  intros Hv Hm Hl. unfold tcp_shift_cubic_bytes_from_q16.
  destruct ((mss =? 0) || (v =? 0)) eqn:E0.
  { assert (v = 0) as -> by lia. rewrite Z.div_0_l; lia. }
  rewrite Z.gtb_ltb, div_ltb_mul by lia.
  destruct (UINT64_MAX <? v * mss) eqn:E1.
  - assert (4294967296 <= v * mss / 65536) by (apply Z.div_le_lower_bound; lia). lia.
  - rewrite (u64_small (v * mss)), Z.shiftr_div_pow2 by nia. change (2 ^ 16) with 65536.
    assert (0 <= v * mss / 65536) by (apply Z.div_pos; nia).
    rewrite Z.gtb_ltb. case_match; [lia|]. rewrite u32_small by lia. lia.
Qed.

Lemma cubic_rescale_range v old new :
  in_u64 v -> 1 <= old -> 1 <= new -> in_u64 (tcp_shift_cubic_rescale_q16 v old new).
Proof.
  intros. unfold tcp_shift_cubic_rescale_q16. cases; try lia.
  pose proof (u64_range (v * old)). div_nia.
Qed.

Lemma cubic_time_q10_spec t :
  in_u64 t -> tcp_shift_cubic_time_q10 t = t * 1024 / 1000000000.
Proof.
  intros Ht. unfold tcp_shift_cubic_time_q10.
  change (Z.shiftr UINT64_MAX 10) with 18014398509481983.
  rewrite !Z.shiftl_mul_pow2 by lia. change (2 ^ 10) with 1024.
  case_match; [div_lia|].
  rewrite (u64_small (t / _ * 1024)) by div_lia.
  rewrite (u64_small (t mod _ * 1024)) by div_lia.
  rewrite u64_small by div_lia. symmetry. apply scale_split. lia.
Qed.

Lemma cubic_cube_leq_spec v limit :
  in_u64 v -> in_u64 limit -> tcp_shift_cubic_cube_leq v limit = (v * v * v <=? limit).
Proof.
  intros Hv Hl. unfold tcp_shift_cubic_cube_leq.
  destruct (v =? 0) eqn:E; [lia|].
  rewrite Z.gtb_ltb, div_ltb_mul by lia.
  destruct (limit <? v * v) eqn:E1; [symmetry; apply Z.leb_gt; nia|].
  rewrite u64_small by nia.
  apply eq_true_iff_eq. rewrite !Z.leb_le. split; intros; div_nia.
Qed.

(** The loop keeps low^3 <= value < (high+1)^3 and halves the interval. *)
Lemma cuberoot_loop_spec fuel : forall value low high,
  in_u64 value -> 0 <= low <= high -> high <= UINT32_MAX ->
  high - low < 2 ^ Z.of_nat fuel ->
  low * low * low <= value < (high + 1) * (high + 1) * (high + 1) ->
  let r := cuberoot_loop fuel value low high in
  low <= r <= high /\ r * r * r <= value < (r + 1) * (r + 1) * (r + 1).
Proof.
  induction fuel as [|fuel IH]; intros value low high Hv Hlh Hh Hf Hinv; cbn [cuberoot_loop].
  { assert (high = low) as -> by (cbn in Hf; lia). lia. }
  rewrite Nat2Z.inj_succ, Z.pow_succ_r in Hf by lia.
  destruct (low <? high) eqn:Hlt; [|assert (high = low) as -> by lia; lia].
  rewrite (u64_small (high - low)), (u64_small (high - low + 1)) by lia.
  set (mid := low + (high - low + 1) / 2).
  assert (Hmid : low < mid <= high) by (unfold mid; div_lia).
  assert (Hhalf : high - mid < 2 ^ Z.of_nat fuel /\ mid - 1 - low < 2 ^ Z.of_nat fuel)
    by (unfold mid; div_lia).
  rewrite (u64_small mid), (u64_small (mid - 1)), cubic_cube_leq_spec by lia.
  destruct (mid * mid * mid <=? value) eqn:Hc.
  - destruct (IH value mid high) as [? ?]; [done|lia|lia|lia|lia|]. lia.
  - destruct (IH value low (mid - 1)) as [? ?]; [done|lia|lia|lia| |lia].
    replace (mid - 1 + 1) with mid by lia. lia.
Qed.

Lemma cubic_cuberoot_spec value :
  in_u64 value ->
  let r := tcp_shift_cubic_cuberoot_floor value in
  0 <= r <= UINT32_MAX /\ r * r * r <= value < (r + 1) * (r + 1) * (r + 1).
Proof. intros Hv. apply cuberoot_loop_spec; lia. Qed.

Lemma cubic_cube_sat_spec v :
  in_u64 v -> tcp_shift_cubic_cube_sat v = Z.min UINT64_MAX (v * v * v).
Proof.
  intros Hv. unfold tcp_shift_cubic_cube_sat.
  destruct (v =? 0) eqn:E; [lia|].
  rewrite Z.gtb_ltb, div_ltb_mul by lia.
  destruct (UINT64_MAX <? v * v) eqn:E1; [nia|].
  rewrite (u64_small (v * v)) by nia.
  rewrite Z.gtb_ltb, div_ltb_mul by nia.
  destruct (UINT64_MAX <? v * (v * v)) eqn:E2; [lia|].
  rewrite u64_small by nia. lia.
Qed.

(** ** The window function *)

(** The cubic term of the window at distance [d] from K. *)
Definition cubic_term (d : Z) : Z := Z.min UINT64_MAX (d * d * d) / 40960.

Lemma cubic_term_mono d e : 0 <= d <= e -> 0 <= cubic_term d <= cubic_term e.
Proof.
  intros H. unfold cubic_term.
  assert (d * d * d <= e * e * e) by (apply Z.mul_le_mono_nonneg; nia).
  split; [apply Z.div_pos; nia | apply Z.div_le_mono; lia].
Qed.

Lemma cubic_term_range d : 0 <= d -> in_u64 (cubic_term d).
Proof. intros. unfold cubic_term. assert (0 <= d * d * d) by nia. div_lia. Qed.

Lemma cubic_window_spec m t :
  in_u64 (cb_k_q10 m) -> in_u64 (cb_w_max_q16 m) -> in_u64 t ->
  tcp_shift_cubic_window_q16 m t =
  if cb_k_q10 m <=? t then Z.min UINT64_MAX (cb_w_max_q16 m + cubic_term (t - cb_k_q10 m))
  else Z.max 0 (cb_w_max_q16 m - cubic_term (cb_k_q10 m - t)).
Proof.
  intros Hk Hw Ht. unfold tcp_shift_cubic_window_q16. rewrite Z.geb_leb.
  destruct (cb_k_q10 m <=? t) eqn:E; rewrite (u64_small (_ - _)) by lia;
    rewrite cubic_cube_sat_spec by lia; fold (cubic_term (t - cb_k_q10 m));
    fold (cubic_term (cb_k_q10 m - t)).
  - rewrite cubic_add_sat_spec by (try apply cubic_term_range; lia). lia.
  - pose proof (cubic_term_range (cb_k_q10 m - t)).
    case_match; [lia|]. rewrite u64_small by lia. lia.
Qed.

Lemma cubic_window_range m t :
  in_u64 (cb_k_q10 m) -> in_u64 (cb_w_max_q16 m) -> in_u64 t ->
  in_u64 (tcp_shift_cubic_window_q16 m t).
Proof.
  intros. rewrite cubic_window_spec by done.
  pose proof (cubic_term_range (t - cb_k_q10 m)).
  pose proof (cubic_term_range (cb_k_q10 m - t)). case_match; lia.
Qed.

Lemma cubic_window_mono m t1 t2 :
  in_u64 (cb_k_q10 m) -> in_u64 (cb_w_max_q16 m) -> in_u64 t2 -> 0 <= t1 <= t2 ->
  tcp_shift_cubic_window_q16 m t1 <= tcp_shift_cubic_window_q16 m t2.
Proof.
  intros Hk Hw H2 H12. rewrite !cubic_window_spec by lia.
  destruct (cb_k_q10 m <=? t1) eqn:E1, (cb_k_q10 m <=? t2) eqn:E2; try lia.
  - pose proof (cubic_term_mono (t1 - cb_k_q10 m) (t2 - cb_k_q10 m)). lia.
  - pose proof (cubic_term_range (t2 - cb_k_q10 m)).
    pose proof (cubic_term_range (cb_k_q10 m - t1)). lia.
  - pose proof (cubic_term_mono (cb_k_q10 m - t2) (cb_k_q10 m - t1)). lia.
Qed.

(** ** Type invariant: every counter stays within its C width *)

Definition cubic_wf (m : tcp_shift_cubic_model) : Prop :=
  Forall (fun x => in_u64 x)
    [cb_cwnd_q16 m; cb_ssthresh_q16 m; cb_w_max_q16 m; cb_w_est_q16 m;
     cb_cwnd_prior_q16 m; cb_cwnd_epoch_q16 m; cb_k_q10 m; cb_epoch_start_ns m;
     cb_last_ack_time_ns m; cb_app_limited_since_ns m; cb_last_target_q16 m;
     cb_hystart_last_round_min_rtt_ns m; cb_hystart_current_round_min_rtt_ns m;
     cb_hystart_css_baseline_min_rtt_ns m; cb_hystart_next_round_delivered m] /\
  Forall (fun x => in_u32 x)
    [cb_mss_bytes m; cb_min_cwnd_bytes m; cb_ack_events m; cb_loss_events m;
     cb_ecn_events m; cb_timeout_events m; cb_app_limited_acks m;
     cb_hystart_sample_count m; cb_hystart_css_rounds m; cb_hystart_exit_events m;
     cb_hystart_css_enter_events m; cb_hystart_css_revert_events m].

Definition cubic_inv (limit : Z) (m : tcp_shift_cubic_model) : Prop :=
  in_u32 limit /\ cubic_wf m /\ 1 <= cb_mss_bytes m /\ 1 <= cb_min_cwnd_bytes m.

(** Solve a preservation goal: expose the fields of the hypothesis, rebuild
    the conclusion, close each field by assumption or arithmetic. *)
Ltac cubic_wf_tac :=
  unfold cubic_wf in *;
  repeat match goal with H : Forall _ _ /\ Forall _ _ |- _ => destruct H end;
  repeat match goal with H : Forall _ (_ :: _) |- _ => forall_inv H; clear H end;
  autorewrite with cubic in *;
  split; forall_solve; word_facts; try lia.

Lemma cubic_inv_wf limit m : cubic_inv limit m -> cubic_wf m.
Proof. by intros (_ & H & _). Qed.

Lemma cubic_effective_min_range m t :
  transport_usable t -> in_u32 (cb_min_cwnd_bytes m) ->
  tp_mss_bytes t <= tcp_shift_cubic_effective_min_bytes m t <= tp_cwnd_limit_bytes t.
Proof.
  intros [_ ?] ?. unfold tcp_shift_cubic_effective_min_bytes. autorewrite with cubic. lia.
Qed.

Lemma cubic_wf_min m : cubic_wf m -> in_u32 (cb_min_cwnd_bytes m).
Proof. intros [_ H]. forall_inv H. done. Qed.

Lemma cubic_limit_q16_range t :
  transport_usable t -> 65536 <= tcp_shift_cubic_limit_q16 t <= 281474976710656.
Proof.
  intros [(? & ? & ? & ?) ?]. unfold tcp_shift_cubic_limit_q16.
  rewrite cubic_q16_from_bytes_spec by lia. split.
  - apply Z.div_le_lower_bound; lia.
  - pose proof (Z.div_le_upper_bound (tp_cwnd_limit_bytes t * 65536) (tp_mss_bytes t)
      281474976710656). nia.
Qed.

Lemma cubic_min_q16_range m t :
  transport_usable t -> cubic_wf m ->
  65536 <= tcp_shift_cubic_q16_from_bytes (tcp_shift_cubic_effective_min_bytes m t)
    (tp_mss_bytes t) <= tcp_shift_cubic_limit_q16 t.
Proof.
  intros Ht Hm. pose proof (cubic_effective_min_range m t Ht (cubic_wf_min m Hm)).
  destruct Ht as [(? & ? & ? & ?) ?]. unfold tcp_shift_cubic_limit_q16.
  rewrite !cubic_q16_from_bytes_spec by lia. split.
  - apply Z.div_le_lower_bound; lia.
  - apply Z.div_le_mono; lia.
Qed.

(** *** Preservation, operation by operation *)

Lemma cubic_sync_mss_wf m mss :
  cubic_wf m -> in_u32 mss -> 1 <= cb_mss_bytes m -> cubic_wf (tcp_shift_cubic_sync_mss m mss).2.
Proof.
  intros Hm Hmss H1. unfold tcp_shift_cubic_sync_mss. cases; try done. cbn [snd].
  pose proof Hm as Hm'. destruct Hm' as [H64 _]. forall_inv H64.
  pose proof (fun v => cubic_rescale_range v (cb_mss_bytes m) mss) as Hr.
  assert (1 <= mss) by lia.
  cubic_wf_tac; apply Hr; lia.
Qed.

Lemma cubic_normalize_wf m t :
  cubic_wf m -> transport_usable t -> cubic_wf (tcp_shift_cubic_normalize m t).
Proof.
  intros Hm Ht. pose proof (cubic_limit_q16_range t Ht). pose proof (cubic_min_q16_range m t Ht Hm).
  unfold tcp_shift_cubic_normalize. cubic_wf_tac.
Qed.

Lemma cubic_normalize_window m t :
  cubic_wf m -> transport_usable t ->
  65536 <= cb_cwnd_q16 (tcp_shift_cubic_normalize m t) <= tcp_shift_cubic_limit_q16 t.
Proof.
  intros Hm Ht. pose proof (cubic_min_q16_range m t Ht Hm).
  unfold tcp_shift_cubic_normalize. cbn. autorewrite with cubic. lia.
Qed.

Lemma cubic_publish_wf m t :
  cubic_wf m -> transport_usable t -> cubic_wf (tcp_shift_cubic_publish m t).1.
Proof.
  intros Hm Ht. unfold tcp_shift_cubic_publish. cbn zeta.
  pose proof (cubic_normalize_wf m t Hm Ht) as Hn.
  pose proof (cubic_limit_q16_range t Ht).
  pose proof (cubic_min_q16_range _ t Ht Hn).
  set (n := tcp_shift_cubic_normalize m t) in *.
  set (q := tcp_shift_cubic_q16_from_bytes _ _) in *. clearbody n q.
  cases; simplify_eq/=; try done; cubic_wf_tac.
Qed.

(** Whatever the model holds, what it publishes is acceptable. *)
Lemma cubic_publish_policy m t :
  cubic_wf m -> transport_usable t ->
  policy_ok t (tcp_shift_cubic_publish m t).2 /\
  tcp_shift_cubic_effective_min_bytes m t
    <= pol_cwnd_bytes (tcp_shift_cubic_publish m t).2.
Proof.
  intros Hm Ht. unfold tcp_shift_cubic_publish. cbn zeta.
  pose proof (cubic_normalize_wf m t Hm Ht) as Hn.
  assert (Hmin : cb_min_cwnd_bytes (tcp_shift_cubic_normalize m t) = cb_min_cwnd_bytes m)
    by done.
  set (n := tcp_shift_cubic_normalize m t) in *. clearbody n.
  replace (tcp_shift_cubic_effective_min_bytes m t)
    with (tcp_shift_cubic_effective_min_bytes n t)
    by (unfold tcp_shift_cubic_effective_min_bytes; by rewrite Hmin).
  pose proof (cubic_effective_min_range n t Ht (cubic_wf_min n Hn)).
  destruct Ht as [(? & ? & ? & ?) ?]. destruct Hn as [H64 _]. forall_inv H64.
  rewrite !cubic_bytes_from_q16_spec by lia.
  set (c := Z.min _ (cb_cwnd_q16 n * _ / _)). set (h := Z.min _ (cb_ssthresh_q16 n * _ / _)).
  assert (0 <= c <= tp_cwnd_limit_bytes t)
    by (unfold c; pose proof (Z.div_pos (cb_cwnd_q16 n * tp_mss_bytes t) 65536); nia).
  assert (0 <= h <= tp_cwnd_limit_bytes t)
    by (unfold h; pose proof (Z.div_pos (cb_ssthresh_q16 n * tp_mss_bytes t) 65536); nia).
  clearbody c h. unfold policy_ok. cases; simplify_eq/=; lia.
Qed.

Lemma cubic_finish_wf m : cubic_wf m -> cubic_wf (tcp_shift_cubic_finish_hystartpp m).
Proof. intros Hm. unfold tcp_shift_cubic_finish_hystartpp. case_match; [done|]. cubic_wf_tac. Qed.

Lemma cubic_epoch_k_range m :
  in_u64 (cb_w_max_q16 m) -> in_u64 (cb_cwnd_q16 m) -> in_u64 (cubic_epoch_k m).
Proof.
  intros. unfold cubic_epoch_k. case_match; [lia|].
  rewrite u64_small, cubic_mul_sat_spec by lia.
  destruct (cubic_cuberoot_spec
    (Z.min UINT64_MAX ((cb_w_max_q16 m - cb_cwnd_q16 m) * 40960))) as [? _]; lia.
Qed.

Lemma cubic_start_epoch_wf m now :
  cubic_wf m -> in_u64 now -> cubic_wf (tcp_shift_cubic_start_epoch m now).
Proof.
  intros Hm Hnow. pose proof Hm as Hm'. destruct Hm' as [H64 _]. forall_inv H64.
  unfold tcp_shift_cubic_start_epoch. cbn zeta.
  set (m1 := m <| cb_epoch_start_ns := now |> <| _ := _ |> <| _ := _ |> <| _ := _ |>
    <| cb_epoch_active := true |>).
  assert (cubic_wf m1) by (unfold m1; cubic_wf_tac). clearbody m1.
  set (m2 := if _ =? 0 then _ else m1).
  assert (cubic_wf m2) by (unfold m2; case_match; [cubic_wf_tac|done]). clearbody m2.
  pose proof (cubic_epoch_k_range m2) as Hk.
  assert (in_u64 (cubic_epoch_k m2)) by (apply Hk; cubic_wf_tac). 
  case_match; cubic_wf_tac.
Qed.

Lemma cubic_ratio_range n d : in_u32 n -> 0 <= d -> 0 <= tcp_shift_cubic_ratio_q16 n d <= 281474976710656.
Proof.
  intros. unfold tcp_shift_cubic_ratio_q16. rewrite Z.shiftl_mul_pow2 by lia.
  case_match; [lia|]. rewrite u64_small by lia.
  split; [apply Z.div_pos; lia|]. apply Z.div_le_upper_bound; nia.
Qed.

(** Increment of the Reno-friendly estimate for an ACK. *)
Definition cubic_est_increment (m : tcp_shift_cubic_model) (acked cwnd : Z) : Z :=
  if cb_w_est_q16 m <? cb_cwnd_prior_q16 m
  then tcp_shift_cubic_ratio_q16 acked cwnd * 9 / 17
  else tcp_shift_cubic_ratio_q16 acked cwnd.

Lemma cubic_update_w_est_spec m acked cwnd limit_q16 :
  in_u64 (cb_w_est_q16 m) -> in_u32 acked -> 0 <= cwnd ->
  tcp_shift_cubic_update_w_est m acked cwnd limit_q16 =
  m <| cb_w_est_q16 := Z.min (Z.min UINT64_MAX
         (cb_w_est_q16 m + cubic_est_increment m acked cwnd)) limit_q16 |>.
Proof.
  intros Hw Ha Hc. pose proof (cubic_ratio_range acked cwnd Ha Hc).
  unfold tcp_shift_cubic_update_w_est, cubic_est_increment. cbn.
  rewrite (u64_small (_ * 9)) by lia. autorewrite with cubic.
  rewrite cubic_add_sat_spec by (cases; div_lia). reflexivity.
Qed.

Lemma cubic_est_increment_range m acked cwnd :
  in_u32 acked -> 0 <= cwnd -> in_u64 (cubic_est_increment m acked cwnd).
Proof.
  intros Ha Hc. pose proof (cubic_ratio_range acked cwnd Ha Hc).
  unfold cubic_est_increment. case_match; div_lia.
Qed.

Lemma cubic_update_w_est_wf m acked cwnd limit_q16 :
  cubic_wf m -> in_u32 acked -> 0 <= cwnd -> in_u64 limit_q16 ->
  cubic_wf (tcp_shift_cubic_update_w_est m acked cwnd limit_q16).
Proof.
  intros Hm Ha Hc Hl. pose proof (cubic_est_increment_range m acked cwnd Ha Hc).
  rewrite cubic_update_w_est_spec; [cubic_wf_tac| |done|done]. cubic_wf_tac.
Qed.

Lemma cubic_pause_wf m now : cubic_wf m -> in_u64 now -> cubic_wf (cubic_pause_epoch m now).
Proof. intros. unfold cubic_pause_epoch. cases; cubic_wf_tac. Qed.

Lemma cubic_resume_wf m now : cubic_wf m -> in_u64 now -> cubic_wf (cubic_resume_epoch m now).
Proof.
  intros Hm Hn. unfold cubic_resume_epoch. case_match; [|done]. cbn zeta.
  assert (in_u64 (tcp_shift_cubic_add_sat_u64 (cb_epoch_start_ns m)
    (now -w64 cb_app_limited_since_ns m))).
  { destruct Hm as [H64 _]. forall_inv H64. rewrite cubic_add_sat_spec; word_facts; lia. }
  case_match; cubic_wf_tac.
Qed.

Lemma cubic_time_q10_range t : in_u64 t -> in_u64 (tcp_shift_cubic_time_q10 t).
Proof. intros. rewrite cubic_time_q10_spec by done. div_lia. Qed.

Lemma cubic_nonzero_time_q10_range t :
  in_u64 t -> in_u64 (tcp_shift_cubic_nonzero_time_q10 t).
Proof.
  intros. unfold tcp_shift_cubic_nonzero_time_q10.
  pose proof (cubic_time_q10_range t). case_match; lia.
Qed.

(** A target within 1.5 windows adds at most half a segment. *)
Lemma cubic_half_segment c target :
  1 <= c -> c <= target <= c + c / 2 -> 0 <= (target - c) * 65536 / c <= 32768.
Proof.
  intros Hc Ht. split; [apply Z.div_pos; lia|].
  apply Z.div_le_upper_bound; [lia|]. div_lia.
Qed.

(** The target of an avoidance ACK lies between the window and 1.5 windows. *)
Lemma cubic_target_step_spec m limit_q16 elapsed srtt :
  cubic_wf m -> 1 <= cb_cwnd_q16 m <= limit_q16 -> limit_q16 <= 281474976710656 ->
  in_u64 elapsed -> in_u64 srtt ->
  exists target, cb_cwnd_q16 m <= target <= Z.min limit_q16 (cb_cwnd_q16 m + cb_cwnd_q16 m / 2) /\
  cubic_target_step m limit_q16 elapsed srtt =
    m <| cb_last_target_q16 := target |>
      <| cb_cwnd_q16 := cb_cwnd_q16 m + (target - cb_cwnd_q16 m) * 65536 / cb_cwnd_q16 m |>.
Proof.
  intros Hm Hc Hl He Hs. unfold cubic_target_step. cbn zeta.
  assert (0 <= cb_cwnd_q16 m / 2 <= cb_cwnd_q16 m) by div_lia.
  autorewrite with cubic. rewrite (cubic_add_sat_spec (cb_cwnd_q16 m)) by lia.
  set (w := tcp_shift_cubic_window_q16 _ _). clearbody w.
  rewrite (Z.min_r UINT64_MAX) by lia.
  set (target := Z.min (Z.max w (cb_cwnd_q16 m)) _). exists target.
  assert (Ht : cb_cwnd_q16 m <= target <=
    Z.min limit_q16 (cb_cwnd_q16 m + cb_cwnd_q16 m / 2)) by (unfold target; lia).
  split; [done|]. clearbody target. cbn.
  rewrite (u64_small (target - _)) by lia. rewrite Z.shiftl_mul_pow2 by lia.
  rewrite (u64_small (_ * 2 ^ 16)) by lia. change (2 ^ 16) with 65536.
  pose proof (cubic_half_segment (cb_cwnd_q16 m) target).
  rewrite (cubic_add_sat_spec (cb_cwnd_q16 m)) by lia.
  destruct (target - cb_cwnd_q16 m =? 0) eqn:E; cbn.
  - replace (target - cb_cwnd_q16 m) with 0 by lia.
    rewrite Z.mul_0_l, Z.div_0_l by lia. destruct m; rec_eq. lia.
  - destruct (cb_cwnd_q16 m =? 0) eqn:E2; cbn; [lia|]. rec_eq. lia.
Qed.

Lemma cubic_target_step_wf m limit_q16 elapsed srtt :
  cubic_wf m -> 1 <= cb_cwnd_q16 m <= limit_q16 -> limit_q16 <= 281474976710656 ->
  in_u64 elapsed -> in_u64 srtt -> cubic_wf (cubic_target_step m limit_q16 elapsed srtt).
Proof.
  intros Hm Hc Hl He Hs.
  destruct (cubic_target_step_spec m limit_q16 elapsed srtt) as (target & Ht & ->); try done.
  pose proof (cubic_half_segment (cb_cwnd_q16 m) target).
  cubic_wf_tac.
Qed.

Lemma cubic_beta_flight_spec t segments :
  transport_usable t -> 0 <= segments <= 2 ->
  tcp_shift_cubic_beta_flight_bytes t segments =
  Z.min (tp_cwnd_limit_bytes t)
    (Z.max (tp_inflight_bytes t * 7 / 10) (tp_mss_bytes t * segments)).
Proof.
  intros [(? & ? & ? & ?) ?] Hs. unfold tcp_shift_cubic_beta_flight_bytes.
  rewrite (u64_small (_ * 7)), (u64_small (_ * segments)) by nia. autorewrite with cubic.
  assert (0 <= tp_inflight_bytes t * 7 / 10 <= UINT32_MAX) by div_lia.
  rewrite (u32_small (_ * 7 / 10)) by lia.
  destruct (tp_mss_bytes t * segments >? tp_cwnd_limit_bytes t) eqn:E;
    [|rewrite u32_small by nia]; case_match; lia.
Qed.

Lemma cubic_note_w_max_wf m : cubic_wf m -> cubic_wf (cubic_note_w_max m).
Proof.
  intros Hm. unfold cubic_note_w_max. cbn zeta.
  pose proof (u64_range (cb_cwnd_q16 m * 17)).
  assert (0 <= u64 (cb_cwnd_q16 m * 17) / 20 <= UINT64_MAX) by div_lia.
  case_match; cubic_wf_tac.
Qed.

Lemma cubic_reduce_wf m t segments :
  cubic_wf m -> transport_usable t -> 0 <= segments <= 2 -> cubic_wf (cubic_reduce m t segments).
Proof.
  intros Hm Ht Hs. unfold cubic_reduce. cbn zeta.
  rewrite cubic_beta_flight_spec by done.
  pose proof (cubic_effective_min_range m t Ht (cubic_wf_min m Hm)).
  destruct Ht as [(? & ? & ? & ?) ?].
  assert (0 <= tp_inflight_bytes t * 7 / 10) by div_lia.
  rewrite cubic_max_u32_spec. set (r := Z.max _ (tcp_shift_cubic_effective_min_bytes _ _)).
  assert (in_u32 r) by (unfold r; lia). clearbody r.
  pose proof (cubic_q16_from_bytes_range r (tp_mss_bytes t)).
  cubic_wf_tac.
Qed.

(** *** Handlers *)

(** Operations that leave the configured sizes alone. *)
Definition same_sizes (m m' : tcp_shift_cubic_model) : Prop :=
  cb_mss_bytes m' = cb_mss_bytes m /\ cb_min_cwnd_bytes m' = cb_min_cwnd_bytes m.

Lemma cubic_inv_step limit m m' :
  cubic_inv limit m -> cubic_wf m' -> same_sizes m m' -> cubic_inv limit m'.
Proof. intros (? & _ & ? & ?) ? [Hs1 Hs2]. unfold cubic_inv. rewrite Hs1, Hs2. done. Qed.

Ltac same_sizes_tac := split; cbn; cases; simplify_eq/=; done.

Lemma cubic_normalize_inv limit m t :
  cubic_inv limit m -> transport_usable t -> cubic_inv limit (tcp_shift_cubic_normalize m t).
Proof.
  intros Hm Ht. eapply cubic_inv_step; [done|eauto using cubic_normalize_wf, cubic_inv_wf|].
  same_sizes_tac.
Qed.

Lemma cubic_publish_inv limit m t :
  cubic_inv limit m -> transport_usable t -> cubic_inv limit (tcp_shift_cubic_publish m t).1.
Proof.
  intros Hm Ht. eapply cubic_inv_step; [done|eauto using cubic_publish_wf, cubic_inv_wf|].
  unfold tcp_shift_cubic_publish. same_sizes_tac.
Qed.

Lemma cubic_finish_inv limit m :
  cubic_inv limit m -> cubic_inv limit (tcp_shift_cubic_finish_hystartpp m).
Proof.
  intros Hm. eapply cubic_inv_step; [done|eauto using cubic_finish_wf, cubic_inv_wf|].
  unfold tcp_shift_cubic_finish_hystartpp. same_sizes_tac.
Qed.

Lemma cubic_start_epoch_sizes m now : same_sizes m (tcp_shift_cubic_start_epoch m now).
Proof. unfold tcp_shift_cubic_start_epoch. same_sizes_tac. Qed.

Lemma cubic_start_epoch_cwnd m now :
  cb_cwnd_q16 (tcp_shift_cubic_start_epoch m now) = cb_cwnd_q16 m.
Proof. unfold tcp_shift_cubic_start_epoch. cbn. cases; simplify_eq/=; done. Qed.

Lemma cubic_resume_inv limit m now :
  cubic_inv limit m -> in_u64 now -> cubic_inv limit (cubic_resume_epoch m now).
Proof.
  intros Hm Hn. eapply cubic_inv_step; [done|eauto using cubic_resume_wf, cubic_inv_wf|].
  unfold cubic_resume_epoch. same_sizes_tac.
Qed.

Lemma cubic_pause_inv limit m now :
  cubic_inv limit m -> in_u64 now -> cubic_inv limit (cubic_pause_epoch m now).
Proof.
  intros Hm Hn. eapply cubic_inv_step; [done|eauto using cubic_pause_wf, cubic_inv_wf|].
  unfold cubic_pause_epoch. same_sizes_tac.
Qed.

Lemma cubic_note_w_max_inv limit m : cubic_inv limit m -> cubic_inv limit (cubic_note_w_max m).
Proof.
  intros Hm. eapply cubic_inv_step; [done|eauto using cubic_note_w_max_wf, cubic_inv_wf|].
  unfold cubic_note_w_max. same_sizes_tac.
Qed.

Lemma cubic_reduce_inv limit m t segments :
  cubic_inv limit m -> transport_usable t -> 0 <= segments <= 2 ->
  cubic_inv limit (cubic_reduce m t segments).
Proof.
  intros Hm Ht Hs. eapply cubic_inv_step; [done|eauto using cubic_reduce_wf, cubic_inv_wf|].
  same_sizes_tac.
Qed.

Create HintDb cubic.
#[export] Hint Resolve cubic_inv_wf cubic_normalize_inv cubic_publish_inv cubic_finish_inv
  cubic_resume_inv cubic_pause_inv cubic_note_w_max_inv cubic_reduce_inv : cubic.

(** The result of a handler: invariant always, acceptable policy on success. *)
Definition cubic_safe_result (t : tcp_shift_cc_transport)
    (r : Z * tcp_shift_cubic_model * tcp_shift_cc_policy) : Prop :=
  cubic_inv (tp_cwnd_limit_bytes t) r.1.2 /\ (r.1.1 = 0 -> policy_ok t r.2).

Lemma cubic_return_publish_safe m t :
  cubic_inv (tp_cwnd_limit_bytes t) m -> transport_usable t ->
  cubic_safe_result t (cubic_return (tcp_shift_cubic_publish m t)).
Proof.
  intros Hm Ht. unfold cubic_safe_result, cubic_return.
  pose proof (cubic_publish_inv _ m t Hm Ht) as Hi.
  destruct (cubic_publish_policy m t (cubic_inv_wf _ _ Hm) Ht) as [Hp _].
  destruct (tcp_shift_cubic_publish m t); cbn in *. done.
Qed.

Lemma cubic_error_safe m t p :
  cubic_inv (tp_cwnd_limit_bytes t) m -> cubic_safe_result t (-1, m, p).
Proof. intros. split; [done|]. cbn; lia. Qed.

#[export] Hint Resolve cubic_return_publish_safe cubic_error_safe : cubic.

Lemma cubic_enter_spec limit m t :
  cubic_inv limit m -> transport_usable t ->
  exists m', cubic_enter m t = (0, m') /\ cubic_inv limit m' /\
    cb_mss_bytes m' = tp_mss_bytes t.
Proof.
  intros (Hl & Hw & Hmss & Hmin) Ht. pose proof Ht as [(? & _ & _ & ?) ?].
  pose proof (cubic_sync_mss_wf m (tp_mss_bytes t) Hw) as Hwf.
  unfold cubic_enter. destruct (_ || _) eqn:E; [lia|].
  unfold tcp_shift_cubic_sync_mss in *.
  destruct ((tp_mss_bytes t =? 0) || (cb_mss_bytes m =? 0)) eqn:E1; [lia|].
  destruct (cb_mss_bytes m =? tp_mss_bytes t) eqn:E2.
  - exists m. split; [done|]. split; [done|]. lia.
  - eexists; split; [reflexivity|]. split; [|done].
    unfold cubic_inv. cbn. split_and!; [lia..|auto|lia|done].
Qed.

(** A window field update under the invariant. *)
Lemma cubic_inv_set_cwnd limit m v :
  cubic_inv limit m -> in_u64 v -> cubic_inv limit (m <| cb_cwnd_q16 := v |>).
Proof.
  intros Hm Hv. eapply cubic_inv_step; [done| |done].
  pose proof (cubic_inv_wf _ _ Hm). cubic_wf_tac.
Qed.

Lemma cubic_slow_start_safe m t acked :
  cubic_inv (tp_cwnd_limit_bytes t) m -> transport_usable t -> in_u32 acked ->
  cubic_safe_result t (cubic_return (cubic_slow_start_ack m t acked)).
Proof.
  intros Hm Ht Ha. unfold cubic_slow_start_ack. cbn zeta.
  apply cubic_return_publish_safe; [|done]. apply cubic_finish_inv, cubic_inv_set_cwnd; [done|].
  destruct Ht as [(? & ? & ? & ?) ?].
  set (b := if _ >? _ then _ else _).
  assert (in_u32 b) by (unfold b; case_match; word_facts; lia). clearbody b.
  pose proof (cubic_q16_from_bytes_range b (tp_mss_bytes t)). lia.
Qed.

Lemma cubic_avoidance_safe m t acked now srtt :
  cubic_inv (tp_cwnd_limit_bytes t) m -> transport_usable t -> in_u32 acked ->
  in_u64 now -> in_u64 srtt -> 1 <= cb_cwnd_q16 m <= tcp_shift_cubic_limit_q16 t ->
  cubic_safe_result t (cubic_return (cubic_avoidance_ack m t acked now srtt)).
Proof.
  intros Hm Ht Ha Hn Hs Hc. unfold cubic_avoidance_ack. cbn zeta.
  pose proof (cubic_limit_q16_range t Ht) as Hlim.
  set (m1 := if negb (cb_epoch_active m) then _ else m).
  assert (Hm1 : cubic_inv (tp_cwnd_limit_bytes t) m1).
  { unfold m1. case_match; [|done].
    eauto using cubic_inv_step, cubic_start_epoch_wf, cubic_inv_wf, cubic_start_epoch_sizes. }
  assert (Hc1 : cb_cwnd_q16 m1 = cb_cwnd_q16 m)
    by (unfold m1; case_match; [apply cubic_start_epoch_cwnd|done]).
  clearbody m1.
  set (b := tcp_shift_cubic_bytes_from_q16 _ _ _).
  assert (Hb : 0 <= b).
  { unfold b, tcp_shift_cubic_bytes_from_q16. destruct Ht as [(? & ? & ? & ?) ?].
    cases; word_facts; lia. }
  clearbody b.
  set (m2 := tcp_shift_cubic_update_w_est _ _ _ _).
  assert (Hm2 : cubic_inv (tp_cwnd_limit_bytes t) m2).
  { eapply cubic_inv_step; [exact Hm1| |done]. unfold m2.
    apply cubic_update_w_est_wf; eauto with cubic; lia. }
  assert (Hc2 : cb_cwnd_q16 m2 = cb_cwnd_q16 m) by done.
  clearbody m2. clear Hm1 Hc1 m1.
  pose proof (cubic_inv_wf _ _ Hm2) as Hwf.
  case_match.
  - apply cubic_return_publish_safe; [|done].
    eapply cubic_inv_step; [exact Hm2| |done]. cubic_wf_tac.
  - apply cubic_return_publish_safe; [|done].
    eapply cubic_inv_step; [exact Hm2| |].
    + apply cubic_target_step_wf; try done; try lia.
      apply cubic_time_q10_range. auto with word.
    + unfold cubic_target_step. same_sizes_tac.
Qed.

Lemma cubic_ack_body_safe m t a now srtt p :
  cubic_inv (tp_cwnd_limit_bytes t) m -> transport_usable t -> in_u32 (ack_acked_bytes a) ->
  in_u64 now -> in_u64 srtt -> cubic_safe_result t (cubic_ack_body m t a now srtt p).
Proof.
  intros Hm Ht Ha Hn Hs. unfold cubic_ack_body. cbn zeta.
  pose proof (cubic_normalize_inv _ m t Hm Ht) as Hn0.
  pose proof (cubic_normalize_window m t (cubic_inv_wf _ _ Hm) Ht) as Hw0.
  set (m0 := tcp_shift_cubic_normalize m t) in *. clearbody m0. clear Hm m.
  case_match; [auto with cubic|].
  set (m1 := if has_flag _ _ then _ else m0).
  assert (Hm1 : cubic_inv (tp_cwnd_limit_bytes t) m1).
  { unfold m1. case_match; [|done]. eapply cubic_inv_step; [exact Hn0| |done].
    pose proof (cubic_inv_wf _ _ Hn0). cubic_wf_tac. }
  assert (Hc1 : cb_cwnd_q16 m1 = cb_cwnd_q16 m0) by (unfold m1; by case_match).
  clearbody m1. case_match; [auto with cubic|].
  set (m2 := _ <| cb_ack_events := _ |>).
  assert (Hm2 : cubic_inv (tp_cwnd_limit_bytes t) m2).
  { pose proof (cubic_resume_inv _ m1 now Hm1 Hn) as Hr.
    eapply cubic_inv_step; [exact Hr| |done].
    pose proof (cubic_inv_wf _ _ Hr). unfold m2. cubic_wf_tac. }
  assert (Hc2 : cb_cwnd_q16 m2 = cb_cwnd_q16 m1)
    by (unfold m2, cubic_resume_epoch; cbn; cases; done).
  clearbody m2. case_match.
  - by apply cubic_slow_start_safe.
  - apply cubic_avoidance_safe; try done. lia.
Qed.

Lemma cubic_on_ack_safe m t a now srtt p :
  cubic_inv (tp_cwnd_limit_bytes t) m -> transport_usable t -> in_u32 (ack_acked_bytes a) ->
  in_u64 now -> in_u64 srtt ->
  cubic_safe_result t (tcp_shift_cubic_model_on_ack m t a now srtt p).
Proof.
  intros Hm Ht Ha Hn Hs. unfold tcp_shift_cubic_model_on_ack.
  case_match; [auto with cubic|].
  destruct (cubic_enter_spec _ m t Hm Ht) as (m' & -> & Hm' & _). cbn [negb Z.eqb].
  case_match; [auto with cubic|]. by apply cubic_ack_body_safe.
Qed.

Lemma cubic_inv_set_loss_events limit m v :
  cubic_inv limit m -> in_u32 v -> cubic_inv limit (m <| cb_loss_events := v |>).
Proof.
  intros Hm Hv. eapply cubic_inv_step; [exact Hm| |done].
  pose proof (cubic_inv_wf _ _ Hm). cubic_wf_tac.
Qed.

Lemma cubic_inv_set_ecn_events limit m v :
  cubic_inv limit m -> in_u32 v -> cubic_inv limit (m <| cb_ecn_events := v |>).
Proof.
  intros Hm Hv. eapply cubic_inv_step; [exact Hm| |done].
  pose proof (cubic_inv_wf _ _ Hm). cubic_wf_tac.
Qed.

(** The window reduction of a loss or ECN event. *)
Lemma cubic_reduced_inv limit m t segments :
  cubic_inv limit m -> transport_usable t -> 0 <= segments <= 2 ->
  cubic_inv limit
    (cubic_reduce (cubic_note_w_max (tcp_shift_cubic_normalize m t)) t segments).
Proof. intros. by apply cubic_reduce_inv; [apply cubic_note_w_max_inv, cubic_normalize_inv|..]. Qed.

Lemma cubic_on_loss_safe m t l p :
  cubic_inv (tp_cwnd_limit_bytes t) m -> transport_usable t ->
  cubic_safe_result t (tcp_shift_cubic_model_on_loss m t l p).
Proof.
  intros Hm Ht. unfold tcp_shift_cubic_model_on_loss.
  case_match; [auto with cubic|].
  destruct (cubic_enter_spec _ m t Hm Ht) as (m' & -> & Hm' & _). cbn [negb Z.eqb].
  apply cubic_return_publish_safe; [|done].
  apply cubic_inv_set_loss_events; [|apply u32_range]. apply cubic_reduced_inv; [done..|lia].
Qed.

Lemma cubic_on_ecn_safe m t p :
  cubic_inv (tp_cwnd_limit_bytes t) m -> transport_usable t ->
  cubic_safe_result t (tcp_shift_cubic_model_on_ecn m t p).
Proof.
  intros Hm Ht. unfold tcp_shift_cubic_model_on_ecn.
  destruct (cubic_enter_spec _ m t Hm Ht) as (m' & -> & Hm' & _). cbn [negb Z.eqb].
  apply cubic_return_publish_safe; [|done].
  apply cubic_inv_set_ecn_events; [|apply u32_range]. apply cubic_reduced_inv; [done..|lia].
Qed.

Lemma cubic_on_timeout_safe m t p :
  cubic_inv (tp_cwnd_limit_bytes t) m -> transport_usable t ->
  cubic_safe_result t (tcp_shift_cubic_model_on_timeout m t p).
Proof.
  intros Hm Ht. unfold tcp_shift_cubic_model_on_timeout.
  destruct (cubic_enter_spec _ m t Hm Ht) as (m' & -> & Hm' & _). cbn [negb Z.eqb].
  pose proof (cubic_normalize_inv _ m' t Hm' Ht) as Hn.
  apply cubic_return_publish_safe; [|done]. eapply cubic_inv_step; [exact Hn| |done].
  rewrite cubic_beta_flight_spec by (done || lia).
  pose proof (cubic_inv_wf _ _ Hn) as Hwf.
  pose proof (cubic_effective_min_range _ t Ht (cubic_wf_min _ Hwf)) as Hmin.
  set (n := tcp_shift_cubic_normalize m' t) in *. clearbody n.
  set (e := tcp_shift_cubic_effective_min_bytes _ _).
  assert (He : e = tcp_shift_cubic_effective_min_bytes n t) by done. rewrite <- He in Hmin.
  clearbody e. destruct Ht as [(? & ? & ? & ?) ?].
  assert (0 <= tp_inflight_bytes t * 7 / 10) by div_lia.
  set (r := Z.min _ _). assert (in_u32 r) by (unfold r; lia). clearbody r.
  pose proof (cubic_q16_from_bytes_range r (tp_mss_bytes t)).
  pose proof (cubic_q16_from_bytes_range e (tp_mss_bytes t)).
  cubic_wf_tac.
Qed.

Lemma cubic_init_safe m t i p m' p' :
  transport_usable t -> init_wf i ->
  tcp_shift_cubic_model_init m t i p = (0, m', p') ->
  cubic_inv (tp_cwnd_limit_bytes t) m' /\ policy_ok t p'.
Proof.
  intros Ht (Hi1 & Hi2 & Hi3). unfold tcp_shift_cubic_model_init. cbn zeta.
  case_match; [done|]. case_match eqn:G; [done|].
  set (m0 := cubic_zero <| _ := _ |> <| _ := _ |> <| _ := _ |> <| _ := _ |> <| _ := _ |>).
  assert (Hm0 : cubic_inv (tp_cwnd_limit_bytes t) m0).
  { destruct Ht as [(? & ? & ? & ?) ?].
    pose proof (cubic_q16_from_bytes_range (ini_initial_cwnd_bytes i) (tp_mss_bytes t)).
    pose proof (cubic_q16_from_bytes_range (ini_initial_ssthresh_bytes i) (tp_mss_bytes t)).
    unfold cubic_inv. split_and!; [lia..| |cbn; lia|cbn; lia]. unfold m0. cubic_wf_tac. }
  clearbody m0. pose proof (cubic_publish_inv _ m0 t Hm0 Ht).
  destruct (cubic_publish_policy m0 t (cubic_inv_wf _ _ Hm0) Ht) as [? _].
  destruct (tcp_shift_cubic_publish m0 t); intros [= <- <-]. done.
Qed.
