(* ===== verification/CubicController.v ===== *)
(** * HyStart++ and the CUBIC controller
    ([src/cc/cubic_hystart.c], [src/cc/cubic_controller.c])

    The RFC 9406 initial-slow-start observer, the ACK credit policy and the
    vtable that composes them with the model of [Cubic]. *)

From Stdlib Require Import ZArith Lia Bool List String.
From stdpp Require Import base tactics numbers list.
From S2P Require Import Prelude CC Cubic.
Local Open Scope Z_scope.

Abbreviation TCP_SHIFT_CUBIC_HYSTARTPP_MIN_RTT_THRESH_NS := 4000000.
Abbreviation TCP_SHIFT_CUBIC_HYSTARTPP_MAX_RTT_THRESH_NS := 16000000.
Abbreviation TCP_SHIFT_CUBIC_HYSTARTPP_MIN_RTT_DIVISOR := 8.
Abbreviation TCP_SHIFT_CUBIC_HYSTARTPP_MIN_SAMPLES := 8.
Abbreviation TCP_SHIFT_CUBIC_HYSTARTPP_CSS_ROUNDS := 5.
Abbreviation TCP_SHIFT_CUBIC_HYSTARTPP_NON_PACED_L := 8.

(** ** HyStart++ *)

Definition tcp_shift_cubic_hystart_delay_threshold (last_round_min_rtt_ns : Z) : Z :=
  let threshold := last_round_min_rtt_ns / TCP_SHIFT_CUBIC_HYSTARTPP_MIN_RTT_DIVISOR in
  let threshold := if threshold <? TCP_SHIFT_CUBIC_HYSTARTPP_MIN_RTT_THRESH_NS
                   then TCP_SHIFT_CUBIC_HYSTARTPP_MIN_RTT_THRESH_NS else threshold in
  if threshold >? TCP_SHIFT_CUBIC_HYSTARTPP_MAX_RTT_THRESH_NS
  then TCP_SHIFT_CUBIC_HYSTARTPP_MAX_RTT_THRESH_NS else threshold.

Definition tcp_shift_cubic_hystart_add_sat_u64 (left right : Z) : Z :=
  if right >? UINT64_MAX -w64 left then UINT64_MAX else left +w64 right.

Definition tcp_shift_cubic_hystart_is_slow_start (model : tcp_shift_cubic_model) : bool :=
  cb_cwnd_q16 model <? cb_ssthresh_q16 model.

Definition tcp_shift_cubic_hystart_reset (model : tcp_shift_cubic_model)
    : tcp_shift_cubic_model :=
  model <| cb_hystart_last_round_min_rtt_ns := UINT64_MAX |>
        <| cb_hystart_current_round_min_rtt_ns := UINT64_MAX |>
        <| cb_hystart_css_baseline_min_rtt_ns := UINT64_MAX |>
        <| cb_hystart_next_round_delivered := 0 |>
        <| cb_hystart_sample_count := 0 |>
        <| cb_hystart_css_rounds := 0 |>
        <| cb_hystart_exit_events := 0 |>
        <| cb_hystart_css_enter_events := 0 |>
        <| cb_hystart_css_revert_events := 0 |>
        <| cb_hystart_enabled := true |>
        <| cb_hystart_css := false |>
        <| cb_hystart_ack_css := false |>
        <| cb_hystart_exit_pending := false |>
        <| cb_hystart_initial_complete := false |>.

Definition tcp_shift_cubic_hystart_disable (model : tcp_shift_cubic_model)
    : tcp_shift_cubic_model :=
  model <| cb_hystart_enabled := false |>
        <| cb_hystart_css := false |>
        <| cb_hystart_ack_css := false |>
        <| cb_hystart_exit_pending := false |>
        <| cb_hystart_initial_complete := true |>.

Definition tcp_shift_cubic_hystart_start_round (model : tcp_shift_cubic_model)
    (transport : tcp_shift_cc_transport) (ack : tcp_shift_cc_ack) : tcp_shift_cubic_model :=
  model <| cb_hystart_last_round_min_rtt_ns := cb_hystart_current_round_min_rtt_ns model |>
        <| cb_hystart_current_round_min_rtt_ns := UINT64_MAX |>
        <| cb_hystart_sample_count := 0 |>
        <| cb_hystart_next_round_delivered :=
             tcp_shift_cubic_hystart_add_sat_u64
               (rs_delivered_total_bytes (ack_rate ack)) (tp_inflight_bytes transport) |>.

(** Whether the ACK opens a new packet-timed round. *)
Definition hystart_new_round (model : tcp_shift_cubic_model) (ack : tcp_shift_cc_ack) : bool :=
  (cb_hystart_next_round_delivered model =? 0) ||
  (negb (rs_delivered_total_bytes (ack_rate ack) =? 0) &&
   (rs_delivered_total_bytes (ack_rate ack) >=? cb_hystart_next_round_delivered model)).

(** The round bookkeeping; the boolean says the fifth CSS round is over. *)
Definition hystart_round_step (model : tcp_shift_cubic_model)
    (transport : tcp_shift_cc_transport) (ack : tcp_shift_cc_ack)
    : bool * tcp_shift_cubic_model :=
  if hystart_new_round model ack then
    let model :=
      if cb_hystart_css model && negb (cb_hystart_next_round_delivered model =? 0)
      then model <| cb_hystart_css_rounds := cb_hystart_css_rounds model +w32 1 |>
      else model in
    if cb_hystart_css model && negb (cb_hystart_next_round_delivered model =? 0) &&
       (cb_hystart_css_rounds model >=? TCP_SHIFT_CUBIC_HYSTARTPP_CSS_ROUNDS)
    then (true, model <| cb_hystart_exit_pending := true |>)
    else (false, tcp_shift_cubic_hystart_start_round model transport ack)
  else (false, model).

(** The RTT sample of the ACK and the phase decision it may trigger. *)
Definition hystart_rtt_step (model : tcp_shift_cubic_model) (ack : tcp_shift_cc_ack)
    : Z * tcp_shift_cubic_model :=
  if negb (has_flag (ack_rate ack) TCP_SHIFT_CC_RATE_SAMPLE_RTT_VALID) ||
     (rs_rtt_ns (ack_rate ack) =? 0)
  then (0, model)
  else
    let model :=
      if rs_rtt_ns (ack_rate ack) <? cb_hystart_current_round_min_rtt_ns model
      then model <| cb_hystart_current_round_min_rtt_ns := rs_rtt_ns (ack_rate ack) |>
      else model in
    let model :=
      if negb (cb_hystart_sample_count model =? UINT32_MAX)
      then model <| cb_hystart_sample_count := cb_hystart_sample_count model +w32 1 |>
      else model in
    if cb_hystart_css model then
      if (cb_hystart_sample_count model >=? TCP_SHIFT_CUBIC_HYSTARTPP_MIN_SAMPLES) &&
         (cb_hystart_current_round_min_rtt_ns model <?
            cb_hystart_css_baseline_min_rtt_ns model)
      then (1, model <| cb_hystart_css := false |>
                     <| cb_hystart_css_baseline_min_rtt_ns := UINT64_MAX |>
                     <| cb_hystart_css_rounds := 0 |>
                     <| cb_hystart_css_revert_events :=
                          cb_hystart_css_revert_events model +w32 1 |>)
      else (0, model)
    else if (cb_hystart_sample_count model <? TCP_SHIFT_CUBIC_HYSTARTPP_MIN_SAMPLES) ||
            (cb_hystart_last_round_min_rtt_ns model =? UINT64_MAX) ||
            (cb_hystart_current_round_min_rtt_ns model =? UINT64_MAX)
    then (0, model)
    else
      let threshold_ns := tcp_shift_cubic_hystart_delay_threshold
                            (cb_hystart_last_round_min_rtt_ns model) in
      let trigger_rtt_ns := tcp_shift_cubic_hystart_add_sat_u64
                              (cb_hystart_last_round_min_rtt_ns model) threshold_ns in
      if cb_hystart_current_round_min_rtt_ns model >=? trigger_rtt_ns
      then (1, model <| cb_hystart_css_baseline_min_rtt_ns :=
                          cb_hystart_current_round_min_rtt_ns model |>
                     <| cb_hystart_css := true |>
                     <| cb_hystart_css_rounds := 0 |>
                     <| cb_hystart_css_enter_events :=
                          cb_hystart_css_enter_events model +w32 1 |>)
      else (0, model).

Definition tcp_shift_cubic_hystart_on_ack (model : tcp_shift_cubic_model)
    (transport : tcp_shift_cc_transport) (ack : tcp_shift_cc_ack) (now_ns : Z)
    : Z * tcp_shift_cubic_model :=
  if (now_ns =? 0) || (tp_mss_bytes transport =? 0) then (-1, model)
  else
    let model := model <| cb_hystart_ack_css := cb_hystart_css model |> in
    if negb (cb_hystart_enabled model) || cb_hystart_initial_complete model ||
       negb (tcp_shift_cubic_hystart_is_slow_start model)
    then (0, model)
    else if negb (cb_mss_bytes model =? tp_mss_bytes transport) then (0, model)
    else
      let '(finished, model) := hystart_round_step model transport ack in
      if finished then (1, model) else hystart_rtt_step model ack.

(** ** Controller *)

Definition tcp_shift_cubic_hystartpp_slow_start_credit
    (acked_bytes mss_bytes pacing_active : Z) : Z :=
  if (acked_bytes =? 0) || (mss_bytes =? 0) then 0
  else if negb (pacing_active =? 0) then acked_bytes
  else
    let limit := if mss_bytes >? UINT32_MAX / TCP_SHIFT_CUBIC_HYSTARTPP_NON_PACED_L
                 then UINT32_MAX
                 else mss_bytes *w32 TCP_SHIFT_CUBIC_HYSTARTPP_NON_PACED_L in
    if acked_bytes <? limit then acked_bytes else limit.

Definition tcp_shift_cubic_model_set_hystart_pacing (model : ptr tcp_shift_cubic_model)
    (active : Z) : ptr tcp_shift_cubic_model :=
  (fun m => m <| cb_hystart_pacing_active := negb (active =? 0) |>) <$> model.

Definition tcp_shift_cubic_controller_init (model : tcp_shift_cubic_model)
    (transport : tcp_shift_cc_transport) (init : tcp_shift_cc_init_cfg)
    (policy : tcp_shift_cc_policy) : Z * tcp_shift_cubic_model * tcp_shift_cc_policy :=
  let '(result, model, policy) := tcp_shift_cubic_model_init model transport init policy in
  if result =? 0 then (result, tcp_shift_cubic_hystart_reset model, policy)
  else (result, model, policy).

(** The ACK handed to the model: in slow start, with the capped credit. *)
Definition cubic_growth_ack (model : tcp_shift_cubic_model)
    (transport : tcp_shift_cc_transport) (ack : tcp_shift_cc_ack) : tcp_shift_cc_ack :=
  if cb_cwnd_q16 model <? cb_ssthresh_q16 model
  then ack <| ack_acked_bytes :=
         tcp_shift_cubic_hystartpp_slow_start_credit (ack_acked_bytes ack)
           (tp_mss_bytes transport) (Z.b2z (cb_hystart_pacing_active model)) |>
  else ack.

Definition tcp_shift_cubic_controller_on_ack (model : tcp_shift_cubic_model)
    (transport : tcp_shift_cc_transport) (ack : tcp_shift_cc_ack)
    (policy : tcp_shift_cc_policy) : Z * tcp_shift_cubic_model * tcp_shift_cc_policy :=
  if ack_ack_time_ns ack =? 0 then (-1, model, policy)
  else
    let '(result, model) :=
      tcp_shift_cubic_hystart_on_ack model transport ack (ack_ack_time_ns ack) in
    if result <? 0 then (-1, model, policy)
    else
      tcp_shift_cubic_model_on_ack model transport (cubic_growth_ack model transport ack)
        (ack_ack_time_ns ack) (ack_smoothed_rtt_ns ack) policy.

(** [if (result == 0) tcp_shift_cubic_hystart_disable(model)] *)
Definition cubic_end_initial (r : Z * tcp_shift_cubic_model * tcp_shift_cc_policy)
    : Z * tcp_shift_cubic_model * tcp_shift_cc_policy :=
  let '(result, model, policy) := r in
  if result =? 0 then (result, tcp_shift_cubic_hystart_disable model, policy)
  else (result, model, policy).

Definition tcp_shift_cubic_controller_on_loss (model : tcp_shift_cubic_model)
    (transport : tcp_shift_cc_transport) (loss : tcp_shift_cc_loss)
    (policy : tcp_shift_cc_policy) : Z * tcp_shift_cubic_model * tcp_shift_cc_policy :=
  cubic_end_initial (tcp_shift_cubic_model_on_loss model transport loss policy).

Definition tcp_shift_cubic_controller_on_ecn (model : tcp_shift_cubic_model)
    (transport : tcp_shift_cc_transport)
    (policy : tcp_shift_cc_policy) : Z * tcp_shift_cubic_model * tcp_shift_cc_policy :=
  cubic_end_initial (tcp_shift_cubic_model_on_ecn model transport policy).

Definition tcp_shift_cubic_controller_on_timeout (model : tcp_shift_cubic_model)
    (transport : tcp_shift_cc_transport)
    (policy : tcp_shift_cc_policy) : Z * tcp_shift_cubic_model * tcp_shift_cc_policy :=
  cubic_end_initial (tcp_shift_cubic_model_on_timeout model transport policy).

(** [sizeof(struct tcp_shift_cubic_model)]: fifteen u64, twelve u32, eleven
    bytes, padded to eight. *)
Definition tcp_shift_cubic_ops : tcp_shift_cc_ops tcp_shift_cubic_model := {|
  ops_name := Some "cubic"%string;
  ops_state_size := 184;
  ops_init := Some tcp_shift_cubic_controller_init;
  ops_on_ack := Some tcp_shift_cubic_controller_on_ack;
  ops_on_loss := Some tcp_shift_cubic_controller_on_loss;
  ops_on_ecn := Some tcp_shift_cubic_controller_on_ecn;
  ops_on_timeout := Some tcp_shift_cubic_controller_on_timeout
|}.

(** ** Type invariant *)

Lemma hystart_add_sat_range a b :
  in_u64 a -> in_u64 b -> in_u64 (tcp_shift_cubic_hystart_add_sat_u64 a b).
Proof.
  intros. unfold tcp_shift_cubic_hystart_add_sat_u64. rewrite sat_add_u64_gt by done. lia.
Qed.

Lemma hystart_reset_inv limit m :
  cubic_inv limit m -> cubic_inv limit (tcp_shift_cubic_hystart_reset m).
Proof.
  intros Hm. pose proof (cubic_inv_wf _ _ Hm). eapply cubic_inv_step; [exact Hm| |done].
  unfold tcp_shift_cubic_hystart_reset. cubic_wf_tac.
Qed.

Lemma hystart_disable_inv limit m :
  cubic_inv limit m -> cubic_inv limit (tcp_shift_cubic_hystart_disable m).
Proof.
  intros Hm. pose proof (cubic_inv_wf _ _ Hm). eapply cubic_inv_step; [exact Hm| |done].
  unfold tcp_shift_cubic_hystart_disable. cubic_wf_tac.
Qed.

Lemma hystart_round_step_wf m t a :
  cubic_wf m -> transport_usable t -> ack_wf a -> cubic_wf (hystart_round_step m t a).2.
Proof.
  intros Hm [(? & ? & ? & ?) ?] (? & ? & ? & (? & ? & ? & ? & ? & ? & ?)).
  pose proof (hystart_add_sat_range (rs_delivered_total_bytes (ack_rate a))
    (tp_inflight_bytes t)).
  unfold hystart_round_step, tcp_shift_cubic_hystart_start_round.
  cases; cbn [snd]; try done; cubic_wf_tac.
Qed.

Lemma hystart_rtt_step_wf m a : cubic_wf m -> ack_wf a -> cubic_wf (hystart_rtt_step m a).2.
Proof.
  intros Hm (? & ? & ? & (? & ? & ? & ? & ? & ? & ?)). unfold hystart_rtt_step. cbn zeta.
  case_match; [done|].
  set (m1 := if _ <? _ then _ else m).
  assert (cubic_wf m1) by (unfold m1; case_match; [cubic_wf_tac|done]). clearbody m1.
  set (m2 := if negb _ then _ else m1).
  assert (cubic_wf m2) by (unfold m2; case_match; [cubic_wf_tac|done]). clearbody m2.
  clear Hm m. cases; cbn [snd]; try done; cubic_wf_tac.
Qed.

Lemma hystart_on_ack_inv limit m t a now :
  cubic_inv limit m -> transport_usable t -> ack_wf a ->
  cubic_inv limit (tcp_shift_cubic_hystart_on_ack m t a now).2.
Proof.
  intros Hm Ht Ha. unfold tcp_shift_cubic_hystart_on_ack. case_match; [done|]. cbn zeta.
  set (m1 := m <| cb_hystart_ack_css := _ |>).
  assert (Hm1 : cubic_inv limit m1).
  { eapply cubic_inv_step; [exact Hm| |done]. pose proof (cubic_inv_wf _ _ Hm).
    unfold m1. cubic_wf_tac. }
  clearbody m1. case_match; [done|]. case_match; [done|].
  assert (Hm2 : cubic_inv limit (hystart_round_step m1 t a).2).
  { eapply cubic_inv_step; [exact Hm1|eauto using hystart_round_step_wf with cubic|].
    unfold hystart_round_step, tcp_shift_cubic_hystart_start_round. same_sizes_tac. }
  destruct (hystart_round_step m1 t a) as [[] m2]; cbn in Hm2 |- *; [done|].
  eapply cubic_inv_step; [exact Hm2|eauto using hystart_rtt_step_wf with cubic|].
  unfold hystart_rtt_step. same_sizes_tac.
Qed.

(** RFC 9406's ACK credit: at most the acknowledged bytes, at most eight
    segments when the flow is not paced. *)
Lemma slow_start_credit_spec acked mss active :
  in_u32 acked -> in_u32 mss ->
  tcp_shift_cubic_hystartpp_slow_start_credit acked mss active =
  if (mss =? 0) then 0 else if active =? 0 then Z.min acked (8 * mss) else acked.
Proof.
  intros. unfold tcp_shift_cubic_hystartpp_slow_start_credit.
  change (UINT32_MAX / 8) with 536870911.
  destruct (acked =? 0) eqn:E0, (mss =? 0) eqn:E1; cbn [orb]; try done.
  - case_match; lia.
  - destruct (active =? 0); cbn [negb]; [|done].
    destruct (mss >? 536870911) eqn:E2; [case_match; lia|].
    rewrite u32_small by lia. case_match; lia.
Qed.

(** ** The controller keeps the boundary's contract *)

Lemma cubic_growth_ack_range m t a :
  transport_usable t -> ack_wf a -> in_u32 (ack_acked_bytes (cubic_growth_ack m t a)).
Proof.
  intros [(? & ? & ? & ?) ?] (? & _). unfold cubic_growth_ack. case_match; [|done]. cbn.
  rewrite slow_start_credit_spec by lia. cases; lia.
Qed.

Lemma cubic_controller_on_ack_safe t a :
  transport_usable t -> ack_wf a ->
  callback_safe cubic_inv t (fun s => tcp_shift_cubic_controller_on_ack s t a).
Proof.
  intros Ht Ha m p rc m' p' Hm. unfold tcp_shift_cubic_controller_on_ack.
  case_match; [intros [= <- <- <-]; split; [done|lia]|].
  pose proof (hystart_on_ack_inv _ m t a (ack_ack_time_ns a) Hm Ht Ha) as Hh.
  destruct (tcp_shift_cubic_hystart_on_ack m t a (ack_ack_time_ns a)) as [r m1]. cbn in Hh.
  case_match; [intros [= <- <- <-]; split; [done|lia]|]. intros E.
  pose proof Ha as (_ & ? & ? & _).
  pose proof (cubic_on_ack_safe m1 t (cubic_growth_ack m1 t a) (ack_ack_time_ns a)
    (ack_smoothed_rtt_ns a) p Hh Ht (cubic_growth_ack_range m1 t a Ht Ha)) as [Hi Hp];
    [done|done|]. rewrite E in Hi, Hp. done.
Qed.

Lemma cubic_end_initial_safe t f :
  (forall m p, cubic_inv (tp_cwnd_limit_bytes t) m -> cubic_safe_result t (f m p)) ->
  callback_safe cubic_inv t (fun m p => cubic_end_initial (f m p)).
Proof.
  intros Hf m p rc m' p' Hm. specialize (Hf m p Hm). unfold cubic_end_initial.
  destruct (f m p) as [[r m1] p1]. destruct Hf as [Hi Hp]; cbn in Hi, Hp.
  case_match; intros [= <- <- <-]; split; auto using hystart_disable_inv.
Qed.

#[export] Program Instance cubic_safe : SafeController tcp_shift_cubic_ops := {|
  sc_inv := cubic_inv
|}.
Next Obligation.
  intros f s t i p s' p' [= <-] Ht Hi Hv E.
  unfold tcp_shift_cubic_controller_init in E.
  destruct (tcp_shift_cubic_model_init s t i p) as [[r m] q] eqn:E0.
  destruct (r =? 0) eqn:Hr; simplify_eq; try lia.
  destruct (cubic_init_safe s t i p m p') as [? ?]; eauto using transport_usable_intro.
  split; [|done]. by apply hystart_reset_inv.
Qed.
Next Obligation.
  intros; simplify_eq/=. apply cubic_controller_on_ack_safe; eauto using transport_usable_intro.
Qed.
Next Obligation.
  intros; simplify_eq/=. apply cubic_end_initial_safe. intros.
  apply cubic_on_loss_safe; eauto using transport_usable_intro.
Qed.
Next Obligation.
  intros; simplify_eq/=. apply cubic_end_initial_safe. intros.
  apply cubic_on_ecn_safe; eauto using transport_usable_intro.
Qed.
Next Obligation.
  intros; simplify_eq/=. apply cubic_end_initial_safe. intros.
  apply cubic_on_timeout_safe; eauto using transport_usable_intro.
Qed.
