(* ===== verification/CubicSpec.v ===== *)
(** * Correctness of CUBIC

    Properties of the integer routines and of the window curve, the reaction
    to ACKs and losses, and the invariants of the controller as a state
    machine (HyStart++ phases, epoch clock). *)

From Stdlib Require Import ZArith Lia Bool List String.
From stdpp Require Import base tactics numbers list relations.
From S2P Require Import Prelude CC Cubic CubicController.
Local Open Scope Z_scope.

(** ** The curve *)

Lemma cubic_term_0 : cubic_term 0 = 0.
Proof. reflexivity. Qed.

Lemma cube_pow x : x ^ 3 = x * x * x.
Proof. ring. Qed.

(** [tcp_shift_cubic_cuberoot_floor] terminates within its 32 halvings and
    returns exactly the integer cube root, for every 64-bit argument. *)
Theorem cubic_cuberoot_exact value :
  in_u64 value ->
  let r := tcp_shift_cubic_cuberoot_floor value in
  0 <= r /\ r ^ 3 <= value < (r + 1) ^ 3.
Proof.
  intros Hv. destruct (cubic_cuberoot_spec value Hv) as [H1 H2]. revert H1 H2.
  generalize (tcp_shift_cubic_cuberoot_floor value). intros r H1 H2. cbn zeta.
  rewrite !cube_pow. lia.
Qed.

Lemma cubic_cuberoot_exact_witness :
  2642245 ^ 3 <= UINT64_MAX < (2642245 + 1) ^ 3.
Proof. apply (cubic_cuberoot_exact UINT64_MAX). lia. Defined.

(** Shape of the window curve: [tcp_shift_cubic_window_q16] is monotone in
    time, reaches exactly W_max at time K, stays at or below it before K and
    at or above it after K, saturating rather than wrapping. *)
Theorem cubic_window_shape m t1 t2 :
  in_u64 (cb_k_q10 m) -> in_u64 (cb_w_max_q16 m) -> 0 <= t1 <= t2 -> in_u64 t2 ->
  let W := tcp_shift_cubic_window_q16 m in
  W t1 <= W t2 /\ W (cb_k_q10 m) = cb_w_max_q16 m /\
  (t1 <= cb_k_q10 m -> W t1 <= cb_w_max_q16 m) /\
  (cb_k_q10 m <= t2 -> cb_w_max_q16 m <= W t2).
Proof.
  intros Hk Hw Ht H2 W.
  assert (Heq : W (cb_k_q10 m) = cb_w_max_q16 m).
  { unfold W. rewrite cubic_window_spec by done.
    rewrite (proj2 (Z.leb_le _ _)), Z.sub_diag, cubic_term_0 by lia. lia. }
  split; [apply cubic_window_mono; lia|]. split; [done|].
  split; intros; rewrite <- Heq; apply cubic_window_mono; lia.
Qed.

Lemma cubic_window_shape_witness :
  let m := cubic_zero <| cb_k_q10 := 2000 |> <| cb_w_max_q16 := 6553600 |> in
  tcp_shift_cubic_window_q16 m 2000 = 6553600 /\
  tcp_shift_cubic_window_q16 m 1000 <= tcp_shift_cubic_window_q16 m 3000.
Proof.
  intros m. destruct (cubic_window_shape m 1000 3000) as (H1 & H2 & _);
    [cbn; lia..|]. split; [exact H2|exact H1].
Defined.

Lemma cubic_start_epoch_fields m now :
  let fresh := cb_after_timeout m || negb (cb_has_w_max m) in
  let m' := tcp_shift_cubic_start_epoch m now in
  cb_k_q10 m' = (if fresh then 0 else cubic_epoch_k m) /\
  cb_w_max_q16 m' = (if fresh then cb_cwnd_q16 m else cb_w_max_q16 m).
Proof.
  unfold tcp_shift_cubic_start_epoch. cbn.
  destruct (cb_cwnd_prior_q16 m =? 0); cbn;
    destruct (cb_after_timeout m || negb (cb_has_w_max m)); done.
Qed.

(** Start of an epoch after a reduction: K is chosen so that the curve
    begins at or just above the current window and below W_max — with any
    larger K it would begin at or below the window — and, without a previous
    maximum or after a timeout, the curve starts exactly at the window. *)
Theorem cubic_epoch_start_on_curve m now :
  in_u64 (cb_cwnd_q16 m) -> in_u64 (cb_w_max_q16 m) ->
  (cb_w_max_q16 m - cb_cwnd_q16 m) * 40960 <= UINT64_MAX ->
  let m' := tcp_shift_cubic_start_epoch m now in
  let W k := tcp_shift_cubic_window_q16 (m' <| cb_k_q10 := k |>) in
  if cb_after_timeout m || negb (cb_has_w_max m) then
    cb_k_q10 m' = 0 /\ W 0 0 = cb_cwnd_q16 m
  else
    (cb_cwnd_q16 m <= cb_w_max_q16 m ->
     cb_cwnd_q16 m <= W (cb_k_q10 m') 0 <= cb_w_max_q16 m) /\
    (forall k, cb_cwnd_q16 m <= cb_w_max_q16 m ->
       cb_k_q10 m' < k <= UINT32_MAX -> W k 0 <= cb_cwnd_q16 m).
Proof.
  intros Hc Hw Hd m' W.
  destruct (cb_after_timeout m || negb (cb_has_w_max m)) eqn:E.
  { destruct (cubic_start_epoch_fields m now) as [Hk0 Hm]. rewrite E in Hk0, Hm.
    fold m' in Hk0, Hm. split; [done|]. unfold W. rewrite cubic_window_spec by (cbn; rewrite ?Hm; lia).
    cbn. rewrite Hm, Z.sub_diag, cubic_term_0. lia. }
  destruct (cubic_start_epoch_fields m now) as [Hk0 Hm]. rewrite E in Hk0, Hm.
  fold m' in Hk0, Hm. rewrite Hk0.
  assert (HW : forall k, 0 <= k <= UINT32_MAX -> W k 0 =
    if k =? 0 then cb_w_max_q16 m else Z.max 0 (cb_w_max_q16 m - cubic_term k)).
  { intros k Hk. unfold W. rewrite cubic_window_spec by (cbn; rewrite ?Hm; lia). cbn.
    rewrite Hm, Z.sub_0_r. destruct (k =? 0) eqn:Ek.
    - assert (k = 0) as -> by lia. cbn. rewrite Z.sub_diag, cubic_term_0. lia.
    - rewrite (proj2 (Z.leb_gt k 0)) by lia. done. }
  assert (HK : cb_cwnd_q16 m <= cb_w_max_q16 m ->
    0 <= cubic_epoch_k m <= UINT32_MAX /\
    (cubic_epoch_k m) * (cubic_epoch_k m) * (cubic_epoch_k m)
      <= (cb_w_max_q16 m - cb_cwnd_q16 m) * 40960 <
    (cubic_epoch_k m + 1) * (cubic_epoch_k m + 1) * (cubic_epoch_k m + 1)).
  { intros Hle. unfold cubic_epoch_k. case_match.
    { replace (cb_w_max_q16 m - cb_cwnd_q16 m) with 0 by lia. lia. }
    rewrite u64_small, cubic_mul_sat_spec by lia. rewrite Z.min_r by lia.
    apply cubic_cuberoot_spec. lia. }
  split.
  - intros Hle. destruct (HK Hle) as (HK1 & HK2 & _). rewrite HW by done.
    case_match; [lia|].
    assert (0 <= cubic_term (cubic_epoch_k m) <= cb_w_max_q16 m - cb_cwnd_q16 m); [|lia].
    split; [apply cubic_term_range; lia|]. unfold cubic_term.
    apply Z.div_le_upper_bound; lia.
  - intros k Hle Hk. destruct (HK Hle) as (HK1 & _ & HK3). rewrite HW by lia.
    case_match; [lia|].
    pose proof (cubic_term_mono (cubic_epoch_k m + 1) k).
    assert (cb_w_max_q16 m - cb_cwnd_q16 m <= cubic_term (cubic_epoch_k m + 1)); [|lia].
    unfold cubic_term. apply Z.div_le_lower_bound; lia.
Qed.

Lemma cubic_epoch_start_on_curve_witness :
  let m := cubic_zero <| cb_cwnd_q16 := 655360 |> <| cb_w_max_q16 := 936228 |>
             <| cb_has_w_max := true |> in
  655360 <= tcp_shift_cubic_window_q16 (tcp_shift_cubic_start_epoch m 5) 0 <= 936228.
Proof.
  intros m. destruct (cubic_epoch_start_on_curve m 5) as [H _]; [cbn; lia..|].
  apply H. cbn; lia.
Defined.

(** ** Bytes and Q16 segments *)

Lemma cubic_q16_roundtrip_bounds b mss limit :
  in_u32 b -> 1 <= mss <= 65536 -> b <= limit <= UINT32_MAX ->
  b - 1 <= tcp_shift_cubic_bytes_from_q16 (tcp_shift_cubic_q16_from_bytes b mss) mss limit <= b.
Proof.
  intros Hb Hm Hl. pose proof (cubic_q16_from_bytes_range b mss).
  rewrite cubic_bytes_from_q16_spec by lia.
  rewrite cubic_q16_from_bytes_spec in * by lia.
  assert (b - 1 <= b * 65536 / mss * mss / 65536 <= b); [|lia].
  split; [apply Z.div_le_lower_bound; div_nia | apply Z.div_le_upper_bound; div_nia].
Qed.

(** Converting a window to Q16 segments and back loses at most one byte
    for every segment size up to 65536, and nothing for a whole number of
    segments. *)
Theorem cubic_q16_roundtrip b mss limit :
  in_u32 b -> 1 <= mss <= 65536 -> b <= limit <= UINT32_MAX ->
  let b' := tcp_shift_cubic_bytes_from_q16
              (tcp_shift_cubic_q16_from_bytes b mss) mss limit in
  b - 1 <= b' <= b /\ (b mod mss = 0 -> b' = b).
Proof.
  intros Hb Hm Hl b'. split; [by apply cubic_q16_roundtrip_bounds|].
  intros Hmod. unfold b'. pose proof (cubic_q16_from_bytes_range b mss).
  rewrite cubic_bytes_from_q16_spec by lia.
  rewrite cubic_q16_from_bytes_spec in * by lia.
  rewrite (Z.div_mod b mss), Hmod, Z.add_0_r by lia.
  replace (mss * (b / mss) * 65536) with (b / mss * 65536 * mss) by ring.
  rewrite Z.div_mul by lia.
  replace (b / mss * 65536 * mss) with (mss * (b / mss) * 65536) by ring.
  rewrite Z.div_mul by lia. pose proof (Z.div_mod b mss). lia.
Qed.

Lemma cubic_q16_roundtrip_witness :
  tcp_shift_cubic_bytes_from_q16 (tcp_shift_cubic_q16_from_bytes 14600 1460) 1460 4294967295
  = 14600.
Proof. destruct (cubic_q16_roundtrip 14600 1460 4294967295) as [_ H]; [lia..|]. by apply H. Defined.

(** ** Reaction to loss *)

(** The window a reduction aims at, in bytes. *)
Definition cubic_reduced_bytes (m : tcp_shift_cubic_model) (t : tcp_shift_cc_transport)
    (segments : Z) : Z :=
  Z.max (Z.min (tp_cwnd_limit_bytes t)
           (Z.max (tp_inflight_bytes t * 7 / 10) (tp_mss_bytes t * segments)))
    (tcp_shift_cubic_effective_min_bytes m t).

(** What [tcp_shift_cubic_publish] reports for equal window and threshold. *)
Lemma cubic_publish_equal m t r :
  cubic_wf m -> transport_usable t -> tp_mss_bytes t <= 65536 ->
  tcp_shift_cubic_effective_min_bytes m t <= r <= tp_cwnd_limit_bytes t ->
  cb_cwnd_q16 m = tcp_shift_cubic_q16_from_bytes r (tp_mss_bytes t) ->
  cb_ssthresh_q16 m = tcp_shift_cubic_q16_from_bytes r (tp_mss_bytes t) ->
  let p := (tcp_shift_cubic_publish m t).2 in
  r - 1 <= pol_cwnd_bytes p <= r /\ r - 1 <= pol_ssthresh_bytes p <= r.
Proof.
  intros Hm Ht Hmss Hr Hcw Hss.
  pose proof (cubic_effective_min_range m t Ht (cubic_wf_min m Hm)) as Hmin.
  destruct Ht as [(? & ? & ? & ?) ?].
  pose proof (cubic_q16_roundtrip_bounds r (tp_mss_bytes t) (tp_cwnd_limit_bytes t)) as Hrt.
  unfold tcp_shift_cubic_publish. cbn zeta.
  assert (Hn : cb_cwnd_q16 (tcp_shift_cubic_normalize m t) = cb_cwnd_q16 m /\
               cb_ssthresh_q16 (tcp_shift_cubic_normalize m t) = cb_cwnd_q16 m).
  { unfold tcp_shift_cubic_normalize, tcp_shift_cubic_limit_q16. cbn.
    autorewrite with cubic. rewrite Hcw, Hss, !cubic_q16_from_bytes_spec by lia.
    pose proof (Z.div_le_mono (r * 65536) (tp_cwnd_limit_bytes t * 65536) (tp_mss_bytes t)).
    pose proof (Z.div_le_mono (tcp_shift_cubic_effective_min_bytes m t * 65536)
      (r * 65536) (tp_mss_bytes t)). lia. }
  destruct Hn as [-> ->]. rewrite Hcw.
  change (tcp_shift_cubic_effective_min_bytes (tcp_shift_cubic_normalize m t) t)
    with (tcp_shift_cubic_effective_min_bytes m t).
  set (b := tcp_shift_cubic_bytes_from_q16 _ _ _) in *. clearbody b.
  cases; simplify_eq/=; lia.
Qed.

Lemma cubic_publish_fields m t :
  let m' := (tcp_shift_cubic_publish m t).1 in
  cb_w_max_q16 m' = cb_w_max_q16 m /\ cb_epoch_active m' = cb_epoch_active m /\
  cb_k_q10 m' = cb_k_q10 m.
Proof.
  unfold tcp_shift_cubic_publish. cbn zeta.
  destruct (_ <? _); destruct (_ =? 0); done.
Qed.

(** A loss reported to CUBIC applies RFC 9438's multiplicative decrease:
    the new window and threshold are 0.7 of the data in flight, at least two
    segments and the configured minimum, at most the transport limit (to
    within the one-byte rounding of Q16); W_max records the window before the
    loss, or 17/20 of it when fast convergence applies; the epoch ends. *)
Theorem cubic_loss_response m t l p :
  cubic_inv (tp_cwnd_limit_bytes t) m -> transport_usable t -> tp_mss_bytes t <= 65536 ->
  loss_lost_bytes l <> 0 ->
  let before := tcp_shift_cubic_normalize (cubic_enter m t).2 t in
  let r := cubic_reduced_bytes before t 2 in
  exists m' p', tcp_shift_cubic_model_on_loss m t l p = (0, m', p') /\
    r - 1 <= pol_cwnd_bytes p' <= r /\ r - 1 <= pol_ssthresh_bytes p' <= r /\
    cb_w_max_q16 m' =
      (if cb_fast_convergence before && cb_has_w_max before &&
          (cb_cwnd_q16 before <? cb_w_max_q16 before)
       then cb_cwnd_q16 before * 17 / 20 else cb_cwnd_q16 before) /\
    cb_epoch_active m' = false /\ cb_k_q10 m' = 0.
Proof.
  intros Hm Ht Hmss Hl before r.
  destruct (cubic_enter_spec _ m t Hm Ht) as (m1 & Hent & Hm1 & _).
  assert (Hbef : tcp_shift_cubic_normalize m1 t = before) by (unfold before; by rewrite Hent).
  unfold tcp_shift_cubic_model_on_loss.
  rewrite (proj2 (Z.eqb_neq _ _) Hl), Hent. cbn [negb Z.eqb].
  pose proof (cubic_normalize_inv _ m1 t Hm1 Ht) as Hb.
  pose proof (cubic_normalize_window m1 t (cubic_inv_wf _ _ Hm1) Ht) as Hbw.
  pose proof (cubic_limit_q16_range t Ht) as Hlim.
  rewrite Hbef in Hb, Hbw |- *. clearbody before.
  set (m2 := cubic_reduce (cubic_note_w_max before) t 2).
  set (m3 := m2 <| cb_loss_events := _ |>).
  assert (Hm3 : cubic_wf m3).
  { apply (cubic_inv_wf (tp_cwnd_limit_bytes t)).
    apply cubic_inv_set_loss_events; [|apply u32_range].
    apply cubic_reduce_inv; [by apply cubic_note_w_max_inv|done|lia]. }
  assert (Hmin : cb_min_cwnd_bytes m3 = cb_min_cwnd_bytes before)
    by (unfold m3, m2, cubic_reduce, cubic_note_w_max; cbn; by cases).
  assert (Hem : tcp_shift_cubic_effective_min_bytes m3 t =
                tcp_shift_cubic_effective_min_bytes before t)
    by (unfold tcp_shift_cubic_effective_min_bytes; by rewrite Hmin).
  pose proof (cubic_effective_min_range before t Ht
    (cubic_wf_min _ (cubic_inv_wf _ _ Hb))) as Hemr.
  assert (Hq : cb_cwnd_q16 m3 = tcp_shift_cubic_q16_from_bytes r (tp_mss_bytes t) /\
               cb_ssthresh_q16 m3 = tcp_shift_cubic_q16_from_bytes r (tp_mss_bytes t)).
  { unfold m3, m2, cubic_reduce. cbn. rewrite cubic_beta_flight_spec, cubic_max_u32_spec by
      (done || lia). unfold r, cubic_reduced_bytes.
    assert (He : tcp_shift_cubic_effective_min_bytes (cubic_note_w_max before) t =
                 tcp_shift_cubic_effective_min_bytes before t)
      by (unfold tcp_shift_cubic_effective_min_bytes, cubic_note_w_max; cbn; by cases).
    by rewrite He. }
  destruct Hq as [Hq1 Hq2].
  destruct (cubic_publish_equal m3 t r) as [Hp1 Hp2]; try done.
  { rewrite Hem. unfold r, cubic_reduced_bytes. lia. }
  unfold cubic_return. destruct (tcp_shift_cubic_publish m3 t) as [m' p'] eqn:Epub.
  exists m', p'. split; [done|]. cbn in Hp1, Hp2. split; [done|]. split; [done|].
  assert (Hf : cb_w_max_q16 m' = cb_w_max_q16 m3 /\ cb_epoch_active m' = false /\
               cb_k_q10 m' = 0).
  { destruct (cubic_publish_fields m3 t) as (E1 & E2 & E3). rewrite Epub in E1, E2, E3.
    cbn in E1, E2, E3. rewrite E1, E2, E3. unfold m3, m2, cubic_reduce. by cbn. }
  destruct Hf as (-> & ? & ?). split; [|done].
  unfold m3, m2, cubic_reduce, cubic_note_w_max. cbn.
  rewrite (u64_small (_ * 17)) by lia. by case_match.
Qed.

Lemma cubic_loss_response_witness :
  let t := mk_transport 1460 29200 65535 4294967295 in
  let m := cubic_zero <| cb_mss_bytes := 1460 |> <| cb_min_cwnd_bytes := 2920 |>
             <| cb_cwnd_q16 := 1310720 |> <| cb_ssthresh_q16 := 1310720 |> in
  exists m' p', tcp_shift_cubic_model_on_loss m t (mk_loss 1460) (mk_policy 0 0 0)
    = (0, m', p') /\ 20439 <= pol_cwnd_bytes p' <= 20440 /\ cb_w_max_q16 m' = 1310720.
Proof.
  intros t m.
  destruct (cubic_loss_response m t (mk_loss 1460) (mk_policy 0 0 0))
    as (m' & p' & H1 & H2 & _ & H4 & _).
  - unfold cubic_inv, m. split; [cbn; lia|]. split; [|cbn; lia]. cubic_wf_tac.
  - split; [repeat split; cbn; lia|cbn; lia].
  - cbn; lia.
  - cbn; lia.
  - exists m', p'. split; [exact H1|]. split; [exact H2|]. exact H4.
Defined.

(** ** Growth in congestion avoidance *)

(** The epoch an avoidance ACK belongs to. *)
Definition cubic_epoch (m : tcp_shift_cubic_model) (now : Z) : tcp_shift_cubic_model :=
  if cb_epoch_active m then m else tcp_shift_cubic_start_epoch m now.

(** RFC 9438's window after an avoidance ACK: the Reno-friendly estimate when
    the curve is below it, otherwise one step of size (target - cwnd)/cwnd
    towards the curve one RTT ahead, the target clamped to [cwnd, 1.5 cwnd]. *)
Definition rfc9438_avoidance (limit w_est curve curve_ahead cwnd : Z) : Z :=
  if curve <? w_est then Z.max cwnd w_est
  else
    let target := Z.min (Z.max curve_ahead cwnd) (Z.min limit (cwnd + cwnd / 2)) in
    cwnd + (target - cwnd) * 65536 / cwnd.

Lemma cubic_target_step_cwnd m limit_q16 elapsed srtt :
  1 <= cb_cwnd_q16 m <= limit_q16 -> limit_q16 <= 281474976710656 ->
  in_u64 elapsed -> in_u64 srtt ->
  let ahead := Z.min UINT64_MAX (elapsed + tcp_shift_cubic_nonzero_time_q10 srtt) in
  let target := Z.min (Z.max (tcp_shift_cubic_window_q16 m ahead) (cb_cwnd_q16 m))
                  (Z.min limit_q16 (cb_cwnd_q16 m + cb_cwnd_q16 m / 2)) in
  cb_cwnd_q16 (cubic_target_step m limit_q16 elapsed srtt) =
    cb_cwnd_q16 m + (target - cb_cwnd_q16 m) * 65536 / cb_cwnd_q16 m.
Proof.
  intros Hc Hl He Hs ahead target. unfold cubic_target_step. cbn zeta.
  assert (0 <= cb_cwnd_q16 m / 2 <= cb_cwnd_q16 m) by div_lia.
  pose proof (cubic_nonzero_time_q10_range srtt Hs).
  autorewrite with cubic. rewrite (cubic_add_sat_spec (cb_cwnd_q16 m)) by lia.
  rewrite (cubic_add_sat_spec elapsed) by lia. fold ahead.
  rewrite (Z.min_r UINT64_MAX (cb_cwnd_q16 m + _)) by lia.
  rewrite (Z.min_comm (cb_cwnd_q16 m + _) limit_q16). fold target.
  assert (Ht : cb_cwnd_q16 m <= target <=
    Z.min limit_q16 (cb_cwnd_q16 m + cb_cwnd_q16 m / 2)) by (unfold target; lia).
  clearbody target. cbn. rewrite (u64_small (target - _)) by lia.
  rewrite Z.shiftl_mul_pow2, (u64_small (_ * 2 ^ 16)) by lia. change (2 ^ 16) with 65536.
  pose proof (cubic_half_segment (cb_cwnd_q16 m) target).
  rewrite (cubic_add_sat_spec (cb_cwnd_q16 m)) by lia.
  destruct (target - cb_cwnd_q16 m =? 0) eqn:E; cbn.
  - replace (target - cb_cwnd_q16 m) with 0 by lia. rewrite Z.mul_0_l, Z.div_0_l; lia.
  - destruct (cb_cwnd_q16 m =? 0) eqn:E2; cbn; lia.
Qed.


