(* ===== verification/CubicMachine.v ===== *)
(** * The CUBIC controller as a state machine

    The states [tcp_shift_cubic_controller_init] can produce, the steps of the
    four event callbacks, and two invariants of every reachable state by rule
    induction: the epoch clock never runs backwards, and HyStart++ runs once. *)

From Stdlib Require Import ZArith Lia Bool List String.
From stdpp Require Import base tactics numbers list relations.
From S2P Require Import Prelude CC Cubic CubicController.
Local Open Scope Z_scope.

(** One callback. ACKs carry the transport's monotonic clock: none is older
    than the last one the controller has seen. A rejected event is a step
    too: it may have changed the state before it failed. *)
Inductive cubic_step (m : tcp_shift_cubic_model) : tcp_shift_cubic_model -> Prop :=
  | cubic_step_ack t a p rc m' p' :
      in_u64 (ack_ack_time_ns a) -> cb_last_ack_time_ns m <= ack_ack_time_ns a ->
      tcp_shift_cubic_controller_on_ack m t a p = (rc, m', p') -> cubic_step m m'
  | cubic_step_loss t l p rc m' p' :
      tcp_shift_cubic_controller_on_loss m t l p = (rc, m', p') -> cubic_step m m'
  | cubic_step_ecn t p rc m' p' :
      tcp_shift_cubic_controller_on_ecn m t p = (rc, m', p') -> cubic_step m m'
  | cubic_step_timeout t p rc m' p' :
      tcp_shift_cubic_controller_on_timeout m t p = (rc, m', p') -> cubic_step m m'.

Definition cubic_initial (m : tcp_shift_cubic_model) : Prop :=
  exists m0 t i p p', tcp_shift_cubic_controller_init m0 t i p = (0, m, p').

Definition cubic_reachable (m : tcp_shift_cubic_model) : Prop :=
  exists m0, cubic_initial m0 /\ rtc cubic_step m0 m.

Lemma cubic_reachable_ind (P : tcp_shift_cubic_model -> Prop) :
  (forall m, cubic_initial m -> P m) ->
  (forall m m', P m -> cubic_step m m' -> P m') ->
  forall m, cubic_reachable m -> P m.
Proof.
  intros Hi Hs m (m0 & H0 & Hr). specialize (Hi _ H0). clear H0.
  induction Hr; eauto.
Qed.

(** ** What the helpers of the model leave alone *)

(** The fields of the epoch clock and of HyStart++. *)
Definition clock_view (m : tcp_shift_cubic_model) :=
  (cb_epoch_active m, cb_epoch_start_ns m, cb_last_ack_time_ns m,
   cb_app_limited_paused m, cb_app_limited_since_ns m, cb_ack_events m).
Definition hystart_view (m : tcp_shift_cubic_model) :=
  (cb_hystart_enabled m, cb_hystart_css m, cb_hystart_exit_pending m,
   cb_hystart_initial_complete m, cb_hystart_css_rounds m).
Definition views (m : tcp_shift_cubic_model) := (clock_view m, hystart_view m).

Lemma publish_views m t : views (tcp_shift_cubic_publish m t).1 = views m.
Proof.
  unfold tcp_shift_cubic_publish. cbn zeta. destruct (_ <? _), (_ =? 0); reflexivity.
Qed.

Lemma normalize_views m t : views (tcp_shift_cubic_normalize m t) = views m.
Proof. unfold tcp_shift_cubic_normalize. cbn zeta. reflexivity. Qed.

Lemma enter_views m t : views (cubic_enter m t).2 = views m.
Proof.
  unfold cubic_enter, tcp_shift_cubic_sync_mss.
  repeat (case_match; try done).
Qed.

Lemma update_w_est_views m a c l : views (tcp_shift_cubic_update_w_est m a c l) = views m.
Proof. reflexivity. Qed.

Lemma target_step_views m l e s : views (cubic_target_step m l e s) = views m.
Proof. unfold cubic_target_step. cbn zeta. by destruct (_ && _). Qed.

Lemma note_w_max_views m : views (cubic_note_w_max m) = views m.
Proof. unfold cubic_note_w_max. cbn zeta. by destruct (_ && _). Qed.

(** ** A proof rule for invariants of the controller

    A predicate on the two views is an invariant as soon as the few
    operations that write those fields keep it. *)
Section Preserve.
Context (P : tcp_shift_cubic_model -> Prop).
Hypothesis P_views : forall m m', views m' = views m -> P m -> P m'.
Hypothesis P_finish : forall m, P m -> P (tcp_shift_cubic_finish_hystartpp m).
Hypothesis P_pause : forall m now, P m -> cb_last_ack_time_ns m <= now -> in_u64 now ->
  P (cubic_pause_epoch m now).
Hypothesis P_resume : forall m now n, P m -> cb_last_ack_time_ns m <= now -> in_u64 now ->
  P (cubic_resume_epoch m now <| cb_last_ack_time_ns := now |> <| cb_ack_events := n |>).
Hypothesis P_start : forall m, P m -> cb_app_limited_paused m = false ->
  P (tcp_shift_cubic_start_epoch m (cb_last_ack_time_ns m)).
Hypothesis P_reduce : forall m m', P m -> hystart_view m' = hystart_view m ->
  cb_last_ack_time_ns m' = cb_last_ack_time_ns m ->
  cb_epoch_active m' = false -> cb_app_limited_paused m' = false -> P m'.
Hypothesis P_disable : forall m, P m -> P (tcp_shift_cubic_hystart_disable m).
Hypothesis P_hystart : forall m t a now, P m -> P (tcp_shift_cubic_hystart_on_ack m t a now).2.

Lemma preserve_publish m t : P m -> P (tcp_shift_cubic_publish m t).1.
Proof. apply P_views, publish_views. Qed.

Lemma preserve_return m t : P m -> P (cubic_return (tcp_shift_cubic_publish m t)).1.2.
Proof.
  intros H%(preserve_publish m t). unfold cubic_return.
  by destruct (tcp_shift_cubic_publish m t).
Qed.

Lemma preserve_avoidance m t acked srtt :
  P m -> cb_app_limited_paused m = false ->
  P (cubic_return (cubic_avoidance_ack m t acked (cb_last_ack_time_ns m) srtt)).1.2.
Proof.
  intros Hm Hp. unfold cubic_avoidance_ack. cbn zeta.
  set (m1 := if negb (cb_epoch_active m) then _ else m).
  assert (H1 : P m1) by (unfold m1; case_match; auto).
  clearbody m1. destruct (_ <? _).
  - by apply preserve_return, (P_views m1).
  - apply preserve_return, (P_views m1); [|done]. by rewrite target_step_views.
Qed.

Lemma preserve_ack_body m t a now srtt p :
  P m -> cb_last_ack_time_ns m <= now -> in_u64 now ->
  P (cubic_ack_body m t a now srtt p).1.2.
Proof.
  intros Hm Hl Hn. unfold cubic_ack_body. cbn zeta.
  assert (H0 : P (tcp_shift_cubic_normalize m t)) by (by apply (P_views m)).
  assert (Hl0 : cb_last_ack_time_ns (tcp_shift_cubic_normalize m t) <= now) by done.
  set (m0 := tcp_shift_cubic_normalize m t) in *. clearbody m0.
  case_match; [done|].
  set (m1 := if has_flag _ _ then _ else m0).
  assert (Hm1 : P m1) by (unfold m1; case_match; [by apply (P_views m0)|done]).
  assert (Hl1 : cb_last_ack_time_ns m1 <= now) by (unfold m1; by case_match).
  clearbody m1. case_match; [by apply preserve_return, P_finish, P_pause|].
  set (m2 := _ <| cb_ack_events := _ |>).
  assert (Hm2 : P m2) by (by apply P_resume).
  assert (Hp2 : cb_app_limited_paused m2 = false)
    by (unfold m2, cubic_resume_epoch; cbn; by destruct (cb_app_limited_paused m1) eqn:E).
  change now with (cb_last_ack_time_ns m2) at 1. clearbody m2. case_match.
  - unfold cubic_slow_start_ack. by apply preserve_return, P_finish, (P_views m2).
  - by apply preserve_avoidance.
Qed.

Lemma preserve_on_ack m t a now srtt p :
  P m -> cb_last_ack_time_ns m <= now -> in_u64 now ->
  P (tcp_shift_cubic_model_on_ack m t a now srtt p).1.2.
Proof.
  intros Hm Hl Hn. unfold tcp_shift_cubic_model_on_ack. case_match; [done|].
  pose proof (enter_views m t) as He.
  destruct (cubic_enter m t) as [rc m1]. cbn in He.
  assert (P m1) by (by apply (P_views m)). case_match; [done|]. case_match; [done|].
  apply preserve_ack_body; try done. by injection He; intros; congruence.
Qed.

Lemma hystart_on_ack_last m t a now :
  cb_last_ack_time_ns (tcp_shift_cubic_hystart_on_ack m t a now).2 = cb_last_ack_time_ns m.
Proof.
  unfold tcp_shift_cubic_hystart_on_ack, hystart_round_step, hystart_rtt_step.
  repeat (case_match; simplify_eq/=; try done).
Qed.

Lemma preserve_controller_ack m t a p :
  P m -> cb_last_ack_time_ns m <= ack_ack_time_ns a -> in_u64 (ack_ack_time_ns a) ->
  P (tcp_shift_cubic_controller_on_ack m t a p).1.2.
Proof.
  intros Hm Hl Hn. unfold tcp_shift_cubic_controller_on_ack. case_match; [done|].
  pose proof (P_hystart m t a (ack_ack_time_ns a) Hm) as Hh.
  pose proof (hystart_on_ack_last m t a (ack_ack_time_ns a)) as Hhl.
  destruct (tcp_shift_cubic_hystart_on_ack _ _ _ _) as [r m1]. cbn in Hh, Hhl.
  case_match; [done|]. apply preserve_on_ack; by rewrite ?Hhl.
Qed.

Lemma preserve_end_initial r : P r.1.2 -> P (cubic_end_initial r).1.2.
Proof. destruct r as [[rc m] p]. cbn. case_match; cbn; auto. Qed.

(** The common shape of loss, ECN and timeout: enter, end the epoch, publish. *)
Lemma preserve_reduction m1 t m2 :
  P m1 -> hystart_view m2 = hystart_view m1 ->
  cb_last_ack_time_ns m2 = cb_last_ack_time_ns m1 ->
  cb_epoch_active m2 = false -> cb_app_limited_paused m2 = false ->
  P (cubic_return (tcp_shift_cubic_publish m2 t)).1.2.
Proof. intros. apply preserve_return. eauto. Qed.

Lemma preserve_loss m t l p :
  P m -> P (tcp_shift_cubic_controller_on_loss m t l p).1.2.
Proof.
  intros Hm. apply preserve_end_initial. unfold tcp_shift_cubic_model_on_loss.
  case_match; [done|]. pose proof (enter_views m t) as He.
  destruct (cubic_enter m t) as [rc m1]. cbn in He. cbn zeta.
  assert (Hm1 : P m1) by (by apply (P_views m)). case_match; [done|].
  apply (preserve_reduction m1); try done;
    unfold cubic_reduce, cubic_note_w_max; cbn; by destruct (_ && _).
Qed.

Lemma preserve_ecn m t p : P m -> P (tcp_shift_cubic_controller_on_ecn m t p).1.2.
Proof.
  intros Hm. apply preserve_end_initial. unfold tcp_shift_cubic_model_on_ecn.
  pose proof (enter_views m t) as He.
  destruct (cubic_enter m t) as [rc m1]. cbn in He. cbn zeta.
  assert (Hm1 : P m1) by (by apply (P_views m)). case_match; [done|].
  apply (preserve_reduction m1); try done;
    unfold cubic_reduce, cubic_note_w_max; cbn; by destruct (_ && _).
Qed.

Lemma preserve_timeout m t p : P m -> P (tcp_shift_cubic_controller_on_timeout m t p).1.2.
Proof.
  intros Hm. apply preserve_end_initial. unfold tcp_shift_cubic_model_on_timeout.
  pose proof (enter_views m t) as He.
  destruct (cubic_enter m t) as [rc m1]. cbn in He. cbn zeta.
  assert (Hm1 : P m1) by (by apply (P_views m)). case_match; [done|].
  by apply (preserve_reduction m1).
Qed.

Lemma preserve_step m m' : P m -> cubic_step m m' -> P m'.
Proof.
  intros Hm [t a p rc m1 p1 Hn Hl E|t l p rc m1 p1 E|t p rc m1 p1 E|t p rc m1 p1 E].
  - pose proof (preserve_controller_ack m t a p Hm Hl Hn) as H. by rewrite E in H.
  - pose proof (preserve_loss m t l p Hm) as H. by rewrite E in H.
  - pose proof (preserve_ecn m t p Hm) as H. by rewrite E in H.
  - pose proof (preserve_timeout m t p Hm) as H. by rewrite E in H.
Qed.

End Preserve.

(** ** The epoch clock *)

Definition cubic_clock_ok (m : tcp_shift_cubic_model) : Prop :=
  in_u64 (cb_last_ack_time_ns m) /\
  (cb_epoch_active m = true -> 0 <= cb_epoch_start_ns m <= cb_last_ack_time_ns m) /\
  (cb_app_limited_paused m = true ->
   0 <= cb_app_limited_since_ns m <= cb_last_ack_time_ns m /\
   (cb_epoch_active m = true -> cb_epoch_start_ns m <= cb_app_limited_since_ns m)).

Lemma hystart_on_ack_clock m t a now :
  clock_view (tcp_shift_cubic_hystart_on_ack m t a now).2 = clock_view m.
Proof.
  unfold tcp_shift_cubic_hystart_on_ack, hystart_round_step, hystart_rtt_step.
  repeat (case_match; simplify_eq/=; try done).
Qed.

Lemma resume_clock m now :
  cubic_clock_ok m -> cb_last_ack_time_ns m <= now -> in_u64 now ->
  let m' := cubic_resume_epoch m now in
  cb_app_limited_paused m' = false /\
  (cb_epoch_active m' = true -> 0 <= cb_epoch_start_ns m' <= now).
Proof.
  intros (H1 & H2 & H3) Hl Hn. unfold cubic_resume_epoch. cbn zeta.
  destruct (cb_app_limited_paused m) eqn:Ep; [|split; [done|intros; specialize (H2 ltac:(done)); lia]].
  specialize (H3 eq_refl).
  destruct (cb_epoch_active m) eqn:Ea; cbn; [|by rewrite Ea].
  specialize (H2 eq_refl). destruct H3 as [? H3]. specialize (H3 eq_refl).
  rewrite (proj2 (Z.geb_le _ _)) by lia. cbn. split; [done|]. intros _.
  rewrite u64_small, cubic_add_sat_spec by lia. lia.
Qed.

Lemma cubic_step_clock m m' : cubic_clock_ok m -> cubic_step m m' -> cubic_clock_ok m'.
Proof.
  apply preserve_step; clear m m'.
  - intros m m' [= E1 E2 E3 E4 E5 _ _ _ _ _ _]. unfold cubic_clock_ok. by rewrite E1, E2, E3, E4, E5.
  - intros m (H1 & H2 & H3). unfold tcp_shift_cubic_finish_hystartpp.
    case_match; [done|]. split; [cbn; lia|split; cbn; [done|]]. intros Hp.
    by destruct (H3 Hp) as [? _].
  - intros m now (H1 & H2 & H3) Hl Hn. unfold cubic_pause_epoch.
    destruct (cb_app_limited_paused m) eqn:Ep; split_and!; cbn; try lia;
      try (intros; specialize (H2 ltac:(done)); lia).
    + intros _. destruct (H3 eq_refl) as [? ?]. split; [lia|done].
    + intros _. case_match; split; try lia; intros; specialize (H2 ltac:(done)); lia.
  - intros m now n Hm Hl Hn. destruct (resume_clock m now Hm Hl Hn) as [Hp Ha].
    split; [cbn; lia|split; cbn; [done|]]. by rewrite Hp.
  - intros m (H1 & H2 & H3) Hp. unfold cubic_clock_ok, tcp_shift_cubic_start_epoch. cbn zeta.
    destruct (cb_cwnd_prior_q16 _ =? 0), (_ || _); cbn; rewrite Hp; (split; [lia|split; [lia|done]]).
  - intros m m' (H1 & _) _ El Ea Ep. unfold cubic_clock_ok. by rewrite El, Ea, Ep.
  - done.
  - intros m t a now. pose proof (hystart_on_ack_clock m t a now) as [= E1 E2 E3 E4 E5 _].
    unfold cubic_clock_ok. by rewrite E1, E2, E3, E4, E5.
Qed.

Lemma controller_init_views m t i p m' p' :
  tcp_shift_cubic_controller_init m t i p = (0, m', p') ->
  views m' = ((false, 0, 0, false, 0, 0), (true, false, false, false, 0)).
Proof.
  unfold tcp_shift_cubic_controller_init, tcp_shift_cubic_model_init. cbn zeta.
  destruct (_ || _); [done|]. destruct (_ || _); [done|].
  set (m0 := cubic_zero <| cb_mss_bytes := _ |> <| cb_min_cwnd_bytes := _ |>
    <| cb_cwnd_q16 := _ |> <| cb_ssthresh_q16 := _ |> <| cb_fast_convergence := _ |>).
  pose proof (publish_views m0 t) as Hp. destruct (tcp_shift_cubic_publish m0 t) as [m1 q].
  intros [= <- <-]. cbn in Hp. unfold views, clock_view, hystart_view in *. cbn.
  injection Hp as -> -> -> -> -> -> _ _ _ _ _. reflexivity.
Qed.

(** Epoch clock. In every state the controller can reach, the epoch in
    progress and the application-limited pause start no later than the last
    ACK, the pause no earlier than the epoch; so for an ACK at [now] the
    unsigned subtraction [now - epoch_start] that drives the curve is the
    true elapsed time and never wraps. *)
Theorem cubic_epoch_clock m now :
  cubic_reachable m -> cb_last_ack_time_ns m <= now -> in_u64 now ->
  cubic_clock_ok m /\
  (cb_epoch_active m = true ->
   now -w64 cb_epoch_start_ns m = now - cb_epoch_start_ns m) /\
  (let m' := cubic_resume_epoch m now in cb_epoch_active m' = true ->
   now -w64 cb_epoch_start_ns m' = now - cb_epoch_start_ns m').
Proof.
  intros Hr Hl Hn.
  assert (Hc : cubic_clock_ok m).
  { clear Hl. revert m Hr. apply cubic_reachable_ind; [|exact cubic_step_clock]. intros m (m0 & t & i & p & p' & E).
    apply controller_init_views in E as [= E1 E2 E3 E4 E5 _ _ _ _ _ _].
    unfold cubic_clock_ok. rewrite E1, E3, E4. by split; [lia|]. }
  split; [done|]. split.
  - intros Ha. destruct Hc as (_ & H2 & _). specialize (H2 Ha). rewrite u64_small; lia.
  - intros m' Ha. destruct (resume_clock m now Hc Hl Hn) as [_ H]. specialize (H Ha).
    fold m' in H. clearbody m'. rewrite u64_small; lia.
Qed.

(** ** HyStart++ *)

Definition hystart_ok (m : tcp_shift_cubic_model) : Prop :=
  cb_hystart_enabled m = negb (cb_hystart_initial_complete m) /\
  (cb_hystart_initial_complete m = true ->
   cb_hystart_css m = false /\ cb_hystart_exit_pending m = false) /\
  (cb_hystart_css m = true -> cb_hystart_exit_pending m = false ->
   0 <= cb_hystart_css_rounds m < TCP_SHIFT_CUBIC_HYSTARTPP_CSS_ROUNDS).

Lemma hystart_ok_view m m' : hystart_view m' = hystart_view m -> hystart_ok m -> hystart_ok m'.
Proof. intros [= E1 E2 E3 E4 E5]. unfold hystart_ok. by rewrite E1, E2, E3, E4, E5. Qed.

Lemma hystart_round_step_ok m t a :
  hystart_ok m -> cb_hystart_initial_complete m = false ->
  hystart_ok (hystart_round_step m t a).2.
Proof.
  intros (H1 & H2 & H3) Hc. unfold hystart_round_step. case_match; [|done]. cbn zeta.
  destruct (cb_hystart_css m) eqn:Ec, (cb_hystart_next_round_delivered m =? 0) eqn:En; cbn;
    rewrite ?Ec, ?En; cbn; try (by unfold hystart_ok; cbn; rewrite Ec; split; auto).
  destruct (_ >=? 5) eqn:E5; unfold hystart_ok; cbn; rewrite Hc, H1, Hc; (split; [done|split; [done|]]).
  - done.
  - intros _ Hp. specialize (H3 eq_refl Hp). rewrite u32_small in * by lia. lia.
Qed.

Lemma hystart_rtt_step_ok m a :
  hystart_ok m -> cb_hystart_initial_complete m = false -> hystart_ok (hystart_rtt_step m a).2.
Proof.
  intros Hm Hc. unfold hystart_rtt_step. cbn zeta. case_match; [done|].
  set (m1 := if _ <? _ then _ else m).
  assert (hystart_ok m1 /\ cb_hystart_initial_complete m1 = false)
    by (unfold m1; by case_match). clearbody m1.
  set (m2 := if negb _ then _ else m1).
  assert (Hm2 : hystart_ok m2 /\ cb_hystart_initial_complete m2 = false)
    by (unfold m2; by case_match). clearbody m2.
  destruct Hm2 as [Hm2 Hc2]. pose proof Hm2 as [H1 _].
  repeat case_match; try done; unfold hystart_ok; cbn; rewrite Hc2, H1, Hc2; split; try done;
    split; try done; lia.
Qed.

Lemma hystart_on_ack_ok m t a now :
  hystart_ok m -> hystart_ok (tcp_shift_cubic_hystart_on_ack m t a now).2.
Proof.
  intros Hm. unfold tcp_shift_cubic_hystart_on_ack. case_match; [done|]. cbn zeta.
  set (m1 := m <| cb_hystart_ack_css := _ |>).
  assert (Hm1 : hystart_ok m1) by done. clearbody m1.
  destruct (negb (cb_hystart_enabled m1) || cb_hystart_initial_complete m1 || _) eqn:E; [done|].
  case_match; [done|].
  assert (Hc : cb_hystart_initial_complete m1 = false)
    by (destruct (cb_hystart_initial_complete m1); [|done]; by rewrite orb_true_r in E).
  pose proof (hystart_round_step_ok m1 t a Hm1 Hc) as Hr.
  assert (Hcr : cb_hystart_initial_complete (hystart_round_step m1 t a).2 = false)
    by (unfold hystart_round_step; cbn zeta; by repeat case_match).
  destruct (hystart_round_step m1 t a) as [[] m2]; cbn in Hr, Hcr |- *; [done|].
  by apply hystart_rtt_step_ok.
Qed.

Lemma cubic_step_hystart m m' : hystart_ok m -> cubic_step m m' -> hystart_ok m'.
Proof.
  apply preserve_step; clear m m'.
  - intros m m' [= _ _ _ _ _ _ E1 E2 E3 E4 E5]. unfold hystart_ok. by rewrite E1, E2, E3, E4, E5.
  - intros m Hm. unfold tcp_shift_cubic_finish_hystartpp. by case_match.
  - intros m now Hm _ _. unfold cubic_pause_epoch. by case_match.
  - intros m now n Hm _ _. apply (hystart_ok_view m); [|done].
    unfold cubic_resume_epoch. by repeat case_match.
  - intros m Hm _. apply (hystart_ok_view m); [|done].
    unfold tcp_shift_cubic_start_epoch. cbn zeta. by destruct (_ =? 0), (_ || _).
  - intros m m' Hm E _ _ _. by apply (hystart_ok_view m).
  - done.
  - intros. by apply hystart_on_ack_ok.
Qed.

Definition hystart_done (m : tcp_shift_cubic_model) : Prop :=
  hystart_ok m /\ cb_hystart_initial_complete m = true.

Lemma cubic_step_done m m' : hystart_done m -> cubic_step m m' -> hystart_done m'.
Proof.
  intros [Hm Hc] Hs. split; [by eapply cubic_step_hystart|].
  enough (cb_hystart_enabled m' = false /\ cb_hystart_initial_complete m' = true) by naive_solver.
  assert (H0 : cb_hystart_enabled m = false /\ cb_hystart_initial_complete m = true)
    by (destruct Hm as [E _]; by rewrite E, Hc).
  revert Hs. revert H0. apply (preserve_step (fun m =>
    cb_hystart_enabled m = false /\ cb_hystart_initial_complete m = true)); clear m m' Hm Hc.
  - by intros m m' [= _ _ _ _ _ _ -> _ _ -> _].
  - intros m Hm. unfold tcp_shift_cubic_finish_hystartpp. by case_match.
  - intros m now Hm _ _. unfold cubic_pause_epoch. by case_match.
  - intros m now n Hm _ _. unfold cubic_resume_epoch. by repeat case_match.
  - intros m Hm _. unfold tcp_shift_cubic_start_epoch. cbn zeta. by destruct (_ =? 0), (_ || _).
  - by intros m m' Hm [= -> _ _ -> _].
  - done.
  - intros m t a now [He Hc]. unfold tcp_shift_cubic_hystart_on_ack. case_match; [done|].
    cbn. by rewrite He.
Qed.

(** HyStart++ is a one-shot observer of the initial slow start. In every
    reachable state it is enabled exactly while initial slow start is not
    complete, the conservative phase lasts fewer than five counted rounds
    unless its exit is already pending, and once initial slow start is
    complete no later event re-enables the observer or re-enters that phase. *)
Theorem cubic_hystart_one_shot m :
  cubic_reachable m ->
  hystart_ok m /\
  (cb_hystart_initial_complete m = true -> forall m', rtc cubic_step m m' ->
   cb_hystart_initial_complete m' = true /\ cb_hystart_enabled m' = false /\
   cb_hystart_css m' = false /\ cb_hystart_exit_pending m' = false).
Proof.
  intros Hr.
  assert (Hm : hystart_ok m).
  { revert m Hr. apply cubic_reachable_ind; [|exact cubic_step_hystart].
    intros m (m0 & t & i & p & p' & E).
    apply controller_init_views in E as [= _ _ _ _ _ _ E1 E2 E3 E4 E5].
    unfold hystart_ok. by rewrite E1, E2, E3, E4, E5. }
  split; [done|]. intros Hc m' Hs.
  assert (hystart_done m') as [(H1 & H2 & _) H3].
  { assert (H0 : hystart_done m) by done. clear Hr Hm Hc.
    induction Hs; eauto using cubic_step_done. }
  rewrite H1, H3. destruct (H2 H3). done.
Qed.

(** A connection that lost a segment after its first ACK. *)
Definition cubic_sample_transport := mk_transport 1460 14600 65535 4294967295.
Definition cubic_sample_start : tcp_shift_cubic_model := Eval vm_compute in
  (tcp_shift_cubic_controller_init cubic_zero cubic_sample_transport
     (mk_init 14600 4294967295 2920) (mk_policy 0 0 0)).1.2.
Definition cubic_sample_ack : tcp_shift_cc_ack :=
  mk_ack 1460 1000 50000000 (mk_rate_sample 0 0 0 0 0 0 0 0 0 0).
Definition cubic_sample_acked : tcp_shift_cubic_model := Eval vm_compute in
  (tcp_shift_cubic_controller_on_ack cubic_sample_start cubic_sample_transport
     cubic_sample_ack (mk_policy 0 0 0)).1.2.
Definition cubic_sample_trace : tcp_shift_cubic_model := Eval vm_compute in
  (tcp_shift_cubic_controller_on_loss cubic_sample_acked cubic_sample_transport
     (mk_loss 1460) (mk_policy 0 0 0)).1.2.

Lemma cubic_sample_reachable : cubic_reachable cubic_sample_trace.
Proof.
  exists cubic_sample_start. split.
  { exists cubic_zero, cubic_sample_transport, (mk_init 14600 4294967295 2920), (mk_policy 0 0 0),
      (mk_policy 14600 4294967294 0). vm_compute. reflexivity. }
  apply rtc_l with cubic_sample_acked.
  { eapply (cubic_step_ack _ cubic_sample_transport cubic_sample_ack (mk_policy 0 0 0));
      [cbn; lia|vm_compute; discriminate|vm_compute; reflexivity]. }
  apply rtc_once.
  eapply (cubic_step_loss _ cubic_sample_transport (mk_loss 1460) (mk_policy 0 0 0)).
  vm_compute. reflexivity.
Qed.

Lemma cubic_epoch_clock_witness : cubic_clock_ok cubic_sample_trace.
Proof.
  apply (cubic_epoch_clock cubic_sample_trace 2000).
  - exact cubic_sample_reachable.
  - vm_compute. discriminate.
  - lia.
Defined.

Lemma cubic_hystart_one_shot_witness :
  cb_hystart_initial_complete cubic_sample_trace = true /\
  (forall m', rtc cubic_step cubic_sample_trace m' -> cb_hystart_css m' = false).
Proof.
  split; [reflexivity|]. intros m' Hs.
  destruct (cubic_hystart_one_shot cubic_sample_trace cubic_sample_reachable) as [_ H].
  apply H; [reflexivity|exact Hs].
Defined.
