(* ===== verification/Registry.v ===== *)
(** * The controller registry ([src/cc/registry.h], end of [src/cc/reno.c])

    Lookup of the built-in controllers by name. A C string is a [string] up
    to its terminator; the two state types of the union
    [tcp_shift_cc_builtin_state] are the type component of a lookup result. *)

From Stdlib Require Import ZArith Lia Bool List String Ascii.
From stdpp Require Import base tactics numbers list strings.
From S2P Require Import Prelude CC Reno Cubic CubicController.
Local Open Scope Z_scope.

(** The members of the union that hold controller state. *)
Inductive tcp_shift_cc_builtin_state :=
  | builtin_reno (reno : tcp_shift_reno_state)
  | builtin_cubic (cubic : tcp_shift_cubic_model).

(** [sizeof(struct tcp_shift_cubic_model)] *)
Abbreviation TCP_SHIFT_CC_BUILTIN_STATE_CAPACITY := 184.

(** The [while] loop and the final [*left == *right]. *)
Fixpoint name_equal_loop (left right : string) : bool :=
  match left, right with
  | String a left', String b right' =>
      if negb (Ascii.eqb a b) then false else name_equal_loop left' right'
  | EmptyString, EmptyString => true
  | _, _ => false
  end.

Definition tcp_shift_cc_name_equal (left right : ptr string) : bool :=
  match left, right with
  | Some l, Some r => name_equal_loop l r
  | _, _ => false
  end.

(** A pointer to one of the built-in vtables, with its state type. *)
Definition builtin_ops : Type := {S : Type & tcp_shift_cc_ops S}.

Definition tcp_shift_cc_find_ops (name : ptr string) : ptr builtin_ops :=
  if tcp_shift_cc_name_equal name (ops_name tcp_shift_reno_ops)
  then Some (existT _ tcp_shift_reno_ops)
  else if tcp_shift_cc_name_equal name (ops_name tcp_shift_cubic_ops)
  then Some (existT _ tcp_shift_cubic_ops)
  else NULL.

Definition tcp_shift_cc_default_ops : ptr builtin_ops :=
  Some (existT _ tcp_shift_reno_ops).

Lemma name_equal_loop_iff l : forall r, name_equal_loop l r = true <-> l = r.
Proof.
  induction l as [|a l IH]; intros [|b r]; cbn; try easy.
  destruct (Ascii.eqb_spec a b) as [->|Hne]; cbn; rewrite ?IH; split; congruence.
Qed.

Lemma name_equal_iff name s :
  tcp_shift_cc_name_equal name (Some s) = true <-> name = Some s.
Proof. destruct name as [n|]; cbn; [rewrite name_equal_loop_iff|]; naive_solver. Qed.

(** What a lookup result offers to [tcp_shift_cc_init]. *)
Definition builtin_usable (o : builtin_ops) : Prop :=
  let '(existT St ops) := o in
  tcp_shift_cc_ops_usable ops TCP_SHIFT_CC_BUILTIN_STATE_CAPACITY = true /\
  inhabited (SafeController ops).

Lemma reno_builtin_usable : builtin_usable (existT _ tcp_shift_reno_ops).
Proof. split; [reflexivity|exact (inhabits _)]. Qed.

Lemma cubic_builtin_usable : builtin_usable (existT _ tcp_shift_cubic_ops).
Proof. split; [reflexivity|exact (inhabits _)]. Qed.

(** The registry finds exactly "reno" and "cubic", by exact name; what it
    returns, and the default it offers, passes the vtable check of
    [tcp_shift_cc_init] with the union's capacity and keeps the controller
    contract of the boundary. *)
Theorem cc_registry_sound name :
  (tcp_shift_cc_find_ops name =
     if decide (name = Some "reno"%string) then tcp_shift_cc_default_ops
     else if decide (name = Some "cubic"%string) then Some (existT _ tcp_shift_cubic_ops)
     else NULL) /\
  Forall builtin_usable
    (option_list (tcp_shift_cc_find_ops name) ++ option_list tcp_shift_cc_default_ops).
Proof.
  pose proof reno_builtin_usable. pose proof cubic_builtin_usable.
  unfold tcp_shift_cc_find_ops. cbn [ops_name tcp_shift_reno_ops tcp_shift_cubic_ops].
  pose proof (name_equal_iff name "reno") as E1. pose proof (name_equal_iff name "cubic") as E2.
  destruct (decide (name = Some "reno"%string)) as [D1|D1].
  { rewrite (proj2 E1 D1). split; [done|]. cbn. auto using Forall_cons_2, Forall_nil_2. }
  rewrite <- E1, not_true_iff_false in D1. rewrite D1.
  destruct (decide (name = Some "cubic"%string)) as [D2|D2].
  - rewrite (proj2 E2 D2). split; [done|]. cbn. auto using Forall_cons_2, Forall_nil_2.
  - rewrite <- E2, not_true_iff_false in D2. rewrite D2. split; [done|]. cbn. auto using Forall_cons_2, Forall_nil_2.
Qed.
