(* ===== verification/TransportPacing.v ===== *)
(** * Pacing fallback for loss-based controllers ([src/cc/transport_pacing.c])

    The rate the transport derives from the window when a controller leaves
    [pacing_rate_bytes_per_sec] at zero, and the batch size for a rate. *)

From Stdlib Require Import ZArith Lia Bool List.
From stdpp Require Import base tactics numbers list.
From S2P Require Import Prelude CC.
Local Open Scope Z_scope.

Abbreviation TCP_SHIFT_TRANSPORT_PACING_NSEC_PER_SEC := 1000000000.
Abbreviation TCP_SHIFT_TRANSPORT_PACING_LINUX_PRE_SRTT_BASE := 8000000.
Abbreviation TCP_SHIFT_TRANSPORT_PACING_SS_PERCENT := 200.
Abbreviation TCP_SHIFT_TRANSPORT_PACING_CA_PERCENT := 120.
Abbreviation TCP_SHIFT_TRANSPORT_PACING_QUANTUM_SHIFT := 10.
Abbreviation TCP_SHIFT_TRANSPORT_PACING_MIN_QUANTUM_SEGS := 2.
Abbreviation TCP_SHIFT_TRANSPORT_PACING_MAX_QUANTUM_SEGS := 16.

Definition tcp_shift_transport_pacing_scale_percent (value percent : Z) : Z :=
  if (value =? 0) || (percent =? 0) then 0
  else
    let quotient := value / 100 in
    let remainder := value mod 100 in
    let scaled := (quotient *w64 percent) +w64 (remainder *w64 percent) / 100 in
    if scaled =? 0 then 1 else scaled.

Definition tcp_shift_transport_pacing_window_rate
    (transport : ptr tcp_shift_cc_transport) (policy : ptr tcp_shift_cc_policy)
    (smoothed_rtt_ns : Z) : Z :=
  match transport, policy with
  | Some t, Some p =>
    let window_bytes := pol_cwnd_bytes p in
    let window_bytes := if tp_inflight_bytes t >? window_bytes
                        then tp_inflight_bytes t else window_bytes in
    if window_bytes =? 0 then 0
    else
      let base_rate :=
        if negb (smoothed_rtt_ns =? 0) then
          let base_rate := (window_bytes *w64 TCP_SHIFT_TRANSPORT_PACING_NSEC_PER_SEC)
                           / smoothed_rtt_ns in
          if base_rate =? 0 then 1 else base_rate
        else window_bytes *w64 TCP_SHIFT_TRANSPORT_PACING_LINUX_PRE_SRTT_BASE in
      let percent := if pol_cwnd_bytes p <? pol_ssthresh_bytes p / 2
                     then TCP_SHIFT_TRANSPORT_PACING_SS_PERCENT
                     else TCP_SHIFT_TRANSPORT_PACING_CA_PERCENT in
      tcp_shift_transport_pacing_scale_percent base_rate percent
  | _, _ => 0
  end.

Definition tcp_shift_transport_pacing_quantum_bytes
    (pacing_rate_bytes_per_sec mss_bytes : Z) : Z :=
  if (pacing_rate_bytes_per_sec =? 0) || (mss_bytes =? 0) then 0
  else
    let target_bytes :=
      Z.shiftr pacing_rate_bytes_per_sec TCP_SHIFT_TRANSPORT_PACING_QUANTUM_SHIFT in
    let segments := if target_bytes / mss_bytes >? UINT32_MAX
                    then UINT32_MAX else u32 (target_bytes / mss_bytes) in
    let segments := if segments <? TCP_SHIFT_TRANSPORT_PACING_MIN_QUANTUM_SEGS
                    then TCP_SHIFT_TRANSPORT_PACING_MIN_QUANTUM_SEGS else segments in
    let segments := if segments >? TCP_SHIFT_TRANSPORT_PACING_MAX_QUANTUM_SEGS
                    then TCP_SHIFT_TRANSPORT_PACING_MAX_QUANTUM_SEGS else segments in
    let quantum_bytes := segments *w64 mss_bytes in
    if quantum_bytes >? UINT32_MAX then UINT32_MAX else u32 quantum_bytes.

(** Result: the return code and [*policy]. *)
Definition tcp_shift_transport_pacing_apply_window_fallback
    (transport : ptr tcp_shift_cc_transport) (smoothed_rtt_ns rate_cap_bytes_per_sec : Z)
    (policy : ptr tcp_shift_cc_policy) : Z * ptr tcp_shift_cc_policy :=
  match transport, policy with
  | Some t, Some p =>
    if negb (pol_pacing_rate_bytes_per_sec p =? 0) then (0, policy)
    else
      let rate := tcp_shift_transport_pacing_window_rate transport policy smoothed_rtt_ns in
      let rate := if negb (rate_cap_bytes_per_sec =? 0) && (rate >? rate_cap_bytes_per_sec)
                  then rate_cap_bytes_per_sec else rate in
      (0, Some (p <| pol_pacing_rate_bytes_per_sec := rate |>))
  | _, _ => (-1, policy)
  end.

(** ** Exactness *)

Lemma scale_percent_spec value percent :
  0 <= value <= 4294967295000000000 -> 1 <= percent <= 200 ->
  tcp_shift_transport_pacing_scale_percent value percent =
  if value =? 0 then 0 else Z.max 1 (value * percent / 100).
Proof.
  intros Hv Hp. unfold tcp_shift_transport_pacing_scale_percent.
  destruct (value =? 0) eqn:E; [done|]. destruct (percent =? 0) eqn:E1; [lia|]. cbn [orb].
  pose proof (Z.mod_pos_bound value 100). pose proof (scale_split value percent 100) as Hsp.
  assert (0 <= value * percent / 100 <= value * 2) by div_nia.
  assert (0 <= value / 100 * percent) by (apply Z.mul_nonneg_nonneg; [div_lia|lia]).
  assert (0 <= value mod 100 * percent / 100) by (apply Z.div_pos; nia).
  rewrite (u64_small (value / 100 * percent)), (u64_small (value mod 100 * percent)) by nia.
  rewrite u64_small by lia. rewrite <- Hsp by lia. case_match; lia.
Qed.

(** The reference: [gain * max(cwnd, inflight) / SRTT], at least 1 B/s, with
    SRTT = 125 ns standing for "no sample yet", gain 2 in early slow start and
    1.2 otherwise. *)
Definition linux_window_rate (t : tcp_shift_cc_transport) (p : tcp_shift_cc_policy)
    (srtt : Z) : Z :=
  let window := Z.max (pol_cwnd_bytes p) (tp_inflight_bytes t) in
  let base := if srtt =? 0 then window * 1000000000 / 125
              else Z.max 1 (window * 1000000000 / srtt) in
  let gain := if pol_cwnd_bytes p <? pol_ssthresh_bytes p / 2 then 200 else 120 in
  if window =? 0 then 0 else Z.max 1 (base * gain / 100).

Lemma window_rate_spec t p srtt :
  transport_wf t -> in_u32 (pol_cwnd_bytes p) -> in_u64 srtt ->
  tcp_shift_transport_pacing_window_rate (Some t) (Some p) srtt = linux_window_rate t p srtt.
Proof.
  intros (? & ? & ? & ?) Hc Hs. unfold tcp_shift_transport_pacing_window_rate, linux_window_rate.
  set (w := if _ >? _ then _ else _).
  replace (Z.max (pol_cwnd_bytes p) (tp_inflight_bytes t)) with w
    by (unfold w; case_match; lia).
  assert (in_u32 w) by (unfold w; case_match; lia). clearbody w.
  destruct (w =? 0) eqn:Ew; [done|].
  rewrite (u64_small (w * 1000000000)), (u64_small (w * 8000000)) by lia.
  set (g := if _ <? _ then _ else _). assert (g = 200 \/ g = 120) by (unfold g; case_match; lia).
  clearbody g. replace (w * 1000000000 / 125) with (w * 8000000) by div_lia.
  set (base := if negb _ then _ else _).
  assert (Hb : 1 <= base <= 4294967295000000000 /\
    base = if srtt =? 0 then w * 8000000 else Z.max 1 (w * 1000000000 / srtt)).
  { unfold base. destruct (srtt =? 0) eqn:Es; cbn [negb]; [lia|].
    assert (0 <= w * 1000000000 / srtt <= w * 1000000000) by div_nia. case_match; lia. }
  destruct Hb as [Hb <-]. clearbody base.
  rewrite scale_percent_spec by lia. case_match; lia.
Qed.

Lemma quantum_spec rate mss :
  in_u64 rate -> in_u32 mss ->
  tcp_shift_transport_pacing_quantum_bytes rate mss =
  if (rate =? 0) || (mss =? 0) then 0
  else Z.min UINT32_MAX (mss * Z.max 2 (Z.min 16 (rate / 1024 / mss))).
Proof.
  intros Hr Hm. unfold tcp_shift_transport_pacing_quantum_bytes.
  destruct (_ || _) eqn:E; [done|]. rewrite Z.shiftr_div_pow2 by lia. change (2 ^ 10) with 1024.
  assert (0 <= rate / 1024 / mss) by (apply Z.div_pos; [div_lia|lia]).
  set (q := rate / 1024 / mss) in *. clearbody q.
  set (s := if _ >? 16 then _ else _).
  assert (Hs : s = Z.max 2 (Z.min 16 q)).
  { unfold s. destruct (q >? UINT32_MAX) eqn:Eq; [cases; lia|].
    rewrite u32_small by lia. cases; lia. }
  rewrite Hs. clear s Hs. rewrite (u64_small (_ * mss)), Z.mul_comm by nia.
  case_match; [lia|]. rewrite u32_small by nia. lia.
Qed.

(** The fallback publishes Linux's window rate, clipped to the cap, only
    when the controller left the rate at zero: a controller-owned rate is
    never changed, the window and threshold never are, a nonzero window gets a
    nonzero rate, and the matching batch is between two and sixteen segments
    (saturating at 32 bits). *)
Theorem transport_pacing_fallback_spec t p srtt cap :
  transport_wf t -> in_u32 (pol_cwnd_bytes p) -> in_u64 srtt -> in_u64 cap ->
  let rate := if pol_pacing_rate_bytes_per_sec p =? 0
              then (if cap =? 0 then linux_window_rate t p srtt
                    else Z.min cap (linux_window_rate t p srtt))
              else pol_pacing_rate_bytes_per_sec p in
  tcp_shift_transport_pacing_apply_window_fallback (Some t) srtt cap (Some p)
    = (0, Some (p <| pol_pacing_rate_bytes_per_sec := rate |>)) /\
  (0 < pol_cwnd_bytes p -> rate <> 0) /\
  (in_u64 rate -> rate <> 0 -> 0 < tp_mss_bytes t ->
   Z.min UINT32_MAX (2 * tp_mss_bytes t) <=
     tcp_shift_transport_pacing_quantum_bytes rate (tp_mss_bytes t) <=
     Z.min UINT32_MAX (16 * tp_mss_bytes t)).
Proof.
  intros Ht Hc Hs Hcap rate. pose proof (window_rate_spec t p srtt Ht Hc Hs) as Hw.
  split_and!.
  - unfold tcp_shift_transport_pacing_apply_window_fallback. rewrite Hw. unfold rate.
    destruct (pol_pacing_rate_bytes_per_sec p =? 0); cbn [negb]; [|by destruct p].
    destruct (cap =? 0); cbn [negb andb]; [done|].
    destruct (_ >? cap) eqn:E; do 2 f_equal; rec_eq; lia.
  - intros Hpos. unfold rate. destruct (_ =? 0) eqn:E; [|lia].
    assert (1 <= linux_window_rate t p srtt).
    { unfold linux_window_rate. case_match; [destruct Ht as (_ & ? & _)|]; lia. }
    case_match; lia.
  - intros Hr Hnz Hm. clearbody rate. destruct Ht as (? & _). rewrite quantum_spec by lia.
    destruct (_ || _) eqn:E; [lia|]. nia.
Qed.

Lemma transport_pacing_fallback_spec_witness :
  let t := mk_transport 1460 0 65535 1048576 in
  tcp_shift_transport_pacing_apply_window_fallback (Some t) 100000000 0
    (Some (mk_policy 14600 1048576 0))
  = (0, Some (mk_policy 14600 1048576 292000)).
Proof.
  intros t. apply (transport_pacing_fallback_spec t (mk_policy 14600 1048576 0) 100000000 0);
    [repeat split; cbn; lia|cbn; lia..].
Defined.
