(* ===== verification/BbrModel.v ===== *)
(** * The compact BBR estimator ([src/cc/bbr.h], [src/cc/bbr.c], [src/cc/bbr_pacing.c])

    Overflow-safe scaling, the bandwidth-delay product, the ten-round maximum
    bandwidth filter, the full-pipe detector and the two-level minimum-RTT
    filter, with the STARTUP policy. *)

From Stdlib Require Import ZArith Lia Bool List.
From stdpp Require Import base tactics numbers list.
From S2P Require Import Prelude CC.
Local Open Scope Z_scope.

Abbreviation TCP_SHIFT_BBR_MAX_BW_FILTER_ROUNDS := 10.
Abbreviation TCP_SHIFT_BBR_PROBE_RTT_INTERVAL_NS := 5000000000.
Abbreviation TCP_SHIFT_BBR_MIN_RTT_FILTER_NS := 10000000000.
Abbreviation TCP_SHIFT_BBR_FULL_BW_ROUNDS := 3.
Abbreviation TCP_SHIFT_BBR_GAIN_DEN := 256.
Abbreviation TCP_SHIFT_BBR_STARTUP_GAIN_NUM := 739.
Abbreviation TCP_SHIFT_BBR_DRAIN_GAIN_NUM := 88.
Abbreviation TCP_SHIFT_BBR_PACING_MARGIN_NUM := 99.
Abbreviation TCP_SHIFT_BBR_PACING_MARGIN_DEN := 100.
Abbreviation TCP_SHIFT_BBR_MIN_CWND_PACKETS := 4.
Abbreviation TCP_SHIFT_BBR_INITIAL_RTT_NS := 1000000.
Abbreviation TCP_SHIFT_BBR_NSEC_PER_SEC := 1000000000.

Inductive tcp_shift_bbr_mode :=
  | TCP_SHIFT_BBR_MODE_STARTUP
  | TCP_SHIFT_BBR_MODE_DRAIN
  | TCP_SHIFT_BBR_MODE_PROBE_BW
  | TCP_SHIFT_BBR_MODE_PROBE_RTT.

#[export] Instance tcp_shift_bbr_mode_eq_dec : EqDecision tcp_shift_bbr_mode.
Proof. solve_decision. Defined.

(** [bm_max_bw_filter] is the C array, a list of ten rates. *)
Record tcp_shift_bbr_model := mk_bbr {
  bm_max_bw_bytes_per_sec : Z;
  bm_max_bw_filter : list Z;
  bm_min_rtt_ns : Z;
  bm_min_rtt_stamp_ns : Z;
  bm_probe_rtt_min_delay_ns : Z;
  bm_probe_rtt_min_stamp_ns : Z;
  bm_last_update_ns : Z;
  bm_valid_rate_samples : Z;
  bm_accepted_bw_samples : Z;
  bm_ignored_app_limited_bw_samples : Z;
  bm_valid_rtt_samples : Z;
  bm_next_round_delivered : Z;
  bm_full_bw_bytes_per_sec : Z;
  bm_bw_filter_round : Z;
  bm_round_count : Z;
  bm_full_bw_count : Z;
  bm_mode : tcp_shift_bbr_mode;
  bm_has_min_rtt : bool;
  bm_has_probe_rtt_min : bool;
  bm_has_update_time : bool;
  bm_has_bw_filter_round : bool;
  bm_probe_rtt_expired : bool;
  bm_min_rtt_expired : bool;
  bm_round_start : bool;
  bm_full_bw_now : bool;
  bm_full_bw_reached : bool
}.
#[export] Instance eta_bbr : Eta tcp_shift_bbr_model := fun r =>
  mk_bbr (bm_max_bw_bytes_per_sec r) (bm_max_bw_filter r) (bm_min_rtt_ns r)
    (bm_min_rtt_stamp_ns r) (bm_probe_rtt_min_delay_ns r) (bm_probe_rtt_min_stamp_ns r)
    (bm_last_update_ns r) (bm_valid_rate_samples r) (bm_accepted_bw_samples r)
    (bm_ignored_app_limited_bw_samples r) (bm_valid_rtt_samples r)
    (bm_next_round_delivered r) (bm_full_bw_bytes_per_sec r) (bm_bw_filter_round r)
    (bm_round_count r) (bm_full_bw_count r) (bm_mode r) (bm_has_min_rtt r)
    (bm_has_probe_rtt_min r) (bm_has_update_time r) (bm_has_bw_filter_round r)
    (bm_probe_rtt_expired r) (bm_min_rtt_expired r) (bm_round_start r)
    (bm_full_bw_now r) (bm_full_bw_reached r).

(** ** Arithmetic *)

Definition tcp_shift_bbr_max_u64 (a b : Z) : Z := if a >? b then a else b.

Definition tcp_shift_bbr_sat_add_u64 (a b : Z) : Z :=
  if UINT64_MAX -w64 a <? b then UINT64_MAX else a +w64 b.

Definition tcp_shift_bbr_sat_mul_u64 (a b : Z) : Z :=
  if (a =? 0) || (b =? 0) then 0
  else if a >? UINT64_MAX / b then UINT64_MAX else a *w64 b.

Definition tcp_shift_bbr_scale_floor_u64 (value numerator denominator : Z) : Z :=
  if denominator =? 0 then UINT64_MAX
  else
    let whole := tcp_shift_bbr_sat_mul_u64 (value / denominator) numerator in
    if whole =? UINT64_MAX then UINT64_MAX
    else
      let remainder_product := (value mod denominator) *w64 numerator in
      tcp_shift_bbr_sat_add_u64 whole (remainder_product / denominator).

Definition tcp_shift_bbr_scale_ceil_u64 (value numerator denominator : Z) : Z :=
  if denominator =? 0 then UINT64_MAX
  else
    let whole := tcp_shift_bbr_sat_mul_u64 (value / denominator) numerator in
    if whole =? UINT64_MAX then UINT64_MAX
    else
      let remainder_product := (value mod denominator) *w64 numerator in
      let whole := tcp_shift_bbr_sat_add_u64 whole (remainder_product / denominator) in
      if whole =? UINT64_MAX then UINT64_MAX
      else if negb (remainder_product mod denominator =? 0)
      then tcp_shift_bbr_sat_add_u64 whole 1
      else whole.

Definition tcp_shift_bbr_elapsed_gt (now_ns stamp_ns interval_ns : Z) : bool :=
  (now_ns >? stamp_ns) && (now_ns -w64 stamp_ns >? interval_ns).

Definition tcp_shift_bbr_bdp_bytes (bandwidth_bytes_per_sec rtt_ns : Z) : Z :=
  if (bandwidth_bytes_per_sec =? 0) || (rtt_ns =? 0) then 0
  else
    let bandwidth_whole := bandwidth_bytes_per_sec / TCP_SHIFT_BBR_NSEC_PER_SEC in
    let bandwidth_remainder := bandwidth_bytes_per_sec mod TCP_SHIFT_BBR_NSEC_PER_SEC in
    let rtt_whole := rtt_ns / TCP_SHIFT_BBR_NSEC_PER_SEC in
    let rtt_remainder := rtt_ns mod TCP_SHIFT_BBR_NSEC_PER_SEC in
    let result := tcp_shift_bbr_sat_mul_u64 bandwidth_whole rtt_ns in
    if result =? UINT64_MAX then UINT64_MAX
    else
      let result := tcp_shift_bbr_sat_add_u64 result
                      (tcp_shift_bbr_sat_mul_u64 bandwidth_remainder rtt_whole) in
      if result =? UINT64_MAX then UINT64_MAX
      else
        let cross := bandwidth_remainder *w64 rtt_remainder in
        let result := tcp_shift_bbr_sat_add_u64 result (cross / TCP_SHIFT_BBR_NSEC_PER_SEC) in
        if result =? UINT64_MAX then UINT64_MAX
        else if negb (cross mod TCP_SHIFT_BBR_NSEC_PER_SEC =? 0)
        then tcp_shift_bbr_sat_add_u64 result 1
        else result.

Definition tcp_shift_bbr_startup_pacing_rate_bytes_per_sec
    (bandwidth_bytes_per_sec : Z) : Z :=
  tcp_shift_bbr_scale_floor_u64 bandwidth_bytes_per_sec
    (TCP_SHIFT_BBR_STARTUP_GAIN_NUM * TCP_SHIFT_BBR_PACING_MARGIN_NUM)
    (TCP_SHIFT_BBR_GAIN_DEN * TCP_SHIFT_BBR_PACING_MARGIN_DEN).

Definition tcp_shift_bbr_startup_cwnd_target_bytes
    (bandwidth_bytes_per_sec min_rtt_ns mss_bytes cwnd_limit_bytes initial_cwnd_bytes : Z)
    : Z :=
  if (mss_bytes =? 0) || (cwnd_limit_bytes =? 0) then 0
  else
    let minimum_cwnd := mss_bytes *w64 TCP_SHIFT_BBR_MIN_CWND_PACKETS in
    let minimum_cwnd := if minimum_cwnd >? cwnd_limit_bytes
                        then cwnd_limit_bytes else minimum_cwnd in
    let target :=
      if (bandwidth_bytes_per_sec =? 0) || (min_rtt_ns =? 0) then initial_cwnd_bytes
      else tcp_shift_bbr_scale_ceil_u64
             (tcp_shift_bbr_bdp_bytes bandwidth_bytes_per_sec min_rtt_ns)
             TCP_SHIFT_BBR_STARTUP_GAIN_NUM TCP_SHIFT_BBR_GAIN_DEN in
    let target := if target <? minimum_cwnd then minimum_cwnd else target in
    let target := if target >? cwnd_limit_bytes then cwnd_limit_bytes else target in
    u32 target.

(** [src/cc/bbr_pacing.c] *)
Definition tcp_shift_bbr_initial_pacing_rate_bytes_per_sec
    (initial_cwnd_bytes smoothed_rtt_ns : Z) : Z :=
  if initial_cwnd_bytes =? 0 then 0
  else
    let rtt_ns := if negb (smoothed_rtt_ns =? 0) then smoothed_rtt_ns
                  else TCP_SHIFT_BBR_INITIAL_RTT_NS in
    let base_rate := (initial_cwnd_bytes *w64 TCP_SHIFT_BBR_NSEC_PER_SEC) / rtt_ns in
    let base_rate := if base_rate =? 0 then 1 else base_rate in
    tcp_shift_bbr_startup_pacing_rate_bytes_per_sec base_rate.

(** [transport->mss_bytes > transport->cwnd_limit_bytes / 4 ? limit : mss * 4],
    the four-packet floor shared by the mode policies. *)
Definition bbr_minimum_cwnd (transport : tcp_shift_cc_transport) : Z :=
  if tp_mss_bytes transport >? tp_cwnd_limit_bytes transport / TCP_SHIFT_BBR_MIN_CWND_PACKETS
  then tp_cwnd_limit_bytes transport
  else tp_mss_bytes transport *w32 TCP_SHIFT_BBR_MIN_CWND_PACKETS.

(** [model->has_min_rtt != 0U ? model->min_rtt_ns : 0U] *)
Definition bbr_known_min_rtt (model : tcp_shift_bbr_model) : Z :=
  if bm_has_min_rtt model then bm_min_rtt_ns model else 0.

Definition tcp_shift_bbr_startup_policy (model : tcp_shift_bbr_model)
    (transport : tcp_shift_cc_transport) (ack : tcp_shift_cc_ack)
    (initial_cwnd_bytes current_cwnd_bytes current_pacing_rate_bytes_per_sec : Z)
    (policy : tcp_shift_cc_policy) : Z * tcp_shift_cc_policy :=
  let mss := tp_mss_bytes transport in
  let limit := tp_cwnd_limit_bytes transport in
  if bool_decide (bm_mode model <> TCP_SHIFT_BBR_MODE_STARTUP) || (mss =? 0) ||
     (limit =? 0) || (limit <? mss) ||
     (initial_cwnd_bytes =? 0) || (initial_cwnd_bytes >? limit) ||
     (current_cwnd_bytes =? 0) || (current_cwnd_bytes >? limit)
  then (-1, policy)
  else
    let cwnd_target := tcp_shift_bbr_startup_cwnd_target_bytes
      (bm_max_bw_bytes_per_sec model) (bbr_known_min_rtt model) mss limit
      initial_cwnd_bytes in
    if cwnd_target =? 0 then (-1, policy)
    else
      let minimum_cwnd := bbr_minimum_cwnd transport in
      let cwnd := current_cwnd_bytes in
      let cwnd :=
        if negb (ack_acked_bytes ack =? 0) then
          let grown_cwnd := cwnd +w64 ack_acked_bytes ack in
          let grown_cwnd := if grown_cwnd >? limit then limit else grown_cwnd in
          if bm_full_bw_reached model then
            (if u32 grown_cwnd <? cwnd_target then u32 grown_cwnd else cwnd_target)
          else if (cwnd <? cwnd_target) ||
                  (rs_delivered_total_bytes (ack_rate ack) <? initial_cwnd_bytes)
          then u32 grown_cwnd
          else cwnd
        else cwnd in
      let cwnd := if cwnd <? minimum_cwnd then minimum_cwnd else cwnd in
      let cwnd := if cwnd >? limit then limit else cwnd in
      let pacing_target := tcp_shift_bbr_startup_pacing_rate_bytes_per_sec
                             (bm_max_bw_bytes_per_sec model) in
      let pacing_target := if pacing_target <? current_pacing_rate_bytes_per_sec
                           then current_pacing_rate_bytes_per_sec else pacing_target in
      (0, mk_policy cwnd limit pacing_target).

(** ** Estimator *)

Definition tcp_shift_bbr_recompute_max_bw (model : tcp_shift_bbr_model)
    : tcp_shift_bbr_model :=
  model <| bm_max_bw_bytes_per_sec :=
    fold_left tcp_shift_bbr_max_u64 (bm_max_bw_filter model) 0 |>.

Definition tcp_shift_bbr_update_round (model : tcp_shift_bbr_model)
    (sample : tcp_shift_cc_rate_sample) : tcp_shift_bbr_model :=
  let model := model <| bm_round_start := false |> in
  if (rs_delivered_total_bytes sample =? 0) ||
     (rs_delivered_total_bytes sample <? rs_prior_delivered_bytes sample)
  then model
  else if rs_prior_delivered_bytes sample >=? bm_next_round_delivered model then
    model <| bm_next_round_delivered := rs_delivered_total_bytes sample |>
          <| bm_round_count := bm_round_count model +w32 1 |>
          <| bm_round_start := true |>
  else model.

(** [for (step = 1; step <= delta; step++)] clearing the slots passed over. *)
Fixpoint age_loop (n : nat) (round step : Z) (filter : list Z) : list Z :=
  match n with
  | O => filter
  | S n' =>
      let slot := (round +w32 step) mod TCP_SHIFT_BBR_MAX_BW_FILTER_ROUNDS in
      age_loop n' round (step + 1) (<[Z.to_nat slot := 0]> filter)
  end.

Definition tcp_shift_bbr_age_bw_filter (model : tcp_shift_bbr_model) (round : Z)
    : tcp_shift_bbr_model :=
  if negb (bm_has_bw_filter_round model) then
    model <| bm_bw_filter_round := round |> <| bm_has_bw_filter_round := true |>
  else
    let delta := round -w32 bm_bw_filter_round model in
    if delta =? 0 then model
    else
      let filter :=
        if delta >=? TCP_SHIFT_BBR_MAX_BW_FILTER_ROUNDS
        then replicate 10 0
        else age_loop (Z.to_nat delta) (bm_bw_filter_round model) 1 (bm_max_bw_filter model) in
      tcp_shift_bbr_recompute_max_bw
        (model <| bm_max_bw_filter := filter |> <| bm_bw_filter_round := round |>).

Definition tcp_shift_bbr_update_max_bw (model : tcp_shift_bbr_model)
    (sample : tcp_shift_cc_rate_sample) : tcp_shift_bbr_model :=
  if negb (has_flag sample TCP_SHIFT_CC_RATE_SAMPLE_VALID) ||
     (rs_delivery_rate_bytes_per_sec sample =? 0)
  then model
  else
    let model := model <| bm_valid_rate_samples := bm_valid_rate_samples model +w64 1 |> in
    if has_flag sample TCP_SHIFT_CC_RATE_SAMPLE_APP_LIMITED &&
       (rs_delivery_rate_bytes_per_sec sample <? bm_max_bw_bytes_per_sec model)
    then model <| bm_ignored_app_limited_bw_samples :=
           bm_ignored_app_limited_bw_samples model +w64 1 |>
    else
      let model := tcp_shift_bbr_age_bw_filter model (bm_round_count model) in
      let slot := Z.to_nat (bm_round_count model mod TCP_SHIFT_BBR_MAX_BW_FILTER_ROUNDS) in
      let model :=
        if rs_delivery_rate_bytes_per_sec sample >? bm_max_bw_filter model !!! slot
        then model <| bm_max_bw_filter :=
               <[slot := rs_delivery_rate_bytes_per_sec sample]> (bm_max_bw_filter model) |>
        else model in
      let model := model <| bm_accepted_bw_samples := bm_accepted_bw_samples model +w64 1 |> in
      tcp_shift_bbr_recompute_max_bw model.

Definition tcp_shift_bbr_full_bw_threshold (full_bw : Z) : Z :=
  let quarter := full_bw / 4 in
  let quarter := if negb (full_bw mod 4 =? 0) then quarter +w64 1 else quarter in
  let increment := quarter in
  if UINT64_MAX -w64 full_bw <? increment then UINT64_MAX else full_bw +w64 increment.

Definition tcp_shift_bbr_check_startup_full_bw (model : tcp_shift_bbr_model)
    (sample : tcp_shift_cc_rate_sample) : tcp_shift_bbr_model :=
  let model := model <| bm_full_bw_now := false |> in
  if bool_decide (bm_mode model <> TCP_SHIFT_BBR_MODE_STARTUP) ||
     bm_full_bw_reached model || negb (bm_round_start model) ||
     negb (has_flag sample TCP_SHIFT_CC_RATE_SAMPLE_VALID) ||
     (rs_delivery_rate_bytes_per_sec sample =? 0) ||
     has_flag sample TCP_SHIFT_CC_RATE_SAMPLE_APP_LIMITED
  then model
  else
    let threshold := tcp_shift_bbr_full_bw_threshold (bm_full_bw_bytes_per_sec model) in
    if (bm_full_bw_bytes_per_sec model =? 0) ||
       (bm_max_bw_bytes_per_sec model >=? threshold)
    then model <| bm_full_bw_bytes_per_sec := bm_max_bw_bytes_per_sec model |>
               <| bm_full_bw_count := 0 |>
    else
      let model := model <| bm_full_bw_count := bm_full_bw_count model +w32 1 |> in
      if bm_full_bw_count model >=? TCP_SHIFT_BBR_FULL_BW_ROUNDS
      then model <| bm_full_bw_now := true |> <| bm_full_bw_reached := true |>
      else model.

Definition tcp_shift_bbr_update_min_rtt (model : tcp_shift_bbr_model)
    (sample : tcp_shift_cc_rate_sample) (now_ns : Z) : tcp_shift_bbr_model :=
  if negb (has_flag sample TCP_SHIFT_CC_RATE_SAMPLE_RTT_VALID) || (rs_rtt_ns sample =? 0)
  then model <| bm_probe_rtt_expired := false |> <| bm_min_rtt_expired := false |>
  else
    let model := model <| bm_valid_rtt_samples := bm_valid_rtt_samples model +w64 1 |> in
    let probe_expired := bm_has_probe_rtt_min model &&
      tcp_shift_bbr_elapsed_gt now_ns (bm_probe_rtt_min_stamp_ns model)
        TCP_SHIFT_BBR_PROBE_RTT_INTERVAL_NS in
    let model := model <| bm_probe_rtt_expired := probe_expired |> in
    let model :=
      if negb (bm_has_probe_rtt_min model) ||
         (rs_rtt_ns sample <? bm_probe_rtt_min_delay_ns model) || probe_expired
      then model <| bm_probe_rtt_min_delay_ns := rs_rtt_ns sample |>
                 <| bm_probe_rtt_min_stamp_ns := now_ns |>
                 <| bm_has_probe_rtt_min := true |>
      else model in
    let min_expired := bm_has_min_rtt model &&
      tcp_shift_bbr_elapsed_gt now_ns (bm_min_rtt_stamp_ns model)
        TCP_SHIFT_BBR_MIN_RTT_FILTER_NS in
    let model := model <| bm_min_rtt_expired := min_expired |> in
    if negb (bm_has_min_rtt model) ||
       (bm_probe_rtt_min_delay_ns model <? bm_min_rtt_ns model) || min_expired
    then model <| bm_min_rtt_ns := bm_probe_rtt_min_delay_ns model |>
               <| bm_min_rtt_stamp_ns := bm_probe_rtt_min_stamp_ns model |>
               <| bm_has_min_rtt := true |>
    else model.

(** Every field of the object is written. *)
Definition tcp_shift_bbr_model_init : tcp_shift_bbr_model :=
  mk_bbr 0 (replicate 10 0) 0 0 0 0 0 0 0 0 0 0 0 0 0 0 TCP_SHIFT_BBR_MODE_STARTUP
    false false false false false false false false false.

Definition tcp_shift_bbr_model_on_ack (model : tcp_shift_bbr_model)
    (sample : tcp_shift_cc_rate_sample) (now_ns : Z) : Z * tcp_shift_bbr_model :=
  if bm_has_update_time model && (now_ns <? bm_last_update_ns model) then (-1, model)
  else
    let model := model <| bm_last_update_ns := now_ns |> <| bm_has_update_time := true |> in
    let model := tcp_shift_bbr_update_round model sample in
    let model := tcp_shift_bbr_update_max_bw model sample in
    let model := tcp_shift_bbr_check_startup_full_bw model sample in
    let model := tcp_shift_bbr_update_min_rtt model sample now_ns in
    (0, model).

(** ** Exactness of the arithmetic *)

Lemma bbr_max_u64_spec a b : tcp_shift_bbr_max_u64 a b = Z.max a b.
Proof. unfold tcp_shift_bbr_max_u64. case_match; lia. Qed.

Lemma bbr_sat_add_spec a b :
  in_u64 a -> in_u64 b -> tcp_shift_bbr_sat_add_u64 a b = Z.min UINT64_MAX (a + b).
Proof. apply sat_add_u64_lt. Qed.

Lemma bbr_sat_mul_spec a b :
  in_u64 a -> in_u64 b -> tcp_shift_bbr_sat_mul_u64 a b = Z.min UINT64_MAX (a * b).
Proof. apply sat_mul_u64. Qed.

Lemma bbr_scale_floor_spec v n d :
  in_u64 v -> in_u32 n -> 1 <= d <= UINT32_MAX ->
  tcp_shift_bbr_scale_floor_u64 v n d = Z.min UINT64_MAX (v * n / d).
Proof.
  intros Hv Hn Hd. unfold tcp_shift_bbr_scale_floor_u64.
  destruct (d =? 0) eqn:E; [lia|].
  assert (Hq : 0 <= v / d <= v) by div_nia. pose proof (mod_mul_u64 v n d ltac:(lia) Hn) as Hm.
  rewrite (u64_small (v mod d * n)), bbr_sat_mul_spec, (scale_split v n d) by lia.
  assert (0 <= v mod d * n / d <= UINT64_MAX) by div_nia.
  assert (0 <= v / d * n) by nia.
  destruct (_ =? UINT64_MAX) eqn:E1; [lia|]. rewrite bbr_sat_add_spec by lia. lia.
Qed.

Lemma cdiv_split q x d : 0 < d -> cdiv (q * d + x) d = q + cdiv x d.
Proof.
  intros Hd. unfold cdiv. replace (q * d + x + d - 1) with (q * d + (x + d - 1)) by lia.
  by rewrite Z.div_add_l by lia.
Qed.

(** The rounding-up tail shared by the scaling and the product. *)
Lemma bbr_ceil_tail base cross d :
  in_u64 base -> in_u64 cross -> 1 <= d ->
  (let whole := tcp_shift_bbr_sat_add_u64 base (cross / d) in
   if whole =? UINT64_MAX then UINT64_MAX
   else if negb (cross mod d =? 0) then tcp_shift_bbr_sat_add_u64 whole 1 else whole)
  = Z.min UINT64_MAX (base + cdiv cross d).
Proof.
  intros Hb Hc Hd. cbn zeta. rewrite cdiv_alt by lia.
  assert (0 <= cross / d <= cross) by div_nia.
  rewrite (bbr_sat_add_spec base) by lia.
  destruct (_ =? UINT64_MAX) eqn:E; [case_match; lia|].
  destruct (cross mod d =? 0); cbn [negb]; [lia|]. rewrite bbr_sat_add_spec by lia. lia.
Qed.

Lemma bbr_scale_ceil_spec v n d :
  in_u64 v -> in_u32 n -> 1 <= d <= UINT32_MAX ->
  tcp_shift_bbr_scale_ceil_u64 v n d = Z.min UINT64_MAX (cdiv (v * n) d).
Proof.
  intros Hv Hn Hd. unfold tcp_shift_bbr_scale_ceil_u64.
  destruct (d =? 0) eqn:E; [lia|].
  assert (Hq : 0 <= v / d <= v) by div_nia. pose proof (mod_mul_u64 v n d ltac:(lia) Hn) as Hm.
  rewrite (u64_small (v mod d * n)), bbr_sat_mul_spec by lia.
  assert (0 <= v / d * n) by nia.
  assert (Hs : cdiv (v * n) d = v / d * n + cdiv (v mod d * n) d).
  { rewrite <- cdiv_split by lia. f_equal. rewrite (Z.div_mod v d) at 1 by lia. ring. }
  pose proof (cdiv_bounds (v mod d * n) d ltac:(lia)).
  assert (0 <= cdiv (v mod d * n) d) by nia.
  destruct (_ =? UINT64_MAX) eqn:E1; [lia|]. rewrite bbr_ceil_tail, Hs by lia. lia.
Qed.

Lemma bbr_bdp_spec bw rtt :
  in_u64 bw -> in_u64 rtt ->
  tcp_shift_bbr_bdp_bytes bw rtt = Z.min UINT64_MAX (cdiv (bw * rtt) 1000000000).
Proof.
  intros Hb Hr. unfold tcp_shift_bbr_bdp_bytes.
  destruct (_ || _) eqn:E.
  { assert (bw * rtt = 0) as -> by nia. reflexivity. }
  pose proof (Z.div_mod bw 1000000000 ltac:(lia)) as Ebw.
  pose proof (Z.div_mod rtt 1000000000 ltac:(lia)) as Ertt.
  pose proof (Z.mod_pos_bound bw 1000000000 ltac:(lia)).
  pose proof (Z.mod_pos_bound rtt 1000000000 ltac:(lia)).
  set (bq := bw / 1000000000) in *. set (br := bw mod 1000000000) in *.
  set (rq := rtt / 1000000000) in *. set (rr := rtt mod 1000000000) in *.
  clearbody bq br rq rr. assert (0 <= bq) by lia. assert (0 <= rq) by lia.
  assert (Hs : cdiv (bw * rtt) 1000000000 = bq * rtt + br * rq + cdiv (br * rr) 1000000000).
  { rewrite <- cdiv_split by lia. f_equal. nia. }
  assert (0 <= bq * rtt) by nia. assert (0 <= br * rq) by nia.
  assert (0 <= br * rr < 1000000000 * 1000000000) by nia.
  pose proof (cdiv_bounds (br * rr) 1000000000 ltac:(lia)).
  rewrite Hs. rewrite !bbr_sat_mul_spec, (u64_small (br * rr)) by lia.
  destruct (_ =? UINT64_MAX) eqn:E1; [lia|].
  rewrite (bbr_sat_add_spec (Z.min UINT64_MAX (bq * rtt))) by lia.
  rewrite bbr_ceil_tail by lia. case_match; lia.
Qed.

Lemma bbr_startup_pacing_spec bw :
  in_u64 bw ->
  tcp_shift_bbr_startup_pacing_rate_bytes_per_sec bw = Z.min UINT64_MAX (bw * 73161 / 25600).
Proof. intros. unfold tcp_shift_bbr_startup_pacing_rate_bytes_per_sec. by rewrite bbr_scale_floor_spec by lia. Qed.

Lemma bbr_minimum_cwnd_spec t :
  transport_usable t -> bbr_minimum_cwnd t = Z.min (tp_cwnd_limit_bytes t) (4 * tp_mss_bytes t).
Proof.
  intros [(? & ? & ? & ?) ?]. unfold bbr_minimum_cwnd.
  rewrite Z.gtb_ltb, div_ltb_mul by lia. case_match; [lia|]. rewrite u32_small by lia. lia.
Qed.
