(* ===== verification/BbrFilter.v ===== *)
(** * The maximum-bandwidth filter of compact BBR

    The ring of ten per-round maxima in [tcp_shift_bbr_model] refines "the
    largest accepted sample of the last ten packet-timed rounds". *)

From Stdlib Require Import ZArith Lia Bool List.
From stdpp Require Import base tactics numbers list.
From S2P Require Import Prelude CC BbrModel.
Local Open Scope Z_scope.

(** ** The abstract filter: a log of accepted samples, newest first *)

(** The largest rate among the samples whose round satisfies [keep]. *)
Fixpoint max_of (keep : Z -> bool) (l : list (Z * Z)) : Z :=
  match l with
  | [] => 0
  | (r, bw) :: l' => if keep r then Z.max bw (max_of keep l') else max_of keep l'
  end.

Definition in_window (newest r : Z) : bool :=
  (newest - TCP_SHIFT_BBR_MAX_BW_FILTER_ROUNDS <? r).

(** The estimate: the window ends at the round of the newest sample. *)
Definition bw_estimate (l : list (Z * Z)) : Z :=
  match l with [] => 0 | (newest, _) :: _ => max_of (in_window newest) l end.

Record bw_log := mk_log { log_round : Z; log_next : Z; log_accepted : list (Z * Z) }.

(** One delivery sample: a packet-timed round ends when data sent after the
    round began is delivered; a sample is logged unless it is invalid, or
    application-limited and below the estimate. *)
Definition log_step (g : bw_log) (s : tcp_shift_cc_rate_sample) : bw_log :=
  let new_round := negb (rs_delivered_total_bytes s =? 0) &&
    (rs_prior_delivered_bytes s <=? rs_delivered_total_bytes s) &&
    (log_next g <=? rs_prior_delivered_bytes s) in
  let round := if new_round then log_round g + 1 else log_round g in
  let next := if new_round then rs_delivered_total_bytes s else log_next g in
  let accept := has_flag s TCP_SHIFT_CC_RATE_SAMPLE_VALID &&
    (0 <? rs_delivery_rate_bytes_per_sec s) &&
    negb (has_flag s TCP_SHIFT_CC_RATE_SAMPLE_APP_LIMITED &&
          (rs_delivery_rate_bytes_per_sec s <? bw_estimate (log_accepted g))) in
  mk_log round next
    (if accept then (round, rs_delivery_rate_bytes_per_sec s) :: log_accepted g
     else log_accepted g).

(** ** Maxima *)

Lemma max_of_nonneg keep l : 0 <= max_of keep l.
Proof. induction l as [|[r bw] l IH]; cbn; [lia|]. case_match; lia. Qed.

Lemma max_of_ext keep keep' l :
  Forall (fun x => keep x.1 = keep' x.1) l -> max_of keep l = max_of keep' l.
Proof.
  induction 1 as [|[r bw] l Hx _ IH]; cbn; [done|]. cbn in Hx. by rewrite Hx, IH.
Qed.

Lemma max_of_none keep l : Forall (fun x => keep x.1 = false) l -> max_of keep l = 0.
Proof. induction 1 as [|[r bw] l Hx _ IH]; cbn; [done|]. cbn in Hx. by rewrite Hx. Qed.

(** The maximum over a list of slots is the maximum of the slots' maxima. *)
Lemma fold_max_spec l a :
  fold_left tcp_shift_bbr_max_u64 l a = foldr Z.max a l.
Proof.
  revert a. induction l as [|x l IH]; intros a; cbn; [done|].
  rewrite IH, bbr_max_u64_spec. clear IH. induction l as [|y l IH]; cbn; lia.
Qed.

Definition slot_keep (newest : Z) (i : Z) (r : Z) : bool :=
  in_window newest r && (r mod 10 =? i).

Lemma foldr_max_le f y : foldr Z.max 0 f <= y <-> 0 <= y /\ Forall (fun x => x <= y) f.
Proof.
  induction f as [|x f IH]; cbn.
  - split; [intros; split; [lia|constructor]|by intros [? _]].
  - rewrite Z.max_lub_iff, IH, Forall_cons. tauto.
Qed.

Lemma max_of_le keep l y :
  max_of keep l <= y <-> 0 <= y /\ Forall (fun x => keep x.1 = true -> x.2 <= y) l.
Proof.
  induction l as [|[r bw] l IH]; cbn.
  - split; [intros; split; [lia|constructor]|by intros [? _]].
  - rewrite Forall_cons. cbn. destruct (keep r) eqn:E.
    + rewrite Z.max_lub_iff, IH. tauto.
    + rewrite IH. split; [intros []; repeat split; [done|discriminate|done]|tauto].
Qed.

(** The ring's maximum is the window's maximum. *)
Lemma foldr_max_slots newest l (f : list Z) :
  length f = 10%nat ->
  (forall i, 0 <= i < 10 -> f !!! Z.to_nat i = max_of (slot_keep newest i) l) ->
  foldr Z.max 0 f = max_of (in_window newest) l.
Proof.
  intros Hlen Hf.
  assert (Hle : forall y, foldr Z.max 0 f <= y <-> max_of (in_window newest) l <= y).
  { intros y. rewrite foldr_max_le, max_of_le. split; intros [Hy H]; (split; [done|]).
    - apply Forall_forall. intros [r bw] Hin Hw. cbn in *.
      assert (Hr : 0 <= r mod 10 < 10) by (apply Z.mod_pos_bound; lia).
      assert (Hs : max_of (slot_keep newest (r mod 10)) l <= y).
      { rewrite <- Hf by done. rewrite Forall_lookup in H. eapply (H (Z.to_nat (r mod 10))).
        apply list_lookup_lookup_total_lt. lia. }
      apply max_of_le in Hs as [_ Hs]. rewrite Forall_forall in Hs.
      apply (Hs (r, bw) Hin). unfold slot_keep. cbn. rewrite Hw, Z.eqb_refl. done.
    - apply Forall_lookup. intros i x Hi. pose proof (lookup_lt_Some _ _ _ Hi) as Hlt.
      apply list_lookup_total_correct in Hi as <-. rewrite <- (Nat2Z.id i), Hf by lia.
      apply max_of_le. split; [done|]. eapply Forall_impl; [exact H|]. intros [r bw] Hx Hk.
      apply Hx. unfold slot_keep in Hk. by apply andb_true_iff in Hk as [? _]. }
  pose proof (proj1 (Hle _) (Z.le_refl _)). pose proof (proj2 (Hle _) (Z.le_refl _)). lia.
Qed.

(** ** Ageing *)

Lemma age_loop_length n : forall round step f, length (age_loop n round step f) = length f.
Proof. induction n as [|n IH]; intros; cbn; [done|]. by rewrite IH, length_insert. Qed.

Lemma age_loop_zero n : forall round step f i,
  length f = 10%nat -> 0 <= i < 10 -> f !!! Z.to_nat i = 0 ->
  age_loop n round step f !!! Z.to_nat i = 0.
Proof.
  induction n as [|n IH]; intros round step f i Hlen Hi Hz; cbn; [done|].
  apply IH; [by rewrite length_insert|done|]. set (j := Z.to_nat (_ mod 10)).
  destruct (decide (j = Z.to_nat i)) as [->|Hne].
  - apply list_lookup_total_insert_eq. lia.
  - by rewrite list_lookup_total_insert_ne.
Qed.

(** After the loop a slot is zero if one of the rounds passed over uses it,
    and unchanged otherwise. *)
Lemma age_loop_spec n : forall round step f i,
  length f = 10%nat -> 0 <= i < 10 -> 0 <= round -> 0 <= step ->
  round + step + Z.of_nat n <= 4294967296 ->
  ((exists k, step <= k < step + Z.of_nat n /\ (round + k) mod 10 = i) ->
   age_loop n round step f !!! Z.to_nat i = 0) /\
  ((forall k, step <= k < step + Z.of_nat n -> (round + k) mod 10 <> i) ->
   age_loop n round step f !!! Z.to_nat i = f !!! Z.to_nat i).
Proof.
  induction n as [|n IH]; intros round step f i Hlen Hi Hr Hs Hb; cbn [age_loop].
  { split; [intros (k & ? & _); lia|done]. }
  rewrite u32_small by lia.
  pose proof (Z.mod_pos_bound (round + step) 10 ltac:(lia)) as Hm.
  destruct (IH round (step + 1) (<[Z.to_nat ((round + step) mod 10):=0]> f) i) as [IH1 IH2];
    [by rewrite length_insert|lia..|].
  split.
  - intros (k & Hk & Ek). destruct (decide (step = k)) as [->|Hne].
    + (* cleared here; later clearings only write zeros *)
      apply age_loop_zero; [by rewrite length_insert|lia|].
      rewrite Ek. apply list_lookup_total_insert_eq. lia.
    + apply IH1. exists k. split; [lia|done].
  - intros Hno. rewrite IH2 by (intros; apply Hno; lia).
    apply list_lookup_total_insert_ne. specialize (Hno step ltac:(lia)). lia.
Qed.

(** ** The ring *)

Definition ring_ok (f : list Z) (newest : Z) (l : list (Z * Z)) : Prop :=
  length f = 10%nat /\
  forall i, 0 <= i < 10 -> f !!! Z.to_nat i = max_of (slot_keep newest i) l.

Definition aged (f : list Z) (newest now : Z) : list Z :=
  if now - newest >=? 10 then replicate 10 0
  else age_loop (Z.to_nat (now - newest)) newest 1 f.

Lemma ring_zero newest : ring_ok (replicate 10 0) newest [].
Proof.
  split; [done|]. intros i Hi. cbn [max_of]. apply lookup_total_replicate_2. lia.
Qed.

Lemma ring_age f newest now l :
  ring_ok f newest l -> Forall (fun x => x.1 <= newest) l ->
  0 <= newest <= now -> now <= UINT32_MAX -> ring_ok (aged f newest now) now l.
Proof.
  intros [Hlen Hf] Hl Hn Hu. unfold aged. destruct (now - newest >=? 10) eqn:E.
  { split; [done|]. intros i Hi. rewrite lookup_total_replicate_2 by lia.
    symmetry. apply max_of_none. eapply Forall_impl; [exact Hl|]. intros [r bw] Hr. cbn in *.
    unfold slot_keep, in_window. apply andb_false_iff. left. lia. }
  split; [by rewrite age_loop_length|]. intros i Hi.
  destruct (age_loop_spec (Z.to_nat (now - newest)) newest 1 f i) as [Hz Hk]; [done|lia..|].
  rewrite Z2Nat.id in Hz, Hk by lia.
  (* the only round of slot [i] in the window of [now], if it is a new one *)
  set (k := (i - newest - 1) mod 10 + 1).
  assert (Hkr : 1 <= k <= 10 /\ (newest + k) mod 10 = i).
  { unfold k. pose proof (Z.mod_pos_bound (i - newest - 1) 10). split; [lia|].
    replace (newest + _) with (newest + 1 + (i - newest - 1) mod 10) by lia.
    rewrite Z.add_mod_idemp_r by lia. replace (newest + 1 + _) with i by lia.
    by apply Z.mod_small. }
  clearbody k. destruct (decide (k <= now - newest)) as [Hin|Hout].
  - rewrite Hz by (exists k; split; [lia|tauto]). symmetry. apply max_of_none.
    eapply Forall_impl; [exact Hl|]. intros [r bw] Hr. cbn in *. apply andb_false_iff.
    unfold in_window. destruct (r mod 10 =? i) eqn:Er; [left|by right].
    apply Z.eqb_eq in Er. destruct Hkr as [? Hkr]. div_lia.
  - rewrite Hk.
    2:{ intros k' Hk' E'. destruct Hkr as [? Hkr]. assert (k = k') by div_lia. lia. }
    rewrite Hf by done. apply max_of_ext. eapply Forall_impl; [exact Hl|].
    intros [r bw] Hr. cbn in *. unfold slot_keep, in_window.
    destruct (r mod 10 =? i) eqn:Er; [|by rewrite !andb_false_r]. rewrite !andb_true_r.
    apply Z.eqb_eq in Er. destruct Hkr as [? Hkr]. apply eq_true_iff_eq.
    rewrite !Z.ltb_lt. div_lia.
Qed.

Lemma ring_insert f now bw l :
  ring_ok f now l -> 0 <= now -> 
  let slot := Z.to_nat (now mod 10) in
  ring_ok (if bw >? f !!! slot then <[slot := bw]> f else f) now ((now, bw) :: l).
Proof.
  intros [Hlen Hf] Hn slot.
  assert (Hm : 0 <= now mod 10 < 10) by (apply Z.mod_pos_bound; lia).
  split; [case_match; [by rewrite length_insert|done]|]. intros i Hi. cbn.
  unfold slot_keep at 1, in_window. rewrite (proj2 (Z.ltb_lt _ _)) by lia. cbn [andb].
  assert (Hs : f !!! slot = max_of (slot_keep now (now mod 10)) l) by (by apply Hf).
  destruct (now mod 10 =? i) eqn:E.
  - apply Z.eqb_eq in E. subst i. fold slot. case_match.
    + rewrite list_lookup_total_insert_eq by lia. lia.
    + lia.
  - apply Z.eqb_neq in E. rewrite <- Hf by done. case_match; [|done].
    apply list_lookup_total_insert_ne. unfold slot. lia.
Qed.

(** ** The model against the log *)

Definition filter_ok (m : tcp_shift_bbr_model) (l : list (Z * Z)) : Prop :=
  bm_max_bw_bytes_per_sec m = bw_estimate l /\
  match l with
  | [] => bm_has_bw_filter_round m = false /\ bm_max_bw_filter m = replicate 10 0
  | (newest, _) :: _ =>
      bm_has_bw_filter_round m = true /\ bm_bw_filter_round m = newest /\
      ring_ok (bm_max_bw_filter m) newest l /\ Forall (fun x => x.1 <= newest) l /\
      0 <= newest <= bm_round_count m
  end.

(** The filter fields after ageing: the ring of the current round. *)
Lemma age_bw_filter_ok m l :
  filter_ok m l -> 0 <= bm_round_count m <= UINT32_MAX ->
  let m' := tcp_shift_bbr_age_bw_filter m (bm_round_count m) in
  bm_has_bw_filter_round m' = true /\ bm_bw_filter_round m' = bm_round_count m /\
  bm_round_count m' = bm_round_count m /\
  ring_ok (bm_max_bw_filter m') (bm_round_count m) l /\
  Forall (fun x => x.1 <= bm_round_count m) l.
Proof.
  intros [_ Hm] Hr. unfold tcp_shift_bbr_age_bw_filter. destruct l as [|[newest bw] l].
  { destruct Hm as [-> Hf]. cbn. rewrite Hf. split_and!; [done..|apply ring_zero|constructor]. }
  destruct Hm as (Hhas & Hrd & Hring & Hl & Hn). rewrite Hhas, Hrd. cbn [negb].
  rewrite u32_small by lia.
  assert (Hl' : Forall (fun x => x.1 <= bm_round_count m) ((newest, bw) :: l))
    by (eapply Forall_impl; [exact Hl|]; cbn; intros; lia).
  pose proof (ring_age _ _ (bm_round_count m) _ Hring Hl ltac:(lia) ltac:(lia)) as Ha.
  unfold aged in Ha. destruct (bm_round_count m - newest =? 0) eqn:E.
  - assert (Eq : bm_round_count m = newest) by lia. rewrite Eq. split_and!; try done.
  - cbn. split_and!; try done; lia.
Qed.

Lemma recompute_filter_ok m newest bw l :
  bm_has_bw_filter_round m = true -> bm_bw_filter_round m = newest ->
  ring_ok (bm_max_bw_filter m) newest ((newest, bw) :: l) ->
  Forall (fun x => x.1 <= newest) l -> 0 <= newest <= bm_round_count m ->
  filter_ok (tcp_shift_bbr_recompute_max_bw m) ((newest, bw) :: l).
Proof.
  intros H1 H2 [Hlen Hf] Hl Hn. split.
  - change (bm_max_bw_bytes_per_sec (tcp_shift_bbr_recompute_max_bw m))
      with (fold_left tcp_shift_bbr_max_u64 (bm_max_bw_filter m) 0).
    rewrite fold_max_spec. by apply foldr_max_slots.
  - cbn. split_and!; try done; try lia. constructor; [cbn; lia|done].
Qed.

(** One sample through [update_max_bw]: logged exactly when the log accepts it. *)
Lemma update_max_bw_ok m s l :
  filter_ok m l -> 0 <= bm_round_count m <= UINT32_MAX ->
  0 <= rs_delivery_rate_bytes_per_sec s ->
  let accept := has_flag s TCP_SHIFT_CC_RATE_SAMPLE_VALID &&
    (0 <? rs_delivery_rate_bytes_per_sec s) &&
    negb (has_flag s TCP_SHIFT_CC_RATE_SAMPLE_APP_LIMITED &&
          (rs_delivery_rate_bytes_per_sec s <? bw_estimate l)) in
  filter_ok (tcp_shift_bbr_update_max_bw m s)
    (if accept then (bm_round_count m, rs_delivery_rate_bytes_per_sec s) :: l else l).
Proof.
  intros Hm Hr Hb accept. unfold accept, tcp_shift_bbr_update_max_bw. cbn zeta.
  destruct (has_flag s 1); cbn [negb orb andb]; [|done].
  destruct (rs_delivery_rate_bytes_per_sec s =? 0) eqn:E0.
  { rewrite (proj2 (Z.ltb_ge _ _)) by lia. done. }
  rewrite (proj2 (Z.ltb_lt 0 _)) by lia. cbn [andb].
  set (m1 := m <| bm_valid_rate_samples := _ |>).
  assert (Hm1 : filter_ok m1 l) by exact Hm.
  change (bm_round_count m) with (bm_round_count m1) in *. clearbody m1. clear Hm m.
  rewrite (proj1 Hm1). destruct (_ && (_ <? bw_estimate l)); cbn [negb]; [done|].
  destruct (age_bw_filter_ok m1 l Hm1 Hr) as (H1 & H2 & H3 & H4 & H5).
  set (m2 := tcp_shift_bbr_age_bw_filter m1 _) in *. clearbody m2.
  pose proof (ring_insert _ _ (rs_delivery_rate_bytes_per_sec s) _ H4 ltac:(lia)) as Hi.
  cbn zeta in Hi. rewrite H3.
  destruct (_ >? _); apply recompute_filter_ok; cbn; try done; lia.
Qed.

(** The rest of the ACK handler does not touch the filter. *)
Lemma filter_ok_frame m m' l :
  bm_max_bw_bytes_per_sec m' = bm_max_bw_bytes_per_sec m ->
  bm_max_bw_filter m' = bm_max_bw_filter m ->
  bm_has_bw_filter_round m' = bm_has_bw_filter_round m ->
  bm_bw_filter_round m' = bm_bw_filter_round m ->
  bm_round_count m <= bm_round_count m' ->
  filter_ok m l -> filter_ok m' l.
Proof.
  intros E1 E2 E3 E4 Hr [H1 H2]. unfold filter_ok. rewrite E1, E2, E3, E4. split; [done|].
  destruct l as [|[n b] l]; [done|]. naive_solver lia.
Qed.

Definition simulates (m : tcp_shift_bbr_model) (g : bw_log) : Prop :=
  bm_round_count m = log_round g /\ bm_next_round_delivered m = log_next g /\
  filter_ok m (log_accepted g).

Lemma update_round_spec m s g :
  simulates m g -> 0 <= log_round g < UINT32_MAX ->
  let m' := tcp_shift_bbr_update_round m s in
  bm_round_count m' = log_round (log_step g s) /\
  bm_next_round_delivered m' = log_next (log_step g s) /\
  filter_ok m' (log_accepted g) /\ log_round g <= bm_round_count m'.
Proof.
  intros (Hr & Hn & Hf) Hb. unfold tcp_shift_bbr_update_round. cbn.
  rewrite Hn, Hr, (u32_small (log_round g + 1)) by lia.
  destruct (rs_delivered_total_bytes s =? 0) eqn:E1; cbn; [split_and!; try done; lia|].
  rewrite Z.ltb_antisym.
  destruct (rs_prior_delivered_bytes s <=? rs_delivered_total_bytes s) eqn:E2; cbn;
    [|split_and!; try done; lia].
  rewrite Z.geb_leb.
  destruct (log_next g <=? rs_prior_delivered_bytes s) eqn:E3; cbn; split_and!; try done; try lia.
  eapply filter_ok_frame; [..|exact Hf]; try done. cbn. lia.
Qed.

Lemma check_full_bw_frame m s :
  let m' := tcp_shift_bbr_check_startup_full_bw m s in
  (forall l, filter_ok m l -> filter_ok m' l) /\
  bm_round_count m' = bm_round_count m /\
  bm_next_round_delivered m' = bm_next_round_delivered m /\
  bm_last_update_ns m' = bm_last_update_ns m.
Proof.
  unfold tcp_shift_bbr_check_startup_full_bw. cbn zeta.
  repeat case_match; split_and!; try done; intros l; by apply filter_ok_frame.
Qed.

Lemma update_min_rtt_frame m s now :
  let m' := tcp_shift_bbr_update_min_rtt m s now in
  (forall l, filter_ok m l -> filter_ok m' l) /\
  bm_round_count m' = bm_round_count m /\
  bm_next_round_delivered m' = bm_next_round_delivered m /\
  bm_last_update_ns m' = bm_last_update_ns m.
Proof.
  unfold tcp_shift_bbr_update_min_rtt. cbn zeta.
  repeat case_match; split_and!; try done; intros l; by apply filter_ok_frame.
Qed.

Lemma update_max_bw_frame m s :
  let m' := tcp_shift_bbr_update_max_bw m s in
  bm_round_count m' = bm_round_count m /\
  bm_next_round_delivered m' = bm_next_round_delivered m /\
  bm_last_update_ns m' = bm_last_update_ns m.
Proof.
  unfold tcp_shift_bbr_update_max_bw, tcp_shift_bbr_age_bw_filter,
    tcp_shift_bbr_recompute_max_bw. cbn zeta.
  destruct (_ || _); [done|]. destruct (_ && _); [done|].
  destruct (negb _); [|destruct (_ =? 0)]; destruct (_ >? _); done.
Qed.

(** One ACK of the estimator is one step of the log. *)
Lemma on_ack_simulates m g s now :
  simulates m g -> 0 <= log_round g < UINT32_MAX ->
  0 <= rs_delivery_rate_bytes_per_sec s -> bm_last_update_ns m <= now ->
  exists m', tcp_shift_bbr_model_on_ack m s now = (0, m') /\
    simulates m' (log_step g s) /\ bm_last_update_ns m' = now.
Proof.
  intros Hs Hb Hd Ht. unfold tcp_shift_bbr_model_on_ack.
  rewrite (proj2 (Z.ltb_ge _ _) Ht), andb_false_r. eexists. split; [reflexivity|].
  set (m0 := m <| bm_last_update_ns := now |> <| bm_has_update_time := true |>).
  assert (Hs0 : simulates m0 g) by done.
  assert (Ht0 : bm_last_update_ns (tcp_shift_bbr_update_round m0 s) = now)
    by (unfold tcp_shift_bbr_update_round; by repeat case_match).
  clearbody m0. clear Hs Ht m.
  destruct (update_round_spec m0 s g Hs0 Hb) as (R1 & R2 & R3 & R4).
  set (m1 := tcp_shift_bbr_update_round m0 s) in *. clearbody m1. clear Hs0 m0.
  assert (Hr1 : 0 <= bm_round_count m1 <= UINT32_MAX).
  { rewrite R1. cbn. case_match; lia. }
  pose proof (update_max_bw_ok m1 s _ R3 Hr1 Hd) as Hf.
  destruct (update_max_bw_frame m1 s) as (F1 & F2 & F3).
  set (m2 := tcp_shift_bbr_update_max_bw m1 s) in *. clearbody m2.
  destruct (check_full_bw_frame m2 s) as (G0 & G1 & G2 & G3).
  set (m3 := tcp_shift_bbr_check_startup_full_bw m2 s) in *. clearbody m3.
  destruct (update_min_rtt_frame m3 s now) as (K0 & K1 & K2 & K3).
  set (m4 := tcp_shift_bbr_update_min_rtt m3 s now) in *. clearbody m4.
  split; [|congruence]. split; [congruence|]. split; [congruence|].
  apply K0, G0. cbn in R1 |- *. by rewrite <- R1.
Qed.

(** ** Runs *)

Definition bbr_run (trace : list (tcp_shift_cc_rate_sample * Z)) : tcp_shift_bbr_model :=
  fold_left (fun m '(s, now) => (tcp_shift_bbr_model_on_ack m s now).2) trace
    tcp_shift_bbr_model_init.

Definition log_run (trace : list (tcp_shift_cc_rate_sample * Z)) : bw_log :=
  fold_left (fun g '(s, _) => log_step g s) trace (mk_log 0 0 []).

(** The caller's clock is monotonic. *)
Fixpoint monotone_from (t : Z) (trace : list (tcp_shift_cc_rate_sample * Z)) : Prop :=
  match trace with [] => True | (_, now) :: l => t <= now /\ monotone_from now l end.

Lemma run_simulates trace : forall m g,
  simulates m g -> 0 <= log_round g -> log_round g + Z.of_nat (length trace) <= UINT32_MAX ->
  Forall (fun x => 0 <= rs_delivery_rate_bytes_per_sec x.1) trace ->
  monotone_from (bm_last_update_ns m) trace ->
  simulates (fold_left (fun m '(s, now) => (tcp_shift_bbr_model_on_ack m s now).2) trace m)
    (fold_left (fun g '(s, _) => log_step g s) trace g).
Proof.
  induction trace as [|[s now] trace IH]; intros m g Hs H0 Hb Hd Hm; [done|].
  apply Forall_cons in Hd as [Hd1 Hd]. cbn in Hb, Hd1, Hm. destruct Hm as [Hle Hm].
  destruct (on_ack_simulates m g s now Hs ltac:(lia) Hd1 Hle) as (m' & E & Hs' & El).
  cbn [fold_left]. rewrite E. cbn [snd]. apply IH; try done.
  - cbn. case_match; lia.
  - cbn. case_match; lia.
  - by rewrite El.
Qed.

(** C7. The maximum-bandwidth filter refines its specification: after any
    sequence of fewer than 2^32 delivery samples with a monotonic clock, the
    ring's estimate is the largest accepted sample among those of the ten
    rounds that end with the newest accepted one; invalid samples and
    application-limited samples below the estimate are not accepted. *)
Theorem bbr_max_bw_filter_refines trace :
  Z.of_nat (length trace) <= UINT32_MAX ->
  Forall (fun x => 0 <= rs_delivery_rate_bytes_per_sec x.1) trace ->
  monotone_from 0 trace ->
  bm_max_bw_bytes_per_sec (bbr_run trace) = bw_estimate (log_accepted (log_run trace)) /\
  bm_round_count (bbr_run trace) = log_round (log_run trace).
Proof.
  intros Hl Hd Hm.
  destruct (run_simulates trace tcp_shift_bbr_model_init (mk_log 0 0 [])) as (H1 & _ & H2 & _);
    try done; cbn; lia.
Qed.

Lemma bbr_max_bw_filter_refines_witness :
  let s rate prior total := (mk_rate_sample rate 0 0 0 0 prior total 0 0 1, total) in
  bm_max_bw_bytes_per_sec (bbr_run [s 500 0 10; s 900 10 20; s 700 20 30]) = 900.
Proof.
  intros s.
  destruct (bbr_max_bw_filter_refines [s 500 0 10; s 900 10 20; s 700 20 30]) as [H _].
  - cbn; lia.
  - repeat (apply Forall_cons; split; [cbn; lia|]); apply Forall_nil_2.
  - cbn; lia.
  - rewrite H. reflexivity.
Defined.
