(* ===== verification/BbrEstimator.v ===== *)
(** * Correctness of the compact BBR estimator

    The bandwidth-delay product, the full-pipe detector of STARTUP and the
    freshness of the minimum-RTT filter. *)

From Stdlib Require Import ZArith Lia Bool List.
From stdpp Require Import base tactics numbers list.
From S2P Require Import Prelude CC BbrModel.
Local Open Scope Z_scope.

(** [tcp_shift_bbr_bdp_bytes] is the exact bandwidth-delay product rounded
    up, saturating at the 64-bit maximum, for all 64-bit rates and RTTs,
    although no intermediate exceeds 64 bits. *)
Theorem bbr_bdp_exact bw rtt :
  in_u64 bw -> in_u64 rtt ->
  tcp_shift_bbr_bdp_bytes bw rtt = Z.min UINT64_MAX (cdiv (bw * rtt) 1000000000).
Proof. apply bbr_bdp_spec. Qed.

Lemma bbr_bdp_exact_witness :
  tcp_shift_bbr_bdp_bytes 12500001 40000000 = 500001 /\
  tcp_shift_bbr_bdp_bytes UINT64_MAX 2000000000 = UINT64_MAX.
Proof. split; rewrite bbr_bdp_exact by lia; reflexivity. Defined.

(** ** Full-pipe detection *)

Lemma full_bw_threshold_spec b :
  in_u64 b -> tcp_shift_bbr_full_bw_threshold b = Z.min UINT64_MAX (b + cdiv b 4).
Proof.
  intros Hb. unfold tcp_shift_bbr_full_bw_threshold. cbn zeta.
  set (q := if negb _ then _ else _).
  assert (Hq : q = cdiv b 4).
  { unfold q. rewrite cdiv_alt by lia. destruct (b mod 4 =? 0); cbn [negb];
      [|rewrite u64_small by div_lia]; lia. }
  rewrite Hq. pose proof (cdiv_bounds b 4 ltac:(lia)). apply sat_add_u64_lt; lia.
Qed.

(** A sample that takes part in full-pipe detection. *)
Definition eligible_sample (s : tcp_shift_cc_rate_sample) : Prop :=
  has_flag s TCP_SHIFT_CC_RATE_SAMPLE_VALID = true /\
  has_flag s TCP_SHIFT_CC_RATE_SAMPLE_APP_LIMITED = false /\
  rs_delivery_rate_bytes_per_sec s <> 0.

(** The checks made at successive round starts, with the bandwidth estimate
    each of them sees. *)
Definition full_bw_rounds (s : tcp_shift_cc_rate_sample) (vs : list Z)
    (m : tcp_shift_bbr_model) : tcp_shift_bbr_model :=
  fold_left (fun m v => tcp_shift_bbr_check_startup_full_bw
    (m <| bm_max_bw_bytes_per_sec := v |> <| bm_round_start := true |>) s) vs m.

Definition in_startup (m : tcp_shift_bbr_model) : Prop :=
  bm_mode m = TCP_SHIFT_BBR_MODE_STARTUP.

(** The detector's own fields: baseline, count of stalled rounds, verdict. *)
Definition detector (m : tcp_shift_bbr_model) : Z * Z * bool :=
  (bm_full_bw_bytes_per_sec m, bm_full_bw_count m, bm_full_bw_reached m).

Lemma reached_det m : bm_full_bw_reached m = (detector m).2.
Proof. done. Qed.

Lemma full_bw_check_step s m v base count reached :
  eligible_sample s -> in_startup m -> detector m = (base, count, reached) ->
  in_u64 base -> 0 <= count <= 3 -> reached = (count =? 3) ->
  let m' := tcp_shift_bbr_check_startup_full_bw
    (m <| bm_max_bw_bytes_per_sec := v |> <| bm_round_start := true |>) s in
  in_startup m' /\
  detector m' =
    if reached then (base, count, true)
    else if (base =? 0) || (v >=? Z.min UINT64_MAX (base + cdiv base 4)) then (v, 0, false)
    else (base, count + 1, count + 1 =? 3).
Proof.
  intros (Hv & Ha & Hr) Hm [= Eb Ec Er] Hb Hc Hrc.
  unfold tcp_shift_bbr_check_startup_full_bw, detector. cbn.
  unfold in_startup in *. rewrite Hm, Hv, Ha, Er. rewrite bool_decide_eq_false_2 by (by intros []).
  rewrite (proj2 (Z.eqb_neq _ _) Hr). cbn.
  destruct reached; cbn; [by rewrite Eb, Ec, Er|].
  rewrite Eb, Ec, full_bw_threshold_spec by done.
  destruct (_ || _) eqn:E; cbn; [by rewrite Er|].
  rewrite (u32_small (_ + 1)) by lia. destruct (_ >=? 3) eqn:E3; cbn; rewrite ?Er, Eb;
    (split; [done|]); f_equal; lia.
Qed.

(** What the detector has seen: the latest [count] rounds stayed below 1.25
    times the baseline, which the round before them had set. *)
Definition detector_ok (vs : list Z) (d : Z * Z * bool) : Prop :=
  let '(base, count, reached) := d in
  in_u64 base /\ 0 <= count <= 3 /\ reached = (count =? 3) /\ (0 < count -> base <> 0) /\
  (base <> 0 -> exists l xs tail, vs = l ++ base :: xs ++ tail /\
     Z.of_nat (length xs) = count /\ Forall (fun x => x < base + cdiv base 4) xs /\
     (reached = false -> tail = [])).

Lemma detector_step s vs m v :
  eligible_sample s -> in_startup m -> detector_ok vs (detector m) -> in_u64 v ->
  let m' := tcp_shift_bbr_check_startup_full_bw
    (m <| bm_max_bw_bytes_per_sec := v |> <| bm_round_start := true |>) s in
  in_startup m' /\ detector_ok (vs ++ [v]) (detector m').
Proof.
  intros Hs Hm Hd Hv. destruct (detector m) as [[base count] reached] eqn:E.
  destruct Hd as (Hb & Hc & Hr & Hnz & Hex).
  destruct (full_bw_check_step s m v base count reached Hs Hm E Hb Hc Hr) as [Hm' E'].
  split; [exact Hm'|]. rewrite E'. clear E' Hm'. destruct reached.
  - split_and!; [lia..|done|done|]. intros Hbz. destruct (Hex Hbz) as (l & xs & tail & -> & Hl & Hf & _).
    exists l, xs, (tail ++ [v]). rewrite <- !app_assoc. cbn. by rewrite <- app_assoc.
  - destruct (_ || _) eqn:Eo; unfold detector_ok.
    + split_and!; [lia..|done|lia|]. intros _. exists vs, [], []. split_and!; [done|done|constructor|done].
    + split_and!; [lia..|done|lia|]. intros Hbz.
      destruct (Hex Hbz) as (l & xs & tail & -> & Hl & Hf & Ht). specialize (Ht eq_refl) as ->.
      exists l, (xs ++ [v]), []. rewrite !app_nil_r, <- app_assoc, length_app. cbn.
      split_and!; [done|lia| |done]. apply Forall_app. split; [done|]. constructor; [lia|constructor].
Qed.

Lemma full_bw_rounds_ok s vs : forall m seen,
  eligible_sample s -> in_startup m -> detector_ok seen (detector m) ->
  Forall (fun v => in_u64 v) vs ->
  in_startup (full_bw_rounds s vs m) /\
  detector_ok (seen ++ vs) (detector (full_bw_rounds s vs m)).
Proof.
  induction vs as [|v vs IH]; intros m seen Hs Hm Hd Hv; cbn.
  - by rewrite app_nil_r.
  - apply Forall_cons in Hv as [Hv Hvs].
    destruct (detector_step s seen m v Hs Hm Hd Hv) as [Hm' Hd'].
    rewrite (app_assoc seen [v] vs : seen ++ v :: vs = _). by apply IH.
Qed.

Lemma full_bw_rounds_app s vs ws m :
  full_bw_rounds s (vs ++ ws) m = full_bw_rounds s ws (full_bw_rounds s vs m).
Proof. apply fold_left_app. Qed.

(** One round as a function of the detector's fields. *)
Definition det_step (v : Z) (d : Z * Z * bool) : Z * Z * bool :=
  let '(base, count, reached) := d in
  if reached then (base, count, true)
  else if (base =? 0) || (v >=? Z.min UINT64_MAX (base + cdiv base 4)) then (v, 0, false)
  else (base, count + 1, count + 1 =? 3).

Lemma det_stall v base count :
  (base =? 0) || (v >=? Z.min UINT64_MAX (base + cdiv base 4)) = false ->
  det_step v (base, count, false) = (base, count + 1, count + 1 =? 3).
Proof. intros E. unfold det_step. by rewrite E. Qed.

Lemma det_grow v base count :
  (base =? 0) || (v >=? Z.min UINT64_MAX (base + cdiv base 4)) = true ->
  det_step v (base, count, false) = (v, 0, false).
Proof. intros E. unfold det_step. by rewrite E. Qed.

Lemma det_flat v d seen :
  detector_ok seen d -> 1 <= v < UINT64_MAX ->
  (det_step v (det_step v (det_step v (det_step v d)))).2 = true.
Proof.
  destruct d as [[base count] reached]. intros (Hb & Hc & -> & _) Hv.
  pose proof (cdiv_bounds v 4 ltac:(lia)).
  assert (Hflat : (v =? 0) || (v >=? Z.min UINT64_MAX (v + cdiv v 4)) = false).
  { apply orb_false_iff. split; [lia|]. rewrite Z.geb_leb. apply Z.leb_gt. lia. }
  destruct (count =? 3) eqn:E0; [done|].
  destruct ((base =? 0) || (v >=? Z.min UINT64_MAX (base + cdiv base 4))) eqn:E.
  { rewrite (det_grow v base) by done. by rewrite !det_stall. }
  rewrite (det_stall v base count) by done. destruct (count + 1 =? 3) eqn:E1; [done|].
  rewrite (det_stall v base (count + 1)) by done. destruct (count + 1 + 1 =? 3) eqn:E2; [done|].
  rewrite (det_stall v base (count + 1 + 1)) by done.
  destruct (count + 1 + 1 + 1 =? 3) eqn:E3; [done|lia].
Qed.

Lemma full_bw_rounds_det s vs : forall m seen,
  eligible_sample s -> in_startup m -> detector_ok seen (detector m) ->
  Forall (fun v => in_u64 v) vs ->
  detector (full_bw_rounds s vs m) = fold_left (fun d v => det_step v d) vs (detector m).
Proof.
  induction vs as [|v vs IH]; intros m seen Hs Hm Hd Hv; [done|].
  apply Forall_cons in Hv as [Hv Hvs].
  destruct (detector_step s seen m v Hs Hm Hd Hv) as [Hm' Hd'].
  change (full_bw_rounds s (v :: vs) m) with (full_bw_rounds s vs
    (tcp_shift_bbr_check_startup_full_bw
       (m <| bm_max_bw_bytes_per_sec := v |> <| bm_round_start := true |>) s)).
  rewrite (IH _ (seen ++ [v])) by done. cbn [fold_left]. f_equal.
  destruct (detector m) as [[base count] reached] eqn:E. destruct Hd as (Hb & Hc & Hr & _).
  by apply full_bw_check_step.
Qed.

(** STARTUP's full-pipe detector, over the bandwidth estimates seen at
    successive eligible round starts. Soundness: it reports a full pipe only
    if some three consecutive rounds stayed below 1.25 times the estimate of
    the round before them. Liveness: four consecutive rounds at one nonzero
    estimate always make it report. Once reported, the verdict stays. *)
Theorem bbr_full_pipe_detection s vs v ws :
  eligible_sample s -> Forall (fun v => in_u64 v) (vs ++ ws) -> 1 <= v < UINT64_MAX ->
  let run l := full_bw_rounds s l tcp_shift_bbr_model_init in
  (bm_full_bw_reached (run vs) = true ->
   exists l base x1 x2 x3 tail, vs = l ++ base :: x1 :: x2 :: x3 :: tail /\
     Forall (fun x => x < base + cdiv base 4) [x1; x2; x3]) /\
  bm_full_bw_reached (run (vs ++ [v; v; v; v])) = true /\
  (bm_full_bw_reached (run vs) = true -> bm_full_bw_reached (run (vs ++ ws)) = true).
Proof.
  intros Hs [Hvs Hws]%Forall_app Hv run.
  assert (H0 : detector_ok [] (detector tcp_shift_bbr_model_init)) by (by cbn).
  destruct (full_bw_rounds_ok s vs tcp_shift_bbr_model_init [] Hs eq_refl H0 Hvs) as [Hm Hd].
  fold (run vs) in Hm, Hd. cbn [app] in Hd. split_and!.
  - intros Hr. rewrite reached_det in Hr.
    destruct (detector (run vs)) as [[base count] reached]. cbn in Hr. subst reached.
    destruct Hd as (_ & _ & Hc & Hnz & Hex). symmetry in Hc. apply Z.eqb_eq in Hc. subst count.
    destruct (Hex (Hnz ltac:(lia))) as (l & xs & tail & -> & Hlen & Hf & _).
    destruct xs as [|x1 [|x2 [|x3 [|]]]]; cbn in Hlen; try lia. by exists l, base, x1, x2, x3, tail.
  - unfold run. rewrite full_bw_rounds_app. fold (run vs).
    rewrite reached_det.
    rewrite (full_bw_rounds_det s _ _ vs) by (done || (repeat constructor; lia)).
    cbn [fold_left]. by eapply det_flat.
  - intros Hr. unfold run. rewrite full_bw_rounds_app. fold (run vs).
    rewrite reached_det in Hr |- *.
    rewrite (full_bw_rounds_det s _ _ vs) by done.
    destruct (detector (run vs)) as [[base count] reached]. cbn in Hr. subst reached.
    clear. induction ws as [|w ws IH]; [done|exact IH].
Qed.

Lemma bbr_full_pipe_detection_witness :
  let s := mk_rate_sample 1000 0 0 0 0 0 0 0 0 1 in
  bm_full_bw_reached (full_bw_rounds s ([1000] ++ [1200; 1200; 1200; 1200])
    tcp_shift_bbr_model_init) = true.
Proof.
  intros s. apply (bbr_full_pipe_detection s [1000] 1200 []).
  - repeat split; done.
  - repeat constructor; lia.
  - lia.
Defined.

(** ** The minimum-RTT filter *)

(** Stamps never lie in the future, the long-term minimum is positive and no
    larger than the short-term one. *)
Definition rtt_filter_ok (m : tcp_shift_bbr_model) : Prop :=
  bm_has_min_rtt m = bm_has_probe_rtt_min m /\
  (bm_has_min_rtt m = true ->
   0 < bm_min_rtt_ns m <= bm_probe_rtt_min_delay_ns m /\
   bm_probe_rtt_min_delay_ns m <= UINT64_MAX /\
   0 <= bm_min_rtt_stamp_ns m <= bm_last_update_ns m /\
   0 <= bm_probe_rtt_min_stamp_ns m <= bm_last_update_ns m).

Definition rtt_sample (s : tcp_shift_cc_rate_sample) : Prop :=
  has_flag s TCP_SHIFT_CC_RATE_SAMPLE_RTT_VALID = true /\ 0 < rs_rtt_ns s.

Lemma elapsed_gt_spec now stamp interval :
  in_u64 now -> 0 <= stamp <= now -> 0 <= interval ->
  tcp_shift_bbr_elapsed_gt now stamp interval = (interval <? now - stamp).
Proof.
  intros Hn Hs Hi. unfold tcp_shift_bbr_elapsed_gt. rewrite u64_small by lia.
  destruct (interval <? now - stamp) eqn:E; lia.
Qed.

(** The filter after the update of one ACK at [now]. *)
Lemma update_min_rtt_ok m s now :
  rtt_filter_ok m -> bm_last_update_ns m = now -> in_u64 now -> in_u64 (rs_rtt_ns s) ->
  let m' := tcp_shift_bbr_update_min_rtt m s now in
  rtt_filter_ok m' /\ bm_last_update_ns m' = now /\
  (rtt_sample s -> bm_has_min_rtt m' = true /\
     bm_probe_rtt_min_delay_ns m' <= rs_rtt_ns s /\
     now - bm_min_rtt_stamp_ns m' <= TCP_SHIFT_BBR_MIN_RTT_FILTER_NS /\
     now - bm_probe_rtt_min_stamp_ns m' <= TCP_SHIFT_BBR_PROBE_RTT_INTERVAL_NS).
Proof.
  intros [Hh Hok] Hu Hn Hr. unfold tcp_shift_bbr_update_min_rtt. cbn zeta.
  destruct (negb _ || _) eqn:Ev.
  { split; [by split|]. split; [done|]. intros [Hv Hpos]. rewrite Hv in Ev. cbn in Ev. lia. }
  assert (Hpos : 0 < rs_rtt_ns s) by lia. clear Ev.
  unfold rtt_filter_ok. cbn. rewrite <- Hh.
  destruct (bm_has_min_rtt m) eqn:Em; cbn.
  - destruct (Hok eq_refl) as (? & ? & ? & ?). rewrite elapsed_gt_spec by lia.
    destruct (_ || (5000000000 <? _)) eqn:Ep; cbn; rewrite ?Em; cbn;
      rewrite elapsed_gt_spec by lia;
      destruct (_ || (10000000000 <? _)) eqn:Eq; cbn; rewrite ?Em, <- ?Hh, ?Em;
      split_and!; try done; try lia.
  - rewrite !Em. cbn. split_and!; try done; lia.
Qed.

Lemma min_rtt_fields_frame m s :
  rtt_filter_ok m ->
  let m' := tcp_shift_bbr_check_startup_full_bw
    (tcp_shift_bbr_update_max_bw (tcp_shift_bbr_update_round m s) s) s in
  rtt_filter_ok m' /\ bm_last_update_ns m' = bm_last_update_ns m.
Proof.
  intros Hm. cbn zeta.
  assert (H1 : rtt_filter_ok (tcp_shift_bbr_update_round m s) /\
    bm_last_update_ns (tcp_shift_bbr_update_round m s) = bm_last_update_ns m)
    by (unfold tcp_shift_bbr_update_round; by repeat case_match).
  set (m1 := tcp_shift_bbr_update_round m s) in *. clearbody m1.
  assert (H2 : rtt_filter_ok (tcp_shift_bbr_update_max_bw m1 s) /\
    bm_last_update_ns (tcp_shift_bbr_update_max_bw m1 s) = bm_last_update_ns m1).
  { unfold tcp_shift_bbr_update_max_bw, tcp_shift_bbr_age_bw_filter,
      tcp_shift_bbr_recompute_max_bw. cbn zeta.
    destruct (_ || _); [tauto|]. destruct (_ && _); [tauto|].
    destruct (negb _); [|destruct (_ =? 0)]; destruct (_ >? _); tauto. }
  set (m2 := tcp_shift_bbr_update_max_bw m1 s) in *. clearbody m2.
  destruct H1 as [_ E1], H2 as [H2 E2]. rewrite <- E1, <- E2.
  unfold tcp_shift_bbr_check_startup_full_bw. cbn zeta.
  destruct (_ || _); [done|]. destruct (_ || _); [done|]. destruct (_ >=? 3); done.
Qed.

Lemma bbr_model_on_ack_rtt m s now m' :
  rtt_filter_ok m -> bm_last_update_ns m <= now -> in_u64 now -> in_u64 (rs_rtt_ns s) ->
  tcp_shift_bbr_model_on_ack m s now = (0, m') ->
  rtt_filter_ok m' /\ bm_last_update_ns m' = now /\
  (rtt_sample s -> bm_has_min_rtt m' = true /\
     bm_probe_rtt_min_delay_ns m' <= rs_rtt_ns s /\
     now - bm_min_rtt_stamp_ns m' <= TCP_SHIFT_BBR_MIN_RTT_FILTER_NS /\
     now - bm_probe_rtt_min_stamp_ns m' <= TCP_SHIFT_BBR_PROBE_RTT_INTERVAL_NS).
Proof.
  intros Hm Hle Hn Hr. unfold tcp_shift_bbr_model_on_ack. destruct (_ && _); [done|].
  intros [= <-]. set (m0 := m <| bm_last_update_ns := now |> <| bm_has_update_time := true |>).
  assert (H0 : rtt_filter_ok m0).
  { destruct Hm as [Hh Hok]. split; [done|]. cbn. intros H. specialize (Hok H). lia. }
  destruct (min_rtt_fields_frame m0 s H0) as [H1 E1]. by apply update_min_rtt_ok.
Qed.

(** Minimum-RTT filter. With a monotonic clock, every ACK keeps the filter
    well formed (stamps not in the future, 0 < min_rtt <= the five-second
    minimum), and after an ACK that carries an RTT sample the propagation
    estimate is no larger than that sample, its stamp at most ten seconds old,
    and the probe minimum's stamp at most five seconds old. *)
Theorem bbr_min_rtt_fresh m s now m' :
  rtt_filter_ok m -> bm_last_update_ns m <= now -> in_u64 now -> in_u64 (rs_rtt_ns s) ->
  tcp_shift_bbr_model_on_ack m s now = (0, m') ->
  rtt_filter_ok m' /\
  (rtt_sample s ->
   0 < bm_min_rtt_ns m' <= rs_rtt_ns s /\
   now - TCP_SHIFT_BBR_MIN_RTT_FILTER_NS <= bm_min_rtt_stamp_ns m' <= now /\
   now - TCP_SHIFT_BBR_PROBE_RTT_INTERVAL_NS <= bm_probe_rtt_min_stamp_ns m' <= now).
Proof.
  intros Hm Hle Hn Hr E.
  destruct (bbr_model_on_ack_rtt m s now m' Hm Hle Hn Hr E) as (H & Hu & Hs).
  split; [done|]. intros Hv. destruct (Hs Hv) as (Hh & ? & ? & ?).
  destruct H as [_ H]. specialize (H Hh). lia.
Qed.

Lemma bbr_min_rtt_fresh_witness :
  let s := mk_rate_sample 0 0 0 0 40000000 0 0 0 0 8 in
  let m' := (tcp_shift_bbr_model_on_ack tcp_shift_bbr_model_init s 7).2 in
  0 < bm_min_rtt_ns m' <= 40000000.
Proof.
  intros s m'.
  destruct (bbr_min_rtt_fresh tcp_shift_bbr_model_init s 7 m') as [_ H].
  - split; [reflexivity|discriminate].
  - cbn; lia.
  - lia.
  - cbn; lia.
  - vm_compute. reflexivity.
  - apply H. split; [reflexivity|cbn; lia].
Defined.
