(* ===== verification/BbrProbe.v ===== *)
(** * BBR's DRAIN, ProbeBW and ProbeRTT modes ([src/cc/bbr_drain.c], [src/cc/bbr_probe.c])

    The mode transitions, the eight-phase gain cycle and the policies the
    modes publish. *)

From Stdlib Require Import ZArith Lia Bool List.
From stdpp Require Import base tactics numbers list.
From S2P Require Import Prelude CC BbrModel.
Local Open Scope Z_scope.

(** ** DRAIN *)

Definition tcp_shift_bbr_drain_sat_add_u64 (a b : Z) : Z :=
  if UINT64_MAX -w64 a <? b then UINT64_MAX else a +w64 b.

Definition tcp_shift_bbr_drain_sat_mul_u64 (a b : Z) : Z :=
  if (a =? 0) || (b =? 0) then 0
  else if a >? UINT64_MAX / b then UINT64_MAX else a *w64 b.

Definition tcp_shift_bbr_drain_scale_floor_u64 (value numerator denominator : Z) : Z :=
  if denominator =? 0 then UINT64_MAX
  else
    let whole := tcp_shift_bbr_drain_sat_mul_u64 (value / denominator) numerator in
    if whole =? UINT64_MAX then UINT64_MAX
    else
      let remainder_product := (value mod denominator) *w64 numerator in
      tcp_shift_bbr_drain_sat_add_u64 whole (remainder_product / denominator).

Definition tcp_shift_bbr_drain_min_cwnd_bytes (transport : tcp_shift_cc_transport) : Z :=
  let minimum := tp_mss_bytes transport *w64 TCP_SHIFT_BBR_MIN_CWND_PACKETS in
  let minimum := if minimum >? tp_cwnd_limit_bytes transport
                 then tp_cwnd_limit_bytes transport else minimum in
  u32 minimum.

Definition tcp_shift_bbr_drain_pacing_rate_bytes_per_sec (bandwidth_bytes_per_sec : Z) : Z :=
  tcp_shift_bbr_drain_scale_floor_u64 bandwidth_bytes_per_sec
    (TCP_SHIFT_BBR_DRAIN_GAIN_NUM * TCP_SHIFT_BBR_PACING_MARGIN_NUM)
    (TCP_SHIFT_BBR_GAIN_DEN * TCP_SHIFT_BBR_PACING_MARGIN_DEN).

Definition tcp_shift_bbr_model_check_drain (model : tcp_shift_bbr_model)
    (sample : tcp_shift_cc_rate_sample) : Z * tcp_shift_bbr_model :=
  let model :=
    if bool_decide (bm_mode model = TCP_SHIFT_BBR_MODE_STARTUP) && bm_full_bw_reached model
    then model <| bm_mode := TCP_SHIFT_BBR_MODE_DRAIN |> else model in
  if bool_decide (bm_mode model <> TCP_SHIFT_BBR_MODE_DRAIN) ||
     negb (has_flag sample TCP_SHIFT_CC_RATE_SAMPLE_VALID) ||
     (bm_max_bw_bytes_per_sec model =? 0) || negb (bm_has_min_rtt model) ||
     (bm_min_rtt_ns model =? 0)
  then (0, model)
  else
    let drain_target :=
      tcp_shift_bbr_bdp_bytes (bm_max_bw_bytes_per_sec model) (bm_min_rtt_ns model) in
    if drain_target =? 0 then (0, model)
    else if rs_prior_inflight_bytes sample <=? drain_target
    then (0, model <| bm_mode := TCP_SHIFT_BBR_MODE_PROBE_BW |>)
    else (0, model).

Definition tcp_shift_bbr_drain_policy (model : tcp_shift_bbr_model)
    (transport : tcp_shift_cc_transport) (ack : tcp_shift_cc_ack)
    (current_cwnd_bytes : Z) (policy : tcp_shift_cc_policy) : Z * tcp_shift_cc_policy :=
  let mss := tp_mss_bytes transport in
  let limit := tp_cwnd_limit_bytes transport in
  if bool_decide (bm_mode model <> TCP_SHIFT_BBR_MODE_DRAIN) ||
     negb (bm_full_bw_reached model) || (bm_max_bw_bytes_per_sec model =? 0) ||
     (mss =? 0) || (limit =? 0) || (limit <? mss) ||
     (current_cwnd_bytes =? 0) || (current_cwnd_bytes >? limit)
  then (-1, policy)
  else
    let minimum_cwnd := tcp_shift_bbr_drain_min_cwnd_bytes transport in
    let cwnd_target := tcp_shift_bbr_startup_cwnd_target_bytes
      (bm_max_bw_bytes_per_sec model) (bbr_known_min_rtt model) mss limit minimum_cwnd in
    if cwnd_target =? 0 then (-1, policy)
    else
      let cwnd := current_cwnd_bytes in
      let cwnd :=
        if negb (ack_acked_bytes ack =? 0) then
          let grown_cwnd := cwnd +w64 ack_acked_bytes ack in
          let grown_cwnd := if grown_cwnd >? limit then limit else grown_cwnd in
          if u32 grown_cwnd <? cwnd_target then u32 grown_cwnd else cwnd_target
        else cwnd in
      let cwnd := if cwnd <? minimum_cwnd then minimum_cwnd else cwnd in
      let cwnd := if cwnd >? limit then limit else cwnd in
      let drain_target :=
        if bm_has_min_rtt model && negb (bm_min_rtt_ns model =? 0)
        then tcp_shift_bbr_bdp_bytes (bm_max_bw_bytes_per_sec model) (bm_min_rtt_ns model)
        else minimum_cwnd in
      let drain_target := if drain_target <? minimum_cwnd then minimum_cwnd else drain_target in
      let drain_target := if drain_target >? limit then limit else drain_target in
      let ssthresh := u32 drain_target in
      (0, mk_policy cwnd ssthresh
            (tcp_shift_bbr_drain_pacing_rate_bytes_per_sec (bm_max_bw_bytes_per_sec model))).

(** ** Probe modes *)

Abbreviation TCP_SHIFT_BBR_PROBE_BW_CYCLE_LEN := 8.
Abbreviation TCP_SHIFT_BBR_PROBE_BW_SEED_SPAN := 7.
Abbreviation TCP_SHIFT_BBR_PROBE_BW_UP_GAIN_NUM := 320.
Abbreviation TCP_SHIFT_BBR_PROBE_BW_DOWN_GAIN_NUM := 192.
Abbreviation TCP_SHIFT_BBR_PROBE_BW_CRUISE_GAIN_NUM := 256.
Abbreviation TCP_SHIFT_BBR_CWND_GAIN_NUM := 512.
Abbreviation TCP_SHIFT_BBR_PROBE_RTT_DURATION_NS := 200000000.

Record tcp_shift_bbr_probe_state := mk_probe {
  pb_cycle_start_ns : Z;
  pb_probe_rtt_done_stamp_ns : Z;
  pb_probe_rtt_prior_cwnd_bytes : Z;
  pb_cycle_index : Z;
  pb_cycle_seed : Z;
  pb_cycle_started : bool;
  pb_probe_rtt_round_done : bool
}.
#[export] Instance eta_probe : Eta tcp_shift_bbr_probe_state := fun r =>
  mk_probe (pb_cycle_start_ns r) (pb_probe_rtt_done_stamp_ns r)
    (pb_probe_rtt_prior_cwnd_bytes r) (pb_cycle_index r) (pb_cycle_seed r)
    (pb_cycle_started r) (pb_probe_rtt_round_done r).

Definition tcp_shift_bbr_probe_sat_add_u64 (a b : Z) : Z :=
  if UINT64_MAX -w64 a <? b then UINT64_MAX else a +w64 b.

Definition tcp_shift_bbr_probe_sat_mul_u64 (a b : Z) : Z :=
  if (a =? 0) || (b =? 0) then 0
  else if a >? UINT64_MAX / b then UINT64_MAX else a *w64 b.

Definition tcp_shift_bbr_probe_scale_floor_u64 (value numerator denominator : Z) : Z :=
  if denominator =? 0 then UINT64_MAX
  else
    let whole := tcp_shift_bbr_probe_sat_mul_u64 (value / denominator) numerator in
    if whole =? UINT64_MAX then UINT64_MAX
    else
      let remainder_product := (value mod denominator) *w64 numerator in
      tcp_shift_bbr_probe_sat_add_u64 whole (remainder_product / denominator).

Definition tcp_shift_bbr_probe_scale_ceil_u64 (value numerator denominator : Z) : Z :=
  if denominator =? 0 then UINT64_MAX
  else
    let scaled := tcp_shift_bbr_probe_sat_mul_u64 (value / denominator) numerator in
    if scaled =? UINT64_MAX then UINT64_MAX
    else
      let remainder_product := (value mod denominator) *w64 numerator in
      let scaled := tcp_shift_bbr_probe_sat_add_u64 scaled (remainder_product / denominator) in
      if scaled =? UINT64_MAX then UINT64_MAX
      else if negb (remainder_product mod denominator =? 0)
      then tcp_shift_bbr_probe_sat_add_u64 scaled 1
      else scaled.

Definition tcp_shift_bbr_probe_min_cwnd_bytes (transport : tcp_shift_cc_transport) : Z :=
  let minimum := tp_mss_bytes transport *w64 TCP_SHIFT_BBR_MIN_CWND_PACKETS in
  let minimum := if minimum >? tp_cwnd_limit_bytes transport
                 then tp_cwnd_limit_bytes transport else minimum in
  u32 minimum.

Definition tcp_shift_bbr_probe_bw_reset_cycle (state : tcp_shift_bbr_probe_state)
    (now_ns : Z) : tcp_shift_bbr_probe_state :=
  let offset := pb_cycle_seed state mod TCP_SHIFT_BBR_PROBE_BW_SEED_SPAN in
  state <| pb_cycle_index := u8 (Z.land (TCP_SHIFT_BBR_PROBE_BW_CYCLE_LEN -w32 offset)
                                        (TCP_SHIFT_BBR_PROBE_BW_CYCLE_LEN - 1)) |>
        <| pb_cycle_start_ns := now_ns |>
        <| pb_cycle_started := true |>.

(** Every field of the object is written. *)
Definition tcp_shift_bbr_probe_state_init (cycle_seed : Z) : tcp_shift_bbr_probe_state :=
  mk_probe 0 0 0 0 (u8 (cycle_seed mod TCP_SHIFT_BBR_PROBE_BW_SEED_SPAN)) false false.

Definition tcp_shift_bbr_probe_bw_pacing_gain_num (state : tcp_shift_bbr_probe_state) : Z :=
  if pb_cycle_index state =? 0 then TCP_SHIFT_BBR_PROBE_BW_UP_GAIN_NUM
  else if pb_cycle_index state =? 1 then TCP_SHIFT_BBR_PROBE_BW_DOWN_GAIN_NUM
  else TCP_SHIFT_BBR_PROBE_BW_CRUISE_GAIN_NUM.

Definition tcp_shift_bbr_probe_bw_pacing_rate_bytes_per_sec (model : tcp_shift_bbr_model)
    (state : tcp_shift_bbr_probe_state) : Z :=
  let gain := tcp_shift_bbr_probe_bw_pacing_gain_num state in
  tcp_shift_bbr_probe_scale_floor_u64 (bm_max_bw_bytes_per_sec model)
    (gain *w32 TCP_SHIFT_BBR_PACING_MARGIN_NUM)
    (TCP_SHIFT_BBR_GAIN_DEN * TCP_SHIFT_BBR_PACING_MARGIN_DEN).

(** The decision to leave the current phase. *)
Definition probe_bw_advance (model : tcp_shift_bbr_model) (state : tcp_shift_bbr_probe_state)
    (sample : tcp_shift_cc_rate_sample) (newly_lost_bytes now_ns bdp : Z) : bool :=
  let full_length := now_ns -w64 pb_cycle_start_ns state >=? bm_min_rtt_ns model in
  let gain := tcp_shift_bbr_probe_bw_pacing_gain_num state in
  if gain >? TCP_SHIFT_BBR_GAIN_DEN then
    let phase_target := tcp_shift_bbr_probe_scale_ceil_u64 bdp gain TCP_SHIFT_BBR_GAIN_DEN in
    full_length && (negb (newly_lost_bytes =? 0) ||
                    (rs_prior_inflight_bytes sample >=? phase_target))
  else if gain <? TCP_SHIFT_BBR_GAIN_DEN then
    full_length || (rs_prior_inflight_bytes sample <=? bdp)
  else full_length.

Definition tcp_shift_bbr_probe_bw_update (model : tcp_shift_bbr_model)
    (state : tcp_shift_bbr_probe_state) (sample : tcp_shift_cc_rate_sample)
    (newly_lost_bytes now_ns : Z) : Z * tcp_shift_bbr_probe_state :=
  if bool_decide (bm_mode model <> TCP_SHIFT_BBR_MODE_PROBE_BW) then (0, state)
  else if now_ns =? 0 then (0, state)
  else if negb (pb_cycle_started state)
  then (0, tcp_shift_bbr_probe_bw_reset_cycle state now_ns)
  else if now_ns <? pb_cycle_start_ns state then (-1, state)
  else if (bm_max_bw_bytes_per_sec model =? 0) || negb (bm_has_min_rtt model) ||
          (bm_min_rtt_ns model =? 0)
  then (0, state)
  else
    let bdp := tcp_shift_bbr_bdp_bytes (bm_max_bw_bytes_per_sec model) (bm_min_rtt_ns model) in
    if bdp =? 0 then (0, state)
    else if probe_bw_advance model state sample newly_lost_bytes now_ns bdp then
      (0, state <| pb_cycle_index := u8 (Z.land (pb_cycle_index state +w32 1)
                                          (TCP_SHIFT_BBR_PROBE_BW_CYCLE_LEN - 1)) |>
                <| pb_cycle_start_ns := now_ns |>)
    else (0, state).

Definition tcp_shift_bbr_probe_bw_policy (model : tcp_shift_bbr_model)
    (state : tcp_shift_bbr_probe_state) (transport : tcp_shift_cc_transport)
    (ack : tcp_shift_cc_ack) (current_cwnd_bytes : Z) (policy : tcp_shift_cc_policy)
    : Z * tcp_shift_cc_policy :=
  let mss := tp_mss_bytes transport in
  let limit := tp_cwnd_limit_bytes transport in
  if bool_decide (bm_mode model <> TCP_SHIFT_BBR_MODE_PROBE_BW) ||
     negb (bm_full_bw_reached model) || (bm_max_bw_bytes_per_sec model =? 0) ||
     negb (bm_has_min_rtt model) || (bm_min_rtt_ns model =? 0) ||
     (mss =? 0) || (limit =? 0) || (limit <? mss) ||
     (current_cwnd_bytes =? 0) || (current_cwnd_bytes >? limit)
  then (-1, policy)
  else
    let minimum := tcp_shift_bbr_probe_min_cwnd_bytes transport in
    let bdp := tcp_shift_bbr_bdp_bytes (bm_max_bw_bytes_per_sec model) (bm_min_rtt_ns model) in
    let target := tcp_shift_bbr_probe_scale_ceil_u64 bdp TCP_SHIFT_BBR_CWND_GAIN_NUM
                    TCP_SHIFT_BBR_GAIN_DEN in
    let target := if target <? minimum then minimum else target in
    let target := if target >? limit then limit else target in
    let cwnd := current_cwnd_bytes in
    let cwnd :=
      if negb (ack_acked_bytes ack =? 0) then
        let grown := cwnd +w64 ack_acked_bytes ack in
        let grown := if grown >? limit then limit else grown in
        if grown <? target then u32 grown else u32 target
      else cwnd in
    let cwnd := if cwnd <? minimum then minimum else cwnd in
    let bdp := if bdp <? minimum then minimum else bdp in
    let bdp := if bdp >? limit then limit else bdp in
    let ssthresh := u32 bdp in
    (0, mk_policy cwnd ssthresh
          (tcp_shift_bbr_probe_bw_pacing_rate_bytes_per_sec model state)).

(** Entry into ProbeRTT when the minimum-RTT window has expired. *)
Definition probe_rtt_enter (model : tcp_shift_bbr_model) (state : tcp_shift_bbr_probe_state)
    (current_cwnd_bytes : Z) : tcp_shift_bbr_model * tcp_shift_bbr_probe_state :=
  if bool_decide (bm_mode model <> TCP_SHIFT_BBR_MODE_PROBE_RTT) && bm_min_rtt_expired model
  then
    let state := if current_cwnd_bytes >? pb_probe_rtt_prior_cwnd_bytes state
                 then state <| pb_probe_rtt_prior_cwnd_bytes := current_cwnd_bytes |>
                 else state in
    (model <| bm_mode := TCP_SHIFT_BBR_MODE_PROBE_RTT |>,
     state <| pb_probe_rtt_done_stamp_ns := 0 |>
           <| pb_probe_rtt_round_done := false |>
           <| pb_cycle_started := false |>)
  else (model, state).

(** The rest of [tcp_shift_bbr_probe_rtt_update] once in ProbeRTT. *)
Definition probe_rtt_dwell (model : tcp_shift_bbr_model) (state : tcp_shift_bbr_probe_state)
    (transport : tcp_shift_cc_transport) (sample : tcp_shift_cc_rate_sample) (now_ns : Z)
    : Z * tcp_shift_bbr_model * tcp_shift_bbr_probe_state :=
  let minimum := tcp_shift_bbr_probe_min_cwnd_bytes transport in
  if pb_probe_rtt_done_stamp_ns state =? 0 then
    if rs_prior_inflight_bytes sample <=? minimum then
      (0, model <| bm_next_round_delivered := rs_delivered_total_bytes sample |>,
       state <| pb_probe_rtt_done_stamp_ns :=
                  tcp_shift_bbr_probe_sat_add_u64 now_ns TCP_SHIFT_BBR_PROBE_RTT_DURATION_NS |>
             <| pb_probe_rtt_round_done := false |>)
    else (0, model, state)
  else
    let state := if bm_round_start model
                 then state <| pb_probe_rtt_round_done := true |> else state in
    if negb (pb_probe_rtt_round_done state) || (now_ns <? pb_probe_rtt_done_stamp_ns state)
    then (0, model, state)
    else
      let model := model <| bm_min_rtt_stamp_ns := now_ns |> <| bm_min_rtt_expired := false |> in
      let state := state <| pb_probe_rtt_done_stamp_ns := 0 |>
                         <| pb_probe_rtt_round_done := false |> in
      if bm_full_bw_reached model then
        (1, model <| bm_mode := TCP_SHIFT_BBR_MODE_PROBE_BW |>,
         tcp_shift_bbr_probe_bw_reset_cycle state now_ns)
      else
        (1, model <| bm_mode := TCP_SHIFT_BBR_MODE_STARTUP |>,
         state <| pb_cycle_started := false |>).

Definition tcp_shift_bbr_probe_rtt_update (model : tcp_shift_bbr_model)
    (state : tcp_shift_bbr_probe_state) (transport : tcp_shift_cc_transport)
    (sample : tcp_shift_cc_rate_sample) (current_cwnd_bytes now_ns : Z)
    : Z * tcp_shift_bbr_model * tcp_shift_bbr_probe_state :=
  let mss := tp_mss_bytes transport in
  let limit := tp_cwnd_limit_bytes transport in
  if (mss =? 0) || (limit =? 0) || (limit <? mss) ||
     (current_cwnd_bytes =? 0) || (current_cwnd_bytes >? limit)
  then (-1, model, state)
  else
    let '(model, state) := probe_rtt_enter model state current_cwnd_bytes in
    if bool_decide (bm_mode model <> TCP_SHIFT_BBR_MODE_PROBE_RTT) then (0, model, state)
    else probe_rtt_dwell model state transport sample now_ns.

Definition tcp_shift_bbr_probe_rtt_policy (model : tcp_shift_bbr_model)
    (transport : tcp_shift_cc_transport) (policy : tcp_shift_cc_policy)
    : Z * tcp_shift_cc_policy :=
  let mss := tp_mss_bytes transport in
  let limit := tp_cwnd_limit_bytes transport in
  if bool_decide (bm_mode model <> TCP_SHIFT_BBR_MODE_PROBE_RTT) || (mss =? 0) ||
     (limit =? 0) || (limit <? mss)
  then (-1, policy)
  else
    let minimum := tcp_shift_bbr_probe_min_cwnd_bytes transport in
    (0, mk_policy minimum minimum
          (tcp_shift_bbr_probe_scale_floor_u64 (bm_max_bw_bytes_per_sec model)
             (TCP_SHIFT_BBR_PROBE_BW_CRUISE_GAIN_NUM * TCP_SHIFT_BBR_PACING_MARGIN_NUM)
             (TCP_SHIFT_BBR_GAIN_DEN * TCP_SHIFT_BBR_PACING_MARGIN_DEN))).

Definition tcp_shift_bbr_probe_rtt_restore_cwnd_bytes (state : tcp_shift_bbr_probe_state)
    (current_cwnd_bytes cwnd_limit_bytes : Z) : Z :=
  if cwnd_limit_bytes =? 0 then 0
  else
    let restored := current_cwnd_bytes in
    let restored := if pb_probe_rtt_prior_cwnd_bytes state >? restored
                    then pb_probe_rtt_prior_cwnd_bytes state else restored in
    if restored >? cwnd_limit_bytes then cwnd_limit_bytes else restored.

(** ** Exactness of the helpers *)

Lemma bbr_drain_scale_floor_spec v n d :
  in_u64 v -> in_u32 n -> 1 <= d <= UINT32_MAX ->
  tcp_shift_bbr_drain_scale_floor_u64 v n d = Z.min UINT64_MAX (v * n / d).
Proof. exact (bbr_scale_floor_spec v n d). Qed.

Lemma bbr_probe_scale_floor_spec v n d :
  in_u64 v -> in_u32 n -> 1 <= d <= UINT32_MAX ->
  tcp_shift_bbr_probe_scale_floor_u64 v n d = Z.min UINT64_MAX (v * n / d).
Proof. exact (bbr_scale_floor_spec v n d). Qed.

Lemma bbr_probe_scale_ceil_spec v n d :
  in_u64 v -> in_u32 n -> 1 <= d <= UINT32_MAX ->
  tcp_shift_bbr_probe_scale_ceil_u64 v n d = Z.min UINT64_MAX (cdiv (v * n) d).
Proof. exact (bbr_scale_ceil_spec v n d). Qed.

Lemma bbr_probe_min_cwnd_spec t :
  transport_usable t ->
  tcp_shift_bbr_probe_min_cwnd_bytes t = Z.min (tp_cwnd_limit_bytes t) (4 * tp_mss_bytes t).
Proof.
  intros [(? & ? & ? & ?) ?]. unfold tcp_shift_bbr_probe_min_cwnd_bytes. cbn zeta.
  rewrite (u64_small (_ * 4)) by lia. case_match; rewrite u32_small by lia; lia.
Qed.

Lemma bbr_drain_min_cwnd_spec t :
  transport_usable t ->
  tcp_shift_bbr_drain_min_cwnd_bytes t = Z.min (tp_cwnd_limit_bytes t) (4 * tp_mss_bytes t).
Proof. exact (bbr_probe_min_cwnd_spec t). Qed.

Lemma bbr_gain_cases st :
  let g := tcp_shift_bbr_probe_bw_pacing_gain_num st in g = 320 \/ g = 192 \/ g = 256.
Proof. unfold tcp_shift_bbr_probe_bw_pacing_gain_num. cases; lia. Qed.

Lemma bbr_bdp_range bw rtt : in_u64 bw -> in_u64 rtt -> in_u64 (tcp_shift_bbr_bdp_bytes bw rtt).
Proof.
  intros. rewrite bbr_bdp_spec by done.
  pose proof (cdiv_bounds (bw * rtt) 1000000000 ltac:(lia)). nia.
Qed.

Lemma bbr_bdp_positive bw rtt :
  0 < bw <= UINT64_MAX -> 0 < rtt <= UINT64_MAX -> 1 <= tcp_shift_bbr_bdp_bytes bw rtt.
Proof.
  intros. rewrite bbr_bdp_spec by lia.
  pose proof (cdiv_bounds (bw * rtt) 1000000000 ltac:(lia)). nia.
Qed.

(** ** The windows the policies publish *)

(** The four-packet floor, within the transport limit. *)
Definition bbr_floor (t : tcp_shift_cc_transport) : Z :=
  Z.min (tp_cwnd_limit_bytes t) (4 * tp_mss_bytes t).

Lemma startup_cwnd_target_range t bw rtt init :
  transport_usable t -> in_u64 bw -> in_u64 rtt -> in_u32 init ->
  bbr_floor t <= tcp_shift_bbr_startup_cwnd_target_bytes bw rtt (tp_mss_bytes t)
                   (tp_cwnd_limit_bytes t) init <= tp_cwnd_limit_bytes t.
Proof.
  intros [(? & ? & ? & ?) ?] Hb Hr Hi. unfold tcp_shift_bbr_startup_cwnd_target_bytes, bbr_floor.
  destruct (_ || _) eqn:E; [lia|]. rewrite (u64_small (_ * 4)) by lia.
  set (target := if (bw =? 0) || _ then _ else _). clearbody target.
  set (mn := if tp_mss_bytes t * 4 >? _ then _ else _).
  assert (mn = Z.min (tp_cwnd_limit_bytes t) (4 * tp_mss_bytes t)) by (unfold mn; case_match; lia).
  clearbody mn. cases; rewrite u32_small by lia; lia.
Qed.

(** The growth by newly acknowledged bytes, capped by the limit. *)
Lemma grown_cwnd_spec cur acked limit :
  in_u32 cur -> in_u32 acked -> in_u32 limit ->
  u32 (if cur +w64 acked >? limit then limit else cur +w64 acked) = Z.min limit (cur + acked).
Proof. intros. rewrite (u64_small (_ + _)) by lia. case_match; rewrite u32_small; lia. Qed.

(** What a mode's policy function promises: a window between the floor and
    the limit whenever it succeeds, and, when [live], success with a nonzero
    pacing rate. *)
Definition mode_policy_ok (t : tcp_shift_cc_transport) (live : Prop)
    (r : Z * tcp_shift_cc_policy) : Prop :=
  (0 <= r.1 -> bbr_floor t <= pol_cwnd_bytes r.2 <= tp_cwnd_limit_bytes t /\
               in_u64 (pol_pacing_rate_bytes_per_sec r.2)) /\
  (live -> r.1 = 0 /\ 1 <= pol_pacing_rate_bytes_per_sec r.2).

Lemma bbr_floor_range t :
  transport_usable t -> tp_mss_bytes t <= bbr_floor t <= tp_cwnd_limit_bytes t.
Proof. intros [(? & ? & ? & ?) ?]. unfold bbr_floor. lia. Qed.

Lemma gain_rate_positive bw num :
  in_u64 bw -> 3 <= bw -> 8712 <= num <= 31680 -> 1 <= bw * num / 25600.
Proof. intros. apply Z.div_le_lower_bound; nia. Qed.

Lemma gain_rate_range bw num : in_u64 bw -> 0 <= num -> 0 <= Z.min UINT64_MAX (bw * num / 25600) <= UINT64_MAX.
Proof. intros. assert (0 <= bw * num / 25600) by (apply Z.div_pos; nia). lia. Qed.

Lemma bbr_startup_policy_ok m t a init cur pace p :
  transport_usable t -> bm_mode m = TCP_SHIFT_BBR_MODE_STARTUP ->
  in_u64 (bm_max_bw_bytes_per_sec m) -> in_u64 (bbr_known_min_rtt m) ->
  1 <= init <= tp_cwnd_limit_bytes t -> 1 <= cur <= tp_cwnd_limit_bytes t ->
  in_u32 (ack_acked_bytes a) -> 1 <= pace <= UINT64_MAX ->
  mode_policy_ok t True (tcp_shift_bbr_startup_policy m t a init cur pace p).
Proof.
  intros Ht Hm Hb Hr Hi Hc Ha Hp. unfold tcp_shift_bbr_startup_policy. cbn zeta. rewrite Hm.
  rewrite bool_decide_eq_false_2 by (by intros []).
  pose proof (startup_cwnd_target_range t _ _ init Ht Hb Hr ltac:(destruct Ht as [(?&?&?&?) ?]; lia)) as Htg.
  pose proof (bbr_floor_range t Ht) as Hf.
  rewrite bbr_minimum_cwnd_spec by done. fold (bbr_floor t). destruct Ht as [(? & ? & ? & ?) ?].
  set (tg := tcp_shift_bbr_startup_cwnd_target_bytes _ _ _ _ _) in *. clearbody tg.
  destruct (_ || _) eqn:E; [lia|]. destruct (tg =? 0) eqn:E0; [lia|].
  rewrite grown_cwnd_spec by lia. rewrite bbr_startup_pacing_spec by done.
  pose proof (gain_rate_range (bm_max_bw_bytes_per_sec m) 73161).
  split; cbn; intros _; (split; [cases; lia|]); cases; lia.
Qed.

Lemma bbr_drain_policy_ok m t a cur p :
  transport_usable t -> bm_mode m = TCP_SHIFT_BBR_MODE_DRAIN -> bm_full_bw_reached m = true ->
  in_u64 (bm_max_bw_bytes_per_sec m) -> in_u64 (bbr_known_min_rtt m) ->
  1 <= cur <= tp_cwnd_limit_bytes t -> in_u32 (ack_acked_bytes a) ->
  mode_policy_ok t (3 <= bm_max_bw_bytes_per_sec m) (tcp_shift_bbr_drain_policy m t a cur p).
Proof.
  intros Ht Hm Hf Hb Hr Hc Ha. unfold tcp_shift_bbr_drain_policy. cbn zeta. rewrite Hm, Hf.
  rewrite bool_decide_eq_false_2 by (by intros []).
  rewrite bbr_drain_min_cwnd_spec by done. fold (bbr_floor t).
  pose proof (bbr_floor_range t Ht) as Hfl.
  pose proof (startup_cwnd_target_range t (bm_max_bw_bytes_per_sec m) (bbr_known_min_rtt m)
    (bbr_floor t) Ht ltac:(lia) Hr ltac:(destruct Ht as [(?&?&?&?) ?]; lia)) as Htg.
  destruct Ht as [(? & ? & ? & ?) ?].
  set (tg := tcp_shift_bbr_startup_cwnd_target_bytes _ _ _ _ _) in *. clearbody tg.
  destruct (_ || _) eqn:E; [split; cbn; lia|]. destruct (tg =? 0) eqn:E0; [lia|].
  rewrite grown_cwnd_spec by lia. unfold tcp_shift_bbr_drain_pacing_rate_bytes_per_sec.
  rewrite bbr_drain_scale_floor_spec by lia.
  pose proof (gain_rate_range (bm_max_bw_bytes_per_sec m) 8712).
  pose proof (gain_rate_positive (bm_max_bw_bytes_per_sec m) 8712).
  change (88 * 99) with 8712. change (256 * 100) with 25600.
  split; cbn; intros; (split; [cases; lia|]); lia.
Qed.

Lemma bbr_probe_bw_policy_ok m st t a cur p :
  transport_usable t -> bm_mode m = TCP_SHIFT_BBR_MODE_PROBE_BW ->
  bm_full_bw_reached m = true -> bm_has_min_rtt m = true ->
  in_u64 (bm_max_bw_bytes_per_sec m) -> 0 < bm_min_rtt_ns m <= UINT64_MAX ->
  1 <= cur <= tp_cwnd_limit_bytes t -> in_u32 (ack_acked_bytes a) ->
  mode_policy_ok t (3 <= bm_max_bw_bytes_per_sec m)
    (tcp_shift_bbr_probe_bw_policy m st t a cur p).
Proof.
  intros Ht Hm Hf Hh Hb Hr Hc Ha. unfold tcp_shift_bbr_probe_bw_policy. cbn zeta.
  rewrite Hm, Hf, Hh. rewrite bool_decide_eq_false_2 by (by intros []).
  rewrite bbr_probe_min_cwnd_spec by done. fold (bbr_floor t).
  pose proof (bbr_floor_range t Ht) as Hfl.
  destruct Ht as [(? & ? & ? & ?) ?]. destruct (_ || _) eqn:E; [split; cbn; lia|].
  set (tg := if _ >? tp_cwnd_limit_bytes t then _ else (if _ <? bbr_floor t then _ else _)).
  assert (Htg : bbr_floor t <= tg <= tp_cwnd_limit_bytes t) by (unfold tg; cases; lia).
  clearbody tg. rewrite (u64_small (cur + _)) by lia.
  unfold tcp_shift_bbr_probe_bw_pacing_rate_bytes_per_sec.
  pose proof (bbr_gain_cases st) as Hg. cbn zeta in Hg.
  set (g := tcp_shift_bbr_probe_bw_pacing_gain_num st) in *. clearbody g.
  rewrite (u32_small (g * 99)), bbr_probe_scale_floor_spec by lia.
  change (256 * 100) with 25600.
  pose proof (gain_rate_range (bm_max_bw_bytes_per_sec m) (g * 99)).
  pose proof (gain_rate_positive (bm_max_bw_bytes_per_sec m) (g * 99)).
  split; cbn; intros; (split; [|lia]); [|lia].
  cases; rewrite ?u32_small in * by lia; lia.
Qed.

Lemma bbr_probe_rtt_policy_ok m t p :
  transport_usable t -> bm_mode m = TCP_SHIFT_BBR_MODE_PROBE_RTT ->
  in_u64 (bm_max_bw_bytes_per_sec m) ->
  mode_policy_ok t (3 <= bm_max_bw_bytes_per_sec m) (tcp_shift_bbr_probe_rtt_policy m t p).
Proof.
  intros Ht Hm Hb. unfold tcp_shift_bbr_probe_rtt_policy. cbn zeta. rewrite Hm.
  rewrite bool_decide_eq_false_2 by (by intros []).
  rewrite bbr_probe_min_cwnd_spec by done. fold (bbr_floor t).
  pose proof (bbr_floor_range t Ht) as Hfl. destruct Ht as [(? & ? & ? & ?) ?].
  destruct (_ || _) eqn:E; [lia|]. rewrite bbr_probe_scale_floor_spec by lia.
  change (256 * 99) with 25344. change (256 * 100) with 25600.
  pose proof (gain_rate_range (bm_max_bw_bytes_per_sec m) 25344).
  pose proof (gain_rate_positive (bm_max_bw_bytes_per_sec m) 25344).
  split; cbn; intros; (split; [lia|]); lia.
Qed.
