(* ===== verification/BbrController.v ===== *)
(** * BBR recovery and the BBR controller ([src/cc/bbr_recovery.c], [src/cc/bbr_controller.c])

    Packet conservation, and the lifecycle that composes the estimator, the
    mode machine, the policies and recovery. *)

From Stdlib Require Import ZArith Lia Bool List.
From stdpp Require Import base tactics numbers list.
From S2P Require Import Prelude CC BbrModel BbrProbe.
Local Open Scope Z_scope.

(** ** Recovery *)

Record tcp_shift_bbr_recovery_state := mk_recovery {
  rc_prior_cwnd_bytes : Z;
  rc_in_recovery : bool;
  rc_packet_conservation : bool
}.
#[export] Instance eta_recovery : Eta tcp_shift_bbr_recovery_state := fun r =>
  mk_recovery (rc_prior_cwnd_bytes r) (rc_in_recovery r) (rc_packet_conservation r).

Definition tcp_shift_bbr_recovery_valid_window
    (current_cwnd_bytes mss_bytes cwnd_limit_bytes : Z) : bool :=
  negb (mss_bytes =? 0) && (cwnd_limit_bytes >=? mss_bytes) &&
  (current_cwnd_bytes >=? mss_bytes) && (current_cwnd_bytes <=? cwnd_limit_bytes).

Definition tcp_shift_bbr_recovery_floor_sub (value subtract floor : Z) : Z :=
  if (value <=? subtract) || (value -w32 subtract <? floor) then floor
  else value -w32 subtract.

Definition tcp_shift_bbr_recovery_sat_add_limit (a b limit : Z) : Z :=
  if (a >=? limit) || (b >? limit -w32 a) then limit else a +w32 b.

Definition tcp_shift_bbr_recovery_init : tcp_shift_bbr_recovery_state :=
  mk_recovery 0 false false.

(** [inflight + acked] within the limit, at least one segment. *)
Definition recovery_conservation_cwnd (inflight acked mss limit : Z) : Z :=
  let conservation_cwnd := tcp_shift_bbr_recovery_sat_add_limit inflight acked limit in
  if conservation_cwnd <? mss then mss else conservation_cwnd.

(** Result: the return code, the state and [*cwnd_bytes], written on success
    only. The discarded [floor_sub] of the source has no effect. *)
Definition tcp_shift_bbr_recovery_enter (state : tcp_shift_bbr_recovery_state)
    (current_cwnd_bytes inflight_bytes acked_bytes lost_bytes mss_bytes cwnd_limit_bytes
     cwnd_bytes : Z) : Z * tcp_shift_bbr_recovery_state * Z :=
  if rc_in_recovery state ||
     negb (tcp_shift_bbr_recovery_valid_window current_cwnd_bytes mss_bytes cwnd_limit_bytes)
  then (-1, state, cwnd_bytes)
  else
    (0, state <| rc_prior_cwnd_bytes := current_cwnd_bytes |>
              <| rc_in_recovery := true |>
              <| rc_packet_conservation := true |>,
     recovery_conservation_cwnd inflight_bytes acked_bytes mss_bytes cwnd_limit_bytes).

(** Result: the return code, the state, [*cwnd_bytes] and [*owns_cwnd]. *)
Definition tcp_shift_bbr_recovery_on_ack (state : tcp_shift_bbr_recovery_state)
    (current_cwnd_bytes inflight_bytes acked_bytes lost_bytes mss_bytes cwnd_limit_bytes : Z)
    (round_start : bool) (cwnd_bytes : Z) (owns_cwnd : bool)
    : Z * tcp_shift_bbr_recovery_state * Z * bool :=
  if negb (rc_in_recovery state) ||
     negb (tcp_shift_bbr_recovery_valid_window current_cwnd_bytes mss_bytes cwnd_limit_bytes)
  then (-1, state, cwnd_bytes, owns_cwnd)
  else
    let cwnd := tcp_shift_bbr_recovery_floor_sub current_cwnd_bytes lost_bytes mss_bytes in
    let state := if round_start then state <| rc_packet_conservation := false |> else state in
    let '(cwnd, owns_cwnd) :=
      if rc_packet_conservation state then
        let conservation_cwnd :=
          recovery_conservation_cwnd inflight_bytes acked_bytes mss_bytes cwnd_limit_bytes in
        (if cwnd <? conservation_cwnd then conservation_cwnd else cwnd, true)
      else (cwnd, false) in
    let cwnd := if cwnd >? cwnd_limit_bytes then cwnd_limit_bytes else cwnd in
    (0, state, cwnd, owns_cwnd).

Definition tcp_shift_bbr_recovery_exit (state : tcp_shift_bbr_recovery_state)
    (current_cwnd_bytes cwnd_limit_bytes cwnd_bytes : Z)
    : Z * tcp_shift_bbr_recovery_state * Z :=
  if negb (rc_in_recovery state) || (current_cwnd_bytes =? 0) || (cwnd_limit_bytes =? 0) ||
     (current_cwnd_bytes >? cwnd_limit_bytes) || (rc_prior_cwnd_bytes state =? 0)
  then (-1, state, cwnd_bytes)
  else
    let restored := if current_cwnd_bytes >? rc_prior_cwnd_bytes state
                    then current_cwnd_bytes else rc_prior_cwnd_bytes state in
    let restored := if restored >? cwnd_limit_bytes then cwnd_limit_bytes else restored in
    (0, state <| rc_in_recovery := false |> <| rc_packet_conservation := false |>, restored).

(** ** Controller *)

Record tcp_shift_bbr_controller_state := mk_ctl {
  ct_model : tcp_shift_bbr_model;
  ct_probe : tcp_shift_bbr_probe_state;
  ct_recovery : tcp_shift_bbr_recovery_state;
  ct_pacing_rate_bytes_per_sec : Z;
  ct_delivered_bytes : Z;
  ct_initial_cwnd_bytes : Z;
  ct_cwnd_bytes : Z;
  ct_pending_probe_loss_bytes : Z;
  ct_has_seen_rtt : bool;
  ct_initialized : bool
}.
#[export] Instance eta_ctl : Eta tcp_shift_bbr_controller_state := fun r =>
  mk_ctl (ct_model r) (ct_probe r) (ct_recovery r) (ct_pacing_rate_bytes_per_sec r)
    (ct_delivered_bytes r) (ct_initial_cwnd_bytes r) (ct_cwnd_bytes r)
    (ct_pending_probe_loss_bytes r) (ct_has_seen_rtt r) (ct_initialized r).

Record tcp_shift_bbr_timeout_observation := mk_timeout_obs {
  to_post_loss_inflight_bytes : Z
}.

Definition tcp_shift_bbr_controller_valid_transport (t : tcp_shift_cc_transport) : bool :=
  negb (tp_mss_bytes t =? 0) && (tp_cwnd_limit_bytes t >=? tp_mss_bytes t).

Definition tcp_shift_bbr_controller_add_limit (a b limit : Z) : Z :=
  if (a >=? limit) || (b >? limit -w32 a) then limit else a +w32 b.

Definition tcp_shift_bbr_controller_publish (state : tcp_shift_bbr_controller_state)
    (transport : tcp_shift_cc_transport) : tcp_shift_cc_policy :=
  mk_policy (ct_cwnd_bytes state) (tp_cwnd_limit_bytes transport)
    (ct_pacing_rate_bytes_per_sec state).

Definition tcp_shift_bbr_controller_init (state : tcp_shift_bbr_controller_state)
    (transport : tcp_shift_cc_transport) (init : tcp_shift_cc_init_cfg) (cycle_seed : Z)
    (policy : tcp_shift_cc_policy)
    : Z * tcp_shift_bbr_controller_state * tcp_shift_cc_policy :=
  let limit := tp_cwnd_limit_bytes transport in
  if negb (tcp_shift_bbr_controller_valid_transport transport) ||
     (ini_initial_cwnd_bytes init =? 0) || (ini_initial_cwnd_bytes init >? limit) ||
     (ini_min_cwnd_bytes init =? 0) || (ini_min_cwnd_bytes init >? limit)
  then (-1, state, policy)
  else
    let state := state <| ct_model := tcp_shift_bbr_model_init |>
                       <| ct_probe := tcp_shift_bbr_probe_state_init cycle_seed |>
                       <| ct_recovery := tcp_shift_bbr_recovery_init |>
                       <| ct_initial_cwnd_bytes := ini_initial_cwnd_bytes init |>
                       <| ct_cwnd_bytes := ini_initial_cwnd_bytes init |>
                       <| ct_pending_probe_loss_bytes := 0 |>
                       <| ct_delivered_bytes := 0 |>
                       <| ct_has_seen_rtt := false |> in
    let initial_rate := tcp_shift_bbr_initial_pacing_rate_bytes_per_sec
                          (ini_initial_cwnd_bytes init) 0 in
    if initial_rate =? 0 then (-1, state, policy)
    else
      let state := state <| ct_pacing_rate_bytes_per_sec := initial_rate |>
                         <| ct_initialized := true |> in
      (0, state, tcp_shift_bbr_controller_publish state transport).

(** The one-shot replacement of the bootstrap pacing rate; the boolean is the
    [return -1] on a zero rate. *)
Definition ctl_first_rtt (state : tcp_shift_bbr_controller_state) (ack : tcp_shift_cc_ack)
    : bool * tcp_shift_bbr_controller_state :=
  if negb (ct_has_seen_rtt state) && negb (ack_smoothed_rtt_ns ack =? 0) then
    let rtt_rate := tcp_shift_bbr_initial_pacing_rate_bytes_per_sec
                      (ct_cwnd_bytes state) (ack_smoothed_rtt_ns ack) in
    if rtt_rate =? 0 then (true, state)
    else (false, state <| ct_pacing_rate_bytes_per_sec := rtt_rate |>
                       <| ct_has_seen_rtt := true |>)
  else (false, state).

(** Recovery's share of an ACK: the code, the state, the window the modes
    start from, [recovery_cwnd] and [recovery_owns_cwnd]. *)
Definition ctl_recovery_ack (state : tcp_shift_bbr_controller_state)
    (transport : tcp_shift_cc_transport) (ack : tcp_shift_cc_ack)
    : Z * tcp_shift_bbr_controller_state * Z * Z * bool :=
  let current_cwnd := ct_cwnd_bytes state in
  if rc_in_recovery (ct_recovery state) then
    let '(result, recovery, recovery_cwnd, owns) :=
      tcp_shift_bbr_recovery_on_ack (ct_recovery state) current_cwnd
        (tp_inflight_bytes transport) (ack_acked_bytes ack) 0 (tp_mss_bytes transport)
        (tp_cwnd_limit_bytes transport) (bm_round_start (ct_model state)) 0 false in
    (result, state <| ct_recovery := recovery |>, recovery_cwnd, recovery_cwnd, owns)
  else (0, state, current_cwnd, 0, false).

(** The policy of the mode the ACK ends in. *)
Definition ctl_mode_policy (state : tcp_shift_bbr_controller_state)
    (transport : tcp_shift_cc_transport) (ack : tcp_shift_cc_ack) (current_cwnd : Z)
    (policy : tcp_shift_cc_policy) : Z * tcp_shift_cc_policy :=
  match bm_mode (ct_model state) with
  | TCP_SHIFT_BBR_MODE_STARTUP =>
      tcp_shift_bbr_startup_policy (ct_model state) transport ack
        (ct_initial_cwnd_bytes state) current_cwnd (ct_pacing_rate_bytes_per_sec state) policy
  | TCP_SHIFT_BBR_MODE_DRAIN =>
      tcp_shift_bbr_drain_policy (ct_model state) transport ack current_cwnd policy
  | TCP_SHIFT_BBR_MODE_PROBE_BW =>
      tcp_shift_bbr_probe_bw_policy (ct_model state) (ct_probe state) transport ack
        current_cwnd policy
  | TCP_SHIFT_BBR_MODE_PROBE_RTT =>
      tcp_shift_bbr_probe_rtt_policy (ct_model state) transport policy
  end.

(** The end of an ACK: check, conservation override, commit. *)
Definition ctl_commit (state : tcp_shift_bbr_controller_state)
    (transport : tcp_shift_cc_transport) (ack : tcp_shift_cc_ack)
    (current_cwnd recovery_cwnd : Z) (owns : bool) (policy : tcp_shift_cc_policy)
    : Z * tcp_shift_bbr_controller_state * tcp_shift_cc_policy :=
  let '(result, policy) := ctl_mode_policy state transport ack current_cwnd policy in
  if (result <? 0) || (pol_cwnd_bytes policy =? 0) ||
     (pol_cwnd_bytes policy >? tp_cwnd_limit_bytes transport) ||
     (pol_pacing_rate_bytes_per_sec policy =? 0)
  then (-1, state, policy)
  else
    let policy := if owns then policy <| pol_cwnd_bytes := recovery_cwnd |> else policy in
    (0, state <| ct_cwnd_bytes := pol_cwnd_bytes policy |>
              <| ct_pacing_rate_bytes_per_sec := pol_pacing_rate_bytes_per_sec policy |>
              <| ct_pending_probe_loss_bytes := 0 |>, policy).

(** Mode transitions: drain, ProbeRTT and the ProbeBW cycle. The result is
    the code, the state and the window the mode's policy starts from. *)
Definition ctl_modes (state : tcp_shift_bbr_controller_state)
    (transport : tcp_shift_cc_transport) (ack : tcp_shift_cc_ack)
    (current_cwnd probe_loss_bytes : Z) : Z * tcp_shift_bbr_controller_state * Z :=
  let '(result, model) := tcp_shift_bbr_model_check_drain (ct_model state) (ack_rate ack) in
  let state := state <| ct_model := model |> in
  if result <? 0 then (-1, state, current_cwnd)
  else
    let '(probe_rtt_result, model, probe) :=
      tcp_shift_bbr_probe_rtt_update (ct_model state) (ct_probe state) transport
        (ack_rate ack) current_cwnd (ack_ack_time_ns ack) in
    let state := state <| ct_model := model |> <| ct_probe := probe |> in
    if probe_rtt_result <? 0 then (-1, state, current_cwnd)
    else
      let current_cwnd :=
        if probe_rtt_result >? 0
        then tcp_shift_bbr_probe_rtt_restore_cwnd_bytes (ct_probe state) current_cwnd
               (tp_cwnd_limit_bytes transport)
        else current_cwnd in
      if (probe_rtt_result >? 0) && (current_cwnd =? 0) then (-1, state, current_cwnd)
      else if bool_decide (bm_mode (ct_model state) = TCP_SHIFT_BBR_MODE_PROBE_BW) then
        let '(result, probe) :=
          tcp_shift_bbr_probe_bw_update (ct_model state) (ct_probe state) (ack_rate ack)
            probe_loss_bytes (ack_ack_time_ns ack) in
        let state := state <| ct_probe := probe |> in
        if result <? 0 then (-1, state, current_cwnd) else (0, state, current_cwnd)
      else (0, state, current_cwnd).

Definition tcp_shift_bbr_controller_on_ack (state : tcp_shift_bbr_controller_state)
    (transport : tcp_shift_cc_transport) (ack : tcp_shift_cc_ack)
    (policy : tcp_shift_cc_policy)
    : Z * tcp_shift_bbr_controller_state * tcp_shift_cc_policy :=
  if negb (ct_initialized state) || (ack_acked_bytes ack =? 0) ||
     (ack_ack_time_ns ack =? 0) ||
     negb (tcp_shift_bbr_controller_valid_transport transport) ||
     (ct_cwnd_bytes state =? 0) || (ct_cwnd_bytes state >? tp_cwnd_limit_bytes transport)
  then (-1, state, policy)
  else
    let '(zero_rate, state) := ctl_first_rtt state ack in
    if zero_rate then (-1, state, policy)
    else
      let probe_loss_bytes := ct_pending_probe_loss_bytes state in
      let '(result, model) :=
        tcp_shift_bbr_model_on_ack (ct_model state) (ack_rate ack) (ack_ack_time_ns ack) in
      let state := state <| ct_model := model |> in
      if result <? 0 then (-1, state, policy)
      else
        let state :=
          if rs_delivered_total_bytes (ack_rate ack) >? ct_delivered_bytes state
          then state <| ct_delivered_bytes := rs_delivered_total_bytes (ack_rate ack) |>
          else state in
        let '(result, state, current_cwnd, recovery_cwnd, owns) :=
          ctl_recovery_ack state transport ack in
        if result <? 0 then (-1, state, policy)
        else
          let '(result, state, current_cwnd) :=
            ctl_modes state transport ack current_cwnd probe_loss_bytes in
          if result <? 0 then (-1, state, policy)
          else ctl_commit state transport ack current_cwnd recovery_cwnd owns policy.

Definition tcp_shift_bbr_controller_note_loss (state : tcp_shift_bbr_controller_state)
    (lost_bytes : Z) : Z * tcp_shift_bbr_controller_state :=
  if negb (ct_initialized state) || (lost_bytes =? 0) then (-1, state)
  else if ct_pending_probe_loss_bytes state >? UINT32_MAX -w32 lost_bytes
  then (0, state <| ct_pending_probe_loss_bytes := UINT32_MAX |>)
  else (0, state <| ct_pending_probe_loss_bytes :=
                      ct_pending_probe_loss_bytes state +w32 lost_bytes |>).

(** [state->initialized == 0 || !valid_transport || cwnd == 0 || cwnd > limit] *)
Definition ctl_rejects (state : tcp_shift_bbr_controller_state)
    (transport : tcp_shift_cc_transport) : bool :=
  negb (ct_initialized state) ||
  negb (tcp_shift_bbr_controller_valid_transport transport) ||
  (ct_cwnd_bytes state =? 0) || (ct_cwnd_bytes state >? tp_cwnd_limit_bytes transport).

Definition tcp_shift_bbr_controller_recovery_enter (state : tcp_shift_bbr_controller_state)
    (transport : tcp_shift_cc_transport) (acked_bytes lost_bytes : Z)
    (policy : tcp_shift_cc_policy)
    : Z * tcp_shift_bbr_controller_state * tcp_shift_cc_policy :=
  if ctl_rejects state transport || (lost_bytes =? 0) then (-1, state, policy)
  else
    let state := state
      <| ct_model := ct_model state <| bm_next_round_delivered := ct_delivered_bytes state |>
                                    <| bm_round_start := false |> |>
      <| ct_pending_probe_loss_bytes := lost_bytes |> in
    let '(result, recovery, cwnd) :=
      tcp_shift_bbr_recovery_enter (ct_recovery state) (ct_cwnd_bytes state)
        (tp_inflight_bytes transport) acked_bytes lost_bytes (tp_mss_bytes transport)
        (tp_cwnd_limit_bytes transport) 0 in
    let state := state <| ct_recovery := recovery |> in
    if result <? 0 then (-1, state, policy)
    else
      let state := state <| ct_cwnd_bytes := cwnd |> in
      (0, state, tcp_shift_bbr_controller_publish state transport).

Definition tcp_shift_bbr_controller_recovery_note_loss (state : tcp_shift_bbr_controller_state)
    (transport : tcp_shift_cc_transport) (lost_bytes : Z) (policy : tcp_shift_cc_policy)
    : Z * tcp_shift_bbr_controller_state * tcp_shift_cc_policy :=
  if negb (ct_initialized state) || negb (rc_in_recovery (ct_recovery state)) ||
     (lost_bytes =? 0) || negb (tcp_shift_bbr_controller_valid_transport transport) ||
     (ct_cwnd_bytes state <? tp_mss_bytes transport) ||
     (ct_cwnd_bytes state >? tp_cwnd_limit_bytes transport)
  then (-1, state, policy)
  else
    let '(result, state) := tcp_shift_bbr_controller_note_loss state lost_bytes in
    if negb (result =? 0) then (-1, state, policy)
    else
      let cwnd := ct_cwnd_bytes state in
      let cwnd := if (lost_bytes >=? cwnd) || (cwnd -w32 lost_bytes <? tp_mss_bytes transport)
                  then tp_mss_bytes transport else cwnd -w32 lost_bytes in
      let state := state <| ct_cwnd_bytes := cwnd |> in
      (0, state, tcp_shift_bbr_controller_publish state transport).

Definition tcp_shift_bbr_controller_recovery_exit (state : tcp_shift_bbr_controller_state)
    (transport : tcp_shift_cc_transport) (policy : tcp_shift_cc_policy)
    : Z * tcp_shift_bbr_controller_state * tcp_shift_cc_policy :=
  if ctl_rejects state transport then (-1, state, policy)
  else
    let '(result, recovery, cwnd) :=
      tcp_shift_bbr_recovery_exit (ct_recovery state) (ct_cwnd_bytes state)
        (tp_cwnd_limit_bytes transport) 0 in
    let state := state <| ct_recovery := recovery |> in
    if result <? 0 then (-1, state, policy)
    else
      let state := state <| ct_cwnd_bytes := cwnd |> <| ct_pending_probe_loss_bytes := 0 |> in
      (0, state, tcp_shift_bbr_controller_publish state transport).

Definition tcp_shift_bbr_controller_on_timeout (state : tcp_shift_bbr_controller_state)
    (transport : tcp_shift_cc_transport) (timeout : tcp_shift_bbr_timeout_observation)
    (policy : tcp_shift_cc_policy)
    : Z * tcp_shift_bbr_controller_state * tcp_shift_cc_policy :=
  if ctl_rejects state transport then (-1, state, policy)
  else
    let state := state
      <| ct_model := ct_model state <| bm_full_bw_bytes_per_sec := 0 |>
                                    <| bm_full_bw_now := false |>
                                    <| bm_round_start := true |> |>
      <| ct_pending_probe_loss_bytes := 0 |>
      <| ct_recovery := tcp_shift_bbr_recovery_init |> in
    let cwnd := tcp_shift_bbr_controller_add_limit (to_post_loss_inflight_bytes timeout)
                  (tp_mss_bytes transport) (tp_cwnd_limit_bytes transport) in
    let cwnd := if cwnd <? tp_mss_bytes transport then tp_mss_bytes transport else cwnd in
    let state := state <| ct_cwnd_bytes := cwnd |> in
    (0, state, tcp_shift_bbr_controller_publish state transport).
