(* ===== verification/BbrMachine.v ===== *)
(** * The BBR controller as a state machine

    The invariant of the controller's reachable states, its preservation by
    every operation (rejected ones included), and the progress theorem: a
    reachable controller never rejects a regular ACK. *)

From Stdlib Require Import ZArith Lia Bool List.
From stdpp Require Import base tactics numbers list relations.
From S2P Require Import Prelude CC BbrModel BbrEstimator BbrProbe BbrController.
Local Open Scope Z_scope.

(** ** The estimator *)

(** The modes reached so far and the facts that justify them. *)
Definition bbr_model_ok (m : tcp_shift_bbr_model) : Prop :=
  rtt_filter_ok m /\
  Forall (fun x => in_u64 x) (bm_max_bw_filter m) /\ in_u64 (bm_max_bw_bytes_per_sec m) /\
  (bm_min_rtt_expired m = true -> bm_has_min_rtt m = true) /\
  match bm_mode m with
  | TCP_SHIFT_BBR_MODE_STARTUP => True
  | TCP_SHIFT_BBR_MODE_DRAIN => bm_full_bw_reached m = true
  | TCP_SHIFT_BBR_MODE_PROBE_BW => bm_full_bw_reached m = true /\ bm_has_min_rtt m = true
  | TCP_SHIFT_BBR_MODE_PROBE_RTT => bm_has_min_rtt m = true
  end.

(** The part of the invariant the bandwidth filter is responsible for. *)
Definition bw_ok (m : tcp_shift_bbr_model) : Prop :=
  Forall (fun x => in_u64 x) (bm_max_bw_filter m) /\ in_u64 (bm_max_bw_bytes_per_sec m).

Lemma recompute_bw_ok m :
  Forall (fun x => in_u64 x) (bm_max_bw_filter m) -> bw_ok (tcp_shift_bbr_recompute_max_bw m).
Proof.
  intros H. split; [exact H|].
  change (in_u64 (fold_left tcp_shift_bbr_max_u64 (bm_max_bw_filter m) 0)).
  assert (Hg : forall l a, Forall (fun x => in_u64 x) l -> in_u64 a ->
    in_u64 (fold_left tcp_shift_bbr_max_u64 l a)); [|apply Hg; [done|lia]].
  clear. induction l as [|x l IH]; cbn; intros a Hl Ha; [done|].
  apply Forall_cons in Hl as [Hx Hl]. apply IH; [done|]. rewrite bbr_max_u64_spec. lia.
Qed.

Lemma age_loop_range n : forall round step f,
  Forall (fun x => in_u64 x) f -> Forall (fun x => in_u64 x) (age_loop n round step f).
Proof.
  induction n as [|n IH]; intros round step f Hf; cbn; [done|].
  apply IH, Forall_insert; [done|lia].
Qed.

Lemma age_bw_filter_bw_ok m r : bw_ok m -> bw_ok (tcp_shift_bbr_age_bw_filter m r).
Proof.
  intros [Hf Hm]. unfold tcp_shift_bbr_age_bw_filter. cbn zeta.
  destruct (negb _); [by split|]. destruct (_ =? 0); [by split|].
  apply recompute_bw_ok. cbn. destruct (_ >=? _); [|by apply age_loop_range].
  cbn. repeat (apply Forall_cons; split; [lia|]). constructor.
Qed.

Lemma update_max_bw_bw_ok m s :
  bw_ok m -> in_u64 (rs_delivery_rate_bytes_per_sec s) -> bw_ok (tcp_shift_bbr_update_max_bw m s).
Proof.
  intros Hm Hs. unfold tcp_shift_bbr_update_max_bw. cbn zeta.
  destruct (_ || _); [done|]. destruct (_ && _); [done|].
  set (m1 := m <| bm_valid_rate_samples := _ |>).
  assert (H2 : bw_ok (tcp_shift_bbr_age_bw_filter m1 (bm_round_count m1)))
    by (by apply age_bw_filter_bw_ok).
  set (m2 := tcp_shift_bbr_age_bw_filter m1 _) in *. clearbody m2.
  apply recompute_bw_ok. destruct H2 as [H2 _]. destruct (_ >? _); [|exact H2].
  cbn. by apply Forall_insert.
Qed.

(** What an ACK leaves alone or only moves forward. *)
Lemma bbr_on_ack_frame m s now rc m' :
  bw_ok m -> in_u64 (rs_delivery_rate_bytes_per_sec s) ->
  (bm_min_rtt_expired m = true -> bm_has_min_rtt m = true) ->
  tcp_shift_bbr_model_on_ack m s now = (rc, m') ->
  bw_ok m' /\ bm_mode m' = bm_mode m /\
  (bm_full_bw_reached m = true -> bm_full_bw_reached m' = true) /\
  (bm_has_min_rtt m = true -> bm_has_min_rtt m' = true) /\
  (bm_min_rtt_expired m' = true -> bm_has_min_rtt m' = true).
Proof.
  intros Hm Hs He. unfold tcp_shift_bbr_model_on_ack. destruct (_ && _); intros [= <- <-]; [done|].
  set (m0 := m <| bm_last_update_ns := now |> <| bm_has_update_time := true |>).
  set (P := fun x : tcp_shift_bbr_model => bw_ok x /\ bm_mode x = bm_mode m /\
    (bm_full_bw_reached m = true -> bm_full_bw_reached x = true) /\
    bm_has_min_rtt x = bm_has_min_rtt m /\
    (bm_min_rtt_expired x = true -> bm_has_min_rtt x = true)).
  assert (H0 : P m0) by done. clearbody m0.
  assert (H1 : P (tcp_shift_bbr_update_round m0 s))
    by (unfold tcp_shift_bbr_update_round; by destruct (_ || _); [|destruct (_ >=? _)]).
  set (m1 := tcp_shift_bbr_update_round m0 s) in *. clearbody m1.
  assert (H2 : P (tcp_shift_bbr_update_max_bw m1 s)).
  { destruct H1 as (Hb & H1). split; [by apply update_max_bw_bw_ok|].
    unfold tcp_shift_bbr_update_max_bw, tcp_shift_bbr_age_bw_filter,
      tcp_shift_bbr_recompute_max_bw. cbn zeta.
    destruct (_ || _); [done|]. destruct (_ && _); [done|].
    destruct (negb _); [|destruct (_ =? 0)]; destruct (_ >? _); done. }
  set (m2 := tcp_shift_bbr_update_max_bw m1 s) in *. clearbody m2.
  assert (H3 : P (tcp_shift_bbr_check_startup_full_bw m2 s)).
  { unfold tcp_shift_bbr_check_startup_full_bw. cbn zeta.
    destruct (_ || _); [done|]. destruct (_ || _); [done|]. destruct (_ >=? 3); [|done].
    destruct H2 as (? & ? & _ & ? & ?). done. }
  set (m3 := tcp_shift_bbr_check_startup_full_bw m2 s) in *. clearbody m3.
  destruct H3 as (Hb & Hmo & Hfu & Hh & Hex). unfold tcp_shift_bbr_update_min_rtt. cbn zeta.
  destruct (_ || _) in |- *; [cbn; rewrite Hh; done|].
  destruct (_ || _) in |- *; destruct (_ || _) eqn:E in |- *; cbn; try done;
    cbn in E; rewrite Hh in *; (split_and!; try done);
    destruct (bm_has_min_rtt m); done.
Qed.

Lemma bbr_model_on_ack_ok m s now rc m' :
  bbr_model_ok m -> bm_last_update_ns m <= now -> in_u64 now -> rate_sample_wf s ->
  tcp_shift_bbr_model_on_ack m s now = (rc, m') ->
  rc = 0 /\ bbr_model_ok m' /\ bm_mode m' = bm_mode m /\ bm_last_update_ns m' = now.
Proof.
  intros (Hr & Hf & Hb & He & Hmo) Hle Hn (Hd & Hrt & _) E.
  assert (rc = 0) as ->.
  { revert E. unfold tcp_shift_bbr_model_on_ack.
    rewrite (proj2 (Z.ltb_ge _ _) Hle), andb_false_r. congruence. }
  destruct (bbr_on_ack_frame m s now 0 m' ltac:(by split) Hd He E) as ([Hf' Hb'] & Em & Hfu & Hh & He').
  destruct (bbr_model_on_ack_rtt m s now m' Hr Hle Hn Hrt E) as (Hr' & Hu & _).
  split; [done|]. split; [|done]. split_and!; try done; try lia. rewrite Em.
  destruct (bm_mode m); naive_solver.
Qed.

(** ** The mode machine *)

Definition probe_ok (st : tcp_shift_bbr_probe_state) (last : Z) : Prop :=
  0 <= pb_probe_rtt_prior_cwnd_bytes st /\
  (pb_cycle_started st = true -> pb_cycle_start_ns st <= last).

(** The mode steps change the mode and stamps, never the estimates. *)
Definition same_estimates (m m' : tcp_shift_bbr_model) : Prop :=
  bm_max_bw_bytes_per_sec m' = bm_max_bw_bytes_per_sec m /\
  bm_last_update_ns m' = bm_last_update_ns m.

Lemma check_drain_ok m s rc m' :
  bbr_model_ok m -> tcp_shift_bbr_model_check_drain m s = (rc, m') ->
  rc = 0 /\ bbr_model_ok m' /\ same_estimates m m'.
Proof.
  intros Hm. unfold tcp_shift_bbr_model_check_drain. cbn zeta.
  set (m1 := if _ && _ then _ else m).
  assert (H1 : bbr_model_ok m1 /\ same_estimates m m1).
  { unfold m1. destruct (bool_decide _ && _) eqn:E; [|done].
    apply andb_true_iff in E as [_ Ef]. destruct Hm as (? & ? & ? & ? & _). done. }
  clearbody m1. destruct H1 as [H1 Hs].
  destruct (_ || _) eqn:E; [by intros [= <- <-]|].
  destruct (_ =? 0) in |- *; [by intros [= <- <-]|].
  destruct (_ <=? _) in |- *; intros [= <- <-]; [|done].
  split; [done|]. split; [|done]. destruct H1 as (? & ? & ? & ? & Hmo).
  repeat (apply orb_false_iff in E as [E ?]). apply bool_decide_eq_false in E.
  rewrite negb_false_iff in *. split_and!; try done; cbn; try lia.
  destruct (decide (bm_mode m1 = TCP_SHIFT_BBR_MODE_DRAIN)) as [Ed|]; [|by destruct E].
  by rewrite Ed in Hmo.
Qed.

Lemma probe_rtt_enter_ok m st cur m' st' :
  bbr_model_ok m -> probe_ok st (bm_last_update_ns m) -> 0 <= cur ->
  probe_rtt_enter m st cur = (m', st') ->
  bbr_model_ok m' /\ probe_ok st' (bm_last_update_ns m) /\ same_estimates m m'.
Proof.
  intros Hm [Hp Hc] Hcur. unfold probe_rtt_enter. cbn zeta.
  destruct (bool_decide _ && _) eqn:E; intros [= <- <-]; [|done].
  apply andb_true_iff in E as [_ Ee]. destruct Hm as (? & ? & ? & He & _).
  split; [|split; [|done]].
  - split_and!; try done; cbn; try lia. auto.
  - split; [|done]. case_match; cbn; lia.
Qed.

Lemma probe_rtt_dwell_ok m st t s now rc m' st' :
  bbr_model_ok m -> probe_ok st (bm_last_update_ns m) ->
  bm_mode m = TCP_SHIFT_BBR_MODE_PROBE_RTT -> bm_last_update_ns m = now -> 0 <= now ->
  probe_rtt_dwell m st t s now = (rc, m', st') ->
  (rc = 0 \/ rc = 1) /\ bbr_model_ok m' /\ probe_ok st' (bm_last_update_ns m) /\
  same_estimates m m'.
Proof.
  intros Hm [Hp Hc] Hmo Hu Hn. unfold probe_rtt_dwell. cbn zeta.
  destruct (_ =? 0).
  { destruct (_ <=? _); intros [= <- <- <-]; (split; [by left|]); done. }
  set (st1 := if bm_round_start m then _ else st).
  assert (Hst1 : probe_ok st1 (bm_last_update_ns m)) by (unfold st1; by case_match).
  clearbody st1. destruct (_ || _); [intros [= <- <- <-]; (split; [by left|]); done|].
  destruct Hm as (Hr & Hf & Hb & He & Hmode). rewrite Hmo in Hmode.
  assert (Hr' : rtt_filter_ok (m <| bm_min_rtt_stamp_ns := now |> <| bm_min_rtt_expired := false |>)).
  { destruct Hr as [Hh Hr]. split; [done|]. intros Hx. specialize (Hr Hx). cbn in *. lia. }
  destruct Hst1 as [Hp1 _].
  destruct (bm_full_bw_reached _) eqn:Ef; intros [= <- <- <-]; (split; [by right|]).
  - split; [|split; [|done]]; [|split; [exact Hp1|intros _; cbn; lia]].
    split_and!; try done; cbn in *; lia.
  - split; [|split; [|done]]; [|split; [exact Hp1|done]]. split_and!; try done; cbn in *; lia.
Qed.

Lemma probe_rtt_update_ok m st t s cur now rc m' st' :
  bbr_model_ok m -> probe_ok st (bm_last_update_ns m) -> transport_usable t ->
  1 <= cur <= tp_cwnd_limit_bytes t -> bm_last_update_ns m = now -> 0 <= now ->
  tcp_shift_bbr_probe_rtt_update m st t s cur now = (rc, m', st') ->
  (rc = 0 \/ rc = 1) /\ bbr_model_ok m' /\ probe_ok st' (bm_last_update_ns m) /\
  same_estimates m m'.
Proof.
  intros Hm Hp Ht Hc Hu Hn. unfold tcp_shift_bbr_probe_rtt_update. cbn zeta.
  destruct Ht as [(? & ? & ? & ?) ?]. destruct (_ || _) eqn:E; [lia|].
  destruct (probe_rtt_enter m st cur) as [m1 st1] eqn:E1.
  destruct (probe_rtt_enter_ok m st cur m1 st1 Hm Hp ltac:(lia) E1) as (Hm1 & Hp1 & [Hs1 Hs2]).
  destruct (bool_decide _) eqn:Eb; [intros [= <- <- <-]; (split; [by left|]); done|].
  intros Ed. apply bool_decide_eq_false in Eb.
  destruct (probe_rtt_dwell_ok m1 st1 t s now rc m' st') as (? & ? & ? & [? ?]); try done; try lia.
  - by rewrite Hs2.
  - destruct (decide (bm_mode m1 = TCP_SHIFT_BBR_MODE_PROBE_RTT)); [done|by destruct Eb].
  - rewrite Hs2 in *. split_and!; try done. unfold same_estimates. split; congruence.
Qed.

Lemma probe_bw_update_ok m st s lost now rc st' :
  probe_ok st now -> tcp_shift_bbr_probe_bw_update m st s lost now = (rc, st') ->
  rc = 0 /\ probe_ok st' now.
Proof.
  intros [Hp Hc]. unfold tcp_shift_bbr_probe_bw_update. cbn zeta.
  destruct (bool_decide _); [by intros [= <- <-]|].
  destruct (now =? 0); [by intros [= <- <-]|].
  destruct (pb_cycle_started st) eqn:Es; cbn [negb];
    [|intros [= <- <-]; split; [done|]; split; [exact Hp|]; intros _; cbn; lia].
  specialize (Hc eq_refl). rewrite (proj2 (Z.ltb_ge _ _)) by lia.
  destruct (_ || _); [by intros [= <- <-]|]. destruct (_ =? 0); [by intros [= <- <-]|].
  destruct (probe_bw_advance _ _ _ _ _ _); intros [= <- <-]; (split; [done|]); split; try done.
Qed.

(** ** The controller's invariant, for a connection with a fixed segment
    size and window limit *)

Section Controller.
Context (mss limit : Z).
Hypothesis Hmss : 1 <= mss <= limit.
Hypothesis Hlimit : limit <= UINT32_MAX.

Definition path (t : tcp_shift_cc_transport) : Prop :=
  transport_wf t /\ tp_mss_bytes t = mss /\ tp_cwnd_limit_bytes t = limit.

Lemma path_usable t : path t -> transport_usable t.
Proof. intros (Ht & Em & El). split; [done|]. lia. Qed.

Record ctl_inv (s : tcp_shift_bbr_controller_state) : Prop := {
  ci_initialized : ct_initialized s = true;
  ci_model : bbr_model_ok (ct_model s);
  ci_probe : probe_ok (ct_probe s) (bm_last_update_ns (ct_model s));
  ci_cwnd : mss <= ct_cwnd_bytes s <= limit;
  ci_initial : 1 <= ct_initial_cwnd_bytes s <= limit;
  ci_pacing : 1 <= ct_pacing_rate_bytes_per_sec s <= UINT64_MAX;
  ci_prior : rc_in_recovery (ct_recovery s) = true -> 1 <= rc_prior_cwnd_bytes (ct_recovery s)
}.

Lemma initial_pacing_positive cwnd srtt :
  1 <= cwnd <= UINT32_MAX -> in_u64 srtt ->
  1 <= tcp_shift_bbr_initial_pacing_rate_bytes_per_sec cwnd srtt <= UINT64_MAX.
Proof.
  intros Hc Hs. unfold tcp_shift_bbr_initial_pacing_rate_bytes_per_sec. cbn zeta.
  destruct (cwnd =? 0) eqn:E; [lia|]. rewrite u64_small by lia.
  set (rtt := if negb _ then _ else _).
  assert (1 <= rtt) by (unfold rtt; destruct (srtt =? 0) eqn:E1; cbn; lia). clearbody rtt.
  set (base := if _ =? 0 then _ else _).
  assert (1 <= base <= UINT64_MAX).
  { assert (0 <= cwnd * 1000000000 / rtt <= cwnd * 1000000000)
      by (split; [apply Z.div_pos; lia|apply Z.div_le_upper_bound; nia]).
    unfold base. case_match; lia. }
  clearbody base. rewrite bbr_startup_pacing_spec by lia.
  assert (1 <= base * 73161 / 25600); [|lia]. apply Z.div_le_lower_bound; lia.
Qed.

Lemma valid_transport_path t : path t -> tcp_shift_bbr_controller_valid_transport t = true.
Proof.
  intros (_ & Em & El). unfold tcp_shift_bbr_controller_valid_transport.
  rewrite Em, El, andb_true_iff, negb_true_iff, Z.eqb_neq. lia.
Qed.

Lemma controller_init_inv s t i seed p s' p' :
  path t -> init_wf i -> mss <= ini_initial_cwnd_bytes i ->
  tcp_shift_bbr_controller_init s t i seed p = (0, s', p') -> ctl_inv s'.
Proof.
  intros Ht Hi Hini. unfold tcp_shift_bbr_controller_init. cbn zeta.
  pose proof Ht as (_ & Em & El). destruct (_ || _) eqn:E; [done|].
  destruct (_ =? 0) in |- *; [done|]. intros [= <- <-]. destruct Hi as (? & ? & ?).
  rewrite El in E. rewrite !orb_false_iff in E. split; cbn; try done; try lia.
  - split_and!; try done; cbn; try lia. repeat (apply Forall_cons; split; [lia|]). constructor.
  - pose proof (initial_pacing_positive (ini_initial_cwnd_bytes i) 0). lia.
Qed.

(** ** An ACK *)

Lemma first_rtt_inv s a b s' :
  ctl_inv s -> in_u64 (ack_smoothed_rtt_ns a) -> ctl_first_rtt s a = (b, s') ->
  b = false /\ ctl_inv s' /\ ct_model s' = ct_model s.
Proof.
  intros [] Ha. unfold ctl_first_rtt. destruct (_ && _); [|by intros [= <- <-]].
  pose proof (initial_pacing_positive (ct_cwnd_bytes s) (ack_smoothed_rtt_ns a) ltac:(lia) Ha).
  cbn zeta. rewrite (proj2 (Z.eqb_neq _ _)) by lia. intros [= <- <-]. done.
Qed.

Lemma conservation_range inflight acked :
  in_u32 inflight -> in_u32 acked ->
  mss <= recovery_conservation_cwnd inflight acked mss limit <= limit /\
  recovery_conservation_cwnd inflight acked mss limit = Z.max mss (Z.min limit (inflight + acked)).
Proof.
  intros. unfold recovery_conservation_cwnd, tcp_shift_bbr_recovery_sat_add_limit. cbn zeta.
  destruct (inflight >=? limit) eqn:E; cbn [orb]; [case_match; lia|].
  rewrite (u32_small (limit - inflight)) by lia.
  destruct (acked >? limit - inflight) eqn:E1; [|rewrite u32_small by lia]; case_match; lia.
Qed.

(** In recovery the conservation window is [inflight + acked] and never
    shrinks the window; after the first round the window is left alone. *)
Lemma recovery_on_ack_spec r cur inflight acked rs rc r' w owns :
  rc_in_recovery r = true -> mss <= cur <= limit -> in_u32 inflight -> in_u32 acked ->
  tcp_shift_bbr_recovery_on_ack r cur inflight acked 0 mss limit rs 0 false
    = (rc, r', w, owns) ->
  rc = 0 /\ owns = rc_packet_conservation r && negb rs /\ cur <= w <= limit /\
  w = (if owns then Z.max cur (Z.min limit (inflight + acked)) else cur) /\
  rc_in_recovery r' = true /\ rc_prior_cwnd_bytes r' = rc_prior_cwnd_bytes r.
Proof.
  intros Hr Hc Hi Ha. unfold tcp_shift_bbr_recovery_on_ack, tcp_shift_bbr_recovery_valid_window.
  rewrite Hr. cbn [negb orb]. destruct (negb _) eqn:E; [lia|]. cbn zeta.
  destruct (conservation_range inflight acked Hi Ha) as [_ ->].
  assert (Hf : tcp_shift_bbr_recovery_floor_sub cur 0 mss = cur).
  { unfold tcp_shift_bbr_recovery_floor_sub. rewrite Z.sub_0_r, u32_small by lia.
    case_match; lia. }
  rewrite Hf. destruct rs, (rc_packet_conservation r) eqn:Ep; cbn; rewrite ?Ep;
    intros [= <- <- <- <-]; cbn; rewrite ?Hr; split_and!; try done; try lia; cases; lia.
Qed.

Lemma recovery_ack_inv s t a rc s' cur w owns :
  ctl_inv s -> path t -> in_u32 (ack_acked_bytes a) ->
  ctl_recovery_ack s t a = (rc, s', cur, w, owns) ->
  rc = 0 /\ ctl_inv s' /\ ct_model s' = ct_model s /\ mss <= cur <= limit /\
  (owns = true -> mss <= w <= limit).
Proof.
  intros Hs (Ht & Em & El) Ha. pose proof Ht as (_ & Hin & _). pose proof Hs as [].
  unfold ctl_recovery_ack. rewrite Em, El.
  destruct (rc_in_recovery (ct_recovery s)) eqn:Er; [|by intros [= <- <- <- <- <-]].
  destruct (tcp_shift_bbr_recovery_on_ack _ _ _ _ _ _ _ _ _ _) as [[[rc0 r'] w0] o] eqn:E.
  destruct (recovery_on_ack_spec _ _ _ _ _ _ _ _ _ Er ci_cwnd0 Hin Ha E)
    as (-> & Ho & Hw & _ & Hr' & Hp). intros [= <- <- <- <- <-].
  split_and!; try done; try lia. split; try done. cbn. rewrite Hp. auto.
Qed.

Lemma restore_cwnd_range st cur :
  0 <= pb_probe_rtt_prior_cwnd_bytes st -> mss <= cur <= limit ->
  mss <= tcp_shift_bbr_probe_rtt_restore_cwnd_bytes st cur limit <= limit.
Proof.
  intros. unfold tcp_shift_bbr_probe_rtt_restore_cwnd_bytes. cbn zeta. cases; lia.
Qed.

Lemma modes_inv s t a cur lost rc s' cur' :
  ctl_inv s -> path t -> mss <= cur <= limit ->
  bm_last_update_ns (ct_model s) = ack_ack_time_ns a -> 0 <= ack_ack_time_ns a ->
  ctl_modes s t a cur lost = (rc, s', cur') ->
  rc = 0 /\ ctl_inv s' /\ same_estimates (ct_model s) (ct_model s') /\ mss <= cur' <= limit.
Proof.
  intros Hs Ht Hc Hu Hn. pose proof (path_usable t Ht) as Hus. pose proof Ht as (_ & Em & El).
  pose proof Hs as []. unfold ctl_modes.
  destruct (tcp_shift_bbr_model_check_drain _ _) as [r1 m1] eqn:E1.
  destruct (check_drain_ok _ _ _ _ ci_model0 E1) as (-> & Hm1 & [Hb1 Hl1]). cbn [Z.ltb].
  change (ct_model (s <| ct_model := m1 |>)) with m1.
  change (ct_probe (s <| ct_model := m1 |>)) with (ct_probe s).
  change (0 ?= 0) with Eq. cbn iota. cbn zeta.
  destruct (tcp_shift_bbr_probe_rtt_update _ _ _ _ _ _) as [[r2 m2] st2] eqn:E2.
  destruct (probe_rtt_update_ok m1 (ct_probe s) t (ack_rate a) cur (ack_ack_time_ns a) r2 m2 st2)
    as (Hr2 & Hm2 & Hp2 & [Hb2 Hl2]); try done; try lia; [by rewrite Hl1|].
  set (s2 := _ <| ct_model := m2 |> <| ct_probe := st2 |>).
  assert (Hs2 : ctl_inv s2).
  { split; try done. cbn. rewrite Hl2. done. }
  assert (Hsame : same_estimates (ct_model s) (ct_model s2)) by (split; cbn; congruence).
  set (cw := if r2 >? 0 then _ else cur).
  assert (Hcw : mss <= cw <= limit).
  { unfold cw. case_match; [|done]. rewrite El. apply restore_cwnd_range; [|done]. apply Hp2. }
  clearbody cw. assert (Hlast : bm_last_update_ns (ct_model s2) = ack_ack_time_ns a)
    by (destruct Hsame; congruence).
  clearbody s2. rewrite (proj2 (Z.ltb_ge r2 0)) by lia.
  rewrite (proj2 (Z.eqb_neq cw 0)), andb_false_r by lia.
  destruct (bool_decide _); [|by intros [= <- <- <-]].
  destruct (tcp_shift_bbr_probe_bw_update _ _ _ _ _) as [r3 st3] eqn:E3.
  pose proof Hs2 as []. rewrite Hlast in ci_probe1.
  destruct (probe_bw_update_ok _ _ _ _ _ _ _ ci_probe1 E3) as [-> Hst3].
  intros [= <- <- <-]. split_and!; try done; try lia. split; try done. cbn. by rewrite Hlast.
Qed.

Lemma mode_policy_result s t a cur p :
  ctl_inv s -> path t -> mss <= cur <= limit -> in_u32 (ack_acked_bytes a) ->
  mode_policy_ok t (3 <= bm_max_bw_bytes_per_sec (ct_model s)) (ctl_mode_policy s t a cur p).
Proof.
  intros Hs Ht Hc Ha. pose proof (path_usable t Ht) as Hus. destruct Ht as (_ & Em & El).
  destruct Hs as []. destruct ci_model0 as ([Hh Hr] & _ & Hb & _ & Hmo).
  assert (Hk : in_u64 (bbr_known_min_rtt (ct_model s))).
  { unfold bbr_known_min_rtt. destruct (bm_has_min_rtt (ct_model s)) eqn:E; [|lia].
    specialize (Hr eq_refl). lia. }
  unfold ctl_mode_policy. destruct (bm_mode (ct_model s)) eqn:Emo.
  - assert (mode_policy_ok t True (tcp_shift_bbr_startup_policy (ct_model s) t a
      (ct_initial_cwnd_bytes s) cur (ct_pacing_rate_bytes_per_sec s) p)) as [H1 H2].
    { apply bbr_startup_policy_ok; try done; rewrite ?El; lia. }
    split; [exact H1|]. intros _. by apply H2.
  - apply bbr_drain_policy_ok; try done; rewrite ?El; lia.
  - destruct Hmo as [Hf Hh']. specialize (Hr Hh').
    apply bbr_probe_bw_policy_ok; try done; rewrite ?El; lia.
  - by apply bbr_probe_rtt_policy_ok.
Qed.

Lemma commit_inv s t a cur w owns p rc s' p' :
  ctl_inv s -> path t -> mss <= cur <= limit -> in_u32 (ack_acked_bytes a) ->
  (owns = true -> mss <= w <= limit) ->
  ctl_commit s t a cur w owns p = (rc, s', p') ->
  ctl_inv s' /\ ct_model s' = ct_model s /\
  (rc = 0 -> mss <= pol_cwnd_bytes p' <= limit /\
             1 <= pol_pacing_rate_bytes_per_sec p' <= UINT64_MAX /\
             ct_cwnd_bytes s' = pol_cwnd_bytes p') /\
  (3 <= bm_max_bw_bytes_per_sec (ct_model s) -> rc = 0).
Proof.
  intros Hs Ht Hc Ha Hw. pose proof (mode_policy_result s t a cur p Hs Ht Hc Ha) as [Hp Hlive].
  pose proof (bbr_floor_range t (path_usable t Ht)) as Hfl. destruct Ht as (_ & Em & El).
  rewrite Em, El in *. unfold ctl_commit.
  destruct (ctl_mode_policy s t a cur p) as [r q]. cbn [fst snd] in Hp, Hlive. rewrite El.
  destruct (_ || _) eqn:E.
  { intros [= <- <- <-]. do 2 (split; [done|]). split; [lia|]. intros Hbw. destruct (Hlive Hbw).
    destruct (Hp ltac:(lia)). lia. }
  intros [= <- <- <-]. destruct (Hp ltac:(lia)) as [Hq Hr].
  set (q' := if owns then _ else q).
  assert (Hq' : mss <= pol_cwnd_bytes q' <= limit /\
    pol_pacing_rate_bytes_per_sec q' = pol_pacing_rate_bytes_per_sec q).
  { unfold q'. destruct owns; cbn; [split; [by apply Hw|done]|lia]. }
  clearbody q'. destruct Hq' as [Hq' Eq']. destruct Hs as [].
  split; [split; cbn; try done; lia|]. split; [done|]. split; [|done].
  intros _. cbn. lia.
Qed.

(** An ACK keeps the invariant whatever its code, and succeeds as soon as the
    bandwidth estimate it leaves is at least 3 bytes per second. *)
Lemma controller_on_ack_inv s t a p rc s' p' :
  ctl_inv s -> path t -> ack_wf a -> ack_acked_bytes a <> 0 -> 0 < ack_ack_time_ns a ->
  bm_last_update_ns (ct_model s) <= ack_ack_time_ns a ->
  tcp_shift_bbr_controller_on_ack s t a p = (rc, s', p') ->
  ctl_inv s' /\ bm_last_update_ns (ct_model s') = ack_ack_time_ns a /\
  (rc = 0 -> mss <= pol_cwnd_bytes p' <= limit /\
             1 <= pol_pacing_rate_bytes_per_sec p' <= UINT64_MAX /\
             ct_cwnd_bytes s' = pol_cwnd_bytes p') /\
  (3 <= bm_max_bw_bytes_per_sec (ct_model s') -> rc = 0).
Proof.
  intros Hs Ht (Ha1 & Ha2 & Ha3 & Har) Hnz Htm Hmono. pose proof Hs as [].
  unfold tcp_shift_bbr_controller_on_ack. rewrite valid_transport_path, ci_initialized0 by done.
  pose proof Ht as (_ & Em & El). rewrite El. destruct (_ || _) eqn:E; [lia|].
  destruct (ctl_first_rtt s a) as [b s1] eqn:E1.
  destruct (first_rtt_inv s a b s1 Hs Ha3 E1) as (-> & Hs1 & Em1). pose proof Hs1 as [].
  destruct (tcp_shift_bbr_model_on_ack _ _ _) as [r2 m2] eqn:E2.
  destruct (bbr_model_on_ack_ok _ _ _ _ _ ci_model1 ltac:(by rewrite Em1) Ha2 Har E2)
    as (-> & Hm2 & _ & Hl2). change (0 <? 0) with false. cbn iota zeta.
  set (s3 := if _ >? _ then _ else s1 <| ct_model := m2 |>).
  assert (Hs3 : ctl_inv s3 /\ ct_model s3 = m2).
  { assert (ctl_inv (s1 <| ct_model := m2 |>)).
    { split; try done. destruct ci_probe1 as [? Hcs]. split; [done|]. cbn. intros Hst.
      specialize (Hcs Hst). rewrite Em1 in Hcs. lia. }
    unfold s3. case_match; [|done]. split; [|done]. by destruct H. }
  clearbody s3. destruct Hs3 as [Hs3 Em3].
  destruct (ctl_recovery_ack s3 t a) as [[[[r4 s4] cur4] w4] o4] eqn:E4.
  destruct (recovery_ack_inv s3 t a r4 s4 cur4 w4 o4 Hs3 Ht Ha1 E4)
    as (-> & Hs4 & Em4 & Hc4 & Hw4). change (0 <? 0) with false. cbn iota.
  destruct (ctl_modes s4 t a cur4 _) as [[r5 s5] cur5] eqn:E5.
  destruct (modes_inv s4 t a cur4 _ r5 s5 cur5 Hs4 Ht Hc4 ltac:(congruence) ltac:(lia) E5)
    as (-> & Hs5 & [Hb5 Hl5] & Hc5). change (0 <? 0) with false. cbn iota.
  intros E6. destruct (commit_inv s5 t a cur5 w4 o4 p rc s' p' Hs5 Ht Hc5 Ha1 Hw4 E6)
    as (Hs6 & Em6 & Hok & Hlive).
  split_and!; try done; [congruence|]. rewrite Em6. exact Hlive.
Qed.

(** ** The other operations *)

Lemma publish_ok s t p :
  ctl_inv s -> path t -> p = tcp_shift_bbr_controller_publish s t ->
  mss <= pol_cwnd_bytes p <= limit /\ 1 <= pol_pacing_rate_bytes_per_sec p <= UINT64_MAX.
Proof. intros [] Ht ->. cbn. done. Qed.

Lemma note_loss_inv s n rc s' :
  ctl_inv s -> tcp_shift_bbr_controller_note_loss s n = (rc, s') ->
  ctl_inv s' /\ ct_model s' = ct_model s /\ ct_recovery s' = ct_recovery s.
Proof.
  intros Hs. unfold tcp_shift_bbr_controller_note_loss.
  destruct (_ || _); [by intros [= <- <-]|]. destruct (_ >? _); intros [= <- <-]; by destruct Hs.
Qed.

Lemma model_round_inv s m' :
  ctl_inv s -> bbr_model_ok m' -> bm_last_update_ns m' = bm_last_update_ns (ct_model s) ->
  ctl_inv (s <| ct_model := m' |>).
Proof. intros [] Hm El. split; try done. cbn. by rewrite El. Qed.

Lemma recovery_enter_inv s t acked lost p rc s' p' :
  ctl_inv s -> path t -> in_u32 acked ->
  tcp_shift_bbr_controller_recovery_enter s t acked lost p = (rc, s', p') -> ctl_inv s'.
Proof.
  intros Hs (Ht & Em & El) Ha. pose proof Ht as (_ & Hin & _).
  unfold tcp_shift_bbr_controller_recovery_enter. destruct (_ || _); [by intros [= <- <- <-]|].
  cbn zeta. set (s1 := s <| ct_model := _ |> <| ct_pending_probe_loss_bytes := _ |>).
  assert (Hs1 : ctl_inv s1) by (by destruct Hs). clearbody s1. clear Hs s.
  unfold tcp_shift_bbr_recovery_enter. rewrite Em, El.
  destruct (conservation_range (tp_inflight_bytes t) acked Hin Ha) as [Hc _].
  destruct (_ || _); intros [= <- <- <-]; destruct Hs1; split; try done.
  cbn. lia.
Qed.

Lemma recovery_note_loss_inv s t lost p rc s' p' :
  ctl_inv s -> path t -> in_u32 lost ->
  tcp_shift_bbr_controller_recovery_note_loss s t lost p = (rc, s', p') -> ctl_inv s'.
Proof.
  intros Hs (Ht & Em & El) Hl. unfold tcp_shift_bbr_controller_recovery_note_loss.
  destruct (_ || _); [by intros [= <- <- <-]|].
  destruct (tcp_shift_bbr_controller_note_loss s lost) as [r1 s1] eqn:E1.
  destruct (note_loss_inv s lost r1 s1 Hs E1) as (Hs1 & _).
  destruct (negb _); [by intros [= <- <- <-]|]. cbn zeta. intros [= <- <- <-].
  destruct Hs1. split; try done. cbn. rewrite Em.
  destruct (lost >=? ct_cwnd_bytes s1) eqn:E; cbn [orb]; [lia|].
  rewrite u32_small by lia. case_match; lia.
Qed.

Lemma recovery_exit_inv s t p rc s' p' :
  ctl_inv s -> path t ->
  tcp_shift_bbr_controller_recovery_exit s t p = (rc, s', p') -> ctl_inv s'.
Proof.
  intros Hs (Ht & Em & El). unfold tcp_shift_bbr_controller_recovery_exit.
  destruct (ctl_rejects s t); [by intros [= <- <- <-]|].
  unfold tcp_shift_bbr_recovery_exit. rewrite El. cbn zeta.
  destruct (_ || _) eqn:E; intros [= <- <- <-]; destruct Hs; split; try done. cbn. cases; lia.
Qed.

Lemma timeout_inv s t o p rc s' p' :
  ctl_inv s -> path t -> in_u32 (to_post_loss_inflight_bytes o) ->
  tcp_shift_bbr_controller_on_timeout s t o p = (rc, s', p') -> ctl_inv s'.
Proof.
  intros Hs (Ht & Em & El) Ho. unfold tcp_shift_bbr_controller_on_timeout.
  destruct (ctl_rejects s t); [by intros [= <- <- <-]|]. cbn zeta. intros [= <- <- <-].
  destruct Hs. split; try done. cbn. rewrite Em, El.
  unfold tcp_shift_bbr_controller_add_limit.
  destruct (_ >=? limit) eqn:E; cbn [orb]; [case_match; lia|].
  rewrite (u32_small (limit - _)) by lia.
  destruct (mss >? _) eqn:E1; [|rewrite u32_small by lia]; case_match; lia.
Qed.

(** ** Reachable controllers *)

Inductive bbr_step (s : tcp_shift_bbr_controller_state)
    : tcp_shift_bbr_controller_state -> Prop :=
  | bbr_step_ack t a p rc s' p' :
      path t -> ack_wf a -> bm_last_update_ns (ct_model s) <= ack_ack_time_ns a ->
      tcp_shift_bbr_controller_on_ack s t a p = (rc, s', p') -> bbr_step s s'
  | bbr_step_note_loss n rc s' :
      tcp_shift_bbr_controller_note_loss s n = (rc, s') -> bbr_step s s'
  | bbr_step_enter t acked lost p rc s' p' :
      path t -> in_u32 acked ->
      tcp_shift_bbr_controller_recovery_enter s t acked lost p = (rc, s', p') -> bbr_step s s'
  | bbr_step_recovery_loss t lost p rc s' p' :
      path t -> in_u32 lost ->
      tcp_shift_bbr_controller_recovery_note_loss s t lost p = (rc, s', p') -> bbr_step s s'
  | bbr_step_exit t p rc s' p' :
      path t -> tcp_shift_bbr_controller_recovery_exit s t p = (rc, s', p') -> bbr_step s s'
  | bbr_step_timeout t o p rc s' p' :
      path t -> in_u32 (to_post_loss_inflight_bytes o) ->
      tcp_shift_bbr_controller_on_timeout s t o p = (rc, s', p') -> bbr_step s s'.

(** Started with an initial window of at least one segment. *)
Definition bbr_initial (s : tcp_shift_bbr_controller_state) : Prop :=
  exists s0 t i seed p p', path t /\ init_wf i /\ mss <= ini_initial_cwnd_bytes i /\
    tcp_shift_bbr_controller_init s0 t i seed p = (0, s, p').

Definition bbr_reachable (s : tcp_shift_bbr_controller_state) : Prop :=
  exists s0, bbr_initial s0 /\ rtc bbr_step s0 s.

Lemma bbr_step_inv s s' : ctl_inv s -> bbr_step s s' -> ctl_inv s'.
Proof.
  intros Hs [t a p rc s1 p1 Ht Ha Hm E|n rc s1 E|t acked lost p rc s1 p1 Ht Ha E
    |t lost p rc s1 p1 Ht Hl E|t p rc s1 p1 Ht E|t o p rc s1 p1 Ht Ho E].
  - destruct (decide (ack_acked_bytes a <> 0 /\ 0 < ack_ack_time_ns a)) as [[Hz Hp]|Hz].
    + by destruct (controller_on_ack_inv s t a p rc s1 p1 Hs Ht Ha Hz Hp Hm E).
    + revert E. unfold tcp_shift_bbr_controller_on_ack. destruct Ha as (? & ? & _).
      destruct (_ || _) eqn:E; [by intros [= <- <- <-]|lia].
  - by destruct (note_loss_inv s n rc s1 Hs E).
  - eauto using recovery_enter_inv.
  - eauto using recovery_note_loss_inv.
  - eauto using recovery_exit_inv.
  - eauto using timeout_inv.
Qed.

Lemma bbr_reachable_inv s : bbr_reachable s -> ctl_inv s.
Proof.
  intros (s0 & (sx & t & i & seed & p & p' & Ht & Hi & Hin & E) & Hr).
  pose proof (controller_init_inv sx t i seed p s0 p' Ht Hi Hin E) as H0. clear E.
  induction Hr; eauto using bbr_step_inv.
Qed.

(** C4. Progress and safety of the BBR controller. In every state reachable
    by ACKs, losses, recovery transitions and timeouts on a path with a fixed
    segment size, an ACK with new data and a monotonic time stamp is accepted
    as soon as the bandwidth estimate it leaves is at least 3 bytes per
    second, and whenever it is accepted the published window lies between one
    segment and the transport's limit and the pacing rate is nonzero. *)
Theorem bbr_ack_progress s t a p :
  bbr_reachable s -> path t -> ack_wf a -> ack_acked_bytes a <> 0 ->
  0 < ack_ack_time_ns a -> bm_last_update_ns (ct_model s) <= ack_ack_time_ns a ->
  let '(rc, s', p') := tcp_shift_bbr_controller_on_ack s t a p in
  (3 <= bm_max_bw_bytes_per_sec (ct_model s') -> rc = 0) /\
  (rc = 0 -> mss <= pol_cwnd_bytes p' <= limit /\
             1 <= pol_pacing_rate_bytes_per_sec p' <= UINT64_MAX).
Proof.
  intros Hr Ht Ha Hz Hp Hm. pose proof (bbr_reachable_inv s Hr) as Hs.
  destruct (tcp_shift_bbr_controller_on_ack s t a p) as [[rc s'] p'] eqn:E.
  destruct (controller_on_ack_inv s t a p rc s' p' Hs Ht Ha Hz Hp Hm E) as (_ & _ & Hok & Hl).
  split; [exact Hl|]. intros H0. destruct (Hok H0) as (? & ? & _). done.
Qed.

(** ** Recovery restores the window *)

(** What may happen between recovery entry and exit, apart from a timeout. *)
Inductive bbr_recovery_step (s : tcp_shift_bbr_controller_state)
    : tcp_shift_bbr_controller_state -> Prop :=
  | bbr_recovery_ack t a p rc s' p' :
      path t -> ack_wf a -> bm_last_update_ns (ct_model s) <= ack_ack_time_ns a ->
      tcp_shift_bbr_controller_on_ack s t a p = (rc, s', p') -> bbr_recovery_step s s'
  | bbr_recovery_loss t lost p rc s' p' :
      path t -> in_u32 lost ->
      tcp_shift_bbr_controller_recovery_note_loss s t lost p = (rc, s', p') ->
      bbr_recovery_step s s'.

Lemma modes_recovery s t a cur lost rc s' cur' :
  ctl_modes s t a cur lost = (rc, s', cur') -> ct_recovery s' = ct_recovery s.
Proof.
  unfold ctl_modes. destruct (tcp_shift_bbr_model_check_drain _ _). cbn zeta.
  destruct (z <? 0); [by intros [= <- <- <-]|].
  destruct (tcp_shift_bbr_probe_rtt_update _ _ _ _ _ _) as [[r m] st].
  destruct (r <? 0); [by intros [= <- <- <-]|].
  destruct (_ && _); [by intros [= <- <- <-]|].
  destruct (bool_decide _); [|by intros [= <- <- <-]].
  destruct (tcp_shift_bbr_probe_bw_update _ _ _ _ _) as [r2 st2].
  destruct (r2 <? 0); by intros [= <- <- <-].
Qed.

Definition recovering_from (w : Z) (s : tcp_shift_bbr_controller_state) : Prop :=
  rc_in_recovery (ct_recovery s) = true /\ rc_prior_cwnd_bytes (ct_recovery s) = w.

Lemma on_ack_recovering w s t a p rc s' p' :
  recovering_from w s ->
  tcp_shift_bbr_controller_on_ack s t a p = (rc, s', p') -> recovering_from w s'.
Proof.
  intros Hw. unfold tcp_shift_bbr_controller_on_ack.
  destruct (_ || _); [by intros [= <- <- <-]|].
  destruct (ctl_first_rtt s a) as [b s1] eqn:E1.
  assert (Hs1 : recovering_from w s1).
  { revert E1. unfold ctl_first_rtt. cbn zeta. repeat case_match; by intros [= <- <-]. }
  destruct b; [by intros [= <- <- <-]|].
  destruct (tcp_shift_bbr_model_on_ack _ _ _) as [r2 m2]. cbn zeta.
  destruct (r2 <? 0); [by intros [= <- <- <-]|].
  set (s3 := if _ >? _ then _ else s1 <| ct_model := m2 |>).
  assert (Hs3 : recovering_from w s3) by (unfold s3; by case_match). clearbody s3.
  destruct (ctl_recovery_ack s3 t a) as [[[[r4 s4] cur4] w4] o4] eqn:E4.
  assert (Hs4 : recovering_from w s4).
  { revert E4. unfold ctl_recovery_ack, tcp_shift_bbr_recovery_on_ack.
    destruct Hs3 as [Hin3 Hw3]. rewrite Hin3.
    cbn [negb orb]. destruct (negb _); cbn zeta; [by intros [= <- <- <- <- <-]|].
    destruct (bm_round_start _); cbn; [by intros [= <- <- <- <- <-]|].
    destruct (rc_packet_conservation _); by intros [= <- <- <- <- <-]. }
  destruct (r4 <? 0); [by intros [= <- <- <-]|].
  destruct (ctl_modes s4 t a cur4 _) as [[r5 s5] cur5] eqn:E5.
  apply modes_recovery in E5.
  assert (Hs5 : recovering_from w s5) by (unfold recovering_from; by rewrite E5).
  destruct (r5 <? 0); [by intros [= <- <- <-]|]. unfold ctl_commit.
  destruct (ctl_mode_policy _ _ _ _ _) as [r6 q]. cbn zeta.
  destruct (_ || _); by intros [= <- <- <-].
Qed.

Lemma recovery_step_recovering w s s' :
  recovering_from w s -> bbr_recovery_step s s' -> recovering_from w s'.
Proof.
  intros Hw [t a p rc s1 p1 _ _ _ E|t lost p rc s1 p1 _ _ E]; [by eapply on_ack_recovering|].
  revert E. unfold tcp_shift_bbr_controller_recovery_note_loss.
  destruct (_ || _); [by intros [= <- <- <-]|]. unfold tcp_shift_bbr_controller_note_loss.
  destruct (_ || _); cbn; [by intros [= <- <- <-]|].
  destruct (_ >? _) in |- *; by intros [= <- <- <-].
Qed.

(** Recovery gives the window back. From any reachable controller,
    a successful recovery entry cuts the window to the data in flight
    plus the newly acknowledged data (at least one segment); after any ACKs
    and further losses, leaving recovery succeeds and publishes at least the
    window from before the entry, within the limit. *)
Theorem bbr_recovery_restores s t acked lost p s1 p1 s2 t2 p2 :
  bbr_reachable s -> path t -> path t2 -> in_u32 acked ->
  tcp_shift_bbr_controller_recovery_enter s t acked lost p = (0, s1, p1) ->
  rtc bbr_recovery_step s1 s2 ->
  pol_cwnd_bytes p1 = Z.max mss (Z.min limit (tp_inflight_bytes t + acked)) /\
  exists s3 p3, tcp_shift_bbr_controller_recovery_exit s2 t2 p2 = (0, s3, p3) /\
    pol_cwnd_bytes p3 = Z.max (ct_cwnd_bytes s2) (ct_cwnd_bytes s) /\
    ct_cwnd_bytes s <= pol_cwnd_bytes p3 <= limit /\
    rc_in_recovery (ct_recovery s3) = false.
Proof.
  intros Hr Ht Ht2 Ha E Hsteps. pose proof (bbr_reachable_inv s Hr) as Hs.
  pose proof (recovery_enter_inv s t acked lost p 0 s1 p1 Hs Ht Ha E) as Hs1.
  destruct Ht as (Htw & Em & El). pose proof Htw as (_ & Hin & _).
  assert (Henter : recovering_from (ct_cwnd_bytes s) s1 /\
    pol_cwnd_bytes p1 = Z.max mss (Z.min limit (tp_inflight_bytes t + acked))).
  { revert E. unfold tcp_shift_bbr_controller_recovery_enter.
    destruct (_ || _); [done|]. cbn. unfold tcp_shift_bbr_recovery_enter. rewrite Em, El.
    destruct (conservation_range (tp_inflight_bytes t) acked Hin Ha) as [_ Hc].
    destruct (_ || _); [done|]. cbn. intros [= <- <-]. by rewrite Hc. }
  destruct Henter as [Hw Hp1]. split; [done|]. clear E.
  assert (Hfin : ctl_inv s2 /\ recovering_from (ct_cwnd_bytes s) s2).
  { clear Hp1. induction Hsteps as [|x y z Hxy _ IH]; [done|]. apply IH.
    - destruct Hxy; eauto using bbr_step_inv, bbr_step_ack, bbr_step_recovery_loss.
    - by eapply recovery_step_recovering. }
  destruct Hfin as [[] [Hin2 Hpr]]. destruct Hs as [_ _ _ Hcw _ _ _].
  unfold tcp_shift_bbr_controller_recovery_exit, ctl_rejects.
  rewrite valid_transport_path, ci_initialized0 by done. destruct Ht2 as (_ & _ & El2).
  rewrite El2. destruct (_ || _) eqn:E0; [lia|]. unfold tcp_shift_bbr_recovery_exit.
  rewrite Hin2, Hpr. cbn [negb orb]. destruct (_ || _) eqn:E1 in |- *; [lia|]. cbn.
  eexists _, _. split; [reflexivity|]. cbn.
  assert (Z.max (ct_cwnd_bytes s2) (ct_cwnd_bytes s) <= limit) by lia.
  split; [cases; lia|]. split; [cases; lia|done].
Qed.

End Controller.

(** ** A sample connection *)

Definition bbr_sample_transport : tcp_shift_cc_transport :=
  mk_transport 1460 14600 65535 1048576.
Definition bbr_blank : tcp_shift_bbr_controller_state :=
  mk_ctl tcp_shift_bbr_model_init (tcp_shift_bbr_probe_state_init 0)
    tcp_shift_bbr_recovery_init 0 0 0 0 0 false false.
Definition bbr_sample : tcp_shift_bbr_controller_state := Eval vm_compute in
  (tcp_shift_bbr_controller_init bbr_blank bbr_sample_transport
     (mk_init 14600 1048576 2920) 5 (mk_policy 0 0 0)).1.2.
Definition bbr_sample_ack : tcp_shift_cc_ack :=
  mk_ack 1460 1000000000 40000000
    (mk_rate_sample 1250000 0 0 0 40000000 0 1460 1460 14600 9).

Lemma bbr_sample_path : path 1460 1048576 bbr_sample_transport.
Proof. repeat split; cbn; lia. Qed.

Lemma bbr_sample_reachable : bbr_reachable 1460 1048576 bbr_sample.
Proof.
  exists bbr_sample. split; [|apply rtc_refl].
  exists bbr_blank, bbr_sample_transport, (mk_init 14600 1048576 2920), 5, (mk_policy 0 0 0),
    (tcp_shift_bbr_controller_publish bbr_sample bbr_sample_transport).
  split; [exact bbr_sample_path|]. split; [repeat split; cbn; lia|]. split; [cbn; lia|].
  vm_compute. reflexivity.
Qed.

Lemma bbr_ack_progress_witness :
  let '(rc, s', p') := tcp_shift_bbr_controller_on_ack bbr_sample bbr_sample_transport
                         bbr_sample_ack (mk_policy 0 0 0) in
  rc = 0 /\ 1460 <= pol_cwnd_bytes p' <= 1048576.
Proof.
  pose proof (bbr_ack_progress 1460 1048576 ltac:(lia) ltac:(lia) bbr_sample
    bbr_sample_transport bbr_sample_ack (mk_policy 0 0 0) bbr_sample_reachable bbr_sample_path
    ltac:(repeat split; cbn; lia) ltac:(cbn; lia) ltac:(cbn; lia) ltac:(cbn; lia)) as H.
  assert (H3 : 3 <= bm_max_bw_bytes_per_sec (ct_model (tcp_shift_bbr_controller_on_ack
    bbr_sample bbr_sample_transport bbr_sample_ack (mk_policy 0 0 0)).1.2))
    by (vm_compute; discriminate).
  destruct (tcp_shift_bbr_controller_on_ack _ _ _ _) as [[rc s'] p'].
  destruct H as [H1 H2]. specialize (H1 H3). split; [exact H1|]. exact (proj1 (H2 H1)).
Defined.

Definition bbr_sample_recovering : tcp_shift_bbr_controller_state := Eval vm_compute in
  (tcp_shift_bbr_controller_recovery_enter bbr_sample bbr_sample_transport 1460 1460
     (mk_policy 0 0 0)).1.2.

Lemma bbr_recovery_restores_witness :
  exists s3 p3, tcp_shift_bbr_controller_recovery_exit bbr_sample_recovering
      bbr_sample_transport (mk_policy 0 0 0) = (0, s3, p3) /\
    14600 <= pol_cwnd_bytes p3 <= 1048576.
Proof.
  destruct (bbr_recovery_restores 1460 1048576 ltac:(lia) ltac:(lia) bbr_sample
    bbr_sample_transport 1460 1460 (mk_policy 0 0 0) bbr_sample_recovering
    (tcp_shift_bbr_controller_publish bbr_sample_recovering bbr_sample_transport)
    bbr_sample_recovering bbr_sample_transport (mk_policy 0 0 0))
    as (_ & s3 & p3 & H1 & _ & H2 & _).
  - exact bbr_sample_reachable.
  - exact bbr_sample_path.
  - exact bbr_sample_path.
  - lia.
  - vm_compute. reflexivity.
  - apply rtc_refl.
  - exists s3, p3. split; [exact H1|exact H2].
Defined.
