(* ===== verification/BbrModes.v ===== *)
(** * BBR's steady-state modes

    The eight-phase ProbeBW gain cycle and the dwell time of ProbeRTT. *)

From Stdlib Require Import ZArith Lia Bool List.
From stdpp Require Import base tactics numbers list.
From S2P Require Import Prelude CC BbrModel BbrProbe.
Local Open Scope Z_scope.

(** ** The ProbeBW cycle *)

Lemma reset_cycle_index st now :
  in_u8 (pb_cycle_seed st) ->
  let i := pb_cycle_index (tcp_shift_bbr_probe_bw_reset_cycle st now) in
  0 <= i < 8 /\ i <> 1.
Proof.
  intros Hs. cbn. pose proof (Z.mod_pos_bound (pb_cycle_seed st) 7 ltac:(lia)) as Hm.
  set (o := pb_cycle_seed st mod 7) in *. clearbody o.
  assert (o = 0 \/ o = 1 \/ o = 2 \/ o = 3 \/ o = 4 \/ o = 5 \/ o = 6) as Ho by lia.
  repeat destruct Ho as [->|Ho]; [..|subst o]; vm_compute; intuition discriminate.
Qed.

Lemma next_index i : 0 <= i < 8 -> u8 (Z.land (i +w32 1) (8 - 1)) = (i + 1) mod 8.
Proof.
  intros Hi. assert (i = 0 \/ i = 1 \/ i = 2 \/ i = 3 \/ i = 4 \/ i = 5 \/ i = 6 \/ i = 7)
    as Ho by lia. repeat destruct Ho as [->|Ho]; [..|subst i]; reflexivity.
Qed.

(** The condition under which a phase ends, by phase. *)
Definition phase_over (m : tcp_shift_bbr_model) (st : tcp_shift_bbr_probe_state)
    (inflight lost now : Z) : bool :=
  let full := bm_min_rtt_ns m <=? now - pb_cycle_start_ns st in
  let bdp := Z.min UINT64_MAX (cdiv (bm_max_bw_bytes_per_sec m * bm_min_rtt_ns m) 1000000000) in
  if pb_cycle_index st =? 0
  then full && (negb (lost =? 0) || (Z.min UINT64_MAX (cdiv (bdp * 320) 256) <=? inflight))
  else if pb_cycle_index st =? 1 then full || (inflight <=? bdp)
  else full.

(** The ProbeBW cycle. A cycle starts in the probe-up phase or in a cruise
    phase, never in the drain phase; an update leaves the phase or moves to
    the next one modulo eight and restamps it, exactly when the phase is over
    (up: one min-RTT elapsed, and a loss or 1.25 BDP in flight; down: one
    min-RTT elapsed or at most one BDP in flight; cruise: one min-RTT
    elapsed); and the eight pacing gains average to one. *)
Theorem bbr_probe_bw_cycle m st s lost now :
  bm_mode m = TCP_SHIFT_BBR_MODE_PROBE_BW -> bm_has_min_rtt m = true ->
  0 < bm_max_bw_bytes_per_sec m <= UINT64_MAX -> 0 < bm_min_rtt_ns m <= UINT64_MAX ->
  0 < now <= UINT64_MAX -> 0 <= pb_cycle_start_ns st <= now -> 0 <= pb_cycle_index st < 8 ->
  in_u8 (pb_cycle_seed st) ->
  let st' := (tcp_shift_bbr_probe_bw_update m st s lost now).2 in
  (tcp_shift_bbr_probe_bw_update m st s lost now).1 = 0 /\ 0 <= pb_cycle_index st' < 8 /\
  (if pb_cycle_started st
   then st' = if phase_over m st (rs_prior_inflight_bytes s) lost now
              then st <| pb_cycle_index := (pb_cycle_index st + 1) mod 8 |>
                      <| pb_cycle_start_ns := now |>
              else st
   else pb_cycle_index st' <> 1 /\ pb_cycle_start_ns st' = now /\ pb_cycle_started st' = true) /\
  foldr Z.add 0 ((fun i => tcp_shift_bbr_probe_bw_pacing_gain_num
                             (st <| pb_cycle_index := i |>)) <$> [0;1;2;3;4;5;6;7])
    = 8 * TCP_SHIFT_BBR_GAIN_DEN.
Proof.
  intros Hmo Hh Hb Hr Hn Hs Hi Hseed. cbn zeta.
  enough (let r := tcp_shift_bbr_probe_bw_update m st s lost now in
    r.1 = 0 /\ 0 <= pb_cycle_index r.2 < 8 /\
    if pb_cycle_started st
    then r.2 = if phase_over m st (rs_prior_inflight_bytes s) lost now
               then st <| pb_cycle_index := (pb_cycle_index st + 1) mod 8 |>
                       <| pb_cycle_start_ns := now |> else st
    else pb_cycle_index r.2 <> 1 /\ pb_cycle_start_ns r.2 = now /\ pb_cycle_started r.2 = true)
    as H by (cbn zeta in H; split_and!; try apply H; reflexivity).
  unfold tcp_shift_bbr_probe_bw_update. rewrite Hmo, Hh.
  rewrite bool_decide_eq_false_2 by (by intros []). destruct (now =? 0) eqn:E0; [lia|].
  destruct (pb_cycle_started st) eqn:Es; cbn [negb orb].
  2:{ destruct (reset_cycle_index st now Hseed) as [H1 H2].
      cbn zeta. cbn [fst snd]. split; [done|]. split; [done|]. split; [done|]. by cbn. }
  rewrite (proj2 (Z.ltb_ge _ _)) by lia. destruct (_ || _) eqn:E1; [lia|].
  pose proof (bbr_bdp_positive (bm_max_bw_bytes_per_sec m) (bm_min_rtt_ns m) ltac:(lia) ltac:(lia)).
  pose proof (bbr_bdp_range (bm_max_bw_bytes_per_sec m) (bm_min_rtt_ns m) ltac:(lia) ltac:(lia)).
  destruct (_ =? 0) eqn:E2 in |- *; [lia|]. rewrite next_index by done.
  assert (Hadv : probe_bw_advance m st s lost now
      (tcp_shift_bbr_bdp_bytes (bm_max_bw_bytes_per_sec m) (bm_min_rtt_ns m))
    = phase_over m st (rs_prior_inflight_bytes s) lost now).
  { unfold probe_bw_advance, phase_over, tcp_shift_bbr_probe_bw_pacing_gain_num. cbn zeta.
    rewrite (u64_small (now - _)) by lia. rewrite <- bbr_bdp_spec by lia. rewrite !Z.geb_leb.
    destruct (pb_cycle_index st =? 0); cbn [Z.gtb Z.ltb Z.compare Pos.compare Pos.compare_cont];
      [by rewrite bbr_probe_scale_ceil_spec by lia|].
    by destruct (pb_cycle_index st =? 1). }
  rewrite Hadv. pose proof (Z.mod_pos_bound (pb_cycle_index st + 1) 8 ltac:(lia)).
  destruct (phase_over _ _ _ _ _); done.
Qed.

Lemma bbr_probe_bw_cycle_witness :
  let m := tcp_shift_bbr_model_init <| bm_mode := TCP_SHIFT_BBR_MODE_PROBE_BW |>
    <| bm_has_min_rtt := true |> <| bm_max_bw_bytes_per_sec := 1250000 |>
    <| bm_min_rtt_ns := 40000000 |> in
  let st := tcp_shift_bbr_probe_state_init 5 <| pb_cycle_started := true |>
    <| pb_cycle_index := 7 |> <| pb_cycle_start_ns := 5 |> in
  (tcp_shift_bbr_probe_bw_update m st (mk_rate_sample 0 0 0 0 0 0 0 0 0 0) 0 100000000).2
  = st <| pb_cycle_index := 0 |> <| pb_cycle_start_ns := 100000000 |>.
Proof.
  intros m st.
  destruct (bbr_probe_bw_cycle m st (mk_rate_sample 0 0 0 0 0 0 0 0 0 0) 0 100000000)
    as (_ & _ & H & _); [reflexivity|reflexivity|cbn; lia..|vm_compute; split; discriminate|]. exact H.
Defined.

(** ** The ProbeRTT dwell *)

(** One entry per call of [tcp_shift_bbr_probe_rtt_update], newest first: its
    time, whether the flight was at or below the four-packet floor, whether
    the ACK started a packet-timed round. *)
Definition dwell_log : Type := list (Z * bool * bool).

Definition dwell_entry (m : tcp_shift_bbr_model) (t : tcp_shift_cc_transport)
    (s : tcp_shift_cc_rate_sample) (now : Z) : Z * bool * bool :=
  (now, rs_prior_inflight_bytes s <=? bbr_floor t, bm_round_start m).

(** Probe states with the history of the calls that led to them; the ProbeBW
    cycle may run in between. *)
Inductive dwell_trace : dwell_log -> tcp_shift_bbr_probe_state -> Prop :=
  | dwell_init seed : dwell_trace [] (tcp_shift_bbr_probe_state_init seed)
  | dwell_update h st m t s cur now rc m' st' :
      dwell_trace h st -> transport_usable t -> in_u64 now ->
      tcp_shift_bbr_probe_rtt_update m st t s cur now = (rc, m', st') ->
      dwell_trace (dwell_entry m t s now :: h) st'
  | dwell_cycle h st m s lost now :
      dwell_trace h st ->
      dwell_trace h (tcp_shift_bbr_probe_bw_update m st s lost now).2.

(** A running dwell was started by a logged call with a low flight, and a
    completed round was logged after it. *)
Definition dwell_justified (h : dwell_log) (stamp : Z) (round_done : bool) : Prop :=
  exists later t0 r0 earlier, h = later ++ (t0, true, r0) :: earlier /\
    stamp = Z.min UINT64_MAX (t0 + TCP_SHIFT_BBR_PROBE_RTT_DURATION_NS) /\
    (round_done = true -> Exists (fun e => e.2 = true) later).

Definition dwell_ok (h : dwell_log) (st : tcp_shift_bbr_probe_state) : Prop :=
  pb_probe_rtt_done_stamp_ns st <> 0 ->
  dwell_justified h (pb_probe_rtt_done_stamp_ns st) (pb_probe_rtt_round_done st).

Lemma dwell_justified_cons h e stamp rd :
  dwell_justified h stamp rd -> dwell_justified (e :: h) stamp (rd || e.2).
Proof.
  intros (later & t0 & r0 & earlier & -> & Es & Hr). exists (e :: later), t0, r0, earlier.
  split; [done|]. split; [done|]. intros [H|H]%orb_true_iff.
  - apply Exists_cons. right. auto.
  - apply Exists_cons. by left.
Qed.

Lemma dwell_justified_weaken h stamp rd rd' :
  (rd' = true -> rd = true) -> dwell_justified h stamp rd -> dwell_justified h stamp rd'.
Proof.
  intros Hi (later & t0 & r0 & earlier & E & Es & Hr).
  exists later, t0, r0, earlier. split_and!; auto.
Qed.

Lemma probe_bw_update_dwell m st s lost now :
  let st' := (tcp_shift_bbr_probe_bw_update m st s lost now).2 in
  pb_probe_rtt_done_stamp_ns st' = pb_probe_rtt_done_stamp_ns st /\
  pb_probe_rtt_round_done st' = pb_probe_rtt_round_done st.
Proof. unfold tcp_shift_bbr_probe_bw_update. cbn zeta. by repeat case_match. Qed.

Lemma probe_rtt_enter_spec m st cur m1 st1 :
  probe_rtt_enter m st cur = (m1, st1) ->
  bm_round_start m1 = bm_round_start m /\
  (pb_probe_rtt_done_stamp_ns st1 = 0 \/
   pb_probe_rtt_done_stamp_ns st1 = pb_probe_rtt_done_stamp_ns st /\
   pb_probe_rtt_round_done st1 = pb_probe_rtt_round_done st).
Proof.
  unfold probe_rtt_enter. cbn zeta. destruct (_ && _); intros [= <- <-]; [|auto].
  split; [done|]. by left.
Qed.

(** The dwell after one more call, and what a completion certifies. *)
Lemma probe_rtt_dwell_justified h m st t s now rc m' st' :
  dwell_ok h st -> transport_usable t -> in_u64 now ->
  probe_rtt_dwell m st t s now = (rc, m', st') ->
  let h' := dwell_entry m t s now :: h in
  dwell_ok h' st' /\
  (rc = 1 -> exists stamp, stamp <= now /\ dwell_justified h' stamp true).
Proof.
  intros Hok Ht Hn. unfold probe_rtt_dwell. cbn zeta.
  rewrite bbr_probe_min_cwnd_spec by done. fold (bbr_floor t).
  destruct (pb_probe_rtt_done_stamp_ns st =? 0) eqn:E0.
  { destruct (_ <=? bbr_floor t) eqn:El; intros [= <- <- <-]; (split; [|done]).
    - intros _. exists [], now, (bm_round_start m), h. unfold dwell_entry. rewrite El. cbn.
      split_and!; try done. apply sat_add_u64_lt; lia.
    - intros H. lia. }
  assert (Hj : dwell_justified (dwell_entry m t s now :: h) (pb_probe_rtt_done_stamp_ns st)
    (pb_probe_rtt_round_done st || bm_round_start m))
    by (apply (dwell_justified_cons h (dwell_entry m t s now)), Hok; lia).
  set (st1 := if bm_round_start m then _ else st).
  assert (H1 : pb_probe_rtt_done_stamp_ns st1 = pb_probe_rtt_done_stamp_ns st /\
    pb_probe_rtt_round_done st1 = pb_probe_rtt_round_done st || bm_round_start m).
  { unfold st1. destruct (bm_round_start m); cbn; [by rewrite orb_true_r|by rewrite orb_false_r]. }
  clearbody st1. destruct H1 as [Hs1 Hd1].
  destruct (negb _ || _) eqn:E1.
  { intros [= <- <- <-]. split; [|done]. intros _. by rewrite Hs1, Hd1. }
  assert (Hrd : pb_probe_rtt_round_done st1 = true /\ pb_probe_rtt_done_stamp_ns st1 <= now).
  { apply orb_false_iff in E1 as [Ea Eb]. apply negb_false_iff in Ea. split; [done|lia]. }
  destruct Hrd as [Hrd Hle]. rewrite Hrd in Hd1. rewrite <- Hd1, <- Hs1 in Hj.
  destruct (bm_full_bw_reached _); intros [= <- <- <-]; (split; [by intros []|]); intros _; eauto.
Qed.

Lemma probe_rtt_update_justified h m st t s cur now rc m' st' :
  dwell_ok h st -> transport_usable t -> in_u64 now ->
  tcp_shift_bbr_probe_rtt_update m st t s cur now = (rc, m', st') ->
  let h' := dwell_entry m t s now :: h in
  dwell_ok h' st' /\
  (rc = 1 -> exists stamp, stamp <= now /\ dwell_justified h' stamp true).
Proof.
  intros Hok Ht Hn. unfold tcp_shift_bbr_probe_rtt_update. cbn zeta.
  assert (Hext : forall x, pb_probe_rtt_done_stamp_ns x = 0 \/
      pb_probe_rtt_done_stamp_ns x = pb_probe_rtt_done_stamp_ns st /\
      pb_probe_rtt_round_done x = pb_probe_rtt_round_done st ->
      dwell_ok h x /\ dwell_ok (dwell_entry m t s now :: h) x).
  { intros x [Hz|[E1 E2]]; [split; intros []; done|].
    unfold dwell_ok. rewrite E1, E2. split; [exact Hok|]. intros Hnz.
    eapply dwell_justified_weaken, (dwell_justified_cons h (dwell_entry m t s now)), Hok, Hnz.
    intros ->. done. }
  destruct (_ || _); [intros [= <- <- <-]; split; [apply Hext; auto|done]|].
  destruct (probe_rtt_enter m st cur) as [m1 st1] eqn:E1.
  apply probe_rtt_enter_spec in E1 as [Hrs Hst1]. destruct (Hext st1 Hst1) as [H1 H2].
  destruct (bool_decide _); [by intros [= <- <- <-]|]. intros Ed.
  unfold dwell_entry. rewrite <- Hrs.
  exact (probe_rtt_dwell_justified h m1 st1 t s now rc m' st' H1 Ht Hn Ed).
Qed.

Lemma dwell_trace_ok h st : dwell_trace h st -> dwell_ok h st.
Proof.
  induction 1 as [seed|h st m t s cur now rc m' st' _ IH Ht Hn E|h st m s lost now _ IH].
  - by intros [].
  - by eapply probe_rtt_update_justified in E as [? _].
  - destruct (probe_bw_update_dwell m st s lost now) as [E1 E2].
    unfold dwell_ok. by rewrite E1, E2.
Qed.

(** ProbeRTT lasts long enough. Whatever happened before, when an update
    reports that ProbeRTT is complete, an earlier update saw at most four
    packets in flight at least 200 ms ago, and since then some ACK, possibly
    this one, started a new packet-timed round. *)
Theorem bbr_probe_rtt_dwell h st m t s cur now m' st' :
  dwell_trace h st -> transport_usable t -> in_u64 now ->
  tcp_shift_bbr_probe_rtt_update m st t s cur now = (1, m', st') ->
  exists later t0 r0 earlier,
    dwell_entry m t s now :: h = later ++ (t0, true, r0) :: earlier /\
    Z.min UINT64_MAX (t0 + TCP_SHIFT_BBR_PROBE_RTT_DURATION_NS) <= now /\
    Exists (fun e => e.2 = true) later.
Proof.
  intros Hh Ht Hn E.
  destruct (probe_rtt_update_justified h m st t s cur now 1 m' st' (dwell_trace_ok h st Hh) Ht Hn E)
    as [_ H]. destruct (H eq_refl) as (stamp & Hle & later & t0 & r0 & earlier & E1 & E2 & Hr).
  exists later, t0, r0, earlier. split; [exact E1|]. split; [lia|]. by apply Hr.
Qed.

Definition dwell_sample_transport : tcp_shift_cc_transport := mk_transport 1460 0 65535 1048576.
Definition dwell_sample_model (round : bool) : tcp_shift_bbr_model :=
  tcp_shift_bbr_model_init <| bm_mode := TCP_SHIFT_BBR_MODE_PROBE_RTT |>
                           <| bm_round_start := round |>.
Definition dwell_sample_rate : tcp_shift_cc_rate_sample := mk_rate_sample 0 0 0 0 0 0 0 0 1460 0.
Definition dwell_sample_started : tcp_shift_bbr_probe_state := Eval vm_compute in
  (tcp_shift_bbr_probe_rtt_update (dwell_sample_model false) (tcp_shift_bbr_probe_state_init 3)
     dwell_sample_transport dwell_sample_rate 5840 1000).2.

Lemma bbr_probe_rtt_dwell_witness :
  exists later t0 r0 earlier,
    [(200001000, true, true); (1000, true, false)] = later ++ (t0, true, r0) :: earlier /\
    Z.min UINT64_MAX (t0 + 200000000) <= 200001000 /\ Exists (fun e => e.2 = true) later.
Proof.
  apply (bbr_probe_rtt_dwell [(1000, true, false)] dwell_sample_started (dwell_sample_model true)
    dwell_sample_transport dwell_sample_rate 5840 200001000
    (tcp_shift_bbr_probe_rtt_update (dwell_sample_model true) dwell_sample_started
       dwell_sample_transport dwell_sample_rate 5840 200001000).1.2
    (tcp_shift_bbr_probe_rtt_update (dwell_sample_model true) dwell_sample_started
       dwell_sample_transport dwell_sample_rate 5840 200001000).2).
  - eapply (dwell_update [] (tcp_shift_bbr_probe_state_init 3) (dwell_sample_model false)
      dwell_sample_transport dwell_sample_rate 5840 1000).
    + apply dwell_init.
    + repeat split; cbn; lia.
    + lia.
    + vm_compute. reflexivity.
  - repeat split; cbn; lia.
  - lia.
  - vm_compute. reflexivity.
Defined.

(** The window saved on ProbeRTT entry is never forgotten: a later entry with
    a smaller window keeps the larger, older one. *)
Lemma probe_rtt_prior_cwnd_monotone m st t s cur now :
  pb_probe_rtt_prior_cwnd_bytes st <=
  pb_probe_rtt_prior_cwnd_bytes (tcp_shift_bbr_probe_rtt_update m st t s cur now).2.
Proof.
  unfold tcp_shift_bbr_probe_rtt_update, probe_rtt_enter, probe_rtt_dwell. cbn zeta.
  destruct (_ || _); [cbn; lia|].
  destruct (bool_decide _ && _) in |- *; [destruct (cur >? _) eqn:Ec|]; cbn;
    repeat case_match; simplify_eq/=; lia.
Qed.
