(* ===== verification/Rack.v ===== *)
(** * RACK-TLP loss detection ([src/lwip/rack_tlp.h], [src/lwip/rack_tlp.c])

    RFC 8985's per-connection state, its time-based loss detection and its
    tail-loss probe. *)

From Stdlib Require Import ZArith Lia Bool List.
From stdpp Require Import base tactics numbers list.
From S2P Require Import Prelude.
Local Open Scope Z_scope.

Abbreviation TCP_SHIFT_RACK_REO_WND_DIVISOR := 4.
Abbreviation TCP_SHIFT_RACK_REO_WND_PERSIST_RECOVERIES := 16.
Abbreviation TCP_SHIFT_RACK_DEFAULT_PTO_NS := 1000000000.

Inductive tcp_shift_tlp_ack_result :=
  | TCP_SHIFT_TLP_ACK_NONE
  | TCP_SHIFT_TLP_ACK_CLEARED
  | TCP_SHIFT_TLP_ACK_LOSS_REPAIRED.

Record tcp_shift_rack_tlp_state := mk_rack {
  rk_rack_xmit_ts_ns : Z;
  rk_rack_ack_ts_ns : Z;
  rk_rack_rtt_ns : Z;
  rk_min_rtt_ns : Z;
  rk_srtt_ns : Z;
  rk_reo_wnd_ns : Z;
  rk_rack_end_seq : Z;
  rk_fack : Z;
  rk_dsack_round_end_seq : Z;
  rk_tlp_start_seq : Z;
  rk_tlp_end_seq : Z;
  rk_segs_sacked : Z;
  rk_reo_wnd_mult : Z;
  rk_reo_wnd_persist : Z;
  rk_reordering_seen : bool;
  rk_dsack_round_active : bool;
  rk_tlp_is_retrans : bool;
  rk_rtt_sample_since_probe : bool
}.
#[export] Instance eta_rack : Eta tcp_shift_rack_tlp_state := fun r =>
  mk_rack (rk_rack_xmit_ts_ns r) (rk_rack_ack_ts_ns r) (rk_rack_rtt_ns r) (rk_min_rtt_ns r)
    (rk_srtt_ns r) (rk_reo_wnd_ns r) (rk_rack_end_seq r) (rk_fack r)
    (rk_dsack_round_end_seq r) (rk_tlp_start_seq r) (rk_tlp_end_seq r) (rk_segs_sacked r)
    (rk_reo_wnd_mult r) (rk_reo_wnd_persist r) (rk_reordering_seen r)
    (rk_dsack_round_active r) (rk_tlp_is_retrans r) (rk_rtt_sample_since_probe r).

Record tcp_shift_rack_segment := mk_segment {
  sg_xmit_ts_ns : Z;
  sg_seq_start : Z;
  sg_end_seq : Z;
  sg_retransmitted : bool;
  sg_lost : bool
}.

(** ** Helpers *)

Definition tcp_shift_rack_add_sat_u64 (left right : Z) : Z :=
  if right >? UINT64_MAX -w64 left then UINT64_MAX else left +w64 right.

Definition tcp_shift_rack_mul_sat_u64 (left right : Z) : Z :=
  if (left =? 0) || (right =? 0) then 0
  else if left >? UINT64_MAX / right then UINT64_MAX else left *w64 right.

Definition tcp_shift_rack_seq_after (left right : Z) : bool := s32 (left - right) >? 0.

Definition tcp_shift_rack_seq_after_eq (left right : Z) : bool := s32 (left - right) >=? 0.

(** [memset] to zero, then [state->reo_wnd_mult = 1U]. *)
Definition tcp_shift_rack_tlp_init : tcp_shift_rack_tlp_state :=
  mk_rack 0 0 0 0 0 0 0 0 0 0 0 0 1 0 false false false false.

Definition tcp_shift_rack_sent_after (xmit_ts_a_ns end_seq_a xmit_ts_b_ns end_seq_b : Z) : bool :=
  if xmit_ts_a_ns >? xmit_ts_b_ns then true
  else if xmit_ts_a_ns <? xmit_ts_b_ns then false
  else tcp_shift_rack_seq_after end_seq_a end_seq_b.

(** ** RACK *)

Definition tcp_shift_rack_set_rtt_estimates (state : tcp_shift_rack_tlp_state)
    (min_rtt_ns srtt_ns : Z) : tcp_shift_rack_tlp_state :=
  state <| rk_min_rtt_ns := min_rtt_ns |> <| rk_srtt_ns := srtt_ns |>.

Definition tcp_shift_rack_note_sacked_segments (state : tcp_shift_rack_tlp_state)
    (segs_sacked : Z) : tcp_shift_rack_tlp_state :=
  state <| rk_segs_sacked := segs_sacked |>.

Definition tcp_shift_rack_note_delivered (state : tcp_shift_rack_tlp_state)
    (segment : tcp_shift_rack_segment) (ack_time_ns : Z) : Z * tcp_shift_rack_tlp_state :=
  if (sg_xmit_ts_ns segment =? 0) || (ack_time_ns <? sg_xmit_ts_ns segment)
  then (-1, state)
  else
    let rtt_ns := ack_time_ns -w64 sg_xmit_ts_ns segment in
    if sg_retransmitted segment && negb (rk_min_rtt_ns state =? 0) &&
       (rtt_ns <? rk_min_rtt_ns state)
    then (0, state)
    else
      let state := state <| rk_rack_rtt_ns := rtt_ns |>
                         <| rk_rack_ack_ts_ns := ack_time_ns |> in
      if tcp_shift_rack_sent_after (sg_xmit_ts_ns segment) (sg_end_seq segment)
           (rk_rack_xmit_ts_ns state) (rk_rack_end_seq state)
      then (1, state <| rk_rack_xmit_ts_ns := sg_xmit_ts_ns segment |>
                     <| rk_rack_end_seq := sg_end_seq segment |>)
      else (1, state).

Definition tcp_shift_rack_detect_reordering (state : tcp_shift_rack_tlp_state)
    (segment : tcp_shift_rack_segment) : tcp_shift_rack_tlp_state :=
  if (rk_fack state =? 0) || tcp_shift_rack_seq_after (sg_end_seq segment) (rk_fack state)
  then state <| rk_fack := sg_end_seq segment |>
  else if negb (sg_end_seq segment =? rk_fack state) && negb (sg_retransmitted segment)
  then state <| rk_reordering_seen := true |>
  else state.

Definition tcp_shift_rack_note_dsack (state : tcp_shift_rack_tlp_state) (snd_nxt : Z)
    : tcp_shift_rack_tlp_state :=
  if rk_dsack_round_active state then state
  else
    let state := state <| rk_dsack_round_active := true |>
                       <| rk_dsack_round_end_seq := snd_nxt |> in
    let state := if negb (rk_reo_wnd_mult state =? UINT32_MAX)
                 then state <| rk_reo_wnd_mult := rk_reo_wnd_mult state +w32 1 |> else state in
    state <| rk_reo_wnd_persist := TCP_SHIFT_RACK_REO_WND_PERSIST_RECOVERIES |>.

Definition tcp_shift_rack_note_recovery_exit (state : tcp_shift_rack_tlp_state)
    (snd_una : Z) : tcp_shift_rack_tlp_state :=
  let state :=
    if rk_dsack_round_active state &&
       tcp_shift_rack_seq_after_eq snd_una (rk_dsack_round_end_seq state)
    then state <| rk_dsack_round_active := false |> <| rk_dsack_round_end_seq := 0 |>
    else state in
  if negb (rk_reo_wnd_persist state =? 0) then
    let state := state <| rk_reo_wnd_persist := rk_reo_wnd_persist state -w32 1 |> in
    if rk_reo_wnd_persist state =? 0 then state <| rk_reo_wnd_mult := 1 |> else state
  else state.

(** The window is returned and, past the first guard, stored. *)
Definition tcp_shift_rack_reo_wnd (state : tcp_shift_rack_tlp_state) (in_recovery : bool)
    : Z * tcp_shift_rack_tlp_state :=
  if rk_min_rtt_ns state =? 0 then (0, state)
  else if negb (rk_reordering_seen state) && (in_recovery || (rk_segs_sacked state >=? 3))
  then (0, state <| rk_reo_wnd_ns := 0 |>)
  else
    let base := rk_min_rtt_ns state / TCP_SHIFT_RACK_REO_WND_DIVISOR in
    let base := if base =? 0 then 1 else base in
    let scaled := tcp_shift_rack_mul_sat_u64 base (rk_reo_wnd_mult state) in
    let scaled := if negb (rk_srtt_ns state =? 0) && (scaled >? rk_srtt_ns state)
                  then rk_srtt_ns state else scaled in
    (scaled, state <| rk_reo_wnd_ns := scaled |>).

(** Result: the verdict, the state and [*remaining_ns]. *)
Definition tcp_shift_rack_loss_remaining (state : tcp_shift_rack_tlp_state)
    (segment : tcp_shift_rack_segment) (now_ns : Z) (in_recovery : bool)
    : Z * tcp_shift_rack_tlp_state * Z :=
  if (sg_xmit_ts_ns segment =? 0) || (rk_rack_xmit_ts_ns state =? 0) ||
     (rk_rack_rtt_ns state =? 0) || sg_lost segment
  then (0, state, 0)
  else if negb (tcp_shift_rack_sent_after (rk_rack_xmit_ts_ns state) (rk_rack_end_seq state)
                  (sg_xmit_ts_ns segment) (sg_end_seq segment))
  then (0, state, 0)
  else
    let '(reo_wnd, state) := tcp_shift_rack_reo_wnd state in_recovery in
    let deadline := tcp_shift_rack_add_sat_u64 (sg_xmit_ts_ns segment) (rk_rack_rtt_ns state) in
    let deadline := tcp_shift_rack_add_sat_u64 deadline reo_wnd in
    if now_ns >=? deadline then (1, state, 0) else (0, state, deadline -w64 now_ns).

Definition tcp_shift_rack_lost_on_rto (state : tcp_shift_rack_tlp_state)
    (segment : tcp_shift_rack_segment) (snd_una now_ns : Z) (in_recovery : bool)
    : Z * tcp_shift_rack_tlp_state :=
  if sg_seq_start segment =? snd_una then (1, state)
  else
    let '(lost, state, _) := tcp_shift_rack_loss_remaining state segment now_ns in_recovery in
    (lost, state).

(** ** TLP *)

Definition tcp_shift_tlp_calc_pto_ns (state : ptr tcp_shift_rack_tlp_state)
    (now_ns rto_expiration_ns flight_segments max_ack_delay_ns : Z) : Z :=
  let pto :=
    match state with
    | Some st =>
        if negb (rk_srtt_ns st =? 0) then
          let pto := tcp_shift_rack_mul_sat_u64 (rk_srtt_ns st) 2 in
          if flight_segments =? 1
          then tcp_shift_rack_add_sat_u64 pto max_ack_delay_ns else pto
        else TCP_SHIFT_RACK_DEFAULT_PTO_NS
    | None => TCP_SHIFT_RACK_DEFAULT_PTO_NS
    end in
  let pto_expiration := tcp_shift_rack_add_sat_u64 now_ns pto in
  if (rto_expiration_ns >? now_ns) && (pto_expiration >? rto_expiration_ns)
  then rto_expiration_ns -w64 now_ns
  else pto.

Definition tcp_shift_tlp_probe_allowed (state : tcp_shift_rack_tlp_state) : bool :=
  (rk_tlp_end_seq state =? 0) && rk_rtt_sample_since_probe state.

Definition tcp_shift_tlp_note_probe_sent (state : tcp_shift_rack_tlp_state)
    (start_seq end_seq : Z) (is_retransmission : bool) : tcp_shift_rack_tlp_state :=
  state <| rk_tlp_start_seq := start_seq |>
        <| rk_tlp_end_seq := end_seq |>
        <| rk_tlp_is_retrans := is_retransmission |>
        <| rk_rtt_sample_since_probe := false |>.

Definition tcp_shift_tlp_note_rtt_sample (state : tcp_shift_rack_tlp_state)
    : tcp_shift_rack_tlp_state :=
  state <| rk_rtt_sample_since_probe := true |>.

(** The three stores that end a probe episode. *)
Definition tlp_clear (state : tcp_shift_rack_tlp_state) : tcp_shift_rack_tlp_state :=
  state <| rk_tlp_start_seq := 0 |> <| rk_tlp_end_seq := 0 |> <| rk_tlp_is_retrans := false |>.

Definition tcp_shift_tlp_process_ack (state : tcp_shift_rack_tlp_state) (ack_seq : Z)
    (dsack_matches_probe dupack_without_sack : bool)
    : tcp_shift_tlp_ack_result * tcp_shift_rack_tlp_state :=
  if (rk_tlp_end_seq state =? 0) ||
     negb (tcp_shift_rack_seq_after_eq ack_seq (rk_tlp_end_seq state))
  then (TCP_SHIFT_TLP_ACK_NONE, state)
  else if negb (rk_tlp_is_retrans state) || dsack_matches_probe || dupack_without_sack
  then (TCP_SHIFT_TLP_ACK_CLEARED, tlp_clear state)
  else if tcp_shift_rack_seq_after ack_seq (rk_tlp_end_seq state)
  then (TCP_SHIFT_TLP_ACK_LOSS_REPAIRED, tlp_clear state)
  else (TCP_SHIFT_TLP_ACK_NONE, state).

Definition tcp_shift_tlp_reset (state : tcp_shift_rack_tlp_state) : tcp_shift_rack_tlp_state :=
  tlp_clear state.

(** ** Exactness of the helpers *)

Lemma rack_add_sat_spec a b :
  in_u64 a -> in_u64 b -> tcp_shift_rack_add_sat_u64 a b = Z.min UINT64_MAX (a + b).
Proof. apply sat_add_u64_gt. Qed.

Lemma rack_mul_sat_spec a b :
  in_u64 a -> in_u64 b -> tcp_shift_rack_mul_sat_u64 a b = Z.min UINT64_MAX (a * b).
Proof. apply sat_mul_u64. Qed.

(** Position of a sequence number after a base, modulo 2^32. *)
Definition seq_offset (base seq : Z) : Z := u32 (seq - base).

(** A sequence number less than half the space after the base. *)
Definition in_half (base seq : Z) : Prop := seq_offset base seq < 2147483648.

Lemma s32_offset base a b :
  in_half base a -> in_half base b -> s32 (a - b) = seq_offset base a - seq_offset base b.
Proof.
  unfold in_half, seq_offset, s32, u32. intros Ha Hb.
  assert (E : (a - b) mod 4294967296 =
    ((a - base) mod 4294967296 - (b - base) mod 4294967296) mod 4294967296).
  { rewrite <- Zminus_mod. f_equal. lia. }
  rewrite E. pose proof (Z.mod_pos_bound (a - base) 4294967296 ltac:(lia)).
  pose proof (Z.mod_pos_bound (b - base) 4294967296 ltac:(lia)).
  set (x := (a - base) mod 4294967296) in *. set (y := (b - base) mod 4294967296) in *.
  clearbody x y. destruct (Z.le_gt_cases y x).
  - rewrite Z.mod_small by lia. case_match; lia.
  - rewrite <- (Z.mod_add (x - y) 1) by lia. rewrite Z.mod_small by lia. case_match; lia.
Qed.

(** Within half the sequence space the signed comparison is the order of
    offsets, so "sent after" is lexicographic on (time, offset). *)
Lemma sent_after_spec base ta ea tb eb :
  in_half base ea -> in_half base eb ->
  tcp_shift_rack_sent_after ta ea tb eb = true <->
  tb < ta \/ (tb = ta /\ seq_offset base eb < seq_offset base ea).
Proof.
  intros Ha Hb. unfold tcp_shift_rack_sent_after, tcp_shift_rack_seq_after.
  rewrite (s32_offset base) by done. repeat case_match; lia.
Qed.
