(* ===== verification/RackSpec.v ===== *)
(** * Correctness of RACK-TLP

    Every sequence of calls the transport can make, as a list of events: the
    RACK segment is the latest one delivered, losses are declared exactly at
    their deadline, and at most one tail-loss probe is outstanding. *)

From Stdlib Require Import ZArith Lia Bool List.
From stdpp Require Import base tactics numbers list.
From S2P Require Import Prelude Rack.
Local Open Scope Z_scope.

(** ** Calls on the state *)

Inductive rack_event :=
  | RkRtt (min_rtt srtt : Z)
  | RkSacked (n : Z)
  | RkDelivered (seg : tcp_shift_rack_segment) (now : Z)
  | RkReorder (seg : tcp_shift_rack_segment)
  | RkDsack (snd_nxt : Z)
  | RkRecoveryExit (snd_una : Z)
  | RkLoss (seg : tcp_shift_rack_segment) (now : Z) (in_recovery : bool)
  | RkRto (seg : tcp_shift_rack_segment) (snd_una now : Z) (in_recovery : bool)
  | RkProbe (start end_seq : Z) (retransmission : bool)
  | RkRttSample
  | RkAck (ack_seq : Z) (dsack dupack : bool)
  | RkReset.

Definition rack_apply (st : tcp_shift_rack_tlp_state) (e : rack_event)
    : tcp_shift_rack_tlp_state :=
  match e with
  | RkRtt min_rtt srtt => tcp_shift_rack_set_rtt_estimates st min_rtt srtt
  | RkSacked n => tcp_shift_rack_note_sacked_segments st n
  | RkDelivered seg now => (tcp_shift_rack_note_delivered st seg now).2
  | RkReorder seg => tcp_shift_rack_detect_reordering st seg
  | RkDsack nxt => tcp_shift_rack_note_dsack st nxt
  | RkRecoveryExit una => tcp_shift_rack_note_recovery_exit st una
  | RkLoss seg now r => (tcp_shift_rack_loss_remaining st seg now r).1.2
  | RkRto seg una now r => (tcp_shift_rack_lost_on_rto st seg una now r).2
  | RkProbe s e r => tcp_shift_tlp_note_probe_sent st s e r
  | RkRttSample => tcp_shift_tlp_note_rtt_sample st
  | RkAck a d u => (tcp_shift_tlp_process_ack st a d u).2
  | RkReset => tcp_shift_tlp_reset st
  end.

Definition rack_run (evs : list rack_event) : tcp_shift_rack_tlp_state :=
  fold_left rack_apply evs tcp_shift_rack_tlp_init.

Lemma rack_run_snoc evs e : rack_run (evs ++ [e]) = rack_apply (rack_run evs) e.
Proof. unfold rack_run. by rewrite fold_left_app. Qed.

(** Fields that only [note_delivered], [note_probe_sent] and friends write. *)
Lemma reo_wnd_frame st r :
  let st' := (tcp_shift_rack_reo_wnd st r).2 in st' = st <| rk_reo_wnd_ns := rk_reo_wnd_ns st' |>.
Proof. unfold tcp_shift_rack_reo_wnd. cbn zeta. repeat case_match; destruct st; done. Qed.

Lemma loss_remaining_frame st seg now r :
  let st' := (tcp_shift_rack_loss_remaining st seg now r).1.2 in
  st' = st <| rk_reo_wnd_ns := rk_reo_wnd_ns st' |>.
Proof.
  unfold tcp_shift_rack_loss_remaining. cbn zeta.
  destruct (_ || _); [by destruct st|]. destruct (negb _); [by destruct st|].
  pose proof (reo_wnd_frame st r) as H. destruct (tcp_shift_rack_reo_wnd st r) as [w st'].
  cbn in H. destruct (_ >=? _); exact H.
Qed.

Lemma lost_on_rto_frame st seg una now r :
  let st' := (tcp_shift_rack_lost_on_rto st seg una now r).2 in
  st' = st <| rk_reo_wnd_ns := rk_reo_wnd_ns st' |>.
Proof.
  unfold tcp_shift_rack_lost_on_rto. cbn zeta. destruct (_ =? _); [by destruct st|].
  pose proof (loss_remaining_frame st seg now r) as H.
  by destruct (tcp_shift_rack_loss_remaining st seg now r) as [[l st'] w].
Qed.

(** ** The RACK segment *)

(** The segments [note_delivered] accepted, newest first. *)
Definition rack_accepted_step (st : tcp_shift_rack_tlp_state) (e : rack_event)
    : list tcp_shift_rack_segment :=
  match e with
  | RkDelivered seg now => if (tcp_shift_rack_note_delivered st seg now).1 =? 1 then [seg] else []
  | _ => []
  end.

Fixpoint rack_accepted (st : tcp_shift_rack_tlp_state) (evs : list rack_event)
    : list tcp_shift_rack_segment :=
  match evs with
  | [] => []
  | e :: evs' => rack_accepted (rack_apply st e) evs' ++ rack_accepted_step st e
  end.

(** [st] points at the latest of the segments [acc]. *)
Definition rack_latest (st : tcp_shift_rack_tlp_state) (acc : list tcp_shift_rack_segment)
    : Prop :=
  match acc with
  | [] => rk_rack_xmit_ts_ns st = 0
  | _ => exists seg, seg ∈ acc /\ rk_rack_xmit_ts_ns st = sg_xmit_ts_ns seg /\
           rk_rack_end_seq st = sg_end_seq seg /\
           Forall (fun s => tcp_shift_rack_sent_after (sg_xmit_ts_ns s) (sg_end_seq s)
                              (sg_xmit_ts_ns seg) (sg_end_seq seg) = false) acc
  end.

Definition rack_segment_of (st : tcp_shift_rack_tlp_state) : Z * Z :=
  (rk_rack_xmit_ts_ns st, rk_rack_end_seq st).

Lemma rack_apply_segment st e :
  rack_accepted_step st e = [] -> rack_segment_of (rack_apply st e) = rack_segment_of st.
Proof.
  destruct e; cbn [rack_accepted_step rack_apply]; try done.
  - unfold tcp_shift_rack_note_delivered. cbn zeta. by repeat case_match.
  - intros _. unfold tcp_shift_rack_detect_reordering. by repeat case_match.
  - intros _. unfold tcp_shift_rack_note_dsack. cbn zeta. by repeat case_match.
  - intros _. unfold tcp_shift_rack_note_recovery_exit. cbn zeta. by repeat case_match.
  - intros _. by rewrite (loss_remaining_frame st seg now in_recovery).
  - intros _. by rewrite (lost_on_rto_frame st seg snd_una now in_recovery).
  - intros _. unfold tcp_shift_tlp_process_ack. by repeat case_match.
Qed.

Lemma rack_latest_segment st st' acc :
  rack_segment_of st' = rack_segment_of st -> rack_latest st acc -> rack_latest st' acc.
Proof. intros [= E1 E2]. destruct acc; cbn; by rewrite E1, ?E2. Qed.

(** An accepted delivery keeps the latest segment latest. *)
Lemma rack_latest_step base st acc seg now :
  rack_latest st acc -> Forall (fun s => in_half base (sg_end_seq s)) (seg :: acc) ->
  0 <= sg_xmit_ts_ns seg -> (tcp_shift_rack_note_delivered st seg now).1 = 1 ->
  rack_latest (tcp_shift_rack_note_delivered st seg now).2 (seg :: acc).
Proof.
  intros Hl Hhalf Hx. unfold tcp_shift_rack_note_delivered. cbn zeta.
  destruct (_ || _) eqn:E; [done|]. destruct (_ && _); [done|].
  apply Forall_cons in Hhalf as [Hseg Hacc].
  set (st1 := st <| rk_rack_rtt_ns := _ |> <| rk_rack_ack_ts_ns := _ |>).
  assert (Hl1 : rack_latest st1 acc) by (eapply rack_latest_segment; [|exact Hl]; done). clearbody st1.
  assert (Hirr : tcp_shift_rack_sent_after (sg_xmit_ts_ns seg) (sg_end_seq seg)
    (sg_xmit_ts_ns seg) (sg_end_seq seg) = false).
  { apply not_true_iff_false. rewrite (sent_after_spec base) by done. lia. }
  destruct acc as [|a acc].
  { cbn in Hl1.
    assert (Es : forall x y, tcp_shift_rack_sent_after (sg_xmit_ts_ns seg) x
      (rk_rack_xmit_ts_ns st1) y = true).
    { intros x y. unfold tcp_shift_rack_sent_after. rewrite Hl1.
      by rewrite (proj2 (Z.gtb_lt _ _)) by lia. }
    rewrite Es. cbn [fst snd]. intros _.
    exists seg. split; [apply list_elem_of_here|]. split; [done|]. split; [done|].
    by constructor. }
  destruct Hl1 as (seg0 & Hin & Ex & Ee & Hf). rewrite Ex, Ee.
  assert (H0 : in_half base (sg_end_seq seg0)) by (rewrite Forall_forall in Hacc; by apply Hacc).
  destruct (tcp_shift_rack_sent_after _ _ _ _) eqn:Es in |- *; cbn [fst snd]; intros _.
  - exists seg. split; [apply list_elem_of_here|]. split; [done|]. split; [done|].
    apply Forall_cons. split; [done|]. apply Forall_forall. intros s Hs.
    rewrite Forall_forall in Hf, Hacc. specialize (Hf s Hs). specialize (Hacc s Hs). cbn in Hacc.
    apply not_true_iff_false in Hf. rewrite (sent_after_spec base) in Hf, Es by done.
    apply not_true_iff_false. rewrite (sent_after_spec base) by done. lia.
  - exists seg0. split; [by apply list_elem_of_further|]. split; [done|]. split; [done|].
    by apply Forall_cons.
Qed.

Lemma rack_run_latest base evs : forall st acc,
  rack_latest st acc ->
  Forall (fun s => in_half base (sg_end_seq s) /\ 0 <= sg_xmit_ts_ns s)
    (rack_accepted st evs ++ acc) ->
  rack_latest (fold_left rack_apply evs st) (rack_accepted st evs ++ acc).
Proof.
  induction evs as [|e evs IH]; intros st acc Hl Hh; [exact Hl|]. cbn in Hh |- *.
  rewrite <- app_assoc in Hh |- *. apply IH; [|exact Hh].
  apply Forall_app in Hh as [_ Hh].
  destruct (rack_accepted_step st e) as [|seg l] eqn:E.
  - eapply rack_latest_segment; [by apply rack_apply_segment|exact Hl].
  - destruct e; try done. cbn in E.
    destruct (_ =? 1) eqn:E1; [|done]. injection E as <- <-. apply Z.eqb_eq in E1.
    apply (rack_latest_step base); [done| | |done].
    + eapply Forall_impl; [exact Hh|]. by intros s [? _].
    + apply Forall_cons in Hh as [[_ ?] _]. done.
Qed.

(** After any sequence of calls, RACK's reference segment is the latest
    sent among the delivered segments that were accepted: it is one of them,
    and none of them was sent after it, in the order "transmission time, then
    sequence number" (all end sequences within half the sequence space).
    Before any delivery is accepted there is no reference segment. *)
Theorem rack_reference_is_latest base evs :
  Forall (fun s => in_half base (sg_end_seq s) /\ 0 <= sg_xmit_ts_ns s)
    (rack_accepted tcp_shift_rack_tlp_init evs) ->
  rack_latest (rack_run evs) (rack_accepted tcp_shift_rack_tlp_init evs).
Proof.
  intros H. rewrite <- (app_nil_r (rack_accepted tcp_shift_rack_tlp_init evs)).
  apply (rack_run_latest base); [done|]. by rewrite app_nil_r.
Qed.

Lemma rack_reference_is_latest_witness :
  let a := mk_segment 100 0 4294967290 false false in
  let b := mk_segment 100 4294967290 20 false false in
  rack_latest (rack_run [RkDelivered b 500; RkDelivered a 600]) [a; b].
Proof.
  intros a b.
  assert (E : rack_accepted tcp_shift_rack_tlp_init [RkDelivered b 500; RkDelivered a 600] = [a; b])
    by (vm_compute; reflexivity).
  rewrite <- E. apply (rack_reference_is_latest 4294967000). rewrite E.
  repeat (apply Forall_cons; split; [split; [reflexivity|discriminate]|]). apply Forall_nil_2.
Defined.

(** ** Loss detection *)

(** The reordering window of RFC 8985 section 6.2: a quarter of the minimum
    RTT times the DSACK multiplier, at most the smoothed RTT; none without an
    RTT sample, or without reordering once in recovery or three segments
    are SACKed. *)
Definition rack_window (st : tcp_shift_rack_tlp_state) (in_recovery : bool) : Z :=
  if (rk_min_rtt_ns st =? 0) ||
     (negb (rk_reordering_seen st) && (in_recovery || (3 <=? rk_segs_sacked st)))
  then 0
  else
    let w := Z.min UINT64_MAX (Z.max 1 (rk_min_rtt_ns st / 4) * rk_reo_wnd_mult st) in
    if rk_srtt_ns st =? 0 then w else Z.min (rk_srtt_ns st) w.

Definition rack_wf (st : tcp_shift_rack_tlp_state) : Prop :=
  Forall (fun x => in_u64 x) [rk_rack_xmit_ts_ns st; rk_rack_rtt_ns st; rk_min_rtt_ns st;
                              rk_srtt_ns st] /\
  1 <= rk_reo_wnd_mult st <= UINT32_MAX.

Lemma rack_reo_wnd_spec st r :
  rack_wf st -> (tcp_shift_rack_reo_wnd st r).1 = rack_window st r /\
  in_u64 (rack_window st r).
Proof.
  intros [H64 Hm]. forall_inv H64. unfold tcp_shift_rack_reo_wnd, rack_window.
  destruct (rk_min_rtt_ns st =? 0) eqn:E0; cbn [orb]; [by split; [done|lia]|].
  rewrite Z.geb_leb. destruct (_ && _); [by split; [done|lia]|]. cbn zeta.
  assert (0 <= rk_min_rtt_ns st / 4 <= UINT64_MAX) by div_lia.
  set (b := if _ / 4 =? 0 then _ else _).
  assert (Hb : b = Z.max 1 (rk_min_rtt_ns st / 4)) by (unfold b; case_match; lia).
  rewrite Hb, rack_mul_sat_spec by lia. cbn [fst].
  assert (0 <= Z.max 1 (rk_min_rtt_ns st / 4) * rk_reo_wnd_mult st) by nia.
  destruct (rk_srtt_ns st =? 0) eqn:Es; cbn [negb andb]; [split; lia|].
  destruct (_ >? _) eqn:Eg; split; lia.
Qed.

(** Deadline after which an unacknowledged segment counts as lost. *)
Definition rack_deadline (st : tcp_shift_rack_tlp_state) (seg : tcp_shift_rack_segment)
    (in_recovery : bool) : Z :=
  Z.min UINT64_MAX (sg_xmit_ts_ns seg + rk_rack_rtt_ns st + rack_window st in_recovery).

(** A segment RACK may judge: outstanding, sent before the RACK segment. *)
Definition rack_judges (st : tcp_shift_rack_tlp_state) (seg : tcp_shift_rack_segment) : bool :=
  negb (sg_xmit_ts_ns seg =? 0) && negb (rk_rack_xmit_ts_ns st =? 0) &&
  negb (rk_rack_rtt_ns st =? 0) && negb (sg_lost seg) &&
  tcp_shift_rack_sent_after (rk_rack_xmit_ts_ns st) (rk_rack_end_seq st)
    (sg_xmit_ts_ns seg) (sg_end_seq seg).

Lemma rack_loss_remaining_spec st seg now r :
  rack_wf st -> in_u64 (sg_xmit_ts_ns seg) -> in_u64 now ->
  let '(lost, _, remaining) := tcp_shift_rack_loss_remaining st seg now r in
  lost = (if rack_judges st seg && (rack_deadline st seg r <=? now) then 1 else 0) /\
  remaining = (if rack_judges st seg then Z.max 0 (rack_deadline st seg r - now) else 0).
Proof.
  intros Hst Hx Hn. destruct (rack_reo_wnd_spec st r Hst) as [Hw Hwr].
  pose proof Hst as [H64 _]. forall_inv H64.
  unfold tcp_shift_rack_loss_remaining, rack_judges.
  destruct (sg_xmit_ts_ns seg =? 0) eqn:E1; cbn [negb orb andb]; [done|].
  destruct (rk_rack_xmit_ts_ns st =? 0) eqn:E2; cbn [negb orb andb]; [done|].
  destruct (rk_rack_rtt_ns st =? 0) eqn:E3; cbn [negb orb andb]; [done|].
  destruct (sg_lost seg) eqn:E4; cbn [negb orb andb]; [done|].
  destruct (tcp_shift_rack_sent_after _ _ _ _) eqn:E5; cbn [negb]; [|done].
  pose proof (reo_wnd_frame st r) as Hf.
  destruct (tcp_shift_rack_reo_wnd st r) as [w st'] eqn:Er. cbn [fst snd] in Hw, Hf. cbn zeta in Hf.
  assert (Ert : rk_rack_rtt_ns st' = rk_rack_rtt_ns st) by (by rewrite Hf).
  rewrite Ert, Hw. rewrite (rack_add_sat_spec (sg_xmit_ts_ns seg)) by lia.
  rewrite rack_add_sat_spec by lia.
  replace (Z.min UINT64_MAX (Z.min UINT64_MAX _ + _)) with (rack_deadline st seg r)
    by (unfold rack_deadline; lia).
  assert (0 <= rack_deadline st seg r <= UINT64_MAX) by (unfold rack_deadline; lia).
  rewrite Z.geb_leb. cbn zeta. destruct (_ <=? now) eqn:E6; [split; [done|lia]|].
  split; [done|]. rewrite u64_small by lia. lia.
Qed.

(** C8. RACK declares a segment lost exactly when RFC 8985 does: it is
    outstanding, was sent before the reference segment, and one RACK RTT plus
    the reordering window has passed since it was sent. Otherwise the reported
    remaining time is positive for a segment under observation, and checking
    again after exactly that time declares the loss. *)
Theorem rack_loss_exact st seg now r :
  rack_wf st -> in_u64 (sg_xmit_ts_ns seg) -> in_u64 now ->
  let '(lost, _, remaining) := tcp_shift_rack_loss_remaining st seg now r in
  (lost = 1 <-> rack_judges st seg = true /\ rack_deadline st seg r <= now) /\
  (lost = 0 -> rack_judges st seg = true ->
   0 < remaining /\ now + remaining <= UINT64_MAX /\
   (tcp_shift_rack_loss_remaining st seg (now + remaining) r).1.1 = 1) /\
  (rack_judges st seg = false -> lost = 0 /\ remaining = 0).
Proof.
  intros Hst Hx Hn. pose proof (rack_loss_remaining_spec st seg now r Hst Hx Hn) as H.
  destruct (tcp_shift_rack_loss_remaining st seg now r) as [[lost st'] remaining].
  destruct H as [-> ->]. destruct (rack_judges st seg) eqn:Ej; cbn [andb]; [|easy].
  assert (Hd : rack_deadline st seg r <= UINT64_MAX) by (unfold rack_deadline; lia).
  split; [|split; [|done]].
  - destruct (_ <=? now) eqn:E; split; [lia|done|done|lia].
  - destruct (_ <=? now) eqn:E; [done|]. intros _ _. split; [lia|]. split; [lia|].
    rewrite Z.max_r by lia. replace (now + (rack_deadline st seg r - now))
      with (rack_deadline st seg r) by lia.
    pose proof (rack_loss_remaining_spec st seg (rack_deadline st seg r) r Hst Hx ltac:(lia)) as H2.
    destruct (tcp_shift_rack_loss_remaining _ _ _ _) as [[lost2 st2] rem2].
    destruct H2 as [-> _]. rewrite Ej, Z.leb_refl. done.
Qed.

Lemma rack_loss_exact_witness :
  let st := tcp_shift_rack_tlp_init <| rk_rack_xmit_ts_ns := 200 |> <| rk_rack_rtt_ns := 40 |>
    <| rk_min_rtt_ns := 40 |> <| rk_srtt_ns := 60 |> <| rk_rack_end_seq := 3000 |> in
  let seg := mk_segment 190 0 1460 false false in
  (tcp_shift_rack_loss_remaining st seg 235 false).1.1 = 0 /\
  (tcp_shift_rack_loss_remaining st seg 240 false).1.1 = 1.
Proof.
  intros st seg. split; [reflexivity|].
  destruct (rack_loss_exact st seg 240 false) as [H _].
  - split; [repeat (apply Forall_cons; split; [cbn; lia|]); apply Forall_nil_2|cbn; lia].
  - cbn; lia.
  - lia.
  - apply H. split; [reflexivity|]. vm_compute. discriminate.
Defined.

(** ** Tail-loss probes *)

(** The transport sends a probe only when [tcp_shift_tlp_probe_allowed]. *)
Fixpoint probes_guarded (st : tcp_shift_rack_tlp_state) (evs : list rack_event) : Prop :=
  match evs with
  | [] => True
  | e :: evs' =>
      match e with RkProbe _ _ _ => tcp_shift_tlp_probe_allowed st = true | _ => True end /\
      probes_guarded (rack_apply st e) evs'
  end.

(** An event that ends the probe episode with end sequence [end_seq]. *)
Definition ends_probe (end_seq : Z) (e : rack_event) : Prop :=
  e = RkReset \/
  exists a d u, e = RkAck a d u /\ tcp_shift_rack_seq_after_eq a end_seq = true.

Definition tlp_view (st : tcp_shift_rack_tlp_state) : Z * bool :=
  (rk_tlp_end_seq st, rk_rtt_sample_since_probe st).

(** How one event other than a probe changes the probe fields. *)
Lemma rack_apply_tlp st e :
  (forall s n r, e <> RkProbe s n r) ->
  (rk_tlp_end_seq (rack_apply st e) = rk_tlp_end_seq st \/
   ends_probe (rk_tlp_end_seq st) e) /\
  (rk_rtt_sample_since_probe (rack_apply st e) = rk_rtt_sample_since_probe st \/
   e = RkRttSample).
Proof.
  intros Hne.
  assert (Hsame : tlp_view (rack_apply st e) = tlp_view st ->
    (rk_tlp_end_seq (rack_apply st e) = rk_tlp_end_seq st \/
     ends_probe (rk_tlp_end_seq st) e) /\
    (rk_rtt_sample_since_probe (rack_apply st e) = rk_rtt_sample_since_probe st \/
     e = RkRttSample)) by (intros [= -> ->]; auto).
  destruct e; cbn [rack_apply] in *; try (by apply Hsame).
  - apply Hsame. unfold tcp_shift_rack_note_delivered. cbn zeta. by repeat case_match.
  - apply Hsame. unfold tcp_shift_rack_detect_reordering. by repeat case_match.
  - apply Hsame. unfold tcp_shift_rack_note_dsack. cbn zeta. by repeat case_match.
  - apply Hsame. unfold tcp_shift_rack_note_recovery_exit. cbn zeta. by repeat case_match.
  - apply Hsame. by rewrite (loss_remaining_frame st seg now in_recovery).
  - apply Hsame. by rewrite (lost_on_rto_frame st seg snd_una now in_recovery).
  - by edestruct Hne.
  - auto.
  - unfold tcp_shift_tlp_process_ack. destruct (_ || _) eqn:E; [by auto|].
    apply orb_false_iff in E as [_ E]. apply negb_false_iff in E.
    split; [right; right; by eauto|left]. by repeat case_match.
  - split; [right; by left|by left].
Qed.

(** Without a second probe in between, an allowed probe needs an RTT sample
    and, if the first had a nonzero end, an event that ended it. *)
Lemma tlp_between evs : forall st,
  probes_guarded st evs -> Forall (fun e => forall s n r, e <> RkProbe s n r) evs ->
  tcp_shift_tlp_probe_allowed (fold_left rack_apply evs st) = true ->
  (rk_rtt_sample_since_probe st = false -> RkRttSample ∈ evs) /\
  (rk_tlp_end_seq st <> 0 -> Exists (ends_probe (rk_tlp_end_seq st)) evs).
Proof.
  induction evs as [|e evs IH]; intros st Hg Hf Hal; cbn in *.
  { apply andb_true_iff in Hal as [He Hs]. split; [by rewrite Hs|lia]. }
  apply Forall_cons in Hf as [He Hf]. destruct Hg as [_ Hg].
  destruct (rack_apply_tlp st e He) as [H1 H2]. destruct (IH _ Hg Hf Hal) as [I1 I2]. split.
  - intros Hs. destruct H2 as [H2| ->]; [|apply list_elem_of_here].
    apply list_elem_of_further. apply I1. congruence.
  - intros Hz. rewrite Exists_cons. destruct H1 as [H1|H1]; [|by left].
    right. rewrite H1 in I2. by apply I2.
Qed.

Lemma probes_guarded_app l1 l2 : forall st,
  probes_guarded st (l1 ++ l2) <->
  probes_guarded st l1 /\ probes_guarded (fold_left rack_apply l1 st) l2.
Proof. induction l1 as [|e l1 IH]; intros st; cbn; [tauto|]. rewrite IH. tauto. Qed.

Lemma tlp_pto_spec st now rto flight delay :
  in_u64 (rk_srtt_ns st) -> in_u64 now -> 0 <= rto < UINT64_MAX -> in_u64 delay ->
  let pto := if rk_srtt_ns st =? 0 then 1000000000
             else Z.min UINT64_MAX (2 * rk_srtt_ns st + if flight =? 1 then delay else 0) in
  tcp_shift_tlp_calc_pto_ns (Some st) now rto flight delay =
    if now <? rto then Z.min pto (rto - now) else pto.
Proof.
  intros Hs Hn Hr Hd pto. unfold tcp_shift_tlp_calc_pto_ns. cbn zeta.
  set (p := if negb _ then _ else _).
  assert (Hp : p = pto /\ in_u64 pto).
  { unfold p, pto. destruct (rk_srtt_ns st =? 0); cbn [negb]; [lia|].
    rewrite rack_mul_sat_spec by lia. destruct (flight =? 1); [rewrite rack_add_sat_spec by lia|]; lia. }
  destruct Hp as [-> Hp]. clearbody pto. rewrite rack_add_sat_spec by lia.
  rewrite Z.gtb_ltb. destruct (now <? rto) eqn:E; cbn [andb]; [|done].
  rewrite (u64_small (rto - now)) by lia. destruct (_ >? rto) eqn:E1; lia.
Qed.

(** Tail-loss probes are rationed and timely. In any run in which probes
    are sent only when allowed, two successive probes are separated by a new
    RTT sample and, unless the first one ended at sequence number zero, by an
    event that ended its episode (a reset, or an acknowledgement at or beyond
    its end); and the probe timeout never reaches past a pending RTO. *)
Theorem tlp_single_probe l1 s1 n1 r1 l2 s2 n2 r2 l3 now rto flight delay :
  probes_guarded tcp_shift_rack_tlp_init
    (l1 ++ RkProbe s1 n1 r1 :: l2 ++ RkProbe s2 n2 r2 :: l3) ->
  Forall (fun e => forall s n r, e <> RkProbe s n r) l2 ->
  in_u64 (rk_srtt_ns (rack_run l1)) -> in_u64 now -> now < rto < UINT64_MAX -> in_u64 delay ->
  RkRttSample ∈ l2 /\ (n1 <> 0 -> Exists (ends_probe n1) l2) /\
  0 <= tcp_shift_tlp_calc_pto_ns (Some (rack_run l1)) now rto flight delay <= rto - now.
Proof.
  intros Hg Hf Hs Hn Hr Hd.
  apply probes_guarded_app in Hg as [_ [_ Hg]]. apply probes_guarded_app in Hg as [Hg [Hal _]].
  destruct (tlp_between l2 _ Hg Hf Hal) as [H1 H2].
  split; [by apply H1|]. split; [exact H2|].
  rewrite tlp_pto_spec by lia. rewrite (proj2 (Z.ltb_lt now rto)) by lia.
  repeat case_match; lia.
Qed.

Lemma tlp_single_probe_witness :
  let l := [RkAck 3000 false false; RkRttSample] in
  RkRttSample ∈ l /\ (2920 <> 0 -> Exists (ends_probe 2920) l) /\
  0 <= tcp_shift_tlp_calc_pto_ns (Some (rack_run [RkRtt 30 40; RkRttSample])) 1000 1050 2 0 <= 50.
Proof.
  intros l.
  apply (tlp_single_probe [RkRtt 30 40; RkRttSample] 1460 2920 false l 5000 6460 false []
    1000 1050 2 0).
  - vm_compute. repeat split; reflexivity.
  - repeat (apply Forall_cons; split; [discriminate|]). apply Forall_nil_2.
  - vm_compute. split; discriminate.
  - lia.
  - lia.
  - lia.
Defined.
