(* ===== verification/Prr.v ===== *)
(** * Proportional Rate Reduction ([src/lwip/prr.h], [src/lwip/prr.c])

    RFC 9937: how many bytes a sender in fast recovery may send in response to
    the data each ACK delivers. *)

From Stdlib Require Import ZArith Lia Bool List.
From stdpp Require Import base tactics numbers list.
From S2P Require Import Prelude.
Local Open Scope Z_scope.

Record tcp_shift_prr := mk_prr {
  pr_prr_delivered : Z;
  pr_prr_out : Z;
  pr_recover_fs : Z;
  pr_ssthresh : Z;
  pr_active : bool
}.
#[export] Instance eta_prr : Eta tcp_shift_prr := fun r =>
  mk_prr (pr_prr_delivered r) (pr_prr_out r) (pr_recover_fs r) (pr_ssthresh r) (pr_active r).

Record tcp_shift_prr_ack := mk_prr_ack {
  pa_delivered_data : Z;
  pa_inflight : Z;
  pa_smss : Z;
  pa_safe_ack : bool
}.

Record tcp_shift_prr_result := mk_prr_result { px_sndcnt : Z; px_cwnd : Z }.

Definition tcp_shift_prr_add_sat_u64 (a b : Z) : Z :=
  if UINT64_MAX -w64 a <? b then UINT64_MAX else a +w64 b.

Definition tcp_shift_prr_add_sat_u32 (a b : Z) : Z :=
  if b >? UINT32_MAX -w32 a then UINT32_MAX else a +w32 u32 b.

Definition tcp_shift_prr_div_round_up_product (value multiplier divisor : Z) : Z :=
  if divisor =? 0 then UINT64_MAX
  else
    let quotient := value / divisor in
    let remainder := value mod divisor in
    if quotient >? UINT64_MAX / multiplier then UINT64_MAX
    else
      let scaled_quotient := quotient *w64 multiplier in
      let scaled_remainder := remainder *w64 multiplier in
      let scaled_remainder :=
        scaled_remainder / divisor +w64
        (if negb (scaled_remainder mod divisor =? 0) then 1 else 0) in
      tcp_shift_prr_add_sat_u64 scaled_quotient scaled_remainder.

(** [memset] to zero. *)
Definition tcp_shift_prr_reset : tcp_shift_prr := mk_prr 0 0 0 0 false.

Definition tcp_shift_prr_init (prr : tcp_shift_prr) (recover_fs ssthresh : Z)
    : Z * tcp_shift_prr :=
  if (recover_fs =? 0) || (ssthresh =? 0) then (-1, prr)
  else (0, mk_prr 0 0 recover_fs ssthresh true).

(** The credit of an ACK that delivered data. *)
Definition prr_sndcnt (prr : tcp_shift_prr) (ack : tcp_shift_prr_ack) : Z :=
  let sndcnt :=
    if pa_inflight ack >? pr_ssthresh prr then
      let allowed := tcp_shift_prr_div_round_up_product (pr_prr_delivered prr)
                       (pr_ssthresh prr) (pr_recover_fs prr) in
      if allowed >? pr_prr_out prr then allowed -w64 pr_prr_out prr else 0
    else
      let delivered_minus_out :=
        if pr_prr_delivered prr >? pr_prr_out prr
        then pr_prr_delivered prr -w64 pr_prr_out prr else 0 in
      let sndcnt := if delivered_minus_out >? pa_delivered_data ack
                    then delivered_minus_out else pa_delivered_data ack in
      let sndcnt := if pa_safe_ack ack
                    then tcp_shift_prr_add_sat_u64 sndcnt (pa_smss ack) else sndcnt in
      let room := if pr_ssthresh prr >? pa_inflight ack
                  then pr_ssthresh prr -w32 pa_inflight ack else 0 in
      if sndcnt >? room then room else sndcnt in
  if (pr_prr_out prr =? 0) && (sndcnt =? 0) then pa_smss ack else sndcnt.

(** Result: the code, [*prr] and [*result]. *)
Definition tcp_shift_prr_on_ack (prr : tcp_shift_prr) (ack : tcp_shift_prr_ack)
    (result : tcp_shift_prr_result) : Z * tcp_shift_prr * tcp_shift_prr_result :=
  if negb (pr_active prr) || (pr_recover_fs prr =? 0) || (pr_ssthresh prr =? 0) ||
     (pa_smss ack =? 0)
  then (-1, prr, result)
  else if pa_delivered_data ack =? 0 then (0, prr, mk_prr_result 0 (pa_inflight ack))
  else
    let prr := prr <| pr_prr_delivered :=
      tcp_shift_prr_add_sat_u64 (pr_prr_delivered prr) (pa_delivered_data ack) |> in
    let sndcnt := prr_sndcnt prr ack in
    let sndcnt := if sndcnt >? UINT32_MAX then UINT32_MAX else u32 sndcnt in
    (0, prr, mk_prr_result sndcnt (tcp_shift_prr_add_sat_u32 (pa_inflight ack) sndcnt)).

Definition tcp_shift_prr_on_send (prr : tcp_shift_prr) (sent_bytes : Z) : Z * tcp_shift_prr :=
  if negb (pr_active prr) || (sent_bytes =? 0) then (-1, prr)
  else (0, prr <| pr_prr_out := tcp_shift_prr_add_sat_u64 (pr_prr_out prr) sent_bytes |>).

(** Result: the code, [*prr] and [*cwnd]. *)
Definition tcp_shift_prr_complete (prr : tcp_shift_prr) (cwnd : Z) : Z * tcp_shift_prr * Z :=
  if negb (pr_active prr) || (pr_ssthresh prr =? 0) then (-1, prr, cwnd)
  else (0, tcp_shift_prr_reset, pr_ssthresh prr).

(** ** Exactness *)

Lemma prr_add_sat_spec a b :
  in_u64 a -> in_u64 b -> tcp_shift_prr_add_sat_u64 a b = Z.min UINT64_MAX (a + b).
Proof. apply sat_add_u64_lt. Qed.

Lemma prr_add_sat_u32_spec a b :
  in_u32 a -> in_u32 b -> tcp_shift_prr_add_sat_u32 a b = Z.min UINT32_MAX (a + b).
Proof.
  intros. unfold tcp_shift_prr_add_sat_u32. rewrite (u32_small (_ - a)), (u32_small b) by lia.
  case_match; [lia|]. rewrite u32_small by lia. lia.
Qed.

Lemma prr_div_round_up_spec v m d :
  in_u64 v -> 1 <= m <= UINT32_MAX -> 1 <= d <= UINT32_MAX ->
  tcp_shift_prr_div_round_up_product v m d = Z.min UINT64_MAX (cdiv (v * m) d).
Proof.
  intros Hv Hm Hd. unfold tcp_shift_prr_div_round_up_product. destruct (d =? 0) eqn:E; [lia|].
  assert (Hq : 0 <= v / d <= v) by div_nia.
  pose proof (mod_mul_u64 v m d ltac:(lia) ltac:(lia)) as Hr.
  assert (Hs : cdiv (v * m) d = v / d * m + cdiv (v mod d * m) d).
  { unfold cdiv. rewrite (Z.div_mod v d) at 1 by lia.
    replace ((d * (v / d) + v mod d) * m + d - 1)
      with (v / d * m * d + (v mod d * m + d - 1)) by ring.
    by rewrite Z.div_add_l by lia. }
  pose proof (cdiv_bounds (v mod d * m) d ltac:(lia)) as Hc.
  pose proof (Z.mod_pos_bound v d ltac:(lia)) as Hmod.
  assert (Hcr : 0 <= cdiv (v mod d * m) d <= m) by nia.
  rewrite Z.gtb_ltb, div_ltb_mul by lia.
  destruct (_ <? v / d * m) eqn:E1; [lia|].
  rewrite (u64_small (v / d * m)), (u64_small (v mod d * m)) by nia. cbn zeta.
  assert (Ht : (v mod d * m) / d +w64 (if negb ((v mod d * m) mod d =? 0) then 1 else 0)
    = cdiv (v mod d * m) d).
  { revert Hcr. rewrite cdiv_alt by lia.
    destruct (_ =? 0) in |- *; cbn [negb]; intros Hcr; rewrite u64_small; lia. }
  rewrite Ht, prr_add_sat_spec, Hs by nia. lia.
Qed.

(** ** RFC 9937 *)

(** Section 6.2's SndCnt. [delivered] already counts the current ACK. *)
Definition rfc9937_sndcnt (delivered out recover_fs ssthresh : Z) (a : tcp_shift_prr_ack) : Z :=
  let credit :=
    if ssthresh <? pa_inflight a
    then Z.max 0 (cdiv (delivered * ssthresh) recover_fs - out)
    else Z.min (ssthresh - pa_inflight a)
           (Z.max (delivered - out) (pa_delivered_data a) +
            if pa_safe_ack a then pa_smss a else 0) in
  if (out =? 0) && (credit =? 0) then pa_smss a else credit.

Definition prr_wf (p : tcp_shift_prr) : Prop :=
  pr_active p = true /\ 1 <= pr_recover_fs p <= UINT32_MAX /\
  1 <= pr_ssthresh p <= UINT32_MAX /\ in_u64 (pr_prr_delivered p) /\ in_u64 (pr_prr_out p).

Definition prr_ack_wf (a : tcp_shift_prr_ack) : Prop :=
  in_u32 (pa_delivered_data a) /\ in_u32 (pa_inflight a) /\ 1 <= pa_smss a <= UINT32_MAX.

Lemma prr_sndcnt_spec p a :
  prr_wf p -> prr_ack_wf a -> pr_prr_delivered p + UINT32_MAX <= UINT64_MAX ->
  cdiv (pr_prr_delivered p * pr_ssthresh p) (pr_recover_fs p) <= UINT64_MAX ->
  prr_sndcnt p a = rfc9937_sndcnt (pr_prr_delivered p) (pr_prr_out p) (pr_recover_fs p)
                     (pr_ssthresh p) a.
Proof.
  intros (_ & Hf & Hs & Hd & Ho) (Ha & Hi & Hm) Hdb Hcb. unfold prr_sndcnt, rfc9937_sndcnt.
  rewrite prr_div_round_up_spec by done. rewrite Z.min_r by done.
  set (c := cdiv _ _) in *.
  assert (Hc : 0 <= c) by (unfold c; pose proof (cdiv_bounds (pr_prr_delivered p * pr_ssthresh p)
    (pr_recover_fs p) ltac:(lia)); nia).
  clearbody c.
  set (x := if pa_inflight a >? pr_ssthresh p then _ else _).
  set (y := if pr_ssthresh p <? pa_inflight a then _ else _).
  enough (x = y) as -> by done. unfold x, y. clear x y. rewrite Z.gtb_ltb.
  destruct (pr_ssthresh p <? pa_inflight a) eqn:E.
  - destruct (c >? pr_prr_out p) eqn:E1; [rewrite u64_small by lia|]; lia.
  - set (dmo := if pr_prr_delivered p >? _ then _ else 0).
    assert (Hdmo : dmo = Z.max 0 (pr_prr_delivered p - pr_prr_out p)).
    { unfold dmo. case_match; [rewrite u64_small by lia|]; lia. }
    rewrite Hdmo. clear dmo Hdmo.
    set (room := if pr_ssthresh p >? _ then _ else 0).
    assert (Hroom : room = pr_ssthresh p - pa_inflight a).
    { unfold room. case_match; [rewrite u32_small by lia|]; lia. }
    rewrite Hroom. clear room Hroom.
    destruct (pa_safe_ack a).
    + destruct (Z.max 0 _ >? _) eqn:E1; rewrite prr_add_sat_spec by lia; case_match; lia.
    + destruct (Z.max 0 _ >? _) eqn:E1; case_match; lia.
Qed.

(** No counter saturates and the proportion fits, as for any episode that
    delivers less than 2^32 times its flight size. *)
Definition prr_no_overflow (p : tcp_shift_prr) (a : tcp_shift_prr_ack) : Prop :=
  pr_prr_delivered p + pa_delivered_data a + UINT32_MAX <= UINT64_MAX /\
  cdiv ((pr_prr_delivered p + pa_delivered_data a) * pr_ssthresh p) (pr_recover_fs p)
    <= UINT64_MAX.

Lemma prr_on_ack_spec p a x :
  prr_wf p -> prr_ack_wf a -> prr_no_overflow p a ->
  let d := pr_prr_delivered p + pa_delivered_data a in
  let sc := rfc9937_sndcnt d (pr_prr_out p) (pr_recover_fs p) (pr_ssthresh p) a in
  let n := if pa_delivered_data a =? 0 then 0 else Z.min UINT32_MAX sc in
  tcp_shift_prr_on_ack p a x
    = (0, p <| pr_prr_delivered := d |>,
       mk_prr_result n (Z.min UINT32_MAX (pa_inflight a + n))) /\
  0 <= sc.
Proof.
  intros Hp Ha [Hb1 Hb2] d sc n. pose proof Hp as (Hact & Hf & Hs & Hd & Ho).
  pose proof Ha as (Hda & Hi & Hm).
  assert (Hc : 0 <= cdiv (d * pr_ssthresh p) (pr_recover_fs p)).
  { pose proof (cdiv_bounds (d * pr_ssthresh p) (pr_recover_fs p) ltac:(lia)). nia. }
  assert (Hsc : 0 <= sc).
  { unfold sc, rfc9937_sndcnt.
    destruct (pr_ssthresh p <? pa_inflight a) eqn:E; destruct (_ && _) eqn:E1;
      destruct (pa_safe_ack a); lia. }
  split; [|done]. unfold tcp_shift_prr_on_ack. rewrite Hact. cbn [negb orb].
  destruct (_ || _) eqn:E; [lia|]. unfold n. destruct (pa_delivered_data a =? 0) eqn:E0.
  - do 2 f_equal; [|rewrite Z.add_0_r, Z.min_r by lia; done].
    f_equal. destruct p; rec_eq. cbn in *. unfold d. lia.
  - cbn zeta. rewrite prr_add_sat_spec, Z.min_r by lia. fold d.
    rewrite prr_sndcnt_spec; cbn; try done; try lia; [|by split_and!; cbn; try done; lia].
    fold sc.
    assert (Hn : (if sc >? UINT32_MAX then UINT32_MAX else u32 sc) = Z.min UINT32_MAX sc)
      by (case_match; [lia|]; rewrite u32_small; lia).
    rewrite Hn, prr_add_sat_u32_spec by lia. done.
Qed.

(** C9. [tcp_shift_prr_on_ack] computes RFC 9937's SndCnt for every ACK that
    delivers data: the proportional share rounded up while more than ssthresh
    is in flight, and PRR-CRB or, on a safe ACK, PRR-SSRB below it, with one
    segment forced when nothing was ever sent. An ACK without new data grants
    nothing. Below ssthresh the granted window never exceeds ssthresh, except
    for that forced first segment. *)
Theorem prr_on_ack_refines_rfc9937 p a x :
  prr_wf p -> prr_ack_wf a -> prr_no_overflow p a ->
  let d := pr_prr_delivered p + pa_delivered_data a in
  let n := if pa_delivered_data a =? 0 then 0
           else Z.min UINT32_MAX (rfc9937_sndcnt d (pr_prr_out p) (pr_recover_fs p)
                                    (pr_ssthresh p) a) in
  tcp_shift_prr_on_ack p a x
    = (0, p <| pr_prr_delivered := d |>,
       mk_prr_result n (Z.min UINT32_MAX (pa_inflight a + n))) /\
  0 <= n /\
  (pa_inflight a <= pr_ssthresh p ->
   pa_inflight a + n <= pr_ssthresh p \/ (pr_prr_out p = 0 /\ n = pa_smss a)).
Proof.
  intros Hp Ha Hno d n. destruct (prr_on_ack_spec p a x Hp Ha Hno) as [H1 H2].
  fold d in H1, H2. split; [exact H1|].
  pose proof Ha as (Hda & Hi & Hm). split; [unfold n; case_match; lia|].
  intros Hle. unfold n. case_match; [left; lia|].
  unfold rfc9937_sndcnt. rewrite (proj2 (Z.ltb_ge _ _)) by lia.
  destruct (_ && _) eqn:E1; destruct (pa_safe_ack a); lia.
Qed.

Lemma prr_on_ack_refines_rfc9937_witness :
  let p := mk_prr 2920 1460 29200 20440 true in
  let a := mk_prr_ack 1460 26280 1460 false in
  tcp_shift_prr_on_ack p a (mk_prr_result 0 0)
  = (0, mk_prr 4380 1460 29200 20440 true, mk_prr_result 1606 27886).
Proof.
  intros p a. destruct (prr_on_ack_refines_rfc9937 p a (mk_prr_result 0 0)) as [H _].
  - repeat split; cbn; lia.
  - repeat split; cbn; lia.
  - split; vm_compute; discriminate.
  - exact H.
Defined.

(** ** A whole recovery episode *)

(** The ACKs seen so far (newest first), the state, and what is left of the
    last ACK's credit; the sender never sends beyond that credit. *)
Inductive prr_trace (fs ss : Z) : list tcp_shift_prr_ack -> tcp_shift_prr -> Z -> Prop :=
  | prr_trace_init p0 p :
      in_u32 fs -> in_u32 ss -> tcp_shift_prr_init p0 fs ss = (0, p) -> prr_trace fs ss [] p 0
  | prr_trace_ack acks p b a x0 p' x :
      prr_trace fs ss acks p b -> prr_ack_wf a -> prr_no_overflow p a ->
      tcp_shift_prr_on_ack p a x0 = (0, p', x) ->
      prr_trace fs ss (a :: acks) p' (px_sndcnt x)
  | prr_trace_send acks p b n p' :
      prr_trace fs ss acks p b -> 0 < n <= b -> in_u32 n ->
      tcp_shift_prr_on_send p n = (0, p') -> prr_trace fs ss acks p' (b - n).

Definition safe_bytes (acks : list tcp_shift_prr_ack) : Z :=
  foldr (fun a n => (if pa_safe_ack a then pa_smss a else 0) + n) 0 acks.
Definition largest_smss (acks : list tcp_shift_prr_ack) : Z :=
  foldr (fun a n => Z.max (pa_smss a) n) 0 acks.

Definition delivered_bytes (acks : list tcp_shift_prr_ack) : Z :=
  foldr (fun a n => pa_delivered_data a + n) 0 acks.

Lemma safe_bytes_cons a acks :
  safe_bytes (a :: acks) = (if pa_safe_ack a then pa_smss a else 0) + safe_bytes acks.
Proof. done. Qed.

Lemma largest_smss_cons a acks :
  largest_smss (a :: acks) = Z.max (pa_smss a) (largest_smss acks).
Proof. done. Qed.

Definition proportional (ss : Z) (a : tcp_shift_prr_ack) : Prop :=
  pa_delivered_data a = 0 \/ ss < pa_inflight a.

Lemma cdiv_mono a b d : 0 < d -> a <= b -> cdiv a d <= cdiv b d.
Proof. intros. unfold cdiv. apply Z.div_le_mono; lia. Qed.

Lemma cdiv_le_self v n d : 0 <= v -> 0 <= n <= d -> 0 < d -> cdiv (v * n) d <= v.
Proof.
  intros. unfold cdiv. apply Z.lt_succ_r, Z.div_lt_upper_bound; [lia|]. nia.
Qed.

(** The credit of one ACK against the two budgets of the episode. *)
Lemma rfc9937_sndcnt_bounds d out fs ss a :
  prr_ack_wf a -> 1 <= fs -> 1 <= ss -> pa_delivered_data a <= d -> 1 <= pa_delivered_data a ->
  0 <= out ->
  let n := rfc9937_sndcnt d out fs ss a in
  (ss < pa_inflight a -> out + n <= Z.max out (cdiv (d * ss) fs)) /\
  (ss <= fs -> out + n <= Z.max (pa_smss a)
     (Z.max d (out + pa_delivered_data a) + if pa_safe_ack a then pa_smss a else 0)).
Proof.
  intros (Hda & Hi & Hm) Hf Hs Hd H1 Ho n.
  assert (Hc1 : 1 <= cdiv (d * ss) fs).
  { pose proof (cdiv_bounds (d * ss) fs ltac:(lia)). nia. }
  pose proof (cdiv_le_self d ss fs) as Hc2. unfold n, rfc9937_sndcnt.
  destruct (ss <? pa_inflight a) eqn:E.
  - destruct (_ && _) eqn:E1; split; intros; destruct (pa_safe_ack a); lia.
  - split; [lia|]. intros. destruct (_ && _) eqn:E1; destruct (pa_safe_ack a); lia.
Qed.

Definition prr_budget (fs ss : Z) (acks : list tcp_shift_prr_ack) (p : tcp_shift_prr) (b : Z)
    : Prop :=
  prr_wf p /\ pr_recover_fs p = fs /\ pr_ssthresh p = ss /\
  pr_prr_delivered p = delivered_bytes acks /\ 0 <= b /\
  (Forall (proportional ss) acks ->
   pr_prr_out p + b <= cdiv (pr_prr_delivered p * ss) fs) /\
  (ss <= fs -> pr_prr_out p + b <= pr_prr_delivered p + safe_bytes acks + largest_smss acks).

Lemma prr_trace_budget fs ss acks p b :
  prr_trace fs ss acks p b -> prr_budget fs ss acks p b /\ 0 <= safe_bytes acks /\
  0 <= largest_smss acks.
Proof.
  induction 1 as [p0 p Hf Hs E|acks p b a x0 p' x _ IH Ha Hno E|acks p b n p' _ IH Hn Hn32 E].
  - unfold tcp_shift_prr_init in E. destruct (_ || _) eqn:E0; [done|]. injection E as <-.
    split; [|cbn; lia]. unfold prr_budget, prr_wf. split_and!; cbn; try done; try lia.
    intros _. unfold cdiv. rewrite Z.div_small; lia.
  - destruct IH as [(Hwf & Hfs & Hss & Hdel & Hb & HA & HB) [Hsb Hls]].
    destruct (prr_on_ack_spec p a x0 Hwf Ha Hno) as [H Hn0]. cbn zeta in Hn0. rewrite E in H. injection H as -> ->. cbn [px_sndcnt].
    destruct Hno as [Hno1 Hno2]. pose proof Hwf as (Hact & Hf & Hs & Hd & Ho).
    pose proof Ha as (Hda & Hi & Hm). rewrite Hfs, Hss in *.
    assert (Hmono : cdiv (pr_prr_delivered p * ss) fs <=
      cdiv ((pr_prr_delivered p + pa_delivered_data a) * ss) fs) by (apply cdiv_mono; nia).
    unfold prr_budget. rewrite safe_bytes_cons, largest_smss_cons.
    split; [|destruct (pa_safe_ack a); lia].
    split; [split_and!; cbn; rewrite ?Hfs, ?Hss; try done; lia|].
    split; [done|]. split; [done|]. split; [cbn; unfold delivered_bytes in Hdel; lia|].
    split; [destruct (pa_delivered_data a =? 0); lia|].
    set (n := if _ =? 0 then _ else _) in *. cbn [pr_prr_out pr_prr_delivered set_field].
    change (pr_prr_out (p <| pr_prr_delivered := _ |>)) with (pr_prr_out p).
    change (pr_prr_delivered (p <| pr_prr_delivered := ?v |>)) with v.
    unfold n in *. clear n. destruct (pa_delivered_data a =? 0) eqn:E0.
    { split.
      - intros [_ HF]%Forall_cons. specialize (HA HF). lia.
      - intros Hle. specialize (HB Hle). destruct (pa_safe_ack a); lia. }
    destruct (rfc9937_sndcnt_bounds (pr_prr_delivered p + pa_delivered_data a) (pr_prr_out p)
      fs ss a) as [B1 B2]; try done; try lia. split.
    + intros [Hpr HF]%Forall_cons. specialize (HA HF). destruct Hpr as [?|Hpr]; [lia|].
      specialize (B1 Hpr). lia.
    + intros Hle. specialize (HB Hle). specialize (B2 Hle). destruct (pa_safe_ack a); lia.
  - destruct IH as [(Hwf & Hfs & Hss & Hdel & Hb & HA & HB) [Hsb Hls]].
    unfold tcp_shift_prr_on_send in E. destruct (_ || _) eqn:E0; [done|]. injection E as <-.
    pose proof Hwf as (Hact & Hf & Hs & Hd & Ho). split; [|done].
    rewrite prr_add_sat_spec by lia.
    split; [split_and!; cbn; try done; lia|]. split; [done|]. split; [done|]. split; [done|]. split; [lia|].
    cbn. split; [intros HF; specialize (HA HF)|intros Hle; specialize (HB Hle)]; lia.
Qed.

(** What a whole recovery episode sends, whatever the interleaving of ACKs
    and of transmissions within the granted credit. While every ACK that
    delivers data finds more than ssthresh in flight, the bytes sent never
    exceed the bytes delivered scaled by ssthresh / RecoverFS (rounded up), so
    one round of at most RecoverFS delivered bytes sends at most ssthresh. For
    a reduction (ssthresh <= RecoverFS) the bytes sent never exceed the bytes
    delivered, plus one segment per safe ACK, plus one segment. *)
Theorem prr_recovery_bounds fs ss acks p b :
  prr_trace fs ss acks p b ->
  let delivered := delivered_bytes acks in
  pr_prr_delivered p = delivered /\
  (Forall (proportional ss) acks ->
   pr_prr_out p <= cdiv (delivered * ss) fs /\ (delivered <= fs -> pr_prr_out p <= ss)) /\
  (ss <= fs -> pr_prr_out p <= delivered + safe_bytes acks + largest_smss acks).
Proof.
  intros Ht delivered.
  destruct (prr_trace_budget fs ss acks p b Ht) as [(Hwf & Hfs & Hss & Hdel & Hb & HA & HB) _].
  pose proof Hwf as (_ & Hf & Hs & Hd & _). rewrite Hfs, Hss in *. fold delivered in Hdel.
  rewrite Hdel in *. split; [done|]. split; [|intros Hle; specialize (HB Hle); lia].
  intros HF. specialize (HA HF). split; [lia|]. intros Hle.
  enough (cdiv (delivered * ss) fs <= ss) by lia.
  rewrite Z.mul_comm. apply cdiv_le_self; lia.
Qed.

Lemma prr_recovery_bounds_witness :
  let a1 := mk_prr_ack 1460 26280 1460 false in
  let a2 := mk_prr_ack 2920 23360 1460 false in
  exists p b, prr_trace 29200 20440 [a2; a1] p b /\ pr_prr_out p = 1022 /\
    pr_prr_out p <= cdiv (4380 * 20440) 29200.
Proof.
  intros a1 a2.
  assert (Ht : prr_trace 29200 20440 [a2; a1] (mk_prr 4380 1022 29200 20440 true) 2044).
  { apply (prr_trace_ack _ _ _ (mk_prr 1460 1022 29200 20440 true) 0 a2 (mk_prr_result 0 0) _
             (mk_prr_result 2044 25404)).
    - apply (prr_trace_send _ _ [a1] (mk_prr 1460 0 29200 20440 true) 1022 1022);
        [|lia|cbn; lia|vm_compute; reflexivity].
      apply (prr_trace_ack _ _ _ (mk_prr 0 0 29200 20440 true) 0 a1 (mk_prr_result 0 0) _
               (mk_prr_result 1022 27302)).
      + apply (prr_trace_init _ _ (mk_prr 0 0 0 0 false)); [cbn; lia|cbn; lia|reflexivity].
      + repeat split; cbn; lia.
      + split; vm_compute; discriminate.
      + vm_compute; reflexivity.
    - repeat split; cbn; lia.
    - split; vm_compute; discriminate.
    - vm_compute; reflexivity. }
  exists (mk_prr 4380 1022 29200 20440 true), 2044. split; [exact Ht|]. split; [reflexivity|].
  destruct (prr_recovery_bounds _ _ _ _ _ Ht) as (_ & HA & _).
  refine (proj1 (HA _)).
  apply Forall_cons. split; [right; cbn; lia|].
  apply Forall_cons. split; [right; cbn; lia|]. apply Forall_nil. done.
Defined.
