(* ===== verification/FlowPacer.v ===== *)
(** * Per-flow pacing clock ([src/runtime/pacer.h], first half of [src/runtime/pacer.c])

    The conversion of a target rate into send eligibility times: the virtual
    send clock [next_send_ns] with its bounded catch-up, and the batching
    quantum. Every definition takes the pointees of its pointer arguments;
    [errno] is not kept. The theorems are about whole sequences of eligibility
    tests and transmissions: the token-bucket bound on the bytes sent, and the
    exactness of the deadline a deferred segment gets. *)

From Stdlib Require Import ZArith Lia Bool List.
From stdpp Require Import base tactics numbers list.
From S2P Require Import Prelude.
Local Open Scope Z_scope.

Abbreviation TCP_SHIFT_PACER_NSEC_PER_SEC := 1000000000.

Record tcp_shift_flow_pacer := mk_flow {
  fl_rate_bytes_per_sec : Z;
  fl_next_send_ns : Z;
  fl_max_catch_up_bytes : Z;
  fl_quantum_bytes : Z;
  fl_quantum_remaining_bytes : Z;
  fl_tx_events : Z;
  fl_tx_bytes : Z;
  fl_catch_up_clamps : Z;
  fl_quantum_grants : Z
}.
#[export] Instance eta_flow : Eta tcp_shift_flow_pacer := fun r =>
  mk_flow (fl_rate_bytes_per_sec r) (fl_next_send_ns r) (fl_max_catch_up_bytes r)
    (fl_quantum_bytes r) (fl_quantum_remaining_bytes r) (fl_tx_events r) (fl_tx_bytes r)
    (fl_catch_up_clamps r) (fl_quantum_grants r).

Definition tcp_shift_flow_pacer_spacing_ns (bytes rate_bytes_per_sec : Z) : Z :=
  if (bytes =? 0) || (rate_bytes_per_sec =? 0) then 0
  else
    let numerator := bytes *w64 TCP_SHIFT_PACER_NSEC_PER_SEC in
    let spacing := numerator / rate_bytes_per_sec in
    let spacing := if negb (numerator mod rate_bytes_per_sec =? 0)
                   then spacing +w64 1 else spacing in
    if spacing =? 0 then 1 else spacing.

Definition tcp_shift_flow_pacer_add_sat (left right : Z) : Z :=
  if right >? UINT64_MAX -w64 left then UINT64_MAX else left +w64 right.

Definition tcp_shift_flow_pacer_init (max_catch_up_bytes : Z) : tcp_shift_flow_pacer :=
  mk_flow 0 0 max_catch_up_bytes 0 0 0 0 0 0.

Definition tcp_shift_flow_pacer_reset (flow : tcp_shift_flow_pacer) : tcp_shift_flow_pacer :=
  let max_catch_up_bytes := fl_max_catch_up_bytes flow in
  mk_flow 0 0 max_catch_up_bytes 0 0 0 0 0 0.

Definition tcp_shift_flow_pacer_set_rate (flow : tcp_shift_flow_pacer)
    (rate_bytes_per_sec : Z) : tcp_shift_flow_pacer :=
  let flow := flow <| fl_rate_bytes_per_sec := rate_bytes_per_sec |> in
  if rate_bytes_per_sec =? 0 then flow <| fl_next_send_ns := 0 |> else flow.

Definition tcp_shift_flow_pacer_set_quantum (flow : tcp_shift_flow_pacer) (quantum_bytes : Z)
    : tcp_shift_flow_pacer :=
  if fl_quantum_bytes flow =? quantum_bytes then flow
  else flow <| fl_quantum_bytes := quantum_bytes |> <| fl_quantum_remaining_bytes := 0 |>.

Definition tcp_shift_flow_pacer_set_rate_quantum (flow : tcp_shift_flow_pacer)
    (rate_bytes_per_sec quantum_bytes : Z) : tcp_shift_flow_pacer :=
  let rate_changed := negb (fl_rate_bytes_per_sec flow =? rate_bytes_per_sec) in
  let flow := tcp_shift_flow_pacer_set_rate flow rate_bytes_per_sec in
  let flow := if rate_changed || negb (fl_quantum_bytes flow =? quantum_bytes)
              then flow <| fl_quantum_remaining_bytes := 0 |> else flow in
  flow <| fl_quantum_bytes := quantum_bytes |>.

(** Result: the code, [*flow] and [*deadline_ns]. *)
Definition tcp_shift_flow_pacer_segment_eligible (flow : tcp_shift_flow_pacer)
    (now_ns bytes deadline_ns : Z) : Z * tcp_shift_flow_pacer * Z :=
  if (now_ns =? 0) || (bytes =? 0) then (-1, flow, deadline_ns)
  else
    let deadline_ns := 0 in
    if fl_rate_bytes_per_sec flow =? 0 then (1, flow, deadline_ns)
    else if fl_quantum_remaining_bytes flow >=? bytes then
      (1, flow <| fl_quantum_remaining_bytes := fl_quantum_remaining_bytes flow -w32 bytes |>,
       deadline_ns)
    else
      let flow := flow <| fl_quantum_remaining_bytes := 0 |> in
      if negb (fl_next_send_ns flow =? 0) && (fl_next_send_ns flow >? now_ns)
      then (0, flow, fl_next_send_ns flow)
      else
        let allowance := fl_quantum_bytes flow in
        let allowance := if allowance <? bytes then bytes else allowance in
        (1, flow <| fl_quantum_remaining_bytes := allowance -w32 bytes |>
                 <| fl_quantum_grants := fl_quantum_grants flow +w64 1 |>, deadline_ns).

Definition tcp_shift_flow_pacer_deadline (flow : tcp_shift_flow_pacer) (now_ns : Z) : Z :=
  if (fl_rate_bytes_per_sec flow =? 0) || (fl_next_send_ns flow =? 0) ||
     (fl_next_send_ns flow <=? now_ns)
  then 0 else fl_next_send_ns flow.

Definition tcp_shift_flow_pacer_note_tx (flow : tcp_shift_flow_pacer) (now_ns bytes : Z)
    : Z * tcp_shift_flow_pacer :=
  if (now_ns =? 0) || (bytes =? 0) then (-1, flow)
  else if fl_rate_bytes_per_sec flow =? 0 then (0, flow <| fl_next_send_ns := 0 |>)
  else
    let spacing_ns := tcp_shift_flow_pacer_spacing_ns bytes (fl_rate_bytes_per_sec flow) in
    if spacing_ns =? 0 then (-1, flow)
    else
      let base_ns := fl_next_send_ns flow in
      let '(base_ns, flow) :=
        if base_ns =? 0 then (now_ns, flow)
        else if base_ns <? now_ns then
          let catch_up_ns := tcp_shift_flow_pacer_spacing_ns (fl_max_catch_up_bytes flow)
                               (fl_rate_bytes_per_sec flow) in
          let floor_ns := if catch_up_ns <? now_ns then now_ns -w64 catch_up_ns else 0 in
          if base_ns <? floor_ns
          then (floor_ns, flow <| fl_catch_up_clamps := fl_catch_up_clamps flow +w64 1 |>)
          else (base_ns, flow)
        else (base_ns, flow) in
      let flow := flow <| fl_next_send_ns := tcp_shift_flow_pacer_add_sat base_ns spacing_ns |> in
      let flow := flow <| fl_tx_events := fl_tx_events flow +w64 1 |> in
      let flow := flow <| fl_tx_bytes := tcp_shift_flow_pacer_add_sat (fl_tx_bytes flow) bytes |> in
      (0, flow).

(** ** Exactness *)

Lemma flow_add_sat_spec a b :
  in_u64 a -> in_u64 b -> tcp_shift_flow_pacer_add_sat a b = Z.min UINT64_MAX (a + b).
Proof. apply sat_add_u64_gt. Qed.

(** The spacing is the transmission time rounded up, without overflow. *)
Lemma flow_spacing_spec bytes rate :
  in_u32 bytes -> 1 <= rate <= UINT64_MAX ->
  tcp_shift_flow_pacer_spacing_ns bytes rate = cdiv (bytes * 1000000000) rate.
Proof.
  intros Hb Hr. unfold tcp_shift_flow_pacer_spacing_ns.
  destruct (bytes =? 0) eqn:E0; cbn [orb].
  { replace bytes with 0 by lia. unfold cdiv. rewrite Z.div_small; lia. }
  destruct (rate =? 0) eqn:E1; [lia|]. rewrite (u64_small (bytes * _)) by lia.
  rewrite cdiv_alt by lia. cbn zeta.
  assert (0 <= bytes * 1000000000 / rate <= bytes * 1000000000) by div_nia.
  destruct (_ mod _ =? 0) eqn:E2; cbn [negb].
  - destruct (_ =? 0) eqn:E3 in |- *; [|lia].
    pose proof (Z.div_mod (bytes * 1000000000) rate ltac:(lia)). nia.
  - rewrite u64_small by lia. destruct (_ =? 0) eqn:E3 in |- *; lia.
Qed.

Lemma flow_spacing_bounds bytes rate :
  in_u32 bytes -> 1 <= rate <= UINT64_MAX ->
  let s := tcp_shift_flow_pacer_spacing_ns bytes rate in
  0 <= s <= bytes * 1000000000 /\ bytes * 1000000000 <= s * rate < bytes * 1000000000 + rate.
Proof.
  intros Hb Hr s. unfold s. rewrite flow_spacing_spec by lia.
  pose proof (cdiv_bounds (bytes * 1000000000) rate ltac:(lia)). nia.
Qed.

(** ** Well-formed clocks *)

(** Field widths; [pacing] adds that the rate is set. *)
Definition flow_wf (f : tcp_shift_flow_pacer) : Prop :=
  in_u64 (fl_rate_bytes_per_sec f) /\ in_u64 (fl_next_send_ns f) /\
  in_u32 (fl_max_catch_up_bytes f) /\ in_u32 (fl_quantum_bytes f) /\
  in_u32 (fl_quantum_remaining_bytes f) /\ in_u64 (fl_tx_bytes f).

(** The base of the virtual clock for a transmission at [now]: the old
    deadline, but no more than the catch-up allowance behind [now]. *)
Definition flow_base (f : tcp_shift_flow_pacer) (now : Z) : Z :=
  if fl_next_send_ns f =? 0 then now
  else Z.max (fl_next_send_ns f)
         (now - cdiv (fl_max_catch_up_bytes f * 1000000000) (fl_rate_bytes_per_sec f)).

(** What a transmission changes. *)
Lemma flow_note_tx_spec f now bytes :
  flow_wf f -> 1 <= fl_rate_bytes_per_sec f -> 1 <= now <= UINT64_MAX -> 1 <= bytes <= UINT32_MAX ->
  exists f', tcp_shift_flow_pacer_note_tx f now bytes = (0, f') /\ flow_wf f' /\
    fl_rate_bytes_per_sec f' = fl_rate_bytes_per_sec f /\
    fl_max_catch_up_bytes f' = fl_max_catch_up_bytes f /\
    fl_quantum_bytes f' = fl_quantum_bytes f /\
    fl_quantum_remaining_bytes f' = fl_quantum_remaining_bytes f /\
    fl_tx_bytes f' = Z.min UINT64_MAX (fl_tx_bytes f + bytes) /\
    fl_next_send_ns f' = Z.min UINT64_MAX
      (flow_base f now + cdiv (bytes * 1000000000) (fl_rate_bytes_per_sec f)).
Proof.
  intros (Hr & Hn & Hc & Hq & Hqr & Ht) Hr1 Hnow Hb. unfold tcp_shift_flow_pacer_note_tx.
  destruct (_ || _) eqn:E0; [lia|]. destruct (fl_rate_bytes_per_sec f =? 0) eqn:E1; [lia|].
  pose proof (flow_spacing_bounds bytes (fl_rate_bytes_per_sec f) ltac:(lia) ltac:(lia)) as Hs.
  pose proof (flow_spacing_bounds (fl_max_catch_up_bytes f) (fl_rate_bytes_per_sec f)
                ltac:(lia) ltac:(lia)) as Hcu.
  cbn zeta in Hs, Hcu. rewrite !flow_spacing_spec in * by lia. unfold flow_base.
  set (s := cdiv (bytes * _) _) in *. set (cu := cdiv (fl_max_catch_up_bytes f * _) _) in *.
  destruct (s =? 0) eqn:E2; [nia|].
  destruct (fl_next_send_ns f =? 0) eqn:E3.
  { rewrite !flow_add_sat_spec by (cbn; lia). eexists; split; [done|].
    unfold flow_wf; cbn; repeat split; try done; lia. }
  destruct (fl_next_send_ns f <? now) eqn:E4.
  - destruct (cu <? now) eqn:E5; [rewrite (u64_small (now - cu)) by lia|];
      (destruct (_ <? _) eqn:E6 in |- *;
       rewrite !flow_add_sat_spec by (cbn; lia); eexists; (split; [done|]);
       unfold flow_wf; cbn; repeat split; try done; lia).
  - rewrite !flow_add_sat_spec by (cbn; lia). eexists; split; [done|].
    unfold flow_wf; cbn; repeat split; try done; lia.
Qed.

(** The three outcomes of the eligibility test on a paced flow. *)
Lemma flow_eligible_spec f now bytes d :
  flow_wf f -> 1 <= fl_rate_bytes_per_sec f -> 1 <= now <= UINT64_MAX -> 1 <= bytes <= UINT32_MAX ->
  let next := fl_next_send_ns f in
  exists rc f' d', tcp_shift_flow_pacer_segment_eligible f now bytes d = (rc, f', d') /\ flow_wf f' /\
    fl_rate_bytes_per_sec f' = fl_rate_bytes_per_sec f /\ fl_next_send_ns f' = next /\
    fl_max_catch_up_bytes f' = fl_max_catch_up_bytes f /\
    fl_quantum_bytes f' = fl_quantum_bytes f /\
    ( (bytes <= fl_quantum_remaining_bytes f /\ rc = 1 /\ d' = 0 /\
       fl_quantum_remaining_bytes f' = fl_quantum_remaining_bytes f - bytes)
    \/ (fl_quantum_remaining_bytes f < bytes /\ now < next /\ rc = 0 /\ d' = next /\
        fl_quantum_remaining_bytes f' = 0)
    \/ (fl_quantum_remaining_bytes f < bytes /\ next <= now /\ rc = 1 /\ d' = 0 /\
        fl_quantum_remaining_bytes f' = Z.max (fl_quantum_bytes f) bytes - bytes)).
Proof.
  intros (Hr & Hn & Hc & Hq & Hqr & Ht) Hr1 Hnow Hb next.
  unfold tcp_shift_flow_pacer_segment_eligible.
  destruct (_ || _) eqn:E0; [lia|]. destruct (fl_rate_bytes_per_sec f =? 0) eqn:E1; [lia|].
  destruct (_ >=? _) eqn:E2.
  { rewrite u32_small by lia. do 3 eexists. split; [done|]. unfold flow_wf; cbn.
    repeat split; try done; lia. }
  change (fl_next_send_ns (f <| fl_quantum_remaining_bytes := 0 |>)) with next.
  change (fl_quantum_bytes (f <| fl_quantum_remaining_bytes := 0 |>)) with (fl_quantum_bytes f).
  destruct (_ && _) eqn:E3.
  { do 3 eexists. split; [done|]. unfold flow_wf; cbn.
    repeat split; try done; lia. }
  do 3 eexists. split; [done|]. unfold flow_wf; cbn.
  destruct (fl_quantum_bytes f <? bytes) eqn:E4; rewrite !u32_small by lia;
    (repeat split; try done; lia).
Qed.

Lemma flow_set_rate_quantum_spec f r q :
  1 <= r ->
  let f' := tcp_shift_flow_pacer_set_rate_quantum f r q in
  fl_rate_bytes_per_sec f' = r /\ fl_quantum_bytes f' = q /\
  fl_next_send_ns f' = fl_next_send_ns f /\
  fl_max_catch_up_bytes f' = fl_max_catch_up_bytes f /\ fl_tx_bytes f' = fl_tx_bytes f /\
  fl_quantum_remaining_bytes f' =
    (if (fl_rate_bytes_per_sec f =? r) && (fl_quantum_bytes f =? q)
     then fl_quantum_remaining_bytes f else 0).
Proof.
  intros Hr. unfold tcp_shift_flow_pacer_set_rate_quantum, tcp_shift_flow_pacer_set_rate.
  destruct (r =? 0) eqn:E; [lia|]. cbn.
  destruct (fl_rate_bytes_per_sec f =? r); destruct (fl_quantum_bytes f =? q); done.
Qed.

(** ** Conformance to the published rate *)

Section Conformance.
(** Bounds on the published rates and quanta, and on a segment's size. *)
Context (rate_lo rate_hi quantum_max mss : Z).

(** The clock's state, the time and the bytes sent since [f0] at [t0]: the
    policy may change within the bounds, an eligible segment may or may not
    be sent, and its transmission is noted at or after its eligibility test. *)
Inductive pacing_trace (f0 : tcp_shift_flow_pacer) (t0 : Z)
    : tcp_shift_flow_pacer -> Z -> Z -> Prop :=
  | pacing_start : pacing_trace f0 t0 f0 t0 0
  | pacing_policy f t sent r q :
      pacing_trace f0 t0 f t sent -> rate_lo <= r <= rate_hi -> 0 <= q <= quantum_max ->
      pacing_trace f0 t0 (tcp_shift_flow_pacer_set_rate_quantum f r q) t sent
  | pacing_quantum f t sent q :
      pacing_trace f0 t0 f t sent -> 0 <= q <= quantum_max ->
      pacing_trace f0 t0 (tcp_shift_flow_pacer_set_quantum f q) t sent
  | pacing_wait f t sent t' :
      pacing_trace f0 t0 f t sent -> t <= t' < UINT64_MAX -> pacing_trace f0 t0 f t' sent
  | pacing_unsent f t sent n d rc f' d' :
      pacing_trace f0 t0 f t sent -> 1 <= n <= mss ->
      tcp_shift_flow_pacer_segment_eligible f t n d = (rc, f', d') ->
      pacing_trace f0 t0 f' t sent
  | pacing_sent f t sent n d f1 d' t' f' :
      pacing_trace f0 t0 f t sent -> 1 <= n <= mss ->
      tcp_shift_flow_pacer_segment_eligible f t n d = (1, f1, d') ->
      t <= t' < UINT64_MAX -> tcp_shift_flow_pacer_note_tx f1 t' n = (0, f') ->
      pacing_trace f0 t0 f' t' (sent + n).

(** A flow in the bounds whose unused allowance is at most one quantum. *)
Definition flow_in_bounds (f : tcp_shift_flow_pacer) : Prop :=
  flow_wf f /\ rate_lo <= fl_rate_bytes_per_sec f <= rate_hi /\
  fl_quantum_bytes f <= quantum_max /\ fl_quantum_remaining_bytes f <= quantum_max.

Hypothesis rate_range : 1 <= rate_lo <= rate_hi /\ rate_hi <= UINT64_MAX.
Hypothesis quantum_range : in_u32 quantum_max.
Hypothesis mss_range : in_u32 mss.

Definition catch_up_ns (f : tcp_shift_flow_pacer) : Z :=
  cdiv (fl_max_catch_up_bytes f * 1000000000) rate_lo.

(** The two budgets behind the bound: the virtual clock has advanced by the
    transmission time of what was sent, and what was sent plus the unused
    allowance fits the elapsed time plus one batch. *)
Definition pacing_budget (f0 : tcp_shift_flow_pacer) (t0 : Z)
    (f : tcp_shift_flow_pacer) (t sent : Z) : Prop :=
  flow_in_bounds f /\ fl_max_catch_up_bytes f = fl_max_catch_up_bytes f0 /\
  t0 <= t < UINT64_MAX /\ 0 <= sent /\
  (sent = 0 \/ fl_next_send_ns f = UINT64_MAX \/
   (1 <= fl_next_send_ns f /\
    sent * 1000000000 <= (fl_next_send_ns f - t0 + catch_up_ns f0) * rate_hi)) /\
  (sent + fl_quantum_remaining_bytes f) * 1000000000 <=
    (t - t0 + catch_up_ns f0) * rate_hi + Z.max quantum_max mss * 1000000000.

Lemma catch_up_mono f :
  flow_in_bounds f ->
  0 <= cdiv (fl_max_catch_up_bytes f * 1000000000) (fl_rate_bytes_per_sec f) <= catch_up_ns f.
Proof.
  intros (Hwf & Hr & _). destruct Hwf as (_ & _ & Hc & _). unfold catch_up_ns.
  set (a := fl_max_catch_up_bytes f * 1000000000) in *.
  set (r := fl_rate_bytes_per_sec f) in *.
  pose proof (cdiv_bounds a r ltac:(lia)) as [H1 H2].
  pose proof (cdiv_bounds a rate_lo ltac:(lia)) as [H3 H4].
  assert (0 <= cdiv a r) by nia. assert (0 <= cdiv a rate_lo) by nia. split; [done|].
  destruct (Z.lt_ge_cases (cdiv a rate_lo) (cdiv a r)) as [Hlt|]; [|done].
  assert (rate_lo * cdiv a rate_lo <= r * (cdiv a r - 1))
    by (apply Z.mul_le_mono_nonneg; lia). lia.
Qed.

(** An eligibility test keeps the budgets and, when it succeeds, sets the
    segment aside. *)
Lemma eligible_budget f0 t0 f t sent n d rc f' d' :
  pacing_budget f0 t0 f t sent -> 1 <= t0 -> 1 <= n <= mss -> 0 <= catch_up_ns f0 ->
  tcp_shift_flow_pacer_segment_eligible f t n d = (rc, f', d') ->
  pacing_budget f0 t0 f' t sent /\
  (rc = 1 -> (sent + n + fl_quantum_remaining_bytes f') * 1000000000 <=
    (t - t0 + catch_up_ns f0) * rate_hi + Z.max quantum_max mss * 1000000000).
Proof.
  intros ((Hwf & Hr & Hq & Hqr) & Hc & Ht & Hs & Hclk & Hbud) Ht0 Hn Hcu E.
  destruct (flow_eligible_spec f t n d) as
    (rc1 & f1 & d1 & E1 & Hwf1 & Er & En & Ec & Eq & Hout); try done; try lia.
  rewrite E in E1. injection E1 as <- <- <-.
  pose proof Hwf as (_ & _ & _ & Hq0 & Hqr0 & _). pose proof Hwf1 as (? & ? & ? & ? & Hqr1 & ?).
  unfold pacing_budget, flow_in_bounds. rewrite Er, En, Ec, Eq.
  destruct Hout as [(? & -> & -> & E2)|[(? & ? & -> & -> & E2)|(? & ? & -> & -> & E2)]];
    rewrite E2 in *.
  - repeat split; try done; lia.
  - repeat split; try done; nia.
  - assert (sent * 1000000000 <= (t - t0 + catch_up_ns f0) * rate_hi) by nia.
    repeat split; try done; lia.
Qed.

Lemma note_tx_budget f0 t0 f t sent n t' f' :
  pacing_budget f0 t0 f t sent -> 1 <= t0 -> 1 <= n <= mss -> 0 <= catch_up_ns f0 ->
  (sent + n + fl_quantum_remaining_bytes f) * 1000000000 <=
    (t - t0 + catch_up_ns f0) * rate_hi + Z.max quantum_max mss * 1000000000 ->
  t <= t' < UINT64_MAX -> tcp_shift_flow_pacer_note_tx f t' n = (0, f') ->
  pacing_budget f0 t0 f' t' (sent + n).
Proof.
  intros (Hib & Hc & Ht & Hs & Hclk & _) Ht0 Hn Hcu Hbud Ht' E.
  pose proof Hib as (Hwf & Hr & Hq & Hqr).
  destruct (flow_note_tx_spec f t' n) as
    (f1 & E1 & Hwf1 & Er & Ec & Eq & Eqr & _ & En); try done; try lia.
  rewrite E in E1. injection E1 as <-.
  pose proof (catch_up_mono f Hib) as Hm.
  pose proof (cdiv_bounds (n * 1000000000) (fl_rate_bytes_per_sec f) ltac:(lia)) as [Hsp _].
  assert (Hcf : catch_up_ns f = catch_up_ns f0) by (unfold catch_up_ns; by rewrite Hc).
  set (s := cdiv (n * _) _) in *.
  assert (Hs1 : 1 <= s) by nia. assert (Hs2 : n * 1000000000 <= s * rate_hi) by nia.
  pose proof Hwf1 as (? & ? & ? & ? & ? & ?).
  unfold pacing_budget, flow_in_bounds. rewrite Er, Ec, Eq, Eqr, En.
  pose proof Hwf as (_ & Hn0 & _). unfold flow_base in *.
  split; [repeat split; try done; lia|]. split; [done|]. split; [lia|]. split; [lia|].
  assert ((t - t0 + catch_up_ns f0) * rate_hi <= (t' - t0 + catch_up_ns f0) * rate_hi)
    by (apply Z.mul_le_mono_nonneg_r; lia).
  split; [|lia]. right. set (b := if _ =? 0 then _ else _) in *.
  destruct (Z.le_gt_cases UINT64_MAX (b + s)) as [?|Hlt]; [left; lia|right].
  rewrite Z.min_r by lia.
  assert (Hb : t0 - catch_up_ns f0 <= b /\ 0 <= b /\ (fl_next_send_ns f <= b)).
  { unfold b. destruct (_ =? 0) eqn:E0; lia. }
  assert ((s + (t0 - catch_up_ns f0)) * rate_hi <= (s + b) * rate_hi)
    by (apply Z.mul_le_mono_nonneg_r; lia).
  assert ((s + fl_next_send_ns f) * rate_hi <= (s + b) * rate_hi)
    by (apply Z.mul_le_mono_nonneg_r; lia).
  split; [lia|]. destruct Hclk as [->|[Hmax|[_ Hclk]]]; lia.
Qed.

Lemma policy_budget f0 t0 f t sent r q rem :
  pacing_budget f0 t0 f t sent -> rate_lo <= r <= rate_hi -> 0 <= q <= quantum_max ->
  0 <= rem <= fl_quantum_remaining_bytes f ->
  pacing_budget f0 t0 (f <| fl_rate_bytes_per_sec := r |> <| fl_quantum_bytes := q |>
                         <| fl_quantum_remaining_bytes := rem |>) t sent.
Proof.
  intros ((Hwf & Hr & Hq & Hqr) & Hc & Ht & Hs & Hclk & Hbud) Hr' Hq' Hrem.
  destruct Hwf as (? & ? & ? & ? & ? & ?).
  unfold pacing_budget, flow_in_bounds, flow_wf. cbn. repeat split; try done; lia.
Qed.

Lemma pacing_trace_budget f0 t0 f t sent :
  flow_in_bounds f0 -> 1 <= t0 < UINT64_MAX ->
  pacing_trace f0 t0 f t sent -> pacing_budget f0 t0 f t sent.
Proof.
  intros Hf0 Ht0 Htr.
  assert (Hcu : 0 <= catch_up_ns f0) by (pose proof (catch_up_mono f0 Hf0); lia).
  induction Htr as [|f t sent r q _ IH Hr Hq|f t sent q _ IH Hq|f t sent t' _ IH Ht
    |f t sent n d rc f' d' _ IH Hn E|f t sent n d f1 d' t' f' _ IH Hn E Ht E2].
  - split; [done|]. destruct Hf0 as (Hwf & Hr & Hq & Hqr). repeat split; try lia.
    nia.
  - pose proof IH as ((Hwf & _) & _). destruct Hwf as (_ & _ & _ & _ & Hrem & _).
    eapply (policy_budget _ _ _ _ _ r q
      (if (fl_rate_bytes_per_sec f =? r) && (fl_quantum_bytes f =? q)
       then fl_quantum_remaining_bytes f else 0)) in IH; [|lia|lia|destruct (_ && _); lia].
    unfold tcp_shift_flow_pacer_set_rate_quantum, tcp_shift_flow_pacer_set_rate.
    destruct (r =? 0) eqn:E; [lia|]. cbn in *.
    by destruct (fl_rate_bytes_per_sec f =? r); destruct (fl_quantum_bytes f =? q).
  - unfold tcp_shift_flow_pacer_set_quantum. destruct (_ =? _) eqn:E; [done|].
    pose proof IH as ((Hwf & Hr & _) & _). destruct Hwf as (_ & _ & _ & _ & Hrem & _).
    eapply (policy_budget _ _ _ _ _ (fl_rate_bytes_per_sec f) q 0) in IH; [|lia..]. done.
  - destruct IH as (Hib & Hc & Ht' & Hs & Hclk & Hbud).
    assert ((t - t0 + catch_up_ns f0) * rate_hi <= (t' - t0 + catch_up_ns f0) * rate_hi)
      by (apply Z.mul_le_mono_nonneg_r; lia).
    split; [done|]. repeat split; try done; lia.
  - eapply eligible_budget; [exact IH|lia|exact Hn|exact Hcu|exact E].
  - destruct (eligible_budget _ _ _ _ _ _ _ _ _ _ IH ltac:(lia) Hn Hcu E) as [IH1 Hbud].
    eapply note_tx_budget; [exact IH1|lia|exact Hn|exact Hcu|by apply Hbud|exact Ht|exact E2].
Qed.
End Conformance.

(** C2. Pacing conforms to a token bucket in every window of time. From any
    state of the clock at [t0], whatever the interleaving of policy updates,
    eligibility tests, failed sends and transmissions, the bytes handed to the
    transport by time [t] are at most what the highest published rate carries
    in [t - t0] plus the catch-up allowance, plus one batch (the larger of the
    largest quantum and the largest segment). The quantum and late timers
    change the grouping of segments, never the long-term rate. *)
Theorem flow_pacer_rate_conformance rate_lo rate_hi quantum_max mss f0 t0 f t sent :
  1 <= rate_lo <= rate_hi /\ rate_hi <= UINT64_MAX -> in_u32 quantum_max -> in_u32 mss ->
  flow_in_bounds rate_lo rate_hi quantum_max f0 -> 1 <= t0 < UINT64_MAX ->
  pacing_trace rate_lo rate_hi quantum_max mss f0 t0 f t sent ->
  sent * 1000000000 <=
    rate_hi * (t - t0 + cdiv (fl_max_catch_up_bytes f0 * 1000000000) rate_lo) +
    Z.max quantum_max mss * 1000000000.
Proof.
  intros Hr Hq Hm Hf0 Ht0 Htr.
  destruct (pacing_trace_budget _ _ _ _ Hr Hq Hm _ _ _ _ _ Hf0 Ht0 Htr)
    as (((_ & _ & _ & _ & Hrem & _) & _) & _ & _ & _ & _ & Hb).
  unfold catch_up_ns in Hb. lia.
Qed.

(** Two segments of a 10 MB/s flow with a two-segment quantum, then a deferral. *)
Lemma flow_pacer_rate_conformance_witness :
  let f0 := tcp_shift_flow_pacer_set_rate_quantum (tcp_shift_flow_pacer_init 3000) 10000000 3000 in
  exists f, pacing_trace 10000000 10000000 3000 1500 f0 1000 f 2000 3000 /\
    fl_next_send_ns f = 301000 /\
    3000 * 1000000000 <= 10000000 * (2000 - 1000 + cdiv (3000 * 1000000000) 10000000) +
      Z.max 3000 1500 * 1000000000.
Proof.
  intros f0.
  pose (f1 := mk_flow 10000000 151000 3000 3000 1500 1 1500 0 1).
  pose (f2 := mk_flow 10000000 301000 3000 3000 0 2 3000 0 1).
  assert (H1 : pacing_trace 10000000 10000000 3000 1500 f0 1000 f1 1000 1500).
  { apply (pacing_sent _ _ _ _ f0 1000 f0 1000 0 1500 0
      (mk_flow 10000000 0 3000 3000 1500 0 0 0 1) 0 1000 f1);
      [apply pacing_start|lia|vm_compute; reflexivity|lia|vm_compute; reflexivity]. }
  assert (H2 : pacing_trace 10000000 10000000 3000 1500 f0 1000 f2 2000 3000).
  { apply (pacing_sent _ _ _ _ f0 1000 f1 1000 1500 1500 0
      (mk_flow 10000000 151000 3000 3000 0 1 1500 0 1) 0 2000 f2);
      [exact H1|lia|vm_compute; reflexivity|lia|vm_compute; reflexivity]. }
  exists f2. split; [exact H2|]. split; [reflexivity|].
  refine (flow_pacer_rate_conformance 10000000 10000000 3000 1500 f0 1000 f2 2000 3000
            _ _ _ _ _ H2); try lia.
  repeat split; vm_compute; discriminate.
Defined.

(** A deferred segment gets the exact time at which it may be sent. The
    test returns 0 only on a paced flow whose allowance is used up and whose
    clock is ahead of [now]; the deadline it reports is the one
    [tcp_shift_flow_pacer_deadline] gives, is later than [now], stays in force
    until then and releases the segment from then on; and after a transmission
    it lies at most one transmission time past the later of the old deadline
    and [now], so a flow is never starved. *)
Theorem flow_pacer_deferral_exact f now bytes d f' d' :
  flow_wf f -> 1 <= now <= UINT64_MAX -> 1 <= bytes <= UINT32_MAX ->
  tcp_shift_flow_pacer_segment_eligible f now bytes d = (0, f', d') ->
  now < d' /\ d' = tcp_shift_flow_pacer_deadline f now /\
  (forall later d2, now <= later < d' ->
     (tcp_shift_flow_pacer_segment_eligible f' later bytes d2).1.1 = 0) /\
  (forall later d2, d' <= later <= UINT64_MAX ->
     exists f2, tcp_shift_flow_pacer_segment_eligible f' later bytes d2 = (1, f2, 0) /\
     exists f3, tcp_shift_flow_pacer_note_tx f2 later bytes = (0, f3) /\
       fl_next_send_ns f3 <= later + cdiv (bytes * 1000000000) (fl_rate_bytes_per_sec f)).
Proof.
  intros Hwf Hnow Hb E.
  assert (Hr : 1 <= fl_rate_bytes_per_sec f).
  { pose proof Hwf as (? & _). unfold tcp_shift_flow_pacer_segment_eligible in E.
    destruct (_ || _) eqn:E0 in E; [lia|].
    destruct (fl_rate_bytes_per_sec f =? 0) eqn:E1; [done|lia]. }
  destruct (flow_eligible_spec f now bytes d) as
    (rc & f1 & d1 & E1 & Hwf1 & Er & En & Ec & Eq & Hout); try done.
  rewrite E in E1. injection E1 as <- <- <-.
  destruct Hout as [(_ & ? & _)|[(Hq & Hlt & _ & -> & Erem)|(_ & _ & ? & _)]]; try done.
  split; [done|]. split.
  { unfold tcp_shift_flow_pacer_deadline. destruct (_ || _) eqn:E1; [lia|done]. }
  pose proof Hwf as (_ & Hn & _). split; intros later d2 Hl.
  - destruct (flow_eligible_spec f' later bytes d2) as
      (rc & f2 & d3 & -> & _ & _ & _ & _ & _ & Hout); try done; try lia.
    cbn. rewrite En, Erem in Hout. lia.
  - destruct (flow_eligible_spec f' later bytes d2) as
      (rc & f2 & d3 & -> & Hwf2 & Er2 & En2 & Ec2 & _ & Hout); try done; try lia.
    rewrite En, Erem in Hout. exists f2.
    assert (rc = 1 /\ d3 = 0) as [-> ->] by lia. split; [done|].
    destruct (flow_note_tx_spec f2 later bytes) as
      (f3 & E3 & _ & _ & _ & _ & _ & _ & Hn3); try done; try lia.
    exists f3. split; [done|]. rewrite Hn3. unfold flow_base.
    rewrite En2, En, Er2, Er. pose proof Hwf2 as (_ & _ & Hc2 & _).
    pose proof (cdiv_bounds (fl_max_catch_up_bytes f2 * 1000000000)
      (fl_rate_bytes_per_sec f) ltac:(lia)).
    assert (0 <= cdiv (fl_max_catch_up_bytes f2 * 1000000000) (fl_rate_bytes_per_sec f)) by nia.
    destruct (_ =? 0) eqn:E4 in |- *; lia.
Qed.

Lemma flow_pacer_deferral_exact_witness :
  let f := mk_flow 10000000 301000 3000 3000 0 2 3000 0 1 in
  tcp_shift_flow_pacer_segment_eligible f 2000 1500 0 = (0, f, 301000) /\
  exists f2, tcp_shift_flow_pacer_segment_eligible f 301000 1500 0 = (1, f2, 0).
Proof.
  intros f. split; [reflexivity|].
  destruct (flow_pacer_deferral_exact f 2000 1500 0 f 301000) as (_ & _ & _ & H).
  - repeat split; vm_compute; discriminate.
  - lia.
  - lia.
  - reflexivity.
  - destruct (H 301000 0 ltac:(lia)) as (f2 & H2 & _). exists f2. exact H2.
Defined.
