(* ===== verification/PacerHeap.v ===== *)
(** * Event heap of the pacing scheduler ([src/runtime/pacer.c])

    The binary min-heap of pacing events: the order on events, the swap, the
    two sifts, [heapify] and the compaction loop of a cancellation, as
    operations on the heap buffer, with the proofs that they keep the heap
    order and the multiset of the live events.

    The buffer is the list of its [heap_cap] slots, of which the first
    [heap_len] are live; a slot is read with [!!!] and written with [<[_:=_]>].
    Indices are [nat]: a scheduler holds at most [SIZE_MAX / 24] events, so
    [2 * index + 2] does not wrap (that bound is part of [PacerSpec.heap_wf]). *)

From Stdlib Require Import ZArith Lia Bool List.
From stdpp Require Import base tactics numbers list.
From S2P Require Import Prelude.
Local Open Scope Z_scope.

Record tcp_shift_pacer_event := mk_event {
  ev_deadline_ns : Z;
  ev_flow_id : Z;
  ev_generation : Z;
  ev_bytes : Z
}.
#[export] Instance event_inhabited : Inhabited tcp_shift_pacer_event :=
  populate (mk_event 0 0 0 0).
#[export] Instance event_eq_dec : EqDecision tcp_shift_pacer_event.
Proof. solve_decision. Defined.

Definition tcp_shift_pacer_event_less (a b : tcp_shift_pacer_event) : bool :=
  if negb (ev_deadline_ns a =? ev_deadline_ns b) then ev_deadline_ns a <? ev_deadline_ns b
  else if negb (ev_flow_id a =? ev_flow_id b) then ev_flow_id a <? ev_flow_id b
  else if negb (ev_generation a =? ev_generation b) then ev_generation a <? ev_generation b
  else ev_bytes a <? ev_bytes b.

(** ** Loops over the buffer *)

Local Open Scope nat_scope.

Abbreviation buffer := (list tcp_shift_pacer_event).

Definition tcp_shift_pacer_swap (heap : buffer) (a b : nat) : buffer :=
  let tmp := heap !!! a in
  <[b := tmp]> (<[a := heap !!! b]> heap).

(** Fuel: [index] at least halves, so [S index] rounds reach the root. *)
Fixpoint sift_up_loop (fuel : nat) (heap : buffer) (index : nat) : buffer :=
  match fuel with
  | O => heap
  | S fuel =>
      if index =? 0 then heap
      else
        let parent := (index - 1) / 2 in
        if negb (tcp_shift_pacer_event_less (heap !!! index) (heap !!! parent)) then heap
        else sift_up_loop fuel (tcp_shift_pacer_swap heap index parent) parent
  end.

Definition sift_up (heap : buffer) (index : nat) : buffer :=
  sift_up_loop (S index) heap index.

(** Fuel: [index] grows and stays below [heap_len]. *)
Fixpoint sift_down_loop (fuel : nat) (heap_len : nat) (heap : buffer) (index : nat) : buffer :=
  match fuel with
  | O => heap
  | S fuel =>
      let left := index * 2 + 1 in
      let right := left + 1 in
      let smallest := index in
      let smallest :=
        if (left <? heap_len) && tcp_shift_pacer_event_less (heap !!! left) (heap !!! smallest)
        then left else smallest in
      let smallest :=
        if (right <? heap_len) && tcp_shift_pacer_event_less (heap !!! right) (heap !!! smallest)
        then right else smallest in
      if smallest =? index then heap
      else sift_down_loop fuel heap_len (tcp_shift_pacer_swap heap index smallest) smallest
  end.

Definition sift_down (heap_len : nat) (heap : buffer) (index : nat) : buffer :=
  sift_down_loop (S heap_len) heap_len heap index.

Fixpoint heapify_loop (heap_len : nat) (heap : buffer) (i : nat) : buffer :=
  match i with
  | O => heap
  | S i => heapify_loop heap_len (sift_down heap_len heap i) i
  end.

Definition heapify (heap_len : nat) (heap : buffer) : buffer :=
  if heap_len <? 2 then heap else heapify_loop heap_len heap (heap_len / 2).

(** The first live slot that holds [event]; [None] when there is none. *)
Fixpoint rollback_index (fuel rollback : nat) (heap : buffer) (event : tcp_shift_pacer_event)
    : option nat :=
  match fuel with
  | O => None
  | S fuel =>
      let slot := heap !!! rollback in
      if ((ev_deadline_ns slot =? ev_deadline_ns event)%Z &&
          (ev_flow_id slot =? ev_flow_id event)%Z &&
          (ev_generation slot =? ev_generation event)%Z &&
          (ev_bytes slot =? ev_bytes event)%Z)
      then Some rollback
      else rollback_index fuel (S rollback) heap event
  end.

(** The compaction of [tcp_shift_pacer_cancel], over the remaining [todo]
    slots: the buffer, [write_index] and [removed]. *)
Fixpoint cancel_loop (todo read_index write_index removed : nat) (heap : buffer)
    (flow_id generation : Z) : buffer * nat * nat :=
  match todo with
  | O => (heap, write_index, removed)
  | S todo =>
      let event := heap !!! read_index in
      if (ev_flow_id event =? flow_id)%Z && (ev_generation event =? generation)%Z
      then cancel_loop todo (S read_index) write_index (S removed) heap flow_id generation
      else
        let heap := if negb (write_index =? read_index)
                    then <[write_index := event]> heap else heap in
        cancel_loop todo (S read_index) (S write_index) removed heap flow_id generation
  end.

(** ** The order on events *)

(** [a] is not after [b]. *)
Definition event_le (a b : tcp_shift_pacer_event) : Prop :=
  tcp_shift_pacer_event_less b a = false.

Lemma event_less_spec a b :
  tcp_shift_pacer_event_less a b = true <->
  (ev_deadline_ns a < ev_deadline_ns b \/ (ev_deadline_ns a = ev_deadline_ns b /\
   (ev_flow_id a < ev_flow_id b \/ (ev_flow_id a = ev_flow_id b /\
    (ev_generation a < ev_generation b \/ (ev_generation a = ev_generation b /\
     ev_bytes a < ev_bytes b))))))%Z.
Proof.
  unfold tcp_shift_pacer_event_less.
  destruct (Z.eqb_spec (ev_deadline_ns a) (ev_deadline_ns b)); cbn [negb]; [|lia].
  destruct (Z.eqb_spec (ev_flow_id a) (ev_flow_id b)); cbn [negb]; [|lia].
  destruct (Z.eqb_spec (ev_generation a) (ev_generation b)); cbn [negb]; lia.
Qed.

Lemma event_le_spec a b : event_le a b <-> ~ (tcp_shift_pacer_event_less b a = true).
Proof. unfold event_le. by destruct (tcp_shift_pacer_event_less b a). Qed.

Lemma event_le_refl a : event_le a a.
Proof. rewrite event_le_spec, event_less_spec. lia. Qed.

Lemma event_le_trans a b c : event_le a b -> event_le b c -> event_le a c.
Proof. rewrite !event_le_spec, !event_less_spec. lia. Qed.

Lemma event_less_le a b : tcp_shift_pacer_event_less a b = true -> event_le a b.
Proof. rewrite event_le_spec, !event_less_spec. lia. Qed.

Lemma event_le_antisym a b : event_le a b -> event_le b a -> a = b.
Proof.
  rewrite !event_le_spec, !event_less_spec. destruct a, b; cbn. intros.
  f_equal; lia.
Qed.

Lemma event_le_deadline a b : event_le a b -> (ev_deadline_ns a <= ev_deadline_ns b)%Z.
Proof. rewrite event_le_spec, event_less_spec. lia. Qed.

Create HintDb heap.
#[export] Hint Resolve event_le_refl event_less_le : heap.

(** ** Swapping live slots *)

(** The live events. *)
Definition live (len : nat) (h : buffer) : list tcp_shift_pacer_event := take len h.

Lemma swap_length h i j : length (tcp_shift_pacer_swap h i j) = length h.
Proof. unfold tcp_shift_pacer_swap. by rewrite !length_insert. Qed.

Lemma swap_lookup h i j k :
  i < length h -> j < length h ->
  tcp_shift_pacer_swap h i j !!! k =
  if k =? j then h !!! i else if k =? i then h !!! j else h !!! k.
Proof.
  intros Hi Hj. unfold tcp_shift_pacer_swap.
  rewrite !list_lookup_total_insert, length_insert.
  destruct (Nat.eqb_spec k j), (Nat.eqb_spec k i); repeat case_decide; (done || lia).
Qed.

Lemma live_lookup len h i : i < len -> live len h !!! i = h !!! i.
Proof. apply lookup_total_take_lt. Qed.

Lemma live_length len h : len <= length h -> length (live len h) = len.
Proof. intros. unfold live. rewrite length_take. lia. Qed.

(** Buffers with the same live events up to a transposition. *)
Lemma swap_live len h i j :
  len <= length h -> i < len -> j < len ->
  live len (tcp_shift_pacer_swap h i j) ≡ₚ live len h.
Proof.
  intros Hlen Hi Hj. apply Permutation_inj. split.
  { rewrite !live_length; [done|lia|rewrite swap_length; lia]. }
  exists (fun k => if k =? j then i else if k =? i then j else k). split.
  { intros a b. destruct (Nat.eqb_spec a j), (Nat.eqb_spec b j), (Nat.eqb_spec a i),
      (Nat.eqb_spec b i); lia. }
  intros k. unfold live. destruct (Nat.lt_ge_cases k len) as [Hk|Hk].
  - rewrite !lookup_take_lt by (destruct (k =? j), (k =? i); lia).
    rewrite !list_lookup_lookup_total_lt
      by (rewrite ?swap_length; destruct (k =? j), (k =? i); lia).
    rewrite swap_lookup by lia. destruct (k =? j), (k =? i); done.
  - rewrite !lookup_take_ge; [done|..];
      destruct (Nat.eqb_spec k j), (Nat.eqb_spec k i); lia.
Qed.

(** ** Heap order *)

Definition parent (i : nat) : nat := (i - 1) / 2.

Lemma parent_spec i p : 0 < i -> parent i = p <-> i = 2 * p + 1 \/ i = 2 * p + 2.
Proof.
  intros Hi. unfold parent. pose proof (Nat.div_mod_eq (i - 1) 2).
  pose proof (Nat.mod_upper_bound (i - 1) 2). lia.
Qed.

Lemma parent_lt i : 0 < i -> parent i < i.
Proof. intros Hi. pose proof (proj1 (parent_spec i (parent i) Hi) eq_refl). lia. Qed.

(** Every live slot whose parent is at or after [s] respects the order. *)
Definition heap_from (s len : nat) (h : buffer) : Prop :=
  forall i, 0 < i < len -> s <= parent i -> event_le (h !!! parent i) (h !!! i).
Abbreviation heap_ok := (heap_from 0).

(** The order holds everywhere but between [k] and its parent. *)
Definition heap_but_up (k len : nat) (h : buffer) : Prop :=
  (forall i, 0 < i < len -> i <> k -> event_le (h !!! parent i) (h !!! i)) /\
  (forall i, 0 < i < len -> parent i = k -> 0 < k -> event_le (h !!! parent k) (h !!! i)).

(** The order from [s] on holds everywhere but between [k] and its children. *)
Definition heap_but_down (s k len : nat) (h : buffer) : Prop :=
  (forall i, 0 < i < len -> s <= parent i -> parent i <> k ->
     event_le (h !!! parent i) (h !!! i)) /\
  (forall i, 0 < i < len -> parent i = k -> 0 < k -> s <= parent k ->
     event_le (h !!! parent k) (h !!! i)).

Lemma sift_up_step k len h :
  len <= length h -> 0 < k < len -> heap_but_up k len h ->
  tcp_shift_pacer_event_less (h !!! k) (h !!! parent k) = true ->
  heap_but_up (parent k) len (tcp_shift_pacer_swap h k (parent k)).
Proof.
  intros Hlen Hk [H1 H2] Hless. pose proof (parent_lt k ltac:(lia)) as Hp.
  assert (Hkp : event_le (h !!! k) (h !!! parent k)) by auto with heap.
  set (p := parent k) in *. split; intros i Hi.
  - intros Hne. pose proof (parent_lt i ltac:(lia)) as Hpi.
    rewrite !swap_lookup by lia. destruct (Nat.eqb_spec i p); [done|].
    destruct (Nat.eqb_spec i k) as [->|Hik].
    { fold p. by rewrite Nat.eqb_refl. }
    destruct (Nat.eqb_spec (parent i) p) as [Hpp|Hpp].
    { eapply event_le_trans; [exact Hkp|]. rewrite <- Hpp. by apply H1. }
    destruct (Nat.eqb_spec (parent i) k) as [Hpk|Hpk]; [apply H2; lia|by apply H1].
  - intros Hpi Hp0. pose proof (parent_lt p Hp0).
    rewrite !swap_lookup by lia.
    destruct (Nat.eqb_spec (parent p) p); [lia|]. destruct (Nat.eqb_spec (parent p) k); [lia|].
    destruct (Nat.eqb_spec i p) as [->|]; [lia|].
    destruct (Nat.eqb_spec i k) as [->|Hik]; [apply H1; lia|].
    eapply event_le_trans; [apply (H1 p); lia|]. rewrite <- Hpi. by apply H1.
Qed.

Lemma sift_up_loop_ok fuel k len h :
  k < fuel -> len <= length h -> k < len -> heap_but_up k len h ->
  let h' := sift_up_loop fuel h k in
  heap_ok len h' /\ live len h' ≡ₚ live len h /\ length h' = length h.
Proof.
  revert k h. induction fuel as [|fuel IH]; intros k h Hf Hlen Hk Hb; [lia|]. cbn.
  destruct (Nat.eqb_spec k 0) as [->|Hk0].
  { split; [|done]. intros i Hi _. apply Hb; lia. }
  fold (parent k). destruct (tcp_shift_pacer_event_less _ _) eqn:E; cbn [negb].
  - pose proof (parent_lt k ltac:(lia)).
    destruct (IH (parent k) (tcp_shift_pacer_swap h k (parent k))) as (H1 & H2 & H3);
      [lia|rewrite swap_length; lia|lia|by apply sift_up_step; [|lia|..]|].
    rewrite swap_length in H3. split; [done|]. split; [|done].
    rewrite H2. apply swap_live; lia.
  - split; [|done]. intros i Hi _. destruct (Nat.eq_dec i k) as [->|]; [done|by apply Hb].
Qed.

(** The slot [sift_down] descends to: a smallest among [k] and its children. *)
Lemma sift_down_step s k c len h :
  len <= length h -> c < len -> 0 < c -> parent c = k -> heap_but_down s k len h ->
  event_le (h !!! c) (h !!! k) ->
  (forall i, 0 < i < len -> parent i = k -> event_le (h !!! c) (h !!! i)) ->
  heap_but_down s c len (tcp_shift_pacer_swap h k c).
Proof.
  intros Hlen Hc Hc0 Hck [H1 H2] Hle Hmin. pose proof (parent_lt c Hc0) as Hkc.
  split; intros i Hi.
  - intros Hs Hne. pose proof (parent_lt i ltac:(lia)) as Hpi. rewrite !swap_lookup by lia.
    destruct (Nat.eqb_spec (parent i) c) as [|_]; [done|].
    destruct (Nat.eqb_spec i c) as [->|Hic].
    { rewrite Hck, Nat.eqb_refl. done. }
    destruct (Nat.eqb_spec (parent i) k) as [Hpk|Hpk].
    { destruct (Nat.eqb_spec i k); [lia|]. by apply Hmin. }
    destruct (Nat.eqb_spec i k) as [->|]; [apply H2; lia|by apply H1].
  - intros Hpi _ Hs. pose proof (parent_lt i ltac:(lia)) as Hpi'.
    rewrite !swap_lookup by lia. rewrite Hck, Nat.eqb_refl.
    destruct (Nat.eqb_spec k c); [lia|]. destruct (Nat.eqb_spec i c); [lia|].
    destruct (Nat.eqb_spec i k); [lia|]. rewrite <- Hpi. apply H1; lia.
Qed.

Lemma sift_down_loop_ok fuel s k len h :
  len - k < fuel -> len <= length h -> k < len -> heap_but_down s k len h ->
  let h' := sift_down_loop fuel len h k in
  heap_from s len h' /\ live len h' ≡ₚ live len h /\ length h' = length h.
Proof.
  revert k h. induction fuel as [|fuel IH]; intros k h Hf Hlen Hk Hb; [lia|].
  cbn [sift_down_loop]. cbv zeta. set (l := k * 2 + 1). set (r := l + 1).
  set (m := if (l <? len) && tcp_shift_pacer_event_less (h !!! l) (h !!! k) then l else k).
  set (c := if (r <? len) && tcp_shift_pacer_event_less (h !!! r) (h !!! m) then r else m).
  assert (Hl : forall i, 0 < i -> parent i = k <-> i = l \/ i = r).
  { intros i Hi. rewrite parent_spec by done. unfold r, l. lia. }
  assert (Hm : (m = k \/ (m = l /\ l < len)) /\ event_le (h !!! m) (h !!! k) /\
    (l < len -> event_le (h !!! m) (h !!! l))).
  { unfold m. destruct (Nat.ltb_spec l len); cbn [andb]; [|auto with heap lia].
    destruct (tcp_shift_pacer_event_less _ _) eqn:E; auto with heap lia. }
  assert (Hc : (c = k \/ (c < len /\ (c = l \/ c = r))) /\ event_le (h !!! c) (h !!! k) /\
    (l < len -> event_le (h !!! c) (h !!! l)) /\ (r < len -> event_le (h !!! c) (h !!! r))).
  { destruct Hm as (Hm1 & Hm2 & Hm3). unfold c.
    destruct (Nat.ltb_spec r len); cbn [andb].
    - destruct (tcp_shift_pacer_event_less (h !!! r) _) eqn:E.
      + apply event_less_le in E.
        repeat split; [lia|eauto using event_le_trans|eauto using event_le_trans|auto with heap].
      + repeat split; [lia|done|done|done].
    - repeat split; [lia|done|done|lia]. }
  destruct Hc as (Hc1 & Hc2 & Hc3 & Hc4).
  assert (Hmin : forall i, 0 < i < len -> parent i = k -> event_le (h !!! c) (h !!! i)).
  { intros i Hi Hp. apply Hl in Hp as [->| ->]; [apply Hc3|apply Hc4|]; lia. }
  destruct (Nat.eqb_spec c k) as [Hck|Hck].
  - split; [|done]. intros i Hi Hs. destruct (Nat.eq_dec (parent i) k) as [Hp|Hp].
    + rewrite Hp, <- Hck at 1. by apply Hmin.
    + by apply Hb.
  - destruct Hc1 as [?|[Hc Hcl]]; [done|].
    assert (Hpc : parent c = k) by (apply Hl; lia).
    destruct (IH c (tcp_shift_pacer_swap h k c)) as (H1 & H2 & H3);
      [lia|rewrite swap_length; lia|lia|by apply sift_down_step; try done; lia|].
    rewrite swap_length in H3. split; [done|]. split; [|done].
    rewrite H2. apply swap_live; lia.
Qed.

Lemma heapify_loop_ok i len h :
  i <= len -> len <= length h -> heap_from i len h ->
  let h' := heapify_loop len h i in
  heap_ok len h' /\ live len h' ≡ₚ live len h /\ length h' = length h.
Proof.
  revert h. induction i as [|i IH]; intros h Hi Hlen Hh; [done|].
  cbn [heapify_loop].
  destruct (sift_down_loop_ok (S len) i i len h) as (H1 & H2 & H3); try lia.
  { split; intros j Hj; [intros; apply Hh; lia|]. intros _ Hi0 Hs.
    pose proof (parent_lt i Hi0). lia. }
  fold (sift_down len h i) in *.
  destruct (IH (sift_down len h i)) as (H4 & H5 & H6); [lia|lia|done|].
  split; [done|]. split; [by rewrite H5|by rewrite H6].
Qed.

(** [heapify] builds a heap from any buffer. *)
Lemma heapify_ok len h :
  len <= length h ->
  heap_ok len (heapify len h) /\ live len (heapify len h) ≡ₚ live len h /\
  length (heapify len h) = length h.
Proof.
  intros Hlen. unfold heapify. destruct (Nat.ltb_spec len 2).
  { split; [|done]. intros i Hi. lia. }
  pose proof (Nat.div_mod_eq len 2). pose proof (Nat.mod_upper_bound len 2).
  apply heapify_loop_ok; [lia|done|]. intros i Hi Hs.
  pose proof (proj1 (parent_spec i (parent i) ltac:(lia)) eq_refl). lia.
Qed.

(** The root of a heap is its minimum. *)
Lemma heap_root_min len h i : heap_ok len h -> i < len -> event_le (h !!! 0) (h !!! i).
Proof.
  intros Hh. induction (lt_wf i) as [i _ IH]. intros Hi.
  destruct (Nat.eq_dec i 0) as [->|Hi0]; [auto with heap|].
  pose proof (parent_lt i ltac:(lia)).
  eapply event_le_trans; [apply (IH (parent i)); lia|]. apply Hh; lia.
Qed.

Lemma live_elem len h e :
  len <= length h -> e ∈ live len h <-> exists i, i < len /\ h !!! i = e.
Proof.
  intros Hlen. rewrite list_elem_of_lookup. split.
  - intros [i Hi]. apply lookup_take_Some in Hi as [Hi Hlt]. exists i. split; [done|].
    by apply list_lookup_total_correct.
  - intros (i & Hi & <-). exists i. unfold live. rewrite lookup_take_lt by done.
    apply list_lookup_lookup_total_lt. lia.
Qed.

Lemma heap_root_min_live len h e :
  len <= length h -> heap_ok len h -> e ∈ live len h -> event_le (h !!! 0) e.
Proof. intros Hlen Hh (i & Hi & <-)%live_elem; [|done]. by eapply heap_root_min. Qed.

(** ** Adding and removing events *)

Lemma live_S n h : n < length h -> live (S n) h = live n h ++ [h !!! n].
Proof. intros. apply take_S_r. by apply list_lookup_lookup_total_lt. Qed.

(** Overwriting slot [i] with the last live one removes the event at [i]. *)
Lemma live_remove n h i :
  n < length h -> i <= n -> live (S n) h ≡ₚ h !!! i :: live n (<[i := h !!! n]> h).
Proof.
  intros Hn Hi. rewrite <- (swap_live (S n) h i n) by lia.
  rewrite live_S by (rewrite swap_length; lia).
  rewrite swap_lookup, Nat.eqb_refl by lia. rewrite Permutation_app_comm. cbn.
  apply perm_skip. unfold tcp_shift_pacer_swap, live. by rewrite take_insert_ge by lia.
Qed.

Lemma push_ok len h e :
  len < length h -> heap_ok len h ->
  let h' := sift_up (<[len := e]> h) len in
  heap_ok (S len) h' /\ live (S len) h' ≡ₚ e :: live len h /\ length h' = length h.
Proof.
  intros Hlen Hh.
  destruct (sift_up_loop_ok (S len) len (S len) (<[len := e]> h)) as (H1 & H2 & H3);
    [lia|rewrite length_insert; lia|lia| |].
  - split; intros i Hi.
    + intros Hne. pose proof (parent_lt i ltac:(lia)).
      rewrite !list_lookup_total_insert_ne by lia. apply Hh; lia.
    + intros Hp Hl. pose proof (parent_lt i ltac:(lia)). lia.
  - rewrite length_insert in H3. split; [done|]. split; [|done]. unfold sift_up. rewrite H2.
    rewrite live_S by (rewrite length_insert; lia).
    rewrite list_lookup_total_insert_eq by lia. unfold live.
    rewrite take_insert_ge by lia. by rewrite Permutation_app_comm.
Qed.

(** The buffer after the root is removed from [S n] live events. *)
Definition pop_root (n : nat) (h : buffer) : buffer :=
  if n =? 0 then h else sift_down n (<[0 := h !!! n]> h) 0.

Lemma pop_root_ok n h :
  n < length h -> heap_ok (S n) h ->
  let h' := pop_root n h in
  heap_ok n h' /\ live (S n) h ≡ₚ h !!! 0 :: live n h' /\ length h' = length h.
Proof.
  intros Hn Hh. unfold pop_root. destruct (Nat.eqb_spec n 0) as [->|Hn0].
  { split; [intros i Hi; lia|]. split; [|done]. by rewrite live_S by lia. }
  destruct (sift_down_loop_ok (S n) 0 0 n (<[0 := h !!! n]> h)) as (H1 & H2 & H3);
    [lia|rewrite length_insert; lia|lia| |].
  - split; intros i Hi; [|lia]. intros _ Hp. pose proof (parent_lt i ltac:(lia)).
    rewrite !list_lookup_total_insert_ne by lia. apply Hh; lia.
  - rewrite length_insert in H3. split; [done|]. split; [|done].
    rewrite (live_remove n h 0) by lia. apply perm_skip. by rewrite H2.
Qed.

(** The rollback loop finds any event that is live. *)
Lemma rollback_index_ok fuel from h e :
  (exists i, from <= i < from + fuel /\ h !!! i = e) ->
  exists i, rollback_index fuel from h e = Some i /\ from <= i < from + fuel /\ h !!! i = e.
Proof.
  revert from. induction fuel as [|fuel IH]; intros from (i & Hi & He); [lia|].
  cbn [rollback_index]. cbv zeta. destruct (_ && _) eqn:E in |- *.
  - exists from. split; [done|]. split; [lia|].
    destruct (h !!! from), e; cbn in E. f_equal; lia.
  - destruct (Nat.eq_dec i from) as [->|Hne].
    { rewrite He, !Z.eqb_refl in E. done. }
    destruct (IH (S from)) as (j & Hj & Hj1 & Hj2).
    { exists i. split; [lia|done]. }
    exists j. split; [done|]. split; [lia|done].
Qed.

(** The events that belong to a flow generation. *)
Definition event_of (flow_id generation : Z) (e : tcp_shift_pacer_event) : bool :=
  (ev_flow_id e =? flow_id)%Z && (ev_generation e =? generation)%Z.

(** Compaction keeps exactly the events of other flows, in order. *)
Lemma cancel_loop_ok todo r w removed h fid gen h' w' removed' :
  w <= r -> r + todo <= length h ->
  cancel_loop todo r w removed h fid gen = (h', w', removed') ->
  live w' h' = live w h ++ List.filter (fun e => negb (event_of fid gen e)) (take todo (drop r h)) /\
  removed' = removed + length (List.filter (event_of fid gen) (take todo (drop r h))) /\
  removed' + w' = removed + w + todo /\ length h' = length h.
Proof.
  revert r w removed h. induction todo as [|todo IH]; intros r w removed h Hw Hr E.
  { cbn in E. injection E as <- <- <-. cbn. rewrite app_nil_r.
    repeat split; try done; lia. }
  cbn [cancel_loop] in E. cbv zeta in E.
  assert (Hd : take (S todo) (drop r h) = h !!! r :: take todo (drop (S r) h)).
  { erewrite drop_S; [done|]. apply list_lookup_lookup_total_lt. lia. }
  rewrite Hd. cbn [List.filter]. fold (event_of fid gen (h !!! r)) in E.
  destruct (event_of fid gen (h !!! r)); cbn [negb].
  - apply IH in E as (H1 & H2 & H3 & H4); [|lia|lia]. repeat split; [done|cbn; lia|lia|done].
  - set (h1 := if negb (w =? r) then <[w := h !!! r]> h else h) in *.
    assert (Hh1 : h1 = <[w := h !!! r]> h).
    { unfold h1. destruct (Nat.eqb_spec w r) as [->|]; [|done]. cbn.
      symmetry. apply list_insert_id. apply list_lookup_lookup_total_lt. lia. }
    assert (Hl1 : length h1 = length h) by (rewrite Hh1; apply length_insert).
    apply IH in E as (H1 & H2 & H3 & H4); [|lia|lia].
    rewrite Hh1, drop_insert_lt in H1, H2 by lia. rewrite live_S in H1
      by (rewrite length_insert; lia).
    rewrite list_lookup_total_insert_eq in H1 by lia.
    unfold live in H1 at 2. rewrite take_insert_ge in H1 by lia.
    rewrite <- app_assoc in H1. cbn in H1. repeat split; [done|done|lia|lia].
Qed.
