(* ===== verification/Pacer.v ===== *)
(** * Pacing scheduler ([src/runtime/pacer.h], second half of [src/runtime/pacer.c])

    One scheduler owns a heap of pacing events and one timerfd. The system
    calls it makes are the operations of [PacerOS], over an abstract state of
    the system; [PacerOSLaws] states what the scheduler relies on: [realloc]
    keeps the contents, and [timerfd_settime] programs the timer or changes
    nothing. Every operation returns its code, the scheduler and the system
    afterwards, on the error paths too; [errno] is not kept, except for the
    test of [EAGAIN]. *)

From Stdlib Require Import ZArith Lia Bool List.
From stdpp Require Import base tactics numbers list.
From S2P Require Import Prelude PacerHeap.
Local Open Scope Z_scope.

Abbreviation TCP_SHIFT_PACER_INITIAL_CAPACITY := 8.
(** [sizeof(struct tcp_shift_pacer_event)]: two 64-bit and two 32-bit fields. *)
Abbreviation SIZEOF_EVENT := 24.

Record tcp_shift_pacer_stats := mk_stats {
  ps_timerfd_creates : Z;
  ps_timer_arms : Z;
  ps_timer_rearms : Z;
  ps_timer_disarms : Z;
  ps_timer_expirations : Z;
  ps_scheduled_events : Z;
  ps_released_events : Z;
  ps_cancelled_events : Z;
  ps_released_bytes : Z;
  ps_last_requested_deadline_ns : Z;
  ps_last_actual_release_ns : Z;
  ps_last_lateness_ns : Z;
  ps_max_lateness_ns : Z;
  ps_heap_current : Z;
  ps_heap_peak : Z;
  ps_heap_capacity : Z
}.
#[export] Instance eta_stats : Eta tcp_shift_pacer_stats := fun r =>
  mk_stats (ps_timerfd_creates r) (ps_timer_arms r) (ps_timer_rearms r) (ps_timer_disarms r)
    (ps_timer_expirations r) (ps_scheduled_events r) (ps_released_events r)
    (ps_cancelled_events r) (ps_released_bytes r) (ps_last_requested_deadline_ns r)
    (ps_last_actual_release_ns r) (ps_last_lateness_ns r) (ps_max_lateness_ns r)
    (ps_heap_current r) (ps_heap_peak r) (ps_heap_capacity r).

Record tcp_shift_pacer := mk_pacer {
  pc_timer_fd : Z;
  pc_heap : buffer;
  pc_heap_len : Z;
  pc_heap_cap : Z;
  pc_heap_max : Z;
  pc_armed_deadline_ns : Z;
  pc_stats : tcp_shift_pacer_stats
}.
#[export] Instance eta_pacer : Eta tcp_shift_pacer := fun r =>
  mk_pacer (pc_timer_fd r) (pc_heap r) (pc_heap_len r) (pc_heap_cap r) (pc_heap_max r)
    (pc_armed_deadline_ns r) (pc_stats r).

(** The number of live slots, as an index. *)
Definition hlen (pacer : tcp_shift_pacer) : nat := Z.to_nat (pc_heap_len pacer).

Definition zero_stats : tcp_shift_pacer_stats := mk_stats 0 0 0 0 0 0 0 0 0 0 0 0 0 0 0 0.
Definition zero_pacer : tcp_shift_pacer := mk_pacer 0 [] 0 0 0 0 zero_stats.

(** ** The system interface *)

(** What [read] on the timerfd returns: a byte count with the value read, or
    a failure that is or is not [EAGAIN]. *)
Inductive read_result :=
  | ReadCount (count value : Z)
  | ReadAgain
  | ReadFailed.

Class PacerOS (W : Type) := {
  realloc : W -> buffer -> Z -> option buffer * W;
  heap_free : W -> buffer -> W;
  timerfd_create : W -> Z * W;
  (** file, then [it_value] of the absolute one-shot timer *)
  timerfd_settime : W -> Z -> Z -> Z -> Z * W;
  timerfd_read : W -> Z -> read_result * W;
  fd_close : W -> Z -> W
}.

(** [timer w fd] is the time a timer was last programmed with, 0 when it was
    disarmed. *)
Class PacerOSLaws (W : Type) `{PacerOS W} (timer : W -> Z -> Z) := {
  realloc_some w h n h' w' :
    realloc w h n = (Some h', w') -> Z.of_nat (length h) <= n ->
    length h' = Z.to_nat n /\ take (length h) h' = h;
  realloc_timer w h n r w' : realloc w h n = (r, w') -> forall fd, timer w' fd = timer w fd;
  create_timer w fd w' : timerfd_create w = (fd, w') -> 0 <= fd -> timer w' fd = 0;
  settime_ok w fd sec nsec rc w' :
    timerfd_settime w fd sec nsec = (rc, w') -> 0 <= rc ->
    timer w' fd = sec * 1000000000 + nsec;
  settime_failed w fd sec nsec rc w' :
    timerfd_settime w fd sec nsec = (rc, w') -> rc < 0 -> timer w' fd = timer w fd;
  settime_other w fd sec nsec rc w' :
    timerfd_settime w fd sec nsec = (rc, w') -> forall fd', fd' <> fd -> timer w' fd' = timer w fd';
  read_timer w fd r w' : timerfd_read w fd = (r, w') -> forall fd', timer w' fd' = timer w fd'
}.

(** ** Operations *)

Section Operations.
Context {W : Type} `{!PacerOS W}.

Definition tcp_shift_pacer_sift_up (pacer : tcp_shift_pacer) (index : nat) : tcp_shift_pacer :=
  pacer <| pc_heap := sift_up (pc_heap pacer) index |>.

Definition tcp_shift_pacer_sift_down (pacer : tcp_shift_pacer) (index : nat) : tcp_shift_pacer :=
  pacer <| pc_heap := sift_down (hlen pacer) (pc_heap pacer) index |>.

Definition tcp_shift_pacer_heapify (pacer : tcp_shift_pacer) : tcp_shift_pacer :=
  pacer <| pc_heap := heapify (hlen pacer) (pc_heap pacer) |>.

Definition tcp_shift_pacer_reserve (w : W) (pacer : tcp_shift_pacer)
    : Z * tcp_shift_pacer * W :=
  if pc_heap_len pacer <? pc_heap_cap pacer then (0, pacer, w)
  else if pc_heap_len pacer >=? pc_heap_max pacer then (-1, pacer, w)
  else
    let next_cap := if pc_heap_cap pacer =? 0 then TCP_SHIFT_PACER_INITIAL_CAPACITY
                    else pc_heap_cap pacer *w64 2 in
    let next_cap := if (next_cap <? pc_heap_cap pacer) || (next_cap >? pc_heap_max pacer)
                    then pc_heap_max pacer else next_cap in
    if next_cap >? SIZE_MAX / SIZEOF_EVENT then (-1, pacer, w)
    else
      match realloc w (pc_heap pacer) next_cap with
      | (None, w) => (-1, pacer, w)
      | (Some heap, w) =>
          let pacer := pacer <| pc_heap := heap |> in
          let pacer := pacer <| pc_heap_cap := next_cap |> in
          (0, pacer <| pc_stats := pc_stats pacer <| ps_heap_capacity := next_cap |> |>, w)
      end.

Definition tcp_shift_pacer_sync_timer (w : W) (pacer : tcp_shift_pacer)
    : Z * tcp_shift_pacer * W :=
  let stats := pc_stats pacer in
  if pc_heap_len pacer =? 0 then
    if pc_armed_deadline_ns pacer =? 0 then (0, pacer, w)
    else
      let '(rc, w) := timerfd_settime w (pc_timer_fd pacer) 0 0 in
      if rc <? 0 then (-1, pacer, w)
      else
        let pacer := pacer <| pc_armed_deadline_ns := 0 |> in
        (0, pacer <| pc_stats := stats <| ps_timer_disarms := ps_timer_disarms stats +w64 1 |> |>,
         w)
  else
    let deadline_ns := ev_deadline_ns (pc_heap pacer !!! 0%nat) in
    if deadline_ns =? pc_armed_deadline_ns pacer then (0, pacer, w)
    else
      let '(rc, w) := timerfd_settime w (pc_timer_fd pacer)
                        (deadline_ns / 1000000000) (deadline_ns mod 1000000000) in
      if rc <? 0 then (-1, pacer, w)
      else
        let stats :=
          if pc_armed_deadline_ns pacer =? 0
          then stats <| ps_timer_arms := ps_timer_arms stats +w64 1 |>
          else stats <| ps_timer_rearms := ps_timer_rearms stats +w64 1 |> in
        (0, pacer <| pc_stats := stats |> <| pc_armed_deadline_ns := deadline_ns |>, w).

Definition tcp_shift_pacer_init (w : W) (pacer : tcp_shift_pacer) (max_events : Z)
    : Z * tcp_shift_pacer * W :=
  if (max_events =? 0) || (max_events >? SIZE_MAX / SIZEOF_EVENT) then (-1, pacer, w)
  else
    let '(fd, w) := timerfd_create w in
    let pacer := zero_pacer <| pc_timer_fd := fd |> in
    if fd <? 0 then (-1, pacer, w)
    else
      let pacer := pacer <| pc_heap_max := max_events |> in
      (0, pacer <| pc_stats := pc_stats pacer <| ps_timerfd_creates := 1 |> |>, w).

Definition tcp_shift_pacer_close (w : W) (pacer : tcp_shift_pacer) : tcp_shift_pacer * W :=
  let w := if pc_timer_fd pacer >=? 0 then fd_close w (pc_timer_fd pacer) else w in
  let w := heap_free w (pc_heap pacer) in
  (zero_pacer <| pc_timer_fd := -1 |>, w).

Definition tcp_shift_pacer_fd (pacer : tcp_shift_pacer) : Z :=
  if pc_timer_fd pacer <? 0 then -1 else pc_timer_fd pacer.

(** The error path of [tcp_shift_pacer_schedule]: the loop that takes the
    event back out. *)
Definition schedule_rollback (pacer : tcp_shift_pacer) (event : tcp_shift_pacer_event)
    : tcp_shift_pacer :=
  match rollback_index (hlen pacer) 0 (pc_heap pacer) event with
  | None => pacer
  | Some rollback =>
      let heap := pc_heap pacer in
      let last := heap !!! Z.to_nat (pc_heap_len pacer -w64 1) in
      let pacer := pacer <| pc_heap := <[rollback := last]> heap |> in
      let pacer := pacer <| pc_heap_len := pc_heap_len pacer -w64 1 |> in
      let pacer := tcp_shift_pacer_heapify pacer in
      let stats := pc_stats pacer <| ps_heap_current := pc_heap_len pacer |> in
      pacer <| pc_stats := stats <| ps_scheduled_events := ps_scheduled_events stats -w64 1 |> |>
  end.

Definition tcp_shift_pacer_schedule (w : W) (pacer : tcp_shift_pacer)
    (event : tcp_shift_pacer_event) : Z * tcp_shift_pacer * W :=
  if (pc_timer_fd pacer <? 0) || (ev_deadline_ns event =? 0) then (-1, pacer, w)
  else
    let '(rc, pacer, w) := tcp_shift_pacer_reserve w pacer in
    if rc <? 0 then (-1, pacer, w)
    else
      let index := hlen pacer in
      let pacer := pacer <| pc_heap_len := pc_heap_len pacer +w64 1 |> in
      let pacer := pacer <| pc_heap := <[index := event]> (pc_heap pacer) |> in
      let pacer := tcp_shift_pacer_sift_up pacer index in
      let stats := pc_stats pacer in
      let stats := stats <| ps_scheduled_events := ps_scheduled_events stats +w64 1 |> in
      let stats := stats <| ps_heap_current := pc_heap_len pacer |> in
      let stats := if pc_heap_len pacer >? ps_heap_peak stats
                   then stats <| ps_heap_peak := pc_heap_len pacer |> else stats in
      let pacer := pacer <| pc_stats := stats |> in
      let '(rc, pacer, w) := tcp_shift_pacer_sync_timer w pacer in
      if rc <? 0 then (-1, schedule_rollback pacer event, w) else (0, pacer, w).

(** Result: the code, the scheduler, [*cancelled] and the system. *)
Definition tcp_shift_pacer_cancel (w : W) (pacer : tcp_shift_pacer)
    (flow_id generation cancelled : Z) : Z * tcp_shift_pacer * Z * W :=
  if pc_timer_fd pacer <? 0 then (-1, pacer, cancelled, w)
  else
    let cancelled := 0 in
    let '(heap, write_index, removed) :=
      cancel_loop (hlen pacer) 0 0 0 (pc_heap pacer) flow_id generation in
    let pacer := pacer <| pc_heap := heap |> in
    if (removed =? 0)%nat then (0, pacer, cancelled, w)
    else
      let pacer := pacer <| pc_heap_len := Z.of_nat write_index |> in
      let pacer := tcp_shift_pacer_heapify pacer in
      let stats := pc_stats pacer in
      let stats := stats <| ps_cancelled_events :=
                     ps_cancelled_events stats +w64 Z.of_nat removed |> in
      let pacer := pacer <| pc_stats := stats <| ps_heap_current := pc_heap_len pacer |> |> in
      let '(rc, pacer, w) := tcp_shift_pacer_sync_timer w pacer in
      if rc <? 0 then (-1, pacer, cancelled, w) else (0, pacer, Z.of_nat removed, w).

(** Result: the code and [*event]. *)
Definition tcp_shift_pacer_peek (pacer : tcp_shift_pacer) (event : tcp_shift_pacer_event)
    : Z * tcp_shift_pacer_event :=
  if pc_timer_fd pacer <? 0 then (-1, event)
  else if pc_heap_len pacer =? 0 then (0, event)
  else (1, pc_heap pacer !!! 0%nat).

(** [tcp_shift_pacer_pop_due]'s removal of the root. *)
Definition pop_remove (pacer : tcp_shift_pacer) : tcp_shift_pacer :=
  let pacer := pacer <| pc_heap_len := pc_heap_len pacer -w64 1 |> in
  if negb (pc_heap_len pacer =? 0) then
    tcp_shift_pacer_sift_down
      (pacer <| pc_heap := <[0%nat := pc_heap pacer !!! hlen pacer]> (pc_heap pacer) |>) 0
  else pacer.

(** Its counters. *)
Definition pop_stats (stats : tcp_shift_pacer_stats) (event : tcp_shift_pacer_event)
    (now_ns heap_len : Z) : tcp_shift_pacer_stats :=
  let stats := stats <| ps_released_events := ps_released_events stats +w64 1 |> in
  let stats := stats <| ps_released_bytes := ps_released_bytes stats +w64 ev_bytes event |> in
  let stats := stats <| ps_last_requested_deadline_ns := ev_deadline_ns event |> in
  let stats := stats <| ps_last_actual_release_ns := now_ns |> in
  let stats := stats <| ps_last_lateness_ns :=
    if now_ns >? ev_deadline_ns event then now_ns -w64 ev_deadline_ns event else 0 |> in
  let stats := if ps_last_lateness_ns stats >? ps_max_lateness_ns stats
               then stats <| ps_max_lateness_ns := ps_last_lateness_ns stats |> else stats in
  stats <| ps_heap_current := heap_len |>.

(** Result: the code, the scheduler, [*event] and the system. *)
Definition tcp_shift_pacer_pop_due (w : W) (pacer : tcp_shift_pacer) (now_ns : Z)
    (event : tcp_shift_pacer_event) : Z * tcp_shift_pacer * tcp_shift_pacer_event * W :=
  if pc_timer_fd pacer <? 0 then (-1, pacer, event, w)
  else if (pc_heap_len pacer =? 0) || (ev_deadline_ns (pc_heap pacer !!! 0%nat) >? now_ns)
  then (0, pacer, event, w)
  else
    let event := pc_heap pacer !!! 0%nat in
    let pacer := pop_remove pacer in
    let pacer := pacer <| pc_stats :=
      pop_stats (pc_stats pacer) event now_ns (pc_heap_len pacer) |> in
    let '(rc, pacer, w) := tcp_shift_pacer_sync_timer w pacer in
    if rc <? 0 then (-1, pacer, event, w) else (1, pacer, event, w).

(** Result: the code, the scheduler, [*expirations] and the system. *)
Definition tcp_shift_pacer_consume_timer (w : W) (pacer : tcp_shift_pacer) (expirations : Z)
    : Z * tcp_shift_pacer * Z * W :=
  if pc_timer_fd pacer <? 0 then (-1, pacer, expirations, w)
  else
    match timerfd_read w (pc_timer_fd pacer) with
    | (ReadAgain, w) => (0, pacer, 0, w)
    | (ReadFailed, w) => (-1, pacer, expirations, w)
    | (ReadCount count value, w) =>
        if negb (u64 count =? 8) then (-1, pacer, expirations, w)
        else
          let stats := pc_stats pacer in
          (1, pacer <| pc_stats := stats <| ps_timer_expirations :=
                         ps_timer_expirations stats +w64 value |> |>, value, w)
    end.

Definition tcp_shift_pacer_get_stats (pacer : tcp_shift_pacer) : tcp_shift_pacer_stats :=
  pc_stats pacer.
End Operations.
