(* ===== verification/PacerSpec.v ===== *)
(** * The pacing scheduler as a priority queue

    The scheduler's invariant, and its refinement of an abstract queue of
    events in which an operation is atomic and a release takes a minimum. *)

From Stdlib Require Import ZArith Lia Bool List.
From stdpp Require Import base tactics numbers list.
From S2P Require Import Prelude PacerHeap Pacer.
Local Open Scope Z_scope.

(** The queued events. *)
Definition queue (p : tcp_shift_pacer) : list tcp_shift_pacer_event := live (hlen p) (pc_heap p).

Definition event_wf (e : tcp_shift_pacer_event) : Prop := in_u64 (ev_deadline_ns e).
Definition event_queued (e : tcp_shift_pacer_event) : Prop :=
  1 <= ev_deadline_ns e <= UINT64_MAX.

(** The buffer: its size, the hard bound, the order and valid deadlines. *)
Definition heap_wf (p : tcp_shift_pacer) : Prop :=
  0 <= pc_heap_len p <= pc_heap_cap p /\ pc_heap_cap p = Z.of_nat (length (pc_heap p)) /\
  pc_heap_cap p <= pc_heap_max p <= SIZE_MAX / SIZEOF_EVENT /\
  heap_ok (hlen p) (pc_heap p) /\ Forall event_queued (queue p).

Definition stats_wf (p : tcp_shift_pacer) : Prop :=
  ps_heap_current (pc_stats p) = pc_heap_len p /\
  pc_heap_len p <= ps_heap_peak (pc_stats p) <= pc_heap_max p /\
  ps_heap_capacity (pc_stats p) = pc_heap_cap p.

(** The timer is programmed for the earliest event, or disarmed. *)
Definition synced (p : tcp_shift_pacer) : Prop :=
  pc_armed_deadline_ns p =
    if pc_heap_len p =? 0 then 0 else ev_deadline_ns (pc_heap p !!! 0%nat).

(** ** Buffer lemmas *)

Lemma hlen_le p : heap_wf p -> (hlen p <= length (pc_heap p))%nat.
Proof. intros (Hl & Hc & _). unfold hlen. lia. Qed.

Lemma heap_ok_live len h h' :
  live len h = live len h' -> (len <= length h)%nat -> (len <= length h')%nat ->
  heap_ok len h -> heap_ok len h'.
Proof.
  intros E Hh Hh' Hok i Hi Hs. pose proof (parent_lt i ltac:(lia)).
  rewrite <- (live_lookup len h' i), <- (live_lookup len h' (parent i)), <- E by lia.
  rewrite !live_lookup by lia. by apply Hok.
Qed.

(** The root is a queued event, and the earliest one. *)
Lemma root_min p :
  heap_wf p -> pc_heap_len p <> 0 ->
  pc_heap p !!! 0%nat ∈ queue p /\
  (forall e, e ∈ queue p -> event_le (pc_heap p !!! 0%nat) e) /\
  event_queued (pc_heap p !!! 0%nat).
Proof.
  intros Hwf Hne. pose proof (hlen_le p Hwf) as Hlen.
  destruct Hwf as (Hl & _ & _ & Hok & HF).
  assert (Hin : pc_heap p !!! 0%nat ∈ queue p).
  { apply live_elem; [done|]. exists 0%nat. split; [unfold hlen; lia|done]. }
  split; [done|]. split; [intros e He; by eapply heap_root_min_live|].
  by eapply Forall_forall in HF.
Qed.

(** [synced] is a property of the queue's contents. *)
Lemma synced_perm p p' :
  heap_wf p -> heap_wf p' -> queue p ≡ₚ queue p' -> pc_heap_len p = pc_heap_len p' ->
  pc_armed_deadline_ns p = pc_armed_deadline_ns p' -> synced p -> synced p'.
Proof.
  intros Hwf Hwf' HP Hlen Harm. unfold synced. rewrite <- Hlen, <- Harm.
  destruct (pc_heap_len p =? 0) eqn:E; [done|]. intros ->.
  destruct (root_min p Hwf ltac:(lia)) as (H1 & H2 & _).
  destruct (root_min p' Hwf' ltac:(lia)) as (H3 & H4 & _).
  assert (pc_heap p !!! 0%nat ∈ queue p') by by rewrite <- HP.
  assert (pc_heap p' !!! 0%nat ∈ queue p) by by rewrite HP.
  f_equal. apply event_le_antisym; auto.
Qed.

(** A buffer with [n] live slots in order, no longer than the old one. *)
Lemma heap_wf_replace p h n len armed st :
  heap_wf p -> length h = length (pc_heap p) -> heap_ok n h -> Forall event_queued (live n h) ->
  (n <= length h)%nat -> len = Z.of_nat n ->
  let p' := mk_pacer (pc_timer_fd p) h len (pc_heap_cap p) (pc_heap_max p) armed st in
  heap_wf p' /\ queue p' = live n h.
Proof.
  intros (Hl & Hc & Hm & _ & _) Hlen Hok HF Hn -> p'.
  assert (Hh : hlen p' = n) by (unfold hlen; cbn; lia).
  split; [|by unfold queue; rewrite Hh].
  split; [cbn; lia|]. split; [cbn; lia|]. split; [done|]. unfold queue. rewrite Hh. done.
Qed.

Lemma heap_wf_push p e armed st :
  heap_wf p -> pc_heap_len p < pc_heap_cap p -> event_queued e ->
  let p' := mk_pacer (pc_timer_fd p) (sift_up (<[hlen p := e]> (pc_heap p)) (hlen p))
              (pc_heap_len p +w64 1) (pc_heap_cap p) (pc_heap_max p) armed st in
  heap_wf p' /\ queue p' ≡ₚ e :: queue p /\ pc_heap_len p' = pc_heap_len p + 1.
Proof.
  intros Hwf Hlt He p'. pose proof Hwf as (Hl & Hc & Hm & Hok & HF).
  assert (Hmax : pc_heap_max p <= 768614336404564650) by apply Hm.
  assert (Hu : pc_heap_len p +w64 1 = pc_heap_len p + 1) by (apply u64_small; lia).
  destruct (push_ok (hlen p) (pc_heap p) e) as (H1 & H2 & H3); [unfold hlen; lia|done|].
  destruct (heap_wf_replace p (sift_up (<[hlen p := e]> (pc_heap p)) (hlen p)) (S (hlen p))
    (pc_heap_len p +w64 1) armed st) as [H4 H5]; try done.
  - rewrite H2. by apply Forall_cons.
  - unfold hlen in *. lia.
  - unfold hlen. lia.
  - split; [done|]. split; [|done]. unfold p'. by rewrite H5.
Qed.

Lemma pop_remove_eq p :
  1 <= pc_heap_len p <= UINT64_MAX ->
  pop_remove p =
  mk_pacer (pc_timer_fd p) (pop_root (Z.to_nat (pc_heap_len p - 1)) (pc_heap p))
    (pc_heap_len p - 1) (pc_heap_cap p) (pc_heap_max p) (pc_armed_deadline_ns p) (pc_stats p).
Proof.
  intros Hl. unfold pop_remove, pop_root, tcp_shift_pacer_sift_down, hlen, set_field; cbn.
  rewrite !(u64_small (pc_heap_len p - 1)) by lia.
  destruct (Z.eqb_spec (pc_heap_len p - 1) 0), (Nat.eqb_spec (Z.to_nat (pc_heap_len p - 1)) 0);
    (done || lia).
Qed.

Lemma pop_stats_heap st e now len :
  ps_heap_current (pop_stats st e now len) = len /\
  ps_heap_peak (pop_stats st e now len) = ps_heap_peak st /\
  ps_heap_capacity (pop_stats st e now len) = ps_heap_capacity st.
Proof. unfold pop_stats. cbn zeta. destruct (_ >? _) in |- *; done. Qed.

(** ** Operations preserve the invariant *)

Section Invariant.
Context {W : Type} `{!PacerOS W} (timer : W -> Z -> Z) `{!PacerOSLaws W timer}.

Definition pacer_wf (w : W) (p : tcp_shift_pacer) : Prop :=
  0 <= pc_timer_fd p /\ heap_wf p /\ stats_wf p /\ pc_armed_deadline_ns p = timer w (pc_timer_fd p).

Lemma init_ok w p max rc p' w' :
  in_u64 max -> tcp_shift_pacer_init w p max = (rc, p', w') -> rc = 0 ->
  pacer_wf w' p' /\ queue p' = [] /\ pc_heap_max p' = max /\ synced p'.
Proof.
  intros Hmax E ->. unfold tcp_shift_pacer_init in E.
  destruct (_ || _) eqn:E0; [done|]. destruct (timerfd_create w) as [fd w1] eqn:E1.
  destruct (fd <? 0) eqn:E2; [done|]. injection E as <- <-.
  pose proof (create_timer w fd w1 E1 ltac:(lia)) as Ht.
  split; [|done]. unfold pacer_wf, heap_wf, stats_wf; cbn.
  repeat split; try done; lia.
Qed.

Lemma sync_timer_ok w p rc p' w' :
  pacer_wf w p -> tcp_shift_pacer_sync_timer w p = (rc, p', w') ->
  pacer_wf w' p' /\ pc_heap p' = pc_heap p /\ pc_heap_len p' = pc_heap_len p /\
  pc_heap_max p' = pc_heap_max p /\
  ((rc = 0 /\ synced p') \/ (rc = -1 /\ p' = p)).
Proof.
  intros (Hfd & Hh & Hs & Ha) E. unfold tcp_shift_pacer_sync_timer in E.
  destruct (pc_heap_len p =? 0) eqn:E0.
  - destruct (pc_armed_deadline_ns p =? 0) eqn:E1.
    { injection E as <- <- <-. split; [done|]. do 3 (split; [done|]). left.
      unfold synced. rewrite E0. split; [done|lia]. }
    destruct (timerfd_settime _ _ _ _) as [rc1 w1] eqn:E2.
    destruct (rc1 <? 0) eqn:E3; injection E as <- <- <-.
    + pose proof (settime_failed _ _ _ _ _ _ E2 ltac:(lia)).
      split; [by split_and!; try done; lia|]. do 3 (split; [done|]). by right.
    + pose proof (settime_ok _ _ _ _ _ _ E2 ltac:(lia)).
      split; [by split_and!; try done; cbn; lia|].
      do 3 (split; [done|]). left. split; [done|]. unfold synced. cbn. by rewrite E0.
  - destruct (root_min p Hh ltac:(lia)) as (_ & _ & Hd).
    destruct (_ =? _) eqn:E1 in E.
    { injection E as <- <- <-. split; [done|]. do 3 (split; [done|]). left.
      unfold synced. rewrite E0. split; [done|lia]. }
    destruct (timerfd_settime _ _ _ _) as [rc1 w1] eqn:E2.
    destruct (rc1 <? 0) eqn:E3; injection E as <- <- <-.
    + pose proof (settime_failed _ _ _ _ _ _ E2 ltac:(lia)).
      split; [by split_and!; try done; lia|]. do 3 (split; [done|]). by right.
    + pose proof (settime_ok _ _ _ _ _ _ E2 ltac:(lia)) as Ht.
      split; [|do 3 (split; [done|]); left; split; [done|]; unfold synced; cbn; by rewrite E0].
      split; [done|]. split; [done|]. 
      split; [destruct (pc_armed_deadline_ns p =? 0); exact Hs|]. cbn. rewrite Ht.
      pose proof (Z.div_mod (ev_deadline_ns (pc_heap p !!! 0%nat)) 1000000000). lia.
Qed.

Lemma reserve_ok w p rc p' w' :
  pacer_wf w p -> tcp_shift_pacer_reserve w p = (rc, p', w') ->
  pacer_wf w' p' /\
  ((rc = 0 /\ pc_heap_len p' = pc_heap_len p /\ pc_heap_max p' = pc_heap_max p /\
    queue p' = queue p /\
    pc_armed_deadline_ns p' = pc_armed_deadline_ns p /\
    pc_heap_len p < pc_heap_cap p') \/ (rc = -1 /\ p' = p)).
Proof.
  intros Hwf E. pose proof Hwf as (Hfd & Hh & Hs & Ha).
  pose proof Hh as (Hl & Hc & Hm & Hok & HF). pose proof (hlen_le p Hh) as Hlen.
  assert (Hmax : pc_heap_max p <= 768614336404564650) by (apply Hm).
  unfold tcp_shift_pacer_reserve in E.
  destruct (pc_heap_len p <? pc_heap_cap p) eqn:E0.
  { injection E as <- <- <-. split; [done|]. left. repeat split; try done; lia. }
  destruct (pc_heap_len p >=? pc_heap_max p) eqn:E1; [injection E as <- <- <-; auto|].
  set (nc0 := if pc_heap_cap p =? 0 then 8 else u64 (pc_heap_cap p * 2)) in *.
  set (nc := if (nc0 <? pc_heap_cap p) || (nc0 >? pc_heap_max p)
             then pc_heap_max p else nc0) in *.
  assert (Hnc : pc_heap_cap p < nc <= pc_heap_max p).
  { assert (Hnc0 : pc_heap_cap p < nc0)
      by (unfold nc0; destruct (pc_heap_cap p =? 0) eqn:E2; [|rewrite u64_small]; lia).
    unfold nc. clear E. destruct (_ || _) eqn:E3; lia. }
  destruct (nc >? SIZE_MAX / SIZEOF_EVENT) eqn:E2; [injection E as <- <- <-; auto|].
  destruct (realloc w (pc_heap p) nc) as [[h1|] w1] eqn:E3; injection E as <- <- <-;
    pose proof (realloc_timer _ _ _ _ _ E3 (pc_timer_fd p)) as Ht.
  2:{ split; [|auto]. split; [done|]. split; [done|]. split; [done|]. lia. }
  destruct (realloc_some _ _ _ _ _ E3 ltac:(lia)) as [Hl1 Hp1].
  assert (Hlive : live (hlen p) h1 = live (hlen p) (pc_heap p)).
  { unfold live. rewrite <- Hp1 at 1. rewrite take_take. f_equal. lia. }
  destruct Hs as (Hs1 & Hs2 & Hs3).
  split.
  - split; [done|]. split; [|split; [repeat split; cbn; try done; lia|cbn; lia]].
    split_and!; cbn; try lia.
    + change (hlen _) with (hlen p). eapply heap_ok_live; [symmetry; exact Hlive|lia|lia|done].
    + unfold queue. cbn. change (hlen _) with (hlen p). by rewrite Hlive.
  - left. split_and!; cbn; try done; lia.
Qed.

(** Taking the event back out restores the queue. *)
Lemma rollback_ok w p e q :
  pacer_wf w p -> queue p ≡ₚ e :: q ->
  let p' := schedule_rollback p e in
  pacer_wf w p' /\ queue p' ≡ₚ q /\ pc_heap_len p' = pc_heap_len p - 1 /\
  pc_heap_max p' = pc_heap_max p /\ pc_armed_deadline_ns p' = pc_armed_deadline_ns p.
Proof.
  intros (Hfd & Hh & Hs & Ha) Hq p'. pose proof (hlen_le p Hh) as Hlen.
  pose proof Hh as (Hl & Hc & Hm & _ & HF).
  assert (Hin : e ∈ queue p) by (rewrite Hq; left).
  apply live_elem in Hin as (i0 & Hi0 & He0); [|done].
  destruct (rollback_index_ok (hlen p) 0 (pc_heap p) e) as (i & Ei & Hi & Hei).
  { exists i0. split; [lia|done]. }
  assert (Hmax : pc_heap_max p <= 768614336404564650) by apply Hm.
  assert (Hu : pc_heap_len p -w64 1 = pc_heap_len p - 1)
    by (apply u64_small; unfold hlen in *; lia).
  unfold p', schedule_rollback. rewrite Ei. cbv zeta.
  set (n := Z.to_nat (pc_heap_len p - 1)).
  assert (Hn : hlen p = S n) by (unfold n, hlen in *; lia).
  set (h1 := <[i := pc_heap p !!! n]> (pc_heap p)).
  assert (Hl1 : length h1 = length (pc_heap p)) by apply length_insert.
  destruct (heapify_ok n h1) as (H1 & H2 & H3); [lia|].
  assert (Hrem : queue p ≡ₚ e :: live n h1).
  { unfold queue. rewrite Hn, (live_remove n (pc_heap p) i) by lia. by rewrite Hei. }
  assert (Hperm : live n (heapify n h1) ≡ₚ q).
  { rewrite H2. apply (Permutation_cons_inv (a := e)). by rewrite <- Hrem, Hq. }
  assert (HF1 : Forall event_queued (live n (heapify n h1))).
  { rewrite Hperm. rewrite Hq in HF. by apply Forall_cons in HF as [_ HF]. }
  unfold tcp_shift_pacer_heapify, hlen, set_field; cbn. rewrite !Hu. fold n. fold h1.
  destruct Hs as (Hs1 & Hs2 & Hs3).
  match goal with |- pacer_wf _ ?r /\ _ => set (pr := r) end.
  destruct (heap_wf_replace p (heapify n h1) n (pc_heap_len p - 1)
    (pc_armed_deadline_ns p) (pc_stats pr)) as [Hw1 Hq1];
    [done|lia|done|done|lia|unfold n, hlen in *; lia|].
  change (mk_pacer _ _ _ _ _ _ _) with pr in Hw1, Hq1.
  split; [|split; [by rewrite Hq1|done]].
  split; [done|]. split; [done|]. split; [|done]. repeat split; cbn; try done; lia.
Qed.

(** [tcp_shift_pacer_schedule] adds the event or changes nothing. *)
Lemma schedule_ok w p e rc p' w' :
  pacer_wf w p -> event_wf e -> tcp_shift_pacer_schedule w p e = (rc, p', w') ->
  pacer_wf w' p' /\ pc_heap_max p' = pc_heap_max p /\
  ((rc = 0 /\ queue p' ≡ₚ e :: queue p /\ synced p') \/
   (rc = -1 /\ queue p' ≡ₚ queue p /\ (synced p -> synced p'))).
Proof.
  intros Hwf He E. unfold tcp_shift_pacer_schedule in E.
  destruct (_ || _) eqn:E0; [injection E as <- <- <-; auto 6|].
  destruct (tcp_shift_pacer_reserve w p) as [[rc1 p1] w1] eqn:E1.
  destruct (reserve_ok _ _ _ _ _ Hwf E1) as
    [Hwf1 [(-> & Hlen1 & Hmax1 & Hq1 & Ha1 & Hcap1)|[-> ->]]]; cbn [Z.ltb Z.compare] in E.
  2:{ injection E as <- <- <-. auto 6. }
  pose proof Hwf1 as (Hfd1 & Hh1 & (Hs1 & Hs2 & Hs3) & Ht1).
  unfold tcp_shift_pacer_sift_up in E.
  match type of E with context [tcp_shift_pacer_sync_timer _ ?r] => set (p2 := r) in * end.
  destruct (heap_wf_push p1 e (pc_armed_deadline_ns p1) (pc_stats p2))
    as (Hh2 & Hq2 & Hlen2); [done|lia|unfold event_queued, event_wf in *; lia|].
  change (mk_pacer _ _ _ _ _ _ _) with p2 in Hh2, Hq2, Hlen2.
  assert (Hwf2 : pacer_wf w1 p2).
  { split; [done|]. split; [done|]. split; [|done].
    pose proof Hh2 as (Hl2 & _ & Hm2 & _). change (pc_heap_max p2) with (pc_heap_max p1) in Hm2.
    change (pc_heap_cap p2) with (pc_heap_cap p1) in *.
    split; [unfold p2; cbn; by destruct (_ >? _)|].
    unfold p2 in *; cbn in *. destruct (_ >? _) eqn:E3 in |- *; cbn; lia. }
  destruct (tcp_shift_pacer_sync_timer w1 p2) as [[rc3 p3] w3] eqn:E3.
  destruct (sync_timer_ok _ _ _ _ _ Hwf2 E3) as (Hwf3 & Hh3 & Hlen3 & Hmax3 & Hout).
  assert (Hq3 : queue p3 ≡ₚ e :: queue p).
  { unfold queue at 1, hlen. rewrite Hh3, Hlen3. fold (hlen p2). fold (queue p2).
    by rewrite Hq2, Hq1. }
  destruct Hout as [[-> Hsy]|[-> ->]]; cbn [Z.ltb Z.compare] in E; injection E as <- <- <-.
  - split; [done|]. split; [rewrite Hmax3; exact Hmax1|]. left. done.
  - destruct (rollback_ok w3 p2 e (queue p) Hwf3 Hq3) as (Hwf4 & Hq4 & Hlen4 & Hmax4 & Ha4).
    split; [done|]. split; [rewrite Hmax4; exact Hmax1|]. right. split; [done|]. split; [done|].
    apply synced_perm; [apply Hwf|apply Hwf4|by symmetry|lia|].
    rewrite Ha4. by symmetry.
Qed.

(** [tcp_shift_pacer_cancel] removes exactly the flow generation's events. *)
Lemma cancel_ok w p fid gen c rc p' c' w' :
  pacer_wf w p -> tcp_shift_pacer_cancel w p fid gen c = (rc, p', c', w') ->
  let kept := List.filter (fun e => negb (event_of fid gen e)) (queue p) in
  let gone := List.filter (event_of fid gen) (queue p) in
  pacer_wf w' p' /\ pc_heap_max p' = pc_heap_max p /\ queue p' ≡ₚ kept /\
  ((rc = 0 /\ c' = Z.of_nat (length gone) /\ (synced p \/ gone <> [] -> synced p')) \/
   (rc = -1 /\ c' = 0 /\ gone <> [])).
Proof.
  intros Hwf E kept gone. pose proof Hwf as (Hfd & Hh & (Hs1 & Hs2 & Hs3) & Ht).
  pose proof (hlen_le p Hh) as Hlen. pose proof Hh as (Hl & Hc & Hm & Hok & HF).
  unfold tcp_shift_pacer_cancel in E. destruct (_ <? 0) eqn:E0 in E; [lia|].
  destruct (cancel_loop _ _ _ _ _ _ _) as [[h1 n1] removed] eqn:E1.
  apply cancel_loop_ok in E1 as (H1 & H2 & H3 & H4); [|lia|lia].
  rewrite drop_0 in H1, H2. cbn [live take app plus] in H1, H2.
  fold (live (hlen p) (pc_heap p)) in H1, H2. fold (queue p) in H1, H2.
  fold kept in H1. fold gone in H2.
  destruct (Nat.eqb_spec removed 0) as [Hr|Hr].
  - injection E as <- <- <- <-.
    assert (gone = []) by (apply nil_length_inv; lia).
    assert (Hn : n1 = hlen p) by lia.
    assert (Hk : kept = queue p).
    { unfold kept, gone in *. clear -H. induction (queue p) as [|e q IH]; [done|].
      cbn in *. destruct (event_of fid gen e); [done|]. cbn. f_equal. auto. }
    assert (Hlive : live (hlen p) h1 = queue p) by (rewrite <- Hk, <- Hn; exact H1).
    assert (Hh1 : heap_ok (hlen p) h1) by (eapply heap_ok_live; [symmetry; exact Hlive|lia|lia|done]).
    destruct (heap_wf_replace p h1 (hlen p) (pc_heap_len p) (pc_armed_deadline_ns p)
      (pc_stats p)) as [Hh2 Hq2]; [done|lia|done|by rewrite Hlive|lia|unfold hlen; lia|].
    set (p2 := p <| pc_heap := h1 |>). change (mk_pacer _ _ _ _ _ _ _) with p2 in Hh2, Hq2.
    assert (Hq : queue p2 = queue p) by (by rewrite Hq2).
    split; [done|]. split; [done|]. split; [by rewrite Hq, Hk|]. left.
    split; [done|]. split; [cbn; lia|]. intros [Hsy|?]; [|done].
    revert Hsy. apply synced_perm; try done. by rewrite Hq.
  - unfold tcp_shift_pacer_heapify in E.
    match type of E with context [tcp_shift_pacer_sync_timer _ ?r] => set (p2 := r) in * end.
    destruct (heapify_ok n1 h1) as (H5 & H6 & H7); [lia|].
    assert (HFk : Forall event_queued kept).
    { apply Forall_forall. intros e He%list_elem_of_In%filter_In.
      destruct He as [He%list_elem_of_In _]. by eapply Forall_forall in HF. }
    destruct (heap_wf_replace p (heapify n1 h1) n1 (Z.of_nat n1) (pc_armed_deadline_ns p)
      (pc_stats p2)) as [Hh2 Hq2]; [done|lia|done|by rewrite H6, H1|lia|done|].
    assert (Hp2 : p2 = mk_pacer (pc_timer_fd p) (heapify n1 h1) (Z.of_nat n1) (pc_heap_cap p)
      (pc_heap_max p) (pc_armed_deadline_ns p) (pc_stats p2)).
    { unfold p2, hlen, set_field; cbn. by rewrite Nat2Z.id. }
    rewrite <- Hp2 in Hh2, Hq2.
    assert (Hwf2 : pacer_wf w p2).
    { split; [done|]. split; [done|]. split; [|done].
      unfold p2; repeat split; cbn; try done; unfold hlen in *; lia. }
    destruct (tcp_shift_pacer_sync_timer w p2) as [[rc3 p3] w3] eqn:E3.
    destruct (sync_timer_ok _ _ _ _ _ Hwf2 E3) as (Hwf3 & Hh3 & Hlen3 & Hmax3 & Hout).
    assert (Hq3 : queue p3 ≡ₚ kept).
    { unfold queue, hlen. rewrite Hh3, Hlen3. fold (hlen p2). fold (queue p2).
      by rewrite Hq2, H6, H1. }
    assert (gone <> []) by (intros Hg; rewrite Hg in H2; cbn in H2; lia).
    destruct Hout as [[-> Hsy]|[-> ->]]; cbn [Z.ltb Z.compare] in E; injection E as <- <- <- <-.
    + split; [done|]. split; [by rewrite Hmax3|]. split; [done|]. left. split; [done|].
      split; [lia|done].
    + split; [done|]. split; [done|]. split; [done|]. right. done.
Qed.

(** [tcp_shift_pacer_pop_due] releases a minimum, and only when it is due. *)
Lemma pop_due_ok w p now e0 rc p' e w' :
  pacer_wf w p -> tcp_shift_pacer_pop_due w p now e0 = (rc, p', e, w') ->
  pacer_wf w' p' /\ pc_heap_max p' = pc_heap_max p /\
  ((rc = 0 /\ p' = p /\ w' = w /\ Forall (fun x => now < ev_deadline_ns x) (queue p)) \/
   ((rc = 1 /\ synced p' \/ rc = -1) /\ queue p ≡ₚ e :: queue p' /\
    (forall x, x ∈ queue p -> event_le e x) /\ ev_deadline_ns e <= now)).
Proof.
  intros Hwf E. pose proof Hwf as (Hfd & Hh & (Hs1 & Hs2 & Hs3) & Ht).
  pose proof (hlen_le p Hh) as Hlen. pose proof Hh as (Hl & Hc & Hm & Hok & HF).
  assert (Hmax : pc_heap_max p <= 768614336404564650) by apply Hm.
  unfold tcp_shift_pacer_pop_due in E. destruct (_ <? 0) eqn:E0 in E; [lia|].
  destruct (_ || _) eqn:E1 in E.
  { injection E as <- <- <- <-. split; [done|]. split; [done|]. left. do 3 (split; [done|]).
    apply Forall_forall. intros x Hx. destruct (pc_heap_len p =? 0) eqn:E2.
    - unfold queue, hlen in Hx. replace (pc_heap_len p) with 0 in Hx by lia.
      by apply elem_of_nil in Hx.
    - destruct (root_min p Hh ltac:(lia)) as (_ & Hmin & _).
      pose proof (event_le_deadline _ _ (Hmin x Hx)). lia. }
  apply orb_false_iff in E1 as [E1 E2].
  destruct (root_min p Hh ltac:(lia)) as (_ & Hmin & _).
  set (n := Z.to_nat (pc_heap_len p - 1)).
  assert (Hn : hlen p = S n) by (unfold n, hlen in *; lia).
  rewrite (pop_remove_eq p) in E by (unfold hlen in *; lia). fold n in E.
  match type of E with context [tcp_shift_pacer_sync_timer _ ?r] => set (p2 := r) in * end.
  assert (Hp2 : p2 = mk_pacer (pc_timer_fd p) (pop_root n (pc_heap p)) (pc_heap_len p - 1)
    (pc_heap_cap p) (pc_heap_max p) (pc_armed_deadline_ns p) (pc_stats p2)) by reflexivity.
  rewrite Hn in Hok. destruct (pop_root_ok n (pc_heap p)) as (H1 & H2 & H3); [lia|done|].
  assert (Hq : queue p ≡ₚ pc_heap p !!! 0%nat :: live n (pop_root n (pc_heap p))).
  { unfold queue. by rewrite Hn. }
  destruct (heap_wf_replace p (pop_root n (pc_heap p)) n (pc_heap_len p - 1)
    (pc_armed_deadline_ns p) (pc_stats p2)) as [Hh2 Hq2]; [done|lia|done| |lia|unfold n; lia|].
  { rewrite Hq in HF. by apply Forall_cons in HF as [_ HF]. }
  rewrite <- Hp2 in Hh2, Hq2.
  assert (Hcur : ps_heap_current (pc_stats p2) = pc_heap_len p - 1 /\
    ps_heap_peak (pc_stats p2) = ps_heap_peak (pc_stats p) /\
    ps_heap_capacity (pc_stats p2) = ps_heap_capacity (pc_stats p)).
  { apply pop_stats_heap. }
  assert (Hwf2 : pacer_wf w p2).
  { destruct Hcur as (Hc1 & Hc2 & Hc3). split; [done|]. split; [done|]. split; [|done].
    unfold stats_wf. rewrite Hc1, Hc2, Hc3.
    change (pc_heap_len p2) with (pc_heap_len p - 1).
    change (pc_heap_max p2) with (pc_heap_max p).
    change (pc_heap_cap p2) with (pc_heap_cap p). lia. }
  destruct (tcp_shift_pacer_sync_timer w p2) as [[rc3 p3] w3] eqn:E3.
  destruct (sync_timer_ok _ _ _ _ _ Hwf2 E3) as (Hwf3 & Hh3 & Hlen3 & Hmax3 & Hout).
  assert (Hq3 : queue p3 = live n (pop_root n (pc_heap p))).
  { unfold queue, hlen. rewrite Hh3, Hlen3. fold (hlen p2). fold (queue p2). done. }
  assert (Hm3 : pc_heap_max p3 = pc_heap_max p) by (rewrite Hmax3, Hp2; done).
  destruct Hout as [[-> Hsy]|[-> Hpp]]; cbn [Z.ltb Z.compare] in E; injection E as <- <- <- <-.
  - split; [done|]. split; [done|]. right. split; [by left|]. rewrite Hq3.
    split; [done|]. split; [done|lia].
  - split; [done|]. split; [done|]. right. split; [by right|]. rewrite Hq3.
    split; [done|]. split; [done|lia].
Qed.

Lemma consume_ok w p x rc p' x' w' :
  pacer_wf w p -> tcp_shift_pacer_consume_timer w p x = (rc, p', x', w') ->
  pacer_wf w' p' /\ pc_heap_max p' = pc_heap_max p /\ queue p' = queue p /\
  (synced p -> synced p') /\ -1 <= rc <= 1.
Proof.
  intros (Hfd & Hh & Hs & Ht) E. unfold tcp_shift_pacer_consume_timer in E.
  destruct (_ <? 0) eqn:E0 in E; [lia|].
  destruct (timerfd_read w (pc_timer_fd p)) as [r w1] eqn:E1.
  pose proof (read_timer _ _ _ _ E1 (pc_timer_fd p)) as Hr.
  assert (Hwf1 : pacer_wf w1 p) by (by split_and!; try done; lia).
  destruct r as [count value| |]; [destruct (negb _)|..]; injection E as <- <- <- <-;
    repeat (split; [done|]); try done.
Qed.

(** With memory and a timer, an event is refused only when the queue is full. *)
Lemma schedule_admission w p e :
  (forall w h n, (realloc w h n).1 <> None) ->
  (forall w fd sec nsec, 0 <= (timerfd_settime w fd sec nsec).1) ->
  pacer_wf w p -> event_queued e ->
  (tcp_shift_pacer_schedule w p e).1.1 = 0 <-> pc_heap_len p < pc_heap_max p.
Proof.
  intros Hmem Htim Hwf [He _]. pose proof Hwf as (Hfd & Hh & _ & _).
  pose proof Hh as (Hl & Hc & Hm & _ & _).
  assert (Hsync : forall w p, (tcp_shift_pacer_sync_timer w p).1.1 = 0).
  { intros w1 p1. unfold tcp_shift_pacer_sync_timer.
    destruct (_ =? 0); [destruct (_ =? 0); [done|]|destruct (_ =? _); [done|]];
      (destruct (timerfd_settime _ _ _ _) as [rc w2] eqn:E;
       pose proof (Htim w1 (pc_timer_fd p1)) as Ht;
       match type of E with timerfd_settime _ _ ?s ?n = _ => specialize (Ht s n) end;
       rewrite E in Ht; cbn in Ht; destruct (rc <? 0) eqn:E1; [lia|done]). }
  unfold tcp_shift_pacer_schedule. destruct (_ || _) eqn:E0; [lia|].
  destruct (tcp_shift_pacer_reserve w p) as [[rc1 p1] w1] eqn:E1.
  assert (Hres : rc1 = if pc_heap_len p <? pc_heap_max p then 0 else -1).
  { unfold tcp_shift_pacer_reserve in E1.
    destruct (pc_heap_len p <? pc_heap_cap p) eqn:E2.
    { injection E1 as <- _ _. destruct (_ <? _) eqn:E3 in |- *; [done|lia]. }
    destruct (pc_heap_len p >=? pc_heap_max p) eqn:E3.
    { injection E1 as <- _ _. destruct (_ <? _) eqn:E4 in |- *; [lia|done]. }
    destruct (pc_heap_len p <? pc_heap_max p) eqn:E4; [|lia].
    match type of E1 with context [realloc _ _ ?n] => set (nc := n) in * end.
    assert (Hnc : nc <= SIZE_MAX / SIZEOF_EVENT).
    { assert (nc <= pc_heap_max p) by (unfold nc; destruct (_ || _) eqn:E5 in |- *; lia). lia. }
    destruct (nc >? SIZE_MAX / SIZEOF_EVENT) eqn:E5; [lia|].
    specialize (Hmem w (pc_heap p) nc). destruct (realloc w (pc_heap p) nc) as [[h1|] w2];
      [by injection E1 as <- _ _|done]. }
  destruct (pc_heap_len p <? pc_heap_max p) eqn:E2; subst rc1; cbn [Z.ltb Z.compare].
  - match goal with |- context [tcp_shift_pacer_sync_timer _ ?r] => set (p2 := r) in * end.
    specialize (Hsync w1 p2).
    destruct (tcp_shift_pacer_sync_timer w1 p2) as [[rc3 p3] w3]. cbn in Hsync. subst rc3.
    cbn. lia.
  - cbn. lia.
Qed.
End Invariant.

(** ** The abstract queue *)

Inductive pacer_op :=
  | OpSchedule (e : tcp_shift_pacer_event)
  | OpCancel (flow_id generation : Z)
  | OpPop (now_ns : Z)
  | OpConsume.

Inductive pacer_out := OutNone | OutCancelled (n : Z) | OutEvent (e : tcp_shift_pacer_event).

Definition op_wf (op : pacer_op) : Prop :=
  match op with OpSchedule e => event_wf e | _ => True end.

Definition pacer_run {W} `{!PacerOS W} (w : W) (p : tcp_shift_pacer) (op : pacer_op)
    : Z * tcp_shift_pacer * pacer_out * W :=
  match op with
  | OpSchedule e => let '(rc, p, w) := tcp_shift_pacer_schedule w p e in (rc, p, OutNone, w)
  | OpCancel f g => let '(rc, p, c, w) := tcp_shift_pacer_cancel w p f g 0 in
                    (rc, p, OutCancelled c, w)
  | OpPop now => let '(rc, p, e, w) := tcp_shift_pacer_pop_due w p now inhabitant in
                 (rc, p, OutEvent e, w)
  | OpConsume => let '(rc, p, _, w) := tcp_shift_pacer_consume_timer w p 0 in
                 (rc, p, OutNone, w)
  end.

(** What an operation may do to a queue of events: the outcomes of each call. *)
Inductive queue_step (q : list tcp_shift_pacer_event)
    : pacer_op -> Z -> pacer_out -> list tcp_shift_pacer_event -> Prop :=
  | queue_scheduled e q' : q' ≡ₚ e :: q -> queue_step q (OpSchedule e) 0 OutNone q'
  | queue_refused e q' : q' ≡ₚ q -> queue_step q (OpSchedule e) (-1) OutNone q'
  | queue_cancelled f g q' :
      q' ≡ₚ List.filter (fun e => negb (event_of f g e)) q ->
      queue_step q (OpCancel f g) 0
        (OutCancelled (Z.of_nat (length (List.filter (event_of f g) q)))) q'
  | queue_cancel_failed f g q' :
      q' ≡ₚ List.filter (fun e => negb (event_of f g e)) q ->
      List.filter (event_of f g) q <> [] ->
      queue_step q (OpCancel f g) (-1) (OutCancelled 0) q'
  | queue_not_due now e :
      Forall (fun x => now < ev_deadline_ns x) q -> queue_step q (OpPop now) 0 (OutEvent e) q
  | queue_released now e q' rc :
      rc = 1 \/ rc = -1 -> q ≡ₚ e :: q' -> (forall x, x ∈ q -> event_le e x) ->
      ev_deadline_ns e <= now -> queue_step q (OpPop now) rc (OutEvent e) q'
  | queue_consumed rc : -1 <= rc <= 1 -> queue_step q OpConsume rc OutNone q.

(** The earliest deadline, 0 for the empty queue. *)
Definition next_deadline (q : list tcp_shift_pacer_event) : Z :=
  match q with
  | [] => 0
  | e :: q => foldr (fun x d => Z.min (ev_deadline_ns x) d) (ev_deadline_ns e) q
  end.

Lemma next_deadline_min q r :
  r ∈ q -> (forall x, x ∈ q -> ev_deadline_ns r <= ev_deadline_ns x) ->
  next_deadline q = ev_deadline_ns r.
Proof.
  destruct q as [|e q]; [by intros ?%elem_of_nil|]. intros Hr Hmin. cbn.
  assert (He : ev_deadline_ns r <= ev_deadline_ns e) by (apply Hmin; left).
  assert (Hmin' : forall x, x ∈ q -> ev_deadline_ns r <= ev_deadline_ns x)
    by (intros; apply Hmin; by right).
  apply elem_of_cons in Hr. clear Hmin. induction q as [|x q IH]; cbn.
  - destruct Hr as [->|?%elem_of_nil]; done.
  - assert (ev_deadline_ns r <= ev_deadline_ns x) by (apply Hmin'; left).
    assert (Hlb : forall q, (forall x, x ∈ q -> ev_deadline_ns r <= ev_deadline_ns x) ->
      ev_deadline_ns r <= foldr (fun x d => Z.min (ev_deadline_ns x) d) (ev_deadline_ns e) q).
    { clear -He. induction q as [|y q IHq]; cbn; [done|]. intros Hy.
      specialize (IHq ltac:(intros; apply Hy; by right)). specialize (Hy y ltac:(left)). lia. }
    specialize (Hlb q ltac:(intros; apply Hmin'; by right)).
    destruct Hr as [->|[->|Hr]%elem_of_cons].
    + rewrite IH; [lia|by left|intros; apply Hmin'; by right].
    + lia.
    + rewrite IH; [lia|by right|intros; apply Hmin'; by right].
Qed.

(** ** Reachable schedulers *)

Section Reachable.
Context {W : Type} `{!PacerOS W}.

(** Whether the timer follows the queue after an operation: every success
    that reprograms it restores this, and only a release or a cancellation
    that fails to program the timer loses it. *)
Definition in_step_after (in_step : bool) (op : pacer_op) (rc : Z) (out : pacer_out) : bool :=
  match op, out with
  | OpSchedule _, _ => (rc =? 0) || in_step
  | OpCancel _ _, OutCancelled n => (rc =? 0) && ((0 <? n) || in_step)
  | OpPop _, _ => (rc =? 1) || ((rc =? 0) && in_step)
  | _, _ => in_step
  end.

(** A scheduler for [max] events that ran any sequence of operations. *)
Inductive pacer_reach (max : Z) : bool -> tcp_shift_pacer -> W -> Prop :=
  | reach_init w0 p0 p w :
      tcp_shift_pacer_init w0 p0 max = (0, p, w) -> pacer_reach max true p w
  | reach_op b p w op rc p' out w' :
      pacer_reach max b p w -> op_wf op -> pacer_run w p op = (rc, p', out, w') ->
      pacer_reach max (in_step_after b op rc out) p' w'.
End Reachable.

Section Refinement.
Context {W : Type} `{!PacerOS W} (timer : W -> Z -> Z) `{!PacerOSLaws W timer}.

(** One operation, against the invariant, the abstract queue and the timer. *)
Lemma pacer_run_ok w p op rc p' out w' b :
  pacer_wf timer w p -> (b = true -> synced p) -> op_wf op ->
  pacer_run w p op = (rc, p', out, w') ->
  pacer_wf timer w' p' /\ pc_heap_max p' = pc_heap_max p /\
  queue_step (queue p) op rc out (queue p') /\
  (in_step_after b op rc out = true -> synced p').
Proof.
  intros Hwf Hb Hop E. destruct op as [e|f g|now|]; cbn [pacer_run] in E.
  - destruct (tcp_shift_pacer_schedule w p e) as [[rc1 p1] w1] eqn:E1.
    injection E as <- <- <- <-.
    destruct (schedule_ok timer _ _ _ _ _ _ Hwf Hop E1) as
      (H1 & H2 & [(-> & Hq & Hs)|(-> & Hq & Hs)]); (split; [done|]; split; [done|]); cbn.
    + split; [by constructor|done].
    + split; [by constructor|auto].
  - destruct (tcp_shift_pacer_cancel w p f g 0) as [[[rc1 p1] c1] w1] eqn:E1.
    injection E as <- <- <- <-.
    destruct (cancel_ok timer _ _ _ _ _ _ _ _ _ Hwf E1) as
      (H1 & H2 & Hq & [(-> & -> & Hs)|(-> & -> & Hg)]); (split; [done|]; split; [done|]); cbn.
    + split; [by constructor|]. intros Hin. apply Hs.
      destruct (List.filter _ _) as [|x l] eqn:El; [left; by apply Hb|right; discriminate].
    + split; [by constructor|done].
  - destruct (tcp_shift_pacer_pop_due w p now inhabitant) as [[[rc1 p1] e1] w1] eqn:E1.
    injection E as <- <- <- <-.
    destruct (pop_due_ok timer _ _ _ _ _ _ _ _ Hwf E1) as
      (H1 & H2 & [(-> & -> & -> & HF)|([[-> Hs]| ->] & Hq & Hmin & Hdue)]);
      (split; [done|]; split; [done|]); cbn.
    + split; [by constructor|done].
    + split; [|done]. eapply queue_released; auto.
    + split; [|done]. eapply queue_released; auto.
  - destruct (tcp_shift_pacer_consume_timer w p 0) as [[[rc1 p1] x1] w1] eqn:E1.
    injection E as <- <- <- <-.
    destruct (consume_ok timer _ _ _ _ _ _ _ Hwf E1) as (H1 & H2 & Hq & Hs & Hr).
    split; [done|]. split; [done|]. rewrite Hq. split; [by constructor|auto].
Qed.

Lemma pacer_reach_wf max b p w :
  in_u64 max -> pacer_reach max b p w ->
  pacer_wf timer w p /\ pc_heap_max p = max /\ (b = true -> synced p).
Proof.
  intros Hmax. induction 1 as [w0 p0 p w E|b p w op rc p' out w' _ IH Hop E].
  - by destruct (init_ok timer _ _ _ _ _ _ Hmax E eq_refl) as (H1 & _ & H2 & H3).
  - destruct IH as (H1 & H2 & H3).
    destruct (pacer_run_ok _ _ _ _ _ _ _ _ H1 H3 Hop E) as (H4 & H5 & _ & H6).
    by rewrite H5.
Qed.

Lemma synced_next_deadline p :
  heap_wf p -> synced p -> pc_armed_deadline_ns p = next_deadline (queue p).
Proof.
  intros Hh ->. destruct (pc_heap_len p =? 0) eqn:E.
  - unfold queue, hlen. by replace (pc_heap_len p) with 0 by lia.
  - destruct (root_min p Hh ltac:(lia)) as (H1 & H2 & _). symmetry.
    apply next_deadline_min; [done|]. intros x Hx. apply event_le_deadline; auto.
Qed.
End Refinement.

(** C1. The scheduler refines a priority queue. In every state it can reach,
    whatever the system calls return, each operation acts on the multiset of
    queued events as the abstract queue does: [schedule] adds the event or, on
    any error, leaves the queue as it was (the rollback is exact); [cancel]
    removes exactly the events of the flow generation and counts them;
    [pop_due] releases an event that precedes every queued event in the order
    (deadline, flow, generation, bytes), only when it is due, and refuses only
    when no event is due. *)
Theorem pacer_refines_queue {W} `{!PacerOS W} (timer : W -> Z -> Z) `{!PacerOSLaws W timer}
    max b p w op rc p' out w' :
  in_u64 max -> pacer_reach max b p w -> op_wf op -> pacer_run w p op = (rc, p', out, w') ->
  queue_step (queue p) op rc out (queue p').
Proof.
  intros Hmax Hreach Hop E.
  destruct (pacer_reach_wf timer _ _ _ _ Hmax Hreach) as (H1 & _ & H2).
  by destruct (pacer_run_ok timer _ _ _ _ _ _ _ _ H1 H2 Hop E) as (_ & _ & H & _).
Qed.

(** The invariant of the scheduler. In every state it can reach it holds
    at most [max] events in a buffer of at most [max] slots, the buffer is a
    heap, the statistics agree with it, and [armed_deadline_ns] is the time the
    timer is programmed with; and as long as no release or cancellation has
    failed to program the timer since the last success, that time is the
    earliest queued deadline, or the timer is disarmed when nothing is queued:
    no queued event is without a wake-up. *)
Theorem pacer_reachable_invariant {W} `{!PacerOS W} (timer : W -> Z -> Z) `{!PacerOSLaws W timer}
    max b p w :
  in_u64 max -> pacer_reach max b p w ->
  Z.of_nat (length (queue p)) = pc_heap_len p /\ pc_heap_len p <= pc_heap_cap p <= max /\
  Z.of_nat (length (pc_heap p)) = pc_heap_cap p /\ heap_ok (hlen p) (pc_heap p) /\
  ps_heap_current (tcp_shift_pacer_get_stats p) = pc_heap_len p /\
  pc_heap_len p <= ps_heap_peak (tcp_shift_pacer_get_stats p) <= max /\
  pc_armed_deadline_ns p = timer w (pc_timer_fd p) /\
  (b = true -> timer w (pc_timer_fd p) = next_deadline (queue p)).
Proof.
  intros Hmax Hreach.
  destruct (pacer_reach_wf timer _ _ _ _ Hmax Hreach) as ((Hfd & Hh & Hs & Ha) & Hm & Hsy).
  pose proof (hlen_le p Hh) as Hl. pose proof (synced_next_deadline p Hh) as Hnext.
  destruct Hh as (H1 & H2 & H3 & H4 & _). destruct Hs as (H5 & H6 & _).
  unfold queue at 1. rewrite live_length by done. unfold tcp_shift_pacer_get_stats.
  rewrite Hm in *. repeat split; try done; try (unfold hlen; lia).
  intros Hb. rewrite <- Ha. auto.
Qed.

(** Admission. When memory and the timer are available, a reachable
    scheduler accepts a valid event exactly when fewer than [max] events are
    queued: the capacity doubling never refuses early and never exceeds the
    bound. *)
Theorem pacer_schedule_admission {W} `{!PacerOS W} (timer : W -> Z -> Z) `{!PacerOSLaws W timer}
    max b p w e :
  (forall w h n, (realloc w h n).1 <> None) ->
  (forall w fd sec nsec, 0 <= (timerfd_settime w fd sec nsec).1) ->
  in_u64 max -> pacer_reach max b p w -> 1 <= ev_deadline_ns e <= UINT64_MAX ->
  (tcp_shift_pacer_schedule w p e).1.1 = 0 <-> Z.of_nat (length (queue p)) < max.
Proof.
  intros Hmem Htim Hmax Hreach He.
  destruct (pacer_reach_wf timer _ _ _ _ Hmax Hreach) as (Hwf & Hm & _).
  pose proof Hwf as (_ & Hh & _). pose proof (hlen_le p Hh) as Hl.
  rewrite (schedule_admission timer w p e Hmem Htim Hwf He).
  unfold queue. rewrite live_length, Hm by done. unfold hlen.
  destruct Hh as (? & _). rewrite Z2Nat.id by lia. done.
Qed.

(** ** A concrete system *)

Module SampleOS.
(** The state is the log of the programmed times, with their files; calls do
    not fail. *)
Abbreviation world := (list (Z * Z)).
#[global] Instance os : PacerOS world := {|
  realloc w h n := (Some (h ++ replicate (Z.to_nat n - length h) inhabitant), w);
  heap_free w _ := w;
  timerfd_create w := (3, (3, 0) :: w);
  timerfd_settime w fd sec nsec := (0, (fd, sec * 1000000000 + nsec) :: w);
  timerfd_read w _ := (ReadCount 8 1, w);
  fd_close w _ := w
|}.

Definition timer (w : world) (fd : Z) : Z :=
  match List.find (fun x => x.1 =? fd) w with Some x => x.2 | None => 0 end.

#[global] Instance laws : PacerOSLaws world timer.
Proof.
  split.
  - intros w h n h' w' E Hn. injection E as <- <-.
    rewrite length_app, length_replicate, take_app_length. split; [lia|done].
  - intros w h n r w' E. by injection E as _ <-.
  - intros w fd w' E _. injection E as <- <-. done.
  - intros w fd sec nsec rc w' E _. injection E as _ <-. unfold timer. cbn. by rewrite Z.eqb_refl.
  - intros w fd sec nsec rc w' E ?. injection E as <- _. lia.
  - intros w fd sec nsec rc w' E fd' Hne. injection E as _ <-. unfold timer. cbn.
    by replace (fd =? fd') with false by lia.
  - intros w fd r w' E. by injection E as _ <-.
Qed.

Definition w1 : world := [(3, 0)].
Definition w2 : world := (3, 5000) :: w1.
Definition w3 : world := (3, 3000) :: w2.
Definition w4 : world := (3, 5000) :: w3.
Definition e1 := mk_event 5000 7 1 1500.
Definition e2 := mk_event 3000 9 1 1500.
Definition p1 : tcp_shift_pacer :=
  Eval vm_compute in (tcp_shift_pacer_init (W := world) [] zero_pacer 2).1.2.
Definition p2 : tcp_shift_pacer :=
  Eval vm_compute in (pacer_run (W := world) w1 p1 (OpSchedule e1)).1.1.2.
Definition p3 : tcp_shift_pacer :=
  Eval vm_compute in (pacer_run (W := world) w2 p2 (OpSchedule e2)).1.1.2.
Definition p4 : tcp_shift_pacer :=
  Eval vm_compute in (pacer_run (W := world) w3 p3 (OpPop 3500)).1.1.2.

Lemma reach1 : pacer_reach (W := world) 2 true p1 w1.
Proof. apply (reach_init 2 [] zero_pacer). vm_compute. reflexivity. Defined.
Lemma reach2 : pacer_reach (W := world) 2 true p2 w2.
Proof.
  apply (reach_op 2 true p1 w1 (OpSchedule e1) 0 p2 OutNone); [apply reach1|cbv; split; discriminate|].
  vm_compute. reflexivity.
Defined.
Lemma reach3 : pacer_reach (W := world) 2 true p3 w3.
Proof.
  apply (reach_op 2 true p2 w2 (OpSchedule e2) 0 p3 OutNone);
    [apply reach2|cbv; split; discriminate|].
  vm_compute. reflexivity.
Defined.
End SampleOS.

Lemma pacer_refines_queue_witness :
  pacer_run (W := SampleOS.world) SampleOS.w3 SampleOS.p3 (OpPop 3500)
    = (1, SampleOS.p4, OutEvent SampleOS.e2, SampleOS.w4) /\
  queue_step (queue SampleOS.p3) (OpPop 3500) 1 (OutEvent SampleOS.e2) (queue SampleOS.p4).
Proof.
  assert (E : pacer_run (W := SampleOS.world) SampleOS.w3 SampleOS.p3 (OpPop 3500)
    = (1, SampleOS.p4, OutEvent SampleOS.e2, SampleOS.w4)) by (vm_compute; reflexivity).
  split; [exact E|].
  refine (pacer_refines_queue (W := SampleOS.world) SampleOS.timer 2 true SampleOS.p3 SampleOS.w3 (OpPop 3500) 1
            SampleOS.p4 (OutEvent SampleOS.e2) SampleOS.w4 _ SampleOS.reach3 I E). lia.
Defined.

Lemma pacer_reachable_invariant_witness :
  pacer_reach (W := SampleOS.world) 2 true SampleOS.p3 SampleOS.w3 /\ 3000 = next_deadline (queue SampleOS.p3).
Proof.
  split; [exact SampleOS.reach3|].
  destruct (pacer_reachable_invariant (W := SampleOS.world) SampleOS.timer 2 true SampleOS.p3 SampleOS.w3)
    as (_ & _ & _ & _ & _ & _ & _ & H); [lia|exact SampleOS.reach3|].
  exact (H eq_refl).
Defined.

Lemma pacer_schedule_admission_witness :
  (tcp_shift_pacer_schedule (W := SampleOS.world) SampleOS.w2 SampleOS.p2 SampleOS.e2).1.1 = 0 /\
  (tcp_shift_pacer_schedule (W := SampleOS.world) SampleOS.w3 SampleOS.p3 SampleOS.e2).1.1 <> 0.
Proof.
  split.
  - apply (pacer_schedule_admission (W := SampleOS.world) SampleOS.timer 2 true SampleOS.p2 SampleOS.w2 SampleOS.e2);
      [intros; cbn; discriminate|intros; cbn; lia|lia|exact SampleOS.reach2|cbn; lia
      |vm_compute; reflexivity].
  - intros H.
    apply (pacer_schedule_admission (W := SampleOS.world) SampleOS.timer 2 true SampleOS.p3 SampleOS.w3 SampleOS.e2) in H;
      [vm_compute in H; discriminate|intros; cbn; discriminate|intros; cbn; lia|lia
      |exact SampleOS.reach3|cbn; lia].
Defined.
