(* ===== verification/Bbr3Model.v ===== *)
(** * The BBRv3 path model ([src/cc/bbr3_model.h], [src/cc/bbr3_model.c])

    Rational scaling, packet-timed rounds, the two-level minimum-RTT filter,
    the two-cycle bandwidth filter, the full-pipe detector, the gain tables of
    the seven phases and the headroom below the long-term inflight bound. *)

From Stdlib Require Import ZArith Lia Bool List.
From stdpp Require Import base tactics numbers list.
From S2P Require Import Prelude CC.
Local Open Scope Z_scope.

Abbreviation TCP_SHIFT_BBR3_MAX_BW_CYCLES := 2.
Abbreviation TCP_SHIFT_BBR3_MIN_RTT_WINDOW_NS := 10000000000.
Abbreviation TCP_SHIFT_BBR3_PROBE_RTT_INTERVAL_NS := 5000000000.
Abbreviation TCP_SHIFT_BBR3_FULL_BW_ROUNDS := 3.

Inductive tcp_shift_bbr3_phase :=
  | TCP_SHIFT_BBR3_STARTUP
  | TCP_SHIFT_BBR3_DRAIN
  | TCP_SHIFT_BBR3_PROBE_BW_DOWN
  | TCP_SHIFT_BBR3_PROBE_BW_CRUISE
  | TCP_SHIFT_BBR3_PROBE_BW_REFILL
  | TCP_SHIFT_BBR3_PROBE_BW_UP
  | TCP_SHIFT_BBR3_PROBE_RTT.

#[export] Instance tcp_shift_bbr3_phase_eq_dec : EqDecision tcp_shift_bbr3_phase.
Proof. solve_decision. Defined.

(** [phase >= PROBE_BW_DOWN && phase <= PROBE_BW_UP]: the four consecutive
    enumerators of ProbeBW. *)
Definition in_probe_bw (phase : tcp_shift_bbr3_phase) : bool :=
  match phase with
  | TCP_SHIFT_BBR3_PROBE_BW_DOWN | TCP_SHIFT_BBR3_PROBE_BW_CRUISE
  | TCP_SHIFT_BBR3_PROBE_BW_REFILL | TCP_SHIFT_BBR3_PROBE_BW_UP => true
  | _ => false
  end.

Record tcp_shift_bbr3_gain := mk_gain { numerator : Z; denominator : Z }.

(** [b3_max_bw_filter] is the C array of two cycle maxima. *)
Record tcp_shift_bbr3_model := mk_bbr3 {
  b3_max_bw_bytes_per_sec : Z;
  b3_max_bw_filter : list Z;
  b3_min_rtt_ns : Z;
  b3_min_rtt_stamp_ns : Z;
  b3_probe_rtt_min_delay_ns : Z;
  b3_probe_rtt_min_stamp_ns : Z;
  b3_last_update_ns : Z;
  b3_next_round_delivered : Z;
  b3_full_bw_bytes_per_sec : Z;
  b3_round_count : Z;
  b3_cycle_count : Z;
  b3_full_bw_count : Z;
  b3_has_bw : bool;
  b3_has_min_rtt : bool;
  b3_has_probe_rtt_min : bool;
  b3_has_update_time : bool;
  b3_round_start : bool;
  b3_full_bw_reached : bool;
  b3_probe_rtt_expired : bool;
  b3_phase : tcp_shift_bbr3_phase
}.
#[export] Instance eta_bbr3 : Eta tcp_shift_bbr3_model := fun r =>
  mk_bbr3 (b3_max_bw_bytes_per_sec r) (b3_max_bw_filter r) (b3_min_rtt_ns r)
    (b3_min_rtt_stamp_ns r) (b3_probe_rtt_min_delay_ns r) (b3_probe_rtt_min_stamp_ns r)
    (b3_last_update_ns r) (b3_next_round_delivered r) (b3_full_bw_bytes_per_sec r)
    (b3_round_count r) (b3_cycle_count r) (b3_full_bw_count r) (b3_has_bw r)
    (b3_has_min_rtt r) (b3_has_probe_rtt_min r) (b3_has_update_time r)
    (b3_round_start r) (b3_full_bw_reached r) (b3_probe_rtt_expired r) (b3_phase r).

(** ** Operations *)

(** The static [max_u64] of [bbr3_model.c]. *)
Definition bbr3_max_u64 (left right : Z) : Z := if left >? right then left else right.

Definition tcp_shift_bbr3_scale (value : Z) (gain : tcp_shift_bbr3_gain) : Z :=
  if denominator gain =? 0 then UINT64_MAX
  else
    let whole := value / denominator gain in
    if negb (numerator gain =? 0) && (whole >? UINT64_MAX / numerator gain) then UINT64_MAX
    else
      let whole := whole *w64 numerator gain in
      let fraction := (value mod denominator gain) *w64 numerator gain in
      let fraction := fraction / denominator gain in
      if UINT64_MAX -w64 whole <? fraction then UINT64_MAX else whole +w64 fraction.

(** Every field of the object is written. *)
Definition tcp_shift_bbr3_model_init : tcp_shift_bbr3_model :=
  mk_bbr3 0 [0; 0] 0 0 0 0 0 0 0 0 0 0 false false false false false false false
    TCP_SHIFT_BBR3_STARTUP.

Definition bbr3_expired (now_ns timestamp age_ns : Z) : bool :=
  (now_ns >? timestamp) && (now_ns -w64 timestamp >? age_ns).

(** The first filter of [update_rtt], lines 76-86: the five-second minimum. *)
Definition bbr3_probe_min_step (model : tcp_shift_bbr3_model)
    (sample : tcp_shift_cc_rate_sample) (now_ns : Z) (probe_expired : bool)
    : tcp_shift_bbr3_model :=
  if has_flag sample TCP_SHIFT_CC_RATE_SAMPLE_RTT_VALID &&
     negb (rs_rtt_ns sample =? 0) &&
     (negb (b3_has_probe_rtt_min model) ||
      (rs_rtt_ns sample <? b3_probe_rtt_min_delay_ns model) || probe_expired)
  then model <| b3_probe_rtt_min_delay_ns := rs_rtt_ns sample |>
             <| b3_probe_rtt_min_stamp_ns := now_ns |>
             <| b3_has_probe_rtt_min := true |>
  else model.

(** The second filter of [update_rtt]: the ten-second minimum. *)
Definition bbr3_min_rtt_step (model : tcp_shift_bbr3_model) (min_expired : bool)
    : tcp_shift_bbr3_model :=
  if b3_has_probe_rtt_min model &&
     (negb (b3_has_min_rtt model) ||
      (b3_probe_rtt_min_delay_ns model <? b3_min_rtt_ns model) || min_expired)
  then model <| b3_min_rtt_ns := b3_probe_rtt_min_delay_ns model |>
             <| b3_min_rtt_stamp_ns := b3_probe_rtt_min_stamp_ns model |>
             <| b3_has_min_rtt := true |>
  else model.

Definition bbr3_update_rtt (model : tcp_shift_bbr3_model)
    (sample : tcp_shift_cc_rate_sample) (now_ns : Z) : tcp_shift_bbr3_model :=
  let probe_expired := b3_has_probe_rtt_min model &&
    bbr3_expired now_ns (b3_probe_rtt_min_stamp_ns model)
      TCP_SHIFT_BBR3_PROBE_RTT_INTERVAL_NS in
  let min_expired := b3_has_min_rtt model &&
    bbr3_expired now_ns (b3_min_rtt_stamp_ns model) TCP_SHIFT_BBR3_MIN_RTT_WINDOW_NS in
  let model := model <| b3_probe_rtt_expired := probe_expired |> in
  let model := bbr3_probe_min_step model sample now_ns probe_expired in
  bbr3_min_rtt_step model min_expired.

Definition bbr3_update_round (model : tcp_shift_bbr3_model)
    (sample : tcp_shift_cc_rate_sample) : tcp_shift_bbr3_model :=
  let model := model <| b3_round_start := false |> in
  if (rs_delivered_total_bytes sample =? 0) ||
     (rs_prior_delivered_bytes sample <? b3_next_round_delivered model)
  then model
  else model <| b3_next_round_delivered := rs_delivered_total_bytes sample |>
             <| b3_round_count := b3_round_count model +w32 1 |>
             <| b3_round_start := true |>.

(** [full_bw + ceil(full_bw / 4)], saturated: the 25% growth test. *)
Definition bbr3_full_bw_threshold (full_bw : Z) : Z :=
  let quarter := full_bw / 4 in
  let quarter := if negb (full_bw mod 4 =? 0) then quarter +w64 1 else quarter in
  if UINT64_MAX -w64 full_bw <? quarter then UINT64_MAX else full_bw +w64 quarter.

Definition bbr3_update_full_bw (model : tcp_shift_bbr3_model)
    (sample : tcp_shift_cc_rate_sample) : tcp_shift_bbr3_model :=
  if b3_full_bw_reached model || negb (b3_round_start model) ||
     negb (has_flag sample TCP_SHIFT_CC_RATE_SAMPLE_VALID) ||
     has_flag sample TCP_SHIFT_CC_RATE_SAMPLE_APP_LIMITED ||
     (b3_max_bw_bytes_per_sec model =? 0)
  then model
  else
    let threshold := bbr3_full_bw_threshold (b3_full_bw_bytes_per_sec model) in
    if (b3_full_bw_bytes_per_sec model =? 0) ||
       (b3_max_bw_bytes_per_sec model >=? threshold)
    then model <| b3_full_bw_bytes_per_sec := b3_max_bw_bytes_per_sec model |>
               <| b3_full_bw_count := 0 |>
    else
      let model := model <| b3_full_bw_count := b3_full_bw_count model +w32 1 |> in
      if b3_full_bw_count model >=? TCP_SHIFT_BBR3_FULL_BW_ROUNDS
      then model <| b3_full_bw_reached := true |>
      else model.

(** [max_u64(filter[0], filter[1])] *)
Definition bbr3_filter_max (filter : list Z) : Z :=
  bbr3_max_u64 (filter !!! 0%nat) (filter !!! 1%nat).

(** The bandwidth sample of an ACK, lines 161-174. *)
Definition bbr3_note_rate (model : tcp_shift_bbr3_model)
    (sample : tcp_shift_cc_rate_sample) : tcp_shift_bbr3_model :=
  let rate := rs_delivery_rate_bytes_per_sec sample in
  if has_flag sample TCP_SHIFT_CC_RATE_SAMPLE_VALID && negb (rate =? 0) &&
     ((rate >=? b3_max_bw_bytes_per_sec model) ||
      negb (has_flag sample TCP_SHIFT_CC_RATE_SAMPLE_APP_LIMITED))
  then
    let slot := Z.to_nat (b3_cycle_count model mod TCP_SHIFT_BBR3_MAX_BW_CYCLES) in
    let filter :=
      <[slot := bbr3_max_u64 rate (b3_max_bw_filter model !!! slot)]> (b3_max_bw_filter model) in
    model <| b3_max_bw_filter := filter |>
          <| b3_max_bw_bytes_per_sec := bbr3_filter_max filter |>
          <| b3_has_bw := true |>
  else model.

Definition tcp_shift_bbr3_model_on_ack (model : tcp_shift_bbr3_model)
    (sample : tcp_shift_cc_rate_sample) (now_ns : Z) : Z * tcp_shift_bbr3_model :=
  if (now_ns =? 0) ||
     (b3_has_update_time model && (now_ns <? b3_last_update_ns model)) ||
     (rs_prior_delivered_bytes sample >? rs_delivered_total_bytes sample)
  then (-1, model)
  else
    let model := model <| b3_last_update_ns := now_ns |> <| b3_has_update_time := true |> in
    let model := bbr3_update_round model sample in
    let model := bbr3_update_rtt model sample now_ns in
    let model := bbr3_note_rate model sample in
    let model := bbr3_update_full_bw model sample in
    (0, model).

Definition tcp_shift_bbr3_model_advance_bw_cycle (model : tcp_shift_bbr3_model)
    : Z * tcp_shift_bbr3_model :=
  if b3_cycle_count model =? UINT32_MAX then (-1, model)
  else
    let model := model <| b3_cycle_count := b3_cycle_count model +w32 1 |> in
    let slot := Z.to_nat (b3_cycle_count model mod TCP_SHIFT_BBR3_MAX_BW_CYCLES) in
    let filter := <[slot := 0]> (b3_max_bw_filter model) in
    let max_bw := bbr3_filter_max filter in
    (0, model <| b3_max_bw_filter := filter |>
              <| b3_max_bw_bytes_per_sec := max_bw |>
              <| b3_has_bw := negb (max_bw =? 0) |>).

(** The [default] branch of the switch is for values outside the enumeration. *)
Definition tcp_shift_bbr3_pacing_gain (phase : tcp_shift_bbr3_phase) : tcp_shift_bbr3_gain :=
  match phase with
  | TCP_SHIFT_BBR3_STARTUP => mk_gain 277 100
  | TCP_SHIFT_BBR3_DRAIN => mk_gain 1 2
  | TCP_SHIFT_BBR3_PROBE_BW_DOWN => mk_gain 9 10
  | TCP_SHIFT_BBR3_PROBE_BW_UP => mk_gain 5 4
  | TCP_SHIFT_BBR3_PROBE_BW_CRUISE
  | TCP_SHIFT_BBR3_PROBE_BW_REFILL
  | TCP_SHIFT_BBR3_PROBE_RTT => mk_gain 1 1
  end.

Definition tcp_shift_bbr3_cwnd_gain (phase : tcp_shift_bbr3_phase) : tcp_shift_bbr3_gain :=
  match phase with
  | TCP_SHIFT_BBR3_PROBE_BW_UP => mk_gain 9 4
  | TCP_SHIFT_BBR3_PROBE_RTT => mk_gain 1 2
  | _ => mk_gain 2 1
  end.

Definition tcp_shift_bbr3_inflight_with_headroom (inflight_longterm_bytes mss_bytes : Z) : Z :=
  let min_pipe := mss_bytes *w64 4 in
  if mss_bytes =? 0 then 0
  else if inflight_longterm_bytes =? UINT64_MAX then UINT64_MAX
  else
    let headroom := tcp_shift_bbr3_scale inflight_longterm_bytes (mk_gain 15 100) in
    let headroom := if headroom <? mss_bytes then mss_bytes else headroom in
    let result := if inflight_longterm_bytes >? headroom
                  then inflight_longterm_bytes -w64 headroom else 0 in
    if result <? min_pipe then min_pipe else result.

(** ** Exactness of the arithmetic *)

Lemma bbr3_max_spec a b : bbr3_max_u64 a b = Z.max a b.
Proof. unfold bbr3_max_u64. case_match; lia. Qed.

(** The body shared by [scale] and [ratio]: the quotient and the remainder are
    scaled apart, each within 64 bits. *)
Lemma split_scale_exact v n d :
  in_u64 v -> in_u32 n -> 1 <= d <= UINT32_MAX ->
  (if negb (n =? 0) && (v / d >? UINT64_MAX / n) then UINT64_MAX
   else if UINT64_MAX -w64 (v / d *w64 n) <? ((v mod d) *w64 n) / d then UINT64_MAX
        else (v / d *w64 n) +w64 ((v mod d) *w64 n) / d)
  = Z.min UINT64_MAX (v * n / d).
Proof.
  intros Hv Hn Hd.
  assert (Hq : 0 <= v / d <= v) by div_nia. pose proof (mod_mul_u64 v n d ltac:(lia) Hn) as Hm.
  rewrite (scale_split v n d) by lia. rewrite (u64_small (v mod d * n)) by lia.
  assert (Hf : 0 <= v mod d * n / d <= UINT64_MAX) by div_nia.
  assert (Hp : 0 <= v / d * n) by nia.
  destruct (Z.eq_dec n 0) as [->|Hn0].
  { rewrite Z.eqb_refl. cbn [negb andb]. rewrite !Z.mul_0_r, Z.div_0_l by lia. reflexivity. }
  rewrite (proj2 (Z.eqb_neq n 0) Hn0). cbn [negb andb].
  rewrite Z.gtb_ltb, div_ltb_mul by lia. case_match; [lia|].
  rewrite (u64_small (v / d * n)) by lia. by rewrite sat_add_u64_lt by lia.
Qed.

Lemma bbr3_scale_spec v n d :
  in_u64 v -> in_u32 n -> 1 <= d <= UINT32_MAX ->
  tcp_shift_bbr3_scale v (mk_gain n d) = Z.min UINT64_MAX (v * n / d).
Proof.
  intros Hv Hn Hd. unfold tcp_shift_bbr3_scale. cbn [numerator denominator].
  destruct (d =? 0) eqn:E; [lia|]. by apply split_scale_exact.
Qed.

Lemma bbr3_scale_u64 v g :
  in_u64 v -> in_u32 (numerator g) -> 1 <= denominator g <= UINT32_MAX ->
  in_u64 (tcp_shift_bbr3_scale v g).
Proof.
  destruct g as [n d]. cbn. intros Hv Hn Hd. rewrite bbr3_scale_spec by done.
  assert (0 <= v * n / d) by (apply Z.div_pos; nia). lia.
Qed.

(** The headroom on unbounded integers: 15% below the bound, at least one
    segment, never below four segments. *)
Lemma bbr3_headroom_spec l mss :
  in_u64 l -> 1 <= mss <= UINT32_MAX ->
  tcp_shift_bbr3_inflight_with_headroom l mss =
  if l =? UINT64_MAX then UINT64_MAX
  else Z.max (4 * mss) (l - Z.max mss (l * 15 / 100)).
Proof.
  intros Hl Hm. unfold tcp_shift_bbr3_inflight_with_headroom. cbn zeta.
  destruct (mss =? 0) eqn:E; [lia|]. destruct (l =? UINT64_MAX); [done|].
  rewrite bbr3_scale_spec by lia. assert (0 <= l * 15 / 100 <= l) by div_lia.
  rewrite (u64_small (mss * 4)), Z.min_r by lia.
  set (h := if _ <? mss then mss else _).
  assert (h = Z.max mss (l * 15 / 100)) as -> by (unfold h; case_match; lia).
  set (r := if l >? _ then _ else 0).
  assert (r = Z.max 0 (l - Z.max mss (l * 15 / 100))) as ->
    by (unfold r; case_match; [rewrite u64_small by lia|]; lia).
  case_match; lia.
Qed.

Lemma bbr3_full_bw_threshold_spec f :
  in_u64 f -> bbr3_full_bw_threshold f = Z.min UINT64_MAX (f + cdiv f 4).
Proof.
  intros Hf. unfold bbr3_full_bw_threshold. cbn zeta. rewrite cdiv_alt by lia.
  assert (0 <= f / 4 <= 4611686018427387903) by div_lia. rewrite <- sat_add_u64_lt; [|done|case_match; lia].
  destruct (f mod 4 =? 0); cbn [negb]; [by rewrite Z.add_0_r|].
  by rewrite (u64_small (f / 4 + 1)) by div_lia.
Qed.

(** ** The invariant of the model *)

Definition bbr3_model_ok (m : tcp_shift_bbr3_model) : Prop :=
  (length (b3_max_bw_filter m) = 2%nat /\ Forall (fun x => in_u64 x) (b3_max_bw_filter m) /\
   in_u64 (b3_max_bw_bytes_per_sec m)) /\
  (in_u64 (b3_min_rtt_ns m) /\ in_u64 (b3_min_rtt_stamp_ns m) /\
   in_u64 (b3_probe_rtt_min_delay_ns m) /\ in_u64 (b3_probe_rtt_min_stamp_ns m)) /\
  (b3_has_min_rtt m = true -> 0 < b3_min_rtt_ns m) /\
  (b3_has_probe_rtt_min m = true -> 0 < b3_probe_rtt_min_delay_ns m) /\
  (in_u64 (b3_last_update_ns m) /\ in_u64 (b3_full_bw_bytes_per_sec m) /\
   in_u32 (b3_round_count m) /\ in_u32 (b3_cycle_count m)).

Lemma bbr3_model_init_ok : bbr3_model_ok tcp_shift_bbr3_model_init.
Proof. unfold bbr3_model_ok; cbn. split_and!; try done; try lia. repeat constructor; lia. Qed.

Lemma filter_max_u64 f :
  length f = 2%nat -> Forall (fun x => in_u64 x) f -> in_u64 (bbr3_filter_max f).
Proof.
  destruct f as [|a [|b [|]]]; try done. intros _ H. forall_inv H.
  unfold bbr3_filter_max. cbn. rewrite bbr3_max_spec. lia.
Qed.

(** The fields an ACK does not touch, and the latches it only sets. *)
Definition bbr3_forward (m m' : tcp_shift_bbr3_model) : Prop :=
  b3_phase m' = b3_phase m /\
  (b3_full_bw_reached m = true -> b3_full_bw_reached m' = true) /\
  (b3_has_min_rtt m = true -> b3_has_min_rtt m' = true) /\
  b3_last_update_ns m' = b3_last_update_ns m /\ b3_cycle_count m' = b3_cycle_count m.

#[export] Instance bbr3_forward_preorder : PreOrder bbr3_forward.
Proof. split; [done|]. intros x y z (?&?&?&?&?) (?&?&?&?&?). split_and!; try congruence; auto. Qed.

Lemma bbr3_update_round_ok m s :
  bbr3_model_ok m -> rate_sample_wf s ->
  bbr3_model_ok (bbr3_update_round m s) /\ bbr3_forward m (bbr3_update_round m s).
Proof.
  intros Hm Hs. unfold bbr3_update_round. cbn zeta. destruct (_ || _); [done|].
  split; [|done]. destruct Hm as ((?&?&?)&(?&?&?&?)&?&?&?&?&?&?). split_and!; try done; cbn; try lia.
  all: pose proof (u32_range (b3_round_count m + 1)); lia.
Qed.

Lemma bbr3_update_rtt_ok m s now :
  bbr3_model_ok m -> rate_sample_wf s -> in_u64 now ->
  bbr3_model_ok (bbr3_update_rtt m s now) /\ bbr3_forward m (bbr3_update_rtt m s now).
Proof.
  intros Hm (_ & Hr & _) Hn. unfold bbr3_update_rtt. cbn zeta.
  set (pe := b3_has_probe_rtt_min m && _). set (me := b3_has_min_rtt m && _). clearbody pe me.
  set (m1 := bbr3_probe_min_step _ _ _ _).
  assert (H1 : bbr3_model_ok m1 /\ bbr3_forward m m1).
  { unfold m1, bbr3_probe_min_step. destruct (_ && _ && _) eqn:E; [|done].
    split; [|done]. destruct Hm as ((?&?&?)&(?&?&?&?)&?&?&?&?&?&?).
    split_and!; try done; cbn; try lia. }
  clearbody m1. destruct H1 as [Hm1 Hf]. unfold bbr3_min_rtt_step.
  destruct (_ && _) eqn:E; [|done]. destruct Hm1 as ((?&?&?)&(?&?&?&?)&?&?&?&?&?&?).
  split; [|destruct Hf as (?&?&?&?&?); split_and!; done].
  apply andb_true_iff in E as [E _]. split_and!; try done; cbn; try lia; auto.
Qed.

Lemma bbr3_note_rate_ok m s :
  bbr3_model_ok m -> rate_sample_wf s ->
  bbr3_model_ok (bbr3_note_rate m s) /\ bbr3_forward m (bbr3_note_rate m s).
Proof.
  intros Hm (Hr & _). unfold bbr3_note_rate. cbn zeta.
  destruct (_ && _ && _); [|done]. split; [|done].
  destruct Hm as ((Hl&Hf&Hb)&(?&?&?&?)&?&?&?&?&?&?).
  set (f := <[_ := _]> _). assert (length f = 2%nat) by (unfold f; by rewrite length_insert).
  assert (Forall (fun x => in_u64 x) f).
  { apply Forall_insert; [done|]. rewrite bbr3_max_spec.
    destruct (b3_max_bw_filter m !! Z.to_nat (b3_cycle_count m mod 2)) as [x|] eqn:E.
    - rewrite (list_lookup_total_correct _ _ _ E).
      pose proof (proj1 (Forall_lookup _ _) Hf _ _ E) as Hx. cbn in Hx. lia.
    - rewrite list_lookup_total_alt, E. cbn. lia. }
  split_and!; try done; cbn; try lia; by apply filter_max_u64.
Qed.

Lemma bbr3_update_full_bw_ok m s :
  bbr3_model_ok m ->
  bbr3_model_ok (bbr3_update_full_bw m s) /\ bbr3_forward m (bbr3_update_full_bw m s).
Proof.
  intros Hm. unfold bbr3_update_full_bw. cbn zeta. destruct (_ || _ || _ || _ || _); [done|].
  destruct Hm as ((?&?&?)&(?&?&?&?)&?&?&?&?&?&?).
  destruct (_ || _); [|destruct (_ >=? 3)]; (split; [split_and!; try done; cbn; lia|done]).
Qed.

(** An accepted ACK keeps the invariant, moves the clock and never clears a
    latch or changes the phase. *)
Lemma bbr3_model_on_ack_ok m s now rc m' :
  bbr3_model_ok m -> rate_sample_wf s -> in_u64 now ->
  tcp_shift_bbr3_model_on_ack m s now = (rc, m') ->
  (rc = 0 /\ bbr3_model_ok m' /\ bbr3_forward (m <| b3_last_update_ns := now |>) m') \/
  (rc = -1 /\ m' = m).
Proof.
  intros Hm Hs Hn. unfold tcp_shift_bbr3_model_on_ack.
  destruct (_ || _ || _); intros [= <- <-]; [by right|]. left. split; [done|].
  set (m0 := m <| b3_last_update_ns := now |> <| b3_has_update_time := true |>).
  assert (H0 : bbr3_model_ok m0).
  { destruct Hm as ((?&?&?)&(?&?&?&?)&?&?&?&?&?&?). split_and!; try done; cbn; lia. }
  destruct (bbr3_update_round_ok m0 s H0 Hs) as [H1 F1].
  destruct (bbr3_update_rtt_ok _ s now H1 Hs Hn) as [H2 F2].
  destruct (bbr3_note_rate_ok _ s H2 Hs) as [H3 F3].
  destruct (bbr3_update_full_bw_ok _ s H3) as [H4 F4].
  split; [exact H4|]. transitivity m0; [done|]. repeat (etransitivity; [eassumption|]). done.
Qed.

Lemma bbr3_advance_bw_cycle_ok m rc m' :
  bbr3_model_ok m -> tcp_shift_bbr3_model_advance_bw_cycle m = (rc, m') ->
  bbr3_model_ok m' /\ b3_phase m' = b3_phase m /\
  b3_full_bw_reached m' = b3_full_bw_reached m /\ b3_has_min_rtt m' = b3_has_min_rtt m /\
  b3_last_update_ns m' = b3_last_update_ns m /\
  b3_round_count m' = b3_round_count m /\ b3_min_rtt_ns m' = b3_min_rtt_ns m /\
  (rc = 0 <-> b3_cycle_count m <> UINT32_MAX).
Proof.
  intros Hm. unfold tcp_shift_bbr3_model_advance_bw_cycle.
  destruct (_ =? UINT32_MAX) eqn:E; intros [= <- <-]; [by split_and!; try done; lia|].
  destruct Hm as ((Hl&Hf&Hb)&(?&?&?&?)&?&?&?&?&?&?). split_and!; try done; try lia.
  set (f := <[_ := _]> _). assert (length f = 2%nat) by (unfold f; by rewrite length_insert).
  assert (Forall (fun x => in_u64 x) f) by (apply Forall_insert; [done|lia]).
  pose proof (filter_max_u64 f ltac:(done) ltac:(done)).
  pose proof (u32_range (b3_cycle_count m + 1)).
  split_and!; try done; cbn; lia.
Qed.
