(* ===== verification/Bbr3Congestion.v ===== *)
(** * The BBRv3 congestion response ([src/cc/bbr3_congestion.h], [src/cc/bbr3_congestion.c])

    Short-term bounds cut once per loss round, the long-term inflight bound set
    by qualified probe feedback and raised in ProbeBW_UP, the ECN mark-fraction
    average, undo of a spurious recovery, and the caps read by the controller. *)

From Stdlib Require Import ZArith Lia Bool List.
From stdpp Require Import base tactics numbers list.
From S2P Require Import Prelude CC Bbr3Model.
Local Open Scope Z_scope.

Abbreviation TCP_SHIFT_BBR3_UNBOUNDED := UINT64_MAX.
Abbreviation TCP_SHIFT_BBR3_LOSS_BETA_NUM := 7.
Abbreviation TCP_SHIFT_BBR3_LOSS_BETA_DEN := 10.
Abbreviation TCP_SHIFT_BBR3_EXCESS_LOSS_PERCENT := 2.
Abbreviation TCP_SHIFT_BBR3_ECN_ALPHA_SCALE := 256.
Abbreviation TCP_SHIFT_BBR3_ECN_ALPHA_GAIN_DEN := 16.
Abbreviation TCP_SHIFT_BBR3_ECN_FACTOR_Q8 := 85.
Abbreviation TCP_SHIFT_BBR3_ECN_EXCESS_PERCENT := 50.
Abbreviation TCP_SHIFT_BBR3_SIGNAL_NONE := 0.
Abbreviation TCP_SHIFT_BBR3_SIGNAL_EXCESS_LOSS := 1.
Abbreviation TCP_SHIFT_BBR3_SIGNAL_EXCESS_ECN := 2.

Record tcp_shift_bbr3_congestion := mk_cong {
  cg_bw_shortterm_bytes_per_sec : Z;
  cg_inflight_shortterm_bytes : Z;
  cg_inflight_longterm_bytes : Z;
  cg_bw_latest_bytes_per_sec : Z;
  cg_inflight_latest_bytes : Z;
  cg_ecn_round_delivered_bytes : Z;
  cg_ecn_round_ce_bytes : Z;
  cg_probe_up_acked_bytes : Z;
  cg_probe_up_acked_per_inc_bytes : Z;
  cg_undo_bw_shortterm : Z;
  cg_undo_inflight_shortterm : Z;
  cg_undo_inflight_longterm : Z;
  cg_ecn_alpha_q8 : Z;
  cg_probe_up_rounds : Z;
  cg_loss_in_round : bool;
  cg_ecn_in_round : bool;
  cg_probe_feedback_consumed : bool;
  cg_undo_valid : bool
}.
#[export] Instance eta_cong : Eta tcp_shift_bbr3_congestion := fun r =>
  mk_cong (cg_bw_shortterm_bytes_per_sec r) (cg_inflight_shortterm_bytes r)
    (cg_inflight_longterm_bytes r) (cg_bw_latest_bytes_per_sec r)
    (cg_inflight_latest_bytes r) (cg_ecn_round_delivered_bytes r)
    (cg_ecn_round_ce_bytes r) (cg_probe_up_acked_bytes r)
    (cg_probe_up_acked_per_inc_bytes r) (cg_undo_bw_shortterm r)
    (cg_undo_inflight_shortterm r) (cg_undo_inflight_longterm r)
    (cg_ecn_alpha_q8 r) (cg_probe_up_rounds r) (cg_loss_in_round r)
    (cg_ecn_in_round r) (cg_probe_feedback_consumed r) (cg_undo_valid r).

Record tcp_shift_bbr3_congestion_ack := mk_cong_ack {
  ca_delivery_rate_bytes_per_sec : Z;
  ca_max_bw_bytes_per_sec : Z;
  ca_newly_delivered_bytes : Z;
  ca_rate_sample_delivered_bytes : Z;
  ca_newly_lost_bytes : Z;
  ca_newly_ce_bytes : Z;
  ca_tx_inflight_bytes : Z;
  ca_cwnd_bytes : Z;
  ca_target_inflight_bytes : Z;
  ca_newly_acked_bytes : Z;
  ca_mss_bytes : Z;
  ca_rate_valid : bool;
  ca_app_limited : bool;
  ca_ecn_eligible : bool;
  ca_probing_bandwidth : bool;
  ca_probe_sample : bool;
  ca_probe_up : bool;
  ca_cwnd_limited : bool;
  ca_loss_round_end : bool;
  ca_round_start : bool
}.

(** ** Arithmetic (the static helpers of [bbr3_congestion.c]) *)

Definition cong_min_u64 (a b : Z) : Z := if a <? b then a else b.
Definition cong_max_u64 (a b : Z) : Z := if a >? b then a else b.
Definition cong_sat_add (a b : Z) : Z :=
  if UINT64_MAX -w64 a <? b then UINT64_MAX else a +w64 b.

Definition cong_ratio (value numerator denominator : Z) : Z :=
  if denominator =? 0 then UINT64_MAX
  else
    let quotient := value / denominator in
    let remainder := value mod denominator in
    if negb (numerator =? 0) && (quotient >? UINT64_MAX / numerator) then UINT64_MAX
    else
      let quotient := quotient *w64 numerator in
      cong_sat_add quotient ((remainder *w64 numerator) / denominator).

Definition cong_greater_than_percent (numerator denominator percent : Z) : bool :=
  if (denominator =? 0) || (numerator =? 0) then false
  else numerator >? cong_ratio denominator percent 100.

(** ** Operations *)

(** Every field of the object is written. *)
Definition tcp_shift_bbr3_congestion_init : tcp_shift_bbr3_congestion :=
  mk_cong TCP_SHIFT_BBR3_UNBOUNDED TCP_SHIFT_BBR3_UNBOUNDED TCP_SHIFT_BBR3_UNBOUNDED
    0 0 0 0 0 0 0 0 0 TCP_SHIFT_BBR3_ECN_ALPHA_SCALE 0 false false false false.

Definition tcp_shift_bbr3_congestion_reset_shortterm (s : tcp_shift_bbr3_congestion)
    : tcp_shift_bbr3_congestion :=
  s <| cg_bw_shortterm_bytes_per_sec := TCP_SHIFT_BBR3_UNBOUNDED |>
    <| cg_inflight_shortterm_bytes := TCP_SHIFT_BBR3_UNBOUNDED |>.

Definition tcp_shift_bbr3_congestion_begin_probe (s : tcp_shift_bbr3_congestion)
    : tcp_shift_bbr3_congestion :=
  tcp_shift_bbr3_congestion_reset_shortterm
    (s <| cg_probe_feedback_consumed := false |>
       <| cg_probe_up_acked_bytes := 0 |>
       <| cg_probe_up_acked_per_inc_bytes := 0 |>
       <| cg_probe_up_rounds := 0 |>).

Definition tcp_shift_bbr3_congestion_save_recovery (s : tcp_shift_bbr3_congestion)
    : Z * tcp_shift_bbr3_congestion :=
  (0, s <| cg_undo_bw_shortterm := cg_bw_shortterm_bytes_per_sec s |>
        <| cg_undo_inflight_shortterm := cg_inflight_shortterm_bytes s |>
        <| cg_undo_inflight_longterm := cg_inflight_longterm_bytes s |>
        <| cg_undo_valid := true |>).

Definition tcp_shift_bbr3_congestion_undo_spurious (s : tcp_shift_bbr3_congestion)
    : Z * tcp_shift_bbr3_congestion :=
  if negb (cg_undo_valid s) then (-1, s)
  else
    (0, s <| cg_bw_shortterm_bytes_per_sec :=
             cong_max_u64 (cg_bw_shortterm_bytes_per_sec s) (cg_undo_bw_shortterm s) |>
          <| cg_inflight_shortterm_bytes :=
             cong_max_u64 (cg_inflight_shortterm_bytes s) (cg_undo_inflight_shortterm s) |>
          <| cg_inflight_longterm_bytes :=
             cong_max_u64 (cg_inflight_longterm_bytes s) (cg_undo_inflight_longterm s) |>
          <| cg_loss_in_round := false |>
          <| cg_ecn_in_round := false |>
          <| cg_ecn_round_delivered_bytes := 0 |>
          <| cg_ecn_round_ce_bytes := 0 |>
          <| cg_bw_latest_bytes_per_sec := 0 |>
          <| cg_inflight_latest_bytes := 0 |>
          <| cg_undo_valid := false |>).

Definition cong_finish_ecn_round (s : tcp_shift_bbr3_congestion) : tcp_shift_bbr3_congestion :=
  if cg_ecn_round_delivered_bytes s =? 0 then s
  else
    let measured := cong_ratio (cg_ecn_round_ce_bytes s) TCP_SHIFT_BBR3_ECN_ALPHA_SCALE
      (u32 (cong_min_u64 (cg_ecn_round_delivered_bytes s) UINT32_MAX)) in
    let measured :=
      if cg_ecn_round_delivered_bytes s >? UINT32_MAX then
        let coarse := cg_ecn_round_delivered_bytes s / TCP_SHIFT_BBR3_ECN_ALPHA_SCALE in
        if negb (coarse =? 0) then cg_ecn_round_ce_bytes s / coarse else 0
      else measured in
    let measured := cong_min_u64 measured TCP_SHIFT_BBR3_ECN_ALPHA_SCALE in
    let blended :=
      cg_ecn_alpha_q8 s *w64 (TCP_SHIFT_BBR3_ECN_ALPHA_GAIN_DEN - 1) +w64 measured in
    s <| cg_ecn_alpha_q8 := u32 (blended / TCP_SHIFT_BBR3_ECN_ALPHA_GAIN_DEN) |>.

(** The loss cut of [finish_loss_round]. *)
Definition cong_loss_cut (s : tcp_shift_bbr3_congestion) (ack : tcp_shift_bbr3_congestion_ack)
    : tcp_shift_bbr3_congestion :=
  let bw := if cg_bw_shortterm_bytes_per_sec s =? TCP_SHIFT_BBR3_UNBOUNDED
            then ca_max_bw_bytes_per_sec ack else cg_bw_shortterm_bytes_per_sec s in
  let inflight := if cg_inflight_shortterm_bytes s =? TCP_SHIFT_BBR3_UNBOUNDED
                  then ca_cwnd_bytes ack else cg_inflight_shortterm_bytes s in
  let bw := cong_max_u64 (cg_bw_latest_bytes_per_sec s)
    (cong_ratio bw TCP_SHIFT_BBR3_LOSS_BETA_NUM TCP_SHIFT_BBR3_LOSS_BETA_DEN) in
  let inflight := cong_max_u64 (cg_inflight_latest_bytes s)
    (cong_ratio inflight TCP_SHIFT_BBR3_LOSS_BETA_NUM TCP_SHIFT_BBR3_LOSS_BETA_DEN) in
  s <| cg_bw_shortterm_bytes_per_sec := cong_max_u64 1 bw |>
    <| cg_inflight_shortterm_bytes := inflight |>.

(** The ECN cut of [finish_loss_round]. *)
Definition cong_ecn_cut (s : tcp_shift_bbr3_congestion) (ack : tcp_shift_bbr3_congestion_ack)
    : tcp_shift_bbr3_congestion :=
  let inflight := if cg_inflight_shortterm_bytes s =? TCP_SHIFT_BBR3_UNBOUNDED
                  then ca_cwnd_bytes ack else cg_inflight_shortterm_bytes s in
  let ecn_cut_q8 := u32 (cg_ecn_alpha_q8 s *w64 TCP_SHIFT_BBR3_ECN_FACTOR_Q8
                         / TCP_SHIFT_BBR3_ECN_ALPHA_SCALE) in
  let ecn_candidate := cong_ratio inflight
    (TCP_SHIFT_BBR3_ECN_ALPHA_SCALE -w32 ecn_cut_q8) TCP_SHIFT_BBR3_ECN_ALPHA_SCALE in
  s <| cg_inflight_shortterm_bytes := cong_min_u64 inflight ecn_candidate |>.

Definition cong_finish_loss_round (s : tcp_shift_bbr3_congestion)
    (ack : tcp_shift_bbr3_congestion_ack) : tcp_shift_bbr3_congestion :=
  let s := cong_finish_ecn_round s in
  let s :=
    if negb (ca_probing_bandwidth ack) then
      let s := if cg_loss_in_round s then cong_loss_cut s ack else s in
      if cg_ecn_in_round s && ca_ecn_eligible ack then cong_ecn_cut s ack else s
    else s in
  s <| cg_loss_in_round := false |>
    <| cg_ecn_in_round := false |>
    <| cg_ecn_round_delivered_bytes := 0 |>
    <| cg_ecn_round_ce_bytes := 0 |>
    <| cg_bw_latest_bytes_per_sec :=
       if ca_rate_valid ack then ca_delivery_rate_bytes_per_sec ack else 0 |>
    <| cg_inflight_latest_bytes := ca_rate_sample_delivered_bytes ack |>.

(** The growth of the bound by whole increments, lines 240-253. *)
Definition cong_probe_up_raise (s : tcp_shift_bbr3_congestion)
    (ack : tcp_shift_bbr3_congestion_ack) : tcp_shift_bbr3_congestion :=
  let per_inc := if cg_probe_up_acked_per_inc_bytes s =? 0
                 then cong_max_u64 (ca_mss_bytes ack) (ca_cwnd_bytes ack)
                 else cg_probe_up_acked_per_inc_bytes s in
  let acked := cong_sat_add (cg_probe_up_acked_bytes s) (ca_newly_acked_bytes ack) in
  let units := acked / per_inc in
  s <| cg_probe_up_acked_per_inc_bytes := per_inc |>
    <| cg_probe_up_acked_bytes := acked mod per_inc |>
    <| cg_inflight_longterm_bytes :=
       cong_sat_add (cg_inflight_longterm_bytes s)
         (if units >? UINT64_MAX / ca_mss_bytes ack then UINT64_MAX
          else units *w64 ca_mss_bytes ack) |>.

(** The slope update at a round start. *)
Definition cong_probe_up_slope (s : tcp_shift_bbr3_congestion)
    (ack : tcp_shift_bbr3_congestion_ack) : tcp_shift_bbr3_congestion :=
  if ca_round_start ack then
    let rounds := if cg_probe_up_rounds s >? 30 then 30 else cg_probe_up_rounds s in
    s <| cg_probe_up_acked_per_inc_bytes :=
         cong_max_u64 (ca_mss_bytes ack) (ca_cwnd_bytes ack / (1 <<w64 rounds)) |>
      <| cg_probe_up_rounds :=
         if cg_probe_up_rounds s <? 30 then cg_probe_up_rounds s +w32 1
         else cg_probe_up_rounds s |>
  else s.

Definition cong_probe_up_growth (s : tcp_shift_bbr3_congestion)
    (ack : tcp_shift_bbr3_congestion_ack) : tcp_shift_bbr3_congestion :=
  if negb (ca_probe_up ack) || negb (ca_cwnd_limited ack) ||
     (cg_inflight_longterm_bytes s =? TCP_SHIFT_BBR3_UNBOUNDED) ||
     (ca_cwnd_bytes ack <? cg_inflight_longterm_bytes s)
  then s
  else cong_probe_up_slope (cong_probe_up_raise s ack) ack.

(** The per-ACK accumulators of [on_ack], lines 279-300. *)
Definition cong_accumulate (s : tcp_shift_bbr3_congestion)
    (ack : tcp_shift_bbr3_congestion_ack) : tcp_shift_bbr3_congestion :=
  s <| cg_bw_latest_bytes_per_sec :=
       if ca_rate_valid ack
       then cong_max_u64 (cg_bw_latest_bytes_per_sec s) (ca_delivery_rate_bytes_per_sec ack)
       else cg_bw_latest_bytes_per_sec s |>
    <| cg_inflight_latest_bytes :=
       cong_max_u64 (cg_inflight_latest_bytes s) (ca_rate_sample_delivered_bytes ack) |>
    <| cg_loss_in_round := negb (ca_newly_lost_bytes ack =? 0) || cg_loss_in_round s |>
    <| cg_ecn_in_round := negb (ca_newly_ce_bytes ack =? 0) || cg_ecn_in_round s |>
    <| cg_ecn_round_delivered_bytes :=
       if ca_ecn_eligible ack
       then cong_sat_add (cg_ecn_round_delivered_bytes s) (ca_newly_delivered_bytes ack)
       else cg_ecn_round_delivered_bytes s |>
    <| cg_ecn_round_ce_bytes :=
       if ca_ecn_eligible ack
       then cong_sat_add (cg_ecn_round_ce_bytes s) (ca_newly_ce_bytes ack)
       else cg_ecn_round_ce_bytes s |>.

(** The excess-congestion bits of an ACK with probe feedback. *)
Definition cong_signal (ack : tcp_shift_bbr3_congestion_ack) : Z :=
  let signal := TCP_SHIFT_BBR3_SIGNAL_NONE in
  let signal :=
    if cong_greater_than_percent (ca_newly_lost_bytes ack) (ca_tx_inflight_bytes ack)
         TCP_SHIFT_BBR3_EXCESS_LOSS_PERCENT
    then Z.lor signal TCP_SHIFT_BBR3_SIGNAL_EXCESS_LOSS else signal in
  if ca_ecn_eligible ack &&
     cong_greater_than_percent (ca_newly_ce_bytes ack) (ca_newly_delivered_bytes ack)
       TCP_SHIFT_BBR3_ECN_EXCESS_PERCENT
  then Z.lor signal TCP_SHIFT_BBR3_SIGNAL_EXCESS_ECN else signal.

(** The probe-feedback block of [on_ack]. *)
Definition cong_probe_feedback (s : tcp_shift_bbr3_congestion)
    (ack : tcp_shift_bbr3_congestion_ack) : Z * tcp_shift_bbr3_congestion :=
  if ca_probe_sample ack && negb (cg_probe_feedback_consumed s) then
    let signal := cong_signal ack in
    if negb (signal =? TCP_SHIFT_BBR3_SIGNAL_NONE) then
      let s := s <| cg_probe_feedback_consumed := true |> in
      (signal,
       if negb (ca_app_limited ack) then
         s <| cg_inflight_longterm_bytes :=
              cong_max_u64 (ca_tx_inflight_bytes ack)
                (cong_ratio (ca_target_inflight_bytes ack)
                   TCP_SHIFT_BBR3_LOSS_BETA_NUM TCP_SHIFT_BBR3_LOSS_BETA_DEN) |>
       else s)
    else if negb (cg_inflight_longterm_bytes s =? TCP_SHIFT_BBR3_UNBOUNDED) then
      (signal,
       cong_probe_up_growth
         (s <| cg_inflight_longterm_bytes :=
               cong_max_u64 (cg_inflight_longterm_bytes s) (ca_tx_inflight_bytes ack) |>) ack)
    else (signal, s)
  else (TCP_SHIFT_BBR3_SIGNAL_NONE, s).

(** The validation of [on_ack]. *)
Definition cong_rejects (ack : tcp_shift_bbr3_congestion_ack) : bool :=
  (ca_mss_bytes ack =? 0) || (ca_cwnd_bytes ack =? 0) ||
  (ca_newly_ce_bytes ack >? ca_newly_delivered_bytes ack) ||
  (negb (ca_rate_valid ack) && negb (ca_delivery_rate_bytes_per_sec ack =? 0)) ||
  (negb (ca_ecn_eligible ack) && negb (ca_newly_ce_bytes ack =? 0)) ||
  (ca_probe_up ack && negb (ca_probing_bandwidth ack)).

Definition tcp_shift_bbr3_congestion_on_ack (s : tcp_shift_bbr3_congestion)
    (ack : tcp_shift_bbr3_congestion_ack) : Z * tcp_shift_bbr3_congestion :=
  if cong_rejects ack then (-1, s)
  else
    let s := cong_accumulate s ack in
    let '(signal, s) := cong_probe_feedback s ack in
    let s := if ca_loss_round_end ack then cong_finish_loss_round s ack else s in
    (signal, s).

(** [DRAIN], [DOWN], [CRUISE] and [PROBE_RTT]: the phases under the short-term
    bounds. *)
Definition cong_bounded_phase (phase : tcp_shift_bbr3_phase) : bool :=
  match phase with
  | TCP_SHIFT_BBR3_DRAIN | TCP_SHIFT_BBR3_PROBE_BW_DOWN
  | TCP_SHIFT_BBR3_PROBE_BW_CRUISE | TCP_SHIFT_BBR3_PROBE_RTT => true
  | _ => false
  end.

Definition tcp_shift_bbr3_congestion_rate_cap (s : tcp_shift_bbr3_congestion)
    (phase : tcp_shift_bbr3_phase) (max_bw_bytes_per_sec : Z) : Z :=
  if cong_bounded_phase phase
  then cong_min_u64 max_bw_bytes_per_sec (cg_bw_shortterm_bytes_per_sec s)
  else max_bw_bytes_per_sec.

Definition tcp_shift_bbr3_congestion_cwnd_cap (s : tcp_shift_bbr3_congestion)
    (phase : tcp_shift_bbr3_phase) (mss_bytes : Z) : Z :=
  if mss_bytes =? 0 then 0
  else
    let floor := mss_bytes *w64 4 in
    match phase with
    | TCP_SHIFT_BBR3_STARTUP => UINT64_MAX
    | _ =>
      let cap :=
        match phase with
        | TCP_SHIFT_BBR3_PROBE_BW_CRUISE | TCP_SHIFT_BBR3_PROBE_RTT =>
            tcp_shift_bbr3_inflight_with_headroom (cg_inflight_longterm_bytes s) mss_bytes
        | _ => cg_inflight_longterm_bytes s
        end in
      let cap := if cong_bounded_phase phase
                 then cong_min_u64 cap (cg_inflight_shortterm_bytes s) else cap in
      cong_max_u64 cap floor
    end.

(** ** Exactness of the arithmetic *)

Lemma cong_min_spec a b : cong_min_u64 a b = Z.min a b.
Proof. unfold cong_min_u64. case_match; lia. Qed.

Lemma cong_max_spec a b : cong_max_u64 a b = Z.max a b.
Proof. unfold cong_max_u64. case_match; lia. Qed.

Lemma cong_sat_add_spec a b :
  in_u64 a -> in_u64 b -> cong_sat_add a b = Z.min UINT64_MAX (a + b).
Proof. apply sat_add_u64_lt. Qed.

Lemma cong_ratio_spec v n d :
  in_u64 v -> in_u32 n -> 1 <= d <= UINT32_MAX ->
  cong_ratio v n d = Z.min UINT64_MAX (v * n / d).
Proof.
  intros Hv Hn Hd. unfold cong_ratio. destruct (d =? 0) eqn:E; [lia|].
  by apply split_scale_exact.
Qed.

(** A ratio that is at most one cannot saturate. *)
Lemma cong_ratio_le v n d :
  in_u64 v -> 0 <= n <= d -> 1 <= d <= UINT32_MAX ->
  cong_ratio v n d = v * n / d /\ 0 <= v * n / d <= v.
Proof.
  intros Hv Hn Hd. rewrite cong_ratio_spec by lia.
  assert (0 <= v * n / d) by (apply Z.div_pos; nia).
  assert (v * n / d <= v) by (apply Z.div_le_upper_bound; nia). lia.
Qed.

Lemma cong_greater_than_percent_spec n d p :
  in_u64 n -> in_u64 d -> 0 <= p <= 100 ->
  cong_greater_than_percent n d p = (0 <? d) && (d * p / 100 <? n).
Proof.
  intros Hn Hd Hp. unfold cong_greater_than_percent.
  destruct (cong_ratio_le d p 100 Hd ltac:(lia) ltac:(lia)) as [-> Hr].
  destruct (_ || _) eqn:E; [|rewrite Z.gtb_ltb; lia]. lia.
Qed.

(** ** The invariant *)

Definition cong_ok (s : tcp_shift_bbr3_congestion) : Prop :=
  1 <= cg_bw_shortterm_bytes_per_sec s <= UINT64_MAX /\
  (in_u64 (cg_inflight_shortterm_bytes s) /\ in_u64 (cg_inflight_longterm_bytes s) /\
   in_u64 (cg_bw_latest_bytes_per_sec s) /\ in_u64 (cg_inflight_latest_bytes s)) /\
  (in_u64 (cg_ecn_round_delivered_bytes s) /\ in_u64 (cg_ecn_round_ce_bytes s)) /\
  (in_u64 (cg_probe_up_acked_bytes s) /\ in_u64 (cg_probe_up_acked_per_inc_bytes s) /\
   0 <= cg_probe_up_rounds s <= 30) /\
  0 <= cg_ecn_alpha_q8 s <= TCP_SHIFT_BBR3_ECN_ALPHA_SCALE /\
  (cg_undo_valid s = true ->
   1 <= cg_undo_bw_shortterm s <= UINT64_MAX /\ in_u64 (cg_undo_inflight_shortterm s) /\
   in_u64 (cg_undo_inflight_longterm s)).

(** The ranges of the C types of an observation. *)
Definition cong_ack_wf (a : tcp_shift_bbr3_congestion_ack) : Prop :=
  in_u64 (ca_delivery_rate_bytes_per_sec a) /\ in_u64 (ca_max_bw_bytes_per_sec a) /\
  in_u64 (ca_newly_delivered_bytes a) /\ in_u64 (ca_rate_sample_delivered_bytes a) /\
  in_u64 (ca_newly_lost_bytes a) /\ in_u64 (ca_newly_ce_bytes a) /\
  in_u64 (ca_tx_inflight_bytes a) /\ in_u64 (ca_cwnd_bytes a) /\
  in_u64 (ca_target_inflight_bytes a) /\ in_u64 (ca_newly_acked_bytes a) /\
  in_u32 (ca_mss_bytes a).

Ltac cong_inv H :=
  destruct H as (? & (? & ? & ? & ?) & (? & ?) & (? & ? & ?) & ? & ?Hundo).

Lemma cong_init_ok : cong_ok tcp_shift_bbr3_congestion_init.
Proof. unfold cong_ok. cbn. split_and!; done || lia. Qed.

Lemma cong_reset_shortterm_ok s :
  cong_ok s -> cong_ok (tcp_shift_bbr3_congestion_reset_shortterm s).
Proof. intros H. cong_inv H. split_and!; try done; cbn; lia. Qed.

Lemma cong_begin_probe_ok s : cong_ok s -> cong_ok (tcp_shift_bbr3_congestion_begin_probe s).
Proof. intros H. cong_inv H. split_and!; try done; cbn; lia. Qed.

Lemma cong_save_recovery_ok s : cong_ok s -> cong_ok (tcp_shift_bbr3_congestion_save_recovery s).2.
Proof. intros H. cong_inv H. split_and!; try done; cbn; lia. Qed.

Lemma cong_undo_spurious_ok s : cong_ok s -> cong_ok (tcp_shift_bbr3_congestion_undo_spurious s).2.
Proof.
  intros H. unfold tcp_shift_bbr3_congestion_undo_spurious.
  destruct (cg_undo_valid s) eqn:E; cbn [negb]; [|done]. cong_inv H.
  destruct (Hundo ltac:(done)) as (?&?&?). rewrite ?cong_max_spec.
  split_and!; try done; cbn; lia.
Qed.

(** The measured mark fraction of a round, in 1/256. *)
Definition ecn_fraction (ce delivered : Z) : Z :=
  if delivered <=? UINT32_MAX then ce * 256 / delivered else ce / (delivered / 256).

(** The average moves one sixteenth of the way to the round's fraction. *)
Definition ecn_alpha_next (alpha ce delivered : Z) : Z :=
  if delivered =? 0 then alpha else (15 * alpha + Z.min 256 (ecn_fraction ce delivered)) / 16.

Lemma cong_finish_ecn_round_spec s :
  cong_ok s ->
  cong_finish_ecn_round s = s <| cg_ecn_alpha_q8 :=
    ecn_alpha_next (cg_ecn_alpha_q8 s) (cg_ecn_round_ce_bytes s)
      (cg_ecn_round_delivered_bytes s) |> /\
  0 <= ecn_alpha_next (cg_ecn_alpha_q8 s) (cg_ecn_round_ce_bytes s)
         (cg_ecn_round_delivered_bytes s) <= 256.
Proof.
  intros H. cong_inv H. unfold cong_finish_ecn_round, ecn_alpha_next, ecn_fraction.
  set (d := cg_ecn_round_delivered_bytes s) in *. set (ce := cg_ecn_round_ce_bytes s) in *.
  destruct (d =? 0) eqn:E; [split; [by destruct s|lia]|].
  rewrite !cong_min_spec, (u32_small (Z.min d UINT32_MAX)), cong_ratio_spec, Z.gtb_ltb by lia.
  assert (0 <= ce * 256 / d) by (apply Z.div_pos; lia).
  set (x := if UINT32_MAX <? d then _ else _).
  assert (Hx : 0 <= x /\ Z.min 256 x = Z.min 256
    (if d <=? UINT32_MAX then ce * 256 / d else ce / (d / 256))).
  { unfold x. destruct (UINT32_MAX <? d) eqn:E1.
    - rewrite (proj2 (Z.leb_gt d UINT32_MAX)) by lia. assert (0 < d / 256) by div_lia.
      destruct (d / 256 =? 0) eqn:E2; [lia|]. cbn [negb].
      assert (0 <= ce / (d / 256)) by (apply Z.div_pos; lia). lia.
    - rewrite (proj2 (Z.leb_le d UINT32_MAX)), (Z.min_l d UINT32_MAX) by lia. lia. }
  clearbody x. destruct Hx as [Hx0 Hx]. rewrite (Z.min_comm x 256), <- Hx.
  set (y := Z.min 256 x). assert (0 <= y <= 256) by lia. cbn zeta.
  unwrap. rewrite (u32_small (_ / 16)) by div_lia. split; [|div_lia].
  by rewrite (Z.mul_comm _ (16 - 1)).
Qed.

(** The multiplicative decreases on unbounded integers. *)
Definition beta_cut (base latest : Z) : Z := Z.max latest (base * 7 / 10).
Definition or_initial (bound initial : Z) : Z :=
  if bound =? TCP_SHIFT_BBR3_UNBOUNDED then initial else bound.

Lemma cong_loss_cut_spec s a :
  cong_ok s -> cong_ack_wf a ->
  cong_loss_cut s a =
  s <| cg_bw_shortterm_bytes_per_sec := Z.max 1
         (beta_cut (or_initial (cg_bw_shortterm_bytes_per_sec s) (ca_max_bw_bytes_per_sec a))
            (cg_bw_latest_bytes_per_sec s)) |>
    <| cg_inflight_shortterm_bytes :=
         beta_cut (or_initial (cg_inflight_shortterm_bytes s) (ca_cwnd_bytes a))
           (cg_inflight_latest_bytes s) |> /\
  cong_ok (cong_loss_cut s a).
Proof.
  intros H Ha. cong_inv H. destruct Ha as (?&?&?&?&?&?&?&?&?&?&?).
  unfold cong_loss_cut, beta_cut, or_initial. cbn zeta. rewrite !cong_max_spec.
  set (b := if cg_bw_shortterm_bytes_per_sec s =? _ then _ else _).
  set (i := if cg_inflight_shortterm_bytes s =? _ then _ else _).
  assert (in_u64 b) by (unfold b; case_match; lia).
  assert (in_u64 i) by (unfold i; case_match; lia). clearbody b i.
  destruct (cong_ratio_le b 7 10) as [-> ?]; [lia..|].
  destruct (cong_ratio_le i 7 10) as [-> ?]; [lia..|].
  split; [done|]. split_and!; try done; cbn; lia.
Qed.

(** The ECN cut takes away [alpha * 85 / 256] of the bound. *)
Definition ecn_cut (alpha base : Z) : Z := base * (256 - alpha * 85 / 256) / 256.

Lemma cong_ecn_cut_spec s a :
  cong_ok s -> cong_ack_wf a ->
  cong_ecn_cut s a =
  s <| cg_inflight_shortterm_bytes := ecn_cut (cg_ecn_alpha_q8 s)
         (or_initial (cg_inflight_shortterm_bytes s) (ca_cwnd_bytes a)) |> /\
  cong_ok (cong_ecn_cut s a).
Proof.
  intros H Ha. cong_inv H. destruct Ha as (?&?&?&?&?&?&?&?&?&?&?).
  unfold cong_ecn_cut, ecn_cut, or_initial. cbn zeta.
  set (i := if cg_inflight_shortterm_bytes s =? _ then _ else _).
  assert (in_u64 i) by (unfold i; case_match; lia). clearbody i.
  assert (0 <= cg_ecn_alpha_q8 s * 85 / 256 <= 85) by div_lia.
  rewrite (u64_small (_ * 85)), (u32_small (_ / 256)), (u32_small (256 - _)) by lia.
  destruct (cong_ratio_le i (256 - cg_ecn_alpha_q8 s * 85 / 256) 256) as [-> ?]; [lia..|].
  rewrite cong_min_spec, Z.min_r by lia.
  split; [done|]. split_and!; try done; cbn; lia.
Qed.

(** What the end of a loss round and the growth in UP leave alone. *)
Definition same_long (s s' : tcp_shift_bbr3_congestion) : Prop :=
  cg_inflight_longterm_bytes s' = cg_inflight_longterm_bytes s.

Definition same_round (s s' : tcp_shift_bbr3_congestion) : Prop :=
  cg_bw_shortterm_bytes_per_sec s' = cg_bw_shortterm_bytes_per_sec s /\
  cg_inflight_shortterm_bytes s' = cg_inflight_shortterm_bytes s /\
  cg_bw_latest_bytes_per_sec s' = cg_bw_latest_bytes_per_sec s /\
  cg_inflight_latest_bytes s' = cg_inflight_latest_bytes s /\
  cg_ecn_round_delivered_bytes s' = cg_ecn_round_delivered_bytes s /\
  cg_ecn_round_ce_bytes s' = cg_ecn_round_ce_bytes s /\
  cg_ecn_alpha_q8 s' = cg_ecn_alpha_q8 s /\
  cg_loss_in_round s' = cg_loss_in_round s /\ cg_ecn_in_round s' = cg_ecn_in_round s.

Lemma cong_probe_up_growth_ok s a :
  cong_ok s -> cong_ack_wf a -> 1 <= ca_mss_bytes a -> 1 <= ca_cwnd_bytes a ->
  cong_ok (cong_probe_up_growth s a) /\ same_round s (cong_probe_up_growth s a) /\
  cg_inflight_longterm_bytes s <= cg_inflight_longterm_bytes (cong_probe_up_growth s a).
Proof.
  intros H Ha Hm Hc. unfold cong_probe_up_growth.
  destruct (_ || _ || _ || _); [split_and!; done|].
  set (s1 := cong_probe_up_raise s a).
  assert (H1 : cong_ok s1 /\ same_round s s1 /\
    cg_inflight_longterm_bytes s <= cg_inflight_longterm_bytes s1).
  { cong_inv H. destruct Ha as (?&?&?&?&?&?&?&?&?&?&?).
    unfold s1, cong_probe_up_raise. cbn zeta. rewrite cong_max_spec.
    set (pi := if _ =? 0 then _ else _).
    assert (1 <= pi <= UINT64_MAX) by (unfold pi; case_match; lia). clearbody pi.
    rewrite (cong_sat_add_spec (cg_probe_up_acked_bytes s)) by lia.
    set (k := Z.min UINT64_MAX _). assert (in_u64 k) by lia. clearbody k.
    pose proof (Z.mod_pos_bound k pi ltac:(lia)).
    assert (0 <= k / pi) by (apply Z.div_pos; lia).
    set (g := if _ >? _ then _ else _).
    assert (in_u64 g) by (unfold g; case_match; [lia|apply u64_range]). clearbody g.
    rewrite cong_sat_add_spec by lia. unfold cong_ok. split_and!; try done; cbn; lia. }
  clearbody s1. destruct H1 as (H1 & F1 & L1). unfold cong_probe_up_slope.
  destruct (ca_round_start a); [|done]. split; [|done]. cong_inv H1.
  destruct Ha as (?&?&?&?&?&?&?&?&?&?&?). cbn zeta. rewrite cong_max_spec.
  set (r := if _ >? 30 then 30 else _). assert (0 <= r <= 30) by (unfold r; case_match; lia).
  pose proof (Z.pow_pos_nonneg 2 r ltac:(lia) ltac:(lia)).
  assert (1 <= Z.shiftl 1 r) by (rewrite Z.shiftl_1_l; lia).
  assert (Z.shiftl 1 r <= 2 ^ 30) by (rewrite Z.shiftl_1_l; apply Z.pow_le_mono_r; lia).
  rewrite (u64_small (Z.shiftl 1 r)) by lia.
  assert (0 <= ca_cwnd_bytes a / Z.shiftl 1 r <= ca_cwnd_bytes a)
    by (split; [apply Z.div_pos; lia | apply Z.div_le_upper_bound; nia]).
  assert (0 <= (if cg_probe_up_rounds s1 <? 30 then cg_probe_up_rounds s1 +w32 1
                else cg_probe_up_rounds s1) <= 30) by (case_match; unwrap; lia).
  split_and!; try done; cbn; lia.
Qed.

Lemma cong_accumulate_ok s a :
  cong_ok s -> cong_ack_wf a -> cong_ok (cong_accumulate s a).
Proof.
  intros H Ha. cong_inv H. destruct Ha as (?&?&?&?&?&?&?&?&?&?&?).
  unfold cong_accumulate. rewrite !cong_max_spec, !cong_sat_add_spec by lia.
  split_and!; try done; cbn; try lia; case_match; lia.
Qed.

Lemma cong_finish_loss_round_ok s a :
  cong_ok s -> cong_ack_wf a ->
  cong_ok (cong_finish_loss_round s a) /\ same_long s (cong_finish_loss_round s a).
Proof.
  intros H Ha. unfold cong_finish_loss_round. cbn zeta.
  destruct (cong_finish_ecn_round_spec s H) as [E Hal]. rewrite E. clear E.
  set (s1 := s <| cg_ecn_alpha_q8 := _ |>).
  assert (H1 : cong_ok s1) by (cong_inv H; split_and!; try done; cbn; lia).
  assert (L1 : same_long s s1) by done. clearbody s1.
  set (s2 := if cg_loss_in_round s1 then cong_loss_cut s1 a else s1).
  assert (H2 : cong_ok s2 /\ same_long s s2).
  { unfold s2. destruct (cg_loss_in_round s1); [|done].
    destruct (cong_loss_cut_spec s1 a H1 Ha) as [E ?]. by rewrite E at 2. }
  clearbody s2. destruct H2 as [H2 L2].
  set (s3 := if cg_ecn_in_round s2 && _ then cong_ecn_cut s2 a else s2).
  assert (H3 : cong_ok s3 /\ same_long s s3).
  { unfold s3. destruct (_ && _); [|done].
    destruct (cong_ecn_cut_spec s2 a H2 Ha) as [E ?]. by rewrite E at 2. }
  clearbody s3. destruct H3 as [H3 L3].
  set (s4 := if negb _ then s3 else s1).
  assert (H4 : cong_ok s4 /\ same_long s s4) by (unfold s4; by destruct (negb _)).
  clearbody s4. destruct H4 as [H4 L4]. split; [|done].
  cong_inv H4. destruct Ha as (?&?&?&?&?&?&?&?&?&?&?).
  split_and!; try done; cbn; try lia; case_match; lia.
Qed.

(** ** The response on unbounded integers *)

Definition excess_loss (a : tcp_shift_bbr3_congestion_ack) : bool :=
  (0 <? ca_tx_inflight_bytes a) && (ca_tx_inflight_bytes a * 2 / 100 <? ca_newly_lost_bytes a).

Definition excess_ecn (a : tcp_shift_bbr3_congestion_ack) : bool :=
  ca_ecn_eligible a && (0 <? ca_newly_delivered_bytes a) &&
  (ca_newly_delivered_bytes a * 50 / 100 <? ca_newly_ce_bytes a).

(** The signal an ACK raises: only feedback of a probe not yet answered. *)
Definition bbr3_signal (s : tcp_shift_bbr3_congestion) (a : tcp_shift_bbr3_congestion_ack) : Z :=
  if ca_probe_sample a && negb (cg_probe_feedback_consumed s)
  then (if excess_loss a then 1 else 0) + (if excess_ecn a then 2 else 0) else 0.

Lemma cong_signal_spec a :
  cong_ack_wf a ->
  cong_signal a = (if excess_loss a then 1 else 0) + (if excess_ecn a then 2 else 0).
Proof.
  intros (?&?&?&?&?&?&?&?&?&?&?). unfold cong_signal, excess_loss, excess_ecn. cbn zeta.
  rewrite !cong_greater_than_percent_spec by lia. rewrite <- andb_assoc.
  by destruct ((0 <? ca_tx_inflight_bytes a) && _), (ca_ecn_eligible a && _).
Qed.

Lemma cong_probe_feedback_spec s a :
  cong_ok s -> cong_ack_wf a -> 1 <= ca_mss_bytes a -> 1 <= ca_cwnd_bytes a ->
  let '(signal, s') := cong_probe_feedback s a in
  signal = bbr3_signal s a /\ cong_ok s' /\ same_round s s' /\
  (signal <> 0 -> cg_inflight_longterm_bytes s' =
     if ca_app_limited a then cg_inflight_longterm_bytes s
     else beta_cut (ca_target_inflight_bytes a) (ca_tx_inflight_bytes a)) /\
  (signal = 0 -> cg_inflight_longterm_bytes s <= cg_inflight_longterm_bytes s') /\
  (ca_probe_sample a = false -> s' = s).
Proof.
  intros H Ha Hm Hc. unfold cong_probe_feedback, bbr3_signal.
  destruct (ca_probe_sample a && _) eqn:E0; [|split_and!; try done; lia].
  assert (ca_probe_sample a = true) by (by apply andb_true_iff in E0 as [? _]).
  rewrite cong_signal_spec by done. set (sg := _ + _).
  destruct (sg =? 0) eqn:Es; cbn [negb].
  - destruct (cg_inflight_longterm_bytes s =? _) eqn:El; cbn [negb]; [split_and!; try done; lia|].
    rewrite cong_max_spec. set (s1 := s <| cg_inflight_longterm_bytes := _ |>).
    assert (H1 : cong_ok s1).
    { cong_inv H. destruct Ha as (?&?&?&?&?&?&?&?&?&?&?). split_and!; try done; cbn; lia. }
    destruct (cong_probe_up_growth_ok s1 a H1 Ha Hm Hc) as (? & F & L). cbn in L.
    split_and!; try done; lia || congruence.
  - pose proof Ha as (?&?&?&?&?&?&?&?&?&?&?). rewrite cong_max_spec.
    destruct (cong_ratio_le (ca_target_inflight_bytes a) 7 10) as [-> ?]; [lia..|].
    destruct (ca_app_limited a); cbn [negb]; cong_inv H; unfold beta_cut, cong_ok;
      split_and!; try done; cbn; try lia; congruence.
Qed.

(** The short-term bounds and the mark average after a round that saw the
    given totals: [loss], [ecn], the best rate [bw], the largest delivered
    flight [fl], marked bytes [ce] and delivered bytes [del]. *)
Record round_totals := mk_totals {
  tot_loss : bool; tot_ecn : bool; tot_bw : Z; tot_fl : Z; tot_ce : Z; tot_del : Z
}.

Definition short_bw_next (s : tcp_shift_bbr3_congestion) (a : tcp_shift_bbr3_congestion_ack)
    (t : round_totals) : Z :=
  if negb (ca_probing_bandwidth a) && tot_loss t
  then Z.max 1 (beta_cut (or_initial (cg_bw_shortterm_bytes_per_sec s)
                            (ca_max_bw_bytes_per_sec a)) (tot_bw t))
  else cg_bw_shortterm_bytes_per_sec s.

Definition alpha_next (s : tcp_shift_bbr3_congestion) (t : round_totals) : Z :=
  ecn_alpha_next (cg_ecn_alpha_q8 s) (tot_ce t) (tot_del t).

Definition short_inflight_next (s : tcp_shift_bbr3_congestion)
    (a : tcp_shift_bbr3_congestion_ack) (t : round_totals) : Z :=
  if ca_probing_bandwidth a then cg_inflight_shortterm_bytes s
  else
    let cut := if tot_loss t
               then beta_cut (or_initial (cg_inflight_shortterm_bytes s) (ca_cwnd_bytes a)) (tot_fl t)
               else cg_inflight_shortterm_bytes s in
    if tot_ecn t && ca_ecn_eligible a
    then ecn_cut (alpha_next s t) (or_initial cut (ca_cwnd_bytes a)) else cut.

(** The totals of the round that the ACK belongs to, this ACK included. *)
Definition totals_with (s : tcp_shift_bbr3_congestion) (a : tcp_shift_bbr3_congestion_ack)
    : round_totals :=
  mk_totals (negb (ca_newly_lost_bytes a =? 0) || cg_loss_in_round s)
    (negb (ca_newly_ce_bytes a =? 0) || cg_ecn_in_round s)
    (Z.max (cg_bw_latest_bytes_per_sec s) (ca_delivery_rate_bytes_per_sec a))
    (Z.max (cg_inflight_latest_bytes s) (ca_rate_sample_delivered_bytes a))
    (Z.min UINT64_MAX (cg_ecn_round_ce_bytes s + ca_newly_ce_bytes a))
    (Z.min UINT64_MAX (cg_ecn_round_delivered_bytes s +
       if ca_ecn_eligible a then ca_newly_delivered_bytes a else 0)).

Definition totals_of (s : tcp_shift_bbr3_congestion) : round_totals :=
  mk_totals (cg_loss_in_round s) (cg_ecn_in_round s) (cg_bw_latest_bytes_per_sec s)
    (cg_inflight_latest_bytes s) (cg_ecn_round_ce_bytes s) (cg_ecn_round_delivered_bytes s).

Lemma cong_finish_loss_round_spec s a :
  cong_ok s -> cong_ack_wf a ->
  let s' := cong_finish_loss_round s a in
  cg_bw_shortterm_bytes_per_sec s' = short_bw_next s a (totals_of s) /\
  cg_inflight_shortterm_bytes s' = short_inflight_next s a (totals_of s) /\
  cg_ecn_alpha_q8 s' = alpha_next s (totals_of s).
Proof.
  intros H Ha. unfold cong_finish_loss_round, short_bw_next, short_inflight_next. cbn zeta.
  destruct (cong_finish_ecn_round_spec s H) as [E Hal]. rewrite E. clear E.
  set (s1 := s <| cg_ecn_alpha_q8 := _ |>).
  assert (H1 : cong_ok s1) by (cong_inv H; split_and!; try done; cbn; lia).
  destruct (ca_probing_bandwidth a); cbn [negb andb]; [split_and!; done|].
  destruct (cong_loss_cut_spec s1 a H1 Ha) as [Ec Hc].
  unfold totals_of, alpha_next. cbn [tot_loss tot_ecn tot_bw tot_fl tot_ce tot_del].
  change (cg_loss_in_round s1) with (cg_loss_in_round s).
  destruct (cg_loss_in_round s).
  - destruct (cong_ecn_cut_spec _ a Hc Ha) as [Ee _]. rewrite Ee, !Ec.
    unfold s1. cbn -[beta_cut or_initial ecn_cut ecn_alpha_next].
    destruct (cg_ecn_in_round s && ca_ecn_eligible a); split_and!; done.
  - destruct (cong_ecn_cut_spec s1 a H1 Ha) as [Ee _]. rewrite Ee.
    change (cg_ecn_in_round s1) with (cg_ecn_in_round s).
    destruct (cg_ecn_in_round s && ca_ecn_eligible a); split_and!; done.
Qed.

(** An accepted observation keeps the invariant; a rejected one changes
    nothing. *)
Lemma cong_on_ack_ok s a rc s' :
  cong_ok s -> cong_ack_wf a -> tcp_shift_bbr3_congestion_on_ack s a = (rc, s') ->
  cong_ok s' /\ (if cong_rejects a then rc = -1 /\ s' = s else 0 <= rc <= 3).
Proof.
  intros H Ha. unfold tcp_shift_bbr3_congestion_on_ack.
  destruct (cong_rejects a) eqn:Er; [intros [= <- <-]; done|].
  unfold cong_rejects in Er. pose proof Ha as (?&?&?&?&?&?&?&?&?&?&?).
  pose proof (cong_probe_feedback_spec (cong_accumulate s a) a
    (cong_accumulate_ok s a H Ha) Ha ltac:(lia) ltac:(lia)) as Hp.
  destruct (cong_probe_feedback _ a) as [sg s1]. destruct Hp as (-> & K1 & _).
  intros [= <- <-]. split; [|unfold bbr3_signal; repeat case_match; lia].
  destruct (ca_loss_round_end a); [|done]. by apply cong_finish_loss_round_ok.
Qed.

(** Without probe feedback and without a round end no bound moves. *)
Lemma cong_on_ack_quiet s a :
  ca_probe_sample a = false -> ca_loss_round_end a = false ->
  let s' := (tcp_shift_bbr3_congestion_on_ack s a).2 in
  cg_bw_shortterm_bytes_per_sec s' = cg_bw_shortterm_bytes_per_sec s /\
  cg_inflight_shortterm_bytes s' = cg_inflight_shortterm_bytes s /\
  cg_inflight_longterm_bytes s' = cg_inflight_longterm_bytes s.
Proof.
  intros Hp Hl. cbn zeta. unfold tcp_shift_bbr3_congestion_on_ack.
  destruct (cong_rejects a); [done|]. unfold cong_probe_feedback. rewrite Hp, Hl. done.
Qed.

Lemma rate_cap_spec s phase bw :
  tcp_shift_bbr3_congestion_rate_cap s phase bw =
  if cong_bounded_phase phase then Z.min bw (cg_bw_shortterm_bytes_per_sec s) else bw.
Proof. unfold tcp_shift_bbr3_congestion_rate_cap. by rewrite cong_min_spec. Qed.

Lemma cwnd_cap_bounds s phase mss :
  cong_ok s -> 1 <= mss <= UINT32_MAX / 4 ->
  4 * mss <= tcp_shift_bbr3_congestion_cwnd_cap s phase mss <= UINT64_MAX.
Proof.
  intros H Hm. cong_inv H. assert (mss <= 1073741823) by (destruct Hm; done).
  unfold tcp_shift_bbr3_congestion_cwnd_cap. destruct (mss =? 0) eqn:E; [lia|].
  rewrite bbr3_headroom_spec, !cong_max_spec, !cong_min_spec, !(u64_small (mss * 4)) by lia.
  assert (0 <= cg_inflight_longterm_bytes s * 15 / 100) by (apply Z.div_pos; lia).
  destruct phase; cbn [cong_bounded_phase]; try lia; case_match; lia.
Qed.

(** C12. The BBRv3 congestion response on unbounded integers. An accepted ACK
    raises an excess-loss or excess-ECN signal exactly when unanswered probe
    feedback shows more than 2% loss of the transmitted flight or 50% marks. A
    signal from a sample that was not application-limited sets the long-term
    bound to the larger of the flight and 70% of the target; without a signal
    the bound never falls, and an application-limited one leaves it. The
    short-term bounds and the mark average move only at the end of a loss
    round: outside probing, loss cuts each bound to 70%, not below what the
    round delivered, and marks take off the averaged mark share. *)
Theorem bbr3_congestion_response s a :
  cong_ok s -> cong_ack_wf a -> cong_rejects a = false ->
  let '(signal, s') := tcp_shift_bbr3_congestion_on_ack s a in
  signal = bbr3_signal s a /\
  (cg_bw_shortterm_bytes_per_sec s', cg_inflight_shortterm_bytes s', cg_ecn_alpha_q8 s') =
    (if ca_loss_round_end a
     then (short_bw_next s a (totals_with s a), short_inflight_next s a (totals_with s a),
           alpha_next s (totals_with s a))
     else (cg_bw_shortterm_bytes_per_sec s, cg_inflight_shortterm_bytes s, cg_ecn_alpha_q8 s)) /\
  (signal <> 0 -> cg_inflight_longterm_bytes s' =
     if ca_app_limited a then cg_inflight_longterm_bytes s
     else beta_cut (ca_target_inflight_bytes a) (ca_tx_inflight_bytes a)) /\
  (signal = 0 -> cg_inflight_longterm_bytes s <= cg_inflight_longterm_bytes s').
Proof.
  intros H Ha Er. unfold tcp_shift_bbr3_congestion_on_ack. rewrite Er.
  unfold cong_rejects in Er. pose proof Ha as (?&?&?&?&?&?&?&?&?&?&?).
  pose proof (cong_accumulate_ok s a H Ha) as K0.
  pose proof (cong_probe_feedback_spec (cong_accumulate s a) a K0 Ha ltac:(lia) ltac:(lia)) as Hp.
  assert (Et : totals_of (cong_accumulate s a) = totals_with s a).
  { cong_inv H. unfold totals_of, totals_with, cong_accumulate. cbn.
    rewrite !cong_max_spec, !cong_sat_add_spec by lia. f_equal.
    - destruct (ca_rate_valid a); lia.
    - destruct (ca_ecn_eligible a); lia.
    - destruct (ca_ecn_eligible a); lia. }
  destruct (cong_probe_feedback _ a) as [sg s1].
  destruct Hp as (-> & K1 & (E1&E2&E3&E4&E5&E6&E7&E8&E9) & Hl & Hz & _).
  change (cg_inflight_longterm_bytes (cong_accumulate s a))
    with (cg_inflight_longterm_bytes s) in Hl, Hz.
  assert (Et1 : totals_of s1 = totals_with s a).
  { rewrite <- Et. unfold totals_of. by rewrite E3, E4, E5, E6, E8, E9. }
  destruct (ca_loss_round_end a); [|split_and!; [done| |exact Hl|exact Hz]; by rewrite E1, E2, E7].
  destruct (cong_finish_loss_round_spec s1 a K1 Ha) as (-> & -> & ->).
  destruct (cong_finish_loss_round_ok s1 a K1 Ha) as [_ ->].
  split_and!; [done| |exact Hl|exact Hz].
  rewrite Et1. unfold short_bw_next, short_inflight_next, alpha_next. by rewrite E1, E2, E7.
Qed.

Definition sample_cong : tcp_shift_bbr3_congestion :=
  tcp_shift_bbr3_congestion_init <| cg_inflight_shortterm_bytes := 100000 |>
    <| cg_inflight_longterm_bytes := 200000 |> <| cg_ecn_round_delivered_bytes := 20000 |>.
Definition sample_cong_ack : tcp_shift_bbr3_congestion_ack :=
  mk_cong_ack 1000000 2000000 10000 40000 5000 6000 90000 80000 150000 10000 1460
    true false true false true false true true true.

Lemma bbr3_congestion_response_witness :
  cong_ok sample_cong /\ cong_ack_wf sample_cong_ack /\ cong_rejects sample_cong_ack = false /\
  (tcp_shift_bbr3_congestion_on_ack sample_cong sample_cong_ack).1 = 3 /\
  (cg_bw_shortterm_bytes_per_sec
     (tcp_shift_bbr3_congestion_on_ack sample_cong sample_cong_ack).2,
   cg_inflight_longterm_bytes
     (tcp_shift_bbr3_congestion_on_ack sample_cong sample_cong_ack).2) = (1400000, 105000).
Proof.
  assert (H1 : cong_ok sample_cong) by (unfold cong_ok; cbn; split_and!; done || lia).
  assert (H2 : cong_ack_wf sample_cong_ack) by (unfold cong_ack_wf; cbn; lia).
  assert (H3 : cong_rejects sample_cong_ack = false) by (vm_compute; reflexivity).
  pose proof (bbr3_congestion_response sample_cong sample_cong_ack H1 H2 H3) as H.
  destruct (tcp_shift_bbr3_congestion_on_ack sample_cong sample_cong_ack) as [sg s'] eqn:E.
  split; [exact H1|]. split; [exact H2|]. split; [exact H3|].
  destruct H as (Hs & Hb & Hl & _). split; [rewrite Hs; vm_compute; reflexivity|].
  cbn [snd]. rewrite Hl.
  - injection Hb as -> _ _. vm_compute. reflexivity.
  - rewrite Hs. vm_compute. discriminate.
Defined.
