(* ===== verification/Bbr3Probe.v ===== *)
(** * The BBRv3 ProbeBW scheduler ([src/cc/bbr3_probe.h], [src/cc/bbr3_probe.c])

    The bandwidth-delay product, the seeded wait times, the entries to DOWN,
    REFILL and UP, and the phase machine run by an ACK. *)

From Stdlib Require Import ZArith Lia Bool List.
From stdpp Require Import base tactics numbers list.
From S2P Require Import Prelude CC Bbr3Model.
Local Open Scope Z_scope.

Abbreviation TCP_SHIFT_BBR3_PROBE_WAIT_BASE_NS := 2000000000.
Abbreviation TCP_SHIFT_BBR3_PROBE_WAIT_JITTER_NS := 1000000000.
Abbreviation TCP_SHIFT_BBR3_RENO_MAX_ROUNDS := 63.
Abbreviation NS_PER_SECOND := 1000000000.

Inductive tcp_shift_bbr3_ack_phase :=
  | TCP_SHIFT_BBR3_ACKS_INIT
  | TCP_SHIFT_BBR3_ACKS_REFILLING
  | TCP_SHIFT_BBR3_ACKS_PROBE_STARTING
  | TCP_SHIFT_BBR3_ACKS_PROBE_FEEDBACK
  | TCP_SHIFT_BBR3_ACKS_PROBE_STOPPING.

#[export] Instance tcp_shift_bbr3_ack_phase_eq_dec : EqDecision tcp_shift_bbr3_ack_phase.
Proof. solve_decision. Defined.

Record tcp_shift_bbr3_probe := mk_probe3 {
  p3_cycle_stamp_ns : Z;
  p3_next_round_delivered : Z;
  p3_up_full_bw_bytes_per_sec : Z;
  p3_wait_ns : Z;
  p3_random_state : Z;
  p3_rounds_since_probe : Z;
  p3_up_stagnant_rounds : Z;
  p3_probe_up_rounds : Z;
  p3_ack_phase : tcp_shift_bbr3_ack_phase;
  p3_initialized : bool;
  p3_previous_probe_too_high : bool;
  p3_previous_probe_precautionary : bool;
  p3_probe_bw_sample : bool;
  p3_pending_probe_feedback : bool
}.
#[export] Instance eta_probe3 : Eta tcp_shift_bbr3_probe := fun r =>
  mk_probe3 (p3_cycle_stamp_ns r) (p3_next_round_delivered r)
    (p3_up_full_bw_bytes_per_sec r) (p3_wait_ns r) (p3_random_state r)
    (p3_rounds_since_probe r) (p3_up_stagnant_rounds r) (p3_probe_up_rounds r)
    (p3_ack_phase r) (p3_initialized r) (p3_previous_probe_too_high r)
    (p3_previous_probe_precautionary r) (p3_probe_bw_sample r)
    (p3_pending_probe_feedback r).

(** [pa_rate] is the pointee of the [rate] pointer. *)
Record tcp_shift_bbr3_probe_ack := mk_probe_ack {
  pa_rate : tcp_shift_cc_rate_sample;
  pa_now_ns : Z;
  pa_inflight_longterm_bytes : Z;
  pa_inflight_bytes : Z;
  pa_cwnd_bytes : Z;
  pa_mss_bytes : Z;
  pa_cwnd_limited : bool;
  pa_qualified_loss_too_high : bool
}.

(** ** Arithmetic (the static helpers of [bbr3_probe.c]) *)

Definition probe3_sat_add (a b : Z) : Z :=
  if UINT64_MAX -w64 a <? b then UINT64_MAX else a +w64 b.

Definition probe3_sat_mul (a b : Z) : Z :=
  if (a =? 0) || (b =? 0) then 0
  else if a >? UINT64_MAX / b then UINT64_MAX else a *w64 b.

Definition probe3_bdp_bytes (bw rtt_ns : Z) : Z :=
  if (bw =? 0) || (rtt_ns =? 0) then 0
  else
    let result := probe3_sat_add (probe3_sat_mul bw (rtt_ns / NS_PER_SECOND))
                    (probe3_sat_mul (bw / NS_PER_SECOND) (rtt_ns mod NS_PER_SECOND)) in
    let cross := (bw mod NS_PER_SECOND) *w64 (rtt_ns mod NS_PER_SECOND) in
    let result := probe3_sat_add result (cross / NS_PER_SECOND) in
    probe3_sat_add result (if negb (cross mod NS_PER_SECOND =? 0) then 1 else 0).

(** ** Phase entries *)

(** Xorshift over 32-bit words. *)
Definition probe3_xorshift (value : Z) : Z :=
  let value := Z.lxor value (u32 (Z.shiftl value 13)) in
  let value := Z.lxor value (Z.shiftr value 17) in
  Z.lxor value (u32 (Z.shiftl value 5)).

Definition probe3_random_next (probe : tcp_shift_bbr3_probe) : Z * tcp_shift_bbr3_probe :=
  let value := probe3_xorshift (p3_random_state probe) in
  (value, probe <| p3_random_state := value |>).

Definition probe3_begin_round (probe : tcp_shift_bbr3_probe) (delivered_total_bytes : Z)
    : tcp_shift_bbr3_probe :=
  probe <| p3_next_round_delivered := delivered_total_bytes |>.

Definition probe3_pick_wait (probe : tcp_shift_bbr3_probe) : tcp_shift_bbr3_probe :=
  let '(value, probe) := probe3_random_next probe in
  let probe := probe <| p3_rounds_since_probe := Z.land value 1 |> in
  let '(value, probe) := probe3_random_next probe in
  probe <| p3_wait_ns := TCP_SHIFT_BBR3_PROBE_WAIT_BASE_NS
             +w64 value mod TCP_SHIFT_BBR3_PROBE_WAIT_JITTER_NS |>.

Definition probe3_enter_down (probe : tcp_shift_bbr3_probe) (model : tcp_shift_bbr3_model)
    (now_ns delivered_total_bytes : Z) : tcp_shift_bbr3_probe * tcp_shift_bbr3_model :=
  let probe := probe3_pick_wait probe in
  let probe := probe <| p3_cycle_stamp_ns := now_ns |>
                     <| p3_ack_phase := TCP_SHIFT_BBR3_ACKS_PROBE_STOPPING |>
                     <| p3_probe_bw_sample := false |> in
  (probe3_begin_round probe delivered_total_bytes,
   model <| b3_phase := TCP_SHIFT_BBR3_PROBE_BW_DOWN |>).

Definition probe3_enter_refill (probe : tcp_shift_bbr3_probe) (model : tcp_shift_bbr3_model)
    (delivered_total_bytes : Z) : tcp_shift_bbr3_probe * tcp_shift_bbr3_model :=
  let probe := probe <| p3_probe_up_rounds := 0 |>
                     <| p3_up_stagnant_rounds := 0 |>
                     <| p3_previous_probe_precautionary := false |>
                     <| p3_ack_phase := TCP_SHIFT_BBR3_ACKS_REFILLING |> in
  (probe3_begin_round probe delivered_total_bytes,
   model <| b3_phase := TCP_SHIFT_BBR3_PROBE_BW_REFILL |>).

Definition probe3_enter_up (probe : tcp_shift_bbr3_probe) (model : tcp_shift_bbr3_model)
    (ack : tcp_shift_bbr3_probe_ack) : tcp_shift_bbr3_probe * tcp_shift_bbr3_model :=
  let probe := probe <| p3_ack_phase := TCP_SHIFT_BBR3_ACKS_PROBE_STARTING |>
                     <| p3_up_stagnant_rounds := 0 |>
                     <| p3_up_full_bw_bytes_per_sec :=
                        rs_delivery_rate_bytes_per_sec (pa_rate ack) |>
                     <| p3_probe_up_rounds := 1 |>
                     <| p3_probe_bw_sample := true |> in
  (probe3_begin_round probe (rs_delivered_total_bytes (pa_rate ack)),
   model <| b3_phase := TCP_SHIFT_BBR3_PROBE_BW_UP |>).

Definition tcp_shift_bbr3_probe_enter (probe : tcp_shift_bbr3_probe)
    (model : tcp_shift_bbr3_model) (now_ns delivered_total_bytes flow_seed : Z)
    : Z * tcp_shift_bbr3_probe * tcp_shift_bbr3_model :=
  if (now_ns =? 0) || (flow_seed =? 0) || negb (b3_full_bw_reached model) ||
     (b3_max_bw_bytes_per_sec model =? 0) || negb (b3_has_min_rtt model) ||
     (b3_min_rtt_ns model =? 0) || p3_initialized probe
  then (-1, probe, model)
  else
    let probe := mk_probe3 0 0 0 0 flow_seed 0 0 0 TCP_SHIFT_BBR3_ACKS_INIT
                   true false false false false in
    let '(probe, model) := probe3_enter_down probe model now_ns delivered_total_bytes in
    (0, probe, model).

(** ** The phase machine *)

Definition probe3_round_start (probe : tcp_shift_bbr3_probe) (rate : tcp_shift_cc_rate_sample)
    : bool * tcp_shift_bbr3_probe :=
  if (rs_delivered_total_bytes rate =? 0) ||
     (rs_prior_delivered_bytes rate <? p3_next_round_delivered probe)
  then (false, probe)
  else
    let probe := probe3_begin_round probe (rs_delivered_total_bytes rate) in
    (true,
     if p3_rounds_since_probe probe <? UINT32_MAX
     then probe <| p3_rounds_since_probe := p3_rounds_since_probe probe +w32 1 |>
     else probe).

Definition probe3_reno_wait_rounds (model : tcp_shift_bbr3_model)
    (ack : tcp_shift_bbr3_probe_ack) : Z :=
  let bdp := probe3_bdp_bytes (b3_max_bw_bytes_per_sec model) (b3_min_rtt_ns model) in
  let target := if bdp <? pa_cwnd_bytes ack then bdp else pa_cwnd_bytes ack in
  let packets := target / pa_mss_bytes ack in
  let packets := if negb (target mod pa_mss_bytes ack =? 0) then packets +w64 1 else packets in
  let packets := if packets >? TCP_SHIFT_BBR3_RENO_MAX_ROUNDS
                 then TCP_SHIFT_BBR3_RENO_MAX_ROUNDS else packets in
  u32 packets.

Definition probe3_time_to_probe (probe : tcp_shift_bbr3_probe) (model : tcp_shift_bbr3_model)
    (ack : tcp_shift_bbr3_probe_ack) : bool * tcp_shift_bbr3_probe * tcp_shift_bbr3_model :=
  if ((pa_now_ns ack >? p3_cycle_stamp_ns probe) &&
      (pa_now_ns ack -w64 p3_cycle_stamp_ns probe >? p3_wait_ns probe)) ||
     (p3_rounds_since_probe probe >=? probe3_reno_wait_rounds model ack)
  then
    let '(probe, model) :=
      probe3_enter_refill probe model (rs_delivered_total_bytes (pa_rate ack)) in
    (true, probe, model)
  else (false, probe, model).

Definition probe3_time_to_cruise (model : tcp_shift_bbr3_model)
    (ack : tcp_shift_bbr3_probe_ack) : bool :=
  let bdp := probe3_bdp_bytes (b3_max_bw_bytes_per_sec model) (b3_min_rtt_ns model) in
  let headroom := tcp_shift_bbr3_inflight_with_headroom
                    (pa_inflight_longterm_bytes ack) (pa_mss_bytes ack) in
  (pa_inflight_bytes ack <=? bdp) && (pa_inflight_bytes ack <=? headroom).

Definition probe3_up_plateau (probe : tcp_shift_bbr3_probe) (ack : tcp_shift_bbr3_probe_ack)
    (new_round : bool) : bool * tcp_shift_bbr3_probe :=
  let rate := rs_delivery_rate_bytes_per_sec (pa_rate ack) in
  if negb (has_flag (pa_rate ack) TCP_SHIFT_CC_RATE_SAMPLE_VALID) ||
     has_flag (pa_rate ack) TCP_SHIFT_CC_RATE_SAMPLE_APP_LIMITED || (rate =? 0)
  then (false, probe)
  else
    let increment := p3_up_full_bw_bytes_per_sec probe / 4 in
    let increment := if negb (p3_up_full_bw_bytes_per_sec probe mod 4 =? 0)
                     then increment +w64 1 else increment in
    let threshold := probe3_sat_add (p3_up_full_bw_bytes_per_sec probe) increment in
    let probe :=
      if (p3_up_full_bw_bytes_per_sec probe =? 0) || (rate >=? threshold)
      then probe <| p3_up_full_bw_bytes_per_sec := rate |> <| p3_up_stagnant_rounds := 0 |>
      else if new_round && (p3_up_stagnant_rounds probe <? UINT32_MAX)
      then probe <| p3_up_stagnant_rounds := p3_up_stagnant_rounds probe +w32 1 |>
      else probe in
    (p3_up_stagnant_rounds probe >=? TCP_SHIFT_BBR3_FULL_BW_ROUNDS, probe).

(** The validation of [probe_on_ack], lines 214-224. *)
Definition probe3_rejects (probe : tcp_shift_bbr3_probe) (model : tcp_shift_bbr3_model)
    (ack : tcp_shift_bbr3_probe_ack) : bool :=
  negb (p3_initialized probe) || negb (b3_full_bw_reached model) ||
  (pa_now_ns ack =? 0) || (pa_now_ns ack <? p3_cycle_stamp_ns probe) ||
  (pa_mss_bytes ack =? 0) || (pa_cwnd_bytes ack =? 0) ||
  (rs_prior_delivered_bytes (pa_rate ack) >? rs_delivered_total_bytes (pa_rate ack)) ||
  negb (in_probe_bw (b3_phase model)).

(** The end of a probe's feedback round in DOWN. The last component tells
    whether the function returns there, with the code in the first. *)
Definition probe3_stopping_round (probe : tcp_shift_bbr3_probe) (model : tcp_shift_bbr3_model)
    (ack : tcp_shift_bbr3_probe_ack) (new_round : bool)
    : Z * tcp_shift_bbr3_probe * tcp_shift_bbr3_model * bool :=
  if bool_decide (b3_phase model = TCP_SHIFT_BBR3_PROBE_BW_DOWN) && new_round &&
     bool_decide (p3_ack_phase probe = TCP_SHIFT_BBR3_ACKS_PROBE_STOPPING)
  then
    let probe := probe <| p3_ack_phase := TCP_SHIFT_BBR3_ACKS_INIT |> in
    let '(rc, model) :=
      if p3_pending_probe_feedback probe &&
         negb (has_flag (pa_rate ack) TCP_SHIFT_CC_RATE_SAMPLE_APP_LIMITED) &&
         has_flag (pa_rate ack) TCP_SHIFT_CC_RATE_SAMPLE_VALID
      then tcp_shift_bbr3_model_advance_bw_cycle model else (0, model) in
    if negb (rc =? 0) then (-1, probe, model, true)
    else
      let probe := probe <| p3_pending_probe_feedback := false |> in
      if p3_previous_probe_precautionary probe && negb (p3_previous_probe_too_high probe)
      then
        let '(probe, model) :=
          probe3_enter_refill probe model (rs_delivered_total_bytes (pa_rate ack)) in
        (0, probe, model, true)
      else (0, probe, model, false)
  else (0, probe, model, false).

(** [case TCP_SHIFT_BBR3_PROBE_BW_UP]. *)
Definition probe3_up_case (probe : tcp_shift_bbr3_probe) (model : tcp_shift_bbr3_model)
    (ack : tcp_shift_bbr3_probe_ack) (new_round : bool)
    : tcp_shift_bbr3_probe * tcp_shift_bbr3_model :=
  let probe :=
    if new_round && bool_decide (p3_ack_phase probe = TCP_SHIFT_BBR3_ACKS_PROBE_STARTING)
    then probe <| p3_ack_phase := TCP_SHIFT_BBR3_ACKS_PROBE_FEEDBACK |> else probe in
  let delivered := rs_delivered_total_bytes (pa_rate ack) in
  if pa_qualified_loss_too_high ack then
    probe3_enter_down (probe <| p3_previous_probe_too_high := true |>
                             <| p3_pending_probe_feedback := true |>)
      model (pa_now_ns ack) delivered
  else if p3_previous_probe_too_high probe &&
          negb (pa_inflight_longterm_bytes ack =? UINT64_MAX) &&
          (pa_inflight_bytes ack >=? pa_inflight_longterm_bytes ack) then
    probe3_enter_down (probe <| p3_previous_probe_precautionary := true |>
                             <| p3_previous_probe_too_high := false |>
                             <| p3_pending_probe_feedback := true |>)
      model (pa_now_ns ack) delivered
  else if pa_cwnd_limited ack && negb (pa_inflight_longterm_bytes ack =? UINT64_MAX) &&
          (pa_cwnd_bytes ack >=? pa_inflight_longterm_bytes ack) then
    (probe <| p3_up_full_bw_bytes_per_sec := rs_delivery_rate_bytes_per_sec (pa_rate ack) |>
           <| p3_up_stagnant_rounds := 0 |>, model)
  else
    let '(plateau, probe) := probe3_up_plateau probe ack new_round in
    if plateau then
      probe3_enter_down (probe <| p3_previous_probe_too_high := false |>
                               <| p3_pending_probe_feedback := true |>)
        model (pa_now_ns ack) delivered
    else (probe, model).

(** The switch over the phase. *)
Definition probe3_switch (probe : tcp_shift_bbr3_probe) (model : tcp_shift_bbr3_model)
    (ack : tcp_shift_bbr3_probe_ack) (new_round : bool)
    : Z * tcp_shift_bbr3_probe * tcp_shift_bbr3_model :=
  match b3_phase model with
  | TCP_SHIFT_BBR3_PROBE_BW_DOWN =>
      let '(probing, probe, model) := probe3_time_to_probe probe model ack in
      (0, probe,
       if negb probing && probe3_time_to_cruise model ack
       then model <| b3_phase := TCP_SHIFT_BBR3_PROBE_BW_CRUISE |> else model)
  | TCP_SHIFT_BBR3_PROBE_BW_CRUISE =>
      let '(_, probe, model) := probe3_time_to_probe probe model ack in (0, probe, model)
  | TCP_SHIFT_BBR3_PROBE_BW_REFILL =>
      let '(probe, model) :=
        if new_round then probe3_enter_up probe model ack else (probe, model) in
      (0, probe, model)
  | TCP_SHIFT_BBR3_PROBE_BW_UP =>
      let '(probe, model) := probe3_up_case probe model ack new_round in (0, probe, model)
  | _ => (-1, probe, model)
  end.

Definition tcp_shift_bbr3_probe_on_ack (probe : tcp_shift_bbr3_probe)
    (model : tcp_shift_bbr3_model) (ack : tcp_shift_bbr3_probe_ack)
    : Z * tcp_shift_bbr3_probe * tcp_shift_bbr3_model :=
  if probe3_rejects probe model ack then (-1, probe, model)
  else if rs_delivered_total_bytes (pa_rate ack) =? rs_prior_delivered_bytes (pa_rate ack)
  then (0, probe, model)
  else
    let '(new_round, probe) := probe3_round_start probe (pa_rate ack) in
    let '(rc, probe, model, returned) := probe3_stopping_round probe model ack new_round in
    if returned then (rc, probe, model)
    else probe3_switch probe model ack new_round.

(** ** Exactness of the arithmetic *)

Lemma probe3_sat_add_spec a b :
  in_u64 a -> in_u64 b -> probe3_sat_add a b = Z.min UINT64_MAX (a + b).
Proof. apply sat_add_u64_lt. Qed.

Lemma probe3_sat_mul_spec a b :
  in_u64 a -> in_u64 b -> probe3_sat_mul a b = Z.min UINT64_MAX (a * b).
Proof. apply sat_mul_u64. Qed.

(** The product split at one second in both factors. *)
Lemma bdp_split bw rtt :
  bw * rtt = (bw * (rtt / 1000000000) + bw / 1000000000 * (rtt mod 1000000000)) * 1000000000
             + bw mod 1000000000 * (rtt mod 1000000000).
Proof.
  pose proof (Z.div_mod bw 1000000000 ltac:(lia)). pose proof (Z.div_mod rtt 1000000000 ltac:(lia)).
  nia.
Qed.

Lemma bdp_split_nonneg bw rtt :
  in_u64 bw -> in_u64 rtt ->
  0 <= bw * (rtt / 1000000000) /\ 0 <= bw / 1000000000 * (rtt mod 1000000000) /\
  0 <= bw mod 1000000000 * (rtt mod 1000000000) < 1000000000 * 1000000000 /\
  in_u64 (bw / 1000000000) /\ in_u64 (rtt / 1000000000).
Proof.
  intros Hb Hr. pose proof (Z.mod_pos_bound bw 1000000000). pose proof (Z.mod_pos_bound rtt 1000000000).
  assert (0 <= bw / 1000000000 <= UINT64_MAX) by div_lia.
  assert (0 <= rtt / 1000000000 <= UINT64_MAX) by div_lia. split_and!; nia.
Qed.

Lemma probe3_bdp_spec bw rtt :
  in_u64 bw -> in_u64 rtt ->
  probe3_bdp_bytes bw rtt = Z.min UINT64_MAX (cdiv (bw * rtt) 1000000000).
Proof.
  intros Hb Hr. unfold probe3_bdp_bytes.
  destruct (_ || _) eqn:E.
  { assert (bw * rtt = 0) as -> by nia. reflexivity. }
  destruct (bdp_split_nonneg bw rtt Hb Hr) as (H1 & H2 & H3 & H4 & H5).
  assert (in_u64 (rtt mod 1000000000)) by (pose proof (Z.mod_pos_bound rtt 1000000000); lia).
  rewrite cdiv_alt, (bdp_split bw rtt), Z.div_add_l, (Z.add_comm (_ * 1000000000)), Z_mod_plus_full by lia.
  rewrite (u64_small (bw mod _ * _)) by lia. set (x := bw mod _ * _) in *. clearbody x.
  assert (0 <= x / 1000000000 <= x) by div_lia.
  rewrite !probe3_sat_mul_spec by lia. rewrite (probe3_sat_add_spec (Z.min _ _)) by lia.
  rewrite (probe3_sat_add_spec _ (x / 1000000000)) by lia.
  destruct (x mod 1000000000 =? 0); cbn [negb]; rewrite probe3_sat_add_spec by lia; lia.
Qed.

(** ** The invariant of the scheduler *)

(** [last] is the time of the last ACK the model has seen. *)
Definition probe3_ok (p : tcp_shift_bbr3_probe) (last : Z) : Prop :=
  0 <= p3_cycle_stamp_ns p <= last /\ 2000000000 <= p3_wait_ns p <= 2999999999 /\
  in_u32 (p3_rounds_since_probe p) /\ in_u64 (p3_up_full_bw_bytes_per_sec p) /\
  in_u32 (p3_up_stagnant_rounds p).

Definition probe_ack_wf (a : tcp_shift_bbr3_probe_ack) : Prop :=
  rate_sample_wf (pa_rate a) /\ 1 <= pa_now_ns a <= UINT64_MAX /\
  in_u64 (pa_inflight_longterm_bytes a) /\ in_u32 (pa_inflight_bytes a) /\
  1 <= pa_cwnd_bytes a <= UINT32_MAX /\ 1 <= pa_mss_bytes a <= UINT32_MAX.

Lemma pick_wait_bounds p :
  let p' := probe3_pick_wait p in
  2000000000 <= p3_wait_ns p' <= 2999999999 /\ 0 <= p3_rounds_since_probe p' <= 1 /\
  p3_up_full_bw_bytes_per_sec p' = p3_up_full_bw_bytes_per_sec p /\
  p3_up_stagnant_rounds p' = p3_up_stagnant_rounds p /\ p3_initialized p' = p3_initialized p.
Proof.
  unfold probe3_pick_wait, probe3_random_next. cbn zeta iota beta.
  set (v1 := probe3_xorshift (p3_random_state p)). cbn -[probe3_xorshift Z.land Z.modulo].
  set (v2 := probe3_xorshift v1). pose proof (Z.mod_pos_bound v2 1000000000 ltac:(lia)).
  assert (Z.land v1 1 = v1 mod 2) as -> by (apply (Z.land_ones v1 1); lia).
  pose proof (Z.mod_pos_bound v1 2 ltac:(lia)). rewrite u64_small by lia.
  split_and!; done || lia.
Qed.

Lemma enter_down_ok p m now total :
  0 <= now -> in_u64 (p3_up_full_bw_bytes_per_sec p) -> in_u32 (p3_up_stagnant_rounds p) ->
  let '(p', m') := probe3_enter_down p m now total in
  probe3_ok p' now /\ p3_initialized p' = p3_initialized p /\
  m' = m <| b3_phase := TCP_SHIFT_BBR3_PROBE_BW_DOWN |>.
Proof.
  intros Hn Hu Hs. unfold probe3_enter_down. pose proof (pick_wait_bounds p) as Hp.
  set (p1 := probe3_pick_wait p) in *. clearbody p1. destruct Hp as (?&?&Eu&Es&Ei).
  split; [|done]. unfold probe3_ok. cbn. rewrite Eu, Es. lia.
Qed.

Lemma probe_enter_ok p m now total seed rc p' m' :
  bbr3_model_ok m -> 1 <= now -> seed <> 0 -> b3_full_bw_reached m = true ->
  tcp_shift_bbr3_probe_enter p m now total seed = (rc, p', m') ->
  (rc = 0 /\ p3_initialized p = false /\ b3_has_min_rtt m = true /\
   probe3_ok p' now /\ p3_initialized p' = true /\
   m' = m <| b3_phase := TCP_SHIFT_BBR3_PROBE_BW_DOWN |>) \/
  (rc = -1 /\ p' = p /\ m' = m).
Proof.
  intros Hm Hn Hseed Hf. unfold tcp_shift_bbr3_probe_enter.
  destruct (_ || _ || _ || _ || _ || _ || _) eqn:E; [intros [= <- <- <-]; by right|].
  pose proof (enter_down_ok
    (mk_probe3 0 0 0 0 seed 0 0 0 TCP_SHIFT_BBR3_ACKS_INIT true false false false false)
    m now total ltac:(lia) ltac:(cbn; lia) ltac:(cbn; lia)) as Hd.
  destruct (probe3_enter_down _ _ _ _) as [p1 m1]. intros [= <- <- <-].
  destruct Hd as (? & ? & ->). left.
  repeat (apply orb_false_iff in E as [E ?]). rewrite negb_false_iff in *. done.
Qed.

(** The transitions of ProbeBW. *)
Inductive probe_bw_edge : tcp_shift_bbr3_phase -> tcp_shift_bbr3_phase -> Prop :=
  | edge_stay ph : in_probe_bw ph = true -> probe_bw_edge ph ph
  | edge_down_cruise :
      probe_bw_edge TCP_SHIFT_BBR3_PROBE_BW_DOWN TCP_SHIFT_BBR3_PROBE_BW_CRUISE
  | edge_down_refill :
      probe_bw_edge TCP_SHIFT_BBR3_PROBE_BW_DOWN TCP_SHIFT_BBR3_PROBE_BW_REFILL
  | edge_cruise_refill :
      probe_bw_edge TCP_SHIFT_BBR3_PROBE_BW_CRUISE TCP_SHIFT_BBR3_PROBE_BW_REFILL
  | edge_refill_up :
      probe_bw_edge TCP_SHIFT_BBR3_PROBE_BW_REFILL TCP_SHIFT_BBR3_PROBE_BW_UP
  | edge_up_down :
      probe_bw_edge TCP_SHIFT_BBR3_PROBE_BW_UP TCP_SHIFT_BBR3_PROBE_BW_DOWN.
Create HintDb bbr3.
#[export] Hint Constructors probe_bw_edge : bbr3.

(** What the ProbeBW machine never changes in the model. *)
Definition probe_frame (m m' : tcp_shift_bbr3_model) : Prop :=
  b3_full_bw_reached m' = b3_full_bw_reached m /\ b3_has_min_rtt m' = b3_has_min_rtt m /\
  b3_last_update_ns m' = b3_last_update_ns m /\ b3_min_rtt_ns m' = b3_min_rtt_ns m.

#[export] Instance probe_frame_preorder : PreOrder probe_frame.
Proof. split; [done|]. intros x y z (?&?&?&?) (?&?&?&?). split_and!; congruence. Qed.

Lemma model_phase_ok m ph : bbr3_model_ok m -> bbr3_model_ok (m <| b3_phase := ph |>).
Proof. done. Qed.
#[export] Hint Resolve model_phase_ok : bbr3.

Lemma enter_refill_ok p m total now :
  probe3_ok p now -> p3_initialized p = true -> bbr3_model_ok m ->
  let '(p', m') := probe3_enter_refill p m total in
  probe3_ok p' now /\ p3_initialized p' = true /\ bbr3_model_ok m' /\ probe_frame m m' /\
  b3_phase m' = TCP_SHIFT_BBR3_PROBE_BW_REFILL.
Proof. intros (?&?&?&?&?) Hi Hm. cbn. split_and!; try done; cbn; lia. Qed.

Lemma round_start_ok p r now b p' :
  probe3_ok p now -> probe3_round_start p r = (b, p') ->
  probe3_ok p' now /\ p3_initialized p' = p3_initialized p /\
  p3_cycle_stamp_ns p' = p3_cycle_stamp_ns p /\ p3_wait_ns p' = p3_wait_ns p /\
  (b = true <-> rs_delivered_total_bytes r <> 0 /\
                p3_next_round_delivered p <= rs_prior_delivered_bytes r).
Proof.
  intros (?&?&?&?&?). unfold probe3_round_start.
  destruct (_ || _) eqn:E; intros [= <- <-].
  { split_and!; try done; split; [done|lia]. }
  assert (E2 : true = true <-> rs_delivered_total_bytes r <> 0 /\
    p3_next_round_delivered p <= rs_prior_delivered_bytes r) by (split; [lia|done]).
  cbn. destruct (_ <? UINT32_MAX) eqn:E1; (split; [|done]).
  - unfold probe3_ok. cbn. rewrite u32_small by lia. lia.
  - unfold probe3_ok. cbn. lia.
Qed.

Lemma time_to_probe_ok p m a now :
  probe3_ok p now -> p3_initialized p = true -> bbr3_model_ok m ->
  let '(b, p', m') := probe3_time_to_probe p m a in
  probe3_ok p' now /\ p3_initialized p' = true /\ bbr3_model_ok m' /\ probe_frame m m' /\
  b3_phase m' = (if b then TCP_SHIFT_BBR3_PROBE_BW_REFILL else b3_phase m) /\
  (p3_cycle_stamp_ns p + p3_wait_ns p < pa_now_ns a <= UINT64_MAX -> b = true).
Proof.
  intros Hp Hi Hm. unfold probe3_time_to_probe.
  pose proof (enter_refill_ok p m (rs_delivered_total_bytes (pa_rate a)) now Hp Hi Hm) as Hr.
  destruct (_ || _) eqn:E.
  - destruct (probe3_enter_refill _ _ _) as [p1 m1]. destruct Hr as (?&?&?&?&?). done.
  - split_and!; try done. intros Ht. destruct Hp as (?&?&_).
    apply orb_false_iff in E as [E _]. rewrite u64_small in E by lia. lia.
Qed.

Lemma up_plateau_ok p a nr now b p' :
  probe3_ok p now -> probe_ack_wf a -> probe3_up_plateau p a nr = (b, p') ->
  probe3_ok p' now /\ p3_initialized p' = p3_initialized p.
Proof.
  intros (?&?&?&?&?) ((?&_)&_). unfold probe3_up_plateau.
  destruct (_ || _ || _); intros [= <- <-]; [done|].
  destruct (_ || _); [split; [|done]; unfold probe3_ok; cbn; lia|].
  destruct (_ && _) eqn:E; [|done]. split; [|done]. unfold probe3_ok. cbn.
  rewrite u32_small by lia. lia.
Qed.

Lemma up_case_ok p m a nr :
  probe3_ok p (pa_now_ns a) -> p3_initialized p = true -> bbr3_model_ok m -> probe_ack_wf a ->
  b3_phase m = TCP_SHIFT_BBR3_PROBE_BW_UP ->
  let '(p', m') := probe3_up_case p m a nr in
  probe3_ok p' (pa_now_ns a) /\ p3_initialized p' = true /\ bbr3_model_ok m' /\
  probe_frame m m' /\ probe_bw_edge (b3_phase m) (b3_phase m').
Proof.
  intros Hp Hi Hm Ha Eph. unfold probe3_up_case.
  set (p1 := if nr && _ then _ else p).
  assert (H1 : probe3_ok p1 (pa_now_ns a) /\ p3_initialized p1 = true)
    by (unfold p1; by destruct (_ && _)).
  clearbody p1. clear p Hp Hi. destruct H1 as [Hp Hi]. pose proof Ha as ((?&_)&?&_).
  assert (Hdown : forall q, probe3_ok q (pa_now_ns a) -> p3_initialized q = true ->
    let '(p', m') := probe3_enter_down q m (pa_now_ns a) (rs_delivered_total_bytes (pa_rate a)) in
    probe3_ok p' (pa_now_ns a) /\ p3_initialized p' = true /\ bbr3_model_ok m' /\
    probe_frame m m' /\ probe_bw_edge (b3_phase m) (b3_phase m')).
  { intros q (?&?&?&?&?) Hq. pose proof (enter_down_ok q m (pa_now_ns a)
      (rs_delivered_total_bytes (pa_rate a)) ltac:(lia) ltac:(lia) ltac:(lia)) as Hd.
    destruct (probe3_enter_down _ _ _ _) as [p' m']. destruct Hd as (?&->&->).
    rewrite Eph. split_and!; try done. constructor. }
  destruct (pa_qualified_loss_too_high a); [by apply Hdown|].
  destruct (_ && _ && _); [by apply Hdown|].
  destruct (_ && _ && _).
  { destruct Hp as (?&?&?&?&?). rewrite Eph. split_and!; try done; cbn; try lia. by constructor. }
  destruct (probe3_up_plateau p1 a nr) as [b p2] eqn:E.
  destruct (up_plateau_ok p1 a nr _ b p2 Hp Ha E) as [H2 Hi2]. rewrite Hi in Hi2.
  destruct b; [by apply Hdown|]. rewrite Eph. split_and!; try done. by constructor.
Qed.

Lemma stopping_round_ok p m a nr rc p' m' ret :
  probe3_ok p (pa_now_ns a) -> p3_initialized p = true -> bbr3_model_ok m ->
  in_probe_bw (b3_phase m) = true ->
  probe3_stopping_round p m a nr = (rc, p', m', ret) ->
  probe3_ok p' (pa_now_ns a) /\ p3_initialized p' = true /\ bbr3_model_ok m' /\
  probe_frame m m' /\ probe_bw_edge (b3_phase m) (b3_phase m') /\
  (if ret then b3_cycle_count m <> UINT32_MAX -> b3_phase m' = TCP_SHIFT_BBR3_PROBE_BW_REFILL
   else b3_phase m' = b3_phase m /\ p3_cycle_stamp_ns p' = p3_cycle_stamp_ns p /\
        p3_wait_ns p' = p3_wait_ns p).
Proof.
  intros Hp Hi Hm Hpb. unfold probe3_stopping_round.
  destruct (_ && _ && _) eqn:E0; [|intros [= <- <- <- <-]; split_and!; try done; by constructor].
  apply andb_true_iff in E0 as [E0 _]. apply andb_true_iff in E0 as [E0 _].
  apply bool_decide_eq_true in E0. set (p1 := p <| p3_ack_phase := _ |>).
  assert (H1 : probe3_ok p1 (pa_now_ns a)) by done.
  set (adv := if _ && _ && _ then _ else _). destruct adv as [rc1 m1] eqn:Ea.
  assert (Hadv : bbr3_model_ok m1 /\ b3_phase m1 = b3_phase m /\ probe_frame m m1 /\
    (b3_cycle_count m <> UINT32_MAX -> rc1 = 0)).
  { unfold adv in Ea. destruct (_ && _ && _).
    - destruct (bbr3_advance_bw_cycle_ok m rc1 m1 Hm Ea) as (?&?&?&?&?&?&?&Hrc).
      split_and!; try done. tauto.
    - injection Ea as <- <-. done. }
  clear Ea adv. destruct Hadv as (Hm1 & Eph & Hf1 & Hc).
  destruct (rc1 =? 0) eqn:Erc; cbn [negb].
  2: { intros [= <- <- <- <-]. split_and!; try done; [rewrite Eph; by constructor|lia]. }
  destruct (_ && _).
  - match goal with |- context [probe3_enter_refill ?q m1 ?t] =>
      pose proof (enter_refill_ok q m1 t (pa_now_ns a) H1 Hi Hm1) as Hr end.
    destruct (probe3_enter_refill _ _ _) as [p2 m2]. intros [= <- <- <- <-].
    destruct Hr as (?&?&?&Hf2&->). rewrite E0. split; [done|]. split; [done|]. split; [done|].
    split; [by etransitivity|]. split; [constructor|done].
  - intros [= <- <- <- <-]. split_and!; try done. rewrite Eph. by constructor.
Qed.

(** Close the conjuncts of the step that are hypotheses, composing frames. *)
Ltac probe_step := repeat (split; [done || (by etransitivity)|]).

(** The whole ProbeBW step of an ACK: the invariant, the edge taken, and the
    two guards that matter: UP is entered only after a round of refilled data,
    and the wait of DOWN and CRUISE always ends. *)
Lemma probe3_on_ack_ok p m a rc p' m' last :
  probe3_ok p last -> last <= pa_now_ns a -> p3_initialized p = true -> bbr3_model_ok m ->
  probe_ack_wf a -> in_probe_bw (b3_phase m) = true -> b3_full_bw_reached m = true ->
  tcp_shift_bbr3_probe_on_ack p m a = (rc, p', m') ->
  probe3_ok p' (pa_now_ns a) /\ p3_initialized p' = true /\ bbr3_model_ok m' /\
  probe_frame m m' /\ probe_bw_edge (b3_phase m) (b3_phase m') /\
  (b3_phase m = TCP_SHIFT_BBR3_PROBE_BW_REFILL -> b3_phase m' = TCP_SHIFT_BBR3_PROBE_BW_UP ->
   p3_next_round_delivered p <= rs_prior_delivered_bytes (pa_rate a)) /\
  ((b3_phase m = TCP_SHIFT_BBR3_PROBE_BW_DOWN \/ b3_phase m = TCP_SHIFT_BBR3_PROBE_BW_CRUISE) ->
   rs_prior_delivered_bytes (pa_rate a) < rs_delivered_total_bytes (pa_rate a) ->
   b3_cycle_count m <> UINT32_MAX ->
   p3_cycle_stamp_ns p + p3_wait_ns p < pa_now_ns a ->
   b3_phase m' = TCP_SHIFT_BBR3_PROBE_BW_REFILL).
Proof.
  intros Hp Hl Hi Hm Ha Hpb Hf. unfold tcp_shift_bbr3_probe_on_ack.
  assert (Hp0 : probe3_ok p (pa_now_ns a)) by (destruct Hp as (?&?&?&?&?); split_and!; lia).
  destruct (probe3_rejects p m a) eqn:Er.
  { intros [= <- <- <-]. unfold probe3_rejects in Er. rewrite Hi, Hf, Hpb in Er. cbn [negb] in Er.
    destruct Hp as (?&_), Ha as (_&?&?&?&?&?).
    repeat (split; [done|]). split; [by constructor|]. split; [intros; congruence|lia]. }
  destruct (_ =? rs_prior_delivered_bytes _) eqn:Eq.
  { intros [= <- <- <-]. repeat (split; [done|]).
    split; [by constructor|]. split; [intros; congruence|lia]. }
  destruct (probe3_round_start p (pa_rate a)) as [nr p1] eqn:E1.
  destruct (round_start_ok p (pa_rate a) _ nr p1 Hp0 E1) as (Hp1 & Hi1 & Ec1 & Ew1 & Hnr).
  rewrite Hi in Hi1.
  destruct (probe3_stopping_round p1 m a nr) as [[[rc2 p2] m2] ret] eqn:E2.
  destruct (stopping_round_ok p1 m a nr rc2 p2 m2 ret Hp1 Hi1 Hm Hpb E2)
    as (Hp2 & Hi2 & Hm2 & Hf2 & Hedge & Hret).
  destruct ret.
  { intros [= <- <- <-]. split_and!; try done; [|auto].
    intros Eph Eup. rewrite Eph, Eup in Hedge. exfalso.
    revert E2. unfold probe3_stopping_round. rewrite Eph, bool_decide_eq_false_2 by done. cbn. congruence. }
  destruct Hret as (Eph & Ec2 & Ew2). pose proof Ha as (_ & Hn & _). unfold probe3_switch.
  pose proof (time_to_probe_ok p2 m2 a _ Hp2 Hi2 Hm2) as Ht.
  pose proof (up_case_ok p2 m2 a nr Hp2 Hi2 Hm2 Ha) as Hup.
  rewrite <- Eph in Hpb, Hedge |- *. clear E1 E2 Hp Hp0 Hl Er.
  destruct (b3_phase m2) eqn:Ephase; try discriminate Hpb.
  - destruct (probe3_time_to_probe p2 m2 a) as [[b p3] m3].
    destruct Ht as (?&?&?&?&Eb&Hb). intros [= <- <- <-]. rewrite Ec2, Ew2, Ec1, Ew1 in Hb.
    destruct b; cbn [negb andb].
    + rewrite Eb. probe_step. split; [constructor|done].
    + assert (Hnot : p3_cycle_stamp_ns p + p3_wait_ns p < pa_now_ns a -> False)
        by (intros; discriminate Hb; lia).
      destruct (probe3_time_to_cruise m3 a); cbn.
      * probe_step. split; [constructor|]. split; [done|].
        intros _ _ _ Hw. by destruct (Hnot Hw).
      * rewrite Eb. probe_step.
        intros _ _ _ Hw. by destruct (Hnot Hw).
  - destruct (probe3_time_to_probe p2 m2 a) as [[b p3] m3].
    destruct Ht as (?&?&?&?&Eb&Hb). intros [= <- <- <-]. rewrite Ec2, Ew2, Ec1, Ew1 in Hb.
    rewrite Eb. probe_step. split; [destruct b; by constructor|]. split; [by destruct b|].
    intros _ _ _ Hw. by rewrite Hb by lia.
  - destruct nr; intros [= <- <- <-].
    + cbn. destruct Hp2 as (?&?&?&?&?), Ha as ((?&_)&_).
      split; [unfold probe3_ok; cbn; lia|]. probe_step.
      split; [constructor|]. split; [intros _ _; by apply Hnr|by intros [|]].
    + rewrite Ephase. probe_step. by intros [|].
  - specialize (Hup eq_refl). destruct (probe3_up_case p2 m2 a nr) as [p3 m3].
    intros [= <- <- <-]. destruct Hup as (?&?&?&?&?). probe_step. by intros [|].
Qed.
