(* ===== verification/Bbr3Controller.v ===== *)
(** * The BBRv3 controller ([src/cc/bbr3_controller.h], [src/cc/bbr3_controller.c])

    ACK aggregation, the inflight target, ProbeRTT, the phase transitions and
    the published policy, composed from the model, the ProbeBW scheduler and
    the congestion response. *)

From Stdlib Require Import ZArith Lia Bool List.
From stdpp Require Import base tactics numbers list.
From S2P Require Import Prelude CC Bbr3Model Bbr3Congestion Bbr3Probe.
Local Open Scope Z_scope.

Abbreviation TCP_SHIFT_BBR3_EXTRA_ACKED_ROUNDS := 10.
Abbreviation TCP_SHIFT_BBR3_PROBE_RTT_DURATION_NS := 200000000.
Abbreviation TCP_SHIFT_BBR3_PACING_MARGIN_NUM := 99.
Abbreviation TCP_SHIFT_BBR3_NS_PER_SECOND := 1000000000.

Record tcp_shift_bbr3_controller_ack := mk_ctl3_ack {
  a3_rate : tcp_shift_cc_rate_sample;
  a3_now_ns : Z;
  a3_lost_bytes : Z;
  a3_ce_bytes : Z;
  a3_tx_inflight_bytes : Z;
  a3_acked_bytes : Z;
  a3_inflight_bytes : Z;
  a3_validated_loss : bool;
  a3_ecn_eligible : bool;
  a3_loss_round_end : bool;
  a3_probe_sample : bool;
  a3_cwnd_limited : bool;
  a3_idle_restart : bool
}.

Record tcp_shift_bbr3_controller_policy := mk_ctl3_policy {
  pol3_pacing_rate_bytes_per_sec : Z;
  pol3_max_inflight_bytes : Z;
  pol3_extra_acked_bytes : Z;
  pol3_cwnd_bytes : Z;
  pol3_send_quantum_bytes : Z;
  pol3_mark_app_limited : bool;
  pol3_phase : tcp_shift_bbr3_phase
}.

Record tcp_shift_bbr3_controller := mk_ctl3 {
  c3_model : tcp_shift_bbr3_model;
  c3_probe : tcp_shift_bbr3_probe;
  c3_congestion : tcp_shift_bbr3_congestion;
  c3_extra_acked_values : list Z;
  c3_extra_acked_rounds : list Z;
  c3_extra_acked_interval_stamp_ns : Z;
  c3_extra_acked_delivered_bytes : Z;
  c3_extra_acked_bytes : Z;
  c3_probe_rtt_done_stamp_ns : Z;
  c3_probe_rtt_round_delivered : Z;
  c3_pacing_rate_bytes_per_sec : Z;
  c3_initial_cwnd_bytes : Z;
  c3_cwnd_bytes : Z;
  c3_prior_cwnd_bytes : Z;
  c3_mss_bytes : Z;
  c3_flow_seed : Z;
  c3_drain_start_round : Z;
  c3_probe_rtt_round_done : bool;
  c3_probe_rtt_started : bool
}.
#[export] Instance eta_ctl3 : Eta tcp_shift_bbr3_controller := fun r =>
  mk_ctl3 (c3_model r) (c3_probe r) (c3_congestion r) (c3_extra_acked_values r)
    (c3_extra_acked_rounds r) (c3_extra_acked_interval_stamp_ns r)
    (c3_extra_acked_delivered_bytes r) (c3_extra_acked_bytes r)
    (c3_probe_rtt_done_stamp_ns r) (c3_probe_rtt_round_delivered r)
    (c3_pacing_rate_bytes_per_sec r) (c3_initial_cwnd_bytes r) (c3_cwnd_bytes r)
    (c3_prior_cwnd_bytes r) (c3_mss_bytes r) (c3_flow_seed r)
    (c3_drain_start_round r) (c3_probe_rtt_round_done r) (c3_probe_rtt_started r).

(** ** Arithmetic (the static helpers of [bbr3_controller.c]) *)

Definition ctl3_min64 (a b : Z) : Z := if a <? b then a else b.
Definition ctl3_max64 (a b : Z) : Z := if a >? b then a else b.
Definition ctl3_add64 (a b : Z) : Z :=
  if UINT64_MAX -w64 a <? b then UINT64_MAX else a +w64 b.
Definition ctl3_mul64 (a b : Z) : Z :=
  if negb (b =? 0) && (a >? UINT64_MAX / b) then UINT64_MAX else a *w64 b.
Definition ctl3_cap32 (v : Z) : Z := if v >? UINT32_MAX then UINT32_MAX else u32 v.

Definition ctl3_bdp (bw rtt : Z) : Z :=
  let seconds := rtt / TCP_SHIFT_BBR3_NS_PER_SECOND in
  let nanos := rtt mod TCP_SHIFT_BBR3_NS_PER_SECOND in
  let whole := ctl3_mul64 bw seconds in
  let partial := ctl3_mul64 (bw / TCP_SHIFT_BBR3_NS_PER_SECOND) nanos in
  let cross := (bw mod TCP_SHIFT_BBR3_NS_PER_SECOND) *w64 nanos in
  ctl3_add64 (ctl3_add64 whole partial) (cross / TCP_SHIFT_BBR3_NS_PER_SECOND).

(** ** Operations *)

(** The probe scheduler's memory is not written except for [initialized]. *)
Definition tcp_shift_bbr3_controller_init (s : tcp_shift_bbr3_controller)
    (initial_cwnd_bytes mss_bytes flow_seed now_ns : Z) : Z * tcp_shift_bbr3_controller :=
  if (mss_bytes =? 0) || (flow_seed =? 0) || (now_ns =? 0) ||
     (mss_bytes >? UINT32_MAX / 4) || (initial_cwnd_bytes <? 4 *w64 mss_bytes)
  then (-1, s)
  else
    let initial_rate := ctl3_mul64 initial_cwnd_bytes 1000 in
    (0, mk_ctl3 tcp_shift_bbr3_model_init (c3_probe s <| p3_initialized := false |>)
          tcp_shift_bbr3_congestion_init (replicate 10 0) (replicate 10 0)
          now_ns 0 0 0 0 (tcp_shift_bbr3_scale initial_rate (mk_gain 277 100))
          initial_cwnd_bytes initial_cwnd_bytes 0 mss_bytes flow_seed 0 false false).

(** [for (i = 0; i < EXTRA_ACKED_ROUNDS; i++)] over the two arrays. *)
Fixpoint ctl3_extra_acked_max (round len : Z) (rounds values : list Z) (acc : Z) : Z :=
  match rounds, values with
  | r :: rounds', v :: values' =>
      let acc := if (round >=? r) && (round -w32 r <? len) then ctl3_max64 acc v else acc in
      ctl3_extra_acked_max round len rounds' values' acc
  | _, _ => acc
  end.

(** [bw]: the rate cap of the controller's phase. *)
Definition ctl3_rate_cap (s : tcp_shift_bbr3_controller) : Z :=
  tcp_shift_bbr3_congestion_rate_cap (c3_congestion s) (b3_phase (c3_model s))
    (b3_max_bw_bytes_per_sec (c3_model s)).

Definition ctl3_update_ack_aggregation (s : tcp_shift_bbr3_controller)
    (a : tcp_shift_bbr3_controller_ack) : tcp_shift_bbr3_controller :=
  let round := b3_round_count (c3_model s) in
  let bw := ctl3_rate_cap s in
  let expected := ctl3_bdp bw (a3_now_ns a -w64 c3_extra_acked_interval_stamp_ns s) in
  let '(expected, s) :=
    if c3_extra_acked_delivered_bytes s <=? expected
    then (0, s <| c3_extra_acked_delivered_bytes := 0 |>
               <| c3_extra_acked_interval_stamp_ns := a3_now_ns a |>)
    else (expected, s) in
  let s := s <| c3_extra_acked_delivered_bytes :=
                ctl3_add64 (c3_extra_acked_delivered_bytes s) (a3_acked_bytes a) |> in
  let extra := if c3_extra_acked_delivered_bytes s >? expected
               then c3_extra_acked_delivered_bytes s -w64 expected else 0 in
  let extra := ctl3_min64 extra (c3_cwnd_bytes s) in
  let index := Z.to_nat (round mod TCP_SHIFT_BBR3_EXTRA_ACKED_ROUNDS) in
  let '(rounds, values) :=
    if negb (c3_extra_acked_rounds s !!! index =? round)
    then (<[index := round]> (c3_extra_acked_rounds s),
          <[index := 0]> (c3_extra_acked_values s))
    else (c3_extra_acked_rounds s, c3_extra_acked_values s) in
  let values := <[index := ctl3_max64 (values !!! index) extra]> values in
  let len := if b3_full_bw_reached (c3_model s)
             then TCP_SHIFT_BBR3_EXTRA_ACKED_ROUNDS else 1 in
  s <| c3_extra_acked_rounds := rounds |>
    <| c3_extra_acked_values := values |>
    <| c3_extra_acked_bytes := ctl3_extra_acked_max round len rounds values 0 |>.

Definition ctl3_model_inflight (s : tcp_shift_bbr3_controller) : Z :=
  let bw := ctl3_rate_cap s in
  if negb (b3_has_min_rtt (c3_model s)) || (bw =? 0) then c3_initial_cwnd_bytes s
  else
    let base := ctl3_bdp bw (b3_min_rtt_ns (c3_model s)) in
    let inflight := tcp_shift_bbr3_scale base
                      (tcp_shift_bbr3_cwnd_gain (b3_phase (c3_model s))) in
    let inflight := ctl3_add64 inflight (c3_extra_acked_bytes s) in
    let inflight := ctl3_max64 inflight (c3_mss_bytes s *w64 4) in
    if bool_decide (b3_phase (c3_model s) = TCP_SHIFT_BBR3_PROBE_BW_UP)
    then ctl3_add64 inflight (c3_mss_bytes s *w64 2) else inflight.

Definition ctl3_probe_rtt_target (s : tcp_shift_bbr3_controller) : Z :=
  let b := ctl3_bdp (b3_max_bw_bytes_per_sec (c3_model s)) (b3_min_rtt_ns (c3_model s)) in
  let half := b / 2 in
  ctl3_max64 half (c3_mss_bytes s *w64 4).

(** The entry to ProbeRTT. *)
Definition ctl3_probe_rtt_enter (s : tcp_shift_bbr3_controller)
    (a : tcp_shift_bbr3_controller_ack) : tcp_shift_bbr3_controller :=
  if bool_decide (b3_phase (c3_model s) <> TCP_SHIFT_BBR3_PROBE_RTT) &&
     b3_probe_rtt_expired (c3_model s) && negb (a3_idle_restart a) &&
     b3_has_min_rtt (c3_model s)
  then s <| c3_prior_cwnd_bytes := c3_cwnd_bytes s |>
         <| c3_model := c3_model s <| b3_phase := TCP_SHIFT_BBR3_PROBE_RTT |> |>
         <| c3_probe_rtt_started := true |>
         <| c3_probe_rtt_round_done := false |>
         <| c3_probe_rtt_done_stamp_ns := 0 |>
         <| c3_probe_rtt_round_delivered := rs_delivered_total_bytes (a3_rate a) |>
  else s.

(** The exit from ProbeRTT: the last twenty lines of [update_probe_rtt]. *)
Definition ctl3_probe_rtt_exit (s : tcp_shift_bbr3_controller)
    (a : tcp_shift_bbr3_controller_ack) : tcp_shift_bbr3_controller :=
  let s := s <| c3_model := c3_model s <| b3_probe_rtt_min_stamp_ns := a3_now_ns a |>
                                       <| b3_probe_rtt_expired := false |> |>
             <| c3_probe_rtt_started := false |>
             <| c3_congestion := tcp_shift_bbr3_congestion_reset_shortterm (c3_congestion s) |>
             <| c3_cwnd_bytes := u32 (ctl3_max64 (c3_cwnd_bytes s) (c3_prior_cwnd_bytes s)) |> in
  if b3_full_bw_reached (c3_model s) then
    let '(rc, probe, model) :=
      tcp_shift_bbr3_probe_enter (c3_probe s <| p3_initialized := false |>) (c3_model s)
        (a3_now_ns a) (rs_delivered_total_bytes (a3_rate a)) (c3_flow_seed s) in
    s <| c3_probe := probe |>
      <| c3_model := if rc =? 0
                     then model <| b3_phase := TCP_SHIFT_BBR3_PROBE_BW_CRUISE |>
                     else model |>
  else s <| c3_model := c3_model s <| b3_phase := TCP_SHIFT_BBR3_STARTUP |> |>.

Definition ctl3_update_probe_rtt (s : tcp_shift_bbr3_controller)
    (a : tcp_shift_bbr3_controller_ack) : tcp_shift_bbr3_controller :=
  let s := ctl3_probe_rtt_enter s a in
  if bool_decide (b3_phase (c3_model s) <> TCP_SHIFT_BBR3_PROBE_RTT) then s
  else if c3_probe_rtt_done_stamp_ns s =? 0 then
    if a3_inflight_bytes a <=? ctl3_probe_rtt_target s
    then s <| c3_probe_rtt_done_stamp_ns :=
              ctl3_add64 (a3_now_ns a) TCP_SHIFT_BBR3_PROBE_RTT_DURATION_NS |>
           <| c3_probe_rtt_round_delivered := rs_delivered_total_bytes (a3_rate a) |>
           <| c3_probe_rtt_round_done := false |>
    else s
  else
    let s :=
      if (rs_prior_delivered_bytes (a3_rate a) >=? c3_probe_rtt_round_delivered s) &&
         (rs_delivered_total_bytes (a3_rate a) >? rs_prior_delivered_bytes (a3_rate a))
      then s <| c3_probe_rtt_round_done := true |> else s in
    if negb (c3_probe_rtt_round_done s) || (a3_now_ns a <=? c3_probe_rtt_done_stamp_ns s)
    then s
    else ctl3_probe_rtt_exit s a.

(** STARTUP to DRAIN. *)
Definition ctl3_startup_to_drain (s : tcp_shift_bbr3_controller) : tcp_shift_bbr3_controller :=
  if bool_decide (b3_phase (c3_model s) = TCP_SHIFT_BBR3_STARTUP) &&
     b3_full_bw_reached (c3_model s)
  then s <| c3_model := c3_model s <| b3_phase := TCP_SHIFT_BBR3_DRAIN |> |>
         <| c3_drain_start_round := b3_round_count (c3_model s) |>
  else s.

(** DRAIN to ProbeBW. *)
Definition ctl3_drain_to_probe (s : tcp_shift_bbr3_controller)
    (a : tcp_shift_bbr3_controller_ack) : tcp_shift_bbr3_controller :=
  if bool_decide (b3_phase (c3_model s) = TCP_SHIFT_BBR3_DRAIN) then
    let target := ctl3_bdp (b3_max_bw_bytes_per_sec (c3_model s))
                    (b3_min_rtt_ns (c3_model s)) in
    if b3_has_min_rtt (c3_model s) &&
       ((a3_inflight_bytes a <=? target) ||
        (b3_round_count (c3_model s) >? c3_drain_start_round s +w32 3))
    then
      let '(_, probe, model) :=
        tcp_shift_bbr3_probe_enter (c3_probe s) (c3_model s) (a3_now_ns a)
          (rs_delivered_total_bytes (a3_rate a)) (c3_flow_seed s) in
      s <| c3_probe := probe |> <| c3_model := model |>
    else s
  else s.

(** The ProbeBW machine, run when the ACK arrived in ProbeBW. *)
Definition ctl3_probe_bw (s : tcp_shift_bbr3_controller) (a : tcp_shift_bbr3_controller_ack)
    (was : tcp_shift_bbr3_phase) (signal : Z) : tcp_shift_bbr3_controller :=
  if in_probe_bw was then
    let probe_ack := mk_probe_ack (a3_rate a) (a3_now_ns a)
      (cg_inflight_longterm_bytes (c3_congestion s)) (a3_inflight_bytes a)
      (c3_cwnd_bytes s) (c3_mss_bytes s) (a3_cwnd_limited a) (negb (signal =? 0)) in
    let '(_, probe, model) := tcp_shift_bbr3_probe_on_ack (c3_probe s) (c3_model s) probe_ack in
    let s := s <| c3_probe := probe |> <| c3_model := model |> in
    if bool_decide (was <> TCP_SHIFT_BBR3_PROBE_BW_REFILL) &&
       bool_decide (b3_phase (c3_model s) = TCP_SHIFT_BBR3_PROBE_BW_REFILL)
    then s <| c3_congestion := tcp_shift_bbr3_congestion_begin_probe (c3_congestion s) |>
    else s
  else s.

Definition ctl3_advance_phase (s : tcp_shift_bbr3_controller)
    (a : tcp_shift_bbr3_controller_ack) (signal : Z) : tcp_shift_bbr3_controller :=
  let was := b3_phase (c3_model s) in
  let s := ctl3_startup_to_drain s in
  let s := ctl3_drain_to_probe s a in
  let s := ctl3_probe_bw s a was signal in
  ctl3_update_probe_rtt s a.

(** The pacing rate of [update_policy]. *)
Definition ctl3_pacing_rate (s : tcp_shift_bbr3_controller) : Z :=
  let bw := ctl3_rate_cap s in
  let desired := tcp_shift_bbr3_scale bw (tcp_shift_bbr3_pacing_gain (b3_phase (c3_model s))) in
  let desired := tcp_shift_bbr3_scale desired (mk_gain TCP_SHIFT_BBR3_PACING_MARGIN_NUM 100) in
  if negb (desired =? 0) &&
     (b3_full_bw_reached (c3_model s) || (desired >? c3_pacing_rate_bytes_per_sec s))
  then desired else c3_pacing_rate_bytes_per_sec s.

(** The window of [update_policy]. *)
Definition ctl3_next_cwnd (s : tcp_shift_bbr3_controller) (a : tcp_shift_bbr3_controller_ack)
    (inflight : Z) : Z :=
  let cwnd :=
    if b3_full_bw_reached (c3_model s) then
      ctl3_min64 (ctl3_add64 (c3_cwnd_bytes s) (a3_acked_bytes a)) inflight
    else if (c3_cwnd_bytes s <? inflight) ||
            (rs_delivered_total_bytes (a3_rate a) <? c3_initial_cwnd_bytes s)
    then ctl3_add64 (c3_cwnd_bytes s) (a3_acked_bytes a)
    else c3_cwnd_bytes s in
  let cwnd := ctl3_max64 cwnd (c3_mss_bytes s *w64 4) in
  let cwnd := if bool_decide (b3_phase (c3_model s) = TCP_SHIFT_BBR3_PROBE_RTT)
              then ctl3_min64 cwnd (ctl3_probe_rtt_target s) else cwnd in
  let bound := tcp_shift_bbr3_congestion_cwnd_cap (c3_congestion s)
                 (b3_phase (c3_model s)) (c3_mss_bytes s) in
  let cwnd := ctl3_min64 cwnd bound in
  ctl3_cap32 (ctl3_max64 cwnd (c3_mss_bytes s *w64 4)).

(** Every field of the policy is written. *)
Definition ctl3_update_policy (s : tcp_shift_bbr3_controller)
    (a : tcp_shift_bbr3_controller_ack)
    : tcp_shift_bbr3_controller * tcp_shift_bbr3_controller_policy :=
  let inflight := ctl3_model_inflight s in
  let s := s <| c3_pacing_rate_bytes_per_sec := ctl3_pacing_rate s |> in
  let s := s <| c3_cwnd_bytes := ctl3_next_cwnd s a inflight |> in
  let quantum := c3_pacing_rate_bytes_per_sec s / 1000 in
  let quantum := ctl3_min64 quantum 65536 in
  let quantum := ctl3_max64 quantum (c3_mss_bytes s *w64 2) in
  (s, mk_ctl3_policy (c3_pacing_rate_bytes_per_sec s) inflight (c3_extra_acked_bytes s)
        (c3_cwnd_bytes s) (ctl3_cap32 quantum)
        (bool_decide (b3_phase (c3_model s) = TCP_SHIFT_BBR3_PROBE_RTT))
        (b3_phase (c3_model s))).

(** The validation of [on_ack]. *)
Definition ctl3_rejects (s : tcp_shift_bbr3_controller) (a : tcp_shift_bbr3_controller_ack)
    : bool :=
  (a3_now_ns a =? 0) || (a3_now_ns a <? c3_extra_acked_interval_stamp_ns s) ||
  (a3_now_ns a <? b3_last_update_ns (c3_model s)) ||
  (negb (a3_lost_bytes a =? 0) && negb (a3_validated_loss a)) ||
  (negb (a3_ce_bytes a =? 0) && negb (a3_ecn_eligible a)) ||
  (a3_ce_bytes a >? a3_acked_bytes a) ||
  (rs_prior_delivered_bytes (a3_rate a) >? rs_delivered_total_bytes (a3_rate a)) ||
  negb (has_flag (a3_rate a) TCP_SHIFT_CC_RATE_SAMPLE_VALID).

(** [struct tcp_shift_bbr3_congestion_ack c], filled in after the model has
    seen the ACK; [phase] is the phase before it. *)
Definition ctl3_congestion_ack (s : tcp_shift_bbr3_controller)
    (a : tcp_shift_bbr3_controller_ack) (phase : tcp_shift_bbr3_phase)
    : tcp_shift_bbr3_congestion_ack :=
  mk_cong_ack (rs_delivery_rate_bytes_per_sec (a3_rate a))
    (b3_max_bw_bytes_per_sec (c3_model s)) (a3_acked_bytes a)
    (rs_delivered_bytes (a3_rate a)) (a3_lost_bytes a) (a3_ce_bytes a)
    (a3_tx_inflight_bytes a) (c3_cwnd_bytes s) (ctl3_model_inflight s) (a3_acked_bytes a)
    (c3_mss_bytes s) true (has_flag (a3_rate a) TCP_SHIFT_CC_RATE_SAMPLE_APP_LIMITED)
    (a3_ecn_eligible a)
    (bool_decide (phase = TCP_SHIFT_BBR3_STARTUP) ||
     bool_decide (phase = TCP_SHIFT_BBR3_PROBE_BW_REFILL) ||
     bool_decide (phase = TCP_SHIFT_BBR3_PROBE_BW_UP))
    (a3_probe_sample a) (bool_decide (phase = TCP_SHIFT_BBR3_PROBE_BW_UP))
    (a3_cwnd_limited a) (a3_loss_round_end a) (b3_round_start (c3_model s)).

Definition tcp_shift_bbr3_controller_on_ack (s : tcp_shift_bbr3_controller)
    (a : tcp_shift_bbr3_controller_ack) (p : tcp_shift_bbr3_controller_policy)
    : Z * tcp_shift_bbr3_controller * tcp_shift_bbr3_controller_policy :=
  if ctl3_rejects s a then (-1, s, p)
  else
    let phase := b3_phase (c3_model s) in
    let '(rc, model) := tcp_shift_bbr3_model_on_ack (c3_model s) (a3_rate a) (a3_now_ns a) in
    let s := s <| c3_model := model |> in
    if negb (rc =? 0) then (-1, s, p)
    else
      let '(signal, cong) :=
        tcp_shift_bbr3_congestion_on_ack (c3_congestion s) (ctl3_congestion_ack s a phase) in
      let s := s <| c3_congestion := cong |> in
      if signal <? 0 then (-1, s, p)
      else
        let s := ctl3_update_ack_aggregation s a in
        let s := ctl3_advance_phase s a signal in
        let '(s, p) := ctl3_update_policy s a in
        (0, s, p).
