(* ===== verification/Bbr3Machine.v ===== *)
(** * The BBRv3 controller as a state machine

    The arithmetic of the controller against unbounded integers, the invariant
    of its reachable states, and what an ACK does in any of them: it is
    accepted exactly when its input is valid, publishes a usable policy, and
    moves along the edges of the phase graph. *)

From Stdlib Require Import ZArith Lia Bool List.
From stdpp Require Import base tactics numbers list relations.
From S2P Require Import Prelude CC Bbr3Model Bbr3Congestion Bbr3Probe Bbr3Controller.
Local Open Scope Z_scope.

(** ** Arithmetic *)

Lemma ctl3_min_spec a b : ctl3_min64 a b = Z.min a b.
Proof. unfold ctl3_min64. case_match; lia. Qed.

Lemma ctl3_max_spec a b : ctl3_max64 a b = Z.max a b.
Proof. unfold ctl3_max64. case_match; lia. Qed.

Lemma ctl3_add_spec a b :
  in_u64 a -> in_u64 b -> ctl3_add64 a b = Z.min UINT64_MAX (a + b).
Proof. apply sat_add_u64_lt. Qed.

Lemma ctl3_mul_spec a b :
  in_u64 a -> in_u64 b -> ctl3_mul64 a b = Z.min UINT64_MAX (a * b).
Proof.
  intros Ha Hb. unfold ctl3_mul64. destruct (b =? 0) eqn:E; cbn [negb andb].
  { assert (b = 0) as -> by lia. rewrite Z.mul_0_r. reflexivity. }
  rewrite Z.gtb_ltb, div_ltb_mul by lia. case_match; [lia|]. rewrite u64_small by nia. lia.
Qed.

Lemma ctl3_cap32_spec v : 0 <= v -> ctl3_cap32 v = Z.min UINT32_MAX v.
Proof. intros Hv. unfold ctl3_cap32. case_match; [|rewrite u32_small by lia]; lia. Qed.

Lemma ctl3_bdp_spec bw rtt :
  in_u64 bw -> in_u64 rtt -> ctl3_bdp bw rtt = Z.min UINT64_MAX (bw * rtt / 1000000000).
Proof.
  intros Hb Hr. unfold ctl3_bdp. cbn zeta.
  destruct (bdp_split_nonneg bw rtt Hb Hr) as (H1 & H2 & H3 & H4 & H5).
  assert (in_u64 (rtt mod 1000000000)) by (pose proof (Z.mod_pos_bound rtt 1000000000); lia).
  rewrite (bdp_split bw rtt), Z.div_add_l by lia.
  rewrite (u64_small (bw mod _ * _)) by lia. set (x := bw mod _ * _) in *. clearbody x.
  assert (0 <= x / 1000000000 <= x) by div_lia.
  rewrite !ctl3_mul_spec, (ctl3_add_spec (Z.min _ _)), ctl3_add_spec by lia. lia.
Qed.

Lemma ctl3_bdp_u64 bw rtt : in_u64 bw -> in_u64 rtt -> in_u64 (ctl3_bdp bw rtt).
Proof.
  intros Hb Hr. rewrite ctl3_bdp_spec by done.
  assert (0 <= bw * rtt / 1000000000) by (apply Z.div_pos; nia). lia.
Qed.

(** ** The invariant *)

Definition ctl3_fixed (s : tcp_shift_bbr3_controller) : Prop :=
  1 <= c3_mss_bytes s <= 1073741823 /\
  4 * c3_mss_bytes s <= c3_initial_cwnd_bytes s <= UINT32_MAX /\
  4 * c3_mss_bytes s <= c3_cwnd_bytes s <= UINT32_MAX /\
  in_u32 (c3_prior_cwnd_bytes s) /\ c3_flow_seed s <> 0 /\
  1 <= c3_pacing_rate_bytes_per_sec s <= UINT64_MAX.

Definition ctl3_extra (s : tcp_shift_bbr3_controller) : Prop :=
  in_u64 (c3_extra_acked_interval_stamp_ns s) /\
  in_u64 (c3_extra_acked_delivered_bytes s) /\ in_u64 (c3_extra_acked_bytes s) /\
  Forall (fun x => in_u64 x) (c3_extra_acked_values s) /\
  in_u64 (c3_probe_rtt_done_stamp_ns s).

(** The facts that justify the phase. STARTUP with a full pipe occurs only
    inside an ACK. *)
Definition ctl3_phase_ok (s : tcp_shift_bbr3_controller) : Prop :=
  match b3_phase (c3_model s) with
  | TCP_SHIFT_BBR3_STARTUP => p3_initialized (c3_probe s) = false
  | TCP_SHIFT_BBR3_DRAIN =>
      b3_full_bw_reached (c3_model s) = true /\ p3_initialized (c3_probe s) = false
  | TCP_SHIFT_BBR3_PROBE_RTT =>
      b3_has_min_rtt (c3_model s) = true /\
      (p3_initialized (c3_probe s) = true -> b3_full_bw_reached (c3_model s) = true)
  | _ => b3_full_bw_reached (c3_model s) = true /\ b3_has_min_rtt (c3_model s) = true /\
         p3_initialized (c3_probe s) = true /\
         probe3_ok (c3_probe s) (b3_last_update_ns (c3_model s))
  end.

Definition ctl3_core (s : tcp_shift_bbr3_controller) : Prop :=
  bbr3_model_ok (c3_model s) /\ cong_ok (c3_congestion s) /\ ctl3_fixed s /\
  ctl3_extra s /\ ctl3_phase_ok s.

Definition ctl3_ok (s : tcp_shift_bbr3_controller) : Prop :=
  ctl3_core s /\
  (b3_phase (c3_model s) = TCP_SHIFT_BBR3_STARTUP -> b3_full_bw_reached (c3_model s) = false).

(** The ranges of the C types of an ACK. *)
Definition ctl3_ack_wf (a : tcp_shift_bbr3_controller_ack) : Prop :=
  rate_sample_wf (a3_rate a) /\ in_u64 (a3_now_ns a) /\ in_u64 (a3_lost_bytes a) /\
  in_u64 (a3_ce_bytes a) /\ in_u64 (a3_tx_inflight_bytes a) /\ in_u32 (a3_acked_bytes a) /\
  in_u32 (a3_inflight_bytes a).

Lemma ctl3_init_ok s icw mss seed now s' :
  in_u32 icw -> in_u32 mss -> in_u32 seed -> in_u64 now ->
  tcp_shift_bbr3_controller_init s icw mss seed now = (0, s') -> ctl3_ok s'.
Proof.
  intros Hi Hm Hs Hn. unfold tcp_shift_bbr3_controller_init.
  destruct (_ || _ || _ || _ || _) eqn:E; [done|]. intros [= <-].
  change (UINT32_MAX / 4) with 1073741823 in E. rewrite u64_small in E by lia.
  split; [|done]. split; [apply bbr3_model_init_ok|]. split; [apply cong_init_ok|].
  split; [|split; [|done]].
  - rewrite ctl3_mul_spec, bbr3_scale_spec by lia. unfold ctl3_fixed. cbn.
    set (x := Z.min _ (icw * 1000)). assert (4000 <= x <= UINT64_MAX) by lia. clearbody x.
    assert (4 <= x * 277 / 100) by div_lia. split_and!; lia.
  - unfold ctl3_extra. cbn. split_and!; try lia. repeat constructor; lia.
Qed.

Lemma ctl3_rate_cap_u64 s : ctl3_core s -> in_u64 (ctl3_rate_cap s).
Proof.
  intros (Hm & Hc & _). unfold ctl3_rate_cap. rewrite rate_cap_spec.
  destruct Hm as ((_&_&?)&_). cong_inv Hc. case_match; lia.
Qed.

Lemma ctl3_gain_ok ph :
  in_u32 (numerator (tcp_shift_bbr3_cwnd_gain ph)) /\
  1 <= denominator (tcp_shift_bbr3_cwnd_gain ph) <= UINT32_MAX /\
  in_u32 (numerator (tcp_shift_bbr3_pacing_gain ph)) /\
  1 <= denominator (tcp_shift_bbr3_pacing_gain ph) <= UINT32_MAX.
Proof. destruct ph; cbn; lia. Qed.

Lemma ctl3_model_inflight_bounds s :
  ctl3_core s -> 4 * c3_mss_bytes s <= ctl3_model_inflight s <= UINT64_MAX.
Proof.
  intros H. pose proof (ctl3_rate_cap_u64 s H) as Hb.
  destruct H as (((_&_&?)&(?&_)&_) & _ & (?&?&?&_) & (?&?&?&_) & _).
  unfold ctl3_model_inflight. cbn zeta. destruct (_ || _); [lia|].
  destruct (ctl3_gain_ok (b3_phase (c3_model s))) as (?&?&_).
  pose proof (ctl3_bdp_u64 (ctl3_rate_cap s) (b3_min_rtt_ns (c3_model s)) Hb ltac:(lia)).
  pose proof (bbr3_scale_u64 _ (tcp_shift_bbr3_cwnd_gain (b3_phase (c3_model s)))
    ltac:(eassumption) ltac:(lia) ltac:(lia)).
  rewrite !ctl3_max_spec, !(u64_small (_ * _)), (ctl3_add_spec (tcp_shift_bbr3_scale _ _)) by lia.
  case_match; [rewrite ctl3_add_spec by lia|]; lia.
Qed.

Lemma ctl3_probe_rtt_target_ge s :
  ctl3_core s -> 4 * c3_mss_bytes s <= ctl3_probe_rtt_target s <= UINT64_MAX.
Proof.
  intros (((_&_&?)&(?&_)&_) & _ & (?&_) & _). unfold ctl3_probe_rtt_target. cbn zeta.
  pose proof (ctl3_bdp_u64 (b3_max_bw_bytes_per_sec (c3_model s)) (b3_min_rtt_ns (c3_model s))
    ltac:(lia) ltac:(lia)).
  rewrite ctl3_max_spec, u64_small by lia. div_lia.
Qed.

(** ** The steps of an ACK *)

(** Two states that differ in the ACK-aggregation fields only. *)
Definition same_but_extra (s s' : tcp_shift_bbr3_controller) : Prop :=
  c3_model s' = c3_model s /\ c3_probe s' = c3_probe s /\
  c3_congestion s' = c3_congestion s /\ c3_initial_cwnd_bytes s' = c3_initial_cwnd_bytes s /\
  c3_cwnd_bytes s' = c3_cwnd_bytes s /\ c3_prior_cwnd_bytes s' = c3_prior_cwnd_bytes s /\
  c3_mss_bytes s' = c3_mss_bytes s /\ c3_flow_seed s' = c3_flow_seed s /\
  c3_pacing_rate_bytes_per_sec s' = c3_pacing_rate_bytes_per_sec s /\
  c3_drain_start_round s' = c3_drain_start_round s /\
  c3_probe_rtt_done_stamp_ns s' = c3_probe_rtt_done_stamp_ns s.

Lemma ctl3_extra_acked_max_u64 round len rs vs acc :
  Forall (fun x => in_u64 x) vs -> in_u64 acc ->
  in_u64 (ctl3_extra_acked_max round len rs vs acc).
Proof.
  revert vs acc. induction rs as [|r rs IH]; intros [|v vs] acc Hv Ha; try exact Ha.
  apply Forall_cons in Hv as [Hx Hv]. cbn. apply IH; [done|].
  rewrite ctl3_max_spec. case_match; lia.
Qed.

Lemma ctl3_aggregation_ok s a :
  ctl3_core s -> ctl3_ack_wf a ->
  ctl3_core (ctl3_update_ack_aggregation s a) /\
  same_but_extra s (ctl3_update_ack_aggregation s a).
Proof.
  intros H (_&Hn&_&_&_&Hk&_). pose proof (ctl3_rate_cap_u64 s H) as Hb.
  destruct H as (Hm & Hc & Hf & (Hst & Hd & He & Hv & Hdone) & Hp).
  unfold ctl3_update_ack_aggregation. cbn zeta.
  set (ex := ctl3_bdp _ _). assert (Hex : in_u64 ex) by (apply ctl3_bdp_u64; auto with word).
  clearbody ex. set (r1 := if _ <=? ex then _ else _).
  assert (H1 : in_u64 r1.1 /\ same_but_extra s r1.2 /\
    in_u64 (c3_extra_acked_interval_stamp_ns r1.2) /\
    in_u64 (c3_extra_acked_delivered_bytes r1.2) /\
    c3_extra_acked_values r1.2 = c3_extra_acked_values s).
  { unfold r1. destruct (_ <=? ex); split_and!; try done; cbn; lia. }
  clearbody r1. destruct r1 as [ex1 s1]. cbn [fst snd] in H1. cbn -[Z.modulo u64 u32].
  destruct H1 as (Hex1 & Hs1 & Hst1 & Hd1 & Ev1).
  rewrite ctl3_add_spec by lia. rewrite !ctl3_min_spec.
  set (extra := Z.min (if _ >? ex1 then _ else 0) _).
  assert (Hextra : in_u64 extra).
  { destruct Hf as (?&_&?&_), Hs1 as (_&_&_&_&E&_). unfold extra. rewrite E.
    word_facts. case_match; lia. }
  clearbody extra. set (rv := if negb _ then _ else _).
  assert (Hrv : Forall (fun x => in_u64 x) rv.2).
  { unfold rv. rewrite Ev1. destruct (negb _); [|done]. apply Forall_insert; [done|lia]. }
  destruct rv as [rounds values]. cbn [snd] in Hrv.
  set (idx := Z.to_nat _). set (vals := <[idx := _]> values).
  assert (Hvals : Forall (fun x => in_u64 x) vals).
  { apply Forall_insert; [done|]. rewrite ctl3_max_spec.
    assert (in_u64 (values !!! idx)); [|lia].
    destruct (values !! idx) as [x|] eqn:Ex.
    - rewrite (list_lookup_total_correct _ _ _ Ex). exact (proj1 (Forall_lookup _ _) Hrv _ _ Ex).
    - rewrite list_lookup_total_alt, Ex. cbn. lia. }
  set (len := if b3_full_bw_reached _ then 10 else 1). clearbody vals len.
  pose proof (ctl3_extra_acked_max_u64 (b3_round_count (c3_model s)) len rounds vals 0 Hvals ltac:(lia)).
  destruct Hs1 as (E1&E2&E3&E4&E5&E6&E7&E8&E9&E10&E11). split.
  - split; [cbn; by rewrite E1|]. split; [cbn; by rewrite E3|].
    split; [unfold ctl3_fixed in *; cbn; by rewrite E4, E5, E6, E7, E8, E9|].
    split; [unfold ctl3_extra; cbn; rewrite E11; split_and!; done || lia|].
    unfold ctl3_phase_ok in *. cbn. by rewrite E1, E2.
  - unfold same_but_extra. cbn. split_and!; done.
Qed.

(** The fields the phase steps leave alone. *)
Definition phase_frame (s s' : tcp_shift_bbr3_controller) : Prop :=
  b3_last_update_ns (c3_model s') = b3_last_update_ns (c3_model s) /\
  b3_full_bw_reached (c3_model s') = b3_full_bw_reached (c3_model s) /\
  b3_has_min_rtt (c3_model s') = b3_has_min_rtt (c3_model s) /\
  c3_mss_bytes s' = c3_mss_bytes s.

#[export] Instance phase_frame_preorder : PreOrder phase_frame.
Proof. split; [done|]. intros x y z (?&?&?&?) (?&?&?&?). split_and!; congruence. Qed.

Lemma startup_to_drain_ok s :
  ctl3_core s ->
  let s' := ctl3_startup_to_drain s in
  ctl3_core s' /\ phase_frame s s' /\ c3_probe s' = c3_probe s /\
  c3_congestion s' = c3_congestion s /\
  c3_probe_rtt_done_stamp_ns s' = c3_probe_rtt_done_stamp_ns s /\
  b3_phase (c3_model s') =
    match b3_phase (c3_model s) with
    | TCP_SHIFT_BBR3_STARTUP => if b3_full_bw_reached (c3_model s) then TCP_SHIFT_BBR3_DRAIN
                                else TCP_SHIFT_BBR3_STARTUP
    | ph => ph
    end.
Proof.
  intros H. cbn zeta. unfold ctl3_startup_to_drain. destruct (bool_decide _ && _) eqn:E.
  - apply andb_true_iff in E as [E Ef]. apply bool_decide_eq_true in E.
    destruct H as (?&?&?&?&Hp). unfold ctl3_phase_ok in Hp. rewrite E in Hp |- *. rewrite Ef.
    split; [|done]. split_and!; done.
  - repeat (split; [done|]). destruct (b3_phase (c3_model s)) eqn:Ep; try done.
    rewrite bool_decide_eq_true_2 in E by done. cbn in E. by rewrite E.
Qed.

Lemma drain_to_probe_ok s a :
  ctl3_core s -> 1 <= a3_now_ns a -> b3_last_update_ns (c3_model s) = a3_now_ns a ->
  let s' := ctl3_drain_to_probe s a in
  ctl3_core s' /\ phase_frame s s' /\ c3_congestion s' = c3_congestion s /\
  c3_probe_rtt_done_stamp_ns s' = c3_probe_rtt_done_stamp_ns s /\
  (b3_phase (c3_model s) <> TCP_SHIFT_BBR3_DRAIN -> s' = s) /\
  (b3_phase (c3_model s) = TCP_SHIFT_BBR3_DRAIN ->
   b3_phase (c3_model s') = TCP_SHIFT_BBR3_DRAIN \/
   b3_phase (c3_model s') = TCP_SHIFT_BBR3_PROBE_BW_DOWN).
Proof.
  intros H Hn Hl. cbn zeta. unfold ctl3_drain_to_probe.
  destruct (bool_decide _) eqn:E; [|apply bool_decide_eq_false in E; repeat (split; [done|]); done].
  apply bool_decide_eq_true in E. destruct (_ && _) eqn:Em;
    [|repeat (split; [done|]); by left].
  destruct H as (Hm & Hc & Hf & He & Hp). unfold ctl3_phase_ok in Hp. rewrite E in Hp.
  destruct Hp as [Hfull Hi]. pose proof Hf as (?&?&?&?&Hseed&?).
  destruct (tcp_shift_bbr3_probe_enter _ _ _ _ _) as [[rc p'] m'] eqn:Ee.
  destruct (probe_enter_ok _ _ _ _ _ _ _ _ Hm Hn Hseed Hfull Ee)
    as [(->&_&Hr&Hp'&Hi'&->)|(->&->&->)].
  - cbn. split; [|repeat (split; [done|]); by right].
    split_and!; try done. unfold ctl3_phase_ok. cbn. rewrite Hl. done.
  - cbn. split; [|repeat (split; [done|]); by left].
    split_and!; try done. unfold ctl3_phase_ok. cbn. by rewrite E.
Qed.

Lemma probe_bw_ok s a was signal :
  ctl3_core s -> ctl3_ack_wf a -> 1 <= a3_now_ns a ->
  b3_last_update_ns (c3_model s) = a3_now_ns a ->
  probe3_ok (c3_probe s) (a3_now_ns a) ->
  b3_phase (c3_model s) = was -> in_probe_bw was = true ->
  let s' := ctl3_probe_bw s a was signal in
  ctl3_core s' /\ phase_frame s s' /\
  c3_probe_rtt_done_stamp_ns s' = c3_probe_rtt_done_stamp_ns s /\
  probe_bw_edge was (b3_phase (c3_model s')) /\
  (was = TCP_SHIFT_BBR3_PROBE_BW_REFILL ->
   b3_phase (c3_model s') = TCP_SHIFT_BBR3_PROBE_BW_UP ->
   p3_next_round_delivered (c3_probe s) <= rs_prior_delivered_bytes (a3_rate a)) /\
  ((was = TCP_SHIFT_BBR3_PROBE_BW_DOWN \/ was = TCP_SHIFT_BBR3_PROBE_BW_CRUISE) ->
   rs_prior_delivered_bytes (a3_rate a) < rs_delivered_total_bytes (a3_rate a) ->
   b3_cycle_count (c3_model s) <> UINT32_MAX ->
   p3_cycle_stamp_ns (c3_probe s) + p3_wait_ns (c3_probe s) < a3_now_ns a ->
   b3_phase (c3_model s') = TCP_SHIFT_BBR3_PROBE_BW_REFILL).
Proof.
  intros H Ha Hn Hl Hpr Eph Hpb. cbn zeta. unfold ctl3_probe_bw. rewrite Hpb.
  destruct H as (Hm & Hc & Hf & He & Hp). pose proof Hf as (?&?&?&?&Hseed&?).
  assert (Hp' : b3_full_bw_reached (c3_model s) = true /\ b3_has_min_rtt (c3_model s) = true /\
    p3_initialized (c3_probe s) = true).
  { unfold ctl3_phase_ok in Hp. rewrite Eph in Hp. destruct was; try done; tauto. }
  clear Hp. destruct Hp' as (Hfull & Hrtt & Hi).
  set (pa := mk_probe_ack _ _ _ _ _ _ _ _).
  assert (Hpa : probe_ack_wf pa).
  { destruct Ha as (?&?&?&?&?&?&?). cong_inv Hc. unfold pa. split_and!; cbn; done || lia. }
  destruct (tcp_shift_bbr3_probe_on_ack _ _ pa) as [[rc p'] m'] eqn:E.
  rewrite <- Eph in Hpb.
  destruct (probe3_on_ack_ok _ _ pa rc p' m' (a3_now_ns a) Hpr ltac:(cbn; lia) Hi Hm Hpa Hpb Hfull E)
    as (Hp1 & Hi1 & Hm1 & Hfr & Hedge & Hup & Hwait).
  rewrite Eph in Hedge. change (pa_now_ns pa) with (a3_now_ns a) in *.
  change (pa_rate pa) with (a3_rate a) in *. destruct Hfr as (F1&F2&F3&F4).
  assert (Hph : ctl3_phase_ok (s <| c3_probe := p' |> <| c3_model := m' |>)).
  { unfold ctl3_phase_ok. cbn. rewrite F1, F2, F3, Hl.
    assert (in_probe_bw (b3_phase m') = true) by (destruct Hedge; done).
    destruct (b3_phase m'); done. }
  rewrite Eph in Hup, Hwait. destruct (_ && _).
  - split; [split_and!; try done; by apply cong_begin_probe_ok|].
    split; [done|]. done.
  - split; [split_and!; done|]. split; [done|]. done.
Qed.

Lemma probe_rtt_enter_ok3 s a :
  ctl3_core s ->
  let s' := ctl3_probe_rtt_enter s a in
  ctl3_core s' /\ phase_frame s s' /\
  (s' = s \/
   (b3_phase (c3_model s) <> TCP_SHIFT_BBR3_PROBE_RTT /\
    b3_phase (c3_model s') = TCP_SHIFT_BBR3_PROBE_RTT /\ c3_probe_rtt_done_stamp_ns s' = 0)).
Proof.
  intros H. cbn zeta. unfold ctl3_probe_rtt_enter.
  destruct (_ && _ && _ && _) eqn:E; [|by split_and!; [..|left]].
  repeat (apply andb_true_iff in E as [E ?]). apply bool_decide_eq_true in E.
  destruct H as (?&?&(?&?&?&?&?&?)&(?&?&?&?&?)&Hp). split; [|split; [done|right; done]].
  split; [done|]. split; [done|]. split; [unfold ctl3_fixed; cbn; split_and!; lia || done|].
  split; [unfold ctl3_extra; cbn; split_and!; done || lia|].
  unfold ctl3_phase_ok in *. cbn. split; [done|].
  intros Hi. destruct (b3_phase (c3_model s)); first [done|destruct Hp; congruence|congruence].
Qed.

Lemma probe_rtt_exit_ok3 s a :
  ctl3_core s -> 1 <= a3_now_ns a <= UINT64_MAX ->
  b3_last_update_ns (c3_model s) = a3_now_ns a ->
  b3_phase (c3_model s) = TCP_SHIFT_BBR3_PROBE_RTT ->
  let s' := ctl3_probe_rtt_exit s a in
  ctl3_core s' /\ phase_frame s s' /\
  c3_probe_rtt_done_stamp_ns s' = c3_probe_rtt_done_stamp_ns s /\
  (b3_phase (c3_model s') = TCP_SHIFT_BBR3_PROBE_RTT \/
   b3_phase (c3_model s') = (if b3_full_bw_reached (c3_model s)
     then TCP_SHIFT_BBR3_PROBE_BW_CRUISE else TCP_SHIFT_BBR3_STARTUP)).
Proof.
  intros (Hm & Hc & Hf & He & Hp) Hn Hl Eph. cbn zeta. unfold ctl3_probe_rtt_exit.
  unfold ctl3_phase_ok in Hp. rewrite Eph in Hp. destruct Hp as [Hrtt Hi].
  set (s1 := s <| c3_model := _ |> <| c3_probe_rtt_started := _ |> <| c3_congestion := _ |>
               <| c3_cwnd_bytes := _ |>).
  assert (Hm1 : bbr3_model_ok (c3_model s1)).
  { destruct Hm as ((?&?&?)&(?&?&?&?)&?&?&?&?&?&?). split_and!; try done; cbn; lia. }
  assert (Hc1 : cong_ok (c3_congestion s1)) by (by apply cong_reset_shortterm_ok).
  assert (Hf1 : ctl3_fixed s1).
  { destruct Hf as (?&?&?&?&?&?). unfold ctl3_fixed, s1. cbn.
    rewrite ctl3_max_spec, u32_small by lia. split_and!; lia || done. }
  change (b3_full_bw_reached (c3_model s1)) with (b3_full_bw_reached (c3_model s)).
  destruct (b3_full_bw_reached (c3_model s)) eqn:Ef.
  - destruct (tcp_shift_bbr3_probe_enter _ (c3_model s1) _ _ _) as [[rc p'] m'] eqn:Ee.
    pose proof Hf1 as (_&_&_&_&Hseed&_).
    destruct (probe_enter_ok _ _ _ _ _ _ _ _ Hm1 (proj1 Hn) Hseed Ef Ee)
      as [(->&_&Hr&Hp'&Hi'&->)|(->&->&->)].
    + cbn. split; [|split; [done|split; [done|by right]]]. split; [exact Hm1|].
      split; [exact Hc1|]. split; [exact Hf1|]. split; [exact He|].
      unfold ctl3_phase_ok. cbn. rewrite Hl. done.
    + cbn. split; [|split; [done|split; [done|by left]]]. split; [exact Hm1|].
      split; [exact Hc1|]. split; [exact Hf1|]. split; [exact He|].
      unfold ctl3_phase_ok. cbn. rewrite Eph. done.
  - split; [|split; [done|split; [done|by right]]]. split; [exact Hm1|].
    split; [exact Hc1|]. split; [exact Hf1|]. split; [exact He|].
    unfold ctl3_phase_ok. cbn. destruct (p3_initialized (c3_probe s)); [|done].
    discriminate (Hi eq_refl).
Qed.

(** The dwell of ProbeRTT: [left] records why the phase could be left, and the
    stamp is set only when the flight has drained to the target. *)
Definition dwell_step (s s' : tcp_shift_bbr3_controller) (a : tcp_shift_bbr3_controller_ack)
    : Prop :=
  (b3_phase (c3_model s) = TCP_SHIFT_BBR3_PROBE_RTT ->
   b3_phase (c3_model s') <> TCP_SHIFT_BBR3_PROBE_RTT ->
   0 < c3_probe_rtt_done_stamp_ns s < a3_now_ns a) /\
  (b3_phase (c3_model s') = TCP_SHIFT_BBR3_PROBE_RTT ->
   c3_probe_rtt_done_stamp_ns s' = 0 \/
   (b3_phase (c3_model s) = TCP_SHIFT_BBR3_PROBE_RTT /\
    c3_probe_rtt_done_stamp_ns s' = c3_probe_rtt_done_stamp_ns s) \/
   (c3_probe_rtt_done_stamp_ns s' = Z.min UINT64_MAX (a3_now_ns a + 200000000) /\
    a3_inflight_bytes a <= ctl3_probe_rtt_target s')).

Lemma update_probe_rtt_ok s a :
  ctl3_core s -> ctl3_ack_wf a -> 1 <= a3_now_ns a ->
  b3_last_update_ns (c3_model s) = a3_now_ns a ->
  let s' := ctl3_update_probe_rtt s a in
  ctl3_core s' /\ phase_frame s s' /\ dwell_step s s' a /\
  (b3_phase (c3_model s') = b3_phase (c3_model s) \/
   b3_phase (c3_model s') = TCP_SHIFT_BBR3_PROBE_RTT \/
   (b3_phase (c3_model s) = TCP_SHIFT_BBR3_PROBE_RTT /\
    b3_phase (c3_model s') = (if b3_full_bw_reached (c3_model s)
      then TCP_SHIFT_BBR3_PROBE_BW_CRUISE else TCP_SHIFT_BBR3_STARTUP))).
Proof.
  intros H (_&Hnow&_) Hn Hl. cbn zeta. unfold ctl3_update_probe_rtt, dwell_step.
  destruct (probe_rtt_enter_ok3 s a H) as (H1 & F1 & Hcase).
  set (s1 := ctl3_probe_rtt_enter s a) in *. clearbody s1.
  assert (Hl1 : b3_last_update_ns (c3_model s1) = a3_now_ns a) by (by destruct F1 as (->&_)).
  destruct (bool_decide _) eqn:Eb.
  { apply bool_decide_eq_true in Eb. destruct Hcase as [->|(_&?&_)]; [|done].
    split; [done|]. split; [done|]. split; [done|by left]. }
  apply bool_decide_eq_false, dec_stable in Eb.
  destruct (c3_probe_rtt_done_stamp_ns s1 =? 0) eqn:Ed.
  { destruct (_ <=? _) eqn:Et.
    - split; [|split; [done|split; [|right; by left]]].
      + destruct H1 as (?&?&?&(?&?&?&?&?)&?). split; [done|]. split; [done|]. split; [done|].
        split; [|done]. unfold ctl3_extra. cbn. rewrite ctl3_add_spec by lia.
        split_and!; done || lia.
      + cbn. rewrite Eb. split; [done|]. intros _. right. right.
        rewrite ctl3_add_spec by lia. split; [done|]. apply Z.leb_le in Et. exact Et.
    - split; [done|]. split; [done|]. split; [|right; by left]. rewrite Eb.
      split; [done|]. intros _. left. lia. }
  destruct Hcase as [->|(_&_&?)]; [|lia].
  set (s2 := if _ && _ then _ else s).
  assert (H2 : ctl3_core s2 /\ c3_model s2 = c3_model s /\
    c3_probe_rtt_done_stamp_ns s2 = c3_probe_rtt_done_stamp_ns s /\ phase_frame s s2)
    by (unfold s2; by destruct (_ && _)).
  clearbody s2. destruct H2 as (H2 & Em & Es & F2).
  destruct (_ || _) eqn:Eo.
  { split; [done|]. split; [done|]. rewrite Em, Eb, Es.
    split; [|by left]. split; [done|]. intros _. right. by left. }
  destruct (probe_rtt_exit_ok3 s2 a H2 ltac:(lia) ltac:(by rewrite Em) ltac:(by rewrite Em))
    as (H3 & F3 & Es3 & Hph).
  set (s3 := ctl3_probe_rtt_exit s2 a) in *. clearbody s3.
  split; [done|]. split; [by etransitivity|]. rewrite Em in Hph. rewrite Eb, Es3, Es.
  split; [|destruct Hph as [-> | ->]; [by left|right; right; done]].
  split; [|intros _; right; by left]. intros _ _. destruct H1 as (_&_&_&(_&_&_&_&?)&_).
  rewrite Es in Eo. lia.
Qed.

(** The phase graph of an ACK. *)
Inductive bbr3_edge : tcp_shift_bbr3_phase -> tcp_shift_bbr3_phase -> Prop :=
  | edge_startup_stay : bbr3_edge TCP_SHIFT_BBR3_STARTUP TCP_SHIFT_BBR3_STARTUP
  | edge_startup_drain : bbr3_edge TCP_SHIFT_BBR3_STARTUP TCP_SHIFT_BBR3_DRAIN
  | edge_startup_down : bbr3_edge TCP_SHIFT_BBR3_STARTUP TCP_SHIFT_BBR3_PROBE_BW_DOWN
  | edge_drain_stay : bbr3_edge TCP_SHIFT_BBR3_DRAIN TCP_SHIFT_BBR3_DRAIN
  | edge_drain_down : bbr3_edge TCP_SHIFT_BBR3_DRAIN TCP_SHIFT_BBR3_PROBE_BW_DOWN
  | edge_probe_bw ph ph' : probe_bw_edge ph ph' -> bbr3_edge ph ph'
  | edge_probe_rtt ph : bbr3_edge ph TCP_SHIFT_BBR3_PROBE_RTT
  | edge_rtt_cruise : bbr3_edge TCP_SHIFT_BBR3_PROBE_RTT TCP_SHIFT_BBR3_PROBE_BW_CRUISE
  | edge_rtt_startup : bbr3_edge TCP_SHIFT_BBR3_PROBE_RTT TCP_SHIFT_BBR3_STARTUP.
#[export] Hint Constructors bbr3_edge : bbr3.

(** UP follows a whole round of refilled data. *)
Definition refill_guard (s s' : tcp_shift_bbr3_controller) (a : tcp_shift_bbr3_controller_ack)
    : Prop :=
  b3_phase (c3_model s) = TCP_SHIFT_BBR3_PROBE_BW_REFILL ->
  b3_phase (c3_model s') = TCP_SHIFT_BBR3_PROBE_BW_UP ->
  p3_next_round_delivered (c3_probe s) <= rs_prior_delivered_bytes (a3_rate a).

(** The wait of DOWN and CRUISE is over and the ACK delivers data. *)
Definition probe_due (s : tcp_shift_bbr3_controller) (a : tcp_shift_bbr3_controller_ack) : Prop :=
  (b3_phase (c3_model s) = TCP_SHIFT_BBR3_PROBE_BW_DOWN \/
   b3_phase (c3_model s) = TCP_SHIFT_BBR3_PROBE_BW_CRUISE) /\
  rs_prior_delivered_bytes (a3_rate a) < rs_delivered_total_bytes (a3_rate a) /\
  b3_cycle_count (c3_model s) <> UINT32_MAX /\
  p3_cycle_stamp_ns (c3_probe s) + p3_wait_ns (c3_probe s) < a3_now_ns a.

Definition phase_step (s s' : tcp_shift_bbr3_controller) (a : tcp_shift_bbr3_controller_ack)
    : Prop :=
  bbr3_edge (b3_phase (c3_model s)) (b3_phase (c3_model s')) /\
  (b3_phase (c3_model s') = TCP_SHIFT_BBR3_STARTUP -> b3_full_bw_reached (c3_model s') = false) /\
  dwell_step s s' a /\ refill_guard s s' a /\
  (probe_due s a -> b3_phase (c3_model s') = TCP_SHIFT_BBR3_PROBE_BW_REFILL \/
                    b3_phase (c3_model s') = TCP_SHIFT_BBR3_PROBE_RTT).

(** The three transitions before ProbeRTT is considered. *)
Lemma advance_before_rtt s a signal :
  ctl3_core s -> ctl3_ack_wf a -> 1 <= a3_now_ns a ->
  b3_last_update_ns (c3_model s) = a3_now_ns a ->
  let was := b3_phase (c3_model s) in
  let s' := ctl3_probe_bw (ctl3_drain_to_probe (ctl3_startup_to_drain s) a) a was signal in
  ctl3_core s' /\ phase_frame s s' /\ bbr3_edge was (b3_phase (c3_model s')) /\
  (b3_phase (c3_model s') = TCP_SHIFT_BBR3_STARTUP -> b3_full_bw_reached (c3_model s') = false) /\
  (was = TCP_SHIFT_BBR3_PROBE_RTT <-> b3_phase (c3_model s') = TCP_SHIFT_BBR3_PROBE_RTT) /\
  c3_probe_rtt_done_stamp_ns s' = c3_probe_rtt_done_stamp_ns s /\
  refill_guard s s' a /\
  (probe_due s a -> b3_phase (c3_model s') = TCP_SHIFT_BBR3_PROBE_BW_REFILL).
Proof.
  intros H Ha Hn Hl. cbn zeta.
  destruct (in_probe_bw (b3_phase (c3_model s))) eqn:Hpb.
  - assert (ctl3_startup_to_drain s = s) as ->.
    { unfold ctl3_startup_to_drain. by destruct (b3_phase (c3_model s)). }
    assert (ctl3_drain_to_probe s a = s) as ->.
    { unfold ctl3_drain_to_probe. by destruct (b3_phase (c3_model s)). }
    assert (Hp : probe3_ok (c3_probe s) (a3_now_ns a)).
    { destruct H as (_&_&_&_&Hp). rewrite <- Hl. unfold ctl3_phase_ok in Hp.
      destruct (b3_phase (c3_model s)); try done; tauto. }
    destruct (probe_bw_ok s a _ signal H Ha Hn Hl Hp eq_refl Hpb) as (H1&F1&E1&Ed&Hup&Hw).
    split; [done|]. split; [done|]. split; [by constructor|].
    assert (in_probe_bw (b3_phase (c3_model (ctl3_probe_bw s a (b3_phase (c3_model s)) signal))) = true)
      as Hpb' by (by destruct Ed).
    split; [intros E; by rewrite E in Hpb'|].
    split; [split; intros E; [by rewrite E in Hpb|by rewrite E in Hpb']|].
    split; [done|]. split; [exact Hup|]. intros (?&?&?&?). by apply Hw.
  - destruct (startup_to_drain_ok s H) as (H1&F1&Ep1&Ec1&Ed1&Eph1).
    set (s1 := ctl3_startup_to_drain s) in *. clearbody s1.
    assert (Hl1 : b3_last_update_ns (c3_model s1) = a3_now_ns a) by (by destruct F1 as (->&_)).
    destruct (drain_to_probe_ok s1 a H1 Hn Hl1) as (H2&F2&Ec2&Ed2&Hsame&Hdr).
    set (s2 := ctl3_drain_to_probe s1 a) in *. clearbody s2.
    assert (Hq : forall w, in_probe_bw w = false -> ctl3_probe_bw s2 a w signal = s2).
    { intros w Hw. unfold ctl3_probe_bw. by rewrite Hw. }
    rewrite Hq by done. split; [done|]. split; [by etransitivity|].
    assert (Hdue : probe_due s a -> False) by (intros ([E|E]&_); by rewrite E in Hpb).
    assert (Href : refill_guard s s2 a) by (intros E; by rewrite E in Hpb).
    destruct F1 as (_&Ef1&_), F2 as (_&Ef2&_). rewrite Ed2, Ed1.
    destruct (b3_phase (c3_model s)) eqn:Eph; try discriminate Hpb.
    + destruct (b3_full_bw_reached (c3_model s)) eqn:Efull.
      * destruct (Hdr Eph1) as [-> | ->]; split_and!; try done; auto with bbr3; split; done.
      * rewrite (Hsame ltac:(by rewrite Eph1)), Eph1 in *.
        split_and!; try done; auto with bbr3; try split; (done || congruence).
    + destruct (Hdr Eph1) as [-> | ->]; split_and!; try done; auto with bbr3; split; done.
    + rewrite (Hsame ltac:(by rewrite Eph1)), Eph1 in *.
      split_and!; try done; auto with bbr3; try split; done.
Qed.

Lemma advance_phase_ok s a signal :
  ctl3_core s -> ctl3_ack_wf a -> 1 <= a3_now_ns a ->
  b3_last_update_ns (c3_model s) = a3_now_ns a ->
  let s' := ctl3_advance_phase s a signal in
  ctl3_core s' /\ phase_frame s s' /\ phase_step s s' a.
Proof.
  intros H Ha Hn Hl. cbn zeta. unfold ctl3_advance_phase, phase_step.
  destruct (advance_before_rtt s a signal H Ha Hn Hl) as (H1&F1&He&Hst&Hrtt&Ed&Href&Hdue).
  set (s1 := ctl3_probe_bw _ a _ signal) in *. clearbody s1.
  assert (Hl1 : b3_last_update_ns (c3_model s1) = a3_now_ns a) by (by destruct F1 as (->&_)).
  destruct (update_probe_rtt_ok s1 a H1 Ha Hn Hl1) as (H2&F2&[Hd1 Hd2]&Hph).
  set (s2 := ctl3_update_probe_rtt s1 a) in *. clearbody s2.
  split; [done|]. split; [by etransitivity|].
  assert (Hf2 : b3_full_bw_reached (c3_model s2) = b3_full_bw_reached (c3_model s1))
    by (by destruct F2 as (_&?&_)).
  split; [|split; [|split; [|split]]].
  - destruct Hph as [-> | [-> | [E ->]]]; [done|apply edge_probe_rtt|].
    apply Hrtt in E. rewrite E. destruct (b3_full_bw_reached _); auto with bbr3.
  - rewrite Hf2. intros E2. destruct Hph as [E|[E|[E E']]]; [apply Hst; congruence|congruence|].
    rewrite E2 in E'. by destruct (b3_full_bw_reached (c3_model s1)).
  - split.
    + intros E. apply Hrtt in E. rewrite <- Ed. by apply Hd1.
    + intros E. destruct (Hd2 E) as [?|[[E1 ?]|?]]; [by left| |by right; right].
      right. left. apply Hrtt in E1. split; [done|congruence].
  - intros E E2. destruct Hph as [E1|[E1|[E1 _]]]; [|congruence|].
    + apply Href; [done|congruence].
    + apply Hrtt in E1. congruence.
  - intros D. destruct Hph as [E1|[E1|[E1 _]]]; [|by right|].
    + left. rewrite E1. by apply Hdue.
    + specialize (Hdue D). congruence.
Qed.

(** ** The published policy *)

(** What the transport may rely on. *)
Definition policy3_safe (s : tcp_shift_bbr3_controller) (p : tcp_shift_bbr3_controller_policy)
    : Prop :=
  pol3_phase p = b3_phase (c3_model s) /\ pol3_cwnd_bytes p = c3_cwnd_bytes s /\
  4 * c3_mss_bytes s <= pol3_cwnd_bytes p <= UINT32_MAX /\
  pol3_cwnd_bytes p <= tcp_shift_bbr3_congestion_cwnd_cap (c3_congestion s)
                         (b3_phase (c3_model s)) (c3_mss_bytes s) /\
  (b3_full_bw_reached (c3_model s) = true -> pol3_cwnd_bytes p <= pol3_max_inflight_bytes p) /\
  (b3_phase (c3_model s) = TCP_SHIFT_BBR3_PROBE_RTT ->
   pol3_cwnd_bytes p <= ctl3_probe_rtt_target s) /\
  0 < pol3_pacing_rate_bytes_per_sec p <= UINT64_MAX /\
  2 * c3_mss_bytes s <= pol3_send_quantum_bytes p <= Z.max 65536 (2 * c3_mss_bytes s).

Lemma ctl3_pacing_rate_ok s :
  ctl3_core s -> 1 <= ctl3_pacing_rate s <= UINT64_MAX.
Proof.
  intros H. pose proof (ctl3_rate_cap_u64 s H) as Hb. destruct H as (_&_&(_&_&_&_&_&?)&_).
  unfold ctl3_pacing_rate. cbn zeta.
  destruct (ctl3_gain_ok (b3_phase (c3_model s))) as (_&_&?&?).
  pose proof (bbr3_scale_u64 _ (tcp_shift_bbr3_pacing_gain (b3_phase (c3_model s))) Hb
    ltac:(lia) ltac:(lia)) as Hd.
  set (d := tcp_shift_bbr3_scale (ctl3_rate_cap s) _) in *. clearbody d.
  pose proof (bbr3_scale_u64 d (mk_gain 99 100) Hd ltac:(cbn; lia) ltac:(cbn; lia)).
  case_match; lia.
Qed.

(** The window on unbounded integers. *)
Lemma ctl3_next_cwnd_spec s a inflight :
  ctl3_core s -> ctl3_ack_wf a -> 4 * c3_mss_bytes s <= inflight <= UINT64_MAX ->
  let cap := tcp_shift_bbr3_congestion_cwnd_cap (c3_congestion s) (b3_phase (c3_model s))
               (c3_mss_bytes s) in
  let w := ctl3_next_cwnd s a inflight in
  4 * c3_mss_bytes s <= w <= UINT32_MAX /\ w <= cap /\
  (b3_full_bw_reached (c3_model s) = true -> w <= inflight) /\
  (b3_phase (c3_model s) = TCP_SHIFT_BBR3_PROBE_RTT -> w <= ctl3_probe_rtt_target s) /\
  w <= c3_cwnd_bytes s + a3_acked_bytes a.
Proof.
  intros H (_&_&_&_&_&Hk&_) Hi. cbn zeta. pose proof (ctl3_probe_rtt_target_ge s H).
  destruct H as (Hm & Hc & Hf & _). destruct Hf as (?&?&?&_).
  pose proof (cwnd_cap_bounds (c3_congestion s) (b3_phase (c3_model s)) (c3_mss_bytes s) Hc
    ltac:(change (UINT32_MAX / 4) with 1073741823; lia)) as Hcap.
  unfold ctl3_next_cwnd. cbn zeta.
  rewrite !(u64_small (c3_mss_bytes s * 4)), ctl3_add_spec, Z.min_r by lia.
  set (w0 := if b3_full_bw_reached _ then _ else _).
  assert (B0 : 0 <= w0 <= c3_cwnd_bytes s + a3_acked_bytes a /\
    (b3_full_bw_reached (c3_model s) = true -> w0 <= inflight)).
  { unfold w0. rewrite ctl3_min_spec. destruct (b3_full_bw_reached _); [lia|].
    split; [|done]. case_match; lia. }
  clearbody w0. rewrite !ctl3_max_spec, !ctl3_min_spec.
  set (w1 := if bool_decide _ then _ else _).
  assert (B1 : 0 <= w1 <= Z.max w0 (c3_mss_bytes s * 4) /\
    (b3_phase (c3_model s) = TCP_SHIFT_BBR3_PROBE_RTT -> w1 <= ctl3_probe_rtt_target s)).
  { unfold w1. destruct (bool_decide _) eqn:E; [lia|]. apply bool_decide_eq_false in E.
    split; [lia|done]. }
  clearbody w1. destruct B0 as [? B0], B1 as [? B1]. rewrite ctl3_cap32_spec by lia.
  split; [lia|]. split; [lia|]. split; [intros E; specialize (B0 E); lia|].
  split; [intros E; specialize (B1 E); lia|]. lia.
Qed.

Lemma update_policy_ok s a :
  ctl3_core s -> ctl3_ack_wf a ->
  let '(s', p) := ctl3_update_policy s a in
  ctl3_core s' /\ c3_model s' = c3_model s /\ c3_probe s' = c3_probe s /\
  c3_congestion s' = c3_congestion s /\
  c3_probe_rtt_done_stamp_ns s' = c3_probe_rtt_done_stamp_ns s /\ policy3_safe s' p.
Proof.
  intros H Ha. unfold ctl3_update_policy. cbn zeta.
  pose proof (ctl3_pacing_rate_ok s H) as Hr. pose proof (ctl3_model_inflight_bounds s H) as Hi.
  set (inf := ctl3_model_inflight s) in *. set (r := ctl3_pacing_rate s) in *. clearbody inf r.
  set (s1 := s <| c3_pacing_rate_bytes_per_sec := r |>).
  assert (H1 : ctl3_core s1).
  { destruct H as (?&?&(?&?&?&?&?&?)&?&?). split_and!; try done; cbn; lia. }
  destruct (ctl3_next_cwnd_spec s1 a inf H1 Ha Hi) as (Hw & Hcap & Hin & Hrtt & _).
  set (w := ctl3_next_cwnd s1 a inf) in *. clearbody w. destruct H1 as (?&?&(?&?&?&?&?&?)&?&?).
  split; [split_and!; try done; cbn in *; lia|]. repeat (split; [done|]).
  unfold policy3_safe. cbn in *. rewrite ctl3_min_spec, ctl3_max_spec, u64_small by lia.
  rewrite ctl3_cap32_spec by lia. assert (0 <= r / 1000) by (apply Z.div_pos; lia).
  split_and!; try done; lia.
Qed.

(** ** One ACK *)

Lemma cong_ack_of_wf s a ph :
  ctl3_core s -> ctl3_ack_wf a -> cong_ack_wf (ctl3_congestion_ack s a ph).
Proof.
  intros H ((?&_&_&_&?&_)&?&?&?&?&?&?). pose proof (ctl3_model_inflight_bounds s H).
  destruct H as (((_&_&?)&_) & _ & (?&?&?&_) & _). unfold cong_ack_wf. cbn. lia.
Qed.

(** The guard of the congestion model follows from the controller's own. *)
Lemma cong_ack_accepted s s0 a ph :
  ctl3_core s -> ctl3_ack_wf a -> ctl3_rejects s0 a = false ->
  cong_rejects (ctl3_congestion_ack s a ph) = false.
Proof.
  intros (_ & _ & (?&?&?&_) & _) _ Hr. unfold ctl3_rejects in Hr.
  repeat (apply orb_false_iff in Hr as [Hr ?]).
  unfold cong_rejects. cbn -[Z.eqb Z.gtb].
  rewrite (proj2 (Z.eqb_neq (c3_mss_bytes s) 0)), (proj2 (Z.eqb_neq (c3_cwnd_bytes s) 0)) by lia.
  cbn [orb]. repeat (apply orb_false_iff; split); try done.
  - rewrite andb_comm. done.
  - destruct (bool_decide (ph = TCP_SHIFT_BBR3_PROBE_BW_UP)); [|done].
    by rewrite !orb_true_r.
Qed.

(** The model update keeps the core invariant and moves its clock. *)
Lemma ctl3_model_step s a rc m' :
  ctl3_core s -> ctl3_ack_wf a -> ctl3_rejects s a = false ->
  tcp_shift_bbr3_model_on_ack (c3_model s) (a3_rate a) (a3_now_ns a) = (rc, m') ->
  rc = 0 /\ 1 <= a3_now_ns a /\ ctl3_core (s <| c3_model := m' |>) /\
  bbr3_forward (c3_model s <| b3_last_update_ns := a3_now_ns a |>) m'.
Proof.
  intros (Hm & Hc & Hf & He & Hp) (Hs&Hn&_) Hr E. unfold ctl3_rejects in Hr.
  assert (Hg : 1 <= a3_now_ns a /\ b3_last_update_ns (c3_model s) <= a3_now_ns a /\
    rs_prior_delivered_bytes (a3_rate a) <= rs_delivered_total_bytes (a3_rate a)) by lia.
  clear Hr. destruct Hg as (H1 & Hle & Hpd).
  destruct (bbr3_model_on_ack_ok _ _ _ _ _ Hm Hs Hn E) as [(->&Hm'&Hfw)|(->&->)].
  - pose proof Hfw as (Eph&Efull&Ertt&El&_). cbn in Eph, Efull, Ertt, El.
    split; [done|]. split; [done|]. split; [|done].
    split; [done|]. split; [done|]. split; [done|]. split; [done|].
    unfold ctl3_phase_ok in *. cbn. rewrite Eph, El.
    assert (Hmono : probe3_ok (c3_probe s) (b3_last_update_ns (c3_model s)) ->
      probe3_ok (c3_probe s) (a3_now_ns a)) by (intros (?&?&?&?&?); split_and!; lia).
    destruct (b3_phase (c3_model s)); naive_solver.
  - exfalso. revert E. unfold tcp_shift_bbr3_model_on_ack.
    destruct (_ || _ || _) eqn:Eg; [|done]. lia.
Qed.

(** [phase_step] reads these fields only. *)
Lemma phase_step_ext s0 s1 s2 s3 a :
  b3_phase (c3_model s0) = b3_phase (c3_model s1) ->
  b3_cycle_count (c3_model s0) = b3_cycle_count (c3_model s1) ->
  c3_probe s0 = c3_probe s1 ->
  c3_probe_rtt_done_stamp_ns s0 = c3_probe_rtt_done_stamp_ns s1 ->
  c3_model s3 = c3_model s2 -> c3_mss_bytes s3 = c3_mss_bytes s2 ->
  c3_probe_rtt_done_stamp_ns s3 = c3_probe_rtt_done_stamp_ns s2 ->
  phase_step s1 s2 a -> phase_step s0 s3 a.
Proof.
  intros E1 E2 E3 E4 E5 E6 E7.
  unfold phase_step, dwell_step, refill_guard, probe_due, ctl3_probe_rtt_target.
  by rewrite E1, E2, E3, E4, E5, E6, E7.
Qed.

(** The accepted path of the handler, with the results of its calls named. *)
Lemma ctl3_on_ack_accept s a p m' sg cong :
  ctl3_rejects s a = false ->
  tcp_shift_bbr3_model_on_ack (c3_model s) (a3_rate a) (a3_now_ns a) = (0, m') ->
  tcp_shift_bbr3_congestion_on_ack (c3_congestion s)
    (ctl3_congestion_ack (s <| c3_model := m' |>) a (b3_phase (c3_model s))) = (sg, cong) ->
  0 <= sg ->
  tcp_shift_bbr3_controller_on_ack s a p =
  (0, (ctl3_update_policy (ctl3_advance_phase (ctl3_update_ack_aggregation
         (s <| c3_model := m' |> <| c3_congestion := cong |>) a) a sg) a).1,
      (ctl3_update_policy (ctl3_advance_phase (ctl3_update_ack_aggregation
         (s <| c3_model := m' |> <| c3_congestion := cong |>) a) a sg) a).2).
Proof.
  intros Hr Hm Hc Hs. unfold tcp_shift_bbr3_controller_on_ack. rewrite Hr, Hm.
  cbn [Z.eqb negb]. change (c3_congestion (s <| c3_model := m' |>)) with (c3_congestion s).
  rewrite Hc. rewrite (proj2 (Z.ltb_ge sg 0) Hs).
  by destruct (ctl3_update_policy _ a).
Qed.

Lemma ctl3_on_ack_step s a p rc s' p' :
  ctl3_ok s -> ctl3_ack_wf a -> tcp_shift_bbr3_controller_on_ack s a p = (rc, s', p') ->
  if ctl3_rejects s a then rc = -1 /\ s' = s /\ p' = p
  else rc = 0 /\ ctl3_ok s' /\ policy3_safe s' p' /\ phase_step s s' a /\
       b3_last_update_ns (c3_model s') = a3_now_ns a /\
       (b3_full_bw_reached (c3_model s) = true -> b3_full_bw_reached (c3_model s') = true).
Proof.
  intros [H Hst] Ha.
  destruct (ctl3_rejects s a) eqn:Er;
    [unfold tcp_shift_bbr3_controller_on_ack; rewrite Er; by intros [= <- <- <-]|].
  destruct (tcp_shift_bbr3_model_on_ack (c3_model s) (a3_rate a) (a3_now_ns a))
    as [rc0 m'] eqn:Em.
  destruct (ctl3_model_step s a rc0 m' H Ha Er Em) as (-> & Hn & H1 & (Eph&Efull&_&El&Ecy)).
  cbn in Eph, Efull, El, Ecy. pose proof H1 as (_ & Hcong & _).
  destruct (tcp_shift_bbr3_congestion_on_ack (c3_congestion s)
    (ctl3_congestion_ack (s <| c3_model := m' |>) a (b3_phase (c3_model s)))) as [sg cong] eqn:Ec.
  pose proof (cong_ack_of_wf _ a (b3_phase (c3_model s)) H1 Ha) as Hcw.
  destruct (cong_on_ack_ok _ _ sg cong Hcong Hcw Ec) as [Hcok Hsg].
  rewrite (cong_ack_accepted _ s a _ H1 Ha Er) in Hsg.
  rewrite (ctl3_on_ack_accept s a p m' sg cong Er Em Ec (proj1 Hsg)). clear Ec Hcw Hcong.
  assert (H2 : ctl3_core (s <| c3_model := m' |> <| c3_congestion := cong |>))
    by (destruct H1 as (?&?&?&?&?); split_and!; done).
  destruct (ctl3_aggregation_ok _ a H2 Ha) as [H3 (F1&F2&_&_&_&_&_&_&_&_&F11)].
  set (s3 := ctl3_update_ack_aggregation _ a) in *. clearbody s3.
  cbn in F1, F2, F11.
  assert (Hl3 : b3_last_update_ns (c3_model s3) = a3_now_ns a) by (by rewrite F1).
  destruct (advance_phase_ok s3 a sg H3 Ha Hn Hl3) as (H4 & (G1&G2&_&G4) & Hstep).
  set (s4 := ctl3_advance_phase s3 a sg) in *. clearbody s4.
  pose proof (update_policy_ok s4 a H4 Ha) as Hpol.
  assert (Emss : c3_mss_bytes (ctl3_update_policy s4 a).1 = c3_mss_bytes s4) by done.
  destruct (ctl3_update_policy s4 a) as [s5 p5]. cbn [fst snd] in *.
  destruct Hpol as (H5 & P1 & P2 & P3 & P4 & Hsafe). intros [= <- <- <-].
  split; [done|]. split; [split; [done|]; rewrite P1; by destruct Hstep as (_&?&_)|].
  split; [done|]. split; [|by rewrite P1, G1, G2, F1, El].
  apply (phase_step_ext s s3 s4 s5 a);
    [by rewrite F1|by rewrite F1|exact (eq_sym F2)|exact (eq_sym F11)|done..].
Qed.

(** ** Reachable controllers *)

(** From a successful initialisation by any sequence of ACKs, accepted or not,
    recovery snapshots and undos of spurious recoveries. *)
Inductive bbr3_reachable : tcp_shift_bbr3_controller -> Prop :=
  | reach3_init s0 icw mss seed now s :
      in_u32 icw -> in_u32 mss -> in_u32 seed -> in_u64 now ->
      tcp_shift_bbr3_controller_init s0 icw mss seed now = (0, s) -> bbr3_reachable s
  | reach3_ack s a p rc s' p' :
      bbr3_reachable s -> ctl3_ack_wf a ->
      tcp_shift_bbr3_controller_on_ack s a p = (rc, s', p') -> bbr3_reachable s'
  | reach3_save s :
      bbr3_reachable s -> bbr3_reachable
        (s <| c3_congestion := (tcp_shift_bbr3_congestion_save_recovery (c3_congestion s)).2 |>)
  | reach3_undo s :
      bbr3_reachable s -> bbr3_reachable
        (s <| c3_congestion := (tcp_shift_bbr3_congestion_undo_spurious (c3_congestion s)).2 |>).

Lemma ctl3_congestion_ok s c :
  ctl3_ok s -> cong_ok c -> ctl3_ok (s <| c3_congestion := c |>).
Proof. intros [(?&?&?&?&?) ?] Hc. split; [split_and!; done|done]. Qed.

Lemma bbr3_reachable_ok s : bbr3_reachable s -> ctl3_ok s.
Proof.
  induction 1 as [s0 icw mss seed now s ???? E|s a p rc s' p' _ IH Ha E|s _ IH|s _ IH].
  - by apply (ctl3_init_ok s0 icw mss seed now).
  - pose proof (ctl3_on_ack_step s a p rc s' p' IH Ha E) as Hs.
    destruct (ctl3_rejects s a); [by destruct Hs as (_&->&_)|tauto].
  - apply ctl3_congestion_ok, cong_save_recovery_ok; [done|]. by destruct IH as [(_&?&_) _].
  - apply ctl3_congestion_ok, cong_undo_spurious_ok; [done|]. by destruct IH as [(_&?&_) _].
Qed.

(** In every reachable BBRv3 controller an ACK is accepted exactly when
    its own input is valid (no internal step fails), a rejected one changes
    nothing, and an accepted one publishes a policy the transport can use: a
    window of at least four segments within 32 bits, under the congestion cap
    of the phase, under the inflight target once the pipe is full and under
    the ProbeRTT target in ProbeRTT, a nonzero pacing rate and a send quantum
    of at least two segments. *)
Theorem bbr3_ack_progress s a p rc s' p' :
  bbr3_reachable s -> ctl3_ack_wf a ->
  tcp_shift_bbr3_controller_on_ack s a p = (rc, s', p') ->
  (ctl3_rejects s a = false -> rc = 0 /\ policy3_safe s' p') /\
  (ctl3_rejects s a = true -> rc = -1 /\ s' = s /\ p' = p).
Proof.
  intros Hr Ha E. pose proof (ctl3_on_ack_step s a p rc s' p' (bbr3_reachable_ok s Hr) Ha E).
  destruct (ctl3_rejects s a); split; intros ?; (done || tauto).
Qed.


(** C39. Probing never starves: in a reachable controller that waits in DOWN or
    CRUISE, an accepted ACK that delivers data more than three seconds after
    the cycle began starts the next probe (REFILL), unless it is time for
    ProbeRTT. *)
Theorem bbr3_probe_liveness s a p s' p' :
  bbr3_reachable s -> ctl3_ack_wf a ->
  tcp_shift_bbr3_controller_on_ack s a p = (0, s', p') ->
  b3_phase (c3_model s) = TCP_SHIFT_BBR3_PROBE_BW_DOWN \/
  b3_phase (c3_model s) = TCP_SHIFT_BBR3_PROBE_BW_CRUISE ->
  rs_prior_delivered_bytes (a3_rate a) < rs_delivered_total_bytes (a3_rate a) ->
  b3_cycle_count (c3_model s) <> UINT32_MAX ->
  p3_cycle_stamp_ns (c3_probe s) + 3000000000 <= a3_now_ns a ->
  b3_phase (c3_model s') = TCP_SHIFT_BBR3_PROBE_BW_REFILL \/
  b3_phase (c3_model s') = TCP_SHIFT_BBR3_PROBE_RTT.
Proof.
  intros Hr Ha E Hph Hd Hc Ht. pose proof (bbr3_reachable_ok s Hr) as Hok.
  pose proof (ctl3_on_ack_step s a p 0 s' p' Hok Ha E) as H.
  destruct (ctl3_rejects s a); [lia|].
  destruct H as (_ & _ & _ & (_&_&_&_&Hdue) & _). apply Hdue.
  destruct Hok as [(_&_&_&_&Hp) _]. unfold ctl3_phase_ok in Hp.
  assert (Hw : p3_wait_ns (c3_probe s) <= 2999999999)
    by (destruct Hph as [E1|E1]; rewrite E1 in Hp; destruct Hp as (_&_&_&_&?&_); lia).
  unfold probe_due. split_and!; try done. lia.
Qed.

(** The four fixed-point routines of BBRv3 equal one unbounded reference:
    the rational scaling of the model and of the congestion response are the
    same saturated floor of [v * n / d], and the two bandwidth-delay products
    are the saturated floor and ceiling of [bw * rtt / 10^9]. *)
Theorem bbr3_arithmetic_exact v n d bw rtt :
  in_u64 v -> in_u32 n -> 1 <= d <= UINT32_MAX -> in_u64 bw -> in_u64 rtt ->
  tcp_shift_bbr3_scale v (mk_gain n d) = Z.min UINT64_MAX (v * n / d) /\
  cong_ratio v n d = Z.min UINT64_MAX (v * n / d) /\
  ctl3_bdp bw rtt = Z.min UINT64_MAX (bw * rtt / 1000000000) /\
  probe3_bdp_bytes bw rtt = Z.min UINT64_MAX (cdiv (bw * rtt) 1000000000).
Proof.
  intros. by rewrite bbr3_scale_spec, cong_ratio_spec, ctl3_bdp_spec, probe3_bdp_spec.
Qed.

Lemma bbr3_arithmetic_exact_witness :
  tcp_shift_bbr3_scale 12345678901234567890 (mk_gain 277 100) = UINT64_MAX /\
  cong_ratio 1001 7 10 = 700 /\ ctl3_bdp 12500001 99999999 = 1250000 /\
  probe3_bdp_bytes 12500001 99999999 = 1250001.
Proof.
  destruct (bbr3_arithmetic_exact 12345678901234567890 277 100 12500001 99999999)
    as (-> & _ & -> & ->); [lia..|].
  destruct (bbr3_arithmetic_exact 1001 7 10 1 1) as (_ & -> & _); [lia..|].
  split_and!; vm_compute; reflexivity.
Defined.

(** ** A sample run *)

(** Ten rounds of 10 ms at a steady rate fill the pipe and drain it. *)
Definition zero_probe3 : tcp_shift_bbr3_probe :=
  mk_probe3 0 0 0 0 0 0 0 0 TCP_SHIFT_BBR3_ACKS_INIT false false false false false.
Definition blank_ctl3 : tcp_shift_bbr3_controller :=
  mk_ctl3 tcp_shift_bbr3_model_init zero_probe3 tcp_shift_bbr3_congestion_init [] []
    0 0 0 0 0 0 0 0 0 0 0 0 false false.
Definition blank_policy3 : tcp_shift_bbr3_controller_policy :=
  mk_ctl3_policy 0 0 0 0 0 false TCP_SHIFT_BBR3_STARTUP.
Definition sample_ack3 (now prior total inflight : Z) : tcp_shift_bbr3_controller_ack :=
  mk_ctl3_ack (mk_rate_sample 1000000 10000000 10000000 10000000 10000000 prior total 10000 10000 9)
    now 0 0 10000 10000 inflight true false true true true false.
Definition run3 (s : tcp_shift_bbr3_controller) (l : list tcp_shift_bbr3_controller_ack)
    : tcp_shift_bbr3_controller :=
  fold_left (fun s a => (tcp_shift_bbr3_controller_on_ack s a blank_policy3).1.2) l s.

Definition start_ctl3 : tcp_shift_bbr3_controller :=
  Eval vm_compute in (tcp_shift_bbr3_controller_init blank_ctl3 10000 1000 17 1).2.
Definition startup_acks : list tcp_shift_bbr3_controller_ack :=
  Eval vm_compute in
    map (fun k => sample_ack3 (k * 10000000) ((k - 1) * 10000) (k * 10000) 10000)
      [1; 2; 3].
(** In STARTUP, one round before the pipe is seen to be full. *)
Definition startup_ctl3 : tcp_shift_bbr3_controller := Eval vm_compute in run3 start_ctl3 startup_acks.
Definition full_ack : tcp_shift_bbr3_controller_ack := sample_ack3 40000000 30000 40000 10000.
(** In ProbeBW DOWN. *)
Definition down_ctl3 : tcp_shift_bbr3_controller :=
  Eval vm_compute in (tcp_shift_bbr3_controller_on_ack startup_ctl3 full_ack blank_policy3).1.2.
Definition late_ack : tcp_shift_bbr3_controller_ack := sample_ack3 3500000000 30000 50000 10000.

Lemma sample_ack3_wf now prior total inflight :
  in_u64 now -> in_u64 prior -> in_u64 total -> in_u32 inflight ->
  ctl3_ack_wf (sample_ack3 now prior total inflight).
Proof. intros. unfold ctl3_ack_wf, rate_sample_wf. cbn. lia. Qed.

Lemma run3_reachable l s : bbr3_reachable s -> Forall ctl3_ack_wf l -> bbr3_reachable (run3 s l).
Proof.
  intros Hs Hl. revert s Hs. induction Hl as [|a l Ha Hl IH]; intros s Hs; [done|].
  cbn. apply IH. destruct (tcp_shift_bbr3_controller_on_ack s a blank_policy3)
    as [[rc s'] p'] eqn:E. by apply (reach3_ack s a blank_policy3 rc s' p').
Qed.

Lemma startup_ctl3_reachable : bbr3_reachable startup_ctl3.
Proof.
  apply (run3_reachable startup_acks start_ctl3).
  - apply (reach3_init blank_ctl3 10000 1000 17 1); try lia. vm_compute. reflexivity.
  - unfold startup_acks. repeat constructor; unfold ctl3_ack_wf, rate_sample_wf; cbn; lia.
Qed.

Lemma down_ctl3_reachable : bbr3_reachable down_ctl3.
Proof.
  apply (run3_reachable [full_ack] startup_ctl3).
  - apply startup_ctl3_reachable.
  - repeat constructor; unfold ctl3_ack_wf, rate_sample_wf; cbn; lia.
Qed.

Definition sample_step (s : tcp_shift_bbr3_controller) (a : tcp_shift_bbr3_controller_ack) :=
  tcp_shift_bbr3_controller_on_ack s a blank_policy3.

Lemma bbr3_ack_progress_witness :
  ctl3_rejects startup_ctl3 full_ack = false /\
  (sample_step startup_ctl3 full_ack).1.1 = 0 /\
  policy3_safe (sample_step startup_ctl3 full_ack).1.2 (sample_step startup_ctl3 full_ack).2.
Proof.
  split; [vm_compute; reflexivity|].
  apply (bbr3_ack_progress startup_ctl3 full_ack blank_policy3);
    [apply startup_ctl3_reachable|apply sample_ack3_wf; lia| |vm_compute; reflexivity].
  unfold sample_step. destruct (tcp_shift_bbr3_controller_on_ack _ _ _) as [[? ?] ?]. reflexivity.
Defined.


Lemma bbr3_probe_liveness_witness :
  p3_cycle_stamp_ns (c3_probe down_ctl3) + 3000000000 <= a3_now_ns late_ack /\
  (b3_phase (c3_model (sample_step down_ctl3 late_ack).1.2) = TCP_SHIFT_BBR3_PROBE_BW_REFILL \/
   b3_phase (c3_model (sample_step down_ctl3 late_ack).1.2) = TCP_SHIFT_BBR3_PROBE_RTT).
Proof.
  split; [vm_compute; discriminate|].
  apply (bbr3_probe_liveness down_ctl3 late_ack blank_policy3 _ (sample_step down_ctl3 late_ack).2).
  - apply down_ctl3_reachable.
  - apply sample_ack3_wf; lia.
  - vm_compute. reflexivity.
  - left. reflexivity.
  - vm_compute. reflexivity.
  - vm_compute. discriminate.
  - vm_compute. discriminate.
Defined.
