(* ===== verification/Bbr3Evidence.v ===== *)
(** * BBRv3 evidence from lwIP ([src/lwip/bbr3_rack_evidence.c],
      [src/lwip/bbr3_loss_round.c], [src/lwip/bbr3_binding.c])

    The per-segment record that turns RACK verdicts into loss events, the
    accounting of a loss round, and the binding that feeds delivery snapshots
    to the controller. *)

From Stdlib Require Import ZArith Lia Bool List Sorted.
From stdpp Require Import base tactics numbers list.
From S2P Require Import Prelude CC Bbr3Model Bbr3Congestion Bbr3Probe Bbr3Controller Bbr3Machine.
From S2P Require Import Rack RackSpec.
Local Open Scope Z_scope.

(** ** Data *)

Record tcp_shift_bbr3_rack_attempt := mk_attempt {
  at_generation : Z;
  at_tx_ns : Z;
  at_delivered_at_tx : Z;
  at_qualified_generation : Z;
  at_revoked_generation : Z;
  at_seq_start : Z;
  at_prior_inflight_bytes : Z;
  at_payload_bytes : Z;
  at_delivered_bytes : Z;
  at_retransmitted : bool;
  at_app_limited : bool;
  at_probe_sample : bool
}.
#[export] Instance eta_attempt : Eta tcp_shift_bbr3_rack_attempt := fun r =>
  mk_attempt (at_generation r) (at_tx_ns r) (at_delivered_at_tx r) (at_qualified_generation r)
    (at_revoked_generation r) (at_seq_start r) (at_prior_inflight_bytes r)
    (at_payload_bytes r) (at_delivered_bytes r) (at_retransmitted r) (at_app_limited r)
    (at_probe_sample r).

Record tcp_shift_bbr3_rack_tx := mk_rack_tx {
  tx_generation : Z;
  tx_tx_ns : Z;
  tx_delivered_at_tx : Z;
  tx_seq_start : Z;
  tx_prior_inflight_bytes : Z;
  tx_payload_bytes : Z;
  tx_already_delivered_bytes : Z;
  tx_retransmitted : bool;
  tx_app_limited : bool;
  tx_probe_sample : bool
}.

Record tcp_shift_bbr3_rack_loss := mk_rack_loss {
  ls_generation : Z;
  ls_tx_ns : Z;
  ls_delivered_at_tx : Z;
  ls_seq_start : Z;
  ls_tx_inflight_bytes : Z;
  ls_newly_lost_bytes : Z;
  ls_retransmitted : bool;
  ls_app_limited : bool;
  ls_probe_sample : bool
}.

Record tcp_shift_bbr3_loss_round := mk_loss_round {
  lr_delivered_start : Z;
  lr_newly_lost_bytes : Z;
  lr_snapshot_delivered_at_tx : Z;
  lr_last_generation : Z;
  lr_last_seq_start : Z;
  lr_snapshot_tx_inflight_bytes : Z;
  lr_event_count : Z;
  lr_active : bool;
  lr_context_consistent : bool;
  lr_all_probe_samples : bool
}.
#[export] Instance eta_loss_round : Eta tcp_shift_bbr3_loss_round := fun r =>
  mk_loss_round (lr_delivered_start r) (lr_newly_lost_bytes r) (lr_snapshot_delivered_at_tx r)
    (lr_last_generation r) (lr_last_seq_start r) (lr_snapshot_tx_inflight_bytes r)
    (lr_event_count r) (lr_active r) (lr_context_consistent r) (lr_all_probe_samples r).

Record tcp_shift_bbr3_loss_round_result := mk_round_result {
  rr_delivered_start : Z;
  rr_delivered_end : Z;
  rr_newly_lost_bytes : Z;
  rr_events : Z;
  rr_tx_inflight_bytes : Z;
  rr_same_send_snapshot : bool;
  rr_loss_fraction_valid : bool;
  rr_qualified_probe_excess_loss : bool
}.

(** ** Per-segment evidence *)

Definition tcp_shift_bbr3_rack_attempt_init : tcp_shift_bbr3_rack_attempt :=
  mk_attempt 0 0 0 0 0 0 0 0 0 false false false.

(** [qualified_generation] and [revoked_generation] survive a retransmission. *)
Definition tcp_shift_bbr3_rack_note_tx (a : tcp_shift_bbr3_rack_attempt)
    (tx : tcp_shift_bbr3_rack_tx) : Z * tcp_shift_bbr3_rack_attempt :=
  if (tx_generation tx =? 0) || (tx_generation tx <=? at_generation a) ||
     (tx_tx_ns tx =? 0) || (tx_payload_bytes tx =? 0) ||
     (tx_already_delivered_bytes tx >=? tx_payload_bytes tx) ||
     (tx_prior_inflight_bytes tx <? tx_payload_bytes tx) ||
     (negb (at_generation a =? 0) && (tx_tx_ns tx <? at_tx_ns a))
  then (-1, a)
  else
    (0, mk_attempt (tx_generation tx) (tx_tx_ns tx) (tx_delivered_at_tx tx)
          (at_qualified_generation a) (at_revoked_generation a) (tx_seq_start tx)
          (tx_prior_inflight_bytes tx) (tx_payload_bytes tx) (tx_already_delivered_bytes tx)
          (tx_retransmitted tx) (tx_app_limited tx) (tx_probe_sample tx)).

Definition tcp_shift_bbr3_rack_note_delivery (a : tcp_shift_bbr3_rack_attempt)
    (total_delivered_bytes : Z) : Z * tcp_shift_bbr3_rack_attempt :=
  if (at_generation a =? 0) || (total_delivered_bytes <? at_delivered_bytes a) ||
     (total_delivered_bytes >? at_payload_bytes a)
  then (-1, a)
  else (0, a <| at_delivered_bytes := total_delivered_bytes |>).

(** The segment handed to RACK. *)
Definition attempt_segment (a : tcp_shift_bbr3_rack_attempt) : tcp_shift_rack_segment :=
  mk_segment (at_tx_ns a) (at_seq_start a) (at_seq_start a +w32 at_payload_bytes a)
    (at_retransmitted a) false.

(** [*out], written on a first qualified loss only. *)
Definition attempt_loss (a : tcp_shift_bbr3_rack_attempt) : tcp_shift_bbr3_rack_loss :=
  mk_rack_loss (at_generation a) (at_tx_ns a) (at_delivered_at_tx a) (at_seq_start a)
    (at_prior_inflight_bytes a) ((at_payload_bytes a - at_delivered_bytes a) mod 65536)
    (at_retransmitted a) (at_app_limited a) (at_probe_sample a).

(** Result: the code, the attempt, the RACK state and [*out]. *)
Definition tcp_shift_bbr3_rack_qualify_loss (a : tcp_shift_bbr3_rack_attempt)
    (rack : tcp_shift_rack_tlp_state) (now_ns in_recovery : Z) (out : tcp_shift_bbr3_rack_loss)
    : Z * tcp_shift_bbr3_rack_attempt * tcp_shift_rack_tlp_state * tcp_shift_bbr3_rack_loss :=
  if (now_ns =? 0) || (at_generation a =? 0) || (now_ns <? at_tx_ns a) || (in_recovery >? 1)
  then (-1, a, rack, out)
  else if (at_qualified_generation a =? at_generation a) ||
          (at_delivered_bytes a >=? at_payload_bytes a)
  then (0, a, rack, out)
  else
    let '(lost, rack, _) := tcp_shift_rack_loss_remaining rack (attempt_segment a) now_ns
                              (negb (in_recovery =? 0)) in
    if lost =? 0 then (0, a, rack, out)
    else (1, a <| at_qualified_generation := at_generation a |>, rack, attempt_loss a).

Definition tcp_shift_bbr3_rack_undo_spurious (a : tcp_shift_bbr3_rack_attempt)
    (generation : Z) : Z * tcp_shift_bbr3_rack_attempt :=
  if generation =? 0 then (-1, a)
  else if negb (generation =? at_qualified_generation a) ||
          (generation =? at_revoked_generation a)
  then (0, a)
  else (1, a <| at_revoked_generation := generation |>).

(** ** Loss rounds *)

Definition tcp_shift_bbr3_loss_round_start (round : tcp_shift_bbr3_loss_round)
    (delivered_start : Z) : Z * tcp_shift_bbr3_loss_round :=
  if lr_active round then (-1, round)
  else (0, mk_loss_round delivered_start 0 0 0 0 0 0 true true true).

(** The context tracking of [loss_round_add]. *)
Definition round_context (round : tcp_shift_bbr3_loss_round) (event : tcp_shift_bbr3_rack_loss)
    : tcp_shift_bbr3_loss_round :=
  if lr_event_count round =? 0 then
    round <| lr_snapshot_delivered_at_tx := ls_delivered_at_tx event |>
          <| lr_snapshot_tx_inflight_bytes := ls_tx_inflight_bytes event |>
  else if negb (lr_snapshot_delivered_at_tx round =? ls_delivered_at_tx event) ||
          negb (lr_snapshot_tx_inflight_bytes round =? ls_tx_inflight_bytes event)
  then round <| lr_context_consistent := false |>
  else round.

Definition tcp_shift_bbr3_loss_round_add (round : tcp_shift_bbr3_loss_round)
    (event : tcp_shift_bbr3_rack_loss) : Z * tcp_shift_bbr3_loss_round :=
  if negb (lr_active round) || (ls_generation event =? 0) ||
     (ls_newly_lost_bytes event =? 0) || (ls_tx_ns event =? 0) ||
     (ls_tx_inflight_bytes event <? ls_newly_lost_bytes event) ||
     ((ls_generation event =? lr_last_generation round) &&
      (ls_seq_start event =? lr_last_seq_start round)) ||
     (lr_event_count round =? UINT32_MAX) ||
     (UINT64_MAX -w64 lr_newly_lost_bytes round <? ls_newly_lost_bytes event)
  then (-1, round)
  else
    let round := round_context round event in
    let round := if negb (ls_probe_sample event)
                 then round <| lr_all_probe_samples := false |> else round in
    (0, round <| lr_last_generation := ls_generation event |>
              <| lr_last_seq_start := ls_seq_start event |>
              <| lr_event_count := lr_event_count round +w32 1 |>
              <| lr_newly_lost_bytes := lr_newly_lost_bytes round +w64 ls_newly_lost_bytes event |>).

(** Result: the code, the round and [*result]. *)
Definition tcp_shift_bbr3_loss_round_finish (round : tcp_shift_bbr3_loss_round)
    (delivered_end packet_timed_round_complete : Z) (result : tcp_shift_bbr3_loss_round_result)
    : Z * tcp_shift_bbr3_loss_round * tcp_shift_bbr3_loss_round_result :=
  if negb (lr_active round) || negb (packet_timed_round_complete =? 1) ||
     (delivered_end <=? lr_delivered_start round)
  then (-1, round, result)
  else
    let ratio_valid := negb (lr_event_count round =? 0) && lr_context_consistent round &&
                       negb (lr_snapshot_tx_inflight_bytes round =? 0) in
    (0, round <| lr_active := false |>,
     mk_round_result (lr_delivered_start round) delivered_end (lr_newly_lost_bytes round)
       (lr_event_count round)
       (if ratio_valid then lr_snapshot_tx_inflight_bytes round else 0)
       (negb (lr_event_count round =? 0) && lr_context_consistent round)
       ratio_valid
       (ratio_valid && lr_all_probe_samples round &&
        ((lr_newly_lost_bytes round >? UINT32_MAX) ||
         (lr_newly_lost_bytes round *w64 100 >? lr_snapshot_tx_inflight_bytes round *w64 2)))).

(** ** The binding

    lwIP's control block and the adapter are seen through the fields the
    binding reads; [ad_pcb] and [pcb_addr] stand for the pointers compared. *)

Record tcp_pcb_view := mk_pcb_view {
  pcb_addr : Z; pcb_mss : Z; pcb_cwnd : Z; pcb_snd_nxt : Z; pcb_lastack : Z
}.

Record cc_adapter_view := mk_adapter_view {
  ad_bound : bool; ad_pcb : Z; ad_sack_delivery_policy : bool; ad_delivered_bytes : Z
}.

(** [bd_attached]: [adapter] and [pcb] are non-NULL. *)
Record tcp_shift_lwip_bbr3_binding := mk_binding {
  bd_controller : tcp_shift_bbr3_controller;
  bd_attached : bool;
  bd_last_delivered_bytes : Z;
  bd_last_ack_ns : Z;
  bd_accepted_samples : Z;
  bd_rejected_samples : Z;
  bd_initialized : bool
}.
#[export] Instance eta_binding : Eta tcp_shift_lwip_bbr3_binding := fun r =>
  mk_binding (bd_controller r) (bd_attached r) (bd_last_delivered_bytes r) (bd_last_ack_ns r)
    (bd_accepted_samples r) (bd_rejected_samples r) (bd_initialized r).

Definition tcp_shift_lwip_bbr3_live (b : tcp_shift_lwip_bbr3_binding) (adapter : cc_adapter_view)
    (pcb : tcp_pcb_view) : bool :=
  bd_initialized b && bd_attached b && ad_bound adapter && (ad_pcb adapter =? pcb_addr pcb) &&
  ad_sack_delivery_policy adapter && (pcb_mss pcb =? c3_mss_bytes (bd_controller b)).

Definition tcp_shift_lwip_bbr3_binding_init (b : tcp_shift_lwip_bbr3_binding)
    (adapter : cc_adapter_view) (pcb : tcp_pcb_view) (flow_seed now_ns : Z)
    : Z * tcp_shift_lwip_bbr3_binding :=
  if bd_initialized b || negb (ad_bound adapter) || negb (ad_pcb adapter =? pcb_addr pcb) ||
     negb (ad_sack_delivery_policy adapter) || (pcb_mss pcb =? 0) ||
     (pcb_cwnd pcb <? pcb_mss pcb *w32 4) || (now_ns =? 0) || (flow_seed =? 0)
  then (-1, b)
  else
    let '(rc, controller) := tcp_shift_bbr3_controller_init (bd_controller b) (pcb_cwnd pcb)
                               (pcb_mss pcb) flow_seed now_ns in
    if rc <? 0 then (-1, b <| bd_controller := controller |>)
    else (0, mk_binding controller true (ad_delivered_bytes adapter) now_ns 0 0 true).

(** The first validation of [binding_on_ack]. *)
Definition binding_sample_invalid (b : tcp_shift_lwip_bbr3_binding) (adapter : cc_adapter_view)
    (ack : tcp_shift_cc_ack) : bool :=
  let rate := ack_rate ack in
  (ack_ack_time_ns ack =? 0) || (ack_ack_time_ns ack <? bd_last_ack_ns b) ||
  negb (has_flag rate TCP_SHIFT_CC_RATE_SAMPLE_VALID) ||
  (rs_delivery_rate_bytes_per_sec rate =? 0) || (rs_interval_ns rate =? 0) ||
  (rs_prior_delivered_bytes rate >? rs_delivered_total_bytes rate) ||
  (rs_delivered_total_bytes rate <=? bd_last_delivered_bytes b) ||
  negb (rs_delivered_total_bytes rate =? ad_delivered_bytes adapter) ||
  (rs_prior_inflight_bytes rate =? 0) ||
  (has_flag rate TCP_SHIFT_CC_RATE_SAMPLE_RTT_VALID && (rs_rtt_ns rate =? 0)).

(** The second validation: the byte counts of the sample agree. *)
Definition binding_bytes_mismatch (b : tcp_shift_lwip_bbr3_binding) (ack : tcp_shift_cc_ack)
    : bool :=
  let rate := ack_rate ack in
  let delivered_since_last := rs_delivered_total_bytes rate -w64 bd_last_delivered_bytes b in
  let sampled := rs_delivered_total_bytes rate -w64 rs_prior_delivered_bytes rate in
  (delivered_since_last >? UINT32_MAX) ||
  negb (ack_acked_bytes ack =? u32 delivered_since_last) || (sampled =? 0) ||
  negb (rs_delivered_bytes rate =? (if sampled >? UINT32_MAX then UINT32_MAX else u32 sampled)).

(** [struct tcp_shift_bbr3_controller_ack input]. *)
Definition binding_input (pcb : tcp_pcb_view) (ack : tcp_shift_cc_ack)
    : tcp_shift_bbr3_controller_ack :=
  mk_ctl3_ack (ack_rate ack) (ack_ack_time_ns ack) 0 0 (rs_prior_inflight_bytes (ack_rate ack))
    (ack_acked_bytes ack) (pcb_snd_nxt pcb -w32 pcb_lastack pcb)
    false false false false false false.

Definition tcp_shift_lwip_bbr3_binding_on_ack (b : tcp_shift_lwip_bbr3_binding)
    (adapter : cc_adapter_view) (pcb : tcp_pcb_view) (ack : tcp_shift_cc_ack)
    (candidate : tcp_shift_bbr3_controller_policy)
    : Z * tcp_shift_lwip_bbr3_binding * tcp_shift_bbr3_controller_policy :=
  let rejected b := b <| bd_rejected_samples := bd_rejected_samples b +w64 1 |> in
  if negb (tcp_shift_lwip_bbr3_live b adapter pcb) then (-1, b, candidate)
  else if binding_sample_invalid b adapter ack || binding_bytes_mismatch b ack
  then (-1, rejected b, candidate)
  else
    let '(rc, controller, candidate) :=
      tcp_shift_bbr3_controller_on_ack (bd_controller b) (binding_input pcb ack) candidate in
    let b := b <| bd_controller := controller |> in
    if rc <? 0 then (-1, rejected b, candidate)
    else
      (0, b <| bd_last_delivered_bytes := rs_delivered_total_bytes (ack_rate ack) |>
            <| bd_last_ack_ns := ack_ack_time_ns ack |>
            <| bd_accepted_samples := bd_accepted_samples b +w64 1 |>, candidate).

(** ** Exactly-once evidence *)

(** Any sequence of calls on one slot; RACK's state and the clock are whatever
    the transport has at the call. *)
Inductive attempt_op :=
  | AtTx (tx : tcp_shift_bbr3_rack_tx)
  | AtDeliver (total : Z)
  | AtQualify (rack : tcp_shift_rack_tlp_state) (now in_recovery : Z)
  | AtUndo (generation : Z).

Definition attempt_op_wf (op : attempt_op) : Prop :=
  match op with
  | AtTx tx => in_u64 (tx_generation tx) /\ in_u64 (tx_tx_ns tx) /\
      0 <= tx_already_delivered_bytes tx /\ 0 <= tx_payload_bytes tx <= 65535 /\
      in_u32 (tx_prior_inflight_bytes tx)
  | AtDeliver total => 0 <= total <= 65535
  | AtQualify rack now in_recovery => rack_wf rack /\ in_u64 now /\ in_u32 in_recovery
  | AtUndo generation => in_u64 generation
  end.

(** A reported loss with the circumstances of the call that reported it. *)
Record loss_report := mk_report {
  rp_attempt : tcp_shift_bbr3_rack_attempt;
  rp_rack : tcp_shift_rack_tlp_state;
  rp_now : Z;
  rp_in_recovery : Z;
  rp_loss : tcp_shift_bbr3_rack_loss
}.

(** The slot with the losses reported and the undos granted, newest first. *)
Record evidence := mk_evidence {
  ev_attempt : tcp_shift_bbr3_rack_attempt;
  ev_losses : list loss_report;
  ev_undone : list Z
}.

Definition blank_loss : tcp_shift_bbr3_rack_loss := mk_rack_loss 0 0 0 0 0 0 false false false.

Definition attempt_step (e : evidence) (op : attempt_op) : evidence :=
  let a := ev_attempt e in
  match op with
  | AtTx tx => mk_evidence (tcp_shift_bbr3_rack_note_tx a tx).2 (ev_losses e) (ev_undone e)
  | AtDeliver total =>
      mk_evidence (tcp_shift_bbr3_rack_note_delivery a total).2 (ev_losses e) (ev_undone e)
  | AtQualify rack now in_recovery =>
      let '(rc, a', _, out) :=
        tcp_shift_bbr3_rack_qualify_loss a rack now in_recovery blank_loss in
      mk_evidence a' (if rc =? 1 then mk_report a rack now in_recovery out :: ev_losses e
                      else ev_losses e) (ev_undone e)
  | AtUndo generation =>
      let '(rc, a') := tcp_shift_bbr3_rack_undo_spurious a generation in
      mk_evidence a' (ev_losses e)
        (if rc =? 1 then generation :: ev_undone e else ev_undone e)
  end.

Definition evidence_run (ops : list attempt_op) : evidence :=
  fold_left attempt_step ops (mk_evidence tcp_shift_bbr3_rack_attempt_init [] []).

Definition report_generation (r : loss_report) : Z := ls_generation (rp_loss r).

(** RACK's verdict stood behind the report and its byte count is exact. *)
Definition report_justified (r : loss_report) : Prop :=
  let seg := attempt_segment (rp_attempt r) in
  rack_judges (rp_rack r) seg = true /\
  rack_deadline (rp_rack r) seg (negb (rp_in_recovery r =? 0)) <= rp_now r /\
  rp_loss r = mk_rack_loss (at_generation (rp_attempt r)) (at_tx_ns (rp_attempt r))
    (at_delivered_at_tx (rp_attempt r)) (at_seq_start (rp_attempt r))
    (at_prior_inflight_bytes (rp_attempt r))
    (at_payload_bytes (rp_attempt r) - at_delivered_bytes (rp_attempt r))
    (at_retransmitted (rp_attempt r)) (at_app_limited (rp_attempt r))
    (at_probe_sample (rp_attempt r)) /\
  0 < ls_newly_lost_bytes (rp_loss r) <= ls_tx_inflight_bytes (rp_loss r).

Definition attempt_ok (a : tcp_shift_bbr3_rack_attempt) : Prop :=
  0 <= at_revoked_generation a <= at_qualified_generation a /\
  at_qualified_generation a <= at_generation a /\
  (at_generation a <> 0 -> in_u64 (at_tx_ns a) /\
   0 <= at_delivered_bytes a <= at_payload_bytes a /\ at_payload_bytes a <= 65535 /\
   at_payload_bytes a <= at_prior_inflight_bytes a).

Definition evidence_ok (e : evidence) : Prop :=
  attempt_ok (ev_attempt e) /\
  StronglySorted Z.gt (map report_generation (ev_losses e)) /\
  Forall (fun g => g <= at_qualified_generation (ev_attempt e))
    (map report_generation (ev_losses e)) /\
  (at_qualified_generation (ev_attempt e) = 0 \/
   In (at_qualified_generation (ev_attempt e)) (map report_generation (ev_losses e))) /\
  Forall report_justified (ev_losses e) /\
  StronglySorted Z.gt (ev_undone e) /\
  Forall (fun g => g <= at_revoked_generation (ev_attempt e) /\
                   In g (map report_generation (ev_losses e))) (ev_undone e).

Lemma note_tx_ok a tx :
  attempt_ok a -> attempt_op_wf (AtTx tx) ->
  attempt_ok (tcp_shift_bbr3_rack_note_tx a tx).2 /\
  at_qualified_generation (tcp_shift_bbr3_rack_note_tx a tx).2 = at_qualified_generation a /\
  at_revoked_generation (tcp_shift_bbr3_rack_note_tx a tx).2 = at_revoked_generation a.
Proof.
  intros (Hr & Hq & Hf) (?&?&?&?&?). unfold tcp_shift_bbr3_rack_note_tx.
  destruct (_ || _) eqn:E; [done|]. split; [|done]. unfold attempt_ok. cbn.
  split; [done|]. split; [lia|]. intros _. lia.
Qed.

Lemma note_delivery_ok a n :
  attempt_ok a ->
  attempt_ok (tcp_shift_bbr3_rack_note_delivery a n).2 /\
  at_qualified_generation (tcp_shift_bbr3_rack_note_delivery a n).2 = at_qualified_generation a /\
  at_revoked_generation (tcp_shift_bbr3_rack_note_delivery a n).2 = at_revoked_generation a.
Proof.
  intros (Hr & Hq & Hf). unfold tcp_shift_bbr3_rack_note_delivery.
  destruct (_ || _) eqn:E; [done|]. split; [|done]. unfold attempt_ok. cbn.
  split; [done|]. split; [done|]. intros Hg. specialize (Hf Hg). lia.
Qed.

(** A fresh report carries a generation above every earlier one. *)
Lemma qualify_loss_ok a rack now rec rc a' rack' out :
  attempt_ok a -> attempt_op_wf (AtQualify rack now rec) ->
  tcp_shift_bbr3_rack_qualify_loss a rack now rec blank_loss = (rc, a', rack', out) ->
  (rc <> 1 /\ a' = a) \/
  (rc = 1 /\ attempt_ok a' /\ report_justified (mk_report a rack now rec out) /\
   ls_generation out = at_generation a /\ at_qualified_generation a' = at_generation a /\
   at_revoked_generation a' = at_revoked_generation a /\
   at_qualified_generation a < at_generation a).
Proof.
  intros (Hr & Hq & Hf) (Hw & Hn & Hrec). unfold tcp_shift_bbr3_rack_qualify_loss.
  destruct (_ || _ || _ || _) eqn:E1; [intros [= <- <- _ _]; by left|].
  destruct ((at_qualified_generation a =? at_generation a) || _) eqn:E2;
    [intros [= <- <- _ _]; by left|].
  assert (Hg : at_generation a <> 0) by lia. destruct (Hf Hg) as (Htx & Hd & Hp & Hi).
  pose proof (rack_loss_remaining_spec rack (attempt_segment a) now (negb (rec =? 0))
    Hw Htx Hn) as Hs.
  destruct (tcp_shift_rack_loss_remaining _ _ _ _) as [[lost rack1] rem]. destruct Hs as [-> _].
  destruct (rack_judges rack (attempt_segment a) && _) eqn:Ej; cbn [Z.eqb];
    [|intros [= <- <- _ _]; by left].
  apply andb_true_iff in Ej as [Ej Ed]. intros [= <- <- _ <-]. right. cbn.
  split; [done|]. split; [unfold attempt_ok; cbn; split; [lia|split; [lia|done]]|].
  assert (Hm : (at_payload_bytes a - at_delivered_bytes a) mod 65536 =
    at_payload_bytes a - at_delivered_bytes a) by (apply Z.mod_small; lia).
  split; [|lia]. split; [done|]. split; [cbn; lia|].
  split; [cbn; unfold attempt_loss; by rewrite Hm|]. cbn. rewrite Hm. lia.
Qed.

Lemma evidence_step_ok e op : evidence_ok e -> attempt_op_wf op -> evidence_ok (attempt_step e op).
Proof.
  intros (Ha & Hs & Hle & Hin & Hj & Hu & Hul) Hop. unfold evidence_ok.
  destruct op as [tx|n|rack now rec|g]; cbn [attempt_step].
  - destruct (note_tx_ok _ tx Ha Hop) as (H1 & H2 & H3). cbn. by rewrite H2, H3.
  - destruct (note_delivery_ok _ n Ha) as (H1 & H2 & H3). cbn. by rewrite H2, H3.
  - destruct (tcp_shift_bbr3_rack_qualify_loss _ _ _ _ _) as [[[rc a'] rk'] out] eqn:E.
    destruct (qualify_loss_ok _ _ _ _ _ _ _ _ Ha Hop E)
      as [[Hrc ->]|(-> & Ha' & Hrep & Eg & Eq & Er & Hlt)].
    { destruct (rc =? 1) eqn:E1; [lia|]. done. }
    cbn. unfold report_generation at 1 3 5. cbn. rewrite Eg, Eq, Er.
    split; [done|]. split.
    { constructor; [done|]. eapply Forall_impl; [exact Hle|]. cbn. intros g Hg. lia. }
    split; [constructor; [lia|]; eapply Forall_impl; [exact Hle|]; cbn; lia|].
    split; [right; by left|]. split; [by constructor|]. split; [done|].
    eapply Forall_impl; [exact Hul|]. cbn. intros g [? ?]. split; [done|]. by right.
  - unfold tcp_shift_bbr3_rack_undo_spurious. destruct (g =? 0) eqn:E0; [done|].
    destruct (_ || _) eqn:E1; [done|]. cbn.
    destruct Ha as (Hr & Hq & Hf). assert (g = at_qualified_generation (ev_attempt e)) as -> by lia.
    split; [unfold attempt_ok; cbn; split; [lia|split; [lia|done]]|].
    split; [done|]. split; [done|]. split; [done|].
    split; [done|]. split.
    + constructor; [done|]. eapply Forall_impl; [exact Hul|]. cbn. lia.
    + constructor.
      * split; [done|]. destruct Hin as [?|?]; [lia|done].
      * eapply Forall_impl; [exact Hul|]. cbn. intros g [? ?]. split; [lia|done].
Qed.

Lemma evidence_run_ok ops : Forall attempt_op_wf ops -> evidence_ok (evidence_run ops).
Proof.
  intros H. unfold evidence_run.
  assert (H0 : evidence_ok (mk_evidence tcp_shift_bbr3_rack_attempt_init [] [])).
  { unfold evidence_ok, attempt_ok. cbn. split_and!; try lia; try constructor; done. }
  revert H0. generalize (mk_evidence tcp_shift_bbr3_rack_attempt_init [] []).
  induction H as [|op ops Hop _ IH]; intros e He; [done|]. cbn. by apply IH, evidence_step_ok.
Qed.

(** C13. Loss evidence is exact. Over any sequence of transmissions, deliveries,
    RACK checks and undo requests on a slot, the generations reported lost are
    strictly increasing (no transmission is ever reported twice), each report
    is backed by RACK's RFC 8985 verdict at that moment and counts exactly the
    undelivered payload, and an undo is granted at most once and only for a
    reported generation. *)
Theorem rack_evidence_exactly_once ops :
  Forall attempt_op_wf ops ->
  let e := evidence_run ops in
  StronglySorted Z.gt (map report_generation (ev_losses e)) /\
  Forall report_justified (ev_losses e) /\
  StronglySorted Z.gt (ev_undone e) /\
  Forall (fun g => In g (map report_generation (ev_losses e))) (ev_undone e).
Proof.
  intros H. destruct (evidence_run_ok ops H) as (_ & Hs & _ & _ & Hj & Hu & Hul).
  split; [done|]. split; [done|]. split; [done|].
  eapply Forall_impl; [exact Hul|]. by intros g [_ ?].
Qed.

(** ** Loss rounds as sums of events *)

Definition same_key (x : option tcp_shift_bbr3_rack_loss) (e : tcp_shift_bbr3_rack_loss) : bool :=
  match x with
  | Some l => (ls_generation e =? ls_generation l) && (ls_seq_start e =? ls_seq_start l)
  | None => false
  end.

(** The events a round takes: well-formed ones that do not repeat the event
    just taken. *)
Fixpoint round_takes (prev : option tcp_shift_bbr3_rack_loss)
    (evs : list tcp_shift_bbr3_rack_loss) : list tcp_shift_bbr3_rack_loss :=
  match evs with
  | [] => []
  | e :: evs' =>
      if negb (ls_generation e =? 0) && negb (ls_newly_lost_bytes e =? 0) &&
         negb (ls_tx_ns e =? 0) && (ls_newly_lost_bytes e <=? ls_tx_inflight_bytes e) &&
         negb (same_key prev e)
      then e :: round_takes (Some e) evs' else round_takes prev evs'
  end.

Definition lost_sum (l : list tcp_shift_bbr3_rack_loss) : Z :=
  foldr (fun e n => ls_newly_lost_bytes e + n) 0 l.

Definition same_context (e e' : tcp_shift_bbr3_rack_loss) : bool :=
  (ls_delivered_at_tx e =? ls_delivered_at_tx e') &&
  (ls_tx_inflight_bytes e =? ls_tx_inflight_bytes e').

(** All events share the send snapshot of the first. *)
Definition one_context (l : list tcp_shift_bbr3_rack_loss) : bool :=
  match l with [] => true | e :: l' => forallb (same_context e) l' end.

Definition add_all (r : tcp_shift_bbr3_loss_round) (evs : list tcp_shift_bbr3_rack_loss)
    : tcp_shift_bbr3_loss_round :=
  fold_left (fun r e => (tcp_shift_bbr3_loss_round_add r e).2) evs r.

Definition event_wf (e : tcp_shift_bbr3_rack_loss) : Prop :=
  0 <= ls_newly_lost_bytes e <= 65535 /\ in_u32 (ls_tx_inflight_bytes e).

(** The round as a summary of the events taken so far. *)
Definition round_holds (r : tcp_shift_bbr3_loss_round) (start : Z)
    (l : list tcp_shift_bbr3_rack_loss) : Prop :=
  lr_active r = true /\ lr_delivered_start r = start /\
  lr_newly_lost_bytes r = lost_sum l /\ lr_event_count r = Z.of_nat (length l) /\
  lr_context_consistent r = one_context l /\
  lr_all_probe_samples r = forallb ls_probe_sample l /\
  Forall event_wf l /\
  match head l with
  | Some e => lr_snapshot_delivered_at_tx r = ls_delivered_at_tx e /\
              lr_snapshot_tx_inflight_bytes r = ls_tx_inflight_bytes e
  | None => lr_snapshot_tx_inflight_bytes r = 0
  end /\
  match last l with
  | Some e => lr_last_generation r = ls_generation e /\ lr_last_seq_start r = ls_seq_start e
  | None => lr_last_generation r = 0
  end.

Lemma lost_sum_app l l' : lost_sum (l ++ l') = lost_sum l + lost_sum l'.
Proof. unfold lost_sum. induction l as [|e l IH]; cbn; lia. Qed.

Lemma lost_sum_bound l :
  Forall event_wf l -> 0 <= lost_sum l <= 65535 * Z.of_nat (length l).
Proof. unfold lost_sum. induction 1 as [|e l [? _] _ IH]; cbn [foldr length]; lia. Qed.

Lemma one_context_app l e :
  one_context (l ++ [e]) =
  one_context l && match head l with Some e0 => same_context e0 e | None => true end.
Proof.
  destruct l as [|e0 l]; [done|]. cbn. rewrite forallb_app. cbn. by rewrite andb_true_r.
Qed.

Lemma round_context_spec r e start l :
  round_holds r start l ->
  let r' := round_context r e in
  lr_context_consistent r' = one_context (l ++ [e]) /\
  (match head (l ++ [e]) with
   | Some e0 => lr_snapshot_delivered_at_tx r' = ls_delivered_at_tx e0 /\
                lr_snapshot_tx_inflight_bytes r' = ls_tx_inflight_bytes e0
   | None => False
   end) /\
  lr_active r' = true /\ lr_delivered_start r' = start /\
  lr_newly_lost_bytes r' = lost_sum l /\ lr_event_count r' = Z.of_nat (length l) /\
  lr_all_probe_samples r' = forallb ls_probe_sample l.
Proof.
  intros (?&?&?&Hc&Hctx&Hp&?&Hh&?). cbn zeta. rewrite one_context_app.
  unfold round_context. destruct l as [|e0 l]; cbn [head app length] in *.
  { rewrite Hc. change (Z.of_nat 0 =? 0) with true. cbn. by rewrite Hctx. }
  destruct (lr_event_count r =? 0) eqn:E; [lia|]. destruct Hh as [Hd Hi].
  rewrite Hd, Hi. unfold same_context.
  destruct (ls_delivered_at_tx e0 =? ls_delivered_at_tx e),
    (ls_tx_inflight_bytes e0 =? ls_tx_inflight_bytes e); cbn;
    rewrite ?andb_true_r, ?andb_false_r; done.
Qed.

Lemma loss_round_add_spec r e start l :
  round_holds r start l -> event_wf e -> Z.of_nat (length l) < UINT32_MAX ->
  round_holds (tcp_shift_bbr3_loss_round_add r e).2 start
    (l ++ round_takes (last l) [e]).
Proof.
  intros Hr He Hlen. pose proof (round_context_spec r e start l Hr) as Hc.
  pose proof Hr as (Ha & Hs & Hl & Hn & Hctx & Hp & Hw & Hh & Hlast).
  pose proof (lost_sum_bound l Hw) as Hb. destruct He as [He1 He2].
  unfold tcp_shift_bbr3_loss_round_add. cbn [round_takes].
  assert (Hkey : negb (ls_generation e =? 0) = true ->
    (ls_generation e =? lr_last_generation r) && (ls_seq_start e =? lr_last_seq_start r)
    = same_key (last l) e).
  { intros Hg. unfold same_key. destruct (last l); [destruct Hlast as [-> ->]; done|].
    rewrite Hlast. by rewrite (proj1 (negb_true_iff _) Hg). }
  rewrite Ha, Hl, Hn, (u64_small (UINT64_MAX - lost_sum l)) by lia. cbn [negb orb].
  rewrite (proj2 (Z.eqb_neq (Z.of_nat (length l)) UINT32_MAX)), orb_false_r by lia.
  rewrite (proj2 (Z.ltb_ge (UINT64_MAX - lost_sum l) (ls_newly_lost_bytes e))), orb_false_r by lia.
  destruct (ls_generation e =? 0) eqn:E0; cbn [negb orb andb]; [by rewrite app_nil_r|].
  rewrite Hkey by done. destruct (ls_newly_lost_bytes e =? 0) eqn:E1; cbn [negb orb andb];
    [by rewrite app_nil_r|].
  destruct (ls_tx_ns e =? 0) eqn:E2; cbn [negb orb andb]; [by rewrite app_nil_r|].
  rewrite Z.leb_antisym. destruct (_ <? ls_newly_lost_bytes e) eqn:E3; cbn [negb orb andb];
    [by rewrite app_nil_r|].
  destruct (same_key (last l) e); cbn [negb]; [by rewrite app_nil_r|].
  set (r1 := round_context r e) in *. clearbody r1.
  destruct Hc as (C1 & C2 & C3 & C4 & C5 & C6 & C7).
  unfold round_holds. rewrite lost_sum_app, length_app, last_snoc, forallb_app, Forall_app.
  cbn [snd length lost_sum foldr forallb].
  destruct (ls_probe_sample e); cbn [negb]; cbn; rewrite C1, C3, C4, C5, C6, ?C7, ?andb_true_r,
    ?andb_false_r, (u32_small (_ + 1)), (u64_small (lost_sum l + _)) by lia;
    (split_and!; try done; try lia; [constructor; [done|constructor]|];
     destruct (head (l ++ [e])); done).
Qed.

Lemma round_takes_cons p e evs :
  round_takes p (e :: evs) =
  round_takes p [e] ++
  round_takes (match round_takes p [e] with [] => p | _ => Some e end) evs.
Proof. cbn. by destruct (_ && _ && _ && _ && _). Qed.

Lemma round_takes_one p e : round_takes p [e] = [] \/ round_takes p [e] = [e].
Proof. cbn. destruct (_ && _ && _ && _ && _); [by right|by left]. Qed.

Lemma round_takes_flight p evs :
  Forall event_wf evs -> Forall (fun e => 1 <= ls_tx_inflight_bytes e <= UINT32_MAX) (round_takes p evs).
Proof.
  intros H. revert p. induction H as [|e evs [He1 He2] _ IH]; intros p; [constructor|].
  cbn. destruct (_ && _ && _ && _ && _) eqn:E; [|apply IH]. constructor; [|apply IH].
  repeat (apply andb_true_iff in E as [E ?]). lia.
Qed.

Lemma add_all_spec evs : forall r start l,
  round_holds r start l -> Forall event_wf evs ->
  Z.of_nat (length l) + Z.of_nat (length evs) <= UINT32_MAX ->
  round_holds (add_all r evs) start (l ++ round_takes (last l) evs).
Proof.
  induction evs as [|e evs IH]; intros r start l Hr Hw Hlen.
  { cbn. by rewrite app_nil_r. }
  apply Forall_cons in Hw as [He Hw]. cbn [length] in Hlen.
  pose proof (loss_round_add_spec r e start l Hr He ltac:(lia)) as H1.
  rewrite round_takes_cons, app_assoc. cbn [add_all fold_left].
  destruct (round_takes_one (last l) e) as [E|E]; rewrite E in *.
  - rewrite app_nil_r in *. apply IH; [done|done|lia].
  - replace (Some e) with (last (l ++ [e])) by apply last_snoc. apply IH; [done|done|rewrite length_app; cbn; lia].
Qed.

(** A loss round is the sum of its events. Started, fed any events and
    finished at a completed packet-timed round, it reports exactly the events
    that are well-formed and do not repeat their predecessor: their number and
    bytes, whether all share one send snapshot (only then is a loss fraction
    formed), and excess loss exactly when all are probe samples and more than
    2% of that flight was lost. *)
Theorem loss_round_refines_sum r0 start r1 evs fin res :
  tcp_shift_bbr3_loss_round_start r0 start = (0, r1) ->
  Forall event_wf evs -> Z.of_nat (length evs) <= UINT32_MAX -> start < fin ->
  let l := round_takes None evs in
  let valid := negb (Nat.eqb (length l) 0) && one_context l in
  let flight := match head l with Some e => ls_tx_inflight_bytes e | None => 0 end in
  tcp_shift_bbr3_loss_round_finish (add_all r1 evs) fin 1 res =
  (0, add_all r1 evs <| lr_active := false |>,
   mk_round_result start fin (lost_sum l) (Z.of_nat (length l)) (if valid then flight else 0)
     valid valid
     (valid && forallb ls_probe_sample l && (flight * 2 <? lost_sum l * 100))).
Proof.
  unfold tcp_shift_bbr3_loss_round_start. destruct (lr_active r0); [done|].
  intros [= <-] Hw Hlen Hfin. cbn zeta.
  assert (H0 : round_holds (mk_loss_round start 0 0 0 0 0 0 true true true) start [])
    by (split_and!; try done; constructor).
  pose proof (add_all_spec evs _ start [] H0 Hw ltac:(cbn; lia)) as Hr.
  pose proof (round_takes_flight None evs Hw) as Hfl.
  cbn [app last] in Hr. set (l := round_takes None evs) in *. clearbody l.
  set (r := add_all _ evs) in *. clearbody r.
  destruct Hr as (Ha & Hs & Hl & Hn & Hctx & Hp & Hwl & Hh & _).
  unfold tcp_shift_bbr3_loss_round_finish. rewrite Ha, Hs, Hl, Hn, Hctx, Hp. cbn [negb orb Z.eqb].
  pose proof (lost_sum_bound l Hwl) as Hb.
  rewrite (proj2 (Z.leb_gt fin start)) by lia. cbn [orb Pos.eqb negb].
  destruct l as [|e l]; cbn [head length] in *; [reflexivity|].
  apply Forall_cons in Hfl as [Hfl _]. destruct Hh as [_ Hi].
  rewrite Hi, (proj2 (Z.eqb_neq (ls_tx_inflight_bytes e) 0)) by lia.
  rewrite (proj2 (Z.eqb_neq (Z.of_nat (S (length l))) 0)) by lia.
  cbn [negb Nat.eqb andb]. rewrite andb_true_r. do 2 f_equal. f_equal.
  set (x := lost_sum (e :: l)) in *. clearbody x.
  rewrite (u64_small (ls_tx_inflight_bytes e * 2)), !Z.gtb_ltb by lia.
  destruct (UINT32_MAX <? x) eqn:E; cbn [orb].
  - symmetry. apply Z.ltb_lt. lia.
  - by rewrite u64_small by lia.
Qed.

(** ** The binding is fail-closed *)

(** No congestion bound has been installed. *)
Definition unbounded (c : tcp_shift_bbr3_congestion) : Prop :=
  cg_bw_shortterm_bytes_per_sec c = TCP_SHIFT_BBR3_UNBOUNDED /\
  cg_inflight_shortterm_bytes c = TCP_SHIFT_BBR3_UNBOUNDED /\
  cg_inflight_longterm_bytes c = TCP_SHIFT_BBR3_UNBOUNDED.

(** A quiet step: bounds stay uninstalled, the aggregation clock is not moved
    and the segment size is kept. *)
Definition quiet (s s' : tcp_shift_bbr3_controller) : Prop :=
  (unbounded (c3_congestion s) -> unbounded (c3_congestion s')) /\
  c3_extra_acked_interval_stamp_ns s' = c3_extra_acked_interval_stamp_ns s /\
  c3_mss_bytes s' = c3_mss_bytes s.

#[local] Instance quiet_preorder : PreOrder quiet.
Proof. split; [done|]. intros x y z (?&?&?) (?&?&?). split_and!; [auto|congruence..]. Qed.

Lemma advance_phase_quiet s a signal : quiet s (ctl3_advance_phase s a signal).
Proof.
  unfold ctl3_advance_phase. cbn zeta.
  set (s1 := ctl3_startup_to_drain s).
  assert (H1 : quiet s s1) by (unfold s1, ctl3_startup_to_drain; by destruct (_ && _)).
  set (s2 := ctl3_drain_to_probe s1 a).
  assert (H2 : quiet s1 s2).
  { unfold s2, ctl3_drain_to_probe. destruct (bool_decide _); [|done].
    destruct (_ && _); [|done]. by destruct (tcp_shift_bbr3_probe_enter _ _ _ _ _) as [[? ?] ?]. }
  set (s3 := ctl3_probe_bw s2 a _ signal).
  assert (H3 : quiet s2 s3).
  { unfold s3, ctl3_probe_bw. destruct (in_probe_bw _); [|done].
    destruct (tcp_shift_bbr3_probe_on_ack _ _ _) as [[? ?] ?].
    destruct (_ && _); [|done]. split; [|done]. by intros (?&?&?). }
  transitivity s3; [by repeat (etransitivity; [eassumption|])|]. clear H1 H2 H3.
  clearbody s3. unfold ctl3_update_probe_rtt. cbn zeta.
  set (s4 := ctl3_probe_rtt_enter s3 a).
  assert (H4 : quiet s3 s4) by (unfold s4, ctl3_probe_rtt_enter; by destruct (_ && _)).
  transitivity s4; [done|]. clearbody s4. destruct (bool_decide _); [done|].
  destruct (_ =? 0); [by destruct (_ <=? _)|].
  set (s5 := if _ && _ then _ else s4). assert (H5 : quiet s4 s5) by (unfold s5; by destruct (_ && _)).
  transitivity s5; [done|]. clearbody s5. destruct (_ || _); [done|].
  unfold ctl3_probe_rtt_exit. cbn zeta. destruct (b3_full_bw_reached _).
  - destruct (tcp_shift_bbr3_probe_enter _ _ _ _ _) as [[rc ?] ?].
    split; [|by destruct (rc =? 0)]. intros (?&?&?). done.
  - split; [|done]. by intros (?&?&?).
Qed.

Lemma aggregation_stamp s a :
  let s' := ctl3_update_ack_aggregation s a in
  c3_extra_acked_interval_stamp_ns s' = c3_extra_acked_interval_stamp_ns s \/
  c3_extra_acked_interval_stamp_ns s' = a3_now_ns a.
Proof.
  cbn zeta. unfold ctl3_update_ack_aggregation. cbn zeta.
  destruct (_ <=? _); destruct (negb _); cbn; auto.
Qed.

(** An accepted ACK without loss or ECN evidence. *)
Lemma ctl3_on_ack_quiet s a p s' p' :
  ctl3_ok s -> ctl3_ack_wf a -> a3_probe_sample a = false -> a3_loss_round_end a = false ->
  tcp_shift_bbr3_controller_on_ack s a p = (0, s', p') ->
  (unbounded (c3_congestion s) -> unbounded (c3_congestion s')) /\
  c3_mss_bytes s' = c3_mss_bytes s /\
  (c3_extra_acked_interval_stamp_ns s' = c3_extra_acked_interval_stamp_ns s \/
   c3_extra_acked_interval_stamp_ns s' = a3_now_ns a).
Proof.
  intros [H _] Ha Hp Hl.
  destruct (ctl3_rejects s a) eqn:Er;
    [unfold tcp_shift_bbr3_controller_on_ack; by rewrite Er|].
  destruct (tcp_shift_bbr3_model_on_ack (c3_model s) (a3_rate a) (a3_now_ns a))
    as [rc0 m'] eqn:Em.
  destruct (ctl3_model_step s a rc0 m' H Ha Er Em) as (-> & Hn & H1 & _).
  pose proof H1 as (_ & Hcong & _).
  set (ca := ctl3_congestion_ack (s <| c3_model := m' |>) a (b3_phase (c3_model s))).
  destruct (tcp_shift_bbr3_congestion_on_ack (c3_congestion s) ca) as [sg cong] eqn:Ec.
  destruct (cong_on_ack_ok _ _ sg cong Hcong (cong_ack_of_wf _ a _ H1 Ha) Ec) as [_ Hsg].
  rewrite (cong_ack_accepted _ s a _ H1 Ha Er) in Hsg.
  rewrite (ctl3_on_ack_accept s a p m' sg cong Er Em Ec (proj1 Hsg)).
  pose proof (cong_on_ack_quiet (c3_congestion s) ca Hp Hl) as Hq. rewrite Ec in Hq. cbn in Hq.
  assert (H2 : ctl3_core (s <| c3_model := m' |> <| c3_congestion := cong |>)).
  { destruct (cong_on_ack_ok _ _ sg cong Hcong (cong_ack_of_wf _ a _ H1 Ha) Ec) as [? _].
    destruct H1 as (?&?&?&?&?); split_and!; done. }
  destruct (ctl3_aggregation_ok _ a H2 Ha) as [_ (_&_&F3&_&_&_&F7&_)].
  pose proof (aggregation_stamp (s <| c3_model := m' |> <| c3_congestion := cong |>) a) as Hst.
  set (s3 := ctl3_update_ack_aggregation _ a) in *. clearbody s3. cbn in F3, F7, Hst.
  destruct (advance_phase_quiet s3 a sg) as (Q1 & Q2 & Q3).
  set (s4 := ctl3_advance_phase s3 a sg) in *. clearbody s4.
  assert (Hpol : c3_congestion (ctl3_update_policy s4 a).1 = c3_congestion s4 /\
    c3_mss_bytes (ctl3_update_policy s4 a).1 = c3_mss_bytes s4 /\
    c3_extra_acked_interval_stamp_ns (ctl3_update_policy s4 a).1 =
    c3_extra_acked_interval_stamp_ns s4) by done.
  destruct (ctl3_update_policy s4 a) as [s5 p5]. cbn [fst snd] in *. intros [= <- <-].
  destruct Hpol as (-> & -> & ->). rewrite Q2, Q3, F7. split; [|done].
  intros Hu. apply Q1. rewrite F3. unfold unbounded in *. destruct Hq as (->&->&->). done.
Qed.

Definition pcb_view_wf (pcb : tcp_pcb_view) : Prop :=
  0 <= pcb_mss pcb <= 65535 /\ in_u32 (pcb_cwnd pcb).
Definition adapter_view_wf (ad : cc_adapter_view) : Prop := in_u64 (ad_delivered_bytes ad).

(** Bindings after a successful initialisation and any samples, with whatever
    the adapter and the control block hold at each call. *)
Inductive binding_reachable : tcp_shift_lwip_bbr3_binding -> Prop :=
  | bind_init b0 ad pcb seed now b :
      adapter_view_wf ad -> pcb_view_wf pcb -> in_u32 seed -> in_u64 now ->
      tcp_shift_lwip_bbr3_binding_init b0 ad pcb seed now = (0, b) -> binding_reachable b
  | bind_ack b ad pcb ack cand rc b' cand' :
      binding_reachable b -> adapter_view_wf ad -> ack_wf ack ->
      tcp_shift_lwip_bbr3_binding_on_ack b ad pcb ack cand = (rc, b', cand') ->
      binding_reachable b'.

Definition binding_ok (b : tcp_shift_lwip_bbr3_binding) : Prop :=
  bbr3_reachable (bd_controller b) /\ unbounded (c3_congestion (bd_controller b)) /\
  c3_extra_acked_interval_stamp_ns (bd_controller b) <= bd_last_ack_ns b /\
  b3_last_update_ns (c3_model (bd_controller b)) <= bd_last_ack_ns b /\
  in_u64 (bd_last_delivered_bytes b).

Lemma binding_init_ok b0 ad pcb seed now b :
  adapter_view_wf ad -> pcb_view_wf pcb -> in_u32 seed -> in_u64 now ->
  tcp_shift_lwip_bbr3_binding_init b0 ad pcb seed now = (0, b) -> binding_ok b.
Proof.
  intros Had [Hm Hc] Hs Hn. unfold tcp_shift_lwip_bbr3_binding_init.
  destruct (_ || _); [done|].
  destruct (tcp_shift_bbr3_controller_init _ _ _ _ _) as [rc c] eqn:E.
  destruct (rc <? 0) eqn:Er; [done|]. intros [= <-]. unfold binding_ok. cbn.
  assert (rc = 0 /\ c3_congestion c = tcp_shift_bbr3_congestion_init /\
    c3_extra_acked_interval_stamp_ns c = now /\
    c3_model c = tcp_shift_bbr3_model_init) as (-> & -> & -> & ->).
  { revert E. unfold tcp_shift_bbr3_controller_init.
    destruct (_ || _); intros [= <- <-]; [lia|done]. }
  split; [by apply (reach3_init (bd_controller b0) (pcb_cwnd pcb) (pcb_mss pcb) seed now); try lia|].
  split; [done|]. split; [done|]. split; [cbn; lia|done].
Qed.

Lemma binding_input_wf pcb ack : ack_wf ack -> ctl3_ack_wf (binding_input pcb ack).
Proof.
  intros (?&?&?&Hr). pose proof Hr as (?&?&?&?&?&?&?). unfold ctl3_ack_wf. cbn.
  pose proof (u32_range (pcb_snd_nxt pcb - pcb_lastack pcb)). split_and!; done || lia.
Qed.

(** One call: it succeeds exactly on the binding's own validation, and what it
    then guarantees. *)
Definition binding_accepts (b : tcp_shift_lwip_bbr3_binding) (ad : cc_adapter_view)
    (pcb : tcp_pcb_view) (ack : tcp_shift_cc_ack) : bool :=
  tcp_shift_lwip_bbr3_live b ad pcb && negb (binding_sample_invalid b ad ack) &&
  negb (binding_bytes_mismatch b ack).

Lemma binding_not_rejected b ad pcb ack :
  binding_ok b -> ack_wf ack -> binding_sample_invalid b ad ack = false ->
  ctl3_rejects (bd_controller b) (binding_input pcb ack) = false.
Proof.
  intros (_ & _ & Hst & Hup & _) (?&?&?&_) Hi. unfold binding_sample_invalid in Hi.
  repeat (apply orb_false_iff in Hi as [Hi ?]). unfold ctl3_rejects. cbn -[has_flag].
  repeat (apply orb_false_iff; split); try done; lia.
Qed.

Lemma binding_bytes_exact b ad ack :
  in_u64 (bd_last_delivered_bytes b) -> ack_wf ack ->
  binding_sample_invalid b ad ack = false -> binding_bytes_mismatch b ack = false ->
  rs_delivered_total_bytes (ack_rate ack) = bd_last_delivered_bytes b + ack_acked_bytes ack /\
  0 < ack_acked_bytes ack /\ bd_last_ack_ns b <= ack_ack_time_ns ack /\
  rs_delivered_total_bytes (ack_rate ack) = ad_delivered_bytes ad.
Proof.
  intros Hl (?&?&?&(?&?&?&?&?&?&?)) Hi Hm. unfold binding_sample_invalid in Hi.
  unfold binding_bytes_mismatch in Hm. rewrite !Z.gtb_ltb in *.
  assert (bd_last_delivered_bytes b < rs_delivered_total_bytes (ack_rate ack) /\
    bd_last_ack_ns b <= ack_ack_time_ns ack /\
    rs_delivered_total_bytes (ack_rate ack) = ad_delivered_bytes ad) as (? & ? & ?).
  { repeat (apply orb_false_iff in Hi as [Hi ?]). rewrite negb_false_iff in *. lia. }
  repeat (apply orb_false_iff in Hm as [Hm ?]). rewrite negb_false_iff in *.
  rewrite (u64_small (_ - bd_last_delivered_bytes b)) in * by lia.
  rewrite u32_small in * by lia. lia.
Qed.

Lemma binding_on_ack_step b ad pcb ack cand rc b' cand' :
  binding_ok b -> adapter_view_wf ad -> ack_wf ack ->
  tcp_shift_lwip_bbr3_binding_on_ack b ad pcb ack cand = (rc, b', cand') ->
  binding_ok b' /\
  (if binding_accepts b ad pcb ack
   then rc = 0 /\ policy3_safe (bd_controller b') cand' /\
        bd_last_delivered_bytes b' = bd_last_delivered_bytes b + ack_acked_bytes ack /\
        bd_last_delivered_bytes b' = ad_delivered_bytes ad /\
        bd_last_delivered_bytes b < bd_last_delivered_bytes b'
   else rc = -1 /\ cand' = cand /\ bd_controller b' = bd_controller b /\
        bd_last_delivered_bytes b' = bd_last_delivered_bytes b).
Proof.
  intros Hok Had Ha. unfold tcp_shift_lwip_bbr3_binding_on_ack, binding_accepts. cbn zeta.
  destruct (tcp_shift_lwip_bbr3_live b ad pcb); cbn [negb andb]; [|by intros [= <- <- <-]].
  destruct (binding_sample_invalid b ad ack) eqn:Ei; cbn [negb andb orb];
    [by intros [= <- <- <-]|].
  destruct (binding_bytes_mismatch b ack) eqn:Em; cbn [negb]; [by intros [= <- <- <-]|].
  pose proof (binding_not_rejected b ad pcb ack Hok Ha Ei) as Hrej.
  pose proof Hok as (Hr & Hu & Hst & Hup & Hl).
  destruct (binding_bytes_exact b ad ack Hl Ha Ei Em) as (Eb & Hpos & Ht & Ead).
  pose proof (binding_input_wf pcb ack Ha) as Hw. set (inp := binding_input pcb ack) in *.
  destruct (tcp_shift_bbr3_controller_on_ack (bd_controller b) inp cand) as [[rc1 c1] p1] eqn:E.
  pose proof (ctl3_on_ack_step _ inp cand rc1 c1 p1 (bbr3_reachable_ok _ Hr) Hw E) as Hs.
  rewrite Hrej in Hs. destruct Hs as (-> & Hok1 & Hsafe & _ & Hlu & _).
  cbn [Z.ltb Z.compare]. intros [= <- <- <-].
  destruct (ctl3_on_ack_quiet _ inp cand c1 p1 (bbr3_reachable_ok _ Hr) Hw eq_refl eq_refl E)
    as (Q1 & _ & Q3). destruct Ha as (_ & _ & _ & (_&_&_&?&_)).
  change (a3_now_ns inp) with (ack_ack_time_ns ack) in *.
  split; [|cbn; split_and!; done || lia].
  split; [by apply (reach3_ack (bd_controller b) inp cand 0 c1 p1)|].
  split; [by apply Q1|]. cbn. lia.
Qed.

Lemma binding_reachable_ok b : binding_reachable b -> binding_ok b.
Proof.
  induction 1 as [b0 ad pcb seed now b ???? E|b ad pcb ack cand rc b' cand' _ IH Had Ha E].
  - by apply (binding_init_ok b0 ad pcb seed now).
  - by apply (binding_on_ack_step b ad pcb ack cand rc b' cand' IH Had Ha E).
Qed.

(** The BBRv3 binding is fail-closed and loses no byte. In every reachable
    binding a sample is accepted exactly when the binding's own validation
    holds (the controller never vetoes it); an accepted one advances the
    delivered count by exactly the acknowledged bytes, to the adapter's count,
    and yields a safe candidate policy; a rejected one leaves controller and
    candidate alone. No congestion bound is ever installed, since the binding
    supplies no loss or ECN evidence. *)
Theorem bbr3_binding_fail_closed b ad pcb ack cand rc b' cand' :
  binding_reachable b -> adapter_view_wf ad -> ack_wf ack ->
  tcp_shift_lwip_bbr3_binding_on_ack b ad pcb ack cand = (rc, b', cand') ->
  unbounded (c3_congestion (bd_controller b')) /\
  (if binding_accepts b ad pcb ack
   then rc = 0 /\ policy3_safe (bd_controller b') cand' /\
        bd_last_delivered_bytes b' = bd_last_delivered_bytes b + ack_acked_bytes ack /\
        bd_last_delivered_bytes b' = ad_delivered_bytes ad /\
        bd_last_delivered_bytes b < bd_last_delivered_bytes b'
   else rc = -1 /\ cand' = cand /\ bd_controller b' = bd_controller b /\
        bd_last_delivered_bytes b' = bd_last_delivered_bytes b).
Proof.
  intros Hr Had Ha E.
  destruct (binding_on_ack_step b ad pcb ack cand rc b' cand' (binding_reachable_ok b Hr) Had Ha E)
    as [(_ & Hu & _) H]. done.
Qed.

(** ** Sample inputs *)

Definition sample_tx (gen now : Z) : tcp_shift_bbr3_rack_tx :=
  mk_rack_tx gen now 0 0 20000 1460 0 false false true.
Definition sample_rack_state : tcp_shift_rack_tlp_state :=
  Eval vm_compute in
    tcp_shift_rack_tlp_init <| rk_rack_xmit_ts_ns := 200 |> <| rk_rack_rtt_ns := 40 |>
      <| rk_min_rtt_ns := 40 |> <| rk_srtt_ns := 60 |> <| rk_rack_end_seq := 3000 |>.
(** Sent, partly delivered, checked twice, undone twice. *)
Definition sample_ops : list attempt_op :=
  [AtTx (sample_tx 1 190); AtDeliver 460; AtQualify sample_rack_state 300 0;
   AtQualify sample_rack_state 310 0; AtUndo 1; AtUndo 1].

Lemma rack_evidence_exactly_once_witness :
  map report_generation (ev_losses (evidence_run sample_ops)) = [1] /\
  map (fun r => ls_newly_lost_bytes (rp_loss r)) (ev_losses (evidence_run sample_ops)) = [1000] /\
  ev_undone (evidence_run sample_ops) = [1] /\
  Forall report_justified (ev_losses (evidence_run sample_ops)).
Proof.
  split; [reflexivity|]. split; [reflexivity|]. split; [reflexivity|].
  apply (rack_evidence_exactly_once sample_ops).
  assert (rack_wf sample_rack_state).
  { split; [repeat (apply Forall_cons; split; [cbn; lia|]); apply Forall_nil_2|cbn; lia]. }
  unfold sample_ops.
  repeat (apply Forall_cons; split; [first [cbn; lia | split; [done|lia]]|]). apply Forall_nil_2.
Defined.

Definition sample_event (gen lost : Z) : tcp_shift_bbr3_rack_loss :=
  mk_rack_loss gen 100 5000 (gen * 1460) 60000 lost false false true.
Definition sample_events : list tcp_shift_bbr3_rack_loss :=
  [sample_event 1 1000; sample_event 1 1000; sample_event 2 460].
Definition blank_round : tcp_shift_bbr3_loss_round :=
  mk_loss_round 0 0 0 0 0 0 0 false false false.
Definition started_round : tcp_shift_bbr3_loss_round :=
  Eval vm_compute in (tcp_shift_bbr3_loss_round_start blank_round 7000).2.
Definition blank_result : tcp_shift_bbr3_loss_round_result :=
  mk_round_result 0 0 0 0 0 false false false.

Lemma loss_round_refines_sum_witness :
  (tcp_shift_bbr3_loss_round_finish (add_all started_round sample_events) 9000 1 blank_result).2
  = mk_round_result 7000 9000 1460 2 60000 true true true.
Proof.
  rewrite (loss_round_refines_sum blank_round 7000 started_round sample_events 9000 blank_result).
  - vm_compute. reflexivity.
  - vm_compute. reflexivity.
  - unfold sample_events. repeat (apply Forall_cons; split); try apply Forall_nil_2;
      unfold event_wf; cbn; lia.
  - cbn. lia.
  - lia.
Defined.

Definition sample_pcb : tcp_pcb_view := mk_pcb_view 1 1000 10000 30000 20000.
Definition sample_adapter : cc_adapter_view := mk_adapter_view true 1 true 10000.
Definition blank_binding : tcp_shift_lwip_bbr3_binding :=
  mk_binding blank_ctl3 false 0 0 0 0 false.
Definition sample_binding : tcp_shift_lwip_bbr3_binding :=
  Eval vm_compute in (tcp_shift_lwip_bbr3_binding_init blank_binding
    (mk_adapter_view true 1 true 0) sample_pcb 17 1).2.
Definition sample_cc_ack : tcp_shift_cc_ack :=
  mk_ack 10000 40000000 10000000
    (mk_rate_sample 1000000 10000000 10000000 10000000 10000000 0 10000 10000 10000 9).

Lemma bbr3_binding_fail_closed_witness :
  binding_accepts sample_binding sample_adapter sample_pcb sample_cc_ack = true /\
  bd_last_delivered_bytes (tcp_shift_lwip_bbr3_binding_on_ack sample_binding sample_adapter
    sample_pcb sample_cc_ack blank_policy3).1.2 = 10000.
Proof.
  split; [vm_compute; reflexivity|].
  destruct (tcp_shift_lwip_bbr3_binding_on_ack sample_binding sample_adapter sample_pcb
    sample_cc_ack blank_policy3) as [[rc b'] c'] eqn:E.
  destruct (bbr3_binding_fail_closed sample_binding sample_adapter sample_pcb sample_cc_ack
    blank_policy3 rc b' c') as [_ H].
  - apply (bind_init blank_binding (mk_adapter_view true 1 true 0) sample_pcb 17 1);
      [unfold adapter_view_wf; cbn; lia|unfold pcb_view_wf; cbn; lia|lia|lia|].
    vm_compute. reflexivity.
  - unfold adapter_view_wf. cbn. lia.
  - unfold ack_wf, rate_sample_wf. cbn. lia.
  - exact E.
  - assert (Ha : binding_accepts sample_binding sample_adapter sample_pcb sample_cc_ack = true)
      by (vm_compute; reflexivity).
    rewrite Ha in H. destruct H as (_ & _ & _ & H & _). exact H.
Defined.
