(* ===== verification/CString.v ===== *)
(** * C strings and number scanning

    The parts of the C library the parsers use: character classes of the "C"
    locale, [strchr], [strrchr], [strtoul]/[strtoull] in base ten, and decimal
    printing with the round trip between the two. A string is the list of its
    characters before the terminating NUL. *)

From Stdlib Require Import ZArith Lia Bool List Ascii String.
From stdpp Require Import base tactics numbers list.
From S2P Require Import Prelude.
Local Open Scope Z_scope.

Abbreviation cstring := (list ascii).
Definition lit (s : string) : cstring := list_ascii_of_string s.

(** [(unsigned char)c] *)
Definition code (c : ascii) : Z := Z.of_N (N_of_ascii c).

Definition isspace (c : ascii) : bool := ((9 <=? code c) && (code c <=? 13)) || (code c =? 32).
Definition isdigit (c : ascii) : bool := (48 <=? code c) && (code c <=? 57).
Definition islower (c : ascii) : bool := (97 <=? code c) && (code c <=? 122).
Definition isupper (c : ascii) : bool := (65 <=? code c) && (code c <=? 90).
Definition isalnum (c : ascii) : bool := isdigit c || islower c || isupper c.

Fixpoint drop_while (f : ascii -> bool) (s : cstring) : cstring :=
  match s with c :: s' => if f c then drop_while f s' else s | [] => [] end.

(** Moving the end of a span back over characters that satisfy [f]. *)
Definition drop_end (f : ascii -> bool) (s : cstring) : cstring := rev (drop_while f (rev s)).

(** [strcmp(a, b) == 0] *)
Fixpoint str_eqb (a b : cstring) : bool :=
  match a, b with
  | [], [] => true
  | x :: a', y :: b' => Ascii.eqb x y && str_eqb a' b'
  | _, _ => false
  end.

(** [strchr(s, c)]: the text before the first occurrence and after it. *)
Fixpoint strchr (s : cstring) (c : ascii) : option (cstring * cstring) :=
  match s with
  | [] => None
  | x :: s' =>
      if Ascii.eqb x c then Some ([], s')
      else match strchr s' c with Some (a, b) => Some (x :: a, b) | None => None end
  end.

(** [strrchr(s, c)]: split at the last occurrence. *)
Fixpoint strrchr (s : cstring) (c : ascii) : option (cstring * cstring) :=
  match s with
  | [] => None
  | x :: s' =>
      match strrchr s' c with
      | Some (a, b) => Some (x :: a, b)
      | None => if Ascii.eqb x c then Some ([], s') else None
      end
  end.

(** ** Numbers *)

(** The digits at the front, accumulated, and what follows them. *)
Fixpoint scan_digits (s : cstring) (acc : Z) : Z * cstring :=
  match s with
  | c :: s' => if isdigit c then scan_digits s' (acc * 10 + (code c - 48)) else (acc, s)
  | [] => (acc, [])
  end.

(** The optional sign. *)
Definition scan_sign (s : cstring) : bool * cstring :=
  match s with
  | "-"%char :: s' => (true, s')
  | "+"%char :: s' => (false, s')
  | _ => (false, s)
  end.

(** [strtoull(s, &end, 10)]: [None] when [end == s], else the value, the text
    at [end], and whether [errno] is [ERANGE]. A minus sign negates modulo
    [2^64]. [unsigned long] has 64 bits, so this is [strtoul] as well. *)
Definition strtoull (s : cstring) : option (Z * cstring * bool) :=
  let '(negative, digits) := scan_sign (drop_while isspace s) in
  match digits with
  | c :: _ =>
      if isdigit c then
        let '(v, rest) := scan_digits digits 0 in
        if v >? UINT64_MAX then Some (UINT64_MAX, rest, true)
        else Some (if negative then u64 (- v) else v, rest, false)
      else None
  | [] => None
  end.

Definition digit_char (d : Z) : ascii := ascii_of_N (Z.to_N (48 + d)).

(** Decimal printing; twenty digits hold every 64-bit number. *)
Fixpoint print_fuel (fuel : nat) (n : Z) (acc : cstring) : cstring :=
  match fuel with
  | O => acc
  | S f => if n <? 10 then digit_char n :: acc
           else print_fuel f (n / 10) (digit_char (n mod 10) :: acc)
  end.
Definition print_dec (n : Z) : cstring := print_fuel 20 n [].

(** ** Facts *)

Lemma str_eqb_eq a b : str_eqb a b = true <-> a = b.
Proof.
  revert b. induction a as [|x a IH]; intros [|y b]; cbn; try done.
  rewrite andb_true_iff, Ascii.eqb_eq, IH. naive_solver.
Qed.

Lemma digit_char_code d : 0 <= d <= 9 -> code (digit_char d) = 48 + d.
Proof.
  intros Hd. unfold code, digit_char. rewrite N_ascii_embedding by lia. lia.
Qed.

Lemma digit_char_isdigit d : 0 <= d <= 9 -> isdigit (digit_char d) = true.
Proof. intros Hd. unfold isdigit. rewrite digit_char_code by done. lia. Qed.

Lemma scan_digits_print fuel : forall n acc,
  0 <= n < 10 ^ Z.of_nat fuel -> scan_digits (print_fuel fuel n acc) 0 = scan_digits acc n.
Proof.
  induction fuel as [|f IH]; intros n acc Hn; [cbn; f_equal; change (10 ^ Z.of_nat 0) with 1 in Hn; lia|].
  cbn [print_fuel]. destruct (n <? 10) eqn:E.
  - cbn. rewrite digit_char_isdigit, digit_char_code by lia. f_equal. lia.
  - rewrite Nat2Z.inj_succ, Z.pow_succ_r in Hn by lia.
    pose proof (Z.mod_pos_bound n 10 ltac:(lia)).
    rewrite IH; [|split; [apply Z.div_pos; lia|apply Z.div_lt_upper_bound; lia]].
    cbn. rewrite digit_char_isdigit, digit_char_code by lia. f_equal. div_lia.
Qed.

Lemma print_fuel_digits fuel : forall n acc,
  0 <= n -> Forall (fun c => isdigit c = true) acc ->
  Forall (fun c => isdigit c = true) (print_fuel fuel n acc).
Proof.
  induction fuel as [|f IH]; intros n acc Hn Ha; [done|]. cbn.
  destruct (n <? 10) eqn:E; [constructor; [apply digit_char_isdigit; lia|done]|].
  apply IH; [apply Z.div_pos; lia|]. constructor; [|done].
  apply digit_char_isdigit. pose proof (Z.mod_pos_bound n 10). lia.
Qed.

Lemma print_fuel_app fuel : forall n a b, print_fuel fuel n (a ++ b) = print_fuel fuel n a ++ b.
Proof.
  induction fuel as [|f IH]; intros n a b; cbn; [done|]. destruct (n <? 10); [done|].
  by rewrite app_comm_cons, IH.
Qed.

Lemma print_fuel_nonempty fuel n acc : exists c s, print_fuel (S fuel) n acc = c :: s.
Proof.
  revert n acc. induction fuel as [|f IH]; intros n acc.
  - cbn. destruct (n <? 10); eauto.
  - cbn [print_fuel]. destruct (n <? 10); [eauto|]. apply IH.
Qed.

Lemma print_dec_digits n : 0 <= n -> Forall (fun c => isdigit c = true) (print_dec n).
Proof. intros Hn. by apply print_fuel_digits. Qed.

Lemma isdigit_not_space c : isdigit c = true -> isspace c = false.
Proof. unfold isdigit, isspace. lia. Qed.

(** The character of a given code is unique. *)
Lemma code_inj a b : code a = code b -> a = b.
Proof.
  unfold code. intros H. apply N2Z.inj in H.
  rewrite <- (ascii_N_embedding a), <- (ascii_N_embedding b). by rewrite H.
Qed.

Lemma digit_not c x : isdigit c = true -> isdigit x = false -> Ascii.eqb c x = false.
Proof. intros Hc Hx. apply Ascii.eqb_neq. intros ->. congruence. Qed.

Lemma scan_sign_digit c s : isdigit c = true -> scan_sign (c :: s) = (false, c :: s).
Proof.
  intros H. unfold scan_sign. destruct c as [[] [] [] [] [] [] [] []]; try reflexivity; done.
Qed.

(** Scanning what was printed gives the number back and stops at the first
    character that is not a digit. *)
Lemma strtoull_print n rest :
  0 <= n <= UINT64_MAX -> match rest with [] => True | c :: _ => isdigit c = false end ->
  strtoull (print_dec n ++ rest) = Some (n, rest, false).
Proof.
  intros Hn Hr. pose proof (print_dec_digits n ltac:(lia)) as Hd.
  assert (Hs : scan_digits (print_dec n ++ rest) 0 = (n, rest)).
  { unfold print_dec. rewrite <- (print_fuel_app 20 n [] rest), scan_digits_print.
    - destruct rest as [|c r]; [done|]. cbn. by rewrite Hr.
    - change (10 ^ Z.of_nat 20) with 100000000000000000000. lia. }
  destruct (print_fuel_nonempty 19 n []) as (c & s & E). fold (print_dec n) in E.
  rewrite E in *. apply Forall_cons in Hd as [Hc _]. unfold strtoull.
  cbn [app] in Hs |- *. cbn [drop_while]. rewrite (isdigit_not_space c Hc), (scan_sign_digit c _ Hc), Hc, Hs.
  destruct (n >? UINT64_MAX) eqn:En; [lia|done].
Qed.

Lemma strchr_none_prefix s c t :
  Forall (fun x => Ascii.eqb x c = false) s -> strchr (s ++ c :: t) c = Some (s, t).
Proof.
  induction 1 as [|x s Hx _ IH]; cbn; [by rewrite Ascii.eqb_refl|]. by rewrite Hx, IH.
Qed.

Lemma strchr_absent s c : Forall (fun x => Ascii.eqb x c = false) s -> strchr s c = None.
Proof. induction 1 as [|x s Hx _ IH]; cbn; [done|]. by rewrite Hx, IH. Qed.

(** A text whose two ends are not blank is its own trimming. *)
Lemma drop_while_id f c s : f c = false -> drop_while f (c :: s) = c :: s.
Proof. intros H. cbn. by rewrite H. Qed.

Lemma drop_end_id f s c : f c = false -> drop_end f (s ++ [c]) = s ++ [c].
Proof.
  intros H. unfold drop_end. rewrite rev_app_distr. cbn. rewrite H. cbn.
  by rewrite rev_involutive.
Qed.

Lemma drop_while_none f s : Forall (fun c => f c = false) s -> drop_while f s = s.
Proof. destruct 1 as [|c s Hc _]; [done|]. by apply drop_while_id. Qed.

Lemma drop_end_none f s : Forall (fun c => f c = false) s -> drop_end f s = s.
Proof.
  intros H. unfold drop_end. rewrite drop_while_none by (by apply Forall_rev).
  apply rev_involutive.
Qed.
