(* ===== verification/TcpMemory.v ===== *)
(** * TCP send-memory accounting ([src/lwip/tcp_memory.h], [src/lwip/tcp_memory.c])

    Size and triplet parsing, the default policy, the manager with its pressure
    state, the per-flow operations and the wrappers around lwIP's [tcp_write]
    and [tcp_sent]. *)

From Stdlib Require Import ZArith Lia Bool List Ascii String.
From stdpp Require Import base tactics numbers list.
From S2P Require Import Prelude CString.
Local Open Scope Z_scope.

Abbreviation TCP_SHIFT_TCP_WMEM_DEFAULT_MIN_BYTES := 4096.
Abbreviation TCP_SHIFT_TCP_WMEM_DEFAULT_INITIAL_BYTES := 32768.
Abbreviation TCP_SHIFT_TCP_MEM_PRESSURE_DIVISOR := 16.
Abbreviation TCP_SHIFT_TCP_MEM_MIN_PAGES := 128.
Abbreviation TCP_SHIFT_TCP_SNDBUF_EXPAND_NUM := 2.
Abbreviation TCP_SHIFT_TCP_SNDBUF_EXPAND_DEN := 1.

(** ** Data *)

Record tcp_shift_tcp_wmem_policy := mk_wmem {
  wm_min_bytes : Z; wm_initial_bytes : Z; wm_max_bytes : Z
}.

Record tcp_shift_tcp_mem_policy := mk_mem {
  mm_low_bytes : Z; mm_pressure_bytes : Z; mm_high_bytes : Z
}.

Record tcp_shift_tcp_memory_config := mk_mem_config {
  mc_wmem : tcp_shift_tcp_wmem_policy;
  mc_mem : tcp_shift_tcp_mem_policy;
  mc_effective_memory_bytes : Z
}.
#[export] Instance eta_mem_config : Eta tcp_shift_tcp_memory_config := fun r =>
  mk_mem_config (mc_wmem r) (mc_mem r) (mc_effective_memory_bytes r).

Record tcp_shift_tcp_memory_stats := mk_mem_stats {
  ms_flow_inits : Z;
  ms_flow_releases : Z;
  ms_write_events : Z;
  ms_write_bytes : Z;
  ms_ack_events : Z;
  ms_ack_bytes : Z;
  ms_charged_bytes : Z;
  ms_peak_charged_bytes : Z;
  ms_pressure_enters : Z;
  ms_pressure_exits : Z;
  ms_high_blocks : Z;
  ms_growth_events : Z;
  ms_growth_bytes : Z;
  ms_growth_suppressed : Z;
  ms_accounting_underflows : Z
}.
#[export] Instance eta_mem_stats : Eta tcp_shift_tcp_memory_stats := fun r =>
  mk_mem_stats (ms_flow_inits r) (ms_flow_releases r) (ms_write_events r) (ms_write_bytes r)
    (ms_ack_events r) (ms_ack_bytes r) (ms_charged_bytes r) (ms_peak_charged_bytes r)
    (ms_pressure_enters r) (ms_pressure_exits r) (ms_high_blocks r) (ms_growth_events r)
    (ms_growth_bytes r) (ms_growth_suppressed r) (ms_accounting_underflows r).

Record tcp_shift_tcp_memory_manager := mk_manager {
  mg_config : tcp_shift_tcp_memory_config;
  mg_stats : tcp_shift_tcp_memory_stats;
  mg_pressure_active : bool
}.
#[export] Instance eta_manager : Eta tcp_shift_tcp_memory_manager := fun r =>
  mk_manager (mg_config r) (mg_stats r) (mg_pressure_active r).

(** [fl_manager]: the pointer is not NULL. The manager itself is passed to the
    operations, which write it through that pointer. *)
Record tcp_shift_tcp_memory_flow := mk_flow {
  fl_manager : bool;
  fl_capacity_bytes : Z;
  fl_sndbuf_expand_num : Z;
  fl_sndbuf_expand_den : Z;
  fl_queued_bytes : Z
}.
#[export] Instance eta_flow : Eta tcp_shift_tcp_memory_flow := fun r =>
  mk_flow (fl_manager r) (fl_capacity_bytes r) (fl_sndbuf_expand_num r)
    (fl_sndbuf_expand_den r) (fl_queued_bytes r).

(** A [tcp_sent_fn]: an application callback or this file's dispatcher. *)
Inductive sent_fn := SentApp (id : Z) | SentDispatch.

Record tcp_shift_lwip_tcp_memory_ext := mk_ext {
  ex_flow : tcp_shift_tcp_memory_flow;
  ex_app_sent : option sent_fn;
  ex_pending_expand_num : Z;
  ex_pending_expand_den : Z
}.
#[export] Instance eta_ext : Eta tcp_shift_lwip_tcp_memory_ext := fun r =>
  mk_ext (ex_flow r) (ex_app_sent r) (ex_pending_expand_num r) (ex_pending_expand_den r).

(** The fields of lwIP's control block this file reads or writes; [mp_ext] is
    its extension argument, [mp_naglememerr] the flag [TF_NAGLEMEMERR]. *)
Record mem_pcb := mk_mem_pcb {
  mp_cwnd : Z;
  mp_snd_buf : Z;
  mp_snd_queuelen : Z;
  mp_unsent : bool;
  mp_unacked : bool;
  mp_naglememerr : bool;
  mp_sent : option sent_fn;
  mp_ext : option tcp_shift_lwip_tcp_memory_ext
}.
#[export] Instance eta_mem_pcb : Eta mem_pcb := fun r =>
  mk_mem_pcb (mp_cwnd r) (mp_snd_buf r) (mp_snd_queuelen r) (mp_unsent r) (mp_unacked r)
    (mp_naglememerr r) (mp_sent r) (mp_ext r).

(** ** Arithmetic *)

Definition tcp_shift_u64_min (left right : Z) : Z := if left <? right then left else right.

Definition tcp_shift_u64_mul_sat (value multiplier : Z) : Z :=
  if negb (value =? 0) && (multiplier >? UINT64_MAX / value) then UINT64_MAX
  else value *w64 multiplier.

(** ** The memory available to the process *)

(** [strncmp(buffer, "max", 3) == 0] *)
Definition has_max_prefix (line : cstring) : bool := str_eqb (firstn 3 line) (lit "max").

(** [line]: what [fgets] read, [None] when the file cannot be opened or read. *)
Definition tcp_shift_read_limit_file (line : option cstring) : Z :=
  match line with
  | None => 0
  | Some buffer =>
      if has_max_prefix buffer then UINT64_MAX
      else match strtoull buffer with
           | Some (parsed, _, false) => parsed
           | _ => 0
           end
  end.

(** [pages], [page_size]: the two [sysconf] results; [max_line], [limit_line]:
    the first lines of the two cgroup files. *)
Definition tcp_shift_tcp_memory_effective_bytes (pages page_size : Z)
    (max_line limit_line : option cstring) : Z :=
  let physical := if (pages >? 0) && (page_size >? 0) && (pages <=? UINT64_MAX / page_size)
                  then pages *w64 page_size else 0 in
  let limit := tcp_shift_read_limit_file max_line in
  let limit := if limit =? 0 then tcp_shift_read_limit_file limit_line else limit in
  let effective :=
    if negb (limit =? 0) && negb (limit =? UINT64_MAX)
    then (if physical =? 0 then limit else tcp_shift_u64_min physical limit)
    else physical in
  if effective =? 0 then 268435456 else effective.

(** ** Parsing *)

(** The binary multiplier of a unit letter. *)
Definition unit_multiplier (c : ascii) : option Z :=
  if Ascii.eqb c "k" || Ascii.eqb c "K" then Some 1024
  else if Ascii.eqb c "m" || Ascii.eqb c "M" then Some (1024 * 1024)
  else if Ascii.eqb c "g" || Ascii.eqb c "G" then Some (1024 * 1024 * 1024)
  else None.

(** [if ( *end == a || *end == b) end++;] *)
Definition skip_one (a b : ascii) (s : cstring) : cstring :=
  match s with
  | c :: s' => if Ascii.eqb c a || Ascii.eqb c b then s' else s
  | [] => []
  end.

(** The suffix after the number: [None] is the error return. *)
Definition parse_suffix (s : cstring) : option Z :=
  match drop_while isspace s with
  | [] => Some 1
  | c :: s' =>
      match unit_multiplier c with
      | None => None
      | Some multiplier =>
          match drop_while isspace (skip_one "b" "B" (skip_one "i" "I" s')) with
          | [] => Some multiplier
          | _ => None
          end
      end
  end.

(** [span]: the [length] characters at [begin]. *)
Definition tcp_shift_parse_size_span (span : cstring) : option Z :=
  let token := drop_end isspace (drop_while isspace span) in
  if (Z.of_nat (List.length token) =? 0) || (Z.of_nat (List.length token) >=? 64) then None
  else
    match strtoull token with
    | Some (parsed, rest, false) =>
        match parse_suffix rest with
        | Some multiplier =>
            if parsed >? UINT64_MAX / multiplier then None else Some (parsed *w64 multiplier)
        | None => None
        end
    | _ => None
    end.

Definition tcp_shift_parse_size (text : cstring) : option Z := tcp_shift_parse_size_span text.

(** The loop over the three fields, unrolled. *)
Definition tcp_shift_parse_triplet (text : cstring) : option (Z * Z * Z) :=
  match strchr text "," with
  | Some ((_ :: _) as f0, r0) =>
      match tcp_shift_parse_size_span f0 with
      | Some v0 =>
          match strchr r0 "," with
          | Some ((_ :: _) as f1, r1) =>
              match tcp_shift_parse_size_span f1 with
              | Some v1 =>
                  match strchr r1 ",", r1 with
                  | None, _ :: _ =>
                      match tcp_shift_parse_size r1 with
                      | Some v2 => Some (v0, v1, v2)
                      | None => None
                      end
                  | _, _ => None
                  end
              | None => None
              end
          | _ => None
          end
      | None => None
      end
  | _ => None
  end.

Definition tcp_shift_tcp_memory_parse_wmem (text : cstring) : option tcp_shift_tcp_wmem_policy :=
  match tcp_shift_parse_triplet text with
  | Some (v0, v1, v2) =>
      if (v0 =? 0) || (v0 >? v1) || (v1 >? v2) || (v2 >? UINT32_MAX) then None
      else Some (mk_wmem (u32 v0) (u32 v1) (u32 v2))
  | None => None
  end.

Definition tcp_shift_tcp_memory_parse_mem (text : cstring) : option tcp_shift_tcp_mem_policy :=
  match tcp_shift_parse_triplet text with
  | Some (v0, v1, v2) =>
      if (v0 >? v1) || (v1 >? v2) || (v2 =? 0) then None else Some (mk_mem v0 v1 v2)
  | None => None
  end.

(** ** Configuration *)

Definition zero_mem_config : tcp_shift_tcp_memory_config :=
  mk_mem_config (mk_wmem 0 0 0) (mk_mem 0 0 0) 0.
Definition zero_mem_stats : tcp_shift_tcp_memory_stats :=
  mk_mem_stats 0 0 0 0 0 0 0 0 0 0 0 0 0 0 0.

Definition tcp_shift_tcp_memory_config_default (config : tcp_shift_tcp_memory_config)
    (effective_memory_bytes page_size_bytes : Z) : Z * tcp_shift_tcp_memory_config :=
  if effective_memory_bytes =? 0 then (-1, config)
  else
    let page_size_bytes := if page_size_bytes =? 0 then 4096 else page_size_bytes in
    let minimum := TCP_SHIFT_TCP_WMEM_DEFAULT_MIN_BYTES in
    let initial := TCP_SHIFT_TCP_WMEM_DEFAULT_INITIAL_BYTES in
    let pressure := effective_memory_bytes / TCP_SHIFT_TCP_MEM_PRESSURE_DIVISOR in
    let floor := tcp_shift_u64_mul_sat TCP_SHIFT_TCP_MEM_MIN_PAGES page_size_bytes in
    let pressure := if pressure <? floor then floor else pressure in
    let low := pressure -w64 pressure / 4 in
    let high := pressure +w64 pressure / 2 in
    let max_candidate := high in
    let max_candidate := if max_candidate >? UINT32_MAX then UINT32_MAX else max_candidate in
    let max_candidate := if max_candidate <? initial then initial else max_candidate in
    (0, mk_mem_config (mk_wmem minimum initial (u32 max_candidate))
          (mk_mem low pressure high) effective_memory_bytes).

(** The validation of [manager_init]. *)
Definition config_rejected (config : tcp_shift_tcp_memory_config) : bool :=
  let w := mc_wmem config in
  let m := mc_mem config in
  (wm_min_bytes w =? 0) || (wm_min_bytes w >? wm_initial_bytes w) ||
  (wm_initial_bytes w >? wm_max_bytes w) || (mm_low_bytes m >? mm_pressure_bytes m) ||
  (mm_pressure_bytes m >? mm_high_bytes m) || (mm_high_bytes m =? 0).

Definition tcp_shift_tcp_memory_manager_init (manager : tcp_shift_tcp_memory_manager)
    (config : tcp_shift_tcp_memory_config) : Z * tcp_shift_tcp_memory_manager :=
  if config_rejected config then (-1, manager)
  else (0, mk_manager config zero_mem_stats false).

(** ** Flows *)

Definition tcp_shift_tcp_memory_update_pressure (manager : tcp_shift_tcp_memory_manager)
    : tcp_shift_tcp_memory_manager :=
  let charged := ms_charged_bytes (mg_stats manager) in
  if negb (mg_pressure_active manager) &&
     (charged >=? mm_pressure_bytes (mc_mem (mg_config manager)))
  then manager <| mg_pressure_active := true |>
               <| mg_stats := mg_stats manager <| ms_pressure_enters :=
                    ms_pressure_enters (mg_stats manager) +w64 1 |> |>
  else if mg_pressure_active manager &&
          (charged <=? mm_low_bytes (mc_mem (mg_config manager)))
  then manager <| mg_pressure_active := false |>
               <| mg_stats := mg_stats manager <| ms_pressure_exits :=
                    ms_pressure_exits (mg_stats manager) +w64 1 |> |>
  else manager.

Definition tcp_shift_tcp_memory_flow_init (manager : tcp_shift_tcp_memory_manager)
    (flow : tcp_shift_tcp_memory_flow) (pcb : mem_pcb)
    : Z * tcp_shift_tcp_memory_manager * tcp_shift_tcp_memory_flow * mem_pcb :=
  if negb (mp_snd_queuelen pcb =? 0) || mp_unsent pcb || mp_unacked pcb
  then (-1, manager, flow, pcb)
  else
    let capacity := wm_initial_bytes (mc_wmem (mg_config manager)) in
    (0, manager <| mg_stats := mg_stats manager <| ms_flow_inits :=
                     ms_flow_inits (mg_stats manager) +w64 1 |> |>,
     mk_flow true capacity TCP_SHIFT_TCP_SNDBUF_EXPAND_NUM TCP_SHIFT_TCP_SNDBUF_EXPAND_DEN 0,
     pcb <| mp_snd_buf := capacity |>).

Definition tcp_shift_tcp_memory_flow_set_sndbuf_expand (flow : tcp_shift_tcp_memory_flow)
    (expand_num expand_den : Z) : Z * tcp_shift_tcp_memory_flow :=
  if negb (fl_manager flow) || (expand_num =? 0) || (expand_den =? 0) then (-1, flow)
  else (0, flow <| fl_sndbuf_expand_num := expand_num |>
                <| fl_sndbuf_expand_den := expand_den |>).

(** The capacity the window calls for, clipped to the policy. *)
Definition grow_target (manager : tcp_shift_tcp_memory_manager) (cwnd expand_num expand_den : Z)
    : Z :=
  let wmem := mc_wmem (mg_config manager) in
  let target := tcp_shift_u64_mul_sat cwnd expand_num / expand_den in
  let target := if target <? wm_initial_bytes wmem then wm_initial_bytes wmem else target in
  if target >? wm_max_bytes wmem then wm_max_bytes wmem else target.

Definition tcp_shift_tcp_memory_flow_maybe_grow (manager : tcp_shift_tcp_memory_manager)
    (flow : tcp_shift_tcp_memory_flow) (pcb : mem_pcb) (expand_num expand_den : Z)
    : Z * tcp_shift_tcp_memory_manager * tcp_shift_tcp_memory_flow * mem_pcb :=
  if negb (fl_manager flow) || (expand_num =? 0) || (expand_den =? 0)
  then (-1, manager, flow, pcb)
  else
    let target := grow_target manager (mp_cwnd pcb) expand_num expand_den in
    if target <=? fl_capacity_bytes flow then (0, manager, flow, pcb)
    else if mg_pressure_active manager then
      (0, manager <| mg_stats := mg_stats manager <| ms_growth_suppressed :=
                       ms_growth_suppressed (mg_stats manager) +w64 1 |> |>, flow, pcb)
    else
      let delta := u32 (target - fl_capacity_bytes flow) in
      let available := mp_snd_buf pcb +w64 delta in
      if available >? UINT32_MAX then (-1, manager, flow, pcb)
      else
        (1, manager <| mg_stats := mg_stats manager
                <| ms_growth_events := ms_growth_events (mg_stats manager) +w64 1 |>
                <| ms_growth_bytes := ms_growth_bytes (mg_stats manager) +w64 delta |> |>,
         flow <| fl_capacity_bytes := u32 target |>,
         pcb <| mp_snd_buf := u32 available |>).

Definition tcp_shift_tcp_memory_flow_can_write (manager : tcp_shift_tcp_memory_manager)
    (flow : tcp_shift_tcp_memory_flow) (pcb : mem_pcb) (bytes : Z)
    : bool * tcp_shift_tcp_memory_manager :=
  if negb (fl_manager flow) then (false, manager)
  else if bytes =? 0 then (true, manager)
  else if bytes >? mp_snd_buf pcb then (false, manager)
  else
    let charged := ms_charged_bytes (mg_stats manager) in
    let high := mm_high_bytes (mc_mem (mg_config manager)) in
    if (charged >? high) || (bytes >? high -w64 charged)
    then (false, manager <| mg_stats := mg_stats manager <| ms_high_blocks :=
                              ms_high_blocks (mg_stats manager) +w64 1 |> |>)
    else (true, manager).

Definition tcp_shift_tcp_memory_flow_note_write (manager : tcp_shift_tcp_memory_manager)
    (flow : tcp_shift_tcp_memory_flow) (bytes : Z)
    : tcp_shift_tcp_memory_manager * tcp_shift_tcp_memory_flow :=
  if negb (fl_manager flow) || (bytes =? 0) then (manager, flow)
  else
    let stats := mg_stats manager in
    let charged := ms_charged_bytes stats +w64 bytes in
    let stats := stats <| ms_charged_bytes := charged |>
                       <| ms_write_events := ms_write_events stats +w64 1 |>
                       <| ms_write_bytes := ms_write_bytes stats +w64 bytes |>
                       <| ms_peak_charged_bytes :=
                          if charged >? ms_peak_charged_bytes stats then charged
                          else ms_peak_charged_bytes stats |> in
    (tcp_shift_tcp_memory_update_pressure (manager <| mg_stats := stats |>),
     flow <| fl_queued_bytes := fl_queued_bytes flow +w64 bytes |>).

(** [if (amount > bound) { amount = bound; accounting_underflows++; }] *)
Definition clip_amount (stats : tcp_shift_tcp_memory_stats) (amount bound : Z)
    : tcp_shift_tcp_memory_stats * Z :=
  if amount >? bound
  then (stats <| ms_accounting_underflows := ms_accounting_underflows stats +w64 1 |>, bound)
  else (stats, amount).

Definition tcp_shift_tcp_memory_flow_note_acked (manager : tcp_shift_tcp_memory_manager)
    (flow : tcp_shift_tcp_memory_flow) (bytes : Z)
    : tcp_shift_tcp_memory_manager * tcp_shift_tcp_memory_flow :=
  if negb (fl_manager flow) || (bytes =? 0) then (manager, flow)
  else
    let '(stats, amount) := clip_amount (mg_stats manager) bytes (fl_queued_bytes flow) in
    let '(stats, amount) := clip_amount stats amount (ms_charged_bytes stats) in
    let stats := stats <| ms_charged_bytes := ms_charged_bytes stats -w64 amount |>
                       <| ms_ack_events := ms_ack_events stats +w64 1 |>
                       <| ms_ack_bytes := ms_ack_bytes stats +w64 amount |> in
    (tcp_shift_tcp_memory_update_pressure (manager <| mg_stats := stats |>),
     flow <| fl_queued_bytes := fl_queued_bytes flow -w64 amount |>).

Definition tcp_shift_tcp_memory_flow_release (manager : tcp_shift_tcp_memory_manager)
    (flow : tcp_shift_tcp_memory_flow)
    : tcp_shift_tcp_memory_manager * tcp_shift_tcp_memory_flow :=
  if negb (fl_manager flow) then (manager, flow)
  else
    let '(stats, amount) :=
      clip_amount (mg_stats manager) (fl_queued_bytes flow) (ms_charged_bytes (mg_stats manager)) in
    let stats := stats <| ms_charged_bytes := ms_charged_bytes stats -w64 amount |>
                       <| ms_flow_releases := ms_flow_releases stats +w64 1 |> in
    (tcp_shift_tcp_memory_update_pressure (manager <| mg_stats := stats |>),
     mk_flow false 0 0 0 0).

(** ** The process-wide manager and the lwIP wrappers *)

(** The static manager and [tcp_shift_process_tcp_memory_state]. *)
Record process_memory := mk_process { pm_manager : tcp_shift_tcp_memory_manager; pm_state : Z }.
#[export] Instance eta_process : Eta process_memory := fun r =>
  mk_process (pm_manager r) (pm_state r).

(** What the process reads from its environment: [sysconf], the two cgroup
    files and the three variables. *)
Record mem_env := mk_mem_env {
  en_pages : Z; en_page_size : Z; en_max_line : option cstring; en_limit_line : option cstring;
  en_effective : option cstring; en_wmem : option cstring; en_mem : option cstring
}.

(** A variable that is set and not empty. *)
Definition env_text (v : option cstring) : option cstring :=
  match v with Some (_ :: _) => v | _ => None end.

(** The configuration before [manager_init], [None] for [goto invalid]. *)
Definition process_config (env : mem_env) : option tcp_shift_tcp_memory_config :=
  let effective := tcp_shift_tcp_memory_effective_bytes (en_pages env) (en_page_size env)
                     (en_max_line env) (en_limit_line env) in
  let effective :=
    match env_text (en_effective env) with
    | Some text => match tcp_shift_parse_size text with
                   | Some v => if v =? 0 then None else Some v
                   | None => None
                   end
    | None => Some effective
    end in
  match effective with
  | None => None
  | Some effective =>
      let '(rc, config) := tcp_shift_tcp_memory_config_default zero_mem_config effective
        (if en_page_size env >? 0 then en_page_size env else 4096) in
      if rc <? 0 then None
      else
        let config :=
          match env_text (en_wmem env) with
          | Some text => match tcp_shift_tcp_memory_parse_wmem text with
                         | Some w => Some (config <| mc_wmem := w |>)
                         | None => None
                         end
          | None => Some config
          end in
        match config, env_text (en_mem env) with
        | None, _ => None
        | Some config, Some text =>
            if str_eqb text (lit "auto") then Some config
            else match tcp_shift_tcp_memory_parse_mem text with
                 | Some m => Some (config <| mc_mem := m |>)
                 | None => None
                 end
        | Some config, None => Some config
        end
  end.

Definition tcp_shift_process_tcp_memory_init (env : mem_env) (pm : process_memory)
    : Z * process_memory :=
  if negb (pm_state pm =? 0) then ((if pm_state pm >? 0 then 0 else -1), pm)
  else
    match process_config env with
    | None => (-1, pm <| pm_state := -1 |>)
    | Some config =>
        let '(rc, manager) := tcp_shift_tcp_memory_manager_init (pm_manager pm) config in
        if rc <? 0 then (-1, pm <| pm_state := -1 |>)
        else (0, mk_process manager 1)
    end.

Abbreviation ERR_OK := 0 (only parsing).
Abbreviation ERR_MEM := (-1) (only parsing).

(** The extension's destructor: release, then [free]. *)
Definition tcp_shift_lwip_tcp_memory_destroyed (pm : process_memory) (pcb : mem_pcb)
    : process_memory * mem_pcb :=
  match mp_ext pcb with
  | None => (pm, pcb)
  | Some ext =>
      let '(manager, _) := tcp_shift_tcp_memory_flow_release (pm_manager pm) (ex_flow ext) in
      (pm <| pm_manager := manager |>, pcb <| mp_ext := None |>)
  end.

Definition zero_ext : tcp_shift_lwip_tcp_memory_ext :=
  mk_ext (mk_flow false 0 0 0 0) None 0 0.

(** [calloc_ok]: whether [calloc] returns memory. *)
Definition tcp_shift_lwip_tcp_memory_alloc_ext (calloc_ok : bool) (pcb : mem_pcb)
    : option tcp_shift_lwip_tcp_memory_ext * mem_pcb :=
  if calloc_ok then (Some zero_ext, pcb <| mp_ext := Some zero_ext |>) else (None, pcb).

(** The second half of [ensure]: initialise the flow of an attached extension
    and apply the pending ratio. *)
Definition ensure_flow (pm : process_memory) (pcb : mem_pcb)
    (ext : tcp_shift_lwip_tcp_memory_ext)
    : option tcp_shift_lwip_tcp_memory_ext * process_memory * mem_pcb :=
  let expand_num := ex_pending_expand_num ext in
  let expand_den := ex_pending_expand_den ext in
  let '(rc, manager, flow, pcb) :=
    tcp_shift_tcp_memory_flow_init (pm_manager pm) (ex_flow ext) pcb in
  let pm := pm <| pm_manager := manager |> in
  if rc <? 0 then (None, pm, pcb)
  else
    let '(rc, flow) :=
      if negb (expand_num =? 0)
      then tcp_shift_tcp_memory_flow_set_sndbuf_expand flow expand_num expand_den
      else (0, flow) in
    if rc <? 0 then
      let '(manager, flow) := tcp_shift_tcp_memory_flow_release (pm_manager pm) flow in
      (None, pm <| pm_manager := manager |>, pcb <| mp_ext := Some (ext <| ex_flow := flow |>) |>)
    else
      let ext := ext <| ex_flow := flow |> <| ex_pending_expand_num := 0 |>
                     <| ex_pending_expand_den := 0 |> in
      (Some ext, pm, pcb <| mp_ext := Some ext |>).

Definition tcp_shift_lwip_tcp_memory_ensure (env : mem_env) (calloc_ok : bool)
    (pm : process_memory) (pcb : mem_pcb)
    : option tcp_shift_lwip_tcp_memory_ext * process_memory * mem_pcb :=
  match mp_ext pcb with
  | Some ext =>
      if fl_manager (ex_flow ext) then (Some ext, pm, pcb)
      else
        let '(rc, pm) := tcp_shift_process_tcp_memory_init env pm in
        if rc <? 0 then (None, pm, pcb) else ensure_flow pm pcb ext
  | None =>
      let '(rc, pm) := tcp_shift_process_tcp_memory_init env pm in
      if rc <? 0 then (None, pm, pcb)
      else
        match tcp_shift_lwip_tcp_memory_alloc_ext calloc_ok pcb with
        | (None, pcb) => (None, pm, pcb)
        | (Some ext, pcb) => ensure_flow pm pcb ext
        end
  end.

(** Result: the callback the dispatcher calls (its error code is returned), the
    manager and the control block. *)
Definition tcp_shift_lwip_tcp_memory_sent_dispatch (pm : process_memory) (pcb : mem_pcb)
    (len : Z) : option sent_fn * process_memory * mem_pcb :=
  match mp_ext pcb with
  | None => (None, pm, pcb)
  | Some ext =>
      let '(manager, flow) :=
        tcp_shift_tcp_memory_flow_note_acked (pm_manager pm) (ex_flow ext) len in
      (ex_app_sent ext, pm <| pm_manager := manager |>,
       pcb <| mp_ext := Some (ext <| ex_flow := flow |>) |>)
  end.

Section LwipWrappers.
(** lwIP's [tcp_write(pcb, arg, len, apiflags)]: the error code and the block. *)
Variable tcp_write : mem_pcb -> Z -> Z -> Z * mem_pcb.

Definition tcp_shift_lwip_tcp_memory_write (env : mem_env) (calloc_ok : bool)
    (pm : process_memory) (pcb : mem_pcb) (len apiflags : Z)
    : Z * process_memory * mem_pcb :=
  let '(ext, pm, pcb) := tcp_shift_lwip_tcp_memory_ensure env calloc_ok pm pcb in
  match ext with
  | None => (ERR_MEM, pm, pcb)
  | Some ext =>
      let '(rc, manager, flow, pcb) :=
        tcp_shift_tcp_memory_flow_maybe_grow (pm_manager pm) (ex_flow ext) pcb
          (fl_sndbuf_expand_num (ex_flow ext)) (fl_sndbuf_expand_den (ex_flow ext)) in
      let pm := pm <| pm_manager := manager |> in
      let pcb := pcb <| mp_ext := Some (ext <| ex_flow := flow |>) |> in
      if rc <? 0 then (ERR_MEM, pm, pcb)
      else
        let '(ok, manager) := tcp_shift_tcp_memory_flow_can_write (pm_manager pm) flow pcb len in
        let pm := pm <| pm_manager := manager |> in
        if negb ok then (ERR_MEM, pm, pcb <| mp_naglememerr := true |>)
        else
          let '(err, pcb) := tcp_write pcb len apiflags in
          if err =? ERR_OK then
            let '(manager, flow) :=
              tcp_shift_tcp_memory_flow_note_write (pm_manager pm) flow len in
            (err, pm <| pm_manager := manager |>,
             pcb <| mp_ext := Some (ext <| ex_flow := flow |>) |>)
          else (err, pm, pcb)
  end.

End LwipWrappers.

Definition tcp_shift_lwip_tcp_memory_sent (env : mem_env) (calloc_ok : bool)
    (pm : process_memory) (pcb : mem_pcb) (sent : option sent_fn)
    : process_memory * mem_pcb :=
  match sent with
  | None =>
      let pcb := match mp_ext pcb with
                 | Some ext => pcb <| mp_ext := Some (ext <| ex_app_sent := None |>) |>
                 | None => pcb
                 end in
      (pm, pcb <| mp_sent := None |>)
  | Some fn =>
      let '(ext, pm, pcb) :=
        match mp_ext pcb with
        | Some ext => (Some ext, pm, pcb)
        | None => tcp_shift_lwip_tcp_memory_ensure env calloc_ok pm pcb
        end in
      match ext with
      | None => (pm, pcb <| mp_sent := Some fn |>)
      | Some ext => (pm, pcb <| mp_ext := Some (ext <| ex_app_sent := Some fn |>) |>
                             <| mp_sent := Some SentDispatch |>)
      end
  end.

Definition tcp_shift_lwip_tcp_memory_set_sndbuf_expand (calloc_ok : bool) (pcb : mem_pcb)
    (expand_num expand_den : Z) : Z * mem_pcb :=
  if (expand_num =? 0) || (expand_den =? 0) then (-1, pcb)
  else
    let '(ext, pcb) :=
      match mp_ext pcb with
      | Some ext => (Some ext, pcb)
      | None => tcp_shift_lwip_tcp_memory_alloc_ext calloc_ok pcb
      end in
    match ext with
    | None => (-1, pcb)
    | Some ext =>
        if fl_manager (ex_flow ext) then
          let '(rc, flow) :=
            tcp_shift_tcp_memory_flow_set_sndbuf_expand (ex_flow ext) expand_num expand_den in
          (rc, pcb <| mp_ext := Some (ext <| ex_flow := flow |>) |>)
        else
          (0, pcb <| mp_ext := Some (ext <| ex_pending_expand_num := expand_num |>
                                         <| ex_pending_expand_den := expand_den |>) |>)
    end.

(** The two read-only accessors, which initialise the process on first use. *)
Definition tcp_shift_lwip_tcp_memory_process_config (env : mem_env) (pm : process_memory)
    : option tcp_shift_tcp_memory_config * process_memory :=
  let '(rc, pm) := tcp_shift_process_tcp_memory_init env pm in
  ((if rc =? 0 then Some (mg_config (pm_manager pm)) else None), pm).

Definition tcp_shift_lwip_tcp_memory_process_stats (env : mem_env) (pm : process_memory)
    : option tcp_shift_tcp_memory_stats * process_memory :=
  let '(rc, pm) := tcp_shift_process_tcp_memory_init env pm in
  ((if rc =? 0 then Some (mg_stats (pm_manager pm)) else None), pm).
