(* ===== verification/TcpMemorySpec.v ===== *)
(** * Properties of the send-memory accounting

    Parsing and its round trip, well-formedness of every configuration, and the
    invariant of the accounting over any interleaving of connections. *)

From Stdlib Require Import ZArith Lia Bool List Ascii String.
From stdpp Require Import base tactics numbers list gmap fin_maps.
From S2P Require Import Prelude CString TcpMemory.
Local Open Scope Z_scope.

(** ** Well-formed configurations *)

Definition mem_config_ok (c : tcp_shift_tcp_memory_config) : Prop :=
  1 <= wm_min_bytes (mc_wmem c) <= wm_initial_bytes (mc_wmem c) /\
  wm_initial_bytes (mc_wmem c) <= wm_max_bytes (mc_wmem c) <= UINT32_MAX /\
  0 <= mm_low_bytes (mc_mem c) <= mm_pressure_bytes (mc_mem c) /\
  mm_pressure_bytes (mc_mem c) <= mm_high_bytes (mc_mem c) <= UINT64_MAX /\
  1 <= mm_high_bytes (mc_mem c).

Definition mem_config_wf (c : tcp_shift_tcp_memory_config) : Prop :=
  in_u32 (wm_min_bytes (mc_wmem c)) /\ in_u32 (wm_initial_bytes (mc_wmem c)) /\
  in_u32 (wm_max_bytes (mc_wmem c)) /\ in_u64 (mm_low_bytes (mc_mem c)) /\
  in_u64 (mm_pressure_bytes (mc_mem c)) /\ in_u64 (mm_high_bytes (mc_mem c)).

Lemma config_accepted_ok c : mem_config_wf c -> config_rejected c = false <-> mem_config_ok c.
Proof.
  intros (?&?&?&?&?&?). unfold config_rejected, mem_config_ok. cbn zeta.
  rewrite !Z.gtb_ltb. lia.
Qed.

Lemma mul_sat_spec v m :
  in_u64 v -> in_u64 m -> tcp_shift_u64_mul_sat v m = Z.min UINT64_MAX (v * m).
Proof.
  intros Hv Hm. unfold tcp_shift_u64_mul_sat. destruct (v =? 0) eqn:E; cbn [negb andb].
  { assert (v = 0) as -> by lia. reflexivity. }
  rewrite Z.gtb_ltb, div_ltb_mul, (Z.mul_comm m v) by lia.
  case_match; [lia|]. rewrite u64_small by nia. lia.
Qed.

(** The default policy on unbounded integers; the high-water sum stays in
    range for pages of up to [2^56] bytes. *)
Lemma config_default_ok c eff page :
  1 <= eff <= UINT64_MAX -> 0 <= page <= 2 ^ 56 ->
  let '(rc, c') := tcp_shift_tcp_memory_config_default c eff page in
  rc = 0 /\ mem_config_ok c' /\ mem_config_wf c'.
Proof.
  intros He Hp. unfold tcp_shift_tcp_memory_config_default.
  destruct (eff =? 0) eqn:E; [lia|]. cbn zeta.
  set (pg := if page =? 0 then 4096 else page). assert (1 <= pg <= 2 ^ 56) by (unfold pg; case_match; lia).
  rewrite mul_sat_spec by lia. set (f := Z.min UINT64_MAX (128 * pg)).
  assert (128 <= f <= 2 ^ 63) by lia. set (p := if eff / 16 <? f then f else eff / 16).
  assert (128 <= p <= 2 ^ 63) by (unfold p; case_match; div_lia). clearbody p.
  assert (0 <= p / 4 <= p) by div_lia. assert (0 <= p / 2 <= 2 ^ 62) by div_lia.
  rewrite (u64_small (p - p / 4)), (u64_small (p + p / 2)) by lia.
  set (m0 := if p + p / 2 >? UINT32_MAX then _ else _).
  assert (0 <= m0 <= UINT32_MAX) by (unfold m0; case_match; lia). clearbody m0.
  set (m := if m0 <? _ then _ else _).
  assert (32768 <= m <= UINT32_MAX) by (unfold m; case_match; lia). clearbody m.
  split; [done|]. unfold mem_config_ok, mem_config_wf. cbn.
  rewrite (u32_small m) by lia. lia.
Qed.

(** ** Parsing *)

Lemma unit_multiplier_range c m : unit_multiplier c = Some m -> 1 <= m <= 1073741824.
Proof. unfold unit_multiplier. repeat case_match; intros [= <-]; lia. Qed.

Lemma scan_digits_nonneg s : forall acc, 0 <= acc -> 0 <= (scan_digits s acc).1.
Proof.
  induction s as [|c s IH]; intros acc Ha; cbn; [done|].
  destruct (isdigit c) eqn:E; [|done]. apply IH. unfold isdigit in E. lia.
Qed.

Lemma strtoull_range s v r : strtoull s = Some (v, r, false) -> in_u64 v.
Proof.
  unfold strtoull. destruct (scan_sign _) as [neg [|c d]]; [done|].
  destruct (isdigit c); [|done]. pose proof (scan_digits_nonneg (c :: d) 0 ltac:(lia)) as Hn.
  destruct (scan_digits (c :: d) 0) as [n rest]. cbn in Hn.
  destruct (n >? UINT64_MAX) eqn:E; [done|]. intros [= <- <-].
  destruct neg; [apply u64_range|lia].
Qed.

Lemma parse_suffix_range s m : parse_suffix s = Some m -> 1 <= m <= 1073741824.
Proof.
  unfold parse_suffix. destruct (drop_while isspace s) as [|c t]; [intros [= <-]; lia|].
  destruct (unit_multiplier c) as [k|] eqn:E; [|done].
  destruct (drop_while _ _); [|done]. intros [= <-]. by apply (unit_multiplier_range c).
Qed.

Lemma parse_size_range s v : tcp_shift_parse_size_span s = Some v -> in_u64 v.
Proof.
  unfold tcp_shift_parse_size_span. cbn zeta. destruct (_ || _); [done|].
  destruct (strtoull _) as [[[p r] []]|]; try done.
  destruct (parse_suffix r); [|done]. destruct (_ >? _); [done|]. intros [= <-]. apply u64_range.
Qed.

Lemma parse_triplet_range s a b c :
  tcp_shift_parse_triplet s = Some (a, b, c) -> in_u64 a /\ in_u64 b /\ in_u64 c.
Proof.
  unfold tcp_shift_parse_triplet. intros H. repeat (case_match; try discriminate H).
  injection H as <- <- <-. split_and!; eauto using parse_size_range; try (by eapply parse_size_range).
Qed.

Lemma parse_wmem_ok s w :
  tcp_shift_tcp_memory_parse_wmem s = Some w ->
  1 <= wm_min_bytes w <= wm_initial_bytes w /\
  wm_initial_bytes w <= wm_max_bytes w <= UINT32_MAX.
Proof.
  unfold tcp_shift_tcp_memory_parse_wmem.
  destruct (tcp_shift_parse_triplet s) as [[[a b] c]|] eqn:E; [|done].
  apply parse_triplet_range in E as (?&?&?). rewrite !Z.gtb_ltb.
  destruct (_ || _) eqn:Eo; [done|]. intros [= <-]. cbn. rewrite !u32_small by lia. lia.
Qed.

Lemma parse_mem_ok s m :
  tcp_shift_tcp_memory_parse_mem s = Some m ->
  0 <= mm_low_bytes m <= mm_pressure_bytes m /\
  mm_pressure_bytes m <= mm_high_bytes m <= UINT64_MAX /\ 1 <= mm_high_bytes m.
Proof.
  unfold tcp_shift_tcp_memory_parse_mem.
  destruct (tcp_shift_parse_triplet s) as [[[a b] c]|] eqn:E; [|done].
  apply parse_triplet_range in E as (?&?&?). rewrite !Z.gtb_ltb.
  destruct (_ || _) eqn:Eo; [done|]. intros [= <-]. cbn. lia.
Qed.

(** The suffixes a size may carry, with their multiplier. *)
Definition size_suffix (s : cstring) (m : Z) : Prop :=
  In (s, m) [(lit "", 1); (lit "k", 1024); (lit "K", 1024); (lit "KiB", 1024); (lit "kB", 1024);
             (lit " MiB", 1048576); (lit "M", 1048576); (lit "MB", 1048576);
             (lit "g", 1073741824); (lit " G", 1073741824); (lit "GiB", 1073741824)].

Lemma size_suffix_ok s m :
  size_suffix s m ->
  parse_suffix s = Some m /\ 1 <= m /\ (List.length s <= 4)%nat /\
  (match s with [] => True | c :: _ => isdigit c = false end) /\
  (s = [] \/ exists t c, s = t ++ [c] /\ isspace c = false) /\
  Forall (fun c => Ascii.eqb c "," = false) s.
Proof.
  unfold size_suffix. cbn.
  intros H. repeat destruct H as [[= <- <-]|H]; [..|done].
  all: (split; [reflexivity|split; [lia|split; [cbn; lia|split; [done|split]]]]).
  all: try (by left). all: try (repeat constructor; reflexivity).
  all: right; match goal with |- exists t c, ?s = t ++ [c] /\ _ =>
    exists (removelast s), (List.last s " "%char); split; reflexivity end.
Qed.

Lemma print_fuel_length fuel : forall n acc,
  (List.length (print_fuel fuel n acc) <= fuel + List.length acc)%nat.
Proof.
  induction fuel as [|f IH]; intros n acc; cbn; [done|]. destruct (n <? 10); [cbn; lia|].
  specialize (IH (n / 10) (digit_char (n mod 10) :: acc)). cbn in IH. lia.
Qed.

Lemma print_dec_cons n : 0 <= n -> exists c s, print_dec n = c :: s /\ isdigit c = true.
Proof.
  intros Hn. destruct (print_fuel_nonempty 19 n []) as (c & s & E).
  exists c, s. split; [exact E|]. pose proof (print_dec_digits n Hn) as Hd.
  unfold print_dec in Hd. rewrite E in Hd. by apply Forall_cons in Hd as [? _].
Qed.

(** A decimal number followed by a unit. *)
Definition size_text (n : Z) (s : cstring) : cstring := print_dec n ++ s.

Lemma parse_size_text n s m :
  size_suffix s m -> 0 <= n -> n * m <= UINT64_MAX ->
  tcp_shift_parse_size_span (size_text n s) = Some (n * m).
Proof.
  intros Hs Hn Hm. destruct (size_suffix_ok s m Hs) as (Hp & H1 & Hlen & Hnd & Hend & _).
  assert (n <= UINT64_MAX) by nia.
  destruct (print_dec_cons n Hn) as (c & d & Ed & Hc).
  pose proof (print_dec_digits n Hn) as Hall.
  assert (Htrim : drop_end isspace (drop_while isspace (size_text n s)) = size_text n s).
  { unfold size_text. rewrite Ed at 1. cbn [app].
    rewrite drop_while_id by (by apply isdigit_not_space). rewrite app_comm_cons, <- Ed.
    destruct Hend as [->|(t & x & -> & Hx)].
    - rewrite app_nil_r. apply drop_end_none. eapply Forall_impl; [exact Hall|].
      intros y. apply isdigit_not_space.
    - rewrite app_assoc. by apply drop_end_id. }
  unfold tcp_shift_parse_size_span. rewrite Htrim. cbn zeta.
  assert (Hl : (1 <= List.length (size_text n s) <= 24)%nat).
  { unfold size_text. rewrite length_app. pose proof (print_fuel_length 20 n []) as Hf.
    fold (print_dec n) in Hf. rewrite Ed in *. cbn [length] in *. lia. }
  destruct (_ || _) eqn:E; [lia|]. unfold size_text.
  rewrite strtoull_print by (done || lia). rewrite Hp.
  rewrite Z.gtb_ltb, div_ltb_mul by lia. destruct (_ <? n * m) eqn:E2; [lia|].
  by rewrite u64_small by nia.
Qed.

Lemma size_text_no_comma n s m :
  size_suffix s m -> 0 <= n -> Forall (fun c => Ascii.eqb c "," = false) (size_text n s).
Proof.
  intros Hs Hn. destruct (size_suffix_ok s m Hs) as (_ & _ & _ & _ & _ & Hc).
  apply Forall_app. split; [|done]. eapply Forall_impl; [apply print_dec_digits; lia|].
  intros c Hd. by apply digit_not.
Qed.

(** "a,b,c" with units. *)
Definition triplet_text (a : Z) (sa : cstring) (b : Z) (sb : cstring) (c : Z) (sc : cstring)
    : cstring :=
  size_text a sa ++ ","%char :: size_text b sb ++ ","%char :: size_text c sc.

(** Round trip of the policy syntax: three numbers printed in decimal with
    any of the accepted units and joined by commas are read back exactly, as a
    send-buffer policy when they are ordered and nonzero, and as a memory
    policy. *)
Theorem memory_policy_roundtrip a sa ma b sb mb c sc mc :
  size_suffix sa ma -> size_suffix sb mb -> size_suffix sc mc ->
  1 <= a -> 0 <= b -> 0 <= c ->
  a * ma <= b * mb -> b * mb <= c * mc -> c * mc <= UINT64_MAX ->
  tcp_shift_tcp_memory_parse_mem (triplet_text a sa b sb c sc)
    = Some (mk_mem (a * ma) (b * mb) (c * mc)) /\
  (c * mc <= UINT32_MAX ->
   tcp_shift_tcp_memory_parse_wmem (triplet_text a sa b sb c sc)
     = Some (mk_wmem (a * ma) (b * mb) (c * mc))).
Proof.
  intros Ha Hb Hc Ga Gb Gc Hab Hbc Hmax.
  assert (1 <= a * ma) by (destruct (size_suffix_ok sa ma Ha) as (_&?&_); nia).
  assert (Ht : tcp_shift_parse_triplet (triplet_text a sa b sb c sc)
    = Some (a * ma, b * mb, c * mc)).
  { unfold tcp_shift_parse_triplet, triplet_text.
    rewrite strchr_none_prefix by (apply (size_text_no_comma a sa ma); [done|lia]).
    pose proof (parse_size_text a sa ma Ha ltac:(lia) ltac:(lia)) as Pa.
    pose proof (parse_size_text b sb mb Hb ltac:(lia) ltac:(lia)) as Pb.
    pose proof (parse_size_text c sc mc Hc ltac:(lia) ltac:(lia)) as Pc.
    assert (Hne : forall n s, 0 <= n -> exists x t, size_text n s = x :: t).
    { intros n s Hn. unfold size_text. destruct (print_dec_cons n Hn) as (x & t & -> & _).
      cbn. eauto. }
    destruct (Hne a sa ltac:(lia)) as (x & t & Ea). rewrite Ea in *. rewrite Pa.
    rewrite strchr_none_prefix by (by apply (size_text_no_comma b sb mb)).
    destruct (Hne b sb Gb) as (y & u & Eb). rewrite Eb in *. rewrite Pb.
    rewrite strchr_absent by (by apply (size_text_no_comma c sc mc)).
    destruct (Hne c sc Gc) as (z & v & Ec). rewrite Ec in *.
    unfold tcp_shift_parse_size. by rewrite Pc. }
  unfold tcp_shift_tcp_memory_parse_mem, tcp_shift_tcp_memory_parse_wmem. rewrite Ht, !Z.gtb_ltb.
  split.
  - destruct (_ || _) eqn:E; [lia|done].
  - intros H32. destruct (_ || _) eqn:E; [lia|]. by rewrite !u32_small by lia.
Qed.

Lemma memory_policy_roundtrip_witness :
  triplet_text 4 (lit "K") 64 (lit "KiB") 6 (lit "MB") = lit "4K,64KiB,6MB" /\
  tcp_shift_tcp_memory_parse_wmem (lit "4K,64KiB,6MB") = Some (mk_wmem 4096 65536 6291456).
Proof.
  split; [reflexivity|].
  destruct (memory_policy_roundtrip 4 (lit "K") 1024 64 (lit "KiB") 1024 6 (lit "MB") 1048576)
    as [_ H]; try lia.
  - unfold size_suffix. cbn. tauto.
  - unfold size_suffix. cbn. tauto.
  - unfold size_suffix. cbn. tauto.
  - apply H. lia.
Defined.

(** ** The process configuration *)

Definition mem_env_wf (env : mem_env) : Prop :=
  en_pages env <= 9223372036854775807 /\ en_page_size env <= 2 ^ 56.

Lemma read_limit_range l : in_u64 (tcp_shift_read_limit_file l).
Proof.
  unfold tcp_shift_read_limit_file. destruct l as [s|]; [|lia].
  destruct (has_max_prefix s); [lia|].
  destruct (strtoull s) as [[[v r] []]|] eqn:E; try lia. by apply strtoull_range in E.
Qed.

Lemma effective_bytes_range env :
  1 <= tcp_shift_tcp_memory_effective_bytes (en_pages env) (en_page_size env)
         (en_max_line env) (en_limit_line env) <= UINT64_MAX.
Proof.
  unfold tcp_shift_tcp_memory_effective_bytes, tcp_shift_u64_min. cbn zeta.
  pose proof (read_limit_range (en_max_line env)) as H1.
  pose proof (read_limit_range (en_limit_line env)) as H2.
  set (l := if tcp_shift_read_limit_file (en_max_line env) =? 0 then _ else _).
  assert (in_u64 l) by (unfold l; case_match; lia). clearbody l.
  set (p := if _ && _ && _ then _ else 0).
  assert (in_u64 p) by (unfold p; case_match; [apply u64_range|lia]). clearbody p.
  set (e := if _ && _ then _ else p).
  assert (in_u64 e) by (unfold e; repeat case_match; lia). clearbody e.
  case_match; lia.
Qed.

Lemma process_config_ok env c :
  mem_env_wf env -> process_config env = Some c -> mem_config_ok c.
Proof.
  intros [Hp Hs]. unfold process_config. cbn zeta.
  pose proof (effective_bytes_range env) as He.
  set (e0 := tcp_shift_tcp_memory_effective_bytes _ _ _ _) in *. clearbody e0.
  set (eff := match env_text (en_effective env) with Some _ => _ | None => _ end).
  assert (Heff : match eff with Some e => 1 <= e <= UINT64_MAX | None => True end).
  { unfold eff. destruct (env_text (en_effective env)) as [t|]; [|done].
    destruct (tcp_shift_parse_size t) as [v|] eqn:E; [|done]. apply parse_size_range in E.
    destruct (v =? 0) eqn:E0; [done|lia]. }
  clearbody eff. destruct eff as [e|]; [|done].
  pose proof (config_default_ok zero_mem_config e
    (if en_page_size env >? 0 then en_page_size env else 4096) Heff
    ltac:(case_match; lia)) as Hd.
  destruct (tcp_shift_tcp_memory_config_default _ _ _) as [rc c0].
  destruct Hd as (-> & Hok & _). cbn [Z.ltb Z.compare].
  set (c1 := match env_text (en_wmem env) with Some _ => _ | None => _ end).
  assert (H1 : match c1 with Some x => mem_config_ok x | None => True end).
  { unfold c1. destruct (env_text (en_wmem env)) as [t|]; [|done].
    destruct (tcp_shift_tcp_memory_parse_wmem t) as [w|] eqn:E; [|done].
    apply parse_wmem_ok in E. destruct Hok as (_&_&?&?&?). unfold mem_config_ok. cbn. lia. }
  clearbody c1. destruct c1 as [c1|]; [|done].
  destruct (env_text (en_mem env)) as [t|]; [|by intros [= <-]].
  destruct (str_eqb t _); [by intros [= <-]|].
  destruct (tcp_shift_tcp_memory_parse_mem t) as [m|] eqn:E; [|done].
  apply parse_mem_ok in E. intros [= <-]. destruct H1 as (?&?&_). unfold mem_config_ok. cbn. lia.
Qed.

Lemma manager_init_ok g c :
  mem_config_ok c -> tcp_shift_tcp_memory_manager_init g c = (0, mk_manager c zero_mem_stats false).
Proof.
  intros (?&?&?&?&?). unfold tcp_shift_tcp_memory_manager_init.
  replace (config_rejected c) with false; [done|]. symmetry. apply config_accepted_ok; [|done].
  unfold mem_config_wf. lia.
Qed.

Lemma process_init_cases env pm rc pm' :
  mem_env_wf env -> pm_state pm = 0 \/ pm_state pm = 1 \/ pm_state pm = -1 ->
  tcp_shift_process_tcp_memory_init env pm = (rc, pm') ->
  (rc = 0 /\ pm_state pm = 1 /\ pm' = pm) \/
  (rc = 0 /\ pm_state pm = 0 /\ pm_state pm' = 1 /\
   exists c, process_config env = Some c /\ mem_config_ok c /\
             pm_manager pm' = mk_manager c zero_mem_stats false) \/
  (rc = -1 /\ pm_state pm' = -1 /\ pm_state pm <> 1).
Proof.
  intros He Hst. unfold tcp_shift_process_tcp_memory_init.
  destruct (pm_state pm =? 0) eqn:E0; cbn [negb].
  2: { intros [= <- <-]. destruct Hst as [?|[E|E]]; [lia| |]; rewrite E; cbn; [by left|right; right].
       split_and!; try done. }
  destruct (process_config env) as [c|] eqn:Ec.
  - pose proof (process_config_ok env c He Ec) as Hc. rewrite manager_init_ok by done.
    cbn. intros [= <- <-]. right. left. split_and!; try done; [lia|]. eauto.
  - intros [= <- <-]. right. right. split_and!; try done. lia.
Qed.

(** C40. Every process configuration is well-formed. Whatever the environment
    variables, the cgroup files and the machine report, initialisation either
    succeeds with a policy whose bounds are ordered, nonzero and within their
    types, or fails for good; without overrides it always succeeds. *)
Theorem memory_process_config_type env pm rc pm' :
  mem_env_wf env -> pm_state pm = 0 ->
  tcp_shift_process_tcp_memory_init env pm = (rc, pm') ->
  (rc = 0 -> pm_state pm' = 1 /\ mem_config_ok (mg_config (pm_manager pm'))) /\
  (rc <> 0 -> rc = -1 /\ pm_state pm' = -1) /\
  (env_text (en_effective env) = None -> env_text (en_wmem env) = None ->
   env_text (en_mem env) = None -> rc = 0).
Proof.
  intros He Hs E. split; [|split].
  - intros ->. destruct (process_init_cases env pm 0 pm' He ltac:(by left) E)
      as [(_&?&_)|[(_&_&?&c&_&?&->)|(?&_)]]; [lia|done|lia].
  - intros Hrc. destruct (process_init_cases env pm rc pm' He ltac:(by left) E)
      as [(?&_)|[(?&_)|(?&?&_)]]; done.
  - intros E1 E2 E3. revert E. unfold tcp_shift_process_tcp_memory_init. rewrite Hs. cbn [Z.eqb negb].
    destruct (process_config env) as [c|] eqn:Ec.
    { rewrite manager_init_ok by (by apply (process_config_ok env)). by intros [= <- _]. }
    exfalso. revert Ec. unfold process_config. rewrite E1, E2, E3. destruct He as [? ?].
    pose proof (config_default_ok zero_mem_config _
      (if en_page_size env >? 0 then en_page_size env else 4096) (effective_bytes_range env)
      ltac:(case_match; lia)) as Hd.
    cbn zeta. destruct (tcp_shift_tcp_memory_config_default _ _ _) as [rc0 c0].
    destruct Hd as (-> & _). done.
Qed.

Definition sample_mem_env : mem_env :=
  mk_mem_env 262144 4096 (Some (lit "max")) None None (Some (lit "4K,64K,1M")) None.
Definition blank_process : process_memory :=
  mk_process (mk_manager zero_mem_config zero_mem_stats false) 0.

Lemma memory_process_config_type_witness :
  (tcp_shift_process_tcp_memory_init sample_mem_env blank_process).1 = 0 /\
  mem_config_ok (mg_config (pm_manager
    (tcp_shift_process_tcp_memory_init sample_mem_env blank_process).2)).
Proof.
  split; [vm_compute; reflexivity|].
  apply (memory_process_config_type sample_mem_env blank_process 0).
  - split; cbn; lia.
  - reflexivity.
  - vm_compute. reflexivity.
  - reflexivity.
Defined.

(** ** The accounting invariant *)

(** The manager when its flows hold [total] bytes. *)
Definition manager_ok (g : tcp_shift_tcp_memory_manager) (total : Z) : Prop :=
  mem_config_ok (mg_config g) /\
  ms_charged_bytes (mg_stats g) = total /\
  0 <= total <= mm_high_bytes (mc_mem (mg_config g)) /\
  total <= ms_peak_charged_bytes (mg_stats g) <= mm_high_bytes (mc_mem (mg_config g)) /\
  (mm_low_bytes (mc_mem (mg_config g)) < mm_pressure_bytes (mc_mem (mg_config g)) ->
   (mm_pressure_bytes (mc_mem (mg_config g)) <= total -> mg_pressure_active g = true) /\
   (total <= mm_low_bytes (mc_mem (mg_config g)) -> mg_pressure_active g = false)).

Definition flow_ok (c : tcp_shift_tcp_memory_config) (f : tcp_shift_tcp_memory_flow) : Prop :=
  wm_initial_bytes (mc_wmem c) <= fl_capacity_bytes f <= wm_max_bytes (mc_wmem c) /\
  0 <= fl_queued_bytes f /\
  1 <= fl_sndbuf_expand_num f <= UINT32_MAX /\ 1 <= fl_sndbuf_expand_den f <= UINT32_MAX.

Definition blank_flow : tcp_shift_tcp_memory_flow := mk_flow false 0 0 0 0.

Definition process_ok (pm : process_memory) (total : Z) : Prop :=
  (pm_state pm = 1 /\ manager_ok (pm_manager pm) total) \/
  ((pm_state pm = 0 \/ pm_state pm = -1) /\ total = 0).

Definition ext_ok (pm : process_memory) (e : tcp_shift_lwip_tcp_memory_ext) : Prop :=
  (if fl_manager (ex_flow e)
   then pm_state pm = 1 /\ flow_ok (mg_config (pm_manager pm)) (ex_flow e)
   else ex_flow e = blank_flow) /\
  (ex_pending_expand_num e = 0 \/
   (1 <= ex_pending_expand_num e <= UINT32_MAX /\ 1 <= ex_pending_expand_den e <= UINT32_MAX)).

Definition pcb_ok (pm : process_memory) (p : mem_pcb) : Prop :=
  in_u32 (mp_cwnd p) /\ in_u32 (mp_snd_buf p) /\
  match mp_ext p with Some e => ext_ok pm e | None => True end.

Definition queued (p : mem_pcb) : Z :=
  match mp_ext p with Some e => fl_queued_bytes (ex_flow e) | None => 0 end.

(** Later states of the process keep an established configuration. *)
Definition process_later (pm pm' : process_memory) : Prop :=
  pm_state pm = 1 -> pm_state pm' = 1 /\ mg_config (pm_manager pm') = mg_config (pm_manager pm).

#[local] Instance process_later_preorder : PreOrder process_later.
Proof.
  split; [done|]. intros x y z H1 H2 Hx. destruct (H1 Hx) as [Hy E1].
  destruct (H2 Hy) as [Hz E2]. split; [done|congruence].
Qed.

Lemma pcb_ok_later pm pm' p : process_later pm pm' -> pcb_ok pm p -> pcb_ok pm' p.
Proof.
  intros Hl (?&?&He). split_and!; try done; try lia. destruct (mp_ext p) as [e|]; [|done].
  destruct He as [Hf Hp]. split; [|done]. destruct (fl_manager (ex_flow e)); [|done].
  destruct Hf as [Hs Hf]. destruct (Hl Hs) as [? E]. by rewrite E.
Qed.

Lemma pcb_queued_nonneg pm p : pcb_ok pm p -> 0 <= queued p.
Proof.
  intros (_&_&He). unfold queued. destruct (mp_ext p) as [e|]; [|lia]. destruct He as [Hf _].
  destruct (fl_manager (ex_flow e)); [by destruct Hf as (_&_&?&_)|rewrite Hf; done].
Qed.

(** The other counters do not matter. *)
Lemma manager_ok_ext g g' total :
  mg_config g' = mg_config g -> mg_pressure_active g' = mg_pressure_active g ->
  ms_charged_bytes (mg_stats g') = ms_charged_bytes (mg_stats g) ->
  ms_peak_charged_bytes (mg_stats g') = ms_peak_charged_bytes (mg_stats g) ->
  manager_ok g total -> manager_ok g' total.
Proof. intros E1 E2 E3 E4. unfold manager_ok. by rewrite E1, E2, E3, E4. Qed.

(** Pressure is recomputed after every change of the charge. *)
Lemma update_pressure_ok g total :
  mem_config_ok (mg_config g) -> ms_charged_bytes (mg_stats g) = total ->
  0 <= total <= mm_high_bytes (mc_mem (mg_config g)) ->
  total <= ms_peak_charged_bytes (mg_stats g) <= mm_high_bytes (mc_mem (mg_config g)) ->
  manager_ok (tcp_shift_tcp_memory_update_pressure g) total /\
  mg_config (tcp_shift_tcp_memory_update_pressure g) = mg_config g /\
  ms_accounting_underflows (mg_stats (tcp_shift_tcp_memory_update_pressure g)) =
  ms_accounting_underflows (mg_stats g).
Proof.
  intros Hc Et Ht Hp. unfold tcp_shift_tcp_memory_update_pressure. cbn zeta. rewrite Et.
  unfold manager_ok. destruct (mg_pressure_active g) eqn:Ea; cbn [negb andb].
  - destruct (_ <=? _) eqn:E; cbn; (split; [|done]); rewrite ?Ea;
      (split_and!; try done; try lia; intros _; split; intros ?; done || lia).
  - destruct (_ >=? _) eqn:E; cbn; (split; [|done]); rewrite ?Ea;
      (split_and!; try done; try lia; intros _; split; intros ?; done || lia).
Qed.

(** *** Flow operations *)

Lemma flow_init_ok g f p total rc g' f' p' :
  manager_ok g total -> in_u32 (mp_cwnd p) -> in_u32 (mp_snd_buf p) ->
  tcp_shift_tcp_memory_flow_init g f p = (rc, g', f', p') ->
  (rc = -1 /\ g' = g /\ f' = f /\ p' = p) \/
  (rc = 0 /\ manager_ok g' total /\ mg_config g' = mg_config g /\
   flow_ok (mg_config g) f' /\ fl_manager f' = true /\ fl_queued_bytes f' = 0 /\
   p' = p <| mp_snd_buf := wm_initial_bytes (mc_wmem (mg_config g)) |>).
Proof.
  intros Hg Hc Hs. unfold tcp_shift_tcp_memory_flow_init.
  destruct (_ || _); intros [= <- <- <- <-]; [by left|]. right. cbn.
  pose proof Hg as ((?&?&_)&_). split; [done|]. split; [by apply (manager_ok_ext g)|].
  split; [done|]. split; [unfold flow_ok; cbn; lia|done].
Qed.

Lemma flow_maybe_grow_ok g f p n d total rc g' f' p' :
  manager_ok g total -> flow_ok (mg_config g) f -> fl_manager f = true ->
  in_u32 (mp_cwnd p) -> in_u32 (mp_snd_buf p) -> 1 <= n <= UINT32_MAX -> 1 <= d <= UINT32_MAX ->
  tcp_shift_tcp_memory_flow_maybe_grow g f p n d = (rc, g', f', p') ->
  manager_ok g' total /\ mg_config g' = mg_config g /\ flow_ok (mg_config g) f' /\
  fl_manager f' = true /\ fl_queued_bytes f' = fl_queued_bytes f /\
  mp_ext p' = mp_ext p /\ mp_cwnd p' = mp_cwnd p /\ in_u32 (mp_snd_buf p') /\
  mp_snd_buf p' - mp_snd_buf p = fl_capacity_bytes f' - fl_capacity_bytes f /\
  fl_capacity_bytes f <= fl_capacity_bytes f' /\
  fl_sndbuf_expand_num f' = fl_sndbuf_expand_num f /\
  fl_sndbuf_expand_den f' = fl_sndbuf_expand_den f.
Proof.
  intros Hg Hf Hm Hc Hs Hn Hd. unfold tcp_shift_tcp_memory_flow_maybe_grow. rewrite Hm.
  pose proof Hg as ((?&?&?&?&?)&Hg1). destruct Hf as (?&?&?&?).
  destruct (_ || _) eqn:E; [lia|]. set (t := grow_target _ _ _ _).
  assert (Ht : t <= wm_max_bytes (mc_wmem (mg_config g))) by (unfold t, grow_target; repeat case_match; lia).
  clearbody t. destruct (t <=? _) eqn:E1;
    [intros [= <- <- <- <-]; split; [done|]; unfold flow_ok; split_and!; done || lia|].
  destruct (mg_pressure_active g) eqn:Ep.
  { intros [= <- <- <- <-]. split; [by apply (manager_ok_ext g)|].
    unfold flow_ok. split_and!; done || lia. }
  rewrite (u32_small (t - _)), (u64_small (mp_snd_buf p + _)) by lia.
  destruct (_ >? UINT32_MAX) eqn:E2;
    [intros [= <- <- <- <-]; split; [done|]; unfold flow_ok; split_and!; done || lia|].
  intros [= <- <- <- <-]. split; [by apply (manager_ok_ext g)|]. unfold flow_ok. cbn.
  rewrite (u32_small t), (u32_small (_ + _)) by lia. split_and!; done || lia.
Qed.

Lemma flow_can_write_ok g f p n total ok g' :
  manager_ok g total -> fl_manager f = true -> 0 <= n <= 65535 ->
  tcp_shift_tcp_memory_flow_can_write g f p n = (ok, g') ->
  manager_ok g' total /\ mg_config g' = mg_config g /\
  (ok = true -> total + n <= mm_high_bytes (mc_mem (mg_config g)) /\ (n = 0 \/ n <= mp_snd_buf p)).
Proof.
  intros Hg Hm Hn. unfold tcp_shift_tcp_memory_flow_can_write. rewrite Hm. cbn [negb].
  pose proof Hg as ((?&?&?&?&?)&Ec&Ht&Hp&Hpr).
  destruct (n =? 0) eqn:E0; [intros [= <- <-]; split; [done|split; [done|lia]]|].
  rewrite !Z.gtb_ltb. destruct (_ <? n) eqn:E1; [intros [= <- <-]; done|].
  rewrite Ec, (u64_small (_ - total)) by lia.
  destruct (_ || _) eqn:E2; intros [= <- <-].
  - split; [by apply (manager_ok_ext g)|done].
  - split; [done|]. split; [done|]. lia.
Qed.

Lemma flow_note_write_ok g f n total g' f' :
  manager_ok g total -> flow_ok (mg_config g) f -> fl_manager f = true ->
  0 <= n -> fl_queued_bytes f <= total -> total + n <= mm_high_bytes (mc_mem (mg_config g)) ->
  tcp_shift_tcp_memory_flow_note_write g f n = (g', f') ->
  manager_ok g' (total + n) /\ mg_config g' = mg_config g /\ flow_ok (mg_config g) f' /\
  fl_manager f' = true /\ fl_queued_bytes f' = fl_queued_bytes f + n.
Proof.
  intros Hg Hf Hm Hn Hq Ht. unfold tcp_shift_tcp_memory_flow_note_write. rewrite Hm. cbn [negb orb].
  pose proof Hg as ((?&?&?&?&?)&Ec&?&?&?). pose proof Hf as (?&?&?&?).
  destruct (n =? 0) eqn:E; [intros [= <- <-]; rewrite !Z.add_0_r || (replace n with 0 by lia);
    rewrite ?Z.add_0_r; done|].
  cbn zeta. rewrite Ec, (u64_small (total + n)), (u64_small (fl_queued_bytes f + n)) by lia.
  intros [= <- <-]. set (g1 := g <| mg_stats := _ |>).
  destruct (update_pressure_ok g1 (total + n)) as (U1 & U2 & _); try done; cbn; try lia.
  { case_match; lia. }
  split; [done|]. split; [done|]. split; [unfold flow_ok; cbn; lia|done].
Qed.

(** [over]: the acknowledgement exceeds what the flow has queued. *)
Lemma flow_note_acked_ok g f n total g' f' :
  manager_ok g total -> flow_ok (mg_config g) f -> fl_manager f = true ->
  0 <= n -> fl_queued_bytes f <= total ->
  tcp_shift_tcp_memory_flow_note_acked g f n = (g', f') ->
  let taken := Z.min n (fl_queued_bytes f) in
  manager_ok g' (total - taken) /\ mg_config g' = mg_config g /\ flow_ok (mg_config g) f' /\
  fl_manager f' = true /\ fl_queued_bytes f' = fl_queued_bytes f - taken /\
  ms_accounting_underflows (mg_stats g') =
    (if fl_queued_bytes f <? n then ms_accounting_underflows (mg_stats g) +w64 1
     else ms_accounting_underflows (mg_stats g)).
Proof.
  intros Hg Hf Hm Hn Hq. unfold tcp_shift_tcp_memory_flow_note_acked. rewrite Hm. cbn [negb orb].
  pose proof Hg as ((?&?&?&?&?)&Ec&?&?&?). pose proof Hf as (?&?&?&?). cbn zeta.
  destruct (n =? 0) eqn:E.
  { intros [= <- <-]. rewrite Z.min_l, (proj2 (Z.ltb_ge _ _)) by lia.
    assert (n = 0) as -> by lia. rewrite !Z.sub_0_r. done. }
  unfold clip_amount at 1. rewrite Z.gtb_ltb.
  set (c1 := if fl_queued_bytes f <? n then _ else _).
  assert (Hc1 : ms_charged_bytes c1.1 = total /\ c1.2 = Z.min n (fl_queued_bytes f) /\
    ms_peak_charged_bytes c1.1 = ms_peak_charged_bytes (mg_stats g) /\
    ms_accounting_underflows c1.1 =
      (if fl_queued_bytes f <? n then ms_accounting_underflows (mg_stats g) +w64 1
       else ms_accounting_underflows (mg_stats g))).
  { unfold c1. destruct (_ <? n) eqn:E1; cbn; split_and!; done || lia. }
  destruct c1 as [st am]. cbn [fst snd] in Hc1. destruct Hc1 as (E1 & -> & E2 & E3).
  unfold clip_amount. rewrite E1, Z.gtb_ltb, (proj2 (Z.ltb_ge _ _)) by lia. rewrite E1.
  set (taken := Z.min n _). assert (0 <= taken <= fl_queued_bytes f) by lia. clearbody taken.
  rewrite (u64_small (total - taken)), (u64_small (fl_queued_bytes f - taken)) by lia.
  intros [= <- <-]. set (g1 := g <| mg_stats := _ |>).
  destruct (update_pressure_ok g1 (total - taken)) as (U1 & U2 & U3); try done; cbn; try lia.
  split; [done|]. split; [done|]. split; [unfold flow_ok; cbn; lia|].
  split; [done|]. split; [done|]. rewrite U3. exact E3.
Qed.

Lemma flow_release_ok g f total g' f' :
  manager_ok g total -> flow_ok (mg_config g) f -> fl_manager f = true ->
  fl_queued_bytes f <= total ->
  tcp_shift_tcp_memory_flow_release g f = (g', f') ->
  manager_ok g' (total - fl_queued_bytes f) /\ mg_config g' = mg_config g /\ f' = blank_flow /\
  ms_accounting_underflows (mg_stats g') = ms_accounting_underflows (mg_stats g).
Proof.
  intros Hg Hf Hm Hq. unfold tcp_shift_tcp_memory_flow_release. rewrite Hm. cbn [negb].
  pose proof Hg as ((?&?&?&?&?)&Ec&?&?&?). pose proof Hf as (?&?&?&?).
  unfold clip_amount. rewrite Ec, Z.gtb_ltb, (proj2 (Z.ltb_ge _ _)) by lia. rewrite Ec.
  rewrite (u64_small (total - fl_queued_bytes f)) by lia.
  intros [= <- <-]. set (g1 := g <| mg_stats := _ |>).
  destruct (update_pressure_ok g1 (total - fl_queued_bytes f)) as (U1 & U2 & U3);
    try done; cbn; try lia.
Qed.

(** *** The wrappers

    Each lemma carries a rest [r], the bytes of all other connections. *)

(** The process and a block agree, and the rest of the system is consistent. *)
Definition local_ok (pm : process_memory) (p : mem_pcb) (r : Z) : Prop :=
  process_ok pm (r + queued p) /\ pcb_ok pm p /\ 0 <= r.

Lemma attached_manager pm p e r :
  local_ok pm p r -> mp_ext p = Some e -> fl_manager (ex_flow e) = true ->
  pm_state pm = 1 /\ manager_ok (pm_manager pm) (r + fl_queued_bytes (ex_flow e)) /\
  flow_ok (mg_config (pm_manager pm)) (ex_flow e).
Proof.
  intros (Hp & (_&_&He) & Hr) E Em. rewrite E in He. destruct He as [He _]. rewrite Em in He.
  destruct He as [Hs Hf]. unfold queued in Hp. rewrite E in Hp.
  destruct Hp as [[_ Hg]|[[?|?] _]]; [done|lia|lia].
Qed.

Lemma process_init_ok env pm p r rc pm' :
  mem_env_wf env -> local_ok pm p r -> tcp_shift_process_tcp_memory_init env pm = (rc, pm') ->
  local_ok pm' p r /\ process_later pm pm' /\ (rc = -1 \/ (rc = 0 /\ pm_state pm' = 1)).
Proof.
  intros He (Hp & Hok & Hr) E.
  assert (Hst : pm_state pm = 0 \/ pm_state pm = 1 \/ pm_state pm = -1)
    by (destruct Hp as [[? _]|[[?|?] _]]; auto).
  destruct (process_init_cases env pm rc pm' He Hst E)
    as [(-> & Hs & ->)|[(-> & Hs & Hs' & c & _ & Hc & Eg)|(-> & Hs' & Hs)]].
  - split; [done|]. split; [done|]. by right.
  - assert (Hl : process_later pm pm') by (intros ?; lia).
    split; [|split; [done|by right]]. split; [|split; [by apply (pcb_ok_later pm)|done]].
    destruct Hp as [[? _]|[_ Ht]]; [lia|]. left. split; [done|]. rewrite Ht, Eg.
    destruct Hc as (?&?&?&?&?). unfold manager_ok, mem_config_ok. cbn. split_and!; done || lia.
  - assert (Hl : process_later pm pm') by (intros ?; lia).
    split; [|split; [done|by left]]. split; [|split; [by apply (pcb_ok_later pm)|done]].
    destruct Hp as [[? _]|[_ Ht]]; [lia|]. right. split; [by right|done].
Qed.

(** Replace an extension by one with the same queue. *)
Lemma local_ok_block pm p p' r :
  local_ok pm p r -> mp_ext p' = mp_ext p -> in_u32 (mp_cwnd p') -> in_u32 (mp_snd_buf p') ->
  local_ok pm p' r.
Proof.
  intros (Hp & (_&_&He) & Hr) E Hc Hs. unfold local_ok, pcb_ok, queued in *. by rewrite E.
Qed.

Lemma ensure_flow_ok pm p e r oe pm' p' :
  local_ok pm p r -> pm_state pm = 1 -> mp_ext p = Some e -> fl_manager (ex_flow e) = false ->
  ensure_flow pm p e = (oe, pm', p') ->
  local_ok pm' p' r /\ process_later pm pm' /\
  match oe with Some e' => mp_ext p' = Some e' /\ fl_manager (ex_flow e') = true | None => True end.
Proof.
  intros Hl Hs Ee Em. unfold ensure_flow. pose proof Hl as (Hp & (Hc & Hb & He) & Hr).
  rewrite Ee in He. destruct He as [Hf Hpend]. rewrite Em in Hf.
  assert (Hg : manager_ok (pm_manager pm) r).
  { unfold queued in Hp. rewrite Ee, Hf in Hp. cbn in Hp. rewrite Z.add_0_r in Hp.
    destruct Hp as [[_ ?]|[[?|?] _]]; [done|lia|lia]. }
  destruct (tcp_shift_tcp_memory_flow_init _ _ _) as [[[rc g'] f'] p1] eqn:E.
  destruct (flow_init_ok _ _ _ _ _ _ _ _ Hg Hc Hb E)
    as [(-> & -> & -> & ->)|(-> & Hg' & Ecfg & Hf' & Em' & Eq & ->)].
  { cbn. intros [= <- <- <-]. split; [|done].
    unfold local_ok, process_ok, pcb_ok, ext_ok in *. rewrite Ee in *. cbn. rewrite Em. done. }
  cbn [Z.ltb Z.compare]. pose proof Hg as ((?&?&_)&_).
  set (x := if negb _ then _ else (0, f')).
  assert (Hx : x.1 = 0 /\ flow_ok (mg_config (pm_manager pm)) x.2 /\ fl_manager x.2 = true /\
    fl_queued_bytes x.2 = 0).
  { unfold x, tcp_shift_tcp_memory_flow_set_sndbuf_expand. rewrite Em'. cbn [negb orb].
    destruct (ex_pending_expand_num e =? 0) eqn:E0; cbn [negb orb]; [done|].
    destruct (ex_pending_expand_den e =? 0) eqn:E1; [lia|]. cbn.
    split; [done|]. destruct Hf' as (?&?&?&?). split; [unfold flow_ok; cbn; lia|done]. }
  destruct x as [rc2 f2]. cbn [fst snd] in Hx. destruct Hx as (-> & Hf2 & Em2 & Eq2).
  cbn [Z.ltb Z.compare]. intros [= <- <- <-].
  split; [|split; [intros _; split; [exact Hs|exact Ecfg]|done]].
  split; [left; split; [exact Hs|]; unfold queued; cbn; by rewrite Eq2, Z.add_0_r|].
  split; [|done]. unfold pcb_ok, ext_ok. cbn. split; [done|]. split; [lia|]. rewrite Em2.
  split; [|by left]. rewrite Ecfg. done.
Qed.

Lemma ensure_ok env ok pm p r oe pm' p' :
  mem_env_wf env -> local_ok pm p r ->
  tcp_shift_lwip_tcp_memory_ensure env ok pm p = (oe, pm', p') ->
  local_ok pm' p' r /\ process_later pm pm' /\
  match oe with Some e' => mp_ext p' = Some e' /\ fl_manager (ex_flow e') = true | None => True end.
Proof.
  intros He Hl. unfold tcp_shift_lwip_tcp_memory_ensure.
  destruct (mp_ext p) as [e|] eqn:Ee.
  - destruct (fl_manager (ex_flow e)) eqn:Em; [intros [= <- <- <-]; done|].
    destruct (tcp_shift_process_tcp_memory_init env pm) as [rc pm1] eqn:Ei.
    destruct (process_init_ok env pm p r rc pm1 He Hl Ei) as (Hl1 & Hlat & [->|[-> Hs]]).
    { cbn. intros [= <- <- <-]. done. }
    cbn [Z.ltb Z.compare]. intros E.
    destruct (ensure_flow_ok pm1 p e r oe pm' p' Hl1 Hs Ee Em E) as (?&?&?).
    split; [done|]. split; [by etransitivity|done].
  - destruct (tcp_shift_process_tcp_memory_init env pm) as [rc pm1] eqn:Ei.
    destruct (process_init_ok env pm p r rc pm1 He Hl Ei) as (Hl1 & Hlat & [->|[-> Hs]]).
    { cbn. intros [= <- <- <-]. done. }
    cbn [Z.ltb Z.compare]. unfold tcp_shift_lwip_tcp_memory_alloc_ext.
    destruct ok; [|intros [= <- <- <-]; done]. intros E.
    assert (Hl2 : local_ok pm1 (p <| mp_ext := Some zero_ext |>) r).
    { destruct Hl1 as (Hp1 & (?&?&_) & ?). unfold local_ok, pcb_ok, queued in *. rewrite Ee in Hp1.
      cbn. split; [done|]. split; [|done]. split; [done|]. split; [done|].
      split; [done|by left]. }
    destruct (ensure_flow_ok pm1 _ zero_ext r oe pm' p' Hl2 Hs eq_refl eq_refl E) as (?&?&?).
    split; [done|]. split; [by etransitivity|done].
Qed.

(** lwIP's documented behaviour: [tcp_write] either queues the bytes, taking
    them from the send buffer, or leaves the block's accounting alone. *)
Class LwipWrite (tcp_write : mem_pcb -> Z -> Z -> Z * mem_pcb) : Prop := {
  write_keeps p len fl : mp_ext (tcp_write p len fl).2 = mp_ext p /\
                         mp_cwnd (tcp_write p len fl).2 = mp_cwnd p;
  write_queues p len fl : (tcp_write p len fl).1 = 0 ->
    len <= mp_snd_buf p /\ mp_snd_buf (tcp_write p len fl).2 = mp_snd_buf p - len;
  write_refuses p len fl : (tcp_write p len fl).1 <> 0 ->
    mp_snd_buf (tcp_write p len fl).2 = mp_snd_buf p
}.

Section Wrappers.
Context (tcp_write : mem_pcb -> Z -> Z -> Z * mem_pcb) {Hlaw : LwipWrite tcp_write}.

(** Put an attached flow back into the extension. *)
Lemma local_ok_flow pm p e f g' r :
  pm_state pm = 1 -> in_u32 (mp_cwnd p) -> in_u32 (mp_snd_buf p) -> 0 <= r ->
  ext_ok pm e -> mg_config g' = mg_config (pm_manager pm) ->
  fl_manager f = true -> flow_ok (mg_config g') f -> manager_ok g' (r + fl_queued_bytes f) ->
  local_ok (pm <| pm_manager := g' |>) (p <| mp_ext := Some (e <| ex_flow := f |>) |>) r.
Proof.
  intros Hs Hc Hb Hr [_ Hpend] Ecfg Em Hf Hg. split; [left; by split|]. split; [|done].
  split; [done|]. split; [done|]. split; [|done]. cbn. rewrite Em. done.
Qed.

Lemma process_later_manager pm g' :
  mg_config g' = mg_config (pm_manager pm) -> process_later pm (pm <| pm_manager := g' |>).
Proof. intros E Hs. split; [done|exact E]. Qed.

Lemma memory_write_ok env ok pm p len fl r err pm' p' :
  mem_env_wf env -> local_ok pm p r -> 0 <= len <= 65535 ->
  tcp_shift_lwip_tcp_memory_write tcp_write env ok pm p len fl = (err, pm', p') ->
  local_ok pm' p' r /\ process_later pm pm'.
Proof.
  intros He Hl Hlen. unfold tcp_shift_lwip_tcp_memory_write.
  destruct (tcp_shift_lwip_tcp_memory_ensure env ok pm p) as [[oe pm1] p1] eqn:E1.
  destruct (ensure_ok env ok pm p r oe pm1 p1 He Hl E1) as (Hl1 & Hlat1 & Hoe).
  destruct oe as [e|]; [|intros [= <- <- <-]; done]. destruct Hoe as [Ee Em].
  destruct (attached_manager pm1 p1 e r Hl1 Ee Em) as (Hs1 & Hg1 & Hf1).
  pose proof Hl1 as (_ & (Hc1 & Hb1 & He1) & Hr). rewrite Ee in He1. pose proof Hf1 as (?&?&Hn&Hd).
  destruct (tcp_shift_tcp_memory_flow_maybe_grow _ _ _ _ _) as [[[rc g2] f2] p2] eqn:E2.
  destruct (flow_maybe_grow_ok _ _ _ _ _ _ _ _ _ _ Hg1 Hf1 Em Hc1 Hb1 Hn Hd E2)
    as (Hg2 & Ec2 & Hf2 & Em2 & Eq2 & Ex2 & Ew2 & Hb2 & _).
  cbn zeta. rewrite <- Eq2 in Hg2. rewrite <- Ew2 in Hc1.
  assert (Hl2 : local_ok (pm1 <| pm_manager := g2 |>) (p2 <| mp_ext := Some (e <| ex_flow := f2 |>) |>) r)
    by (apply local_ok_flow; try done; by rewrite Ec2).
  assert (Hlat2 : process_later pm (pm1 <| pm_manager := g2 |>))
    by (etransitivity; [exact Hlat1|by apply process_later_manager]).
  destruct (rc <? 0); [intros [= <- <- <-]; done|].
  destruct (tcp_shift_tcp_memory_flow_can_write _ _ _ _) as [w g3] eqn:E3.
  cbn [pm_manager] in E3. rewrite <- Ec2 in Hf2.
  destruct (flow_can_write_ok g2 f2 _ len _ w g3 Hg2 Em2 Hlen E3) as (Hg3 & Ec3 & Hw).
  assert (Hl3 : local_ok (pm1 <| pm_manager := g2 |> <| pm_manager := g3 |>)
    (p2 <| mp_ext := Some (e <| ex_flow := f2 |>) |>) r).
  { apply (local_ok_flow pm1 p2 e f2 g3 r); try done; [by rewrite Ec3|by rewrite Ec3]. }
  assert (Hlat3 : process_later pm (pm1 <| pm_manager := g2 |> <| pm_manager := g3 |>))
    by (etransitivity; [exact Hlat2|by apply process_later_manager]).
  destruct w; cbn [negb]; [|intros [= <- <- <-]; split; [by apply (local_ok_block _ _ _ _ Hl3)|done]].
  destruct (Hw eq_refl) as [Hhigh _]. set (p3 := p2 <| mp_ext := _ |>) in *.
  destruct (write_keeps p3 len fl) as [Kx Kc].
  pose proof (write_queues p3 len fl) as Kq. pose proof (write_refuses p3 len fl) as Kr.
  destruct (tcp_write p3 len fl) as [err4 p4]. cbn [fst snd] in *.
  change (mp_snd_buf p3) with (mp_snd_buf p2) in *. change (mp_cwnd p3) with (mp_cwnd p2) in *.
  destruct (err4 =? 0) eqn:E4.
  - destruct (Kq ltac:(lia)) as [Kle Ks].
    destruct (tcp_shift_tcp_memory_flow_note_write _ f2 len) as [g5 f5] eqn:E5.
    destruct (flow_note_write_ok g3 f2 len (r + fl_queued_bytes f2) g5 f5 Hg3
      ltac:(by rewrite Ec3) Em2 ltac:(lia) ltac:(lia) ltac:(by rewrite Ec3) E5)
      as (Hg5 & Ec5 & Hf5 & Em5 & Eq5).
    intros [= <- <- <-]. split.
    + apply (local_ok_flow pm1 p4 e f5 g5 r); try done; try lia.
      * by rewrite Ec5, Ec3.
      * by rewrite Ec5.
      * by rewrite Eq5, Z.add_assoc.
    + etransitivity; [exact Hlat3|by apply process_later_manager].
  - intros [= <- <- <-]. specialize (Kr ltac:(lia)).
    split; [|done]. apply (local_ok_block _ _ _ _ Hl3); [done|lia|lia].
Qed.

End Wrappers.

Lemma sent_dispatch_ok pm p len r fn pm' p' :
  local_ok pm p r -> 0 <= len <= 65535 ->
  tcp_shift_lwip_tcp_memory_sent_dispatch pm p len = (fn, pm', p') ->
  local_ok pm' p' r /\ process_later pm pm'.
Proof.
  intros Hl Hlen. unfold tcp_shift_lwip_tcp_memory_sent_dispatch.
  destruct (mp_ext p) as [e|] eqn:Ee; [|intros [= <- <- <-]; done].
  pose proof Hl as (Hp & (Hc & Hb & He) & Hr). rewrite Ee in He.
  destruct (fl_manager (ex_flow e)) eqn:Em.
  - destruct (attached_manager pm p e r Hl Ee Em) as (Hs & Hg & Hf).
    destruct (tcp_shift_tcp_memory_flow_note_acked _ _ _) as [g' f'] eqn:E.
    intros [= <- <- <-].
    destruct (flow_note_acked_ok _ _ len _ _ _ Hg Hf Em ltac:(lia) ltac:(lia) E)
      as (Hg' & Ec & Hf' & Em' & Eq & _).
    split; [|by apply process_later_manager].
    apply local_ok_flow; try done; [by rewrite Ec|]. rewrite Eq.
    replace (r + (fl_queued_bytes (ex_flow e) - Z.min len (fl_queued_bytes (ex_flow e))))
      with (r + fl_queued_bytes (ex_flow e) - Z.min len (fl_queued_bytes (ex_flow e))) by lia. done.
  - unfold tcp_shift_tcp_memory_flow_note_acked. rewrite Em. cbn [negb orb].
    intros [= <- <- <-]. unfold local_ok, pcb_ok, queued, process_ok in *. rewrite Ee in *.
    cbn. split; [|done]. split; [done|]. split; [|done]. split; [done|]. split; [done|exact He].
Qed.

Lemma memory_sent_ok env ok pm p fn r pm' p' :
  mem_env_wf env -> local_ok pm p r ->
  tcp_shift_lwip_tcp_memory_sent env ok pm p fn = (pm', p') ->
  local_ok pm' p' r /\ process_later pm pm'.
Proof.
  intros He Hl. unfold tcp_shift_lwip_tcp_memory_sent.
  assert (Hkeep : forall q qe fn0 fn1, mp_ext q = Some qe ->
    forall pm0, local_ok pm0 q r ->
    local_ok pm0 (q <| mp_ext := Some (qe <| ex_app_sent := fn0 |>) |> <| mp_sent := fn1 |>) r).
  { intros q qe fn0 fn1 E pm0 (H1 & (H2 & H3 & H4) & H5). unfold local_ok, pcb_ok, queued in *.
    rewrite E in *. done. }
  destruct fn as [fn|].
  - destruct (mp_ext p) as [e|] eqn:Ee.
    + intros [= <- <-]. split; [by apply Hkeep|done].
    + destruct (tcp_shift_lwip_tcp_memory_ensure env ok pm p) as [[oe pm1] p1] eqn:E.
      destruct (ensure_ok env ok pm p r oe pm1 p1 He Hl E) as (Hl1 & Hlat & Hoe).
      destruct oe as [e|]; intros [= <- <-].
      * destruct Hoe. split; [by apply Hkeep|done].
      * split; [|done]. destruct Hl1 as (?&(?&?&?)&?).
        by apply (local_ok_block pm1 p1).
  - destruct (mp_ext p) as [e|] eqn:Ee; intros [= <- <-]; (split; [|done]).
    + by apply Hkeep.
    + destruct Hl as (?&(?&?&?)&?). by apply (local_ok_block pm p).
Qed.

Lemma set_sndbuf_expand_ok ok pm p n d r rc p' :
  local_ok pm p r -> in_u32 n -> in_u32 d ->
  tcp_shift_lwip_tcp_memory_set_sndbuf_expand ok p n d = (rc, p') -> local_ok pm p' r.
Proof.
  intros Hl Hn Hd. unfold tcp_shift_lwip_tcp_memory_set_sndbuf_expand.
  destruct ((n =? 0) || (d =? 0)) eqn:E0; [intros [= <- <-]; done|].
  assert (Hset : forall q qe, mp_ext q = Some qe -> local_ok pm q r ->
    (if fl_manager (ex_flow qe)
     then let '(rc, flow) := tcp_shift_tcp_memory_flow_set_sndbuf_expand (ex_flow qe) n d in
          (rc, q <| mp_ext := Some (qe <| ex_flow := flow |>) |>)
     else (0, q <| mp_ext := Some (qe <| ex_pending_expand_num := n |>
                                      <| ex_pending_expand_den := d |>) |>)) = (rc, p') ->
    local_ok pm p' r).
  { intros q qe E (H1 & (H2 & H3 & H4) & H5). unfold local_ok, pcb_ok, queued, ext_ok in *.
    rewrite E in *. destruct H4 as [Hf Hp].
    destruct (fl_manager (ex_flow qe)) eqn:Em.
    - unfold tcp_shift_tcp_memory_flow_set_sndbuf_expand. rewrite Em, <- orb_assoc, E0. cbn.
      intros [= <- <-]. cbn. rewrite Em. destruct Hf as [? (?&?&?&?)].
      repeat (split; [done || lia|]). split; [|done].
      split; [done|]. split; [done|]. split; [|done]. split; [done|]. unfold flow_ok. cbn. lia.
    - intros [= <- <-]. cbn. rewrite Em. repeat (split; [done|]). split; [|done].
      split; [done|]. split; [done|]. split; [done|]. right. lia. }
  destruct (mp_ext p) as [e|] eqn:Ee; [by apply Hset|].
  unfold tcp_shift_lwip_tcp_memory_alloc_ext. destruct ok; [|intros [= <- <-]; done].
  apply (Hset (p <| mp_ext := Some zero_ext |>) zero_ext); [reflexivity|].
  destruct Hl as (H1 & (H2 & H3 & _) & H5). unfold local_ok, pcb_ok, queued in *. rewrite Ee in H1.
  cbn. repeat (split; [done|]). split; [|done]. repeat (split; [done|]). by left.
Qed.

Lemma destroyed_ok pm p r pm' p' :
  local_ok pm p r -> tcp_shift_lwip_tcp_memory_destroyed pm p = (pm', p') ->
  local_ok pm' p' r /\ mp_ext p' = None /\ process_later pm pm'.
Proof.
  intros Hl. unfold tcp_shift_lwip_tcp_memory_destroyed.
  destruct (mp_ext p) as [e|] eqn:Ee; [|intros [= <- <-]; done].
  pose proof Hl as (Hp & (Hc & Hb & He) & Hr). rewrite Ee in He.
  destruct (fl_manager (ex_flow e)) eqn:Em.
  - destruct (attached_manager pm p e r Hl Ee Em) as (Hs & Hg & Hf).
    destruct (tcp_shift_tcp_memory_flow_release _ _) as [g' f'] eqn:E. intros [= <- <-].
    destruct (flow_release_ok _ _ _ _ _ Hg Hf Em ltac:(lia) E) as (Hg' & Ec & _ & _).
    split; [|split; [done|by apply process_later_manager]].
    split; [|split; [|done]]; [left; split; [done|]|by split; [|split]].
    unfold queued. cbn. rewrite Z.add_0_r.
    replace r with (r + fl_queued_bytes (ex_flow e) - fl_queued_bytes (ex_flow e)) by lia. done.
  - unfold tcp_shift_tcp_memory_flow_release. rewrite Em. cbn [negb]. intros [= <- <-].
    destruct He as [He _]. rewrite Em in He.
    unfold local_ok, pcb_ok, queued, process_ok in *. rewrite Ee, He in Hp. done.
Qed.

(** ** The system: one process, any number of connections *)

Record mem_system := mk_mem_system { sys_pm : process_memory; sys_blocks : gmap Z mem_pcb }.

(** All bytes the connections hold. *)
Definition total_queued (m : gmap Z mem_pcb) : Z :=
  map_fold (fun _ p acc => queued p + acc) 0 m.

Section System.
Context (tcp_write : mem_pcb -> Z -> Z -> Z * mem_pcb) {Hlaw : LwipWrite tcp_write}.
Context (env : mem_env) (Henv : mem_env_wf env).

(** One call into the component by lwIP or by the application. [MemBlock]: lwIP
    moves the window, the send buffer or the queues of a block. *)
Inductive mem_step : mem_system -> mem_system -> Prop :=
| MemOpen pm m k p :
    m !! k = None -> in_u32 (mp_cwnd p) -> in_u32 (mp_snd_buf p) -> mp_ext p = None ->
    mem_step (mk_mem_system pm m) (mk_mem_system pm (<[k := p]> m))
| MemBlock pm m k p p' :
    m !! k = Some p -> in_u32 (mp_cwnd p') -> in_u32 (mp_snd_buf p') ->
    mp_ext p' = mp_ext p -> mp_sent p' = mp_sent p ->
    mem_step (mk_mem_system pm m) (mk_mem_system pm (<[k := p']> m))
| MemWrite pm m k p ok len fl err pm' p' :
    m !! k = Some p -> 0 <= len <= 65535 ->
    tcp_shift_lwip_tcp_memory_write tcp_write env ok pm p len fl = (err, pm', p') ->
    mem_step (mk_mem_system pm m) (mk_mem_system pm' (<[k := p']> m))
| MemAcked pm m k p len fn pm' p' :
    m !! k = Some p -> 0 <= len <= 65535 -> mp_sent p = Some SentDispatch ->
    tcp_shift_lwip_tcp_memory_sent_dispatch pm p len = (fn, pm', p') ->
    mem_step (mk_mem_system pm m) (mk_mem_system pm' (<[k := p']> m))
| MemSent pm m k p ok fn pm' p' :
    m !! k = Some p -> tcp_shift_lwip_tcp_memory_sent env ok pm p fn = (pm', p') ->
    mem_step (mk_mem_system pm m) (mk_mem_system pm' (<[k := p']> m))
| MemExpand pm m k p ok n d rc p' :
    m !! k = Some p -> in_u32 n -> in_u32 d ->
    tcp_shift_lwip_tcp_memory_set_sndbuf_expand ok p n d = (rc, p') ->
    mem_step (mk_mem_system pm m) (mk_mem_system pm (<[k := p']> m))
| MemClose pm m k p pm' p' :
    m !! k = Some p -> tcp_shift_lwip_tcp_memory_destroyed pm p = (pm', p') ->
    mem_step (mk_mem_system pm m) (mk_mem_system pm' (delete k m)).

Inductive mem_reach : mem_system -> Prop :=
| MemBoot : mem_reach (mk_mem_system blank_process ∅)
| MemNext s s' : mem_reach s -> mem_step s s' -> mem_reach s'.

Definition system_ok (s : mem_system) : Prop :=
  process_ok (sys_pm s) (total_queued (sys_blocks s)) /\
  map_Forall (fun _ p => pcb_ok (sys_pm s) p) (sys_blocks s).

Lemma total_queued_delete m k p :
  m !! k = Some p -> total_queued m = queued p + total_queued (delete k m).
Proof. intros E. unfold total_queued. rewrite (map_fold_delete_L _ _ k p); [done|lia|done]. Qed.

Lemma total_queued_insert m k p :
  total_queued (<[k := p]> m) = queued p + total_queued (delete k m).
Proof.
  rewrite (total_queued_delete _ k p) by apply lookup_insert_eq. by rewrite delete_insert_eq.
Qed.

Lemma total_queued_nonneg pm m :
  map_Forall (fun _ p => pcb_ok pm p) m -> 0 <= total_queued m.
Proof.
  induction m as [|k p m Hk IH] using map_ind; [done|]. intros [Hp Hm]%map_Forall_insert; [|done].
  rewrite total_queued_insert, delete_id by done.
  pose proof (pcb_queued_nonneg pm p Hp). specialize (IH Hm). lia.
Qed.

Lemma system_local pm m k p :
  system_ok (mk_mem_system pm m) -> m !! k = Some p -> local_ok pm p (total_queued (delete k m)).
Proof.
  intros [Hp Hm] E. cbn in *. rewrite (total_queued_delete m k p E), Z.add_comm in Hp.
  split; [done|]. split; [by apply (Hm k)|].
  apply (total_queued_nonneg pm). by apply map_Forall_delete.
Qed.

Lemma system_update pm m k pm' p' :
  system_ok (mk_mem_system pm m) -> local_ok pm' p' (total_queued (delete k m)) ->
  process_later pm pm' -> system_ok (mk_mem_system pm' (<[k := p']> m)).
Proof.
  intros [_ Hm] (Hp & Hok & _) Hlat. split; cbn in *.
  - by rewrite total_queued_insert, Z.add_comm.
  - intros j q. destruct (decide (j = k)) as [->|Hj].
    + rewrite lookup_insert_eq. by intros [= <-].
    + rewrite lookup_insert_ne by done. intros E. apply (pcb_ok_later pm); [done|]. by apply (Hm j).
Qed.

Lemma system_step s s' : system_ok s -> mem_step s s' -> system_ok s'.
Proof.
  intros Hs Hst. destruct Hst as
    [pm m k p E Hc Hb Ee|pm m k p p' E Hc Hb Ee _|pm m k p ok len fl err pm' p' E Hlen Hw
    |pm m k p len fn pm' p' E Hlen _ Hd|pm m k p ok fn pm' p' E Hd|pm m k p ok n d rc p' E Hn Hd Hx
    |pm m k p pm' p' E Hd].
  - apply (system_update pm); [done| |done]. destruct Hs as [Hp Hm]. cbn in *.
    split; [|split; [by split; [|split; [|rewrite Ee]]|]].
    + unfold queued. rewrite Ee, Z.add_0_r, delete_id by done. done.
    + rewrite delete_id by done. by apply (total_queued_nonneg pm).
  - apply (system_update pm); [done| |done].
    apply (local_ok_block pm p); [by apply system_local|done..].
  - destruct (memory_write_ok tcp_write env ok pm p len fl _ err pm' p' Henv
      (system_local _ _ _ _ Hs E) Hlen Hw). by apply (system_update pm).
  - destruct (sent_dispatch_ok pm p len _ fn pm' p' (system_local _ _ _ _ Hs E) Hlen Hd).
    by apply (system_update pm).
  - destruct (memory_sent_ok env ok pm p fn _ pm' p' Henv (system_local _ _ _ _ Hs E) Hd).
    by apply (system_update pm).
  - apply (system_update pm); [done| |done].
    by apply (set_sndbuf_expand_ok ok pm p n d _ rc p' (system_local _ _ _ _ Hs E)).
  - destruct (destroyed_ok pm p _ pm' p' (system_local _ _ _ _ Hs E) Hd) as (Hl & Ee & Hlat).
    pose proof (system_update pm m k pm' p' Hs Hl Hlat) as [Hp Hm]. cbn in *.
    rewrite total_queued_insert in Hp. unfold queued in Hp. rewrite Ee in Hp.
    split; [exact Hp|]. cbn. apply (map_Forall_delete _ _ k) in Hm. by rewrite delete_insert_eq in Hm.
Qed.

Lemma system_reach s : mem_reach s -> system_ok s.
Proof.
  induction 1; [|by eapply system_step]. split; [|done]. right. split; [by left|done].
Qed.

(** C10. Memory is accounted for exactly, over every interleaving. However the
    connections of a process open, write, are acknowledged (even for more than
    they sent), change their expansion ratio and close, the bytes charged to the
    process are the sum of the bytes its connections hold, so closing them all
    returns the charge to zero; the charge and its recorded peak never exceed
    the high-water mark; the pressure flag is set at or above the pressure mark
    and clear at or below the low mark; every connection's capacity stays
    within the policy; and a process whose policy failed holds nothing. *)
Theorem memory_accounting_invariant s :
  mem_reach s ->
  let g := pm_manager (sys_pm s) in
  let mem := mc_mem (mg_config g) in
  let wmem := mc_wmem (mg_config g) in
  let charged := ms_charged_bytes (mg_stats g) in
  (pm_state (sys_pm s) <> 1 -> total_queued (sys_blocks s) = 0) /\
  (pm_state (sys_pm s) = 1 ->
   charged = total_queued (sys_blocks s) /\
   (sys_blocks s = ∅ -> charged = 0) /\
   charged <= ms_peak_charged_bytes (mg_stats g) <= mm_high_bytes mem /\
   (mm_low_bytes mem < mm_pressure_bytes mem ->
    (mm_pressure_bytes mem <= charged -> mg_pressure_active g = true) /\
    (charged <= mm_low_bytes mem -> mg_pressure_active g = false)) /\
   (forall k p e, sys_blocks s !! k = Some p -> mp_ext p = Some e ->
    fl_manager (ex_flow e) = true ->
    wm_initial_bytes wmem <= fl_capacity_bytes (ex_flow e) <= wm_max_bytes wmem /\
    0 <= fl_queued_bytes (ex_flow e) <= charged)).
Proof.
  intros Hr. cbn zeta. pose proof (system_reach s Hr) as [Hp Hm].
  split; [intros Hne; destruct Hp as [[? _]|[_ ?]]; done|]. intros Hs.
  destruct Hp as [[_ (Hc & Ech & Hh & Hpk & Hpr)]|[[?|?] _]]; [|lia|lia].
  split; [done|]. split; [intros Hemp; rewrite Ech, Hemp; done|]. split; [lia|].
  split; [rewrite Ech; exact Hpr|]. intros k p e E Ee Em.
  pose proof (Hm k p E) as (_ & _ & He). rewrite Ee in He. destruct He as [Hf _]. rewrite Em in Hf.
  destruct Hf as [_ (?&?&_)]. split; [done|]. split; [done|].
  rewrite Ech, (total_queued_delete _ k p E). unfold queued at 1. rewrite Ee.
  pose proof (total_queued_nonneg (sys_pm s) (delete k (sys_blocks s))
    ltac:(by apply map_Forall_delete)). lia.
Qed.

End System.

(** A [tcp_write] that queues what fits, refusing the rest with [ERR_MEM]. *)
Definition simple_tcp_write (p : mem_pcb) (len flags : Z) : Z * mem_pcb :=
  if len <=? mp_snd_buf p
  then (0, p <| mp_snd_buf := mp_snd_buf p - len |> <| mp_unsent := true |>)
  else (-1, p).

#[local] Instance simple_tcp_write_law : LwipWrite simple_tcp_write.
Proof.
  split; intros p len fl; unfold simple_tcp_write; destruct (len <=? mp_snd_buf p) eqn:E; cbn;
    first [done | intros; split; lia].
Qed.

Definition sample_block : mem_pcb := mk_mem_pcb 14600 65535 0 false false false None None.
Definition sample_write (pm : process_memory) : Z * process_memory * mem_pcb :=
  tcp_shift_lwip_tcp_memory_write simple_tcp_write sample_mem_env true pm sample_block 1460 0.
#[local] Abbreviation sample_write1 := (sample_write blank_process).
#[local] Abbreviation sample_write2 := (sample_write sample_write1.1.2).

(** Two connections write a segment each. *)
Definition sample_system : mem_system :=
  mk_mem_system sample_write2.1.2 (<[2 := sample_write2.2]> (<[2 := sample_block]>
    (<[1 := sample_write1.2]> (<[1 := sample_block]> ∅)))).

Lemma sample_write_step pm m k :
  m !! k = Some sample_block ->
  mem_step simple_tcp_write sample_mem_env (mk_mem_system pm m)
    (mk_mem_system (sample_write pm).1.2 (<[k := (sample_write pm).2]> m)).
Proof.
  intros E. destruct (sample_write pm) as [[err pm'] p'] eqn:Ew.
  by apply (MemWrite _ _ pm m k sample_block true 1460 0 err pm' p').
Qed.

Lemma sample_reach : mem_reach simple_tcp_write sample_mem_env sample_system.
Proof.
  eapply MemNext; [eapply MemNext; [eapply MemNext; [eapply MemNext; [apply MemBoot|]|]|]|].
  - apply (MemOpen _ _ blank_process ∅ 1 sample_block); done || (cbn; lia).
  - apply sample_write_step, lookup_insert_eq.
  - apply (MemOpen _ _ _ _ 2 sample_block); done || (cbn; lia).
  - apply sample_write_step, lookup_insert_eq.
Qed.

Lemma memory_accounting_invariant_witness :
  ms_charged_bytes (mg_stats (pm_manager (sys_pm sample_system))) = 2920 /\
  total_queued (sys_blocks sample_system) = 2920.
Proof.
  assert (H : ms_charged_bytes (mg_stats (pm_manager (sys_pm sample_system))) = 2920)
    by (vm_compute; reflexivity).
  split; [exact H|]. rewrite <- H. symmetry.
  apply (memory_accounting_invariant simple_tcp_write sample_mem_env ltac:(split; cbn; lia)
    sample_system sample_reach).
  vm_compute. reflexivity.
Defined.
