(* ===== verification/ServiceConfig.v ===== *)
(** * The service configuration ([src/service_config.h], [src/service_config.c])

    Line preparation, quoted strings, endpoints, CIDR blocks, the validation of
    the finished configuration and the loader. The two address functions of the
    C library, [inet_pton] and [inet_ntop], are parameters; errors are values
    that carry what the message names. *)

From Stdlib Require Import ZArith Lia Bool List Ascii String.
From stdpp Require Import base tactics numbers list.
From S2P Require Import Prelude CString.
Local Open Scope Z_scope.

Abbreviation TCP_SHIFT_SERVICE_CC_MAX := 16.
Abbreviation TCP_SHIFT_SERVICE_FIREWALL_BACKEND_MAX := 16.
Abbreviation TCP_SHIFT_SERVICE_TUN_NAME_MAX := 16.
Abbreviation TCP_SHIFT_SERVICE_ADDRESS_MAX := 64.
Abbreviation TCP_SHIFT_SERVICE_CONFIG_VERSION := 1.
Abbreviation TCP_SHIFT_SERVICE_CONFIG_MAX_BYTES := (1024 * 1024).

(** ** Data *)

Record tcp_shift_service_config := mk_config {
  sc_version : Z;
  sc_ip_version : Z;
  sc_cc : cstring;
  sc_firewall_backend : cstring;
  sc_tun_name : cstring;
  sc_tun_host_address : cstring;
  sc_tun_host_cidr : cstring;
  sc_tun_guest_address : cstring;
  sc_tun_netmask : cstring;
  sc_public_address : cstring;
  sc_public_port : Z;
  sc_backend_port : Z
}.
#[export] Instance eta_service_config : Eta tcp_shift_service_config := fun r =>
  mk_config (sc_version r) (sc_ip_version r) (sc_cc r) (sc_firewall_backend r) (sc_tun_name r)
    (sc_tun_host_address r) (sc_tun_host_cidr r) (sc_tun_guest_address r) (sc_tun_netmask r)
    (sc_public_address r) (sc_public_port r) (sc_backend_port r).

Definition zero_service_config : tcp_shift_service_config :=
  mk_config 0 0 [] [] [] [] [] [] [] [] 0 0.

Record tcp_shift_service_parse_state := mk_parse_state {
  ps_have_version : bool;
  ps_have_cc : bool;
  ps_have_firewall_backend : bool;
  ps_have_tun_name : bool;
  ps_have_tun_host : bool;
  ps_have_tun_guest : bool;
  ps_have_forward : bool;
  ps_have_listen : bool;
  ps_have_backend : bool;
  ps_in_forward : bool;
  ps_listen : cstring;
  ps_backend : cstring
}.
#[export] Instance eta_parse_state : Eta tcp_shift_service_parse_state := fun r =>
  mk_parse_state (ps_have_version r) (ps_have_cc r) (ps_have_firewall_backend r)
    (ps_have_tun_name r) (ps_have_tun_host r) (ps_have_tun_guest r) (ps_have_forward r)
    (ps_have_listen r) (ps_have_backend r) (ps_in_forward r) (ps_listen r) (ps_backend r).

Definition zero_parse_state : tcp_shift_service_parse_state :=
  mk_parse_state false false false false false false false false false false [] [].

(** The messages of [config_error], with the line number or name they report. *)
Inductive config_error :=
| ErrPath
| ErrOpen
| ErrTooLarge
| ErrNul (line : Z)
| ErrForwardTwice
| ErrTable (line : Z)
| ErrSyntax (line : Z)
| ErrAssignment (line : Z)
| ErrField (key : cstring) (line : Z)
| ErrUnknownForwardKey (key : cstring) (line : Z)
| ErrUnknownKey (key : cstring) (line : Z)
| ErrRead
| ErrMissing (key : cstring)
| ErrVersion (version : Z)
| ErrFirewallBackend
| ErrForwardIncomplete
| ErrCcName (name : cstring)
| ErrTunName
| ErrListen
| ErrBackend
| ErrTunHost (ip_version : Z)
| ErrTunGuest (ip_version : Z)
| ErrTunSame.

Definition slen (s : cstring) : Z := Z.of_nat (List.length s).

(** ** Lines *)

Definition trim (text : cstring) : cstring := drop_end isspace (drop_while isspace text).

(** The loop of [strip_comment], with its two flags. *)
Fixpoint strip_loop (quoted escaped : bool) (text : cstring) : cstring :=
  match text with
  | [] => []
  | c :: text' =>
      if quoted then
        c :: (if escaped then strip_loop true false text'
              else if Ascii.eqb c "\" then strip_loop true true text'
              else if Ascii.eqb c "034" then strip_loop false false text'
              else strip_loop true false text')
      else if Ascii.eqb c "034" then c :: strip_loop true escaped text'
      else if Ascii.eqb c "#" then []
      else c :: strip_loop false escaped text'
  end.

Definition strip_comment (text : cstring) : cstring := strip_loop false false text.

(** The escape sequences of a quoted string. *)
Definition unescape (c : ascii) : option ascii :=
  if Ascii.eqb c "\" then Some c
  else if Ascii.eqb c "034" then Some c
  else if Ascii.eqb c "n" then Some "010"%char
  else if Ascii.eqb c "r" then Some "013"%char
  else if Ascii.eqb c "t" then Some "009"%char
  else None.

(** The loop of [parse_string] over the text between the quotes; [out]: the
    characters written so far, last first. *)
Fixpoint string_loop (body out : cstring) (output_size : Z) : option cstring :=
  match body with
  | [] => Some (rev out)
  | c :: body' =>
      if Ascii.eqb c "\" then
        match body' with
        | [] => None
        | e :: body'' =>
            match unescape e with
            | None => None
            | Some byte =>
                if slen out + 1 >=? output_size then None
                else string_loop body'' (byte :: out) output_size
            end
        end
      else if Ascii.eqb c "034" || (code c <? 32) then None
      else if slen out + 1 >=? output_size then None
      else string_loop body' (c :: out) output_size
  end.

Definition parse_string (value : cstring) (output_size : Z) : option cstring :=
  match value with
  | q :: rest =>
      match rev rest with
      | q' :: body =>
          if Ascii.eqb q "034" && Ascii.eqb q' "034" then string_loop (rev body) [] output_size
          else None
      | [] => None
      end
  | [] => None
  end.

Definition parse_unsigned (value : cstring) (maximum : Z) : option Z :=
  match value with
  | [] => None
  | c :: _ =>
      if negb (isdigit c) then None
      else match strtoull value with
           | Some (parsed, [], false) => if parsed >? maximum then None else Some parsed
           | _ => None
           end
  end.

Definition valid_cc (name : cstring) : bool :=
  negb ((slen name =? 0) || (slen name >=? TCP_SHIFT_SERVICE_CC_MAX)) &&
  forallb (fun c => islower c || isdigit c || Ascii.eqb c "_" || Ascii.eqb c "-") name.

Definition valid_firewall_backend (name : cstring) : bool :=
  str_eqb name (lit "auto") || str_eqb name (lit "nftables") ||
  str_eqb name (lit "iptables") || str_eqb name (lit "none").

Definition valid_tun_name (name : cstring) : bool :=
  negb (slen name >=? TCP_SHIFT_SERVICE_TUN_NAME_MAX) &&
  forallb (fun c => isalnum c || Ascii.eqb c "_" || Ascii.eqb c "-" || Ascii.eqb c ".") name.

(** A quoted string that fits a field of [bound] bytes. *)
Definition parse_field (value : cstring) (bound : Z) : option cstring :=
  match parse_string value 128 with
  | Some parsed => if slen parsed >=? bound then None else Some parsed
  | None => None
  end.

(** An assignment inside [[[forward]]]. *)
Definition forward_key (state : tcp_shift_service_parse_state) (line : Z) (key value : cstring)
    : config_error + tcp_shift_service_parse_state :=
  if str_eqb key (lit "listen") then
    match ps_have_listen state, parse_string value 128 with
    | false, Some s => inr (state <| ps_listen := s |> <| ps_have_listen := true |>)
    | _, _ => inl (ErrField key line)
    end
  else if str_eqb key (lit "backend") then
    match ps_have_backend state, parse_string value 128 with
    | false, Some s => inr (state <| ps_backend := s |> <| ps_have_backend := true |>)
    | _, _ => inl (ErrField key line)
    end
  else inl (ErrUnknownForwardKey key line).

(** An assignment before it. *)
Definition top_key (state : tcp_shift_service_parse_state) (config : tcp_shift_service_config)
    (line : Z) (key value : cstring)
    : config_error + tcp_shift_service_parse_state * tcp_shift_service_config :=
  if str_eqb key (lit "version") then
    match ps_have_version state, parse_unsigned value UINT32_MAX with
    | false, Some number =>
        inr (state <| ps_have_version := true |>, config <| sc_version := u32 number |>)
    | _, _ => inl (ErrField key line)
    end
  else if str_eqb key (lit "cc") then
    match ps_have_cc state, parse_field value TCP_SHIFT_SERVICE_CC_MAX with
    | false, Some s => inr (state <| ps_have_cc := true |>, config <| sc_cc := s |>)
    | _, _ => inl (ErrField key line)
    end
  else if str_eqb key (lit "firewall_backend") then
    match ps_have_firewall_backend state,
          parse_field value TCP_SHIFT_SERVICE_FIREWALL_BACKEND_MAX with
    | false, Some s =>
        if valid_firewall_backend s
        then inr (state <| ps_have_firewall_backend := true |>,
                  config <| sc_firewall_backend := s |>)
        else inl (ErrField key line)
    | _, _ => inl (ErrField key line)
    end
  else if str_eqb key (lit "tun_name") then
    match ps_have_tun_name state, parse_field value TCP_SHIFT_SERVICE_TUN_NAME_MAX with
    | false, Some s => inr (state <| ps_have_tun_name := true |>, config <| sc_tun_name := s |>)
    | _, _ => inl (ErrField key line)
    end
  else if str_eqb key (lit "tun_host_address") then
    match ps_have_tun_host state, parse_field value TCP_SHIFT_SERVICE_ADDRESS_MAX with
    | false, Some s =>
        inr (state <| ps_have_tun_host := true |>, config <| sc_tun_host_cidr := s |>)
    | _, _ => inl (ErrField key line)
    end
  else if str_eqb key (lit "tun_guest_address") then
    match ps_have_tun_guest state, parse_field value TCP_SHIFT_SERVICE_ADDRESS_MAX with
    | false, Some s =>
        inr (state <| ps_have_tun_guest := true |>, config <| sc_tun_guest_address := s |>)
    | _, _ => inl (ErrField key line)
    end
  else inl (ErrUnknownKey key line).

(** The body of the reading loop after the size and NUL checks. *)
Definition config_line (state : tcp_shift_service_parse_state)
    (config : tcp_shift_service_config) (line_number : Z) (line : cstring)
    : config_error + tcp_shift_service_parse_state * tcp_shift_service_config :=
  let text := trim (strip_comment line) in
  match text with
  | [] => inr (state, config)
  | c :: _ =>
      if str_eqb text (lit "[[forward]]") then
        if ps_have_forward state then inl ErrForwardTwice
        else inr (state <| ps_have_forward := true |> <| ps_in_forward := true |>, config)
      else if Ascii.eqb c "[" then inl (ErrTable line_number)
      else
        match strchr text "=" with
        | None => inl (ErrSyntax line_number)
        | Some (lhs, rhs) =>
            match trim lhs, trim rhs with
            | (_ :: _) as key, (_ :: _) as value =>
                if ps_in_forward state then
                  match forward_key state line_number key value with
                  | inl e => inl e
                  | inr state => inr (state, config)
                  end
                else top_key state config line_number key value
            | _, _ => inl (ErrAssignment line_number)
            end
        end
  end.

(** The reading loop; [lines]: the results of [getline]. *)
Fixpoint config_lines (state : tcp_shift_service_parse_state) (config : tcp_shift_service_config)
    (line_number total : Z) (lines : list cstring)
    : config_error + tcp_shift_service_parse_state * tcp_shift_service_config :=
  match lines with
  | [] => inr (state, config)
  | line :: lines' =>
      let line_number := line_number +w32 1 in
      let total := total +w64 slen line in
      if total >? TCP_SHIFT_SERVICE_CONFIG_MAX_BYTES then inl ErrTooLarge
      else if existsb (fun c => code c =? 0) line then inl (ErrNul line_number)
      else
        match config_line state config line_number line with
        | inl e => inl e
        | inr (state, config) => config_lines state config line_number total lines'
        end
  end.

Section Addresses.
(** [inet_pton(family, text, packed)]: the packed bytes when it returns 1;
    [inet_ntop(family, packed, buffer, size)]: the text unless it returns NULL.
    The family is named by its IP version. *)
Variable inet_pton : Z -> cstring -> option (list Z).
Variable inet_ntop : Z -> list Z -> Z -> option cstring.

(** The address is not the all-zero address of its family. *)
Definition nonzero_address (version : Z) (packed : list Z) : bool :=
  if version =? 4 then negb (forallb (Z.eqb 0) (firstn 4 packed))
  else negb (forallb (Z.eqb 0) (firstn 16 packed)).

(** The text before the port, the port and the version. *)
Definition split_endpoint (text : cstring) : option (Z * cstring * cstring) :=
  match text with
  | [] => None
  | c :: _ =>
      if Ascii.eqb c "[" then
        match strchr text "]" with
        | Some (_ :: raw, colon :: ((_ :: _) as port_text)) =>
            if negb (Ascii.eqb colon ":") then None
            else if (slen raw =? 0) || (slen raw >=? TCP_SHIFT_SERVICE_ADDRESS_MAX) then None
            else Some (6, raw, port_text)
        | _ => None
        end
      else
        match strrchr text ":", strchr text ":" with
        | Some (raw, port_text), Some (first, _) =>
            if negb (slen first =? slen raw) then None
            else if (slen raw =? 0) || (slen raw >=? TCP_SHIFT_SERVICE_ADDRESS_MAX) then None
            else Some (4, raw, port_text)
        | _, _ => None
        end
  end.

(** Version, canonical address and port. *)
Definition parse_endpoint (text : cstring) (address_size : Z) : option (Z * cstring * Z) :=
  match split_endpoint text with
  | None => None
  | Some (version, raw, port_text) =>
      match parse_unsigned port_text 65535 with
      | None => None
      | Some parsed_port =>
          if parsed_port =? 0 then None
          else match inet_pton version raw with
               | None => None
               | Some packed =>
                   if negb (nonzero_address version packed) then None
                   else match inet_ntop version packed address_size with
                        | None => None
                        | Some address => Some (version, address, u16 parsed_port)
                        end
               end
      end
  end.

(** The bytes of [htonl(mask)] for an IPv4 prefix. *)
Definition ipv4_mask (prefix : Z) : list Z :=
  let mask := if prefix =? 0 then 0 else u32 (Z.shiftl 4294967295 (32 - prefix)) in
  [Z.land (Z.shiftr mask 24) 255; Z.land (Z.shiftr mask 16) 255;
   Z.land (Z.shiftr mask 8) 255; Z.land mask 255].

(** Address, canonical CIDR text and netmask. *)
Definition parse_cidr (text : cstring) (version address_size cidr_size netmask_size : Z)
    : option (cstring * cstring * cstring) :=
  if slen text >=? TCP_SHIFT_SERVICE_ADDRESS_MAX then None
  else
    match strrchr text "/" with
    | Some ((_ :: _) as raw, (_ :: _) as prefix_text) =>
        match parse_unsigned prefix_text (if version =? 4 then 32 else 128) with
        | None => None
        | Some prefix =>
            match inet_pton version raw with
            | None => None
            | Some packed =>
                match inet_ntop version packed address_size with
                | None => None
                | Some address =>
                    let cidr := address ++ "/"%char :: print_dec prefix in
                    if slen cidr >=? cidr_size then None
                    else if version =? 4 then
                      match inet_ntop 4 (ipv4_mask prefix) netmask_size with
                      | None => None
                      | Some netmask => Some (address, cidr, netmask)
                      end
                    else Some (address, cidr, [])
                end
            end
        end
    | _ => None
    end.

Definition canonical_ip (text : cstring) (version output_size : Z) : option cstring :=
  match inet_pton version text with
  | None => None
  | Some packed => inet_ntop version packed output_size
  end.

Definition same_ip (left right : cstring) (version : Z) : bool :=
  match inet_pton version left, inet_pton version right with
  | Some a, Some b =>
      let length := if version =? 4 then 4%nat else 16%nat in
      bool_decide (firstn length a = firstn length b)
  | _, _ => false
  end.

(** The second half of [finalize_config]: the TUN addresses. *)
Definition finalize_tun (config : tcp_shift_service_config)
    (state : tcp_shift_service_parse_state) (listen_version : Z)
    : config_error + tcp_shift_service_config :=
  let '(default_host, default_guest) :=
    if listen_version =? 4 then (lit "198.18.0.1/30", lit "198.18.0.2")
    else (lit "fd00:198:18::1/126", lit "fd00:198:18::2") in
  let config := if ps_have_tun_host state then config
                else config <| sc_tun_host_cidr := firstn 63 default_host |> in
  match parse_cidr (sc_tun_host_cidr config) listen_version TCP_SHIFT_SERVICE_ADDRESS_MAX
          TCP_SHIFT_SERVICE_ADDRESS_MAX TCP_SHIFT_SERVICE_ADDRESS_MAX with
  | None => inl (ErrTunHost listen_version)
  | Some (address, cidr, netmask) =>
      let config := config <| sc_tun_host_address := address |> <| sc_tun_host_cidr := cidr |>
                           <| sc_tun_netmask := netmask |> in
      let config := if ps_have_tun_guest state then config
                    else config <| sc_tun_guest_address := firstn 63 default_guest |> in
      match canonical_ip (sc_tun_guest_address config) listen_version
              TCP_SHIFT_SERVICE_ADDRESS_MAX with
      | None => inl (ErrTunGuest listen_version)
      | Some guest =>
          let config := config <| sc_tun_guest_address := guest |> in
          if same_ip (sc_tun_host_address config) (sc_tun_guest_address config) listen_version
          then inl ErrTunSame else inr config
      end
  end.

Definition finalize_config (config : tcp_shift_service_config)
    (state : tcp_shift_service_parse_state) : config_error + tcp_shift_service_config :=
  if negb (ps_have_version state) then inl (ErrMissing (lit "version"))
  else if negb (sc_version config =? TCP_SHIFT_SERVICE_CONFIG_VERSION)
  then inl (ErrVersion (sc_version config))
  else if negb (ps_have_cc state) then inl (ErrMissing (lit "cc"))
  else
    let config := if ps_have_firewall_backend state then config
                  else config <| sc_firewall_backend := lit "auto" |> in
    if negb (valid_firewall_backend (sc_firewall_backend config)) then inl ErrFirewallBackend
    else if negb (ps_have_forward state) || negb (ps_have_listen state) ||
            negb (ps_have_backend state) then inl ErrForwardIncomplete
    else if negb (valid_cc (sc_cc config)) then inl (ErrCcName (sc_cc config))
    else if negb (valid_tun_name (sc_tun_name config)) then inl ErrTunName
    else
      match parse_endpoint (ps_listen state) TCP_SHIFT_SERVICE_ADDRESS_MAX with
      | None => inl ErrListen
      | Some (listen_version, public_address, public_port) =>
          let config := config <| sc_public_address := public_address |>
                               <| sc_public_port := public_port |> in
          match parse_endpoint (ps_backend state) TCP_SHIFT_SERVICE_ADDRESS_MAX with
          | None => inl ErrBackend
          | Some (backend_version, backend_address, backend_port) =>
              if negb (backend_version =? 4) || negb (str_eqb backend_address (lit "127.0.0.1"))
              then inl ErrBackend
              else finalize_tun (config <| sc_backend_port := backend_port |>
                                        <| sc_ip_version := listen_version |>)
                     state listen_version
          end
      end.

(** [path]: [None] for NULL; [stream]: the lines [getline] returns, [None] when
    the file cannot be opened; [read_error]: [ferror] at the end. *)
Definition tcp_shift_service_config_load (path : option cstring)
    (stream : option (list cstring)) (read_error : bool) (config : tcp_shift_service_config)
    : Z * tcp_shift_service_config * option config_error :=
  match path with
  | Some (_ :: _) =>
      match stream with
      | None => (-1, zero_service_config, Some ErrOpen)
      | Some lines =>
          let result :=
            match config_lines zero_parse_state zero_service_config 0 0 lines with
            | inl e => inl e
            | inr (state, config) =>
                if read_error then inl ErrRead else finalize_config config state
            end in
          match result with
          | inl e => (-1, zero_service_config, Some e)
          | inr config => (0, config, None)
          end
      end
  | _ => (-1, config, Some ErrPath)
  end.

End Addresses.
