(* ===== verification/L3Tun.v ===== *)
(** * The L3 TUN device ([src/lwip/l3_tun.h], [src/lwip/l3_tun.c])

    Packets leave through [writev] on the TUN file, or wait in a ring of 64
    packets and 96 KiB when it would block; packets come in one [read] at a
    time. The file and lwIP's buffers are the operations of [TunOS]; a result
    of [writev] or [read] is the first that is not [EINTR]. [errno] is not kept
    beyond the tests of [EAGAIN]. *)

From Stdlib Require Import ZArith Lia Bool List.
From stdpp Require Import base tactics numbers list.
From S2P Require Import Prelude.
Local Open Scope Z_scope.

Abbreviation TCP_SHIFT_L3_TUN_MAX_IOV := 64.
Abbreviation TCP_SHIFT_L3_TUN_RX_BUFFER := 2048.
Abbreviation TCP_SHIFT_IP_VERSION_SHIFT := 4.
Abbreviation TCP_SHIFT_L3_TUN_MTU := 1500.
Abbreviation TCP_SHIFT_L3_TUN_TX_QUEUE_PACKETS := 64.
Abbreviation TCP_SHIFT_L3_TUN_TX_QUEUE_BYTES := (96 * 1024).

(** lwIP's [err_t]. *)
Abbreviation ERR_OK := 0 (only parsing).
Abbreviation ERR_MEM := (-1) (only parsing).
Abbreviation ERR_VAL := (-6) (only parsing).
Abbreviation ERR_IF := (-12) (only parsing).
Abbreviation ERR_ARG := (-16) (only parsing).

(** A buffer chain: its identity, the payload of each link and [tot_len]. *)
Record pbuf := mk_pbuf { pb_id : Z; pb_chain : list (list Z); pb_tot_len : Z }.

Record tcp_shift_l3_tun := mk_l3 {
  l3_mtu : Z;
  l3_tun_fd : Z;
  l3_attached : bool;
  l3_tx_queue : list (option pbuf);
  l3_tx_queue_head : Z;
  l3_tx_queue_count : Z;
  l3_tx_queue_bytes : Z;
  l3_tx_queue_peak_bytes : Z;
  l3_rx_packets : Z;
  l3_rx_bytes : Z;
  l3_rx_drops : Z;
  l3_rx_errors : Z;
  l3_tx_packets : Z;
  l3_tx_bytes : Z;
  l3_tx_would_block : Z;
  l3_tx_queue_drops : Z;
  l3_tx_errors : Z
}.
#[export] Instance eta_l3 : Eta tcp_shift_l3_tun := fun r =>
  mk_l3 (l3_mtu r) (l3_tun_fd r) (l3_attached r) (l3_tx_queue r) (l3_tx_queue_head r)
    (l3_tx_queue_count r) (l3_tx_queue_bytes r) (l3_tx_queue_peak_bytes r) (l3_rx_packets r)
    (l3_rx_bytes r) (l3_rx_drops r) (l3_rx_errors r) (l3_tx_packets r) (l3_tx_bytes r)
    (l3_tx_would_block r) (l3_tx_queue_drops r) (l3_tx_errors r).

(** [memset(l3, 0, sizeof( *l3))] *)
Definition zero_l3 : tcp_shift_l3_tun :=
  mk_l3 0 0 false (replicate 64 None) 0 0 0 0 0 0 0 0 0 0 0 0 0.

(** ** The system *)

Inductive write_result := WriteCount (n : Z) | WriteAgain | WriteFailed.
Inductive packet_result := PacketRead (bytes : list Z) | PacketAgain | PacketFailed.

Class TunOS (W : Type) := {
  writev : W -> Z -> list (list Z) -> write_result * W;
  tun_read : W -> Z -> Z -> packet_result * W;
  pbuf_ref : W -> Z -> W;
  pbuf_free : W -> Z -> W;
  (** the identity of a new contiguous buffer of the given length *)
  pbuf_alloc : W -> Z -> option Z * W;
  pbuf_take : W -> Z -> list Z -> Z * W;
  (** lwIP's input, which may send through this device before it returns *)
  ip4_input : W -> tcp_shift_l3_tun -> pbuf -> Z * tcp_shift_l3_tun * W;
  ip6_input : W -> tcp_shift_l3_tun -> pbuf -> Z * tcp_shift_l3_tun * W;
  (** [netif_add] and [netif_add_noaddr], which run the init callback *)
  netif_add : W -> bool * W;
  netif_remove : W -> W
}.

Section Operations.
Context {W : Type} `{!TunOS W}.

(** ** Output *)

(** The loop that fills [iov]: [None] when a link does not fit. *)
Fixpoint fill_iov (chain iov : list (list Z)) : option (list (list Z)) :=
  match chain with
  | [] => Some iov
  | q :: chain' =>
      if Z.of_nat (length q) =? 0 then fill_iov chain' iov
      else if Z.of_nat (length iov) =? TCP_SHIFT_L3_TUN_MAX_IOV then None
      else fill_iov chain' (iov ++ [q])
  end.

Definition tcp_shift_l3_tun_write_packet (w : W) (l3 : tcp_shift_l3_tun) (p : pbuf)
    : Z * tcp_shift_l3_tun * W :=
  match fill_iov (pb_chain p) [] with
  | None => (-1, l3 <| l3_tx_errors := l3_tx_errors l3 +w64 1 |>, w)
  | Some [] => (1, l3, w)
  | Some iov =>
      match writev w (l3_tun_fd l3) iov with
      | (WriteAgain, w) => (0, l3 <| l3_tx_would_block := l3_tx_would_block l3 +w64 1 |>, w)
      | (WriteFailed, w) => (-1, l3 <| l3_tx_errors := l3_tx_errors l3 +w64 1 |>, w)
      | (WriteCount written, w) =>
          if negb (u16 written =? pb_tot_len p)
          then (-1, l3 <| l3_tx_errors := l3_tx_errors l3 +w64 1 |>, w)
          else (1, l3 <| l3_tx_packets := l3_tx_packets l3 +w64 1 |>
                      <| l3_tx_bytes := l3_tx_bytes l3 +w64 written |>, w)
      end
  end.

Definition tcp_shift_l3_tun_enqueue (w : W) (l3 : tcp_shift_l3_tun) (p : pbuf)
    : Z * tcp_shift_l3_tun * W :=
  let packet_bytes := pb_tot_len p in
  if (l3_tx_queue_count l3 =? TCP_SHIFT_L3_TUN_TX_QUEUE_PACKETS) ||
     (packet_bytes >? TCP_SHIFT_L3_TUN_TX_QUEUE_BYTES -w32 l3_tx_queue_bytes l3)
  then (ERR_MEM, l3 <| l3_tx_queue_drops := l3_tx_queue_drops l3 +w64 1 |>, w)
  else
    let tail := (l3_tx_queue_head l3 +w32 l3_tx_queue_count l3)
                mod TCP_SHIFT_L3_TUN_TX_QUEUE_PACKETS in
    let w := pbuf_ref w (pb_id p) in
    let bytes := l3_tx_queue_bytes l3 +w32 packet_bytes in
    (ERR_OK, l3 <| l3_tx_queue := <[Z.to_nat tail := Some p]> (l3_tx_queue l3) |>
                <| l3_tx_queue_count := l3_tx_queue_count l3 +w32 1 |>
                <| l3_tx_queue_bytes := bytes |>
                <| l3_tx_queue_peak_bytes := if bytes >? l3_tx_queue_peak_bytes l3
                     then bytes else l3_tx_queue_peak_bytes l3 |>, w).

(** The slot at the head; a slot the queue uses is never NULL. *)
Definition tx_head (l3 : tcp_shift_l3_tun) : option pbuf :=
  mjoin (l3_tx_queue l3 !! Z.to_nat (l3_tx_queue_head l3)).

(** [p]: the buffer at the head. *)
Definition tcp_shift_l3_tun_pop_tx (w : W) (l3 : tcp_shift_l3_tun) (p : pbuf)
    : tcp_shift_l3_tun * W :=
  (l3 <| l3_tx_queue := <[Z.to_nat (l3_tx_queue_head l3) := None]> (l3_tx_queue l3) |>
      <| l3_tx_queue_head := (l3_tx_queue_head l3 +w32 1)
                             mod TCP_SHIFT_L3_TUN_TX_QUEUE_PACKETS |>
      <| l3_tx_queue_count := l3_tx_queue_count l3 -w32 1 |>
      <| l3_tx_queue_bytes := l3_tx_queue_bytes l3 -w32 pb_tot_len p |>,
   pbuf_free w (pb_id p)).

Definition tcp_shift_l3_tun_output_packet (w : W) (l3 : tcp_shift_l3_tun) (p : pbuf)
    : Z * tcp_shift_l3_tun * W :=
  if l3_tun_fd l3 <? 0 then (ERR_IF, l3, w)
  else if negb (l3_tx_queue_count l3 =? 0) then tcp_shift_l3_tun_enqueue w l3 p
  else
    let '(result, l3, w) := tcp_shift_l3_tun_write_packet w l3 p in
    if result >? 0 then (ERR_OK, l3, w)
    else if result =? 0 then tcp_shift_l3_tun_enqueue w l3 p
    else (ERR_IF, l3, w).

Definition tcp_shift_l3_tun_output_ipv4 (w : W) (l3 : tcp_shift_l3_tun) (p : pbuf)
    : Z * tcp_shift_l3_tun * W := tcp_shift_l3_tun_output_packet w l3 p.

(** The loop of [flush_tx]; it runs at most once per queued packet. *)
Fixpoint flush_loop (fuel : nat) (w : W) (l3 : tcp_shift_l3_tun) (flushed : Z)
    : Z * tcp_shift_l3_tun * W :=
  match fuel with
  | O => (flushed, l3, w)
  | S fuel' =>
      if l3_tx_queue_count l3 =? 0 then (flushed, l3, w)
      else
        match tx_head l3 with
        | None => (flushed, l3, w)
        | Some p =>
            let '(result, l3, w) := tcp_shift_l3_tun_write_packet w l3 p in
            if result <? 0 then (-1, l3, w)
            else if result =? 0 then (flushed, l3, w)
            else
              let '(l3, w) := tcp_shift_l3_tun_pop_tx w l3 p in
              flush_loop fuel' w l3 (flushed + 1)
        end
  end.

Definition tcp_shift_l3_tun_flush_tx (w : W) (l3 : tcp_shift_l3_tun)
    : Z * tcp_shift_l3_tun * W :=
  if negb (l3_attached l3) || (l3_tun_fd l3 <? 0) then (-1, l3, w)
  else flush_loop (S (Z.to_nat (l3_tx_queue_count l3))) w l3 0.

Definition tcp_shift_l3_tun_wants_write (l3 : tcp_shift_l3_tun) : bool :=
  negb (l3_tx_queue_count l3 =? 0).

(** ** Input *)

(** [pbuf_copy_partial(p, &byte, 1, 0)] *)
Definition first_byte (p : pbuf) : option Z := head (concat (pb_chain p)).

Definition tcp_shift_l3_tun_input (w : W) (l3 : tcp_shift_l3_tun) (p : pbuf)
    : Z * tcp_shift_l3_tun * W :=
  if pb_tot_len p =? 0 then (ERR_ARG, l3, w)
  else
    match first_byte p with
    | None => (ERR_VAL, l3, w)
    | Some byte =>
        let version := Z.shiftr byte TCP_SHIFT_IP_VERSION_SHIFT in
        if version =? 4 then ip4_input w l3 p
        else if version =? 6 then ip6_input w l3 p
        else (ERR_VAL, l3, w)
    end.

Definition rx_drop (l3 : tcp_shift_l3_tun) : tcp_shift_l3_tun :=
  l3 <| l3_rx_drops := l3_rx_drops l3 +w64 1 |>.

(** A packet that was read. *)
Definition rx_packet (w : W) (l3 : tcp_shift_l3_tun) (packet : list Z)
    : Z * tcp_shift_l3_tun * W :=
  let length := Z.of_nat (length packet) in
  if length >? l3_mtu l3 then (1, rx_drop l3, w)
  else
    match pbuf_alloc w (u16 length) with
    | (None, w) => (1, rx_drop l3, w)
    | (Some id, w) =>
        let '(err, w) := pbuf_take w id packet in
        if negb (err =? ERR_OK) then (1, rx_drop l3, pbuf_free w id)
        else
          let '(err, l3, w) := tcp_shift_l3_tun_input w l3 (mk_pbuf id [packet] (u16 length)) in
          if negb (err =? ERR_OK) then (1, rx_drop l3, pbuf_free w id)
          else (1, l3 <| l3_rx_packets := l3_rx_packets l3 +w64 1 |>
                      <| l3_rx_bytes := l3_rx_bytes l3 +w64 length |>, w)
    end.

Definition tcp_shift_l3_tun_rx_once (w : W) (l3 : tcp_shift_l3_tun)
    : Z * tcp_shift_l3_tun * W :=
  if negb (l3_attached l3) || (l3_tun_fd l3 <? 0) then (-1, l3, w)
  else
    match tun_read w (l3_tun_fd l3) TCP_SHIFT_L3_TUN_RX_BUFFER with
    | (PacketAgain, w) => (0, l3, w)
    | (PacketFailed, w) => (-1, l3 <| l3_rx_errors := l3_rx_errors l3 +w64 1 |>, w)
    | (PacketRead [], w) => (0, l3, w)
    | (PacketRead packet, w) => rx_packet w l3 packet
    end.

(** ** Attach and detach *)

(** [netif_init] as far as this file reads it back. *)
Definition tcp_shift_l3_tun_netif_init (l3 : tcp_shift_l3_tun) : tcp_shift_l3_tun :=
  l3 <| l3_mtu := TCP_SHIFT_L3_TUN_MTU |>.

Definition tcp_shift_l3_tun_finish_attach (l3 : tcp_shift_l3_tun) : tcp_shift_l3_tun :=
  l3 <| l3_attached := true |>.

(** The addresses are passed on to lwIP only. *)
Definition tcp_shift_l3_tun_attach_ipv4 (w : W) (l3 : tcp_shift_l3_tun) (tun_fd : Z)
    : Z * tcp_shift_l3_tun * W :=
  if tun_fd <? 0 then (-1, l3, w)
  else
    let l3 := zero_l3 <| l3_tun_fd := tun_fd |> in
    let '(added, w) := netif_add w in
    if negb added then (-1, l3 <| l3_tun_fd := -1 |>, w)
    else (0, tcp_shift_l3_tun_finish_attach (tcp_shift_l3_tun_netif_init l3), w).

Definition tcp_shift_l3_tun_attach_ipv6 (w : W) (l3 : tcp_shift_l3_tun) (tun_fd : Z)
    : Z * tcp_shift_l3_tun * W :=
  if tun_fd <? 0 then (-1, l3, w)
  else
    let l3 := zero_l3 <| l3_tun_fd := tun_fd |> in
    let '(added, w) := netif_add w in
    if negb added then (-1, l3 <| l3_tun_fd := -1 |>, w)
    else (0, tcp_shift_l3_tun_finish_attach (tcp_shift_l3_tun_netif_init l3), w).

(** The loop of [detach] that empties the ring. *)
Fixpoint drain_loop (fuel : nat) (w : W) (l3 : tcp_shift_l3_tun) : tcp_shift_l3_tun * W :=
  match fuel with
  | O => (l3, w)
  | S fuel' =>
      if l3_tx_queue_count l3 =? 0 then (l3, w)
      else
        match tx_head l3 with
        | None => (l3, w)
        | Some p => let '(l3, w) := tcp_shift_l3_tun_pop_tx w l3 p in drain_loop fuel' w l3
        end
  end.

Definition tcp_shift_l3_tun_detach (w : W) (l3 : tcp_shift_l3_tun) : tcp_shift_l3_tun * W :=
  let '(l3, w) := drain_loop (S (Z.to_nat (l3_tx_queue_count l3))) w l3 in
  let w := if l3_attached l3 then netif_remove w else w in
  (l3 <| l3_attached := false |> <| l3_tun_fd := -1 |>, w).

End Operations.

(** ** The IPv6 destination cache *)

Section Destinations.
(** lwIP's address type, the unspecified address and the multicast test. *)
Context {addr : Type} `{!EqDecision addr} (any : addr) (ismulticast : addr -> bool).

(** [struct nd6_destination_cache_entry] *)
Record destination := mk_destination {
  de_destination_addr : addr; de_next_hop_addr : addr; de_pmtu : Z; de_age : Z
}.

(** The first loop: the entry of the destination, or the first empty one. *)
Fixpoint find_destination (cache : list destination) (target : addr) (i : nat)
    : option (nat * bool) :=
  match cache with
  | [] => None
  | e :: cache' =>
      if bool_decide (de_destination_addr e = target) then Some (i, true)
      else if bool_decide (de_destination_addr e = any) then Some (i, false)
      else find_destination cache' target (S i)
  end.

(** The second loop: the first entry of the greatest age. *)
Fixpoint oldest_loop (cache : list destination) (i selected : nat) (oldest_age : Z) : nat :=
  match cache with
  | [] => selected
  | e :: cache' =>
      if de_age e >? oldest_age then oldest_loop cache' (S i) i (de_age e)
      else oldest_loop cache' (S i) selected oldest_age
  end.

Definition oldest_destination (cache : list destination) : nat :=
  match cache with
  | [] => 0%nat
  | e :: cache' => oldest_loop cache' 1 0 (de_age e)
  end.

Definition tcp_shift_l3_tun_track_ipv6_destination (mtu : Z) (target : addr)
    (cache : list destination) : list destination :=
  if bool_decide (target = any) || ismulticast target then cache
  else
    let fresh := mk_destination target target mtu 0 in
    match find_destination cache target 0 with
    | Some (i, true) =>
        match cache !! i with
        | Some e => <[i := mk_destination (de_destination_addr e) (de_next_hop_addr e)
                             (de_pmtu e) 0]> cache
        | None => cache
        end
    | Some (i, false) => <[i := fresh]> cache
    | None => <[oldest_destination cache := fresh]> cache
    end.

End Destinations.
Arguments destination : clear implicits.

(** IPv6 output: note the destination, then send. *)
Definition tcp_shift_l3_tun_output_ipv6 {W} `{!TunOS W} {addr} `{!EqDecision addr} (any : addr)
    (ismulticast : addr -> bool) (w : W) (l3 : tcp_shift_l3_tun) (p : pbuf) (target : addr)
    (cache : list (destination addr)) : Z * tcp_shift_l3_tun * list (destination addr) * W :=
  let cache := tcp_shift_l3_tun_track_ipv6_destination any ismulticast (l3_mtu l3) target cache in
  let '(err, l3, w) := tcp_shift_l3_tun_output_packet w l3 p in
  (err, l3, cache, w).
