(* ===== verification/L3TunSpec.v ===== *)
(** * Properties of the L3 TUN device

    The transmit ring is a bounded FIFO in front of the file: packets leave in
    the order lwIP handed them over, none is lost while it waits, every buffer
    reference is returned; and the policy of the IPv6 destination cache. *)

From Stdlib Require Import ZArith Lia Bool List.
From stdpp Require Import base tactics numbers list.
From S2P Require Import Prelude L3Tun.
Local Open Scope Z_scope.

(** ** Buffers and packets *)

Definition bytes_of (p : pbuf) : list Z := concat (pb_chain p).

(** A chain as lwIP keeps it: [tot_len] is its length. *)
Definition pbuf_ok (p : pbuf) : Prop :=
  pb_tot_len p = Z.of_nat (length (bytes_of p)) /\ pb_tot_len p <= 65535.

(** What a buffer puts on the wire: nothing when it is empty. *)
Definition packet (p : pbuf) : list (list Z) :=
  match bytes_of p with [] => [] | b => [b] end.
Definition packets (q : list pbuf) : list (list Z) := flat_map packet q.
Fixpoint queue_bytes (q : list pbuf) : Z :=
  match q with [] => 0 | p :: q' => pb_tot_len p + queue_bytes q' end.

(** How often a buffer occurs in a queue. *)
Definition occurrences (q : list pbuf) (id : Z) : Z :=
  Z.of_nat (length (List.filter (fun p => pb_id p =? id) q)).

Lemma packets_app a b : packets (a ++ b) = packets a ++ packets b.
Proof. apply flat_map_app. Qed.

Lemma queue_bytes_app a b : queue_bytes (a ++ b) = queue_bytes a + queue_bytes b.
Proof. induction a as [|p a IH]; cbn; [done|]. rewrite IH. lia. Qed.

Lemma occurrences_app a b id : occurrences (a ++ b) id = occurrences a id + occurrences b id.
Proof. unfold occurrences. rewrite List.filter_app, length_app. lia. Qed.

Lemma occurrences_one p id : occurrences [p] id = if pb_id p =? id then 1 else 0.
Proof. unfold occurrences. cbn. by destruct (pb_id p =? id). Qed.

Lemma queue_bytes_nonneg q : Forall pbuf_ok q -> 0 <= queue_bytes q.
Proof. induction 1 as [|p q [Hp _] _ IH]; cbn; lia. Qed.

(** ** The ring *)

(** The ring holds the queue [q], oldest packet first. *)
Definition ring_holds (l3 : tcp_shift_l3_tun) (q : list pbuf) : Prop :=
  length (l3_tx_queue l3) = 64%nat /\ 0 <= l3_tx_queue_head l3 < 64 /\
  l3_tx_queue_count l3 = Z.of_nat (length q) /\ (length q <= 64)%nat /\
  l3_tx_queue_bytes l3 = queue_bytes q /\
  queue_bytes q <= TCP_SHIFT_L3_TUN_TX_QUEUE_BYTES /\ Forall pbuf_ok q /\
  forall i p, q !! i = Some p ->
    l3_tx_queue l3 !! Z.to_nat ((l3_tx_queue_head l3 + Z.of_nat i) mod 64) = Some (Some p).

(** Nothing of the ring or of the attachment changed. *)
Definition same_ring (l3 l3' : tcp_shift_l3_tun) : Prop :=
  l3_tx_queue l3' = l3_tx_queue l3 /\ l3_tx_queue_head l3' = l3_tx_queue_head l3 /\
  l3_tx_queue_count l3' = l3_tx_queue_count l3 /\ l3_tx_queue_bytes l3' = l3_tx_queue_bytes l3 /\
  l3_tun_fd l3' = l3_tun_fd l3 /\ l3_attached l3' = l3_attached l3.

Lemma ring_holds_same l3 l3' q : same_ring l3 l3' -> ring_holds l3 q -> ring_holds l3' q.
Proof.
  intros (E1 & E2 & E3 & E4 & _ & _). unfold ring_holds. by rewrite E1, E2, E3, E4.
Qed.

Lemma ring_slot_ne h i j :
  0 <= i < 64 -> 0 <= j < 64 -> i <> j -> (h + i) mod 64 <> (h + j) mod 64.
Proof.
  intros Hi Hj Hne E. pose proof (Z.div_mod (h + i) 64 ltac:(lia)).
  pose proof (Z.div_mod (h + j) 64 ltac:(lia)). lia.
Qed.

Lemma ring_slot_range h i : 0 <= (h + i) mod 64 < 64.
Proof. apply Z.mod_pos_bound. lia. Qed.

Lemma ring_head l3 p q : ring_holds l3 (p :: q) -> tx_head l3 = Some p.
Proof.
  intros (_ & Hh & _ & _ & _ & _ & _ & Hs). specialize (Hs 0%nat p eq_refl).
  rewrite Z.add_0_r, Z.mod_small in Hs by lia. unfold tx_head. by rewrite Hs.
Qed.

Section Laws.
Context {W : Type} `{!TunOS W}.

(** A stretch of lwIP's own work: it sends through the device, in between
    changing what this file does not see. [acc]: the buffers it accepted. *)
Inductive tun_trace (sent : W -> list (list Z)) (held : W -> Z -> Z)
    : W -> tcp_shift_l3_tun -> list pbuf -> W -> tcp_shift_l3_tun -> Prop :=
| trace_end w l3 : tun_trace sent held w l3 [] w l3
| trace_inner w l3 w1 acc w2 l2 :
    sent w1 = sent w -> (forall j, held w1 j = held w j) ->
    tun_trace sent held w1 l3 acc w2 l2 -> tun_trace sent held w l3 acc w2 l2
| trace_output w l3 p err l1 w1 acc w2 l2 :
    pbuf_ok p -> tcp_shift_l3_tun_output_packet w l3 p = (err, l1, w1) ->
    tun_trace sent held w1 l1 acc w2 l2 ->
    tun_trace sent held w l3 ((if err =? 0 then [p] else []) ++ acc) w2 l2.

(** What the device relies on: [sent w] is the packets the TUN file took,
    [held w id] the references to a buffer this file owns. A write to a TUN
    file takes one whole packet or nothing; lwIP's input owns the buffer when
    it returns [ERR_OK] and only then. *)
Class TunLaws (sent : W -> list (list Z)) (held : W -> Z -> Z) : Prop := {
  writev_count w fd iov n w' :
    writev w fd iov = (WriteCount n, w') ->
    n = Z.of_nat (length (concat iov)) /\ sent w' = sent w ++ [concat iov] /\
    forall j, held w' j = held w j;
  writev_nothing w fd iov r w' :
    writev w fd iov = (r, w') -> r = WriteAgain \/ r = WriteFailed ->
    sent w' = sent w /\ forall j, held w' j = held w j;
  ref_held w id : sent (pbuf_ref w id) = sent w /\
    forall j, held (pbuf_ref w id) j = held w j + (if id =? j then 1 else 0);
  free_held w id : sent (pbuf_free w id) = sent w /\
    forall j, held (pbuf_free w id) j = held w j - (if id =? j then 1 else 0);
  read_held w fd n r w' :
    tun_read w fd n = (r, w') -> sent w' = sent w /\ forall j, held w' j = held w j;
  alloc_held w n r w' :
    pbuf_alloc w n = (r, w') -> sent w' = sent w /\
    forall j, held w' j = held w j + match r with Some id => if id =? j then 1 else 0 | None => 0 end;
  take_held w id b err w' :
    pbuf_take w id b = (err, w') -> sent w' = sent w /\ forall j, held w' j = held w j;
  input_held w l3 p err l3' w' :
    ip4_input w l3 p = (err, l3', w') \/ ip6_input w l3 p = (err, l3', w') ->
    exists acc w1, tun_trace sent held w l3 acc w1 l3' /\ sent w' = sent w1 /\
      forall j, held w' j = held w1 j - (if (err =? 0) && (pb_id p =? j) then 1 else 0);
  netif_add_held w b w' :
    netif_add w = (b, w') -> sent w' = sent w /\ forall j, held w' j = held w j;
  netif_remove_held w :
    sent (netif_remove w) = sent w /\ forall j, held (netif_remove w) j = held w j
}.

Context (sent : W -> list (list Z)) (held : W -> Z -> Z) {Hlaws : TunLaws sent held}.

(** ** Writing *)

Lemma fill_iov_spec chain : forall iov res,
  Forall (fun x => x <> []) iov -> fill_iov chain iov = Some res ->
  concat res = concat iov ++ concat chain /\ Forall (fun x => x <> []) res.
Proof.
  induction chain as [|x chain IH]; intros iov res Hi; cbn.
  { intros [= <-]. by rewrite app_nil_r. }
  destruct (Z.of_nat (length x) =? 0) eqn:E.
  { intros H. destruct (IH iov res Hi H) as [-> ?]. by destruct x. }
  destruct (Z.of_nat (length iov) =? 64); [done|]. intros H.
  destruct (IH (iov ++ [x]) res) as [-> ?]; [|done|].
  - apply Forall_app. split; [done|]. constructor; [|done]. intros ->. done.
  - rewrite concat_app. cbn. by rewrite app_nil_r, <- app_assoc.
Qed.

Lemma write_packet_spec w l3 p r l3' w' :
  pbuf_ok p -> tcp_shift_l3_tun_write_packet w l3 p = (r, l3', w') ->
  same_ring l3 l3' /\ (forall j, held w' j = held w j) /\
  ((r = 1 /\ sent w' = sent w ++ packet p /\ l3_tx_would_block l3' = l3_tx_would_block l3) \/
   (r = 0 /\ sent w' = sent w /\ l3_tx_would_block l3' = l3_tx_would_block l3 +w64 1) \/
   (r = -1 /\ sent w' = sent w)).
Proof.
  intros [Hlen Hmax]. unfold tcp_shift_l3_tun_write_packet.
  destruct (fill_iov (pb_chain p) []) as [iov|] eqn:E.
  2:{ intros [= <- <- <-]. split; [done|]. split; [done|]. auto. }
  destruct (fill_iov_spec (pb_chain p) [] iov ltac:(done) E) as [Ec Hne]. cbn [concat app] in Ec.
  change (concat (pb_chain p)) with (bytes_of p) in Ec.
  destruct iov as [|x iov].
  { intros [= <- <- <-]. split; [done|]. split; [done|]. left. split; [done|].
    split; [|done]. unfold packet. rewrite <- Ec. cbn. by rewrite app_nil_r. }
  assert (Hp : packet p = [concat (x :: iov)]).
  { unfold packet. rewrite <- Ec. apply Forall_cons in Hne as [Hx _].
    cbn [concat]. by destruct x. }
  destruct (writev w (l3_tun_fd l3) (x :: iov)) as [[n| |] w1] eqn:Ew.
  - destruct (writev_count _ _ _ _ _ Ew) as (Hn & Hs & Hh). rewrite Ec, <- Hlen in Hn.
    rewrite u16_small by lia. destruct (n =? pb_tot_len p) eqn:En; [|lia]. cbn [negb].
    intros [= <- <- <-]. split; [done|]. split; [done|]. left. by rewrite Hp.
  - destruct (writev_nothing _ _ _ _ _ Ew ltac:(by left)). intros [= <- <- <-].
    split; [done|]. split; [done|]. auto.
  - destruct (writev_nothing _ _ _ _ _ Ew ltac:(by right)). intros [= <- <- <-].
    split; [done|]. split; [done|]. auto.
Qed.

Lemma enqueue_spec w l3 p q err l3' w' :
  pbuf_ok p -> ring_holds l3 q -> tcp_shift_l3_tun_enqueue w l3 p = (err, l3', w') ->
  l3_tun_fd l3' = l3_tun_fd l3 /\ l3_attached l3' = l3_attached l3 /\ sent w' = sent w /\
  ((err = 0 /\ ring_holds l3' (q ++ [p]) /\
    forall j, held w' j = held w j + (if pb_id p =? j then 1 else 0)) \/
   (err = -1 /\ ring_holds l3' q /\ (forall j, held w' j = held w j) /\
    (length q = 64%nat \/ TCP_SHIFT_L3_TUN_TX_QUEUE_BYTES < queue_bytes q + pb_tot_len p))).
Proof.
  intros Hp Hr. pose proof Hp as [Hlen Hmax].
  pose proof Hr as (Hq & Hh & Hc & Hn & Hb & Hbm & Hok & Hs).
  pose proof (queue_bytes_nonneg q Hok). unfold tcp_shift_l3_tun_enqueue. cbn zeta.
  rewrite Hc, Hb, (u32_small (96 * 1024 - queue_bytes q)) by lia.
  destruct (_ || _) eqn:E.
  { intros [= <- <- <-]. repeat (split; [done|]). right. split; [done|]. split; [done|].
    split; [done|]. lia. }
  assert (Hn' : (length q < 64)%nat) by lia.
  rewrite (u32_small (l3_tx_queue_head l3 + Z.of_nat (length q))) by lia.
  rewrite (u32_small (Z.of_nat (length q) + 1)), (u32_small (queue_bytes q + pb_tot_len p)) by lia.
  destruct (ref_held w (pb_id p)) as [Es Eh]. intros [= <- <- <-].
  split; [done|]. split; [done|]. split; [done|]. left. split; [done|]. split; [|done].
  set (tail := (l3_tx_queue_head l3 + Z.of_nat (length q)) mod 64).
  pose proof (ring_slot_range (l3_tx_queue_head l3) (Z.of_nat (length q))) as Ht. fold tail in Ht.
  unfold ring_holds. cbn. rewrite length_insert, length_app, queue_bytes_app. cbn.
  split; [done|]. split; [done|]. split; [lia|]. split; [lia|]. split; [lia|]. split; [lia|].
  split; [apply Forall_app; by repeat constructor|]. intros i x Hi.
  apply lookup_app_Some in Hi as [Hi|[Hge Hi]].
  - pose proof (lookup_lt_Some _ _ _ Hi).
    pose proof (ring_slot_ne (l3_tx_queue_head l3) (Z.of_nat i) (Z.of_nat (length q))
      ltac:(lia) ltac:(lia) ltac:(lia)).
    pose proof (ring_slot_range (l3_tx_queue_head l3) (Z.of_nat i)).
    rewrite list_lookup_insert_ne by (unfold tail; lia). by apply Hs.
  - apply list_lookup_singleton_Some in Hi as [Hi <-].
    assert (i = length q) as -> by lia. fold tail. apply list_lookup_insert_eq. lia.
Qed.

Lemma pop_tx_spec w l3 p q l3' w' :
  ring_holds l3 (p :: q) -> tcp_shift_l3_tun_pop_tx w l3 p = (l3', w') ->
  ring_holds l3' q /\ sent w' = sent w /\
  (forall j, held w' j = held w j - (if pb_id p =? j then 1 else 0)) /\
  l3_tun_fd l3' = l3_tun_fd l3 /\ l3_attached l3' = l3_attached l3 /\
  l3_tx_would_block l3' = l3_tx_would_block l3.
Proof.
  intros (Hq & Hh & Hc & Hn & Hb & Hbm & Hok & Hs). cbn in *.
  apply Forall_cons in Hok as [[Hlen Hmax] Hok]. pose proof (queue_bytes_nonneg q Hok).
  unfold tcp_shift_l3_tun_pop_tx. rewrite Hc, Hb.
  rewrite (u32_small (l3_tx_queue_head l3 + 1)) by lia.
  rewrite (u32_small (Z.of_nat (S (length q)) - 1)) by lia.
  rewrite (u32_small (pb_tot_len p + queue_bytes q - pb_tot_len p)) by lia.
  destruct (free_held w (pb_id p)) as [Es Eh]. intros [= <- <-].
  split; [|done]. unfold ring_holds. cbn. rewrite length_insert.
  split; [done|]. split; [apply Z.mod_pos_bound; lia|]. split; [lia|]. split; [lia|].
  split; [lia|]. split; [lia|]. split; [done|]. intros i x Hi.
  pose proof (lookup_lt_Some _ _ _ Hi).
  rewrite Z.add_mod_idemp_l by lia.
  replace (l3_tx_queue_head l3 + 1 + Z.of_nat i) with (l3_tx_queue_head l3 + Z.of_nat (S i)) by lia.
  pose proof (ring_slot_ne (l3_tx_queue_head l3) (Z.of_nat (S i)) 0 ltac:(lia) ltac:(lia) ltac:(lia)).
  pose proof (ring_slot_range (l3_tx_queue_head l3) (Z.of_nat (S i))).
  rewrite Z.add_0_r, (Z.mod_small (l3_tx_queue_head l3)) in * by lia.
  rewrite list_lookup_insert_ne by lia. by apply (Hs (S i)).
Qed.

(** ** The invariant *)

(** [base], [hbase]: what was on the wire and owned before; [acc]: the buffers
    accepted since, in order. *)
Definition tun_inv (base : list (list Z)) (hbase : Z -> Z) (w : W) (l3 : tcp_shift_l3_tun)
    (acc : list pbuf) : Prop :=
  exists q out, ring_holds l3 q /\ sent w = base ++ out /\ out ++ packets q = packets acc /\
    forall j, held w j = hbase j + occurrences q j.

Lemma enqueue_inv base hbase w l3 acc p err l3' w' :
  tun_inv base hbase w l3 acc -> pbuf_ok p ->
  tcp_shift_l3_tun_enqueue w l3 p = (err, l3', w') ->
  tun_inv base hbase w' l3' (acc ++ if err =? 0 then [p] else []).
Proof.
  intros (q & out & Hr & Hs & Ho & Hh) Hp E.
  destruct (enqueue_spec w l3 p q err l3' w' Hp Hr E)
    as (_ & _ & Es & [(-> & Hr' & Eh)|(-> & Hr' & Eh & _)]).
  - exists (q ++ [p]), out. split; [done|]. split; [by rewrite Es|].
    rewrite !packets_app, app_assoc, Ho. split; [done|].
    intros j. rewrite Eh, Hh, occurrences_app, occurrences_one. lia.
  - exists q, out. rewrite app_nil_r. split; [done|]. split; [by rewrite Es|]. split; [done|].
    intros j. by rewrite Eh.
Qed.

Lemma output_inv base hbase w l3 acc p err l3' w' :
  tun_inv base hbase w l3 acc -> pbuf_ok p ->
  tcp_shift_l3_tun_output_packet w l3 p = (err, l3', w') ->
  tun_inv base hbase w' l3' (acc ++ if err =? 0 then [p] else []).
Proof.
  intros Hinv Hp. unfold tcp_shift_l3_tun_output_packet.
  destruct (l3_tun_fd l3 <? 0); [intros [= <- <- <-]; by rewrite app_nil_r|].
  destruct (l3_tx_queue_count l3 =? 0) eqn:Ec; cbn [negb]; [|by apply enqueue_inv].
  destruct (tcp_shift_l3_tun_write_packet w l3 p) as [[r l1] w1] eqn:Ew.
  destruct (write_packet_spec w l3 p r l1 w1 Hp Ew) as (Hsame & Eh & Hcases).
  destruct Hinv as (q & out & Hr & Hs & Ho & Hh).
  assert (q = []) as ->.
  { destruct Hr as (_ & _ & Hc & _). destruct q; [done|]. by rewrite Hc in Ec. }
  pose proof (ring_holds_same l3 l1 [] Hsame Hr) as Hr1.
  destruct Hcases as [(-> & Es & _)|[(-> & Es & _)|(-> & Es)]]; cbn.
  - intros [= <- <- <-]. exists [], (out ++ packet p). split; [done|].
    split; [by rewrite Es, Hs, app_assoc|]. rewrite packets_app, app_nil_r in *. cbn in *.
    rewrite Ho, app_nil_r. split; [done|]. intros j. by rewrite Eh.
  - intros E. apply (enqueue_inv _ _ w1 l1); [|done|done].
    exists [], out. split; [done|]. split; [by rewrite Es|]. split; [done|]. intros j. by rewrite Eh.
  - intros [= <- <- <-]. cbn. rewrite (app_nil_r acc). exists [], out. split; [done|].
    split; [by rewrite Es|]. split; [done|]. intros j. by rewrite Eh.
Qed.

Lemma trace_inv base hbase w l3 acc1 w2 l2 :
  tun_trace sent held w l3 acc1 w2 l2 ->
  forall acc, tun_inv base hbase w l3 acc -> tun_inv base hbase w2 l2 (acc ++ acc1).
Proof.
  induction 1 as [w l3|w l3 w1 acc1 w2 l2 Es Eh _ IH|w l3 p err l1 w1 acc1 w2 l2 Hp E _ IH];
    intros acc Hinv.
  - by rewrite app_nil_r.
  - apply IH. destruct Hinv as (q & out & Hr & Hs & Ho & Hh). exists q, out.
    split; [done|]. split; [by rewrite Es|]. split; [done|]. intros j. by rewrite Eh.
  - rewrite app_assoc. apply IH. by apply (output_inv base hbase w l3).
Qed.

(** ** Receiving *)

(** What receiving may do: lwIP sends while it handles the packet, and the
    references this file owns are as before. *)
Definition rx_effect (w : W) (l3 : tcp_shift_l3_tun) (acc : list pbuf) (w' : W)
    (l3' : tcp_shift_l3_tun) : Prop :=
  exists w1 w2 l2, sent w1 = sent w /\ tun_trace sent held w1 l3 acc w2 l2 /\ same_ring l2 l3' /\
    sent w' = sent w2 /\ forall j, held w' j - held w2 j = held w j - held w1 j.

Lemma rx_effect_none w l3 w' l3' :
  same_ring l3 l3' -> sent w' = sent w -> (forall j, held w' j = held w j) ->
  rx_effect w l3 [] w' l3'.
Proof.
  intros Hr Hs Hh. exists w, w, l3. split; [done|]. split; [constructor|]. split; [done|].
  split; [done|]. intros j. rewrite Hh. lia.
Qed.

Lemma rx_packet_effect w l3 b r l3' w' :
  rx_packet w l3 b = (r, l3', w') -> r = 1 /\ exists acc, rx_effect w l3 acc w' l3'.
Proof.
  unfold rx_packet. destruct (Z.of_nat (length b) >? l3_mtu l3).
  { intros [= <- <- <-]. split; [done|]. exists []. by apply rx_effect_none. }
  destruct (pbuf_alloc w (u16 (Z.of_nat (length b)))) as [[id|] w1] eqn:Ea;
    destruct (alloc_held _ _ _ _ Ea) as [Es1 Eh1].
  2:{ intros [= <- <- <-]. split; [done|]. exists []. apply rx_effect_none; [done|done|].
      intros j. rewrite Eh1. lia. }
  destruct (pbuf_take w1 id b) as [err w2] eqn:Et. destruct (take_held _ _ _ _ _ Et) as [Es2 Eh2].
  destruct (err =? 0); cbn [negb].
  2:{ intros [= <- <- <-]. destruct (free_held w2 id) as [Es3 Eh3]. split; [done|]. exists [].
      apply rx_effect_none; [done|congruence|]. intros j. rewrite Eh3, Eh2, Eh1. lia. }
  set (p := mk_pbuf id [b] (u16 (Z.of_nat (length b)))).
  destruct (tcp_shift_l3_tun_input w2 l3 p) as [[err3 l4] w4] eqn:Ei.
  assert (Hin : exists acc w3, tun_trace sent held w2 l3 acc w3 l4 /\ sent w4 = sent w3 /\
    forall j, held w4 j = held w3 j - (if (err3 =? 0) && (id =? j) then 1 else 0)).
  { revert Ei. unfold tcp_shift_l3_tun_input.
    assert (Hno : forall e, e <> 0 -> (e, l3, w2) = (err3, l4, w4) ->
      exists acc w3, tun_trace sent held w2 l3 acc w3 l4 /\ sent w4 = sent w3 /\
      forall j, held w4 j = held w3 j - (if (err3 =? 0) && (id =? j) then 1 else 0)).
    { intros e He [= <- <- <-]. exists [], w2. split; [constructor|]. split; [done|].
      intros j. destruct (e =? 0) eqn:E0; [lia|]. cbn. lia. }
    destruct (pb_tot_len p =? 0); [by apply Hno|].
    destruct (first_byte p) as [x|]; [|by apply Hno]. cbn zeta.
    destruct (_ =? 4); [intros Ei; apply (input_held w2 l3 p); by left|].
    destruct (_ =? 6); [intros Ei; apply (input_held w2 l3 p); by right|by apply Hno]. }
  destruct Hin as (acc & w3 & Htr & Es4 & Eh4).
  assert (Heff : forall w5 l5, same_ring l4 l5 -> sent w5 = sent w3 ->
    (forall j, held w5 j = held w3 j - (if id =? j then 1 else 0)) -> rx_effect w l3 acc w5 l5).
  { intros w5 l5 Hsr Hs5 Hh5. exists w2, w3, l4. split; [congruence|]. split; [done|].
    split; [done|]. split; [done|]. intros j. rewrite Hh5, Eh2, Eh1. lia. }
  destruct (err3 =? 0); cbn [negb andb] in *; intros [= <- <- <-]; (split; [done|]); exists acc.
  - by apply Heff.
  - destruct (free_held w4 id) as [Es5 Eh5]. apply Heff; [done|congruence|].
    intros j. rewrite Eh5, Eh4. lia.
Qed.

Lemma rx_once_effect w l3 r l3' w' :
  tcp_shift_l3_tun_rx_once w l3 = (r, l3', w') ->
  -1 <= r <= 1 /\ exists acc, rx_effect w l3 acc w' l3'.
Proof.
  unfold tcp_shift_l3_tun_rx_once. destruct (_ || _).
  { intros [= <- <- <-]. split; [lia|]. exists []. by apply rx_effect_none. }
  destruct (tun_read w (l3_tun_fd l3) 2048) as [res w1] eqn:Er.
  destruct (read_held _ _ _ _ _ Er) as [Es Eh].
  destruct res as [[|x b]| |].
  - intros [= <- <- <-]. split; [lia|]. exists []. by apply rx_effect_none.
  - intros E. apply rx_packet_effect in E as [-> (acc & w2 & w3 & l2 & H1 & H2 & H3 & H4 & H5)].
    split; [lia|]. exists acc, w2, w3, l2. split; [congruence|]. split; [done|]. split; [done|].
    split; [done|]. intros j. rewrite H5, Eh. done.
  - intros [= <- <- <-]. split; [lia|]. exists []. by apply rx_effect_none.
  - intros [= <- <- <-]. split; [lia|]. exists []. by apply rx_effect_none.
Qed.

Lemma rx_inv base hbase w l3 acc acc1 w' l3' :
  tun_inv base hbase w l3 acc -> rx_effect w l3 acc1 w' l3' ->
  tun_inv base hbase w' l3' (acc ++ acc1).
Proof.
  intros (q & out & Hr & Hs & Ho & Hh) (w1 & w2 & l2 & H1 & H2 & H3 & H4 & H5).
  destruct (trace_inv base (fun j => hbase j + (held w1 j - held w j)) w1 l3 acc1 w2 l2 H2 acc)
    as (q2 & out2 & Hr2 & Hs2 & Ho2 & Hh2).
  { exists q, out. split; [done|]. split; [by rewrite H1|]. split; [done|].
    intros j. rewrite Hh. lia. }
  exists q2, out2. split; [by apply (ring_holds_same l2)|]. split; [by rewrite H4|]. split; [done|].
  intros j. specialize (H5 j). specialize (Hh2 j). lia.
Qed.

(** ** Flushing and detaching *)

Lemma flush_loop_spec fuel : forall w l3 q n r l3' w',
  ring_holds l3 q -> (length q < fuel)%nat -> 0 <= n ->
  flush_loop fuel w l3 n = (r, l3', w') ->
  exists k, ring_holds l3' (drop k q) /\ sent w' = sent w ++ packets (take k q) /\
    (forall j, held w' j = held w j - occurrences (take k q) j) /\
    (r = -1 \/ r = n + Z.of_nat (length (take k q)) /\
     (drop k q = [] \/ l3_tx_would_block l3' = l3_tx_would_block l3 +w64 1)).
Proof.
  induction fuel as [|fuel IH]; intros w l3 q n r l3' w' Hr Hf Hn; [lia|]. cbn [flush_loop].
  pose proof Hr as (_ & _ & Hc & _).
  destruct (l3_tx_queue_count l3 =? 0) eqn:E0.
  { intros [= <- <- <-]. destruct q; [|by rewrite Hc in E0]. exists 0%nat. cbn.
    rewrite app_nil_r. split; [done|]. split; [done|]. split; [intros j; unfold occurrences; cbn; lia|].
    right. split; [lia|by left]. }
  destruct q as [|p q]; [rewrite Hc in E0; done|]. rewrite (ring_head l3 p q Hr).
  assert (Hp : pbuf_ok p) by (destruct Hr as (_&_&_&_&_&_&Hok&_); by apply Forall_cons in Hok as [? _]).
  destruct (tcp_shift_l3_tun_write_packet w l3 p) as [[r1 l1] w1] eqn:Ew.
  destruct (write_packet_spec w l3 p r1 l1 w1 Hp Ew) as (Hsame & Eh & Hcases).
  pose proof (ring_holds_same l3 l1 _ Hsame Hr) as Hr1.
  assert (H0 : forall j, occurrences (take 0 (p :: q)) j = 0) by done.
  destruct Hcases as [(-> & Es & Eb)|[(-> & Es & Eb)|(-> & Es)]]; cbn [Z.ltb Z.eqb Z.compare].
  - destruct (tcp_shift_l3_tun_pop_tx w1 l1 p) as [l2 w2] eqn:Ep.
    destruct (pop_tx_spec w1 l1 p q l2 w2 Hr1 Ep) as (Hr2 & Es2 & Eh2 & _ & _ & Eb2).
    intros E. cbn in Hf.
    destruct (IH w2 l2 q (n + 1) r l3' w' Hr2 ltac:(lia) ltac:(lia) E) as (k & Hk & Hs & Hh & Hres).
    exists (S k). cbn [drop take packets flat_map]. split; [done|].
    split; [by rewrite Hs, Es2, Es, <- app_assoc|]. split.
    + intros j. rewrite Hh, Eh2, Eh. change (p :: take k q) with ([p] ++ take k q).
      rewrite occurrences_app, occurrences_one. lia.
    + destruct Hres as [->|[-> Hd]]; [by left|]. right. cbn [length]. split; [lia|].
      destruct Hd as [->|Hd]; [by left|]. right. by rewrite Hd, Eb2, Eb.
  - intros [= <- <- <-]. exists 0%nat. cbn [take drop packets flat_map]. rewrite app_nil_r.
    split; [done|]. split; [done|]. split; [intros j; rewrite Eh; change (occurrences [] j) with 0; lia|].
    right. cbn. split; [lia|by right].
  - intros [= <- <- <-]. exists 0%nat. cbn [take drop packets flat_map]. rewrite app_nil_r.
    split; [done|]. split; [done|]. split; [intros j; rewrite Eh; change (occurrences [] j) with 0; lia|].
    by left.
Qed.

Lemma flush_tx_spec w l3 q r l3' w' :
  ring_holds l3 q -> l3_attached l3 = true -> 0 <= l3_tun_fd l3 ->
  tcp_shift_l3_tun_flush_tx w l3 = (r, l3', w') ->
  exists k, ring_holds l3' (drop k q) /\ sent w' = sent w ++ packets (take k q) /\
    (forall j, held w' j = held w j - occurrences (take k q) j) /\
    (r = -1 \/ r = Z.of_nat (length (take k q)) /\
     (drop k q = [] \/ l3_tx_would_block l3' = l3_tx_would_block l3 +w64 1)).
Proof.
  intros Hr Ha Hfd. unfold tcp_shift_l3_tun_flush_tx. rewrite Ha. cbn [negb orb].
  destruct (l3_tun_fd l3 <? 0) eqn:E; [lia|]. intros Ef.
  assert (Hfuel : (length q < S (Z.to_nat (l3_tx_queue_count l3)))%nat)
    by (destruct Hr as (_ & _ & -> & _); lia).
  destruct (flush_loop_spec _ w l3 q 0 r l3' w' Hr Hfuel ltac:(lia) Ef) as (k & H). by exists k.
Qed.

Lemma drain_loop_spec fuel : forall w l3 q l3' w',
  ring_holds l3 q -> (length q < fuel)%nat -> drain_loop fuel w l3 = (l3', w') ->
  ring_holds l3' [] /\ sent w' = sent w /\ forall j, held w' j = held w j - occurrences q j.
Proof.
  induction fuel as [|fuel IH]; intros w l3 q l3' w' Hr Hf; [lia|]. cbn [drain_loop].
  pose proof Hr as (_ & _ & Hc & _). destruct (l3_tx_queue_count l3 =? 0) eqn:E0.
  { intros [= <- <-]. destruct q; [|by rewrite Hc in E0]. split; [done|]. split; [done|].
    intros j. change (occurrences [] j) with 0. lia. }
  destruct q as [|p q]; [by rewrite Hc in E0|]. rewrite (ring_head l3 p q Hr).
  destruct (tcp_shift_l3_tun_pop_tx w l3 p) as [l2 w2] eqn:Ep.
  destruct (pop_tx_spec w l3 p q l2 w2 Hr Ep) as (Hr2 & Es2 & Eh2 & _). intros E. cbn in Hf.
  destruct (IH w2 l2 q l3' w' Hr2 ltac:(lia) E) as (H1 & H2 & H3).
  split; [done|]. split; [congruence|]. intros j. rewrite H3, Eh2.
  change (p :: q) with ([p] ++ q). rewrite occurrences_app, occurrences_one. lia.
Qed.

Lemma detach_spec w l3 q l3' w' :
  ring_holds l3 q -> tcp_shift_l3_tun_detach w l3 = (l3', w') ->
  ring_holds l3' [] /\ sent w' = sent w /\ (forall j, held w' j = held w j - occurrences q j) /\
  l3_attached l3' = false /\ l3_tun_fd l3' = -1.
Proof.
  intros Hr. unfold tcp_shift_l3_tun_detach.
  destruct (drain_loop (S (Z.to_nat (l3_tx_queue_count l3))) w l3) as [l1 w1] eqn:E.
  assert (Hfuel : (length q < S (Z.to_nat (l3_tx_queue_count l3)))%nat)
    by (destruct Hr as (_ & _ & -> & _); lia).
  destruct (drain_loop_spec _ w l3 q l1 w1 Hr Hfuel E) as (H1 & H2 & H3).
  intros [= <- <-]. split; [exact H1|].
  destruct (l3_attached l1); [|done]. destruct (netif_remove_held w1) as [E1 E2].
  split; [congruence|]. split; [|done]. intros j. rewrite E2. apply H3.
Qed.

(** ** Reachable devices *)

Inductive tun_reach (base : list (list Z)) (hbase : Z -> Z)
    : W -> tcp_shift_l3_tun -> list pbuf -> Prop :=
| reach_attach w0 l0 fd l3 w :
    tcp_shift_l3_tun_attach_ipv4 w0 l0 fd = (0, l3, w) \/
    tcp_shift_l3_tun_attach_ipv6 w0 l0 fd = (0, l3, w) ->
    sent w0 = base -> (forall j, held w0 j = hbase j) -> tun_reach base hbase w l3 []
| reach_lwip w l3 acc acc1 w' l3' :
    tun_reach base hbase w l3 acc -> tun_trace sent held w l3 acc1 w' l3' ->
    tun_reach base hbase w' l3' (acc ++ acc1)
| reach_rx w l3 acc acc1 r w' l3' :
    tun_reach base hbase w l3 acc -> tcp_shift_l3_tun_rx_once w l3 = (r, l3', w') ->
    rx_effect w l3 acc1 w' l3' -> tun_reach base hbase w' l3' (acc ++ acc1)
| reach_flush w l3 acc r w' l3' :
    tun_reach base hbase w l3 acc -> tcp_shift_l3_tun_flush_tx w l3 = (r, l3', w') ->
    tun_reach base hbase w' l3' acc.

Lemma attach_inv base hbase w0 l0 fd l3 w :
  tcp_shift_l3_tun_attach_ipv4 w0 l0 fd = (0, l3, w) ->
  sent w0 = base -> (forall j, held w0 j = hbase j) -> tun_inv base hbase w l3 [].
Proof.
  unfold tcp_shift_l3_tun_attach_ipv4. destruct (fd <? 0); [done|].
  destruct (netif_add w0) as [b w1] eqn:Ea. destruct (netif_add_held _ _ _ Ea) as [Es Eh].
  destruct b; [|done]. intros [= <- <-] Hs Hh. exists [], []. cbn. rewrite app_nil_r.
  split; [repeat (split; [done || (cbn; lia)|]); by intros [|i] p|].
  split; [by rewrite Es|]. split; [done|]. intros j. rewrite Eh, Hh. change (occurrences [] j) with 0. lia.
Qed.

Lemma flush_inv base hbase w l3 acc r l3' w' :
  tun_inv base hbase w l3 acc -> tcp_shift_l3_tun_flush_tx w l3 = (r, l3', w') ->
  tun_inv base hbase w' l3' acc.
Proof.
  intros Hinv E. destruct (l3_attached l3) eqn:Ea.
  2:{ revert E. unfold tcp_shift_l3_tun_flush_tx. rewrite Ea. by intros [= <- <- <-]. }
  destruct (l3_tun_fd l3 <? 0) eqn:Ef.
  { revert E. unfold tcp_shift_l3_tun_flush_tx. rewrite Ea, Ef. by intros [= <- <- <-]. }
  destruct Hinv as (q & out & Hr & Hs & Ho & Hh).
  destruct (flush_tx_spec w l3 q r l3' w' Hr Ea ltac:(lia) E) as (k & Hk & Es & Eh & _).
  exists (drop k q), (out ++ packets (take k q)). split; [done|].
  split; [by rewrite Es, Hs, app_assoc|].
  split; [by rewrite <- app_assoc, <- packets_app, take_drop|].
  intros j. rewrite Eh, Hh. rewrite <- (take_drop k q) at 1. rewrite occurrences_app. lia.
Qed.

Lemma reach_inv base hbase w l3 acc : tun_reach base hbase w l3 acc -> tun_inv base hbase w l3 acc.
Proof.
  induction 1 as [w0 l0 fd l3 w [E|E] Hs Hh|w l3 acc acc1 w' l3' _ IH Ht|w l3 acc acc1 r w' l3' _ IH _ He
    |w l3 acc r w' l3' _ IH E].
  - by apply (attach_inv base hbase w0 l0 fd).
  - by apply (attach_inv base hbase w0 l0 fd).
  - by apply (trace_inv base hbase w l3).
  - by apply (rx_inv base hbase w l3).
  - by apply (flush_inv base hbase w l3 acc r).
Qed.

(** C17. The transmit path is a bounded FIFO that loses and leaks nothing. In
    every state reached from attaching by lwIP's output (also from inside its
    input), receiving and flushing, whatever the file and the allocator return:
    the packets the TUN file has taken, followed by those waiting in the ring,
    are exactly the packets accepted from lwIP, in order; the ring never holds
    more than 64 packets or 96 KiB; this file owns one reference per waiting
    packet and no other; a flush ends only with an empty ring, a file that
    would block or an error, and returns the number of packets it wrote; and
    detaching returns every reference. *)
Theorem l3_tun_fifo base hbase w l3 acc :
  tun_reach base hbase w l3 acc ->
  exists q out, ring_holds l3 q /\ sent w = base ++ out /\ out ++ packets q = packets acc /\
    (forall j, held w j = hbase j + occurrences q j) /\
    (tcp_shift_l3_tun_wants_write l3 = true <-> q <> []) /\
    (forall r l3' w', l3_attached l3 = true -> 0 <= l3_tun_fd l3 ->
     tcp_shift_l3_tun_flush_tx w l3 = (r, l3', w') ->
     exists k, ring_holds l3' (drop k q) /\ sent w' = sent w ++ packets (take k q) /\
       (r = -1 \/ r = Z.of_nat (length (take k q)) /\
        (drop k q = [] \/ l3_tx_would_block l3' = l3_tx_would_block l3 +w64 1))) /\
    (forall l3' w', tcp_shift_l3_tun_detach w l3 = (l3', w') ->
     sent w' = sent w /\ forall j, held w' j = hbase j).
Proof.
  intros Hreach. destruct (reach_inv _ _ _ _ _ Hreach) as (q & out & Hr & Hs & Ho & Hh).
  exists q, out. split; [done|]. split; [done|]. split; [done|]. split; [done|]. split; [|split].
  - unfold tcp_shift_l3_tun_wants_write. destruct Hr as (_ & _ & -> & _). by destruct q.
  - intros r l3' w' Ha Hfd E.
    destruct (flush_tx_spec w l3 q r l3' w' Hr Ha Hfd E) as (k & ? & ? & _ & ?). by exists k.
  - intros l3' w' E. destruct (detach_spec w l3 q l3' w' Hr E) as (_ & -> & Eh & _).
    split; [done|]. intros j. rewrite Eh, Hh. lia.
Qed.
End Laws.

(** ** The destination cache *)

Section Destinations.
Context {addr : Type} `{!EqDecision addr} (any : addr) (ismulticast : addr -> bool).

Lemma find_destination_spec (cache : list (destination addr)) target : forall i,
  match find_destination any cache target i with
  | Some (k, hit) => exists e, (i <= k)%nat /\ cache !! (k - i)%nat = Some e /\
      (if hit then de_destination_addr e = target else de_destination_addr e = any) /\
      forall j x, (j < k - i)%nat -> cache !! j = Some x ->
        de_destination_addr x <> target /\ de_destination_addr x <> any
  | None => forall x, x ∈ cache -> de_destination_addr x <> target /\ de_destination_addr x <> any
  end.
Proof.
  induction cache as [|e cache IH]; intros i; cbn [find_destination].
  { intros x Hx. by apply elem_of_nil in Hx. }
  case_bool_decide as E1.
  { exists e. rewrite Nat.sub_diag. split; [lia|]. split; [done|]. split; [done|]. lia. }
  case_bool_decide as E2.
  { exists e. rewrite Nat.sub_diag. split; [lia|]. split; [done|]. split; [done|]. lia. }
  specialize (IH (S i)). destruct (find_destination any cache target (S i)) as [[k hit]|].
  - destruct IH as (x & Hk & Hx & Hhit & Hbefore). exists x. split; [lia|].
    replace (k - i)%nat with (S (k - S i)) by lia. split; [done|]. split; [done|].
    intros [|j] y Hj Hy; [by injection Hy as <-|]. apply (Hbefore j y); [lia|done].
  - intros x [->|Hx]%elem_of_cons; [done|]. by apply IH.
Qed.

Lemma oldest_loop_spec (cache : list (destination addr)) : forall i sel age (l : list (destination addr)),
  drop i l = cache -> (exists e, l !! sel = Some e /\ de_age e = age) ->
  (forall j x, (j < i)%nat -> l !! j = Some x -> de_age x <= age) ->
  exists e, l !! oldest_loop cache i sel age = Some e /\ forall x, x ∈ l -> de_age x <= de_age e.
Proof.
  induction cache as [|e cache IH]; intros i sel age l Hd (s & Hs & Hage) Hbefore; cbn.
  - exists s. split; [done|]. intros x (j & Hj)%list_elem_of_lookup. rewrite Hage.
    apply (Hbefore j); [|done]. apply lookup_lt_Some in Hj.
    assert (length (drop i l) = 0%nat) by (by rewrite Hd). rewrite length_drop in *. lia.
  - assert (Hi : l !! i = Some e).
    { rewrite <- (Nat.add_0_r i), <- lookup_drop, Hd. done. }
    assert (Hd' : drop (S i) l = cache).
    { replace (S i) with (i + 1)%nat by lia. by rewrite <- drop_drop, Hd. }
    destruct (de_age e >? age) eqn:E.
    + apply (IH (S i) i (de_age e) l Hd'); [by exists e|]. intros j x Hj Hx.
      destruct (decide (j = i)) as [->|]; [rewrite Hi in Hx; injection Hx as <-; lia|].
      specialize (Hbefore j x ltac:(lia) Hx). lia.
    + apply (IH (S i) sel age l Hd'); [by exists s|]. intros j x Hj Hx.
      destruct (decide (j = i)) as [->|]; [rewrite Hi in Hx; injection Hx as <-; lia|].
      apply (Hbefore j x); [lia|done].
Qed.

(** The destination is in the cache afterwards, freshly used. A known
    destination keeps its path MTU; a new one takes the first empty entry, or
    else the place of an oldest one, with the device's MTU; nothing else
    changes. *)
Lemma track_destination_spec mtu target (cache : list (destination addr)) :
  target <> any -> ismulticast target = false -> cache <> [] ->
  exists k e, cache !! k = Some e /\
    tcp_shift_l3_tun_track_ipv6_destination any ismulticast mtu target cache =
      <[k := if decide (de_destination_addr e = target)
             then mk_destination target (de_next_hop_addr e) (de_pmtu e) 0
             else mk_destination target target mtu 0]> cache /\
    (de_destination_addr e = target \/ de_destination_addr e = any \/
     ((forall x, x ∈ cache -> de_destination_addr x <> target /\ de_destination_addr x <> any) /\
      forall x, x ∈ cache -> de_age x <= de_age e)).
Proof.
  intros Hany Hm Hne. unfold tcp_shift_l3_tun_track_ipv6_destination.
  rewrite bool_decide_false, Hm by done. cbn [orb].
  pose proof (find_destination_spec cache target 0) as Hf.
  destruct (find_destination any cache target 0) as [[k hit]|].
  - destruct Hf as (e & _ & He & Hhit & _). rewrite Nat.sub_0_r in He. exists k, e.
    split; [done|]. destruct hit.
    + rewrite He, decide_True by done. rewrite Hhit. auto.
    + rewrite decide_False by congruence. auto.
  - destruct cache as [|e0 cache']; [done|]. set (l := e0 :: cache') in *.
    destruct (oldest_loop_spec cache' 1 0 (de_age e0) l eq_refl) as (e & He & Hmax).
    { exists e0. done. }
    { intros [|j] x Hj Hx; [by injection Hx as <-|lia]. }
    exists (oldest_destination l), e. split; [done|]. rewrite decide_False.
    + auto.
    + apply Hf. by apply list_elem_of_lookup_2 in He.
Qed.

End Destinations.

(** ** A concrete system *)

(** The packets taken, the references owned and how many writes the file takes
    before it would block. *)
Record demo_tun := mk_demo { dt_sent : list (list Z); dt_held : Z -> Z; dt_room : nat }.

#[local] Instance demo_os : TunOS demo_tun := {|
  writev w _ iov :=
    match dt_room w with
    | O => (WriteAgain, w)
    | S n => (WriteCount (Z.of_nat (length (concat iov))),
              mk_demo (dt_sent w ++ [concat iov]) (dt_held w) n)
    end;
  tun_read w _ _ := (PacketAgain, w);
  pbuf_ref w id := mk_demo (dt_sent w)
    (fun j => dt_held w j + if id =? j then 1 else 0) (dt_room w);
  pbuf_free w id := mk_demo (dt_sent w)
    (fun j => dt_held w j - if id =? j then 1 else 0) (dt_room w);
  pbuf_alloc w _ := (None, w);
  pbuf_take w _ _ := (0, w);
  ip4_input w l3 _ := (ERR_VAL, l3, w);
  ip6_input w l3 _ := (ERR_VAL, l3, w);
  netif_add w := (true, w);
  netif_remove w := w
|}.

#[local] Instance demo_laws : TunLaws dt_sent dt_held.
Proof.
  split; cbn.
  - intros w fd iov n w'. destruct (dt_room w); [done|]. by intros [= <- <-].
  - intros w fd iov r w'. destruct (dt_room w); [by intros [= <- <-]|]. intros [= <- <-] [H|H]; done.
  - done.
  - done.
  - by intros w fd n r w' [= <- <-].
  - intros w n r w' [= <- <-]. split; [done|]. intros j. lia.
  - by intros w id b err w' [= <- <-].
  - intros w l3 p err l3' w' [[= <- <- <-]|[= <- <- <-]]; exists [], w;
      (split; [constructor|]; split; [done|]; intros j; cbn; lia).
  - by intros w b w' [= <- <-].
  - done.
Qed.

Definition demo_p1 : pbuf := mk_pbuf 1 [[69; 0]; []; [7]] 3.
Definition demo_p2 : pbuf := mk_pbuf 2 [[96; 1]] 2.
Definition demo_w0 : demo_tun := mk_demo [] (fun _ => 0) 0.

(** Two packets wait for a file that would block, then one is written. *)
#[local] Abbreviation demo_attach :=
  (tcp_shift_l3_tun_attach_ipv4 demo_w0 zero_l3 5).
#[local] Abbreviation demo_out1 :=
  (tcp_shift_l3_tun_output_packet demo_attach.2 demo_attach.1.2 demo_p1).
#[local] Abbreviation demo_out2 :=
  (tcp_shift_l3_tun_output_packet demo_out1.2 demo_out1.1.2 demo_p2).
#[local] Abbreviation demo_flush :=
  (tcp_shift_l3_tun_flush_tx (mk_demo (dt_sent demo_out2.2) (dt_held demo_out2.2) 1) demo_out2.1.2).

Lemma demo_reach :
  tun_reach dt_sent dt_held [] (fun _ => 0) demo_flush.2 demo_flush.1.2 [demo_p1; demo_p2].
Proof.
  assert (Hsplit : forall (x : Z * tcp_shift_l3_tun * demo_tun) r, x.1.1 = r -> x = (r, x.1.2, x.2))
    by (intros [[??]?] r; cbn; by intros ->).
  assert (E0 : demo_attach = (0, demo_attach.1.2, demo_attach.2)) by (apply Hsplit; vm_compute; done).
  assert (E1 : demo_out1 = (0, demo_out1.1.2, demo_out1.2)) by (apply Hsplit; vm_compute; done).
  assert (E2 : demo_out2 = (0, demo_out2.1.2, demo_out2.2)) by (apply Hsplit; vm_compute; done).
  assert (E3 : demo_flush = (1, demo_flush.1.2, demo_flush.2)) by (apply Hsplit; vm_compute; done).
  apply (reach_flush dt_sent dt_held [] (fun _ => 0)
    (mk_demo (dt_sent demo_out2.2) (dt_held demo_out2.2) 1) demo_out2.1.2 _ 1); [|exact E3].
  apply (reach_lwip dt_sent dt_held [] (fun _ => 0) demo_attach.2 demo_attach.1.2 []
    [demo_p1; demo_p2]).
  - apply (reach_attach dt_sent dt_held [] (fun _ => 0) demo_w0 zero_l3 5); [left|done|done].
    exact E0.
  - apply (trace_output dt_sent dt_held demo_attach.2 demo_attach.1.2 demo_p1 0 demo_out1.1.2 demo_out1.2
      [demo_p2]); [split; vm_compute; done|exact E1|].
    apply (trace_output dt_sent dt_held demo_out1.2 demo_out1.1.2 demo_p2 0 demo_out2.1.2 demo_out2.2 []);
      [split; vm_compute; done|exact E2|].
    eapply trace_inner; [| |apply trace_end]; done.
Qed.

Lemma l3_tun_fifo_witness :
  demo_flush.1.1 = 1 /\ dt_sent demo_flush.2 = [[69; 0; 7]] /\
  exists q out, ring_holds demo_flush.1.2 q /\ dt_sent demo_flush.2 = [] ++ out /\
    out ++ packets q = packets [demo_p1; demo_p2] /\
    forall j, dt_held demo_flush.2 j = 0 + occurrences q j.
Proof.
  split; [vm_compute; reflexivity|]. split; [vm_compute; reflexivity|].
  destruct (l3_tun_fifo dt_sent dt_held [] (fun _ => 0) demo_flush.2 demo_flush.1.2
    [demo_p1; demo_p2] demo_reach) as (q & out & H1 & H2 & H3 & H4 & _).
  exists q, out. split; [exact H1|]. split; [exact H2|]. split; [exact H3|exact H4].
Defined.
