(* ===== verification/LwipLoop.v ===== *)
(** * The event loop ([src/runtime/lwip_loop.h], [src/runtime/lwip_loop.c])

    One epoll instance watches the TUN file, the pacing timer and the recovery
    timer, and the files its clients add. Code that the loop calls back (lwIP's
    input and timers, the release callbacks, the clients' watches) may change
    the loop and the device while it runs: those calls take and return both. A
    callback is named by a number that stands for the function with its
    argument. The drain loops have no bound in the source and take fuel here. *)

From Stdlib Require Import ZArith Lia Bool List.
From stdpp Require Import base tactics numbers list.
From S2P Require Import Prelude PacerHeap Pacer L3Tun.
Local Open Scope Z_scope.

Abbreviation TCP_SHIFT_TUN_RX_BUDGET := 64%nat.
Abbreviation TCP_SHIFT_LWIP_LOOP_PACER_MAX_EVENTS := 4096.
Abbreviation EPOLLIN := 1.
Abbreviation EPOLLOUT := 4.
Abbreviation EPOLLERR := 8.
Abbreviation EPOLLHUP := 16.
Abbreviation INT_MAX := 2147483647.
Abbreviation SYS_TIMEOUTS_SLEEPTIME_INFINITE := 4294967295.

Inductive watch_fn := FnTun | FnPacer | FnRecovery | FnClient (id : Z).

Record tcp_shift_lwip_loop_watch := mk_watch {
  wt_fd : Z; wt_events : Z; wt_callback : option watch_fn; wt_registered : bool
}.
#[export] Instance eta_watch : Eta tcp_shift_lwip_loop_watch := fun r =>
  mk_watch (wt_fd r) (wt_events r) (wt_callback r) (wt_registered r).

Definition zero_watch : tcp_shift_lwip_loop_watch := mk_watch 0 0 None false.
Definition closed_watch : tcp_shift_lwip_loop_watch := mk_watch (-1) 0 None false.

Record tcp_shift_lwip_loop_recovery_event := mk_recovery_event {
  re_deadline_ns : Z; re_flow_id : Z; re_generation : Z; re_kind : Z
}.

(** [lp_l3]: the device pointer is set. *)
Record tcp_shift_lwip_loop := mk_loop {
  lp_epoll_fd : Z;
  lp_l3 : bool;
  lp_tun_watch : tcp_shift_lwip_loop_watch;
  lp_tun_events : Z;
  lp_pacer : tcp_shift_pacer;
  lp_pacer_watch : tcp_shift_lwip_loop_watch;
  lp_pacer_release : option Z;
  lp_recovery_timer : tcp_shift_pacer;
  lp_recovery_timer_watch : tcp_shift_lwip_loop_watch;
  lp_recovery_release : option Z;
  lp_wait_calls : Z;
  lp_ready_wakeups : Z;
  lp_timeout_wakeups : Z;
  lp_eintr_wakeups : Z;
  lp_tun_readable_wakeups : Z;
  lp_tun_writable_wakeups : Z;
  lp_pacing_wakeups : Z;
  lp_pacing_release_callbacks : Z;
  lp_pacing_callback_errors : Z;
  lp_recovery_timer_wakeups : Z;
  lp_recovery_release_callbacks : Z;
  lp_recovery_callback_errors : Z
}.
#[export] Instance eta_loop : Eta tcp_shift_lwip_loop := fun r =>
  mk_loop (lp_epoll_fd r) (lp_l3 r) (lp_tun_watch r) (lp_tun_events r) (lp_pacer r)
    (lp_pacer_watch r) (lp_pacer_release r) (lp_recovery_timer r) (lp_recovery_timer_watch r)
    (lp_recovery_release r) (lp_wait_calls r) (lp_ready_wakeups r) (lp_timeout_wakeups r)
    (lp_eintr_wakeups r) (lp_tun_readable_wakeups r) (lp_tun_writable_wakeups r)
    (lp_pacing_wakeups r) (lp_pacing_release_callbacks r) (lp_pacing_callback_errors r)
    (lp_recovery_timer_wakeups r) (lp_recovery_release_callbacks r)
    (lp_recovery_callback_errors r).

Definition zero_loop : tcp_shift_lwip_loop :=
  mk_loop 0 false zero_watch 0 zero_pacer zero_watch None zero_pacer zero_watch None
    0 0 0 0 0 0 0 0 0 0 0 0.

(** ** The system *)

Inductive epoll_op := EPOLL_CTL_ADD | EPOLL_CTL_MOD | EPOLL_CTL_DEL.

(** The watch an event points to: one of the loop's own, or a client's, with
    its contents ([None] for a NULL pointer). *)
Inductive watch_ref :=
  | RefTun | RefPacer | RefRecovery | RefClient (watch : option tcp_shift_lwip_loop_watch).

Inductive wait_result :=
  | WaitEvent (watch : watch_ref) (events : Z) | WaitTimeout | WaitInterrupted | WaitFailed.

Class LoopOS (W : Type) := {
  epoll_create : W -> Z * W;
  (** instance, operation, file, events *)
  epoll_ctl : W -> Z -> epoll_op -> Z -> Z -> Z * W;
  epoll_wait : W -> Z -> Z -> wait_result * W;
  (** [CLOCK_MONOTONIC]: seconds and nanoseconds *)
  clock_gettime : W -> option (Z * Z) * W;
  sys_timeouts_sleeptime : W -> Z * W
}.

(** Code the loop calls that may call it back. *)
Class LoopClients (W : Type) := {
  pacer_release_fn : W -> tcp_shift_lwip_loop -> tcp_shift_l3_tun -> Z ->
    tcp_shift_pacer_event -> Z -> Z * tcp_shift_l3_tun * tcp_shift_lwip_loop * W;
  recovery_release_fn : W -> tcp_shift_lwip_loop -> tcp_shift_l3_tun -> Z ->
    tcp_shift_lwip_loop_recovery_event -> Z -> Z * tcp_shift_l3_tun * tcp_shift_lwip_loop * W;
  client_watch_fn : W -> tcp_shift_lwip_loop -> tcp_shift_l3_tun -> Z -> Z ->
    Z * tcp_shift_l3_tun * tcp_shift_lwip_loop * W;
  sys_check_timeouts : W -> tcp_shift_lwip_loop -> tcp_shift_l3_tun ->
    tcp_shift_l3_tun * tcp_shift_lwip_loop * W
}.

Section Loop.
Context {W : Type} `{!PacerOS W} `{!LoopOS W} `{!LoopClients W}.
(** The device's calls see the loop too. *)
Context `{!TunOS (tcp_shift_lwip_loop * W)}.

(** ** Watches *)

Definition tcp_shift_lwip_loop_tun_events (l3 : tcp_shift_l3_tun) : Z :=
  if tcp_shift_l3_tun_wants_write l3 then Z.lor EPOLLIN EPOLLOUT else EPOLLIN.

Definition tcp_shift_lwip_loop_watch_add (w : W) (loop : tcp_shift_lwip_loop)
    (watch : tcp_shift_lwip_loop_watch) (fd events : Z) (callback : option watch_fn)
    : Z * tcp_shift_lwip_loop_watch * W :=
  match callback with
  | None => (-1, watch, w)
  | Some _ =>
      if (lp_epoll_fd loop <? 0) || (fd <? 0) || wt_registered watch then (-1, watch, w)
      else
        let '(rc, w) := epoll_ctl w (lp_epoll_fd loop) EPOLL_CTL_ADD fd events in
        if rc <? 0 then (-1, watch, w) else (0, mk_watch fd events callback true, w)
  end.

Definition tcp_shift_lwip_loop_watch_mod (w : W) (loop : tcp_shift_lwip_loop)
    (watch : tcp_shift_lwip_loop_watch) (events : Z) : Z * tcp_shift_lwip_loop_watch * W :=
  match wt_callback watch with
  | None => (-1, watch, w)
  | Some _ =>
      if (lp_epoll_fd loop <? 0) || negb (wt_registered watch) || (wt_fd watch <? 0)
      then (-1, watch, w)
      else if wt_events watch =? events then (0, watch, w)
      else
        let '(rc, w) := epoll_ctl w (lp_epoll_fd loop) EPOLL_CTL_MOD (wt_fd watch) events in
        if rc <? 0 then (-1, watch, w) else (0, watch <| wt_events := events |>, w)
  end.

Definition tcp_shift_lwip_loop_watch_remove (w : W) (loop : tcp_shift_lwip_loop)
    (watch : tcp_shift_lwip_loop_watch) : Z * tcp_shift_lwip_loop_watch * W :=
  if (lp_epoll_fd loop <? 0) || negb (wt_registered watch) then (-1, watch, w)
  else
    let '(rc, w) := epoll_ctl w (lp_epoll_fd loop) EPOLL_CTL_DEL (wt_fd watch) 0 in
    if rc <? 0 then (-1, watch, w) else (0, closed_watch, w).

(** ** Readiness *)

Definition events_error (events : Z) : bool := negb (Z.land events (Z.lor EPOLLERR EPOLLHUP) =? 0).
Definition events_in (events : Z) : bool := negb (Z.land events EPOLLIN =? 0).
Definition events_out (events : Z) : bool := negb (Z.land events EPOLLOUT =? 0).

(** The receive loop of [tun_ready]: whether it ended without an error. *)
Fixpoint tun_rx_loop (budget : nat) (w : W) (loop : tcp_shift_lwip_loop) (l3 : tcp_shift_l3_tun)
    : bool * tcp_shift_l3_tun * tcp_shift_lwip_loop * W :=
  match budget with
  | O => (true, l3, loop, w)
  | S budget' =>
      let '(result, l3, (loop, w)) := tcp_shift_l3_tun_rx_once (loop, w) l3 in
      if result <? 0 then (false, l3, loop, w)
      else if result =? 0 then (true, l3, loop, w)
      else tun_rx_loop budget' w loop l3
  end.

Definition tcp_shift_lwip_loop_tun_ready (w : W) (loop : tcp_shift_lwip_loop)
    (l3 : tcp_shift_l3_tun) (events : Z) : Z * tcp_shift_l3_tun * tcp_shift_lwip_loop * W :=
  if events_error events then (-1, l3, loop, w)
  else
    let '(ok, l3, loop, w) :=
      if events_in events then
        tun_rx_loop TCP_SHIFT_TUN_RX_BUDGET w
          (loop <| lp_tun_readable_wakeups := lp_tun_readable_wakeups loop +w64 1 |>) l3
      else (true, l3, loop, w) in
    if negb ok then (-1, l3, loop, w)
    else if events_out events then
      let loop := loop <| lp_tun_writable_wakeups := lp_tun_writable_wakeups loop +w64 1 |> in
      let '(rc, l3, (loop, w)) := tcp_shift_l3_tun_flush_tx (loop, w) l3 in
      if rc <? 0 then (-1, l3, loop, w) else (0, l3, loop, w)
    else (0, l3, loop, w).

Definition tcp_shift_lwip_loop_monotonic_ns (w : W) : option Z * W :=
  match clock_gettime w with
  | (None, w) => (None, w)
  | (Some (tv_sec, tv_nsec), w) => (Some (u64 tv_sec *w64 1000000000 +w64 u64 tv_nsec), w)
  end.

(** The drain loop of [pacer_ready]. *)
Fixpoint pacer_drain (fuel : nat) (w : W) (loop : tcp_shift_lwip_loop) (l3 : tcp_shift_l3_tun)
    (now_ns : Z) (event : tcp_shift_pacer_event)
    : option (Z * tcp_shift_l3_tun * tcp_shift_lwip_loop * W) :=
  match fuel with
  | O => None
  | S fuel' =>
      let '(result, pacer, event, w) := tcp_shift_pacer_pop_due w (lp_pacer loop) now_ns event in
      let loop := loop <| lp_pacer := pacer |> in
      if result <? 0 then Some (-1, l3, loop, w)
      else if result =? 0 then Some (0, l3, loop, w)
      else
        match lp_pacer_release loop with
        | None => Some (-1, l3, loop, w)
        | Some callback =>
            let loop := loop <| lp_pacing_release_callbacks :=
                                  lp_pacing_release_callbacks loop +w64 1 |> in
            let '(rc, l3, loop, w) := pacer_release_fn w loop l3 callback event now_ns in
            if rc <? 0
            then Some (-1, l3, loop <| lp_pacing_callback_errors :=
                                         lp_pacing_callback_errors loop +w64 1 |>, w)
            else pacer_drain fuel' w loop l3 now_ns event
        end
  end.

Definition tcp_shift_lwip_loop_pacer_ready (fuel : nat) (w : W) (loop : tcp_shift_lwip_loop)
    (l3 : tcp_shift_l3_tun) (events : Z)
    : option (Z * tcp_shift_l3_tun * tcp_shift_lwip_loop * W) :=
  if events_error events then Some (-1, l3, loop, w)
  else if negb (events_in events) then Some (0, l3, loop, w)
  else
    let loop := loop <| lp_pacing_wakeups := lp_pacing_wakeups loop +w64 1 |> in
    let '(result, pacer, expirations, w) := tcp_shift_pacer_consume_timer w (lp_pacer loop) 0 in
    let loop := loop <| lp_pacer := pacer |> in
    if result <? 0 then Some (-1, l3, loop, w)
    else if (result =? 0) || (expirations =? 0) then Some (0, l3, loop, w)
    else
      match tcp_shift_lwip_loop_monotonic_ns w with
      | (None, w) => Some (-1, l3, loop, w)
      | (Some now_ns, w) => pacer_drain fuel w loop l3 now_ns inhabitant
      end.

Definition recovery_event_of (raw : tcp_shift_pacer_event) : tcp_shift_lwip_loop_recovery_event :=
  mk_recovery_event (ev_deadline_ns raw) (ev_flow_id raw) (ev_generation raw) (ev_bytes raw).

(** The drain loop of [recovery_ready]. *)
Fixpoint recovery_drain (fuel : nat) (w : W) (loop : tcp_shift_lwip_loop) (l3 : tcp_shift_l3_tun)
    (now_ns : Z) (raw : tcp_shift_pacer_event)
    : option (Z * tcp_shift_l3_tun * tcp_shift_lwip_loop * W) :=
  match fuel with
  | O => None
  | S fuel' =>
      let '(result, timer, raw, w) :=
        tcp_shift_pacer_pop_due w (lp_recovery_timer loop) now_ns raw in
      let loop := loop <| lp_recovery_timer := timer |> in
      if result <? 0 then Some (-1, l3, loop, w)
      else if result =? 0 then Some (0, l3, loop, w)
      else
        match lp_recovery_release loop with
        | None => Some (-1, l3, loop, w)
        | Some callback =>
            let loop := loop <| lp_recovery_release_callbacks :=
                                  lp_recovery_release_callbacks loop +w64 1 |> in
            let '(rc, l3, loop, w) :=
              recovery_release_fn w loop l3 callback (recovery_event_of raw) now_ns in
            if rc <? 0
            then Some (-1, l3, loop <| lp_recovery_callback_errors :=
                                         lp_recovery_callback_errors loop +w64 1 |>, w)
            else recovery_drain fuel' w loop l3 now_ns raw
        end
  end.

Definition tcp_shift_lwip_loop_recovery_ready (fuel : nat) (w : W) (loop : tcp_shift_lwip_loop)
    (l3 : tcp_shift_l3_tun) (events : Z)
    : option (Z * tcp_shift_l3_tun * tcp_shift_lwip_loop * W) :=
  if events_error events then Some (-1, l3, loop, w)
  else if negb (events_in events) then Some (0, l3, loop, w)
  else
    let loop := loop <| lp_recovery_timer_wakeups := lp_recovery_timer_wakeups loop +w64 1 |> in
    let '(result, timer, expirations, w) :=
      tcp_shift_pacer_consume_timer w (lp_recovery_timer loop) 0 in
    let loop := loop <| lp_recovery_timer := timer |> in
    if result <? 0 then Some (-1, l3, loop, w)
    else if (result =? 0) || (expirations =? 0) then Some (0, l3, loop, w)
    else
      match tcp_shift_lwip_loop_monotonic_ns w with
      | (None, w) => Some (-1, l3, loop, w)
      | (Some now_ns, w) => recovery_drain fuel w loop l3 now_ns inhabitant
      end.

Definition tcp_shift_lwip_loop_sync_interest (w : W) (loop : tcp_shift_lwip_loop)
    (l3 : tcp_shift_l3_tun) : Z * tcp_shift_lwip_loop * W :=
  let wanted := tcp_shift_lwip_loop_tun_events l3 in
  if wanted =? lp_tun_events loop then (0, loop, w)
  else
    let '(rc, watch, w) := tcp_shift_lwip_loop_watch_mod w loop (lp_tun_watch loop) wanted in
    let loop := loop <| lp_tun_watch := watch |> in
    if rc <? 0 then (-1, loop, w) else (0, loop <| lp_tun_events := wanted |>, w).

Definition tcp_shift_lwip_loop_timeout_ms (sleep_ms : Z) : Z :=
  if sleep_ms =? SYS_TIMEOUTS_SLEEPTIME_INFINITE then -1
  else if sleep_ms >? INT_MAX then INT_MAX else sleep_ms.

(** ** Lifecycle *)

(** The error path of [init]. *)
Definition init_fail (w : W) (loop : tcp_shift_lwip_loop) : Z * tcp_shift_lwip_loop * W :=
  let '(timer, w) := if pc_timer_fd (lp_recovery_timer loop) >=? 0
                     then tcp_shift_pacer_close w (lp_recovery_timer loop)
                     else (lp_recovery_timer loop, w) in
  let loop := loop <| lp_recovery_timer := timer |> in
  let '(pacer, w) := if pc_timer_fd (lp_pacer loop) >=? 0
                     then tcp_shift_pacer_close w (lp_pacer loop) else (lp_pacer loop, w) in
  let loop := loop <| lp_pacer := pacer |> in
  let w := if lp_epoll_fd loop >=? 0 then fd_close w (lp_epoll_fd loop) else w in
  (-1, loop <| lp_epoll_fd := -1 |> <| lp_l3 := false |>, w).

Definition tcp_shift_lwip_loop_init (w : W) (loop : tcp_shift_lwip_loop) (l3 : tcp_shift_l3_tun)
    : Z * tcp_shift_lwip_loop * W :=
  if negb (l3_attached l3) || (l3_tun_fd l3 <? 0) then (-1, loop, w)
  else
    let loop := zero_loop <| lp_tun_watch := zero_watch <| wt_fd := -1 |> |>
                          <| lp_pacer := zero_pacer <| pc_timer_fd := -1 |> |>
                          <| lp_pacer_watch := zero_watch <| wt_fd := -1 |> |>
                          <| lp_recovery_timer := zero_pacer <| pc_timer_fd := -1 |> |>
                          <| lp_recovery_timer_watch := zero_watch <| wt_fd := -1 |> |> in
    let '(fd, w) := epoll_create w in
    let loop := loop <| lp_epoll_fd := fd |> in
    if fd <? 0 then (-1, loop, w)
    else
      let loop := loop <| lp_l3 := true |>
                       <| lp_tun_events := tcp_shift_lwip_loop_tun_events l3 |> in
      let '(rc, watch, w) := tcp_shift_lwip_loop_watch_add w loop (lp_tun_watch loop)
                               (l3_tun_fd l3) (lp_tun_events loop) (Some FnTun) in
      let loop := loop <| lp_tun_watch := watch |> in
      if rc <? 0 then init_fail w loop
      else
        let '(rc, pacer, w) := tcp_shift_pacer_init w (lp_pacer loop)
                                 TCP_SHIFT_LWIP_LOOP_PACER_MAX_EVENTS in
        let loop := loop <| lp_pacer := pacer |> in
        if rc <? 0 then init_fail w loop
        else
          let '(rc, watch, w) := tcp_shift_lwip_loop_watch_add w loop (lp_pacer_watch loop)
                                   (tcp_shift_pacer_fd (lp_pacer loop)) EPOLLIN (Some FnPacer) in
          let loop := loop <| lp_pacer_watch := watch |> in
          if rc <? 0 then init_fail w loop
          else
            let '(rc, timer, w) := tcp_shift_pacer_init w (lp_recovery_timer loop)
                                     TCP_SHIFT_LWIP_LOOP_PACER_MAX_EVENTS in
            let loop := loop <| lp_recovery_timer := timer |> in
            if rc <? 0 then init_fail w loop
            else
              let '(rc, watch, w) :=
                tcp_shift_lwip_loop_watch_add w loop (lp_recovery_timer_watch loop)
                  (tcp_shift_pacer_fd (lp_recovery_timer loop)) EPOLLIN (Some FnRecovery) in
              let loop := loop <| lp_recovery_timer_watch := watch |> in
              if rc <? 0 then init_fail w loop else (0, loop, w).

Definition tcp_shift_lwip_loop_close (w : W) (loop : tcp_shift_lwip_loop)
    : tcp_shift_lwip_loop * W :=
  let '(_, loop, w) := init_fail w loop in
  (loop <| lp_tun_events := 0 |> <| lp_tun_watch := closed_watch |>
        <| lp_pacer_watch := closed_watch |> <| lp_pacer_release := None |>
        <| lp_recovery_timer_watch := closed_watch |> <| lp_recovery_release := None |>, w).

(** ** Timers *)

Definition tcp_shift_lwip_loop_set_pacer_release (loop : tcp_shift_lwip_loop)
    (callback : option Z) : Z * tcp_shift_lwip_loop :=
  match callback with
  | None => (-1, loop)
  | Some _ =>
      if (lp_epoll_fd loop <? 0) || (pc_timer_fd (lp_pacer loop) <? 0) ||
         negb (ps_heap_current (pc_stats (lp_pacer loop)) =? 0)
      then (-1, loop) else (0, loop <| lp_pacer_release := callback |>)
  end.

Definition tcp_shift_lwip_loop_pacer_schedule (w : W) (loop : tcp_shift_lwip_loop)
    (event : tcp_shift_pacer_event) : Z * tcp_shift_lwip_loop * W :=
  match lp_pacer_release loop with
  | None => (-1, loop, w)
  | Some _ =>
      if (lp_epoll_fd loop <? 0) || (pc_timer_fd (lp_pacer loop) <? 0) then (-1, loop, w)
      else let '(rc, pacer, w) := tcp_shift_pacer_schedule w (lp_pacer loop) event in
           (rc, loop <| lp_pacer := pacer |>, w)
  end.

Definition tcp_shift_lwip_loop_pacer_cancel (w : W) (loop : tcp_shift_lwip_loop)
    (flow_id generation cancelled : Z) : Z * tcp_shift_lwip_loop * Z * W :=
  if (lp_epoll_fd loop <? 0) || (pc_timer_fd (lp_pacer loop) <? 0) then (-1, loop, cancelled, w)
  else let '(rc, pacer, cancelled, w) :=
         tcp_shift_pacer_cancel w (lp_pacer loop) flow_id generation cancelled in
       (rc, loop <| lp_pacer := pacer |>, cancelled, w).

Definition tcp_shift_lwip_loop_pacer_stats (loop : tcp_shift_lwip_loop)
    : option tcp_shift_pacer_stats :=
  if (lp_epoll_fd loop <? 0) || (pc_timer_fd (lp_pacer loop) <? 0) then None
  else Some (tcp_shift_pacer_get_stats (lp_pacer loop)).

Definition tcp_shift_lwip_loop_set_recovery_release (loop : tcp_shift_lwip_loop)
    (callback : option Z) : Z * tcp_shift_lwip_loop :=
  match callback with
  | None => (-1, loop)
  | Some _ =>
      if (lp_epoll_fd loop <? 0) || (pc_timer_fd (lp_recovery_timer loop) <? 0) ||
         negb (ps_heap_current (pc_stats (lp_recovery_timer loop)) =? 0)
      then (-1, loop) else (0, loop <| lp_recovery_release := callback |>)
  end.

Definition tcp_shift_lwip_loop_recovery_schedule (w : W) (loop : tcp_shift_lwip_loop)
    (event : tcp_shift_lwip_loop_recovery_event) : Z * tcp_shift_lwip_loop * W :=
  match lp_recovery_release loop with
  | None => (-1, loop, w)
  | Some _ =>
      if (lp_epoll_fd loop <? 0) || (pc_timer_fd (lp_recovery_timer loop) <? 0) ||
         (re_kind event =? 0) then (-1, loop, w)
      else
        let raw := mk_event (re_deadline_ns event) (re_flow_id event) (re_generation event)
                     (re_kind event) in
        let '(rc, timer, w) := tcp_shift_pacer_schedule w (lp_recovery_timer loop) raw in
        (rc, loop <| lp_recovery_timer := timer |>, w)
  end.

Definition tcp_shift_lwip_loop_recovery_cancel (w : W) (loop : tcp_shift_lwip_loop)
    (flow_id generation cancelled : Z) : Z * tcp_shift_lwip_loop * Z * W :=
  if (lp_epoll_fd loop <? 0) || (pc_timer_fd (lp_recovery_timer loop) <? 0)
  then (-1, loop, cancelled, w)
  else let '(rc, timer, cancelled, w) :=
         tcp_shift_pacer_cancel w (lp_recovery_timer loop) flow_id generation cancelled in
       (rc, loop <| lp_recovery_timer := timer |>, cancelled, w).

Definition tcp_shift_lwip_loop_recovery_stats (loop : tcp_shift_lwip_loop)
    : option tcp_shift_pacer_stats :=
  if (lp_epoll_fd loop <? 0) || (pc_timer_fd (lp_recovery_timer loop) <? 0) then None
  else Some (tcp_shift_pacer_get_stats (lp_recovery_timer loop)).

(** ** One cycle *)

(** The watch an event points to. *)
Definition watch_of (loop : tcp_shift_lwip_loop) (ref : watch_ref)
    : option tcp_shift_lwip_loop_watch :=
  match ref with
  | RefTun => Some (lp_tun_watch loop)
  | RefPacer => Some (lp_pacer_watch loop)
  | RefRecovery => Some (lp_recovery_timer_watch loop)
  | RefClient watch => watch
  end.

(** [watch->callback(watch->arg, events)] *)
Definition dispatch (fuel : nat) (w : W) (loop : tcp_shift_lwip_loop) (l3 : tcp_shift_l3_tun)
    (callback : watch_fn) (events : Z) : option (Z * tcp_shift_l3_tun * tcp_shift_lwip_loop * W) :=
  match callback with
  | FnTun => Some (tcp_shift_lwip_loop_tun_ready w loop l3 events)
  | FnPacer => tcp_shift_lwip_loop_pacer_ready fuel w loop l3 events
  | FnRecovery => tcp_shift_lwip_loop_recovery_ready fuel w loop l3 events
  | FnClient id => Some (client_watch_fn w loop l3 id events)
  end.

(** The second half of the cycle: lwIP's timers, then the TUN interest. *)
Definition finish_cycle (w : W) (loop : tcp_shift_lwip_loop) (l3 : tcp_shift_l3_tun)
    (callback_result : Z) : Z * tcp_shift_l3_tun * tcp_shift_lwip_loop * W :=
  let '(l3, loop, w) := sys_check_timeouts w loop l3 in
  if callback_result <? 0 then (-1, l3, loop, w)
  else let '(rc, loop, w) := tcp_shift_lwip_loop_sync_interest w loop l3 in (rc, l3, loop, w).

Definition tcp_shift_lwip_loop_run_once (fuel : nat) (w : W) (loop : tcp_shift_lwip_loop)
    (l3 : tcp_shift_l3_tun) : option (Z * tcp_shift_l3_tun * tcp_shift_lwip_loop * W) :=
  if (lp_epoll_fd loop <? 0) || negb (lp_l3 loop) then Some (-1, l3, loop, w)
  else
    let loop := loop <| lp_wait_calls := lp_wait_calls loop +w64 1 |> in
    let '(sleep_ms, w) := sys_timeouts_sleeptime w in
    match epoll_wait w (lp_epoll_fd loop) (tcp_shift_lwip_loop_timeout_ms sleep_ms) with
    | (WaitInterrupted, w) =>
        Some (0, l3, loop <| lp_eintr_wakeups := lp_eintr_wakeups loop +w64 1 |>, w)
    | (WaitFailed, w) => Some (-1, l3, loop, w)
    | (WaitTimeout, w) =>
        Some (finish_cycle w (loop <| lp_timeout_wakeups := lp_timeout_wakeups loop +w64 1 |>) l3 0)
    | (WaitEvent ref events, w) =>
        let loop := loop <| lp_ready_wakeups := lp_ready_wakeups loop +w64 1 |> in
        match watch_of loop ref with
        | None => Some (-1, l3, loop, w)
        | Some watch =>
            match wt_callback watch with
            | None => Some (-1, l3, loop, w)
            | Some callback =>
                if negb (wt_registered watch) then Some (-1, l3, loop, w)
                else
                  match dispatch fuel w loop l3 callback events with
                  | None => None
                  | Some (rc, l3, loop, w) => Some (finish_cycle w loop l3 rc)
                  end
            end
        end
    end.

End Loop.
