(* ===== verification/LwipLoopSpec.v ===== *)
(** * The event loop's promises

    Two of them: the kernel's interest in the TUN file follows the transmit
    ring, so that a queued packet always has a wake-up; and the unbounded drain
    loops end, so that a cycle always returns. Both are proved for any system
    and any clients that keep the laws stated here. *)

From Stdlib Require Import ZArith Lia Bool List.
From stdpp Require Import base tactics numbers list.
From S2P Require Import Prelude PacerHeap Pacer PacerSpec L3Tun LwipLoop.
Local Open Scope Z_scope.

(** ** The interest in the TUN file *)

Section Interest.
Context {W : Type} `{!PacerOS W} `{!LoopOS W} `{!LoopClients W}.
Context `{!TunOS (tcp_shift_lwip_loop * W)}.
(** The events an epoll instance watches a file for. *)
Context (interest : W -> Z -> Z -> option Z).

Definition quiet (w w' : W) : Prop := forall ep fd, interest w' ep fd = interest w ep fd.

(** What the loop keeps about the TUN file, and what the kernel has of it. *)
Definition tun_view (l3 : tcp_shift_l3_tun) (loop : tcp_shift_lwip_loop) (w : W)
    : Z * tcp_shift_lwip_loop_watch * Z * Z * option Z :=
  (lp_epoll_fd loop, lp_tun_watch loop, lp_tun_events loop, l3_tun_fd l3,
   interest w (lp_epoll_fd loop) (wt_fd (lp_tun_watch loop))).

(** A call with the loop in its state that leaves it alone. *)
Definition calm (s s' : tcp_shift_lwip_loop * W) : Prop := s'.1 = s.1 /\ quiet s.2 s'.2.

(** [epoll_ctl] adds a file once and changes the events of that file only; no
    other system call changes them; lwIP and the clients leave the loop's own
    watch and the device's file alone. *)
Class InterestLaws : Prop := {
  ctl_add w ep fd ev rc w' :
    epoll_ctl w ep EPOLL_CTL_ADD fd ev = (rc, w') -> 0 <= rc ->
    interest w ep fd = None /\ interest w' ep fd = Some ev;
  ctl_mod w ep fd ev rc w' :
    epoll_ctl w ep EPOLL_CTL_MOD fd ev = (rc, w') -> 0 <= rc -> interest w' ep fd = Some ev;
  ctl_failed w ep op fd ev rc w' : epoll_ctl w ep op fd ev = (rc, w') -> rc < 0 -> quiet w w';
  ctl_other w ep op fd ev rc w' :
    epoll_ctl w ep op fd ev = (rc, w') -> forall fd', fd' <> fd -> interest w' ep fd' = interest w ep fd';
  wait_quiet w ep t : quiet w (epoll_wait w ep t).2;
  clock_quiet w : quiet w (clock_gettime w).2;
  sleeptime_quiet w : quiet w (sys_timeouts_sleeptime w).2;
  create_quiet w : quiet w (timerfd_create w).2;
  settime_quiet w fd s n : quiet w (timerfd_settime w fd s n).2;
  timer_read_quiet w fd : quiet w (timerfd_read w fd).2;
  writev_calm s fd iov : calm s (writev s fd iov).2;
  tun_read_calm s fd n : calm s (tun_read s fd n).2;
  ref_calm s id : calm s (pbuf_ref s id);
  free_calm s id : calm s (pbuf_free s id);
  alloc_calm s n : calm s (pbuf_alloc s n).2;
  take_calm s id b : calm s (pbuf_take s id b).2;
  ip4_view s l3 p err l3' s' :
    ip4_input s l3 p = (err, l3', s') -> tun_view l3' s'.1 s'.2 = tun_view l3 s.1 s.2;
  ip6_view s l3 p err l3' s' :
    ip6_input s l3 p = (err, l3', s') -> tun_view l3' s'.1 s'.2 = tun_view l3 s.1 s.2;
  pacer_release_view w loop l3 cb e now rc l3' loop' w' :
    pacer_release_fn w loop l3 cb e now = (rc, l3', loop', w') ->
    tun_view l3' loop' w' = tun_view l3 loop w;
  recovery_release_view w loop l3 cb e now rc l3' loop' w' :
    recovery_release_fn w loop l3 cb e now = (rc, l3', loop', w') ->
    tun_view l3' loop' w' = tun_view l3 loop w;
  client_view w loop l3 id ev rc l3' loop' w' :
    client_watch_fn w loop l3 id ev = (rc, l3', loop', w') ->
    tun_view l3' loop' w' = tun_view l3 loop w;
  timeouts_view w loop l3 l3' loop' w' :
    sys_check_timeouts w loop l3 = (l3', loop', w') -> tun_view l3' loop' w' = tun_view l3 loop w
}.

Context {Hlaws : InterestLaws}.

Lemma quiet_refl w : quiet w w.
Proof. done. Qed.
Lemma quiet_trans w1 w2 w3 : quiet w1 w2 -> quiet w2 w3 -> quiet w1 w3.
Proof. intros H1 H2 ep fd. by rewrite H2. Qed.
Lemma calm_trans s1 s2 s3 : calm s1 s2 -> calm s2 s3 -> calm s1 s3.
Proof. intros [H1 H2] [H3 H4]. split; [congruence|by eapply quiet_trans]. Qed.

(** The view after a change of other fields of the loop or the device. *)
Lemma tun_view_quiet l3 l3' loop loop' w w' :
  quiet w w' -> l3_tun_fd l3' = l3_tun_fd l3 -> lp_epoll_fd loop' = lp_epoll_fd loop ->
  lp_tun_watch loop' = lp_tun_watch loop -> lp_tun_events loop' = lp_tun_events loop ->
  tun_view l3' loop' w' = tun_view l3 loop w.
Proof. intros Hq H1 H2 H3 H4. unfold tun_view. by rewrite H1, H2, H3, H4, Hq. Qed.

(** *** The pacers *)

Lemma sync_timer_quiet w p rc p' w' :
  tcp_shift_pacer_sync_timer w p = (rc, p', w') -> quiet w w'.
Proof.
  unfold tcp_shift_pacer_sync_timer. intros E.
  destruct (pc_heap_len p =? 0).
  - destruct (_ =? 0) in E; [by injection E as _ _ <-|].
    pose proof (settime_quiet w (pc_timer_fd p) 0 0) as Hq.
    destruct (timerfd_settime _ _ _ _) as [r w1]. destruct (r <? 0); by injection E as _ _ <-.
  - destruct (_ =? _) in E; [by injection E as _ _ <-|].
    destruct (timerfd_settime _ _ _ _) as [r w1] eqn:E1.
    match type of E1 with timerfd_settime _ ?f ?s ?n = _ =>
      pose proof (settime_quiet w f s n) as Hq end.
    rewrite E1 in Hq. destruct (r <? 0); by injection E as _ _ <-.
Qed.

Lemma pop_due_quiet w p now e rc p' e' w' :
  tcp_shift_pacer_pop_due w p now e = (rc, p', e', w') -> quiet w w'.
Proof.
  unfold tcp_shift_pacer_pop_due. intros E.
  destruct (_ <? 0) in E; [by injection E as _ _ _ <-|].
  destruct (_ || _) in E; [by injection E as _ _ _ <-|].
  destruct (tcp_shift_pacer_sync_timer _ _) as [[r p1] w1] eqn:E1.
  apply sync_timer_quiet in E1. destruct (r <? 0); by injection E as _ _ _ <-.
Qed.

Lemma consume_quiet w p x rc p' x' w' :
  tcp_shift_pacer_consume_timer w p x = (rc, p', x', w') -> quiet w w'.
Proof.
  unfold tcp_shift_pacer_consume_timer. intros E.
  destruct (_ <? 0) in E; [by injection E as _ _ _ <-|].
  pose proof (timer_read_quiet w (pc_timer_fd p)) as Hq.
  destruct (timerfd_read _ _) as [[c v| |] w1]; [destruct (negb _)|..]; by injection E as _ _ _ <-.
Qed.

Lemma pacer_init_quiet w p m rc p' w' : tcp_shift_pacer_init w p m = (rc, p', w') -> quiet w w'.
Proof.
  unfold tcp_shift_pacer_init. intros E. destruct (_ || _); [by injection E as _ _ <-|].
  pose proof (create_quiet w) as Hq.
  destruct (timerfd_create w) as [fd w1]. destruct (fd <? 0); by injection E as _ _ <-.
Qed.

Lemma monotonic_quiet w r w' : tcp_shift_lwip_loop_monotonic_ns w = (r, w') -> quiet w w'.
Proof.
  unfold tcp_shift_lwip_loop_monotonic_ns. intros E. pose proof (clock_quiet w) as Hq.
  destruct (clock_gettime w) as [[[s n]|] w1]; by injection E as _ <-.
Qed.

(** *** The device *)

Definition keeps (l3 : tcp_shift_l3_tun) (s : tcp_shift_lwip_loop * W)
    (l3' : tcp_shift_l3_tun) (s' : tcp_shift_lwip_loop * W) : Prop :=
  tun_view l3' s'.1 s'.2 = tun_view l3 s.1 s.2.

Lemma keeps_calm l3 s l3' s' : calm s s' -> l3_tun_fd l3' = l3_tun_fd l3 -> keeps l3 s l3' s'.
Proof. intros [H1 H2] H3. apply tun_view_quiet; [done|done|..]; by rewrite H1. Qed.

Lemma write_packet_keeps s l3 p rc l3' s' :
  tcp_shift_l3_tun_write_packet s l3 p = (rc, l3', s') -> keeps l3 s l3' s'.
Proof.
  unfold tcp_shift_l3_tun_write_packet. intros E.
  destruct (fill_iov _ _) as [[|x iov]|]; [by injection E as _ <- <-| |by injection E as _ <- <-].
  pose proof (writev_calm s (l3_tun_fd l3) (x :: iov)) as Hc.
  destruct (writev _ _ _) as [[n| |] s1]; [destruct (negb _)|..]; injection E as _ <- <-;
    by apply keeps_calm.
Qed.

Lemma pop_tx_keeps s l3 p l3' s' : tcp_shift_l3_tun_pop_tx s l3 p = (l3', s') -> keeps l3 s l3' s'.
Proof. intros [= <- <-]. apply keeps_calm; [apply free_calm|done]. Qed.

Lemma flush_loop_keeps fuel : forall s l3 n rc l3' s',
  flush_loop fuel s l3 n = (rc, l3', s') -> keeps l3 s l3' s'.
Proof.
  induction fuel as [|fuel IH]; intros s l3 n rc l3' s' E; cbn [flush_loop] in E; [by injection E as _ <- <-|].
  destruct (_ =? 0); [by injection E as _ <- <-|].
  destruct (tx_head l3) as [p|]; [|by injection E as _ <- <-].
  destruct (tcp_shift_l3_tun_write_packet s l3 p) as [[r l1] s1] eqn:E1.
  apply write_packet_keeps in E1.
  destruct (r <? 0); [by injection E as _ <- <-|]. destruct (r =? 0); [by injection E as _ <- <-|].
  destruct (tcp_shift_l3_tun_pop_tx s1 l1 p) as [l2 s2] eqn:E2. apply pop_tx_keeps in E2.
  apply IH in E. unfold keeps in *. by rewrite E, E2.
Qed.

Lemma flush_tx_keeps s l3 rc l3' s' :
  tcp_shift_l3_tun_flush_tx s l3 = (rc, l3', s') -> keeps l3 s l3' s'.
Proof.
  unfold tcp_shift_l3_tun_flush_tx. destruct (_ || _); [by intros [= _ <- <-]|].
  apply flush_loop_keeps.
Qed.

Lemma input_keeps s l3 p rc l3' s' :
  tcp_shift_l3_tun_input s l3 p = (rc, l3', s') -> keeps l3 s l3' s'.
Proof.
  unfold tcp_shift_l3_tun_input. intros E. destruct (_ =? 0); [by injection E as _ <- <-|].
  destruct (first_byte p) as [b|]; [|by injection E as _ <- <-].
  destruct (_ =? 4); [by eapply ip4_view|]. destruct (_ =? 6); [by eapply ip6_view|].
  by injection E as _ <- <-.
Qed.

Lemma rx_packet_keeps s l3 b rc l3' s' :
  rx_packet s l3 b = (rc, l3', s') -> keeps l3 s l3' s'.
Proof.
  unfold rx_packet. intros E. destruct (_ >? _); [by injection E as _ <- <-|].
  pose proof (alloc_calm s (u16 (Z.of_nat (length b)))) as H1.
  destruct (pbuf_alloc _ _) as [[id|] s1]; cbn in H1;
    [|injection E as _ <- <-; by apply keeps_calm].
  pose proof (take_calm s1 id b) as H2. destruct (pbuf_take s1 id b) as [err s2]. cbn in H2.
  pose proof (calm_trans _ _ _ H1 H2) as H12.
  destruct (negb (err =? 0)).
  { injection E as _ <- <-. apply keeps_calm; [|done].
    eapply calm_trans; [exact H12|apply free_calm]. }
  destruct (tcp_shift_l3_tun_input s2 l3 _) as [[err1 l1] s3] eqn:E3.
  apply input_keeps in E3.
  assert (H3 : keeps l3 s l1 s3).
  { unfold keeps in *. rewrite E3. by apply keeps_calm. }
  destruct (negb (err1 =? 0)); injection E as _ <- <-.
  - unfold keeps in *. rewrite <- H3. apply keeps_calm; [apply free_calm|done].
  - unfold keeps in *. rewrite <- H3. by apply keeps_calm.
Qed.

Lemma rx_once_keeps s l3 rc l3' s' :
  tcp_shift_l3_tun_rx_once s l3 = (rc, l3', s') -> keeps l3 s l3' s'.
Proof.
  unfold tcp_shift_l3_tun_rx_once. intros E. destruct (_ || _); [by injection E as _ <- <-|].
  pose proof (tun_read_calm s (l3_tun_fd l3) TCP_SHIFT_L3_TUN_RX_BUFFER) as H1.
  destruct (tun_read _ _ _) as [[[|x b]| |] s1]; cbn in H1;
    try (injection E as _ <- <-; by apply keeps_calm).
  apply rx_packet_keeps in E. unfold keeps in *. rewrite E. by apply keeps_calm.
Qed.

(** *** Dispatch *)

Lemma tun_rx_loop_keeps n : forall w loop l3 ok l3' loop' w',
  tun_rx_loop n w loop l3 = (ok, l3', loop', w') -> tun_view l3' loop' w' = tun_view l3 loop w.
Proof.
  induction n as [|n IH]; intros w loop l3 ok l3' loop' w' E; cbn in E;
    [by injection E as _ <- <- <-|].
  destruct (tcp_shift_l3_tun_rx_once (loop, w) l3) as [[r l1] [loop1 w1]] eqn:E1.
  apply rx_once_keeps in E1. unfold keeps in E1. cbn in E1.
  destruct (r <? 0); [by injection E as _ <- <- <-|].
  destruct (r =? 0); [by injection E as _ <- <- <-|]. apply IH in E. by rewrite E.
Qed.

Lemma tun_ready_keeps w loop l3 ev rc l3' loop' w' :
  tcp_shift_lwip_loop_tun_ready w loop l3 ev = (rc, l3', loop', w') ->
  tun_view l3' loop' w' = tun_view l3 loop w.
Proof.
  unfold tcp_shift_lwip_loop_tun_ready. intros E.
  destruct (events_error ev); [by injection E as _ <- <- <-|].
  match type of E with context [if events_in ev then ?a else ?b] =>
    destruct (if events_in ev then a else b) as [[[ok l1] loop1] w1] eqn:E1 end.
  assert (H1 : tun_view l1 loop1 w1 = tun_view l3 loop w).
  { destruct (events_in ev); [|by injection E1 as _ <- <- <-].
    apply tun_rx_loop_keeps in E1. done. }
  destruct (negb ok); [by injection E as _ <- <- <-|].
  destruct (events_out ev); [|by injection E as _ <- <- <-].
  destruct (tcp_shift_l3_tun_flush_tx _ _) as [[r l2] [loop2 w2]] eqn:E2.
  apply flush_tx_keeps in E2. unfold keeps in E2. cbn in E2.
  change (tun_view l1 (_ <| _ := _ |>) w1) with (tun_view l1 loop1 w1) in E2.
  destruct (r <? 0); injection E as _ <- <- <-; by rewrite E2.
Qed.

Lemma pacer_drain_keeps fuel : forall w loop l3 now e rc l3' loop' w',
  pacer_drain fuel w loop l3 now e = Some (rc, l3', loop', w') ->
  tun_view l3' loop' w' = tun_view l3 loop w.
Proof.
  induction fuel as [|fuel IH]; intros w loop l3 now e rc l3' loop' w' E; cbn in E; [done|].
  destruct (tcp_shift_pacer_pop_due _ _ _ _) as [[[r p1] e1] w1] eqn:E1.
  apply pop_due_quiet in E1.
  assert (H1 : forall f, tun_view l3 (loop <| lp_pacer := p1 |> <| lp_pacing_release_callbacks := f |>) w1
    = tun_view l3 loop w) by (intros; by apply tun_view_quiet).
  destruct (r <? 0); [injection E as _ <- <- <-; by apply tun_view_quiet|].
  destruct (r =? 0); [injection E as _ <- <- <-; by apply tun_view_quiet|].
  destruct (lp_pacer_release _) as [cb|]; [|injection E as _ <- <- <-; by apply tun_view_quiet].
  destruct (pacer_release_fn _ _ _ _ _ _) as [[[r2 l2] loop2] w2] eqn:E2.
  apply pacer_release_view in E2. rewrite H1 in E2.
  destruct (r2 <? 0); [by injection E as _ <- <- <-|]. apply IH in E. by rewrite E.
Qed.

Lemma recovery_drain_keeps fuel : forall w loop l3 now e rc l3' loop' w',
  recovery_drain fuel w loop l3 now e = Some (rc, l3', loop', w') ->
  tun_view l3' loop' w' = tun_view l3 loop w.
Proof.
  induction fuel as [|fuel IH]; intros w loop l3 now e rc l3' loop' w' E; cbn in E; [done|].
  destruct (tcp_shift_pacer_pop_due _ _ _ _) as [[[r p1] e1] w1] eqn:E1.
  apply pop_due_quiet in E1.
  assert (H1 : forall f, tun_view l3 (loop <| lp_recovery_timer := p1 |>
      <| lp_recovery_release_callbacks := f |>) w1
    = tun_view l3 loop w) by (intros; by apply tun_view_quiet).
  destruct (r <? 0); [injection E as _ <- <- <-; by apply tun_view_quiet|].
  destruct (r =? 0); [injection E as _ <- <- <-; by apply tun_view_quiet|].
  destruct (lp_recovery_release _) as [cb|]; [|injection E as _ <- <- <-; by apply tun_view_quiet].
  destruct (recovery_release_fn _ _ _ _ _ _) as [[[r2 l2] loop2] w2] eqn:E2.
  apply recovery_release_view in E2. rewrite H1 in E2.
  destruct (r2 <? 0); [by injection E as _ <- <- <-|]. apply IH in E. by rewrite E.
Qed.

(** Both timers' handlers up to their drain loops. *)
Ltac timer_ready_keeps E drain_keeps :=
  destruct (events_error _); [by injection E as _ <- <- <-|];
  destruct (negb (events_in _)); [by injection E as _ <- <- <-|];
  destruct (tcp_shift_pacer_consume_timer _ _ _) as [[[? ?] ?] ?] eqn:E1 in E;
  apply consume_quiet in E1;
  destruct (_ <? 0) in E; [injection E as _ <- <- <-; by apply tun_view_quiet|];
  destruct (_ || _) in E; [injection E as _ <- <- <-; by apply tun_view_quiet|];
  destruct (tcp_shift_lwip_loop_monotonic_ns _) as [[?|] ?] eqn:E2 in E;
  apply monotonic_quiet in E2;
  [apply drain_keeps in E; rewrite E|injection E as _ <- <- <-];
  (apply tun_view_quiet; [by eapply quiet_trans|done..]).

Lemma dispatch_keeps fuel w loop l3 cb ev rc l3' loop' w' :
  dispatch fuel w loop l3 cb ev = Some (rc, l3', loop', w') ->
  tun_view l3' loop' w' = tun_view l3 loop w.
Proof.
  intros E. destruct cb; cbn in E.
  - injection E as E. by eapply tun_ready_keeps.
  - unfold tcp_shift_lwip_loop_pacer_ready in E. timer_ready_keeps E pacer_drain_keeps.
  - unfold tcp_shift_lwip_loop_recovery_ready in E. timer_ready_keeps E recovery_drain_keeps.
  - injection E as E. by eapply client_view.
Qed.

(** *** The cycle *)

(** The loop's watch of the TUN file, its copy of the events and the kernel
    agree. *)
Definition tun_watched (l3 : tcp_shift_l3_tun) (loop : tcp_shift_lwip_loop) (w : W) : Prop :=
  0 <= lp_epoll_fd loop /\ 0 <= l3_tun_fd l3 /\
  lp_tun_watch loop = mk_watch (l3_tun_fd l3) (lp_tun_events loop) (Some FnTun) true /\
  interest w (lp_epoll_fd loop) (l3_tun_fd l3) = Some (lp_tun_events loop).

Lemma tun_watched_view l3 loop w l3' loop' w' :
  tun_view l3' loop' w' = tun_view l3 loop w -> tun_watched l3 loop w -> tun_watched l3' loop' w'.
Proof.
  intros [= H1 H2 H3 H4 H5] (Ha & Hb & Hc & Hd). unfold tun_watched.
  rewrite H1, H3, H4, H2. split; [done|]. split; [done|]. split; [done|].
  rewrite <- Hd. rewrite H1, H2, Hc in H5. exact H5.
Qed.

(** In step: watched for exactly the events the device wants. *)
Definition in_step (l3 : tcp_shift_l3_tun) (loop : tcp_shift_lwip_loop) (w : W) : Prop :=
  tun_watched l3 loop w /\ lp_tun_events loop = tcp_shift_lwip_loop_tun_events l3.

Lemma sync_interest_in_step l3 loop w rc loop' w' :
  tun_watched l3 loop w -> tcp_shift_lwip_loop_sync_interest w loop l3 = (rc, loop', w') ->
  tun_watched l3 loop' w' /\ (rc = 0 -> in_step l3 loop' w').
Proof.
  intros Hw E. pose proof Hw as (Ha & Hb & Hc & Hd).
  unfold tcp_shift_lwip_loop_sync_interest in E.
  destruct (_ =? _) eqn:E0 in E.
  { injection E as <- <- <-. split; [done|]. intros _. split; [done|lia]. }
  unfold tcp_shift_lwip_loop_watch_mod in E. rewrite Hc in E. cbn in E.
  replace (lp_epoll_fd loop <? 0) with false in E by lia.
  replace (l3_tun_fd l3 <? 0) with false in E by lia. cbn in E.
  rewrite Z.eqb_sym, E0 in E.
  destruct (epoll_ctl _ _ _ _ _) as [r w1] eqn:E1.
  destruct (r <? 0) eqn:E2; cbn in E; injection E as <- <- <-.
  - pose proof (ctl_failed _ _ _ _ _ _ _ E1 ltac:(lia)) as Hq. split; [|done].
    split; [done|]. split; [done|]. split; [done|]. cbn. by rewrite Hq.
  - pose proof (ctl_mod _ _ _ _ _ _ E1 ltac:(lia)) as Hi.
    assert (H : tun_watched l3
      (loop <| lp_tun_watch := mk_watch (l3_tun_fd l3) (tcp_shift_lwip_loop_tun_events l3)
                                 (Some FnTun) true |>
            <| lp_tun_events := tcp_shift_lwip_loop_tun_events l3 |>) w1) by done.
    split; [exact H|]. intros _. split; [exact H|done].
Qed.

Lemma finish_cycle_in_step w loop l3 r rc l3' loop' w' :
  tun_watched l3 loop w -> finish_cycle w loop l3 r = (rc, l3', loop', w') ->
  tun_watched l3' loop' w' /\ (rc = 0 -> in_step l3' loop' w').
Proof.
  unfold finish_cycle. intros Hw E.
  destruct (sys_check_timeouts w loop l3) as [[l1 loop1] w1] eqn:E1.
  apply timeouts_view in E1. pose proof (tun_watched_view _ _ _ _ _ _ E1 Hw) as Hw1.
  destruct (r <? 0); [by injection E as <- <- <- <-|].
  destruct (tcp_shift_lwip_loop_sync_interest w1 loop1 l1) as [[r2 loop2] w2] eqn:E2.
  injection E as <- <- <- <-. by eapply sync_interest_in_step.
Qed.

Lemma run_once_in_step fuel w loop l3 rc l3' loop' w' :
  in_step l3 loop w ->
  tcp_shift_lwip_loop_run_once fuel w loop l3 = Some (rc, l3', loop', w') ->
  tun_watched l3' loop' w' /\ (rc = 0 -> in_step l3' loop' w').
Proof.
  intros [Hw Hs] E. unfold tcp_shift_lwip_loop_run_once in E.
  destruct (_ || _); [by injection E as <- <- <- <-|].
  pose proof (sleeptime_quiet w) as Hq1.
  destruct (sys_timeouts_sleeptime w) as [ms w1]. cbn in Hq1.
  match type of E with context [epoll_wait w1 ?a ?b] =>
    pose proof (wait_quiet w1 a b) as Hq2; destruct (epoll_wait w1 a b) as [res w2] end.
  pose proof (quiet_trans _ _ _ Hq1 Hq2) as Hq. cbn in Hq. clear Hq1 Hq2.
  destruct res as [ref ev| | |].
  - set (loop1 := loop <| lp_wait_calls := _ |> <| lp_ready_wakeups := _ |>) in E.
    assert (Hw1 : tun_watched l3 loop1 w2)
      by (eapply tun_watched_view; [|exact Hw]; by apply tun_view_quiet).
    destruct (watch_of loop1 ref) as [watch|]; [|by injection E as <- <- <- <-].
    destruct (wt_callback watch) as [cb|]; [|by injection E as <- <- <- <-].
    destruct (negb _); [by injection E as <- <- <- <-|].
    destruct (dispatch _ _ _ _ _ _) as [[[[r l4] loop4] w4]|] eqn:E4; [|done].
    apply dispatch_keeps in E4. injection E as E.
    eapply finish_cycle_in_step; [|exact E]. by eapply tun_watched_view.
  - injection E as E. eapply finish_cycle_in_step; [|exact E].
    eapply tun_watched_view; [|exact Hw]; by apply tun_view_quiet.
  - injection E as <- <- <- <-.
    assert (H : tun_watched l3 (loop <| lp_wait_calls := lp_wait_calls loop +w64 1 |>
        <| lp_eintr_wakeups := lp_eintr_wakeups loop +w64 1 |>) w2)
      by (eapply tun_watched_view; [|exact Hw]; by apply tun_view_quiet).
    split; [exact H|]. intros _. split; [exact H|exact Hs].
  - injection E as <- <- <- <-. split; [|done].
    eapply tun_watched_view; [|exact Hw]; by apply tun_view_quiet.
Qed.

(** *** Initialisation *)

(** Adding another watch cannot take the TUN file's place. *)
Lemma watch_add_other w loop watch fd ev cb rc watch' w' l3 :
  tun_watched l3 loop w -> tcp_shift_lwip_loop_watch_add w loop watch fd ev cb = (rc, watch', w') ->
  tun_watched l3 loop w'.
Proof.
  intros Hw E. unfold tcp_shift_lwip_loop_watch_add in E.
  destruct cb; [|by injection E as _ _ <-]. destruct (_ || _); [by injection E as _ _ <-|].
  destruct (epoll_ctl _ _ _ _ _) as [r w1] eqn:E1. pose proof Hw as (Ha & Hb & Hc & Hd).
  destruct (r <? 0) eqn:E2; injection E as _ _ <-.
  - pose proof (ctl_failed _ _ _ _ _ _ _ E1 ltac:(lia)) as Hq. unfold tun_watched. by rewrite Hq.
  - destruct (ctl_add _ _ _ _ _ _ E1 ltac:(lia)) as [Hn _].
    assert (l3_tun_fd l3 <> fd) by (intros <-; congruence).
    unfold tun_watched. by rewrite (ctl_other _ _ _ _ _ _ _ E1).
Qed.

Lemma init_fail_error w loop loop' w' : init_fail w loop = (0, loop', w') -> False.
Proof. unfold init_fail. intros E. by repeat case_match; simplify_eq. Qed.

Lemma watch_add_new w loop watch fd ev cb rc watch' w' :
  tcp_shift_lwip_loop_watch_add w loop watch fd ev (Some cb) = (rc, watch', w') -> 0 <= rc ->
  0 <= lp_epoll_fd loop /\ 0 <= fd /\ watch' = mk_watch fd ev (Some cb) true /\
  interest w' (lp_epoll_fd loop) fd = Some ev.
Proof.
  unfold tcp_shift_lwip_loop_watch_add. intros E Hrc.
  destruct (_ || _) eqn:E0; [injection E as <- _ _; lia|].
  destruct (epoll_ctl _ _ _ _ _) as [r w1] eqn:E1.
  destruct (r <? 0) eqn:E2; injection E as <- <- <-; [lia|].
  destruct (ctl_add _ _ _ _ _ _ E1 ltac:(lia)) as [_ Hi].
  split; [lia|]. split; [lia|]. by split.
Qed.

Lemma init_in_step w0 loop0 l3 loop w :
  tcp_shift_lwip_loop_init w0 loop0 l3 = (0, loop, w) -> in_step l3 loop w.
Proof.
  unfold tcp_shift_lwip_loop_init. intros E. destruct (_ || _) in E; [done|].
  destruct (epoll_create w0) as [ep w1]. destruct (ep <? 0) in E; [done|].
  destruct (tcp_shift_lwip_loop_watch_add _ _ _ _ _ _) as [[r2 watch2] w2] eqn:E2 in E.
  destruct (r2 <? 0) eqn:E3 in E; [by apply init_fail_error in E|].
  destruct (watch_add_new _ _ _ _ _ _ _ _ _ E2 ltac:(lia)) as (Ha & Hb & -> & Hi).
  destruct (tcp_shift_pacer_init w2 _ _) as [[r4 p4] w4] eqn:E4 in E. apply pacer_init_quiet in E4.
  destruct (r4 <? 0) in E; [by apply init_fail_error in E|].
  destruct (tcp_shift_lwip_loop_watch_add _ _ _ _ _ _) as [[r5 watch5] w5] eqn:E5 in E.
  match type of E5 with tcp_shift_lwip_loop_watch_add _ ?lp _ _ _ _ = _ =>
    assert (Hw4 : tun_watched l3 lp w4) end.
  { split; [done|]. split; [done|]. split; [done|]. cbn. by rewrite E4. }
  pose proof (watch_add_other _ _ _ _ _ _ _ _ _ _ Hw4 E5) as Hw5. clear Hw4 E5.
  destruct (r5 <? 0) in E; [by apply init_fail_error in E|].
  destruct (tcp_shift_pacer_init w5 _ _) as [[r6 p6] w6] eqn:E6 in E. apply pacer_init_quiet in E6.
  destruct (r6 <? 0) in E; [by apply init_fail_error in E|].
  destruct (tcp_shift_lwip_loop_watch_add _ _ _ _ _ _) as [[r7 watch7] w7] eqn:E7 in E.
  match type of E7 with tcp_shift_lwip_loop_watch_add _ ?lp _ _ _ _ = _ =>
    assert (Hw6 : tun_watched l3 lp w6) end.
  { eapply tun_watched_view; [|exact Hw5]. by apply tun_view_quiet. }
  pose proof (watch_add_other _ _ _ _ _ _ _ _ _ _ Hw6 E7) as Hw7. clear Hw6 E7.
  destruct (r7 <? 0) in E; [by apply init_fail_error in E|]. injection E as <- <-. split; [|done].
  eapply tun_watched_view; [|exact Hw7]. by apply tun_view_quiet.
Qed.

(** A loop that was initialised and ran any number of successful cycles. *)
Inductive loop_reach : tcp_shift_l3_tun -> tcp_shift_lwip_loop -> W -> Prop :=
  | reach_loop_init w0 loop0 l3 loop w :
      tcp_shift_lwip_loop_init w0 loop0 l3 = (0, loop, w) -> loop_reach l3 loop w
  | reach_loop_cycle fuel l3 loop w l3' loop' w' :
      loop_reach l3 loop w ->
      tcp_shift_lwip_loop_run_once fuel w loop l3 = Some (0, l3', loop', w') ->
      loop_reach l3' loop' w'.

Lemma loop_reach_in_step l3 loop w : loop_reach l3 loop w -> in_step l3 loop w.
Proof.
  induction 1 as [w0 loop0 l3 loop w E|fuel l3 loop w l3' loop' w' _ IH E].
  - by eapply init_in_step.
  - by destruct (run_once_in_step _ _ _ _ _ _ _ _ IH E) as [_ H]; apply H.
Qed.

(** C18. No lost wake-up for queued packets. Whenever an initialised loop is
    about to wait, after any number of successful cycles and whatever lwIP, the
    release callbacks and the clients sent meanwhile, the kernel watches the TUN
    file for input, and for output exactly when the transmit ring holds a
    packet; the loop's own copies of the events say the same. *)
Theorem loop_tun_interest l3 loop w :
  loop_reach l3 loop w ->
  interest w (lp_epoll_fd loop) (l3_tun_fd l3) =
    Some (if l3_tx_queue_count l3 =? 0 then EPOLLIN else Z.lor EPOLLIN EPOLLOUT) /\
  wt_events (lp_tun_watch loop) = lp_tun_events loop /\
  wt_fd (lp_tun_watch loop) = l3_tun_fd l3 /\ wt_registered (lp_tun_watch loop) = true.
Proof.
  intros [(Ha & Hb & Hc & Hd) He]%loop_reach_in_step. rewrite Hd, Hc, He.
  unfold tcp_shift_lwip_loop_tun_events, tcp_shift_l3_tun_wants_write.
  by destruct (l3_tx_queue_count l3 =? 0).
Qed.

End Interest.

(** ** The drain loops end *)

(** The number of events due at a time. *)
Definition due (now : Z) (q : list tcp_shift_pacer_event) : nat :=
  length (List.filter (fun e => ev_deadline_ns e <=? now) q).

#[export] Instance due_proper now : Proper ((≡ₚ) ==> eq) (due now).
Proof.
  unfold due. induction 1 as [|e q q' _ IH|e e' q|q1 q2 q3 _ IH1 _ IH2]; cbn.
  - done.
  - by destruct (_ <=? _); cbn; rewrite IH.
  - by repeat destruct (_ <=? _).
  - congruence.
Qed.

Lemma due_cons now e q : ev_deadline_ns e <= now -> due now (e :: q) = S (due now q).
Proof. intros H. unfold due. cbn. by rewrite (proj2 (Z.leb_le _ _) H). Qed.

Lemma due_le_length now q : (due now q <= length q)%nat.
Proof. apply filter_length_le. Qed.

Lemma due_none now q : due now q = 0%nat <-> Forall (fun e => now < ev_deadline_ns e) q.
Proof.
  unfold due. induction q as [|e q IH]; cbn; [done|]. rewrite Forall_cons, <- IH.
  destruct (ev_deadline_ns e <=? now) eqn:E; cbn; lia.
Qed.

Section Drain.
Context {W : Type} `{!PacerOS W} `{!LoopOS W} `{!LoopClients W}.
Context `{!TunOS (tcp_shift_lwip_loop * W)}.
Context (timer : W -> Z -> Z) `{!PacerOSLaws W timer}.

(** Waiting and reading the clock program no timer. A release callback uses
    the pacers through their operations and schedules nothing that is already
    due at the time it was given. *)
Class ReleaseLaws : Prop := {
  wait_timer w ep t fd : timer (epoll_wait w ep t).2 fd = timer w fd;
  clock_timer w fd : timer (clock_gettime w).2 fd = timer w fd;
  sleeptime_timer w fd : timer (sys_timeouts_sleeptime w).2 fd = timer w fd;
  pacer_release_later w loop l3 cb e now rc l3' loop' w' :
    pacer_release_fn w loop l3 cb e now = (rc, l3', loop', w') ->
    pacer_wf timer w (lp_pacer loop) ->
    pacer_wf timer w' (lp_pacer loop') /\
    (due now (queue (lp_pacer loop')) <= due now (queue (lp_pacer loop)))%nat;
  recovery_release_later w loop l3 cb e now rc l3' loop' w' :
    recovery_release_fn w loop l3 cb e now = (rc, l3', loop', w') ->
    pacer_wf timer w (lp_recovery_timer loop) ->
    pacer_wf timer w' (lp_recovery_timer loop') /\
    (due now (queue (lp_recovery_timer loop')) <= due now (queue (lp_recovery_timer loop)))%nat
}.
Context {Hrel : ReleaseLaws}.

Lemma pacer_wf_timer w w' p :
  (forall fd, timer w' fd = timer w fd) -> pacer_wf timer w p -> pacer_wf timer w' p.
Proof. intros Ht (H1 & H2 & H3 & H4). unfold pacer_wf. by rewrite Ht. Qed.

(** A release takes one due event out. *)
Lemma pop_due_count w p now e rc p' e' w' :
  pacer_wf timer w p -> tcp_shift_pacer_pop_due w p now e = (rc, p', e', w') ->
  pacer_wf timer w' p' /\
  (rc = 0 /\ due now (queue p') = 0%nat \/
   rc <> 0 /\ due now (queue p) = S (due now (queue p'))).
Proof.
  intros Hwf E. destruct (pop_due_ok timer _ _ _ _ _ _ _ _ Hwf E) as
    (H1 & _ & [(-> & -> & _ & HF)|(Hrc & Hq & _ & Hd)]); (split; [done|]).
  - left. split; [done|]. by apply due_none.
  - right. split; [lia|]. rewrite Hq. by apply due_cons.
Qed.

Lemma pacer_drain_returns fuel : forall w loop l3 now e,
  pacer_wf timer w (lp_pacer loop) -> (due now (queue (lp_pacer loop)) < fuel)%nat ->
  exists rc l3' loop' w', pacer_drain fuel w loop l3 now e = Some (rc, l3', loop', w') /\
    pacer_wf timer w' (lp_pacer loop') /\ (rc = 0 -> due now (queue (lp_pacer loop')) = 0%nat).
Proof.
  induction fuel as [|fuel IH]; intros w loop l3 now e Hwf Hd; [lia|]. cbn [pacer_drain].
  destruct (tcp_shift_pacer_pop_due _ _ _ _) as [[[r p1] e1] w1] eqn:E1.
  destruct (pop_due_count _ _ _ _ _ _ _ _ Hwf E1) as (Hwf1 & Hout).
  destruct (r <? 0) eqn:E2; [by eexists _, _, _, _|].
  destruct (r =? 0) eqn:E3.
  { eexists _, _, _, _. split; [done|]. split; [done|]. intros _.
    destruct Hout as [[_ H]|[H _]]; [done|lia]. }
  destruct Hout as [[-> _]|[_ Hq]]; [done|].
  destruct (lp_pacer_release _) as [cb|]; [|by eexists _, _, _, _].
  destruct (pacer_release_fn _ _ _ _ _ _) as [[[r2 l2] loop2] w2] eqn:E4.
  destruct (pacer_release_later _ _ _ _ _ _ _ _ _ _ E4 Hwf1) as [Hwf2 Hle]. cbn in Hle.
  destruct (r2 <? 0) eqn:E5; [|apply IH; [done|lia]].
  eexists _, _, _, _. split; [done|]. by split.
Qed.

Lemma recovery_drain_returns fuel : forall w loop l3 now e,
  pacer_wf timer w (lp_recovery_timer loop) ->
  (due now (queue (lp_recovery_timer loop)) < fuel)%nat ->
  exists rc l3' loop' w', recovery_drain fuel w loop l3 now e = Some (rc, l3', loop', w') /\
    pacer_wf timer w' (lp_recovery_timer loop') /\
    (rc = 0 -> due now (queue (lp_recovery_timer loop')) = 0%nat).
Proof.
  induction fuel as [|fuel IH]; intros w loop l3 now e Hwf Hd; [lia|]. cbn [recovery_drain].
  destruct (tcp_shift_pacer_pop_due _ _ _ _) as [[[r p1] e1] w1] eqn:E1.
  destruct (pop_due_count _ _ _ _ _ _ _ _ Hwf E1) as (Hwf1 & Hout).
  destruct (r <? 0) eqn:E2; [by eexists _, _, _, _|].
  destruct (r =? 0) eqn:E3.
  { eexists _, _, _, _. split; [done|]. split; [done|]. intros _.
    destruct Hout as [[_ H]|[H _]]; [done|lia]. }
  destruct Hout as [[-> _]|[_ Hq]]; [done|].
  destruct (lp_recovery_release _) as [cb|]; [|by eexists _, _, _, _].
  destruct (recovery_release_fn _ _ _ _ _ _) as [[[r2 l2] loop2] w2] eqn:E4.
  destruct (recovery_release_later _ _ _ _ _ _ _ _ _ _ E4 Hwf1) as [Hwf2 Hle]. cbn in Hle.
  destruct (r2 <? 0) eqn:E5; [|apply IH; [done|lia]].
  eexists _, _, _, _. split; [done|]. by split.
Qed.

(** A pacer of at most [max] events, and the fuel that is enough for it. *)
Definition pacer_sized (max : nat) (w : W) (p : tcp_shift_pacer) : Prop :=
  pacer_wf timer w p /\ pc_heap_max p <= Z.of_nat max.

Lemma due_bound max w p now : pacer_sized max w p -> (due now (queue p) <= max)%nat.
Proof.
  intros [(_ & Hh & _) Hm]. pose proof (due_le_length now (queue p)) as H.
  unfold queue in H at 2. rewrite live_length in H by (by apply hlen_le).
  destruct Hh as (Hl & _ & Hmax & _). unfold hlen in H. lia.
Qed.

Lemma consume_sized max w p x rc p' x' w' :
  pacer_sized max w p -> tcp_shift_pacer_consume_timer w p x = (rc, p', x', w') ->
  pacer_sized max w' p'.
Proof.
  intros [Hwf Hm] E. destruct (consume_ok timer _ _ _ _ _ _ _ Hwf E) as (H1 & H2 & _).
  split; [done|lia].
Qed.

Lemma monotonic_timer w r w' :
  tcp_shift_lwip_loop_monotonic_ns w = (r, w') -> forall fd, timer w' fd = timer w fd.
Proof.
  unfold tcp_shift_lwip_loop_monotonic_ns. intros E fd. pose proof (clock_timer w fd) as Ht.
  destruct (clock_gettime w) as [[[s n]|] w1]; by injection E as _ <-.
Qed.

Lemma sized_timer max w w' p :
  (forall fd, timer w' fd = timer w fd) -> pacer_sized max w p -> pacer_sized max w' p.
Proof. intros Ht [Hwf Hm]. split; [by eapply pacer_wf_timer|done]. Qed.

Lemma pacer_ready_returns max w loop l3 ev :
  pacer_sized max w (lp_pacer loop) ->
  exists r, tcp_shift_lwip_loop_pacer_ready (S max) w loop l3 ev = Some r.
Proof.
  intros Hs. unfold tcp_shift_lwip_loop_pacer_ready.
  destruct (events_error ev); [by eexists|]. destruct (negb _); [by eexists|].
  destruct (tcp_shift_pacer_consume_timer _ _ _) as [[[r p1] x] w1] eqn:E1.
  pose proof (consume_sized _ _ _ _ _ _ _ _ Hs E1) as Hs1.
  destruct (r <? 0); [by eexists|]. destruct (_ || _); [by eexists|].
  destruct (tcp_shift_lwip_loop_monotonic_ns w1) as [[now|] w2] eqn:E2; [|by eexists].
  pose proof (sized_timer _ _ _ _ (monotonic_timer _ _ _ E2) Hs1) as Hs2.
  pose proof (due_bound _ _ _ now Hs2).
  match goal with |- context [pacer_drain _ _ ?lp _ _ _] =>
    destruct (pacer_drain_returns (S max) w2 lp l3 now inhabitant) as (? & ? & ? & ? & H1 & _) end;
    [apply Hs2|cbn; lia|]. by eexists.
Qed.

Lemma recovery_ready_returns max w loop l3 ev :
  pacer_sized max w (lp_recovery_timer loop) ->
  exists r, tcp_shift_lwip_loop_recovery_ready (S max) w loop l3 ev = Some r.
Proof.
  intros Hs. unfold tcp_shift_lwip_loop_recovery_ready.
  destruct (events_error ev); [by eexists|]. destruct (negb _); [by eexists|].
  destruct (tcp_shift_pacer_consume_timer _ _ _) as [[[r p1] x] w1] eqn:E1.
  pose proof (consume_sized _ _ _ _ _ _ _ _ Hs E1) as Hs1.
  destruct (r <? 0); [by eexists|]. destruct (_ || _); [by eexists|].
  destruct (tcp_shift_lwip_loop_monotonic_ns w1) as [[now|] w2] eqn:E2; [|by eexists].
  pose proof (sized_timer _ _ _ _ (monotonic_timer _ _ _ E2) Hs1) as Hs2.
  pose proof (due_bound _ _ _ now Hs2).
  match goal with |- context [recovery_drain _ _ ?lp _ _ _] =>
    destruct (recovery_drain_returns (S max) w2 lp l3 now inhabitant)
      as (? & ? & ? & ? & H1 & _) end;
    [apply Hs2|cbn; lia|]. by eexists.
Qed.

Lemma run_once_some max w loop l3 :
  pacer_sized max w (lp_pacer loop) -> pacer_sized max w (lp_recovery_timer loop) ->
  exists r, tcp_shift_lwip_loop_run_once (S max) w loop l3 = Some r.
Proof.
  intros Hp Hr. unfold tcp_shift_lwip_loop_run_once. destruct (_ || _); [by eexists|].
  pose proof (sleeptime_timer w) as Ht1. destruct (sys_timeouts_sleeptime w) as [ms w1]. cbn in Ht1.
  match goal with |- context [epoll_wait w1 ?a ?b] =>
    pose proof (wait_timer w1 a b) as Ht2; destruct (epoll_wait w1 a b) as [res w2] end. cbn in Ht2.
  assert (Ht : forall fd, timer w2 fd = timer w fd) by (intros; by rewrite Ht2, Ht1).
  apply (sized_timer _ _ _ _ Ht) in Hp, Hr.
  destruct res as [ref ev| | |]; try by eexists.
  destruct (watch_of _ _) as [watch|]; [|by eexists].
  destruct (wt_callback watch) as [cb|]; [|by eexists]. destruct (negb _); [by eexists|].
  match goal with |- context [dispatch _ _ ?lp _ _ _] =>
    assert (H : exists r, dispatch (S max) w2 lp l3 cb ev = Some r) end.
  { destruct cb; cbn [dispatch]; [by eexists|by apply pacer_ready_returns
      |by apply recovery_ready_returns|by eexists]. }
  destruct H as [[[[r l4] loop4] w4] ->]. by eexists.
Qed.


End Drain.

(** ** A concrete system *)

(** The next file to open, the programmed timers and the watched files with
    their events. *)
Record demo_host := mk_host {
  dh_next : Z; dh_timers : list (Z * Z); dh_watched : list (Z * Z * Z)
}.

Definition host_timer (w : demo_host) (fd : Z) : Z :=
  match List.find (fun x => x.1 =? fd) (dh_timers w) with Some x => x.2 | None => 0 end.
Definition host_interest (w : demo_host) (ep fd : Z) : option Z :=
  match List.find (fun x => (x.1.1 =? ep) && (x.1.2 =? fd)) (dh_watched w) with
  | Some x => Some x.2
  | None => None
  end.

#[local] Instance host_pacer : PacerOS demo_host := {|
  realloc w h n := (Some (h ++ replicate (Z.to_nat n - length h) inhabitant), w);
  heap_free w _ := w;
  timerfd_create w :=
    (dh_next w, mk_host (dh_next w + 1) ((dh_next w, 0) :: dh_timers w) (dh_watched w));
  timerfd_settime w fd sec nsec :=
    (0, mk_host (dh_next w) ((fd, sec * 1000000000 + nsec) :: dh_timers w) (dh_watched w));
  timerfd_read w _ := (ReadCount 8 1, w);
  fd_close w _ := w
|}.

#[local] Instance host_pacer_laws : PacerOSLaws demo_host host_timer.
Proof.
  split.
  - intros w h n h' w' E Hn. injection E as <- <-.
    rewrite length_app, length_replicate, take_app_length. split; [lia|done].
  - intros w h n r w' E. by injection E as _ <-.
  - intros w fd w' E _. injection E as <- <-. unfold host_timer. cbn. by rewrite Z.eqb_refl.
  - intros w fd sec nsec rc w' E _. injection E as _ <-. unfold host_timer. cbn.
    by rewrite Z.eqb_refl.
  - intros w fd sec nsec rc w' E ?. injection E as <- _. lia.
  - intros w fd sec nsec rc w' E fd' Hne. injection E as _ <-. unfold host_timer. cbn.
    by replace (fd =? fd') with false by lia.
  - intros w fd r w' E. by injection E as _ <-.
Qed.

(** Every wait times out. *)
#[local] Instance host_loop : LoopOS demo_host := {|
  epoll_create w := (dh_next w, mk_host (dh_next w + 1) (dh_timers w) (dh_watched w));
  epoll_ctl w ep op fd ev :=
    let ok := match op, host_interest w ep fd with
              | EPOLL_CTL_ADD, None | EPOLL_CTL_MOD, Some _ => true
              | _, _ => false
              end in
    if ok then (0, mk_host (dh_next w) (dh_timers w) ((ep, fd, ev) :: dh_watched w)) else (-1, w);
  epoll_wait w _ _ := (WaitTimeout, w);
  clock_gettime w := (Some (0, 7000), w);
  sys_timeouts_sleeptime w := (250, w)
|}.

(** Nothing is read and every write would block. *)
#[local] Instance host_tun : TunOS (tcp_shift_lwip_loop * demo_host) := {|
  writev s _ _ := (WriteAgain, s);
  tun_read s _ _ := (PacketAgain, s);
  pbuf_ref s _ := s;
  pbuf_free s _ := s;
  pbuf_alloc s _ := (None, s);
  pbuf_take s _ _ := (0, s);
  ip4_input s l3 _ := (ERR_VAL, l3, s);
  ip6_input s l3 _ := (ERR_VAL, l3, s);
  netif_add s := (true, s);
  netif_remove s := s
|}.

Definition demo_packet : pbuf := mk_pbuf 1 [[69; 0; 7]] 3.

(** lwIP's timers send a packet through the device. *)
#[local] Instance host_clients : LoopClients demo_host := {|
  pacer_release_fn w loop l3 _ _ _ := (0, l3, loop, w);
  recovery_release_fn w loop l3 _ _ _ := (0, l3, loop, w);
  client_watch_fn w loop l3 _ _ := (0, l3, loop, w);
  sys_check_timeouts w loop l3 :=
    let '(_, l3, (loop, w)) := tcp_shift_l3_tun_enqueue (loop, w) l3 demo_packet in (l3, loop, w)
|}.

#[local] Instance host_interest_laws : InterestLaws host_interest.
Proof.
  assert (Hok : forall w ep op fd ev rc w', epoll_ctl w ep op fd ev = (rc, w') ->
    (rc = -1 /\ w' = w) \/
    (rc = 0 /\ w' = mk_host (dh_next w) (dh_timers w) ((ep, fd, ev) :: dh_watched w) /\
     (op = EPOLL_CTL_ADD -> host_interest w ep fd = None))).
  { intros w ep op fd ev rc w' E. unfold epoll_ctl in E. cbn in E.
    destruct op; destruct (host_interest w ep fd) eqn:Ei; injection E as <- <-;
      (by left) || (right; split; [done|]; split; done). }
  assert (Hset : forall w ep fd ev,
    host_interest (mk_host (dh_next w) (dh_timers w) ((ep, fd, ev) :: dh_watched w)) ep fd = Some ev).
  { intros. unfold host_interest. cbn. by rewrite !Z.eqb_refl. }
  split; try (intros; unfold quiet, calm; cbn; done).
  - intros w ep fd ev rc w' E Hrc. apply Hok in E as [[-> _]|(-> & -> & H)]; [lia|]. auto.
  - intros w ep fd ev rc w' E Hrc. apply Hok in E as [[-> _]|(-> & -> & H)]; [lia|]. auto.
  - intros w ep op fd ev rc w' E Hrc. apply Hok in E as [[_ ->]|(-> & _ & _)]; [done|lia].
  - intros w ep op fd ev rc w' E fd' Hne. apply Hok in E as [[_ ->]|(_ & -> & _)]; [done|].
    unfold host_interest. cbn. by replace (fd =? fd') with false by lia; rewrite andb_false_r.
  - by intros s l3 p err l3' s' [= _ <- <-].
  - by intros s l3 p err l3' s' [= _ <- <-].
  - by intros w loop l3 cb e now rc l3' loop' w' [= _ <- <- <-].
  - by intros w loop l3 cb e now rc l3' loop' w' [= _ <- <- <-].
  - by intros w loop l3 id ev rc l3' loop' w' [= _ <- <- <-].
  - intros w loop l3 l3' loop' w' E. cbn in E. unfold tcp_shift_l3_tun_enqueue in E.
    destruct (_ || _) in E; by injection E as <- <- <-.
Qed.

#[local] Instance host_release_laws : ReleaseLaws host_timer.
Proof.
  split; try done.
  - by intros w loop l3 cb e now rc l3' loop' w' [= _ <- <- <-].
  - by intros w loop l3 cb e now rc l3' loop' w' [= _ <- <- <-].
Qed.

(** An attached device on file 5; the loop opens files 6 (epoll), 7 and 8. *)
Definition demo_l3 : tcp_shift_l3_tun :=
  zero_l3 <| l3_tun_fd := 5 |> <| l3_mtu := 1500 |> <| l3_attached := true |>.
#[local] Abbreviation demo_init :=
  (tcp_shift_lwip_loop_init (mk_host 6 [] []) zero_loop demo_l3).
#[local] Abbreviation demo_cycle :=
  (tcp_shift_lwip_loop_run_once 4097 demo_init.2 demo_init.1.2 demo_l3).

Lemma demo_init_ok : demo_init = (0, demo_init.1.2, demo_init.2).
Proof. vm_compute. reflexivity. Qed.

Lemma loop_tun_interest_witness : exists l3 loop w,
  demo_cycle = Some (0, l3, loop, w) /\ l3_tx_queue_count l3 = 1 /\ host_interest w 6 5 = Some 5.
Proof.
  destruct demo_cycle as [[[[rc l3] loop] w]|] eqn:E; [|exfalso; vm_compute in E; discriminate].
  assert (Hrc : rc = 0 /\ l3_tx_queue_count l3 = 1 /\ lp_epoll_fd loop = 6 /\ l3_tun_fd l3 = 5).
  { vm_compute in E. injection E as <- <- <- <-. repeat split. }
  destruct Hrc as (-> & Hc & He & Hf). exists l3, loop, w. split; [reflexivity|]. split; [exact Hc|].
  destruct (loop_tun_interest host_interest l3 loop w) as (Hi & _).
  { apply (reach_loop_cycle 4097 demo_l3 demo_init.1.2 demo_init.2); [|exact E].
    apply (reach_loop_init (mk_host 6 [] []) zero_loop). exact demo_init_ok. }
  rewrite Hc, He, Hf in Hi. exact Hi.
Defined.

#[local] Abbreviation demo_pacer_event := (mk_event 5000 7 1 1500).

