(* ===== verification/Bridge.v ===== *)
(** * The bridge ([src/bridge/bridge.h], [src/bridge/bridge.c])

    A flow relays the bytes of one public lwIP connection to a backend socket
    and back. Flows live in a store, a finite map from pointers to contents, and
    hang in the bridge's list; freeing one deletes it, and a handler that is
    called with a pointer to no flow has no result. Sockets and lwIP's
    connections are the operations of [BridgeOS]; a result of [writev] or [recv]
    is the first that is not [EINTR]. lwIP does not call back while one of its
    functions runs, except for the error callback of [tcp_abort], which is
    cleared first. A buffer chain is the list of its payloads. *)

From Stdlib Require Import ZArith Lia Bool List.
From stdpp Require Import base tactics numbers list option gmap.
From S2P Require Import Prelude L3Tun LwipLoop.
Local Open Scope Z_scope.

Abbreviation TCP_SHIFT_BRIDGE_BACKEND_SOCKET_BUFFER := 16384.
Abbreviation TCP_SHIFT_BRIDGE_BACKEND_READ_CHUNK := 4096.
Abbreviation TCP_SHIFT_BRIDGE_BACKEND_READ_BUDGET := 16%nat.
Abbreviation TCP_SHIFT_BRIDGE_BACKEND_WRITE_IOV := 64.
Abbreviation EPOLLRDHUP := 8192.
Abbreviation IPADDR_TYPE_V4 := 0.
Abbreviation IPADDR_TYPE_V6 := 6.
Abbreviation ERR_ABRT := (-13) (only parsing).

Abbreviation chain := (list (list Z)).

Record tcp_shift_bridge_flow := mk_flow {
  fw_pcb : option Z;
  fw_backend_fd : Z;
  fw_backend_watch : tcp_shift_lwip_loop_watch;
  fw_public_rx : option chain;
  fw_backend_connecting : bool;
  fw_backend_connected : bool;
  fw_backend_eof : bool;
  fw_public_eof : bool;
  fw_backend_write_shutdown : bool;
  fw_public_write_shutdown : bool;
  fw_backend_read_blocked : bool
}.
#[export] Instance eta_flow : Eta tcp_shift_bridge_flow := fun r =>
  mk_flow (fw_pcb r) (fw_backend_fd r) (fw_backend_watch r) (fw_public_rx r)
    (fw_backend_connecting r) (fw_backend_connected r) (fw_backend_eof r) (fw_public_eof r)
    (fw_backend_write_shutdown r) (fw_public_write_shutdown r) (fw_backend_read_blocked r).

(** [calloc] *)
Definition zero_flow : tcp_shift_bridge_flow :=
  mk_flow None 0 zero_watch None false false false false false false false.

(** [br_loop]: the loop pointer is set. [br_flows]: the list that starts at
    [flows] and goes on through [next]. *)
Record tcp_shift_bridge := mk_bridge {
  br_loop : bool;
  br_listener : option Z;
  br_flows : list Z;
  br_public_port : Z;
  br_backend_port : Z;
  br_accepts : Z;
  br_backend_connects : Z;
  br_public_to_backend_bytes : Z;
  br_backend_to_public_bytes : Z;
  br_active_flows : Z;
  br_peak_active_flows : Z;
  br_pending_public_bytes : Z;
  br_peak_pending_public_bytes : Z;
  br_backend_write_blocked_events : Z;
  br_backend_read_blocked_events : Z;
  br_backend_failures : Z;
  br_public_errors : Z;
  br_backend_socket_sndbuf_bytes : Z;
  br_backend_socket_rcvbuf_bytes : Z
}.
#[export] Instance eta_bridge : Eta tcp_shift_bridge := fun r =>
  mk_bridge (br_loop r) (br_listener r) (br_flows r) (br_public_port r) (br_backend_port r)
    (br_accepts r) (br_backend_connects r) (br_public_to_backend_bytes r)
    (br_backend_to_public_bytes r) (br_active_flows r) (br_peak_active_flows r)
    (br_pending_public_bytes r) (br_peak_pending_public_bytes r)
    (br_backend_write_blocked_events r) (br_backend_read_blocked_events r)
    (br_backend_failures r) (br_public_errors r) (br_backend_socket_sndbuf_bytes r)
    (br_backend_socket_rcvbuf_bytes r).

Definition zero_bridge : tcp_shift_bridge :=
  mk_bridge false None [] 0 0 0 0 0 0 0 0 0 0 0 0 0 0 0 0.

(** ** The system *)

Inductive recv_result := RecvBytes (bytes : list Z) | RecvAgain | RecvFailed.
Inductive shutdown_result := ShutdownOk | ShutdownNotConnected | ShutdownFailed.
Inductive connect_result := Connected | ConnectInProgress | ConnectFailed.
Inductive sock_buffer := SO_SNDBUF | SO_RCVBUF.

Class BridgeOS (W : Type) := {
  sock_open : W -> Z * W;
  sock_connect : W -> Z -> Z -> connect_result * W;
  sock_close : W -> Z -> W;
  set_sock_buffer : W -> Z -> sock_buffer -> Z -> Z * W;
  get_sock_buffer : W -> Z -> sock_buffer -> option Z * W;
  get_sock_error : W -> Z -> option Z * W;
  sock_writev : W -> Z -> list (list Z) -> write_result * W;
  recv_peek : W -> Z -> Z -> recv_result * W;
  recv_take : W -> Z -> Z -> recv_result * W;
  shutdown_write : W -> Z -> shutdown_result * W;
  (** lwIP *)
  tcp_sndbuf : W -> Z -> Z;
  tcp_write : W -> Z -> list Z -> Z * W;
  tcp_output : W -> Z -> W;
  tcp_recved : W -> Z -> Z -> W;
  tcp_shutdown_tx : W -> Z -> Z * W;
  tcp_close : W -> Z -> Z * W;
  tcp_abort : W -> Z -> W;
  (** the five callbacks of a connection with their argument, or NULL *)
  tcp_callbacks : W -> Z -> option Z -> W;
  tcp_accept_callback : W -> Z -> bool -> W;
  (** a listener for the address family, bound to a port *)
  tcp_new_ip_type : W -> Z -> option Z * W;
  tcp_bind : W -> Z -> Z -> Z * W;
  tcp_listen : W -> Z -> option Z * Z * W;
  chain_free : W -> chain -> W;
  chain_cat : chain -> chain -> chain;
  (** [pbuf_free_header] *)
  chain_drop : W -> chain -> Z -> option chain * W;
  (** the adapter's [tcp_shift_lwip_cc_mark_app_limited] *)
  cc_mark_app_limited : W -> Z -> W;
  (** the pointer of a fresh flow *)
  flow_alloc : W -> option Z * W
}.

Section Bridge.
Context {W : Type} `{!LoopOS W} `{!BridgeOS W}.
(** The bridge's loop; registering a watch does not change it. *)
Context (loop : tcp_shift_lwip_loop).

(** [tot_len], a 16-bit field. *)
Definition tot_len (p : chain) : Z := u16 (Z.of_nat (length (concat p))).

(** ** Lifetime of a flow *)

Definition tcp_shift_bridge_flow_set_callbacks (w : W) (id : Z) (flow : tcp_shift_bridge_flow) : W :=
  match fw_pcb flow with Some pcb => tcp_callbacks w pcb (Some id) | None => w end.

Definition tcp_shift_bridge_flow_clear_callbacks (w : W) (pcb : Z) : W := tcp_callbacks w pcb None.

(** The list without the first link to [id], if there is one. *)
Fixpoint unlink_loop (flows : list Z) (id : Z) : option (list Z) :=
  match flows with
  | [] => None
  | f :: flows' => if f =? id then Some flows' else option_map (cons f) (unlink_loop flows' id)
  end.

Definition tcp_shift_bridge_flow_unlink (br : tcp_shift_bridge) (id : Z) : tcp_shift_bridge :=
  match unlink_loop (br_flows br) id with
  | None => br
  | Some flows =>
      let br := br <| br_flows := flows |> in
      if negb (br_active_flows br =? 0)
      then br <| br_active_flows := br_active_flows br -w64 1 |> else br
  end.

Definition tcp_shift_bridge_release_pending_public (w : W) (br : tcp_shift_bridge)
    (flow : tcp_shift_bridge_flow) : tcp_shift_bridge_flow * tcp_shift_bridge * W :=
  match fw_public_rx flow with
  | None => (flow, br, w)
  | Some p =>
      let pending := br_pending_public_bytes br in
      let br := br <| br_pending_public_bytes :=
                        if pending >=? tot_len p then pending -w64 tot_len p else 0 |> in
      (flow <| fw_public_rx := None |>, br, chain_free w p)
  end.

(** The flow is freed: only the bridge is left. *)
Definition tcp_shift_bridge_flow_release (w : W) (br : tcp_shift_bridge) (id : Z)
    (flow : tcp_shift_bridge_flow) : tcp_shift_bridge * W :=
  let w := if wt_registered (fw_backend_watch flow)
           then (tcp_shift_lwip_loop_watch_remove w loop (fw_backend_watch flow)).2 else w in
  let w := if fw_backend_fd flow >=? 0 then sock_close w (fw_backend_fd flow) else w in
  let '(_, br, w) := tcp_shift_bridge_release_pending_public w br flow in
  (tcp_shift_bridge_flow_unlink br id, w).

Definition tcp_shift_bridge_flow_abort (w : W) (br : tcp_shift_bridge) (id : Z)
    (flow : tcp_shift_bridge_flow) : tcp_shift_bridge * W :=
  let w := match fw_pcb flow with
           | Some pcb => tcp_abort (tcp_shift_bridge_flow_clear_callbacks w pcb) pcb
           | None => w
           end in
  tcp_shift_bridge_flow_release w br id (flow <| fw_pcb := None |>).

(** ** Helpers *)

Definition tcp_shift_bridge_mark_backend_read_blocked (br : tcp_shift_bridge)
    (flow : tcp_shift_bridge_flow) : tcp_shift_bridge_flow * tcp_shift_bridge :=
  if negb (fw_backend_read_blocked flow)
  then (flow <| fw_backend_read_blocked := true |>,
        br <| br_backend_read_blocked_events := br_backend_read_blocked_events br +w64 1 |>)
  else (flow, br).

Definition tcp_shift_bridge_track_public_rx (br : tcp_shift_bridge) (p : chain)
    : tcp_shift_bridge :=
  let br := br <| br_pending_public_bytes := br_pending_public_bytes br +w64 tot_len p |> in
  if br_pending_public_bytes br >? br_peak_pending_public_bytes br
  then br <| br_peak_pending_public_bytes := br_pending_public_bytes br |> else br.

Definition tcp_shift_bridge_configure_backend_socket (w : W) (br : tcp_shift_bridge) (fd : Z)
    : Z * tcp_shift_bridge * W :=
  let requested := TCP_SHIFT_BRIDGE_BACKEND_SOCKET_BUFFER in
  let '(rc, w) := set_sock_buffer w fd SO_SNDBUF requested in
  if rc <? 0 then (-1, br, w)
  else
    let '(rc, w) := set_sock_buffer w fd SO_RCVBUF requested in
    if rc <? 0 then (-1, br, w)
    else
      match get_sock_buffer w fd SO_SNDBUF with
      | (None, w) => (-1, br, w)
      | (Some actual, w) =>
          let br := if (actual >? 0) && (u32 actual >? br_backend_socket_sndbuf_bytes br)
                    then br <| br_backend_socket_sndbuf_bytes := u32 actual |> else br in
          match get_sock_buffer w fd SO_RCVBUF with
          | (None, w) => (-1, br, w)
          | (Some actual, w) =>
              let br := if (actual >? 0) && (u32 actual >? br_backend_socket_rcvbuf_bytes br)
                        then br <| br_backend_socket_rcvbuf_bytes := u32 actual |> else br in
              (0, br, w)
          end
      end.

Definition tcp_shift_bridge_backend_events (flow : tcp_shift_bridge_flow) : Z :=
  if fw_backend_connecting flow then EPOLLOUT
  else
    let events := if negb (fw_backend_eof flow) && negb (fw_backend_read_blocked flow)
                  then Z.lor EPOLLIN EPOLLRDHUP else 0 in
    match fw_public_rx flow with Some _ => Z.lor events EPOLLOUT | None => events end.

(** [id]: the pointer the watch calls [backend_ready] with. *)
Definition tcp_shift_bridge_sync_backend_watch (w : W) (id : Z) (flow : tcp_shift_bridge_flow)
    : Z * tcp_shift_bridge_flow * W :=
  let events := tcp_shift_bridge_backend_events flow in
  let watch := fw_backend_watch flow in
  let '(rc, watch, w) :=
    if events =? 0 then
      if wt_registered watch then tcp_shift_lwip_loop_watch_remove w loop watch else (0, watch, w)
    else if negb (wt_registered watch)
    then tcp_shift_lwip_loop_watch_add w loop watch (fw_backend_fd flow) events (Some (FnClient id))
    else tcp_shift_lwip_loop_watch_mod w loop watch events in
  (rc, flow <| fw_backend_watch := watch |>, w).

(** ** Public to backend *)

(** The first 64 payloads that are not empty. *)
Fixpoint gather_iov (p : chain) (iov : list (list Z)) : list (list Z) :=
  match p with
  | [] => iov
  | q :: p' =>
      if Z.of_nat (length iov) <? TCP_SHIFT_BRIDGE_BACKEND_WRITE_IOV
      then gather_iov p' (if Z.of_nat (length q) =? 0 then iov else iov ++ [q])
      else iov
  end.

(** The [while] loop: [None] when it did not end within the fuel. *)
Fixpoint flush_public_loop (fuel : nat) (w : W) (br : tcp_shift_bridge)
    (flow : tcp_shift_bridge_flow) : option (Z * tcp_shift_bridge_flow * tcp_shift_bridge * W) :=
  match fuel with
  | O => None
  | S fuel' =>
      match fw_public_rx flow with
      | None => Some (0, flow, br, w)
      | Some p =>
          if negb (fw_backend_connected flow) then Some (0, flow, br, w)
          else
            match gather_iov p [] with
            | [] =>
                let '(flow, br, w) := tcp_shift_bridge_release_pending_public w br flow in
                Some (0, flow, br, w)
            | iov =>
                match sock_writev w (fw_backend_fd flow) iov with
                | (WriteAgain, w) =>
                    Some (0, flow, br <| br_backend_write_blocked_events :=
                                           br_backend_write_blocked_events br +w64 1 |>, w)
                | (WriteFailed, w) => Some (-1, flow, br, w)
                | (WriteCount written, w) =>
                    if written =? 0 then Some (-1, flow, br, w)
                    else
                      let br := br <| br_public_to_backend_bytes :=
                                        br_public_to_backend_bytes br +w64 written |> in
                      let pending := br_pending_public_bytes br in
                      let br := br <| br_pending_public_bytes :=
                                        if pending >=? written then pending -w64 written else 0 |> in
                      let w := match fw_pcb flow with
                               | Some pcb => tcp_recved w pcb (u16 written)
                               | None => w
                               end in
                      let '(rest, w) := chain_drop w p (u16 written) in
                      flush_public_loop fuel' w br (flow <| fw_public_rx := rest |>)
                end
            end
      end
  end.

(** Every round writes at least one byte, and the last one may only release. *)
Definition tcp_shift_bridge_flush_public_to_backend (w : W) (br : tcp_shift_bridge)
    (flow : tcp_shift_bridge_flow) : option (Z * tcp_shift_bridge_flow * tcp_shift_bridge * W) :=
  let bytes := match fw_public_rx flow with Some p => length (concat p) | None => 0%nat end in
  flush_public_loop (bytes + 2) w br flow.

(** ** Backend to public *)

(** [left]: [length - consumed], at least one byte less every round. *)
Fixpoint consume_loop (fuel : nat) (w : W) (fd left : Z) : option (Z * W) :=
  match fuel with
  | O => None
  | S fuel' =>
      if left <=? 0 then Some (0, w)
      else
        match recv_take w fd left with
        | (RecvBytes [], w) => Some (-1, w)
        | (RecvAgain, w) => Some (-1, w)
        | (RecvFailed, w) => Some (-1, w)
        | (RecvBytes bytes, w) => consume_loop fuel' w fd (left - Z.of_nat (length bytes))
        end
  end.

Definition tcp_shift_bridge_consume_backend (w : W) (flow : tcp_shift_bridge_flow) (length : Z)
    : option (Z * W) := consume_loop (S (Z.to_nat length)) w (fw_backend_fd flow) length.

(** The [for] loop. *)
Fixpoint pump_loop (budget : nat) (w : W) (br : tcp_shift_bridge) (flow : tcp_shift_bridge_flow)
    (pcb : Z) : option (Z * tcp_shift_bridge_flow * tcp_shift_bridge * W) :=
  match budget with
  | O => Some (0, flow, br, w)
  | S budget' =>
      let sndbuf := tcp_sndbuf w pcb in
      if sndbuf =? 0 then
        let '(flow, br) := tcp_shift_bridge_mark_backend_read_blocked br flow in
        Some (0, flow, br, w)
      else
        let wanted := TCP_SHIFT_BRIDGE_BACKEND_READ_CHUNK in
        let wanted := if wanted >? sndbuf then sndbuf else wanted in
        match recv_peek w (fw_backend_fd flow) wanted with
        | (RecvAgain, w) => Some (0, flow, br, cc_mark_app_limited w pcb)
        | (RecvFailed, w) => Some (-1, flow, br, w)
        | (RecvBytes [], w) => Some (0, flow <| fw_backend_eof := true |>, br, w)
        | (RecvBytes buffer, w) =>
            let available := Z.of_nat (length buffer) in
            let '(err, w) := tcp_write w pcb (take (Z.to_nat (u16 available)) buffer) in
            if err =? ERR_MEM then
              let '(flow, br) := tcp_shift_bridge_mark_backend_read_blocked br flow in
              Some (0, flow, br, w)
            else if negb (err =? ERR_OK) then Some (-1, flow, br, w)
            else
              '(rc, w) ← tcp_shift_bridge_consume_backend w flow available;
              if rc <? 0 then Some (-1, flow, br, w)
              else
                let br := br <| br_backend_to_public_bytes :=
                                  br_backend_to_public_bytes br +w64 available |> in
                pump_loop budget' (tcp_output w pcb) br flow pcb
        end
  end.

Definition tcp_shift_bridge_pump_backend_to_public (w : W) (br : tcp_shift_bridge)
    (flow : tcp_shift_bridge_flow) : option (Z * tcp_shift_bridge_flow * tcp_shift_bridge * W) :=
  match fw_pcb flow with
  | None => Some (0, flow, br, w)
  | Some pcb =>
      if negb (fw_backend_connected flow) || fw_backend_eof flow then Some (0, flow, br, w)
      else pump_loop TCP_SHIFT_BRIDGE_BACKEND_READ_BUDGET w br flow pcb
  end.

(** ** Closing *)

Definition tcp_shift_bridge_shutdown_backend_write (w : W) (flow : tcp_shift_bridge_flow)
    : Z * tcp_shift_bridge_flow * W :=
  if negb (fw_public_eof flow) || bool_decide (is_Some (fw_public_rx flow)) ||
     negb (fw_backend_connected flow) || fw_backend_write_shutdown flow
  then (0, flow, w)
  else
    match shutdown_write w (fw_backend_fd flow) with
    | (ShutdownFailed, w) => (-1, flow, w)
    | (_, w) => (0, flow <| fw_backend_write_shutdown := true |>, w)
    end.

Definition tcp_shift_bridge_shutdown_public_write (w : W) (flow : tcp_shift_bridge_flow)
    : Z * tcp_shift_bridge_flow * W :=
  match fw_pcb flow with
  | None => (0, flow, w)
  | Some pcb =>
      if negb (fw_backend_eof flow) || fw_public_write_shutdown flow then (0, flow, w)
      else
        let '(err, w) := tcp_shutdown_tx w pcb in
        if err =? ERR_MEM then (0, flow, w)
        else if negb (err =? ERR_OK) then (-1, flow, w)
        else (0, flow <| fw_public_write_shutdown := true |>, w)
  end.

(** No flow is left when the result is 1. *)
Definition tcp_shift_bridge_finish_if_done (w : W) (br : tcp_shift_bridge) (id : Z)
    (flow : tcp_shift_bridge_flow)
    : Z * option tcp_shift_bridge_flow * tcp_shift_bridge * W :=
  let '(rc, flow, w) := tcp_shift_bridge_shutdown_backend_write w flow in
  if rc <? 0 then (-1, Some flow, br, w)
  else
    let '(rc, flow, w) := tcp_shift_bridge_shutdown_public_write w flow in
    if rc <? 0 then (-1, Some flow, br, w)
    else
      match fw_pcb flow with
      | None => (0, Some flow, br, w)
      | Some pcb =>
          if negb (fw_public_eof flow) || negb (fw_backend_eof flow) ||
             bool_decide (is_Some (fw_public_rx flow)) ||
             negb (fw_backend_write_shutdown flow) || negb (fw_public_write_shutdown flow)
          then (0, Some flow, br, w)
          else
            let w := tcp_shift_bridge_flow_clear_callbacks w pcb in
            let '(err, w) := tcp_close w pcb in
            if negb (err =? ERR_OK)
            then (0, Some flow, br, tcp_shift_bridge_flow_set_callbacks w id flow)
            else
              let '(br, w) := tcp_shift_bridge_flow_release w br id (flow <| fw_pcb := None |>) in
              (1, None, br, w)
      end.

(** ** Progress *)

Definition tcp_shift_bridge_progress (w : W) (br : tcp_shift_bridge) (id : Z)
    (flow : tcp_shift_bridge_flow)
    : option (Z * option tcp_shift_bridge_flow * tcp_shift_bridge * W) :=
  '(rc, flow, br, w) ← tcp_shift_bridge_flush_public_to_backend w br flow;
  if rc <? 0 then Some (-1, Some flow, br, w)
  else
    '(rc, flow, br, w) ← tcp_shift_bridge_pump_backend_to_public w br flow;
    if rc <? 0 then Some (-1, Some flow, br, w)
    else
      match tcp_shift_bridge_finish_if_done w br id flow with
      | (finished, None, br, w) => Some (finished, None, br, w)
      | (finished, Some flow, br, w) =>
          if negb (finished =? 0) then Some (finished, Some flow, br, w)
          else
            let '(rc, flow, w) := tcp_shift_bridge_sync_backend_watch w id flow in
            if rc <? 0 then Some (-1, Some flow, br, w) else Some (0, Some flow, br, w)
      end.

(** [progress], then the abort of a flow that failed: the result is negative
    when it was aborted. *)
Definition progress_or_abort (w : W) (br : tcp_shift_bridge) (id : Z)
    (flow : tcp_shift_bridge_flow)
    : option (Z * option tcp_shift_bridge_flow * tcp_shift_bridge * W) :=
  '(result, flow, br, w) ← tcp_shift_bridge_progress w br id flow;
  match flow with
  | Some flow =>
      if result <? 0 then
        let br := br <| br_backend_failures := br_backend_failures br +w64 1 |> in
        let '(br, w) := tcp_shift_bridge_flow_abort w br id flow in
        Some (result, None, br, w)
      else Some (result, Some flow, br, w)
  | None => Some (result, None, br, w)
  end.

Definition tcp_shift_bridge_complete_backend_connect (w : W) (br : tcp_shift_bridge)
    (flow : tcp_shift_bridge_flow) : Z * tcp_shift_bridge_flow * tcp_shift_bridge * W :=
  match get_sock_error w (fw_backend_fd flow) with
  | (None, w) => (-1, flow, br, w)
  | (Some error, w) =>
      if negb (error =? 0) then (-1, flow, br, w)
      else (0, flow <| fw_backend_connecting := false |> <| fw_backend_connected := true |>,
            br <| br_backend_connects := br_backend_connects br +w64 1 |>, w)
  end.

(** ** Handlers *)

(** The flows that are allocated. *)
Abbreviation store := (gmap Z tcp_shift_bridge_flow).

(** A handler leaves the flow's contents, or nothing when it freed it. *)
Definition put_flow (flows : store) (id : Z) (flow : option tcp_shift_bridge_flow) : store :=
  partial_alter (fun _ => flow) id flows.

Definition fail_flow (w : W) (br : tcp_shift_bridge) (flows : store) (id : Z)
    (flow : tcp_shift_bridge_flow) : tcp_shift_bridge * store * W :=
  let br := br <| br_backend_failures := br_backend_failures br +w64 1 |> in
  let '(br, w) := tcp_shift_bridge_flow_abort w br id flow in
  (br, put_flow flows id None, w).

(** The second half of [backend_ready]. *)
Definition ready_progress (w : W) (br : tcp_shift_bridge) (flows : store) (id : Z)
    (flow : tcp_shift_bridge_flow) (events : Z) : option (Z * tcp_shift_bridge * store * W) :=
  if negb (Z.land events (Z.lor (Z.lor EPOLLIN EPOLLOUT) (Z.lor EPOLLRDHUP EPOLLHUP)) =? 0)
  then '(_, flow, br, w) ← progress_or_abort w br id flow;
       Some (0, br, put_flow flows id flow, w)
  else Some (0, br, put_flow flows id (Some flow), w).

Definition tcp_shift_bridge_backend_ready (w : W) (br : tcp_shift_bridge) (flows : store) (id : Z)
    (events : Z) : option (Z * tcp_shift_bridge * store * W) :=
  flow ← flows !! id;
  if fw_backend_connecting flow then
    let '(rc, flow, br, w) := tcp_shift_bridge_complete_backend_connect w br flow in
    if rc <? 0 then let '(br, flows, w) := fail_flow w br flows id flow in Some (0, br, flows, w)
    else ready_progress w br flows id flow events
  else if negb (Z.land events EPOLLERR =? 0) then
    match get_sock_error w (fw_backend_fd flow) with
    | (Some 0, w) => ready_progress w br flows id flow events
    | (_, w) => let '(br, flows, w) := fail_flow w br flows id flow in Some (0, br, flows, w)
    end
  else ready_progress w br flows id flow events.

(** [arg] and [p] may be NULL. *)
Definition tcp_shift_bridge_public_recv (w : W) (br : tcp_shift_bridge) (flows : store)
    (arg : option Z) (p : option chain) (err : Z) : option (Z * tcp_shift_bridge * store * W) :=
  let free_p := match p with Some p => chain_free w p | None => w end in
  match arg with
  | None => Some (ERR_VAL, br, flows, free_p)
  | Some id =>
      flow ← flows !! id;
      if negb (err =? ERR_OK) then
        let br := br <| br_public_errors := br_public_errors br +w64 1 |> in
        let '(br, w) := tcp_shift_bridge_flow_abort free_p br id flow in
        Some (ERR_ABRT, br, put_flow flows id None, w)
      else
        let '(flow, br) :=
          match p with
          | None => (flow <| fw_public_eof := true |>, br)
          | Some p =>
              (flow <| fw_public_rx := Some (match fw_public_rx flow with
                                             | None => p
                                             | Some q => chain_cat q p
                                             end) |>,
               tcp_shift_bridge_track_public_rx br p)
          end in
        '(result, flow, br, w) ← progress_or_abort w br id flow;
        Some (if result <? 0 then ERR_ABRT else ERR_OK, br, put_flow flows id flow, w)
  end.

Definition tcp_shift_bridge_public_sent (w : W) (br : tcp_shift_bridge) (flows : store)
    (arg : option Z) : option (Z * tcp_shift_bridge * store * W) :=
  match arg with
  | None => Some (ERR_OK, br, flows, w)
  | Some id =>
      flow ← flows !! id;
      '(result, flow, br, w) ←
        progress_or_abort w br id (flow <| fw_backend_read_blocked := false |>);
      Some (if result <? 0 then ERR_ABRT else ERR_OK, br, put_flow flows id flow, w)
  end.

Definition tcp_shift_bridge_public_poll (w : W) (br : tcp_shift_bridge) (flows : store)
    (arg : option Z) : option (Z * tcp_shift_bridge * store * W) :=
  match arg with
  | None => Some (ERR_OK, br, flows, w)
  | Some id =>
      flow ← flows !! id;
      '(result, flow, br, w) ←
        progress_or_abort w br id (flow <| fw_backend_read_blocked := false |>);
      Some (if result <? 0 then ERR_ABRT else ERR_OK, br, put_flow flows id flow, w)
  end.

Definition tcp_shift_bridge_public_error (w : W) (br : tcp_shift_bridge) (flows : store)
    (arg : option Z) : option (tcp_shift_bridge * store * W) :=
  match arg with
  | None => Some (br, flows, w)
  | Some id =>
      flow ← flows !! id;
      let br := br <| br_public_errors := br_public_errors br +w64 1 |> in
      let '(br, w) := tcp_shift_bridge_flow_release w br id (flow <| fw_pcb := None |>) in
      Some (br, put_flow flows id None, w)
  end.

(** ** Accepting *)

(** A failure before the flow is in the list. *)
Definition accept_fail (w : W) (br : tcp_shift_bridge) (flows : store) (fd newpcb : Z)
    : Z * tcp_shift_bridge * store * W :=
  let w := if fd >=? 0 then sock_close w fd else w in
  (ERR_ABRT, br <| br_backend_failures := br_backend_failures br +w64 1 |>, flows,
   tcp_abort w newpcb).

(** The flow is linked, gets its callbacks and is watched. *)
Definition accept_link (w : W) (br : tcp_shift_bridge) (flows : store) (id : Z)
    (flow : tcp_shift_bridge_flow) : Z * tcp_shift_bridge * store * W :=
  let br := br <| br_flows := id :: br_flows br |>
               <| br_active_flows := br_active_flows br +w64 1 |> in
  let br := if br_active_flows br >? br_peak_active_flows br
            then br <| br_peak_active_flows := br_active_flows br |> else br in
  let w := tcp_shift_bridge_flow_set_callbacks w id flow in
  let events := tcp_shift_bridge_backend_events flow in
  let '(rc, watch, w) := tcp_shift_lwip_loop_watch_add w loop (fw_backend_watch flow)
                           (fw_backend_fd flow) events (Some (FnClient id)) in
  let flow := flow <| fw_backend_watch := watch |> in
  if rc <? 0 then
    let '(br, flows, w) := fail_flow w br flows id flow in (ERR_ABRT, br, flows, w)
  else (ERR_OK, br, put_flow flows id (Some flow), w).

Definition tcp_shift_bridge_accept (w : W) (br : tcp_shift_bridge) (flows : store)
    (newpcb : option Z) (err : Z) : Z * tcp_shift_bridge * store * W :=
  match newpcb with
  | None => (ERR_VAL, br, flows, w)
  | Some newpcb =>
      if negb (err =? ERR_OK) then (ERR_VAL, br, flows, w)
      else
        let br := br <| br_accepts := br_accepts br +w64 1 |> in
        match flow_alloc w with
        | (None, w) => (ERR_ABRT, br, flows, tcp_abort w newpcb)
        | (Some id, w) =>
            let '(fd, w) := sock_open w in
            let flow := zero_flow <| fw_pcb := Some newpcb |> <| fw_backend_fd := fd |>
                                  <| fw_backend_watch := zero_watch <| wt_fd := -1 |> |> in
            if fd <? 0 then accept_fail w br flows fd newpcb
            else
              let '(rc, br, w) := tcp_shift_bridge_configure_backend_socket w br fd in
              if rc <? 0 then accept_fail w br flows fd newpcb
              else
                match sock_connect w fd (br_backend_port br) with
                | (Connected, w) =>
                    accept_link w (br <| br_backend_connects := br_backend_connects br +w64 1 |>)
                      flows id (flow <| fw_backend_connected := true |>)
                | (ConnectInProgress, w) =>
                    accept_link w br flows id (flow <| fw_backend_connecting := true |>)
                | (ConnectFailed, w) => accept_fail w br flows fd newpcb
                end
        end
  end.

(** ** Start and stop *)

Definition tcp_shift_bridge_start_type (w : W) (br : tcp_shift_bridge)
    (public_port backend_port ip_type : Z) : Z * tcp_shift_bridge * W :=
  if (lp_epoll_fd loop <? 0) || (public_port =? 0) || (backend_port =? 0) then (-1, br, w)
  else
    let br := zero_bridge <| br_loop := true |> <| br_public_port := public_port |>
                          <| br_backend_port := backend_port |> in
    match tcp_new_ip_type w ip_type with
    | (None, w) => (-1, br, w)
    | (Some pcb, w) =>
        let '(err, w) := tcp_bind w pcb public_port in
        if negb (err =? ERR_OK) then (-1, br, tcp_abort w pcb)
        else
          match tcp_listen w pcb with
          | (None, _, w) => (-1, br, tcp_abort w pcb)
          | (Some listener, err, w) =>
              if negb (err =? ERR_OK) then (-1, br, w)
              else (0, br <| br_listener := Some listener |>, tcp_accept_callback w listener true)
          end
    end.

Definition tcp_shift_bridge_start_ipv4 (w : W) (br : tcp_shift_bridge)
    (public_port backend_port : Z) : Z * tcp_shift_bridge * W :=
  tcp_shift_bridge_start_type w br public_port backend_port IPADDR_TYPE_V4.

Definition tcp_shift_bridge_start_ipv6 (w : W) (br : tcp_shift_bridge)
    (public_port backend_port : Z) : Z * tcp_shift_bridge * W :=
  tcp_shift_bridge_start_type w br public_port backend_port IPADDR_TYPE_V6.

(** The loop over [flows]: an abort takes the head out of the list. *)
Fixpoint stop_loop (fuel : nat) (w : W) (br : tcp_shift_bridge) (flows : store)
    : option (tcp_shift_bridge * store * W) :=
  match br_flows br with
  | [] => Some (br, flows, w)
  | id :: _ =>
      match fuel with
      | O => None
      | S fuel' =>
          flow ← flows !! id;
          let '(br, w) := tcp_shift_bridge_flow_abort w br id flow in
          stop_loop fuel' w br (put_flow flows id None)
      end
  end.

Definition tcp_shift_bridge_stop (w : W) (br : tcp_shift_bridge) (flows : store)
    : option (tcp_shift_bridge * store * W) :=
  let '(br, w) :=
    match br_listener br with
    | None => (br, w)
    | Some listener =>
        let w := tcp_accept_callback w listener false in
        let '(err, w) := tcp_close w listener in
        (br <| br_listener := None |>, if negb (err =? ERR_OK) then tcp_abort w listener else w)
    end in
  '(br, flows, w) ← stop_loop (length (br_flows br)) w br flows;
  Some (br <| br_loop := false |>, flows, w).

End Bridge.
