(* ===== verification/BridgeFlow.v ===== *)
(** * One flow of the bridge

    The laws of sockets and connections, the invariant of a flow, and what each
    part of a handler does to it: [flush], [pump], the shutdowns, the end of a
    flow, its watch, and [progress] that composes them. *)

From Stdlib Require Import ZArith Lia Bool List.
From stdpp Require Import base tactics numbers list option gmap.
From S2P Require Import Prelude L3Tun LwipLoop Bridge.
Local Open Scope Z_scope.

(** lwIP's receive window in [lwipopts.h]: what the peer may send before the
    bridge calls [tcp_recved]. *)
Abbreviation TCP_WND := 32768.

(** ** The observable system *)

(** The histories of a socket: the bytes it took, the bytes read from it, the
    bytes it holds for reading, whether it is open and what it is watched for; and
    of a connection: the bytes it took for sending, the window it was given back
    and the argument of its callbacks. *)
Class History (W : Type) := {
  h_out : W -> Z -> list Z;
  h_taken : W -> Z -> list Z;
  h_input : W -> Z -> list Z;
  h_open : W -> Z -> bool;
  h_watch : W -> Z -> option Z;
  h_sent : W -> Z -> list Z;
  h_credit : W -> Z -> Z;
  h_arg : W -> Z -> option Z
}.

Section Spec.
Context {W : Type} `{!LoopOS W} `{!BridgeOS W} `{!History W} {loop : tcp_shift_lwip_loop}.

(** The socket [fd] and the connection [pcb] have the same history. *)
Definition same_sock (w w' : W) (fd : Z) : Prop :=
  h_out w' fd = h_out w fd /\ h_taken w' fd = h_taken w fd /\
  h_open w' fd = h_open w fd /\ h_watch w' fd = h_watch w fd.
Definition same_pcb (w w' : W) (pcb : Z) : Prop :=
  h_sent w' pcb = h_sent w pcb /\ h_credit w' pcb = h_credit w pcb /\
  h_arg w' pcb = h_arg w pcb.

Definition still (w w' : W) : Prop :=
  (forall fd, same_sock w w' fd) /\ (forall pcb, same_pcb w w' pcb).

(** Only the socket [fd] and the connection [pcb] may have changed. *)
Definition frame (fd pcb : Z) (w w' : W) : Prop :=
  (forall fd', fd' <> fd -> same_sock w w' fd') /\
  (forall pcb', pcb' <> pcb -> same_pcb w w' pcb').

Class BridgeLaws : Prop := {
  open_law w fd w' : sock_open w = (fd, w') ->
    (forall pcb, same_pcb w w' pcb) /\ (forall fd', fd' <> fd -> same_sock w w' fd') /\
    (fd < 0 -> still w w') /\
    (0 <= fd -> h_open w fd = false /\ h_open w' fd = true /\ h_out w' fd = [] /\
                h_taken w' fd = [] /\ h_watch w' fd = None);
  close_law w fd : let w' := sock_close w fd in
    (forall pcb, same_pcb w w' pcb) /\ (forall fd', fd' <> fd -> same_sock w w' fd') /\
    h_out w' fd = h_out w fd /\ h_taken w' fd = h_taken w fd;
  connect_still w fd port : still w (sock_connect w fd port).2;
  setopt_still w fd o v : still w (set_sock_buffer w fd o v).2;
  getopt_still w fd o : still w (get_sock_buffer w fd o).2;
  geterr_still w fd : still w (get_sock_error w fd).2;
  shutdown_still w fd : still w (shutdown_write w fd).2;
  peek_still w fd n : still w (recv_peek w fd n).2;
  (** [writev] takes a prefix of what it is given. *)
  writev_law w fd iov r w' : sock_writev w fd iov = (r, w') ->
    (forall pcb, same_pcb w w' pcb) /\ (forall fd', fd' <> fd -> same_sock w w' fd') /\
    h_taken w' fd = h_taken w fd /\ h_open w' fd = h_open w fd /\
    h_watch w' fd = h_watch w fd /\
    match r with
    | WriteCount n => 0 <= n <= Z.of_nat (length (concat iov)) /\
        h_out w' fd = h_out w fd ++ take (Z.to_nat n) (concat iov)
    | _ => h_out w' fd = h_out w fd
    end;
  (** [MSG_PEEK] shows the first bytes a socket holds, and [recv] takes the
      first bytes, after more may have arrived. *)
  peek_law w fd n b w' : recv_peek w fd n = (RecvBytes b, w') ->
    Z.of_nat (length b) <= n /\ b `prefix_of` h_input w' fd;
  take_law w fd n r w' : recv_take w fd n = (r, w') ->
    (forall pcb, same_pcb w w' pcb) /\ (forall fd', fd' <> fd -> same_sock w w' fd') /\
    h_out w' fd = h_out w fd /\ h_open w' fd = h_open w fd /\
    h_watch w' fd = h_watch w fd /\
    match r with
    | RecvBytes b => Z.of_nat (length b) <= n /\ h_taken w' fd = h_taken w fd ++ b /\
        h_input w fd `prefix_of` b ++ h_input w' fd
    | _ => h_taken w' fd = h_taken w fd
    end;
  tcp_write_law w pcb b err w' : tcp_write w pcb b = (err, w') ->
    (forall fd, same_sock w w' fd) /\ (forall pcb', pcb' <> pcb -> same_pcb w w' pcb') /\
    (forall fd, h_input w fd `prefix_of` h_input w' fd) /\
    h_credit w' pcb = h_credit w pcb /\ h_arg w' pcb = h_arg w pcb /\
    h_sent w' pcb = if err =? ERR_OK then h_sent w pcb ++ b else h_sent w pcb;
  recved_law w pcb n : let w' := tcp_recved w pcb n in
    (forall fd, same_sock w w' fd) /\ (forall pcb', pcb' <> pcb -> same_pcb w w' pcb') /\
    h_credit w' pcb = h_credit w pcb + n /\ h_arg w' pcb = h_arg w pcb /\
    h_sent w' pcb = h_sent w pcb;
  callbacks_law w pcb a : let w' := tcp_callbacks w pcb a in
    (forall fd, same_sock w w' fd) /\ (forall pcb', pcb' <> pcb -> same_pcb w w' pcb') /\
    h_arg w' pcb = a /\ h_credit w' pcb = h_credit w pcb /\ h_sent w' pcb = h_sent w pcb;
  output_still w pcb : still w (tcp_output w pcb);
  tcp_shutdown_still w pcb : still w (tcp_shutdown_tx w pcb).2;
  tcp_close_still w pcb : still w (tcp_close w pcb).2;
  tcp_abort_still w pcb : still w (tcp_abort w pcb);
  accept_callback_still w pcb b : still w (tcp_accept_callback w pcb b);
  chain_free_still w p : still w (chain_free w p);
  app_limited_still w pcb : still w (cc_mark_app_limited w pcb);
  alloc_still w : still w (flow_alloc w).2;
  chain_cat_law p q : concat (chain_cat p q) = concat p ++ concat q;
  chain_drop_law w p n r w' : chain_drop w p n = (r, w') ->
    still w w' /\ from_option (@concat Z) [] r = drop (Z.to_nat n) (concat p);
  (** [epoll_ctl] adds a file once and changes the events of that file only. *)
  ctl_law w op fd ev rc w' : epoll_ctl w (lp_epoll_fd loop) op fd ev = (rc, w') ->
    (forall pcb, same_pcb w w' pcb) /\ (forall fd', fd' <> fd -> same_sock w w' fd') /\
    h_out w' fd = h_out w fd /\ h_taken w' fd = h_taken w fd /\
    h_open w' fd = h_open w fd /\
    h_watch w' fd = if rc <? 0 then h_watch w fd
                      else match op with EPOLL_CTL_DEL => None | _ => Some ev end
}.
Context {Hlaws : BridgeLaws}.

Lemma same_sock_trans w1 w2 w3 fd : same_sock w1 w2 fd -> same_sock w2 w3 fd -> same_sock w1 w3 fd.
Proof. intros (?&?&?&?) (?&?&?&?). split_and!; congruence. Qed.
Lemma same_pcb_trans w1 w2 w3 p : same_pcb w1 w2 p -> same_pcb w2 w3 p -> same_pcb w1 w3 p.
Proof. intros (?&?&?) (?&?&?). split_and!; congruence. Qed.
Lemma still_refl w : still w w.
Proof. done. Qed.
Lemma still_trans w1 w2 w3 : still w1 w2 -> still w2 w3 -> still w1 w3.
Proof.
  intros [H1 H2] [H3 H4]. split; intros;
    [by eapply same_sock_trans|by eapply same_pcb_trans].
Qed.
Lemma frame_trans fd pcb w1 w2 w3 : frame fd pcb w1 w2 -> frame fd pcb w2 w3 -> frame fd pcb w1 w3.
Proof.
  intros [H1 H2] [H3 H4]. split; intros;
    [eapply same_sock_trans; eauto|eapply same_pcb_trans; eauto].
Qed.
Lemma still_frame fd pcb w w' : still w w' -> frame fd pcb w w'.
Proof. intros [H1 H2]. by split. Qed.

(** ** A flow *)

(** The bytes that wait for the backend. *)
Definition pend (f : tcp_shift_bridge_flow) : list Z := from_option (@concat Z) [] (fw_public_rx f).

Definition pend_len (f : tcp_shift_bridge_flow) : Z := Z.of_nat (length (pend f)).

(** The watch and the kernel agree. *)
Definition watch_ok (w : W) (id : Z) (f : tcp_shift_bridge_flow) : Prop :=
  if wt_registered (fw_backend_watch f) then
    wt_fd (fw_backend_watch f) = fw_backend_fd f /\
    wt_callback (fw_backend_watch f) = Some (FnClient id) /\
    h_watch w (fw_backend_fd f) = Some (wt_events (fw_backend_watch f))
  else h_watch w (fw_backend_fd f) = None.

(** The file is watched for what the flow waits for. *)
Definition armed (f : tcp_shift_bridge_flow) : Prop :=
  if wt_registered (fw_backend_watch f)
  then wt_events (fw_backend_watch f) = tcp_shift_bridge_backend_events f \/
       wt_events (fw_backend_watch f) = EPOLLOUT /\ fw_backend_connected f = true
  else tcp_shift_bridge_backend_events f = 0.

(** [got]: the bytes lwIP handed over for the flow so far. *)
Record flow_core (w : W) (got : list Z) (id pcb : Z) (f : tcp_shift_bridge_flow) : Prop := {
  fo_pcb : fw_pcb f = Some pcb;
  fo_fd : 0 <= fw_backend_fd f;
  fo_open : h_open w (fw_backend_fd f) = true;
  fo_arg : h_arg w pcb = Some id;
  fo_out : h_out w (fw_backend_fd f) ++ pend f = got;
  fo_credit : h_credit w pcb = Z.of_nat (length (h_out w (fw_backend_fd f)));
  fo_sent : h_sent w pcb = h_taken w (fw_backend_fd f);
  fo_room : pend_len f <= TCP_WND;
  fo_watch : watch_ok w id f;
  fo_state : fw_backend_connecting f = negb (fw_backend_connected f);
  fo_fin : fw_backend_write_shutdown f = true -> fw_public_eof f = true /\ fw_public_rx f = None;
  fo_public_fin : fw_public_write_shutdown f = true -> fw_backend_eof f = true
}.

(** Other flows do not notice. *)
Lemma flow_core_frame w w' fd pcb got id' pcb' f :
  frame fd pcb w w' -> fw_backend_fd f <> fd -> pcb' <> pcb ->
  flow_core w got id' pcb' f -> flow_core w' got id' pcb' f.
Proof.
  intros [Hs Hp] Hfd Hpcb [? ? Ho Ha Hout Hc Hst ? Hw ? ? ?]. destruct (Hs _ Hfd) as (E1 & E2 & E3 & E4).
  destruct (Hp _ Hpcb) as (E5 & E6 & E7).
  constructor; try done; rewrite ?E1, ?E2, ?E3, ?E5, ?E6, ?E7; try done.
  unfold watch_ok in *. by rewrite E4.
Qed.

Lemma flow_core_still w w' got id pcb f :
  still w w' -> flow_core w got id pcb f -> flow_core w' got id pcb f.
Proof.
  intros [Hs Hp] [? ? Ho Ha Hout Hc Hst ? Hw ? ? ?].
  destruct (Hs (fw_backend_fd f)) as (E1 & E2 & E3 & E4). destruct (Hp pcb) as (E5 & E6 & E7).
  constructor; try done; rewrite ?E1, ?E2, ?E3, ?E5, ?E6, ?E7; try done.
  unfold watch_ok in *. by rewrite E4.
Qed.

(** ** Accounting *)

(** The bridge keeps its list and its flow counters, and the pending bytes go
    from [n] to [n'] for the flow at hand. *)
Definition keeps_flows (br br' : tcp_shift_bridge) : Prop :=
  br_flows br' = br_flows br /\ br_active_flows br' = br_active_flows br /\
  br_peak_active_flows br' = br_peak_active_flows br /\
  br_peak_pending_public_bytes br' = br_peak_pending_public_bytes br.

Definition acct (br : tcp_shift_bridge) (n : Z) (br' : tcp_shift_bridge) (n' : Z) : Prop :=
  keeps_flows br br' /\
  br_pending_public_bytes br' = br_pending_public_bytes br - n + n'.

Lemma acct_trans br1 n1 br2 n2 br3 n3 : acct br1 n1 br2 n2 -> acct br2 n2 br3 n3 -> acct br1 n1 br3 n3.
Proof. intros [(?&?&?&?) ?] [(?&?&?&?) ?]. split; [split_and!; congruence|lia]. Qed.

Lemma acct_refl br n : acct br n br n.
Proof. split; [done|lia]. Qed.

(** The pending counter holds at least the flow's bytes and does not wrap. *)
Definition pending_ok (br : tcp_shift_bridge) (n : Z) : Prop :=
  n <= br_pending_public_bytes br <= UINT64_MAX.

Lemma tot_len_small p : Z.of_nat (length (concat p)) <= TCP_WND -> tot_len p = Z.of_nat (length (concat p)).
Proof. intros Hp. unfold tot_len. apply u16_small. lia. Qed.

Lemma release_pending_spec w br f f' br' w' :
  pend_len f <= TCP_WND -> pending_ok br (pend_len f) ->
  tcp_shift_bridge_release_pending_public w br f = (f', br', w') ->
  still w w' /\ f' = f <| fw_public_rx := None |> /\ acct br (pend_len f) br' 0.
Proof.
  unfold tcp_shift_bridge_release_pending_public, pend_len, pend, pending_ok. intros Hp Hb E.
  destruct f as [pcb fd wt [p|] c1 c2 e1 e2 s1 s2 rb]; cbn in *; injection E as <- <- <-.
  - split; [apply chain_free_still|]. split; [done|]. rewrite tot_len_small by done.
    destruct (_ >=? _) eqn:E1; [|lia]. split; [done|]. cbn. rewrite u64_small; lia.
  - split; [done|]. split; [done|]. apply acct_refl.
Qed.

(** ** Public to backend *)

Lemma gather_iov_keeps p : forall iov, iov <> [] -> gather_iov p iov <> [].
Proof.
  induction p as [|q p IH]; intros iov Hi; cbn; [done|].
  destruct (_ <? _); [|done]. destruct (_ =? 0); apply IH; [done|by destruct iov].
Qed.

(** The vector is a prefix of the chain, and is empty only when the chain is. *)
Lemma gather_iov_spec p : forall iov,
  (exists rest, concat iov ++ concat p = concat (gather_iov p iov) ++ rest) /\
  (gather_iov p iov = [] -> concat p = []).
Proof.
  induction p as [|q p IH]; intros iov; cbn [gather_iov].
  - split; [|done]. exists []. cbn. by rewrite !app_nil_r.
  - destruct (_ <? _) eqn:E1.
    2:{ split; [by exists (concat (q :: p))|]. intros ->. done. }
    destruct (Z.of_nat (length q) =? 0) eqn:E2.
    + assert (q = []) as -> by (apply nil_length_inv; lia). cbn [concat app]. apply IH.
    + destruct (IH (iov ++ [q])) as [[rest H1] _]. split.
      * exists rest. rewrite <- H1, concat_app. cbn. by rewrite app_nil_r, <- app_assoc.
      * intros Hg. by apply gather_iov_keeps in Hg; [|by destruct iov].
Qed.

(** What any part of a handler does to the rest of the bridge: it touches the
    flow's own socket and connection only, and the pending bytes are accounted. *)
Record effect (pcb id : Z) (w : W) (br : tcp_shift_bridge) (f : tcp_shift_bridge_flow)
    (w' : W) (br' : tcp_shift_bridge) (f' : tcp_shift_bridge_flow) : Prop := {
  ef_frame : frame (fw_backend_fd f) pcb w w';
  ef_acct : acct br (pend_len f) br' (pend_len f');
  ef_pcb : fw_pcb f' = fw_pcb f;
  ef_fd : fw_backend_fd f' = fw_backend_fd f;
  ef_len : pend_len f' <= pend_len f;
  ef_watch : watch_ok w id f -> watch_ok w' id f'
}.

Lemma effect_trans pcb id w1 br1 f1 w2 br2 f2 w3 br3 f3 :
  effect pcb id w1 br1 f1 w2 br2 f2 -> effect pcb id w2 br2 f2 w3 br3 f3 -> effect pcb id w1 br1 f1 w3 br3 f3.
Proof.
  intros [A1 A2 A3 A4 A5 A6] [B1 B2 B3 B4 B5 B6]. rewrite A4 in B1. constructor.
  - by eapply frame_trans.
  - by eapply acct_trans.
  - congruence.
  - congruence.
  - lia.
  - auto.
Qed.

Lemma effect_still pcb id w br f w' br' f' :
  still w w' -> keeps_flows br br' ->
  br_pending_public_bytes br' = br_pending_public_bytes br ->
  fw_pcb f' = fw_pcb f -> fw_backend_fd f' = fw_backend_fd f -> fw_public_rx f' = fw_public_rx f ->
  fw_backend_watch f' = fw_backend_watch f -> effect pcb id w br f w' br' f'.
Proof.
  intros Hs Hk Hp H1 H2 H3 H4. assert (pend_len f' = pend_len f) as E by (unfold pend_len, pend; by rewrite H3).
  constructor; rewrite ?E; try done; try lia.
  - by apply still_frame.
  - split; [done|lia].
  - intros Hw. unfold watch_ok in *. rewrite H2, H4.
    by destruct (proj1 Hs (fw_backend_fd f)) as (_ & _ & _ & ->).
Qed.

Lemma effect_pending pcb id w br f w' br' f' :
  effect pcb id w br f w' br' f' -> pending_ok br (pend_len f) -> pending_ok br' (pend_len f').
Proof.
  intros [_ [_ E] _ _ El _] [H1 H2]. unfold pending_ok. rewrite E. unfold pend_len in *. lia.
Qed.

(** One round of the flush writes [n] bytes. *)
Lemma flush_round w br f got id pcb p n w1 r w2 :
  flow_core w got id pcb f -> pending_ok br (pend_len f) -> fw_public_rx f = Some p ->
  sock_writev w (fw_backend_fd f) (gather_iov p []) = (WriteCount n, w1) -> n <> 0 ->
  chain_drop (tcp_recved w1 pcb (u16 n)) p (u16 n) = (r, w2) ->
  let br' := br <| br_public_to_backend_bytes := br_public_to_backend_bytes br +w64 n |>
                <| br_pending_public_bytes := if br_pending_public_bytes br >=? n
                     then br_pending_public_bytes br -w64 n else 0 |> in
  let f' := f <| fw_public_rx := r |> in
  flow_core w2 got id pcb f' /\ effect pcb id w br f w2 br' f' /\ pend_len f' < pend_len f.
Proof.
  intros Hok Hb Ep Ew Hn Ed br' f'.
  destruct (gather_iov_spec p []) as [[rest Hp] _]. cbn in Hp.
  assert (Hpend : pend f = concat p) by (unfold pend; by rewrite Ep).
  destruct (writev_law _ _ _ _ _ Ew) as (L1 & L2 & L3 & L4 & L5 & [L6 L7]).
  destruct (recved_law w1 pcb (u16 n)) as (R1 & R2 & R3 & R4 & R5).
  destruct (chain_drop_law _ _ _ _ _ Ed) as [[D1 D2] D3].
  pose proof Hok as [O1 O2 O3 O4 O5 O6 O7 O8 O9 O10 O11 O12].
  assert (Hlen : n <= pend_len f).
  { unfold pend_len. rewrite Hpend, Hp, length_app. lia. }
  assert (Hu : u16 n = n) by (apply u16_small; lia). rewrite Hu in *.
  assert (Hpend' : pend f' = drop (Z.to_nat n) (pend f)) by (unfold pend at 1; cbn; by rewrite D3, Hpend).
  assert (Hlen' : pend_len f' = pend_len f - n).
  { unfold pend_len in *. rewrite Hpend', length_drop. lia. }
  destruct (D1 (fw_backend_fd f)) as (S1 & S2 & S3 & S4).
  destruct (R1 (fw_backend_fd f)) as (T1 & T2 & T3 & T4).
  destruct (D2 pcb) as (P1 & P2 & P3). destruct (L1 pcb) as (Q1 & Q2 & Q3).
  split; [|split; [|lia]].
  - assert (Hout : h_out w2 (fw_backend_fd f) =
      h_out w (fw_backend_fd f) ++ take (Z.to_nat n) (concat (gather_iov p [])))
      by (by rewrite S1, T1, L7).
    assert (Htake : take (Z.to_nat n) (pend f) = take (Z.to_nat n) (concat (gather_iov p []))).
    { rewrite Hpend, Hp, take_app_le by lia. done. }
    constructor; try done; cbn [fw_backend_fd f' set_field].
    + change (h_open w2 (fw_backend_fd f) = true). congruence.
    + congruence.
    + change (h_out w2 (fw_backend_fd f) ++ pend f' = got).
      rewrite Hout, Hpend', <- app_assoc, <- Htake, take_drop. done.
    + change (h_credit w2 pcb = Z.of_nat (length (h_out w2 (fw_backend_fd f)))).
      rewrite P2, R3, Q2, O6, Hout, length_app, <- Htake, length_take. unfold pend_len in *. lia.
    + change (h_sent w2 pcb = h_taken w2 (fw_backend_fd f)). congruence.
    + lia.
    + unfold watch_ok in *. cbn. by rewrite S4, T4, L5.
    + intros Hs. destruct (O11 Hs) as [_ HN]. congruence.
  - constructor; try done; try lia.
    + split.
      * intros fd' Hne. eapply same_sock_trans; [by apply L2|].
        eapply same_sock_trans; [apply R1|apply D1].
      * intros pcb' Hne. eapply same_pcb_trans; [apply L1|].
        eapply same_pcb_trans; [by apply R2|apply D2].
    + split; [done|]. cbn. rewrite Hlen'. unfold pending_ok in Hb.
      destruct (_ >=? n) eqn:E; [rewrite u64_small; lia|lia].
    + intros Hw. unfold watch_ok in *. cbn. by rewrite S4, T4, L5.
Qed.

Lemma flush_loop_ok fuel : forall w br f got id pcb,
  flow_core w got id pcb f -> pending_ok br (pend_len f) -> pend_len f + 1 < Z.of_nat fuel ->
  exists rc f' br' w', flush_public_loop fuel w br f = Some (rc, f', br', w') /\
    flow_core w' got id pcb f' /\ effect pcb id w br f w' br' f'.
Proof.
  induction fuel as [|fuel IH]; intros w br f got id pcb Hok Hb Hfuel; [unfold pend_len in *; lia|].
  cbn [flush_public_loop].
  destruct (fw_public_rx f) as [p|] eqn:Ep.
  2:{ exists 0, f, br, w. split; [done|]. split; [done|]. by apply effect_still. }
  destruct (fw_backend_connected f) eqn:Ec; cbn [negb].
  2:{ exists 0, f, br, w. split; [done|]. split; [done|]. by apply effect_still. }
  destruct (gather_iov p []) as [|v iov] eqn:Eg.
  - destruct (tcp_shift_bridge_release_pending_public w br f) as [[f1 br1] w1] eqn:E1.
    destruct (release_pending_spec _ _ _ _ _ _ (fo_room _ _ _ _ _ Hok) Hb E1) as (Hs & -> & Ha).
    assert (Hz : pend f = []) by (unfold pend; rewrite Ep; by apply (gather_iov_spec p [])).
    exists 0, (f <| fw_public_rx := None |>), br1, w1. split; [done|].
    apply (flow_core_still _ _ _ _ _ _ Hs) in Hok as [O1 O2 O3 O4 O5 O6 O7 O8 O9 O10 O11 O12].
    split; [constructor; try done|].
    + by rewrite <- O5, Hz.
    + intros Hsd. by destruct (O11 Hsd).
    + constructor; try done; [by apply still_frame|unfold pend_len; cbn; lia].
  - rewrite <- Eg. destruct (sock_writev w (fw_backend_fd f) (gather_iov p [])) as [res w1] eqn:Ew.
    assert (Hstill : (forall n, res <> WriteCount n \/ n = 0 /\ res = WriteCount 0) -> still w w1).
    { intros Hr. destruct (writev_law _ _ _ _ _ Ew) as (L1 & L2 & L3 & L4 & L5 & L6).
      split; [|done]. intros fd'. destruct (decide (fd' = fw_backend_fd f)) as [->|Hne]; [|by apply L2].
      split_and!; try done. destruct res as [n| |]; [|done|done].
      destruct (Hr n) as [?|[-> _]]; [done|]. destruct L6 as [_ L6]. by rewrite L6, app_nil_r. }
    destruct res as [n| |].
    + destruct (n =? 0) eqn:En.
      * exists (-1), f, br, w1. split; [done|].
        assert (Hs : still w w1).
        { apply Hstill. intros m. assert (n = 0) as -> by lia.
          destruct (decide (m = 0)) as [->|]; [by right|left; congruence]. }
        split; [by eapply flow_core_still|by apply effect_still].
      * rewrite (fo_pcb _ _ _ _ _ Hok).
        destruct (chain_drop (tcp_recved w1 pcb (u16 n)) p (u16 n)) as [r w2] eqn:Ed.
        destruct (flush_round w br f got id pcb p n w1 r w2 Hok Hb Ep Ew ltac:(lia) Ed)
          as (Hok2 & Hef & Hlt).
        destruct (IH _ _ _ _ _ _ Hok2 (effect_pending _ _ _ _ _ _ _ _ Hef Hb) ltac:(lia))
          as (rc & f' & br' & w' & E' & Hok' & Hef').
        exists rc, f', br', w'. split; [|split; [done|by eapply effect_trans]].
        exact E'.
    + eexists 0, f, _, w1. split; [done|].
      assert (Hs : still w w1) by (apply Hstill; by left).
      split; [by eapply flow_core_still|by apply effect_still].
    + exists (-1), f, br, w1. split; [done|].
      assert (Hs : still w w1) by (apply Hstill; by left).
      split; [by eapply flow_core_still|by apply effect_still].
Qed.

(** ** Backend to public *)

(** Reading touches what was read from one socket only. *)
Definition reads (fd : Z) (w w' : W) : Prop :=
  (forall pcb, same_pcb w w' pcb) /\ (forall fd', fd' <> fd -> same_sock w w' fd') /\
  h_out w' fd = h_out w fd /\ h_open w' fd = h_open w fd /\
  h_watch w' fd = h_watch w fd.

Lemma reads_trans fd w1 w2 w3 : reads fd w1 w2 -> reads fd w2 w3 -> reads fd w1 w3.
Proof.
  intros (A1 & A2 & A3 & A4 & A5) (B1 & B2 & B3 & B4 & B5). split_and!; try congruence.
  - intros pcb. by eapply same_pcb_trans.
  - intros fd' Hne. eapply same_sock_trans; eauto.
Qed.

(** Taking fewer bytes than were shown takes the first of them. *)
Lemma prefix_split (b c i : list Z) :
  b `prefix_of` c ++ i -> (length c <= length b)%nat ->
  exists b', b = c ++ b' /\ b' `prefix_of` i.
Proof.
  intros [k E] Hl. exists (drop (length c) b).
  assert (Hc : c = take (length c) b).
  { rewrite <- (take_app_le b k), <- E, take_app_length by done. done. }
  split; [by rewrite Hc at 1; rewrite take_drop|]. exists k.
  rewrite <- drop_app_le, <- E, drop_app_length by done. done.
Qed.

(** The bytes that were shown are the bytes that are taken. *)
Lemma consume_loop_ok fuel : forall w fd b,
  b `prefix_of` h_input w fd -> (length b < fuel)%nat ->
  exists rc w', consume_loop fuel w fd (Z.of_nat (length b)) = Some (rc, w') /\ reads fd w w' /\
    (0 <= rc -> h_taken w' fd = h_taken w fd ++ b).
Proof.
  induction fuel as [|fuel IH]; intros w fd b Hb Hf; [lia|]. cbn [consume_loop].
  destruct (_ <=? 0) eqn:E0.
  { exists 0, w. split; [done|]. split; [done|]. intros _.
    destruct b; [by rewrite app_nil_r|apply Z.leb_le in E0; rewrite length_cons in E0; lia]. }
  destruct (recv_take w fd (Z.of_nat (length b))) as [res w1] eqn:E1.
  destruct (take_law _ _ _ _ _ E1) as (T1 & T2 & T3 & T4 & T5 & T6).
  assert (Hr : reads fd w w1) by done.
  destruct res as [c| |]; [|exists (-1), w1; split; [done|]; split; [done|]; intros; lia..].
  destruct T6 as (Tl & Tt & Ti).
  destruct c as [|x c]; [exists (-1), w1; split; [done|]; split; [done|]; intros; lia|].
  destruct (prefix_split b (x :: c) (h_input w1 fd)) as (b' & -> & Hb').
  { by etrans. } { lia. }
  assert (El : Z.of_nat (length ((x :: c) ++ b')) - Z.of_nat (length (x :: c)) = Z.of_nat (length b'))
    by (rewrite length_app; lia).
  rewrite El. destruct (IH w1 fd b' Hb') as (rc & w' & E' & Hr' & Ht').
  { rewrite length_app in Hf. cbn in Hf. lia. }
  exists rc, w'. split; [done|]. split; [by eapply reads_trans|]. intros Hrc.
  rewrite (Ht' Hrc), Tt. by rewrite <- app_assoc.
Qed.

(** Only flags changed. *)
Lemma flow_core_flags w got id pcb f f' :
  flow_core w got id pcb f -> fw_pcb f' = fw_pcb f -> fw_backend_fd f' = fw_backend_fd f ->
  fw_backend_watch f' = fw_backend_watch f -> fw_public_rx f' = fw_public_rx f ->
  fw_backend_connecting f' = negb (fw_backend_connected f') ->
  (fw_backend_write_shutdown f' = true -> fw_public_eof f' = true /\ fw_public_rx f' = None) ->
  (fw_public_write_shutdown f' = true -> fw_backend_eof f' = true) ->
  flow_core w got id pcb f'.
Proof.
  intros [O1 O2 O3 O4 O5 O6 O7 O8 O9 O10 O11 O12] E1 E2 E3 E4 E5 E6 E7.
  assert (Ep : pend f' = pend f) by (unfold pend; by rewrite E4).
  constructor; unfold pend_len, watch_ok in *; rewrite ?E1, ?E2, ?E3, ?Ep; done.
Qed.

Lemma mark_blocked_ok w br f got id pcb f' br' :
  flow_core w got id pcb f -> tcp_shift_bridge_mark_backend_read_blocked br f = (f', br') ->
  flow_core w got id pcb f' /\ effect pcb id w br f w br' f'.
Proof.
  unfold tcp_shift_bridge_mark_backend_read_blocked. intros Hok E.
  destruct (negb _); injection E as <- <-.
  - split; [|by apply effect_still]. eapply flow_core_flags; [exact Hok|..]; try done; apply Hok.
  - split; [done|by apply effect_still].
Qed.

(** A change to the connection alone. *)
Lemma effect_pcb pcb id w br f w' :
  (forall fd, same_sock w w' fd) -> (forall pcb', pcb' <> pcb -> same_pcb w w' pcb') ->
  effect pcb id w br f w' br f.
Proof.
  intros Hs Hp. constructor; try done; try lia; [apply acct_refl|].
  intros Hw. unfold watch_ok in *. by destruct (Hs (fw_backend_fd f)) as (_ & _ & _ & ->).
Qed.

(** Bytes that were shown and given to lwIP are taken off the socket. *)
Lemma relay_chunk w br f got id pcb b w1 :
  flow_core w got id pcb f -> b `prefix_of` h_input w (fw_backend_fd f) ->
  tcp_write w pcb b = (ERR_OK, w1) ->
  exists rc w', tcp_shift_bridge_consume_backend w1 f (Z.of_nat (length b)) = Some (rc, w') /\
    effect pcb id w br f w' br f /\ (0 <= rc -> flow_core w' got id pcb f).
Proof.
  intros Hok Hin E1. destruct (tcp_write_law _ _ _ _ _ E1) as (T1 & T2 & T3 & T4 & T5 & T6). cbn in T6.
  unfold tcp_shift_bridge_consume_backend.
  destruct (consume_loop_ok (S (Z.to_nat (Z.of_nat (length b)))) w1 (fw_backend_fd f) b)
    as (rc & w2 & E2 & (R1 & R2 & R3 & R4 & R5) & Htk); [by etrans|lia|].
  exists rc, w2. split; [done|]. split.
  - eapply effect_trans; [by apply (effect_pcb _ _ _ _ _ w1)|].
    constructor; try done; try lia; [apply acct_refl|].
    intros Hw. unfold watch_ok in *. by rewrite R5.
  - intros Hrc. destruct Hok as [O1 O2 O3 O4 O5 O6 O7 O8 O9 O10 O11 O12].
    destruct (T1 (fw_backend_fd f)) as (S1 & S2 & S3 & S4). destruct (R1 pcb) as (Q1 & Q2 & Q3).
    constructor; try done.
    + congruence.
    + congruence.
    + by rewrite R3, S1.
    + by rewrite R3, S1, Q2, T4.
    + rewrite Htk, S2, Q1, T6, O7 by lia. done.
    + unfold watch_ok in *. by rewrite R5, S4.
Qed.

(** lwIP refuses the bytes: it has no memory, or the connection is broken. *)
Lemma write_refused w pcb b err w1 : tcp_write w pcb b = (err, w1) -> err <> ERR_OK -> still w w1.
Proof.
  intros E Hne. destruct (tcp_write_law _ _ _ _ _ E) as (T1 & T2 & T3 & T4 & T5 & T6).
  split; [done|]. intros pcb'. destruct (decide (pcb' = pcb)) as [->|]; [|by apply T2].
  rewrite (proj2 (Z.eqb_neq err 0) Hne) in T6. by split_and!.
Qed.

Lemma pump_loop_ok budget : forall w br f got id pcb,
  flow_core w got id pcb f ->
  exists rc f' br' w', pump_loop budget w br f pcb = Some (rc, f', br', w') /\
    effect pcb id w br f w' br' f' /\ (0 <= rc -> flow_core w' got id pcb f').
Proof.
  induction budget as [|budget IH]; intros w br f got id pcb Hok; cbn [pump_loop].
  { exists 0, f, br, w. split; [done|]. split; [by apply effect_still|done]. }
  assert (Hblock : forall w1, still w w1 -> exists rc f' br' w',
    (let '(flow, br) := tcp_shift_bridge_mark_backend_read_blocked br f in
     Some (0, flow, br, w1)) = Some (rc, f', br', w') /\
    effect pcb id w br f w' br' f' /\ (0 <= rc -> flow_core w' got id pcb f')).
  { intros w1 Hs. destruct (tcp_shift_bridge_mark_backend_read_blocked br f) as [f1 br1] eqn:E1.
    destruct (mark_blocked_ok w1 _ _ _ _ _ _ _ (flow_core_still _ _ _ _ _ _ Hs Hok) E1) as [H1 H2].
    exists 0, f1, br1, w1. split; [done|]. split; [|done].
    eapply effect_trans; [|exact H2]. by apply effect_still. }
  destruct (_ =? 0); [by apply Hblock|].
  set (wanted := if _ >? _ then _ else _).
  assert (Hw : wanted <= 4096) by (unfold wanted; destruct (_ >? _) eqn:E; lia).
  pose proof (peek_still w (fw_backend_fd f) wanted) as Hs1.
  destruct (recv_peek w (fw_backend_fd f) wanted) as [res w1] eqn:E1. cbn in Hs1.
  pose proof (flow_core_still _ _ _ _ _ _ Hs1 Hok) as Hok1.
  destruct res as [b| |].
  2:{ eexists 0, f, br, _. split; [done|].
      assert (Hs2 : still w (cc_mark_app_limited w1 pcb))
        by (eapply still_trans; [exact Hs1|apply app_limited_still]).
      split; [by apply effect_still|]. intros _. by eapply flow_core_still. }
  2:{ exists (-1), f, br, w1. split; [done|]. split; [by apply effect_still|lia]. }
  destruct (peek_law _ _ _ _ _ E1) as [Hl Hin].
  destruct b as [|x b0] eqn:Eb.
  { eexists 0, _, br, w1. split; [done|]. split; [by apply effect_still|]. intros _.
    eapply flow_core_flags; [exact Hok1|..]; try done; apply Hok. }
  rewrite <- Eb in *. clear b0 x Eb. rewrite u16_small, Nat2Z.id, firstn_all by lia.
  destruct (tcp_write w1 pcb b) as [err w2] eqn:E2.
  destruct (Z.eqb_spec err (-1)) as [->|Hne].
  { apply Hblock. eapply still_trans; [exact Hs1|by eapply write_refused]. }
  destruct (Z.eqb_spec err 0) as [->|Hne0]; cbn [negb].
  2:{ exists (-1), f, br, w2. split; [done|]. split; [|lia]. apply effect_still; try done.
      eapply still_trans; [exact Hs1|by eapply write_refused]. }
  destruct (relay_chunk w1 br f got id pcb b w2 Hok1 Hin E2) as (rc & w3 & -> & Hef3 & Hok3).
  cbn [mbind option_bind].
  assert (Hef : effect pcb id w br f w3 br f)
    by (eapply effect_trans; [|exact Hef3]; by apply effect_still).
  destruct (rc <? 0) eqn:E4; [exists (-1), f, br, w3; split; [done|]; split; [done|lia]|].
  pose proof (output_still w3 pcb) as Hs4. specialize (Hok3 ltac:(lia)).
  set (br4 := br <| br_backend_to_public_bytes := _ |>).
  destruct (IH (tcp_output w3 pcb) br4 f got id pcb (flow_core_still _ _ _ _ _ _ Hs4 Hok3))
    as (rc' & f' & br' & w' & E' & Hef' & Hok').
  exists rc', f', br', w'. split; [exact E'|]. split; [|done].
  eapply effect_trans; [exact Hef|]. eapply effect_trans; [|exact Hef']. by apply effect_still.
Qed.

Lemma pump_ok w br f got id pcb :
  flow_core w got id pcb f ->
  exists rc f' br' w',
    tcp_shift_bridge_pump_backend_to_public w br f = Some (rc, f', br', w') /\
    effect pcb id w br f w' br' f' /\ (0 <= rc -> flow_core w' got id pcb f').
Proof.
  intros Hok. unfold tcp_shift_bridge_pump_backend_to_public. rewrite (fo_pcb _ _ _ _ _ Hok).
  destruct (_ || _); [|by apply pump_loop_ok].
  exists 0, f, br, w. split; [done|]. split; [by apply effect_still|done].
Qed.

(** ** The end of a flow *)

(** The bridge has the flow in its list and counts it. *)
Definition listed (br : tcp_shift_bridge) (id : Z) : Prop :=
  id ∈ br_flows br /\ br_active_flows br = Z.of_nat (length (br_flows br)) /\
  br_active_flows br <= UINT64_MAX.

Lemma listed_keeps br br' id : keeps_flows br br' -> listed br id -> listed br' id.
Proof. intros (E1 & E2 & _) (H1 & H2 & H3). unfold listed. by rewrite E1, E2. Qed.

Record freed (pcb id : Z) (w : W) (br : tcp_shift_bridge) (f : tcp_shift_bridge_flow)
    (w' : W) (br' : tcp_shift_bridge) : Prop := {
  fr_frame : frame (fw_backend_fd f) pcb w w';
  fr_arg : h_arg w' pcb = None;
  fr_flows : exists l1 l2, br_flows br = l1 ++ id :: l2 /\ br_flows br' = l1 ++ l2;
  fr_active : br_active_flows br' = br_active_flows br - 1;
  fr_pending : br_pending_public_bytes br' = br_pending_public_bytes br - pend_len f;
  fr_peaks : br_peak_active_flows br' = br_peak_active_flows br /\
             br_peak_pending_public_bytes br' = br_peak_pending_public_bytes br
}.

(** What a part of a handler did before the flow was freed. *)
Lemma freed_after pcb id w br f w1 br1 f1 w2 br2 :
  effect pcb id w br f w1 br1 f1 -> freed pcb id w1 br1 f1 w2 br2 -> freed pcb id w br f w2 br2.
Proof.
  intros [A1 [(K1 & K2 & K3 & K4) A2] A3 A4 A5 A6] [B1 B2 B3 B4 B5 [B6 B7]]. rewrite A4 in B1.
  constructor; try congruence.
  - by eapply frame_trans.
  - by rewrite K1 in B3.
  - lia.
  - split; congruence.
Qed.

Lemma unlink_loop_spec id l :
  id ∈ l -> exists l1 l2, l = l1 ++ id :: l2 /\ unlink_loop l id = Some (l1 ++ l2).
Proof.
  induction l as [|x l IH]; [by intros ?%elem_of_nil|]. intros Hin. cbn.
  destruct (Z.eqb_spec x id) as [->|Hne].
  - by exists [], l.
  - apply elem_of_cons in Hin as [->|Hin]; [done|].
    destruct (IH Hin) as (l1 & l2 & -> & ->). by exists (x :: l1), l2.
Qed.

(** The bytes that went through a socket and a connection. *)
Definition same_logs (fd pcb : Z) (w w' : W) : Prop :=
  h_out w' fd = h_out w fd /\ h_taken w' fd = h_taken w fd /\ h_sent w' pcb = h_sent w pcb.

Lemma same_logs_trans fd pcb w1 w2 w3 :
  same_logs fd pcb w1 w2 -> same_logs fd pcb w2 w3 -> same_logs fd pcb w1 w3.
Proof. intros (A1 & A2 & A3) (B1 & B2 & B3). split_and!; congruence. Qed.

Lemma same_logs_still fd pcb w w' : still w w' -> same_logs fd pcb w w'.
Proof.
  intros [Hs Hp]. destruct (Hs fd) as (A1 & A2 & _). destruct (Hp pcb) as (A3 & _). by split_and!.
Qed.

Lemma watch_remove_frame w watch rc watch' w' fd pcb :
  tcp_shift_lwip_loop_watch_remove w loop watch = (rc, watch', w') -> wt_fd watch = fd ->
  frame fd pcb w w' /\ same_logs fd pcb w w' /\ h_arg w' pcb = h_arg w pcb.
Proof.
  unfold tcp_shift_lwip_loop_watch_remove. intros E Hfd.
  destruct (_ || _); [by injection E as _ _ <-|].
  destruct (epoll_ctl _ _ _ _ _) as [r w1] eqn:E1.
  destruct (ctl_law _ _ _ _ _ _ E1) as (C1 & C2 & C3 & C4 & _). rewrite Hfd in C2, C3, C4.
  destruct (C1 pcb) as (P1 & _ & P3).
  destruct (r <? 0); injection E as _ _ <-; by split_and!.
Qed.

(** Unregistering and closing the socket of a flow. *)
Lemma release_sock w id pcb f :
  watch_ok w id f ->
  let w1 := if wt_registered (fw_backend_watch f)
            then (tcp_shift_lwip_loop_watch_remove w loop (fw_backend_watch f)).2 else w in
  let w2 := if fw_backend_fd f >=? 0 then sock_close w1 (fw_backend_fd f) else w1 in
  frame (fw_backend_fd f) pcb w w2 /\ same_logs (fw_backend_fd f) pcb w w2 /\
  h_arg w2 pcb = h_arg w pcb.
Proof.
  intros Hw w1 w2.
  assert (H1 : frame (fw_backend_fd f) pcb w w1 /\ same_logs (fw_backend_fd f) pcb w w1 /\
    h_arg w1 pcb = h_arg w pcb).
  { unfold w1. unfold watch_ok in Hw. destruct (wt_registered _); [|done]. destruct Hw as (Hwfd & _).
    destruct (tcp_shift_lwip_loop_watch_remove w loop (fw_backend_watch f)) as [[r wt] w'] eqn:E.
    by eapply watch_remove_frame. }
  destruct H1 as (F1 & L1 & A1). destruct (close_law w1 (fw_backend_fd f)) as (C1 & C2 & C3 & C4).
  destruct (C1 pcb) as (P1 & _ & P3). unfold w2. destruct (_ >=? 0); [|done].
  split; [eapply frame_trans; [exact F1|by split]|].
  split; [eapply same_logs_trans; [exact L1|by split_and!]|congruence].
Qed.

Lemma release_ok w br id pcb f br' w' :
  watch_ok w id f -> pend_len f <= TCP_WND ->
  pending_ok br (pend_len f) -> listed br id -> h_arg w pcb = None ->
  tcp_shift_bridge_flow_release loop w br id f = (br', w') ->
  freed pcb id w br f w' br' /\ same_logs (fw_backend_fd f) pcb w w'.
Proof.
  intros Hw Hp Hb (Hin & Hact & Hmax) Harg E. unfold tcp_shift_bridge_flow_release in E.
  destruct (release_sock w id pcb f Hw) as (Hf2 & Hl2 & Ha2).
  set (w1 := if wt_registered _ then _ else _) in *.
  set (w2 := if fw_backend_fd f >=? 0 then _ else _) in *.
  destruct (tcp_shift_bridge_release_pending_public w2 br f) as [[f3 br3] w3] eqn:E3.
  destruct (release_pending_spec _ _ _ _ _ _ Hp Hb E3) as (Hs & _ & [(K1 & K2 & K3 & K4) Hpd]).
  injection E as <- <-. unfold tcp_shift_bridge_flow_unlink. rewrite K1.
  destruct (unlink_loop_spec id (br_flows br) Hin) as (l1 & l2 & Hl & ->).
  cbn. rewrite K2, Hact. rewrite Hl, length_app. cbn [length].
  destruct (Z.eqb_spec (Z.of_nat (length l1 + S (length l2))) 0); [lia|]. cbn [negb].
  rewrite Hact, Hl, length_app in Hmax. cbn [length] in Hmax.
  split; [|eapply same_logs_trans; [exact Hl2|by apply same_logs_still]].
  constructor; cbn.
  - eapply frame_trans; [exact Hf2|by apply still_frame].
  - destruct (proj2 Hs pcb) as (_ & _ & ->). congruence.
  - by exists l1, l2.
  - rewrite u64_small by lia. rewrite Hact, Hl, length_app. cbn [length]. lia.
  - lia.
  - done.
Qed.

Lemma freed_frame pcb id w br f w1 w2 br2 :
  frame (fw_backend_fd f) pcb w w1 -> freed pcb id w1 br f w2 br2 -> freed pcb id w br f w2 br2.
Proof. intros Hf []. constructor; try done. by eapply frame_trans. Qed.

Lemma abort_ok w br id pcb f br' w' :
  fw_pcb f = Some pcb -> watch_ok w id f -> pend_len f <= TCP_WND ->
  pending_ok br (pend_len f) -> listed br id ->
  tcp_shift_bridge_flow_abort loop w br id f = (br', w') -> freed pcb id w br f w' br'.
Proof.
  intros Hpcb Hw Hp Hb Hl E. unfold tcp_shift_bridge_flow_abort in E. rewrite Hpcb in E.
  destruct (callbacks_law w pcb None) as (C1 & C2 & C3 & C4 & C5).
  set (w1 := tcp_shift_bridge_flow_clear_callbacks w pcb) in E.
  pose proof (tcp_abort_still w1 pcb) as Hs.
  apply (freed_frame _ _ _ _ _ (tcp_abort w1 pcb)).
  { eapply frame_trans; [|by apply still_frame]. by split. }
  apply (release_ok _ br id pcb (f <| fw_pcb := None |>)) in E; try done.
  - destruct E as [E _]. by destruct E; constructor.
  - unfold watch_ok in *. cbn. destruct (proj1 Hs (fw_backend_fd f)) as (_ & _ & _ & ->).
    change w1 with (tcp_callbacks w pcb None). by destruct (C1 (fw_backend_fd f)) as (_ & _ & _ & ->).
  - by destruct (proj2 Hs pcb) as (_ & _ & ->).
Qed.

(** A flow that ends in good order was relayed completely. *)
Definition complete (w : W) (got : list Z) (fd pcb : Z) : Prop :=
  h_out w fd = got /\ h_sent w pcb = h_taken w fd.

Lemma shutdown_backend_ok w br f got id pcb rc f' w' :
  flow_core w got id pcb f -> tcp_shift_bridge_shutdown_backend_write w f = (rc, f', w') ->
  flow_core w' got id pcb f' /\ effect pcb id w br f w' br f' /\ still w w' /\ -1 <= rc <= 0 /\
  fw_public_eof f' = fw_public_eof f /\ fw_backend_eof f' = fw_backend_eof f.
Proof.
  unfold tcp_shift_bridge_shutdown_backend_write. intros Hok E.
  destruct (_ || _) eqn:E0.
  { injection E as <- <- <-. split; [done|]. split; [by apply effect_still|done]. }
  assert (Hfin : fw_public_eof f = true /\ fw_public_rx f = None).
  { destruct (fw_public_eof f), (fw_public_rx f); cbn in E0; try done. }
  pose proof (shutdown_still w (fw_backend_fd f)) as Hs.
  destruct (shutdown_write _ _) as [r w1]. cbn in Hs.
  pose proof (flow_core_still _ _ _ _ _ _ Hs Hok) as Hok1.
  destruct r; injection E as <- <- <-;
    (split; [|split; [by apply effect_still|done]]); try done;
    (eapply flow_core_flags; [exact Hok1|..]; try done; apply Hok).
Qed.

Lemma shutdown_public_ok w br f got id pcb rc f' w' :
  flow_core w got id pcb f -> tcp_shift_bridge_shutdown_public_write w f = (rc, f', w') ->
  flow_core w' got id pcb f' /\ effect pcb id w br f w' br f' /\ still w w' /\ -1 <= rc <= 0 /\
  fw_public_eof f' = fw_public_eof f /\ fw_backend_eof f' = fw_backend_eof f.
Proof.
  unfold tcp_shift_bridge_shutdown_public_write. intros Hok E.
  rewrite (fo_pcb _ _ _ _ _ Hok) in E. destruct (_ || _) eqn:E0.
  { injection E as <- <- <-. split; [done|]. split; [by apply effect_still|done]. }
  pose proof (tcp_shutdown_still w pcb) as Hs. destruct (tcp_shutdown_tx w pcb) as [err w1].
  cbn in Hs. pose proof (flow_core_still _ _ _ _ _ _ Hs Hok) as Hok1.
  destruct (err =? -1); [|destruct (negb (err =? 0))]; injection E as <- <- <-;
    (split; [|split; [by apply effect_still|done]]); try done.
  eapply flow_core_flags; [exact Hok1|..]; try done; try apply Hok.
  intros _. change (fw_backend_eof f = true). by destruct (fw_backend_eof f).
Qed.

(** [tcp_close] with the callbacks cleared, set again when it fails. *)
Lemma close_step w br id f got pcb rc res br' w' :
  flow_core w got id pcb f -> fw_public_rx f = None -> pending_ok br (pend_len f) -> listed br id ->
  (let w := tcp_shift_bridge_flow_clear_callbacks w pcb in
   let '(err, w) := tcp_close w pcb in
   if negb (err =? ERR_OK) then (0, Some f, br, tcp_shift_bridge_flow_set_callbacks w id f)
   else let '(br, w) := tcp_shift_bridge_flow_release loop w br id (f <| fw_pcb := None |>) in
        (1, None, br, w)) = (rc, res, br', w') ->
  match res with
  | Some f' => flow_core w' got id pcb f' /\ effect pcb id w br f w' br' f' /\ rc = 0
  | None => rc = 1 /\ freed pcb id w br f w' br' /\ complete w' got (fw_backend_fd f) pcb
  end.
Proof.
  intros Hok Hrx Hb Hl E. cbv zeta in E.
  destruct (callbacks_law w pcb None) as (C1 & C2 & C3 & C4 & C5).
  unfold tcp_shift_bridge_flow_clear_callbacks in E. set (w1 := tcp_callbacks w pcb None) in *.
  pose proof (tcp_close_still w1 pcb) as Hs. destruct (tcp_close w1 pcb) as [err w2]. cbn in Hs.
  destruct (proj2 Hs pcb) as (P1 & P2 & P3). destruct (negb (err =? 0)).
  - injection E as <- <- <- <-. unfold tcp_shift_bridge_flow_set_callbacks.
    rewrite (fo_pcb _ _ _ _ _ Hok).
    destruct (callbacks_law w2 pcb (Some id)) as (D1 & D2 & D3 & D4 & D5).
    assert (Hst : still w (tcp_callbacks w2 pcb (Some id))).
    { split.
      - intros fd. eapply same_sock_trans; [apply C1|]. eapply same_sock_trans; [apply Hs|apply D1].
      - intros pcb'. destruct (decide (pcb' = pcb)) as [->|Hne].
        + split_and!; [congruence|congruence|]. rewrite D3. symmetry. apply Hok.
        + eapply same_pcb_trans; [by apply C2|]. eapply same_pcb_trans; [apply Hs|by apply D2]. }
    split; [by eapply flow_core_still|]. split; [by apply effect_still|done].
  - destruct (tcp_shift_bridge_flow_release loop w2 br id (f <| fw_pcb := None |>)) as [br3 w3] eqn:E3.
    injection E as <- <- <- <-. split; [done|].
    apply (release_ok _ _ _ pcb) in E3 as [Hfr (L1 & L2 & L3)]; try done.
    2:{ pose proof (fo_watch _ _ _ _ _ Hok) as Hwt. unfold watch_ok in *. cbn.
        destruct (proj1 Hs (fw_backend_fd f)) as (_ & _ & _ & ->).
        by destruct (C1 (fw_backend_fd f)) as (_ & _ & _ & ->). }
    2: apply Hok.
    2: congruence.
    split.
    + apply (freed_frame _ _ _ _ _ w2); [|by destruct Hfr; constructor].
      eapply frame_trans; [|by apply still_frame]. by split.
    + cbn in L1, L2. destruct (proj1 Hs (fw_backend_fd f)) as (S1 & S2 & _).
      destruct (C1 (fw_backend_fd f)) as (T1 & T2 & _).
      pose proof (fo_out _ _ _ _ _ Hok) as Ho. unfold pend in Ho. rewrite Hrx, app_nil_r in Ho.
      pose proof (fo_sent _ _ _ _ _ Hok). split; congruence.
Qed.

Lemma finish_ok w br id f got pcb rc res br' w' :
  flow_core w got id pcb f -> pending_ok br (pend_len f) -> listed br id ->
  tcp_shift_bridge_finish_if_done loop w br id f = (rc, res, br', w') ->
  match res with
  | Some f' => flow_core w' got id pcb f' /\ effect pcb id w br f w' br' f' /\ -1 <= rc <= 0
  | None => rc = 1 /\ freed pcb id w br f w' br' /\ complete w' got (fw_backend_fd f) pcb /\
      fw_public_eof f = true /\ fw_backend_eof f = true
  end.
Proof.
  intros Hok Hb Hl E. unfold tcp_shift_bridge_finish_if_done in E.
  destruct (tcp_shift_bridge_shutdown_backend_write w f) as [[r1 f1] w1] eqn:E1.
  destruct (shutdown_backend_ok _ br _ _ _ _ _ _ _ Hok E1) as (Hok1 & Hef1 & Hs1 & Hr1 & Hp1 & Hb1).
  destruct (r1 <? 0); [by injection E as <- <- <- <-|].
  destruct (tcp_shift_bridge_shutdown_public_write w1 f1) as [[r2 f2] w2] eqn:E2.
  destruct (shutdown_public_ok _ br _ _ _ _ _ _ _ Hok1 E2) as (Hok2 & Hef2 & Hs2 & Hr2 & Hp2 & Hb2).
  pose proof (effect_trans _ _ _ _ _ _ _ _ _ _ _ Hef1 Hef2) as Hef.
  destruct (r2 <? 0); [by injection E as <- <- <- <-|].
  rewrite (fo_pcb _ _ _ _ _ Hok2) in E.
  destruct (_ || _) eqn:E3 in E; [by injection E as <- <- <- <-|].
  assert (Hdone : fw_public_eof f2 = true /\ fw_backend_eof f2 = true /\ fw_public_rx f2 = None).
  { clear -E3. destruct (fw_public_eof f2), (fw_backend_eof f2), (fw_public_rx f2); done. }
  destruct Hdone as (D1 & D2 & D3).
  pose proof (close_step _ _ _ _ _ _ _ _ _ _ Hok2 D3 (effect_pending _ _ _ _ _ _ _ _ Hef Hb) Hl E) as Hc.
  destruct res as [f'|].
  - destruct Hc as (Hok' & Hef' & ->). split; [done|]. split; [by eapply effect_trans|done].
  - destruct Hc as (-> & Hfr & Hcm). rewrite (ef_fd _ _ _ _ _ _ _ _ Hef) in Hcm.
    split; [done|]. split; [by eapply freed_after|]. split; [done|]. split; congruence.
Qed.

(** ** The watch *)

(** The flow's watch after an [epoll_ctl] on its socket. *)
Lemma ctl_core w br f got id pcb op ev rc w' watch :
  flow_core w got id pcb f ->
  epoll_ctl w (lp_epoll_fd loop) op (fw_backend_fd f) ev = (rc, w') ->
  watch_ok w' id (f <| fw_backend_watch := watch |>) ->
  flow_core w' got id pcb (f <| fw_backend_watch := watch |>) /\
  effect pcb id w br f w' br (f <| fw_backend_watch := watch |>).
Proof.
  intros [O1 O2 O3 O4 O5 O6 O7 O8 O9 O10 O11 O12] E Hw.
  destruct (ctl_law _ _ _ _ _ _ E) as (C1 & C2 & C3 & C4 & C5 & C6).
  destruct (C1 pcb) as (P1 & P2 & P3). split.
  - constructor; try done; cbn.
    + change (h_open w' (fw_backend_fd f) = true). congruence.
    + congruence.
    + change (h_out w' (fw_backend_fd f) ++ pend f = got). by rewrite C3.
    + change (h_credit w' pcb = Z.of_nat (length (h_out w' (fw_backend_fd f)))). by rewrite C3, P2.
    + change (h_sent w' pcb = h_taken w' (fw_backend_fd f)). congruence.
  - constructor; try done; apply acct_refl.
Qed.

Lemma flow_same_watch f : f <| fw_backend_watch := fw_backend_watch f |> = f.
Proof. by destruct f. Qed.

Lemma sync_ok w br id f got pcb rc f' w' :
  flow_core w got id pcb f -> tcp_shift_bridge_sync_backend_watch loop w id f = (rc, f', w') ->
  flow_core w' got id pcb f' /\ effect pcb id w br f w' br f' /\ -1 <= rc <= 0 /\
  (rc = 0 -> armed f').
Proof.
  intros Hok E. unfold tcp_shift_bridge_sync_backend_watch in E.
  set (ev := tcp_shift_bridge_backend_events f) in E.
  pose proof (fo_watch _ _ _ _ _ Hok) as Hw. pose proof (fo_fd _ _ _ _ _ Hok) as Hfd.
  assert (Hsame : forall rc, -1 <= rc <= 0 -> (rc = 0 -> armed f) ->
    flow_core w got id pcb (f <| fw_backend_watch := fw_backend_watch f |>) /\
    effect pcb id w br f w br (f <| fw_backend_watch := fw_backend_watch f |>) /\ -1 <= rc <= 0 /\
    (rc = 0 -> armed (f <| fw_backend_watch := fw_backend_watch f |>))).
  { intros rc0 H1 H2. rewrite flow_same_watch. split; [done|]. split; [by apply effect_still|done]. }
  destruct (wt_registered (fw_backend_watch f)) eqn:Er; cbn [negb] in E.
  - unfold watch_ok in Hw. rewrite Er in Hw. destruct Hw as (Hw1 & Hw2 & Hw3).
    destruct (ev =? 0) eqn:Ev.
    + unfold tcp_shift_lwip_loop_watch_remove in E. rewrite Er, Hw1 in E. cbn [negb] in E.
      destruct (_ || _) in E; [injection E as <- <- <-; by apply Hsame|].
      destruct (epoll_ctl _ _ _ _ _) as [r w1] eqn:E1.
      destruct (ctl_law _ _ _ _ _ _ E1) as (_ & _ & _ & _ & _ & C6).
      destruct (r <? 0); injection E as <- <- <-.
      * destruct (ctl_core w br f got id pcb _ _ _ _ (fw_backend_watch f) Hok E1) as [H1 H2];
          [unfold watch_ok; cbn; by rewrite Er, C6|done].
      * destruct (ctl_core w br f got id pcb _ _ _ _ closed_watch Hok E1) as [H1 H2]; [done|].
        split; [done|]. split; [done|]. split; [done|]. intros _. unfold armed. cbn.
        change (ev = 0). lia.
    + unfold tcp_shift_lwip_loop_watch_mod in E. rewrite Hw2, Er, Hw1 in E. cbn [negb] in E.
      destruct (_ || _) in E; [injection E as <- <- <-; by apply Hsame|].
      destruct (wt_events (fw_backend_watch f) =? ev) eqn:Ee.
      { injection E as <- <- <-. apply Hsame; [done|]. intros _. unfold armed. rewrite Er. left. lia. }
      destruct (epoll_ctl _ _ _ _ _) as [r w1] eqn:E1.
      destruct (ctl_law _ _ _ _ _ _ E1) as (_ & _ & _ & _ & _ & C6).
      destruct (r <? 0); injection E as <- <- <-.
      * destruct (ctl_core w br f got id pcb _ _ _ _ (fw_backend_watch f) Hok E1) as [H1 H2];
          [unfold watch_ok; cbn; by rewrite Er, C6|done].
      * destruct (ctl_core w br f got id pcb _ _ _ _ (fw_backend_watch f <| wt_events := ev |>) Hok E1)
          as [H1 H2]; [unfold watch_ok; cbn; by rewrite Er, C6|].
        split; [done|]. split; [done|]. split; [done|]. intros _. unfold armed. cbn. rewrite Er. by left.
  - unfold watch_ok in Hw. rewrite Er in Hw. destruct (ev =? 0) eqn:Ev.
    { injection E as <- <- <-. apply Hsame; [done|]. intros _. unfold armed. rewrite Er. fold ev. lia. }
    unfold tcp_shift_lwip_loop_watch_add in E. rewrite Er in E.
    destruct (_ || _) in E; [injection E as <- <- <-; by apply Hsame|].
    destruct (epoll_ctl _ _ _ _ _) as [r w1] eqn:E1.
    destruct (ctl_law _ _ _ _ _ _ E1) as (_ & _ & _ & _ & _ & C6).
    destruct (r <? 0); injection E as <- <- <-.
    + destruct (ctl_core w br f got id pcb _ _ _ _ (fw_backend_watch f) Hok E1) as [H1 H2];
        [unfold watch_ok; cbn; by rewrite Er, C6|done].
    + destruct (ctl_core w br f got id pcb _ _ _ _
        (mk_watch (fw_backend_fd f) ev (Some (FnClient id)) true) Hok E1) as [H1 H2]; [done|].
      split; [done|]. split; [done|]. split; [done|]. intros _. unfold armed. cbn. by left.
Qed.

(** ** Progress *)

(** What a handler leaves: a flow in good order, or none. *)
Definition handled (w : W) (br : tcp_shift_bridge) (f : tcp_shift_bridge_flow)
    (got : list Z) (id pcb : Z) (rc : Z) (res : option tcp_shift_bridge_flow)
    (br' : tcp_shift_bridge) (w' : W) : Prop :=
  match res with
  | Some f' => rc = 0 /\ flow_core w' got id pcb f' /\ armed f' /\ effect pcb id w br f w' br' f'
  | None => freed pcb id w br f w' br' /\
      (rc = -1 \/ rc = 1 /\ complete w' got (fw_backend_fd f) pcb)
  end.

(** A part that failed is followed by the abort. *)
Lemma failed_part w br f got id pcb w1 br1 f1 :
  flow_core w got id pcb f -> pending_ok br (pend_len f) -> listed br id ->
  effect pcb id w br f w1 br1 f1 ->
  exists br' w', tcp_shift_bridge_flow_abort loop w1
      (br1 <| br_backend_failures := br_backend_failures br1 +w64 1 |>) id f1 = (br', w') /\
    handled w br f got id pcb (-1) None br' w'.
Proof.
  intros Hok Hb Hl Hef.
  destruct (tcp_shift_bridge_flow_abort _ _ _ _ _) as [br2 w2] eqn:E2. exists br2, w2.
  split; [done|]. split; [|by left].
  pose proof (effect_pending _ _ _ _ _ _ _ _ Hef Hb) as Hb1.
  pose proof Hef as [_ [Hk _] Epcb Efd Elen Ewt]. pose proof Hok as [O1 O2 _ _ _ _ _ O8 O9 _ _ _].
  apply (abort_ok _ _ _ pcb) in E2; try done.
  - eapply freed_after; [exact Hef|]. by destruct E2; constructor.
  - congruence.
  - auto.
  - lia.
  - eapply listed_keeps; [|exact Hl]. exact Hk.
Qed.

Lemma flush_ok w br f got id pcb :
  flow_core w got id pcb f -> pending_ok br (pend_len f) ->
  exists rc f' br' w', tcp_shift_bridge_flush_public_to_backend w br f = Some (rc, f', br', w') /\
    flow_core w' got id pcb f' /\ effect pcb id w br f w' br' f'.
Proof.
  intros Hok Hb. apply flush_loop_ok; [done|done|].
  unfold pend_len, pend. destruct (fw_public_rx f); cbn; lia.
Qed.

(** What is left to do once data has been moved. *)
Lemma settle_ok w br id f got pcb :
  flow_core w got id pcb f -> pending_ok br (pend_len f) -> listed br id ->
  exists rc res br' w',
    match tcp_shift_bridge_finish_if_done loop w br id f with
    | (finished, None, br, w) => Some (finished, None, br, w)
    | (finished, Some flow, br, w) =>
        if negb (finished =? 0) then Some (finished, Some flow, br, w)
        else
          let '(rc, flow, w) := tcp_shift_bridge_sync_backend_watch loop w id flow in
          if rc <? 0 then Some (-1, Some flow, br, w) else Some (0, Some flow, br, w)
    end = Some (rc, res, br', w') /\
    match res with
    | Some f' => effect pcb id w br f w' br' f' /\ -1 <= rc <= 0 /\
        (rc = 0 -> flow_core w' got id pcb f' /\ armed f')
    | None => rc = 1 /\ freed pcb id w br f w' br' /\ complete w' got (fw_backend_fd f) pcb
    end.
Proof.
  intros Hok Hb Hl.
  destruct (tcp_shift_bridge_finish_if_done loop w br id f) as [[[r res] br1] w1] eqn:E1.
  pose proof (finish_ok _ _ _ _ _ _ _ _ _ _ Hok Hb Hl E1) as Hfin.
  destruct res as [f1|].
  2:{ destruct Hfin as (-> & Hfr & Hc & _). by exists 1, None, br1, w1. }
  destruct Hfin as (Hok1 & Hef1 & Hr1). destruct (r =? 0) eqn:Er; cbn [negb].
  2:{ exists r, (Some f1), br1, w1. split; [done|]. split; [done|]. split; lia. }
  destruct (tcp_shift_bridge_sync_backend_watch loop w1 id f1) as [[r2 f2] w2] eqn:E2.
  destruct (sync_ok _ br1 _ _ _ _ _ _ _ Hok1 E2) as (Hok2 & Hef2 & Hr2 & Ha2).
  pose proof (effect_trans _ _ _ _ _ _ _ _ _ _ _ Hef1 Hef2) as Hef.
  destruct (r2 <? 0) eqn:Er2.
  - exists (-1), (Some f2), br1, w2. split; [done|]. split; [done|]. split; lia.
  - exists 0, (Some f2), br1, w2. split; [done|]. split; [done|]. split; [lia|].
    intros _. split; [done|]. apply Ha2. lia.
Qed.

Lemma progress_ok w br id f got pcb :
  flow_core w got id pcb f -> pending_ok br (pend_len f) -> listed br id ->
  exists rc res br' w',
    progress_or_abort loop w br id f = Some (rc, res, br', w') /\
    handled w br f got id pcb rc res br' w'.
Proof.
  intros Hok Hb Hl. unfold progress_or_abort, tcp_shift_bridge_progress.
  pose proof (failed_part w br f got id pcb) as Hfail.
  destruct (flush_ok w br f got id pcb Hok Hb) as (r1 & f1 & br1 & w1 & -> & Hok1 & Hef1).
  cbn [mbind option_bind]. destruct (r1 <? 0).
  { destruct (Hfail _ _ _ Hok Hb Hl Hef1) as (br' & w' & E & Hh). cbn. rewrite E.
    by exists (-1), None, br', w'. }
  destruct (pump_ok w1 br1 f1 got id pcb Hok1) as (r2 & f2 & br2 & w2 & -> & Hef2 & Hok2).
  pose proof (effect_trans _ _ _ _ _ _ _ _ _ _ _ Hef1 Hef2) as Hef12.
  cbn [mbind option_bind]. destruct (r2 <? 0) eqn:E2.
  { destruct (Hfail _ _ _ Hok Hb Hl Hef12) as (br' & w' & E & Hh). cbn. rewrite E.
    by exists (-1), None, br', w'. }
  specialize (Hok2 ltac:(lia)).
  pose proof (effect_pending _ _ _ _ _ _ _ _ Hef12 Hb) as Hb2.
  assert (Hl2 : listed br2 id) by (eapply listed_keeps; [apply Hef12|exact Hl]).
  destruct (settle_ok w2 br2 id f2 got pcb Hok2 Hb2 Hl2) as (r3 & res & br3 & w3 & -> & Hset).
  cbn [mbind option_bind]. destruct res as [f3|].
  - destruct Hset as (Hef3 & Hr3 & Hgood).
    pose proof (effect_trans _ _ _ _ _ _ _ _ _ _ _ Hef12 Hef3) as Hef.
    destruct (r3 <? 0) eqn:Er.
    + destruct (Hfail _ _ _ Hok Hb Hl Hef) as (br' & w' & E & Hh). rewrite E.
      assert (r3 = -1) as -> by lia. by exists (-1), None, br', w'.
    + assert (r3 = 0) as -> by lia. destruct (Hgood eq_refl) as [Hc Ha].
      by exists 0, (Some f3), br3, w3.
  - destruct Hset as (-> & Hfr & Hc). exists 1, None, br3, w3. split; [done|].
    split; [by eapply freed_after|]. right. by rewrite (ef_fd _ _ _ _ _ _ _ _ Hef12) in Hc.
Qed.

End Spec.
