(* ===== verification/BridgeSpec.v ===== *)
(** * What the bridge promises

    Over every sequence of callbacks from lwIP and the event loop: the two byte
    streams of a flow are relayed without loss, reordering or duplication, the
    receive window is reopened by exactly what the backend took, the memory and
    flow counters are the sums they stand for, no handler follows a dangling
    pointer, and every flow that can make progress is watched for it. *)

From Stdlib Require Import ZArith Lia Bool List.
From stdpp Require Import base tactics numbers list option gmap fin_maps.
From S2P Require Import Prelude L3Tun LwipLoop Bridge BridgeFlow.
Local Open Scope Z_scope.

Section Bridge.
Context {W : Type} `{!LoopOS W} `{!BridgeOS W} `{!History W} {loop : tcp_shift_lwip_loop}.
Context {Hlaws : BridgeLaws (loop := loop)}.

(** ** All flows *)

Abbreviation store := (gmap Z tcp_shift_bridge_flow).

Definition len_of (flows : store) (id : Z) : Z := from_option pend_len 0 (flows !! id).
Fixpoint pending_sum (flows : store) (l : list Z) : Z :=
  match l with [] => 0 | id :: l' => len_of flows id + pending_sum flows l' end.

(** Files are non-negative 32-bit integers. *)
Abbreviation MAX_FLOWS := 2147483648.

Record bridge_inv (br : tcp_shift_bridge) (flows : store) (w : W) (hist : gmap Z (list Z)) : Prop := {
  bi_nodup : NoDup (br_flows br);
  bi_listed : forall id, id ∈ br_flows br <-> is_Some (flows !! id);
  bi_active : br_active_flows br = Z.of_nat (length (br_flows br));
  bi_max : br_active_flows br <= MAX_FLOWS;
  bi_peak : br_active_flows br <= br_peak_active_flows br;
  bi_pending : br_pending_public_bytes br = pending_sum flows (br_flows br);
  bi_peak_pending : br_pending_public_bytes br <= br_peak_pending_public_bytes br;
  bi_flow : forall id f, flows !! id = Some f ->
    armed f /\ exists pcb got, hist !! id = Some got /\ flow_core w got id pcb f;
  bi_fds : forall i j f g, flows !! i = Some f -> flows !! j = Some g -> i <> j ->
    fw_backend_fd f <> fw_backend_fd g;
  bi_args : forall pcb id, h_arg w pcb = Some id ->
    exists f, flows !! id = Some f /\ fw_pcb f = Some pcb
}.

Lemma pending_sum_app flows l1 l2 :
  pending_sum flows (l1 ++ l2) = pending_sum flows l1 + pending_sum flows l2.
Proof. induction l1 as [|x l1 IH]; cbn; lia. Qed.

Lemma pending_sum_ext flows flows' l :
  (forall id, id ∈ l -> len_of flows' id = len_of flows id) -> pending_sum flows' l = pending_sum flows l.
Proof.
  induction l as [|x l IH]; intros Hl; [done|]. cbn. rewrite IH by (intros; apply Hl; by right).
  by rewrite Hl by left.
Qed.

(** One flow's share, and the rest. *)
Lemma pending_sum_split flows l id :
  NoDup l -> id ∈ l -> exists rest, pending_sum flows l = len_of flows id + rest /\
    (forall flows', (forall j, j <> id -> flows' !! j = flows !! j) ->
       pending_sum flows' l = len_of flows' id + rest) /\
    (forall l1 l2 flows', l = l1 ++ id :: l2 -> (forall j, j <> id -> flows' !! j = flows !! j) ->
       pending_sum flows' (l1 ++ l2) = rest).
Proof.
  intros Hnd (k1 & k2 & ->)%list_elem_of_split. exists (pending_sum flows k1 + pending_sum flows k2).
  assert (Hni : forall k1 k2, NoDup (k1 ++ id :: k2) -> (id ∉ k1) /\ (id ∉ k2)).
  { intros q1 q2 (_ & H1 & H2)%NoDup_app. apply NoDup_cons in H2 as [H2 _].
    split; [|done]. intros Hin. apply (H1 id Hin). left. }
  assert (Hext : forall flows' k1 k2, NoDup (k1 ++ id :: k2) ->
    (forall j, j <> id -> flows' !! j = flows !! j) ->
    pending_sum flows' k1 = pending_sum flows k1 /\ pending_sum flows' k2 = pending_sum flows k2).
  { intros flows' q1 q2 Hq Hf. destruct (Hni q1 q2 Hq) as [N1 N2].
    split; apply pending_sum_ext; intros j Hj; unfold len_of; rewrite Hf; congruence. }
  split_and!.
  - rewrite pending_sum_app. cbn. lia.
  - intros flows' Hf. destruct (Hext flows' k1 k2 Hnd Hf) as [E1 E2].
    rewrite pending_sum_app. cbn. lia.
  - intros l1 l2 flows' El Hf.
    assert (Hnd' := Hnd). rewrite El in Hnd'. destruct (Hext flows' l1 l2 Hnd' Hf) as [E1 E2].
    rewrite pending_sum_app, E1, E2. apply (f_equal (pending_sum flows)) in El.
    rewrite !pending_sum_app in El. cbn in El. lia.
Qed.

Lemma pending_sum_bound br flows w hist :
  bridge_inv br flows w hist ->
  0 <= br_pending_public_bytes br <= TCP_WND * MAX_FLOWS /\
  forall id f, flows !! id = Some f -> pending_ok br (pend_len f).
Proof.
  intros Hinv. pose proof Hinv as [_ Hls Hact Hmax _ Hpd _ Hfl _ _].
  assert (Hone : forall id, 0 <= len_of flows id <= TCP_WND).
  { intros id. unfold len_of. destruct (flows !! id) as [f|] eqn:E; cbn; [|lia].
    destruct (Hfl _ _ E) as (_ & pcb & got & _ & Hc). pose proof (fo_room _ _ _ _ _ Hc).
    unfold pend_len in *. lia. }
  assert (Hsum : forall l, 0 <= pending_sum flows l <= TCP_WND * Z.of_nat (length l)).
  { induction l as [|x l IH]; [cbn; lia|]. specialize (Hone x).
    change (pending_sum flows (x :: l)) with (len_of flows x + pending_sum flows l).
    rewrite length_cons. lia. }
  pose proof (Hsum (br_flows br)) as Hb. rewrite <- Hpd in Hb. split; [lia|].
  intros id f E. unfold pending_ok. split; [|lia].
  destruct (list_elem_of_split (br_flows br) id) as (l1 & l2 & El).
  { apply Hls. by eexists. }
  rewrite Hpd, El, pending_sum_app. cbn. unfold len_of at 1. rewrite E. cbn.
  pose proof (Hsum l1). pose proof (Hsum l2). lia.
Qed.

Lemma put_flow_same flows id res : put_flow flows id res !! id = res.
Proof. apply lookup_partial_alter_eq. Qed.
Lemma put_flow_other flows id res j : j <> id -> put_flow flows id res !! j = flows !! j.
Proof. intros. by apply lookup_partial_alter_ne. Qed.

(** The state a handler starts from: the flow [f] in place of the stored one,
    with the bytes [got] handed over for it. *)
Record entered (br : tcp_shift_bridge) (flows : store) (w : W) (hist : gmap Z (list Z))
    (id pcb : Z) (br0 : tcp_shift_bridge) (f : tcp_shift_bridge_flow) (got : list Z) : Prop := {
  en_inv : bridge_inv br flows w hist;
  en_flow : exists f0, flows !! id = Some f0 /\ fw_backend_fd f = fw_backend_fd f0 /\
    fw_pcb f = fw_pcb f0 /\
    br_pending_public_bytes br0 = br_pending_public_bytes br - pend_len f0 + pend_len f;
  en_core : flow_core w got id pcb f;
  en_flows : br_flows br0 = br_flows br /\ br_active_flows br0 = br_active_flows br /\
    br_peak_active_flows br0 = br_peak_active_flows br;
  en_peak : br_pending_public_bytes br0 <= br_peak_pending_public_bytes br0
}.

Lemma entered_ready br flows w hist id pcb br0 f got :
  entered br flows w hist id pcb br0 f got -> pending_ok br0 (pend_len f) /\ listed br0 id.
Proof.
  intros [Hinv (f0 & E0 & _ & _ & Hp) Hc (K1 & K2 & K3) _].
  destruct (pending_sum_bound _ _ _ _ Hinv) as [Hb1 Hb2]. specialize (Hb2 _ _ E0).
  pose proof (fo_room _ _ _ _ _ Hc). pose proof Hinv as [_ Hls Hact Hmax _ _ _ _ _ _].
  split; [unfold pending_ok in *; unfold pend_len in *; lia|].
  unfold listed. rewrite K1, K2. split; [apply Hls; by eexists|]. lia.
Qed.

(** The other flows after a handler on [id]. *)
Lemma others_ok br flows w hist id pcb br0 f got w' j g :
  entered br flows w hist id pcb br0 f got -> frame (fw_backend_fd f) pcb w w' ->
  flows !! j = Some g -> j <> id ->
  armed g /\ exists pcb' got', <[id := got]> hist !! j = Some got' /\ flow_core w' got' j pcb' g /\
    pcb' <> pcb.
Proof.
  intros [Hinv (f0 & E0 & Hfd & _) Hc _ _] Hfr Ej Hne.
  destruct (bi_flow _ _ _ _ Hinv _ _ Ej) as (Ha & pcb' & got' & Hh & Hcj). split; [done|].
  assert (Hpcb : pcb' <> pcb).
  { intros ->. pose proof (fo_arg _ _ _ _ _ Hc). pose proof (fo_arg _ _ _ _ _ Hcj). congruence. }
  exists pcb', got'. split; [by rewrite lookup_insert_ne|]. split; [|done].
  eapply flow_core_frame; [exact Hfr| |done|exact Hcj].
  rewrite Hfd. by apply (bi_fds _ _ _ _ Hinv j id).
Qed.

(** Callbacks of other connections belong to other flows. *)
Lemma args_other br flows w hist id pcb br0 f got w' p j :
  entered br flows w hist id pcb br0 f got -> frame (fw_backend_fd f) pcb w w' ->
  p <> pcb -> h_arg w' p = Some j ->
  exists g, flows !! j = Some g /\ fw_pcb g = Some p /\ j <> id.
Proof.
  intros [Hinv (f0 & E0 & _ & Hpcb & _) Hc _ _] Hfr Hne Hj.
  destruct (proj2 Hfr p Hne) as (_ & _ & Ea). rewrite Ea in Hj.
  destruct (bi_args _ _ _ _ Hinv _ _ Hj) as (g & Hg1 & Hg2). exists g. split; [done|]. split; [done|].
  intros ->. rewrite E0 in Hg1. injection Hg1 as <-.
  rewrite <- Hpcb, (fo_pcb _ _ _ _ _ Hc) in Hg2. congruence.
Qed.

Lemma fds_after br flows w hist id f0 res :
  bridge_inv br flows w hist -> flows !! id = Some f0 ->
  (forall g, res = Some g -> fw_backend_fd g = fw_backend_fd f0) ->
  forall i j g h, put_flow flows id res !! i = Some g -> put_flow flows id res !! j = Some h ->
    i <> j -> fw_backend_fd g <> fw_backend_fd h.
Proof.
  intros Hinv E0 Hres i j g h Hg Hh Hij. pose proof (bi_fds _ _ _ _ Hinv) as I9.
  destruct (decide (i = id)) as [->|Hi], (decide (j = id)) as [->|Hj].
  - done.
  - rewrite put_flow_same in Hg. rewrite put_flow_other in Hh by done. rewrite (Hres _ Hg). by eapply I9.
  - rewrite put_flow_same in Hh. rewrite put_flow_other in Hg by done. rewrite (Hres _ Hh). by eapply I9.
  - rewrite put_flow_other in Hg, Hh by done. by eapply I9.
Qed.

(** A handler that leaves the flow alive. *)
Lemma live_inv br flows w hist id pcb br0 f got br' w' f' :
  entered br flows w hist id pcb br0 f got ->
  flow_core w' got id pcb f' -> armed f' -> effect pcb id w br0 f w' br' f' ->
  bridge_inv br' (put_flow flows id (Some f')) w' (<[id := got]> hist).
Proof.
  intros Hen Hc' Ha' [Hfr [(F1 & F2 & F3 & F4) F5] E5 E6 E7 E8].
  pose proof Hen as [Hinv (f0 & E0 & Hfd & Hpcb & Hp) Hc (K1 & K2 & K3) Kp].
  pose proof Hinv as [I1 I2 I3 I4 I5 I6 I7 _ _ _].
  assert (Hin : id ∈ br_flows br) by (apply I2; by eexists).
  destruct (pending_sum_split flows (br_flows br) id I1 Hin) as (rest & R1 & R2 & _).
  unfold len_of in R1. rewrite E0 in R1. cbn in R1.
  constructor.
  - by rewrite F1, K1.
  - intros j. rewrite F1, K1, I2. destruct (decide (j = id)) as [->|Hj].
    + rewrite put_flow_same, E0. split; by eexists.
    + by rewrite put_flow_other.
  - by rewrite F1, F2, K1, K2.
  - by rewrite F2, K2.
  - by rewrite F2, F3, K2, K3.
  - rewrite F1, K1, (R2 (put_flow flows id (Some f'))) by (intros; by apply put_flow_other).
    unfold len_of. rewrite put_flow_same. cbn. lia.
  - rewrite F4. lia.
  - intros j g Hg. destruct (decide (j = id)) as [->|Hj].
    + rewrite put_flow_same in Hg. injection Hg as <-. split; [done|]. exists pcb, got.
      by rewrite lookup_insert_eq.
    + rewrite put_flow_other in Hg by done.
      destruct (others_ok _ _ _ _ _ _ _ _ _ _ _ _ Hen Hfr Hg Hj) as (G1 & p' & g' & G2 & G3 & _).
      by split; [|exists p', g'].
  - eapply fds_after; [exact Hinv|exact E0|]. intros g [= <-]. congruence.
  - intros p j Hj. destruct (decide (p = pcb)) as [->|Hne].
    + rewrite (fo_arg _ _ _ _ _ Hc') in Hj. injection Hj as <-. exists f'.
      rewrite put_flow_same. split; [done|]. apply Hc'.
    + destruct (args_other _ _ _ _ _ _ _ _ _ _ _ _ Hen Hfr Hne Hj) as (g & Hg1 & Hg2 & Hji).
      exists g. by rewrite put_flow_other.
Qed.

(** A handler that frees the flow. *)
Lemma freed_inv br flows w hist id pcb br0 f got br' w' :
  entered br flows w hist id pcb br0 f got -> freed pcb id w br0 f w' br' ->
  bridge_inv br' (put_flow flows id None) w' (<[id := got]> hist).
Proof.
  intros Hen [Hfr F2 (l1 & l2 & F3 & F4) F5 F6 [F7 F8]].
  pose proof Hen as [Hinv (f0 & E0 & Hfd & Hpcb & Hp) Hc (K1 & K2 & K3) Kp].
  pose proof Hinv as [I1 I2 I3 I4 I5 I6 I7 _ _ _]. rewrite K1 in F3.
  assert (Hin : id ∈ br_flows br) by (apply I2; by eexists).
  destruct (pending_sum_split flows (br_flows br) id I1 Hin) as (rest & R1 & _ & R3).
  unfold len_of in R1. rewrite E0 in R1. cbn in R1.
  assert (Hnd : NoDup (l1 ++ l2) /\ id ∉ l1 ++ l2).
  { rewrite F3 in I1. apply NoDup_app in I1 as (N1 & N2 & [N3 N4]%NoDup_cons). split.
    - apply NoDup_app. split; [done|]. split; [|done]. intros x Hx Hx2. apply (N2 x Hx). by right.
    - intros [Hx|Hx]%elem_of_app; [apply (N2 id Hx); left|done]. }
  constructor.
  - rewrite F4. apply Hnd.
  - intros j. rewrite F4. destruct (decide (j = id)) as [->|Hj].
    + rewrite put_flow_same. split; [by intros ?%Hnd|by intros []].
    + rewrite put_flow_other, <- I2, F3 by done. rewrite !elem_of_app, elem_of_cons. naive_solver.
  - rewrite F5, F4, K2, I3, F3, !length_app. cbn. lia.
  - rewrite F5, K2. lia.
  - rewrite F5, F7, K2, K3. lia.
  - rewrite F6, F4, (R3 l1 l2 (put_flow flows id None) F3) by (intros; by apply put_flow_other). lia.
  - rewrite F6, F8. unfold pend_len in *. lia.
  - intros j g Hg. destruct (decide (j = id)) as [->|Hj]; [by rewrite put_flow_same in Hg|].
    rewrite put_flow_other in Hg by done.
    destruct (others_ok _ _ _ _ _ _ _ _ _ _ _ _ Hen Hfr Hg Hj) as (G1 & p' & g' & G2 & G3 & _).
    by split; [|exists p', g'].
  - by eapply fds_after.
  - intros p j Hj. destruct (decide (p = pcb)) as [->|Hne]; [congruence|].
    destruct (args_other _ _ _ _ _ _ _ _ _ _ _ _ Hen Hfr Hne Hj) as (g & Hg1 & Hg2 & Hji).
    exists g. by rewrite put_flow_other.
Qed.

Lemma handled_inv br flows w hist id pcb br0 f got rc res br' w' :
  entered br flows w hist id pcb br0 f got ->
  handled w br0 f got id pcb rc res br' w' ->
  bridge_inv br' (put_flow flows id res) w' (<[id := got]> hist).
Proof.
  intros Hen Hh. destruct res as [f'|].
  - destruct Hh as (_ & Hc & Ha & Hef). by eapply live_inv.
  - destruct Hh as [Hfr _]. by eapply freed_inv.
Qed.

(** ** The handlers *)

(** A change to a socket and a connection that no flow uses. *)
Lemma bridge_inv_fresh br br' flows w w' hist fd pcb :
  frame fd pcb w w' -> (forall id f, flows !! id = Some f -> fw_backend_fd f <> fd) ->
  h_arg w pcb = None -> h_arg w' pcb = None ->
  keeps_flows br br' -> br_pending_public_bytes br' = br_pending_public_bytes br ->
  bridge_inv br flows w hist -> bridge_inv br' flows w' hist.
Proof.
  intros Hfr Hfd Ha Ha' (K1 & K2 & K3 & K4) Kp [I1 I2 I3 I4 I5 I6 I7 I8 I9 I10].
  constructor; rewrite ?K1, ?K2, ?K3, ?K4, ?Kp; try done.
  - intros id f Hf. destruct (I8 _ _ Hf) as (Hm & p & got & Hh & Hc). split; [done|]. exists p, got.
    split; [done|]. eapply flow_core_frame; [exact Hfr|by eapply Hfd| |exact Hc].
    intros ->. pose proof (fo_arg _ _ _ _ _ Hc). congruence.
  - intros p id Hp. apply I10. destruct (decide (p = pcb)) as [->|Hne]; [congruence|].
    by destruct (proj2 Hfr p Hne) as (_ & _ & <-).
Qed.

Lemma bridge_inv_still br br' flows w w' hist :
  still w w' -> keeps_flows br br' -> br_pending_public_bytes br' = br_pending_public_bytes br ->
  bridge_inv br flows w hist -> bridge_inv br' flows w' hist.
Proof.
  intros [Hs Hp] (K1 & K2 & K3 & K4) Kp [I1 I2 I3 I4 I5 I6 I7 I8 I9 I10].
  constructor; rewrite ?K1, ?K2, ?K3, ?K4, ?Kp; try done.
  - intros id f Hf. destruct (I8 _ _ Hf) as (Hm & p & got & Hh & Hc). split; [done|]. exists p, got.
    split; [done|]. by eapply flow_core_still.
  - intros p id. destruct (Hp p) as (_ & _ & ->). apply I10.
Qed.

(** A handler that starts with the stored flow, up to flags. *)
Lemma enter br flows w hist id f0 f br0 :
  bridge_inv br flows w hist -> flows !! id = Some f0 ->
  keeps_flows br br0 -> br_pending_public_bytes br0 = br_pending_public_bytes br ->
  (forall got pcb, flow_core w got id pcb f0 -> flow_core w got id pcb f) ->
  fw_backend_fd f = fw_backend_fd f0 -> fw_pcb f = fw_pcb f0 -> fw_public_rx f = fw_public_rx f0 ->
  exists pcb got, entered br flows w hist id pcb br0 f got /\ hist !! id = Some got /\ fw_pcb f0 = Some pcb.
Proof.
  intros Hinv E (K1 & K2 & K3 & K4) Kp Hc Hfd Hpcb Hrx.
  destruct (bi_flow _ _ _ _ Hinv _ _ E) as (_ & pcb & got & Hh & Hcore). exists pcb, got.
  split; [|split; [done|apply Hcore]].
  constructor; try done.
  - exists f0. split; [done|]. split; [done|]. split; [done|]. unfold pend_len, pend. rewrite Hrx. lia.
  - auto.
  - rewrite Kp, K4. apply Hinv.
Qed.

Lemma enter_same br flows w hist id f0 br0 :
  bridge_inv br flows w hist -> flows !! id = Some f0 ->
  keeps_flows br br0 -> br_pending_public_bytes br0 = br_pending_public_bytes br ->
  exists pcb got, entered br flows w hist id pcb br0 f0 got /\ hist !! id = Some got /\ fw_pcb f0 = Some pcb.
Proof. intros. by eapply enter. Qed.

Lemma entered_progress br flows w hist id pcb br0 f got :
  entered br flows w hist id pcb br0 f got ->
  exists rc res br' w', progress_or_abort loop w br0 id f = Some (rc, res, br', w') /\
    bridge_inv br' (put_flow flows id res) w' (<[id := got]> hist) /\ -1 <= rc <= 1.
Proof.
  intros Hen. destruct (entered_ready _ _ _ _ _ _ _ _ _ Hen) as [Hb Hl].
  destruct (progress_ok w br0 id f got pcb (en_core _ _ _ _ _ _ _ _ _ Hen) Hb Hl)
    as (rc & res & br' & w' & E & Hh).
  exists rc, res, br', w'. split; [done|]. split; [by eapply handled_inv|].
  destruct res; [destruct Hh as (-> & _)|destruct Hh as (_ & [-> |[-> _]])]; lia.
Qed.

Lemma entered_abort br flows w hist id pcb br0 f got br' w' :
  entered br flows w hist id pcb br0 f got ->
  tcp_shift_bridge_flow_abort loop w br0 id f = (br', w') ->
  bridge_inv br' (put_flow flows id None) w' (<[id := got]> hist).
Proof.
  intros Hen E. destruct (entered_ready _ _ _ _ _ _ _ _ _ Hen) as [Hb Hl].
  pose proof (en_core _ _ _ _ _ _ _ _ _ Hen) as [O1 O2 _ _ _ _ _ O8 O9 _ _ _].
  apply (abort_ok _ _ _ pcb) in E; try done.
  apply (handled_inv _ _ _ _ _ _ _ _ _ (-1) _ _ _ Hen). split; [done|by left].
Qed.

Lemma entered_more br flows w hist id pcb br0 br1 f got :
  entered br flows w hist id pcb br0 f got -> keeps_flows br0 br1 ->
  br_pending_public_bytes br1 = br_pending_public_bytes br0 ->
  entered br flows w hist id pcb br1 f got.
Proof.
  intros [E1 (f0 & E2 & E3 & E4 & E5) E6 (E7 & E8 & E9) E10] (K1 & K2 & K3 & K4) Kp.
  constructor; try done.
  - exists f0. by rewrite Kp.
  - by rewrite K1, K2, K3.
  - by rewrite Kp, K4.
Qed.

Lemma fail_flow_ok br flows w hist id pcb br0 f got br' flows' w' :
  entered br flows w hist id pcb br0 f got ->
  fail_flow loop w br0 flows id f = (br', flows', w') ->
  bridge_inv br' flows' w' (<[id := got]> hist).
Proof.
  intros Hen E. unfold fail_flow in E.
  destruct (tcp_shift_bridge_flow_abort _ _ _ _ _) as [br1 w1] eqn:E1. injection E as <- <- <-.
  eapply entered_abort; [|exact E1]. by eapply entered_more.
Qed.

Lemma ready_progress_ok br flows w hist id pcb br0 f got ev :
  entered br flows w hist id pcb br0 f got -> armed f ->
  exists br' flows' w', ready_progress loop w br0 flows id f ev = Some (0, br', flows', w') /\
    bridge_inv br' flows' w' (<[id := got]> hist).
Proof.
  intros Hen Ha. unfold ready_progress. destruct (negb _).
  - destruct (entered_progress _ _ _ _ _ _ _ _ _ Hen) as (rc & res & br' & w' & -> & Hi & _).
    by exists br', (put_flow flows id res), w'.
  - eexists _, _, _. split; [done|]. apply (handled_inv _ _ _ _ _ _ _ _ _ 0 _ _ _ Hen).
    split; [done|]. split; [apply Hen|]. split; [done|]. by apply effect_still.
Qed.

Lemma backend_ready_ok br flows w hist id f ev :
  bridge_inv br flows w hist -> flows !! id = Some f ->
  exists br' flows' w',
    tcp_shift_bridge_backend_ready loop w br flows id ev = Some (0, br', flows', w') /\
    bridge_inv br' flows' w' hist.
Proof.
  intros Hinv Ef. unfold tcp_shift_bridge_backend_ready. rewrite Ef. cbn [mbind option_bind].
  destruct (bi_flow _ _ _ _ Hinv _ _ Ef) as (Harm & pcb0 & got0 & Hh0 & Hc0).
  assert (Hhist : forall got, hist !! id = Some got -> <[id := got]> hist = hist)
    by (intros; by apply insert_id).
  pose proof (geterr_still w (fw_backend_fd f)) as Hs.
  assert (Hinv1 : bridge_inv br flows (get_sock_error w (fw_backend_fd f)).2 hist)
    by (by eapply bridge_inv_still).
  destruct (fw_backend_connecting f) eqn:Ec.
  - unfold tcp_shift_bridge_complete_backend_connect.
    destruct (get_sock_error w (fw_backend_fd f)) as [[err|] w1]; cbn in Hs, Hinv1.
    2:{ cbn. destruct (enter_same br flows w1 hist id f br Hinv1 Ef) as (pcb & got & Hen & Hh & _); try done.
        destruct (fail_flow loop w1 br flows id f) as [[br' flows'] w'] eqn:E.
        exists br', flows', w'. split; [done|]. rewrite <- (Hhist _ Hh). by eapply fail_flow_ok. }
    destruct (negb (err =? 0)); cbn.
    { destruct (enter_same br flows w1 hist id f br Hinv1 Ef) as (pcb & got & Hen & Hh & _); try done.
      destruct (fail_flow loop w1 br flows id f) as [[br' flows'] w'] eqn:E.
      exists br', flows', w'. split; [done|]. rewrite <- (Hhist _ Hh). by eapply fail_flow_ok. }
    match goal with |- context [ready_progress loop w1 ?b flows id ?g ev] =>
      destruct (enter br flows w1 hist id f g b Hinv1 Ef) as (pcb & got & Hen & Hh & _) end; try done.
    { intros got pcb Hc. eapply flow_core_flags; [exact Hc|..]; try done; apply Hc. }
    rewrite <- (Hhist _ Hh). apply (ready_progress_ok _ _ _ _ _ _ _ _ _ _ Hen).
    unfold armed in *. cbn. rewrite (fo_state _ _ _ _ _ Hc0) in Ec.
    destruct (wt_registered (fw_backend_watch f)).
    + right. split; [|done]. destruct Harm as [Hev|[Hev _]]; [|done]. rewrite Hev.
      unfold tcp_shift_bridge_backend_events. by rewrite (fo_state _ _ _ _ _ Hc0), Ec.
    + unfold tcp_shift_bridge_backend_events in Harm. by rewrite (fo_state _ _ _ _ _ Hc0), Ec in Harm.
  - destruct (negb _).
    + destruct (get_sock_error w (fw_backend_fd f)) as [oerr w1]; cbn in Hs, Hinv1.
      destruct (enter_same br flows w1 hist id f br Hinv1 Ef) as (pcb & got & Hen & Hh & _); try done.
      rewrite <- (Hhist _ Hh).
      destruct oerr as [[|e|e]|]; [by eapply ready_progress_ok|..];
        (destruct (fail_flow loop w1 br flows id f) as [[br' flows'] w'] eqn:E;
         exists br', flows', w'; split; [done|]; by eapply fail_flow_ok).
    + destruct (enter_same br flows w hist id f br Hinv Ef) as (pcb & got & Hen & Hh & _); try done.
      rewrite <- (Hhist _ Hh). by eapply ready_progress_ok.
Qed.

(** A callback of lwIP finds its flow. *)
Lemma arg_flow br flows w hist pcb id :
  bridge_inv br flows w hist -> h_arg w pcb = Some id ->
  exists f got, flows !! id = Some f /\ fw_pcb f = Some pcb /\ hist !! id = Some got /\
    flow_core w got id pcb f.
Proof.
  intros Hinv Ha. destruct (bi_args _ _ _ _ Hinv _ _ Ha) as (f & Ef & Hp).
  destruct (bi_flow _ _ _ _ Hinv _ _ Ef) as (_ & pcb' & got & Hh & Hc).
  pose proof (fo_pcb _ _ _ _ _ Hc). assert (pcb' = pcb) as -> by congruence. by exists f, got.
Qed.

Lemma unblock_ok br flows w hist pcb id :
  bridge_inv br flows w hist -> h_arg w pcb = Some id ->
  exists f rc res br' w', flows !! id = Some f /\
    progress_or_abort loop w br id (f <| fw_backend_read_blocked := false |>) = Some (rc, res, br', w') /\
    bridge_inv br' (put_flow flows id res) w' hist.
Proof.
  intros Hinv Ha. destruct (arg_flow _ _ _ _ _ _ Hinv Ha) as (f & got & Ef & Hp & Hh & Hc).
  destruct (enter br flows w hist id f (f <| fw_backend_read_blocked := false |>) br Hinv Ef)
    as (pcb' & got' & Hen & Hh' & _); try done.
  { intros g q Hq. eapply flow_core_flags; [exact Hq|..]; try done; apply Hq. }
  destruct (entered_progress _ _ _ _ _ _ _ _ _ Hen) as (rc & res & br' & w' & E & Hi & _).
  exists f, rc, res, br', w'. split; [done|]. split; [done|]. by rewrite insert_id in Hi.
Qed.

Lemma public_sent_ok br flows w hist pcb :
  bridge_inv br flows w hist ->
  exists rc br' flows' w',
    tcp_shift_bridge_public_sent loop w br flows (h_arg w pcb) = Some (rc, br', flows', w') /\
    bridge_inv br' flows' w' hist.
Proof.
  intros Hinv. unfold tcp_shift_bridge_public_sent. destruct (h_arg w pcb) as [id|] eqn:Ha.
  2:{ by exists 0, br, flows, w. }
  destruct (unblock_ok _ _ _ _ _ _ Hinv Ha) as (f & rc & res & br' & w' & Ef & E & Hi).
  rewrite Ef. cbn [mbind option_bind]. rewrite E. cbn. by eexists _, _, _, _.
Qed.

Lemma public_poll_ok br flows w hist pcb :
  bridge_inv br flows w hist ->
  exists rc br' flows' w',
    tcp_shift_bridge_public_poll loop w br flows (h_arg w pcb) = Some (rc, br', flows', w') /\
    bridge_inv br' flows' w' hist.
Proof. apply public_sent_ok. Qed.

(** Data that lwIP may hand over: within the window it was given back, and not
    after the end of the stream. *)
Definition may_receive (w : W) (flows : store) (hist : gmap Z (list Z)) (pcb : Z) (q : chain) : Prop :=
  forall id f got, h_arg w pcb = Some id -> flows !! id = Some f -> hist !! id = Some got ->
    Z.of_nat (length got + length (concat q)) - h_credit w pcb <= TCP_WND /\
    fw_public_eof f = false.

(** What the flow was handed, after one more callback. *)
Definition received (w : W) (hist : gmap Z (list Z)) (pcb : Z) (p : option chain) (err : Z)
    : gmap Z (list Z) :=
  match h_arg w pcb, p with
  | Some id, Some q => if err =? ERR_OK then alter (fun got => got ++ concat q) id hist else hist
  | _, _ => hist
  end.

Lemma enter_data br flows w hist id pcb f got q :
  bridge_inv br flows w hist -> h_arg w pcb = Some id -> flows !! id = Some f ->
  hist !! id = Some got -> flow_core w got id pcb f -> may_receive w flows hist pcb q ->
  entered br flows w hist id pcb (tcp_shift_bridge_track_public_rx br q)
    (f <| fw_public_rx := Some (match fw_public_rx f with None => q | Some p => chain_cat p q end) |>)
    (got ++ concat q).
Proof.
  intros Hinv Ha Ef Hh Hc Hm. destruct (Hm _ _ _ Ha Ef Hh) as [Hwin Heof].
  set (f' := f <| fw_public_rx := _ |>).
  assert (Hpend : pend f' = pend f ++ concat q).
  { unfold pend, f'. cbn. destruct (fw_public_rx f); cbn; [apply chain_cat_law|done]. }
  assert (Hlen : pend_len f' = pend_len f + Z.of_nat (length (concat q))).
  { unfold pend_len. rewrite Hpend, length_app. lia. }
  pose proof Hc as [O1 O2 O3 O4 O5 O6 O7 O8 O9 O10 O11 O12].
  assert (Hroom : pend_len f' <= TCP_WND).
  { apply (f_equal length) in O5. rewrite length_app in O5. unfold pend_len in *.
    rewrite Hpend, length_app. lia. }
  assert (Hq : tot_len q = Z.of_nat (length (concat q))).
  { apply tot_len_small. unfold pend_len in *. lia. }
  destruct (pending_sum_bound _ _ _ _ Hinv) as [Hb _].
  assert (Hpd : br_pending_public_bytes br +w64 tot_len q =
    br_pending_public_bytes br + Z.of_nat (length (concat q))).
  { rewrite Hq. apply u64_small. unfold pend_len in *. lia. }
  assert (Htrack : br_pending_public_bytes (tcp_shift_bridge_track_public_rx br q) =
    br_pending_public_bytes br + Z.of_nat (length (concat q))).
  { unfold tcp_shift_bridge_track_public_rx. destruct (_ >? _) in |- *; cbn; done. }
  constructor.
  - done.
  - exists f. split; [done|]. split; [done|]. split; [done|]. rewrite Htrack, Hlen. lia.
  - constructor; try done.
    + change (h_out w (fw_backend_fd f) ++ pend f' = got ++ concat q).
      by rewrite Hpend, app_assoc, O5.
    + intros Hs. destruct (O11 Hs) as [He _]. change (fw_public_eof f = true) in He. congruence.
  - unfold tcp_shift_bridge_track_public_rx. by destruct (_ >? _) in |- *.
  - rewrite Htrack. unfold tcp_shift_bridge_track_public_rx. cbn. rewrite Hpd.
    destruct (_ >? _) eqn:E in |- *; cbn; lia.
Qed.

Lemma public_recv_ok br flows w hist pcb p err :
  bridge_inv br flows w hist ->
  (forall q, p = Some q -> may_receive w flows hist pcb q) ->
  exists rc br' flows' w',
    tcp_shift_bridge_public_recv loop w br flows (h_arg w pcb) p err = Some (rc, br', flows', w') /\
    bridge_inv br' flows' w' (received w hist pcb p err).
Proof.
  intros Hinv Hm. unfold tcp_shift_bridge_public_recv, received.
  assert (Hfree : still w (match p with Some p => chain_free w p | None => w end))
    by (destruct p; [apply chain_free_still|done]).
  destruct (h_arg w pcb) as [id|] eqn:Ha.
  2:{ eexists _, _, _, _. split; [done|]. by eapply bridge_inv_still. }
  destruct (arg_flow _ _ _ _ _ _ Hinv Ha) as (f & got & Ef & Hp & Hh & Hc).
  rewrite Ef. cbn [mbind option_bind].
  destruct (err =? 0) eqn:Eerr; cbn [negb].
  - destruct p as [q|].
    + pose proof (enter_data _ _ _ _ _ _ _ _ q Hinv Ha Ef Hh Hc (Hm q eq_refl)) as Hen.
      destruct (entered_progress _ _ _ _ _ _ _ _ _ Hen) as (rc & res & br' & w' & E & Hi & _).
      rewrite E. cbn. eexists _, _, _, _. split; [done|].
      assert (Halt : alter (fun got => got ++ concat q) id hist = <[id := got ++ concat q]> hist).
      { apply map_eq. intros j. destruct (decide (j = id)) as [->|Hj].
        - by rewrite lookup_alter_eq, lookup_insert_eq, Hh.
        - by rewrite lookup_alter_ne, lookup_insert_ne. }
      by rewrite Halt.
    + destruct (enter br flows w hist id f (f <| fw_public_eof := true |>) br Hinv Ef)
        as (pcb' & got' & Hen & Hh' & _); try done.
      { intros g q Hq. eapply flow_core_flags; [exact Hq|..]; try done; try apply Hq.
        intros Hs. split; [done|]. by apply (fo_fin _ _ _ _ _ Hq). }
      destruct (entered_progress _ _ _ _ _ _ _ _ _ Hen) as (rc & res & br' & w' & E & Hi & _).
      rewrite E. cbn. eexists _, _, _, _. split; [done|]. by rewrite insert_id in Hi.
  - pose proof (bridge_inv_still br br flows _ _ hist Hfree ltac:(done) eq_refl Hinv) as Hinv1.
    set (w1 := match p with Some p => chain_free w p | None => w end) in *.
    destruct (enter_same br flows w1 hist id f
      (br <| br_public_errors := br_public_errors br +w64 1 |>) Hinv1 Ef)
      as (pcb' & got' & Hen & Hh' & _); try done.
    destruct (tcp_shift_bridge_flow_abort loop w1 _ id f) as [br' w'] eqn:E.
    eexists _, _, _, _. split; [done|].
    apply (entered_abort _ _ _ _ _ _ _ _ _ _ _ Hen) in E. rewrite insert_id in E by done.
    by destruct p.
Qed.

(** lwIP has freed the connection when it reports an error. *)
Definition pcb_gone (pcb : Z) (w w1 : W) : Prop :=
  (forall fd, same_sock w w1 fd) /\ (forall pcb', pcb' <> pcb -> same_pcb w w1 pcb') /\
  h_arg w1 pcb = None.

Lemma public_error_ok br flows w w1 hist pcb :
  bridge_inv br flows w hist -> pcb_gone pcb w w1 ->
  exists br' flows' w',
    tcp_shift_bridge_public_error loop w1 br flows (h_arg w pcb) = Some (br', flows', w') /\
    bridge_inv br' flows' w' hist.
Proof.
  intros Hinv (G1 & G2 & G3). unfold tcp_shift_bridge_public_error.
  destruct (h_arg w pcb) as [id|] eqn:Ha.
  2:{ exists br, flows, w1. split; [done|]. eapply (bridge_inv_fresh _ _ _ _ _ _ (-1) pcb); try done.
      intros id f Ef. destruct (bi_flow _ _ _ _ Hinv _ _ Ef) as (_ & p & got & _ & Hc).
      pose proof (fo_fd _ _ _ _ _ Hc). lia. }
  destruct (arg_flow _ _ _ _ _ _ Hinv Ha) as (f & got & Ef & Hp & Hh & Hc).
  rewrite Ef. cbn [mbind option_bind].
  destruct (enter_same br flows w hist id f
    (br <| br_public_errors := br_public_errors br +w64 1 |>) Hinv Ef) as (pcb' & got' & Hen & Hh' & Hp'); try done.
  assert (pcb' = pcb) as -> by congruence.
  destruct (entered_ready _ _ _ _ _ _ _ _ _ Hen) as [Hb Hl].
  destruct (tcp_shift_bridge_flow_release loop w1 _ id _) as [br' w'] eqn:E.
  eexists _, _, _. split; [done|].
  pose proof Hc as [O1 O2 _ _ _ _ _ O8 O9 _ _ _].
  apply (release_ok _ _ _ pcb) in E; try done.
  - rewrite <- (insert_id hist id got') by done.
    apply (handled_inv _ _ _ _ _ _ _ _ _ (-1) _ _ _ Hen).
    split; [|by left]. destruct E as [E _].
    eapply freed_frame; [|by destruct E; constructor]. by split.
  - unfold watch_ok in *. cbn. by destruct (G1 (fw_backend_fd f)) as (_ & _ & _ & ->).
Qed.

(** ** Accepting *)

Definition sock_new (w : W) (fd : Z) : Prop :=
  h_open w fd = true /\ h_out w fd = [] /\ h_taken w fd = [] /\ h_watch w fd = None.
Definition pcb_new (w : W) (pcb : Z) : Prop :=
  h_arg w pcb = None /\ h_sent w pcb = [] /\ h_credit w pcb = 0.

Lemma sock_new_still w w' fd : still w w' -> sock_new w fd -> sock_new w' fd.
Proof.
  intros [Hs _] (A1 & A2 & A3 & A4). destruct (Hs fd) as (B1 & B2 & B3 & B4).
  unfold sock_new. by rewrite B1, B2, B3, B4.
Qed.
Lemma pcb_new_same w w' pcb : same_pcb w w' pcb -> pcb_new w pcb -> pcb_new w' pcb.
Proof. intros (B1 & B2 & B3) (A1 & A2 & A3). unfold pcb_new. by rewrite B1, B2, B3. Qed.

(** The list starts with a new flow. *)
Definition adds_flow (br : tcp_shift_bridge) (id : Z) (br1 : tcp_shift_bridge) : Prop :=
  br_flows br1 = id :: br_flows br /\ br_active_flows br1 = br_active_flows br + 1 /\
  br_peak_active_flows br1 = Z.max (br_peak_active_flows br) (br_active_flows br + 1) /\
  br_pending_public_bytes br1 = br_pending_public_bytes br /\
  br_peak_pending_public_bytes br1 = br_peak_pending_public_bytes br.

Lemma bridge_inv_add br flows w hist id br1 f w' pcb :
  bridge_inv br flows w hist -> flows !! id = None -> br_active_flows br < MAX_FLOWS ->
  frame (fw_backend_fd f) pcb w w' ->
  (forall j g, flows !! j = Some g -> fw_backend_fd g <> fw_backend_fd f) ->
  h_arg w pcb = None -> adds_flow br id br1 ->
  flow_core w' [] id pcb f -> armed f -> pend_len f = 0 ->
  bridge_inv br1 (put_flow flows id (Some f)) w' (<[id := []]> hist).
Proof.
  intros [I1 I2 I3 I4 I5 I6 I7 I8 I9 I10] Hid Hmax Hfr Hfd Ha (A1 & A2 & A3 & A4 & A5) Hc Harm Hlen.
  assert (Hother : forall j, j <> id -> put_flow flows id (Some f) !! j = flows !! j)
    by (intros; by apply put_flow_other).
  assert (Hnin : id ∉ br_flows br) by (rewrite I2, Hid; by intros []).
  constructor.
  - rewrite A1. by apply NoDup_cons.
  - intros j. rewrite A1, elem_of_cons, I2. destruct (decide (j = id)) as [->|Hj].
    + rewrite put_flow_same. split; [by eexists|by left].
    + rewrite Hother by done. naive_solver.
  - rewrite A1, A2, I3. cbn [length]. lia.
  - lia.
  - lia.
  - rewrite A4, A1, I6. cbn. unfold len_of at 1. rewrite put_flow_same. cbn. rewrite Hlen.
    rewrite (pending_sum_ext flows (put_flow flows id (Some f))); [lia|].
    intros j Hj. unfold len_of. rewrite Hother; [done|congruence].
  - lia.
  - intros j g Hg. destruct (decide (j = id)) as [->|Hj].
    + rewrite put_flow_same in Hg. injection Hg as <-. split; [done|]. exists pcb, [].
      by rewrite lookup_insert_eq.
    + rewrite Hother in Hg by done. destruct (I8 _ _ Hg) as (Hm & p & got & Hh & Hcg).
      split; [done|]. exists p, got. rewrite lookup_insert_ne by done. split; [done|].
      eapply flow_core_frame; [exact Hfr|by eapply Hfd| |exact Hcg].
      intros ->. pose proof (fo_arg _ _ _ _ _ Hcg). congruence.
  - intros i j g h Hg Hh Hij. destruct (decide (i = id)) as [->|Hi], (decide (j = id)) as [->|Hj].
    + done.
    + rewrite put_flow_same in Hg. rewrite Hother in Hh by done. injection Hg as <-.
      pose proof (Hfd _ _ Hh). congruence.
    + rewrite put_flow_same in Hh. rewrite Hother in Hg by done. injection Hh as <-. by eapply Hfd.
    + rewrite Hother in Hg, Hh by done. by eapply I9.
  - intros p j Hp. destruct (decide (p = pcb)) as [->|Hne].
    + rewrite (fo_arg _ _ _ _ _ Hc) in Hp. injection Hp as <-. exists f. rewrite put_flow_same.
      split; [done|apply Hc].
    + destruct (proj2 Hfr p Hne) as (_ & _ & Ea). rewrite Ea in Hp.
      destruct (I10 _ _ Hp) as (g & Hg1 & Hg2). exists g. rewrite Hother; [done|]. congruence.
Qed.

(** The history of a flow that does not exist does not matter, and a peak may
    be higher. *)
Lemma bridge_inv_weaken br br' flows w hist id x :
  bridge_inv br flows w hist -> flows !! id = None ->
  br_flows br' = br_flows br -> br_active_flows br' = br_active_flows br ->
  br_peak_active_flows br <= br_peak_active_flows br' ->
  br_pending_public_bytes br' = br_pending_public_bytes br ->
  br_peak_pending_public_bytes br' = br_peak_pending_public_bytes br ->
  bridge_inv br' flows w (<[id := x]> hist).
Proof.
  intros [I1 I2 I3 I4 I5 I6 I7 I8 I9 I10] Hid K1 K2 K3 K4 K5.
  constructor; rewrite ?K1, ?K2, ?K4, ?K5; try done; [lia|].
  intros j g Hg. destruct (I8 _ _ Hg) as (Hm & p & got & Hh & Hc). split; [done|]. exists p, got.
  rewrite lookup_insert_ne by congruence. done.
Qed.

(** A flow that could not be watched is taken out again. *)
Lemma unlink_new br flows w hist id br1 f w2 pcb br' flows' w' :
  bridge_inv br flows w hist -> flows !! id = None -> br_active_flows br < MAX_FLOWS ->
  (forall j g, flows !! j = Some g -> fw_backend_fd g <> fw_backend_fd f) ->
  h_arg w pcb = None -> adds_flow br id br1 -> pend_len f = 0 ->
  frame (fw_backend_fd f) pcb w w2 -> flow_core w2 [] id pcb f ->
  fail_flow loop w2 br1 flows id f = (br', flows', w') ->
  bridge_inv br' flows' w' (<[id := []]> hist).
Proof.
  intros Hinv Hid Hmax Hne Ha (A1 & A2 & A3 & A4 & A5) Hz Hfr2 Hc2 E2. unfold fail_flow in E2.
  destruct (tcp_shift_bridge_flow_abort loop w2 _ id f) as [br3 w3] eqn:E3. injection E2 as <- <- <-.
  destruct (pending_sum_bound _ _ _ _ Hinv) as [Hb _].
  pose proof (bi_active _ _ _ _ Hinv) as Hact. pose proof (bi_max _ _ _ _ Hinv) as Hm.
  apply (abort_ok _ _ _ pcb) in E3; try done.
  - destruct E3 as [F1 F2 (l1 & l2 & F3 & F4) F5 F6 [F7 F8]]. cbn in *.
    assert (Hput : put_flow flows id None = flows).
    { apply map_eq. intros j. destruct (decide (j = id)) as [->|Hj];
        [by rewrite put_flow_same, Hid|by rewrite put_flow_other]. }
    assert (Hl : l1 ++ l2 = br_flows br).
    { rewrite A1 in F3. destruct l1 as [|y l1]; [by injection F3|]. injection F3 as <- F3.
      assert (Hs : is_Some (flows !! id)).
      { apply (bi_listed _ _ _ _ Hinv). rewrite F3. apply elem_of_app. right. left. }
      rewrite Hid in Hs. by destruct Hs. }
    rewrite Hput. eapply (bridge_inv_weaken br); [|done|congruence|lia|lia|lia|congruence].
    eapply bridge_inv_fresh; [eapply frame_trans; [exact Hfr2|exact F1]|done|done|done|done|done|done].
  - apply Hc2.
  - apply Hc2.
  - rewrite Hz. lia.
  - unfold pending_ok. cbn. rewrite Hz. lia.
  - unfold listed. cbn. rewrite A1, A2, Hact. rewrite Hact in Hm.
    split; [left|]. cbn [length]. lia.
Qed.

(** A flow as [accept] sets it up. *)
Definition new_flow (pcb : Z) (f : tcp_shift_bridge_flow) : Prop :=
  fw_pcb f = Some pcb /\ 0 <= fw_backend_fd f /\ fw_public_rx f = None /\
  wt_registered (fw_backend_watch f) = false /\
  fw_backend_connecting f = negb (fw_backend_connected f) /\
  fw_backend_write_shutdown f = false /\ fw_public_write_shutdown f = false.

Lemma new_flow_core w id pcb f :
  sock_new w (fw_backend_fd f) -> pcb_new w pcb -> new_flow pcb f ->
  flow_core (tcp_callbacks w pcb (Some id)) [] id pcb f.
Proof.
  intros (S1 & S2 & S3 & S4) (P1 & P2 & P3) (N1 & N2 & N3 & N4 & N5 & N6 & N7).
  destruct (callbacks_law w pcb (Some id)) as (C1 & C2 & C3 & C4 & C5).
  destruct (C1 (fw_backend_fd f)) as (T1 & T2 & T3 & T4).
  constructor; rewrite ?T1, ?T2, ?T3, ?S1, ?S2, ?S3, ?C4, ?C5, ?P2, ?P3, ?N6, ?N7; try done.
  - unfold pend. by rewrite N3.
  - unfold pend_len, pend. rewrite N3. cbn. lia.
  - unfold watch_ok. by rewrite N4, T4.
Qed.

Lemma accept_link_ok br flows w hist id f pcb rc br' flows' w' :
  bridge_inv br flows w hist -> flows !! id = None -> br_active_flows br < MAX_FLOWS ->
  sock_new w (fw_backend_fd f) -> pcb_new w pcb -> new_flow pcb f ->
  (forall j g, flows !! j = Some g -> fw_backend_fd g <> fw_backend_fd f) ->
  accept_link loop w br flows id f = (rc, br', flows', w') ->
  bridge_inv br' flows' w' (<[id := []]> hist).
Proof.
  intros Hinv Hid Hmax Hsn Hpn Hn Hne E. unfold accept_link in E.
  set (br1 := if _ >? _ then _ else _) in E.
  assert (Hbr1 : adds_flow br id br1).
  { pose proof (bi_max _ _ _ _ Hinv). pose proof (bi_active _ _ _ _ Hinv).
    assert (Hu : br_active_flows br +w64 1 = br_active_flows br + 1) by (apply u64_small; lia).
    unfold br1, adds_flow. cbn. rewrite Hu. destruct (_ >? _) eqn:E1 in |- *; cbn; rewrite ?Hu;
      split_and!; (done || lia). }
  clearbody br1. pose proof (new_flow_core w id pcb f Hsn Hpn Hn) as Hc1.
  destruct Hn as (N1 & N2 & N3 & N4 & _). unfold tcp_shift_bridge_flow_set_callbacks in E. rewrite N1 in E.
  destruct (callbacks_law w pcb (Some id)) as (C1 & C2 & _).
  set (w1 := tcp_callbacks w pcb (Some id)) in *.
  assert (Hfr1 : frame (fw_backend_fd f) pcb w w1) by (by split).
  assert (Hz : pend_len f = 0) by (unfold pend_len, pend; by rewrite N3).
  assert (Hfail := fun w2 => unlink_new br flows w hist id br1 f w2 pcb br' flows' w'
    Hinv Hid Hmax Hne (proj1 Hpn) Hbr1 Hz).
  unfold tcp_shift_lwip_loop_watch_add in E. rewrite N4, orb_false_r in E.
  destruct (_ || _) in E.
  { rewrite flow_same_watch in E. cbn in E.
    destruct (fail_flow loop w1 br1 flows id f) as [[b3 fl3] w3] eqn:E3. injection E as <- <- <- <-.
    by eapply Hfail. }
  destruct (epoll_ctl _ _ _ _ _) as [r w2] eqn:E2.
  destruct (ctl_law _ _ _ _ _ _ E2) as (D1 & D2 & D3 & D4 & D5 & D6).
  assert (Hfr2 : frame (fw_backend_fd f) pcb w w2) by (eapply frame_trans; [exact Hfr1|by split]).
  destruct (r <? 0) eqn:Er.
  - rewrite flow_same_watch in E. cbn in E.
    destruct (fail_flow loop w2 br1 flows id f) as [[b3 fl3] w3] eqn:E3. injection E as <- <- <- <-.
    destruct (ctl_core w1 br1 f [] id pcb _ _ _ _ (fw_backend_watch f) Hc1 E2) as [Hc2 _].
    { pose proof (fo_watch _ _ _ _ _ Hc1) as Hw1. unfold watch_ok in *. cbn. rewrite N4 in *.
      by rewrite D6. }
    rewrite flow_same_watch in Hc2. by eapply Hfail.
  - cbn in E. injection E as <- <- <- <-.
    destruct (ctl_core w1 br1 f [] id pcb _ _ _ _
      (mk_watch (fw_backend_fd f) (tcp_shift_bridge_backend_events f) (Some (FnClient id)) true) Hc1 E2)
      as [Hc2 _]; [done|].
    eapply (bridge_inv_add br _ w _ _ _ _ _ pcb); try done; [apply Hpn|].
    unfold armed. cbn. by left.
Qed.

(** The flow an accept allocates has been handed nothing. *)
Definition accepted (w : W) (hist : gmap Z (list Z)) : gmap Z (list Z) :=
  match (flow_alloc w).1 with Some id => <[id := []]> hist | None => hist end.

Lemma configure_still w br fd rc br' w' :
  tcp_shift_bridge_configure_backend_socket w br fd = (rc, br', w') ->
  still w w' /\ keeps_flows br br' /\ br_pending_public_bytes br' = br_pending_public_bytes br.
Proof.
  unfold tcp_shift_bridge_configure_backend_socket. intros E.
  pose proof (setopt_still w fd SO_SNDBUF 16384) as H1.
  destruct (set_sock_buffer w fd SO_SNDBUF 16384) as [r1 w1]. cbn in H1.
  destruct (r1 <? 0); [by injection E as <- <- <-|].
  pose proof (setopt_still w1 fd SO_RCVBUF 16384) as H2.
  destruct (set_sock_buffer w1 fd SO_RCVBUF 16384) as [r2 w2]. cbn in H2.
  pose proof (still_trans _ _ _ H1 H2) as H12.
  destruct (r2 <? 0); [by injection E as <- <- <-|].
  pose proof (getopt_still w2 fd SO_SNDBUF) as H3.
  destruct (get_sock_buffer w2 fd SO_SNDBUF) as [[a|] w3]; cbn in H3;
    pose proof (still_trans _ _ _ H12 H3) as H123; [|by injection E as <- <- <-].
  set (br1 := if _ && _ then _ else br) in E.
  assert (Hb1 : keeps_flows br br1 /\ br_pending_public_bytes br1 = br_pending_public_bytes br)
    by (unfold br1; by destruct (_ && _)).
  clearbody br1. destruct Hb1 as [(K1 & K2 & K3 & K4) K5].
  pose proof (getopt_still w3 fd SO_RCVBUF) as H4.
  destruct (get_sock_buffer w3 fd SO_RCVBUF) as [[a'|] w4]; cbn in H4;
    pose proof (still_trans _ _ _ H123 H4) as H1234; [|by injection E as <- <- <-].
  injection E as <- <- <-. destruct (_ && _); by split_and!.
Qed.

(** A failure closes the socket and resets the connection. *)
Lemma accept_fail_ok br b flows w wx hist fd pcb :
  bridge_inv br flows w hist -> (forall j g, flows !! j = Some g -> fw_backend_fd g <> fd) ->
  pcb_new w pcb -> 0 <= fd -> still w wx -> keeps_flows br b ->
  br_pending_public_bytes b = br_pending_public_bytes br ->
  bridge_inv (b <| br_backend_failures := br_backend_failures b +w64 1 |>) flows
    (tcp_abort (if fd >=? 0 then sock_close wx fd else wx) pcb) hist.
Proof.
  intros Hinv Hne Hp Hfd Hsx Hkx Hpx. replace (fd >=? 0) with true by lia.
  destruct (close_law wx fd) as (C1 & C2 & _).
  eapply (bridge_inv_still b); [apply tcp_abort_still|done|done|].
  eapply (bridge_inv_fresh br b _ wx _ _ fd pcb); [by split|done| | |done|done|].
  - destruct (proj2 Hsx pcb) as (_ & _ & ->). apply Hp.
  - destruct (C1 pcb) as (_ & _ & ->). destruct (proj2 Hsx pcb) as (_ & _ & ->). apply Hp.
  - by eapply bridge_inv_still.
Qed.

Lemma accept_ok br flows w hist newpcb err rc br' flows' w' :
  bridge_inv br flows w hist -> br_active_flows br < MAX_FLOWS ->
  (forall id w1, flow_alloc w = (Some id, w1) -> flows !! id = None) ->
  (forall pcb, newpcb = Some pcb -> pcb_new w pcb) ->
  tcp_shift_bridge_accept loop w br flows newpcb err = (rc, br', flows', w') ->
  bridge_inv br' flows' w' (accepted w hist).
Proof.
  intros Hinv Hmax Hid Hpcb E. unfold accepted.
  assert (Hhist : forall br1 w1, bridge_inv br1 flows w1 hist -> bridge_inv br1 flows w1
    (match (flow_alloc w).1 with Some id => <[id := []]> hist | None => hist end)).
  { intros br1 w1 Hi. destruct (flow_alloc w) as [[id|] wa] eqn:Ea; [|done]. cbn.
    eapply bridge_inv_weaken; [exact Hi|by eapply Hid|done..]. }
  unfold tcp_shift_bridge_accept in E. destruct newpcb as [pcb|]; [|injection E as <- <- <- <-; auto].
  destruct (negb (err =? 0)); [injection E as <- <- <- <-; auto|]. specialize (Hpcb _ eq_refl).
  pose proof (alloc_still w) as Hs0. destruct (flow_alloc w) as [[id|] w1] eqn:Ea; cbn in Hs0, Hhist.
  2:{ injection E as <- <- <- <-. cbn. eapply bridge_inv_still; [|..|exact Hinv]; try done.
      eapply still_trans; [exact Hs0|apply tcp_abort_still]. }
  specialize (Hid _ _ eq_refl). cbn. set (br0 := br <| br_accepts := _ |>) in E.
  assert (Hinv1 : bridge_inv br0 flows w1 hist) by (by eapply (bridge_inv_still br)).
  destruct (sock_open w1) as [fd w2] eqn:Eo.
  destruct (open_law _ _ _ Eo) as (L1 & L2 & L3 & L4).
  unfold accept_fail in E.
  destruct (fd <? 0) eqn:Efd.
  { replace (fd >=? 0) with false in E by lia. injection E as <- <- <- <-. apply Hhist.
    eapply bridge_inv_still; [|..|exact Hinv1]; try done.
    eapply still_trans; [apply L3; lia|apply tcp_abort_still]. }
  destruct (L4 ltac:(lia)) as (Hcl & Hop & Ho & Ht & Hwt).
  assert (Hnew : sock_new w2 fd) by done.
  assert (Hne : forall j g, flows !! j = Some g -> fw_backend_fd g <> fd).
  { intros j g Hg Heq. destruct (bi_flow _ _ _ _ Hinv1 _ _ Hg) as (_ & p & got & _ & Hc).
    pose proof (fo_open _ _ _ _ _ Hc). congruence. }
  assert (Hp1 : pcb_new w1 pcb) by (eapply pcb_new_same; [apply Hs0|done]).
  assert (Hinv2 : bridge_inv br0 flows w2 hist).
  { eapply (bridge_inv_fresh _ _ _ _ _ _ fd pcb); [|done| | |done|done|exact Hinv1].
    - by split.
    - apply Hp1.
    - destruct (L1 pcb) as (_ & _ & ->). apply Hp1. }
  assert (Hp2 : pcb_new w2 pcb) by (eapply pcb_new_same; [apply L1|done]).
  assert (Hfail := fun b wx Hsx Hkx Hpx => Hhist _ _
    (accept_fail_ok br0 b flows w2 wx hist fd pcb Hinv2 Hne Hp2 ltac:(lia) Hsx Hkx Hpx)).
  destruct (tcp_shift_bridge_configure_backend_socket w2 br0 fd) as [[r3 br3] w3] eqn:E3.
  destruct (configure_still _ _ _ _ _ _ E3) as (Hs3 & Hk3 & Hpd3).
  destruct (r3 <? 0); [injection E as <- <- <- <-; by apply Hfail|].
  pose proof (connect_still w3 fd (br_backend_port br3)) as Hs4.
  destruct (sock_connect w3 fd (br_backend_port br3)) as [res w4]. cbn in Hs4.
  pose proof (still_trans _ _ _ Hs3 Hs4) as Hs34.
  assert (Hinv4 : forall b, keeps_flows br3 b -> br_pending_public_bytes b = br_pending_public_bytes br3 ->
    bridge_inv b flows w4 hist).
  { intros b Hk Hp. eapply bridge_inv_still; [exact Hs4|exact Hk|exact Hp|].
    by eapply bridge_inv_still. }
  assert (Hact : br_active_flows br3 = br_active_flows br) by (apply Hk3).
  destruct res.
  - eapply (accept_link_ok _ _ _ _ _ _ pcb); [apply (Hinv4 (br3 <| br_backend_connects := br_backend_connects br3 +w64 1 |>))|..|exact E];
      try done; cbn; [lia|by eapply sock_new_still|eapply pcb_new_same; [apply Hs34|done]
      |split_and!; try done; cbn; lia].
  - eapply (accept_link_ok _ _ _ _ _ _ pcb); [apply (Hinv4 br3)|..|exact E];
      try done; cbn; [lia|by eapply sock_new_still|eapply pcb_new_same; [apply Hs34|done]
      |split_and!; try done; cbn; lia].
  - injection E as <- <- <- <-. by apply Hfail.
Qed.

(** ** Stopping *)

Lemma stop_loop_ok fuel : forall br flows w hist,
  bridge_inv br flows w hist -> (length (br_flows br) <= fuel)%nat ->
  exists br' w', stop_loop loop fuel w br flows = Some (br', ∅, w') /\
    bridge_inv br' ∅ w' hist /\ br_flows br' = [].
Proof.
  induction fuel as [|fuel IH]; intros br flows w hist Hinv Hl.
  all: destruct (br_flows br) as [|id l] eqn:El; cbn [stop_loop]; rewrite El.
  1,3: assert (flows = ∅) as -> by
    (apply map_empty; intros j; apply eq_None_not_Some; rewrite <- (bi_listed _ _ _ _ Hinv), El;
     apply not_elem_of_nil); by exists br, w.
  { cbn in Hl. lia. }
  assert (is_Some (flows !! id)) as [f Ef] by (apply (bi_listed _ _ _ _ Hinv); rewrite El; left).
  rewrite Ef. cbn [mbind option_bind].
  destruct (enter_same br flows w hist id f br Hinv Ef) as (pcb & got & Hen & Hh & _); try done.
  destruct (tcp_shift_bridge_flow_abort loop w br id f) as [br1 w1] eqn:E1.
  pose proof (entered_abort _ _ _ _ _ _ _ _ _ _ _ Hen E1) as Hinv1. rewrite insert_id in Hinv1 by done.
  apply IH; [done|]. pose proof (bi_active _ _ _ _ Hinv1) as A1.
  assert (A2 : br_active_flows br1 = br_active_flows br - 1).
  { destruct (entered_ready _ _ _ _ _ _ _ _ _ Hen) as [Hb Hls].
    pose proof (en_core _ _ _ _ _ _ _ _ _ Hen) as [O1 O2 _ _ _ _ _ O8 O9 _ _ _].
    apply (abort_ok _ _ _ pcb) in E1; try done. apply E1. }
  pose proof (bi_active _ _ _ _ Hinv) as A3. rewrite El in A3. cbn in A3, Hl. lia.
Qed.

Lemma stop_ok br flows w hist :
  bridge_inv br flows w hist ->
  exists br' w', tcp_shift_bridge_stop loop w br flows = Some (br', ∅, w') /\
    bridge_inv br' ∅ w' hist /\ br_flows br' = [].
Proof.
  intros Hinv. unfold tcp_shift_bridge_stop.
  set (x := match br_listener br with Some _ => _ | None => _ end).
  assert (Hx : bridge_inv x.1 flows x.2 hist).
  { unfold x. destruct (br_listener br) as [l|]; [|done].
    pose proof (accept_callback_still w l false) as Hs1.
    pose proof (tcp_close_still (tcp_accept_callback w l false) l) as Hs2.
    destruct (tcp_close (tcp_accept_callback w l false) l) as [err w2]. cbn in Hs2 |- *.
    eapply bridge_inv_still; [|..|exact Hinv]; try done.
    eapply still_trans; [exact Hs1|]. eapply still_trans; [exact Hs2|].
    destruct (negb _); [apply tcp_abort_still|done]. }
  destruct x as [br1 w1]. cbn in Hx.
  destruct (stop_loop_ok (length (br_flows br1)) br1 flows w1 hist Hx ltac:(lia)) as (br2 & w2 & -> & Hi & Hl).
  cbn. eexists _, _. split; [done|]. split; [|done]. by eapply (bridge_inv_still br2).
Qed.

(** ** Reachable bridges *)

(** A started bridge after any sequence of callbacks. [hist] records the bytes
    lwIP handed over for each flow; between two callbacks the system may move
    without touching the files and connections of the flows. *)
Inductive bridge_reach : tcp_shift_bridge -> store -> W -> gmap Z (list Z) -> Prop :=
  | reach_start w0 br0 public_port backend_port ip_type br w :
      tcp_shift_bridge_start_type loop w0 br0 public_port backend_port ip_type = (0, br, w) ->
      (forall pcb, h_arg w pcb = None) -> bridge_reach br ∅ w ∅
  | reach_env br flows w hist w' :
      bridge_reach br flows w hist -> still w w' -> bridge_reach br flows w' hist
  | reach_accept br flows w hist newpcb err rc br' flows' w' :
      bridge_reach br flows w hist -> br_active_flows br < MAX_FLOWS ->
      (forall id w1, flow_alloc w = (Some id, w1) -> flows !! id = None) ->
      (forall pcb, newpcb = Some pcb -> pcb_new w pcb) ->
      tcp_shift_bridge_accept loop w br flows newpcb err = (rc, br', flows', w') ->
      bridge_reach br' flows' w' (accepted w hist)
  | reach_ready br flows w hist id f events rc br' flows' w' :
      bridge_reach br flows w hist -> flows !! id = Some f ->
      tcp_shift_bridge_backend_ready loop w br flows id events = Some (rc, br', flows', w') ->
      bridge_reach br' flows' w' hist
  | reach_recv br flows w hist pcb p err rc br' flows' w' :
      bridge_reach br flows w hist -> (forall q, p = Some q -> may_receive w flows hist pcb q) ->
      tcp_shift_bridge_public_recv loop w br flows (h_arg w pcb) p err = Some (rc, br', flows', w') ->
      bridge_reach br' flows' w' (received w hist pcb p err)
  | reach_sent br flows w hist pcb rc br' flows' w' :
      bridge_reach br flows w hist ->
      tcp_shift_bridge_public_sent loop w br flows (h_arg w pcb) = Some (rc, br', flows', w') ->
      bridge_reach br' flows' w' hist
  | reach_poll br flows w hist pcb rc br' flows' w' :
      bridge_reach br flows w hist ->
      tcp_shift_bridge_public_poll loop w br flows (h_arg w pcb) = Some (rc, br', flows', w') ->
      bridge_reach br' flows' w' hist
  | reach_error br flows w hist pcb w1 br' flows' w' :
      bridge_reach br flows w hist -> pcb_gone pcb w w1 ->
      tcp_shift_bridge_public_error loop w1 br flows (h_arg w pcb) = Some (br', flows', w') ->
      bridge_reach br' flows' w' hist.

Lemma start_inv w0 br0 pp bp ty br w :
  tcp_shift_bridge_start_type loop w0 br0 pp bp ty = (0, br, w) ->
  (forall pcb, h_arg w pcb = None) -> bridge_inv br ∅ w ∅.
Proof.
  intros E Ha. unfold tcp_shift_bridge_start_type in E. destruct (_ || _) in E; [done|].
  destruct (tcp_new_ip_type _ _) as [[pcb|] w1]; [|done].
  destruct (tcp_bind w1 pcb pp) as [err w2]. destruct (negb _) in E; [done|].
  destruct (tcp_listen w2 pcb) as [[[l|] err'] w3]; [|done]. destruct (negb _) in E; [done|].
  injection E as <- <-. constructor; cbn; try done; try lia.
  - apply NoDup_nil_2.
  - intros id. rewrite lookup_empty. split; [by intros ?%elem_of_nil|by intros []].
  - intros pcb' id Hp. by rewrite Ha in Hp.
Qed.

Lemma bridge_reach_inv br flows w hist : bridge_reach br flows w hist -> bridge_inv br flows w hist.
Proof.
  induction 1 as [w0 br0 pp bp ty br w E Ha|br flows w hist w' _ IH Hs
    |br flows w hist newpcb err rc br' flows' w' _ IH Hm Hid Hp E
    |br flows w hist id f ev rc br' flows' w' _ IH Ef E
    |br flows w hist pcb p err rc br' flows' w' _ IH Hm E
    |br flows w hist pcb rc br' flows' w' _ IH E
    |br flows w hist pcb rc br' flows' w' _ IH E
    |br flows w hist pcb w1 br' flows' w' _ IH Hg E].
  - by eapply start_inv.
  - by eapply bridge_inv_still.
  - by eapply accept_ok.
  - destruct (backend_ready_ok br flows w hist id f ev IH Ef) as (? & ? & ? & E' & Hi). congruence.
  - destruct (public_recv_ok br flows w hist pcb p err IH Hm) as (? & ? & ? & ? & E' & Hi). congruence.
  - destruct (public_sent_ok br flows w hist pcb IH) as (? & ? & ? & ? & E' & Hi). congruence.
  - destruct (public_poll_ok br flows w hist pcb IH) as (? & ? & ? & ? & E' & Hi). congruence.
  - destruct (public_error_ok br flows w w1 hist pcb IH Hg) as (? & ? & ? & E' & Hi). congruence.
Qed.

(** C14. The bridge relays both byte streams faithfully. At any time, for
    every flow: the bytes its backend socket took, followed by the bytes that
    wait, are exactly the bytes lwIP handed over, in order; the receive window
    was given back by exactly the bytes the backend took, so at most one window
    of bytes waits; the bytes given to lwIP for sending are exactly the bytes read
    from the backend, in order; the backend is told the end of the stream only
    after all of it was written, the peer only after the backend's end was read;
    and a flow that ends in good order has delivered everything. *)
Theorem bridge_streams br flows w hist id f :
  bridge_reach br flows w hist -> flows !! id = Some f ->
  exists pcb got, fw_pcb f = Some pcb /\ hist !! id = Some got /\
    h_out w (fw_backend_fd f) ++ pend f = got /\
    h_credit w pcb = Z.of_nat (length (h_out w (fw_backend_fd f))) /\ pend_len f <= TCP_WND /\
    h_sent w pcb = h_taken w (fw_backend_fd f) /\
    (fw_backend_write_shutdown f = true -> fw_public_eof f = true /\ pend f = []) /\
    (fw_public_write_shutdown f = true -> fw_backend_eof f = true) /\
    (forall br' w', progress_or_abort loop w br id f = Some (1, None, br', w') ->
       h_out w' (fw_backend_fd f) = got /\ h_sent w' pcb = h_taken w' (fw_backend_fd f)).
Proof.
  intros Hr Ef. pose proof (bridge_reach_inv _ _ _ _ Hr) as Hinv.
  destruct (enter_same br flows w hist id f br Hinv Ef) as (pcb & got & Hen & Hh & Hp); try done.
  destruct (entered_ready _ _ _ _ _ _ _ _ _ Hen) as [Hb Hl].
  pose proof (en_core _ _ _ _ _ _ _ _ _ Hen) as Hc.
  exists pcb, got. split; [done|]. split; [done|].
  pose proof Hc as [_ _ _ _ O5 O6 O7 O8 _ _ O11 O12]. split_and!; try done.
  - intros Hs. destruct (O11 Hs) as [He Hrx]. split; [done|]. unfold pend. by rewrite Hrx.
  - intros br' w' E. destruct (progress_ok w br id f got pcb Hc Hb Hl) as (rc & res & b & w1 & E' & Hh').
    rewrite E in E'. injection E' as <- <- <- <-. by destruct Hh' as (_ & [?|[_ Hdone]]).
Qed.



End Bridge.

(** ** A concrete system *)

Record demo_net := mk_net {
  dn_out : Z -> list Z; dn_taken : Z -> list Z; dn_input : Z -> list Z; dn_open : Z -> bool;
  dn_watch : Z -> option Z; dn_sent : Z -> list Z; dn_credit : Z -> Z; dn_arg : Z -> option Z;
  dn_next : Z
}.
#[local] Instance eta_net : Eta demo_net := fun r =>
  mk_net (dn_out r) (dn_taken r) (dn_input r) (dn_open r) (dn_watch r) (dn_sent r) (dn_credit r)
    (dn_arg r) (dn_next r).

Definition upd {A} (g : Z -> A) (k : Z) (v : A) : Z -> A := fun x => if x =? k then v else g x.

Lemma upd_eq {A} (g : Z -> A) k v : upd g k v k = v.
Proof. unfold upd. by rewrite Z.eqb_refl. Qed.
Lemma upd_ne {A} (g : Z -> A) k v x : x <> k -> upd g k v x = g x.
Proof. intros Hne. unfold upd. by rewrite (proj2 (Z.eqb_neq x k) Hne). Qed.

#[local] Instance net_history : History demo_net := {|
  h_out := dn_out; h_taken := dn_taken; h_input := dn_input; h_open := dn_open;
  h_watch := dn_watch; h_sent := dn_sent; h_credit := dn_credit; h_arg := dn_arg
|}.

#[local] Instance net_loop : LoopOS demo_net := {|
  epoll_create w := (6, w);
  epoll_ctl w _ op fd ev :=
    (0, w <| dn_watch := upd (dn_watch w) fd
                           (match op with EPOLL_CTL_DEL => None | _ => Some ev end) |>);
  epoll_wait w _ _ := (WaitTimeout, w);
  clock_gettime w := (None, w);
  sys_timeouts_sleeptime w := (0, w)
|}.

(** Sockets connect at once and take everything. *)
#[local] Instance net_bridge : BridgeOS demo_net := {|
  sock_open w :=
    let fd := dn_next w in
    if dn_open w fd || (fd <? 0) then (-1, w)
    else (fd, w <| dn_open := upd (dn_open w) fd true |> <| dn_out := upd (dn_out w) fd [] |>
                <| dn_taken := upd (dn_taken w) fd [] |> <| dn_watch := upd (dn_watch w) fd None |>
                <| dn_next := fd + 1 |>);
  sock_connect w _ _ := (Connected, w);
  sock_close w fd := w <| dn_open := upd (dn_open w) fd false |> <| dn_watch := upd (dn_watch w) fd None |>;
  set_sock_buffer w _ _ _ := (0, w);
  get_sock_buffer w _ _ := (Some 32768, w);
  get_sock_error w _ := (Some 0, w);
  sock_writev w fd iov :=
    (WriteCount (Z.of_nat (length (concat iov))),
     w <| dn_out := upd (dn_out w) fd (dn_out w fd ++ concat iov) |>);
  recv_peek w fd n :=
    match take (Z.to_nat n) (dn_input w fd) with [] => (RecvAgain, w) | b => (RecvBytes b, w) end;
  recv_take w fd n :=
    match take (Z.to_nat n) (dn_input w fd) with
    | [] => (RecvAgain, w)
    | b => (RecvBytes b, w <| dn_taken := upd (dn_taken w) fd (dn_taken w fd ++ b) |>
                           <| dn_input := upd (dn_input w) fd (drop (Z.to_nat n) (dn_input w fd)) |>)
    end;
  shutdown_write w _ := (ShutdownOk, w);
  tcp_sndbuf _ _ := 65535;
  tcp_write w pcb b := (0, w <| dn_sent := upd (dn_sent w) pcb (dn_sent w pcb ++ b) |>);
  tcp_output w _ := w;
  tcp_recved w pcb n := w <| dn_credit := upd (dn_credit w) pcb (dn_credit w pcb + n) |>;
  tcp_shutdown_tx w _ := (0, w);
  tcp_close w _ := (0, w);
  tcp_abort w _ := w;
  tcp_callbacks w pcb a := w <| dn_arg := upd (dn_arg w) pcb a |>;
  tcp_accept_callback w _ _ := w;
  tcp_new_ip_type w _ := (Some 50, w);
  tcp_bind w _ _ := (0, w);
  tcp_listen w pcb := (Some pcb, 0, w);
  chain_free w _ := w;
  chain_cat := app;
  chain_drop w p n :=
    (match drop (Z.to_nat n) (concat p) with [] => None | b => Some [b] end, w);
  cc_mark_app_limited w _ := w;
  flow_alloc w := (Some 100, w)
|}.

Definition demo_loop : tcp_shift_lwip_loop := zero_loop <| lp_epoll_fd := 6 |>.

Ltac net_solve :=
  intros; split_and?; intros; unfold still, same_sock, same_pcb in *; cbn in *;
  rewrite ?upd_eq, ?upd_ne by done; split_and?; done.

Lemma take_nonempty_le n (l b : list Z) :
  take (Z.to_nat n) l = b -> b <> [] -> Z.of_nat (length b) <= n.
Proof.
  intros <- Hne. rewrite length_take. destruct (Z.to_nat n) eqn:E; [done|]. lia.
Qed.

#[local] Instance net_laws : BridgeLaws (loop := demo_loop).
Proof.
  split; try net_solve.
  - intros w fd w' E. unfold sock_open in E. cbn in E.
    destruct (dn_open w (dn_next w) || (dn_next w <? 0)) eqn:Eo; injection E as <- <-.
    + split_and!; [net_solve|net_solve|net_solve|lia].
    + apply orb_false_iff in Eo as [Eo1 Eo2]. split_and!; [net_solve|net_solve|lia|].
      intros _. cbn. rewrite !upd_eq. done.
  - intros w fd n. cbn. by destruct (take _ _).
  - intros w fd iov r w' [= <- <-]. split_and!; try net_solve; try lia.
    cbn. by rewrite upd_eq, Nat2Z.id, firstn_all.
  - intros w fd n b w' E. cbn in E. destruct (take (Z.to_nat n) (dn_input w fd)) as [|x b0] eqn:Et; [done|].
    injection E as <- <-. split; [by eapply take_nonempty_le|]. cbn. rewrite <- Et.
    exists (drop (Z.to_nat n) (dn_input w fd)). by rewrite take_drop.
  - intros w fd n r w' E. cbn in E. destruct (take (Z.to_nat n) (dn_input w fd)) as [|x b0] eqn:Et.
    + injection E as <- <-. net_solve.
    + injection E as <- <-. split_and!; try net_solve; [by eapply take_nonempty_le|].
      cbn. rewrite upd_eq, <- (take_drop (Z.to_nat n) (dn_input w fd)), Et at 1. done.
  - intros w pcb b err w' [= <- <-]. net_solve.
  - intros p q. cbn. apply concat_app.
  - intros w p n r w' [= <- <-]. split; [done|].
    destruct (drop _ _); cbn; by rewrite ?app_nil_r.
  - intros w op fd ev rc w' [= <- <-]. net_solve.
Qed.

(** A connection is accepted and sends five bytes in two chunks; the backend
    sends two bytes back. *)
Definition demo_net0 : demo_net :=
  mk_net (fun _ => []) (fun _ => []) (fun fd => if fd =? 7 then [9; 8] else []) (fun _ => false)
    (fun _ => None) (fun _ => []) (fun _ => 0) (fun _ => None) 7.
#[local] Abbreviation demo_start :=
  (tcp_shift_bridge_start_ipv4 demo_loop demo_net0 zero_bridge 443 8443).
#[local] Abbreviation demo_accept :=
  (tcp_shift_bridge_accept demo_loop demo_start.2 demo_start.1.2 ∅ (Some 1) 0).
#[local] Abbreviation demo_data := (Some [[1; 2]; []; [3; 4; 5]]).
#[local] Abbreviation demo_recv_res :=
  (tcp_shift_bridge_public_recv demo_loop demo_accept.2 demo_accept.1.1.2 demo_accept.1.2
     (h_arg demo_accept.2 1) demo_data 0).
#[local] Abbreviation demo_recv := (default (0, zero_bridge, ∅, demo_net0) demo_recv_res).
#[local] Abbreviation demo_hist := (received demo_accept.2 (accepted demo_start.2 ∅) 1 demo_data 0).

Lemma split_result {A B C D} (x : A * B * C * D) (r : A) :
  x.1.1.1 = r -> x = (r, x.1.1.2, x.1.2, x.2).
Proof. destruct x as [[[a b] c] d]. by intros <-. Qed.

Lemma demo_bridge_reach :
  bridge_reach (loop := demo_loop) demo_recv.1.1.2 demo_recv.1.2 demo_recv.2 demo_hist.
Proof.
  assert (E0 : demo_start = (0, demo_start.1.2, demo_start.2)) by (vm_compute; reflexivity).
  assert (E1 : demo_accept = (0, demo_accept.1.1.2, demo_accept.1.2, demo_accept.2))
    by (apply split_result; vm_compute; reflexivity).
  assert (E2 : demo_recv_res = Some demo_recv) by (vm_compute; reflexivity).
  assert (E3 : demo_recv = (0, demo_recv.1.1.2, demo_recv.1.2, demo_recv.2))
    by (apply split_result; vm_compute; reflexivity).
  rewrite E3 in E2.
  apply (reach_recv demo_accept.1.1.2 demo_accept.1.2 demo_accept.2 (accepted demo_start.2 ∅)
    1 demo_data 0 0 _ _ _).
  - apply (reach_accept demo_start.1.2 ∅ demo_start.2 ∅ (Some 1) 0 0 _ _ _).
    + apply (reach_start demo_net0 zero_bridge 443 8443 IPADDR_TYPE_V4 _ _ E0). intros pcb. reflexivity.
    + vm_compute. reflexivity.
    + intros id w1 _. apply lookup_empty.
    + intros pcb _. split_and!; reflexivity.
    + exact E1.
  - intros q [= <-] id f got Ha Hf Hg. vm_compute in Ha. injection Ha as <-.
    assert (Hf' : fw_public_eof <$> demo_accept.1.2 !! 100 = Some false) by (vm_compute; reflexivity).
    rewrite Hf in Hf'. assert (Hg' : accepted demo_start.2 ∅ !! 100 = Some []) by (vm_compute; reflexivity).
    rewrite Hg in Hg'. injection Hg' as ->. injection Hf' as Hf'. split; [vm_compute; discriminate|exact Hf'].
  - exact E2.
Qed.

(** The five bytes are in the backend, the two bytes in lwIP. *)
Lemma bridge_streams_witness : exists f,
  demo_recv.1.2 !! 100 = Some f /\ h_out demo_recv.2 7 ++ pend f = [1; 2; 3; 4; 5] /\
  h_sent demo_recv.2 1 = [9; 8] /\ h_sent demo_recv.2 1 = h_taken demo_recv.2 7.
Proof.
  destruct (demo_recv.1.2 !! 100) as [f|] eqn:Ef; [|exfalso; vm_compute in Ef; discriminate].
  exists f. split; [reflexivity|].
  destruct (bridge_streams _ _ _ _ 100 f demo_bridge_reach Ef)
    as (pcb & got & Hp & Hg & Hout & _ & _ & Hsent & _).
  assert (Hfd : fw_pcb f = Some 1 /\ fw_backend_fd f = 7)
    by (vm_compute in Ef; injection Ef as <-; split; reflexivity).
  assert (Hgot : demo_hist !! 100 = Some [1; 2; 3; 4; 5]) by (vm_compute; reflexivity).
  destruct Hfd as [Hp' Hfd]. rewrite Hp' in Hp. injection Hp as <-. rewrite Hg in Hgot.
  injection Hgot as ->. rewrite Hfd in Hout, Hsent. split; [exact Hout|].
  split; [vm_compute; reflexivity|exact Hsent].
Defined.


