(* ===== verification/StateMonad.v ===== *)
(** * A state monad and its postconditions

    The transport adapter's functions read and write one flow's objects at
    many points; they are computations [M S A] over a state [S]. [keeps I m]
    says that [m] preserves [I] from every state, and [triple P m Q] is the
    usual total-correctness triple (computations always return). The lemmas
    follow the shape of the computations, so that a function's lemma is an
    application of those of its callees. *)

From Stdlib Require Import ZArith Lia Bool List.
From stdpp Require Import base tactics numbers list.
From S2P Require Import Prelude.
Local Open Scope Z_scope.

Definition M (S A : Type) : Type := S -> A * S.

Definition ret {S A} (a : A) : M S A := fun s => (a, s).
Definition bind {S A B} (m : M S A) (k : A -> M S B) : M S B :=
  fun s => let '(a, s') := m s in k a s'.
Definition gets {S A} (f : S -> A) : M S A := fun s => (f s, s).
Definition modify {S} (f : S -> S) : M S unit := fun s => (tt, f s).
(** [if (c) { m; }] *)
Definition when {S} (c : bool) (m : M S unit) : M S unit := if c then m else ret tt.

Notation "'let!' x := m 'in' k" := (bind m (fun x => k))
  (at level 10, x pattern, m at level 100, k at level 200).
Notation "m ;; k" := (bind m (fun _ => k)) (at level 100, right associativity).

(** [for (x in l) body(x)] *)
Fixpoint for_each {S A} (l : list A) (body : A -> M S unit) : M S unit :=
  match l with
  | [] => ret tt
  | x :: l' => body x ;; for_each l' body
  end.

(** ** Preservation *)

Definition triple {S A} (P : S -> Prop) (m : M S A) (Q : A -> S -> Prop) : Prop :=
  forall s, P s -> Q (m s).1 (m s).2.

Definition keeps {S A} (I : S -> Prop) (m : M S A) : Prop :=
  forall s, I s -> I (m s).2.

Create HintDb keeps.

Section Rules.
Context {S : Type}.
Implicit Types (I P : S -> Prop).

Lemma bind_run {A B} (m : M S A) (k : A -> M S B) s :
  bind m k s = k (m s).1 (m s).2.
Proof. unfold bind. by destruct (m s). Qed.

Lemma keeps_ret {A} I (a : A) : keeps I (ret a).
Proof. by intros s Hs. Qed.

Lemma keeps_gets {A} I (f : S -> A) : keeps I (gets f).
Proof. by intros s Hs. Qed.

Lemma keeps_bind {A B} I (m : M S A) (k : A -> M S B) :
  keeps I m -> (forall a, keeps I (k a)) -> keeps I (bind m k).
Proof. intros Hm Hk s Hs. rewrite bind_run. by apply Hk, Hm. Qed.

(** A read followed by code that depends on what was read. *)
Lemma keeps_bind_gets {A B} I (f : S -> A) (k : A -> M S B) :
  (forall s, I s -> I (k (f s) s).2) -> keeps I (bind (gets f) k).
Proof. intros Hk s Hs. by apply Hk. Qed.

Lemma keeps_if {A} I (c : bool) (m1 m2 : M S A) :
  keeps I m1 -> keeps I m2 -> keeps I (if c then m1 else m2).
Proof. by destruct c. Qed.

Lemma keeps_when I (c : bool) (m : M S unit) : keeps I m -> keeps I (when c m).
Proof. destruct c; [done|]. intros _. apply keeps_ret. Qed.

Lemma keeps_modify I (f : S -> S) : (forall s, I s -> I (f s)) -> keeps I (modify f).
Proof. intros Hf s Hs. by apply Hf. Qed.

Lemma keeps_for_each {A} I (l : list A) (body : A -> M S unit) :
  (forall x, keeps I (body x)) -> keeps I (for_each l body).
Proof.
  intros Hb. induction l as [|x l IH]; cbn [for_each]; [apply keeps_ret|].
  apply keeps_bind; [apply Hb|intros _; apply IH].
Qed.

Lemma keeps_and {A} I P (m : M S A) : keeps I m -> keeps P m -> keeps (fun s => I s /\ P s) m.
Proof. intros HI HP s [H1 H2]. split; [by apply HI|by apply HP]. Qed.

Lemma keeps_iff {A} I P (m : M S A) : (forall s, I s <-> P s) -> keeps I m -> keeps P m.
Proof. intros E H s Hs. apply E, H, E, Hs. Qed.

Lemma triple_bind {A B} P (m : M S A) (k : A -> M S B) (Q : A -> S -> Prop) (R : B -> S -> Prop) :
  triple P m Q -> (forall a, triple (Q a) (k a) R) -> triple P (bind m k) R.
Proof. intros Hm Hk s Hs. rewrite bind_run. by apply Hk, Hm. Qed.

Lemma triple_keeps {A} I (m : M S A) : triple I m (fun _ s => I s) <-> keeps I m.
Proof. done. Qed.

Lemma triple_weaken {A} P P' (m : M S A) (Q Q' : A -> S -> Prop) :
  (forall s, P' s -> P s) -> (forall a s, Q a s -> Q' a s) -> triple P m Q -> triple P' m Q'.
Proof. intros HP HQ H s Hs. by apply HQ, H, HP. Qed.

End Rules.

#[export] Hint Resolve keeps_ret keeps_gets keeps_when keeps_for_each : keeps.

(** Walk down a computation, leaving its writes and its calls. *)
Ltac keeps_step :=
  match goal with
  | |- keeps _ (bind _ _) => apply keeps_bind; [|intros ?]
  | |- keeps _ (when _ _) => apply keeps_when
  | |- keeps _ (if _ then _ else _) => apply keeps_if
  | |- keeps _ (match ?x with _ => _ end) => destruct x
  | |- keeps _ (let '_ := ?x in _) => destruct x
  | |- keeps _ (for_each _ _) => apply keeps_for_each; intros ?
  | |- keeps _ (ret _) => apply keeps_ret
  | |- keeps _ (gets _) => apply keeps_gets
  end.
Ltac keeps_walk := repeat (first [solve [auto with keeps nocore] | keeps_step]).
