(* ===== verification/AdapterData.v ===== *)
(** * The transport adapter's data ([src/lwip/cc_adapter.h], top of [src/lwip/cc_adapter.c])

    One adapter per TCP connection: the hook lwIP calls, the congestion
    controller's handle and memory, the delivery ledger, the RACK-TLP and PRR
    state and the pacing clock. A [flow] is an adapter with the control block
    it serves, the module's statics and the outside world: what one callback
    can reach. Tests of the adapter or the control block for NULL are vacuous
    here: the flow has both.

    The flow's pointers to code are names: [cc_ops_ref] for the congestion
    controllers' vtables, [hook_ops_ref] for the three hook tables, numbers
    for the callbacks of the pacing scheduler and the recovery timer. The
    experimental features (RACK-TLP, PRR, SACK, ECN) are compiled in; the
    traces of the qualification builds are left out. *)

From Stdlib Require Import ZArith Lia Bool List String.
From stdpp Require Import base tactics numbers list.
From S2P Require Import Prelude StateMonad CC Observation Reno Cubic CubicController Registry Rack Prr.
From S2P Require Import BbrController TcpMemory.
Local Open Scope Z_scope.

Abbreviation TCP_SHIFT_LWIP_CC_MAX_LISTENERS := 2.
Abbreviation TCP_SHIFT_DELIVERY_INITIAL_SLOTS := 8.
Abbreviation TCP_SHIFT_PACING_INITIAL_REGISTRY := 32.
Abbreviation TCP_SHIFT_LWIP_RECOVERY_TIMER_RACK := 1.
Abbreviation TCP_SHIFT_LWIP_RECOVERY_TIMER_TLP := 2.
(** [src/lwipopts.h] *)
Abbreviation TCP_SND_QUEUELEN := 65532.
(** [sizeof(struct tcp_shift_delivery_slot)] *)
Abbreviation DELIVERY_SLOT_SIZE := 56.
(** [sizeof(struct tcp_shift_pacing_registry_entry)] *)
Abbreviation REGISTRY_ENTRY_SIZE := 16.
Abbreviation SIZE_MAX := 18446744073709551615.
Abbreviation UINT16_MAX := 65535.
Abbreviation ERR_OK := 0.
Abbreviation ERR_VAL := (-6).
Abbreviation ERR_ABRT := (-13).

(** ** Statistics

    The counters of [tcp_shift_lwip_cc_stats], by the part that writes them. *)

Record policy_stats := mk_policy_stats {
  st_bindings : Z;
  st_bind_failures : Z;
  st_ack_events : Z;
  st_loss_events : Z;
  st_ecn_events : Z;
  st_ecn_rto_wait_enters : Z;
  st_ecn_rto_wait_releases : Z;
  st_timeout_events : Z;
  st_policy_updates : Z;
  st_controller_errors : Z;
  st_ack_observation_events : Z;
  st_srtt_updates : Z;
  st_ack_last_time_ns : Z;
  st_ack_last_smoothed_rtt_ns : Z;
  st_ecn_min_cwnd_bytes : Z;
  st_last_cwnd_bytes : Z;
  st_last_ssthresh_bytes : Z
}.
#[export] Instance eta_policy_stats : Eta policy_stats := fun r =>
  mk_policy_stats (st_bindings r) (st_bind_failures r) (st_ack_events r) (st_loss_events r)
    (st_ecn_events r) (st_ecn_rto_wait_enters r) (st_ecn_rto_wait_releases r)
    (st_timeout_events r) (st_policy_updates r) (st_controller_errors r)
    (st_ack_observation_events r) (st_srtt_updates r) (st_ack_last_time_ns r)
    (st_ack_last_smoothed_rtt_ns r) (st_ecn_min_cwnd_bytes r) (st_last_cwnd_bytes r)
    (st_last_ssthresh_bytes r).

Record delivery_stats := mk_delivery_stats {
  st_delivery_first_tx_events : Z;
  st_delivery_retransmit_events : Z;
  st_delivery_unique_retransmit_events : Z;
  st_delivery_repeat_retransmit_events : Z;
  st_delivery_acked_segment_events : Z;
  st_delivery_sack_events : Z;
  st_delivery_sack_payload_bytes : Z;
  st_delivery_payload_bytes : Z;
  st_delivery_metadata_alloc_failures : Z;
  st_delivery_metadata_misses : Z;
  st_delivery_metadata_abandoned_slots : Z;
  st_delivery_clock_errors : Z;
  st_delivery_timestamp_regressions : Z;
  st_delivery_last_tx_ns : Z;
  st_delivery_last_ack_ns : Z;
  st_app_limited_enters : Z;
  st_app_limited_exits : Z;
  st_delivery_metadata_bytes_per_slot : Z;
  st_delivery_live_slots : Z;
  st_delivery_peak_live_slots : Z;
  st_delivery_peak_slots_per_flow : Z;
  st_delivery_peak_capacity_slots_per_flow : Z
}.
#[export] Instance eta_delivery_stats : Eta delivery_stats := fun r =>
  mk_delivery_stats (st_delivery_first_tx_events r) (st_delivery_retransmit_events r)
    (st_delivery_unique_retransmit_events r) (st_delivery_repeat_retransmit_events r)
    (st_delivery_acked_segment_events r) (st_delivery_sack_events r)
    (st_delivery_sack_payload_bytes r) (st_delivery_payload_bytes r)
    (st_delivery_metadata_alloc_failures r) (st_delivery_metadata_misses r)
    (st_delivery_metadata_abandoned_slots r) (st_delivery_clock_errors r)
    (st_delivery_timestamp_regressions r) (st_delivery_last_tx_ns r) (st_delivery_last_ack_ns r)
    (st_app_limited_enters r) (st_app_limited_exits r) (st_delivery_metadata_bytes_per_slot r)
    (st_delivery_live_slots r) (st_delivery_peak_live_slots r) (st_delivery_peak_slots_per_flow r)
    (st_delivery_peak_capacity_slots_per_flow r).

Record rate_stats := mk_rate_stats {
  st_rate_samples : Z;
  st_rate_valid_samples : Z;
  st_rate_invalid_samples : Z;
  st_rate_app_limited_samples : Z;
  st_rate_retransmitted_samples : Z;
  st_rate_partial_ack_events : Z;
  st_rate_multi_segment_ack_events : Z;
  st_rate_snapshot_samples : Z;
  st_rate_snapshot_errors : Z;
  st_rate_last_bytes_per_sec : Z;
  st_rate_max_bytes_per_sec : Z;
  st_rate_last_interval_ns : Z;
  st_rate_last_send_interval_ns : Z;
  st_rate_last_ack_interval_ns : Z;
  st_rate_last_rtt_ns : Z;
  st_rate_last_prior_delivered_bytes : Z;
  st_rate_last_delivered_total_bytes : Z;
  st_rate_last_delivered_bytes : Z;
  st_rate_last_prior_inflight_bytes : Z;
  st_rate_last_flags : Z
}.
#[export] Instance eta_rate_stats : Eta rate_stats := fun r =>
  mk_rate_stats (st_rate_samples r) (st_rate_valid_samples r) (st_rate_invalid_samples r)
    (st_rate_app_limited_samples r) (st_rate_retransmitted_samples r)
    (st_rate_partial_ack_events r) (st_rate_multi_segment_ack_events r)
    (st_rate_snapshot_samples r) (st_rate_snapshot_errors r) (st_rate_last_bytes_per_sec r)
    (st_rate_max_bytes_per_sec r) (st_rate_last_interval_ns r) (st_rate_last_send_interval_ns r)
    (st_rate_last_ack_interval_ns r) (st_rate_last_rtt_ns r)
    (st_rate_last_prior_delivered_bytes r) (st_rate_last_delivered_total_bytes r)
    (st_rate_last_delivered_bytes r) (st_rate_last_prior_inflight_bytes r) (st_rate_last_flags r).

Record pacing_stats := mk_pacing_stats {
  st_pacing_deferrals : Z;
  st_pacing_resume_events : Z;
  st_pacing_stale_releases : Z;
  st_pacing_scheduler_errors : Z;
  st_pacing_tx_events : Z;
  st_pacing_tx_bytes : Z;
  st_pacing_max_tx_gap_ns : Z;
  st_pacing_last_rate_bytes_per_sec : Z;
  st_pacing_last_deadline_ns : Z;
  st_pacing_last_actual_release_ns : Z
}.
#[export] Instance eta_pacing_stats : Eta pacing_stats := fun r =>
  mk_pacing_stats (st_pacing_deferrals r) (st_pacing_resume_events r) (st_pacing_stale_releases r)
    (st_pacing_scheduler_errors r) (st_pacing_tx_events r) (st_pacing_tx_bytes r)
    (st_pacing_max_tx_gap_ns r) (st_pacing_last_rate_bytes_per_sec r)
    (st_pacing_last_deadline_ns r) (st_pacing_last_actual_release_ns r).

Record recovery_stats := mk_recovery_stats {
  st_rack_dsack_events : Z;
  st_rack_reordering_events : Z;
  st_prr_recovery_enters : Z;
  st_prr_recovery_exits : Z;
  st_prr_ack_events : Z;
  st_prr_safe_ack_events : Z;
  st_prr_tx_events : Z;
  st_prr_tx_bytes : Z;
  st_prr_send_blocks : Z;
  st_rack_reo_wnd_mult : Z;
  st_rack_reo_wnd_mult_max : Z;
  st_rack_reo_wnd_persist : Z;
  st_prr_last_recover_fs_bytes : Z;
  st_prr_last_inflight_bytes : Z;
  st_prr_last_sndcnt_bytes : Z
}.
#[export] Instance eta_recovery_stats : Eta recovery_stats := fun r =>
  mk_recovery_stats (st_rack_dsack_events r) (st_rack_reordering_events r)
    (st_prr_recovery_enters r) (st_prr_recovery_exits r) (st_prr_ack_events r)
    (st_prr_safe_ack_events r) (st_prr_tx_events r) (st_prr_tx_bytes r) (st_prr_send_blocks r)
    (st_rack_reo_wnd_mult r) (st_rack_reo_wnd_mult_max r) (st_rack_reo_wnd_persist r)
    (st_prr_last_recover_fs_bytes r) (st_prr_last_inflight_bytes r) (st_prr_last_sndcnt_bytes r).

Record bbr_stats := mk_bbr_stats {
  st_bbr_model_observations : Z;
  st_bbr_max_bw_bytes_per_sec : Z;
  st_bbr_min_rtt_ns : Z;
  st_bbr_full_bw_bytes_per_sec : Z;
  st_bbr_accepted_bw_samples : Z;
  st_bbr_ignored_app_limited_bw_samples : Z;
  st_bbr_round_count : Z;
  st_bbr_full_bw_count : Z;
  st_bbr_mode : Z;
  st_bbr_cycle_index : Z;
  st_bbr_full_bw_reached : Z;
  st_bbr_recovery_in_progress : Z;
  st_bbr_recovery_enter_events : Z;
  st_bbr_recovery_exit_events : Z;
  st_bbr_recovery_total_ns : Z;
  st_bbr_recovery_max_ns : Z;
  st_bbr_recovery_packet_conservation_acks : Z;
  st_bbr_recovery_last_enter_ns : Z;
  st_bbr_recovery_last_exit_ns : Z;
  st_bbr_recovery_last_enter_cwnd_bytes : Z;
  st_bbr_recovery_last_enter_inflight_bytes : Z;
  st_bbr_recovery_min_cwnd_bytes : Z
}.
#[export] Instance eta_bbr_stats : Eta bbr_stats := fun r =>
  mk_bbr_stats (st_bbr_model_observations r) (st_bbr_max_bw_bytes_per_sec r) (st_bbr_min_rtt_ns r)
    (st_bbr_full_bw_bytes_per_sec r) (st_bbr_accepted_bw_samples r)
    (st_bbr_ignored_app_limited_bw_samples r) (st_bbr_round_count r) (st_bbr_full_bw_count r)
    (st_bbr_mode r) (st_bbr_cycle_index r) (st_bbr_full_bw_reached r)
    (st_bbr_recovery_in_progress r) (st_bbr_recovery_enter_events r)
    (st_bbr_recovery_exit_events r) (st_bbr_recovery_total_ns r) (st_bbr_recovery_max_ns r)
    (st_bbr_recovery_packet_conservation_acks r) (st_bbr_recovery_last_enter_ns r)
    (st_bbr_recovery_last_exit_ns r) (st_bbr_recovery_last_enter_cwnd_bytes r)
    (st_bbr_recovery_last_enter_inflight_bytes r) (st_bbr_recovery_min_cwnd_bytes r).

Record bbr_timeout_stats := mk_bbr_timeout_stats {
  st_bbr_timeout_observations : Z;
  st_bbr_timeout_last_max_bw_bytes_per_sec : Z;
  st_bbr_timeout_last_pacing_rate_bytes_per_sec : Z;
  st_bbr_timeout_last_cwnd_bytes : Z;
  st_bbr_timeout_last_transport_inflight_bytes : Z;
  st_bbr_timeout_last_round_count : Z;
  st_bbr_timeout_last_mode : Z;
  st_bbr_timeout_last_cycle_index : Z;
  st_bbr_timeout_last_recovery_in_progress : Z;
  st_bbr_timeout_last_packet_conservation : Z;
  st_bbr_timeout_last_lastack : Z;
  st_bbr_timeout_last_snd_nxt : Z;
  st_bbr_timeout_last_recovery_end_seq : Z;
  st_bbr_timeout_last_dupacks : Z;
  st_bbr_timeout_last_nrtx : Z;
  st_bbr_timeout_last_unacked_segments : Z;
  st_bbr_timeout_last_unacked_bytes : Z;
  st_bbr_timeout_last_unsent_segments : Z;
  st_bbr_timeout_last_unsent_bytes : Z;
  st_bbr_timeout_last_rtime : Z;
  st_bbr_timeout_last_rto : Z
}.
#[export] Instance eta_bbr_timeout_stats : Eta bbr_timeout_stats := fun r =>
  mk_bbr_timeout_stats (st_bbr_timeout_observations r)
    (st_bbr_timeout_last_max_bw_bytes_per_sec r) (st_bbr_timeout_last_pacing_rate_bytes_per_sec r)
    (st_bbr_timeout_last_cwnd_bytes r) (st_bbr_timeout_last_transport_inflight_bytes r)
    (st_bbr_timeout_last_round_count r) (st_bbr_timeout_last_mode r)
    (st_bbr_timeout_last_cycle_index r) (st_bbr_timeout_last_recovery_in_progress r)
    (st_bbr_timeout_last_packet_conservation r) (st_bbr_timeout_last_lastack r)
    (st_bbr_timeout_last_snd_nxt r) (st_bbr_timeout_last_recovery_end_seq r)
    (st_bbr_timeout_last_dupacks r) (st_bbr_timeout_last_nrtx r)
    (st_bbr_timeout_last_unacked_segments r) (st_bbr_timeout_last_unacked_bytes r)
    (st_bbr_timeout_last_unsent_segments r) (st_bbr_timeout_last_unsent_bytes r)
    (st_bbr_timeout_last_rtime r) (st_bbr_timeout_last_rto r).

Record tcp_shift_lwip_cc_stats := mk_cc_stats {
  st_policy : policy_stats;
  st_delivery : delivery_stats;
  st_rate : rate_stats;
  st_pacing : pacing_stats;
  st_recovery : recovery_stats;
  st_bbr : bbr_stats;
  st_bbr_timeout : bbr_timeout_stats
}.
#[export] Instance eta_cc_stats : Eta tcp_shift_lwip_cc_stats := fun r =>
  mk_cc_stats (st_policy r) (st_delivery r) (st_rate r) (st_pacing r) (st_recovery r) (st_bbr r)
    (st_bbr_timeout r).

Definition zero_cc_stats : tcp_shift_lwip_cc_stats :=
  mk_cc_stats (mk_policy_stats 0 0 0 0 0 0 0 0 0 0 0 0 0 0 0 0 0)
    (mk_delivery_stats 0 0 0 0 0 0 0 0 0 0 0 0 0 0 0 0 0 0 0 0 0 0)
    (mk_rate_stats 0 0 0 0 0 0 0 0 0 0 0 0 0 0 0 0 0 0 0 0)
    (mk_pacing_stats 0 0 0 0 0 0 0 0 0 0)
    (mk_recovery_stats 0 0 0 0 0 0 0 0 0 0 0 0 0 0 0)
    (mk_bbr_stats 0 0 0 0 0 0 0 0 0 0 0 0 0 0 0 0 0 0 0 0 0 0)
    (mk_bbr_timeout_stats 0 0 0 0 0 0 0 0 0 0 0 0 0 0 0 0 0 0 0 0 0).

(** ** The adapter *)

(** The segment is named by its address. *)
Record tcp_shift_delivery_slot := mk_delivery_slot {
  dv_segment : ptr Z;
  dv_tx_ns : Z;
  dv_first_tx_mstamp_at_send_ns : Z;
  dv_delivered_at_send : Z;
  dv_delivered_mstamp_at_send_ns : Z;
  dv_seq_start : Z;
  dv_prior_inflight_bytes : Z;
  dv_payload_bytes : Z;
  dv_acked_payload_bytes : Z;
  dv_app_limited : bool;
  dv_retransmitted : bool;
  dv_rack_delivered : Z;
  dv_rack_lost : bool
}.
#[export] Instance eta_delivery_slot : Eta tcp_shift_delivery_slot := fun r =>
  mk_delivery_slot (dv_segment r) (dv_tx_ns r) (dv_first_tx_mstamp_at_send_ns r)
    (dv_delivered_at_send r) (dv_delivered_mstamp_at_send_ns r) (dv_seq_start r)
    (dv_prior_inflight_bytes r) (dv_payload_bytes r) (dv_acked_payload_bytes r) (dv_app_limited r)
    (dv_retransmitted r) (dv_rack_delivered r) (dv_rack_lost r).

Definition zero_slot : tcp_shift_delivery_slot :=
  mk_delivery_slot NULL 0 0 0 0 0 0 0 0 false false 0 false.

(** The congestion-control vtables a handle can point to, and the memory its
    state pointer can name: the adapter's union, the adapter itself (while a
    selector callback runs) or the BBR sidecar. *)
Inductive cc_ops_ref := OpsReno | OpsCubic | OpsPacedReno | OpsPacedCubic | OpsBbr.
Inductive cc_state_ref := StateBuiltin | StateAdapter | StateBbr.
#[export] Instance cc_ops_ref_eq_dec : EqDecision cc_ops_ref.
Proof. solve_decision. Defined.
#[export] Instance cc_state_ref_eq_dec : EqDecision cc_state_ref.
Proof. solve_decision. Defined.

(** The hook tables: the adapter's, the selector's and the BBR sidecar's. *)
Inductive hook_ops_ref := HookAdapter | HookSelector | HookBbr.
#[export] Instance hook_ops_ref_eq_dec : EqDecision hook_ops_ref.
Proof. solve_decision. Defined.

(** [hook->arg] is the adapter that embeds the hook. *)
Record tcp_shift_lwip_cc_hook := mk_hook {
  hk_ops : ptr hook_ops_ref;
  hk_recovery_enter_events : Z;
  hk_recovery_exit_events : Z;
  hk_recovery_end_seq : Z;
  hk_recovery_active : bool;
  hk_recovery_exit_pending : bool;
  hk_recovery_controller_owned : bool
}.
#[export] Instance eta_hook : Eta tcp_shift_lwip_cc_hook := fun r =>
  mk_hook (hk_ops r) (hk_recovery_enter_events r) (hk_recovery_exit_events r)
    (hk_recovery_end_seq r) (hk_recovery_active r) (hk_recovery_exit_pending r)
    (hk_recovery_controller_owned r).

(** [ad_ops] and [ad_state] are [controller.ops] and [controller.state].
    [ad_stats]: the pointer to the process-wide statistics is set. The slots'
    array has [delivery_capacity] entries; a NULL array is empty. *)
Record tcp_shift_lwip_cc_adapter := mk_adapter {
  ad_hook : tcp_shift_lwip_cc_hook;
  ad_ops : ptr cc_ops_ref;
  ad_state : ptr cc_state_ref;
  ad_controller_state : tcp_shift_cc_builtin_state;
  ad_srtt : tcp_shift_cc_srtt;
  ad_rack_tlp : tcp_shift_rack_tlp_state;
  ad_prr : tcp_shift_prr;
  ad_stats : bool;
  ad_pcb : ptr Z;
  ad_delivery_slots : list tcp_shift_delivery_slot;
  ad_delivered_bytes : Z;
  ad_delivered_mstamp_ns : Z;
  ad_delivery_last_event_ns : Z;
  ad_delivery_last_clock_read_ns : Z;
  ad_rate_first_tx_mstamp_ns : Z;
  ad_app_limited_until_bytes : Z;
  ad_pacing_rate_bytes_per_sec : Z;
  ad_pacing_next_send_ns : Z;
  ad_pacing_flow_id : Z;
  ad_recovery_timer_deadline_ns : Z;
  ad_prr_ack_delivered_before : Z;
  ad_prr_ack_loss_events_before : Z;
  ad_pacing_generation : Z;
  ad_recovery_timer_kind : Z;
  ad_prr_recover_fs_hint : Z;
  ad_prr_send_credit_bytes : Z;
  ad_prr_trigger_delivered_bytes : Z;
  ad_delivery_live : Z;
  ad_pacing_scheduled : bool;
  ad_recovery_timer_scheduled : bool;
  ad_prr_recover_fs_hint_valid : bool;
  ad_bound : bool;
  ad_heap_owned : bool;
  ad_sack_delivery_policy : bool
}.
#[export] Instance eta_adapter : Eta tcp_shift_lwip_cc_adapter := fun r =>
  mk_adapter (ad_hook r) (ad_ops r) (ad_state r) (ad_controller_state r) (ad_srtt r)
    (ad_rack_tlp r) (ad_prr r) (ad_stats r) (ad_pcb r) (ad_delivery_slots r)
    (ad_delivered_bytes r) (ad_delivered_mstamp_ns r) (ad_delivery_last_event_ns r)
    (ad_delivery_last_clock_read_ns r) (ad_rate_first_tx_mstamp_ns r)
    (ad_app_limited_until_bytes r) (ad_pacing_rate_bytes_per_sec r) (ad_pacing_next_send_ns r)
    (ad_pacing_flow_id r) (ad_recovery_timer_deadline_ns r) (ad_prr_ack_delivered_before r)
    (ad_prr_ack_loss_events_before r) (ad_pacing_generation r) (ad_recovery_timer_kind r)
    (ad_prr_recover_fs_hint r) (ad_prr_send_credit_bytes r) (ad_prr_trigger_delivered_bytes r)
    (ad_delivery_live r) (ad_pacing_scheduled r) (ad_recovery_timer_scheduled r)
    (ad_prr_recover_fs_hint_valid r) (ad_bound r) (ad_heap_owned r) (ad_sack_delivery_policy r).

Definition zero_hook : tcp_shift_lwip_cc_hook := mk_hook NULL 0 0 0 false false false.

(** Zeroed memory, read as either member of the union. *)
Definition zero_reno : tcp_shift_reno_state := mk_reno 0 0 0 0.
Definition zero_builtin : tcp_shift_cc_builtin_state := builtin_reno zero_reno.
Definition as_reno (u : tcp_shift_cc_builtin_state) : tcp_shift_reno_state :=
  match u with builtin_reno r => r | builtin_cubic _ => zero_reno end.
Definition as_cubic (u : tcp_shift_cc_builtin_state) : tcp_shift_cubic_model :=
  match u with builtin_cubic m => m | builtin_reno _ => cubic_zero end.

(** [calloc], or [memset] of the whole object to zero. *)
Definition zero_adapter : tcp_shift_lwip_cc_adapter :=
  mk_adapter zero_hook NULL NULL zero_builtin (mk_srtt 0 0)
    (mk_rack 0 0 0 0 0 0 0 0 0 0 0 0 0 0 false false false false) tcp_shift_prr_reset
    false NULL [] 0 0 0 0 0 0 0 0 0 0 0 0 0 0 0 0 0 0 false false false false false false.

(** ** The BBR sidecar ([src/lwip/cc_bbr_internal.c]) *)

Record tcp_shift_lwip_bbr_binding := mk_bbr_binding {
  bb_controller : tcp_shift_bbr_controller_state;
  bb_adapter : ptr Z;
  bb_base_hook_ops : ptr hook_ops_ref;
  bb_recovery_enter_ns : Z;
  bb_recovery_entry_acked_bytes : Z;
  bb_cycle_seed : Z
}.
#[export] Instance eta_bbr_binding : Eta tcp_shift_lwip_bbr_binding := fun r =>
  mk_bbr_binding (bb_controller r) (bb_adapter r) (bb_base_hook_ops r) (bb_recovery_enter_ns r)
    (bb_recovery_entry_acked_bytes r) (bb_cycle_seed r).

(** ** lwIP's control block

    The fields the adapter reads or writes. A segment on a queue is its
    payload length. [pb_ext_cc], [pb_mem] and [pb_ext_bbr] are the extension
    arguments 0, 1 and 2; the sidecar is owned by its slot. *)

Inductive tcp_state := LISTEN | ESTABLISHED | OTHER_STATE.
#[export] Instance tcp_state_eq_dec : EqDecision tcp_state.
Proof. solve_decision. Defined.

(** Extension argument 0: a connection's hook (its adapter's address) or a
    listener's binding (its index). *)
Inductive cc_ext := ExtHook (adapter : Z) | ExtListener (index : nat).
#[export] Instance cc_ext_eq_dec : EqDecision cc_ext.
Proof. solve_decision. Defined.

(** A [tcp_accept_fn]: the application's, or one of the three dispatchers. *)
Inductive accept_fn := AcceptApp (id : Z) | AcceptAdapter | AcceptSelector | AcceptBbr.
(** A listener's callback argument: the application's, or a binding of one of
    the three listener tables. *)
Inductive callback_arg :=
  | ArgApp (arg : Z) | ArgAdapter (index : nat) | ArgSelector (index : nat) | ArgBbr (index : nat).

Record tcp_pcb := mk_pcb {
  pb_state : tcp_state;
  pb_mss : Z;
  pb_snd_nxt : Z;
  pb_lastack : Z;
  pb_snd_wnd : Z;
  pb_cwnd : Z;
  pb_ssthresh : Z;
  pb_bytes_acked : Z;
  pb_snd_buf : Z;
  pb_rto : Z;
  pb_rtime : Z;
  pb_dupacks : Z;
  pb_nrtx : Z;
  pb_tf_sack : bool;
  pb_tf_rto : bool;
  pb_tf_infr : bool;
  pb_tf_ecn : bool;
  pb_unacked : list Z;
  pb_unsent : list Z;
  pb_accept : ptr accept_fn;
  pb_callback_arg : callback_arg;
  pb_ext_cc : ptr cc_ext;
  pb_mem : mem_pcb;
  pb_ext_bbr : ptr tcp_shift_lwip_bbr_binding
}.
#[export] Instance eta_pcb : Eta tcp_pcb := fun r =>
  mk_pcb (pb_state r) (pb_mss r) (pb_snd_nxt r) (pb_lastack r) (pb_snd_wnd r) (pb_cwnd r)
    (pb_ssthresh r) (pb_bytes_acked r) (pb_snd_buf r) (pb_rto r) (pb_rtime r) (pb_dupacks r)
    (pb_nrtx r) (pb_tf_sack r) (pb_tf_rto r) (pb_tf_infr r) (pb_tf_ecn r) (pb_unacked r)
    (pb_unsent r) (pb_accept r) (pb_callback_arg r) (pb_ext_cc r) (pb_mem r) (pb_ext_bbr r).

(** ** The statics of the module *)

Record tcp_shift_pacing_registry_entry := mk_registry_entry {
  pe_adapter : ptr Z;
  pe_generation : Z
}.
#[export] Instance eta_registry_entry : Eta tcp_shift_pacing_registry_entry := fun r =>
  mk_registry_entry (pe_adapter r) (pe_generation r).

(** [tcp_shift_lwip_cc_pacer_ops] and [tcp_shift_lwip_recovery_timer_ops]: the
    table's address and its two functions. *)
Record tcp_shift_lwip_cc_timer_ops := mk_timer_ops {
  to_addr : Z;
  to_schedule : ptr Z;
  to_cancel : ptr Z
}.

(** [pv_entries] has [capacity] entries. *)
Record tcp_shift_pacing_service := mk_pacing_service {
  pv_ops : ptr tcp_shift_lwip_cc_timer_ops;
  pv_arg : Z;
  pv_entries : list tcp_shift_pacing_registry_entry;
  pv_active : Z
}.
#[export] Instance eta_pacing_service : Eta tcp_shift_pacing_service := fun r =>
  mk_pacing_service (pv_ops r) (pv_arg r) (pv_entries r) (pv_active r).

Record tcp_shift_recovery_timer_service := mk_recovery_service {
  rv_ops : ptr tcp_shift_lwip_cc_timer_ops;
  rv_arg : Z
}.
#[export] Instance eta_recovery_service : Eta tcp_shift_recovery_timer_service := fun r =>
  mk_recovery_service (rv_ops r) (rv_arg r).

(** A listener's binding, in the table of the adapter, of the selector or of
    the BBR accept path; only the selector's uses [ln_ops]. *)
Record listener_binding := mk_listener {
  ln_listener : ptr Z;
  ln_accept : ptr accept_fn;
  ln_callback_arg : callback_arg;
  ln_ops : ptr cc_ops_ref;
  ln_used : bool
}.

Definition zero_listener : listener_binding := mk_listener NULL NULL (ArgApp 0) NULL false.

Record cc_globals := mk_globals {
  gl_stats : tcp_shift_lwip_cc_stats;
  gl_pacing : tcp_shift_pacing_service;
  gl_recovery : tcp_shift_recovery_timer_service;
  gl_listeners : list listener_binding;
  gl_selector_bindings : list listener_binding;
  gl_selector_ops : ptr cc_ops_ref;
  gl_selector_internal_bbr : bool;
  gl_selector_base_hook_ops : ptr hook_ops_ref;
  gl_bbr_listeners : list listener_binding
}.
#[export] Instance eta_globals : Eta cc_globals := fun r =>
  mk_globals (gl_stats r) (gl_pacing r) (gl_recovery r) (gl_listeners r) (gl_selector_bindings r)
    (gl_selector_ops r) (gl_selector_internal_bbr r) (gl_selector_base_hook_ops r)
    (gl_bbr_listeners r).

Definition zero_globals : cc_globals :=
  mk_globals zero_cc_stats (mk_pacing_service NULL 0 [] 0) (mk_recovery_service NULL 0)
    [zero_listener; zero_listener] [zero_listener; zero_listener] NULL false NULL
    [zero_listener; zero_listener].

(** ** The flow *)

(** [fw_self]: the adapter's address; [fw_ptr]: the control block's. *)
Record flow (W : Type) := mk_cc_flow {
  fw_world : W;
  fw_gl : cc_globals;
  fw_self : Z;
  fw_ad : tcp_shift_lwip_cc_adapter;
  fw_ptr : Z;
  fw_pcb : tcp_pcb
}.
Arguments mk_cc_flow {W}. Arguments fw_world {W}. Arguments fw_gl {W}. Arguments fw_self {W}.
Arguments fw_ad {W}. Arguments fw_ptr {W}. Arguments fw_pcb {W}.

(** What the adapter calls: the clock, the allocator and the functions of the
    pacing scheduler and of the recovery timer. *)
Class AdapterOS (W : Type) := {
  (** [CLOCK_MONOTONIC]: seconds and nanoseconds *)
  monotonic_clock : W -> option (Z * Z) * W;
  (** whether [realloc] or [calloc] of that many bytes succeeds *)
  heap_alloc : W -> Z -> bool * W;
  (** function, argument, flow, generation, deadline, bytes or kind *)
  timer_schedule : W -> Z -> Z -> Z -> Z -> Z -> Z -> Z * W;
  (** function, argument, flow, generation; [*cancelled] is not read *)
  timer_cancel : W -> Z -> Z -> Z -> Z -> Z * W
}.

(** lwIP's timer tick in milliseconds, a constant of its headers. *)
Class LwipParams := { TCP_SLOW_INTERVAL : Z }.

Section Access.
Context {W : Type}.

Definition get_ad : M (flow W) tcp_shift_lwip_cc_adapter := gets fw_ad.
Definition get_pcb : M (flow W) tcp_pcb := gets fw_pcb.
Definition get_gl : M (flow W) cc_globals := gets fw_gl.

Definition set_ad (f : tcp_shift_lwip_cc_adapter -> tcp_shift_lwip_cc_adapter) (s : flow W) : flow W :=
  mk_cc_flow (fw_world s) (fw_gl s) (fw_self s) (f (fw_ad s)) (fw_ptr s) (fw_pcb s).
Definition set_pcb (f : tcp_pcb -> tcp_pcb) (s : flow W) : flow W :=
  mk_cc_flow (fw_world s) (fw_gl s) (fw_self s) (fw_ad s) (fw_ptr s) (f (fw_pcb s)).
Definition set_gl (f : cc_globals -> cc_globals) (s : flow W) : flow W :=
  mk_cc_flow (fw_world s) (f (fw_gl s)) (fw_self s) (fw_ad s) (fw_ptr s) (fw_pcb s).
Definition set_world (w : W) (s : flow W) : flow W :=
  mk_cc_flow w (fw_gl s) (fw_self s) (fw_ad s) (fw_ptr s) (fw_pcb s).

Definition upd_ad f : M (flow W) unit := modify (set_ad f).
Definition upd_pcb f : M (flow W) unit := modify (set_pcb f).
Definition upd_gl f : M (flow W) unit := modify (set_gl f).

(** A call to the outside. *)
Definition call_os {A} (f : W -> A * W) : M (flow W) A :=
  fun s => let '(a, w) := f (fw_world s) in (a, set_world w s).

(** [if (adapter->stats != NULL) { ... }] *)
Definition note (f : tcp_shift_lwip_cc_stats -> tcp_shift_lwip_cc_stats) : M (flow W) unit :=
  let! a := get_ad in
  when (ad_stats a) (upd_gl (fun g => g <| gl_stats := f (gl_stats g) |>)).
Definition note_policy f := note (fun s => s <| st_policy := f (st_policy s) |>).
Definition note_delivery f := note (fun s => s <| st_delivery := f (st_delivery s) |>).
Definition note_rate f := note (fun s => s <| st_rate := f (st_rate s) |>).
Definition note_pacing f := note (fun s => s <| st_pacing := f (st_pacing s) |>).
Definition note_recovery f := note (fun s => s <| st_recovery := f (st_recovery s) |>).
Definition note_bbr f := note (fun s => s <| st_bbr := f (st_bbr s) |>).
Definition note_bbr_timeout f := note (fun s => s <| st_bbr_timeout := f (st_bbr_timeout s) |>).

(** [adapter->pcb == pcb] *)
Definition serves (a : tcp_shift_lwip_cc_adapter) (pcb : Z) : bool := bool_decide (ad_pcb a = Some pcb).

(** The guard of every policy callback: the adapter is bound to this block. *)
Definition live : M (flow W) bool :=
  fun s => (ad_bound (fw_ad s) && serves (fw_ad s) (fw_ptr s), s).

Definition tcp_shift_lwip_cc_cwnd_limit : Z := UINT32_MAX.

Definition tcp_shift_lwip_cc_transport_from_pcb (pcb : tcp_pcb) : tcp_shift_cc_transport :=
  mk_transport (pb_mss pcb) (pb_snd_nxt pcb -w32 pb_lastack pcb) (pb_snd_wnd pcb)
    tcp_shift_lwip_cc_cwnd_limit.

Context `{!AdapterOS W}.

Definition tcp_shift_delivery_now_ns : M (flow W) Z :=
  upd_ad (fun a => a <| ad_delivery_last_clock_read_ns := 0 |>) ;;
  let! now := call_os monotonic_clock in
  match now with
  | None =>
      note_delivery (fun s => s <| st_delivery_clock_errors :=
                                     st_delivery_clock_errors s +w64 1 |>) ;;
      ret 0
  | Some (tv_sec, tv_nsec) =>
      let value := u64 tv_sec *w64 1000000000 +w64 u64 tv_nsec in
      upd_ad (fun a => a <| ad_delivery_last_clock_read_ns := value |>) ;;
      let! a := get_ad in
      when (negb (ad_delivery_last_event_ns a =? 0) && (value <? ad_delivery_last_event_ns a))
        (note_delivery (fun s => s <| st_delivery_timestamp_regressions :=
                                        st_delivery_timestamp_regressions s +w64 1 |>)) ;;
      upd_ad (fun a => a <| ad_delivery_last_event_ns := value |>) ;;
      ret value
  end.

End Access.

(** ** Initial windows ([src/lwip/initial_window.h]) *)

Definition tcp_shift_initial_cwnd_rfc6928 (mss_bytes : Z) : Z :=
  let twice_mss := 2 *w32 mss_bytes in
  let ten_mss := 10 *w32 mss_bytes in
  let ceiling := if twice_mss >? 14600 then twice_mss else 14600 in
  if ten_mss <? ceiling then ten_mss else ceiling.

Definition tcp_shift_initial_cwnd_legacy (mss_bytes : Z) : Z :=
  let twice_mss := 2 *w32 mss_bytes in
  let four_mss := 4 *w32 mss_bytes in
  let floor := if twice_mss >? 4380 then twice_mss else 4380 in
  if four_mss <? floor then four_mss else floor.

(** The default profile. *)
Definition tcp_shift_initial_cwnd_bytes (mss_bytes : Z) : Z :=
  tcp_shift_initial_cwnd_rfc6928 mss_bytes.

Definition tcp_shift_lwip_cc_initial_cwnd (mss_bytes : Z) : Z :=
  tcp_shift_initial_cwnd_bytes mss_bytes.
