(* ===== verification/AdapterDelivery.v ===== *)
(** * The delivery ledger ([src/lwip/cc_adapter.c], slots)

    One slot per transmitted segment that lwIP has not freed: when it was last
    sent, what had been delivered by then, and how many of its bytes have been
    charged as delivered. A pointer to a slot is its index. *)

From Stdlib Require Import ZArith Lia Bool List.
From stdpp Require Import base tactics numbers list.
From S2P Require Import Prelude StateMonad CC AdapterData.
Local Open Scope Z_scope.

Section Slots.
Context {W : Type} `{!AdapterOS W}.
Implicit Types (a : tcp_shift_lwip_cc_adapter) (slots : list tcp_shift_delivery_slot).

(** [delivery_capacity] *)
Definition slot_capacity a : Z := Z.of_nat (length (ad_delivery_slots a)).

(** The index loops: the first slot that satisfies a test. *)
Fixpoint slot_index (p : tcp_shift_delivery_slot -> bool) slots : option nat :=
  match slots with
  | [] => None
  | slot :: slots' => if p slot then Some 0%nat else S <$> slot_index p slots'
  end.

Definition slot_holds (segment : Z) (slot : tcp_shift_delivery_slot) : bool :=
  bool_decide (dv_segment slot = Some segment).

Definition tcp_shift_delivery_find a (segment : Z) : option nat :=
  slot_index (slot_holds segment) (ad_delivery_slots a).

Definition tcp_shift_delivery_empty_slot a : option nat :=
  slot_index (fun slot => is_null (dv_segment slot)) (ad_delivery_slots a).

(** [slots[index]] for an index the loops have returned. *)
Definition slot_at a (index : nat) : tcp_shift_delivery_slot :=
  nth index (ad_delivery_slots a) zero_slot.

Definition set_slot (index : nat) (f : tcp_shift_delivery_slot -> tcp_shift_delivery_slot) a
    : tcp_shift_lwip_cc_adapter :=
  a <| ad_delivery_slots := alter f index (ad_delivery_slots a) |>.

Definition upd_slot (index : nat) f : M (flow W) unit := upd_ad (set_slot index f).

(** The capacity after the next growth. *)
Definition grown_capacity (capacity : Z) : Z :=
  let next := if capacity =? 0 then TCP_SHIFT_DELIVERY_INITIAL_SLOTS else capacity *w32 2 in
  let configured_max := if TCP_SND_QUEUELEN >? UINT16_MAX then UINT16_MAX else TCP_SND_QUEUELEN in
  if next >? configured_max then configured_max else next.

Definition tcp_shift_delivery_grow : M (flow W) Z :=
  let! a := get_ad in
  let configured_max := if TCP_SND_QUEUELEN >? UINT16_MAX then UINT16_MAX else TCP_SND_QUEUELEN in
  if slot_capacity a >=? configured_max then ret (-1)
  else
    let next_capacity := grown_capacity (slot_capacity a) in
    if next_capacity =? 0 then ret (-1)
    else
      let! ok := call_os (fun w => heap_alloc w (next_capacity *w64 DELIVERY_SLOT_SIZE)) in
      if negb ok then
        note_delivery (fun s => s <| st_delivery_metadata_alloc_failures :=
                                       st_delivery_metadata_alloc_failures s +w64 1 |>) ;;
        ret (-1)
      else
        upd_ad (fun a => a <| ad_delivery_slots :=
          ad_delivery_slots a ++
          replicate (Z.to_nat next_capacity - length (ad_delivery_slots a)) zero_slot |>) ;;
        note_delivery (fun s =>
          if next_capacity >? st_delivery_peak_capacity_slots_per_flow s
          then s <| st_delivery_peak_capacity_slots_per_flow := next_capacity |> else s) ;;
        ret 0.

(** The slot's index, for a slot found or made empty. *)
Definition delivery_room : M (flow W) (option nat) :=
  let! a := get_ad in
  match tcp_shift_delivery_empty_slot a with
  | Some index => ret (Some index)
  | None =>
      let! rc := tcp_shift_delivery_grow in
      if rc <? 0 then ret None
      else
        let! a := get_ad in
        match tcp_shift_delivery_empty_slot a with
        | Some index => ret (Some index)
        | None =>
            note_delivery (fun s => s <| st_delivery_metadata_alloc_failures :=
                                           st_delivery_metadata_alloc_failures s +w64 1 |>) ;;
            ret None
        end
  end.

Definition tcp_shift_delivery_create (segment : Z) : M (flow W) (option nat) :=
  let! slot := delivery_room in
  match slot with
  | None => ret None
  | Some index =>
      upd_slot index (fun _ => zero_slot <| dv_segment := Some segment |>) ;;
      upd_ad (fun a => a <| ad_delivery_live := u16 (ad_delivery_live a + 1) |>) ;;
      let! a := get_ad in
      note_delivery (fun s =>
        let s := s <| st_delivery_live_slots := st_delivery_live_slots s +w32 1 |> in
        let s := if st_delivery_live_slots s >? st_delivery_peak_live_slots s
                 then s <| st_delivery_peak_live_slots := st_delivery_live_slots s |> else s in
        if ad_delivery_live a >? st_delivery_peak_slots_per_flow s
        then s <| st_delivery_peak_slots_per_flow := ad_delivery_live a |> else s) ;;
      ret (Some index)
  end.

Definition tcp_shift_delivery_release_slot (index : nat) : M (flow W) unit :=
  let! a := get_ad in
  if is_null (dv_segment (slot_at a index)) then ret tt
  else
    upd_slot index (fun _ => zero_slot) ;;
    upd_ad (fun a => if negb (ad_delivery_live a =? 0)
                     then a <| ad_delivery_live := u16 (ad_delivery_live a - 1) |> else a) ;;
    note_delivery (fun s => if negb (st_delivery_live_slots s =? 0)
                            then s <| st_delivery_live_slots := st_delivery_live_slots s -w32 1 |>
                            else s).

Definition tcp_shift_delivery_release_all : M (flow W) unit :=
  let! a := get_ad in
  let live := ad_delivery_live a in
  when (negb (live =? 0))
    (note_delivery (fun s =>
       let s := s <| st_delivery_metadata_abandoned_slots :=
                       st_delivery_metadata_abandoned_slots s +w64 live |> in
       if st_delivery_live_slots s >=? live
       then s <| st_delivery_live_slots := st_delivery_live_slots s -w32 live |>
       else s <| st_delivery_live_slots := 0 |>)) ;;
  upd_ad (fun a => a <| ad_delivery_slots := [] |> <| ad_delivery_live := 0 |>).

(** What a slot adds to the outstanding payload. *)
Definition slot_outstanding (slot : tcp_shift_delivery_slot) : Z :=
  if negb (is_null (dv_segment slot)) && (dv_payload_bytes slot >? dv_acked_payload_bytes slot)
  then u32 (dv_payload_bytes slot - dv_acked_payload_bytes slot) else 0.

Definition clamp_u32 (total : Z) : Z := if total >? UINT32_MAX then UINT32_MAX else u32 total.

Definition tcp_shift_delivery_outstanding_payload a : Z :=
  clamp_u32 (fold_left (fun total slot => total +w64 slot_outstanding slot)
               (ad_delivery_slots a) 0).

(** Signed modular distance from the slot's first byte. *)
Definition tcp_shift_delivery_acked_payload (slot : tcp_shift_delivery_slot) (ack_seq : Z) : Z :=
  let distance := s32 (ack_seq - dv_seq_start slot) in
  if distance <=? 0 then 0
  else if u32 distance >=? dv_payload_bytes slot then dv_payload_bytes slot
  else u16 distance.

Definition tcp_shift_lwip_cc_transport_from_adapter a (pcb : tcp_pcb) : tcp_shift_cc_transport :=
  let transport := tcp_shift_lwip_cc_transport_from_pcb pcb in
  if ad_sack_delivery_policy a
  then mk_transport (tp_mss_bytes transport) (tcp_shift_delivery_outstanding_payload a)
         (tp_send_window_bytes transport) (tp_cwnd_limit_bytes transport)
  else transport.

End Slots.
