(* ===== verification/AdapterPacing.v ===== *)
(** * Pacing of a flow ([src/lwip/cc_adapter.c], pacing service)

    The process-wide registry gives every paced flow an identity, its slot
    number and the slot's generation, which the scheduler hands back when a
    deadline is due. The send gate asks the flow's virtual clock and schedules
    the release; the recovery timer shares the identity. *)

From Stdlib Require Import ZArith Lia Bool List.
From stdpp Require Import base tactics numbers list.
From S2P Require Import Prelude StateMonad CC Rack Prr FlowPacer AdapterData AdapterDelivery.
Local Open Scope Z_scope.

Section Pacing.
Context {W : Type} `{!AdapterOS W}.

(** ** The scheduler's functions *)

(** [ops == NULL || ops->FN == NULL]: the function to call, if there is one. *)
Definition service_fn (ops : ptr tcp_shift_lwip_cc_timer_ops)
    (fn : tcp_shift_lwip_cc_timer_ops -> ptr Z) : ptr Z :=
  match ops with None => NULL | Some o => fn o end.

Definition pacing_scheduler_error : M (flow W) unit :=
  note_pacing (fun s => s <| st_pacing_scheduler_errors := st_pacing_scheduler_errors s +w64 1 |>).

Definition tcp_shift_pacing_cancel : M (flow W) unit :=
  let! a := get_ad in
  if negb (ad_pacing_scheduled a) then ret tt
  else
    let! g := get_gl in
    let! failed :=
      match service_fn (pv_ops (gl_pacing g)) to_cancel with
      | Some fn =>
          if ad_pacing_flow_id a =? 0 then ret true
          else
            let! rc := call_os (fun w => timer_cancel w fn (pv_arg (gl_pacing g))
                                           (ad_pacing_flow_id a) (ad_pacing_generation a)) in
            ret (rc <? 0)
      | None => ret true
      end in
    when failed pacing_scheduler_error ;;
    upd_ad (fun a => a <| ad_pacing_scheduled := false |>).

(** ** The registry *)

Definition upd_pacing (f : tcp_shift_pacing_service -> tcp_shift_pacing_service)
    : M (flow W) unit :=
  upd_gl (fun g => g <| gl_pacing := f (gl_pacing g) |>).

Definition registry_capacity (p : tcp_shift_pacing_service) : Z := Z.of_nat (length (pv_entries p)).

Definition zero_entry : tcp_shift_pacing_registry_entry := mk_registry_entry NULL 0.

Definition tcp_shift_pacing_registry_grow : M (flow W) Z :=
  let! g := get_gl in
  let capacity := registry_capacity (gl_pacing g) in
  if negb (capacity =? 0) && (capacity >? SIZE_MAX / 2) then ret (-1)
  else
    let next_capacity :=
      if capacity =? 0 then TCP_SHIFT_PACING_INITIAL_REGISTRY else capacity *w64 2 in
    if next_capacity >? SIZE_MAX / REGISTRY_ENTRY_SIZE then ret (-1)
    else
      let! ok := call_os (fun w => heap_alloc w (next_capacity *w64 REGISTRY_ENTRY_SIZE)) in
      if negb ok then ret (-1)
      else
        upd_pacing (fun p => p <| pv_entries := pv_entries p ++
          replicate (Z.to_nat next_capacity - length (pv_entries p)) zero_entry |>) ;;
        ret 0.

(** The scan for a free entry. *)
Fixpoint free_entry (entries : list tcp_shift_pacing_registry_entry) : option nat :=
  match entries with
  | [] => None
  | e :: entries' => if is_null (pe_adapter e) then Some 0%nat else S <$> free_entry entries'
  end.

Definition next_generation (generation : Z) : Z :=
  let generation := generation +w32 1 in if generation =? 0 then 1 else generation.

(** Take entry [index] for the flow. *)
Definition registry_take (index : nat) : M (flow W) unit :=
  fun s =>
    let p := gl_pacing (fw_gl s) in
    let generation := next_generation (pe_generation (nth index (pv_entries p) zero_entry)) in
    (upd_pacing (fun p => p
       <| pv_entries := alter (fun _ => mk_registry_entry (Some (fw_self s)) generation) index
                          (pv_entries p) |>
       <| pv_active := pv_active p +w64 1 |>) ;;
     upd_ad (fun a => a <| ad_pacing_flow_id := Z.of_nat index +w64 1 |>
                        <| ad_pacing_generation := generation |>)) s.

(** The [for (;;)] loop of [register]: a scan, then a growth and a scan. *)
Fixpoint register_loop (fuel : nat) : M (flow W) (option Z) :=
  match fuel with
  | O => ret None
  | S fuel' =>
      let! g := get_gl in
      match free_entry (pv_entries (gl_pacing g)) with
      | Some index => registry_take index ;; ret (Some 0)
      | None =>
          let! rc := tcp_shift_pacing_registry_grow in
          if rc <? 0 then ret (Some (-1)) else register_loop fuel'
      end
  end.

(** Two rounds suffice: a growth adds a free entry ([register_loop_total]). *)
Definition tcp_shift_pacing_register : M (flow W) Z :=
  let! g := get_gl in
  if is_null (pv_ops (gl_pacing g)) then ret 0
  else
    let! rc := register_loop 2 in
    ret (default (-1) rc).

Definition tcp_shift_recovery_timer_cancel : M (flow W) unit :=
  let! a := get_ad in
  if negb (ad_recovery_timer_scheduled a) then ret tt
  else
    let! g := get_gl in
    match service_fn (rv_ops (gl_recovery g)) to_cancel with
    | Some fn =>
        when (negb (ad_pacing_flow_id a =? 0))
          (let! _ := call_os (fun w => timer_cancel w fn (rv_arg (gl_recovery g))
                                         (ad_pacing_flow_id a) (ad_pacing_generation a)) in
           ret tt)
    | None => ret tt
    end ;;
    upd_ad (fun a => a <| ad_recovery_timer_scheduled := false |>
                       <| ad_recovery_timer_deadline_ns := 0 |>
                       <| ad_recovery_timer_kind := 0 |>).

(** The entry is cleared when it still names this flow's registration. *)
Definition registry_release (self : Z) (a : tcp_shift_lwip_cc_adapter)
    (p : tcp_shift_pacing_service) : tcp_shift_pacing_service :=
  let index := Z.to_nat (ad_pacing_flow_id a -w64 1) in
  match pv_entries p !! index with
  | Some entry =>
      if bool_decide (pe_adapter entry = Some self) &&
         (pe_generation entry =? ad_pacing_generation a)
      then p <| pv_entries := alter (fun e => e <| pe_adapter := NULL |>) index (pv_entries p) |>
             <| pv_active := if negb (pv_active p =? 0) then pv_active p -w64 1 else pv_active p |>
      else p
  | None => p
  end.

Definition tcp_shift_pacing_unregister : M (flow W) unit :=
  let! a := get_ad in
  if ad_pacing_flow_id a =? 0 then ret tt
  else
    tcp_shift_pacing_cancel ;;
    tcp_shift_recovery_timer_cancel ;;
    (fun s => upd_pacing (registry_release (fw_self s) (fw_ad s)) s) ;;
    upd_ad (fun a => a <| ad_pacing_flow_id := 0 |> <| ad_pacing_generation := 0 |>).

(** ** The services' configuration *)

Definition timer_ops_usable (ops : ptr tcp_shift_lwip_cc_timer_ops) : bool :=
  negb (is_null (service_fn ops to_schedule)) && negb (is_null (service_fn ops to_cancel)).

(** [a == b] for two pointers to tables. *)
Definition same_timer_ops (ops ops' : ptr tcp_shift_lwip_cc_timer_ops) : bool :=
  match ops, ops' with
  | Some o, Some o' => to_addr o =? to_addr o'
  | None, None => true
  | _, _ => false
  end.

Definition tcp_shift_lwip_cc_configure_pacer (g : cc_globals)
    (ops : ptr tcp_shift_lwip_cc_timer_ops) (arg : Z) : Z * cc_globals :=
  let p := gl_pacing g in
  if negb (timer_ops_usable ops) then (-1, g)
  else if negb (is_null (pv_ops p)) then
    (if same_timer_ops (pv_ops p) ops && (pv_arg p =? arg) then 0 else -1, g)
  else if negb (pv_active p =? 0) then (-1, g)
  else (0, g <| gl_pacing := p <| pv_ops := ops |> <| pv_arg := arg |> |>).

Definition tcp_shift_lwip_cc_clear_pacer (g : cc_globals) : Z * cc_globals :=
  let p := gl_pacing g in
  if negb (pv_active p =? 0) then (-1, g)
  else (0, g <| gl_pacing := p <| pv_ops := NULL |> <| pv_arg := 0 |> |>).

Definition tcp_shift_lwip_cc_configure_recovery_timer (g : cc_globals)
    (ops : ptr tcp_shift_lwip_cc_timer_ops) (arg : Z) : Z * cc_globals :=
  let r := gl_recovery g in
  if negb (timer_ops_usable ops) then (-1, g)
  else if negb (is_null (rv_ops r)) then
    (if same_timer_ops (rv_ops r) ops && (rv_arg r =? arg) then 0 else -1, g)
  else if negb (pv_active (gl_pacing g) =? 0) then (-1, g)
  else (0, g <| gl_recovery := mk_recovery_service ops arg |>).

Definition tcp_shift_lwip_cc_clear_recovery_timer (g : cc_globals) : Z * cc_globals :=
  if negb (pv_active (gl_pacing g) =? 0) then (-1, g)
  else (0, g <| gl_recovery := mk_recovery_service NULL 0 |>).

(** ** The flow's clock and the send gate *)

(** The reusable flow clock, loaded from the adapter's fields. *)
Definition adapter_flow_clock (a : tcp_shift_lwip_cc_adapter) : tcp_shift_flow_pacer :=
  tcp_shift_flow_pacer_set_rate (tcp_shift_flow_pacer_init 0) (ad_pacing_rate_bytes_per_sec a)
    <| fl_next_send_ns := ad_pacing_next_send_ns a |>.

(** Pacing is given up: the rate and the clock are cleared. *)
Definition pacing_off : M (flow W) unit :=
  upd_ad (fun a => a <| ad_pacing_rate_bytes_per_sec := 0 |> <| ad_pacing_next_send_ns := 0 |>).

Definition tcp_shift_pacing_note_tx (payload_bytes now_ns : Z) : M (flow W) unit :=
  let! a := get_ad in
  if (payload_bytes =? 0) || (ad_pacing_rate_bytes_per_sec a =? 0) || (now_ns =? 0) then ret tt
  else
    let '(rc, clock) := tcp_shift_flow_pacer_note_tx (adapter_flow_clock a) now_ns payload_bytes in
    if rc <? 0 then pacing_scheduler_error ;; pacing_off
    else
      upd_ad (fun a => a <| ad_pacing_next_send_ns := fl_next_send_ns clock |>) ;;
      note_pacing (fun s => s
        <| st_pacing_tx_events := st_pacing_tx_events s +w64 1 |>
        <| st_pacing_tx_bytes := st_pacing_tx_bytes s +w64 payload_bytes |>
        <| st_pacing_last_rate_bytes_per_sec := ad_pacing_rate_bytes_per_sec a |>
        <| st_pacing_last_deadline_ns := fl_next_send_ns clock |>).

Definition tcp_shift_lwip_cc_effective_cwnd : M (flow W) Z :=
  let! ok := live in
  let! a := get_ad in
  let! pcb := get_pcb in
  let cwnd := pb_cwnd pcb in
  let raw_inflight := pb_snd_nxt pcb -w32 pb_lastack pcb in
  if negb ok then ret cwnd
  else if pr_active (ad_prr a) then
    ret (if raw_inflight >? UINT32_MAX -w32 ad_prr_send_credit_bytes a
         then UINT32_MAX else raw_inflight +w32 ad_prr_send_credit_bytes a)
  else if negb (ad_sack_delivery_policy a) then ret cwnd
  else
    let actual_inflight := tcp_shift_delivery_outstanding_payload a in
    if actual_inflight >=? raw_inflight then ret cwnd
    else
      let credit := raw_inflight -w32 actual_inflight in
      ret (if cwnd >? UINT32_MAX -w32 credit then UINT32_MAX else cwnd +w32 credit).

(** A deadline is due in the future: make sure a release is scheduled. *)
Definition pacing_defer (deadline_ns payload_bytes : Z) : M (flow W) Z :=
  let! a := get_ad in
  let! g := get_gl in
  match service_fn (pv_ops (gl_pacing g)) to_schedule with
  | None => pacing_scheduler_error ;; pacing_off ;; ret 1
  | Some fn =>
      if ad_pacing_flow_id a =? 0 then pacing_scheduler_error ;; pacing_off ;; ret 1
      else
        let! failed :=
          if ad_pacing_scheduled a then ret false
          else
            let! rc := call_os (fun w =>
              timer_schedule w fn (pv_arg (gl_pacing g)) (ad_pacing_flow_id a)
                (ad_pacing_generation a) deadline_ns payload_bytes) in
            if rc <? 0 then ret true
            else upd_ad (fun a => a <| ad_pacing_scheduled := true |>) ;; ret false in
        if failed then pacing_scheduler_error ;; pacing_off ;; ret 1
        else
          note_pacing (fun s => s
            <| st_pacing_deferrals := st_pacing_deferrals s +w64 1 |>
            <| st_pacing_last_deadline_ns := deadline_ns |>) ;;
          ret 0
  end.

Definition tcp_shift_lwip_cc_on_segment_send_eligible (payload_bytes : Z) : M (flow W) Z :=
  let! ok := live in
  if negb ok || (payload_bytes =? 0) then ret 1
  else
    let! a := get_ad in
    if pr_active (ad_prr a) && (payload_bytes >? ad_prr_send_credit_bytes a) then
      note_recovery (fun s => s <| st_prr_send_blocks := st_prr_send_blocks s +w64 1 |>) ;;
      ret 0
    else if ad_pacing_rate_bytes_per_sec a =? 0 then ret 1
    else
      let! now_ns := tcp_shift_delivery_now_ns in
      if now_ns =? 0 then ret 1
      else
        let deadline_ns := tcp_shift_flow_pacer_deadline (adapter_flow_clock a) now_ns in
        if deadline_ns =? 0 then ret 1
        else pacing_defer deadline_ns payload_bytes.

End Pacing.
