(* ===== verification/AdapterRecovery.v ===== *)
(** * Loss recovery of a flow ([src/lwip/cc_adapter.c], PRR, RACK and TLP)

    The adapter feeds the RACK-TLP and PRR algorithms from the delivery
    ledger: what an ACK delivered, in which order it had been sent, what is
    still in flight; and it keeps at most one recovery timer armed. *)

From Stdlib Require Import ZArith Lia Bool List String.
From stdpp Require Import base tactics numbers list.
From S2P Require Import Prelude StateMonad CC Observation Rack Prr AdapterData AdapterDelivery AdapterPacing.
Local Open Scope Z_scope.

(** The names in the vtables. *)
Definition cc_ops_name (ops : cc_ops_ref) : string :=
  match ops with
  | OpsReno => "reno"
  | OpsCubic => "cubic"
  | OpsPacedReno => "reno-production-transport-pacing"
  | OpsPacedCubic => "cubic-production-transport-pacing"
  | OpsBbr => "bbr-internal-lwip"
  end%string.

Section Recovery.
Context {W : Type} `{!AdapterOS W} `{!LwipParams}.
Implicit Types (a : tcp_shift_lwip_cc_adapter) (slot : tcp_shift_delivery_slot).

Definition tcp_shift_lwip_cc_hook_recovery_is_active (hook : tcp_shift_lwip_cc_hook) : bool :=
  hk_recovery_active hook.

(** ** RACK's view of a slot *)

Definition slot_end slot : Z := dv_seq_start slot +w32 dv_payload_bytes slot.

Definition tcp_shift_rack_slot_view slot : tcp_shift_rack_segment :=
  mk_segment (dv_tx_ns slot) (dv_seq_start slot) (slot_end slot) (dv_retransmitted slot) false.

(** A slot whose payload is not fully delivered, with a send time. *)
Definition slot_in_flight slot : bool :=
  negb (is_null (dv_segment slot) || (dv_payload_bytes slot =? 0) ||
        (dv_acked_payload_bytes slot >=? dv_payload_bytes slot) || (dv_tx_ns slot =? 0)).

(** ** PRR *)

Definition tcp_shift_lwip_cc_prr_capable a (self_pcb : Z) (pcb : tcp_pcb) : bool :=
  if negb (ad_bound a) || negb (serves a self_pcb) || negb (pb_tf_sack pcb) ||
     ad_sack_delivery_policy a
  then false
  else
    match ad_ops a with
    | None => false
    | Some ops => String.prefix "reno"%string (cc_ops_name ops) ||
                  String.prefix "cubic"%string (cc_ops_name ops)
    end.

(** The bytes of a slot that a SACK delivered beyond [snd_una]. *)
Definition slot_sacked_beyond (snd_una : Z) slot : Z :=
  if is_null (dv_segment slot) || (dv_payload_bytes slot =? 0) ||
     (dv_acked_payload_bytes slot =? 0)
  then 0
  else
    let offset := snd_una -w32 dv_seq_start slot in
    let cumulatively_acked :=
      if s32 offset >? 0 then
        if offset >=? dv_payload_bytes slot then dv_payload_bytes slot else offset
      else 0 in
    if dv_acked_payload_bytes slot >? cumulatively_acked
    then u32 (dv_acked_payload_bytes slot - cumulatively_acked) else 0.

Definition tcp_shift_lwip_cc_prr_sacked_bytes a (snd_una : Z) : Z :=
  clamp_u32 (fold_left (fun total slot => total +w64 slot_sacked_beyond snd_una slot)
               (ad_delivery_slots a) 0).

Definition tcp_shift_lwip_cc_prr_recover_fs a (pcb : tcp_pcb) : Z :=
  let raw := pb_snd_nxt pcb -w32 pb_lastack pcb in
  let sacked := tcp_shift_lwip_cc_prr_sacked_bytes a (pb_lastack pcb) in
  if sacked >=? raw then 0 else raw -w32 sacked.

(** The loop of [prr_inflight]: RACK's state and the bytes not yet lost. *)
Fixpoint prr_inflight_loop (slots : list tcp_shift_delivery_slot) (now_ns : Z)
    (in_recovery : bool) (rack : tcp_shift_rack_tlp_state) (total : Z)
    : tcp_shift_rack_tlp_state * Z :=
  match slots with
  | [] => (rack, total)
  | slot :: slots' =>
      if negb (slot_in_flight slot) then prr_inflight_loop slots' now_ns in_recovery rack total
      else
        let outstanding := u32 (dv_payload_bytes slot - dv_acked_payload_bytes slot) in
        let '(lost, rack, _) :=
          tcp_shift_rack_loss_remaining rack (tcp_shift_rack_slot_view slot) now_ns in_recovery in
        prr_inflight_loop slots' now_ns in_recovery rack
          (if negb (lost =? 0) then total else total +w64 outstanding)
  end.

Definition tcp_shift_lwip_cc_prr_inflight : M (flow W) Z :=
  let! a := get_ad in
  if (length (ad_delivery_slots a) =? 0)%nat then ret 0
  else
    let! now_ns := tcp_shift_delivery_now_ns in
    let! a := get_ad in
    if now_ns =? 0 then ret (tcp_shift_delivery_outstanding_payload a)
    else
      let '(rack, total) :=
        prr_inflight_loop (ad_delivery_slots a) now_ns
          (tcp_shift_lwip_cc_hook_recovery_is_active (ad_hook a)) (ad_rack_tlp a) 0 in
      upd_ad (fun a => a <| ad_rack_tlp := rack |>) ;;
      ret (clamp_u32 total).

Definition tcp_shift_lwip_cc_prr_reset_live : M (flow W) unit :=
  upd_ad (fun a => a <| ad_prr := tcp_shift_prr_reset |>
                     <| ad_prr_send_credit_bytes := 0 |>
                     <| ad_prr_recover_fs_hint := 0 |>
                     <| ad_prr_recover_fs_hint_valid := false |>).

Definition tcp_shift_lwip_cc_prr_note_delivery : M (flow W) unit :=
  upd_ad (fun a =>
    if ad_delivered_bytes a <? ad_prr_ack_delivered_before a then a
    else a <| ad_prr_trigger_delivered_bytes :=
                clamp_u32 (ad_delivered_bytes a -w64 ad_prr_ack_delivered_before a) |>).

(** The window and the send credit of an accepted PRR step. *)
Definition prr_publish (result : tcp_shift_prr_result) (inflight : Z) (safe_ack : bool)
    : M (flow W) unit :=
  upd_pcb (fun pcb => pcb <| pb_cwnd := u32 (px_cwnd result) |> <| pb_bytes_acked := 0 |>) ;;
  upd_ad (fun a => a <| ad_prr_send_credit_bytes := px_sndcnt result |>) ;;
  note_recovery (fun s =>
    let s := s <| st_prr_ack_events := st_prr_ack_events s +w64 1 |> in
    let s := if safe_ack
             then s <| st_prr_safe_ack_events := st_prr_safe_ack_events s +w64 1 |> else s in
    s <| st_prr_last_inflight_bytes := inflight |>
      <| st_prr_last_sndcnt_bytes := px_sndcnt result |>) ;;
  note_policy (fun s => s <| st_last_cwnd_bytes := px_cwnd result |>).

Definition tcp_shift_lwip_cc_prr_apply_ack (delivered_data : Z) (safe_ack : bool)
    : M (flow W) Z :=
  let! a := get_ad in
  if negb (pr_active (ad_prr a)) || (delivered_data =? 0) then ret 0
  else
    let! inflight := tcp_shift_lwip_cc_prr_inflight in
    let! pcb := get_pcb in
    let! a := get_ad in
    let ack := mk_prr_ack delivered_data inflight (pb_mss pcb) safe_ack in
    let '(rc, prr, result) := tcp_shift_prr_on_ack (ad_prr a) ack (mk_prr_result 0 0) in
    upd_ad (fun a => a <| ad_prr := prr |>) ;;
    if negb (rc =? 0) then ret (-1)
    else if (px_cwnd result =? 0) || (px_cwnd result >? tcp_shift_lwip_cc_cwnd_limit) then ret (-1)
    else prr_publish result inflight safe_ack ;; ret 1.

Definition tcp_shift_lwip_cc_prr_begin : M (flow W) Z :=
  let! a := get_ad in
  let! pcb := get_pcb in
  let! self_pcb := gets fw_ptr in
  if negb (tcp_shift_lwip_cc_prr_capable a self_pcb pcb) || (ad_prr_trigger_delivered_bytes a =? 0)
  then ret 0
  else
    let recover_fs := if ad_prr_recover_fs_hint_valid a then ad_prr_recover_fs_hint a
                      else tcp_shift_lwip_cc_prr_recover_fs a pcb in
    if (recover_fs =? 0) || (pb_ssthresh pcb =? 0) then ret 0
    else
      let '(rc, prr) := tcp_shift_prr_init (ad_prr a) recover_fs (pb_ssthresh pcb) in
      if negb (rc =? 0) then ret 0
      else
        upd_ad (fun a => a <| ad_prr := prr |>
                           <| ad_prr_send_credit_bytes := 0 |>
                           <| ad_prr_recover_fs_hint_valid := false |>) ;;
        note_recovery (fun s => s
          <| st_prr_recovery_enters := st_prr_recovery_enters s +w64 1 |>
          <| st_prr_last_recover_fs_bytes := recover_fs |>) ;;
        let! rc := tcp_shift_lwip_cc_prr_apply_ack (ad_prr_trigger_delivered_bytes a) false in
        if rc <? 0 then tcp_shift_lwip_cc_prr_reset_live ;; ret 0 else ret 1.

Definition tcp_shift_lwip_cc_prr_ack_begin : M (flow W) unit :=
  let! ok := live in
  if negb ok then ret tt
  else
    let! g := get_gl in
    upd_ad (fun a => a
      <| ad_prr_ack_delivered_before := ad_delivered_bytes a |>
      <| ad_prr_trigger_delivered_bytes := 0 |>
      <| ad_prr_ack_loss_events_before :=
           if ad_stats a then st_loss_events (st_policy (gl_stats g)) else 0 |>) ;;
    let! a := get_ad in
    let! pcb := get_pcb in
    let! self_pcb := gets fw_ptr in
    when (negb (pr_active (ad_prr a)) && tcp_shift_lwip_cc_prr_capable a self_pcb pcb)
      (let hint := tcp_shift_lwip_cc_prr_recover_fs a pcb in
       upd_ad (fun a => a <| ad_prr_recover_fs_hint := hint |>
                          <| ad_prr_recover_fs_hint_valid := negb (hint =? 0) |>)).

Definition tcp_shift_lwip_cc_prr_active : M (flow W) bool :=
  let! ok := live in
  let! a := get_ad in
  ret (ok && pr_active (ad_prr a)).

(** ** RACK *)

Definition tcp_shift_rack_seq_before_u32 (left right : Z) : bool := s32 (left - right) <? 0.
Definition tcp_shift_rack_seq_after_eq_u32 (left right : Z) : bool := s32 (left - right) >=? 0.

(** A SACK block [left, right). *)
Record tcp_shift_lwip_sack_range := mk_sack_range { sk_left : Z; sk_right : Z }.

Definition tcp_shift_rack_sack_is_dsack (ack_seq : Z) (ranges : list tcp_shift_lwip_sack_range)
    : bool :=
  match ranges with
  | [] => false
  | first :: rest =>
      if negb (tcp_shift_rack_seq_before_u32 (sk_left first) (sk_right first)) then false
      else if tcp_shift_rack_seq_after_eq_u32 ack_seq (sk_right first) then true
      else
        match rest with
        | second :: _ =>
            tcp_shift_rack_seq_after_eq_u32 (sk_left first) (sk_left second) &&
            tcp_shift_rack_seq_after_eq_u32 (sk_right second) (sk_right first)
        | [] => false
        end
  end.

Definition tcp_shift_rack_record_stats : M (flow W) unit :=
  let! a := get_ad in
  note_recovery (fun s =>
    let s := s <| st_rack_reo_wnd_mult := rk_reo_wnd_mult (ad_rack_tlp a) |>
               <| st_rack_reo_wnd_persist := rk_reo_wnd_persist (ad_rack_tlp a) |> in
    if rk_reo_wnd_mult (ad_rack_tlp a) >? st_rack_reo_wnd_mult_max s
    then s <| st_rack_reo_wnd_mult_max := rk_reo_wnd_mult (ad_rack_tlp a) |> else s).

(** The scan of one round: the index of the slot to process next. [pick slot
    next] holds when [slot] replaces the choice so far. *)
Fixpoint select_slot (wanted : tcp_shift_delivery_slot -> bool)
    (pick : tcp_shift_delivery_slot -> tcp_shift_delivery_slot -> bool)
    (slots : list tcp_shift_delivery_slot) (index : nat)
    (next : option (nat * tcp_shift_delivery_slot)) : option (nat * tcp_shift_delivery_slot) :=
  match slots with
  | [] => next
  | slot :: slots' =>
      let next :=
        if negb (wanted slot) then next
        else
          match next with
          | None => Some (index, slot)
          | Some (_, chosen) => if pick slot chosen then Some (index, slot) else next
          end in
      select_slot wanted pick slots' (S index) next
  end.

(** Fully delivered, in the given pass. *)
Definition rack_wanted (pass : Z) slot : bool :=
  negb (is_null (dv_segment slot) || negb (dv_rack_delivered slot =? pass) ||
        (dv_payload_bytes slot =? 0) || (dv_acked_payload_bytes slot <? dv_payload_bytes slot)).

(** Pass 0 runs in the order of transmission, pass 1 in sequence order. *)
Definition rack_pick_sent slot chosen : bool :=
  tcp_shift_rack_sent_after (dv_tx_ns chosen) (slot_end chosen) (dv_tx_ns slot) (slot_end slot).
Definition rack_pick_seq slot chosen : bool :=
  tcp_shift_rack_seq_before_u32 (slot_end slot) (slot_end chosen).

(** What the first pass does with a delivered slot. *)
Definition rack_deliver_slot (ack_time_ns srtt_ns : Z) slot (rack : tcp_shift_rack_tlp_state)
    : tcp_shift_rack_tlp_state :=
  let rack :=
    if negb (dv_retransmitted slot) && (ack_time_ns >=? dv_tx_ns slot) then
      let sample := ack_time_ns -w64 dv_tx_ns slot in
      if negb (sample =? 0) && ((rk_min_rtt_ns rack =? 0) || (sample <? rk_min_rtt_ns rack))
      then rack <| rk_min_rtt_ns := sample |> else rack
    else rack in
  let rack := tcp_shift_rack_set_rtt_estimates rack (rk_min_rtt_ns rack) srtt_ns in
  (tcp_shift_rack_note_delivered rack (tcp_shift_rack_slot_view slot) ack_time_ns).2.

Fixpoint rack_delivery_pass (fuel : nat) (ack_time_ns : Z) : M (flow W) unit :=
  match fuel with
  | O => ret tt
  | S fuel' =>
      let! a := get_ad in
      match select_slot (rack_wanted 0) rack_pick_sent (ad_delivery_slots a) 0 None with
      | None => ret tt
      | Some (index, slot) =>
          upd_ad (fun a => a <| ad_rack_tlp :=
            rack_deliver_slot ack_time_ns (smoothed_rtt_ns (ad_srtt a)) slot (ad_rack_tlp a) |>) ;;
          upd_slot index (fun slot => slot <| dv_rack_delivered := 1 |>) ;;
          rack_delivery_pass fuel' ack_time_ns
      end
  end.

Fixpoint rack_reordering_pass (fuel : nat) : M (flow W) unit :=
  match fuel with
  | O => ret tt
  | S fuel' =>
      let! a := get_ad in
      match select_slot (rack_wanted 1) rack_pick_seq (ad_delivery_slots a) 0 None with
      | None => ret tt
      | Some (index, slot) =>
          let rack := tcp_shift_rack_detect_reordering (ad_rack_tlp a)
                        (tcp_shift_rack_slot_view slot) in
          upd_ad (fun a => a <| ad_rack_tlp := rack |>) ;;
          when (negb (rk_reordering_seen (ad_rack_tlp a)) && rk_reordering_seen rack)
            (note_recovery (fun s => s <| st_rack_reordering_events :=
                                            st_rack_reordering_events s +w64 1 |>)) ;;
          tcp_shift_rack_record_stats ;;
          upd_slot index (fun slot => slot <| dv_rack_delivered := 2 |>) ;;
          rack_reordering_pass fuel'
      end
  end.

(** Each pass ends when a round finds nothing or after [capacity] rounds. *)
Definition tcp_shift_rack_process_delivered_slots (ack_time_ns : Z) : M (flow W) unit :=
  if ack_time_ns =? 0 then ret tt
  else
    let! a := get_ad in
    rack_delivery_pass (length (ad_delivery_slots a)) ack_time_ns ;;
    rack_reordering_pass (length (ad_delivery_slots a)).

Definition slot_sacked_above (lastack : Z) slot : bool :=
  negb (is_null (dv_segment slot) || (dv_payload_bytes slot =? 0) ||
        (dv_acked_payload_bytes slot <? dv_payload_bytes slot)) &&
  (s32 (slot_end slot - lastack) >? 0).

(** [for (...) if (p) count++] *)
Definition count_slots (p : tcp_shift_delivery_slot -> bool)
    (slots : list tcp_shift_delivery_slot) : Z :=
  fold_left (fun count slot => if p slot then count +w32 1 else count) slots 0.

Definition tcp_shift_rack_count_sacked_slots a (pcb : tcp_pcb) : Z :=
  count_slots (slot_sacked_above (pb_lastack pcb)) (ad_delivery_slots a).

Definition tcp_shift_rack_add_sat_ns (left right : Z) : Z :=
  if right >? UINT64_MAX -w64 left then UINT64_MAX else left +w64 right.

(** The loop of [detection_deadline]: RACK's state, whether a transmission is
    due, and the longest remaining time. *)
Fixpoint rack_deadline_loop (slots : list tcp_shift_delivery_slot) (now_ns : Z)
    (in_recovery : bool) (rack : tcp_shift_rack_tlp_state) (due : bool) (max_remaining_ns : Z)
    : tcp_shift_rack_tlp_state * bool * Z :=
  match slots with
  | [] => (rack, due, max_remaining_ns)
  | slot :: slots' =>
      if negb (slot_in_flight slot)
      then rack_deadline_loop slots' now_ns in_recovery rack due max_remaining_ns
      else
        let '(lost, rack, remaining_ns) :=
          tcp_shift_rack_loss_remaining rack (tcp_shift_rack_slot_view slot) now_ns in_recovery in
        if negb (lost =? 0)
        then rack_deadline_loop slots' now_ns in_recovery rack true max_remaining_ns
        else rack_deadline_loop slots' now_ns in_recovery rack due
               (if remaining_ns >? max_remaining_ns then remaining_ns else max_remaining_ns)
  end.

Definition tcp_shift_rack_detection_deadline (now_ns : Z) : M (flow W) Z :=
  let! a := get_ad in
  if (now_ns =? 0) || (rk_rack_xmit_ts_ns (ad_rack_tlp a) =? 0) ||
     (rk_rack_rtt_ns (ad_rack_tlp a) =? 0)
  then ret 0
  else
    let '(rack, due, max_remaining_ns) :=
      rack_deadline_loop (ad_delivery_slots a) now_ns
        (tcp_shift_lwip_cc_hook_recovery_is_active (ad_hook a)) (ad_rack_tlp a) false 0 in
    upd_ad (fun a => a <| ad_rack_tlp := rack |>) ;;
    ret (if due then now_ns
         else if negb (max_remaining_ns =? 0)
              then tcp_shift_rack_add_sat_ns now_ns max_remaining_ns else 0).

(** Cancel the armed timer through the service; [false] when that fails, and
    then the adapter's own cancel has cleared its fields. *)
Definition recovery_timer_disarm : M (flow W) bool :=
  let! a := get_ad in
  let! g := get_gl in
  let! failed :=
    match service_fn (rv_ops (gl_recovery g)) to_cancel with
    | None => ret true
    | Some fn =>
        let! rc := call_os (fun w => timer_cancel w fn (rv_arg (gl_recovery g))
                                       (ad_pacing_flow_id a) (ad_pacing_generation a)) in
        ret (rc <? 0)
    end in
  if failed then tcp_shift_recovery_timer_cancel ;; ret false
  else
    upd_ad (fun a => a <| ad_recovery_timer_scheduled := false |>
                       <| ad_recovery_timer_deadline_ns := 0 |>) ;;
    ret true.

(** Schedule the recovery timer and record it. *)
Definition recovery_timer_arm (deadline_ns kind : Z) : M (flow W) unit :=
  let! a := get_ad in
  let! g := get_gl in
  match service_fn (rv_ops (gl_recovery g)) to_schedule with
  | None => ret tt
  | Some fn =>
      if ad_pacing_flow_id a =? 0 then ret tt
      else
        let! rc := call_os (fun w => timer_schedule w fn (rv_arg (gl_recovery g))
                                       (ad_pacing_flow_id a) (ad_pacing_generation a)
                                       deadline_ns kind) in
        if rc <? 0 then ret tt
        else upd_ad (fun a => a <| ad_recovery_timer_scheduled := true |>
                                <| ad_recovery_timer_deadline_ns := deadline_ns |>
                                <| ad_recovery_timer_kind := kind |>)
  end.

Definition tcp_shift_rack_arm_detection_timer (now_ns : Z) : M (flow W) unit :=
  let! deadline_ns := tcp_shift_rack_detection_deadline now_ns in
  if deadline_ns =? 0 then tcp_shift_recovery_timer_cancel
  else
    let! a := get_ad in
    if ad_recovery_timer_scheduled a && (ad_recovery_timer_deadline_ns a =? deadline_ns)
    then ret tt
    else
      let! free := if ad_recovery_timer_scheduled a then recovery_timer_disarm else ret true in
      if negb free then ret tt
      else recovery_timer_arm deadline_ns TCP_SHIFT_LWIP_RECOVERY_TIMER_RACK.

(** ** TLP *)

Definition slot_undelivered slot : bool :=
  negb (is_null (dv_segment slot)) && negb (dv_payload_bytes slot =? 0) &&
  (dv_acked_payload_bytes slot <? dv_payload_bytes slot).

Definition tcp_shift_tlp_flight_segments a : Z :=
  count_slots slot_undelivered (ad_delivery_slots a).

Definition tcp_shift_tlp_rto_expiration_ns (pcb : tcp_pcb) (now_ns : Z) : Z :=
  if (now_ns =? 0) || (pb_rto pcb <=? 0) then 0
  else if pb_rtime pcb >=? pb_rto pcb then now_ns
  else
    let remaining_ticks := u64 (pb_rto pcb - pb_rtime pcb) in
    let remaining_ns := remaining_ticks *w64 TCP_SLOW_INTERVAL *w64 1000000 in
    if remaining_ns >? UINT64_MAX -w64 now_ns then UINT64_MAX else now_ns +w64 remaining_ns.

Definition tlp_timer_armed a : bool :=
  ad_recovery_timer_scheduled a &&
  (ad_recovery_timer_kind a =? TCP_SHIFT_LWIP_RECOVERY_TIMER_TLP).

(** [recovery_timer_disarm], which also clears the timer's kind here. *)
Definition pto_disarm : M (flow W) bool :=
  let! free := recovery_timer_disarm in
  when free (upd_ad (fun a => a <| ad_recovery_timer_kind := 0 |>)) ;;
  ret free.

Definition tcp_shift_tlp_arm_pto (now_ns : Z) : M (flow W) unit :=
  if now_ns =? 0 then ret tt
  else
    let! a := get_ad in
    let! pcb := get_pcb in
    if tcp_shift_lwip_cc_hook_recovery_is_active (ad_hook a) ||
       negb (rk_segs_sacked (ad_rack_tlp a) =? 0) ||
       negb (tcp_shift_tlp_probe_allowed (ad_rack_tlp a))
    then when (tlp_timer_armed a) tcp_shift_recovery_timer_cancel
    else
      let flight_segments := tcp_shift_tlp_flight_segments a in
      if flight_segments =? 0 then when (tlp_timer_armed a) tcp_shift_recovery_timer_cancel
      else if ad_recovery_timer_scheduled a &&
              (ad_recovery_timer_kind a =? TCP_SHIFT_LWIP_RECOVERY_TIMER_RACK)
      then ret tt
      else
        let rto_expiration_ns := tcp_shift_tlp_rto_expiration_ns pcb now_ns in
        let pto_ns := tcp_shift_tlp_calc_pto_ns (Some (ad_rack_tlp a)) now_ns rto_expiration_ns
                        flight_segments 0 in
        if pto_ns =? 0 then ret tt
        else
          let deadline_ns := if pto_ns >? UINT64_MAX -w64 now_ns then UINT64_MAX
                             else now_ns +w64 pto_ns in
          if ad_recovery_timer_scheduled a && (ad_recovery_timer_deadline_ns a =? deadline_ns) &&
             (ad_recovery_timer_kind a =? TCP_SHIFT_LWIP_RECOVERY_TIMER_TLP)
          then ret tt
          else
            let! free := if ad_recovery_timer_scheduled a then pto_disarm else ret true in
            if negb free then ret tt
            else recovery_timer_arm deadline_ns TCP_SHIFT_LWIP_RECOVERY_TIMER_TLP.

(** The status of one segment: the code and [*remaining_ns]. *)
Definition tcp_shift_lwip_cc_rack_loss_status (segment : Z) : M (flow W) (Z * Z) :=
  let! ok := live in
  if negb ok then ret (-1, 0)
  else
    let! a := get_ad in
    match tcp_shift_delivery_find a segment with
    | None => ret (-1, 0)
    | Some index =>
        let slot := slot_at a index in
        if (dv_payload_bytes slot =? 0) || (dv_acked_payload_bytes slot >=? dv_payload_bytes slot) ||
           (dv_tx_ns slot =? 0)
        then ret (-1, 0)
        else
          let! now_ns := tcp_shift_delivery_now_ns in
          if now_ns =? 0 then ret (-1, 0)
          else
            let! a := get_ad in
            let '(lost, rack, remaining64) :=
              tcp_shift_rack_loss_remaining (ad_rack_tlp a) (tcp_shift_rack_slot_view slot) now_ns
                (tcp_shift_lwip_cc_hook_recovery_is_active (ad_hook a)) in
            upd_ad (fun a => a <| ad_rack_tlp := rack |>) ;;
            ret (if negb (lost =? 0) then (1, 0) else (0, remaining64))
    end.

End Recovery.
