(* ===== verification/AdapterRate.v ===== *)
(** * Transmissions, deliveries and rate samples ([src/lwip/cc_adapter.c])

    Sending a segment opens or refreshes its slot; an ACK or a SACK charges
    the bytes it delivers to the slots, each byte once, and takes a rate
    sample from the newest transmission among them. *)

From Stdlib Require Import ZArith Lia Bool List.
From stdpp Require Import base tactics numbers list.
From S2P Require Import Prelude StateMonad CC Observation Rack Prr Bbr3Evidence.
From S2P Require Import AdapterData AdapterDelivery AdapterPacing AdapterRecovery.
Local Open Scope Z_scope.

Section Rate.
Context {W : Type} `{!AdapterOS W} `{!LwipParams}.
Implicit Types (a : tcp_shift_lwip_cc_adapter) (slot : tcp_shift_delivery_slot).

(** ** Transmission *)

(** PRR's share of a transmission. *)
Definition prr_note_tx (payload_bytes : Z) : M (flow W) unit :=
  let! a := get_ad in
  when (pr_active (ad_prr a))
    (let '(rc, prr) := tcp_shift_prr_on_send (ad_prr a) payload_bytes in
     if (payload_bytes >? ad_prr_send_credit_bytes a) || negb (rc =? 0) then
       note_policy (fun s => s <| st_controller_errors := st_controller_errors s +w64 1 |>) ;;
       upd_ad (fun a => a <| ad_prr_send_credit_bytes := 0 |>)
     else
       upd_ad (fun a => a <| ad_prr := prr |>
                          <| ad_prr_send_credit_bytes :=
                               ad_prr_send_credit_bytes a -w32 payload_bytes |>) ;;
       let! a := get_ad in
       note_recovery (fun s => s
         <| st_prr_tx_events := st_prr_tx_events s +w64 1 |>
         <| st_prr_tx_bytes := st_prr_tx_bytes s +w64 payload_bytes |>
         <| st_prr_last_sndcnt_bytes := ad_prr_send_credit_bytes a |>)).

Definition note_tx_gap (now_ns : Z) : M (flow W) unit :=
  note (fun s =>
    let last := st_delivery_last_tx_ns (st_delivery s) in
    let s := if negb (last =? 0) && (now_ns >=? last) &&
                (now_ns -w64 last >? st_pacing_max_tx_gap_ns (st_pacing s))
             then s <| st_pacing := st_pacing s <| st_pacing_max_tx_gap_ns := now_ns -w64 last |> |>
             else s in
    s <| st_delivery := st_delivery s <| st_delivery_last_tx_ns := now_ns |> |>).

(** The delivery snapshot a transmission takes. *)
Definition slot_snapshot a (now_ns : Z) slot : tcp_shift_delivery_slot :=
  slot <| dv_tx_ns := now_ns |>
       <| dv_first_tx_mstamp_at_send_ns :=
            if negb (ad_rate_first_tx_mstamp_ns a =? 0) then ad_rate_first_tx_mstamp_ns a
            else now_ns |>
       <| dv_delivered_at_send := ad_delivered_bytes a |>
       <| dv_delivered_mstamp_at_send_ns :=
            if negb (ad_delivered_mstamp_ns a =? 0) then ad_delivered_mstamp_ns a else now_ns |>
       <| dv_app_limited := negb (ad_app_limited_until_bytes a =? 0) |>.

Definition slot_retransmit a (now_ns : Z) slot : tcp_shift_delivery_slot :=
  let outstanding := tcp_shift_delivery_outstanding_payload a in
  let own := u32 (dv_payload_bytes slot - dv_acked_payload_bytes slot) in
  let prior_inflight := if outstanding <? own then own else outstanding in
  let previous_tx_ns := dv_tx_ns slot in
  let slot := slot_snapshot a now_ns slot
                <| dv_prior_inflight_bytes := prior_inflight |> <| dv_rack_delivered := 0 |> in
  let slot := if now_ns >? previous_tx_ns then slot <| dv_rack_lost := false |> else slot in
  slot <| dv_retransmitted := true |>.

Definition slot_first_send a (pcb : tcp_pcb) (now_ns seq_start payload_bytes : Z) slot
    : tcp_shift_delivery_slot :=
  let prior_inflight := pb_snd_nxt pcb -w32 pb_lastack pcb in
  let prior_inflight := if UINT32_MAX -w32 prior_inflight <? payload_bytes then UINT32_MAX
                        else prior_inflight +w32 payload_bytes in
  slot_snapshot a now_ns slot
    <| dv_seq_start := seq_start |>
    <| dv_prior_inflight_bytes := prior_inflight |>
    <| dv_payload_bytes := payload_bytes |>.

(** The ledger's share of a transmission. *)
Definition delivery_note_tx (segment seq_start payload_bytes now_ns : Z) : M (flow W) unit :=
  let! a := get_ad in
  match tcp_shift_delivery_find a segment with
  | Some index =>
      let again := dv_retransmitted (slot_at a index) in
      upd_slot index (slot_retransmit a now_ns) ;;
      note_delivery (fun s =>
        let s := s <| st_delivery_retransmit_events := st_delivery_retransmit_events s +w64 1 |> in
        if again then s <| st_delivery_repeat_retransmit_events :=
                             st_delivery_repeat_retransmit_events s +w64 1 |>
        else s <| st_delivery_unique_retransmit_events :=
                    st_delivery_unique_retransmit_events s +w64 1 |>)
  | None =>
      let! room := tcp_shift_delivery_create segment in
      match room with
      | None => ret tt
      | Some index =>
          let! a := get_ad in
          let! pcb := get_pcb in
          upd_slot index (slot_first_send a pcb now_ns seq_start payload_bytes) ;;
          note_delivery (fun s => s <| st_delivery_first_tx_events :=
                                         st_delivery_first_tx_events s +w64 1 |>)
      end
  end.

Definition tcp_shift_lwip_cc_on_segment_tx (segment seq_start payload_bytes : Z)
    : M (flow W) unit :=
  let! a := get_ad in
  let! self_pcb := gets fw_ptr in
  if negb (serves a self_pcb) || (payload_bytes =? 0) then ret tt
  else
    let! now_ns := tcp_shift_delivery_now_ns in
    if now_ns =? 0 then ret tt
    else
      prr_note_tx payload_bytes ;;
      tcp_shift_pacing_note_tx payload_bytes now_ns ;;
      note_tx_gap now_ns ;;
      let! pcb := get_pcb in
      when (length (pb_unacked pcb) =? 0)%nat
        (upd_ad (fun a => a <| ad_rate_first_tx_mstamp_ns := now_ns |>
                            <| ad_delivered_mstamp_ns := now_ns |>)) ;;
      delivery_note_tx segment seq_start payload_bytes now_ns.

(** The BBRv3 loss observer: the code and the event, on a code of 1. *)
Definition slot_loss slot : tcp_shift_bbr3_rack_loss :=
  mk_rack_loss (dv_tx_ns slot) (dv_tx_ns slot) (dv_delivered_at_send slot) (dv_seq_start slot)
    (dv_prior_inflight_bytes slot) (u16 (dv_payload_bytes slot - dv_acked_payload_bytes slot))
    (dv_retransmitted slot) (dv_app_limited slot) false.

Definition tcp_shift_lwip_cc_bbr3_observe_rack_loss (segment now_ns : Z)
    (out : tcp_shift_bbr3_rack_loss) : M (flow W) (Z * tcp_shift_bbr3_rack_loss) :=
  let! a := get_ad in
  let! pcb := get_pcb in
  if negb (ad_bound a) || is_null (ad_pcb a) || negb (ad_sack_delivery_policy a) ||
     negb (pb_tf_sack pcb) || (now_ns =? 0)
  then ret (-1, out)
  else
    match tcp_shift_delivery_find a segment with
    | None => ret (0, out)
    | Some index =>
        let slot := slot_at a index in
        if dv_rack_lost slot || (dv_acked_payload_bytes slot >=? dv_payload_bytes slot)
        then ret (0, out)
        else if (dv_tx_ns slot =? 0) || (now_ns <? dv_tx_ns slot) then ret (-1, out)
        else
          let '(lost, rack, _) :=
            tcp_shift_rack_loss_remaining (ad_rack_tlp a) (tcp_shift_rack_slot_view slot) now_ns
              (tcp_shift_lwip_cc_hook_recovery_is_active (ad_hook a)) in
          upd_ad (fun a => a <| ad_rack_tlp := rack |>) ;;
          if lost =? 0 then ret (0, out)
          else
            upd_slot index (fun slot => slot <| dv_rack_lost := true |>) ;;
            ret (1, slot_loss slot)
    end.

Definition metadata_miss : M (flow W) unit :=
  note_delivery (fun s => s <| st_delivery_metadata_misses :=
                                 st_delivery_metadata_misses s +w64 1 |>).

Definition tcp_shift_lwip_cc_on_segment_acked (segment payload_bytes : Z) : M (flow W) unit :=
  let! a := get_ad in
  let! self_pcb := gets fw_ptr in
  if negb (serves a self_pcb) || (payload_bytes =? 0) then ret tt
  else
    note_delivery (fun s => s <| st_delivery_acked_segment_events :=
                                   st_delivery_acked_segment_events s +w64 1 |>) ;;
    match tcp_shift_delivery_find a segment with
    | None => metadata_miss
    | Some index =>
        let slot := slot_at a index in
        when (negb (dv_payload_bytes slot =? payload_bytes) ||
              negb (dv_acked_payload_bytes slot =? dv_payload_bytes slot)) metadata_miss ;;
        tcp_shift_delivery_release_slot index
    end.

(** ** Rate samples *)

Definition tcp_shift_rate_bytes_per_second (delivered_bytes interval_ns : Z) : Z :=
  if (delivered_bytes =? 0) || (interval_ns =? 0) then 0
  else (delivered_bytes *w64 1000000000) / interval_ns.

Definition zero_rate : tcp_shift_cc_rate_sample := mk_rate_sample 0 0 0 0 0 0 0 0 0 0.

Definition tcp_shift_rate_record_stats (rate : tcp_shift_cc_rate_sample) : M (flow W) unit :=
  let count (c : bool) (n : Z) := if c then n +w64 1 else n in
  note_rate (fun s =>
    let valid := has_flag rate TCP_SHIFT_CC_RATE_SAMPLE_VALID in
    let snapshot := negb (rs_delivered_total_bytes rate =? 0) in
    s <| st_rate_samples := st_rate_samples s +w64 1 |>
      <| st_rate_valid_samples := count valid (st_rate_valid_samples s) |>
      <| st_rate_invalid_samples := count (negb valid) (st_rate_invalid_samples s) |>
      <| st_rate_app_limited_samples :=
           count (has_flag rate TCP_SHIFT_CC_RATE_SAMPLE_APP_LIMITED)
             (st_rate_app_limited_samples s) |>
      <| st_rate_retransmitted_samples :=
           count (has_flag rate TCP_SHIFT_CC_RATE_SAMPLE_RETRANSMITTED)
             (st_rate_retransmitted_samples s) |>
      <| st_rate_snapshot_samples := count snapshot (st_rate_snapshot_samples s) |>
      <| st_rate_snapshot_errors :=
           count (snapshot && (rs_delivered_total_bytes rate <=? rs_prior_delivered_bytes rate))
             (st_rate_snapshot_errors s) |>
      <| st_rate_last_bytes_per_sec := rs_delivery_rate_bytes_per_sec rate |>
      <| st_rate_max_bytes_per_sec :=
           if rs_delivery_rate_bytes_per_sec rate >? st_rate_max_bytes_per_sec s
           then rs_delivery_rate_bytes_per_sec rate else st_rate_max_bytes_per_sec s |>
      <| st_rate_last_interval_ns := rs_interval_ns rate |>
      <| st_rate_last_send_interval_ns := rs_send_interval_ns rate |>
      <| st_rate_last_ack_interval_ns := rs_ack_interval_ns rate |>
      <| st_rate_last_rtt_ns := rs_rtt_ns rate |>
      <| st_rate_last_prior_delivered_bytes := rs_prior_delivered_bytes rate |>
      <| st_rate_last_delivered_total_bytes := rs_delivered_total_bytes rate |>
      <| st_rate_last_delivered_bytes := rs_delivered_bytes rate |>
      <| st_rate_last_prior_inflight_bytes := rs_prior_inflight_bytes rate |>
      <| st_rate_last_flags := rs_flags rate |>).

Definition tcp_shift_delivery_candidate_newer slot (candidate : option (nat * tcp_shift_delivery_slot))
    : bool :=
  match candidate with
  | None => true
  | Some (_, candidate) =>
      (dv_tx_ns slot >? dv_tx_ns candidate) ||
      ((dv_tx_ns slot =? dv_tx_ns candidate) && (s32 (slot_end slot - slot_end candidate) >? 0))
  end.

(** The sample of the newest transmission among the newly delivered. *)
Definition rate_sample_of (delivered_bytes now_ns : Z) (candidate : tcp_shift_delivery_slot)
    : tcp_shift_cc_rate_sample :=
  let delivered := clamp_u32 (delivered_bytes -w64 dv_delivered_at_send candidate) in
  let send_interval :=
    if dv_tx_ns candidate >=? dv_first_tx_mstamp_at_send_ns candidate
    then dv_tx_ns candidate -w64 dv_first_tx_mstamp_at_send_ns candidate else 0 in
  let ack_interval :=
    if now_ns >=? dv_delivered_mstamp_at_send_ns candidate
    then now_ns -w64 dv_delivered_mstamp_at_send_ns candidate else 0 in
  let interval := if send_interval >? ack_interval then send_interval else ack_interval in
  let flags := if dv_app_limited candidate then TCP_SHIFT_CC_RATE_SAMPLE_APP_LIMITED else 0 in
  let rtt_valid := negb (dv_retransmitted candidate) && negb (dv_tx_ns candidate =? 0) &&
                   (now_ns >=? dv_tx_ns candidate) in
  let rtt := if rtt_valid then now_ns -w64 dv_tx_ns candidate else 0 in
  let flags := if dv_retransmitted candidate
               then Z.lor flags TCP_SHIFT_CC_RATE_SAMPLE_RETRANSMITTED
               else if rtt_valid then Z.lor flags TCP_SHIFT_CC_RATE_SAMPLE_RTT_VALID else flags in
  let rate := tcp_shift_rate_bytes_per_second delivered interval in
  let flags := if negb (delivered =? 0) && negb (interval =? 0) && negb (rate =? 0)
               then Z.lor flags TCP_SHIFT_CC_RATE_SAMPLE_VALID else flags in
  mk_rate_sample rate interval send_interval ack_interval rtt (dv_delivered_at_send candidate)
    delivered_bytes delivered (dv_prior_inflight_bytes candidate) flags.

Definition tcp_shift_delivery_finalize_rate_sample (candidate : option nat)
    (delivered_added now_ns touched : Z) (partial : bool)
    : M (flow W) tcp_shift_cc_rate_sample :=
  if delivered_added =? 0 then ret zero_rate
  else
    note_rate (fun s =>
      let s := if partial then s <| st_rate_partial_ack_events :=
                                      st_rate_partial_ack_events s +w64 1 |> else s in
      if touched >? 1 then s <| st_rate_multi_segment_ack_events :=
                                  st_rate_multi_segment_ack_events s +w64 1 |> else s) ;;
    upd_ad (fun a => a <| ad_delivered_bytes := ad_delivered_bytes a +w64 delivered_added |>
                       <| ad_delivered_mstamp_ns := now_ns |>) ;;
    note_delivery (fun s => s
      <| st_delivery_payload_bytes := st_delivery_payload_bytes s +w64 delivered_added |>
      <| st_delivery_last_ack_ns := now_ns |>) ;;
    let! a := get_ad in
    when (negb (ad_app_limited_until_bytes a =? 0) &&
          (ad_delivered_bytes a >? ad_app_limited_until_bytes a))
      (upd_ad (fun a => a <| ad_app_limited_until_bytes := 0 |>) ;;
       note_delivery (fun s => s <| st_app_limited_exits := st_app_limited_exits s +w64 1 |>)) ;;
    let! a := get_ad in
    match candidate with
    | None => tcp_shift_rate_record_stats zero_rate ;; ret zero_rate
    | Some index =>
        let slot := slot_at a index in
        let rate := rate_sample_of (ad_delivered_bytes a) now_ns slot in
        upd_ad (fun a => a <| ad_rate_first_tx_mstamp_ns := dv_tx_ns slot |>) ;;
        tcp_shift_rate_record_stats rate ;;
        ret rate
    end.

(** The charging loop of an ACK or a SACK. *)
Record charge := mk_charge {
  ch_added : Z;
  ch_touched : Z;
  ch_partial : bool;
  ch_candidate : option (nat * tcp_shift_delivery_slot)
}.

(** [newly slot] is the acknowledged payload the slot is raised to, when that
    is more than it had. *)
Fixpoint charge_loop (newly : tcp_shift_delivery_slot -> option Z)
    (slots : list tcp_shift_delivery_slot) (index : nat) (c : charge)
    : list tcp_shift_delivery_slot * charge :=
  match slots with
  | [] => ([], c)
  | slot :: slots' =>
      match newly slot with
      | None =>
          let '(rest, c) := charge_loop newly slots' (S index) c in (slot :: rest, c)
      | Some acked =>
          let newly_acked := u16 (acked - dv_acked_payload_bytes slot) in
          let slot := slot <| dv_acked_payload_bytes := acked |> in
          let c := mk_charge (ch_added c +w64 newly_acked) (u16 (ch_touched c + 1))
                     (ch_partial c || (acked <? dv_payload_bytes slot))
                     (if tcp_shift_delivery_candidate_newer slot (ch_candidate c)
                      then Some (index, slot) else ch_candidate c) in
          let '(rest, c) := charge_loop newly slots' (S index) c in (slot :: rest, c)
      end
  end.

Definition charge_start : charge := mk_charge 0 0 false None.

(** The cumulative ACK. *)
Definition newly_acked_to (lastack : Z) slot : option Z :=
  if is_null (dv_segment slot) then None
  else
    let acked := tcp_shift_delivery_acked_payload slot lastack in
    if acked <=? dv_acked_payload_bytes slot then None else Some acked.

Definition tcp_shift_delivery_slot_in_sack_range slot (range : tcp_shift_lwip_sack_range) : bool :=
  if is_null (dv_segment slot) || (dv_payload_bytes slot =? 0) then false
  else (s32 (dv_seq_start slot - sk_left range) >=? 0) &&
       (s32 (sk_right range - slot_end slot) >=? 0).

(** The SACK ranges. *)
Definition newly_sacked_by (ranges : list tcp_shift_lwip_sack_range) slot : option Z :=
  if is_null (dv_segment slot) || (dv_acked_payload_bytes slot >=? dv_payload_bytes slot) then None
  else if existsb (tcp_shift_delivery_slot_in_sack_range slot) ranges
  then Some (dv_payload_bytes slot) else None.

(** Charge the slots, run RACK if asked, take the sample. *)
Definition build_sample (newly : tcp_shift_delivery_slot -> option Z) (process_rack : bool)
    : M (flow W) (Z * tcp_shift_cc_rate_sample) :=
  let! now_ns := tcp_shift_delivery_now_ns in
  if now_ns =? 0 then ret (0, zero_rate)
  else
    let! a := get_ad in
    let '(slots, c) := charge_loop newly (ad_delivery_slots a) 0 charge_start in
    upd_ad (fun a => a <| ad_delivery_slots := slots |>) ;;
    when process_rack (tcp_shift_rack_process_delivered_slots now_ns) ;;
    let! rate := tcp_shift_delivery_finalize_rate_sample (fst <$> ch_candidate c) (ch_added c)
                   now_ns (ch_touched c) (ch_partial c) in
    ret (clamp_u32 (ch_added c), rate).

Definition tcp_shift_delivery_build_rate_sample : M (flow W) (Z * tcp_shift_cc_rate_sample) :=
  let! pcb := get_pcb in build_sample (newly_acked_to (pb_lastack pcb)) true.

Definition tcp_shift_delivery_build_sack_rate_sample (ranges : list tcp_shift_lwip_sack_range)
    (process_rack : bool) : M (flow W) (Z * tcp_shift_cc_rate_sample) :=
  build_sample (newly_sacked_by ranges) process_rack.

End Rate.
