(* ===== verification/AdapterPolicy.v ===== *)
(** * The controllers behind an adapter
      ([src/lwip/cc_adapter.c], [src/lwip/cc_selector.c], [src/lwip/cc_bbr_internal.c])

    The five vtables an adapter's handle can hold, as vtables of the generic
    boundary whose state is the flow: raw Reno and CUBIC work on the adapter's
    union, the selector's wrappers on the adapter itself, BBR on its sidecar.
    Then the path from a controller's policy to the control block, and the
    TLP-loss callbacks of the three hook tables. *)

From Stdlib Require Import ZArith Lia Bool List String.
From stdpp Require Import base tactics numbers list.
From S2P Require Import Prelude StateMonad CC Observation Reno Cubic CubicController Registry.
From S2P Require Import TransportPacing BbrModel BbrProbe BbrController.
From S2P Require Import AdapterData AdapterDelivery AdapterPacing AdapterRecovery.
Local Open Scope Z_scope.

(** [sizeof(struct tcp_shift_lwip_cc_adapter)] and [sizeof(struct tcp_shift_lwip_bbr_binding)] *)
Abbreviation ADAPTER_SIZE := 536.
Abbreviation BBR_BINDING_SIZE := 304.

Section Policy.
Context {W : Type} `{!AdapterOS W}.
Local Abbreviation F := (flow W).
Implicit Types (transport : tcp_shift_cc_transport) (policy : tcp_shift_cc_policy).

(** A callback of the boundary, from a computation on the flow. *)
Definition as_callback (m : M F (Z * tcp_shift_cc_policy)) (s : F)
    : Z * F * tcp_shift_cc_policy :=
  let '((rc, policy), s) := m s in (rc, s, policy).

(** ** Raw controllers: the adapter's union *)

Definition on_builtin {S : Type} (view : tcp_shift_cc_builtin_state -> S)
    (store : S -> tcp_shift_cc_builtin_state) (f : S -> Z * S * tcp_shift_cc_policy)
    : M F (Z * tcp_shift_cc_policy) :=
  let! a := get_ad in
  let '(rc, state, policy) := f (view (ad_controller_state a)) in
  upd_ad (fun a => a <| ad_controller_state := store state |>) ;;
  ret (rc, policy).

Definition builtin_vtable {S : Type} (view : tcp_shift_cc_builtin_state -> S)
    (store : S -> tcp_shift_cc_builtin_state) (ops : tcp_shift_cc_ops S) : tcp_shift_cc_ops F := {|
  ops_name := ops_name ops;
  ops_state_size := ops_state_size ops;
  ops_init := (fun f s t i p => as_callback (on_builtin view store (fun st => f st t i p)) s)
                <$> ops_init ops;
  ops_on_ack := (fun f s t ack p => as_callback (on_builtin view store (fun st => f st t ack p)) s)
                  <$> ops_on_ack ops;
  ops_on_loss := (fun f s t loss p => as_callback (on_builtin view store (fun st => f st t loss p)) s)
                   <$> ops_on_loss ops;
  ops_on_ecn := (fun f s t p => as_callback (on_builtin view store (fun st => f st t p)) s)
                  <$> ops_on_ecn ops;
  ops_on_timeout := (fun f s t p => as_callback (on_builtin view store (fun st => f st t p)) s)
                      <$> ops_on_timeout ops
|}.

Definition reno_vtable : tcp_shift_cc_ops F :=
  builtin_vtable as_reno builtin_reno tcp_shift_reno_ops.
Definition cubic_vtable : tcp_shift_cc_ops F :=
  builtin_vtable as_cubic builtin_cubic tcp_shift_cubic_ops.

(** ** The selector's paced wrappers *)

Definition tcp_shift_cc_selector_is_loss_based_ops (ops : ptr cc_ops_ref) : bool :=
  bool_decide (ops = Some OpsReno) || bool_decide (ops = Some OpsCubic).

Definition tcp_shift_cc_selector_set_cubic_pacing (inner : ptr cc_ops_ref) (active : Z)
    : M F unit :=
  when (bool_decide (inner = Some OpsCubic))
    (upd_ad (fun a =>
       match tcp_shift_cubic_model_set_hystart_pacing
               (Some (as_cubic (ad_controller_state a))) active with
       | Some model => a <| ad_controller_state := builtin_cubic model |>
       | None => a
       end)).

(** Result: the code and [*policy]. *)
Definition tcp_shift_cc_selector_apply_transport_pacing (inner : ptr cc_ops_ref) transport policy
    : M F (Z * tcp_shift_cc_policy) :=
  if negb (tcp_shift_cc_selector_is_loss_based_ops inner) then ret (-1, policy)
  else
    let! a := get_ad in
    if (ad_pacing_flow_id a =? 0) || (ad_pacing_generation a =? 0) then
      tcp_shift_cc_selector_set_cubic_pacing inner 0 ;; ret (0, policy)
    else
      let '(result, paced) :=
        tcp_shift_transport_pacing_apply_window_fallback (Some transport)
          (smoothed_rtt_ns (ad_srtt a)) 0 (Some policy) in
      let policy := default policy paced in
      if negb (result =? 0) || (pol_pacing_rate_bytes_per_sec policy =? 0) then
        tcp_shift_cc_selector_set_cubic_pacing inner 0 ;; ret (-1, policy)
      else tcp_shift_cc_selector_set_cubic_pacing inner 1 ;; ret (0, policy).

(** The body the eight wrappers share: the raw callback, then the pacing. *)
Definition paced_callback (inner : cc_ops_ref)
    (raw : ptr (tcp_shift_cc_policy -> F -> Z * F * tcp_shift_cc_policy)) transport policy
    : M F (Z * tcp_shift_cc_policy) :=
  fun s =>
    match raw with
    | None => ((-1, policy), s)
    | Some f =>
        let '(result, s, policy) := f policy s in
        if negb (result =? 0) then ((result, policy), s)
        else tcp_shift_cc_selector_apply_transport_pacing (Some inner) transport policy s
    end.

Definition tcp_shift_cc_selector_paced_reno_ack s transport ack policy :=
  as_callback (paced_callback OpsReno
    ((fun f p s => f s transport ack p) <$> ops_on_ack reno_vtable) transport policy) s.
Definition tcp_shift_cc_selector_paced_reno_loss s transport loss policy :=
  as_callback (paced_callback OpsReno
    ((fun f p s => f s transport loss p) <$> ops_on_loss reno_vtable) transport policy) s.
Definition tcp_shift_cc_selector_paced_reno_ecn s transport policy :=
  as_callback (paced_callback OpsReno
    ((fun f p s => f s transport p) <$> ops_on_ecn reno_vtable) transport policy) s.
Definition tcp_shift_cc_selector_paced_reno_timeout s transport policy :=
  as_callback (paced_callback OpsReno
    ((fun f p s => f s transport p) <$> ops_on_timeout reno_vtable) transport policy) s.
Definition tcp_shift_cc_selector_paced_cubic_ack s transport ack policy :=
  as_callback (paced_callback OpsCubic
    ((fun f p s => f s transport ack p) <$> ops_on_ack cubic_vtable) transport policy) s.
Definition tcp_shift_cc_selector_paced_cubic_loss s transport loss policy :=
  as_callback (paced_callback OpsCubic
    ((fun f p s => f s transport loss p) <$> ops_on_loss cubic_vtable) transport policy) s.
Definition tcp_shift_cc_selector_paced_cubic_ecn s transport policy :=
  as_callback (paced_callback OpsCubic
    ((fun f p s => f s transport p) <$> ops_on_ecn cubic_vtable) transport policy) s.
Definition tcp_shift_cc_selector_paced_cubic_timeout s transport policy :=
  as_callback (paced_callback OpsCubic
    ((fun f p s => f s transport p) <$> ops_on_timeout cubic_vtable) transport policy) s.

Definition tcp_shift_cc_selector_paced_reno_ops : tcp_shift_cc_ops F := {|
  ops_name := Some (cc_ops_name OpsPacedReno);
  ops_state_size := ADAPTER_SIZE;
  ops_init := NULL;
  ops_on_ack := Some tcp_shift_cc_selector_paced_reno_ack;
  ops_on_loss := Some tcp_shift_cc_selector_paced_reno_loss;
  ops_on_ecn := Some tcp_shift_cc_selector_paced_reno_ecn;
  ops_on_timeout := Some tcp_shift_cc_selector_paced_reno_timeout
|}.

Definition tcp_shift_cc_selector_paced_cubic_ops : tcp_shift_cc_ops F := {|
  ops_name := Some (cc_ops_name OpsPacedCubic);
  ops_state_size := ADAPTER_SIZE;
  ops_init := NULL;
  ops_on_ack := Some tcp_shift_cc_selector_paced_cubic_ack;
  ops_on_loss := Some tcp_shift_cc_selector_paced_cubic_loss;
  ops_on_ecn := Some tcp_shift_cc_selector_paced_cubic_ecn;
  ops_on_timeout := Some tcp_shift_cc_selector_paced_cubic_timeout
|}.

(** ** The BBR sidecar *)

Definition upd_binding (f : tcp_shift_lwip_bbr_binding -> tcp_shift_lwip_bbr_binding) : M F unit :=
  upd_pcb (fun pcb => pcb <| pb_ext_bbr := f <$> pb_ext_bbr pcb |>).
Definition set_bbr_controller (c : tcp_shift_bbr_controller_state) : M F unit :=
  upd_binding (fun b => b <| bb_controller := c |>).

(** [binding->adapter != NULL], and [note] adds [adapter->stats != NULL]. *)
Definition binding_note (b : tcp_shift_lwip_bbr_binding) (m : M F unit) : M F unit :=
  when (negb (is_null (bb_adapter b))) m.

Definition tcp_shift_lwip_bbr_now_ns : M F Z :=
  let! now := call_os monotonic_clock in
  match now with
  | None => ret 0
  | Some (tv_sec, tv_nsec) => ret (u64 tv_sec *w64 1000000000 +w64 u64 tv_nsec)
  end.

Definition tcp_shift_lwip_bbr_note_recovery_cwnd (b : tcp_shift_lwip_bbr_binding) : M F unit :=
  let cwnd := ct_cwnd_bytes (bb_controller b) in
  binding_note b (note_bbr (fun s =>
    if negb (cwnd =? 0) &&
       ((st_bbr_recovery_min_cwnd_bytes s =? 0) || (cwnd <? st_bbr_recovery_min_cwnd_bytes s))
    then s <| st_bbr_recovery_min_cwnd_bytes := cwnd |> else s)).

Definition bbr_mode_code (mode : tcp_shift_bbr_mode) : Z :=
  match mode with
  | TCP_SHIFT_BBR_MODE_STARTUP => 0
  | TCP_SHIFT_BBR_MODE_DRAIN => 1
  | TCP_SHIFT_BBR_MODE_PROBE_BW => 2
  | TCP_SHIFT_BBR_MODE_PROBE_RTT => 3
  end.

Definition tcp_shift_lwip_bbr_record_stats (b : tcp_shift_lwip_bbr_binding) : M F unit :=
  let model := ct_model (bb_controller b) in
  binding_note b (note_bbr (fun s => s
    <| st_bbr_model_observations := st_bbr_model_observations s +w64 1 |>
    <| st_bbr_max_bw_bytes_per_sec := bm_max_bw_bytes_per_sec model |>
    <| st_bbr_min_rtt_ns := if bm_has_min_rtt model then bm_min_rtt_ns model else 0 |>
    <| st_bbr_full_bw_bytes_per_sec := bm_full_bw_bytes_per_sec model |>
    <| st_bbr_accepted_bw_samples := bm_accepted_bw_samples model |>
    <| st_bbr_ignored_app_limited_bw_samples := bm_ignored_app_limited_bw_samples model |>
    <| st_bbr_round_count := bm_round_count model |>
    <| st_bbr_full_bw_count := bm_full_bw_count model |>
    <| st_bbr_mode := bbr_mode_code (bm_mode model) |>
    <| st_bbr_cycle_index := pb_cycle_index (ct_probe (bb_controller b)) |>
    <| st_bbr_full_bw_reached := Z.b2z (bm_full_bw_reached model) |>
    <| st_bbr_recovery_in_progress := Z.b2z (rc_in_recovery (ct_recovery (bb_controller b))) |>)).

Definition tcp_shift_lwip_bbr_cwnd_limit : Z := UINT32_MAX.

(** Segments and bytes of a queue, saturating. *)
Definition tcp_shift_lwip_bbr_segment_list_stats (seg : list Z) : Z * Z :=
  fold_left (fun '(count, total) len =>
    (count +w32 1, if UINT32_MAX -w32 total <? len then UINT32_MAX else total +w32 len))
    seg (0, 0).

Definition tcp_shift_lwip_bbr_transport_from_pcb (pcb : tcp_pcb) : tcp_shift_cc_transport :=
  mk_transport (pb_mss pcb) (pb_snd_nxt pcb -w32 pb_lastack pcb) (pb_snd_wnd pcb)
    tcp_shift_lwip_bbr_cwnd_limit.

Definition policy_out_of_range policy (limit : Z) : bool :=
  (pol_cwnd_bytes policy =? 0) || (pol_ssthresh_bytes policy =? 0) ||
  (pol_cwnd_bytes policy >? limit) || (pol_ssthresh_bytes policy >? limit).

(** The stores of a policy that has been checked. *)
Definition publish_policy policy : M F unit :=
  upd_ad (fun a => a <| ad_pacing_rate_bytes_per_sec := pol_pacing_rate_bytes_per_sec policy |>) ;;
  upd_pcb (fun pcb => pcb <| pb_cwnd := u32 (pol_cwnd_bytes policy) |>
                          <| pb_ssthresh := u32 (pol_ssthresh_bytes policy) |>
                          <| pb_bytes_acked := 0 |>) ;;
  note_policy (fun s => s <| st_last_cwnd_bytes := pol_cwnd_bytes policy |>
                          <| st_last_ssthresh_bytes := pol_ssthresh_bytes policy |>) ;;
  note_pacing (fun s => s <| st_pacing_last_rate_bytes_per_sec :=
                               pol_pacing_rate_bytes_per_sec policy |>).

Definition tcp_shift_lwip_bbr_apply_policy policy : M F Z :=
  let! a := get_ad in
  if is_null (ad_pcb a) || policy_out_of_range policy tcp_shift_lwip_bbr_cwnd_limit ||
     (pol_pacing_rate_bytes_per_sec policy =? 0)
  then ret (-1)
  else publish_policy policy ;; ret 0.

Definition tcp_shift_lwip_bbr_init transport (init : tcp_shift_cc_init_cfg) policy
    : M F (Z * tcp_shift_cc_policy) :=
  let! pcb := get_pcb in
  match pb_ext_bbr pcb with
  | None => ret (-1, policy)
  | Some b =>
      let '(rc, c, policy) := tcp_shift_bbr_controller_init (bb_controller b) transport init
                                (bb_cycle_seed b) policy in
      set_bbr_controller c ;; ret (rc, policy)
  end.

Definition tcp_shift_lwip_bbr_on_ack transport (ack : tcp_shift_cc_ack) policy
    : M F (Z * tcp_shift_cc_policy) :=
  let! pcb := get_pcb in
  match pb_ext_bbr pcb with
  | None => ret (-1, policy)
  | Some b =>
      let '(result, c, policy) :=
        tcp_shift_bbr_controller_on_ack (bb_controller b) transport ack policy in
      set_bbr_controller c ;;
      let b := b <| bb_controller := c |> in
      when (result =? 0)
        (when (rc_in_recovery (ct_recovery c))
           (binding_note b
              (when (rc_packet_conservation (ct_recovery c))
                 (note_bbr (fun s => s <| st_bbr_recovery_packet_conservation_acks :=
                                            st_bbr_recovery_packet_conservation_acks s +w64 1 |>)) ;;
               tcp_shift_lwip_bbr_note_recovery_cwnd b)) ;;
         tcp_shift_lwip_bbr_record_stats b) ;;
      ret (result, policy)
  end.

(** The post-loss view of the transport. *)
Definition post_loss_transport transport (lost_bytes : Z) : tcp_shift_cc_transport :=
  mk_transport (tp_mss_bytes transport)
    (if lost_bytes >=? tp_inflight_bytes transport then 0
     else tp_inflight_bytes transport -w32 lost_bytes)
    (tp_send_window_bytes transport) (tp_cwnd_limit_bytes transport).

Definition tcp_shift_lwip_bbr_on_loss transport (loss : tcp_shift_cc_loss) policy
    : M F (Z * tcp_shift_cc_policy) :=
  let! pcb := get_pcb in
  match pb_ext_bbr pcb with
  | None => ret (-1, policy)
  | Some b =>
      if loss_lost_bytes loss =? 0 then ret (-1, policy)
      else
        let post_loss := post_loss_transport transport (loss_lost_bytes loss) in
        upd_binding (fun b => b <| bb_recovery_entry_acked_bytes := 0 |>) ;;
        let '(result, c, policy) :=
          tcp_shift_bbr_controller_recovery_enter (bb_controller b) post_loss
            (bb_recovery_entry_acked_bytes b) (loss_lost_bytes loss) policy in
        set_bbr_controller c ;;
        let b := b <| bb_controller := c |> in
        when (result =? 0)
          (let! now_ns := tcp_shift_lwip_bbr_now_ns in
           upd_binding (fun b => b <| bb_recovery_enter_ns := now_ns |>) ;;
           binding_note b (note_bbr (fun s => s
             <| st_bbr_recovery_enter_events := st_bbr_recovery_enter_events s +w64 1 |>
             <| st_bbr_recovery_last_enter_ns := now_ns |>
             <| st_bbr_recovery_last_enter_cwnd_bytes := ct_cwnd_bytes c |>
             <| st_bbr_recovery_last_enter_inflight_bytes := tp_inflight_bytes post_loss |>)) ;;
           tcp_shift_lwip_bbr_note_recovery_cwnd b ;;
           tcp_shift_lwip_bbr_record_stats b) ;;
        ret (result, policy)
  end.

(** The telemetry of a timeout. *)
Definition bbr_note_timeout (b : tcp_shift_lwip_bbr_binding) transport : M F unit :=
  let! a := get_ad in
  let! pcb := get_pcb in
  let c := bb_controller b in
  let '(unacked_segments, unacked_bytes) := tcp_shift_lwip_bbr_segment_list_stats (pb_unacked pcb) in
  let '(unsent_segments, unsent_bytes) := tcp_shift_lwip_bbr_segment_list_stats (pb_unsent pcb) in
  note_bbr_timeout (fun s => s
    <| st_bbr_timeout_observations := st_bbr_timeout_observations s +w64 1 |>
    <| st_bbr_timeout_last_max_bw_bytes_per_sec := bm_max_bw_bytes_per_sec (ct_model c) |>
    <| st_bbr_timeout_last_pacing_rate_bytes_per_sec := ct_pacing_rate_bytes_per_sec c |>
    <| st_bbr_timeout_last_cwnd_bytes := ct_cwnd_bytes c |>
    <| st_bbr_timeout_last_transport_inflight_bytes := tp_inflight_bytes transport |>
    <| st_bbr_timeout_last_round_count := bm_round_count (ct_model c) |>
    <| st_bbr_timeout_last_mode := bbr_mode_code (bm_mode (ct_model c)) |>
    <| st_bbr_timeout_last_cycle_index := pb_cycle_index (ct_probe c) |>
    <| st_bbr_timeout_last_recovery_in_progress := Z.b2z (rc_in_recovery (ct_recovery c)) |>
    <| st_bbr_timeout_last_packet_conservation := Z.b2z (rc_packet_conservation (ct_recovery c)) |>
    <| st_bbr_timeout_last_lastack := pb_lastack pcb |>
    <| st_bbr_timeout_last_snd_nxt := pb_snd_nxt pcb |>
    <| st_bbr_timeout_last_recovery_end_seq := hk_recovery_end_seq (ad_hook a) |>
    <| st_bbr_timeout_last_dupacks := pb_dupacks pcb |>
    <| st_bbr_timeout_last_nrtx := pb_nrtx pcb |>
    <| st_bbr_timeout_last_rtime := pb_rtime pcb |>
    <| st_bbr_timeout_last_rto := pb_rto pcb |>
    <| st_bbr_timeout_last_unacked_segments := unacked_segments |>
    <| st_bbr_timeout_last_unacked_bytes := unacked_bytes |>
    <| st_bbr_timeout_last_unsent_segments := unsent_segments |>
    <| st_bbr_timeout_last_unsent_bytes := unsent_bytes |>).

Definition tcp_shift_lwip_bbr_on_timeout transport policy : M F (Z * tcp_shift_cc_policy) :=
  let! a := get_ad in
  let! pcb := get_pcb in
  match pb_ext_bbr pcb with
  | None => ret (-1, policy)
  | Some b =>
      if is_null (bb_adapter b) || is_null (ad_pcb a) || negb (pb_tf_rto pcb) ||
         negb (length (pb_unacked pcb) =? 0)%nat
      then ret (-1, policy)
      else
        bbr_note_timeout b transport ;;
        let '(result, c, policy) :=
          tcp_shift_bbr_controller_on_timeout (bb_controller b) transport (mk_timeout_obs 0) policy in
        set_bbr_controller c ;;
        when (result =? 0) (tcp_shift_lwip_bbr_record_stats (b <| bb_controller := c |>)) ;;
        ret (result, policy)
  end.

Definition tcp_shift_lwip_internal_bbr_ops : tcp_shift_cc_ops F := {|
  ops_name := Some (cc_ops_name OpsBbr);
  ops_state_size := BBR_BINDING_SIZE;
  ops_init := Some (fun s t i p => as_callback (tcp_shift_lwip_bbr_init t i p) s);
  ops_on_ack := Some (fun s t ack p => as_callback (tcp_shift_lwip_bbr_on_ack t ack p) s);
  ops_on_loss := Some (fun s t loss p => as_callback (tcp_shift_lwip_bbr_on_loss t loss p) s);
  ops_on_ecn := NULL;
  ops_on_timeout := Some (fun s t p => as_callback (tcp_shift_lwip_bbr_on_timeout t p) s)
|}.

(** ** The handle *)

Definition cc_vtable (ops : cc_ops_ref) : tcp_shift_cc_ops F :=
  match ops with
  | OpsReno => reno_vtable
  | OpsCubic => cubic_vtable
  | OpsPacedReno => tcp_shift_cc_selector_paced_reno_ops
  | OpsPacedCubic => tcp_shift_cc_selector_paced_cubic_ops
  | OpsBbr => tcp_shift_lwip_internal_bbr_ops
  end.

(** [&adapter->controller]: the memory its state pointer names is the flow's. *)
Definition cc_handle (s : F) : tcp_shift_cc F :=
  mk_cc (cc_vtable <$> ad_ops (fw_ad s)) ((fun _ => s) <$> ad_state (fw_ad s)).

Definition handle_result (s : F) (r : Z * ptr (tcp_shift_cc F) * ptr tcp_shift_cc_policy)
    : (Z * tcp_shift_cc_policy) * F :=
  let '(rc, cc, policy) := r in
  ((rc, default (mk_policy 0 0 0) policy),
   match cc with Some c => default s (cc_state c) | None => s end).

(** The dispatch functions on [&adapter->controller] and a local policy. *)
Definition controller_on_ack transport (ack : tcp_shift_cc_ack) : M F (Z * tcp_shift_cc_policy) :=
  fun s => handle_result s (tcp_shift_cc_on_ack (Some (cc_handle s)) (Some transport) (Some ack)
                              (Some (mk_policy 0 0 0))).
Definition controller_on_loss transport (loss : tcp_shift_cc_loss) : M F (Z * tcp_shift_cc_policy) :=
  fun s => handle_result s (tcp_shift_cc_on_loss (Some (cc_handle s)) (Some transport) (Some loss)
                              (Some (mk_policy 0 0 0))).
Definition controller_on_ecn transport : M F (Z * tcp_shift_cc_policy) :=
  fun s => handle_result s (tcp_shift_cc_on_ecn (Some (cc_handle s)) (Some transport)
                              (Some (mk_policy 0 0 0))).
Definition controller_on_timeout transport : M F (Z * tcp_shift_cc_policy) :=
  fun s => handle_result s (tcp_shift_cc_on_timeout (Some (cc_handle s)) (Some transport)
                              (Some (mk_policy 0 0 0))).

(** ** From policy to control block *)

Definition tcp_shift_lwip_cc_apply_policy policy : M F Z :=
  let! a := get_ad in
  if is_null (ad_pcb a) || policy_out_of_range policy tcp_shift_lwip_cc_cwnd_limit then ret (-1)
  else
    when ((pol_pacing_rate_bytes_per_sec policy =? 0) &&
          negb (ad_pacing_rate_bytes_per_sec a =? 0))
      (tcp_shift_pacing_cancel ;;
       upd_ad (fun a => a <| ad_pacing_next_send_ns := 0 |>)) ;;
    publish_policy policy ;; ret 0.

Definition tcp_shift_lwip_cc_disable_on_error : M F unit :=
  note_policy (fun s => s <| st_controller_errors := st_controller_errors s +w64 1 |>) ;;
  tcp_shift_pacing_cancel ;;
  pacing_off ;;
  upd_ad (fun a => a <| ad_bound := false |>).

(** [dispatch(...) != 0 || apply_policy(...) < 0]: the policy of a dispatch
    that was applied, or [None] with the adapter disabled. *)
Definition apply_or_disable (dispatch : M F (Z * tcp_shift_cc_policy))
    : M F (option tcp_shift_cc_policy) :=
  let! r := dispatch in
  let '(rc, policy) := r in
  let! applied := if rc =? 0 then tcp_shift_lwip_cc_apply_policy policy else ret (-1) in
  if (rc =? 0) && (applied >=? 0) then ret (Some policy)
  else tcp_shift_lwip_cc_disable_on_error ;; ret None.

Definition flow_transport : M F tcp_shift_cc_transport :=
  fun s => (tcp_shift_lwip_cc_transport_from_adapter (fw_ad s) (fw_pcb s), s).

Definition count_loss : M F unit :=
  note_policy (fun s => s <| st_loss_events := st_loss_events s +w64 1 |>
                          <| st_policy_updates := st_policy_updates s +w64 1 |>).

(** ** TLP losses *)

Definition tcp_shift_lwip_cc_on_tlp_loss (lost_bytes : Z) : M F Z :=
  let! ok := live in
  if negb ok || (lost_bytes =? 0) then ret 0
  else
    let! transport := flow_transport in
    let! applied := apply_or_disable (controller_on_loss transport (mk_loss lost_bytes)) in
    match applied with
    | None => ret 0
    | Some _ => count_loss ;; ret 1
    end.

Definition tcp_shift_lwip_bbr_binding_from_adapter : M F (option tcp_shift_lwip_bbr_binding) :=
  let! ok := live in
  let! a := get_ad in
  let! pcb := get_pcb in
  ret (if ok && bool_decide (ad_ops a = Some OpsBbr) && bool_decide (ad_state a = Some StateBbr)
       then pb_ext_bbr pcb else None).

Definition tcp_shift_lwip_bbr_hook_tlp_loss (lost_bytes : Z) : M F Z :=
  let! binding := tcp_shift_lwip_bbr_binding_from_adapter in
  match binding with
  | None => ret 0
  | Some b =>
      if lost_bytes =? 0 then ret 0
      else
        let '(rc, c) := tcp_shift_bbr_controller_note_loss (bb_controller b) lost_bytes in
        set_bbr_controller c ;;
        if negb (rc =? 0) then ret 0
        else
          note_policy (fun s => s <| st_loss_events := st_loss_events s +w64 1 |>) ;;
          tcp_shift_lwip_bbr_record_stats (b <| bb_controller := c |>) ;;
          ret 1
  end.

(** The selector forwards to the table it found; that is the adapter's. *)
Definition tcp_shift_cc_selector_pacing_on_tlp_loss (lost_bytes : Z) : M F Z :=
  let! g := get_gl in
  match gl_selector_base_hook_ops g with
  | Some HookAdapter => tcp_shift_lwip_cc_on_tlp_loss lost_bytes
  | _ => ret 0
  end.

(** The control block's hook: extension argument 0, when it is this flow's. *)
Definition tcp_shift_lwip_cc_hook_get : M F (ptr tcp_shift_lwip_cc_hook) :=
  fun s => (if bool_decide (pb_ext_cc (fw_pcb s) = Some (ExtHook (fw_self s)))
            then Some (ad_hook (fw_ad s)) else NULL, s).

Definition tcp_shift_lwip_cc_hook_tlp_loss (lost_bytes : Z) : M F bool :=
  let! hook := tcp_shift_lwip_cc_hook_get in
  match hook with
  | None => ret false
  | Some h =>
      if lost_bytes =? 0 then ret false
      else
        let! rc := match hk_ops h with
                   | None => ret 0
                   | Some HookAdapter => tcp_shift_lwip_cc_on_tlp_loss lost_bytes
                   | Some HookSelector => tcp_shift_cc_selector_pacing_on_tlp_loss lost_bytes
                   | Some HookBbr => tcp_shift_lwip_bbr_hook_tlp_loss lost_bytes
                   end in
        ret (negb (rc =? 0))
  end.

End Policy.
