(* ===== verification/Adapter.v ===== *)
(** * The adapter's callbacks ([src/lwip/cc_adapter.c])

    The functions of the adapter's hook table that drive the controller:
    ACKs, SACKs, losses, ECN marks, recovery exits and timeouts. Each returns
    non-zero when it handled the event; lwIP falls back to its native response
    otherwise. A failing controller disables the adapter. *)

From Stdlib Require Import ZArith Lia Bool List.
From stdpp Require Import base tactics numbers list.
From S2P Require Import Prelude StateMonad CC Observation Rack Prr.
From S2P Require Import AdapterData AdapterDelivery AdapterPacing AdapterRecovery AdapterRate AdapterPolicy.
Local Open Scope Z_scope.

Section Callbacks.
Context {W : Type} `{!AdapterOS W} `{!LwipParams}.
Local Abbreviation F := (flow W).

Definition upd_rack (f : tcp_shift_rack_tlp_state -> tcp_shift_rack_tlp_state) : M F unit :=
  upd_ad (fun a => a <| ad_rack_tlp := f (ad_rack_tlp a) |>).

(** Refresh [segs_sacked] from the ledger. *)
Definition refresh_sacked : M F unit :=
  let! pcb := get_pcb in
  upd_ad (fun a => a <| ad_rack_tlp :=
    tcp_shift_rack_note_sacked_segments (ad_rack_tlp a)
      (tcp_shift_rack_count_sacked_slots a pcb) |>).

Definition refresh_rtt_estimates : M F unit :=
  upd_ad (fun a => a <| ad_rack_tlp :=
    tcp_shift_rack_set_rtt_estimates (ad_rack_tlp a) (rk_min_rtt_ns (ad_rack_tlp a))
      (smoothed_rtt_ns (ad_srtt a)) |>).

(** Feed the smoothed RTT from a sample that has one; [false] disables. *)
Definition update_srtt (rate : tcp_shift_cc_rate_sample) : M F bool :=
  if has_flag rate TCP_SHIFT_CC_RATE_SAMPLE_RTT_VALID && negb (rs_rtt_ns rate =? 0) then
    let! a := get_ad in
    let '(rc, srtt) := tcp_shift_cc_srtt_update (Some (ad_srtt a)) (rs_rtt_ns rate) in
    if negb (rc =? 0) then tcp_shift_lwip_cc_disable_on_error ;; ret false
    else
      upd_ad (fun a => a <| ad_srtt := default (ad_srtt a) srtt |>) ;;
      note_policy (fun s => s <| st_srtt_updates := st_srtt_updates s +w64 1 |>) ;;
      upd_rack tcp_shift_tlp_note_rtt_sample ;;
      ret true
  else ret true.

(** The TLP episode ends, or its loss is reported: [false] disables. *)
Definition tlp_on_ack : M F bool :=
  let! a := get_ad in
  let! pcb := get_pcb in
  let '(result, rack) := tcp_shift_tlp_process_ack (ad_rack_tlp a) (pb_lastack pcb) false false in
  upd_ad (fun a => a <| ad_rack_tlp := rack |>) ;;
  match result with
  | TCP_SHIFT_TLP_ACK_LOSS_REPAIRED =>
      let! handled := tcp_shift_lwip_cc_hook_tlp_loss (pb_mss pcb) in
      if negb handled then tcp_shift_lwip_cc_disable_on_error ;; ret false else ret true
  | _ => ret true
  end.

(** The ACK the controller is to see, or [None] for a return of 0. *)
Definition tcp_shift_lwip_cc_prepare_ack (acked_bytes : Z) : M F (option tcp_shift_cc_ack) :=
  let! ok := live in
  if negb ok || (acked_bytes =? 0) then ret None
  else
    let! sample := tcp_shift_delivery_build_rate_sample in
    let '(newly_delivered, rate) := sample in
    tcp_shift_lwip_cc_prr_note_delivery ;;
    let! a := get_ad in
    let ack_time_ns := ad_delivery_last_clock_read_ns a in
    refresh_sacked ;;
    let acked := if ad_sack_delivery_policy a then newly_delivered else acked_bytes in
    let! ok := update_srtt rate in
    if negb ok then ret None
    else
      let! a := get_ad in
      let srtt := smoothed_rtt_ns (ad_srtt a) in
      let! ok := tlp_on_ack in
      if negb ok then ret None
      else
        refresh_rtt_estimates ;;
        tcp_shift_rack_arm_detection_timer ack_time_ns ;;
        tcp_shift_tlp_arm_pto ack_time_ns ;;
        note_policy (fun s =>
          let s := if negb (ack_time_ns =? 0)
                   then s <| st_ack_observation_events := st_ack_observation_events s +w64 1 |>
                   else s in
          s <| st_ack_last_time_ns := ack_time_ns |> <| st_ack_last_smoothed_rtt_ns := srtt |>) ;;
        ret (Some (mk_ack acked ack_time_ns srtt rate)).

Definition tcp_shift_lwip_cc_on_ack_observe (acked_bytes : Z) : M F Z :=
  let! ack := tcp_shift_lwip_cc_prepare_ack acked_bytes in
  match ack with
  | None => ret 0
  | Some _ =>
      let! a := get_ad in
      let! g := get_gl in
      if pr_active (ad_prr a) then
        let safe_ack := ad_stats a && (st_loss_events (st_policy (gl_stats g)) =?
                                         ad_prr_ack_loss_events_before a) in
        let! result := tcp_shift_lwip_cc_prr_apply_ack (ad_prr_trigger_delivered_bytes a) safe_ack in
        if result <? 0 then tcp_shift_lwip_cc_disable_on_error ;; ret 0 else ret 1
      else ret 1
  end.

(** The controller's share of an ACK. *)
Definition controller_ack (ack : tcp_shift_cc_ack) : M F Z :=
  let! transport := flow_transport in
  let! applied := apply_or_disable (controller_on_ack transport ack) in
  match applied with
  | None => ret 0
  | Some _ =>
      note_policy (fun s => s <| st_ack_events := st_ack_events s +w64 1 |>
                              <| st_policy_updates := st_policy_updates s +w64 1 |>) ;;
      ret 1
  end.

Definition tcp_shift_lwip_cc_on_ack (acked_bytes : Z) : M F Z :=
  let! ack := tcp_shift_lwip_cc_prepare_ack acked_bytes in
  match ack with
  | None => ret 0
  | Some ack =>
      let! a := get_ad in
      if ad_sack_delivery_policy a && (ack_acked_bytes ack =? 0) then ret 1
      else controller_ack ack
  end.

(** A D-SACK that acknowledges the retransmitted probe ends its episode. *)
Definition sack_ends_probe (a : tcp_shift_lwip_cc_adapter) (ack_seq : Z)
    (ranges : list tcp_shift_lwip_sack_range) : bool :=
  let rack := ad_rack_tlp a in
  rk_tlp_is_retrans rack && negb (rk_tlp_end_seq rack =? 0) &&
  existsb (fun r => (sk_left r =? rk_tlp_start_seq rack) && (sk_right r =? rk_tlp_end_seq rack) &&
                    (s32 (ack_seq - sk_right r) >=? 0)) ranges.

Definition note_dsack (ack_seq : Z) (ranges : list tcp_shift_lwip_sack_range) : M F unit :=
  when (tcp_shift_rack_sack_is_dsack ack_seq ranges)
    (let! pcb := get_pcb in
     upd_rack (fun rack => tcp_shift_rack_note_dsack rack (pb_snd_nxt pcb)) ;;
     note_recovery (fun s => s <| st_rack_dsack_events := st_rack_dsack_events s +w64 1 |>) ;;
     tcp_shift_rack_record_stats).

(** The deliveries of a SACK: what it newly delivered, and its sample. *)
Definition sack_deliver (ack_seq : Z) (ranges : list tcp_shift_lwip_sack_range)
    (defer_rack : bool) : M F (Z * tcp_shift_cc_rate_sample) :=
  let! sample := tcp_shift_delivery_build_sack_rate_sample ranges (negb defer_rack) in
  let! a := get_ad in
  when (sack_ends_probe a ack_seq ranges)
    (upd_rack (fun rack => (tcp_shift_tlp_process_ack rack ack_seq true false).2)) ;;
  refresh_sacked ;;
  note_delivery (fun s => s
    <| st_delivery_sack_events := st_delivery_sack_events s +w64 1 |>
    <| st_delivery_sack_payload_bytes := st_delivery_sack_payload_bytes s +w64 sample.1 |>) ;;
  tcp_shift_lwip_cc_prr_note_delivery ;;
  ret sample.

Definition tcp_shift_lwip_cc_on_sack (ack_seq : Z) (ranges : list tcp_shift_lwip_sack_range)
    : M F Z :=
  let! ok := live in
  if negb ok || (length ranges =? 0)%nat then ret 0
  else
    note_dsack ack_seq ranges ;;
    let! pcb := get_pcb in
    let defer_rack := (s32 (ack_seq - pb_lastack pcb) >? 0) &&
                      (s32 (pb_snd_nxt pcb - ack_seq) >=? 0) in
    let! sample := sack_deliver ack_seq ranges defer_rack in
    let '(newly_delivered, rate) := sample in
    if newly_delivered =? 0 then ret 1
    else
      let! a := get_ad in
      let ack_time_ns := ad_delivery_last_clock_read_ns a in
      let! ok := update_srtt rate in
      if negb ok then ret 0
      else
        let! a := get_ad in
        let srtt := smoothed_rtt_ns (ad_srtt a) in
        refresh_rtt_estimates ;;
        when (negb defer_rack)
          (tcp_shift_rack_arm_detection_timer ack_time_ns ;; tcp_shift_tlp_arm_pto ack_time_ns) ;;
        note_policy (fun s => s
          <| st_ack_observation_events := st_ack_observation_events s +w64 1 |>
          <| st_ack_last_time_ns := ack_time_ns |> <| st_ack_last_smoothed_rtt_ns := srtt |>) ;;
        let! a := get_ad in
        let! prr_result :=
          if pr_active (ad_prr a) && negb defer_rack
          then tcp_shift_lwip_cc_prr_apply_ack (ad_prr_trigger_delivered_bytes a) false
          else ret 0 in
        if prr_result <? 0 then tcp_shift_lwip_cc_disable_on_error ;; ret 0
        else if negb (ad_sack_delivery_policy a) then ret 1
        else controller_ack (mk_ack newly_delivered ack_time_ns srtt rate).

Definition tcp_shift_lwip_cc_on_tlp_dupack (sack_seen : bool) : M F unit :=
  let! ok := live in
  if negb ok || sack_seen then ret tt
  else
    let! pcb := get_pcb in
    upd_rack (fun rack => (tcp_shift_tlp_process_ack rack (pb_lastack pcb) false true).2).

(** The loss response shared by the two loss callbacks. *)
Definition controller_loss (lost_bytes : Z) (enter_prr : M F unit) : M F Z :=
  let! transport := flow_transport in
  let! applied := apply_or_disable (controller_on_loss transport (mk_loss lost_bytes)) in
  match applied with
  | None => ret 0
  | Some _ => enter_prr ;; count_loss ;; ret 1
  end.

Definition prr_enter : M F unit := let! _ := tcp_shift_lwip_cc_prr_begin in ret tt.

Definition tcp_shift_lwip_cc_on_rack_retrans_loss (lost_bytes : Z) : M F Z :=
  let! ok := live in
  if negb ok || (lost_bytes =? 0) then ret 0
  else controller_loss lost_bytes
         (let! a := get_ad in when (pr_active (ad_prr a)) prr_enter).

Definition tcp_shift_lwip_cc_on_loss (lost_bytes : Z) : M F Z :=
  let! ok := live in
  if negb ok || (lost_bytes =? 0) then ret 0
  else
    upd_rack tcp_shift_tlp_reset ;;
    let! a := get_ad in
    when (tlp_timer_armed a) tcp_shift_recovery_timer_cancel ;;
    controller_loss lost_bytes prr_enter.

Definition tcp_shift_lwip_cc_on_ecn : M F Z :=
  let! ok := live in
  if negb ok then ret 0
  else
    let! transport := flow_transport in
    let! applied := apply_or_disable (controller_on_ecn transport) in
    match applied with
    | None => ret 0
    | Some policy =>
        note_policy (fun s =>
          let s := s <| st_ecn_events := st_ecn_events s +w64 1 |> in
          let s := if (st_ecn_min_cwnd_bytes s =? 0) ||
                      (pol_cwnd_bytes policy <? st_ecn_min_cwnd_bytes s)
                   then s <| st_ecn_min_cwnd_bytes := pol_cwnd_bytes policy |> else s in
          s <| st_policy_updates := st_policy_updates s +w64 1 |>) ;;
        ret 1
    end.

Definition tcp_shift_lwip_cc_on_ecn_rto_gate (entering : bool) : M F unit :=
  let! ok := live in
  if negb ok then ret tt
  else note_policy (fun s =>
    if entering then s <| st_ecn_rto_wait_enters := st_ecn_rto_wait_enters s +w64 1 |>
    else s <| st_ecn_rto_wait_releases := st_ecn_rto_wait_releases s +w64 1 |>).

(** The end of an active PRR episode whose window is [cwnd]. *)
Definition prr_finish (cwnd : Z) : M F unit :=
  upd_ad (fun a => a <| ad_prr_send_credit_bytes := 0 |>
                     <| ad_prr_recover_fs_hint_valid := false |>) ;;
  note_recovery (fun s => s <| st_prr_recovery_exits := st_prr_recovery_exits s +w64 1 |>) ;;
  note_policy (fun s => s <| st_last_cwnd_bytes := cwnd |>).

Definition tcp_shift_lwip_cc_on_recovery_exit (ack_seq : Z) : M F Z :=
  let! ok := live in
  if negb ok then ret 0
  else
    let! a := get_ad in
    let '(rc, prr, cwnd) := tcp_shift_prr_complete (ad_prr a) 0 in
    if pr_active (ad_prr a) && (negb (rc =? 0) || (cwnd =? 0) || (cwnd >? tcp_shift_lwip_cc_cwnd_limit))
    then upd_ad (fun a => a <| ad_prr := prr |>) ;; tcp_shift_lwip_cc_disable_on_error ;; ret 0
    else
      when (pr_active (ad_prr a))
        (upd_ad (fun a => a <| ad_prr := prr |>) ;;
         upd_pcb (fun pcb => pcb <| pb_cwnd := u32 cwnd |> <| pb_bytes_acked := 0 |>) ;;
         prr_finish cwnd) ;;
      upd_rack (fun rack => tcp_shift_rack_note_recovery_exit rack ack_seq) ;;
      tcp_shift_rack_record_stats ;;
      ret (Z.b2z (pr_active (ad_prr a))).

Definition tcp_shift_lwip_cc_on_timeout : M F Z :=
  let! ok := live in
  if negb ok then ret 0
  else
    upd_rack tcp_shift_tlp_reset ;;
    tcp_shift_recovery_timer_cancel ;;
    tcp_shift_lwip_cc_prr_reset_live ;;
    let! transport := flow_transport in
    let! applied := apply_or_disable (controller_on_timeout transport) in
    match applied with
    | None => ret 0
    | Some _ =>
        note_policy (fun s => s <| st_timeout_events := st_timeout_events s +w64 1 |>
                                <| st_policy_updates := st_policy_updates s +w64 1 |>) ;;
        ret 1
    end.

(** Called by the bridge when it has nothing more to write. *)
Definition tcp_shift_lwip_cc_mark_app_limited : M F unit :=
  let! hook := tcp_shift_lwip_cc_hook_get in
  match hook with
  | None => ret tt
  | Some _ =>
      let! ok := live in
      let! a := get_ad in
      let! pcb := get_pcb in
      if negb ok || negb (ad_app_limited_until_bytes a =? 0) ||
         negb (length (pb_unsent pcb) =? 0)%nat || (pb_snd_buf pcb =? 0)
      then ret tt
      else
        let inflight := pb_snd_nxt pcb -w32 pb_lastack pcb in
        let effective_window := if pb_cwnd pcb <? pb_snd_wnd pcb then pb_cwnd pcb
                                else pb_snd_wnd pcb in
        if (effective_window =? 0) || (inflight >=? effective_window) then ret tt
        else
          let marker := ad_delivered_bytes a +w64 tcp_shift_delivery_outstanding_payload a in
          let marker := if marker =? 0 then 1 else marker in
          upd_ad (fun a => a <| ad_app_limited_until_bytes := marker |>) ;;
          note_delivery (fun s => s <| st_app_limited_enters := st_app_limited_enters s +w64 1 |>) ;;
          let! now_ns := tcp_shift_delivery_now_ns in
          when (negb (now_ns =? 0)) (tcp_shift_tlp_arm_pto now_ns)
  end.

End Callbacks.
