(* ===== verification/Selector.v ===== *)
(** * The controller selector ([src/lwip/cc_selector.c])

    Chooses Reno or CUBIC for accepted connections and paces them. While one
    of its policy callbacks runs, the adapter's handle holds a wrapper vtable
    that adds a pacing rate to the raw controller's policy; the raw handle is
    back when the callback returns. *)

From Stdlib Require Import ZArith Lia Bool List String.
From stdpp Require Import base tactics numbers list.
From S2P Require Import Prelude StateMonad CC Registry.
From S2P Require Import AdapterData AdapterDelivery AdapterPacing AdapterRecovery AdapterRate.
From S2P Require Import AdapterPolicy Adapter.
Local Open Scope Z_scope.

Abbreviation TCP_SHIFT_CC_SELECTOR_MAX_LISTENERS := 2.

(** ** Configuration *)

Definition tcp_shift_cc_selector_cwnd_limit : Z := UINT32_MAX.

(** The registry's lookup, by the name of the vtable it returns. *)
Definition registry_find (name : string) : ptr cc_ops_ref :=
  if tcp_shift_cc_name_equal (Some name) (Some (cc_ops_name OpsReno)) then Some OpsReno
  else if tcp_shift_cc_name_equal (Some name) (Some (cc_ops_name OpsCubic)) then Some OpsCubic
  else NULL.
Definition registry_default : ptr cc_ops_ref := Some OpsReno.

Definition tcp_shift_cc_selector_current (g : cc_globals) : ptr cc_ops_ref :=
  match gl_selector_ops g with Some ops => Some ops | None => registry_default end.

(** The table scans of the listener modules. *)
Fixpoint listener_index (p : listener_binding -> bool) (table : list listener_binding)
    : option nat :=
  match table with
  | [] => None
  | b :: table' => if p b then Some 0%nat else S <$> listener_index p table'
  end.
Definition listener_is (listener : Z) (b : listener_binding) : bool :=
  ln_used b && bool_decide (ln_listener b = Some listener).

Definition tcp_shift_cc_selector_find (g : cc_globals) (listener : Z) : option nat :=
  listener_index (listener_is listener) (gl_selector_bindings g).
Definition tcp_shift_cc_selector_alloc (g : cc_globals) : option nat :=
  listener_index (fun b => negb (ln_used b)) (gl_selector_bindings g).
Definition tcp_shift_cc_selector_has_listener (g : cc_globals) : bool :=
  existsb ln_used (gl_selector_bindings g).

(** [ecn]: an ECN-capable build, which refuses BBR. *)
Definition tcp_shift_lwip_cc_configure_controller (ecn : bool) (g : cc_globals)
    (name : ptr string) : Z * cc_globals :=
  if tcp_shift_cc_selector_has_listener g then (-1, g)
  else if bool_decide (name = Some "bbr"%string) then
    if ecn then (-1, g <| gl_selector_internal_bbr := false |>)
    else
      let g := g <| gl_selector_ops := registry_default |> <| gl_selector_internal_bbr := true |> in
      (if is_null (gl_selector_ops g) then -1 else 0, g)
  else
    let ops := match name with
               | None => registry_default
               | Some EmptyString => registry_default
               | Some name => registry_find name
               end in
    match ops with
    | None => (-1, g)
    | Some _ => (0, g <| gl_selector_ops := ops |> <| gl_selector_internal_bbr := false |>)
    end.

Definition tcp_shift_lwip_cc_configured_controller_name (g : cc_globals) : ptr string :=
  if gl_selector_internal_bbr g then Some "bbr"%string
  else cc_ops_name <$> tcp_shift_cc_selector_current g.

(** ** Callbacks with the paced handle *)

Section Selector.
Context {W : Type} `{!AdapterOS W} `{!LwipParams}.
Local Abbreviation F := (flow W).

Definition tcp_shift_cc_selector_wrapper_for (inner : cc_ops_ref) : ptr cc_ops_ref :=
  match inner with
  | OpsReno => Some OpsPacedReno
  | OpsCubic => Some OpsPacedCubic
  | _ => NULL
  end.

(** The base table: once a flow has been attached, the adapter's. *)
Definition with_base (m : M F Z) : M F Z :=
  let! g := get_gl in
  match gl_selector_base_hook_ops g with
  | Some HookAdapter => m
  | _ => ret 0
  end.

(** Run a callback of the base table with the wrapper in the handle. *)
Definition with_paced_handle (m : M F Z) : M F Z :=
  let! a := get_ad in
  match ad_ops a with
  | Some inner =>
      if negb (tcp_shift_cc_selector_is_loss_based_ops (Some inner)) then m
      else
        match tcp_shift_cc_selector_wrapper_for inner with
        | None => m
        | Some wrapper =>
            let inner_state := ad_state a in
            upd_ad (fun a => a <| ad_ops := Some wrapper |> <| ad_state := Some StateAdapter |>) ;;
            let! result := m in
            upd_ad (fun a => a <| ad_ops := Some inner |> <| ad_state := inner_state |>) ;;
            ret result
        end
  | None => m
  end.

Definition tcp_shift_cc_selector_call_paced_ack (acked_bytes : Z) : M F Z :=
  with_base (with_paced_handle (tcp_shift_lwip_cc_on_ack acked_bytes)).
Definition tcp_shift_cc_selector_call_paced_loss (lost_bytes : Z) : M F Z :=
  with_base (with_paced_handle (tcp_shift_lwip_cc_on_loss lost_bytes)).
Definition tcp_shift_cc_selector_call_paced_rack_retrans_loss (lost_bytes : Z) : M F Z :=
  with_base (with_paced_handle (tcp_shift_lwip_cc_on_rack_retrans_loss lost_bytes)).
Definition tcp_shift_cc_selector_call_paced_ecn : M F Z :=
  with_base (with_paced_handle tcp_shift_lwip_cc_on_ecn).
Definition tcp_shift_cc_selector_call_paced_timeout : M F Z :=
  with_base (with_paced_handle tcp_shift_lwip_cc_on_timeout).

(** ** The selector's hook table *)

(** A forwarded callback without a result. *)
Definition with_base_unit (m : M F unit) : M F unit :=
  let! g := get_gl in
  match gl_selector_base_hook_ops g with
  | Some HookAdapter => m
  | _ => ret tt
  end.

Definition tcp_shift_cc_selector_pacing_on_ack (acked_bytes : Z) : M F Z :=
  tcp_shift_cc_selector_call_paced_ack acked_bytes.
Definition tcp_shift_cc_selector_pacing_on_ack_begin : M F unit :=
  with_base_unit tcp_shift_lwip_cc_prr_ack_begin.
Definition tcp_shift_cc_selector_pacing_on_ack_observe (acked_bytes : Z) : M F Z :=
  with_base (tcp_shift_lwip_cc_on_ack_observe acked_bytes).
Definition tcp_shift_cc_selector_pacing_on_sack (ack_seq : Z)
    (ranges : list tcp_shift_lwip_sack_range) : M F Z :=
  with_base (tcp_shift_lwip_cc_on_sack ack_seq ranges).
Definition tcp_shift_cc_selector_pacing_on_loss (lost_bytes : Z) : M F Z :=
  tcp_shift_cc_selector_call_paced_loss lost_bytes.
Definition tcp_shift_cc_selector_pacing_on_ecn : M F Z := tcp_shift_cc_selector_call_paced_ecn.
Definition tcp_shift_cc_selector_pacing_on_ecn_rto_gate (entering : bool) : M F unit :=
  with_base_unit (tcp_shift_lwip_cc_on_ecn_rto_gate entering).
Definition tcp_shift_cc_selector_pacing_on_rack_retrans_loss (lost_bytes : Z) : M F Z :=
  tcp_shift_cc_selector_call_paced_rack_retrans_loss lost_bytes.
Definition tcp_shift_cc_selector_pacing_on_tlp_dupack (sack_seen : bool) : M F unit :=
  with_base_unit (tcp_shift_lwip_cc_on_tlp_dupack sack_seen).
Definition tcp_shift_cc_selector_pacing_on_timeout : M F Z :=
  tcp_shift_cc_selector_call_paced_timeout.
Definition tcp_shift_cc_selector_pacing_on_recovery_exit (ack_seq : Z) : M F Z :=
  with_base (tcp_shift_lwip_cc_on_recovery_exit ack_seq).
Definition tcp_shift_cc_selector_pacing_prr_active : M F bool :=
  let! g := get_gl in
  match gl_selector_base_hook_ops g with
  | Some HookAdapter => tcp_shift_lwip_cc_prr_active
  | _ => ret false
  end.
Definition tcp_shift_cc_selector_pacing_rack_loss_status (segment : Z) : M F (Z * Z) :=
  let! g := get_gl in
  match gl_selector_base_hook_ops g with
  | Some HookAdapter => tcp_shift_lwip_cc_rack_loss_status segment
  | _ => ret (-1, 0)
  end.
Definition tcp_shift_cc_selector_pacing_effective_cwnd : M F Z :=
  let! g := get_gl in
  match gl_selector_base_hook_ops g with
  | Some HookAdapter => tcp_shift_lwip_cc_effective_cwnd
  | _ => let! pcb := get_pcb in ret (pb_cwnd pcb)
  end.
Definition tcp_shift_cc_selector_pacing_send_eligible (payload_bytes : Z) : M F Z :=
  let! a := get_ad in
  let inner := ad_ops a in
  let! g := get_gl in
  let! result := match gl_selector_base_hook_ops g with
                 | Some HookAdapter => tcp_shift_lwip_cc_on_segment_send_eligible payload_bytes
                 | _ => ret 1
                 end in
  let! a := get_ad in
  when ((ad_pacing_rate_bytes_per_sec a =? 0) && bool_decide (inner = Some OpsCubic))
    (tcp_shift_cc_selector_set_cubic_pacing inner 0) ;;
  ret result.
Definition tcp_shift_cc_selector_pacing_on_segment_tx (segment seq_start payload_bytes : Z)
    : M F unit :=
  with_base_unit (tcp_shift_lwip_cc_on_segment_tx segment seq_start payload_bytes).
Definition tcp_shift_cc_selector_pacing_on_segment_acked (segment payload_bytes : Z) : M F unit :=
  with_base_unit (tcp_shift_lwip_cc_on_segment_acked segment payload_bytes).

(** ** Selection *)

Definition flow_unregistered (a : tcp_shift_lwip_cc_adapter) : bool :=
  (ad_pacing_flow_id a =? 0) || (ad_pacing_generation a =? 0).

Definition tcp_shift_cc_selector_attach_transport_pacing : M F Z :=
  let! a := get_ad in
  let! g := get_gl in
  if is_null (hk_ops (ad_hook a)) || is_null (ad_pcb a) then ret (-1)
  else if flow_unregistered a then
    tcp_shift_cc_selector_set_cubic_pacing (ad_ops a) 0 ;; ret 0
  else if bool_decide (hk_ops (ad_hook a) = Some HookSelector) then ret 0
  else if negb (is_null (gl_selector_base_hook_ops g)) &&
          negb (bool_decide (gl_selector_base_hook_ops g = hk_ops (ad_hook a)))
  then ret (-1)
  else
    upd_gl (fun g => if is_null (gl_selector_base_hook_ops g)
                     then g <| gl_selector_base_hook_ops := hk_ops (ad_hook a) |> else g) ;;
    upd_ad (fun a => a <| ad_hook := ad_hook a <| hk_ops := Some HookSelector |> |>) ;;
    ret 0.

(** Result: the code and [*policy]. *)
Definition tcp_shift_cc_selector_publish_initial_pacing (inner : ptr cc_ops_ref)
    (transport : tcp_shift_cc_transport) (policy : tcp_shift_cc_policy)
    : M F (Z * tcp_shift_cc_policy) :=
  let! a := get_ad in
  if flow_unregistered a then
    tcp_shift_cc_selector_set_cubic_pacing inner 0 ;; ret (0, policy)
  else
    let! r := tcp_shift_cc_selector_apply_transport_pacing inner transport policy in
    let '(rc, policy) := r in
    if negb (rc =? 0) then ret (-1, policy)
    else
      upd_ad (fun a =>
        let previous_rate := ad_pacing_rate_bytes_per_sec a in
        let a := a <| ad_pacing_rate_bytes_per_sec := pol_pacing_rate_bytes_per_sec policy |> in
        if previous_rate =? 0 then a <| ad_pacing_next_send_ns := 0 |> else a) ;;
      note_pacing (fun s => s <| st_pacing_last_rate_bytes_per_sec :=
                                   pol_pacing_rate_bytes_per_sec policy |>) ;;
      ret (0, policy).

(** [tcp_shift_cc_init] with one of the flow's vtables: the code and the
    policy; the handle it fills is stored by the caller. *)
Definition controller_init (ops : cc_ops_ref) (size : Z) (transport : tcp_shift_cc_transport)
    (init : tcp_shift_cc_init_cfg) : M F (Z * tcp_shift_cc_policy) :=
  fun s =>
    let '(rc, _, state, policy) :=
      tcp_shift_cc_init (Some (mk_cc NULL NULL)) (Some (cc_vtable ops)) (Some s) size
        (Some transport) (Some init) (Some (mk_policy 0 0 0)) in
    ((rc, default (mk_policy 0 0 0) policy), default s state).

(** [tcp_shift_cc_init(&adapter->controller, ops, &adapter->controller_state, ...)] *)
Definition adapter_controller_init (ops : cc_ops_ref) (transport : tcp_shift_cc_transport)
    (init : tcp_shift_cc_init_cfg) : M F (Z * tcp_shift_cc_policy) :=
  let! r := controller_init ops TCP_SHIFT_CC_BUILTIN_STATE_CAPACITY transport init in
  upd_ad (fun a => if r.1 =? 0
                   then a <| ad_ops := Some ops |> <| ad_state := Some StateBuiltin |>
                   else a <| ad_ops := NULL |> <| ad_state := NULL |>) ;;
  ret r.

(** Reno is already running: only its pacing is published. *)
Definition reinit_reno (transport : tcp_shift_cc_transport) (pcb : tcp_pcb) : M F Z :=
  let! r := tcp_shift_cc_selector_publish_initial_pacing (Some OpsReno) transport
              (mk_policy (pb_cwnd pcb) (pb_ssthresh pcb) 0) in
  if negb (r.1 =? 0) then ret (-1)
  else
    let! rc := tcp_shift_cc_selector_attach_transport_pacing in
    if negb (rc =? 0) then ret (-1) else ret 0.

Definition reinit_other (ops : cc_ops_ref) (transport : tcp_shift_cc_transport) (pcb : tcp_pcb)
    : M F Z :=
  upd_ad (fun a => a <| ad_controller_state := zero_builtin |>) ;;
  let! r := adapter_controller_init ops transport
              (mk_init (pb_cwnd pcb) (pb_ssthresh pcb) (pb_mss pcb)) in
  let '(rc, policy) := r in
  if negb (rc =? 0) || policy_out_of_range policy tcp_shift_cc_selector_cwnd_limit then ret (-1)
  else
    let loss_based := tcp_shift_cc_selector_is_loss_based_ops (Some ops) in
    let! r := if loss_based
              then tcp_shift_cc_selector_publish_initial_pacing (Some ops) transport policy
              else ret (0, policy) in
    let '(rc, policy) := r in
    if negb (rc =? 0) then ret (-1)
    else
      upd_ad (fun a => a <| ad_pacing_next_send_ns := 0 |>) ;;
      publish_policy policy ;;
      let! rc := if loss_based then tcp_shift_cc_selector_attach_transport_pacing else ret 0 in
      if negb (rc =? 0) then ret (-1) else ret 0.

Definition tcp_shift_cc_selector_reinit (ops : ptr cc_ops_ref) : M F Z :=
  let! ok := live in
  let! a := get_ad in
  let! pcb := get_pcb in
  match ops with
  | None => ret (-1)
  | Some ops =>
      if negb ok || negb (bool_decide (ad_ops a = Some OpsReno)) ||
         negb (bool_decide (ad_state a = Some StateBuiltin))
      then ret (-1)
      else
        let transport := mk_transport (pb_mss pcb) (pb_snd_nxt pcb -w32 pb_lastack pcb)
                           (pb_snd_wnd pcb) tcp_shift_cc_selector_cwnd_limit in
        if bool_decide (ops = OpsReno) then reinit_reno transport pcb
        else reinit_other ops transport pcb
  end.

End Selector.
