(* ===== verification/BbrInternal.v ===== *)
(** * The internal BBR binding ([src/lwip/cc_bbr_internal.c], hooks)

    BBR's state is a sidecar of the control block. Its hook table forwards to
    the table the adapter had before, owns the congestion window during
    recovery and reports lost retransmissions and probes to the model. *)

From Stdlib Require Import ZArith Lia Bool List.
From stdpp Require Import base tactics numbers list.
From S2P Require Import Prelude StateMonad CC BbrModel BbrProbe BbrController TcpMemory.
From S2P Require Import AdapterData AdapterDelivery AdapterPacing AdapterRecovery AdapterRate.
From S2P Require Import AdapterPolicy Adapter Selector.
Local Open Scope Z_scope.

Abbreviation TCP_SHIFT_BBR_SNDBUF_EXPAND_NUM := 3.
Abbreviation TCP_SHIFT_BBR_SNDBUF_EXPAND_DEN := 1.
(** [sizeof(struct tcp_shift_lwip_tcp_memory_ext)] *)
Abbreviation MEMORY_EXT_SIZE := 48.

Section BbrInternal.
Context {W : Type} `{!AdapterOS W} `{!LwipParams}.
Local Abbreviation F := (flow W).

(** [binding != NULL && base_hook_ops != NULL && base_hook_ops->FN != NULL]:
    the base callback of the binding, which is the adapter's or the
    selector's; the fallback otherwise. *)
Definition with_bbr_base {A} (fallback : M F A) (adapter selector : M F A) : M F A :=
  let! binding := tcp_shift_lwip_bbr_binding_from_adapter in
  match binding with
  | None => fallback
  | Some b =>
      match bb_base_hook_ops b with
      | Some HookAdapter => adapter
      | Some HookSelector => selector
      | _ => fallback
      end
  end.

Definition tcp_shift_lwip_bbr_hook_ack_begin : M F unit :=
  let! binding := tcp_shift_lwip_bbr_binding_from_adapter in
  match binding with
  | None => ret tt
  | Some _ =>
      upd_binding (fun b => b <| bb_recovery_entry_acked_bytes := 0 |>) ;;
      with_bbr_base (ret tt) tcp_shift_lwip_cc_prr_ack_begin
        tcp_shift_cc_selector_pacing_on_ack_begin
  end.

Definition tcp_shift_lwip_bbr_hook_ack (acked_bytes : Z) : M F Z :=
  with_bbr_base (ret 0) (tcp_shift_lwip_cc_on_ack acked_bytes)
    (tcp_shift_cc_selector_pacing_on_ack acked_bytes).

Definition tcp_shift_lwip_bbr_hook_ack_observe (acked_bytes : Z) : M F Z :=
  with_bbr_base (ret 0) (tcp_shift_lwip_cc_on_ack_observe acked_bytes)
    (tcp_shift_cc_selector_pacing_on_ack_observe acked_bytes).

(** The bytes a handled SACK delivered, credited to a recovery entry. *)
Definition credit_entry (before after : Z) : M F unit :=
  when (after >=? before)
    (upd_binding (fun b =>
       let newly_delivered := after -w64 before in
       b <| bb_recovery_entry_acked_bytes :=
              if newly_delivered >? UINT32_MAX -w32 bb_recovery_entry_acked_bytes b
              then UINT32_MAX
              else bb_recovery_entry_acked_bytes b +w32 u32 newly_delivered |>)).

Definition tcp_shift_lwip_bbr_hook_sack (ack_seq : Z) (ranges : list tcp_shift_lwip_sack_range)
    : M F Z :=
  let! before := gets (fun s : F => ad_delivered_bytes (fw_ad s)) in
  let forward (m : M F Z) : M F Z :=
    let! handled := m in
    let! a := get_ad in
    when (negb (handled =? 0)) (credit_entry before (ad_delivered_bytes a)) ;;
    ret handled in
  with_bbr_base (ret 0) (forward (tcp_shift_lwip_cc_on_sack ack_seq ranges))
    (forward (tcp_shift_cc_selector_pacing_on_sack ack_seq ranges)).

Definition own_recovery : M F unit :=
  upd_ad (fun a => a <| ad_hook := ad_hook a <| hk_recovery_controller_owned := true |> |>).

Definition tcp_shift_lwip_bbr_hook_loss (lost_bytes : Z) : M F Z :=
  let forward (m : M F Z) : M F Z :=
    let! handled := m in
    when (negb (handled =? 0)) own_recovery ;;
    ret handled in
  with_bbr_base (ret 0) (forward (tcp_shift_lwip_cc_on_loss lost_bytes))
    (forward (tcp_shift_cc_selector_pacing_on_loss lost_bytes)).

Definition tcp_shift_lwip_bbr_hook_rack_retrans_loss (lost_bytes : Z) : M F Z :=
  let! binding := tcp_shift_lwip_bbr_binding_from_adapter in
  match binding with
  | None => ret 0
  | Some b =>
      if lost_bytes =? 0 then ret 0
      else
        let! pcb := get_pcb in
        let '(rc, c, policy) :=
          tcp_shift_bbr_controller_recovery_note_loss (bb_controller b)
            (tcp_shift_lwip_bbr_transport_from_pcb pcb) lost_bytes (mk_policy 0 0 0) in
        set_bbr_controller c ;;
        let! applied := if rc =? 0 then tcp_shift_lwip_bbr_apply_policy policy else ret (-1) in
        if negb (rc =? 0) || negb (applied =? 0) then ret 0
        else
          count_loss ;;
          tcp_shift_lwip_bbr_note_recovery_cwnd (b <| bb_controller := c |>) ;;
          tcp_shift_lwip_bbr_record_stats (b <| bb_controller := c |>) ;;
          ret 1
  end.

Definition tcp_shift_lwip_bbr_hook_timeout : M F Z :=
  with_bbr_base (ret 0) tcp_shift_lwip_cc_on_timeout tcp_shift_cc_selector_pacing_on_timeout.

Definition tcp_shift_lwip_bbr_hook_tlp_dupack (sack_seen : bool) : M F unit :=
  with_bbr_base (ret tt) (tcp_shift_lwip_cc_on_tlp_dupack sack_seen)
    (tcp_shift_cc_selector_pacing_on_tlp_dupack sack_seen).

(** The telemetry of a recovery that ends. *)
Definition bbr_note_recovery_exit (b : tcp_shift_lwip_bbr_binding) : M F unit :=
  let! a := get_ad in
  when (ad_stats a)
    (let! now_ns := tcp_shift_lwip_bbr_now_ns in
     note_policy (fun s => s <| st_policy_updates := st_policy_updates s +w64 1 |>) ;;
     note_bbr (fun s =>
       let s := s <| st_bbr_recovery_exit_events := st_bbr_recovery_exit_events s +w64 1 |>
                  <| st_bbr_recovery_last_exit_ns := now_ns |> in
       if negb (bb_recovery_enter_ns b =? 0) && (now_ns >=? bb_recovery_enter_ns b) then
         let recovery_ns := now_ns -w64 bb_recovery_enter_ns b in
         let s := s <| st_bbr_recovery_total_ns :=
                         if UINT64_MAX -w64 st_bbr_recovery_total_ns s <? recovery_ns
                         then UINT64_MAX else st_bbr_recovery_total_ns s +w64 recovery_ns |> in
         if recovery_ns >? st_bbr_recovery_max_ns s
         then s <| st_bbr_recovery_max_ns := recovery_ns |> else s
       else s)).

Definition tcp_shift_lwip_bbr_hook_recovery_exit (ack_seq : Z) : M F Z :=
  let! binding := tcp_shift_lwip_bbr_binding_from_adapter in
  let! a := get_ad in
  match binding with
  | None => ret 0
  | Some b =>
      if negb (hk_recovery_controller_owned (ad_hook a)) then ret 0
      else
        (let! _ := match bb_base_hook_ops b with
                   | Some HookAdapter => tcp_shift_lwip_cc_on_recovery_exit ack_seq
                   | Some HookSelector => tcp_shift_cc_selector_pacing_on_recovery_exit ack_seq
                   | _ => ret 0
                   end in ret tt) ;;
        let! pcb := get_pcb in
        let '(rc, c, policy) :=
          tcp_shift_bbr_controller_recovery_exit (bb_controller b)
            (tcp_shift_lwip_bbr_transport_from_pcb pcb) (mk_policy 0 0 0) in
        set_bbr_controller c ;;
        let! applied := if rc =? 0 then tcp_shift_lwip_bbr_apply_policy policy else ret (-1) in
        if negb (rc =? 0) || negb (applied =? 0) then ret 0
        else
          bbr_note_recovery_exit b ;;
          upd_binding (fun b => b <| bb_recovery_enter_ns := 0 |>) ;;
          tcp_shift_lwip_bbr_note_recovery_cwnd (b <| bb_controller := c |>) ;;
          tcp_shift_lwip_bbr_record_stats (b <| bb_controller := c |>) ;;
          ret 1
  end.

Definition tcp_shift_lwip_bbr_hook_rack_loss_status (segment : Z) : M F (Z * Z) :=
  with_bbr_base (ret (-1, 0)) (tcp_shift_lwip_cc_rack_loss_status segment)
    (tcp_shift_cc_selector_pacing_rack_loss_status segment).

Definition tcp_shift_lwip_bbr_hook_effective_cwnd : M F Z :=
  with_bbr_base (let! pcb := get_pcb in ret (pb_cwnd pcb)) tcp_shift_lwip_cc_effective_cwnd
    tcp_shift_cc_selector_pacing_effective_cwnd.

Definition tcp_shift_lwip_bbr_hook_send_eligible (payload_bytes : Z) : M F Z :=
  with_bbr_base (ret 1) (tcp_shift_lwip_cc_on_segment_send_eligible payload_bytes)
    (tcp_shift_cc_selector_pacing_send_eligible payload_bytes).

Definition tcp_shift_lwip_bbr_hook_segment_tx (segment seq_start payload_bytes : Z) : M F unit :=
  with_bbr_base (ret tt) (tcp_shift_lwip_cc_on_segment_tx segment seq_start payload_bytes)
    (tcp_shift_cc_selector_pacing_on_segment_tx segment seq_start payload_bytes).

Definition tcp_shift_lwip_bbr_hook_segment_acked (segment payload_bytes : Z) : M F unit :=
  with_bbr_base (ret tt) (tcp_shift_lwip_cc_on_segment_acked segment payload_bytes)
    (tcp_shift_cc_selector_pacing_on_segment_acked segment payload_bytes).

(** ** Installation *)

Definition zero_bbr_controller : tcp_shift_bbr_controller_state :=
  mk_ctl (mk_bbr 0 (replicate 10 0) 0 0 0 0 0 0 0 0 0 0 0 0 0 0 TCP_SHIFT_BBR_MODE_STARTUP
            false false false false false false false false false)
    (mk_probe 0 0 0 0 0 false false) (mk_recovery 0 false false) 0 0 0 0 0 false false.

(** [free(binding); return -1;] *)
Definition discard_binding : M F Z :=
  upd_pcb (fun pcb => pcb <| pb_ext_bbr := NULL |>) ;; ret (-1).

Definition expand_sndbuf : M F Z :=
  let! pcb := get_pcb in
  let! ok := match TcpMemory.mp_ext (pb_mem pcb) with
             | Some _ => ret true
             | None => call_os (fun w => heap_alloc w MEMORY_EXT_SIZE)
             end in
  let '(rc, mem) := tcp_shift_lwip_tcp_memory_set_sndbuf_expand ok (pb_mem pcb)
                      TCP_SHIFT_BBR_SNDBUF_EXPAND_NUM TCP_SHIFT_BBR_SNDBUF_EXPAND_DEN in
  upd_pcb (fun pcb => pcb <| pb_mem := mem |>) ;;
  ret rc.

(** The new handle, hook table and policy of a flow whose sidecar is ready. *)
Definition install_bbr (policy : tcp_shift_cc_policy) : M F Z :=
  upd_ad (fun a => a <| ad_ops := Some OpsBbr |> <| ad_state := Some StateBbr |>
                     <| ad_hook := ad_hook a <| hk_ops := Some HookBbr |> |>
                     <| ad_sack_delivery_policy := true |>
                     <| ad_pacing_next_send_ns := 0 |>) ;;
  publish_policy policy ;;
  let! pcb := get_pcb in
  match pb_ext_bbr pcb with
  | Some b => tcp_shift_lwip_bbr_record_stats b
  | None => ret tt
  end ;;
  ret 0.

(** The sidecar is built in its extension slot, which nothing reads before
    the handle names it; a failure empties the slot again. *)
Definition tcp_shift_lwip_cc_apply_internal_bbr (cycle_seed : Z) : M F Z :=
  let! a := get_ad in
  let! pcb := get_pcb in
  let! self := gets fw_self in
  if negb (ad_bound a) || is_null (ad_pcb a) || negb (bool_decide (ad_ops a = Some OpsReno)) ||
     negb (bool_decide (ad_state a = Some StateBuiltin)) || (ad_pacing_flow_id a =? 0) ||
     (ad_pacing_generation a =? 0) || ad_pacing_scheduled a || negb (is_null (pb_ext_bbr pcb)) ||
     pb_tf_ecn pcb
  then ret (-1)
  else
    let! ok := call_os (fun w => heap_alloc w BBR_BINDING_SIZE) in
    if negb ok || is_null (hk_ops (ad_hook a)) then ret (-1)
    else
      upd_pcb (fun pcb => pcb <| pb_ext_bbr := Some (mk_bbr_binding zero_bbr_controller (Some self)
                                                      (hk_ops (ad_hook a)) 0 0 cycle_seed) |>) ;;
      let! r := controller_init OpsBbr BBR_BINDING_SIZE (tcp_shift_lwip_bbr_transport_from_pcb pcb)
                  (mk_init (pb_cwnd pcb) (pb_ssthresh pcb) (pb_mss pcb)) in
      let '(rc, policy) := r in
      if negb (rc =? 0) || policy_out_of_range policy tcp_shift_lwip_bbr_cwnd_limit ||
         (pol_pacing_rate_bytes_per_sec policy =? 0)
      then discard_binding
      else
        let! rc := expand_sndbuf in
        if negb (rc =? 0) then discard_binding else install_bbr policy.

Definition tcp_shift_lwip_cc_internal_bbr_active (s : F) : bool :=
  let a := fw_ad s in
  ad_bound a && negb (is_null (ad_pcb a)) && bool_decide (ad_ops a = Some OpsBbr) &&
  bool_decide (ad_state a = Some StateBbr) && bool_decide (hk_ops (ad_hook a) = Some HookBbr) &&
  negb (is_null (pb_ext_bbr (fw_pcb s))).

(** [apply_configured_controller] of the selector. *)
Definition tcp_shift_lwip_cc_apply_configured_controller : M F Z :=
  let! a := get_ad in
  let! g := get_gl in
  if is_null (ad_pcb a) then ret (-1)
  else if gl_selector_internal_bbr g then
    tcp_shift_lwip_cc_apply_internal_bbr
      (Z.lxor (u32 (ad_pacing_flow_id a)) (u32 (Z.shiftr (ad_pacing_flow_id a) 32)))
  else tcp_shift_cc_selector_reinit (tcp_shift_cc_selector_current g).

End BbrInternal.
