(* ===== verification/AdapterHooks.v ===== *)
(** * The hook boundary ([src/lwip/cc_hooks.h]) and the adapter's life cycle

    The functions patched lwIP calls: each finds the control block's hook and
    dispatches on its table; an unbound block keeps lwIP's own behaviour. They
    also keep the recovery episode's boundary. Then binding and unbinding an
    adapter, and the two timers' releases. *)

From Stdlib Require Import ZArith Lia Bool List.
From stdpp Require Import base tactics numbers list.
From S2P Require Import Prelude StateMonad CC Observation Rack Prr Registry TcpMemory.
From S2P Require Import AdapterData AdapterDelivery AdapterPacing AdapterRecovery AdapterRate.
From S2P Require Import AdapterPolicy Adapter Selector BbrInternal.
Local Open Scope Z_scope.

(** Code of lwIP that the adapter calls and that calls the hooks back. *)
Class LwipTcp (W : Type) := {
  tcp_output : M (flow W) Z;
  tcp_shift_tcp_rack_rexmit_due : M (flow W) Z;
  (** the error, the probe's bounds and whether it is a retransmission *)
  tcp_shift_tcp_tlp_probe : M (flow W) (Z * (Z * Z * bool))
}.

Section Hooks.
Context {W : Type} `{!AdapterOS W} `{!LwipParams}.
Local Abbreviation F := (flow W).

Definition upd_hook (f : tcp_shift_lwip_cc_hook -> tcp_shift_lwip_cc_hook) : M F unit :=
  upd_ad (fun a => a <| ad_hook := f (ad_hook a) |>).

(** ** The recovery episode *)

Definition hook_mark_enter (snd_nxt : Z) (h : tcp_shift_lwip_cc_hook) : tcp_shift_lwip_cc_hook :=
  if hk_recovery_active h then h
  else h <| hk_recovery_end_seq := snd_nxt |>
         <| hk_recovery_active := true |>
         <| hk_recovery_exit_pending := false |>
         <| hk_recovery_enter_events := hk_recovery_enter_events h +w32 1 |>.

Definition tcp_shift_lwip_cc_hook_recovery_mark_enter : M F unit :=
  let! pcb := get_pcb in upd_hook (hook_mark_enter (pb_snd_nxt pcb)).

Definition hook_mark_exit (h : tcp_shift_lwip_cc_hook) : tcp_shift_lwip_cc_hook :=
  if negb (hk_recovery_active h) then h
  else h <| hk_recovery_active := false |>
         <| hk_recovery_exit_pending := true |>
         <| hk_recovery_controller_owned := false |>
         <| hk_recovery_end_seq := 0 |>
         <| hk_recovery_exit_events := hk_recovery_exit_events h +w32 1 |>.

Definition tcp_shift_lwip_cc_hook_recovery_mark_exit : M F unit := upd_hook hook_mark_exit.

Definition hook_reset (h : tcp_shift_lwip_cc_hook) : tcp_shift_lwip_cc_hook :=
  h <| hk_recovery_active := false |>
    <| hk_recovery_exit_pending := false |>
    <| hk_recovery_controller_owned := false |>
    <| hk_recovery_end_seq := 0 |>.

Definition tcp_shift_lwip_cc_hook_recovery_reset : M F unit := upd_hook hook_reset.

(** [None] for a return of 0. *)
Definition tcp_shift_lwip_cc_hook_recovery_end_seq : M F (option Z) :=
  let! hook := tcp_shift_lwip_cc_hook_get in
  ret (match hook with
       | Some h => if hk_recovery_active h then Some (hk_recovery_end_seq h) else None
       | None => None
       end).

Definition tcp_shift_lwip_cc_hook_recovery_controller_owned : M F bool :=
  let! hook := tcp_shift_lwip_cc_hook_get in
  ret (match hook with
       | Some h => hk_recovery_active h && hk_recovery_controller_owned h
       | None => false
       end).

Definition tcp_shift_lwip_cc_hook_take_recovery_exit : M F bool :=
  let! a := get_ad in
  upd_hook (fun h => h <| hk_recovery_exit_pending := false |>) ;;
  ret (hk_recovery_exit_pending (ad_hook a)).

(** ** Dispatch *)

(** The callback of the block's table; [unbound] without a hook, a table or
    the table's entry. *)
Definition hook_dispatch {A} (unbound adapter selector bbr : M F A) : M F A :=
  let! hook := tcp_shift_lwip_cc_hook_get in
  match hook with
  | None => unbound
  | Some h =>
      match hk_ops h with
      | None => unbound
      | Some HookAdapter => adapter
      | Some HookSelector => selector
      | Some HookBbr => bbr
      end
  end.

(** A callback that returns an [int]: whether it is non-zero. *)
Definition handled (m : M F Z) : M F bool := let! rc := m in ret (negb (rc =? 0)).

Definition tcp_shift_lwip_cc_hook_prr_active : M F bool :=
  hook_dispatch (ret false) tcp_shift_lwip_cc_prr_active tcp_shift_cc_selector_pacing_prr_active
    (ret false).

Definition tcp_shift_lwip_cc_hook_rack_loss_status (segment : Z) : M F (Z * Z) :=
  hook_dispatch (ret (-1, 0)) (tcp_shift_lwip_cc_rack_loss_status segment)
    (tcp_shift_cc_selector_pacing_rack_loss_status segment)
    (tcp_shift_lwip_bbr_hook_rack_loss_status segment).

Definition tcp_shift_lwip_cc_hook_effective_cwnd (native_cwnd : Z) : M F Z :=
  hook_dispatch (ret native_cwnd) tcp_shift_lwip_cc_effective_cwnd
    tcp_shift_cc_selector_pacing_effective_cwnd tcp_shift_lwip_bbr_hook_effective_cwnd.

Definition tcp_shift_lwip_cc_hook_ack_begin : M F unit :=
  hook_dispatch (ret tt) tcp_shift_lwip_cc_prr_ack_begin tcp_shift_cc_selector_pacing_on_ack_begin
    tcp_shift_lwip_bbr_hook_ack_begin.

Definition tcp_shift_lwip_cc_hook_ack (acked_bytes : Z) : M F bool :=
  handled (hook_dispatch (ret 0) (tcp_shift_lwip_cc_on_ack acked_bytes)
    (tcp_shift_cc_selector_pacing_on_ack acked_bytes) (tcp_shift_lwip_bbr_hook_ack acked_bytes)).

Definition tcp_shift_lwip_cc_hook_ack_observe (acked_bytes : Z) : M F bool :=
  handled (hook_dispatch (ret 0) (tcp_shift_lwip_cc_on_ack_observe acked_bytes)
    (tcp_shift_cc_selector_pacing_on_ack_observe acked_bytes)
    (tcp_shift_lwip_bbr_hook_ack_observe acked_bytes)).

Definition tcp_shift_lwip_cc_hook_sack (ack_seq : Z) (ranges : list tcp_shift_lwip_sack_range)
    : M F bool :=
  if (length ranges =? 0)%nat then ret false
  else handled (hook_dispatch (ret 0) (tcp_shift_lwip_cc_on_sack ack_seq ranges)
    (tcp_shift_cc_selector_pacing_on_sack ack_seq ranges)
    (tcp_shift_lwip_bbr_hook_sack ack_seq ranges)).

Definition tcp_shift_lwip_cc_hook_loss (lost_bytes : Z) : M F bool :=
  let! ok := handled (hook_dispatch (ret 0) (tcp_shift_lwip_cc_on_loss lost_bytes)
    (tcp_shift_cc_selector_pacing_on_loss lost_bytes) (tcp_shift_lwip_bbr_hook_loss lost_bytes)) in
  when ok tcp_shift_lwip_cc_hook_recovery_mark_enter ;;
  ret ok.

Definition tcp_shift_lwip_cc_hook_ecn : M F bool :=
  handled (hook_dispatch (ret 0) tcp_shift_lwip_cc_on_ecn tcp_shift_cc_selector_pacing_on_ecn
    (ret 0)).

Definition tcp_shift_lwip_cc_hook_ecn_rto_gate (entering : bool) : M F unit :=
  hook_dispatch (ret tt) (tcp_shift_lwip_cc_on_ecn_rto_gate entering)
    (tcp_shift_cc_selector_pacing_on_ecn_rto_gate entering) (ret tt).

Definition tcp_shift_lwip_cc_hook_rack_retrans_loss (lost_bytes : Z) : M F bool :=
  if lost_bytes =? 0 then ret false
  else handled (hook_dispatch (ret 0) (tcp_shift_lwip_cc_on_rack_retrans_loss lost_bytes)
    (tcp_shift_cc_selector_pacing_on_rack_retrans_loss lost_bytes)
    (tcp_shift_lwip_bbr_hook_rack_retrans_loss lost_bytes)).

Definition tcp_shift_lwip_cc_hook_tlp_dupack (sack_seen : bool) : M F unit :=
  hook_dispatch (ret tt) (tcp_shift_lwip_cc_on_tlp_dupack sack_seen)
    (tcp_shift_cc_selector_pacing_on_tlp_dupack sack_seen)
    (tcp_shift_lwip_bbr_hook_tlp_dupack sack_seen).

Definition tcp_shift_lwip_cc_hook_recovery_exit (ack_seq : Z) : M F bool :=
  let! hook := tcp_shift_lwip_cc_hook_get in
  match hook with
  | None => ret false
  | Some h =>
      let! ok := if hk_recovery_active h
                 then handled (hook_dispatch (ret 0) (tcp_shift_lwip_cc_on_recovery_exit ack_seq)
                        (tcp_shift_cc_selector_pacing_on_recovery_exit ack_seq)
                        (tcp_shift_lwip_bbr_hook_recovery_exit ack_seq))
                 else ret false in
      tcp_shift_lwip_cc_hook_recovery_mark_exit ;;
      ret ok
  end.

Definition tcp_shift_lwip_cc_hook_timeout : M F bool :=
  let! hook := tcp_shift_lwip_cc_hook_get in
  match hook with
  | None => ret false
  | Some h =>
      if is_null (hk_ops h) then ret false
      else
        let controller_owned := hk_recovery_controller_owned h in
        let! ok := handled (hook_dispatch (ret 0) tcp_shift_lwip_cc_on_timeout
          tcp_shift_cc_selector_pacing_on_timeout tcp_shift_lwip_bbr_hook_timeout) in
        when (ok && controller_owned) (upd_pcb (fun pcb => pcb <| pb_tf_infr := false |>)) ;;
        let! a := get_ad in
        when (ok || hk_recovery_active (ad_hook a) || hk_recovery_controller_owned (ad_hook a))
          tcp_shift_lwip_cc_hook_recovery_reset ;;
        ret ok
  end.

Definition tcp_shift_lwip_cc_hook_segment_send_eligible (payload_bytes : Z) : M F bool :=
  handled (hook_dispatch (ret 1) (tcp_shift_lwip_cc_on_segment_send_eligible payload_bytes)
    (tcp_shift_cc_selector_pacing_send_eligible payload_bytes)
    (tcp_shift_lwip_bbr_hook_send_eligible payload_bytes)).

Definition tcp_shift_lwip_cc_hook_segment_tx (segment seq_start payload_bytes : Z) : M F unit :=
  hook_dispatch (ret tt) (tcp_shift_lwip_cc_on_segment_tx segment seq_start payload_bytes)
    (tcp_shift_cc_selector_pacing_on_segment_tx segment seq_start payload_bytes)
    (tcp_shift_lwip_bbr_hook_segment_tx segment seq_start payload_bytes).

Definition tcp_shift_lwip_cc_hook_segment_acked (segment payload_bytes : Z) : M F unit :=
  hook_dispatch (ret tt) (tcp_shift_lwip_cc_on_segment_acked segment payload_bytes)
    (tcp_shift_cc_selector_pacing_on_segment_acked segment payload_bytes)
    (tcp_shift_lwip_bbr_hook_segment_acked segment payload_bytes).

(** ** Binding ([src/lwip/cc_adapter.c]) *)

(** The window lwIP is about to publish on a passive open. *)
Definition bind_initial_cwnd (pcb : tcp_pcb) : Z :=
  if (pb_cwnd pcb <? pb_mss pcb) && bool_decide (pb_state pcb = ESTABLISHED)
  then tcp_shift_lwip_cc_initial_cwnd (pb_mss pcb) else pb_cwnd pcb.

(** The zeroed adapter with its hook, statistics and control block. *)
Definition bound_adapter (stats : bool) (pcb : Z) : tcp_shift_lwip_cc_adapter :=
  zero_adapter <| ad_srtt := tcp_shift_cc_srtt_init |>
               <| ad_rack_tlp := tcp_shift_rack_tlp_init |>
               <| ad_hook := zero_hook <| hk_ops := Some HookAdapter |> |>
               <| ad_stats := stats |>
               <| ad_pcb := Some pcb |>.

(** Initialise Reno, publish its policy, register with the pacer. *)
Definition bind_controller : M F Z :=
  let! pcb := get_pcb in
  let! transport := flow_transport in
  let! r := adapter_controller_init OpsReno transport
              (mk_init (bind_initial_cwnd pcb) (pb_ssthresh pcb) (pb_mss pcb)) in
  let '(rc, policy) := r in
  if negb (rc =? 0) then ret (-1)
  else
    let! rc := tcp_shift_lwip_cc_apply_policy policy in
    if rc <? 0 then ret (-1) else tcp_shift_pacing_register.

Definition tcp_shift_lwip_cc_adapter_bind (stats : bool) : M F Z :=
  let! a := get_ad in
  let! pcb := get_pcb in
  let! self := gets fw_self in
  let! self_pcb := gets fw_ptr in
  if (pb_mss pcb =? 0) || negb (is_null (ad_pcb a)) || negb (is_null (pb_ext_cc pcb)) then ret (-1)
  else
    upd_ad (fun _ => bound_adapter stats self_pcb) ;;
    let! now_ns := tcp_shift_delivery_now_ns in
    upd_ad (fun a => a <| ad_delivered_mstamp_ns := now_ns |>) ;;
    note_delivery (fun s => s <| st_delivery_metadata_bytes_per_slot := DELIVERY_SLOT_SIZE |>) ;;
    let! rc := bind_controller in
    if rc <? 0 then
      upd_ad (fun a => a <| ad_pcb := NULL |> <| ad_stats := false |>) ;; ret (-1)
    else
      upd_pcb (fun pcb => pcb <| pb_ext_cc := Some (ExtHook self) |>) ;;
      upd_ad (fun a => a <| ad_bound := true |>) ;;
      note_policy (fun s => s <| st_bindings := st_bindings s +w64 1 |>) ;;
      ret 0.

Definition release_flow : M F unit :=
  tcp_shift_pacing_unregister ;;
  tcp_shift_delivery_release_all ;;
  upd_ad (fun a => a <| ad_bound := false |> <| ad_pcb := NULL |>).

Definition tcp_shift_lwip_cc_adapter_unbind : M F unit :=
  let! a := get_ad in
  let! pcb := get_pcb in
  let! self := gets fw_self in
  if is_null (ad_pcb a) then ret tt
  else
    when (bool_decide (pb_ext_cc pcb = Some (ExtHook self)))
      (upd_pcb (fun pcb => pcb <| pb_ext_cc := NULL |>)) ;;
    release_flow.

(** The destroy callback of extension argument 0, up to [free]: whether the
    adapter is to be freed. *)
Definition tcp_shift_lwip_cc_pcb_destroyed : M F bool :=
  let! a := get_ad in
  release_flow ;;
  ret (ad_heap_owned a).

(** ** Releases *)

Context `{!LwipTcp W}.

(** The part of [resume_paced] past the registry lookup. *)
Definition resume_paced_flow (actual_release_ns : Z) : M F Z :=
  upd_ad (fun a => a <| ad_pacing_scheduled := false |>) ;;
  let! a := get_ad in
  if negb (ad_bound a) || is_null (ad_pcb a) then
    note_pacing (fun s => s <| st_pacing_stale_releases := st_pacing_stale_releases s +w64 1 |>) ;;
    ret 0
  else
    note_pacing (fun s => s <| st_pacing_resume_events := st_pacing_resume_events s +w64 1 |>
                            <| st_pacing_last_actual_release_ns := actual_release_ns |>) ;;
    let! err := tcp_output in
    when (negb (err =? ERR_OK)) pacing_scheduler_error ;;
    ret 0.

(** [pcb->rtime = 0] while data is in flight. *)
Definition restart_rto : M F unit :=
  upd_pcb (fun pcb => if (length (pb_unacked pcb) =? 0)%nat then pcb else pcb <| pb_rtime := 0 |>).

Definition resume_tlp : M F Z :=
  let! a := get_ad in
  if tcp_shift_lwip_cc_hook_recovery_is_active (ad_hook a) ||
     negb (rk_segs_sacked (ad_rack_tlp a) =? 0)
  then ret 0
  else if negb (tcp_shift_tlp_probe_allowed (ad_rack_tlp a)) then restart_rto ;; ret 0
  else
    let! r := tcp_shift_tcp_tlp_probe in
    let '(err, (start_seq, end_seq, is_retrans)) := r in
    restart_rto ;;
    if negb (err =? ERR_OK) then ret (if err =? ERR_VAL then 0 else -1)
    else
      when (negb (end_seq =? 0))
        (upd_rack (fun rack => tcp_shift_tlp_note_probe_sent rack start_seq end_seq is_retrans)) ;;
      ret 0.

Definition resume_rack (actual_release_ns : Z) : M F Z :=
  let! deadline_ns := tcp_shift_rack_detection_deadline actual_release_ns in
  if deadline_ns =? 0 then ret 0
  else if deadline_ns >? actual_release_ns then
    tcp_shift_rack_arm_detection_timer actual_release_ns ;; ret 0
  else
    let! err := tcp_shift_tcp_rack_rexmit_due in
    if negb (err =? ERR_OK) then ret (if err =? ERR_VAL then 0 else -1)
    else
      let! now_ns := tcp_shift_delivery_now_ns in
      when (negb (now_ns =? 0)) (tcp_shift_rack_arm_detection_timer now_ns) ;;
      ret 0.

(** The part of [resume_recovery_timer] past the registry lookup. *)
Definition resume_recovery_flow (kind actual_release_ns : Z) : M F Z :=
  upd_ad (fun a => a <| ad_recovery_timer_scheduled := false |>
                     <| ad_recovery_timer_deadline_ns := 0 |>
                     <| ad_recovery_timer_kind := 0 |>) ;;
  let! a := get_ad in
  if negb (ad_bound a) || is_null (ad_pcb a) || (actual_release_ns =? 0) then ret 0
  else if kind =? TCP_SHIFT_LWIP_RECOVERY_TIMER_TLP then resume_tlp
  else if kind =? TCP_SHIFT_LWIP_RECOVERY_TIMER_RACK then resume_rack actual_release_ns
  else ret 0.

End Hooks.

(** ** A concrete environment

    A clock that starts after one second and advances by one millisecond a
    reading (its seconds wrap at 32 bits), an allocator and timers that always
    succeed, and a flow bound in it: inputs for the examples of the adapter's
    theorems. *)

(** The state of the world is the time in milliseconds. *)
Definition ticks := Z.

#[export] Instance example_os : AdapterOS ticks := {|
  monotonic_clock t := (Some (1 + (t / 1000) mod 4294967296, t mod 1000 * 1000000), t + 1);
  heap_alloc t _ := (true, t);
  timer_schedule t _ _ _ _ _ _ := (0, t);
  timer_cancel t _ _ _ _ := (0, t)
|}.

#[export] Instance example_lwip : LwipParams := {| TCP_SLOW_INTERVAL := 500 |}.

(** An established connection with a 1000-byte MSS and SACK. *)
Definition example_pcb : tcp_pcb :=
  mk_pcb ESTABLISHED 1000 5000 5000 65535 0 65535 0 65535 6 0 0 0 true false false false [] []
    NULL (ArgApp 0) NULL (mk_mem_pcb 0 65535 0 false false false NULL NULL) NULL.

Definition example_globals : cc_globals :=
  zero_globals <| gl_pacing := mk_pacing_service (Some (mk_timer_ops 1 (Some 1) (Some 2))) 0 [] 0 |>
               <| gl_recovery := mk_recovery_service (Some (mk_timer_ops 2 (Some 3) (Some 4))) 0 |>.

Definition example_start : flow ticks := mk_cc_flow 0 example_globals 100 zero_adapter 200 example_pcb.

(** The flow after [bind]. *)
Definition example_flow : flow ticks := (tcp_shift_lwip_cc_adapter_bind true example_start).2.

(** The flow after [bind] and the selection of paced CUBIC. *)
Definition example_cubic : flow ticks := (tcp_shift_cc_selector_reinit (Some OpsCubic) example_flow).2.

(** The flow after [bind] and the installation of BBR. *)
Definition example_bbr : flow ticks := (tcp_shift_lwip_cc_apply_internal_bbr 7 example_flow).2.
