(* ===== verification/AdapterWorld.v ===== *)
(** * Adapters in the process ([src/lwip/cc_adapter.c], [src/lwip/cc_selector.c],
      [src/lwip/cc_bbr_accept.c])

    The heap of adapters and the control blocks by address, the entry points
    that reach an adapter through a pointer (the registry's, a control
    block's) and the accept paths that create adapters. [None] is a pointer to
    an object that does not exist any more. *)

From Stdlib Require Import ZArith Lia Bool List String.
From stdpp Require Import base tactics numbers list gmap.
From S2P Require Import Prelude StateMonad CC Registry.
From S2P Require Import AdapterData AdapterDelivery AdapterPacing AdapterRecovery AdapterRate.
From S2P Require Import AdapterPolicy Adapter Selector BbrInternal AdapterHooks.
Local Open Scope Z_scope.

Abbreviation TCP_SHIFT_LWIP_BBR_MAX_LISTENERS := 2.

(** [wd_next]: an address above every adapter allocated so far. *)
Record cc_world (W : Type) := mk_cc_world {
  wd_world : W;
  wd_gl : cc_globals;
  wd_adapters : gmap Z tcp_shift_lwip_cc_adapter;
  wd_pcbs : gmap Z tcp_pcb;
  wd_next : Z
}.
Arguments mk_cc_world {W}. Arguments wd_world {W}. Arguments wd_gl {W}.
Arguments wd_adapters {W}. Arguments wd_pcbs {W}. Arguments wd_next {W}.

(** lwIP and the application, as far as the accept paths call them. *)
Class LwipApi (W : Type) := {
  tcp_accept : tcp_pcb -> ptr accept_fn -> tcp_pcb;
  tcp_abort : cc_world W -> Z -> cc_world W;
  (** function, argument, connection, error *)
  app_accept : cc_world W -> Z -> callback_arg -> ptr Z -> Z -> Z * cc_world W
}.

Section World.
Context {W : Type} `{!AdapterOS W} `{!LwipParams} `{!LwipTcp W} `{!LwipApi W}.
Local Abbreviation F := (flow W).
Local Abbreviation world := (cc_world W).
Implicit Types (w : world).

Definition set_globals (f : cc_globals -> cc_globals) w : world :=
  mk_cc_world (wd_world w) (f (wd_gl w)) (wd_adapters w) (wd_pcbs w) (wd_next w).
Definition set_pcb_at (pp : Z) (f : tcp_pcb -> tcp_pcb) w : world :=
  mk_cc_world (wd_world w) (wd_gl w) (wd_adapters w) (alter f pp (wd_pcbs w)) (wd_next w).
Definition set_adapter_at (ap : Z) (f : tcp_shift_lwip_cc_adapter -> tcp_shift_lwip_cc_adapter) w
    : world :=
  mk_cc_world (wd_world w) (wd_gl w) (alter f ap (wd_adapters w)) (wd_pcbs w) (wd_next w).
Definition free_adapter (ap : Z) w : world :=
  mk_cc_world (wd_world w) (wd_gl w) (delete ap (wd_adapters w)) (wd_pcbs w) (wd_next w).
(** The process-wide statistics, written directly. *)
Definition global_policy (f : policy_stats -> policy_stats) w : world :=
  set_globals (fun g => g <| gl_stats := gl_stats g <| st_policy := f (st_policy (gl_stats g)) |> |>) w.
Definition global_pacing (f : pacing_stats -> pacing_stats) w : world :=
  set_globals (fun g => g <| gl_stats := gl_stats g <| st_pacing := f (st_pacing (gl_stats g)) |> |>) w.

(** Load an adapter and a control block as a flow, run, store them back. *)
Definition run_flow {A} w (ap pp : Z) (m : M F A) : option (A * world) :=
  match wd_adapters w !! ap, wd_pcbs w !! pp with
  | Some a, Some pcb =>
      let '(x, s) := m (mk_cc_flow (wd_world w) (wd_gl w) ap a pp pcb) in
      Some (x, mk_cc_world (fw_world s) (fw_gl s) (<[ap := fw_ad s]> (wd_adapters w))
                 (<[pp := fw_pcb s]> (wd_pcbs w)) (wd_next w))
  | _, _ => None
  end.

(** A hook call on a control block: [unbound] without a connection's hook. *)
Definition hook_call {A} w (pp : Z) (unbound : A) (m : M F A) : option (A * world) :=
  match wd_pcbs w !! pp with
  | None => None
  | Some pcb =>
      match pb_ext_cc pcb with
      | Some (ExtHook ap) => run_flow w ap pp m
      | _ => Some (unbound, w)
      end
  end.

(** ** Releases *)

(** The registry's adapter for a flow and generation, if that is current. *)
Definition registry_lookup (p : tcp_shift_pacing_service) (flow_id generation : Z) : ptr Z :=
  if (flow_id =? 0) || (flow_id >? registry_capacity p) then NULL
  else
    let entry := nth (Z.to_nat (flow_id - 1)) (pv_entries p) zero_entry in
    if is_null (pe_adapter entry) || negb (pe_generation entry =? generation) then NULL
    else pe_adapter entry.

Definition tcp_shift_lwip_cc_resume_paced w (flow_id generation actual_release_ns : Z)
    : option (Z * world) :=
  match registry_lookup (gl_pacing (wd_gl w)) flow_id generation with
  | None => Some (0, global_pacing (fun s => s <| st_pacing_stale_releases :=
                                                    st_pacing_stale_releases s +w64 1 |>) w)
  | Some ap =>
      match wd_adapters w !! ap with
      | None => None
      | Some a =>
          match ad_pcb a with
          | Some pp => run_flow w ap pp (resume_paced_flow actual_release_ns)
          | None =>
              let w := set_adapter_at ap (fun a => a <| ad_pacing_scheduled := false |>) w in
              Some (0, if ad_stats a
                       then global_pacing (fun s => s <| st_pacing_stale_releases :=
                                                           st_pacing_stale_releases s +w64 1 |>) w
                       else w)
          end
      end
  end.

Definition tcp_shift_lwip_cc_resume_recovery_timer w
    (flow_id generation kind actual_release_ns : Z) : option (Z * world) :=
  match registry_lookup (gl_pacing (wd_gl w)) flow_id generation with
  | None => Some (0, w)
  | Some ap =>
      match wd_adapters w !! ap with
      | None => None
      | Some a =>
          match ad_pcb a with
          | Some pp => run_flow w ap pp (resume_recovery_flow kind actual_release_ns)
          | None => Some (0, set_adapter_at ap (fun a =>
                      a <| ad_recovery_timer_scheduled := false |>
                        <| ad_recovery_timer_deadline_ns := 0 |>
                        <| ad_recovery_timer_kind := 0 |>) w)
          end
      end
  end.

(** ** The end of a control block *)

(** lwIP destroys a block: extension argument 0's callback runs. *)
Definition pcb_destroy w (pp : Z) : option world :=
  match wd_pcbs w !! pp with
  | None => None
  | Some pcb =>
      let drop w := mk_cc_world (wd_world w) (wd_gl w) (wd_adapters w) (delete pp (wd_pcbs w))
                      (wd_next w) in
      match pb_ext_cc pcb with
      | Some (ExtHook ap) =>
          match run_flow w ap pp tcp_shift_lwip_cc_pcb_destroyed with
          | Some (heap_owned, w) => Some (drop (if heap_owned then free_adapter ap w else w))
          | None => None
          end
      | Some (ExtListener index) =>
          Some (drop (set_globals (fun g => g <| gl_listeners :=
                        alter (fun _ => zero_listener) index (gl_listeners g) |>) w))
      | None => Some (drop w)
      end
  end.

(** ** Accepting: the adapter's dispatcher *)

(** [calloc]: the address of a new adapter. *)
Definition alloc_adapter w : option Z * world :=
  let '(ok, os) := heap_alloc (wd_world w) ADAPTER_SIZE in
  if ok then (Some (wd_next w),
              mk_cc_world os (wd_gl w) (<[wd_next w := zero_adapter]> (wd_adapters w)) (wd_pcbs w)
                (wd_next w + 1))
  else (NULL, mk_cc_world os (wd_gl w) (wd_adapters w) (wd_pcbs w) (wd_next w)).

Definition bind_failure w : world :=
  global_policy (fun s => s <| st_bind_failures := st_bind_failures s +w64 1 |>) w.

(** A listener's accept callback, given what it calls in turn. *)
Definition call_app w (fn : accept_fn) (arg : callback_arg) (newpcb : ptr Z) (err : Z)
    : option (Z * world) :=
  match fn with
  | AcceptApp id => Some (app_accept w id arg newpcb err)
  | _ => Some (ERR_VAL, w)
  end.

(** The refusal of a callback without a usable binding. *)
Definition refuse w (newpcb : ptr Z) : option (Z * world) :=
  match newpcb with
  | Some pp => Some (ERR_ABRT, tcp_abort w pp)
  | None => Some (ERR_VAL, w)
  end.

Definition abort_with w (pp : Z) : option (Z * world) := Some (ERR_ABRT, tcp_abort w pp).

(** [adapter->stats->controller_errors++] for the adapter of a block. *)
Definition count_controller_error w (ap : Z) : world :=
  match wd_adapters w !! ap with
  | Some a => if ad_stats a
              then global_policy (fun s => s <| st_controller_errors :=
                                                  st_controller_errors s +w64 1 |>) w
              else w
  | None => w
  end.

(** The adapter behind a new connection's hook. *)
Definition hook_adapter w (pp : Z) : ptr Z :=
  match wd_pcbs w !! pp with
  | Some pcb => match pb_ext_cc pcb with Some (ExtHook ap) => Some ap | _ => NULL end
  | None => NULL
  end.

Definition tcp_shift_cc_selector_accept w (arg : callback_arg) (newpcb : ptr Z) (err : Z)
    : option (Z * world) :=
  match arg with
  | ArgSelector index =>
      let b := nth index (gl_selector_bindings (wd_gl w)) zero_listener in
      match ln_accept b with
      | Some accept =>
          if negb (ln_used b) || is_null (ln_ops b) then refuse w newpcb
          else
            match newpcb with
            | None => call_app w accept (ln_callback_arg b) newpcb err
            | Some pp =>
                if negb (err =? ERR_OK) then call_app w accept (ln_callback_arg b) newpcb err
                else
                  match hook_adapter w pp with
                  | None => abort_with w pp
                  | Some ap =>
                      match run_flow w ap pp (tcp_shift_cc_selector_reinit (ln_ops b)) with
                      | None => None
                      | Some (rc, w) =>
                          if rc <? 0 then abort_with (count_controller_error w ap) pp
                          else call_app w accept (ln_callback_arg b) newpcb err
                      end
                  end
            end
      | None => refuse w newpcb
      end
  | _ => refuse w newpcb
  end.

Definition tcp_shift_lwip_bbr_accept_dispatch w (arg : callback_arg) (newpcb : ptr Z) (err : Z)
    : option (Z * world) :=
  match arg with
  | ArgBbr index =>
      let b := nth index (gl_bbr_listeners (wd_gl w)) zero_listener in
      match ln_accept b with
      | Some accept =>
          if negb (ln_used b) then refuse w newpcb
          else
            match newpcb with
            | None => call_app w accept (ln_callback_arg b) newpcb err
            | Some pp =>
                if negb (err =? ERR_OK) then call_app w accept (ln_callback_arg b) newpcb err
                else
                  match hook_adapter w pp with
                  | None => abort_with w pp
                  | Some ap =>
                      match wd_adapters w !! ap with
                      | None => None
                      | Some a =>
                          if ad_pacing_flow_id a =? 0
                          then abort_with (count_controller_error w ap) pp
                          else
                            let seed := Z.lxor (u32 (ad_pacing_flow_id a))
                                          (u32 (Z.shiftr (ad_pacing_flow_id a) 32)) in
                            match run_flow w ap pp (tcp_shift_lwip_cc_apply_internal_bbr seed) with
                            | None => None
                            | Some (rc, w) =>
                                if rc <? 0 then abort_with (count_controller_error w ap) pp
                                else call_app w accept (ln_callback_arg b) newpcb err
                            end
                      end
                  end
            end
      | None => refuse w newpcb
      end
  | _ => refuse w newpcb
  end.

(** [binding->accept(binding->callback_arg, newpcb, err)]: the application's
    function or one of the two dispatchers above. *)
Definition call_accept w (fn : accept_fn) (arg : callback_arg) (newpcb : ptr Z) (err : Z)
    : option (Z * world) :=
  match fn with
  | AcceptSelector => tcp_shift_cc_selector_accept w arg newpcb err
  | AcceptBbr => tcp_shift_lwip_bbr_accept_dispatch w arg newpcb err
  | _ => call_app w fn arg newpcb err
  end.

Definition tcp_shift_lwip_cc_accept_dispatch w (arg : callback_arg) (newpcb : ptr Z) (err : Z)
    : option (Z * world) :=
  match arg with
  | ArgAdapter index =>
      let b := nth index (gl_listeners (wd_gl w)) zero_listener in
      match ln_accept b with
      | Some accept =>
          if negb (ln_used b) then refuse w newpcb
          else
            match newpcb with
            | None => call_accept w accept (ln_callback_arg b) newpcb err
            | Some pp =>
                if negb (err =? ERR_OK) then call_accept w accept (ln_callback_arg b) newpcb err
                else
                  match alloc_adapter w with
                  | (None, w) => abort_with (bind_failure w) pp
                  | (Some ap, w) =>
                      match run_flow w ap pp (tcp_shift_lwip_cc_adapter_bind true) with
                      | None => None
                      | Some (rc, w) =>
                          if rc <? 0 then abort_with (free_adapter ap (bind_failure w)) pp
                          else
                            let w := set_adapter_at ap (fun a => a <| ad_heap_owned := true |>) w in
                            call_accept w accept (ln_callback_arg b) newpcb err
                      end
                  end
            end
      | None => refuse w newpcb
      end
  | _ => refuse w newpcb
  end.

(** ** Listening *)

Definition is_listener w (pp : Z) : bool :=
  match wd_pcbs w !! pp with Some pcb => bool_decide (pb_state pcb = LISTEN) | None => false end.

Definition accept_at (pp : Z) (accept : ptr accept_fn) w : world :=
  set_pcb_at pp (fun pcb => tcp_accept pcb accept) w.

Definition callback_arg_of w (pp : Z) : callback_arg :=
  match wd_pcbs w !! pp with Some pcb => pb_callback_arg pcb | None => ArgApp 0 end.

Definition tcp_shift_lwip_cc_accept w (pp : Z) (accept : ptr accept_fn) : world :=
  if negb (is_listener w pp) then accept_at pp accept w
  else
    match listener_index (fun b => negb (ln_used b)) (gl_listeners (wd_gl w)) with
    | None => accept_at pp NULL (bind_failure w)
    | Some index =>
        let b := mk_listener (Some pp) accept (callback_arg_of w pp) NULL true in
        let w := set_globals (fun g => g <| gl_listeners :=
                                              alter (fun _ => b) index (gl_listeners g) |>) w in
        let w := set_pcb_at pp (fun pcb => pcb <| pb_callback_arg := ArgAdapter index |>
                                               <| pb_ext_cc := Some (ExtListener index) |>) w in
        accept_at pp (Some AcceptAdapter) w
    end.

Definition set_bbr_listener (index : nat) (b : listener_binding) w : world :=
  set_globals (fun g => g <| gl_bbr_listeners := alter (fun _ => b) index (gl_bbr_listeners g) |>) w.

Definition tcp_shift_lwip_bbr_find_listener w (pp : Z) : option nat :=
  listener_index (listener_is pp) (gl_bbr_listeners (wd_gl w)).
Definition tcp_shift_lwip_bbr_alloc_listener w : option nat :=
  listener_index (fun b => negb (ln_used b)) (gl_bbr_listeners (wd_gl w)).

(** The found binding, or a free one. *)
Definition or_alloc (found free : option nat) : option nat :=
  match found with Some i => Some i | None => free end.

Definition tcp_shift_lwip_cc_accept_internal_bbr w (pp : Z) (accept : ptr accept_fn) : world :=
  if negb (is_listener w pp) then tcp_shift_lwip_cc_accept w pp accept
  else
    let found := tcp_shift_lwip_bbr_find_listener w pp in
    match accept with
    | None =>
        let w := match found with Some i => set_bbr_listener i zero_listener w | None => w end in
        tcp_shift_lwip_cc_accept w pp NULL
    | Some _ =>
        match or_alloc found (tcp_shift_lwip_bbr_alloc_listener w) with
        | None => tcp_shift_lwip_cc_accept w pp NULL
        | Some i =>
            let b := mk_listener (Some pp) accept (callback_arg_of w pp) NULL true in
            let w := set_bbr_listener i b w in
            let w := set_pcb_at pp (fun pcb => pcb <| pb_callback_arg := ArgBbr i |>) w in
            tcp_shift_lwip_cc_accept w pp (Some AcceptBbr)
        end
    end.

Definition set_selector_binding (index : nat) (b : listener_binding) w : world :=
  set_globals (fun g => g <| gl_selector_bindings :=
                               alter (fun _ => b) index (gl_selector_bindings g) |>) w.

Definition tcp_shift_lwip_cc_accept_selected w (pp : Z) (accept : ptr accept_fn) : world :=
  if gl_selector_internal_bbr (wd_gl w) then tcp_shift_lwip_cc_accept_internal_bbr w pp accept
  else if negb (is_listener w pp) then tcp_shift_lwip_cc_accept w pp accept
  else
    let found := tcp_shift_cc_selector_find (wd_gl w) pp in
    match accept with
    | None =>
        let w := match found with Some i => set_selector_binding i zero_listener w | None => w end in
        accept_at pp NULL w
    | Some _ =>
        match or_alloc found (tcp_shift_cc_selector_alloc (wd_gl w)) with
        | None => tcp_shift_lwip_cc_accept w pp NULL
        | Some i =>
            match tcp_shift_cc_selector_current (wd_gl w) with
            | None => tcp_shift_lwip_cc_accept (set_selector_binding i zero_listener w) pp NULL
            | Some ops =>
                let b := mk_listener (Some pp) accept (callback_arg_of w pp) (Some ops) true in
                let w := set_selector_binding i b w in
                let w := set_pcb_at pp (fun pcb => pcb <| pb_callback_arg := ArgSelector i |>) w in
                tcp_shift_lwip_cc_accept w pp (Some AcceptSelector)
            end
        end
    end.

End World.
