(* ===== verification/AdapterFrame.v ===== *)
(** * What the adapter's functions leave alone

    [frames p m]: [m] does not change the projection [p] of the flow. Three
    projections, from fine to coarse: [core] is what the pacing, recovery and
    policy functions never write; [ledger_core] also lets the delivery ledger
    change; [identity] is what no callback of lwIP writes: the flow's
    registration, its pointers and the process-wide tables. *)

From Stdlib Require Import ZArith Lia Bool List.
From stdpp Require Import base tactics numbers list.
From S2P Require Import Prelude StateMonad CC Observation Reno Cubic CubicController Registry Rack Prr.
From S2P Require Import TransportPacing BbrModel BbrProbe BbrController FlowPacer.
From S2P Require Import AdapterData AdapterDelivery AdapterPacing AdapterRecovery AdapterRate.
From S2P Require Import AdapterPolicy Adapter Selector BbrInternal AdapterHooks.
Local Open Scope Z_scope.

Definition frames {S X A : Type} (p : S -> X) (m : M S A) : Prop := forall s, p (m s).2 = p s.

Section Rules.
Context {S X : Type} (p : S -> X).

Lemma frames_ret {A} (a : A) : frames p (ret a).
Proof. done. Qed.
Lemma frames_gets {A} (f : S -> A) : frames p (gets f).
Proof. done. Qed.
Lemma frames_bind {A B} (m : M S A) (k : A -> M S B) :
  frames p m -> (forall a, frames p (k a)) -> frames p (bind m k).
Proof. intros Hm Hk s. rewrite bind_run, Hk. apply Hm. Qed.
Lemma frames_when (c : bool) (m : M S unit) : frames p m -> frames p (when c m).
Proof. by destruct c. Qed.
Lemma frames_modify (f : S -> S) : (forall s, p (f s) = p s) -> frames p (modify f).
Proof. intros Hf s. apply Hf. Qed.
Lemma frames_through {Y A} (h : X -> Y) (q : S -> Y) (m : M S A) :
  (forall s, q s = h (p s)) -> frames p m -> frames q m.
Proof. intros Hq Hm s. by rewrite !Hq, Hm. Qed.
Lemma frames_keeps {A} (I : X -> Prop) (m : M S A) : frames p m -> keeps (fun s => I (p s)) m.
Proof. intros Hm s Hs. by rewrite Hm. Qed.
End Rules.

Create HintDb frames.
#[export] Hint Resolve frames_ret frames_gets : frames.

Ltac frames_step :=
  match goal with
  | |- frames _ (bind _ _) => apply frames_bind; [|intros ?]
  | |- frames _ (when _ _) => apply frames_when
  | |- frames _ (if ?x then _ else _) => destruct x
  | |- frames _ (match ?x with _ => _ end) => destruct x
  | |- frames _ (ret _) => apply frames_ret
  end.
Ltac frames_walk := repeat (first [solve [auto with frames nocore] | frames_step]).

(** ** The projections *)

Definition core_binding (b : tcp_shift_lwip_bbr_binding) : ptr Z * ptr hook_ops_ref * Z :=
  (bb_adapter b, bb_base_hook_ops b, bb_cycle_seed b).

(** Everything but the windows and the sidecar's contents. *)
Definition core_pcb (p : tcp_pcb) : tcp_pcb * ptr (ptr Z * ptr hook_ops_ref * Z) :=
  (p <| pb_cwnd := 0 |> <| pb_ssthresh := 0 |> <| pb_bytes_acked := 0 |> <| pb_ext_bbr := NULL |>,
   core_binding <$> pb_ext_bbr p).

(** Everything but the controller's memory, the clocks, the pacing and
    recovery-timer fields, RACK, PRR, the smoothed RTT and [bound]. *)
Definition core_ad (a : tcp_shift_lwip_cc_adapter) : tcp_shift_lwip_cc_adapter :=
  mk_adapter (ad_hook a) (ad_ops a) (ad_state a) zero_builtin (mk_srtt 0 0) tcp_shift_rack_tlp_init
    tcp_shift_prr_reset (ad_stats a) (ad_pcb a) (ad_delivery_slots a) (ad_delivered_bytes a)
    (ad_delivered_mstamp_ns a) 0 0 (ad_rate_first_tx_mstamp_ns a) (ad_app_limited_until_bytes a)
    0 0 (ad_pacing_flow_id a) 0 0 0 (ad_pacing_generation a) 0 0 0 0 (ad_delivery_live a)
    false false false false (ad_heap_owned a) (ad_sack_delivery_policy a).

Definition core_gl (g : cc_globals) : cc_globals := g <| gl_stats := zero_cc_stats |>.

Definition core {W} (s : flow W) :=
  (core_gl (fw_gl s), fw_self s, core_ad (fw_ad s), fw_ptr s, core_pcb (fw_pcb s)).

(** The ledger's fields erased too. *)
Definition ledger_core_ad (a : tcp_shift_lwip_cc_adapter) : tcp_shift_lwip_cc_adapter :=
  core_ad a <| ad_delivery_slots := [] |> <| ad_delivered_bytes := 0 |>
            <| ad_delivered_mstamp_ns := 0 |> <| ad_rate_first_tx_mstamp_ns := 0 |>
            <| ad_app_limited_until_bytes := 0 |> <| ad_delivery_live := 0 |>.

Definition ledger_core {W} (s : flow W) :=
  (core_gl (fw_gl s), fw_self s, ledger_core_ad (fw_ad s), fw_ptr s, core_pcb (fw_pcb s)).

(** The hook's episode and the handle erased too. *)
Definition identity_ad (a : tcp_shift_lwip_cc_adapter) : tcp_shift_lwip_cc_adapter :=
  ledger_core_ad a <| ad_hook := zero_hook |> <| ad_ops := NULL |> <| ad_state := NULL |>.

Definition identity {W} (s : flow W) :=
  (core_gl (fw_gl s), fw_self s, identity_ad (fw_ad s), fw_ptr s, pb_ext_cc (fw_pcb s)).

Section Frames.
Context {W : Type} `{!AdapterOS W} `{!LwipParams}.
Local Abbreviation F := (flow W).
Implicit Types (A : Type).

Lemma ledger_of_core {A} (m : M F A) : frames core m -> frames ledger_core m.
Proof.
  apply (frames_through core
    (fun '(g, self, a, pp, pcb) =>
       (g, self, a <| ad_delivery_slots := [] |> <| ad_delivered_bytes := 0 |>
                   <| ad_delivered_mstamp_ns := 0 |> <| ad_rate_first_tx_mstamp_ns := 0 |>
                   <| ad_app_limited_until_bytes := 0 |> <| ad_delivery_live := 0 |>, pp, pcb))).
  done.
Qed.

Lemma identity_of_ledger {A} (m : M F A) : frames ledger_core m -> frames identity m.
Proof.
  apply (frames_through ledger_core
    (fun '(g, self, a, pp, pcb) =>
       (g, self, a <| ad_hook := zero_hook |> <| ad_ops := NULL |> <| ad_state := NULL |>, pp,
        pb_ext_cc pcb.1))).
  done.
Qed.

Lemma identity_of_core {A} (m : M F A) : frames core m -> frames identity m.
Proof. intros Hm. by apply identity_of_ledger, ledger_of_core. Qed.

(** ** The writes *)

Lemma core_upd_ad f : (forall a, core_ad (f a) = core_ad a) -> frames core (upd_ad (W := W) f).
Proof. intros Hf s. unfold core; cbn. by rewrite Hf. Qed.
Lemma core_upd_pcb f : (forall p, core_pcb (f p) = core_pcb p) -> frames core (upd_pcb (W := W) f).
Proof. intros Hf s. unfold core; cbn. by rewrite Hf. Qed.
Lemma core_call_os {A} (f : W -> A * W) : frames core (call_os f).
Proof. intros s. unfold call_os, core. by destruct (f (fw_world s)). Qed.
Lemma core_note f : frames core (note (W := W) f).
Proof. intros s. unfold note, when, bind, get_ad, gets. by destruct (ad_stats (fw_ad s)). Qed.
Lemma core_get_ad : frames core (get_ad (W := W)).
Proof. done. Qed.
Lemma core_get_pcb : frames core (get_pcb (W := W)).
Proof. done. Qed.
Lemma core_get_gl : frames core (get_gl (W := W)).
Proof. done. Qed.
Lemma core_live : frames core (live (W := W)).
Proof. done. Qed.
Lemma core_hook_get : frames core (tcp_shift_lwip_cc_hook_get (W := W)).
Proof. done. Qed.
Lemma core_flow_transport : frames core (flow_transport (W := W)).
Proof. done. Qed.

End Frames.

#[export] Hint Resolve core_call_os core_note core_get_ad core_get_pcb core_get_gl core_live
  core_hook_get core_flow_transport : frames.
(** An update whose fields [core] erases. *)
#[export] Hint Extern 2 (frames core (upd_ad _)) => (apply core_upd_ad; intros; reflexivity) : frames.
#[export] Hint Extern 2 (frames core (upd_pcb _)) => (apply core_upd_pcb; intros; reflexivity) : frames.
#[export] Hint Extern 1 (frames core (note_policy _)) => (apply core_note) : frames.
#[export] Hint Extern 1 (frames core (note_delivery _)) => (apply core_note) : frames.
#[export] Hint Extern 1 (frames core (note_rate _)) => (apply core_note) : frames.
#[export] Hint Extern 1 (frames core (note_pacing _)) => (apply core_note) : frames.
#[export] Hint Extern 1 (frames core (note_recovery _)) => (apply core_note) : frames.
#[export] Hint Extern 1 (frames core (note_bbr _)) => (apply core_note) : frames.
#[export] Hint Extern 1 (frames core (note_bbr_timeout _)) => (apply core_note) : frames.

Section Core.
Context {W : Type} `{!AdapterOS W} `{!LwipParams}.
Local Abbreviation F := (flow W).

(** ** Pacing *)

Lemma core_now : frames core (tcp_shift_delivery_now_ns (W := W)).
Proof. unfold tcp_shift_delivery_now_ns. frames_walk. Qed.
Hint Resolve core_now : frames.

Lemma core_scheduler_error : frames core (pacing_scheduler_error (W := W)).
Proof. unfold pacing_scheduler_error. frames_walk. Qed.
Lemma core_pacing_off : frames core (pacing_off (W := W)).
Proof. unfold pacing_off. frames_walk. Qed.
Hint Resolve core_scheduler_error core_pacing_off : frames.

Lemma core_pacing_cancel : frames core (tcp_shift_pacing_cancel (W := W)).
Proof. unfold tcp_shift_pacing_cancel. frames_walk. Qed.
Lemma core_timer_cancel : frames core (tcp_shift_recovery_timer_cancel (W := W)).
Proof. unfold tcp_shift_recovery_timer_cancel. frames_walk. Qed.
Lemma core_note_tx n now : frames core (tcp_shift_pacing_note_tx (W := W) n now).
Proof. unfold tcp_shift_pacing_note_tx. frames_walk. Qed.
Lemma core_pacing_defer d n : frames core (pacing_defer (W := W) d n).
Proof. unfold pacing_defer. frames_walk. Qed.
Hint Resolve core_pacing_cancel core_timer_cancel core_note_tx core_pacing_defer : frames.

Lemma core_send_eligible n : frames core (tcp_shift_lwip_cc_on_segment_send_eligible (W := W) n).
Proof. unfold tcp_shift_lwip_cc_on_segment_send_eligible. frames_walk. Qed.
Lemma core_effective_cwnd : frames core (tcp_shift_lwip_cc_effective_cwnd (W := W)).
Proof. unfold tcp_shift_lwip_cc_effective_cwnd. frames_walk. Qed.

(** ** Recovery *)

Lemma core_prr_inflight : frames core (tcp_shift_lwip_cc_prr_inflight (W := W)).
Proof. unfold tcp_shift_lwip_cc_prr_inflight. frames_walk. Qed.
Lemma core_prr_reset : frames core (tcp_shift_lwip_cc_prr_reset_live (W := W)).
Proof. unfold tcp_shift_lwip_cc_prr_reset_live. frames_walk. Qed.
Lemma core_prr_note_delivery : frames core (tcp_shift_lwip_cc_prr_note_delivery (W := W)).
Proof. apply core_upd_ad. intros a. by case_match. Qed.
Hint Resolve core_prr_inflight core_prr_reset core_prr_note_delivery : frames.

Lemma core_prr_publish r n b : frames core (prr_publish (W := W) r n b).
Proof. unfold prr_publish. frames_walk. Qed.
Hint Resolve core_prr_publish : frames.
Lemma core_prr_apply_ack n safe : frames core (tcp_shift_lwip_cc_prr_apply_ack (W := W) n safe).
Proof. unfold tcp_shift_lwip_cc_prr_apply_ack. frames_walk. Qed.
Hint Resolve core_prr_apply_ack : frames.

Lemma core_prr_begin : frames core (tcp_shift_lwip_cc_prr_begin (W := W)).
Proof. unfold tcp_shift_lwip_cc_prr_begin. frames_walk. Qed.
Lemma core_prr_ack_begin : frames core (tcp_shift_lwip_cc_prr_ack_begin (W := W)).
Proof. unfold tcp_shift_lwip_cc_prr_ack_begin. frames_walk. Qed.
Lemma core_prr_active : frames core (tcp_shift_lwip_cc_prr_active (W := W)).
Proof. unfold tcp_shift_lwip_cc_prr_active. frames_walk. Qed.
Lemma core_record_stats : frames core (tcp_shift_rack_record_stats (W := W)).
Proof. unfold tcp_shift_rack_record_stats. frames_walk. Qed.
Lemma core_deadline now : frames core (tcp_shift_rack_detection_deadline (W := W) now).
Proof. unfold tcp_shift_rack_detection_deadline. frames_walk. Qed.
Lemma core_disarm : frames core (recovery_timer_disarm (W := W)).
Proof. unfold recovery_timer_disarm. frames_walk. Qed.
Lemma core_arm d k : frames core (recovery_timer_arm (W := W) d k).
Proof. unfold recovery_timer_arm. frames_walk. Qed.
Hint Resolve core_prr_begin core_record_stats core_deadline core_disarm core_arm : frames.

Lemma core_arm_detection now : frames core (tcp_shift_rack_arm_detection_timer (W := W) now).
Proof. unfold tcp_shift_rack_arm_detection_timer. frames_walk. Qed.
Lemma core_pto_disarm : frames core (pto_disarm (W := W)).
Proof. unfold pto_disarm. frames_walk. Qed.
Hint Resolve core_arm_detection core_pto_disarm : frames.
Lemma core_arm_pto now : frames core (tcp_shift_tlp_arm_pto (W := W) now).
Proof. unfold tcp_shift_tlp_arm_pto. frames_walk. Qed.
Lemma core_rack_loss_status seg : frames core (tcp_shift_lwip_cc_rack_loss_status (W := W) seg).
Proof. unfold tcp_shift_lwip_cc_rack_loss_status. frames_walk. Qed.
Hint Resolve core_arm_pto : frames.

(** ** Controllers *)

Lemma as_callback_frames (m : M F (Z * tcp_shift_cc_policy)) s :
  frames core m -> core (as_callback m s).1.2 = core s.
Proof. intros Hm. unfold as_callback. rewrite <- (Hm s). by destruct (m s) as [[??]?]. Qed.

Lemma core_on_builtin {S} view store (f : S -> Z * S * tcp_shift_cc_policy) :
  frames core (on_builtin (W := W) view store f).
Proof. unfold on_builtin. frames_walk. Qed.

Lemma core_set_cubic_pacing inner active :
  frames core (tcp_shift_cc_selector_set_cubic_pacing (W := W) inner active).
Proof. unfold tcp_shift_cc_selector_set_cubic_pacing. frames_walk. Qed.
Hint Resolve core_set_cubic_pacing : frames.

Lemma core_apply_transport_pacing inner t p :
  frames core (tcp_shift_cc_selector_apply_transport_pacing (W := W) inner t p).
Proof. unfold tcp_shift_cc_selector_apply_transport_pacing. frames_walk. Qed.

Lemma core_upd_binding f :
  (forall b, core_binding (f b) = core_binding b) -> frames core (upd_binding (W := W) f).
Proof.
  intros Hf. apply core_upd_pcb. intros p. unfold core_pcb. cbn. f_equal.
  destruct (pb_ext_bbr p) as [b|]; cbn; [by rewrite Hf|done].
Qed.

Lemma core_set_bbr_controller c : frames core (set_bbr_controller (W := W) c).
Proof. by apply core_upd_binding. Qed.
Hint Resolve core_set_bbr_controller : frames.
Hint Extern 2 (frames core (upd_binding _)) => (apply core_upd_binding; intros; reflexivity) : frames.

Lemma core_binding_note b (m : M F unit) : frames core m -> frames core (binding_note b m).
Proof. apply frames_when. Qed.
Hint Resolve core_binding_note : frames.

Lemma core_bbr_now : frames core (tcp_shift_lwip_bbr_now_ns (W := W)).
Proof. unfold tcp_shift_lwip_bbr_now_ns. frames_walk. Qed.
Lemma core_bbr_note_cwnd b : frames core (tcp_shift_lwip_bbr_note_recovery_cwnd (W := W) b).
Proof. apply core_binding_note. frames_walk. Qed.
Lemma core_bbr_record b : frames core (tcp_shift_lwip_bbr_record_stats (W := W) b).
Proof. apply core_binding_note. frames_walk. Qed.
Hint Resolve core_bbr_now core_bbr_note_cwnd core_bbr_record : frames.

Lemma core_bbr_init t i p : frames core (tcp_shift_lwip_bbr_init (W := W) t i p).
Proof. unfold tcp_shift_lwip_bbr_init. frames_walk. Qed.
Lemma core_bbr_on_ack t ack p : frames core (tcp_shift_lwip_bbr_on_ack (W := W) t ack p).
Proof.
  unfold tcp_shift_lwip_bbr_on_ack. frames_walk. apply core_binding_note. frames_walk.
Qed.
Lemma core_bbr_on_loss t l p : frames core (tcp_shift_lwip_bbr_on_loss (W := W) t l p).
Proof.
  unfold tcp_shift_lwip_bbr_on_loss. frames_walk; apply core_binding_note; frames_walk.
Qed.
Lemma core_bbr_note_timeout b t : frames core (bbr_note_timeout (W := W) b t).
Proof. unfold bbr_note_timeout. frames_walk. Qed.
Hint Resolve core_bbr_note_timeout : frames.
Lemma core_bbr_on_timeout t p : frames core (tcp_shift_lwip_bbr_on_timeout (W := W) t p).
Proof. unfold tcp_shift_lwip_bbr_on_timeout. frames_walk. Qed.

(** A vtable whose callbacks leave [core] alone. *)
Record quiet_vtable (o : tcp_shift_cc_ops F) : Prop := {
  quiet_init : forall f, ops_init o = Some f -> forall s t i p, core (f s t i p).1.2 = core s;
  quiet_on_ack : forall f, ops_on_ack o = Some f -> forall s t a p, core (f s t a p).1.2 = core s;
  quiet_on_loss : forall f, ops_on_loss o = Some f -> forall s t l p, core (f s t l p).1.2 = core s;
  quiet_on_ecn : forall f, ops_on_ecn o = Some f -> forall s t p, core (f s t p).1.2 = core s;
  quiet_on_timeout : forall f, ops_on_timeout o = Some f -> forall s t p, core (f s t p).1.2 = core s
}.

Lemma builtin_quiet {S} view store (ops : tcp_shift_cc_ops S) :
  quiet_vtable (builtin_vtable (W := W) view store ops).
Proof.
  split; cbn; intros f Hf; intros; apply fmap_Some in Hf as (g & _ & ->);
    apply as_callback_frames, core_on_builtin.
Qed.

Lemma paced_quiet inner raw t p :
  (forall f, raw = Some f -> forall p s, core (f p s).1.2 = core s) ->
  frames core (paced_callback (W := W) inner raw t p).
Proof.
  intros Hraw s. unfold paced_callback. destruct raw as [f|]; [|done].
  specialize (Hraw f eq_refl p s). destruct (f p s) as [[rc s'] p'] eqn:E. cbn in Hraw.
  case_match; [done|]. by rewrite core_apply_transport_pacing.
Qed.

Ltac paced_tac Hq :=
  intros f [= <-]; intros; apply as_callback_frames, paced_quiet; intros g Hg; intros;
  apply fmap_Some in Hg as (h & Hh & ->); by eapply Hq.

Lemma paced_reno_quiet : quiet_vtable (tcp_shift_cc_selector_paced_reno_ops (W := W)).
Proof.
  pose proof (builtin_quiet as_reno builtin_reno tcp_shift_reno_ops) as Hq.
  split; [done|paced_tac (quiet_on_ack _ Hq)|paced_tac (quiet_on_loss _ Hq)
         |paced_tac (quiet_on_ecn _ Hq)|paced_tac (quiet_on_timeout _ Hq)].
Qed.

Lemma paced_cubic_quiet : quiet_vtable (tcp_shift_cc_selector_paced_cubic_ops (W := W)).
Proof.
  pose proof (builtin_quiet as_cubic builtin_cubic tcp_shift_cubic_ops) as Hq.
  split; [done|paced_tac (quiet_on_ack _ Hq)|paced_tac (quiet_on_loss _ Hq)
         |paced_tac (quiet_on_ecn _ Hq)|paced_tac (quiet_on_timeout _ Hq)].
Qed.

Lemma bbr_quiet : quiet_vtable (tcp_shift_lwip_internal_bbr_ops (W := W)).
Proof.
  split; cbn; intros f Hf; simplify_eq; intros; apply as_callback_frames;
    auto using core_bbr_init, core_bbr_on_ack, core_bbr_on_loss, core_bbr_on_timeout.
Qed.

Lemma cc_vtable_quiet ops : quiet_vtable (cc_vtable (W := W) ops).
Proof.
  destruct ops; [apply builtin_quiet|apply builtin_quiet|apply paced_reno_quiet
                |apply paced_cubic_quiet|apply bbr_quiet].
Qed.

(** A dispatch on the handle ends in a callback of its vtable. *)
Lemma cc_call_core s p callback :
  (forall o f, callback (cc_vtable o) = Some f -> forall s p, core (f s p).1.2 = core s) ->
  core (handle_result s (cc_call (cc_handle s) p callback)).2 = core s.
Proof.
  intros Hcb. unfold cc_call, cc_handle. cbn.
  destruct (ad_ops (fw_ad s)) as [o|]; cbn; [|by destruct (ad_state (fw_ad s))].
  destruct (ad_state (fw_ad s)) as [st|]; cbn; [|done].
  destruct (callback (cc_vtable o)) as [f|] eqn:Ef; [|done].
  specialize (Hcb o f Ef s p). by destruct (f s p) as [[rc s'] p'].
Qed.

Lemma handle_same (s : F) rc p :
  core (handle_result s (rc, Some (cc_handle s), p)).2 = core s.
Proof. cbn. unfold cc_handle. cbn. by destruct (ad_state (fw_ad s)). Qed.

Ltac dispatch_tac :=
  case_match; [apply handle_same|]; apply cc_call_core; intros o f Hf; intros;
  apply fmap_Some in Hf as (g & Hg & ->).

Lemma core_controller_on_ack t a : frames core (controller_on_ack (W := W) t a).
Proof.
  intros s. unfold controller_on_ack, tcp_shift_cc_on_ack. dispatch_tac.
  eapply quiet_on_ack; [apply cc_vtable_quiet|done].
Qed.
Lemma core_controller_on_loss t l : frames core (controller_on_loss (W := W) t l).
Proof.
  intros s. unfold controller_on_loss, tcp_shift_cc_on_loss. dispatch_tac.
  eapply quiet_on_loss; [apply cc_vtable_quiet|done].
Qed.
Lemma core_controller_on_ecn t : frames core (controller_on_ecn (W := W) t).
Proof.
  intros s. unfold controller_on_ecn, tcp_shift_cc_on_ecn. dispatch_tac.
  eapply quiet_on_ecn; [apply cc_vtable_quiet|done].
Qed.
Lemma core_controller_on_timeout t : frames core (controller_on_timeout (W := W) t).
Proof.
  intros s. unfold controller_on_timeout, tcp_shift_cc_on_timeout. dispatch_tac.
  eapply quiet_on_timeout; [apply cc_vtable_quiet|done].
Qed.
Hint Resolve core_controller_on_ack core_controller_on_loss core_controller_on_ecn
  core_controller_on_timeout : frames.

Lemma core_publish p : frames core (publish_policy (W := W) p).
Proof. unfold publish_policy. frames_walk. Qed.
Hint Resolve core_publish : frames.
Lemma core_apply_policy p : frames core (tcp_shift_lwip_cc_apply_policy (W := W) p).
Proof. unfold tcp_shift_lwip_cc_apply_policy. frames_walk. Qed.
Lemma core_bbr_apply_policy p : frames core (tcp_shift_lwip_bbr_apply_policy (W := W) p).
Proof. unfold tcp_shift_lwip_bbr_apply_policy. frames_walk. Qed.
Lemma core_disable : frames core (tcp_shift_lwip_cc_disable_on_error (W := W)).
Proof. unfold tcp_shift_lwip_cc_disable_on_error. frames_walk. Qed.
Hint Resolve core_apply_policy core_bbr_apply_policy core_disable : frames.
Lemma core_apply_or_disable (m : M F (Z * tcp_shift_cc_policy)) :
  frames core m -> frames core (apply_or_disable m).
Proof. intros Hm. unfold apply_or_disable. frames_walk. Qed.
Hint Resolve core_apply_or_disable : frames.
Lemma core_count_loss : frames core (count_loss (W := W)).
Proof. unfold count_loss. frames_walk. Qed.
Hint Resolve core_count_loss : frames.

Lemma core_tlp_loss n : frames core (tcp_shift_lwip_cc_on_tlp_loss (W := W) n).
Proof. unfold tcp_shift_lwip_cc_on_tlp_loss. frames_walk. Qed.
Lemma core_binding_from : frames core (tcp_shift_lwip_bbr_binding_from_adapter (W := W)).
Proof. unfold tcp_shift_lwip_bbr_binding_from_adapter. frames_walk. Qed.
Hint Resolve core_tlp_loss core_binding_from : frames.
Lemma core_bbr_tlp_loss n : frames core (tcp_shift_lwip_bbr_hook_tlp_loss (W := W) n).
Proof. unfold tcp_shift_lwip_bbr_hook_tlp_loss. frames_walk. Qed.
Lemma core_selector_tlp_loss n : frames core (tcp_shift_cc_selector_pacing_on_tlp_loss (W := W) n).
Proof. unfold tcp_shift_cc_selector_pacing_on_tlp_loss. frames_walk. Qed.
Hint Resolve core_bbr_tlp_loss core_selector_tlp_loss : frames.
Lemma core_hook_tlp_loss n : frames core (tcp_shift_lwip_cc_hook_tlp_loss (W := W) n).
Proof. unfold tcp_shift_lwip_cc_hook_tlp_loss. frames_walk. Qed.

End Core.

#[export] Hint Resolve core_now core_scheduler_error core_pacing_off core_pacing_cancel
  core_timer_cancel core_note_tx core_pacing_defer core_send_eligible core_effective_cwnd
  core_prr_inflight core_prr_reset core_prr_note_delivery core_prr_publish core_prr_apply_ack core_prr_begin
  core_prr_ack_begin core_prr_active core_record_stats core_deadline core_disarm core_arm
  core_arm_detection core_pto_disarm core_arm_pto core_rack_loss_status core_set_cubic_pacing
  core_apply_transport_pacing core_set_bbr_controller core_bbr_now core_bbr_note_cwnd
  core_bbr_record core_bbr_init core_controller_on_ack core_controller_on_loss
  core_controller_on_ecn core_controller_on_timeout core_publish core_apply_policy
  core_bbr_apply_policy core_disable core_apply_or_disable core_count_loss core_tlp_loss
  core_binding_from core_bbr_tlp_loss core_selector_tlp_loss core_hook_tlp_loss : frames.
#[export] Hint Extern 2 (frames core (upd_binding _)) =>
  (apply core_upd_binding; intros; reflexivity) : frames.

(** ** The policy callbacks *)

Section Callbacks.
Context {W : Type} `{!AdapterOS W} `{!LwipParams}.
Local Abbreviation F := (flow W).

Lemma core_upd_rack f : frames core (upd_rack (W := W) f).
Proof. by apply core_upd_ad. Qed.
Hint Resolve core_upd_rack : frames.
Lemma core_refresh_sacked : frames core (refresh_sacked (W := W)).
Proof. unfold refresh_sacked. frames_walk. Qed.
Lemma core_refresh_rtt : frames core (refresh_rtt_estimates (W := W)).
Proof. by apply core_upd_ad. Qed.
Lemma core_update_srtt r : frames core (update_srtt (W := W) r).
Proof. unfold update_srtt. frames_walk. Qed.
Lemma core_tlp_on_ack : frames core (tlp_on_ack (W := W)).
Proof. unfold tlp_on_ack. frames_walk. Qed.
Lemma core_controller_ack a : frames core (controller_ack (W := W) a).
Proof. unfold controller_ack. frames_walk. Qed.
Lemma core_note_dsack q l : frames core (note_dsack (W := W) q l).
Proof. unfold note_dsack. frames_walk. Qed.
Lemma core_tlp_dupack b : frames core (tcp_shift_lwip_cc_on_tlp_dupack (W := W) b).
Proof. unfold tcp_shift_lwip_cc_on_tlp_dupack. frames_walk. Qed.
Lemma core_prr_enter : frames core (prr_enter (W := W)).
Proof. unfold prr_enter. frames_walk. Qed.
Hint Resolve core_refresh_sacked core_refresh_rtt core_update_srtt core_tlp_on_ack
  core_controller_ack core_note_dsack core_prr_enter : frames.
Lemma core_controller_loss n (m : M F unit) : frames core m -> frames core (controller_loss n m).
Proof. intros Hm. unfold controller_loss. frames_walk. Qed.
Lemma core_rack_retrans_loss n : frames core (tcp_shift_lwip_cc_on_rack_retrans_loss (W := W) n).
Proof. unfold tcp_shift_lwip_cc_on_rack_retrans_loss. frames_walk. apply core_controller_loss. frames_walk. Qed.
Hint Resolve core_controller_loss : frames.
Lemma core_on_loss n : frames core (tcp_shift_lwip_cc_on_loss (W := W) n).
Proof. unfold tcp_shift_lwip_cc_on_loss. frames_walk. Qed.
Lemma core_on_ecn : frames core (tcp_shift_lwip_cc_on_ecn (W := W)).
Proof. unfold tcp_shift_lwip_cc_on_ecn. frames_walk. Qed.
Lemma core_ecn_gate b : frames core (tcp_shift_lwip_cc_on_ecn_rto_gate (W := W) b).
Proof. unfold tcp_shift_lwip_cc_on_ecn_rto_gate. frames_walk. Qed.
Lemma core_prr_finish c : frames core (prr_finish (W := W) c).
Proof. unfold prr_finish. frames_walk. Qed.
Hint Resolve core_prr_finish : frames.
Lemma core_recovery_exit q : frames core (tcp_shift_lwip_cc_on_recovery_exit (W := W) q).
Proof. unfold tcp_shift_lwip_cc_on_recovery_exit. frames_walk. Qed.
Lemma core_on_timeout : frames core (tcp_shift_lwip_cc_on_timeout (W := W)).
Proof. unfold tcp_shift_lwip_cc_on_timeout. frames_walk. Qed.

End Callbacks.

#[export] Hint Resolve core_upd_rack core_refresh_sacked core_refresh_rtt core_update_srtt
  core_tlp_on_ack core_controller_ack core_note_dsack core_tlp_dupack core_prr_enter
  core_controller_loss core_rack_retrans_loss core_on_loss core_on_ecn core_ecn_gate
  core_recovery_exit core_on_timeout : frames.

(** ** The ledger's callbacks *)

#[export] Hint Extern 5 (frames ledger_core _) =>
  (apply ledger_of_core; solve [auto with frames nocore]) : frames.

Section Ledger.
Context {W : Type} `{!AdapterOS W} `{!LwipParams}.
Local Abbreviation F := (flow W).

Lemma ledger_upd_ad f :
  (forall a, ledger_core_ad (f a) = ledger_core_ad a) -> frames ledger_core (upd_ad (W := W) f).
Proof. intros Hf s. unfold ledger_core; cbn. by rewrite Hf. Qed.
Hint Extern 3 (frames ledger_core (upd_ad _)) =>
  (apply ledger_upd_ad; intros; repeat case_match; reflexivity) : frames.

Lemma ledger_upd_slot i f : frames ledger_core (upd_slot (W := W) i f).
Proof. by apply ledger_upd_ad. Qed.
Hint Resolve ledger_upd_slot : frames.

Lemma ledger_grow : frames ledger_core (tcp_shift_delivery_grow (W := W)).
Proof. unfold tcp_shift_delivery_grow. frames_walk. Qed.
Hint Resolve ledger_grow : frames.
Lemma ledger_room : frames ledger_core (delivery_room (W := W)).
Proof. unfold delivery_room. frames_walk. Qed.
Hint Resolve ledger_room : frames.
Lemma ledger_create seg : frames ledger_core (tcp_shift_delivery_create (W := W) seg).
Proof. unfold tcp_shift_delivery_create. frames_walk. Qed.
Lemma ledger_release i : frames ledger_core (tcp_shift_delivery_release_slot (W := W) i).
Proof. unfold tcp_shift_delivery_release_slot. frames_walk. Qed.
Lemma ledger_release_all : frames ledger_core (tcp_shift_delivery_release_all (W := W)).
Proof. unfold tcp_shift_delivery_release_all. frames_walk. Qed.
Hint Resolve ledger_create ledger_release : frames.

Lemma ledger_prr_note_tx n : frames ledger_core (prr_note_tx (W := W) n).
Proof. unfold prr_note_tx. frames_walk. Qed.
Lemma ledger_delivery_note_tx seg seq n now :
  frames ledger_core (delivery_note_tx (W := W) seg seq n now).
Proof. unfold delivery_note_tx. frames_walk. Qed.
Lemma ledger_tx_gap now : frames ledger_core (note_tx_gap (W := W) now).
Proof. unfold note_tx_gap. frames_walk. Qed.
Hint Resolve ledger_prr_note_tx ledger_delivery_note_tx ledger_tx_gap : frames.
Lemma ledger_segment_tx seg seq n :
  frames ledger_core (tcp_shift_lwip_cc_on_segment_tx (W := W) seg seq n).
Proof. unfold tcp_shift_lwip_cc_on_segment_tx. frames_walk. Qed.
Lemma ledger_observe_loss seg now out :
  frames ledger_core (tcp_shift_lwip_cc_bbr3_observe_rack_loss (W := W) seg now out).
Proof. unfold tcp_shift_lwip_cc_bbr3_observe_rack_loss. frames_walk. Qed.
Lemma ledger_segment_acked seg n :
  frames ledger_core (tcp_shift_lwip_cc_on_segment_acked (W := W) seg n).
Proof. unfold tcp_shift_lwip_cc_on_segment_acked, metadata_miss. frames_walk. Qed.

Lemma ledger_rate_stats r : frames ledger_core (tcp_shift_rate_record_stats (W := W) r).
Proof. unfold tcp_shift_rate_record_stats. frames_walk. Qed.
Hint Resolve ledger_rate_stats : frames.
Lemma ledger_finalize c n now t p :
  frames ledger_core (tcp_shift_delivery_finalize_rate_sample (W := W) c n now t p).
Proof. unfold tcp_shift_delivery_finalize_rate_sample. frames_walk. Qed.
Lemma ledger_delivery_pass fuel now : frames ledger_core (rack_delivery_pass (W := W) fuel now).
Proof. induction fuel as [|fuel IH]; cbn [rack_delivery_pass]; frames_walk. Qed.
Lemma ledger_reordering_pass fuel : frames ledger_core (rack_reordering_pass (W := W) fuel).
Proof. induction fuel as [|fuel IH]; cbn [rack_reordering_pass]; frames_walk. Qed.
Hint Resolve ledger_finalize ledger_delivery_pass ledger_reordering_pass : frames.
Lemma ledger_process_slots now :
  frames ledger_core (tcp_shift_rack_process_delivered_slots (W := W) now).
Proof. unfold tcp_shift_rack_process_delivered_slots. frames_walk. Qed.
Hint Resolve ledger_process_slots : frames.
Lemma ledger_build_sample newly b : frames ledger_core (build_sample (W := W) newly b).
Proof. unfold build_sample. frames_walk. Qed.
Hint Resolve ledger_build_sample : frames.
Lemma ledger_rate_sample : frames ledger_core (tcp_shift_delivery_build_rate_sample (W := W)).
Proof. unfold tcp_shift_delivery_build_rate_sample. frames_walk. Qed.
Lemma ledger_sack_sample l b :
  frames ledger_core (tcp_shift_delivery_build_sack_rate_sample (W := W) l b).
Proof. apply ledger_build_sample. Qed.
Hint Resolve ledger_rate_sample ledger_sack_sample : frames.

Lemma ledger_prepare_ack n : frames ledger_core (tcp_shift_lwip_cc_prepare_ack (W := W) n).
Proof. unfold tcp_shift_lwip_cc_prepare_ack. frames_walk. Qed.
Hint Resolve ledger_prepare_ack : frames.
Lemma ledger_on_ack_observe n : frames ledger_core (tcp_shift_lwip_cc_on_ack_observe (W := W) n).
Proof. unfold tcp_shift_lwip_cc_on_ack_observe. frames_walk. Qed.
Lemma ledger_on_ack n : frames ledger_core (tcp_shift_lwip_cc_on_ack (W := W) n).
Proof. unfold tcp_shift_lwip_cc_on_ack. frames_walk. Qed.
Lemma ledger_sack_deliver q l b : frames ledger_core (sack_deliver (W := W) q l b).
Proof. unfold sack_deliver. frames_walk. Qed.
Hint Resolve ledger_sack_deliver : frames.
Lemma ledger_on_sack q l : frames ledger_core (tcp_shift_lwip_cc_on_sack (W := W) q l).
Proof. unfold tcp_shift_lwip_cc_on_sack. frames_walk. Qed.
Lemma ledger_mark_app_limited : frames ledger_core (tcp_shift_lwip_cc_mark_app_limited (W := W)).
Proof. unfold tcp_shift_lwip_cc_mark_app_limited. frames_walk. Qed.

End Ledger.

#[export] Hint Resolve ledger_segment_tx ledger_observe_loss ledger_segment_acked
  ledger_on_ack_observe ledger_on_ack ledger_on_sack ledger_mark_app_limited
  ledger_release_all : frames.
