(* ===== verification/AdapterEvents.v ===== *)
(** * The events of a flow

    What lwIP, the bridge and the timers can do to one flow, as a sequence of
    calls through the hook boundary, and lwIP's own changes to the control
    block in between. A relation that the parts of the callbacks respect holds
    between the ends of every such sequence. *)

From Stdlib Require Import ZArith Lia Bool List.
From stdpp Require Import base tactics numbers list.
From S2P Require Import Prelude StateMonad CC Observation Rack Prr.
From S2P Require Import AdapterData AdapterDelivery AdapterPacing AdapterRecovery AdapterRate.
From S2P Require Import AdapterPolicy Adapter Selector BbrInternal AdapterHooks AdapterFrame.
Local Open Scope Z_scope.

Inductive hook_event :=
  | EvAckBegin
  | EvAck (acked_bytes : Z)
  | EvAckObserve (acked_bytes : Z)
  | EvSack (ack_seq : Z) (ranges : list tcp_shift_lwip_sack_range)
  | EvLoss (lost_bytes : Z)
  | EvEcn
  | EvEcnRtoGate (entering : bool)
  | EvRackRetransLoss (lost_bytes : Z)
  | EvTlpLoss (lost_bytes : Z)
  | EvTlpDupack (sack_seen : bool)
  | EvRecoveryExit (ack_seq : Z)
  | EvTakeRecoveryExit
  | EvTimeout
  | EvPrrActive
  | EvRackLossStatus (segment : Z)
  | EvEffectiveCwnd (native_cwnd : Z)
  | EvSendEligible (payload_bytes : Z)
  | EvSegmentTx (segment seq_start payload_bytes : Z)
  | EvSegmentAcked (segment payload_bytes : Z)
  | EvAppLimited
  | EvLwip (pcb : tcp_pcb).

(** What lwIP leaves alone when it changes a control block: the extension
    arguments, which only their owners write. *)
Definition lwip_update (next pcb : tcp_pcb) : tcp_pcb :=
  next <| pb_ext_cc := pb_ext_cc pcb |> <| pb_mem := pb_mem pcb |>
       <| pb_ext_bbr := pb_ext_bbr pcb |>.

Section Events.
Context {W : Type} `{!AdapterOS W} `{!LwipParams}.
Local Abbreviation F := (flow W).

Definition int_of (m : M F bool) : M F Z := let! b := m in ret (Z.b2z b).
Definition void_of (m : M F unit) : M F Z := m ;; ret 0.

(** The call's result, 0 for the calls without one. *)
Definition run_event (ev : hook_event) : M F Z :=
  match ev with
  | EvAckBegin => void_of tcp_shift_lwip_cc_hook_ack_begin
  | EvAck n => int_of (tcp_shift_lwip_cc_hook_ack n)
  | EvAckObserve n => int_of (tcp_shift_lwip_cc_hook_ack_observe n)
  | EvSack q l => int_of (tcp_shift_lwip_cc_hook_sack q l)
  | EvLoss n => int_of (tcp_shift_lwip_cc_hook_loss n)
  | EvEcn => int_of tcp_shift_lwip_cc_hook_ecn
  | EvEcnRtoGate b => void_of (tcp_shift_lwip_cc_hook_ecn_rto_gate b)
  | EvRackRetransLoss n => int_of (tcp_shift_lwip_cc_hook_rack_retrans_loss n)
  | EvTlpLoss n => int_of (tcp_shift_lwip_cc_hook_tlp_loss n)
  | EvTlpDupack b => void_of (tcp_shift_lwip_cc_hook_tlp_dupack b)
  | EvRecoveryExit q => int_of (tcp_shift_lwip_cc_hook_recovery_exit q)
  | EvTakeRecoveryExit => int_of tcp_shift_lwip_cc_hook_take_recovery_exit
  | EvTimeout => int_of tcp_shift_lwip_cc_hook_timeout
  | EvPrrActive => int_of tcp_shift_lwip_cc_hook_prr_active
  | EvRackLossStatus seg => let! r := tcp_shift_lwip_cc_hook_rack_loss_status seg in ret r.1
  | EvEffectiveCwnd n => tcp_shift_lwip_cc_hook_effective_cwnd n
  | EvSendEligible n => int_of (tcp_shift_lwip_cc_hook_segment_send_eligible n)
  | EvSegmentTx seg q n => void_of (tcp_shift_lwip_cc_hook_segment_tx seg q n)
  | EvSegmentAcked seg n => void_of (tcp_shift_lwip_cc_hook_segment_acked seg n)
  | EvAppLimited => void_of tcp_shift_lwip_cc_mark_app_limited
  | EvLwip pcb => void_of (upd_pcb (lwip_update pcb))
  end.

Fixpoint run_events (evs : list hook_event) : M F unit :=
  match evs with
  | [] => ret tt
  | ev :: evs' => (let! _ := run_event ev in ret tt) ;; run_events evs'
  end.

Lemma run_events_cons ev evs s :
  (run_events (ev :: evs) s).2 = (run_events evs (run_event ev s).2).2.
Proof. cbn [run_events]. rewrite !bind_run. done. Qed.

End Events.

(** ** Relations the calls respect *)

Definition steps {S A : Type} (R : S -> S -> Prop) (m : M S A) : Prop := forall s, R s (m s).2.

Section Steps.
Context {S : Type} (R : S -> S -> Prop) `{!PreOrder R}.

Lemma steps_ret {A} (a : A) : steps R (ret a).
Proof. intros s. reflexivity. Qed.
Lemma steps_gets {A} (f : S -> A) : steps R (gets f).
Proof. intros s. reflexivity. Qed.
Lemma steps_bind {A B} (m : M S A) (k : A -> M S B) :
  steps R m -> (forall a, steps R (k a)) -> steps R (bind m k).
Proof. intros Hm Hk s. rewrite bind_run. etransitivity; [apply Hm|apply Hk]. Qed.
Lemma steps_when (c : bool) (m : M S unit) : steps R m -> steps R (when c m).
Proof. destruct c; [done|]. intros _. apply steps_ret. Qed.
Lemma steps_frames {X A} (p : S -> X) (m : M S A) :
  (forall s s', p s' = p s -> R s s') -> frames p m -> steps R m.
Proof. intros HR Hm s. apply HR, Hm. Qed.
End Steps.

Create HintDb steps.

Ltac steps_step :=
  match goal with
  | |- steps _ (bind _ _) => apply steps_bind; [tc_solve| |intros ?]
  | |- steps _ (when _ _) => apply steps_when; [tc_solve|]
  | |- steps _ (if ?x then _ else _) => destruct x
  | |- steps _ (match ?x with _ => _ end) => destruct x
  | |- steps _ (ret _) => apply steps_ret; tc_solve
  | |- steps _ (gets _) => apply steps_gets; tc_solve
  end.
Ltac steps_walk := repeat (first [solve [auto with steps nocore] | steps_step]).

Section EventSteps.
Context {W : Type} `{!AdapterOS W} `{!LwipParams}.
Local Abbreviation F := (flow W).
Context (R : F -> F -> Prop) `{!PreOrder R}.

Record respects := mk_respects {
  respects_core : forall s s', core s' = core s -> R s s';
  respects_paced : forall m, steps R m -> steps R (with_paced_handle m);
  respects_pcb : forall s f, (forall p, pb_ext_cc (f p) = pb_ext_cc p) -> R s (set_pcb f s);
  respects_marker : forall s v, R s (set_ad (fun a => a <| ad_app_limited_until_bytes := v |>) s);
  respects_acked : forall q b, steps R (build_sample (newly_acked_to q) b);
  respects_sacked : forall l b, steps R (build_sample (newly_sacked_by l) b)
}.

Context (HR : respects).

Lemma steps_core {A} (m : M F A) : frames core m -> steps R m.
Proof. apply steps_frames, respects_core, HR. Qed.
Hint Extern 4 (steps R _) => (apply steps_core; solve [auto with frames nocore]) : steps.

Lemma steps_pcb f : (forall p, pb_ext_cc (f p) = pb_ext_cc p) -> steps R (upd_pcb f).
Proof. intros Hf s. by apply respects_pcb. Qed.
Hint Extern 3 (steps R (upd_pcb _)) => (apply steps_pcb; intros; reflexivity) : steps.
Lemma steps_binding f :
  (forall b, core_binding (f b) = core_binding b) -> steps R (upd_binding f).
Proof. intros Hf. by apply steps_core, core_upd_binding. Qed.
Hint Extern 3 (steps R (upd_binding _)) => (apply steps_binding; intros; reflexivity) : steps.

(** ** The adapter's callbacks *)

Lemma steps_rate_sample : steps R tcp_shift_delivery_build_rate_sample.
Proof.
  unfold tcp_shift_delivery_build_rate_sample. steps_walk. apply respects_acked, HR.
Qed.
Lemma steps_sack_sample l b : steps R (tcp_shift_delivery_build_sack_rate_sample l b).
Proof. apply respects_sacked, HR. Qed.
Hint Resolve steps_rate_sample steps_sack_sample : steps.
Lemma steps_prepare_ack n : steps R (tcp_shift_lwip_cc_prepare_ack n).
Proof. unfold tcp_shift_lwip_cc_prepare_ack. steps_walk. Qed.
Hint Resolve steps_prepare_ack : steps.
Lemma steps_on_ack_observe n : steps R (tcp_shift_lwip_cc_on_ack_observe n).
Proof. unfold tcp_shift_lwip_cc_on_ack_observe. steps_walk. Qed.
Lemma steps_on_ack n : steps R (tcp_shift_lwip_cc_on_ack n).
Proof. unfold tcp_shift_lwip_cc_on_ack. steps_walk. Qed.
Lemma steps_sack_deliver q l b : steps R (sack_deliver q l b).
Proof. unfold sack_deliver. steps_walk. Qed.
Hint Resolve steps_sack_deliver : steps.
Lemma steps_on_sack q l : steps R (tcp_shift_lwip_cc_on_sack q l).
Proof. unfold tcp_shift_lwip_cc_on_sack. steps_walk. Qed.
Hint Resolve steps_on_ack_observe steps_on_ack steps_on_sack : steps.
Lemma steps_marker v : steps R (upd_ad (fun a => a <| ad_app_limited_until_bytes := v |>)).
Proof. intros s. by apply respects_marker. Qed.
Hint Resolve steps_marker : steps.
Lemma steps_app_limited : steps R tcp_shift_lwip_cc_mark_app_limited.
Proof. unfold tcp_shift_lwip_cc_mark_app_limited. steps_walk. Qed.
Hint Resolve steps_app_limited : steps.

(** ** The selector's and BBR's tables *)

Lemma steps_with_base m : steps R m -> steps R (with_base m).
Proof. intros Hm. unfold with_base. steps_walk. Qed.
Lemma steps_with_base_unit m : steps R m -> steps R (with_base_unit m).
Proof. intros Hm. unfold with_base_unit. steps_walk. Qed.
Lemma steps_with_paced_handle m : steps R m -> steps R (with_paced_handle m).
Proof. apply respects_paced, HR. Qed.
Hint Resolve steps_with_base steps_with_base_unit steps_with_paced_handle : steps.

Lemma steps_send_eligible n : steps R (tcp_shift_cc_selector_pacing_send_eligible n).
Proof. unfold tcp_shift_cc_selector_pacing_send_eligible. steps_walk. Qed.

Lemma steps_with_bbr_base {A} (fb ad sel : M F A) :
  steps R fb -> steps R ad -> steps R sel -> steps R (with_bbr_base fb ad sel).
Proof. intros H1 H2 H3. unfold with_bbr_base. steps_walk. Qed.
Hint Resolve steps_send_eligible steps_with_bbr_base : steps.

Lemma steps_hook_dispatch {A} (un ad sel bbr : M F A) :
  steps R un -> steps R ad -> steps R sel -> steps R bbr -> steps R (hook_dispatch un ad sel bbr).
Proof. intros H1 H2 H3 H4. unfold hook_dispatch. steps_walk. Qed.
Lemma steps_handled m : steps R m -> steps R (handled m).
Proof. intros Hm. unfold handled. steps_walk. Qed.
Lemma steps_int_of m : steps R m -> steps R (int_of m).
Proof. intros Hm. unfold int_of. steps_walk. Qed.
Lemma steps_void_of m : steps R m -> steps R (void_of m).
Proof. intros Hm. unfold void_of. steps_walk. Qed.
Hint Resolve steps_hook_dispatch steps_handled steps_int_of steps_void_of : steps.

Ltac hooks_walk :=
  repeat (first [ solve [auto with steps nocore] | apply steps_with_bbr_base | apply steps_hook_dispatch
                | apply steps_handled | apply steps_int_of | apply steps_void_of
                | apply steps_with_base | apply steps_with_base_unit | apply steps_with_paced_handle
                | steps_step ]).

Lemma steps_bbr_ack_begin : steps R tcp_shift_lwip_bbr_hook_ack_begin.
Proof.
  unfold tcp_shift_lwip_bbr_hook_ack_begin, tcp_shift_cc_selector_pacing_on_ack_begin. hooks_walk.
Qed.
Lemma steps_bbr_sack q l : steps R (tcp_shift_lwip_bbr_hook_sack q l).
Proof.
  unfold tcp_shift_lwip_bbr_hook_sack, tcp_shift_cc_selector_pacing_on_sack, credit_entry.
  hooks_walk.
Qed.
Lemma steps_bbr_retrans_loss n : steps R (tcp_shift_lwip_bbr_hook_rack_retrans_loss n).
Proof. unfold tcp_shift_lwip_bbr_hook_rack_retrans_loss. hooks_walk. Qed.
Lemma steps_bbr_exit q : steps R (tcp_shift_lwip_bbr_hook_recovery_exit q).
Proof.
  unfold tcp_shift_lwip_bbr_hook_recovery_exit, bbr_note_recovery_exit,
    tcp_shift_cc_selector_pacing_on_recovery_exit. hooks_walk.
Qed.
Hint Resolve steps_bbr_ack_begin steps_bbr_sack steps_bbr_retrans_loss
  steps_bbr_exit : steps.

(** ** The calls that keep the recovery episode *)

Lemma steps_hook_tlp_loss n : steps R (tcp_shift_lwip_cc_hook_tlp_loss n).
Proof. apply steps_core. auto with frames nocore. Qed.
Hint Resolve steps_hook_tlp_loss : steps.

Definition ledger_event (ev : hook_event) : bool :=
  match ev with EvSegmentTx _ _ _ | EvSegmentAcked _ _ => true | _ => false end.
Definition episode_event (ev : hook_event) : bool :=
  match ev with EvLoss _ | EvRecoveryExit _ | EvTakeRecoveryExit | EvTimeout => true | _ => false end.

Lemma quiet_event_steps ev :
  ledger_event ev = false -> episode_event ev = false -> steps R (run_event ev).
Proof.
  destruct ev; try done; intros _ _; cbn [run_event].
  - unfold tcp_shift_lwip_cc_hook_ack_begin, tcp_shift_cc_selector_pacing_on_ack_begin. hooks_walk.
  - unfold tcp_shift_lwip_cc_hook_ack, tcp_shift_lwip_bbr_hook_ack,
      tcp_shift_cc_selector_pacing_on_ack, tcp_shift_cc_selector_call_paced_ack. hooks_walk.
  - unfold tcp_shift_lwip_cc_hook_ack_observe, tcp_shift_lwip_bbr_hook_ack_observe,
      tcp_shift_cc_selector_pacing_on_ack_observe. hooks_walk.
  - unfold tcp_shift_lwip_cc_hook_sack, tcp_shift_cc_selector_pacing_on_sack. hooks_walk.
  - unfold tcp_shift_lwip_cc_hook_ecn, tcp_shift_cc_selector_pacing_on_ecn,
      tcp_shift_cc_selector_call_paced_ecn. hooks_walk.
  - unfold tcp_shift_lwip_cc_hook_ecn_rto_gate, tcp_shift_cc_selector_pacing_on_ecn_rto_gate.
    hooks_walk.
  - unfold tcp_shift_lwip_cc_hook_rack_retrans_loss,
      tcp_shift_cc_selector_pacing_on_rack_retrans_loss,
      tcp_shift_cc_selector_call_paced_rack_retrans_loss. hooks_walk.
  - hooks_walk.
  - unfold tcp_shift_lwip_cc_hook_tlp_dupack, tcp_shift_lwip_bbr_hook_tlp_dupack,
      tcp_shift_cc_selector_pacing_on_tlp_dupack. hooks_walk.
  - unfold tcp_shift_lwip_cc_hook_prr_active, tcp_shift_cc_selector_pacing_prr_active. hooks_walk.
  - unfold tcp_shift_lwip_cc_hook_rack_loss_status, tcp_shift_lwip_bbr_hook_rack_loss_status,
      tcp_shift_cc_selector_pacing_rack_loss_status. hooks_walk.
  - unfold tcp_shift_lwip_cc_hook_effective_cwnd, tcp_shift_lwip_bbr_hook_effective_cwnd,
      tcp_shift_cc_selector_pacing_effective_cwnd. hooks_walk.
  - unfold tcp_shift_lwip_cc_hook_segment_send_eligible, tcp_shift_lwip_bbr_hook_send_eligible.
    hooks_walk.
  - hooks_walk.
  - hooks_walk.
Qed.

(** The callbacks behind the other calls. *)
Lemma steps_paced_loss n : steps R (tcp_shift_cc_selector_pacing_on_loss n).
Proof. unfold tcp_shift_cc_selector_pacing_on_loss, tcp_shift_cc_selector_call_paced_loss. hooks_walk. Qed.
Lemma steps_exit_dispatch q :
  steps R (hook_dispatch (ret 0) (tcp_shift_lwip_cc_on_recovery_exit q)
             (tcp_shift_cc_selector_pacing_on_recovery_exit q)
             (tcp_shift_lwip_bbr_hook_recovery_exit q)).
Proof. unfold tcp_shift_cc_selector_pacing_on_recovery_exit. hooks_walk. Qed.
Lemma steps_timeout_dispatch :
  steps R (hook_dispatch (ret 0) tcp_shift_lwip_cc_on_timeout
             tcp_shift_cc_selector_pacing_on_timeout tcp_shift_lwip_bbr_hook_timeout).
Proof.
  unfold tcp_shift_cc_selector_pacing_on_timeout, tcp_shift_lwip_bbr_hook_timeout,
    tcp_shift_cc_selector_call_paced_timeout. hooks_walk.
Qed.
Hint Resolve steps_paced_loss steps_exit_dispatch steps_timeout_dispatch : steps.

(** ** Every call but the ledger's two *)

Context (Hhook : forall s f, R s (set_ad (fun a => a <| ad_hook := f (ad_hook a) |>) s)).

Lemma steps_hook f : steps R (upd_hook f).
Proof. intros s. apply Hhook. Qed.
Lemma steps_own : steps R own_recovery.
Proof. intros s. apply (Hhook s (fun h => h <| hk_recovery_controller_owned := true |>)). Qed.
Hint Resolve steps_hook steps_own : steps.
Lemma steps_bbr_loss n : steps R (tcp_shift_lwip_bbr_hook_loss n).
Proof. unfold tcp_shift_lwip_bbr_hook_loss. hooks_walk. Qed.
Hint Resolve steps_bbr_loss : steps.

Lemma event_steps ev : ledger_event ev = false -> steps R (run_event ev).
Proof.
  intros Hl. destruct (episode_event ev) eqn:He; [|by apply quiet_event_steps].
  destruct ev; try done; cbn [run_event].
  - unfold tcp_shift_lwip_cc_hook_loss, tcp_shift_lwip_cc_hook_recovery_mark_enter. hooks_walk.
  - unfold tcp_shift_lwip_cc_hook_recovery_exit, tcp_shift_lwip_cc_hook_recovery_mark_exit. hooks_walk.
  - unfold tcp_shift_lwip_cc_hook_take_recovery_exit. hooks_walk.
  - unfold tcp_shift_lwip_cc_hook_timeout, tcp_shift_lwip_cc_hook_recovery_reset. hooks_walk.
Qed.

End EventSteps.

(** A call that reaches the ledger runs the adapter's callback once, whatever
    table the block has, or nothing. *)
Section LedgerEvents.
Context {W : Type} `{!AdapterOS W} `{!LwipParams}.
Local Abbreviation F := (flow W).

Definition once (m : M F unit) (s s' : F) : Prop := s' = s \/ s' = (m s).2.

Lemma once_with_base_unit m s : once m s (with_base_unit m s).2.
Proof. unfold with_base_unit, once. rewrite bind_run. cbn. by repeat case_match; auto. Qed.
Lemma once_dispatch m sel bbr s :
  once m s (sel s).2 -> once m s (bbr s).2 ->
  once m s (void_of (hook_dispatch (ret tt) m sel bbr) s).2.
Proof.
  intros Hs Hb. unfold void_of, hook_dispatch. rewrite !bind_run. cbn.
  repeat case_match; cbn; try done; first [by left|by right].
Qed.
Lemma once_bbr_base m s : once m s (with_bbr_base (ret tt) m (with_base_unit m) s).2.
Proof.
  unfold with_bbr_base. rewrite bind_run.
  replace (tcp_shift_lwip_bbr_binding_from_adapter s).2 with s by done.
  repeat case_match; cbn; try (by left); [by right|apply once_with_base_unit].
Qed.

Lemma tx_event_once seg q n s :
  once (tcp_shift_lwip_cc_on_segment_tx seg q n) s (run_event (EvSegmentTx seg q n) s).2.
Proof. apply once_dispatch; [apply once_with_base_unit|apply once_bbr_base]. Qed.
Lemma acked_event_once seg n s :
  once (tcp_shift_lwip_cc_on_segment_acked seg n) s (run_event (EvSegmentAcked seg n) s).2.
Proof. apply once_dispatch; [apply once_with_base_unit|apply once_bbr_base]. Qed.

End LedgerEvents.
