(* ===== verification/AdapterLedger.v ===== *)
(** * The delivery ledger charges every byte once

    The ledger of a flow: one slot per segment lwIP holds, and the bytes each
    has been charged as delivered. Whatever the order of transmissions, ACKs,
    SACKs and frees, [delivered_bytes] is the sum of what was charged to the
    segments, each at most its payload. *)

From Stdlib Require Import ZArith Lia Bool List.
From stdpp Require Import base tactics numbers list.
From S2P Require Import Prelude StateMonad CC Observation Rack Prr.
From S2P Require Import AdapterData AdapterDelivery AdapterPacing AdapterRecovery AdapterRate.
From S2P Require Import AdapterPolicy Adapter Selector BbrInternal AdapterHooks AdapterFrame AdapterEvents.
Local Open Scope Z_scope.
Implicit Types (slot : tcp_shift_delivery_slot) (slots : list tcp_shift_delivery_slot)
  (a : tcp_shift_lwip_cc_adapter).

(** ** Sums over the slots *)

Fixpoint sum_by (f : tcp_shift_delivery_slot -> Z) slots : Z :=
  match slots with [] => 0 | slot :: slots' => f slot + sum_by f slots' end.

Lemma sum_by_app f l k : sum_by f (l ++ k) = sum_by f l + sum_by f k.
Proof. induction l; cbn; lia. Qed.
Lemma sum_by_replicate f n slot : f slot = 0 -> sum_by f (replicate n slot) = 0.
Proof. intros H0. induction n; cbn; lia. Qed.
Lemma sum_by_alter f g i l slot :
  l !! i = Some slot -> sum_by f (alter g i l) = sum_by f l - f slot + f (g slot).
Proof.
  revert i. induction l as [|x l IH]; intros [|i] Hi; cbn in *; simplify_eq; [lia|].
  rewrite (IH _ Hi). lia.
Qed.
Lemma sum_by_le f g l : Forall (fun slot => f slot <= g slot) l -> sum_by f l <= sum_by g l.
Proof. induction 1; cbn; lia. Qed.

Lemma u64_add_l x y : u64 (u64 x + y) = u64 (x + y).
Proof. apply Zplus_mod_idemp_l. Qed.

Lemma u64_add_r x y : u64 (x + u64 y) = u64 (x + y).
Proof. apply Zplus_mod_idemp_r. Qed.

(** ** The invariant *)

(** What the ledger's accounting sees of a slot. *)
Definition charge_view slot : ptr Z * Z * Z :=
  (dv_segment slot, dv_payload_bytes slot, dv_acked_payload_bytes slot).

Definition slot_ok slot : Prop :=
  match dv_segment slot with
  | None => dv_payload_bytes slot = 0 /\ dv_acked_payload_bytes slot = 0
  | Some _ => 0 < dv_payload_bytes slot <= 65535 /\
              0 <= dv_acked_payload_bytes slot <= dv_payload_bytes slot
  end.

Definition used slot : Z := Z.b2z (negb (is_null (dv_segment slot))).

Lemma used_bounds slot : 0 <= used slot <= 1.
Proof. unfold used. destruct (negb _); cbn; lia. Qed.

(** A segment has one slot. *)
Definition segments_unique slots : Prop :=
  forall i j slot slot' seg, slots !! i = Some slot -> slots !! j = Some slot' ->
    dv_segment slot = Some seg -> dv_segment slot' = Some seg -> i = j.

Record ledger_ok a : Prop := mk_ledger_ok {
  ok_slots : Forall slot_ok (ad_delivery_slots a);
  ok_unique : segments_unique (ad_delivery_slots a);
  ok_capacity : slot_capacity a <= TCP_SND_QUEUELEN;
  ok_live : ad_delivery_live a = sum_by used (ad_delivery_slots a);
  ok_delivered : in_u64 (ad_delivered_bytes a)
}.

(** Bytes charged to the segments held, and their payload. *)
Definition charged a : Z := sum_by dv_acked_payload_bytes (ad_delivery_slots a).
Definition held a : Z := sum_by dv_payload_bytes (ad_delivery_slots a).

Definition ledger_view a : list (ptr Z * Z * Z) * Z * Z :=
  (map charge_view (ad_delivery_slots a), ad_delivery_live a, ad_delivered_bytes a).

Lemma sum_by_view f g l k :
  (forall slot, f slot = g (charge_view slot)) -> map charge_view l = map charge_view k ->
  sum_by f l = sum_by f k.
Proof.
  intros Hf. revert k. induction l as [|x l IH]; intros [|y k] Hv; try done. cbn [map] in Hv.
  injection Hv as Hx Hs Hp Hl. cbn. rewrite !Hf, (IH k Hl). unfold charge_view.
  by rewrite Hx, Hs, Hp.
Qed.

Lemma view_lookup l k i slot :
  map charge_view l = map charge_view k -> l !! i = Some slot ->
  exists slot', k !! i = Some slot' /\ charge_view slot' = charge_view slot.
Proof.
  intros Hv Hi. assert (Hk : map charge_view k !! i = Some (charge_view slot)).
  { rewrite <- Hv, list_lookup_fmap, Hi. done. }
  rewrite list_lookup_fmap in Hk. destruct (k !! i) as [slot'|]; [|done]. cbn in Hk.
  exists slot'. split; [done|congruence].
Qed.

(** Accounting facts are facts of the view. *)
Lemma ledger_ok_view a a' : ledger_view a' = ledger_view a -> ledger_ok a -> ledger_ok a'.
Proof.
  intros [= Hs Hl Hd] [H1 H2 H3 H4 H5]. split.
  - apply Forall_lookup. intros i slot Hi.
    destruct (view_lookup _ _ _ _ Hs Hi) as (slot' & Hi' & [= E1 E2 E3]).
    rewrite Forall_lookup in H1. specialize (H1 i slot' Hi'). unfold slot_ok in *.
    by rewrite <- E1, <- E2, <- E3.
  - intros i j x y seg Hx Hy Sx Sy.
    destruct (view_lookup _ _ _ _ Hs Hx) as (x' & Hx' & [= E1 _ _]).
    destruct (view_lookup _ _ _ _ Hs Hy) as (y' & Hy' & [= E2 _ _]).
    apply (H2 i j x' y' seg Hx' Hy'); congruence.
  - unfold slot_capacity in *. apply (f_equal length) in Hs. rewrite !length_map in Hs. by rewrite Hs.
  - rewrite Hl, H4. symmetry. apply (sum_by_view _ (fun '(s, _, _) => Z.b2z (negb (is_null s)))); done.
  - by rewrite Hd.
Qed.
Lemma charged_view a a' : ledger_view a' = ledger_view a -> charged a' = charged a.
Proof. intros [= Hs _ _]. by apply (sum_by_view _ (fun '(_, _, n) => n)). Qed.
Lemma held_view a a' : ledger_view a' = ledger_view a -> held a' = held a.
Proof. intros [= Hs _ _]. by apply (sum_by_view _ (fun '(_, n, _) => n)). Qed.

Lemma charged_le_held a : ledger_ok a -> 0 <= charged a <= held a.
Proof.
  intros Hok. pose proof (ok_slots _ Hok) as Hs. split.
  - unfold charged. induction Hs as [|x l Hx Hl IH]; [done|]. cbn.
    assert (0 <= dv_acked_payload_bytes x) by (unfold slot_ok in Hx; case_match; lia). lia.
  - apply sum_by_le. eapply Forall_impl; [done|]. intros x Hx. unfold slot_ok in Hx. case_match; lia.
Qed.

(** ** Steps that send and free nothing *)

Definition charges a a' : Prop :=
  ledger_ok a ->
  ledger_ok a' /\ held a' = held a /\
  ad_delivered_bytes a' = u64 (ad_delivered_bytes a + charged a' - charged a) /\
  map dv_segment (ad_delivery_slots a') = map dv_segment (ad_delivery_slots a).

Lemma charges_view a a' : ledger_view a' = ledger_view a -> charges a a'.
Proof.
  intros Hv Hok. split_and!.
  - by eapply ledger_ok_view.
  - by apply held_view.
  - rewrite (charged_view _ _ Hv). pose proof (ok_delivered _ Hok).
    replace (ad_delivered_bytes a + charged a - charged a) with (ad_delivered_bytes a) by lia.
    rewrite u64_small by done. by injection Hv.
  - injection Hv as Hs _ _. apply (f_equal (map (fun v => v.1.1))) in Hs. by rewrite !map_map in Hs.
Qed.

#[export] Instance charges_preorder : PreOrder charges.
Proof.
  split; [intros a; by apply charges_view|].
  intros a1 a2 a3 H12 H23 H1. destruct (H12 H1) as (H2 & E2 & D2 & S2).
  destruct (H23 H2) as (H3 & E3 & D3 & S3). split_and!; [done|congruence| |congruence].
  rewrite D3, D2, <- Z.add_sub_assoc, u64_add_l. f_equal. lia.
Qed.

Definition flow_charges {W} (s s' : flow W) : Prop := charges (fw_ad s) (fw_ad s').

#[export] Instance flow_charges_preorder {W} : PreOrder (@flow_charges W).
Proof.
  split; [intros s; unfold flow_charges; reflexivity|].
  intros s1 s2 s3; unfold flow_charges; by etransitivity.
Qed.

(** ** Charging *)

(** A charging rule raises slots in use, at most to their payload. *)
Definition charging (newly : tcp_shift_delivery_slot -> option Z) : Prop :=
  forall slot n, slot_ok slot -> newly slot = Some n ->
    dv_acked_payload_bytes slot < n <= dv_payload_bytes slot.

Lemma acked_charging q : charging (newly_acked_to q).
Proof.
  intros slot n Hok. unfold newly_acked_to. case_match eqn:Hn; [done|].
  destruct (_ <=? _) eqn:Hle; [done|]. intros [= <-]. apply Z.leb_gt in Hle. split; [done|].
  unfold slot_ok in Hok. destruct (dv_segment slot); [|done].
  unfold tcp_shift_delivery_acked_payload. set (d := s32 (q - dv_seq_start slot)).
  assert (Hd : d < 2147483648) by (unfold d, s32; case_match; pose proof (Z.mod_pos_bound (q - dv_seq_start slot) 4294967296); unfold u32 in *; lia).
  destruct (d <=? 0) eqn:Hd0; [lia|]. apply Z.leb_gt in Hd0.
  rewrite u32_small by lia. destruct (d >=? _) eqn:Hp; [lia|].
  rewrite u16_small by lia. lia.
Qed.

Lemma sacked_charging l : charging (newly_sacked_by l).
Proof.
  intros slot n Hok. unfold newly_sacked_by.
  destruct (is_null _ || _) eqn:Hg; [done|]. case_match; [|done]. intros [= <-].
  apply orb_false_iff in Hg as [_ Hg]. rewrite Z.geb_leb in Hg. lia.
Qed.

Definition charge_slot (newly : tcp_shift_delivery_slot -> option Z) slot : tcp_shift_delivery_slot :=
  match newly slot with Some n => slot <| dv_acked_payload_bytes := n |> | None => slot end.

Lemma charge_loop_slots newly l i c : (charge_loop newly l i c).1 = map (charge_slot newly) l.
Proof.
  revert i c. induction l as [|x l IH]; intros i c; [done|]. cbn [charge_loop map].
  unfold charge_slot at 1. destruct (newly x) as [n|]; rewrite (surjective_pairing (charge_loop _ _ _ _)); cbn; by rewrite IH.
Qed.

Lemma charge_loop_added newly l i c :
  charging newly -> Forall slot_ok l -> in_u64 (ch_added c) ->
  ch_added (charge_loop newly l i c).2 =
  u64 (ch_added c + sum_by dv_acked_payload_bytes (map (charge_slot newly) l)
         - sum_by dv_acked_payload_bytes l).
Proof.
  intros Hn Hl. revert i c. induction Hl as [|x l Hx Hl IH]; intros i c Hc.
  { cbn. by rewrite Z.add_0_r, Z.sub_0_r, u64_small. }
  cbn [charge_loop map sum_by]. unfold charge_slot at 1. destruct (newly x) as [n|] eqn:Hnx.
  - rewrite (surjective_pairing (charge_loop _ _ _ _)). cbn [snd].
    pose proof (Hn x n Hx Hnx) as Hlt. unfold slot_ok in Hx.
    rewrite IH by apply u64_range. cbn [ch_added].
    rewrite u16_small by (case_match; lia).
    rewrite <- Z.add_sub_assoc, u64_add_l. f_equal. cbn. lia.
  - rewrite (surjective_pairing (charge_loop _ _ _ _)). cbn [snd]. rewrite IH by done. f_equal. lia.
Qed.

Lemma charge_slot_ok newly slot : charging newly -> slot_ok slot -> slot_ok (charge_slot newly slot).
Proof.
  intros Hn Hok. unfold charge_slot. destruct (newly slot) as [n|] eqn:E; [|done].
  specialize (Hn slot n Hok E). unfold slot_ok in *. cbn. case_match; lia.
Qed.

Lemma charge_slot_same newly slot :
  dv_segment (charge_slot newly slot) = dv_segment slot /\
  dv_payload_bytes (charge_slot newly slot) = dv_payload_bytes slot.
Proof. unfold charge_slot. by case_match. Qed.

Lemma segments_unique_map l k :
  map dv_segment k = map dv_segment l -> segments_unique l -> segments_unique k.
Proof.
  intros Hm Hu i j x y seg Hx Hy Sx Sy.
  assert (Hl : forall i x, k !! i = Some x -> exists x', l !! i = Some x' /\ dv_segment x' = dv_segment x).
  { intros n z Hz. assert (E : map dv_segment l !! n = Some (dv_segment z)).
    { rewrite <- Hm, list_lookup_fmap, Hz. done. }
    rewrite list_lookup_fmap in E. destruct (l !! n) as [z'|]; [|done]. exists z'. split; [done|].
    cbn in E. congruence. }
  destruct (Hl i x Hx) as (x' & Hx' & E1). destruct (Hl j y Hy) as (y' & Hy' & E2).
  apply (Hu i j x' y' seg); congruence.
Qed.

Lemma sum_by_map f g l : sum_by f (map g l) = sum_by (fun x => f (g x)) l.
Proof. induction l; cbn; congruence. Qed.
Lemma sum_by_ext f g l : (forall x, f x = g x) -> sum_by f l = sum_by g l.
Proof. intros E. induction l; cbn; rewrite ?E; congruence. Qed.

(** The charged ledger, before its total is raised. *)
Lemma charge_ledger newly a d :
  charging newly -> ledger_ok a ->
  let a' := a <| ad_delivery_slots := map (charge_slot newly) (ad_delivery_slots a) |>
              <| ad_delivered_bytes := u64 (ad_delivered_bytes a + d) |> in
  d = charged a' - charged a -> charges a a'.
Proof.
  intros Hn Hok a' Hd _. destruct Hok as [H1 H2 H3 H4 H5].
  assert (Hseg : map dv_segment (ad_delivery_slots a') = map dv_segment (ad_delivery_slots a)).
  { cbn. rewrite map_map. apply map_ext. intros x. apply charge_slot_same. }
  split_and!; [split|..].
  - apply Forall_map. eapply Forall_impl; [done|]. intros x Hx. by apply charge_slot_ok.
  - by eapply segments_unique_map.
  - unfold slot_capacity in *. cbn. by rewrite length_map.
  - cbn. rewrite H4, sum_by_map. apply sum_by_ext. intros x. unfold used.
    by rewrite (proj1 (charge_slot_same newly x)).
  - apply u64_range.
  - unfold held. cbn. rewrite sum_by_map. apply sum_by_ext. intros x. apply charge_slot_same.
  - rewrite <- Z.add_sub_assoc, <- Hd. done.
  - done.
Qed.

(** ** The adapter's steps *)

Section Flow.
Context {W : Type} `{!AdapterOS W} `{!LwipParams}.
Local Abbreviation F := (flow W).
Implicit Types (s : F).

Definition flow_view s := ledger_view (fw_ad s).

Lemma core_view s s' : core s' = core s -> flow_view s' = flow_view s.
Proof.
  intros E. assert (Ea : core_ad (fw_ad s') = core_ad (fw_ad s)) by (unfold core in E; congruence).
  unfold flow_view, ledger_view.
  change (ad_delivery_slots ?a) with (ad_delivery_slots (core_ad a)).
  change (ad_delivery_live ?a) with (ad_delivery_live (core_ad a)).
  change (ad_delivered_bytes ?a) with (ad_delivered_bytes (core_ad a)). by rewrite Ea.
Qed.
Lemma view_of_core {A} (m : M F A) : frames core m -> frames flow_view m.
Proof. intros Hm s. apply core_view, Hm. Qed.
Hint Extern 5 (frames flow_view _) =>
  (apply view_of_core; solve [auto with frames nocore]) : frames.

Lemma view_upd_ad f :
  (forall a, ledger_view (f a) = ledger_view a) -> frames flow_view (upd_ad (W := W) f).
Proof. intros Hf s. apply Hf. Qed.
Hint Extern 4 (frames flow_view (upd_ad _)) => (apply view_upd_ad; intros; reflexivity) : frames.
Lemma view_upd_slot i f :
  (forall x, charge_view (f x) = charge_view x) -> frames flow_view (upd_slot (W := W) i f).
Proof.
  intros Hf. apply view_upd_ad. intros a. unfold ledger_view, set_slot. cbn. do 2 f_equal.
  apply list_eq. intros j. rewrite !list_lookup_fmap.
  destruct (decide (i = j)) as [->|Hij].
  - rewrite list_lookup_alter_eq. destruct (_ !! j); cbn; by rewrite ?Hf.
  - by rewrite list_lookup_alter_ne.
Qed.
Hint Extern 4 (frames flow_view (upd_slot _ _)) => (apply view_upd_slot; intros; reflexivity) : frames.

Lemma view_delivery_pass fuel now : frames flow_view (rack_delivery_pass (W := W) fuel now).
Proof. induction fuel as [|fuel IH]; cbn [rack_delivery_pass]; frames_walk. Qed.
Lemma view_reordering_pass fuel : frames flow_view (rack_reordering_pass (W := W) fuel).
Proof. induction fuel as [|fuel IH]; cbn [rack_reordering_pass]; frames_walk. Qed.
Hint Resolve view_delivery_pass view_reordering_pass : frames.
Lemma view_process now : frames flow_view (tcp_shift_rack_process_delivered_slots (W := W) now).
Proof. unfold tcp_shift_rack_process_delivered_slots. frames_walk. Qed.

Lemma view_note_delivery f s : flow_view (note_delivery f s).2 = flow_view s.
Proof. apply core_view, core_note. Qed.

(** The sample's totals. *)
Lemma finalize_view candidate added now touched partial s :
  in_u64 (ad_delivered_bytes (fw_ad s)) ->
  flow_view (tcp_shift_delivery_finalize_rate_sample candidate added now touched partial s).2 =
  ledger_view (fw_ad s <| ad_delivered_bytes := u64 (ad_delivered_bytes (fw_ad s) + added) |>).
Proof.
  intros Hd. unfold tcp_shift_delivery_finalize_rate_sample. destruct (added =? 0) eqn:E.
  { apply Z.eqb_eq in E as ->. rewrite Z.add_0_r, u64_small by done. by destruct s, fw_ad. }
  rewrite bind_run, bind_run.
  set (s1 := (note_rate _ s).2). assert (E1 : flow_view s1 = flow_view s) by (apply core_view, core_note).
  set (s2 := (upd_ad _ s1).2).
  assert (E2 : flow_view s2 = ledger_view (fw_ad s <| ad_delivered_bytes := u64 (ad_delivered_bytes (fw_ad s) + added) |>)).
  { unfold flow_view, ledger_view in *. cbn. injection E1 as -> -> ->. done. }
  rewrite <- E2. generalize s2. clear. intros s.
  match goal with |- flow_view (?m s).2 = _ => assert (Hm : frames flow_view m) end; [|apply Hm].
  unfold tcp_shift_rate_record_stats. frames_walk.
Qed.

Lemma sample_charges newly b : charging newly -> steps flow_charges (build_sample (W := W) newly b).
Proof.
  intros Hn s. unfold build_sample. rewrite bind_run. set (s1 := (tcp_shift_delivery_now_ns s).2).
  assert (H1 : flow_charges s s1) by (apply charges_view, (core_view s), core_now).
  transitivity s1; [done|]. clearbody s1. clear H1. destruct (_ =? 0); [reflexivity|].
  rewrite bind_run. cbn [get_ad gets fst snd].
  rewrite (surjective_pairing (charge_loop _ _ _ _)), charge_loop_slots.
  set (c := (charge_loop _ _ _ _).2). rewrite !bind_run. cbn [snd ret].
  intros Hok. pose proof (charge_loop_added newly (ad_delivery_slots (fw_ad s1)) 0 charge_start Hn
    (ok_slots _ Hok) ltac:(cbn; lia)) as Hc. fold c in Hc. cbn [ch_added charge_start] in Hc.
  set (s2 := (upd_ad _ s1).2).
  set (s3 := (when b _ s2).2).
  assert (H3 : flow_view s3 = flow_view s2).
  { unfold s3. destruct b; [apply view_process|done]. }
  assert (D3 : ad_delivered_bytes (fw_ad s3) = ad_delivered_bytes (fw_ad s1)) by (by injection H3).
  set (s4 := (tcp_shift_delivery_finalize_rate_sample _ _ _ _ _ s3).2).
  assert (H4 : flow_view s4 = ledger_view (fw_ad s3 <| ad_delivered_bytes := u64 (ad_delivered_bytes (fw_ad s1) + ch_added c) |>)).
  { unfold s4. rewrite finalize_view by (rewrite D3; apply (ok_delivered _ Hok)). by rewrite D3. }
  eapply (charges_preorder.(PreOrder_Transitive)); [| |exact Hok].
  - by apply (charge_ledger newly (fw_ad s1)
      (sum_by dv_acked_payload_bytes (map (charge_slot newly) (ad_delivery_slots (fw_ad s1)))
       - sum_by dv_acked_payload_bytes (ad_delivery_slots (fw_ad s1))) Hn Hok).
  - apply charges_view. fold (flow_view s4). rewrite H4. unfold ledger_view. cbn.
    injection H3 as -> -> _. f_equal. by rewrite Hc, u64_add_r.
Qed.

Lemma flow_charges_respects : respects (W := W) flow_charges.
Proof.
  split.
  - intros s s' E. apply charges_view, core_view, E.
  - intros m Hm. unfold with_paced_handle. steps_walk; first [exact Hm | intros s; by apply charges_view].
  - intros s f _. unfold flow_charges. cbn. reflexivity.
  - intros s v. by apply charges_view.
  - intros q b. apply sample_charges, acked_charging.
  - intros l b. apply sample_charges, sacked_charging.
Qed.

Lemma flow_charges_hook s f : flow_charges s (set_ad (fun a => a <| ad_hook := f (ad_hook a) |>) s).
Proof. by apply charges_view. Qed.

(** ** Finding slots *)

Lemma slot_index_some p l i : slot_index p l = Some i -> exists slot, l !! i = Some slot /\ p slot = true.
Proof.
  revert i. induction l as [|x l IH]; intros i; cbn; [done|]. destruct (p x) eqn:Hp.
  - intros [= <-]. by exists x.
  - destruct (slot_index p l) as [j|] eqn:Hj; [|done]. intros [= <-]. by apply IH.
Qed.
Lemma slot_index_none p l : slot_index p l = None <-> Forall (fun slot => p slot = false) l.
Proof.
  split.
  - induction l as [|x l IH]; cbn; [done|]. destruct (p x) eqn:Hp; [done|].
    destruct (slot_index p l); [done|]. intros _. constructor; auto.
  - induction 1 as [|x l Hp Hl IH]; cbn; [done|]. by rewrite Hp, IH.
Qed.
Lemma slot_index_here p l i slot :
  l !! i = Some slot -> p slot = true ->
  (forall j slot', l !! j = Some slot' -> p slot' = true -> j = i) -> slot_index p l = Some i.
Proof.
  intros Hi Hp Hu. destruct (slot_index p l) as [j|] eqn:Hj.
  - apply slot_index_some in Hj as (x & Hx & Hpx). by rewrite (Hu j x Hx Hpx).
  - apply slot_index_none in Hj. rewrite Forall_lookup in Hj. by rewrite (Hj _ _ Hi) in Hp.
Qed.

Lemma slot_holds_spec seg slot : slot_holds seg slot = true <-> dv_segment slot = Some seg.
Proof. apply bool_decide_eq_true. Qed.

Lemma find_segments a a' seg :
  map dv_segment (ad_delivery_slots a') = map dv_segment (ad_delivery_slots a) ->
  tcp_shift_delivery_find a' seg = tcp_shift_delivery_find a seg.
Proof.
  unfold tcp_shift_delivery_find. generalize (ad_delivery_slots a). generalize (ad_delivery_slots a').
  intros l. induction l as [|x l IH]; intros [|y k] Hm; try done. cbn in *. injection Hm as Hx Hm.
  unfold slot_holds at 1 3. by rewrite Hx, (IH k Hm).
Qed.

Lemma find_some a seg i :
  tcp_shift_delivery_find a seg = Some i ->
  exists slot, ad_delivery_slots a !! i = Some slot /\ dv_segment slot = Some seg /\ slot_at a i = slot.
Proof.
  intros Hf. apply slot_index_some in Hf as (x & Hx & Hp). apply slot_holds_spec in Hp.
  exists x. split_and!; [done..|]. unfold slot_at. by apply nth_lookup_Some.
Qed.

(** ** Sending and freeing *)

(** [sent] bytes get a slot, [gone] charged bytes leave with theirs. *)
Definition moves (sent gone : Z) a a' : Prop :=
  ledger_ok a ->
  ledger_ok a' /\ held a' + gone <= held a + sent /\
  ad_delivered_bytes a' = u64 (ad_delivered_bytes a + charged a' + gone - charged a).

Lemma moves_charges a a' : charges a a' -> moves 0 0 a a'.
Proof.
  intros Hc Hok. destruct (Hc Hok) as (H1 & H2 & H3 & _). rewrite H3. split_and!; [done|lia|].
  f_equal. lia.
Qed.

Lemma moves_view_l sent gone a a1 a' :
  ledger_view a1 = ledger_view a -> moves sent gone a1 a' -> moves sent gone a a'.
Proof.
  intros Hv Hm Hok. destruct (Hm (ledger_ok_view _ _ Hv Hok)) as (H1 & H2 & H3).
  rewrite (held_view _ _ Hv) in H2. rewrite (charged_view _ _ Hv) in H3.
  injection Hv as _ _ Hd. rewrite Hd in H3. done.
Qed.
Lemma moves_view_r sent gone a a1 a' :
  ledger_view a' = ledger_view a1 -> moves sent gone a a1 -> moves sent gone a a'.
Proof.
  intros Hv Hm Hok. destruct (Hm Hok) as (H1 & H2 & H3).
  rewrite (held_view _ _ Hv), (charged_view _ _ Hv). pose proof Hv as [= _ _ ->].
  split_and!; [by eapply ledger_ok_view|done..].
Qed.

(** The bytes of a slot that [segment] got, or lost with what it was charged. *)
Definition first_sent (segment payload_bytes : Z) a a' : Z :=
  match tcp_shift_delivery_find a segment, tcp_shift_delivery_find a' segment with
  | None, Some _ => payload_bytes
  | _, _ => 0
  end.
Definition released (segment : Z) a a' : Z :=
  match tcp_shift_delivery_find a segment, tcp_shift_delivery_find a' segment with
  | Some i, None => dv_acked_payload_bytes (slot_at a i)
  | _, _ => 0
  end.

Lemma segments_unique_alter f i l :
  segments_unique l ->
  (forall x seg, l !! i = Some x -> dv_segment (f x) = Some seg ->
     forall j y, l !! j = Some y -> dv_segment y = Some seg -> j = i) ->
  segments_unique (alter f i l).
Proof.
  intros Hu Hf j k x y seg Hx Hy Sx Sy.
  destruct (decide (i = j)) as [->|Hij]; destruct (decide (k = j)) as [->|Hkj]; try done.
  - rewrite list_lookup_alter_eq in Hx. rewrite list_lookup_alter_ne in Hy by done.
    destruct (l !! j) as [x'|] eqn:E; [|done]. cbn in Hx. simplify_eq.
    by rewrite (Hf x' seg eq_refl Sx k y Hy Sy).
  - rewrite list_lookup_alter_ne in Hx by done. destruct (decide (i = k)) as [->|Hik].
    + rewrite list_lookup_alter_eq in Hy. destruct (l !! k) as [y'|] eqn:E; [|done]. cbn in Hy.
      simplify_eq. by apply (Hf y' seg eq_refl Sy j x Hx Sx).
    + rewrite list_lookup_alter_ne in Hy by done. by apply (Hu j k x y seg).
Qed.

Lemma Forall_alter_one (P : tcp_shift_delivery_slot -> Prop) f i l :
  Forall P l -> (forall x, l !! i = Some x -> P (f x)) -> Forall P (alter f i l).
Proof.
  intros Hl Hf. apply Forall_lookup. intros j x Hj. destruct (decide (i = j)) as [->|Hij].
  - rewrite list_lookup_alter_eq in Hj. destruct (l !! j) as [y|] eqn:E; [|done]. cbn in Hj.
    simplify_eq. by apply Hf.
  - rewrite list_lookup_alter_ne in Hj by done. rewrite Forall_lookup in Hl. by apply (Hl j).
Qed.

Lemma live_bounds a : ledger_ok a -> 0 <= sum_by used (ad_delivery_slots a) <= 65532.
Proof.
  intros Hok. pose proof (ok_capacity _ Hok) as Hc. unfold slot_capacity in Hc.
  assert (Hlen : forall l, 0 <= sum_by used l <= Z.of_nat (length l)).
  { induction l as [|x l IH]; cbn [sum_by length]; [lia|]. pose proof (used_bounds x). lia. }
  specialize (Hlen (ad_delivery_slots a)). lia.
Qed.

(** The slots a slot of [x] is replaced by [y] in. *)
Lemma replace_slot a i x (y : tcp_shift_delivery_slot) live a' :
  ledger_ok a -> ad_delivery_slots a !! i = Some x ->
  slot_ok y -> (forall seg j z, dv_segment y = Some seg -> ad_delivery_slots a !! j = Some z ->
                  dv_segment z = Some seg -> j = i) ->
  live = ad_delivery_live a - used x + used y ->
  ledger_view a' = ledger_view (a <| ad_delivery_slots := alter (fun _ => y) i (ad_delivery_slots a) |>
                                  <| ad_delivery_live := live |>) ->
  ledger_ok a' /\ held a' = held a - dv_payload_bytes x + dv_payload_bytes y /\
  charged a' = charged a - dv_acked_payload_bytes x + dv_acked_payload_bytes y /\
  ad_delivered_bytes a' = ad_delivered_bytes a.
Proof.
  intros [H1 H2 H3 H4 H5] Hi Hy Hu -> Hv. rewrite (held_view _ _ Hv), (charged_view _ _ Hv).
  split; [|split_and!; [by apply sum_by_alter..|by injection Hv]].
  apply (ledger_ok_view _ _ Hv). split; cbn.
  - by apply Forall_alter_one.
  - apply segments_unique_alter; [done|]. intros z seg _ Hz j w Hj Hw. by apply (Hu seg j w).
  - unfold slot_capacity in *. cbn. by rewrite length_alter.
  - rewrite H4. symmetry. by apply sum_by_alter.
  - done.
Qed.

(** After a replacement the segment of the new slot is found, that of the old
    one is not. *)
Lemma find_filled a a' i x y seg live :
  ad_delivery_slots a !! i = Some x -> dv_segment y = Some seg ->
  ledger_view a' = ledger_view (a <| ad_delivery_slots := alter (fun _ => y) i (ad_delivery_slots a) |>
                                  <| ad_delivery_live := live |>) ->
  tcp_shift_delivery_find a' seg <> None.
Proof.
  intros Hx Hy [= Hm _ _] E. apply slot_index_none in E. rewrite Forall_lookup in E.
  assert (Hi : alter (fun _ => y) i (ad_delivery_slots a) !! i = Some y)
    by (rewrite list_lookup_alter_eq, Hx; done).
  destruct (view_lookup _ _ _ _ (eq_sym Hm) Hi) as (z & Hz & [= Ez _ _]).
  specialize (E i z Hz). apply not_true_iff_false in E. apply E, slot_holds_spec. congruence.
Qed.
Lemma find_emptied a a' i x seg live :
  segments_unique (ad_delivery_slots a) -> ad_delivery_slots a !! i = Some x ->
  dv_segment x = Some seg ->
  ledger_view a' = ledger_view (a <| ad_delivery_slots := alter (fun _ => zero_slot) i (ad_delivery_slots a) |>
                                  <| ad_delivery_live := live |>) ->
  tcp_shift_delivery_find a' seg = None.
Proof.
  intros Hu Hx Sx [= Hm _ _]. apply slot_index_none, Forall_lookup. intros j z Hz.
  apply not_true_is_false. intros Hh. apply slot_holds_spec in Hh.
  destruct (view_lookup _ _ _ _ Hm Hz) as (w & Hw & [= Ew _ _]).
  destruct (decide (i = j)) as [->|Hij].
  - rewrite list_lookup_alter_eq, Hx in Hw. cbn in Hw. simplify_eq. cbn in Ew. congruence.
  - rewrite list_lookup_alter_ne in Hw by done. apply Hij, (Hu i j x w seg); congruence.
Qed.

(** *** Freeing *)

Lemma release_slot_view s i x :
  ledger_ok (fw_ad s) -> ad_delivery_slots (fw_ad s) !! i = Some x -> dv_segment x <> NULL ->
  flow_view (tcp_shift_delivery_release_slot i s).2 =
  ledger_view (fw_ad s <| ad_delivery_slots := alter (fun _ => zero_slot) i (ad_delivery_slots (fw_ad s)) |>
                       <| ad_delivery_live := ad_delivery_live (fw_ad s) - 1 |>).
Proof.
  intros Hok Hi Hx. unfold tcp_shift_delivery_release_slot. rewrite bind_run. cbn [get_ad gets fst snd].
  assert (Hat : slot_at (fw_ad s) i = x) by (by apply nth_lookup_Some). rewrite Hat.
  destruct (dv_segment x) as [seg|] eqn:Ex; [|done]. cbn [is_null]. rewrite !bind_run.
  rewrite view_note_delivery. unfold flow_view, ledger_view. cbn.
  pose proof (live_bounds _ Hok) as Hb. rewrite <- (ok_live _ Hok) in Hb.
  assert (Hpos : 0 < ad_delivery_live (fw_ad s)).
  { rewrite (ok_live _ Hok). pose proof (sum_by_alter used (fun _ => zero_slot) i _ x Hi) as Hs.
    assert (Hz : forall l, 0 <= sum_by used l).
    { induction l as [|w l IH]; cbn; [done|]. pose proof (used_bounds w). lia. }
    specialize (Hz (alter (fun _ => zero_slot) i (ad_delivery_slots (fw_ad s)))).
    assert (used x = 1 /\ used zero_slot = 0) as [E1 E2] by (unfold used; by rewrite Ex).
    rewrite E1, E2 in Hs. lia. }
  rewrite (proj2 (Z.eqb_neq _ 0)) by lia. cbn. by rewrite u16_small by lia.
Qed.

Lemma acked_moves seg n s :
  let s' := (tcp_shift_lwip_cc_on_segment_acked seg n s).2 in
  moves 0 (released seg (fw_ad s) (fw_ad s')) (fw_ad s) (fw_ad s').
Proof.
  unfold tcp_shift_lwip_cc_on_segment_acked. rewrite bind_run. cbn [get_ad gets fst snd].
  rewrite bind_run. cbn [gets fst snd].
  destruct (_ || _). { cbn. unfold released. destruct (tcp_shift_delivery_find _ _) eqn:E; rewrite ?E; by apply moves_charges. }
  rewrite bind_run. set (s1 := (note_delivery _ s).2).
  assert (E1 : flow_view s1 = flow_view s) by apply core_view, core_note.
  destruct (tcp_shift_delivery_find (fw_ad s) seg) as [i|] eqn:Ef.
  2: { cbn zeta. unfold released. rewrite Ef. apply moves_charges, charges_view.
       etransitivity; [|exact E1]. apply core_view, core_note. }
  rewrite bind_run. set (s2 := (when _ _ s1).2).
  assert (E2 : flow_view s2 = flow_view s).
  { rewrite <- E1. unfold s2, when. case_match; [apply core_view, core_note|done]. }
  clearbody s2. clear s1 E1. cbn zeta. intros Hok.
  destruct (find_some _ _ _ Ef) as (x & Hi & Hx & Hat).
  assert (E2' : ledger_view (fw_ad s) = ledger_view (fw_ad s2)) by done.
  pose proof E2' as [= Hs2 _ _]. destruct (view_lookup _ _ _ _ Hs2 Hi) as (x2 & Hi2 & [= Q1 Q2 Q3]).
  pose proof (ledger_ok_view _ _ E2 Hok) as Hok2.
  pose proof (release_slot_view s2 i x2 Hok2 Hi2 ltac:(congruence)) as Hv.
  set (s' := (tcp_shift_delivery_release_slot i s2).2) in *.
  destruct (replace_slot (fw_ad s2) i x2 zero_slot (ad_delivery_live (fw_ad s2) - 1) (fw_ad s') Hok2 Hi2)
    as (H1 & H2 & H3 & H4); try done.
  { unfold used. rewrite Q1, Hx. cbn. lia. }
  assert (Hnone : tcp_shift_delivery_find (fw_ad s') seg = None)
    by (eapply find_emptied; [apply Hok2|exact Hi2|congruence|exact Hv]).
  unfold released. rewrite Ef, Hnone, Hat.
  rewrite H4, (held_view _ _ E2') , (charged_view _ _ E2'), H2, H3, Q3.
  pose proof (ok_delivered _ Hok2). pose proof (ok_slots _ Hok) as Hall.
  rewrite Forall_lookup in Hall. specialize (Hall i x Hi). unfold slot_ok in Hall. rewrite Hx in Hall.
  injection E2' as _ _ ->. split_and!; [done|cbn; lia|].
  rewrite u64_small; cbn; lia.
Qed.

(** *** Sending *)

Lemma note_ad f s : fw_ad (note_delivery f s).2 = fw_ad s.
Proof. unfold note_delivery, note, when. rewrite bind_run. cbn. by case_match. Qed.
Lemma call_os_ad {A} (f : W -> A * W) s : fw_ad (call_os f s).2 = fw_ad s.
Proof. unfold call_os. by destruct (f _). Qed.

(** More room: empty slots, within the configured maximum. *)
Definition grown a a' : Prop :=
  exists k, a' = a <| ad_delivery_slots := ad_delivery_slots a ++ replicate k zero_slot |> /\
            slot_capacity a + Z.of_nat k <= TCP_SND_QUEUELEN.

Lemma grown_refl a : ledger_ok a -> grown a a.
Proof.
  intros Hok. exists 0%nat. pose proof (ok_capacity _ Hok). split; [|lia]. cbn. rewrite app_nil_r.
  by destruct a.
Qed.

Lemma grow_grown s :
  ledger_ok (fw_ad s) -> grown (fw_ad s) (fw_ad (tcp_shift_delivery_grow s).2).
Proof.
  intros Hok. unfold tcp_shift_delivery_grow. rewrite bind_run. cbn [get_ad gets fst snd].
  change (if TCP_SND_QUEUELEN >? UINT16_MAX then UINT16_MAX else TCP_SND_QUEUELEN) with 65532.
  destruct (_ >=? 65532) eqn:Hcap; [by apply grown_refl|].
  destruct (grown_capacity _ =? 0) eqn:Hz; [by apply grown_refl|].
  rewrite bind_run. set (s1 := (call_os _ s).2).
  assert (E1 : fw_ad s1 = fw_ad s) by apply call_os_ad. destruct (negb _).
  { rewrite bind_run. cbn [ret snd]. rewrite note_ad, E1. by apply grown_refl. }
  rewrite !bind_run. cbn [ret snd]. rewrite note_ad. cbn. rewrite E1.
  exists (Z.to_nat (grown_capacity (slot_capacity (fw_ad s))) - length (ad_delivery_slots (fw_ad s)))%nat.
  split; [done|]. unfold slot_capacity in *.
  assert (grown_capacity (Z.of_nat (length (ad_delivery_slots (fw_ad s)))) <= 65532).
  { unfold grown_capacity. change (if TCP_SND_QUEUELEN >? UINT16_MAX then UINT16_MAX else TCP_SND_QUEUELEN) with 65532. case_match eqn:E; [done|]. lia. }
  lia.
Qed.

Lemma grown_view a a' :
  ledger_ok a -> grown a a' ->
  ledger_ok a' /\ held a' = held a /\ charged a' = charged a /\
  ad_delivered_bytes a' = ad_delivered_bytes a /\
  forall seg, tcp_shift_delivery_find a seg = None -> tcp_shift_delivery_find a' seg = None.
Proof.
  intros [H1 H2 H3 H4 H5] (k & -> & Hk). unfold held, charged, slot_capacity in *. cbn.
  rewrite !sum_by_app, !sum_by_replicate, !Z.add_0_r by done.
  split_and!; try done; [split; cbn|].
  - apply Forall_app. split; [done|]. by apply Forall_replicate.
  - intros i j x y seg Hx Hy Sx Sy. apply (H2 i j x y seg); [..|done|done].
    + rewrite lookup_app_Some in Hx. destruct Hx as [Hx|[_ Hx]]; [done|].
      apply lookup_replicate in Hx as [-> _]. done.
    + rewrite lookup_app_Some in Hy. destruct Hy as [Hy|[_ Hy]]; [done|].
      apply lookup_replicate in Hy as [-> _]. done.
  - unfold slot_capacity. cbn. rewrite length_app, length_replicate. lia.
  - by rewrite sum_by_app, sum_by_replicate, Z.add_0_r.
  - done.
  - intros seg Hf. unfold tcp_shift_delivery_find in *. rewrite slot_index_none in *. cbn.
    apply Forall_app. split; [done|]. by apply Forall_replicate.
Qed.

Lemma room_grown s :
  ledger_ok (fw_ad s) ->
  let '(r, s') := delivery_room s in
  grown (fw_ad s) (fw_ad s') /\
  forall i, r = Some i -> exists x, ad_delivery_slots (fw_ad s') !! i = Some x /\ dv_segment x = NULL.
Proof.
  intros Hok. assert (Hempty : forall a i, tcp_shift_delivery_empty_slot a = Some i ->
    exists x, ad_delivery_slots a !! i = Some x /\ dv_segment x = NULL).
  { intros a i Hi. apply slot_index_some in Hi as (x & Hx & Hn). exists x. split; [done|].
    by destruct (dv_segment x). }
  rewrite (surjective_pairing (delivery_room s)).
  unfold delivery_room. rewrite bind_run. cbn [get_ad gets fst snd].
  destruct (tcp_shift_delivery_empty_slot (fw_ad s)) as [i|] eqn:Ei.
  { split; [by apply grown_refl|]. intros j [= <-]. by apply Hempty. }
  rewrite bind_run. pose proof (grow_grown s Hok) as Hg. set (s1 := (tcp_shift_delivery_grow s).2) in *.
  destruct (_ <? 0); [done|]. rewrite bind_run. cbn [get_ad gets fst snd].
  destruct (tcp_shift_delivery_empty_slot (fw_ad s1)) as [i|] eqn:Ei1.
  { split; [done|]. intros j [= <-]. by apply Hempty. }
  rewrite bind_run. cbn [ret fst snd]. by rewrite note_ad.
Qed.

Lemma fill_view a i f y z live :
  charge_view (f z) = charge_view y ->
  ledger_view (set_slot i f (set_slot i (fun _ => z) a <| ad_delivery_live := live |>)) =
  ledger_view (a <| ad_delivery_slots := alter (fun _ => y) i (ad_delivery_slots a) |>
                 <| ad_delivery_live := live |>).
Proof.
  intros Hz. unfold ledger_view, set_slot. cbn. do 2 f_equal. apply list_eq. intros j.
  rewrite !list_lookup_fmap. destruct (decide (i = j)) as [->|Hij].
  - rewrite !list_lookup_alter_eq. destruct (_ !! j); cbn; by rewrite ?Hz.
  - by rewrite !list_lookup_alter_ne.
Qed.

(** The slot a first transmission fills. *)
Lemma create_moves seg seq n now s :
  0 < n <= 65535 -> ledger_ok (fw_ad s) -> tcp_shift_delivery_find (fw_ad s) seg = None ->
  let s' := (delivery_note_tx seg seq n now s).2 in
  moves (first_sent seg n (fw_ad s) (fw_ad s')) 0 (fw_ad s) (fw_ad s').
Proof.
  intros Hn Hok Hf. unfold delivery_note_tx. rewrite bind_run. cbn [get_ad gets fst snd]. rewrite Hf.
  unfold tcp_shift_delivery_create. rewrite bind_run, bind_run.
  pose proof (room_grown s Hok) as Hr. rewrite (surjective_pairing (delivery_room s)) in Hr.
  destruct Hr as [Hg Hi]. set (s1 := (delivery_room s).2) in *.
  destruct (grown_view _ _ Hok Hg) as (Hok1 & Hh & Hc & Hd & Hfind).
  assert (Hsame : moves 0 0 (fw_ad s) (fw_ad s1)).
  { intros _. rewrite Hh, Hc, Hd. split_and!; [done|lia|].
    pose proof (ok_delivered _ Hok). rewrite u64_small; lia. }
  destruct (delivery_room s).1 as [i|].
  2: { cbn. unfold first_sent. by rewrite Hf, (Hfind _ Hf). }
  destruct (Hi i eq_refl) as (x & Hx & Hxn). clear Hi.
  set (y := slot_first_send (fw_ad s) (fw_pcb s1) now seq n (zero_slot <| dv_segment := Some seg |>)).
  rewrite !bind_run. cbn [ret fst snd get_ad get_pcb gets]. rewrite !bind_run. cbn zeta.
  set (s' := (note_delivery _ _).2).
  assert (Hv : flow_view s' = ledger_view (fw_ad s1
      <| ad_delivery_slots := alter (fun _ => y) i (ad_delivery_slots (fw_ad s1)) |>
      <| ad_delivery_live := ad_delivery_live (fw_ad s1) + 1 |>)).
  { unfold s'. rewrite view_note_delivery. unfold flow_view, upd_slot. cbn -[note_delivery ledger_view].
    rewrite !note_ad. cbn -[ledger_view set_slot].
    pose proof (live_bounds _ Hok1) as Hb. rewrite <- (ok_live _ Hok1) in Hb.
    rewrite u16_small by (cbn; lia). by apply fill_view. }
  destruct (replace_slot (fw_ad s1) i x y (ad_delivery_live (fw_ad s1) + 1) (fw_ad s') Hok1 Hx)
    as (H1 & H2 & H3 & H4); try done.
  { unfold slot_ok. cbn. lia. }
  { intros seg' j z [= <-] Hj Hz. specialize (Hfind _ Hf). apply slot_index_none in Hfind.
    rewrite Forall_lookup in Hfind. specialize (Hfind j z Hj). apply slot_holds_spec in Hz. congruence. }
  { unfold used. rewrite Hxn. cbn. lia. }
  assert (Hfs : first_sent seg n (fw_ad s) (fw_ad s') = n).
  { unfold first_sent. rewrite Hf. pose proof (find_filled _ _ i x y seg _ Hx eq_refl Hv).
    by destruct (tcp_shift_delivery_find (fw_ad s') seg). }
  rewrite Hfs. intros _. rewrite H2, H3, H4, Hh, Hc, Hd.
  pose proof (ok_slots _ Hok1) as Hall. rewrite Forall_lookup in Hall. specialize (Hall i x Hx).
  unfold slot_ok in Hall. rewrite Hxn in Hall. destruct Hall as [-> ->].
  pose proof (ok_delivered _ Hok). split_and!; [done|cbn; lia|]. rewrite u64_small; cbn; lia.
Qed.

Lemma retransmit_view a now x : charge_view (slot_retransmit a now x) = charge_view x.
Proof. unfold slot_retransmit. by case_match; case_match. Qed.

(** What a transmission does before it reaches the ledger. *)
Lemma tx_prefix seg seq n s :
  0 <= n -> let s' := (tcp_shift_lwip_cc_on_segment_tx seg seq n s).2 in
  flow_view s' = flow_view s \/
  (0 < n /\ exists s1 now, flow_view s1 = flow_view s /\ s' = (delivery_note_tx seg seq n now s1).2).
Proof.
  intros Hn s'. unfold s', tcp_shift_lwip_cc_on_segment_tx. rewrite bind_run. cbn [get_ad gets fst snd].
  rewrite bind_run. cbn [gets fst snd]. destruct (_ || _) eqn:Hg; [by left|].
  rewrite bind_run. destruct ((tcp_shift_delivery_now_ns s).1 =? 0); [left; apply core_view, core_now|].
  right. apply orb_false_iff in Hg as [_ Hg]. split; [lia|].
  set (now := (tcp_shift_delivery_now_ns s).1). set (s0 := (tcp_shift_delivery_now_ns s).2).
  rewrite !bind_run. eexists _, now. split; [|reflexivity].
  etransitivity; [|apply (core_view s s0), core_now]. clearbody now s0.
  match goal with |- flow_view (when ?c ?m ?s).2 = _ =>
    transitivity (flow_view s); [destruct c; [by apply view_upd_ad|done]|] end.
  cbn [get_pcb gets snd]. unfold note_tx_gap. rewrite (core_view _ _ (core_note _ _)).
  rewrite (core_view _ _ (core_note_tx _ _ _)).
  match goal with |- flow_view (?m ?s).2 = _ => assert (Hm : frames flow_view m) end; [|apply Hm].
  unfold prr_note_tx. frames_walk.
Qed.

Lemma segments_of_view a a' :
  ledger_view a' = ledger_view a ->
  map dv_segment (ad_delivery_slots a') = map dv_segment (ad_delivery_slots a).
Proof.
  intros [= Hm _ _]. apply (f_equal (map (fun v => v.1.1))) in Hm. by rewrite !map_map in Hm.
Qed.

Lemma tx_moves seg seq n s :
  0 <= n <= 65535 ->
  let s' := (tcp_shift_lwip_cc_on_segment_tx seg seq n s).2 in
  moves (first_sent seg n (fw_ad s) (fw_ad s')) 0 (fw_ad s) (fw_ad s').
Proof.
  intros Hn s'.
  destruct (tx_prefix seg seq n s ltac:(lia)) as [Hv|(Hpos & s1 & now & Hv & Hs')]; fold s' in Hv || fold s' in Hs'.
  - unfold first_sent. rewrite (find_segments (fw_ad s) (fw_ad s')) by by apply segments_of_view.
    destruct (tcp_shift_delivery_find _ _); by apply moves_charges, (charges_view _ _ Hv).
  - pose proof (find_segments _ _ seg (segments_of_view _ _ Hv)) as Hfind.
    apply (moves_view_l _ _ _ _ _ Hv). intros Hok1. revert Hok1.
    destruct (tcp_shift_delivery_find (fw_ad s1) seg) as [i|] eqn:Ef.
    + unfold first_sent. rewrite <- Hfind. apply moves_charges, charges_view. fold (flow_view s').
      rewrite Hs'. unfold delivery_note_tx. rewrite bind_run. cbn [get_ad gets fst snd]. rewrite Ef.
      rewrite bind_run, view_note_delivery. apply view_upd_slot. intros x. apply retransmit_view.
    + intros Hok1. pose proof (create_moves seg seq n now s1 ltac:(lia) Hok1 Ef Hok1) as Hc.
      cbn zeta in Hc. rewrite <- Hs' in Hc. unfold first_sent in *. rewrite <- Hfind. by rewrite Ef in Hc.
Qed.

(** ** Runs *)

(** The book kept beside the ledger: the payload that was given slots, and the
    bytes that had been charged to the slots freed since. *)
Record ledger_book := mk_book { bk_sent : Z; bk_gone : Z }.

Definition book_event (ev : hook_event) a a' (b : ledger_book) : ledger_book :=
  match ev with
  | EvSegmentTx seg _ n => mk_book (bk_sent b + first_sent seg n a a') (bk_gone b)
  | EvSegmentAcked seg _ => mk_book (bk_sent b) (bk_gone b + released seg a a')
  | _ => b
  end.

Fixpoint book_run (evs : list hook_event) (b : ledger_book) s : ledger_book * F :=
  match evs with
  | [] => (b, s)
  | ev :: evs' =>
      let s' := (run_event ev s).2 in
      book_run evs' (book_event ev (fw_ad s) (fw_ad s') b) s'
  end.

(** The arguments' C types. *)
Definition event_ok (ev : hook_event) : Prop :=
  match ev with EvSegmentTx _ _ n => 0 <= n <= 65535 | _ => True end.

Definition balanced (b : ledger_book) a : Prop :=
  ledger_ok a /\ ad_delivered_bytes a = u64 (bk_gone b + charged a) /\
  0 <= bk_gone b /\ bk_gone b + held a <= bk_sent b.

Lemma balanced_moves b a a' sent gone :
  moves sent gone a a' -> 0 <= gone -> balanced b a ->
  balanced (mk_book (bk_sent b + sent) (bk_gone b + gone)) a'.
Proof.
  intros Hm Hg (Hok & Hd & H0 & Hb). destruct (Hm Hok) as (H1 & H2 & H3). split_and!; cbn; [done| |lia..].
  rewrite H3, Hd, <- !Z.add_assoc, <- Z.add_sub_assoc, u64_add_l. f_equal. lia.
Qed.

Lemma released_nonneg seg a a' : ledger_ok a -> 0 <= released seg a a'.
Proof.
  intros Hok. unfold released. destruct (tcp_shift_delivery_find a seg) as [i|] eqn:E; [|by repeat case_match].
  destruct (find_some _ _ _ E) as (x & Hi & Hx & ->). case_match; [done|].
  pose proof (ok_slots _ Hok) as Hs. rewrite Forall_lookup in Hs. specialize (Hs i x Hi).
  unfold slot_ok in Hs. rewrite Hx in Hs. lia.
Qed.

Lemma event_moves ev s :
  event_ok ev -> ledger_ok (fw_ad s) ->
  let s' := (run_event ev s).2 in
  exists sent gone, moves sent gone (fw_ad s) (fw_ad s') /\ 0 <= gone /\
    forall b, book_event ev (fw_ad s) (fw_ad s') b = mk_book (bk_sent b + sent) (bk_gone b + gone).
Proof.
  intros Hev Hok s'. destruct (ledger_event ev) eqn:El.
  - destruct ev; try discriminate El; unfold s'.
    + exists (first_sent segment payload_bytes (fw_ad s) (fw_ad s')), 0.
      destruct (tx_event_once segment seq_start payload_bytes s) as [E|E]; unfold s'; rewrite E.
      * split_and!; [|done|intros b; cbn [book_event]; by rewrite Z.add_0_r].
        unfold first_sent. destruct (tcp_shift_delivery_find _ _) eqn:Ef; rewrite ?Ef; by apply moves_charges.
      * split_and!; [by apply tx_moves|done|intros b; cbn [book_event]; by rewrite Z.add_0_r].
    + exists 0, (released segment (fw_ad s) (fw_ad s')).
      destruct (acked_event_once segment payload_bytes s) as [E|E]; unfold s'; rewrite E.
      * split_and!; [|by apply released_nonneg|intros b; cbn [book_event]; by rewrite Z.add_0_r].
        unfold released. destruct (tcp_shift_delivery_find _ _) eqn:Ef; rewrite ?Ef; by apply moves_charges.
      * split_and!; [apply acked_moves|by apply released_nonneg|intros b; cbn [book_event]; by rewrite Z.add_0_r].
  - exists 0, 0. split_and!; [|done|].
    + pose proof (event_steps flow_charges flow_charges_respects flow_charges_hook ev El s) as Hs.
      by apply moves_charges.
    + clearbody s'. intros [x y]. destruct ev; try discriminate El; cbn; by rewrite !Z.add_0_r.
Qed.

Lemma book_run_balanced evs b s :
  Forall event_ok evs -> balanced b (fw_ad s) ->
  (book_run evs b s).2 = (run_events evs s).2 /\
  balanced (book_run evs b s).1 (fw_ad (book_run evs b s).2).
Proof.
  intros Hevs. revert b s. induction Hevs as [|ev evs Hev Hevs IH]; intros b s Hb; [done|].
  cbn [book_run]. rewrite run_events_cons. destruct Hb as (Hok & Hrest).
  destruct (event_moves ev s Hev Hok) as (sent & gone & Hm & Hg & ->).
  apply IH. by apply (balanced_moves _ _ _ _ _ Hm Hg).
Qed.

Lemma fresh_balanced s :
  ad_delivery_slots (fw_ad s) = [] -> ad_delivery_live (fw_ad s) = 0 ->
  ad_delivered_bytes (fw_ad s) = 0 -> balanced (mk_book 0 0) (fw_ad s).
Proof.
  intros Hs Hl Hd. unfold balanced, charged, held. rewrite Hs, Hd. cbn. split_and!; try done.
  split; unfold slot_capacity; rewrite ?Hs, ?Hl, ?Hd; cbn; try done; try lia.
Qed.

Lemma run_ledger_ok evs s :
  ad_delivery_slots (fw_ad s) = [] -> ad_delivery_live (fw_ad s) = 0 ->
  ad_delivered_bytes (fw_ad s) = 0 -> Forall event_ok evs ->
  ledger_ok (fw_ad (run_events evs s).2).
Proof.
  intros Hs Hl Hd Hevs. destruct (book_run_balanced evs (mk_book 0 0) s Hevs) as [<- [Hok _]]; [|done].
  by apply fresh_balanced.
Qed.

(** C22. Over any sequence of hook calls on a freshly bound flow (transmissions,
    retransmissions, ACKs, SACKs, losses, timeouts, frees of segments, in any
    order and through any of the three hook tables), interleaved with arbitrary
    changes lwIP makes to the control block, the delivery ledger stays well
    formed: every slot is charged at most its payload, a segment has one slot,
    the live count is the number of slots in use and the capacity stays within
    the configured queue length. [delivered_bytes] is exactly the bytes charged
    to the segments still held plus those charged to the segments freed, and
    never exceeds the payload that was ever given a slot: no byte is counted
    twice, whatever is acknowledged or SACKed repeatedly. *)
Theorem ledger_exactly_once evs s :
  ad_delivery_slots (fw_ad s) = [] -> ad_delivery_live (fw_ad s) = 0 ->
  ad_delivered_bytes (fw_ad s) = 0 -> Forall event_ok evs ->
  let '(b, s') := book_run evs (mk_book 0 0) s in
  s' = (run_events evs s).2 /\ ledger_ok (fw_ad s') /\
  ad_delivered_bytes (fw_ad s') = u64 (bk_gone b + charged (fw_ad s')) /\
  0 <= bk_gone b + charged (fw_ad s') <= bk_sent b.
Proof.
  intros Hs Hl Hd Hevs. rewrite (surjective_pairing (book_run evs _ s)).
  destruct (book_run_balanced evs (mk_book 0 0) s Hevs) as [Hrun (Hok & Hdel & Hg & Hb)];
    [by apply fresh_balanced|].
  pose proof (charged_le_held _ Hok). split_and!; [done..|lia|lia].
Qed.

End Flow.

(** A segment of 1000 bytes is sent, SACKed, acknowledged and freed. *)
Definition example_traffic : list hook_event :=
  [EvSegmentTx 1 5000 1000; EvSegmentTx 2 6000 500;
   EvLwip (example_pcb <| pb_snd_nxt := 6500 |> <| pb_unacked := [1000; 500] |>);
   EvSack 5000 [mk_sack_range 6000 6500]; EvSegmentTx 1 5000 1000;
   EvLwip (example_pcb <| pb_snd_nxt := 6500 |> <| pb_lastack := 6500 |>);
   EvAckBegin; EvAck 1500; EvSegmentAcked 1 1000; EvSegmentAcked 2 500].

Lemma ledger_exactly_once_witness :
  let '(b, s') := book_run example_traffic (mk_book 0 0) example_cubic in
  ad_delivered_bytes (fw_ad s') = u64 (bk_gone b + charged (fw_ad s')) /\
  ad_delivered_bytes (fw_ad s') = 1500 /\ b = mk_book 1500 1500.
Proof.
  pose proof (ledger_exactly_once example_traffic example_cubic ltac:(vm_compute; reflexivity)
    ltac:(vm_compute; reflexivity) ltac:(vm_compute; reflexivity)) as Hl.
  assert (Hok : Forall event_ok example_traffic) by (repeat constructor; cbn; lia).
  specialize (Hl Hok).
  assert (E : book_run example_traffic (mk_book 0 0) example_cubic =
              (mk_book 1500 1500, (run_events example_traffic example_cubic).2))
    by (vm_compute; reflexivity).
  rewrite E in *. split; [apply Hl|]. split; [vm_compute|]; reflexivity.
Defined.
