(* ===== verification/AdapterSample.v ===== *)
(** * Rate samples

    The sample an ACK or a SACK gives the controller is taken from the newest
    transmission it delivered, and its fields are the exact quantities of the
    delivery-rate estimation draft, with Karn's rule for the round-trip time. *)

From Stdlib Require Import ZArith Lia Bool List.
From stdpp Require Import base tactics numbers list.
From S2P Require Import Prelude StateMonad CC Observation Rack Prr.
From S2P Require Import AdapterData AdapterDelivery AdapterPacing AdapterRecovery AdapterRate.
From S2P Require Import AdapterPolicy Adapter Selector BbrInternal AdapterHooks AdapterFrame AdapterEvents.
From S2P Require Import AdapterLedger.
Local Open Scope Z_scope.
Implicit Types (slot : tcp_shift_delivery_slot) (slots : list tcp_shift_delivery_slot)
  (a : tcp_shift_lwip_cc_adapter).

(** ** The order of transmissions *)

(** [x] was not sent after [y]: by time, ties by the end of the sequence range. *)
Definition sent_before_eq (base : Z) (x y : tcp_shift_delivery_slot) : Prop :=
  dv_tx_ns x < dv_tx_ns y \/
  (dv_tx_ns x = dv_tx_ns y /\ seq_offset base (slot_end x) <= seq_offset base (slot_end y)).

#[export] Instance sent_before_eq_preorder base : PreOrder (sent_before_eq base).
Proof. split; [intros x|intros x y z]; unfold sent_before_eq; lia. Qed.

(** The slots' ranges lie within half the sequence space. *)
Definition in_window (base : Z) slot : Prop := in_half base (slot_end slot).

Lemma candidate_newer_spec base slot i c :
  in_window base slot -> in_window base c ->
  tcp_shift_delivery_candidate_newer slot (Some (i, c)) = false -> sent_before_eq base slot c.
Proof.
  unfold in_window, tcp_shift_delivery_candidate_newer, sent_before_eq. intros Hs Hc.
  rewrite (s32_offset base) by done. lia.
Qed.
Lemma candidate_newer_false base slot i c :
  in_window base slot -> in_window base c ->
  tcp_shift_delivery_candidate_newer slot (Some (i, c)) = true -> sent_before_eq base c slot.
Proof.
  unfold in_window, tcp_shift_delivery_candidate_newer, sent_before_eq. intros Hs Hc.
  rewrite (s32_offset base) by done. lia.
Qed.

Lemma charge_slot_order newly slot :
  dv_tx_ns (charge_slot newly slot) = dv_tx_ns slot /\
  slot_end (charge_slot newly slot) = slot_end slot.
Proof. unfold charge_slot. by case_match. Qed.

(** [x] is the candidate among the slots [l] from index [i] on. *)
Definition newest_of (base : Z) newly (l : list tcp_shift_delivery_slot) (i : nat)
    (before after : option (nat * tcp_shift_delivery_slot)) : Prop :=
  match after with
  | None => before = None /\ Forall (fun y => newly y = @None Z) l
  | Some (j, x) =>
      (before = Some (j, x) \/
       exists k y, j = (i + k)%nat /\ l !! k = Some y /\ newly y <> None /\ x = charge_slot newly y) /\
      (forall j' x', before = Some (j', x') -> sent_before_eq base x' x) /\
      Forall (fun y => newly y <> None -> sent_before_eq base y x) l
  end.

(** The candidate after looking at one more slot. *)
Definition newer_of (i : nat) slot (before : option (nat * tcp_shift_delivery_slot)) :=
  if tcp_shift_delivery_candidate_newer slot before then Some (i, slot) else before.

Lemma newer_of_some i slot before : exists j x, newer_of i slot before = Some (j, x).
Proof.
  unfold newer_of. destruct before as [[j x]|]; [|by eexists _, _]. case_match; by eexists _, _.
Qed.
Lemma newer_of_window base i slot before :
  in_window base slot -> (forall j x, before = Some (j, x) -> in_window base x) ->
  forall j x, newer_of i slot before = Some (j, x) -> in_window base x.
Proof. intros Hs Hb j x. unfold newer_of. case_match; [by intros [= _ <-]|apply Hb]. Qed.
Lemma newer_of_max base i slot before j x :
  in_window base slot -> (forall j x, before = Some (j, x) -> in_window base x) ->
  newer_of i slot before = Some (j, x) ->
  sent_before_eq base slot x /\ forall j' x', before = Some (j', x') -> sent_before_eq base x' x.
Proof.
  intros Hs Hb. unfold newer_of. destruct (tcp_shift_delivery_candidate_newer slot before) eqn:Hn.
  - intros [= _ <-]. split; [reflexivity|]. intros j' x' ->.
    apply (candidate_newer_false base slot j' x'); [done|by apply (Hb j')|done].
  - intros ->. split; [|intros j' x' [= _ <-]; reflexivity].
    apply (candidate_newer_spec base slot j x); [done|by apply (Hb j)|done].
Qed.

Lemma newest_of_skip base newly y l i before after :
  newly y = None -> newest_of base newly l (S i) before after ->
  newest_of base newly (y :: l) i before after.
Proof.
  intros Hn. destruct after as [[j x]|]; cbn [newest_of].
  - intros (H1 & H2 & H3). split_and!; [|done|by constructor].
    destruct H1 as [H1|(k & z & -> & Hz)]; [by left|]. right. exists (S k), z.
    split; [lia|done].
  - intros [H1 H2]. split; [done|by constructor].
Qed.
Lemma newest_of_take base newly y l i before after :
  newly y <> None -> in_window base y -> (forall j x, before = Some (j, x) -> in_window base x) ->
  newest_of base newly l (S i) (newer_of i (charge_slot newly y) before) after ->
  newest_of base newly (y :: l) i before after.
Proof.
  intros Hn Hy Hb. set (y' := charge_slot newly y). destruct (charge_slot_order newly y) as [Et Es].
  assert (Hwy : in_window base y') by (unfold in_window, y'; by rewrite Es).
  destruct (newer_of_some i y' before) as (j0 & x0 & E0).
  destruct (newer_of_max base i y' before j0 x0 Hwy Hb E0) as [Hy0 Hb0]. rewrite E0.
  destruct after as [[j x]|]; cbn [newest_of]; [|by intros [? _]].
  intros (H1 & H2 & H3). specialize (H2 j0 x0 eq_refl). split_and!.
  - destruct H1 as [[= <- <-]|(k & z & -> & Hz)].
    + unfold newer_of in E0. case_match; [|by left]. injection E0 as <- <-. right.
      exists 0%nat, y. split_and!; [lia|done..].
    + right. exists (S k), z. split; [lia|done].
  - intros j' x' Hx'. etransitivity; [by apply (Hb0 j')|done].
  - constructor; [|done]. intros _. transitivity y'; [|by transitivity x0].
    unfold sent_before_eq, y'. rewrite Et, Es. lia.
Qed.

Lemma charge_loop_candidate base newly l i c :
  Forall (fun y => newly y <> None -> in_window base y) l ->
  (forall j x, ch_candidate c = Some (j, x) -> in_window base x) ->
  newest_of base newly l i (ch_candidate c) (ch_candidate (charge_loop newly l i c).2).
Proof.
  intros Hl. revert i c. induction Hl as [|y l Hy Hl IH]; intros i c Hc.
  { cbn. destruct (ch_candidate c) as [[j x]|]; [|done].
    split_and!; [by left| |done]. intros j' x' [= <- <-]. reflexivity. }
  cbn [charge_loop]. destruct (newly y) as [n|] eqn:Hn.
  - assert (Ey : y <| dv_acked_payload_bytes := n |> = charge_slot newly y)
      by (unfold charge_slot; by rewrite Hn).
    rewrite (surjective_pairing (charge_loop newly l (S i) _)), Ey. cbn [snd].
    assert (Hw : in_window base y) by (apply Hy; congruence).
    apply newest_of_take; [congruence|done|done|]. apply IH. cbn [ch_candidate].
    apply newer_of_window; [|done]. unfold in_window. by rewrite (proj2 (charge_slot_order newly y)).
  - rewrite (surjective_pairing (charge_loop newly l (S i) c)). cbn [snd].
    by apply newest_of_skip, IH.
Qed.

(** ** The fields *)

(** The sample of a delivered transmission, on unbounded integers. *)
Definition sample_ref (delivered_total now_ns : Z) slot : tcp_shift_cc_rate_sample :=
  let delivered := Z.min UINT32_MAX (delivered_total - dv_delivered_at_send slot) in
  let send_interval := Z.max 0 (dv_tx_ns slot - dv_first_tx_mstamp_at_send_ns slot) in
  let ack_interval := Z.max 0 (now_ns - dv_delivered_mstamp_at_send_ns slot) in
  let interval := Z.max send_interval ack_interval in
  let rate := delivered * 1000000000 / interval in
  let karn := negb (dv_retransmitted slot) && (0 <? dv_tx_ns slot) && (dv_tx_ns slot <=? now_ns) in
  mk_rate_sample rate interval send_interval ack_interval
    (if karn then now_ns - dv_tx_ns slot else 0) (dv_delivered_at_send slot) delivered_total delivered
    (dv_prior_inflight_bytes slot)
    ((if dv_app_limited slot then TCP_SHIFT_CC_RATE_SAMPLE_APP_LIMITED else 0) +
     (if dv_retransmitted slot then TCP_SHIFT_CC_RATE_SAMPLE_RETRANSMITTED
      else if karn then TCP_SHIFT_CC_RATE_SAMPLE_RTT_VALID else 0) +
     (if 0 <? rate then TCP_SHIFT_CC_RATE_SAMPLE_VALID else 0)).

(** The stamps a transmission leaves in its slot. *)
Definition stamps_ok (delivered : Z) slot : Prop :=
  in_u64 (dv_tx_ns slot) /\ in_u64 (dv_first_tx_mstamp_at_send_ns slot) /\
  in_u64 (dv_delivered_mstamp_at_send_ns slot) /\ 0 <= dv_delivered_at_send slot <= delivered.

Lemma clamp_u32_min x : 0 <= x -> clamp_u32 x = Z.min UINT32_MAX x.
Proof. intros Hx. unfold clamp_u32. case_match; [lia|]. rewrite u32_small; lia. Qed.

Lemma guarded_sub x y :
  in_u64 x -> in_u64 y -> (if x >=? y then x -w64 y else 0) = Z.max 0 (x - y).
Proof. intros Hx Hy. case_match; [rewrite u64_small|]; lia. Qed.

Lemma rate_exact d i :
  0 <= d <= UINT32_MAX -> 0 <= i ->
  tcp_shift_rate_bytes_per_second d i = d * 1000000000 / i.
Proof.
  intros Hd Hi. unfold tcp_shift_rate_bytes_per_second. destruct (d =? 0) eqn:E1; cbn [orb].
  { apply Z.eqb_eq in E1 as ->. by rewrite Z.mul_0_l, Zdiv_0_l. }
  destruct (i =? 0) eqn:E2.
  { apply Z.eqb_eq in E2 as ->. by rewrite Z.div_0_r. }
  by rewrite u64_small by lia.
Qed.

Lemma rate_sample_ref d now slot :
  in_u64 d -> in_u64 now -> stamps_ok d slot -> rate_sample_of d now slot = sample_ref d now slot.
Proof.
  intros Hd Hnow (Ht & Hf & Hm & Hs). unfold rate_sample_of, sample_ref. cbv zeta.
  rewrite (u64_small (d - _)) by lia. rewrite clamp_u32_min by lia.
  set (n := Z.min UINT32_MAX (d - dv_delivered_at_send slot)).
  rewrite !guarded_sub by done. set (si := Z.max 0 (_ - dv_first_tx_mstamp_at_send_ns slot)).
  set (ai := Z.max 0 (now - _)).
  assert (E3 : (if si >? ai then si else ai) = Z.max si ai) by (case_match; lia). rewrite E3.
  rewrite rate_exact by lia. set (r := n * 1000000000 / Z.max si ai).
  assert (Hr : 0 <= r).
  { unfold r. destruct (Z.eq_dec (Z.max si ai) 0) as [->|Hne]; [by rewrite Z.div_0_r|].
    apply Z.div_pos; lia. }
  assert (E4 : negb (n =? 0) && negb (Z.max si ai =? 0) && negb (r =? 0) = (0 <? r)).
  { destruct (r =? 0) eqn:E; [rewrite andb_false_r; lia|]. rewrite andb_true_r.
    assert (n <> 0 /\ Z.max si ai <> 0) as [Hn Hi].
    { split; intros E0; unfold r in E; rewrite E0 in E; by rewrite ?Z.mul_0_l, ?Zdiv_0_l, ?Z.div_0_r in E. }
    lia. }
  rewrite E4. replace (negb (dv_tx_ns slot =? 0)) with (0 <? dv_tx_ns slot) by lia.
  rewrite Z.geb_leb.
  set (karn := negb (dv_retransmitted slot) && (0 <? dv_tx_ns slot) && (dv_tx_ns slot <=? now)).
  assert (E5 : (if karn then now -w64 dv_tx_ns slot else 0) = (if karn then now - dv_tx_ns slot else 0)).
  { destruct karn eqn:E; [|done]. unfold karn in E. by rewrite u64_small by lia. }
  rewrite E5. f_equal. clearbody r. by destruct (dv_app_limited slot), (dv_retransmitted slot), karn, (0 <? r).
Qed.

(** ** The sample of an ACK *)

Section Sample.
Context {W : Type} `{!AdapterOS W} `{!LwipParams}.
Local Abbreviation F := (flow W).
Implicit Types (s : F).

(** What RACK's passes leave of the slots. *)
Definition sample_view s : list tcp_shift_delivery_slot :=
  map (fun slot => slot <| dv_rack_delivered := 0 |>) (ad_delivery_slots (fw_ad s)).

Lemma sample_view_core s s' : core s' = core s -> ad_delivery_slots (fw_ad s') = ad_delivery_slots (fw_ad s).
Proof.
  intros E. assert (Ea : core_ad (fw_ad s') = core_ad (fw_ad s)) by (unfold core in E; congruence).
  change (ad_delivery_slots ?a) with (ad_delivery_slots (core_ad a)). by rewrite Ea.
Qed.
Lemma sample_of_core {A} (m : M F A) : frames core m -> frames sample_view m.
Proof. intros Hm s. unfold sample_view. by rewrite (sample_view_core _ _ (Hm s)). Qed.
Hint Extern 5 (frames sample_view _) => (apply sample_of_core; solve [auto with frames nocore]) : frames.
Lemma sample_upd_slot i v :
  frames sample_view (upd_slot (W := W) i (fun slot => slot <| dv_rack_delivered := v |>)).
Proof.
  intros s. unfold sample_view. cbn. apply list_eq. intros j. rewrite !list_lookup_fmap.
  destruct (decide (i = j)) as [->|Hij].
  - rewrite list_lookup_alter_eq. by destruct (_ !! j).
  - by rewrite list_lookup_alter_ne.
Qed.
Hint Resolve sample_upd_slot : frames.
Lemma sample_process now : frames sample_view (tcp_shift_rack_process_delivered_slots (W := W) now).
Proof.
  assert (H1 : forall fuel, frames sample_view (rack_delivery_pass (W := W) fuel now)).
  { induction fuel as [|fuel IH]; cbn [rack_delivery_pass]; frames_walk. }
  assert (H2 : forall fuel, frames sample_view (rack_reordering_pass (W := W) fuel)).
  { induction fuel as [|fuel IH]; cbn [rack_reordering_pass]; frames_walk. }
  unfold tcp_shift_rack_process_delivered_slots. frames_walk.
Qed.

Lemma rate_sample_view d now x y :
  x <| dv_rack_delivered := 0 |> = y <| dv_rack_delivered := 0 |> ->
  rate_sample_of d now x = rate_sample_of d now y /\ dv_tx_ns x = dv_tx_ns y.
Proof.
  intros E. split; [|by apply (f_equal dv_tx_ns) in E].
  change (rate_sample_of d now (x <| dv_rack_delivered := 0 |>) = rate_sample_of d now y).
  by rewrite E.
Qed.

(** The end of a sample whose candidate is known. *)
Lemma finalize_candidate i added now touched partial s :
  added <> 0 ->
  let r := tcp_shift_delivery_finalize_rate_sample (Some i) added now touched partial s in
  r.1 = rate_sample_of (u64 (ad_delivered_bytes (fw_ad s) + added)) now (slot_at (fw_ad s) i) /\
  ad_rate_first_tx_mstamp_ns (fw_ad r.2) = dv_tx_ns (slot_at (fw_ad s) i).
Proof.
  intros Hadd r. unfold r, tcp_shift_delivery_finalize_rate_sample.
  rewrite (proj2 (Z.eqb_neq added 0)) by done. rewrite bind_run, bind_run, bind_run, bind_run, bind_run.
  cbn [get_ad gets fst snd]. rewrite bind_run. cbn [get_ad gets fst snd]. rewrite bind_run, bind_run.
  set (s1 := (note_rate _ s).2). set (s2 := (upd_ad _ s1).2). set (s3 := (note_delivery _ s2).2).
  assert (E1 : fw_ad s1 = fw_ad s).
  { unfold s1, note_rate, note, when. rewrite bind_run. cbn. by case_match. }
  assert (E3 : fw_ad s3 = fw_ad s2) by apply note_ad.
  match goal with |- context [when ?c ?m s3] => set (s4 := (when c m s3).2) end.
  assert (E4 : ad_delivery_slots (fw_ad s4) = ad_delivery_slots (fw_ad s) /\
               ad_delivered_bytes (fw_ad s4) = u64 (ad_delivered_bytes (fw_ad s) + added)).
  { unfold s4, when. case_match; rewrite ?bind_run, ?note_ad; cbn -[note_delivery];
      rewrite ?note_ad, ?E3; unfold s2; cbn; by rewrite E1. }
  destruct E4 as [E4 E5]. cbn [ret fst snd].
  unfold slot_at. rewrite E4, E5. split; [done|].
  unfold tcp_shift_rate_record_stats, note_rate, note, when. rewrite bind_run. cbn.
  destruct (ad_stats _); done.
Qed.

Lemma now_range s : in_u64 (tcp_shift_delivery_now_ns s).1.
Proof.
  unfold tcp_shift_delivery_now_ns. rewrite bind_run, bind_run.
  destruct (call_os _ _).1 as [[sec nsec]|]; rewrite !bind_run; cbn [ret fst]; [apply u64_range|lia].
Qed.

(** The bytes a charging rule adds. *)
Definition newly_charged newly slots : Z :=
  sum_by dv_acked_payload_bytes (map (charge_slot newly) slots) - sum_by dv_acked_payload_bytes slots.

Lemma newly_charged_bounds newly a :
  charging newly -> ledger_ok a ->
  0 <= newly_charged newly (ad_delivery_slots a) <= 4294639620 /\
  newly_charged newly (ad_delivery_slots a) <= held a - charged a /\
  (newly_charged newly (ad_delivery_slots a) = 0 ->
   Forall (fun slot => newly slot = None) (ad_delivery_slots a)).
Proof.
  intros Hn Hok. pose proof (ok_capacity _ Hok) as Hc. unfold slot_capacity in Hc.
  pose proof (ok_slots _ Hok) as Hs. unfold newly_charged, held, charged. revert Hc.
  assert (Hind : 0 <= newly_charged newly (ad_delivery_slots a) <= 65535 * Z.of_nat (length (ad_delivery_slots a)) /\
    newly_charged newly (ad_delivery_slots a) <= sum_by dv_payload_bytes (ad_delivery_slots a)
      - sum_by dv_acked_payload_bytes (ad_delivery_slots a) /\
    (newly_charged newly (ad_delivery_slots a) = 0 ->
     Forall (fun slot => newly slot = None) (ad_delivery_slots a))).
  { unfold newly_charged. induction Hs as [|x l Hx Hl IH]; [cbn; split_and!; [lia..|by constructor]|].
    destruct IH as (I1 & I2 & I3). cbn [map sum_by length].
    assert (Hstep : (newly x = None /\ dv_acked_payload_bytes (charge_slot newly x) = dv_acked_payload_bytes x) \/
      dv_acked_payload_bytes x < dv_acked_payload_bytes (charge_slot newly x) <= dv_payload_bytes x).
    { unfold charge_slot. destruct (newly x) as [n|] eqn:E; [|by left]. right. by apply (Hn x n Hx E). }
    unfold slot_ok in Hx. split_and!; [destruct (dv_segment x); lia..|].
    intros Hz. destruct Hstep as [[Hnone Heq]|Hlt]; [|lia]. constructor; [done|]. apply I3. lia. }
  unfold newly_charged in Hind. intros Hc. split_and!; [lia..|apply Hind].
Qed.

Lemma newly_charged_none newly l :
  Forall (fun slot => newly slot = None) l -> newly_charged newly l = 0.
Proof.
  unfold newly_charged. induction 1 as [|x l Hx Hl IH]; [done|]. cbn. unfold charge_slot at 1.
  rewrite Hx. lia.
Qed.

(** Only slots in use are charged. *)
Lemma charged_in_use newly (P : tcp_shift_delivery_slot -> Prop) l :
  charging newly -> Forall slot_ok l -> Forall (fun slot => dv_segment slot <> NULL -> P slot) l ->
  Forall (fun slot => newly slot <> None -> P slot) l.
Proof.
  intros Hn Hok HP. apply Forall_lookup. intros i x Hx Hnx.
  rewrite Forall_lookup in Hok, HP. specialize (Hok i x Hx). apply (HP i x Hx). intros Hs.
  destruct (newly x) as [n|] eqn:E; [|done]. specialize (Hn x n Hok E). unfold slot_ok in Hok.
  rewrite Hs in Hok. lia.
Qed.

(** The sample before its totals: the slots are charged, the candidate is the
    newest of the charged slots, and RACK has seen them. *)
Lemma build_sample_run base newly rack s :
  charging newly -> ledger_ok (fw_ad s) ->
  Forall (fun slot => newly slot <> None -> in_window base slot) (ad_delivery_slots (fw_ad s)) ->
  (tcp_shift_delivery_now_ns s).1 <> 0 ->
  let now := (tcp_shift_delivery_now_ns s).1 in
  let slots := ad_delivery_slots (fw_ad s) in
  let n := newly_charged newly slots in
  exists s3 cand touched partial,
    ad_delivered_bytes (fw_ad s3) = ad_delivered_bytes (fw_ad s) /\
    sample_view s3 = map (fun slot => slot <| dv_rack_delivered := 0 |>) (map (charge_slot newly) slots) /\
    newest_of base newly slots 0 None cand /\
    let r := tcp_shift_delivery_finalize_rate_sample (fst <$> cand) n now touched partial s3 in
    build_sample newly rack s = ((clamp_u32 n, r.1), r.2).
Proof.
  intros Hn Hok Hw Hnow now slots n. pose proof (newly_charged_bounds newly _ Hn Hok) as (Hb & _ & _).
  fold slots n in Hb. unfold build_sample. rewrite bind_run. fold now.
  set (s1 := (tcp_shift_delivery_now_ns s).2).
  pose proof (core_now s : core s1 = core s) as Ec. pose proof (sample_view_core _ _ Ec) as Es1.
  assert (Ed1 : ad_delivered_bytes (fw_ad s1) = ad_delivered_bytes (fw_ad s)) by (by injection (core_view _ _ Ec)).
  rewrite (proj2 (Z.eqb_neq now 0)) by done. rewrite bind_run. cbn [get_ad gets fst snd].
  rewrite (surjective_pairing (charge_loop _ _ _ _)), charge_loop_slots, Es1. fold slots.
  pose proof (charge_loop_added newly slots 0 charge_start Hn (ok_slots _ Hok) ltac:(cbn; lia)) as Hadd.
  pose proof (charge_loop_candidate base newly slots 0 charge_start Hw ltac:(done)) as Hcand.
  set (c := (charge_loop newly slots 0 charge_start).2) in *.
  assert (Hcn : ch_added c = n).
  { rewrite Hadd. cbn [ch_added charge_start]. unfold n, newly_charged in *. rewrite u64_small; lia. }
  rewrite bind_run. set (s2 := (upd_ad _ s1).2). rewrite bind_run. set (s3 := (when rack _ s2).2).
  assert (Hv3 : sample_view s3 = sample_view s2) by (unfold s3; destruct rack; [apply sample_process|done]).
  assert (Hf3 : flow_view s3 = flow_view s2) by (unfold s3; destruct rack; [apply view_process|done]).
  rewrite bind_run, Hcn. exists s3, (ch_candidate c), (ch_touched c), (ch_partial c).
  split_and!; [by injection Hf3 as _ _ ->|by rewrite Hv3|done|done].
Qed.

(** C25. The rate sample of an ACK or a SACK. The count returned is exactly the
    bytes newly charged; the total advances by it. An ACK that delivers nothing
    gives the empty sample. Otherwise the sample describes the transmission
    sent last (by time, then by the end of its range) among the segments it
    delivered bytes of: delivered bytes since that transmission, the longer of
    the send and the ACK interval, their quotient rounded down, no round-trip
    time for a retransmitted segment (Karn), all as exact integers without
    overflow; and the start of the next send interval becomes that
    transmission's time. *)
Theorem rate_sample_exact base newly rack s :
  charging newly -> ledger_ok (fw_ad s) ->
  Forall (fun slot => dv_segment slot <> NULL ->
            in_window base slot /\ stamps_ok (ad_delivered_bytes (fw_ad s)) slot)
    (ad_delivery_slots (fw_ad s)) ->
  ad_delivered_bytes (fw_ad s) + held (fw_ad s) <= UINT64_MAX ->
  (tcp_shift_delivery_now_ns s).1 <> 0 ->
  let now := (tcp_shift_delivery_now_ns s).1 in
  let slots := ad_delivery_slots (fw_ad s) in
  let n := newly_charged newly slots in
  let '((count, rate), s') := build_sample newly rack s in
  count = n /\ ad_delivered_bytes (fw_ad s') = ad_delivered_bytes (fw_ad s) + n /\
  (n = 0 -> rate = zero_rate) /\
  (n <> 0 -> exists slot, slot ∈ slots /\ newly slot <> None /\
     Forall (fun other => newly other <> None -> sent_before_eq base other slot) slots /\
     rate = sample_ref (ad_delivered_bytes (fw_ad s) + n) now (charge_slot newly slot) /\
     ad_rate_first_tx_mstamp_ns (fw_ad s') = dv_tx_ns slot).
Proof.
  intros Hn Hok Hin Hmax Hnow now slots n.
  pose proof (charged_in_use newly _ _ Hn (ok_slots _ Hok) Hin) as Huse.
  assert (Hw : Forall (fun slot => newly slot <> None -> in_window base slot) slots)
    by (eapply Forall_impl; [exact Huse|]; cbv beta; tauto).
  pose proof (newly_charged_bounds newly _ Hn Hok) as (Hb & Hle & Hz). fold slots n in Hb, Hle, Hz.
  pose proof (ok_delivered _ Hok) as Hd. pose proof (charged_le_held _ Hok) as Hch.
  destruct (build_sample_run base newly rack s Hn Hok Hw Hnow)
    as (s3 & cand & touched & partial & Hd3 & Hv3 & Hcand & ->). fold now slots n in Hv3, Hcand |- *.
  set (r := tcp_shift_delivery_finalize_rate_sample _ _ _ _ _ _).
  assert (Htot : u64 (ad_delivered_bytes (fw_ad s) + n) = ad_delivered_bytes (fw_ad s) + n) by (apply u64_small; lia).
  split_and!.
  - rewrite clamp_u32_min; lia.
  - pose proof (finalize_view (fst <$> cand) n now touched partial s3 ltac:(by rewrite Hd3)) as Hv.
    rewrite Hd3, Htot in Hv. by apply (f_equal snd) in Hv.
  - intros H0. unfold r, tcp_shift_delivery_finalize_rate_sample.
    rewrite H0. reflexivity.
  - intros H0. destruct cand as [[j x]|];
      [|by destruct H0; apply newly_charged_none; destruct Hcand].
    destruct Hcand as ([Hbad|(k & y & -> & Hk & Hny & ->)] & _ & Hall); [done|].
    destruct (finalize_candidate k n now touched partial s3 H0) as [Hr1 Hr2].
    assert (Hslot : slot_at (fw_ad s3) k <| dv_rack_delivered := 0 |> =
                    charge_slot newly y <| dv_rack_delivered := 0 |>).
    { apply (f_equal (fun l => l !! k)) in Hv3. unfold sample_view in Hv3.
      rewrite !list_lookup_fmap, Hk in Hv3. unfold slot_at.
      destruct (ad_delivery_slots (fw_ad s3) !! k) as [z|] eqn:Ez; [|done].
      rewrite (nth_lookup_Some _ _ _ _ Ez). cbn in Hv3. congruence. }
    destruct (rate_sample_view (u64 (ad_delivered_bytes (fw_ad s3) + n)) now _ _ Hslot) as [E1 E2].
    change (r.1) with (tcp_shift_delivery_finalize_rate_sample (Some k) n now touched partial s3).1.
    change (r.2) with (tcp_shift_delivery_finalize_rate_sample (Some k) n now touched partial s3).2.
    destruct (charge_slot_order newly y) as [Et Es]. unfold sent_before_eq in Hall. rewrite Et, Es in Hall.
    exists y. split_and!; [by apply list_elem_of_lookup_2 in Hk|done|done| |].
    + rewrite Hr1, E1, Hd3, Htot. apply rate_sample_ref; [lia|apply now_range|].
      rewrite Forall_lookup in Huse. destruct (Huse k y Hk Hny) as (_ & S1 & S2 & S3 & S4).
      unfold charge_slot. case_match; split_and!; cbn; lia.
    + by rewrite Hr2, E2.
Qed.

End Sample.

(** Two segments, the first SACKed and retransmitted, acknowledged together. *)
Definition example_sent : flow ticks :=
  (run_events [EvSegmentTx 1 5000 1000; EvSegmentTx 2 6000 500; EvSegmentTx 1 5000 1000] example_cubic).2.

(** Evaluate a flow's slots, then check a property of each. *)
Ltac compute_slots s :=
  let v := eval vm_compute in (ad_delivery_slots (fw_ad s)) in
  let E := fresh in
  assert (E : ad_delivery_slots (fw_ad s) = v) by (vm_compute; reflexivity); rewrite E; clear E.
Ltac slots_walk tac :=
  repeat (apply List.Forall_cons; [vm_compute; tac|]); apply List.Forall_nil.

Lemma rate_sample_exact_witness :
  let '((count, rate), s') := build_sample (newly_acked_to 6500) true example_sent in
  count = 1500 /\ rs_delivered_bytes rate = 1500 /\
  rs_flags rate = TCP_SHIFT_CC_RATE_SAMPLE_RETRANSMITTED + TCP_SHIFT_CC_RATE_SAMPLE_VALID.
Proof.
  assert (Hok : ledger_ok (fw_ad example_sent))
    by (apply run_ledger_ok; [vm_compute; reflexivity..|repeat constructor; cbn; lia]).
  assert (Hin : Forall (fun slot => dv_segment slot <> NULL -> in_window 5000 slot /\
                          stamps_ok (ad_delivered_bytes (fw_ad example_sent)) slot)
                  (ad_delivery_slots (fw_ad example_sent))).
  { compute_slots example_sent.
    slots_walk ltac:(intros Hs; first [by destruct Hs | repeat split; (reflexivity || discriminate)]). }
  assert (Hm : ad_delivered_bytes (fw_ad example_sent) + held (fw_ad example_sent) <= UINT64_MAX)
    by (vm_compute; discriminate).
  assert (Hnow : (tcp_shift_delivery_now_ns example_sent).1 <> 0) by (vm_compute; discriminate).
  pose proof (rate_sample_exact 5000 (newly_acked_to 6500) true example_sent (acked_charging 6500)
    Hok Hin Hm Hnow) as H.
  assert (E : build_sample (newly_acked_to 6500) true example_sent =
    ((1500, (build_sample (newly_acked_to 6500) true example_sent).1.2),
     (build_sample (newly_acked_to 6500) true example_sent).2)) by (vm_compute; reflexivity).
  cbv zeta in H. rewrite E in H |- *. split; [|split; vm_compute; reflexivity].
  destruct H as [-> _]. vm_compute. reflexivity.
Defined.
