(* ===== verification/AdapterRackPass.v ===== *)
(** * RACK sees deliveries in the order RFC 8985 asks for

    The adapter hands the segments an ACK delivered to RACK by repeated scans
    of the slots. Each of the two passes is a fold over the delivered slots in
    sorted order, and every delivered slot is processed once by each. *)

From Stdlib Require Import ZArith Lia Bool List Sorted.
From stdpp Require Import base tactics numbers list.
From S2P Require Import Prelude StateMonad CC Observation Rack Prr.
From S2P Require Import AdapterData AdapterDelivery AdapterPacing AdapterRecovery AdapterRate.
From S2P Require Import AdapterPolicy Adapter Selector BbrInternal AdapterHooks AdapterFrame AdapterEvents.
From S2P Require Import AdapterLedger AdapterSample.
Local Open Scope Z_scope.
Implicit Types (slot : tcp_shift_delivery_slot) (slots : list tcp_shift_delivery_slot)
  (a : tcp_shift_lwip_cc_adapter).

(** ** Selection *)

Section Select.
Context (wanted : tcp_shift_delivery_slot -> bool)
  (pick : tcp_shift_delivery_slot -> tcp_shift_delivery_slot -> bool)
  (ord : tcp_shift_delivery_slot -> tcp_shift_delivery_slot -> Prop) `{!PreOrder ord}
  (dom : tcp_shift_delivery_slot -> Prop)
  (pick_yes : forall y x, dom y -> dom x -> pick y x = true -> ord y x)
  (pick_no : forall y x, dom y -> dom x -> pick y x = false -> ord x y).

(** The choice so far is a least wanted slot. *)
Definition least_of (l : list tcp_shift_delivery_slot) (i : nat)
    (before after : option (nat * tcp_shift_delivery_slot)) : Prop :=
  match after with
  | None => before = None /\ Forall (fun y => wanted y = false) l
  | Some (j, x) =>
      (before = Some (j, x) \/ exists k, j = (i + k)%nat /\ l !! k = Some x /\ wanted x = true) /\
      (forall j' x', before = Some (j', x') -> ord x x') /\
      Forall (fun y => wanted y = true -> ord x y) l
  end.

Definition better (i : nat) y (before : option (nat * tcp_shift_delivery_slot)) :=
  match before with
  | None => Some (i, y)
  | Some (_, c) => if pick y c then Some (i, y) else before
  end.

Lemma least_of_take y l i before after :
  wanted y = true -> dom y -> (forall j x, before = Some (j, x) -> dom x) ->
  least_of l (S i) (better i y before) after -> least_of (y :: l) i before after.
Proof.
  intros Hw Hy Hb.
  assert (exists j0 x0, better i y before = Some (j0, x0) /\ ord x0 y /\
    (forall j' x', before = Some (j', x') -> ord x0 x') /\
    (before = Some (j0, x0) \/ j0 = i /\ x0 = y)) as (j0 & x0 & E0 & H1 & H2 & H3).
  { unfold better. destruct before as [[jb xb]|].
    - specialize (Hb jb xb eq_refl). destruct (pick y xb) eqn:Hp.
      + exists i, y. split_and!; [done|reflexivity| |by right]. intros j' x' [= <- <-]. by apply pick_yes.
      + exists jb, xb. split_and!; [done|by apply pick_no| |by left]. intros j' x' [= <- <-]. reflexivity.
    - exists i, y. split_and!; [done|reflexivity|done|by right]. }
  rewrite E0. destruct after as [[j x]|]; cbn [least_of]; [|by intros [? _]].
  intros (Ha & Hm & Hl). specialize (Hm j0 x0 eq_refl). split_and!.
  - destruct Ha as [[= <- <-]|(k & -> & Hk & Hwk)].
    + destruct H3 as [H3|[-> ->]]; [by left|]. right. exists 0%nat. split_and!; [lia|done..].
    + right. exists (S k). split_and!; [lia|done..].
  - intros j' x' Hx'. transitivity x0; [done|by eapply H2].
  - constructor; [|done]. intros _. by transitivity x0.
Qed.

Lemma select_slot_least l i before :
  Forall (fun y => wanted y = true -> dom y) l -> (forall j x, before = Some (j, x) -> dom x) ->
  least_of l i before (select_slot wanted pick l i before).
Proof.
  intros Hl. revert i before. induction Hl as [|y l Hy Hl IH]; intros i before Hb; cbn [select_slot].
  { destruct before as [[j x]|]; cbn [least_of]; [|done].
    split_and!; [by left| |done]. intros j' x' [= <- <-]. reflexivity. }
  destruct (wanted y) eqn:Hw; cbn [negb].
  - fold (better i y before). apply least_of_take; [done|by apply Hy|done|]. apply IH.
    unfold better. intros j x. destruct before as [[jb xb]|]; [|intros [= _ <-]; by apply Hy].
    case_match; [intros [= _ <-]; by apply Hy|apply Hb].
  - specialize (IH (S i) before Hb). destruct (select_slot _ _ _ _ _) as [[j x]|]; cbn [least_of] in *.
    + destruct IH as (H1 & H2 & H3). split_and!; [|done|constructor; [congruence|done]].
      destruct H1 as [H1|(k & -> & Hk)]; [by left|]. right. exists (S k). split; [lia|done].
    + destruct IH as [H1 H2]. split; [done|by constructor].
Qed.

(** ** A pass: select, process, mark, until nothing is wanted *)

Context (mark : tcp_shift_delivery_slot -> tcp_shift_delivery_slot)
  (mark_done : forall y, wanted (mark y) = false).

Definition wanted_slots slots : list tcp_shift_delivery_slot :=
  filter (fun y => wanted y = true) slots.
Definition marked slots : list tcp_shift_delivery_slot :=
  map (fun y => if wanted y then mark y else y) slots.

Lemma wanted_alter l i x :
  l !! i = Some x -> wanted x = true -> wanted_slots l ≡ₚ x :: wanted_slots (alter mark i l).
Proof.
  unfold wanted_slots. revert i. induction l as [|y l IH]; intros [|i] Hi Hw; try done; cbn in Hi.
  - injection Hi as <-. cbn [alter list_alter]. rewrite !filter_cons, Hw, mark_done.
    by rewrite decide_True, decide_False by done.
  - cbn [alter list_alter]. rewrite !filter_cons. case_decide.
    + rewrite (IH i Hi Hw). by rewrite Permutation_swap.
    + by apply IH.
Qed.
Lemma marked_alter l i x :
  l !! i = Some x -> wanted x = true -> marked (alter mark i l) = marked l.
Proof.
  intros Hi Hw. unfold marked. apply list_eq. intros j. rewrite !list_lookup_fmap.
  destruct (decide (i = j)) as [->|Hij].
  - rewrite list_lookup_alter_eq, Hi. cbn. by rewrite mark_done, Hw.
  - by rewrite list_lookup_alter_ne.
Qed.
Lemma marked_none l : Forall (fun y => wanted y = false) l -> marked l = l /\ wanted_slots l = [].
Proof.
  intros Hl. split.
  - unfold marked. induction Hl as [|y l Hy Hl IH]; cbn; [done|]. by rewrite Hy, IH.
  - apply Forall_filter_nil || (unfold wanted_slots; induction Hl as [|y l Hy Hl IH]; [done|]; rewrite filter_cons, decide_False by congruence; done).
Qed.

End Select.

(** ** The two orders *)

(** Ascending ends of the sequence ranges. *)
Definition seq_before_eq (base : Z) (x y : tcp_shift_delivery_slot) : Prop :=
  seq_offset base (slot_end x) <= seq_offset base (slot_end y).
#[export] Instance seq_before_eq_preorder base : PreOrder (seq_before_eq base).
Proof. split; [intros x|intros x y z]; unfold seq_before_eq; lia. Qed.

Lemma pick_sent_yes base y x :
  in_window base y -> in_window base x -> rack_pick_sent y x = true -> sent_before_eq base y x.
Proof.
  intros Hy Hx Hp. apply (sent_after_spec base) in Hp; [|done..]. unfold sent_before_eq. lia.
Qed.
Lemma pick_sent_no base y x :
  in_window base y -> in_window base x -> rack_pick_sent y x = false -> sent_before_eq base x y.
Proof.
  intros Hy Hx Hp. apply not_true_iff_false in Hp. unfold rack_pick_sent in Hp.
  rewrite (sent_after_spec base) in Hp by done. unfold sent_before_eq. lia.
Qed.
Lemma pick_seq_spec base y x :
  in_window base y -> in_window base x ->
  rack_pick_seq y x = (seq_offset base (slot_end y) <? seq_offset base (slot_end x)).
Proof.
  intros Hy Hx. unfold rack_pick_seq, tcp_shift_rack_seq_before_u32. rewrite (s32_offset base) by done. lia.
Qed.

Definition set_pass (v : Z) slot : tcp_shift_delivery_slot := slot <| dv_rack_delivered := v |>.

Lemma set_pass_done v p slot : v <> p -> rack_wanted p (set_pass v slot) = false.
Proof.
  intros Hv. unfold rack_wanted. cbn. rewrite (proj2 (Z.eqb_neq v p)) by done. cbn.
  by rewrite orb_true_r.
Qed.

(** Everything a pass will process lies in the window. *)
Definition all_in_window (base p : Z) slots : Prop :=
  Forall (fun y => rack_wanted p y = true -> in_window base y) slots.

Lemma window_alter base p v i l :
  v <> p -> all_in_window base p l -> all_in_window base p (alter (set_pass v) i l).
Proof.
  intros Hv Hl. apply Forall_alter_one; [done|]. intros x _. by rewrite set_pass_done.
Qed.

(** A round of a pass, as a step from one list of slots to the next. *)
Lemma select_round base p v pick (ord : tcp_shift_delivery_slot -> tcp_shift_delivery_slot -> Prop)
    `{!PreOrder ord} slots :
  (forall y x, in_window base y -> in_window base x -> pick y x = true -> ord y x) ->
  (forall y x, in_window base y -> in_window base x -> pick y x = false -> ord x y) ->
  v <> p -> all_in_window base p slots ->
  match select_slot (rack_wanted p) pick slots 0 None with
  | None => wanted_slots (rack_wanted p) slots = [] /\
            marked (rack_wanted p) (set_pass v) slots = slots
  | Some (i, x) =>
      slots !! i = Some x /\
      wanted_slots (rack_wanted p) slots ≡ₚ
        x :: wanted_slots (rack_wanted p) (alter (set_pass v) i slots) /\
      marked (rack_wanted p) (set_pass v) (alter (set_pass v) i slots) =
        marked (rack_wanted p) (set_pass v) slots /\
      Forall (ord x) (wanted_slots (rack_wanted p) (alter (set_pass v) i slots))
  end.
Proof.
  intros Hyes Hno Hv Hw.
  pose proof (select_slot_least (rack_wanted p) pick ord (in_window base) Hyes Hno slots 0 None Hw
    ltac:(done)) as Hl.
  destruct (select_slot _ _ _ _ _) as [[i x]|]; cbn [least_of] in Hl.
  - destruct Hl as ([Hbad|(k & -> & Hk & Hx)] & _ & Hall); [done|]. cbn [Nat.add].
    pose proof (wanted_alter (rack_wanted p) (set_pass v) (fun y => set_pass_done v p y Hv) slots k x Hk Hx) as Hp.
    split_and!; [done|done| |].
    + apply (marked_alter _ _ (fun y => set_pass_done v p y Hv) _ _ x); done.
    + apply list.Forall_forall. intros y Hy.
      assert (Hin : y ∈ wanted_slots (rack_wanted p) slots) by (rewrite Hp; by right).
      apply list_elem_of_filter in Hin as [Hwy Hin]. rewrite list.Forall_forall in Hall. by apply Hall.
  - destruct Hl as [_ Hl]. destruct (marked_none (rack_wanted p) (set_pass v) slots Hl). done.
Qed.

Section Passes.
Context {W : Type} `{!AdapterOS W} `{!LwipParams}.
Local Abbreviation F := (flow W).
Implicit Types (s : F).

Lemma delivery_pass_fold base fuel now s :
  all_in_window base 0 (ad_delivery_slots (fw_ad s)) ->
  (length (wanted_slots (rack_wanted 0) (ad_delivery_slots (fw_ad s))) <= fuel)%nat ->
  let s' := (rack_delivery_pass fuel now s).2 in
  exists order, order ≡ₚ wanted_slots (rack_wanted 0) (ad_delivery_slots (fw_ad s)) /\
    StronglySorted (sent_before_eq base) order /\
    ad_delivery_slots (fw_ad s') = marked (rack_wanted 0) (set_pass 1) (ad_delivery_slots (fw_ad s)) /\
    ad_rack_tlp (fw_ad s') =
      foldl (fun rack slot => rack_deliver_slot now (smoothed_rtt_ns (ad_srtt (fw_ad s))) slot rack)
        (ad_rack_tlp (fw_ad s)) order.
Proof.
  revert s. induction fuel as [|fuel IH]; intros s Hw Hlen.
  - cbn. apply Nat.le_0_r, length_zero_iff_nil in Hlen. exists []. rewrite Hlen.
    split_and!; [done|constructor| |done].
    pose proof (select_round base 0 1 rack_pick_sent (sent_before_eq base) _ (pick_sent_yes base)
      (pick_sent_no base) ltac:(done) Hw) as Hr.
    destruct (select_slot _ _ _ _ _) as [[i x]|]; [|by symmetry; apply Hr].
    destruct Hr as (_ & Hp & _). rewrite Hlen in Hp. by apply Permutation_nil_cons in Hp.
  - cbn [rack_delivery_pass]. rewrite bind_run. cbn [get_ad gets fst snd].
    pose proof (select_round base 0 1 rack_pick_sent (sent_before_eq base) _ (pick_sent_yes base)
      (pick_sent_no base) ltac:(done) Hw) as Hr.
    destruct (select_slot _ _ _ _ _) as [[i x]|].
    + destruct Hr as (Hi & Hp & Hm & Hall). rewrite !bind_run.
      match goal with |- context [rack_delivery_pass fuel now ?s0] => set (s1 := s0) end.
      destruct (IH s1) as (order & Ho & Hs & Hsl & Hrk).
      { by apply (window_alter base 0 1). }
      { cbn. rewrite Hp in Hlen. cbn in Hlen. apply le_S_n, Hlen. }
      cbn in Ho, Hsl, Hrk. fold (set_pass 1) in Ho, Hsl. exists (x :: order). split_and!.
      * by rewrite Hp, Ho.
      * constructor; [done|]. by rewrite Ho.
      * etransitivity; [exact Hsl|exact Hm].
      * exact Hrk.
    + cbn. exists []. destruct Hr as [-> ->]. split_and!; [done|constructor|done|done].
Qed.

Lemma note_any_ad f s : fw_ad (note f s).2 = fw_ad s.
Proof. unfold note, when. rewrite bind_run. cbn. by case_match. Qed.
Lemma record_stats_ad s : fw_ad (tcp_shift_rack_record_stats s).2 = fw_ad s.
Proof. unfold tcp_shift_rack_record_stats. rewrite bind_run. apply note_any_ad. Qed.

(** One round of the second pass. *)
Definition reorder_round (i : nat) slot : M F unit :=
  let! a := get_ad in
  let rack := tcp_shift_rack_detect_reordering (ad_rack_tlp a) (tcp_shift_rack_slot_view slot) in
  upd_ad (fun a => a <| ad_rack_tlp := rack |>) ;;
  when (negb (rk_reordering_seen (ad_rack_tlp a)) && rk_reordering_seen rack)
    (note_recovery (fun st => st <| st_rack_reordering_events :=
                                      st_rack_reordering_events st +w64 1 |>)) ;;
  tcp_shift_rack_record_stats ;;
  upd_slot i (set_pass 2).

Lemma reorder_round_ad i x s :
  fw_ad (reorder_round i x s).2 =
  set_slot i (set_pass 2) (fw_ad s <| ad_rack_tlp :=
    tcp_shift_rack_detect_reordering (ad_rack_tlp (fw_ad s)) (tcp_shift_rack_slot_view x) |>).
Proof.
  unfold reorder_round. rewrite bind_run. cbn [get_ad gets fst snd]. rewrite !bind_run. cbn -[note_recovery tcp_shift_rack_record_stats].
  f_equal. rewrite record_stats_ad. unfold when. case_match; [apply note_any_ad|done].
Qed.

Lemma reordering_pass_step fuel s :
  (rack_reordering_pass (S fuel) s).2 =
  match select_slot (rack_wanted 1) rack_pick_seq (ad_delivery_slots (fw_ad s)) 0 None with
  | None => s
  | Some (i, x) => (rack_reordering_pass fuel (reorder_round i x s).2).2
  end.
Proof.
  cbn [rack_reordering_pass]. rewrite bind_run. cbn [get_ad gets fst snd].
  destruct (select_slot _ _ _ _ _) as [[i x]|]; [|done]. unfold reorder_round. rewrite !bind_run. done.
Qed.

Lemma reordering_pass_fold base fuel s :
  all_in_window base 1 (ad_delivery_slots (fw_ad s)) ->
  (length (wanted_slots (rack_wanted 1) (ad_delivery_slots (fw_ad s))) <= fuel)%nat ->
  let s' := (rack_reordering_pass fuel s).2 in
  exists order, order ≡ₚ wanted_slots (rack_wanted 1) (ad_delivery_slots (fw_ad s)) /\
    StronglySorted (seq_before_eq base) order /\
    ad_delivery_slots (fw_ad s') = marked (rack_wanted 1) (set_pass 2) (ad_delivery_slots (fw_ad s)) /\
    ad_rack_tlp (fw_ad s') =
      foldl (fun rack slot => tcp_shift_rack_detect_reordering rack (tcp_shift_rack_slot_view slot))
        (ad_rack_tlp (fw_ad s)) order.
Proof.
  assert (Hround : forall slots, all_in_window base 1 slots -> _) by
    (intros slots Hw; refine (select_round base 1 2 rack_pick_seq (seq_before_eq base) slots _ _ ltac:(done) Hw);
     intros y x Hy Hx; rewrite (pick_seq_spec base) by done; unfold seq_before_eq; lia).
  revert s. induction fuel as [|fuel IH]; intros s Hw Hlen; specialize (Hround _ Hw).
  - cbn. apply Nat.le_0_r, length_zero_iff_nil in Hlen. exists []. rewrite Hlen.
    split_and!; [done|constructor| |done].
    destruct (select_slot _ _ _ _ _) as [[i x]|]; [|by symmetry; apply Hround].
    destruct Hround as (_ & Hp & _). rewrite Hlen in Hp. by apply Permutation_nil_cons in Hp.
  - cbv zeta. rewrite reordering_pass_step. destruct (select_slot _ _ _ _ _) as [[i x]|].
    + destruct Hround as (Hi & Hp & Hm & Hall). set (s1 := (reorder_round i x s).2).
      pose proof (reorder_round_ad i x s) as Es. fold s1 in Es.
      assert (El : ad_delivery_slots (fw_ad s1) = alter (set_pass 2) i (ad_delivery_slots (fw_ad s))) by (by rewrite Es).
      destruct (IH s1) as (order & Ho & Hs & Hsl & Hrk).
      { rewrite El. by apply (window_alter base 1 2). }
      { rewrite El. rewrite Hp in Hlen. cbn in Hlen. apply le_S_n, Hlen. }
      rewrite El in Ho, Hsl. exists (x :: order). split_and!.
      * by rewrite Hp, Ho.
      * constructor; [done|]. by rewrite Ho.
      * by rewrite Hsl.
      * rewrite Hrk, Es. done.
    + exists []. destruct Hround as [-> ->]. split_and!; [done|constructor|done|done].
Qed.

Lemma wanted_length p slots : (length (wanted_slots (rack_wanted p) slots) <= length slots)%nat.
Proof. apply length_filter. Qed.

Lemma wanted_used p slot : rack_wanted p slot = true -> dv_segment slot <> NULL.
Proof. unfold rack_wanted. by destruct (dv_segment slot). Qed.

Lemma window_marked base p q v slots :
  all_in_window base q slots -> all_in_window base p slots ->
  all_in_window base q (marked (rack_wanted p) (set_pass v) slots).
Proof.
  intros Hq Hp. apply Forall_map. apply Forall_lookup. intros i x Hx.
  unfold all_in_window in *. rewrite Forall_lookup in Hq, Hp. specialize (Hq i x Hx). specialize (Hp i x Hx).
  destruct (rack_wanted p x) eqn:Ew; [|done]. intros _. by apply Hp.
Qed.

Lemma marked_twice slots :
  marked (rack_wanted 1) (set_pass 2) (marked (rack_wanted 0) (set_pass 1) slots) =
  map (fun y => if rack_wanted 0 y || rack_wanted 1 y then set_pass 2 y else y) slots.
Proof.
  unfold marked. rewrite map_map. apply map_ext. intros y. destruct (rack_wanted 0 y) eqn:E0; cbn [orb]; [|done].
  assert (E1 : rack_wanted 1 (set_pass 1 y) = true).
  { unfold rack_wanted in *. cbn. destruct (is_null _), (dv_payload_bytes y =? 0), (_ <? _); try done;
      rewrite ?orb_true_r in E0; done. }
  by rewrite E1.
Qed.

(** C26. After an ACK or a SACK, RACK is fed the newly delivered segments the
    way RFC 8985 (section 6.2, steps 2 and 3) asks for: the repeated scans of
    the slots amount to one update per delivered segment in the order of
    transmission (time, then end of range), followed by one reordering check
    per segment in ascending sequence order. The scans' bound is never the
    reason they stop: afterwards every delivered segment has been seen by both
    passes exactly once and no slot is left to process. *)
Theorem rack_passes_sorted base now s :
  now <> 0 ->
  Forall (fun slot => dv_segment slot <> NULL -> in_window base slot) (ad_delivery_slots (fw_ad s)) ->
  let slots := ad_delivery_slots (fw_ad s) in
  let s' := (tcp_shift_rack_process_delivered_slots now s).2 in
  exists by_time by_seq,
    by_time ≡ₚ wanted_slots (rack_wanted 0) slots /\ StronglySorted (sent_before_eq base) by_time /\
    by_seq ≡ₚ wanted_slots (rack_wanted 1) (marked (rack_wanted 0) (set_pass 1) slots) /\
    StronglySorted (seq_before_eq base) by_seq /\
    ad_rack_tlp (fw_ad s') =
      foldl (fun rack slot => tcp_shift_rack_detect_reordering rack (tcp_shift_rack_slot_view slot))
        (foldl (fun rack slot => rack_deliver_slot now (smoothed_rtt_ns (ad_srtt (fw_ad s))) slot rack)
           (ad_rack_tlp (fw_ad s)) by_time) by_seq /\
    ad_delivery_slots (fw_ad s') =
      map (fun y => if rack_wanted 0 y || rack_wanted 1 y then set_pass 2 y else y) slots /\
    Forall (fun y => rack_wanted 0 y = false /\ rack_wanted 1 y = false) (ad_delivery_slots (fw_ad s')).
Proof.
  intros Hnow Hin slots s'.
  assert (Hw : forall p, all_in_window base p slots).
  { intros p. eapply Forall_impl; [exact Hin|]. intros x Hx Hp. by apply Hx, (wanted_used p). }
  unfold s', tcp_shift_rack_process_delivered_slots. rewrite (proj2 (Z.eqb_neq now 0)) by done.
  rewrite bind_run. cbn [get_ad gets fst snd]. rewrite bind_run. fold slots.
  destruct (delivery_pass_fold base (length slots) now s (Hw 0) (wanted_length 0 _))
    as (o1 & P1 & S1 & L1 & R1). set (s1 := (rack_delivery_pass (length slots) now s).2) in *.
  destruct (reordering_pass_fold base (length slots) s1) as (o2 & P2 & S2 & L2 & R2).
  { rewrite L1. by apply window_marked. }
  { rewrite L1. etransitivity; [apply wanted_length|]. unfold marked. by rewrite length_map. }
  rewrite L1 in P2, L2. rewrite marked_twice in L2. exists o1, o2. split_and!; try done.
  - by rewrite R2, R1.
  - rewrite L2. apply Forall_map. apply Forall_true. intros y.
    destruct (rack_wanted 0 y || rack_wanted 1 y) eqn:E; [by rewrite !set_pass_done|].
    by apply orb_false_iff in E.
Qed.

End Passes.

(** Two segments sent in reverse order of their sequence numbers, both charged
    and not yet seen by RACK. *)
Definition example_sacked : flow ticks :=
  (upd_ad (fun a => a <| ad_delivery_slots := map (charge_slot (newly_acked_to 6500)) (ad_delivery_slots a) |>)
     (run_events [EvSegmentTx 2 6000 500; EvSegmentTx 1 5000 1000] example_cubic).2).2.

Lemma rack_passes_sorted_witness :
  let s := example_sacked in
  exists by_time by_seq,
    by_time ≡ₚ wanted_slots (rack_wanted 0) (ad_delivery_slots (fw_ad s)) /\
    StronglySorted (sent_before_eq 5000) by_time /\ StronglySorted (seq_before_eq 5000) by_seq /\
    wanted_slots (rack_wanted 0) (ad_delivery_slots (fw_ad s)) <> [].
Proof.
  assert (Hin : Forall (fun slot => dv_segment slot <> NULL -> in_window 5000 slot)
                  (ad_delivery_slots (fw_ad example_sacked)))
    by (compute_slots example_sacked;
        slots_walk ltac:(intros Hs; first [by destruct Hs | reflexivity])).
  destruct (rack_passes_sorted 5000 9000000 example_sacked ltac:(discriminate) Hin)
    as (o1 & o2 & P1 & S1 & _ & S2 & _).
  exists o1, o2. split; [exact P1|]. split; [exact S1|]. split; [exact S2|]. vm_compute. discriminate.
Defined.
