(* ===== verification/AdapterTimer.v ===== *)
(** * The reordering timer

    The deadline the adapter arms for RACK: at once when a transmission is
    overdue, otherwise when the last transmission that is waiting becomes
    overdue, as RFC 8985 (section 6.2, step 5) asks. *)

From Stdlib Require Import ZArith Lia Bool List.
From stdpp Require Import base tactics numbers list.
From S2P Require Import Prelude StateMonad CC Observation Rack Prr.
From S2P Require Import AdapterData AdapterDelivery AdapterPacing AdapterRecovery AdapterRate.
From S2P Require Import AdapterPolicy Adapter Selector BbrInternal AdapterHooks AdapterFrame AdapterEvents.
From S2P Require Import AdapterLedger AdapterSample AdapterRackPass.
Local Open Scope Z_scope.
Implicit Types (slot : tcp_shift_delivery_slot) (slots : list tcp_shift_delivery_slot)
  (a : tcp_shift_lwip_cc_adapter) (rack : tcp_shift_rack_tlp_state).

(** ** Verdicts *)

(** Whether RACK holds a slot's transmission for lost, and the time it still
    has. *)
Definition verdict rack (now_ns : Z) (in_recovery : bool) slot : bool * Z :=
  let '(lost, _, remaining) :=
    tcp_shift_rack_loss_remaining rack (tcp_shift_rack_slot_view slot) now_ns in_recovery in
  (negb (lost =? 0), remaining).

(** A test only writes the cached reordering window. *)
Definition same_but_window rack rack' : Prop :=
  rack <| rk_reo_wnd_ns := 0 |> = rack' <| rk_reo_wnd_ns := 0 |>.

Lemma reo_wnd_window rack rack' b :
  same_but_window rack rack' ->
  (tcp_shift_rack_reo_wnd rack b).1 = (tcp_shift_rack_reo_wnd rack' b).1 /\
  same_but_window rack (tcp_shift_rack_reo_wnd rack' b).2.
Proof.
  unfold same_but_window. intros E.
  assert (E1 := f_equal rk_min_rtt_ns E). assert (E2 := f_equal rk_reordering_seen E).
  assert (E3 := f_equal rk_segs_sacked E). assert (E4 := f_equal rk_reo_wnd_mult E).
  assert (E5 := f_equal rk_srtt_ns E). cbn in E1, E2, E3, E4, E5.
  unfold tcp_shift_rack_reo_wnd. rewrite E1, E2, E3, E4, E5. rewrite E. by repeat case_match.
Qed.

Lemma loss_remaining_window rack rack' seg now b :
  same_but_window rack rack' ->
  let r := tcp_shift_rack_loss_remaining rack seg now b in
  let r' := tcp_shift_rack_loss_remaining rack' seg now b in
  r.1.1 = r'.1.1 /\ r.2 = r'.2 /\ same_but_window rack r'.1.2.
Proof.
  intros E. unfold tcp_shift_rack_loss_remaining.
  assert (E1 := f_equal rk_rack_xmit_ts_ns E). assert (E2 := f_equal rk_rack_rtt_ns E).
  assert (E3 := f_equal rk_rack_end_seq E). cbn in E1, E2, E3. rewrite E1, E2, E3.
  case_match; [done|]. case_match; [done|].
  destruct (reo_wnd_window rack rack' b E) as [Ew Es].
  destruct (tcp_shift_rack_reo_wnd rack b) as [w1 r1] eqn:R1.
  destruct (tcp_shift_rack_reo_wnd rack' b) as [w2 r2] eqn:R2. cbn in Ew, Es. subst w2.
  assert (Er : rk_rack_rtt_ns r1 = rk_rack_rtt_ns r2).
  { apply (f_equal rk_rack_rtt_ns) in Es. cbn in Es. rewrite <- Es.
    destruct (reo_wnd_window rack rack b eq_refl) as [_ Es1]. rewrite R1 in Es1.
    by apply (f_equal rk_rack_rtt_ns) in Es1. }
  rewrite Er. by case_match.
Qed.

Lemma verdict_window rack rack' now b slot :
  same_but_window rack rack' ->
  verdict rack' now b slot = verdict rack now b slot /\
  same_but_window rack (tcp_shift_rack_loss_remaining rack' (tcp_shift_rack_slot_view slot) now b).1.2.
Proof.
  intros E. destruct (loss_remaining_window rack rack' (tcp_shift_rack_slot_view slot) now b E) as (E1 & E2 & E3).
  unfold verdict. destruct (tcp_shift_rack_loss_remaining rack _ _ _) as [[l1 r1] m1].
  destruct (tcp_shift_rack_loss_remaining rack' _ _ _) as [[l2 r2] m2]. cbn in *. by subst.
Qed.

(** ** The loop *)

(** The slots that are in flight and have not been declared lost. *)
Definition max_remaining rack now b slots : Z :=
  foldr (fun slot m => if slot_in_flight slot && negb (verdict rack now b slot).1
                       then Z.max (verdict rack now b slot).2 m else m) 0 slots.
Definition any_due rack now b slots : bool :=
  existsb (fun slot => slot_in_flight slot && (verdict rack now b slot).1) slots.

Lemma deadline_loop_spec rack now b slots rack' due m :
  same_but_window rack rack' ->
  let '(_, due', m') := rack_deadline_loop slots now b rack' due m in
  due' = due || any_due rack now b slots /\ (0 <= m -> m' = Z.max m (max_remaining rack now b slots)).
Proof.
  revert rack' due m. induction slots as [|x l IH]; intros rack' due m E; cbn [rack_deadline_loop].
  { cbn. rewrite orb_false_r. split; [done|lia]. }
  cbn [any_due existsb max_remaining foldr]. destruct (slot_in_flight x) eqn:Hf; cbn [negb andb orb].
  2: { apply (IH rack' due m E). }
  destruct (verdict_window rack rack' now b x E) as [Ev Es]. rewrite <- Ev. unfold verdict.
  destruct (tcp_shift_rack_loss_remaining rack' _ _ _) as [[lost r] rem] eqn:El. cbn [fst snd] in *.
  destruct (lost =? 0) eqn:E0; cbn [negb orb].
  - specialize (IH r due (if rem >? m then rem else m) Es).
    destruct (rack_deadline_loop _ _ _ _ _ _) as [[r' d'] m']. destruct IH as [-> Hm]. split; [done|].
    intros H0. unfold max_remaining in *.
    destruct (rem >? m) eqn:Eg; rewrite Hm by lia; set (mx := foldr _ _ _); clearbody mx; lia.
  - specialize (IH r true m Es).
    destruct (rack_deadline_loop _ _ _ _ _ _) as [[r' d'] m']. destruct IH as [-> Hm].
    split; [by rewrite orb_true_r|done].
Qed.

(** ** What the deadline guarantees *)

Lemma rack_add_sat_range x y : in_u64 (tcp_shift_rack_add_sat_u64 x y).
Proof. unfold tcp_shift_rack_add_sat_u64. case_match; [lia|apply u64_range]. Qed.

(** A slot that waits has a time from which it is lost. *)
Lemma waiting_deadline rack now b slot :
  in_u64 now -> (verdict rack now b slot).2 <> 0 ->
  exists d, now < d <= UINT64_MAX /\ verdict rack now b slot = (false, d - now) /\
    forall t, d <= t -> (verdict rack t b slot).1 = true.
Proof.
  intros Hnow. unfold verdict, tcp_shift_rack_loss_remaining.
  destruct (_ || _); [done|]. destruct (negb (tcp_shift_rack_sent_after _ _ _ _)); [done|].
  destruct (tcp_shift_rack_reo_wnd rack b) as [w r].
  set (d := tcp_shift_rack_add_sat_u64 (tcp_shift_rack_add_sat_u64 _ _) _).
  pose proof (rack_add_sat_range (tcp_shift_rack_add_sat_u64 (sg_xmit_ts_ns (tcp_shift_rack_slot_view slot)) (rk_rack_rtt_ns r)) w) as Hd.
  fold d in Hd. clearbody d. destruct (now >=? d) eqn:E; [done|]. intros _. exists d.
  split_and!; [lia|lia|by rewrite u64_small by lia|]. intros t Ht.
  replace (t >=? d) with true by lia. done.
Qed.

Lemma max_remaining_bounds rack now b slots :
  in_u64 now ->
  0 <= max_remaining rack now b slots <= UINT64_MAX - now /\
  (max_remaining rack now b slots <> 0 ->
   exists slot, slot ∈ slots /\ slot_in_flight slot = true /\
     verdict rack now b slot = (false, max_remaining rack now b slots)) /\
  Forall (fun slot => slot_in_flight slot = true -> (verdict rack now b slot).1 = false ->
            (verdict rack now b slot).2 <= max_remaining rack now b slots) slots.
Proof.
  intros Hnow. induction slots as [|x l (IH1 & IH2 & IH3)]; [cbn; split_and!; [lia|lia|done|by constructor]|].
  cbn [max_remaining foldr]. fold (max_remaining rack now b l). set (m := max_remaining rack now b l) in *.
  destruct (slot_in_flight x && negb (verdict rack now b x).1) eqn:Hf.
  - apply andb_true_iff in Hf as [Hf Hn]. apply negb_true_iff in Hn.
    assert (Hx : 0 <= (verdict rack now b x).2 <= UINT64_MAX - now).
    { destruct (Z.eq_dec (verdict rack now b x).2 0) as [->|Hne]; [lia|].
      destruct (waiting_deadline rack now b x Hnow Hne) as (d & Hd & -> & _). cbn. lia. }
    split_and!; [lia|lia| |].
    + intros Hm. destruct (Z.max_spec (verdict rack now b x).2 m) as [[Hlt ->]|[Hle ->]].
      * destruct IH2 as (y & Hy & Hrest); [lia|]. exists y. split; [by right|done].
      * exists x. split_and!; [by left|done|]. destruct (verdict rack now b x). cbn in *. by subst.
    + constructor; [lia|]. eapply Forall_impl; [exact IH3|]. intros y Hy H1 H2. specialize (Hy H1 H2). lia.
  - split_and!; [lia|lia| |].
    + intros Hm. destruct (IH2 Hm) as (y & Hy & Hrest). exists y. split; [by right|done].
    + constructor; [|done]. intros H1 H2. rewrite H1, H2 in Hf. done.
Qed.

Section Timer.
Context {W : Type} `{!AdapterOS W} `{!LwipParams}.
Local Abbreviation F := (flow W).
Implicit Types (s : F).

Definition flying slots : list tcp_shift_delivery_slot :=
  filter (fun slot => slot_in_flight slot = true) slots.

Lemma any_due_spec rack now b slots :
  any_due rack now b slots = true <-> Exists (fun slot => (verdict rack now b slot).1 = true) (flying slots).
Proof.
  unfold any_due, flying. rewrite existsb_exists, list.Exists_exists. split.
  - intros (y & Hy & Hb). apply andb_true_iff in Hb as [H1 H2]. exists y. split; [|done].
    apply list_elem_of_filter. split; [done|]. by apply list_elem_of_In.
  - intros (y & Hy & Hb). apply list_elem_of_filter in Hy as [H1 H2]. exists y.
    split; [by apply list_elem_of_In|]. by rewrite H1, Hb.
Qed.

Lemma deadline_value now s :
  in_u64 now -> now <> 0 -> rk_rack_xmit_ts_ns (ad_rack_tlp (fw_ad s)) <> 0 ->
  rk_rack_rtt_ns (ad_rack_tlp (fw_ad s)) <> 0 ->
  let rack := ad_rack_tlp (fw_ad s) in let b := hk_recovery_active (ad_hook (fw_ad s)) in
  let slots := ad_delivery_slots (fw_ad s) in
  (tcp_shift_rack_detection_deadline now s).1 =
  if any_due rack now b slots then now
  else if max_remaining rack now b slots =? 0 then 0 else now + max_remaining rack now b slots.
Proof.
  intros Hr Hnow Hx Hrtt rack b slots.
  pose proof (deadline_loop_spec rack now b slots rack false 0 eq_refl) as Hloop.
  destruct (max_remaining_bounds rack now b slots Hr) as (Hm & _ & _).
  unfold tcp_shift_rack_detection_deadline. rewrite bind_run. cbn [get_ad gets fst snd].
  fold rack slots. rewrite !(proj2 (Z.eqb_neq _ 0)) by done. cbn [orb].
  unfold tcp_shift_lwip_cc_hook_recovery_is_active. fold b.
  destruct (rack_deadline_loop _ _ _ _ _ _) as [[r due] m]. destruct Hloop as [-> ->]; [|done].
  rewrite bind_run. cbn [ret fst orb]. rewrite Z.max_r by lia. case_match; [done|].
  destruct (max_remaining rack now b slots =? 0) eqn:E0; cbn [negb]; [done|].
  unfold tcp_shift_rack_add_sat_ns. rewrite (u64_small (UINT64_MAX - now)) by lia.
  case_match; [lia|]. by rewrite u64_small by lia.
Qed.

(** C28. The reordering deadline. With a RACK reference the deadline is [now]
    exactly when a transmission in flight is already lost; otherwise it is the
    time, without overflow, at which the last of the waiting transmissions
    becomes lost: by then every one of them is lost, and one of them not a
    nanosecond earlier. It is 0, and no timer is wanted, exactly when no
    transmission in flight is lost or waits. Testing does not disturb the
    verdicts: they do not depend on the order of the slots. *)
Theorem rack_deadline_exact now s :
  in_u64 now -> now <> 0 -> rk_rack_xmit_ts_ns (ad_rack_tlp (fw_ad s)) <> 0 ->
  rk_rack_rtt_ns (ad_rack_tlp (fw_ad s)) <> 0 ->
  let slots := ad_delivery_slots (fw_ad s) in
  let v t slot := verdict (ad_rack_tlp (fw_ad s)) t (hk_recovery_active (ad_hook (fw_ad s))) slot in
  let deadline := (tcp_shift_rack_detection_deadline now s).1 in
  (Exists (fun slot => (v now slot).1 = true) (flying slots) -> deadline = now) /\
  (Forall (fun slot => (v now slot).1 = false) (flying slots) ->
   (deadline = 0 <-> Forall (fun slot => v now slot = (false, 0)) (flying slots)) /\
   (deadline <> 0 ->
    now < deadline <= UINT64_MAX /\
    Forall (fun slot => v now slot <> (false, 0) -> (v deadline slot).1 = true) (flying slots) /\
    Exists (fun slot => v now slot = (false, deadline - now)) (flying slots))).
Proof.
  intros Hr Hnow Hx Hrtt slots v deadline.
  pose proof (deadline_value now s Hr Hnow Hx Hrtt) as Hdl. cbv zeta in Hdl. fold slots deadline in Hdl.
  set (rack := ad_rack_tlp (fw_ad s)) in *. set (b := hk_recovery_active (ad_hook (fw_ad s))) in *.
  destruct (max_remaining_bounds rack now b slots Hr) as (Hm & Hsome & Hall).
  assert (Hfl : forall y, y ∈ flying slots -> (v now y).1 = false ->
    (v now y).2 <= max_remaining rack now b slots).
  { intros y Hy. apply list_elem_of_filter in Hy as [H1 H2]. rewrite list.Forall_forall in Hall. by apply Hall. }
  split; [intros He; by rewrite Hdl, (proj2 (any_due_spec _ _ _ _) He)|].
  intros Hnone. assert (Hnd : any_due rack now b slots = false).
  { apply not_true_is_false. rewrite any_due_spec, list.Exists_exists. intros (y & Hy & Hb).
    rewrite list.Forall_forall in Hnone. specialize (Hnone y Hy). unfold v in Hnone. congruence. }
  rewrite Hnd in Hdl. rewrite list.Forall_forall in Hnone. split.
  - rewrite Hdl, list.Forall_forall. split.
    + intros H0 y Hy. specialize (Hfl y Hy (Hnone y Hy)). specialize (Hnone y Hy).
      destruct (max_remaining rack now b slots =? 0) eqn:E; [|lia]. unfold v in *.
      destruct (Z.eq_dec (verdict rack now b y).2 0) as [E2|Hne].
      * destruct (verdict rack now b y). cbn in *. by subst.
      * destruct (waiting_deadline rack now b y Hr Hne) as (d & Hd & Ev & _). rewrite Ev in Hfl. cbn in Hfl. lia.
    + intros Hz. destruct (max_remaining rack now b slots =? 0) eqn:E; [done|].
      destruct (Hsome ltac:(lia)) as (y & Hy & Hf & Hv).
      assert (Hy' : y ∈ flying slots) by (by apply list_elem_of_filter).
      specialize (Hz y Hy'). unfold v in Hz. rewrite Hz in Hv. injection Hv. lia.
  - intros Hne. destruct (max_remaining rack now b slots =? 0) eqn:E; [done|]. rewrite Hdl.
    split_and!; [lia|lia| |].
    + apply list.Forall_forall. intros y Hy Hv. specialize (Hfl y Hy (Hnone y Hy)). specialize (Hnone y Hy).
      unfold v in *. assert (Hne2 : (verdict rack now b y).2 <> 0).
      { intros E2. apply Hv. destruct (verdict rack now b y). cbn in *. by subst. }
      destruct (waiting_deadline rack now b y Hr Hne2) as (d & Hd & Ev & Hlost).
      apply Hlost. rewrite Ev in Hfl. cbn in Hfl. lia.
    + destruct (Hsome ltac:(lia)) as (y & Hy & Hf & Hv). apply list.Exists_exists. exists y.
      split; [by apply list_elem_of_filter|]. unfold v. rewrite Hv. f_equal. lia.
Qed.

End Timer.

(** The second of two segments is SACKed: the first waits. *)
Definition example_waiting : flow ticks :=
  (run_events [EvSegmentTx 1 5000 1000; EvSegmentTx 2 6000 500;
               EvLwip (example_pcb <| pb_snd_nxt := 6500 |> <| pb_unacked := [1000; 500] |>);
               EvSack 5000 [mk_sack_range 6000 6500]] example_cubic).2.

Lemma rack_deadline_exact_witness :
  let deadline := (tcp_shift_rack_detection_deadline 3000000 example_waiting).1 in
  deadline <> 0 /\ 3000000 < deadline <= UINT64_MAX.
Proof.
  assert (Hd : (tcp_shift_rack_detection_deadline 3000000 example_waiting).1 <> 0) by (vm_compute; discriminate).
  split; [exact Hd|].
  refine (proj1 (proj2 (proj2 (rack_deadline_exact 3000000 example_waiting _ _ _ _) _) Hd));
    [lia|lia|vm_compute; discriminate|vm_compute; discriminate|].
  let v := eval vm_compute in (flying (ad_delivery_slots (fw_ad example_waiting))) in
  assert (E : flying (ad_delivery_slots (fw_ad example_waiting)) = v) by (vm_compute; reflexivity).
  rewrite E. slots_walk ltac:(reflexivity).
Defined.
