(* ===== verification/AdapterEpisode.v ===== *)
(** * The recovery episode

    The hook keeps, for lwIP and the controllers, whether the flow is in loss
    recovery, up to which sequence number, and whether the controller owns the
    window meanwhile; an exit is remembered until lwIP takes it. Whatever the
    sequence of calls, the flags follow a two-state machine, and the handle is
    the controller's own again when a call returns. *)

From Stdlib Require Import ZArith Lia Bool List.
From stdpp Require Import base tactics numbers list.
From S2P Require Import Prelude StateMonad CC Observation Rack Prr.
From S2P Require Import AdapterData AdapterDelivery AdapterPacing AdapterRecovery AdapterRate.
From S2P Require Import AdapterPolicy Adapter Selector BbrInternal AdapterHooks AdapterFrame.
From S2P Require Import AdapterEvents.
Local Open Scope Z_scope.

(** ** The machine *)

Inductive episode :=
  | Idle (exit_pending : bool)
  | Recovering (end_seq : Z) (controller_owned : bool).

#[export] Instance episode_eq_dec : EqDecision episode.
Proof. solve_decision. Defined.

Definition episode_of (h : tcp_shift_lwip_cc_hook) : episode :=
  if hk_recovery_active h then Recovering (hk_recovery_end_seq h) (hk_recovery_controller_owned h)
  else Idle (hk_recovery_exit_pending h).

(** [bbr]: the hook has BBR's table; [snd_nxt]: the next sequence number when
    the call is made; [result]: what the call returned. *)
Definition episode_next (bbr : bool) (snd_nxt : Z) (ev : hook_event) (result : Z) (e : episode)
    : episode :=
  match ev, e with
  | EvLoss _, Idle _ => if result =? 0 then e else Recovering snd_nxt bbr
  | EvLoss _, Recovering q owned => if result =? 0 then e else Recovering q (owned || bbr)
  | EvRecoveryExit _, Recovering _ _ => Idle true
  | EvTimeout, Recovering _ _ => Idle false
  | EvTimeout, Idle _ => if result =? 0 then e else Idle false
  | EvTakeRecoveryExit, Idle _ => Idle false
  | _, _ => e
  end.

(** What the two counters record of a move. *)
Definition entered (e e' : episode) : Z :=
  match e, e' with Idle _, Recovering _ _ => 1 | _, _ => 0 end.
Definition exited (e e' : episode) : Z :=
  match e, e' with Recovering _ _, Idle true => 1 | _, _ => 0 end.

(** No stale field outside the state it belongs to. *)
Record hook_ok (h : tcp_shift_lwip_cc_hook) : Prop := mk_hook_ok {
  ok_idle_owned : hk_recovery_active h = false -> hk_recovery_controller_owned h = false;
  ok_idle_end : hk_recovery_active h = false -> hk_recovery_end_seq h = 0;
  ok_active : hk_recovery_active h = true -> hk_recovery_exit_pending h = false;
  ok_enters : in_u32 (hk_recovery_enter_events h);
  ok_exits : in_u32 (hk_recovery_exit_events h)
}.

Definition is_bbr (t : hook_ops_ref) : bool := match t with HookBbr => true | _ => false end.

(** [h'] is [h] after the call [ev]. *)
Record hook_moves (t : hook_ops_ref) (snd_nxt : Z) (ev : hook_event) (result : Z)
    (h h' : tcp_shift_lwip_cc_hook) : Prop := mk_hook_moves {
  moves_ok : hook_ok h';
  moves_table : hk_ops h' = hk_ops h;
  moves_episode : episode_of h' = episode_next (is_bbr t) snd_nxt ev result (episode_of h);
  moves_enters : hk_recovery_enter_events h' =
    hk_recovery_enter_events h +w32 entered (episode_of h) (episode_of h');
  moves_exits : hk_recovery_exit_events h' =
    hk_recovery_exit_events h +w32 exited (episode_of h) (episode_of h')
}.

Section Machine.
Context {W : Type} `{!AdapterOS W} `{!LwipParams}.
Local Abbreviation F := (flow W).
Implicit Types (s : F) (h : tcp_shift_lwip_cc_hook).

Definition hook_of s : tcp_shift_lwip_cc_hook := ad_hook (fw_ad s).
Definition handle_of s : ptr cc_ops_ref * ptr cc_state_ref := (ad_ops (fw_ad s), ad_state (fw_ad s)).

(** The control block's hook is this flow's and has the table [t]. *)
Definition linked (t : hook_ops_ref) s : Prop :=
  pb_ext_cc (fw_pcb s) = Some (ExtHook (fw_self s)) /\ hk_ops (hook_of s) = Some t.

(** What the machine reads of the flow, and that with the window's edge. *)
Definition seat s := (hook_of s, handle_of s, fw_self s, pb_ext_cc (fw_pcb s)).
Definition seat_nxt s := (seat s, pb_snd_nxt (fw_pcb s)).
Definition same_seat s s' : Prop := seat s' = seat s.

#[local] Instance same_seat_preorder : PreOrder same_seat.
Proof. split; [by intros s|]. intros s1 s2 s3 H1 H2. unfold same_seat in *. congruence. Qed.

Lemma seat_ledger {A} (m : M F A) : frames ledger_core m -> frames seat m.
Proof.
  apply (frames_through ledger_core
    (fun '(_, self, a, _, pcb) => (ad_hook a, (ad_ops a, ad_state a), self, pb_ext_cc pcb.1))).
  done.
Qed.
Lemma seat_nxt_core {A} (m : M F A) : frames core m -> frames seat_nxt m.
Proof.
  apply (frames_through core
    (fun '(_, self, a, _, pcb) =>
       ((ad_hook a, (ad_ops a, ad_state a), self, pb_ext_cc pcb.1), pb_snd_nxt pcb.1))).
  done.
Qed.

(** The wrapper is out of the handle when the callback returns. *)
Lemma paced_handle_restored {X} (p : F -> X) (m : M F Z) :
  (forall s s' o v, p s' = p (set_ad (fun a => a <| ad_ops := o |> <| ad_state := v |>) s) ->
     p (set_ad (fun a => a <| ad_ops := ad_ops (fw_ad s) |> <| ad_state := ad_state (fw_ad s) |>) s') = p s) ->
  frames p m -> frames p (with_paced_handle m).
Proof.
  intros Hp Hm s. unfold with_paced_handle. rewrite bind_run. cbn [get_ad gets fst snd].
  destruct (ad_ops (fw_ad s)) as [inner|] eqn:Eo; [|apply Hm].
  destruct (negb _); [apply Hm|]. destruct (tcp_shift_cc_selector_wrapper_for inner) as [wr|]; [|apply Hm].
  rewrite !bind_run. cbn [upd_ad modify ret fst snd]. rewrite <- Eo.
  apply (Hp s _ (Some wr) (Some StateAdapter)). apply Hm.
Qed.

Lemma seat_nxt_paced m : frames seat_nxt m -> frames seat_nxt (with_paced_handle m).
Proof.
  apply paced_handle_restored. intros s s' o v E. injection E as E1 _ _ E4 E5 E6.
  unfold seat_nxt, seat, hook_of, handle_of in *. cbn in *. by rewrite E1, E4, E5, E6.
Qed.
Lemma seat_paced m : frames seat m -> frames seat (with_paced_handle m).
Proof.
  apply paced_handle_restored. intros s s' o v E. injection E as E1 _ _ E4 E5.
  unfold seat, hook_of, handle_of in *. cbn in *. by rewrite E1, E4, E5.
Qed.

Lemma same_seat_respects : respects (W := W) same_seat.
Proof.
  split.
  - intros s s' E. exact (f_equal (fun '(_, self, a, _, pcb) =>
      (ad_hook a, (ad_ops a, ad_state a), self, pb_ext_cc pcb.1)) E).
  - intros m Hm s. apply seat_paced. exact Hm.
  - intros s f Hf. unfold same_seat, seat. cbn. by rewrite Hf.
  - done.
  - intros q b s. apply seat_ledger, ledger_build_sample.
  - intros l b s. apply seat_ledger, ledger_build_sample.
Qed.

(** ** The loss call's callback *)

Lemma on_loss_seat n : frames seat_nxt (tcp_shift_lwip_cc_on_loss (W := W) n).
Proof. apply seat_nxt_core, core_on_loss. Qed.
Lemma paced_loss_seat n : frames seat_nxt (tcp_shift_cc_selector_pacing_on_loss (W := W) n).
Proof.
  intros s. unfold tcp_shift_cc_selector_pacing_on_loss, tcp_shift_cc_selector_call_paced_loss, with_base.
  rewrite bind_run. cbn [get_gl gets fst snd].
  destruct (gl_selector_base_hook_ops _) as [[]|]; try done.
  apply seat_nxt_paced, on_loss_seat.
Qed.

(** The seat with the recovery owned by the controller. *)
Definition own_if (b : bool) (x : tcp_shift_lwip_cc_hook * (ptr cc_ops_ref * ptr cc_state_ref) * Z * ptr cc_ext * Z) :=
  let '(h, c, self, e, q) := x in
  ((if b then h <| hk_recovery_controller_owned := true |> else h), c, self, e, q).

Lemma bbr_loss_seat n s :
  let r := tcp_shift_lwip_bbr_hook_loss n s in
  seat_nxt r.2 = own_if (negb (r.1 =? 0)) (seat_nxt s).
Proof.
  assert (Hfwd : forall m : M F Z, frames seat_nxt m -> forall s0,
    seat_nxt s0 = seat_nxt s ->
    let r := (let! handled := m in when (negb (handled =? 0)) own_recovery ;; ret handled) s0 in
    seat_nxt r.2 = own_if (negb (r.1 =? 0)) (seat_nxt s)).
  { intros m Hm s0 <-. cbn zeta. rewrite !bind_run. specialize (Hm s0).
    destruct (m s0) as [h s1]. cbn [fst snd ret] in *.
    rewrite <- Hm. by destruct (negb (h =? 0)). }
  cbn zeta. unfold tcp_shift_lwip_bbr_hook_loss, with_bbr_base. rewrite bind_run.
  replace (tcp_shift_lwip_bbr_binding_from_adapter s).2 with s by done.
  destruct (_ : option tcp_shift_lwip_bbr_binding) as [b|]; [|done].
  destruct (bb_base_hook_ops b) as [[]|]; try done.
  - by apply (Hfwd _ (on_loss_seat n)).
  - by apply (Hfwd _ (paced_loss_seat n)).
Qed.

(** ** The four calls that move the episode *)

Lemma hook_get_linked t s : linked t s -> tcp_shift_lwip_cc_hook_get s = (Some (hook_of s), s).
Proof. intros [He _]. unfold tcp_shift_lwip_cc_hook_get. by rewrite bool_decide_true. Qed.

Lemma hook_dispatch_linked {A} t (un ad sel bbr : M F A) s :
  linked t s ->
  hook_dispatch un ad sel bbr s =
    match t with HookAdapter => ad | HookSelector => sel | HookBbr => bbr end s.
Proof.
  intros Hl. unfold hook_dispatch. rewrite bind_run, (hook_get_linked t s Hl). cbn [fst snd].
  destruct Hl as [_ ->]. by destruct t.
Qed.

Lemma linked_seat t s s' : linked t s -> same_seat s s' -> linked t s'.
Proof. intros [H1 H2] E. injection E as E1 _ _ E4 E5. unfold linked. by rewrite E1, E4, E5. Qed.

(** A call's effect: the hook becomes [f] of itself, the rest stays. *)
Definition rehooked (f : tcp_shift_lwip_cc_hook -> tcp_shift_lwip_cc_hook) s s' : Prop :=
  seat s' = (f (hook_of s), handle_of s, fw_self s, pb_ext_cc (fw_pcb s)).

Definition loss_hook (bbr : bool) (snd_nxt r : Z) h : tcp_shift_lwip_cc_hook :=
  if r =? 0 then h
  else hook_mark_enter snd_nxt (if bbr then h <| hk_recovery_controller_owned := true |> else h).

Lemma loss_event_hook n t s :
  linked t s ->
  let r := run_event (EvLoss n) s in
  rehooked (loss_hook (is_bbr t) (pb_snd_nxt (fw_pcb s)) r.1) s r.2.
Proof.
  intros Hl. cbn zeta. cbn [run_event]. unfold int_of, tcp_shift_lwip_cc_hook_loss, handled.
  rewrite !bind_run, hook_dispatch_linked with (t := t) by done.
  set (d := _ s : Z * F).
  assert (Hd : seat_nxt d.2 = own_if (is_bbr t && negb (d.1 =? 0)) (seat_nxt s)).
  { unfold d. destruct t; [apply on_loss_seat|apply paced_loss_seat|apply bbr_loss_seat]. }
  clearbody d. cbn [ret fst snd]. destruct d as [rc s1]. cbn [fst snd] in *.
  unfold rehooked, loss_hook. destruct (rc =? 0) eqn:Er.
  - rewrite andb_false_r in Hd. unfold seat_nxt, seat, hook_of, handle_of in *. cbn in *.
    injection Hd as E1 E2 E3 E4 E5 _. by rewrite E1, E2, E3, E4, E5.
  - rewrite andb_true_r in Hd. cbn in *. injection Hd as E1 E2 E3 E4 E5 E6.
    unfold seat, hook_of, handle_of in *. cbn in *. rewrite E1, E2, E3, E4, E5, E6.
    reflexivity.
Qed.

Lemma exit_event_hook q t s :
  linked t s ->
  rehooked (fun h => if hk_recovery_active h then hook_mark_exit h else h) s
    (run_event (EvRecoveryExit q) s).2.
Proof.
  intros Hl. cbn [run_event]. unfold int_of, tcp_shift_lwip_cc_hook_recovery_exit.
  rewrite !bind_run, (hook_get_linked t s Hl). cbn [fst snd]. cbv beta iota. rewrite !bind_run.
  match goal with |- context [(if ?c then ?m1 else ?m2) s] => set (d := (if c then m1 else m2) s) end.
  assert (Hd : same_seat s d.2).
  { unfold d. destruct (hk_recovery_active _); [|done]. unfold handled. rewrite bind_run.
    apply (steps_exit_dispatch same_seat same_seat_respects). }
  clearbody d. destruct d as [ok s1]. cbn [fst snd] in *.
  injection Hd as E1 E2 E3 E4 E5. unfold rehooked, seat, hook_of, handle_of in *. cbn in *.
  rewrite E1, E2, E3, E4, E5. unfold hook_mark_exit. by destruct (hk_recovery_active _).
Qed.

Definition timeout_hook (r : Z) h : tcp_shift_lwip_cc_hook :=
  if negb (r =? 0) || hk_recovery_active h || hk_recovery_controller_owned h
  then hook_reset h else h.

Lemma timeout_event_hook t s :
  linked t s ->
  let r := run_event EvTimeout s in rehooked (timeout_hook r.1) s r.2.
Proof.
  intros Hl. cbn [run_event]. unfold int_of, tcp_shift_lwip_cc_hook_timeout, handled.
  rewrite !bind_run, (hook_get_linked t s Hl). cbn [fst snd]. cbv beta iota. replace (is_null _) with false by (by destruct Hl as [_ ->]).
  rewrite !bind_run. pose proof (steps_timeout_dispatch same_seat same_seat_respects s) as Hd.
  destruct (hook_dispatch _ _ _ _ s) as [rc s1]. cbn [fst snd ret] in *. set (s2 := (when _ _ s1).2).
  assert (H2 : same_seat s s2).
  { transitivity s1; [done|]. unfold s2. by destruct (_ && _). }
  clearbody s2. clear Hd. injection H2 as E1 E2 E3 E4 E5. cbn [get_ad gets fst snd].
  unfold rehooked, timeout_hook, seat, hook_of, handle_of in *. rewrite E1.
  destruct (rc =? 0) eqn:Er; cbn [negb orb fst snd ret Z.b2z].
  all: destruct (hk_recovery_active _); [|destruct (hk_recovery_controller_owned _)].
  all: cbn in *; by rewrite E1, E2, E3, E4, E5.
Qed.

End Machine.

(** ** The hook under each call *)

Section Moves.
Implicit Types (h : tcp_shift_lwip_cc_hook) (t : hook_ops_ref).

Lemma add_none x : in_u32 x -> x +w32 0 = x.
Proof. intros Hx. rewrite Z.add_0_r. by apply u32_small. Qed.

(** By the flags and the result, with the counters in range. *)
Ltac hook_cases h Hok :=
  destruct Hok as [Hio Hie Ha Hen Hex]; destruct h as [? en ex endq act pend own]; cbn in *;
  destruct act;
  [ specialize (Ha eq_refl); subst pend
  | specialize (Hio eq_refl); specialize (Hie eq_refl); subst own endq ];
  cbn; split; [split|..]; cbn; try done; rewrite ?add_none by done; try done; try apply u32_range.

Lemma loss_moves t nxt n r h :
  hook_ok h -> hook_moves t nxt (EvLoss n) r h (loss_hook (is_bbr t) nxt r h).
Proof.
  intros Hok. unfold loss_hook, hook_mark_enter.
  destruct (r =? 0) eqn:Er, (is_bbr t) eqn:Eb; hook_cases h Hok.
  all: unfold episode_of; cbn; rewrite ?Er, ?Eb, ?orb_true_r, ?orb_false_r; try done.
  all: split; cbn; try done; apply u32_range.
Qed.

Lemma exit_moves t nxt q r h :
  hook_ok h ->
  hook_moves t nxt (EvRecoveryExit q) r h (if hk_recovery_active h then hook_mark_exit h else h).
Proof. intros Hok. unfold hook_mark_exit. hook_cases h Hok. Qed.

Lemma timeout_moves t nxt r h : hook_ok h -> hook_moves t nxt EvTimeout r h (timeout_hook r h).
Proof.
  intros Hok. unfold timeout_hook, hook_reset. destruct (r =? 0) eqn:Er; hook_cases h Hok.
  all: unfold episode_of; cbn; rewrite ?Er; done.
Qed.

Lemma take_moves t nxt r h :
  hook_ok h ->
  hook_moves t nxt EvTakeRecoveryExit r h (h <| hk_recovery_exit_pending := false |>).
Proof. intros Hok. hook_cases h Hok. Qed.

Lemma quiet_moves t nxt ev r h :
  episode_event ev = false -> hook_ok h -> hook_moves t nxt ev r h h.
Proof. intros He Hok. destruct ev; try done; hook_cases h Hok. Qed.
End Moves.

(** ** Every call *)

Section Episode.
Context {W : Type} `{!AdapterOS W} `{!LwipParams}.
Local Abbreviation F := (flow W).
Implicit Types (s : F).

#[local] Existing Instance same_seat_preorder.

(** What a call leaves of the flow's seat. *)
Record flow_moves (t : hook_ops_ref) (ev : hook_event) (r : Z) s s' : Prop := mk_flow_moves {
  flow_hook : hook_moves t (pb_snd_nxt (fw_pcb s)) ev r (hook_of s) (hook_of s');
  flow_linked : linked t s';
  flow_handle : handle_of s' = handle_of s
}.

Lemma rehooked_moves t ev r f s s' :
  linked t s -> rehooked f s s' ->
  hook_moves t (pb_snd_nxt (fw_pcb s)) ev r (hook_of s) (f (hook_of s)) -> flow_moves t ev r s s'.
Proof.
  intros [He Ht] E Hm. injection E as E1 E2 E3 E4 E5. split.
  - by rewrite E1.
  - split; [by rewrite E4, E5|]. by rewrite E1, (moves_table _ _ _ _ _ _ Hm).
  - unfold handle_of. by rewrite E2, E3.
Qed.

Lemma ledger_event_seat ev s : ledger_event ev = true -> same_seat s (run_event ev s).2.
Proof.
  assert (Honce : forall m s', frames ledger_core m -> once m s s' -> same_seat s s').
  { intros m s' Hm [->| ->]; [done|]. by apply seat_ledger. }
  destruct ev; try done; intros _.
  - eapply Honce, tx_event_once. apply ledger_segment_tx.
  - eapply Honce, acked_event_once. apply ledger_segment_acked.
Qed.

Lemma event_flow_moves t ev s :
  linked t s -> hook_ok (hook_of s) ->
  flow_moves t ev (run_event ev s).1 s (run_event ev s).2.
Proof.
  intros Hl Hok. destruct (episode_event ev) eqn:Ee.
  - destruct ev; try done.
    + eapply rehooked_moves; [done|by apply loss_event_hook|by apply loss_moves].
    + eapply rehooked_moves; [done|by eapply exit_event_hook|by apply exit_moves].
    + eapply (rehooked_moves _ _ _ (fun h => h <| hk_recovery_exit_pending := false |>));
        [done|done|by apply take_moves].
    + eapply rehooked_moves; [done|by eapply timeout_event_hook|by apply timeout_moves].
  - eapply (rehooked_moves _ _ _ id); [done| |by apply quiet_moves].
    change (same_seat s (run_event ev s).2). destruct (ledger_event ev) eqn:El.
    + by apply ledger_event_seat.
    + by apply (quiet_event_steps same_seat same_seat_respects).
Qed.

Lemma run_moves t evs s :
  linked t s -> hook_ok (hook_of s) ->
  let s' := (run_events evs s).2 in
  linked t s' /\ hook_ok (hook_of s') /\ handle_of s' = handle_of s.
Proof.
  revert s. induction evs as [|ev evs IH]; intros s Hl Hok; [done|]. cbn zeta.
  rewrite run_events_cons. destruct (event_flow_moves t ev s Hl Hok) as [Hm Hl' Hh].
  rewrite <- Hh. apply IH; [done|apply Hm].
Qed.

(** C23. The recovery episode is a two-state machine driven by the calls that
    were handled, and the controller's handle always comes back. From a linked
    flow with a clean hook, after any sequence of hook calls and changes of the
    control block by lwIP, the next call [ev]:
    moves the episode exactly as [episode_next] says (a handled loss enters
    with the current [snd_nxt] as its end and is the controller's own exactly
    under BBR's table; a loss inside an episode keeps its end; an exit is left
    pending for lwIP to take once; a timeout clears everything, also when the
    controller failed), counts one entry or exit per such move and none
    otherwise, leaves no stale owner, end or pending exit behind, and returns
    with the hook's table and the handle (vtable and state) the flow started
    with, although the selector swaps a pacing wrapper in during its calls. *)
Theorem recovery_episode_machine t evs ev s0 :
  linked t s0 -> hook_ok (hook_of s0) ->
  let s := (run_events evs s0).2 in
  let s' := (run_event ev s).2 in
  hook_moves t (pb_snd_nxt (fw_pcb s)) ev (run_event ev s).1 (hook_of s) (hook_of s') /\
  linked t s' /\ handle_of s' = handle_of s0 /\
  (ev = EvTakeRecoveryExit ->
   (run_event ev s).1 = Z.b2z (bool_decide (episode_of (hook_of s) = Idle true))).
Proof.
  intros Hl Hok. cbn zeta. destruct (run_moves t evs s0 Hl Hok) as (Hl1 & Hok1 & Hh1).
  destruct (event_flow_moves t ev _ Hl1 Hok1) as [Hm Hl2 Hh2].
  split; [done|]. split; [done|]. split; [congruence|]. intros ->. cbn [run_event].
  unfold int_of, tcp_shift_lwip_cc_hook_take_recovery_exit. rewrite !bind_run. cbn.
  destruct Hok1 as [_ _ Ha _ _]. unfold hook_of, episode_of in *.
  destruct (hk_recovery_active _); [rewrite Ha by done; by rewrite bool_decide_false|].
  by destruct (hk_recovery_exit_pending _).
Qed.

End Episode.

(** Paced CUBIC sends 3000 bytes and lwIP reports a loss. *)
Definition example_losing : list hook_event :=
  [EvLwip (example_pcb <| pb_snd_nxt := 8000 |> <| pb_snd_buf := 0 |>);
   EvSegmentTx 1 5000 1000; EvSegmentTx 2 6000 1000; EvSegmentTx 3 7000 1000; EvLoss 1000].

(** The machine on a CUBIC flow in recovery that a timeout ends, and on a BBR flow. *)
Lemma recovery_episode_machine_witness :
  let s := (run_events example_losing example_cubic).2 in
  let s' := (run_event EvTimeout s).2 in
  episode_of (hook_of s) = Recovering 8000 false /\
  episode_of (hook_of (run_events example_losing example_bbr).2) = Recovering 8000 true /\
  episode_of (hook_of s') = Idle false /\
  hook_moves HookSelector 8000 EvTimeout (run_event EvTimeout s).1 (hook_of s) (hook_of s') /\
  handle_of s' = (Some OpsCubic, Some StateBuiltin).
Proof.
  pose proof (recovery_episode_machine HookSelector example_losing EvTimeout example_cubic
    ltac:(split; vm_compute; reflexivity) ltac:(split; vm_compute; (done || split; discriminate)))
    as (H1 & _ & H3 & _).
  cbn zeta. split; [vm_compute; reflexivity|]. split; [vm_compute; reflexivity|].
  split; [vm_compute; reflexivity|]. split; [exact H1|].
  etransitivity; [exact H3|]. vm_compute. reflexivity.
Defined.
