(* ===== verification/AdapterGate.v ===== *)
(** * The send gate

    lwIP sends a segment when it fits the effective congestion window and the
    hook's gate lets it through, and reports it afterwards. In PRR recovery
    both follow the send credit of the last ACK; with SACK-based delivery the
    window counts what the ledger has outstanding instead of the sequence
    distance. *)

From Stdlib Require Import ZArith Lia Bool List.
From stdpp Require Import base tactics numbers list.
From S2P Require Import Prelude StateMonad CC Observation Rack Prr FlowPacer Cubic.
From S2P Require Import AdapterData AdapterDelivery AdapterPacing AdapterRecovery AdapterRate.
From S2P Require Import AdapterPolicy Adapter Selector BbrInternal AdapterHooks AdapterFrame.
From S2P Require Import AdapterEvents AdapterEpisode.
Local Open Scope Z_scope.

Section Gate.
Context {W : Type} `{!AdapterOS W} `{!LwipParams}.
Local Abbreviation F := (flow W).
Implicit Types (s : F).

(** ** Calls that reach the adapter *)

(** The selector's table forwards to the adapter's. *)
Definition selector_forwards s : bool :=
  bool_decide (gl_selector_base_hook_ops (fw_gl s) = Some HookAdapter).

(** BBR's binding forwards to the adapter's table, directly or not. *)
Definition bbr_forwards s : bool :=
  match (tcp_shift_lwip_bbr_binding_from_adapter s).1 with
  | Some b =>
      match bb_base_hook_ops b with
      | Some HookAdapter => true
      | Some HookSelector => selector_forwards s
      | _ => false
      end
  | None => false
  end.

Definition routed (t : hook_ops_ref) s : Prop :=
  linked t s /\
  match t with
  | HookAdapter => True
  | HookSelector => selector_forwards s = true
  | HookBbr => bbr_forwards s = true
  end.

Definition is_live s : bool := (live s).1.

(** ** The effective window *)

Definition raw_inflight s : Z := pb_snd_nxt (fw_pcb s) -w32 pb_lastack (fw_pcb s).

(** What may be sent, by the policy in force: PRR's credit, the window over
    what is outstanding, or the window over the sequence distance. *)
Definition admits s (len : Z) : Prop :=
  if pr_active (ad_prr (fw_ad s)) then len <= ad_prr_send_credit_bytes (fw_ad s)
  else if ad_sack_delivery_policy (fw_ad s)
  then Z.min (tcp_shift_delivery_outstanding_payload (fw_ad s)) (raw_inflight s) + len
         <= pb_cwnd (fw_pcb s)
  else raw_inflight s + len <= pb_cwnd (fw_pcb s).

Lemma effective_cwnd_routed t native s :
  routed t s ->
  tcp_shift_lwip_cc_hook_effective_cwnd native s = tcp_shift_lwip_cc_effective_cwnd s.
Proof.
  intros [Hl Hr]. unfold tcp_shift_lwip_cc_hook_effective_cwnd.
  rewrite (hook_dispatch_linked t) by done. destruct t; [done|..].
  - unfold tcp_shift_cc_selector_pacing_effective_cwnd. rewrite bind_run. cbn [get_gl gets fst snd].
    apply bool_decide_eq_true in Hr. by rewrite Hr.
  - unfold tcp_shift_lwip_bbr_hook_effective_cwnd, with_bbr_base. rewrite bind_run.
    unfold bbr_forwards in Hr. replace (tcp_shift_lwip_bbr_binding_from_adapter s).2 with s by done.
    destruct (tcp_shift_lwip_bbr_binding_from_adapter s).1 as [b|]; [|done].
    destruct (bb_base_hook_ops b) as [[]|]; [done| |done..].
    unfold tcp_shift_cc_selector_pacing_effective_cwnd. rewrite bind_run. cbn [get_gl gets fst snd].
    apply bool_decide_eq_true in Hr. by rewrite Hr.
Qed.

Lemma effective_cwnd_admits s len :
  is_live s = true -> in_u32 (pb_cwnd (fw_pcb s)) -> in_u32 (ad_prr_send_credit_bytes (fw_ad s)) ->
  0 <= len -> raw_inflight s + len <= UINT32_MAX ->
  (raw_inflight s + len <= (tcp_shift_lwip_cc_effective_cwnd s).1 <-> admits s len) /\
  (tcp_shift_lwip_cc_effective_cwnd s).2 = s.
Proof.
  intros Hv Hc Hp Hlen Hraw. unfold tcp_shift_lwip_cc_effective_cwnd, admits.
  rewrite !bind_run. cbn [get_ad get_pcb gets fst snd]. unfold is_live in Hv.
  rewrite Hv. cbn [negb]. replace (live s).2 with s by done. fold (raw_inflight s).
  assert (Hr : in_u32 (raw_inflight s)) by apply u32_range.
  set (raw := raw_inflight s) in *. clearbody raw.
  destruct (pr_active _); cbn [ret fst snd].
  { split; [|done]. rewrite (u32_small (UINT32_MAX - _)) by lia.
    case_match; [lia|]. rewrite u32_small by lia. lia. }
  destruct (ad_sack_delivery_policy _); cbn [negb ret fst snd]; [|by split; [lia|]].
  set (out := tcp_shift_delivery_outstanding_payload _).
  assert (Ho : in_u32 out). { unfold out, tcp_shift_delivery_outstanding_payload, clamp_u32. case_match; [lia|apply u32_range]. }
  clearbody out. destruct (out >=? raw) eqn:Eo; cbn [ret fst snd]; split; try done; [lia|].
  rewrite (u32_small (raw - out)) by lia. rewrite (u32_small (UINT32_MAX - _)) by lia.
  case_match; [lia|]. rewrite u32_small by lia. lia.
Qed.

(** ** Sending *)

(** lwIP's use of the gate: a segment that is let through is sent and
    reported. The result is the bytes sent. *)
Definition send_attempt (segment seq_start payload_bytes : Z) : M F Z :=
  let! ok := tcp_shift_lwip_cc_hook_segment_send_eligible payload_bytes in
  if ok then tcp_shift_lwip_cc_hook_segment_tx segment seq_start payload_bytes ;; ret payload_bytes
  else ret 0.

Fixpoint send_attempts (l : list (Z * Z * Z)) : M F Z :=
  match l with
  | [] => ret 0
  | (seg, q, n) :: l' => let! sent := send_attempt seg q n in
                         let! rest := send_attempts l' in ret (sent + rest)
  end.

(** A set of worlds in which the clock can be read, which the calls to the
    outside keep. *)
Record clock_runs (runs : W -> Prop) : Prop := mk_clock_runs {
  runs_read : forall s, runs (fw_world s) -> (tcp_shift_delivery_now_ns s).1 <> 0;
  runs_clock : forall w, runs w -> runs (monotonic_clock w).2;
  runs_alloc : forall w n, runs w -> runs (heap_alloc w n).2;
  runs_schedule : forall w fn arg id gen d n, runs w -> runs (timer_schedule w fn arg id gen d n).2;
  runs_cancel : forall w fn arg id gen, runs w -> runs (timer_cancel w fn arg id gen).2
}.

Context (runs : W -> Prop) (Hruns : clock_runs runs).

(** PRR's state, the guard of the callbacks and the clock stay as they are. *)
Definition prr_of s := (ad_prr (fw_ad s), ad_prr_send_credit_bytes (fw_ad s), ad_bound (fw_ad s)).
Definition prr_kept s s' : Prop := prr_of s' = prr_of s /\ (runs (fw_world s) -> runs (fw_world s')).

#[local] Instance prr_kept_preorder : PreOrder prr_kept.
Proof.
  split; [by intros s; split|]. intros s1 s2 s3 [E1 R1] [E2 R2]. split; [congruence|auto].
Qed.

Lemma kept_ad f :
  (forall a, ad_prr (f a) = ad_prr a /\ ad_prr_send_credit_bytes (f a) = ad_prr_send_credit_bytes a /\
             ad_bound (f a) = ad_bound a) -> steps prr_kept (upd_ad (W := W) f).
Proof. intros Hf s. split; [|done]. unfold prr_of. cbn. by destruct (Hf (fw_ad s)) as (-> & -> & ->). Qed.
Lemma kept_os {A} (f : W -> A * W) :
  (forall w, runs w -> runs (f w).2) -> steps prr_kept (call_os f).
Proof. intros Hf s. unfold call_os. specialize (Hf (fw_world s)). by destruct (f (fw_world s)). Qed.
Lemma kept_note f : steps prr_kept (note (W := W) f).
Proof. intros s. unfold note, when, bind, get_ad, gets. by destruct (ad_stats (fw_ad s)). Qed.

Hint Extern 2 (steps prr_kept (upd_ad _)) =>
  (apply kept_ad; intros; repeat case_match; done) : steps.
Hint Extern 2 (steps prr_kept (call_os _)) =>
  (apply kept_os; intros; first [by apply (runs_clock _ Hruns) | by apply (runs_alloc _ Hruns)
    | by apply (runs_schedule _ Hruns) | by apply (runs_cancel _ Hruns)]) : steps.
Hint Extern 1 (steps prr_kept (note _)) => (apply kept_note) : steps.
Hint Extern 1 (steps prr_kept (note_recovery _)) => (apply kept_note) : steps.
Hint Extern 1 (steps prr_kept (note_pacing _)) => (apply kept_note) : steps.
Hint Extern 1 (steps prr_kept (note_delivery _)) => (apply kept_note) : steps.
Hint Extern 1 (steps prr_kept get_ad) => (apply steps_gets; tc_solve) : steps.
Hint Extern 1 (steps prr_kept get_pcb) => (apply steps_gets; tc_solve) : steps.
Hint Extern 1 (steps prr_kept get_gl) => (apply steps_gets; tc_solve) : steps.
Hint Extern 1 (steps prr_kept live) => (intros ?; reflexivity) : steps.

Lemma kept_now : steps prr_kept (tcp_shift_delivery_now_ns (W := W)).
Proof. unfold tcp_shift_delivery_now_ns. steps_walk. Qed.
Hint Resolve kept_now : steps.
Lemma kept_defer d n : steps prr_kept (pacing_defer (W := W) d n).
Proof. unfold pacing_defer, pacing_scheduler_error, pacing_off. steps_walk. Qed.
Hint Resolve kept_defer : steps.
Lemma kept_eligible n : steps prr_kept (tcp_shift_lwip_cc_on_segment_send_eligible (W := W) n).
Proof. unfold tcp_shift_lwip_cc_on_segment_send_eligible. steps_walk. Qed.
Lemma kept_pacing_tx n now : steps prr_kept (tcp_shift_pacing_note_tx (W := W) n now).
Proof. unfold tcp_shift_pacing_note_tx, pacing_scheduler_error, pacing_off. steps_walk. Qed.
Lemma kept_gap now : steps prr_kept (note_tx_gap (W := W) now).
Proof. apply kept_note. Qed.
Lemma kept_create seg : steps prr_kept (tcp_shift_delivery_create (W := W) seg).
Proof. unfold tcp_shift_delivery_create, delivery_room, tcp_shift_delivery_grow, upd_slot. steps_walk. Qed.
Hint Resolve kept_create : steps.
Lemma kept_ledger_tx seg q n now : steps prr_kept (delivery_note_tx (W := W) seg q n now).
Proof. unfold delivery_note_tx, upd_slot. steps_walk. Qed.
Hint Resolve kept_eligible kept_pacing_tx kept_gap kept_ledger_tx : steps.

Lemma kept_selector_eligible n : steps prr_kept (tcp_shift_cc_selector_pacing_send_eligible (W := W) n).
Proof.
  unfold tcp_shift_cc_selector_pacing_send_eligible, tcp_shift_cc_selector_set_cubic_pacing. steps_walk.
Qed.

(** Where the calls go. *)
Definition route s :=
  (seat s, gl_selector_base_hook_ops (fw_gl s), ad_pcb (fw_ad s), fw_ptr s).

Lemma route_ledger {A} (m : M F A) : frames ledger_core m -> frames route m.
Proof.
  apply (frames_through ledger_core
    (fun '(g, self, a, pp, pcb) =>
       (ad_hook a, (ad_ops a, ad_state a), self, pb_ext_cc pcb.1, gl_selector_base_hook_ops g, ad_pcb a, pp))).
  done.
Qed.

(** A loss-based flow in PRR recovery. *)
Record recovering t s : Prop := mk_recovering {
  rec_routed : routed t s;
  rec_table : t <> HookBbr;
  rec_live : is_live s = true;
  rec_active : pr_active (ad_prr (fw_ad s)) = true;
  rec_credit : in_u32 (ad_prr_send_credit_bytes (fw_ad s));
  rec_out : in_u64 (pr_prr_out (ad_prr (fw_ad s)));
  rec_runs : runs (fw_world s)
}.

Lemma recovering_kept t s s' :
  recovering t s -> route s' = route s -> prr_kept s s' -> recovering t s'.
Proof.
  intros [[[Hl Ht] Hr] Hnb Hv Ha Hc Ho Hw] Er [Ep Hk]. injection Er as E1 E2 E3 E4 E5 E6 E7 E8.
  injection Ep as P1 P2 P3.
  split; [|done|..|by apply Hk]; rewrite ?P1, ?P2; try done.
  - split; [split; [by rewrite E4, E5|by rewrite E1]|].
    destruct t; [done| |done]. unfold selector_forwards. by rewrite E6.
  - unfold is_live, live, serves in *. cbn in *. by rewrite P3, E7, E8.
Qed.

Lemma eligible_blocks n s :
  is_live s = true -> pr_active (ad_prr (fw_ad s)) = true ->
  0 < n -> ad_prr_send_credit_bytes (fw_ad s) < n ->
  (tcp_shift_lwip_cc_on_segment_send_eligible n s).1 = 0.
Proof.
  intros Hv Ha Hn Hc. unfold tcp_shift_lwip_cc_on_segment_send_eligible. rewrite bind_run.
  unfold is_live in Hv. rewrite Hv. replace (live s).2 with s by done.
  replace (n =? 0) with false by lia. cbn [negb orb]. rewrite bind_run. cbn [get_ad gets fst snd].
  rewrite Ha. replace (n >? _) with true by lia. cbn [andb]. by rewrite bind_run.
Qed.

(** The gate's answer: what it lets through fits the credit. *)
Lemma gate_answer t n s :
  recovering t s -> 0 < n ->
  let r := tcp_shift_lwip_cc_hook_segment_send_eligible n s in
  recovering t r.2 /\ prr_of r.2 = prr_of s /\
  (r.1 = true -> n <= ad_prr_send_credit_bytes (fw_ad s)).
Proof.
  intros Hrec Hn. pose proof Hrec as [[Hl Hr] Hnb Hv Ha Hc _ _]. cbn zeta.
  unfold tcp_shift_lwip_cc_hook_segment_send_eligible, handled.
  rewrite bind_run, (hook_dispatch_linked t) by done. cbn [ret fst snd].
  assert (Hb : ad_prr_send_credit_bytes (fw_ad s) < n ->
    (match t with HookAdapter => tcp_shift_lwip_cc_on_segment_send_eligible n
     | HookSelector => tcp_shift_cc_selector_pacing_send_eligible n
     | HookBbr => tcp_shift_lwip_bbr_hook_send_eligible n end s).1 = 0).
  { intros Hlt. destruct t; [by apply eligible_blocks| |done].
    unfold tcp_shift_cc_selector_pacing_send_eligible. rewrite !bind_run. cbn [get_ad get_gl gets fst snd].
    apply bool_decide_eq_true in Hr. rewrite Hr. cbn [ret fst]. by apply eligible_blocks. }
  assert (Hm : forall m : M F Z, frames core m -> steps prr_kept m ->
    (ad_prr_send_credit_bytes (fw_ad s) < n -> (m s).1 = 0) ->
    recovering t (m s).2 /\ prr_of (m s).2 = prr_of s /\
    (negb ((m s).1 =? 0) = true -> n <= ad_prr_send_credit_bytes (fw_ad s))).
  { intros m H1 H2 H3. split; [|split; [apply H2|]].
    - apply (recovering_kept t s); [done|by apply route_ledger, ledger_of_core|apply H2].
    - intros E. destruct (Z.lt_ge_cases (ad_prr_send_credit_bytes (fw_ad s)) n); [|done].
      by rewrite H3 in E. }
  destruct t; [apply Hm; [apply core_send_eligible|apply kept_eligible|done]| |done].
  apply Hm; [|apply kept_selector_eligible|done].
  unfold tcp_shift_cc_selector_pacing_send_eligible. frames_walk.
Qed.

(** The report: PRR counts the bytes and the credit pays for them. *)
Lemma tx_pays seg q n s :
  is_live s = true -> pr_active (ad_prr (fw_ad s)) = true -> runs (fw_world s) ->
  0 < n <= ad_prr_send_credit_bytes (fw_ad s) -> in_u32 (ad_prr_send_credit_bytes (fw_ad s)) ->
  in_u64 (pr_prr_out (ad_prr (fw_ad s))) ->
  let s' := (tcp_shift_lwip_cc_on_segment_tx seg q n s).2 in
  prr_of s' = (ad_prr (fw_ad s) <| pr_prr_out := Z.min UINT64_MAX (pr_prr_out (ad_prr (fw_ad s)) + n) |>,
               ad_prr_send_credit_bytes (fw_ad s) - n, true) /\
  runs (fw_world s').
Proof.
  intros Hv Ha Hw Hn Hc Ho. cbn zeta. unfold tcp_shift_lwip_cc_on_segment_tx.
  unfold is_live, live in Hv. cbn in Hv. apply andb_true_iff in Hv as [Hb Hsv].
  rewrite !bind_run. cbn [get_ad gets fst snd]. rewrite Hsv.
  replace (n =? 0) with false by lia. cbn [negb orb]. rewrite bind_run.
  pose proof (runs_read _ Hruns s Hw) as Hnow. destruct (kept_now s) as [Ek Hk].
  destruct (tcp_shift_delivery_now_ns s) as [now s1]. cbn [fst snd] in *.
  replace (now =? 0) with false by lia. rewrite bind_run.
  set (rest := (tcp_shift_pacing_note_tx n now ;; _) : M F unit).
  assert (Hrest : steps prr_kept rest) by (unfold rest; steps_walk). clearbody rest.
  destruct (Hrest (prr_note_tx n s1).2) as [-> Hr]. injection Ek as P1 P2 P3.
  cut (prr_of (prr_note_tx n s1).2 =
       (ad_prr (fw_ad s) <| pr_prr_out := Z.min UINT64_MAX (pr_prr_out (ad_prr (fw_ad s)) + n) |>,
        ad_prr_send_credit_bytes (fw_ad s) - n, true) /\ fw_world (prr_note_tx n s1).2 = fw_world s1).
  { intros [E1 E2]. split; [done|]. apply Hr. rewrite E2. by apply Hk. }
  clear Hr Hrest rest. unfold prr_note_tx. rewrite bind_run. cbn [get_ad gets fst snd].
  rewrite P1, P2, Ha. unfold tcp_shift_prr_on_send. rewrite Ha.
  replace (n =? 0) with false by lia. cbn [negb orb when]. replace (n >? _) with false by lia.
  cbn [orb negb Z.eqb]. rewrite bind_run. cbn [upd_ad modify fst snd].
  rewrite bind_run. cbn [get_ad gets fst snd]. unfold note_recovery.
  rewrite prr_add_sat_spec by lia. unfold note. rewrite bind_run. cbn [get_ad gets fst snd].
  destruct (ad_stats _); unfold prr_of; cbn; rewrite P2, P3, Hb, u32_small by lia; done.
Qed.

Lemma tx_routed t seg q n s :
  routed t s -> t <> HookBbr ->
  tcp_shift_lwip_cc_hook_segment_tx seg q n s = tcp_shift_lwip_cc_on_segment_tx seg q n s.
Proof.
  intros [Hl Hr] Hnb. unfold tcp_shift_lwip_cc_hook_segment_tx.
  rewrite (hook_dispatch_linked t) by done. destruct t; [done| |done].
  unfold tcp_shift_cc_selector_pacing_on_segment_tx, with_base_unit. rewrite bind_run.
  cbn [get_gl gets fst snd]. apply bool_decide_eq_true in Hr. by rewrite Hr.
Qed.

(** One attempt. *)
Lemma attempt_pays t seg q n s :
  recovering t s -> 0 < n ->
  let r := send_attempt seg q n s in
  recovering t r.2 /\ 0 <= r.1 <= ad_prr_send_credit_bytes (fw_ad s) /\
  ad_prr_send_credit_bytes (fw_ad r.2) = ad_prr_send_credit_bytes (fw_ad s) - r.1 /\
  pr_prr_out (ad_prr (fw_ad r.2)) = Z.min UINT64_MAX (pr_prr_out (ad_prr (fw_ad s)) + r.1).
Proof.
  intros Hrec Hn. cbn zeta. unfold send_attempt. rewrite bind_run.
  destruct (gate_answer t n s Hrec Hn) as (Hrec1 & E1 & Hfit).
  destruct (tcp_shift_lwip_cc_hook_segment_send_eligible n s) as [ok s1]. cbn [fst snd] in *.
  injection E1 as P1 P2 _. pose proof Hrec as [_ _ _ _ Hc Ho _].
  destruct ok; cbn [ret fst snd]; [|rewrite P1, P2; split; [done|]; lia].
  specialize (Hfit eq_refl). pose proof Hrec1 as [Hr1 Hnb Hv1 Ha1 Hc1 Ho1 Hw1].
  rewrite bind_run. cbn [ret fst snd]. rewrite (tx_routed t) by done.
  destruct (tx_pays seg q n s1 Hv1 Ha1 Hw1 ltac:(lia) Hc1 Ho1) as [E2 Hw2].
  assert (Hrt : route (tcp_shift_lwip_cc_on_segment_tx seg q n s1).2 = route s1)
    by apply route_ledger, ledger_segment_tx.
  set (s2 := (tcp_shift_lwip_cc_on_segment_tx seg q n s1).2) in *. clearbody s2.
  injection E2 as Q1 Q2 Q3. rewrite Q1, Q2, P1, P2. cbn. split; [|lia].
  injection Hrt as E1 E2 E3 E4 E5 E6 E7 E8. destruct Hr1 as [[Hl1 Ht1] Hr1]. split; try done.
  - split; [split; [by rewrite E4, E5|by rewrite E1]|].
    destruct t; [done| |done]. unfold selector_forwards. by rewrite E6.
  - unfold is_live, live, serves in *. cbn in *. by rewrite Q3, E7, E8, (proj2 (proj1 (andb_true_iff _ _) Hv1)).
  - by rewrite Q1.
  - rewrite Q2. lia.
  - rewrite Q1. cbn. lia.
Qed.

Lemma attempts_pay t l s :
  recovering t s -> Forall (fun x => 0 < x.2) l ->
  let r := send_attempts l s in
  recovering t r.2 /\ 0 <= r.1 <= ad_prr_send_credit_bytes (fw_ad s) /\
  ad_prr_send_credit_bytes (fw_ad r.2) = ad_prr_send_credit_bytes (fw_ad s) - r.1 /\
  pr_prr_out (ad_prr (fw_ad r.2)) = Z.min UINT64_MAX (pr_prr_out (ad_prr (fw_ad s)) + r.1).
Proof.
  intros Hrec Hl. revert s Hrec. induction Hl as [|[[seg q] n] l Hn _ IH]; intros s Hrec; cbn zeta.
  - cbn [send_attempts ret fst snd]. pose proof Hrec as [_ _ _ _ Hc Ho _]. split; [done|]. lia.
  - cbn [send_attempts]. rewrite !bind_run. cbn [ret fst snd].
    destruct (attempt_pays t seg q n s Hrec Hn) as (H1 & H2 & H3 & H4).
    destruct (send_attempt seg q n s) as [sent s1]. cbn [fst snd] in *.
    destruct (IH s1 H1) as (H5 & H6 & H7 & H8).
    destruct (send_attempts l s1) as [rest s2]. cbn [fst snd] in *.
    split; [done|]. rewrite H3 in H6, H7. rewrite H4 in H8.
    pose proof (rec_out _ _ Hrec). split; [lia|]. split; [lia|]. rewrite H8. lia.
Qed.

(** C27. The send gate follows the policy in force, and PRR's credit is never
    overdrawn. For a live flow whose calls reach the adapter: a segment fits
    the effective window exactly when the policy admits it (in PRR recovery,
    its length is within the send credit; with SACK-based delivery, the
    outstanding payload and the segment fit the congestion window; otherwise
    the sequence distance and the segment do), and asking changes nothing.
    And for a loss-based flow in PRR recovery with a running clock, whatever
    segments lwIP attempts to send between two ACKs, paced or not, the bytes
    that get through are within the credit, are exactly what the credit paid,
    and are exactly what PRR counted as sent. *)
Theorem send_gate_exact t s :
  routed t s -> is_live s = true -> in_u32 (pb_cwnd (fw_pcb s)) ->
  in_u32 (ad_prr_send_credit_bytes (fw_ad s)) ->
  (forall native len, 0 <= len -> raw_inflight s + len <= UINT32_MAX ->
     let r := tcp_shift_lwip_cc_hook_effective_cwnd native s in
     (raw_inflight s + len <= r.1 <-> admits s len) /\ r.2 = s) /\
  (forall l, recovering t s -> Forall (fun x => 0 < x.2) l ->
     let r := send_attempts l s in
     0 <= r.1 <= ad_prr_send_credit_bytes (fw_ad s) /\
     ad_prr_send_credit_bytes (fw_ad r.2) = ad_prr_send_credit_bytes (fw_ad s) - r.1 /\
     pr_prr_out (ad_prr (fw_ad r.2)) = Z.min UINT64_MAX (pr_prr_out (ad_prr (fw_ad s)) + r.1)).
Proof.
  intros Hr Hv Hc Hp. split.
  - intros native len Hlen Hraw. cbn zeta. rewrite (effective_cwnd_routed t) by done.
    by apply effective_cwnd_admits.
  - intros l Hrec Hl. by apply (attempts_pay t).
Qed.

End Gate.

(** The clock of the example environment runs. *)
Lemma example_clock_runs : clock_runs (W := ticks) (fun _ => True).
Proof.
  split; try done. intros s _. unfold tcp_shift_delivery_now_ns. rewrite !bind_run. cbn.
  rewrite !bind_run. cbn. pose proof (Z.mod_pos_bound (fw_world s / 1000) 4294967296).
  pose proof (Z.mod_pos_bound (fw_world s) 1000).
  rewrite (u64_small (1 + _)) by lia. rewrite !u64_small by (rewrite ?u64_small; lia). lia.
Qed.

(** Five segments sent, three of them SACKed, and a loss: PRR is active. *)
Definition example_prr : flow ticks :=
  (run_events
     [EvLwip (example_pcb <| pb_snd_nxt := 10000 |> <| pb_snd_buf := 0 |>);
      EvSegmentTx 1 5000 1000; EvSegmentTx 2 6000 1000; EvSegmentTx 3 7000 1000;
      EvSegmentTx 4 8000 1000; EvSegmentTx 5 9000 1000;
      EvAckBegin; EvSack 5000 [mk_sack_range 6000 9000]; EvLoss 1000] example_cubic).2.

(** A CUBIC flow with a credit of 2500 bytes: of three attempts to send
    1000 bytes, two get through. *)
Lemma send_gate_exact_witness :
  let r := send_attempts [(1, 5000, 1000); (6, 10000, 1000); (7, 11000, 1000)] example_prr in
  ad_prr_send_credit_bytes (fw_ad example_prr) = 2500 /\ r.1 = 2000 /\
  ad_prr_send_credit_bytes (fw_ad r.2) = 500 /\ pr_prr_out (ad_prr (fw_ad r.2)) = 2000 /\
  (raw_inflight example_prr + 1000 <= (tcp_shift_lwip_cc_hook_effective_cwnd 0 example_prr).1 <->
   admits example_prr 1000).
Proof.
  assert (Hr : routed HookSelector example_prr) by (vm_compute; done).
  assert (Hc : ad_prr_send_credit_bytes (fw_ad example_prr) = 2500) by (vm_compute; reflexivity).
  destruct (send_gate_exact (fun _ => True) example_clock_runs HookSelector example_prr Hr
    ltac:(vm_compute; reflexivity) ltac:(vm_compute; split; discriminate) ltac:(rewrite Hc; lia))
    as [H1 H2].
  destruct (H2 [(1, 5000, 1000); (6, 10000, 1000); (7, 11000, 1000)]) as (_ & H3 & H4).
  { split; [exact Hr|discriminate|vm_compute; reflexivity|vm_compute; reflexivity|rewrite Hc; lia| |done].
    vm_compute. split; discriminate. }
  { repeat constructor. }
  cbn zeta. set (r := send_attempts _ _) in *.
  assert (Hs : r.1 = 2000) by (vm_compute; reflexivity).
  assert (Ho : pr_prr_out (ad_prr (fw_ad example_prr)) = 0) by (vm_compute; reflexivity).
  assert (Hw : raw_inflight example_prr = 5000) by (vm_compute; reflexivity).
  rewrite Hs, Hc in H3. rewrite Hs, Ho in H4. rewrite Hc, Hs, H3, H4.
  split; [reflexivity|]. split; [reflexivity|]. split; [reflexivity|]. split; [reflexivity|].
  apply H1; lia.
Defined.
