(* ===== verification/AdapterFailClosed.v ===== *)
(** * Failing closed

    A policy callback whose controller or policy fails disables its adapter:
    pacing stops and every later call leaves the control block to lwIP. *)

From Stdlib Require Import ZArith Lia Bool List.
From stdpp Require Import base tactics numbers list.
From S2P Require Import Prelude StateMonad CC Observation Rack Prr FlowPacer Cubic.
From S2P Require Import AdapterData AdapterDelivery AdapterPacing AdapterRecovery AdapterRate.
From S2P Require Import AdapterPolicy Adapter Selector BbrInternal AdapterHooks AdapterFrame.
From S2P Require Import AdapterEvents AdapterEpisode AdapterGate.
Local Open Scope Z_scope.

Section FailClosed.
Context {W : Type} `{!AdapterOS W} `{!LwipParams}.
Local Abbreviation F := (flow W).
Implicit Types (s : F).

(** ** A disabled adapter *)

Record disabled s : Prop := mk_disabled {
  dis_bound : ad_bound (fw_ad s) = false;
  dis_rate : ad_pacing_rate_bytes_per_sec (fw_ad s) = 0;
  dis_clock : ad_pacing_next_send_ns (fw_ad s) = 0;
  dis_timer : ad_pacing_scheduled (fw_ad s) = false
}.

(** What a call on a disabled adapter must not move. *)
Definition gauge s :=
  (ad_bound (fw_ad s), ad_pacing_rate_bytes_per_sec (fw_ad s), ad_pacing_next_send_ns (fw_ad s),
   ad_pacing_scheduled (fw_ad s), fw_pcb s).

Lemma disabled_gauge s s' : gauge s' = gauge s -> disabled s -> disabled s'.
Proof. intros E [H1 H2 H3 H4]. injection E as E1 E2 E3 E4 _. split; congruence. Qed.

(** [m] on a disabled adapter returns [v] and touches nothing of the gauge. *)
Definition native {A} (v : F -> A) (m : M F A) : Prop :=
  forall s, disabled s -> (m s).1 = v s /\ gauge (m s).2 = gauge s.

Lemma native_ret {A} (a : A) : native (fun _ => a) (ret a).
Proof. done. Qed.
Lemma native_bind {A B} v (b : A -> B) (m : M F A) :
  native (fun _ => v) m -> native (fun _ => b v) (let! x := m in ret (b x)).
Proof. intros Hm s Hs. rewrite bind_run. destruct (Hm s Hs) as [-> E]. done. Qed.

(** A callback behind the guard. *)
Lemma native_live {A} (v : A) (k : M F A) :
  native (fun _ => v) (let! ok := live in if negb ok then ret v else k).
Proof. intros s Hs. rewrite bind_run. unfold live. cbn. by rewrite (dis_bound s Hs). Qed.
Lemma native_live_or {A} (v : A) (c : bool) (k : M F A) :
  native (fun _ => v) (let! ok := live in if negb ok || c then ret v else k).
Proof. intros s Hs. rewrite bind_run. unfold live. cbn. by rewrite (dis_bound s Hs). Qed.

(** ** The adapter's callbacks *)

Lemma native_prepare n : native (fun _ => None) (tcp_shift_lwip_cc_prepare_ack (W := W) n).
Proof. apply native_live_or. Qed.
Lemma native_on_ack n : native (fun _ => 0) (tcp_shift_lwip_cc_on_ack (W := W) n).
Proof. intros s Hs. unfold tcp_shift_lwip_cc_on_ack. rewrite bind_run. by destruct (native_prepare n s Hs) as [-> ?]. Qed.
Lemma native_observe n : native (fun _ => 0) (tcp_shift_lwip_cc_on_ack_observe (W := W) n).
Proof. intros s Hs. unfold tcp_shift_lwip_cc_on_ack_observe. rewrite bind_run. by destruct (native_prepare n s Hs) as [-> ?]. Qed.
Lemma native_on_sack q l : native (fun _ => 0) (tcp_shift_lwip_cc_on_sack (W := W) q l).
Proof. apply native_live_or. Qed.
Lemma native_tlp_dupack b : native (fun _ => tt) (tcp_shift_lwip_cc_on_tlp_dupack (W := W) b).
Proof. apply native_live_or. Qed.
Lemma native_retrans_loss n : native (fun _ => 0) (tcp_shift_lwip_cc_on_rack_retrans_loss (W := W) n).
Proof. apply native_live_or. Qed.
Lemma native_on_loss n : native (fun _ => 0) (tcp_shift_lwip_cc_on_loss (W := W) n).
Proof. apply native_live_or. Qed.
Lemma native_tlp_loss n : native (fun _ => 0) (tcp_shift_lwip_cc_on_tlp_loss (W := W) n).
Proof. apply native_live_or. Qed.
Lemma native_on_ecn : native (fun _ => 0) (tcp_shift_lwip_cc_on_ecn (W := W)).
Proof. apply native_live. Qed.
Lemma native_ecn_gate b : native (fun _ => tt) (tcp_shift_lwip_cc_on_ecn_rto_gate (W := W) b).
Proof. apply native_live. Qed.
Lemma native_exit q : native (fun _ => 0) (tcp_shift_lwip_cc_on_recovery_exit (W := W) q).
Proof. apply native_live. Qed.
Lemma native_timeout : native (fun _ => 0) (tcp_shift_lwip_cc_on_timeout (W := W)).
Proof. apply native_live. Qed.
Lemma native_ack_begin : native (fun _ => tt) (tcp_shift_lwip_cc_prr_ack_begin (W := W)).
Proof. apply native_live. Qed.
Lemma native_prr_active : native (fun _ => false) (tcp_shift_lwip_cc_prr_active (W := W)).
Proof. intros s Hs. unfold tcp_shift_lwip_cc_prr_active. rewrite !bind_run. cbn. by rewrite (dis_bound s Hs). Qed.
Lemma native_loss_status seg : native (fun _ => (-1, 0)) (tcp_shift_lwip_cc_rack_loss_status (W := W) seg).
Proof. apply native_live. Qed.
Lemma native_eligible n : native (fun _ => 1) (tcp_shift_lwip_cc_on_segment_send_eligible (W := W) n).
Proof. apply native_live_or. Qed.
Lemma native_cwnd : native (fun s => pb_cwnd (fw_pcb s)) (tcp_shift_lwip_cc_effective_cwnd (W := W)).
Proof. intros s Hs. unfold tcp_shift_lwip_cc_effective_cwnd. rewrite !bind_run. cbn. by rewrite (dis_bound s Hs). Qed.
Lemma native_app_limited : native (fun _ => tt) (tcp_shift_lwip_cc_mark_app_limited (W := W)).
Proof.
  intros s Hs. unfold tcp_shift_lwip_cc_mark_app_limited. rewrite !bind_run. cbn.
  destruct (bool_decide _); [|done]. rewrite !bind_run. cbn. by rewrite (dis_bound s Hs).
Qed.

(** ** The ledger's callbacks, which run on a disabled adapter too *)

Definition gauge_kept s s' : Prop := disabled s -> gauge s' = gauge s.
#[local] Instance gauge_kept_preorder : PreOrder gauge_kept.
Proof.
  split; [done|]. intros s1 s2 s3 H1 H2 Hd. rewrite (H2 (disabled_gauge _ _ (H1 Hd) Hd)). auto.
Qed.

Lemma gauge_ad f :
  (forall a, ad_bound (f a) = ad_bound a /\
     ad_pacing_rate_bytes_per_sec (f a) = ad_pacing_rate_bytes_per_sec a /\
     ad_pacing_next_send_ns (f a) = ad_pacing_next_send_ns a /\
     ad_pacing_scheduled (f a) = ad_pacing_scheduled a) -> steps gauge_kept (upd_ad (W := W) f).
Proof. intros Hf s _. unfold gauge. cbn. by destruct (Hf (fw_ad s)) as (-> & -> & -> & ->). Qed.
Lemma gauge_os {A} (f : W -> A * W) : steps gauge_kept (call_os f).
Proof. intros s _. unfold call_os. by destruct (f (fw_world s)). Qed.
Lemma gauge_note f : steps gauge_kept (note (W := W) f).
Proof. intros s _. unfold note, when, bind, get_ad, gets. by destruct (ad_stats (fw_ad s)). Qed.

Hint Extern 2 (steps gauge_kept (upd_ad _)) => (apply gauge_ad; intros; repeat case_match; done) : steps.
Hint Extern 1 (steps gauge_kept (call_os _)) => (apply gauge_os) : steps.
Hint Extern 1 (steps gauge_kept (note _)) => (apply gauge_note) : steps.
Hint Extern 1 (steps gauge_kept (note_policy _)) => (apply gauge_note) : steps.
Hint Extern 1 (steps gauge_kept (note_recovery _)) => (apply gauge_note) : steps.
Hint Extern 1 (steps gauge_kept (note_delivery _)) => (apply gauge_note) : steps.
Hint Extern 1 (steps gauge_kept (gets _)) => (apply steps_gets; tc_solve) : steps.
Hint Extern 1 (steps gauge_kept get_ad) => (apply steps_gets; tc_solve) : steps.
Hint Extern 1 (steps gauge_kept get_pcb) => (apply steps_gets; tc_solve) : steps.

Lemma gauge_now : steps gauge_kept (tcp_shift_delivery_now_ns (W := W)).
Proof. unfold tcp_shift_delivery_now_ns. steps_walk. Qed.
Lemma gauge_pacing_tx n now : steps gauge_kept (tcp_shift_pacing_note_tx (W := W) n now).
Proof.
  intros s Hs. unfold tcp_shift_pacing_note_tx. rewrite bind_run. cbn [get_ad gets fst snd].
  by rewrite (dis_rate s Hs), orb_true_r.
Qed.
Hint Resolve gauge_now gauge_pacing_tx : steps.
Lemma gauge_tx seg q n : steps gauge_kept (tcp_shift_lwip_cc_on_segment_tx (W := W) seg q n).
Proof.
  unfold tcp_shift_lwip_cc_on_segment_tx, prr_note_tx, note_tx_gap, delivery_note_tx,
    tcp_shift_delivery_create, delivery_room, tcp_shift_delivery_grow, upd_slot. steps_walk.
Qed.
Lemma gauge_acked seg n : steps gauge_kept (tcp_shift_lwip_cc_on_segment_acked (W := W) seg n).
Proof.
  unfold tcp_shift_lwip_cc_on_segment_acked, metadata_miss, tcp_shift_delivery_release_slot, upd_slot.
  steps_walk.
Qed.

Lemma native_steps (m : M F unit) : steps gauge_kept m -> native (fun _ => tt) m.
Proof. intros Hm s Hs. split; [by destruct (m s).1|by apply Hm]. Qed.

(** ** The tables *)

Lemma native_with_base m : native (fun _ => 0) m -> native (fun _ => 0) (with_base m).
Proof. intros Hm s Hs. unfold with_base. rewrite bind_run. cbn. repeat case_match; try done; by apply Hm. Qed.
Lemma native_with_base_unit m : native (fun _ => tt) m -> native (fun _ => tt) (with_base_unit m).
Proof. intros Hm s Hs. unfold with_base_unit. rewrite bind_run. cbn. repeat case_match; try done; by apply Hm. Qed.
Lemma native_paced m : native (fun _ => 0) m -> native (fun _ => 0) (with_paced_handle m).
Proof.
  intros Hm s Hs. unfold with_paced_handle. rewrite bind_run. cbn [get_ad gets fst snd].
  destruct (ad_ops (fw_ad s)); [|by apply Hm]. destruct (negb _); [by apply Hm|].
  destruct (tcp_shift_cc_selector_wrapper_for c) as [wr|]; [|by apply Hm].
  rewrite !bind_run. cbn [upd_ad modify ret fst snd].
  set (s1 := set_ad _ s). assert (H1 : disabled s1) by (by apply (disabled_gauge s)).
  destruct (Hm s1 H1) as [-> E]. split; [done|]. exact E.
Qed.
Lemma native_with_bbr {A} v (fb ad sel : M F A) : native v fb -> native v (with_bbr_base fb ad sel).
Proof.
  intros Hf s Hs. unfold with_bbr_base. rewrite bind_run.
  replace (tcp_shift_lwip_bbr_binding_from_adapter s) with
    (None : option tcp_shift_lwip_bbr_binding, s); [by apply Hf|].
  unfold tcp_shift_lwip_bbr_binding_from_adapter. rewrite !bind_run. cbn. by rewrite (dis_bound s Hs).
Qed.
Lemma native_no_binding {A} (v : A) (k : tcp_shift_lwip_bbr_binding -> M F A) :
  native (fun _ => v) (let! b := tcp_shift_lwip_bbr_binding_from_adapter in
                       match b with None => ret v | Some b => k b end).
Proof.
  intros s Hs. unfold tcp_shift_lwip_bbr_binding_from_adapter. rewrite !bind_run. cbn.
  by rewrite (dis_bound s Hs).
Qed.
Lemma native_dispatch {A} v (un ad sel bbr : M F A) :
  native v un -> native v ad -> native v sel -> native v bbr -> native v (hook_dispatch un ad sel bbr).
Proof.
  intros H1 H2 H3 H4 s Hs. unfold hook_dispatch. rewrite bind_run. unfold tcp_shift_lwip_cc_hook_get.
  cbn [fst snd]. repeat case_match; auto.
Qed.
Lemma native_handled v (m : M F Z) :
  native (fun _ => v) m -> native (fun _ => negb (v =? 0)) (handled m).
Proof. apply (native_bind v (fun rc => negb (rc =? 0))). Qed.
Lemma native_int_of v m : native (fun _ => v) m -> native (fun _ => Z.b2z v) (int_of m).
Proof. apply (native_bind v Z.b2z). Qed.
Lemma native_void_of m : native (fun _ => tt) m -> native (fun _ => 0) (void_of m).
Proof. intros Hm. by apply (native_bind tt (fun _ => 0)). Qed.

(** ** Every call *)

(** lwIP's own behaviour: what it does without an adapter. *)
Definition native_result (ev : hook_event) s : Z :=
  match ev with
  | EvEffectiveCwnd _ => pb_cwnd (fw_pcb s)
  | EvSendEligible _ => 1
  | EvRackLossStatus _ => -1
  | EvTakeRecoveryExit => Z.b2z (hk_recovery_exit_pending (ad_hook (fw_ad s)))
  | _ => 0
  end.

Definition lwip_event (ev : hook_event) : bool := match ev with EvLwip _ => true | _ => false end.

Create HintDb native.
Hint Resolve native_on_ack native_observe native_on_sack native_tlp_dupack native_retrans_loss
  native_on_loss native_tlp_loss native_on_ecn native_ecn_gate native_exit native_timeout
  native_ack_begin native_prr_active native_loss_status native_eligible native_app_limited
  native_with_base native_with_base_unit native_paced native_with_bbr native_no_binding
  native_ret : native.

Lemma cubic_flag_gauge (c : bool) inner active s :
  gauge (when c (tcp_shift_cc_selector_set_cubic_pacing inner active) s).2 = gauge s.
Proof.
  unfold tcp_shift_cc_selector_set_cubic_pacing, when. destruct c; [|done].
  destruct (bool_decide _); [|done]. unfold gauge. cbn. by repeat case_match.
Qed.
Lemma native_selector_eligible n :
  native (fun _ => 1) (tcp_shift_cc_selector_pacing_send_eligible (W := W) n).
Proof.
  intros s Hs. unfold tcp_shift_cc_selector_pacing_send_eligible. rewrite !bind_run.
  cbn [get_ad get_gl gets ret fst snd]. destruct (native_eligible n s Hs) as [E1 E2].
  destruct (gl_selector_base_hook_ops _) as [[]|]; cbn [ret fst snd];
    rewrite ?E1, cubic_flag_gauge; done.
Qed.
Lemma native_forward {A} v (m fb : M F A) :
  native v m -> native v fb ->
  native v (let! g := get_gl in
            match gl_selector_base_hook_ops g with Some HookAdapter => m | _ => fb end).
Proof. intros Hm Hf s Hs. rewrite bind_run. cbn [get_gl gets fst snd]. repeat case_match; auto. Qed.

Lemma native_selector_prr : native (fun _ => false) (tcp_shift_cc_selector_pacing_prr_active (W := W)).
Proof. by apply native_forward; [apply native_prr_active|]. Qed.
Lemma native_selector_status seg :
  native (fun _ => (-1, 0)) (tcp_shift_cc_selector_pacing_rack_loss_status (W := W) seg).
Proof. by apply native_forward; [apply native_loss_status|]. Qed.
Lemma native_selector_cwnd :
  native (fun s => pb_cwnd (fw_pcb s)) (tcp_shift_cc_selector_pacing_effective_cwnd (W := W)).
Proof. by apply native_forward; [apply native_cwnd|]. Qed.
Lemma native_selector_tlp n : native (fun _ => 0) (tcp_shift_cc_selector_pacing_on_tlp_loss (W := W) n).
Proof. by apply native_forward; [apply native_tlp_loss|]. Qed.
Hint Resolve native_selector_eligible native_selector_prr native_selector_status
  native_selector_cwnd native_selector_tlp : native.


Ltac native_walk :=
  repeat (first [ solve [auto with native nocore] | apply native_dispatch | apply native_with_bbr
                | apply native_with_base | apply native_with_base_unit | apply native_paced ]).

(** The calls answered with a code of 0. *)
Lemma native_code (m : M F Z) :
  native (fun _ => 0) m -> native (fun _ => 0) (int_of (handled m)).
Proof. intros Hm. by apply (native_int_of false), (native_handled 0). Qed.

Lemma native_hook_tlp n : native (fun _ => false) (tcp_shift_lwip_cc_hook_tlp_loss (W := W) n).
Proof.
  intros s Hs. unfold tcp_shift_lwip_cc_hook_tlp_loss. rewrite bind_run.
  unfold tcp_shift_lwip_cc_hook_get. cbn [fst snd]. destruct (bool_decide _); [|done].
  destruct (n =? 0); [done|].
  destruct (hk_ops _) as [[]|]; apply (native_bind 0 (fun rc => negb (rc =? 0))); try done.
  all: try (unfold tcp_shift_lwip_bbr_hook_tlp_loss); native_walk.
Qed.

Lemma native_upd_hook f : native (fun _ => tt) (upd_hook (W := W) f).
Proof. done. Qed.

Lemma native_loss n : native (fun _ => 0) (run_event (EvLoss n)).
Proof.
  apply (native_int_of false). intros s Hs. unfold tcp_shift_lwip_cc_hook_loss. rewrite bind_run.
  edestruct (native_handled 0 (hook_dispatch (ret 0) (tcp_shift_lwip_cc_on_loss n)
    (tcp_shift_cc_selector_pacing_on_loss n) (tcp_shift_lwip_bbr_hook_loss n))) as [E1 E2]; [|done|].
  { unfold tcp_shift_cc_selector_pacing_on_loss, tcp_shift_cc_selector_call_paced_loss,
      tcp_shift_lwip_bbr_hook_loss. native_walk. }
  rewrite E1. exact (conj eq_refl E2).
Qed.

Lemma native_recovery_exit q : native (fun _ => 0) (run_event (EvRecoveryExit q)).
Proof.
  apply (native_int_of false). intros s Hs. unfold tcp_shift_lwip_cc_hook_recovery_exit. rewrite bind_run.
  unfold tcp_shift_lwip_cc_hook_get. cbn [fst snd]. destruct (bool_decide _); [|done].
  rewrite bind_run.
  edestruct (native_handled 0 (hook_dispatch (ret 0) (tcp_shift_lwip_cc_on_recovery_exit q)
    (tcp_shift_cc_selector_pacing_on_recovery_exit q) (tcp_shift_lwip_bbr_hook_recovery_exit q)))
    as [E1 E2]; [|done|].
  { unfold tcp_shift_cc_selector_pacing_on_recovery_exit. native_walk.
    intros s' Hs'. unfold tcp_shift_lwip_bbr_hook_recovery_exit. rewrite !bind_run.
    unfold tcp_shift_lwip_bbr_binding_from_adapter. rewrite !bind_run. cbn. by rewrite (dis_bound s' Hs'). }
  destruct (hk_recovery_active _); [|done]. rewrite E1. exact (conj eq_refl E2).
Qed.

Lemma native_timeout_event : native (fun _ => 0) (run_event EvTimeout).
Proof.
  apply (native_int_of false). intros s Hs. unfold tcp_shift_lwip_cc_hook_timeout. rewrite bind_run.
  unfold tcp_shift_lwip_cc_hook_get. cbn [fst snd]. destruct (bool_decide _); [|done].
  destruct (is_null _); [done|]. rewrite bind_run.
  edestruct (native_handled 0 (hook_dispatch (ret 0) tcp_shift_lwip_cc_on_timeout
    tcp_shift_cc_selector_pacing_on_timeout tcp_shift_lwip_bbr_hook_timeout)) as [E1 E2]; [|done|].
  { unfold tcp_shift_cc_selector_pacing_on_timeout, tcp_shift_cc_selector_call_paced_timeout,
      tcp_shift_lwip_bbr_hook_timeout. native_walk. }
  rewrite E1. cbn [Z.eqb negb andb when orb]. rewrite !bind_run. cbn [ret get_ad gets fst snd].
  split; [done|]. rewrite <- E2. by destruct (_ || _).
Qed.

Lemma native_cwnd_event t n s :
  linked t s -> disabled s ->
  (run_event (EvEffectiveCwnd n) s).1 = pb_cwnd (fw_pcb s) /\
  gauge (run_event (EvEffectiveCwnd n) s).2 = gauge s.
Proof.
  intros Hl Hs. cbn [run_event]. unfold tcp_shift_lwip_cc_hook_effective_cwnd.
  rewrite (hook_dispatch_linked t) by done.
  destruct t; [by apply native_cwnd|by apply native_selector_cwnd|].
  revert s Hs Hl. intros s Hs _. revert s Hs. by apply native_with_bbr.
Qed.

Lemma native_once (m : M F unit) s s' :
  steps gauge_kept m -> disabled s -> once m s s' -> gauge s' = gauge s.
Proof. intros Hm Hs [->| ->]; [done|]. by apply Hm. Qed.
Lemma native_ledger_tx seg q n : native (fun _ => 0) (run_event (EvSegmentTx seg q n)).
Proof.
  intros s Hs. split; [by cbn [run_event]; unfold void_of; rewrite bind_run|].
  eapply native_once; [apply gauge_tx|done|apply tx_event_once].
Qed.
Lemma native_ledger_acked seg n : native (fun _ => 0) (run_event (EvSegmentAcked seg n)).
Proof.
  intros s Hs. split; [by cbn [run_event]; unfold void_of; rewrite bind_run|].
  eapply native_once; [apply gauge_acked|done|apply acked_event_once].
Qed.

Lemma native_event t ev s :
  linked t s -> disabled s -> lwip_event ev = false ->
  (run_event ev s).1 = native_result ev s /\ gauge (run_event ev s).2 = gauge s.
Proof.
  intros Hl Hs He. destruct ev; try done; revert s Hs Hl;
    first [ intros s Hs Hl; by apply (native_cwnd_event t)
          | intros s Hs _; revert s Hs ];
    first [ apply native_loss | apply native_recovery_exit | apply native_timeout_event | cbn [run_event] ].
  - apply native_void_of. unfold tcp_shift_lwip_cc_hook_ack_begin,
      tcp_shift_cc_selector_pacing_on_ack_begin, tcp_shift_lwip_bbr_hook_ack_begin. native_walk.
  - apply native_code. unfold tcp_shift_cc_selector_pacing_on_ack,
      tcp_shift_cc_selector_call_paced_ack, tcp_shift_lwip_bbr_hook_ack. native_walk.
  - apply native_code. unfold tcp_shift_cc_selector_pacing_on_ack_observe,
      tcp_shift_lwip_bbr_hook_ack_observe. native_walk.
  - unfold tcp_shift_lwip_cc_hook_sack. destruct (_ =? _)%nat; [done|]. apply native_code.
    unfold tcp_shift_cc_selector_pacing_on_sack. native_walk.
    intros s Hs. unfold tcp_shift_lwip_bbr_hook_sack. rewrite bind_run. cbn [gets fst snd].
    by apply (native_with_bbr (fun _ => 0)).
  - apply native_code. unfold tcp_shift_cc_selector_pacing_on_ecn,
      tcp_shift_cc_selector_call_paced_ecn. native_walk.
  - apply native_void_of. unfold tcp_shift_lwip_cc_hook_ecn_rto_gate,
      tcp_shift_cc_selector_pacing_on_ecn_rto_gate. native_walk.
  - unfold tcp_shift_lwip_cc_hook_rack_retrans_loss. destruct (_ =? _); [done|]. apply native_code.
    unfold tcp_shift_cc_selector_pacing_on_rack_retrans_loss,
      tcp_shift_cc_selector_call_paced_rack_retrans_loss, tcp_shift_lwip_bbr_hook_rack_retrans_loss.
    native_walk.
  - apply (native_int_of false), native_hook_tlp.
  - apply native_void_of. unfold tcp_shift_lwip_cc_hook_tlp_dupack,
      tcp_shift_cc_selector_pacing_on_tlp_dupack, tcp_shift_lwip_bbr_hook_tlp_dupack. native_walk.
  - apply (native_int_of false). unfold tcp_shift_lwip_cc_hook_prr_active. native_walk.
  - apply (native_bind (-1, 0) fst). unfold tcp_shift_lwip_cc_hook_rack_loss_status,
      tcp_shift_lwip_bbr_hook_rack_loss_status. native_walk.
  - apply (native_int_of true), (native_handled 1). unfold tcp_shift_lwip_bbr_hook_send_eligible.
    native_walk.
  - apply native_ledger_tx.
  - apply native_ledger_acked.
  - apply native_void_of, native_app_limited.
Qed.

(** ** Failing *)

Lemma cancel_unscheduled s : ad_pacing_scheduled (fw_ad (tcp_shift_pacing_cancel s).2) = false.
Proof.
  unfold tcp_shift_pacing_cancel. rewrite bind_run. cbn [get_ad gets fst snd].
  destruct (ad_pacing_scheduled (fw_ad s)) eqn:E; [|done]. cbn [negb]. rewrite !bind_run. done.
Qed.
Lemma disable_disabled s : disabled (tcp_shift_lwip_cc_disable_on_error s).2.
Proof.
  unfold tcp_shift_lwip_cc_disable_on_error. rewrite !bind_run.
  set (s1 := (note_policy _ s).2). pose proof (cancel_unscheduled s1).
  by split; cbn.
Qed.
Lemma disabled_handle o v s :
  disabled s -> disabled (set_ad (fun a => a <| ad_ops := o |> <| ad_state := v |>) s).
Proof. by apply disabled_gauge. Qed.

(** [m] reports 0 only by disabling its adapter. *)
Definition fails_closed (m : M F Z) : Prop :=
  forall s, is_live s = true -> (m s).1 = 0 -> disabled (m s).2.

Lemma apply_or_disable_none m s :
  (apply_or_disable m s).1 = None -> disabled (apply_or_disable m s).2.
Proof.
  unfold apply_or_disable. rewrite bind_run. destruct (m s) as [[rc policy] s1]. cbn [fst snd].
  rewrite bind_run. set (r := _ s1 : Z * F). destruct r as [applied s2]. cbn [fst snd].
  destruct (_ && _); [done|]. intros _. rewrite bind_run. apply disable_disabled.
Qed.

(** A dispatch whose success reports a code other than 0. *)
Lemma applied_closed m (k : tcp_shift_cc_policy -> M F Z) s :
  (forall p s', (k p s').1 <> 0) ->
  let r := (let! applied := apply_or_disable m in
            match applied with None => ret 0 | Some p => k p end) s in
  r.1 = 0 -> disabled r.2.
Proof.
  intros Hk. cbn zeta. rewrite bind_run. pose proof (apply_or_disable_none m s) as Ha.
  destruct (apply_or_disable m s) as [[p|] s1]; cbn [fst snd] in *.
  - intros E. by destruct (Hk p s1).
  - intros _. by apply Ha.
Qed.

Lemma controller_ack_closed a s : (controller_ack a s).1 = 0 -> disabled (controller_ack a s).2.
Proof.
  unfold controller_ack. rewrite (bind_run flow_transport). apply applied_closed.
  intros p s'. by rewrite bind_run.
Qed.
Lemma controller_loss_closed n m s :
  (controller_loss n m s).1 = 0 -> disabled (controller_loss n m s).2.
Proof.
  unfold controller_loss. rewrite (bind_run flow_transport). apply applied_closed.
  intros p s'. by rewrite !bind_run.
Qed.

Lemma update_srtt_closed r s : (update_srtt r s).1 = false -> disabled (update_srtt r s).2.
Proof.
  unfold update_srtt. destruct (_ && _); [|done]. rewrite bind_run. cbn [get_ad gets fst snd].
  destruct (tcp_shift_cc_srtt_update _ _) as [rc srtt]. destruct (negb _).
  - intros _. rewrite bind_run. apply disable_disabled.
  - rewrite !bind_run. done.
Qed.
Lemma tlp_on_ack_closed s : (tlp_on_ack s).1 = false -> disabled (tlp_on_ack s).2.
Proof.
  unfold tlp_on_ack. rewrite !bind_run. cbn [get_ad get_pcb gets fst snd].
  destruct (tcp_shift_tlp_process_ack _ _ _ _) as [[] rack]; rewrite bind_run; try done.
  rewrite bind_run. destruct (negb _); [|done]. intros _. rewrite bind_run. apply disable_disabled.
Qed.

Lemma prepare_closed n s :
  is_live s = true -> n <> 0 -> (tcp_shift_lwip_cc_prepare_ack n s).1 = None ->
  disabled (tcp_shift_lwip_cc_prepare_ack n s).2.
Proof.
  intros Hv Hn. unfold tcp_shift_lwip_cc_prepare_ack. rewrite bind_run.
  unfold is_live in Hv. rewrite Hv. replace (n =? 0) with false by lia. cbn [negb orb].
  rewrite bind_run. destruct (tcp_shift_delivery_build_rate_sample _) as [[nd rate] s1]. cbn [fst snd].
  rewrite !bind_run. set (s2 := (refresh_sacked _).2).
  pose proof (update_srtt_closed rate s2) as Hu.
  destruct (update_srtt rate s2) as [ok s3]. cbn [fst snd] in *.
  destruct ok; cbn [negb]; [|by intros _; apply Hu]. rewrite !bind_run. cbn [get_ad gets fst snd].
  pose proof (tlp_on_ack_closed s3) as Ht. destruct (tlp_on_ack s3) as [ok s4]. cbn [fst snd] in *.
  destruct ok; cbn [negb]; [|by intros _; apply Ht]. rewrite !bind_run. done.
Qed.

Lemma on_ack_closed n : n <> 0 -> fails_closed (tcp_shift_lwip_cc_on_ack n).
Proof.
  intros Hn s Hv. unfold tcp_shift_lwip_cc_on_ack. rewrite bind_run.
  pose proof (prepare_closed n s Hv Hn) as Hp.
  destruct (tcp_shift_lwip_cc_prepare_ack n s) as [[ack|] s1]; cbn [fst snd] in *.
  - rewrite bind_run. destruct (_ && _); [done|]. apply controller_ack_closed.
  - intros _. by apply Hp.
Qed.
Lemma on_loss_closed n : n <> 0 -> fails_closed (tcp_shift_lwip_cc_on_loss n).
Proof.
  intros Hn s Hv. unfold tcp_shift_lwip_cc_on_loss. rewrite bind_run. unfold is_live in Hv. rewrite Hv.
  replace (n =? 0) with false by lia. cbn [negb orb]. rewrite !bind_run. apply controller_loss_closed.
Qed.
Lemma retrans_loss_closed n : n <> 0 -> fails_closed (tcp_shift_lwip_cc_on_rack_retrans_loss n).
Proof.
  intros Hn s Hv. unfold tcp_shift_lwip_cc_on_rack_retrans_loss. rewrite bind_run.
  unfold is_live in Hv. rewrite Hv. replace (n =? 0) with false by lia. cbn [negb orb].
  apply controller_loss_closed.
Qed.
Lemma on_ecn_closed : fails_closed tcp_shift_lwip_cc_on_ecn.
Proof.
  intros s Hv. unfold tcp_shift_lwip_cc_on_ecn. rewrite bind_run. unfold is_live in Hv. rewrite Hv.
  cbn [negb]. rewrite (bind_run flow_transport). apply applied_closed. intros p s'. by rewrite bind_run.
Qed.
Lemma on_timeout_closed : fails_closed tcp_shift_lwip_cc_on_timeout.
Proof.
  intros s Hv. unfold tcp_shift_lwip_cc_on_timeout. rewrite bind_run. unfold is_live in Hv. rewrite Hv.
  cbn [negb]. rewrite (bind_run (upd_rack _)), (bind_run tcp_shift_recovery_timer_cancel),
    (bind_run tcp_shift_lwip_cc_prr_reset_live), (bind_run flow_transport).
  apply applied_closed. intros p s'. by rewrite bind_run.
Qed.

(** ** The failing call, through the tables *)

Lemma paced_closed m : fails_closed m -> fails_closed (with_paced_handle m).
Proof.
  intros Hm s Hv. unfold with_paced_handle. rewrite bind_run. cbn [get_ad gets fst snd].
  destruct (ad_ops (fw_ad s)) as [inner|]; [|by apply Hm]. destruct (negb _); [by apply Hm|].
  destruct (tcp_shift_cc_selector_wrapper_for inner) as [wr|]; [|by apply Hm].
  rewrite !bind_run. cbn [upd_ad modify ret fst snd]. intros E. by apply disabled_handle, Hm.
Qed.
Lemma base_closed m s :
  selector_forwards s = true -> fails_closed m -> is_live s = true ->
  (with_base m s).1 = 0 -> disabled (with_base m s).2.
Proof.
  intros Hf Hm Hv. unfold with_base. rewrite bind_run. cbn [get_gl gets fst snd].
  apply bool_decide_eq_true in Hf. rewrite Hf. by apply Hm.
Qed.
Lemma bbr_closed m sel s :
  bbr_forwards s = true -> is_live s = true -> fails_closed m ->
  (selector_forwards s = true -> (sel s).1 = 0 -> disabled (sel s).2) ->
  (with_bbr_base (ret 0) m sel s).1 = 0 -> disabled (with_bbr_base (ret 0) m sel s).2.
Proof.
  intros Hf Hv Hm Hs. unfold with_bbr_base. rewrite bind_run. unfold bbr_forwards in Hf.
  replace (tcp_shift_lwip_bbr_binding_from_adapter s).2 with s by done.
  destruct (tcp_shift_lwip_bbr_binding_from_adapter s).1 as [b|]; [|done].
  destruct (bb_base_hook_ops b) as [[]|]; [by apply Hm|by apply Hs|done..].
Qed.

(** The policy calls: their failure is a failure of the controller. *)
Definition policy_call (t : hook_ops_ref) (ev : hook_event) : bool :=
  match ev with
  | EvAck n | EvLoss n => negb (n =? 0)
  | EvRackRetransLoss n => negb (n =? 0) && negb (is_bbr t)
  | EvEcn => negb (is_bbr t)
  | EvTimeout => true
  | _ => false
  end.

(** The callback of a policy call. *)
Definition policy_callback (ev : hook_event) : M F Z :=
  match ev with
  | EvAck n => tcp_shift_lwip_cc_on_ack n
  | EvLoss n => tcp_shift_lwip_cc_on_loss n
  | EvRackRetransLoss n => tcp_shift_lwip_cc_on_rack_retrans_loss n
  | EvEcn => tcp_shift_lwip_cc_on_ecn
  | EvTimeout => tcp_shift_lwip_cc_on_timeout
  | _ => ret 0
  end.

Lemma policy_callback_closed t ev : policy_call t ev = true -> fails_closed (policy_callback ev).
Proof.
  destruct ev; try done; cbn; intros E.
  - apply on_ack_closed. lia.
  - apply on_loss_closed. lia.
  - apply on_ecn_closed.
  - apply retrans_loss_closed. lia.
  - apply on_timeout_closed.
Qed.

(** With the selector's wrapper in the handle, or without. *)
Lemma dispatch_closed t m bbr s :
  routed t s -> is_live s = true -> fails_closed m ->
  (t = HookBbr -> (bbr s).1 = 0 -> disabled (bbr s).2) ->
  let r := hook_dispatch (ret 0) m (with_base (with_paced_handle m)) bbr s in
  r.1 = 0 -> disabled r.2.
Proof.
  intros [Hl Hr] Hv Hm Hb. cbn zeta. rewrite (hook_dispatch_linked t) by done.
  destruct t; [by apply Hm| |by apply Hb]. apply base_closed; [done|by apply paced_closed|done].
Qed.

Lemma code_closed (m : M F Z) s :
  ((m s).1 = 0 -> disabled (m s).2) -> (handled m s).1 = false -> disabled (handled m s).2.
Proof.
  intros Hm. unfold handled. rewrite bind_run. cbn [ret fst snd]. intros E. apply Hm. lia.
Qed.
Lemma int_of_closed (m : M F bool) s :
  ((m s).1 = false -> disabled (m s).2) -> (int_of m s).1 = 0 -> disabled (int_of m s).2.
Proof.
  intros Hm. unfold int_of. rewrite bind_run. cbn [ret fst snd]. intros E. apply Hm.
  by destruct (m s).1.
Qed.

Lemma own_closed m s :
  ((m s).1 = 0 -> disabled (m s).2) ->
  let r := (let! handled := m in when (negb (handled =? 0)) own_recovery ;; ret handled) s in
  r.1 = 0 -> disabled r.2.
Proof.
  intros Hm. cbn zeta. rewrite !bind_run. destruct (m s) as [rc s1]. cbn [ret fst snd] in *.
  intros ->. by apply Hm.
Qed.

Lemma loss_event_closed t n s :
  routed t s -> is_live s = true -> n <> 0 ->
  (run_event (EvLoss n) s).1 = 0 -> disabled (run_event (EvLoss n) s).2.
Proof.
  intros Hr Hv Hn. apply int_of_closed. unfold tcp_shift_lwip_cc_hook_loss. rewrite !bind_run.
  set (d := handled _ s). assert (Hd : d.1 = false -> disabled d.2).
  { apply code_closed, (dispatch_closed t); [done|done|by apply on_loss_closed|]. intros ->.
    apply bbr_closed; [apply Hr|done|intros s' Hv'; by apply own_closed, on_loss_closed|].
    intros Hf. apply own_closed, base_closed; [done|by apply paced_closed, on_loss_closed|done]. }
  clearbody d. destruct d as [ok s1]. cbn [fst snd ret] in *. intros ->. by apply Hd.
Qed.

Lemma timeout_event_closed t s :
  routed t s -> is_live s = true ->
  (run_event EvTimeout s).1 = 0 -> disabled (run_event EvTimeout s).2.
Proof.
  intros Hr Hv. apply int_of_closed. unfold tcp_shift_lwip_cc_hook_timeout.
  pose proof Hr as [Hl _]. rewrite bind_run, (hook_get_linked t s Hl). cbn [fst snd]. cbv beta iota.
  replace (is_null _) with false by (by destruct Hl as [_ ->]). rewrite !bind_run.
  set (d := handled _ s). assert (Hd : d.1 = false -> disabled d.2).
  { apply code_closed, (dispatch_closed t); [done|done|apply on_timeout_closed|]. intros ->.
    apply bbr_closed; [apply Hr|done|apply on_timeout_closed|].
    intros Hf. apply base_closed; [done|apply paced_closed, on_timeout_closed|done]. }
  clearbody d. destruct d as [ok s1]. cbn [fst snd ret] in *. intros ->. specialize (Hd eq_refl).
  cbn [andb orb when get_ad gets ret fst snd]. destruct (_ || _); [|done]. by apply (disabled_gauge s1).
Qed.

Lemma policy_event_closed t ev s :
  routed t s -> is_live s = true -> policy_call t ev = true ->
  (run_event ev s).1 = 0 -> disabled (run_event ev s).2.
Proof.
  intros Hr Hv Hp. pose proof (policy_callback_closed t ev Hp) as Hc.
  destruct ev; try done; cbn [policy_call policy_callback] in *.
  - apply int_of_closed, code_closed, (dispatch_closed t); [done|done|done|]. intros ->.
    apply bbr_closed; [apply Hr|done|done|]. intros Hf. apply base_closed; [done|by apply paced_closed|done].
  - apply (loss_event_closed t); [done|done|lia].
  - apply int_of_closed, code_closed, (dispatch_closed t); [done|done|done|]. by intros ->.
  - apply andb_true_iff in Hp as [Hn Hb]. cbn [run_event]. unfold tcp_shift_lwip_cc_hook_rack_retrans_loss.
    replace (_ =? 0) with false by lia.
    apply int_of_closed, code_closed, (dispatch_closed t); [done|done|done|]. by intros ->.
  - by apply (timeout_event_closed t).
Qed.

(** ** Afterwards *)

Lemma disabled_run t evs s :
  linked t s -> hook_ok (hook_of s) -> disabled s ->
  let s' := (run_events evs s).2 in linked t s' /\ disabled s'.
Proof.
  revert s. induction evs as [|ev evs IH]; intros s Hl Hok Hd; [done|]. cbn zeta.
  rewrite run_events_cons. destruct (event_flow_moves t ev s Hl Hok) as [Hm Hl' _].
  apply IH; [done|apply Hm|]. destruct (lwip_event ev) eqn:El.
  - destruct ev; try done. destruct Hd. by split.
  - apply (disabled_gauge s); [|done]. by apply (native_event t).
Qed.


End FailClosed.

(** Paced CUBIC on a control block whose MSS lwIP has left at 0. *)
Definition example_no_mss : flow ticks :=
  (run_event (EvLwip (example_pcb <| pb_mss := 0 |> <| pb_cwnd := 4000 |>)) example_cubic).2.
Definition example_after : list hook_event :=
  [EvSegmentTx 1 5000 1000; EvAckBegin; EvAck 1000; EvSegmentAcked 1 1000; EvTimeout].

