(* ===== verification/AdapterRegistry.v ===== *)
(** * The pacing registry

    A paced flow's identity is its registry slot and the slot's generation;
    the scheduler holds identities, never pointers. Registering finds a free
    slot or grows the registry, once; releasing clears the slot that still
    names the flow. [registry_ok] ties the slots to the adapters of the
    process. *)

From Stdlib Require Import ZArith Lia Bool List.
From stdpp Require Import base tactics numbers list gmap.
From S2P Require Import Prelude StateMonad CC Observation Rack Prr.
From S2P Require Import AdapterData AdapterDelivery AdapterPacing AdapterRecovery AdapterRate.
From S2P Require Import AdapterPolicy Adapter Selector BbrInternal AdapterHooks AdapterFrame.
From S2P Require Import AdapterEvents.
Local Open Scope Z_scope.

(** ** Calls that leave the registry and the links alone *)

Section Registration.
Context {W : Type} `{!AdapterOS W} `{!LwipParams}.
Local Abbreviation F := (flow W).
Implicit Types (s : F).

Definition reg s :=
  (gl_pacing (fw_gl s), fw_self s,
   (ad_pacing_flow_id (fw_ad s), ad_pacing_generation (fw_ad s), ad_pcb (fw_ad s), ad_heap_owned (fw_ad s)),
   fw_ptr s, pb_ext_cc (fw_pcb s)).

Lemma reg_identity {A} (m : M F A) : frames identity m -> frames reg m.
Proof.
  apply (frames_through identity
    (fun '(g, self, a, pp, ext) =>
       (gl_pacing g, self, (ad_pacing_flow_id a, ad_pacing_generation a, ad_pcb a, ad_heap_owned a), pp, ext))).
  done.
Qed.
Lemma reg_core {A} (m : M F A) : frames core m -> frames reg m.
Proof. intros Hm. by apply reg_identity, identity_of_core. Qed.
Lemma reg_upd_ad f :
  (forall a, ad_pacing_flow_id (f a) = ad_pacing_flow_id a /\ ad_pacing_generation (f a) = ad_pacing_generation a /\
             ad_pcb (f a) = ad_pcb a /\ ad_heap_owned (f a) = ad_heap_owned a) ->
  frames reg (upd_ad (W := W) f).
Proof. intros Hf s. unfold reg. cbn. by destruct (Hf (fw_ad s)) as (-> & -> & -> & ->). Qed.
Lemma reg_upd_pcb f : (forall p, pb_ext_cc (f p) = pb_ext_cc p) -> frames reg (upd_pcb (W := W) f).
Proof. intros Hf s. unfold reg. cbn. by rewrite Hf. Qed.
Lemma reg_upd_gl f : (forall g, gl_pacing (f g) = gl_pacing g) -> frames reg (upd_gl (W := W) f).
Proof. intros Hf s. unfold reg. cbn. by rewrite Hf. Qed.

Hint Extern 5 (frames reg _) => (apply reg_core; solve [auto with frames nocore]) : frames.
Hint Extern 4 (frames reg (upd_ad _)) => (apply reg_upd_ad; intros; repeat case_match; done) : frames.
Hint Extern 4 (frames reg (upd_pcb _)) => (apply reg_upd_pcb; intros; repeat case_match; done) : frames.
Hint Extern 4 (frames reg (upd_gl _)) => (apply reg_upd_gl; intros; repeat case_match; done) : frames.

Definition same_reg s s' : Prop := reg s' = reg s.
#[local] Instance same_reg_preorder : PreOrder same_reg.
Proof. split; [by intros s|]. intros s1 s2 s3 H1 H2. unfold same_reg in *. congruence. Qed.

Lemma same_reg_respects : respects (W := W) same_reg.
Proof.
  split.
  - intros s s' E. exact (f_equal (fun '(g, self, a, pp, pcb) =>
      (gl_pacing g, self, (ad_pacing_flow_id a, ad_pacing_generation a, ad_pcb a, ad_heap_owned a), pp,
       pb_ext_cc pcb.1)) E).
  - intros m Hm. unfold with_paced_handle. steps_walk; first [exact Hm | by intros s].
  - intros s f Hf. unfold same_reg, reg. cbn. by rewrite Hf.
  - done.
  - intros q b. apply reg_identity, identity_of_ledger, ledger_build_sample.
  - intros l b. apply reg_identity, identity_of_ledger, ledger_build_sample.
Qed.

Lemma reg_event ev : frames reg (run_event (W := W) ev).
Proof.
  intros s. change (same_reg s (run_event ev s).2). destruct (ledger_event ev) eqn:El.
  - assert (Honce : forall m s', frames ledger_core m -> once m s s' -> same_reg s s').
    { intros m s' Hm [->| ->]; [done|]. by apply reg_identity, identity_of_ledger. }
    destruct ev; try done.
    + eapply Honce, tx_event_once. apply ledger_segment_tx.
    + eapply Honce, acked_event_once. apply ledger_segment_acked.
  - apply (event_steps same_reg same_reg_respects); [by intros s' f|done].
Qed.
Lemma reg_events evs : frames reg (run_events (W := W) evs).
Proof. induction evs as [|ev evs IH]; cbn [run_events]; frames_walk. apply reg_event. Qed.

(** The installation of a controller. *)
Lemma core_controller_init ops n t i : frames core (controller_init (W := W) ops n t i).
Proof.
  intros s. unfold controller_init, tcp_shift_cc_init. destruct (_ || _); [done|].
  destruct (ops_init (cc_vtable ops)) as [f|] eqn:Ef; [|done].
  pose proof (quiet_init _ (cc_vtable_quiet ops) f Ef s t i (mk_policy 0 0 0)) as Hq.
  destruct (f s t i (mk_policy 0 0 0)) as [[rc s'] p]. by destruct (negb (rc =? 0)).
Qed.
Hint Resolve core_controller_init : frames.
Lemma reg_controller_init ops t i : frames reg (adapter_controller_init (W := W) ops t i).
Proof. unfold adapter_controller_init. frames_walk. Qed.
Hint Resolve reg_controller_init : frames.
Lemma reg_publish_initial inner t p :
  frames reg (tcp_shift_cc_selector_publish_initial_pacing (W := W) inner t p).
Proof. unfold tcp_shift_cc_selector_publish_initial_pacing. frames_walk. Qed.
Lemma reg_attach : frames reg (tcp_shift_cc_selector_attach_transport_pacing (W := W)).
Proof. unfold tcp_shift_cc_selector_attach_transport_pacing. frames_walk. Qed.
Hint Resolve reg_publish_initial reg_attach : frames.
Lemma reg_reinit ops : frames reg (tcp_shift_cc_selector_reinit (W := W) ops).
Proof. unfold tcp_shift_cc_selector_reinit, reinit_reno, reinit_other. frames_walk. Qed.
Lemma reg_apply_bbr seed : frames reg (tcp_shift_lwip_cc_apply_internal_bbr (W := W) seed).
Proof.
  unfold tcp_shift_lwip_cc_apply_internal_bbr, expand_sndbuf, install_bbr, discard_binding. frames_walk.
Qed.

End Registration.

(** ** The registry and the adapters' identities *)

(** An adapter's flow id (0 when unregistered) and generation. *)
Definition flow_identity (a : tcp_shift_lwip_cc_adapter) : Z * Z :=
  (ad_pacing_flow_id a, ad_pacing_generation a).

Definition occupied (e : tcp_shift_pacing_registry_entry) : bool := negb (is_null (pe_adapter e)).
Definition occupancy (entries : list tcp_shift_pacing_registry_entry) : Z :=
  Z.of_nat (length (List.filter occupied entries)).

(** [ids]: the identities of the process's adapters, by address. *)
Record registry_ok (p : tcp_shift_pacing_service) (ids : gmap Z (Z * Z)) : Prop := mk_registry_ok {
  ok_named : forall i e ap, pv_entries p !! i = Some e -> pe_adapter e = Some ap ->
    ids !! ap = Some (Z.of_nat i + 1, pe_generation e);
  ok_slotted : forall ap id gen, ids !! ap = Some (id, gen) -> id <> 0 ->
    exists i, id = Z.of_nat i + 1 /\ pv_entries p !! i = Some (mk_registry_entry (Some ap) gen);
  ok_count : pv_active p = occupancy (pv_entries p);
  ok_capacity : registry_capacity p <= SIZE_MAX / REGISTRY_ENTRY_SIZE;
  ok_generations : Forall (fun e => in_u32 (pe_generation e)) (pv_entries p)
}.

Lemma free_entry_some entries i :
  free_entry entries = Some i -> exists e, entries !! i = Some e /\ pe_adapter e = NULL.
Proof.
  revert i. induction entries as [|e entries IH]; intros i; cbn [free_entry]; [done|].
  destruct (pe_adapter e) as [ap|] eqn:Ea; cbn [is_null].
  - intros Hi. apply fmap_Some in Hi as (j & Hj & ->). by apply IH.
  - intros [= <-]. by exists e.
Qed.
Lemma free_entry_grown entries n : (0 < n)%nat -> free_entry (entries ++ replicate n zero_entry) <> None.
Proof.
  intros Hn. induction entries as [|e entries IH]; cbn [app free_entry].
  - by destruct n; [lia|].
  - destruct (is_null _); [done|]. by destruct (free_entry (entries ++ _)).
Qed.

Lemma occupancy_app l l' : occupancy (l ++ l') = occupancy l + occupancy l'.
Proof. unfold occupancy. rewrite List.filter_app, length_app. lia. Qed.
Lemma occupancy_bound l : 0 <= occupancy l <= Z.of_nat (length l).
Proof. unfold occupancy. pose proof (List.filter_length_le occupied l). lia. Qed.
Lemma occupancy_zeros n : occupancy (replicate n zero_entry) = 0.
Proof. by induction n. Qed.
Lemma occupancy_alter f i l e :
  l !! i = Some e -> occupancy (alter f i l) = occupancy l - Z.b2z (occupied e) + Z.b2z (occupied (f e)).
Proof.
  revert i. induction l as [|x l IH]; intros i Hi; [done|]. unfold occupancy in *.
  destruct i as [|i]; cbn in Hi.
  - injection Hi as ->. cbn. by destruct (occupied e), (occupied (f e)); cbn; lia.
  - specialize (IH i Hi). cbn. destruct (occupied x); cbn; lia.
Qed.

Section Pure.
Implicit Types (p : tcp_shift_pacing_service) (ids : gmap Z (Z * Z)).

(** The lookup of a release finds exactly the adapter with that identity. *)
Lemma lookup_index p ids ap id gen :
  registry_ok p ids -> ids !! ap = Some (id, gen) -> id <> 0 ->
  0 < id <= registry_capacity p /\
  pv_entries p !! Z.to_nat (id - 1) = Some (mk_registry_entry (Some ap) gen).
Proof.
  intros Hok Hid Hn. destruct (ok_slotted _ _ Hok _ _ _ Hid Hn) as (i & -> & Hi).
  pose proof (lookup_lt_Some _ _ _ Hi). unfold registry_capacity. split; [lia|].
  by replace (Z.to_nat (Z.of_nat i + 1 - 1)) with i by lia.
Qed.

(** A larger registry. *)
Lemma registry_ok_grow p ids n :
  registry_ok p ids -> Z.of_nat (length (pv_entries p) + n) <= SIZE_MAX / REGISTRY_ENTRY_SIZE ->
  registry_ok (p <| pv_entries := pv_entries p ++ replicate n zero_entry |>) ids.
Proof.
  intros [H1 H2 H3 H4 H5] Hn. split; cbn.
  - intros i e ap Hi Ha. apply lookup_app_Some in Hi as [Hi|[_ Hi]]; [by eapply H1|].
    apply lookup_replicate in Hi as [-> _]. done.
  - intros ap id gen Hid Hn0. destruct (H2 ap id gen Hid Hn0) as (i & -> & Hi).
    exists i. split; [done|]. by apply lookup_app_l_Some.
  - by rewrite occupancy_app, occupancy_zeros, Z.add_0_r.
  - unfold registry_capacity. cbn. rewrite length_app, length_replicate. lia.
  - apply Forall_app. split; [done|]. apply Forall_replicate. cbn. lia.
Qed.

Lemma next_generation_range g : in_u32 (next_generation g) /\ next_generation g <> 0.
Proof. unfold next_generation. pose proof (u32_range (g + 1)). destruct (_ =? 0) eqn:E; lia. Qed.
Lemma next_generation_fresh g : in_u32 g -> next_generation g <> g.
Proof.
  intros Hg. unfold next_generation, u32. destruct (_ =? 0) eqn:E.
  - intros <-. by vm_compute in E.
  - intros Hx. rewrite Z.mod_eq in Hx by done.
    assert ((g + 1) / 2 ^ 32 = 0 \/ (g + 1) / 2 ^ 32 = 1) by (destruct (Z.eq_dec g 4294967295); [right; subst; done|left; apply Z.div_small; lia]).
    lia.
Qed.

(** A slot taken for an unregistered adapter. *)
Lemma registry_ok_take p ids ap i e gen :
  registry_ok p ids -> (forall id g, ids !! ap = Some (id, g) -> id = 0) ->
  pv_entries p !! i = Some e -> pe_adapter e = NULL -> in_u32 gen ->
  registry_ok
    (p <| pv_entries := alter (fun _ => mk_registry_entry (Some ap) gen) i (pv_entries p) |>
       <| pv_active := pv_active p +w64 1 |>)
    (<[ap := (Z.of_nat i + 1, gen)]> ids).
Proof.
  intros [H1 H2 H3 H4 H5] Hun Hi He Hg. pose proof (lookup_lt_Some _ _ _ Hi) as Hlt.
  assert (Hsz : SIZE_MAX / REGISTRY_ENTRY_SIZE = 1152921504606846975) by (vm_compute; reflexivity).
  assert (Hne : forall j e' ap', pv_entries p !! j = Some e' -> pe_adapter e' = Some ap' -> ap' <> ap).
  { intros j e' ap' Hj Ha ->. pose proof (Hun _ _ (H1 j e' ap Hj Ha)). lia. }
  split; cbn.
  - intros j e' ap' Hj Ha. destruct (decide (i = j)) as [<-|Hij].
    + rewrite list_lookup_alter_eq, Hi in Hj. injection Hj as <-. injection Ha as <-.
      by rewrite lookup_insert_eq.
    + rewrite list_lookup_alter_ne in Hj by done. rewrite lookup_insert_ne; [by eapply H1|].
      intros ->. by eapply Hne.
  - intros ap' id g Hid Hn. destruct (decide (ap = ap')) as [<-|Hap].
    + rewrite lookup_insert_eq in Hid. injection Hid as <- <-. exists i. split; [done|].
      by rewrite list_lookup_alter_eq, Hi.
    + rewrite lookup_insert_ne in Hid by done. destruct (H2 ap' id g Hid Hn) as (j & -> & Hj).
      exists j. split; [done|]. rewrite list_lookup_alter_ne; [done|]. intros <-. by rewrite Hi in Hj; simplify_eq.
  - rewrite (occupancy_alter _ i _ e) by done. unfold occupied at 1 2. rewrite He. cbn.
    pose proof (occupancy_bound (pv_entries p)). unfold registry_capacity in H4.
    rewrite H3, u64_small by lia. lia.
  - unfold registry_capacity in *. cbn. by rewrite length_alter.
  - apply Forall_alter; [done|]. by intros.
Qed.

(** A slot released by the adapter it names. *)
Lemma registry_ok_release p ids ap a :
  registry_ok p ids -> ids !! ap = Some (flow_identity a) -> ad_pacing_flow_id a <> 0 ->
  registry_ok (registry_release ap a p) (<[ap := (0, 0)]> ids).
Proof.
  intros Hok Hid Hn. destruct (lookup_index p ids ap _ _ Hok Hid Hn) as [Hr Hi].
  unfold registry_release. destruct Hok as [H1 H2 H3 H4 H5].
  assert (Hsz : SIZE_MAX / REGISTRY_ENTRY_SIZE = 1152921504606846975) by (vm_compute; reflexivity).
  rewrite u64_small by lia. set (i := Z.to_nat (ad_pacing_flow_id a - 1)) in *. rewrite Hi. cbn.
  rewrite bool_decide_true, Z.eqb_refl by done. cbn [andb]. split; cbn.
  - intros j e' ap' Hj Ha. destruct (decide (i = j)) as [<-|Hij].
    + rewrite list_lookup_alter_eq, Hi in Hj. by injection Hj as <-.
    + rewrite list_lookup_alter_ne in Hj by done. rewrite lookup_insert_ne; [by eapply H1|].
      intros <-. pose proof (H1 j e' ap Hj Ha) as E. rewrite Hid in E. unfold flow_identity in E.
      injection E as E _. unfold i in Hij. lia.
  - intros ap' id g Hid' Hn'. destruct (decide (ap = ap')) as [<-|Hap].
    + rewrite lookup_insert_eq in Hid'. by injection Hid' as <- <-.
    + rewrite lookup_insert_ne in Hid' by done. destruct (H2 ap' id g Hid' Hn') as (j & -> & Hj).
      exists j. split; [done|]. rewrite list_lookup_alter_ne; [done|]. intros <-. rewrite Hi in Hj. by injection Hj.
  - rewrite (occupancy_alter _ i _ _ Hi), H3. cbn.
    pose proof (occupancy_alter (fun _ => zero_entry) i _ _ Hi) as Ho. cbn in Ho.
    pose proof (occupancy_bound (alter (fun _ => zero_entry) i (pv_entries p))).
    pose proof (occupancy_bound (pv_entries p)). unfold registry_capacity in H4.
    replace (negb (_ =? 0)) with true by lia. rewrite u64_small by lia. lia.
  - unfold registry_capacity in *. cbn. by rewrite length_alter.
  - apply Forall_alter; [done|]. by intros.
Qed.

End Pure.

(** ** Registering and releasing a flow *)

Section Flow.
Context {W : Type} `{!AdapterOS W} `{!LwipParams}.
Local Abbreviation F := (flow W).
Implicit Types (s : F).

Definition pacing_of s : tcp_shift_pacing_service := gl_pacing (fw_gl s).
Definition links s := (fw_self s, ad_pcb (fw_ad s), ad_heap_owned (fw_ad s), fw_ptr s, pb_ext_cc (fw_pcb s)).

Lemma links_reg {A} (m : M F A) : frames reg m -> frames links m.
Proof.
  apply (frames_through reg (fun '(_, self, (_, _, pcb, heap), pp, ext) => (self, pcb, heap, pp, ext))). done.
Qed.

(** What a growth does: a failure changes nothing, a success adds slots. *)
Lemma grow_spec s ids :
  registry_ok (pacing_of s) ids ->
  let r := tcp_shift_pacing_registry_grow s in
  links r.2 = links s /\ flow_identity (fw_ad r.2) = flow_identity (fw_ad s) /\
  (r.1 < 0 -> pacing_of r.2 = pacing_of s) /\
  (0 <= r.1 -> registry_ok (pacing_of r.2) ids /\ free_entry (pv_entries (pacing_of r.2)) <> None /\
               pv_ops (pacing_of r.2) = pv_ops (pacing_of s)).
Proof.
  intros Hok. cbn zeta. unfold tcp_shift_pacing_registry_grow. rewrite bind_run. cbn [get_gl gets fst snd].
  fold (pacing_of s). set (cap := registry_capacity (pacing_of s)).
  pose proof (ok_capacity _ _ Hok) as Hcap. fold cap in Hcap.
  assert (Hc0 : 0 <= cap) by (unfold cap, registry_capacity; lia).
  destruct (negb (cap =? 0) && _); [by cbn|].
  set (next := if cap =? 0 then _ else _).
  assert (Hnext : cap < next).
  { unfold next. destruct (cap =? 0) eqn:E; [lia|].
    assert (SIZE_MAX / REGISTRY_ENTRY_SIZE = 1152921504606846975) by (vm_compute; reflexivity).
    rewrite u64_small by lia. lia. }
  destruct (next >? _) eqn:Egt; [by cbn|]. rewrite bind_run. unfold call_os.
  destruct (heap_alloc _ _) as [ok w]. cbn [fst snd]. destruct ok; cbn [negb]; [|by cbn].
  rewrite bind_run. cbn [ret fst snd upd_pacing upd_gl modify]. split; [done|]. split; [done|].
  split; [lia|]. intros _. unfold pacing_of. cbn. fold (pacing_of s).
  assert (Hlen : cap = Z.of_nat (length (pv_entries (pacing_of s)))) by done.
  split; [|split; [|done]].
  - apply registry_ok_grow; [done|]. lia.
  - apply free_entry_grown. lia.
Qed.

Lemma take_spec s ids i :
  registry_ok (pacing_of s) ids -> (forall id g, ids !! fw_self s = Some (id, g) -> id = 0) ->
  free_entry (pv_entries (pacing_of s)) = Some i ->
  let s' := (registry_take i s).2 in
  links s' = links s /\ ad_pacing_flow_id (fw_ad s') <> 0 /\
  registry_ok (pacing_of s') (<[fw_self s := flow_identity (fw_ad s')]> ids).
Proof.
  intros Hok Hun Hf. destruct (free_entry_some _ _ Hf) as (e & Hi & He). cbn zeta.
  pose proof (lookup_lt_Some _ _ _ Hi) as Hlt. pose proof (ok_capacity _ _ Hok) as Hcap.
  unfold registry_capacity in Hcap.
  assert (SIZE_MAX / REGISTRY_ENTRY_SIZE = 1152921504606846975) by (vm_compute; reflexivity).
  unfold registry_take. rewrite bind_run. cbn. unfold flow_identity, pacing_of. cbn. fold (pacing_of s).
  rewrite u64_small by lia. split; [done|]. split; [lia|].
  apply (registry_ok_take _ _ _ _ e); try done. apply next_generation_range.
Qed.

(** Two rounds are enough, and the flow gets the slot that was found. *)
Lemma register_loop_total s ids :
  registry_ok (pacing_of s) ids -> (forall id g, ids !! fw_self s = Some (id, g) -> id = 0) ->
  let r := register_loop 2 s in
  links r.2 = links s /\
  ((r.1 = Some (-1) /\ pacing_of r.2 = pacing_of s /\ flow_identity (fw_ad r.2) = flow_identity (fw_ad s)) \/
   (r.1 = Some 0 /\ ad_pacing_flow_id (fw_ad r.2) <> 0 /\
    registry_ok (pacing_of r.2) (<[fw_self s := flow_identity (fw_ad r.2)]> ids))).
Proof.
  intros Hok Hun. cbn zeta. cbn [register_loop]. rewrite bind_run. cbn [get_gl gets fst snd]. fold (pacing_of s).
  destruct (free_entry (pv_entries (pacing_of s))) as [i|] eqn:Ef.
  { rewrite bind_run. cbn [ret fst snd]. destruct (take_spec s ids i Hok Hun Ef) as (H1 & H2 & H3). auto. }
  rewrite bind_run. destruct (grow_spec s ids Hok) as (Hl & Hi & Hfail & Hgrow).
  destruct (tcp_shift_pacing_registry_grow s) as [rc s1]. cbn [fst snd] in *.
  destruct (rc <? 0) eqn:Erc.
  { cbn [ret fst snd]. split; [done|]. left. split; [done|]. split; [apply Hfail; lia|done]. }
  destruct (Hgrow ltac:(lia)) as (Hok1 & Hf1 & _). rewrite bind_run. cbn [get_gl gets fst snd].
  fold (pacing_of s1). destruct (free_entry (pv_entries (pacing_of s1))) as [i|] eqn:Ef1; [|done].
  assert (Hself : fw_self s1 = fw_self s) by (by injection Hl).
  rewrite bind_run. cbn [ret fst snd].
  destruct (take_spec s1 ids i Hok1 ltac:(by rewrite Hself) Ef1) as (H1 & H2 & H3).
  rewrite Hself in H3. split; [congruence|]. auto.
Qed.

Lemma registry_ok_unregistered p ids ap g :
  registry_ok p ids -> (forall id g, ids !! ap = Some (id, g) -> id = 0) ->
  registry_ok p (<[ap := (0, g)]> ids).
Proof.
  intros [H1 H2 H3 H4 H5] Hun. split; try done.
  - intros i e ap' Hi Ha. destruct (decide (ap = ap')) as [<-|Hap].
    + pose proof (Hun _ _ (H1 i e ap Hi Ha)). lia.
    + rewrite lookup_insert_ne by done. by eapply H1.
  - intros ap' id g' Hid Hn. destruct (decide (ap = ap')) as [<-|Hap].
    + rewrite lookup_insert_eq in Hid. by injection Hid as <- <-.
    + rewrite lookup_insert_ne in Hid by done. by eapply H2.
Qed.

Lemma register_spec s ids :
  registry_ok (pacing_of s) ids -> (forall id g, ids !! fw_self s = Some (id, g) -> id = 0) ->
  ad_pacing_flow_id (fw_ad s) = 0 ->
  let r := tcp_shift_pacing_register s in
  links r.2 = links s /\ registry_ok (pacing_of r.2) (<[fw_self s := flow_identity (fw_ad r.2)]> ids) /\
  (r.1 < 0 -> ad_pacing_flow_id (fw_ad r.2) = 0).
Proof.
  intros Hok Hun H0. cbn zeta. unfold tcp_shift_pacing_register. rewrite bind_run. cbn [get_gl gets fst snd].
  assert (Hkeep : registry_ok (pacing_of s) (<[fw_self s := flow_identity (fw_ad s)]> ids)).
  { unfold flow_identity. rewrite H0. by apply registry_ok_unregistered. }
  destruct (is_null _); [done|]. rewrite bind_run. cbn [ret fst snd].
  destruct (register_loop_total s ids Hok Hun) as [Hl [(E & Hp & Hi)|(E & Hn & Hr)]].
  - rewrite E. cbn [default]. split; [done|]. rewrite Hp, Hi. split; [done|]. intros _.
    rewrite <- H0. exact (f_equal fst Hi).
  - rewrite E. cbn [default]. split; [done|]. split; [done|]. cbn; lia.
Qed.

(** Releasing a flow frees its slot and unlinks its block. *)
Lemma release_flow_spec s ids :
  registry_ok (pacing_of s) ids -> ids !! fw_self s = Some (flow_identity (fw_ad s)) ->
  let s' := (release_flow s).2 in
  registry_ok (pacing_of s') (<[fw_self s := flow_identity (fw_ad s')]> ids) /\
  ad_pacing_flow_id (fw_ad s') = 0 /\
  links s' = (fw_self s, NULL, ad_heap_owned (fw_ad s), fw_ptr s, pb_ext_cc (fw_pcb s)).
Proof.
  intros Hok Hid. cbn zeta. unfold release_flow. rewrite !bind_run.
  set (s1 := (tcp_shift_pacing_unregister s).2).
  cut (registry_ok (pacing_of s1) (<[fw_self s := flow_identity (fw_ad s1)]> ids) /\
       ad_pacing_flow_id (fw_ad s1) = 0 /\ links s1 = links s).
  { intros (H1 & H2 & H3).
    assert (E : reg (tcp_shift_delivery_release_all s1).2 = reg s1)
      by apply reg_identity, identity_of_ledger, ledger_release_all.
    set (s2 := (tcp_shift_delivery_release_all s1).2) in *. clearbody s2. injection E as E1 E2 E3 E4 E5 E6 E7 E8.
    injection H3 as L1 L2 L3 L4 L5. unfold pacing_of, flow_identity, links in *. cbn.
    rewrite E1, E2, E3, E4, E6, E7, E8, L1, L3, L4, L5. done. }
  unfold s1, tcp_shift_pacing_unregister. rewrite bind_run. cbn [get_ad gets fst snd].
  destruct (ad_pacing_flow_id (fw_ad s) =? 0) eqn:E0; cbn [ret snd].
  { split; [by rewrite insert_id|]. split; [lia|done]. }
  rewrite !bind_run.
  assert (E : reg (tcp_shift_recovery_timer_cancel (tcp_shift_pacing_cancel s).2).2 = reg s).
  { etransitivity; [apply reg_core, core_timer_cancel|apply reg_core, core_pacing_cancel]. }
  set (s2 := (tcp_shift_recovery_timer_cancel _).2) in *. clearbody s2.
  injection E as E1 E2 E3 E4 E5 E6 E7 E8.
  unfold pacing_of, links in *. cbn. rewrite E1, E2, E5, E6, E7, E8. split; [|done].
  apply registry_ok_release; [done| |lia]. unfold flow_identity in *. by rewrite Hid, E3, E4.
Qed.

(** ** Binding *)

Lemma reg_apply_policy p : frames reg (tcp_shift_lwip_cc_apply_policy (W := W) p).
Proof. apply reg_core, core_apply_policy. Qed.

Lemma bind_controller_spec s ids :
  registry_ok (pacing_of s) ids -> (forall id g, ids !! fw_self s = Some (id, g) -> id = 0) ->
  ad_pacing_flow_id (fw_ad s) = 0 ->
  let r := bind_controller s in
  links r.2 = links s /\ registry_ok (pacing_of r.2) (<[fw_self s := flow_identity (fw_ad r.2)]> ids) /\
  (r.1 < 0 -> ad_pacing_flow_id (fw_ad r.2) = 0).
Proof.
  intros Hok Hun H0.
  assert (Hreg : forall s', reg s' = reg s ->
    links s' = links s /\ registry_ok (pacing_of s') (<[fw_self s := flow_identity (fw_ad s')]> ids) /\
    (-1 < 0 -> ad_pacing_flow_id (fw_ad s') = 0)).
  { intros s' E. injection E as E1 E2 E3 E4 E5 E6 E7 E8. unfold links, pacing_of, flow_identity.
    rewrite E1, E2, E3, E4, E5, E6, E7, E8, H0. split; [done|]. split; [|done]. by apply registry_ok_unregistered. }
  cbn zeta. unfold bind_controller. rewrite !bind_run. cbn [get_pcb gets fst snd].
  set (s0 := (flow_transport s).2). set (t := (flow_transport s).1).
  pose proof (reg_controller_init OpsReno t (mk_init (bind_initial_cwnd (fw_pcb s)) (pb_ssthresh (fw_pcb s)) (pb_mss (fw_pcb s))) s0) as Hi.
  destruct (adapter_controller_init _ _ _ s0) as [[rc policy] s1]. cbn [fst snd] in *.
  change (reg s0) with (reg s) in Hi. destruct (negb (rc =? 0)); [by apply Hreg|]. rewrite bind_run.
  pose proof (reg_apply_policy policy s1) as Hp.
  destruct (tcp_shift_lwip_cc_apply_policy policy s1) as [rc2 s2]. cbn [fst snd] in *. rewrite Hi in Hp.
  destruct (rc2 <? 0); [by apply Hreg|].
  injection Hp as E1 E2 E3 E4 E5 E6 E7 E8. 
  edestruct (register_spec s2 ids) as (R1 & R2 & R3).
  { unfold pacing_of. by rewrite E1. }
  { by rewrite E2. }
  { congruence. }
  rewrite E2 in R2. split; [|done]. rewrite R1. unfold links. by rewrite E2, E5, E6, E7, E8.
Qed.

(** A binding either links the adapter and the block to each other, or leaves
    the block and the registry alone and the adapter unregistered. *)
Lemma bind_spec stats s ids :
  registry_ok (pacing_of s) ids -> (forall id g, ids !! fw_self s = Some (id, g) -> id = 0) ->
  ad_pcb (fw_ad s) = NULL -> ad_pacing_flow_id (fw_ad s) = 0 ->
  let r := tcp_shift_lwip_cc_adapter_bind stats s in
  registry_ok (pacing_of r.2) (<[fw_self s := flow_identity (fw_ad r.2)]> ids) /\
  fw_self r.2 = fw_self s /\ fw_ptr r.2 = fw_ptr s /\
  ((r.1 < 0 /\ ad_pacing_flow_id (fw_ad r.2) = 0 /\ ad_pcb (fw_ad r.2) = NULL /\
    pb_ext_cc (fw_pcb r.2) = pb_ext_cc (fw_pcb s)) \/
   (r.1 = 0 /\ pb_ext_cc (fw_pcb s) = NULL /\ ad_pcb (fw_ad r.2) = Some (fw_ptr s) /\
    pb_ext_cc (fw_pcb r.2) = Some (ExtHook (fw_self s)) /\ ad_bound (fw_ad r.2) = true)).
Proof.
  intros Hok Hun Hpcb H0. cbn zeta. unfold tcp_shift_lwip_cc_adapter_bind. rewrite !bind_run.
  cbn [get_ad get_pcb gets fst snd]. rewrite Hpcb. cbn [is_null negb].
  destruct (_ || _) eqn:Eg; cbn [ret fst snd].
  { unfold flow_identity. rewrite H0. split; [by apply registry_ok_unregistered|].
    split; [done|]. split; [done|]. left. done. }
  assert (Hext : pb_ext_cc (fw_pcb s) = NULL).
  { apply orb_false_iff in Eg as [_ Eg]. by destruct (pb_ext_cc (fw_pcb s)). }
  rewrite !bind_run. cbn [upd_ad modify fst snd].
  set (s0 := set_ad _ s). set (s1 := (note_delivery _ _).2).
  assert (E : reg s1 = reg s0).
  { unfold s1. etransitivity; [apply reg_core, core_note|]. 
    change (reg (tcp_shift_delivery_now_ns s0).2 = reg s0). apply reg_core, core_now. }
  clearbody s1. injection E as E1 E2 E3 E4 E5 E6 E7 E8. cbn in E3, E4, E5, E6.
  edestruct (bind_controller_spec s1 ids) as (R1 & R2 & R3).
  { unfold pacing_of. by rewrite E1. }
  { by rewrite E2. }
  { done. }
  destruct (bind_controller s1) as [rc s2]. cbn [fst snd] in *.
  injection R1 as L1 L2 L3 L4 L5. rewrite E2 in L1, R2. change (fw_self s0) with (fw_self s) in *.
  destruct (rc <? 0) eqn:Erc.
  - rewrite bind_run. cbn [ret fst snd]. cbn. unfold pacing_of, flow_identity in *. cbn.
    split; [done|]. split; [done|]. split; [congruence|]. left. split; [done|].
    split; [apply R3; lia|]. split; [done|]. congruence.
  - rewrite !bind_run. cbn [ret fst snd upd_pcb upd_ad modify]. 
    set (s3 := set_ad _ _). set (s4 := (note_policy _ s3).2).
    assert (E' : reg s4 = reg s3 /\ ad_bound (fw_ad s4) = true).
    { split; [apply reg_core, core_note|]. unfold s4, note_policy, note. rewrite bind_run. cbn.
      by destruct (ad_stats _). }
    clearbody s4. destruct E' as [E' Hb]. injection E' as F1 F2 F3 F4 F5 F6 F7 F8.
    unfold pacing_of, flow_identity in *. cbn in *. rewrite F1, F2, F3, F4, F5, F7, F8, Hb.
    split; [done|]. split; [done|]. split; [congruence|]. right.
    split; [done|]. split; [done|]. split; [by rewrite L2, E5|]. done.
Qed.

End Flow.
