(* ===== verification/AdapterLife.v ===== *)
(** * The life of the adapters

    Adapters, control blocks and registry slots point to each other. In every
    world the process can reach those pointers agree, so that no entry point
    follows a pointer to an object that is gone: not the hook calls, not the
    end of a connection, not a timer that fires after its flow has ended. *)

From Stdlib Require Import ZArith Lia Bool List String.
From stdpp Require Import base tactics numbers list gmap relations.
From S2P Require Import Prelude StateMonad CC Observation Rack Prr.
From S2P Require Import AdapterData AdapterDelivery AdapterPacing AdapterRecovery AdapterRate.
From S2P Require Import AdapterPolicy Adapter Selector BbrInternal AdapterHooks AdapterFrame.
From S2P Require Import AdapterEvents AdapterWorld AdapterRegistry.
Local Open Scope Z_scope.

(** ** The pointers *)

(** An adapter's identity and block; a block's extension argument. *)
Definition adapter_links (a : tcp_shift_lwip_cc_adapter) : (Z * Z) * option Z := (flow_identity a, ad_pcb a).

Record links_ok (p : tcp_shift_pacing_service) (ads : gmap Z ((Z * Z) * option Z))
    (exts : gmap Z (option cc_ext)) (next : Z) : Prop := mk_links_ok {
  lok_registry : registry_ok p (fst <$> ads);
  lok_next : forall ap x, ads !! ap = Some x -> ap < next;
  lok_pcb : forall ap id pp, ads !! ap = Some (id, Some pp) -> exts !! pp = Some (Some (ExtHook ap));
  lok_hook : forall pp ap, exts !! pp = Some (Some (ExtHook ap)) -> exists id, ads !! ap = Some (id, Some pp);
  lok_idle : forall ap id, ads !! ap = Some (id, None) -> id.1 = 0
}.

(** A release's lookup finds exactly the adapter with that identity. *)
Lemma registry_lookup_spec p ids id gen ap :
  registry_ok p ids -> 0 <= id ->
  (registry_lookup p id gen = Some ap <-> ids !! ap = Some (id, gen) /\ id <> 0).
Proof.
  intros Hok Hpos. unfold registry_lookup. split.
  - destruct ((id =? 0) || _) eqn:Eg; [done|]. apply orb_false_iff in Eg as [E0 Ec].
    rewrite nth_lookup. destruct (pv_entries p !! Z.to_nat (id - 1)) as [e|] eqn:Ei; [|by cbn]. cbn [from_option Datatypes.id].
    destruct (pe_adapter e) as [ap'|] eqn:Ea; cbn; [|done].
    destruct (pe_generation e =? gen) eqn:Egen; cbn; [|done]. intros [= ->].
    pose proof (ok_named _ _ Hok _ _ _ Ei Ea) as Hid. split; [|lia].
    rewrite Hid. repeat f_equal; lia.
  - intros [Hid Hn]. destruct (lookup_index p ids ap id gen Hok Hid Hn) as [Hr Hi].
    replace ((id =? 0) || (id >? registry_capacity p)) with false by lia.
    rewrite (nth_lookup_Some _ _ _ _ Hi). cbn. by rewrite Z.eqb_refl.
Qed.

Section Pure.
Context (p : tcp_shift_pacing_service) (ads : gmap Z ((Z * Z) * option Z)) (exts : gmap Z (option cc_ext)) (next : Z).
Context (Hok : links_ok p ads exts next).

(** A new block, and one whose extension argument is not an adapter's. *)
Lemma links_ok_block pp e :
  (forall ap, e <> Some (ExtHook ap)) ->
  (forall ap, exts !! pp <> Some (Some (ExtHook ap))) ->
  links_ok p ads (<[pp := e]> exts) next.
Proof.
  intros He Hpp. destruct Hok as [H1 H2 H3 H4 H5]. split; try done.
  - intros ap id pp' Ha. pose proof (H3 ap id pp' Ha) as Hx. rewrite lookup_insert_ne; [done|].
    intros <-. by apply (Hpp ap).
  - intros pp' ap Hx. destruct (decide (pp = pp')) as [<-|Hn].
    + rewrite lookup_insert_eq in Hx. injection Hx as Hx. by apply He in Hx.
    + rewrite lookup_insert_ne in Hx by done. by apply H4.
Qed.

Lemma links_ok_drop pp :
  (forall ap, exts !! pp <> Some (Some (ExtHook ap))) -> links_ok p ads (delete pp exts) next.
Proof.
  intros Hpp. destruct Hok as [H1 H2 H3 H4 H5]. split; try done.
  - intros ap id pp' Ha. pose proof (H3 ap id pp' Ha) as Hx. rewrite lookup_delete_ne; [done|].
    intros <-. by apply (Hpp ap).
  - intros pp' ap Hx. destruct (decide (pp = pp')) as [<-|Hn].
    + by rewrite lookup_delete_eq in Hx.
    + rewrite lookup_delete_ne in Hx by done. by apply H4.
Qed.

(** The end of a hooked block: its adapter is released, and stays or goes. *)
Lemma links_ok_release p' pp ap g :
  exts !! pp = Some (Some (ExtHook ap)) ->
  registry_ok p' (<[ap := (0, g)]> (fst <$> ads)) ->
  links_ok p' (<[ap := ((0, g), None)]> ads) (delete pp exts) next.
Proof.
  intros Hpp Hr. destruct Hok as [H1 H2 H3 H4 H5]. destruct (H4 pp ap Hpp) as [id0 Hap]. split.
  - by rewrite fmap_insert.
  - intros ap' x Hx. destruct (decide (ap = ap')) as [<-|Hn]; [by eapply H2|].
    rewrite lookup_insert_ne in Hx by done. by eapply H2.
  - intros ap' id pp' Hx. destruct (decide (ap = ap')) as [<-|Hn].
    + by rewrite lookup_insert_eq in Hx.
    + rewrite lookup_insert_ne in Hx by done. pose proof (H3 _ _ _ Hx) as Hy.
      rewrite lookup_delete_ne; [done|]. intros <-. rewrite Hpp in Hy. by simplify_eq.
  - intros pp' ap' Hx. destruct (decide (pp = pp')) as [<-|Hn]; [by rewrite lookup_delete_eq in Hx|].
    rewrite lookup_delete_ne in Hx by done. destruct (H4 _ _ Hx) as [id Hid].
    destruct (decide (ap = ap')) as [<-|Hna].
    + rewrite Hap in Hid. by simplify_eq.
    + exists id. by rewrite lookup_insert_ne.
  - intros ap' id Hx. destruct (decide (ap = ap')) as [<-|Hn].
    + rewrite lookup_insert_eq in Hx. by injection Hx as <-.
    + rewrite lookup_insert_ne in Hx by done. by eapply H5.
Qed.

(** An unlinked adapter is freed. *)
Lemma links_ok_free ap id : ads !! ap = Some (id, None) -> links_ok p (delete ap ads) exts next.
Proof.
  intros Hap. destruct Hok as [H1 H2 H3 H4 H5]. pose proof (H5 _ _ Hap) as H0. split.
  - rewrite fmap_delete. destruct H1 as [R1 R2 R3 R4 R5]. split; try done.
    + intros i e ap' Hi Ha. pose proof (R1 i e ap' Hi Ha) as Hx. rewrite lookup_delete_ne; [done|].
      intros <-. rewrite lookup_fmap, Hap in Hx. cbn in Hx. injection Hx as ->. cbn in H0. lia.
    + intros ap' i g Hx Hn. apply lookup_delete_Some in Hx as [_ Hx]. by eapply R2.
  - intros ap' x Hx. apply lookup_delete_Some in Hx as [_ Hx]. by eapply H2.
  - intros ap' i pp Hx. apply lookup_delete_Some in Hx as [_ Hx]. by eapply H3.
  - intros pp ap' Hx. destruct (H4 _ _ Hx) as [i Hi]. exists i. rewrite lookup_delete_ne; [done|].
    intros <-. rewrite Hap in Hi. by simplify_eq.
  - intros ap' i Hx. apply lookup_delete_Some in Hx as [_ Hx]. by eapply H5.
Qed.

(** An unlinked adapter stays so. *)
Lemma links_ok_unlinked p' ap id g :
  ads !! ap = Some (id, None) -> registry_ok p' (<[ap := (0, g)]> (fst <$> ads)) ->
  links_ok p' (<[ap := ((0, g), None)]> ads) exts next.
Proof.
  intros Hap Hr. destruct Hok as [H1 H2 H3 H4 H5]. split; [by rewrite fmap_insert|..].
  - intros ap' x. destruct (decide (ap = ap')) as [<-|Hn]; [intros _; by eapply H2|].
    rewrite lookup_insert_ne by done. apply H2.
  - intros ap' i pp. destruct (decide (ap = ap')) as [<-|Hn]; [by rewrite lookup_insert_eq|].
    rewrite lookup_insert_ne by done. apply H3.
  - intros pp ap' Hx. destruct (H4 _ _ Hx) as [i Hi]. exists i. rewrite lookup_insert_ne; [done|].
    intros <-. rewrite Hap in Hi. by simplify_eq.
  - intros ap' i. destruct (decide (ap = ap')) as [<-|Hn].
    + rewrite lookup_insert_eq. by intros [= <-].
    + rewrite lookup_insert_ne by done. apply H5.
Qed.

(** A new adapter, at an address above all others. *)
Lemma links_ok_alloc g : links_ok p (<[next := ((0, g), None)]> ads) exts (next + 1).
Proof.
  destruct Hok as [H1 H2 H3 H4 H5]. assert (Hn : ads !! next = None).
  { destruct (ads !! next) as [x|] eqn:E; [|done]. apply H2 in E. lia. }
  split.
  - rewrite fmap_insert. apply registry_ok_unregistered; [done|]. intros id g'.
    rewrite lookup_fmap, Hn. done.
  - intros ap x. destruct (decide (next = ap)) as [<-|Ha]; [intros _; lia|].
    rewrite lookup_insert_ne by done. intros Hx. apply H2 in Hx. lia.
  - intros ap id pp. destruct (decide (next = ap)) as [<-|Ha]; [by rewrite lookup_insert_eq|].
    rewrite lookup_insert_ne by done. apply H3.
  - intros pp ap Hx. destruct (H4 _ _ Hx) as [id Hi]. exists id. rewrite lookup_insert_ne; [done|].
    intros <-. by rewrite Hn in Hi.
  - intros ap id. destruct (decide (next = ap)) as [<-|Ha].
    + rewrite lookup_insert_eq. by intros [= <-].
    + rewrite lookup_insert_ne by done. apply H5.
Qed.

(** An unlinked adapter takes a block without a hook. *)
Lemma links_ok_bind p' ap id id' pp :
  ads !! ap = Some (id, None) -> exts !! pp = Some None ->
  registry_ok p' (<[ap := id']> (fst <$> ads)) ->
  links_ok p' (<[ap := (id', Some pp)]> ads) (<[pp := Some (ExtHook ap)]> exts) next.
Proof.
  intros Hap Hpp Hr. destruct Hok as [H1 H2 H3 H4 H5]. split.
  - by rewrite fmap_insert.
  - intros ap' x. destruct (decide (ap = ap')) as [<-|Hn]; [intros _; by eapply H2|].
    rewrite lookup_insert_ne by done. apply H2.
  - intros ap' i pp'. destruct (decide (ap = ap')) as [<-|Hn].
    + rewrite lookup_insert_eq. intros [= <- <-]. by rewrite lookup_insert_eq.
    + rewrite lookup_insert_ne by done. intros Hx. pose proof (H3 _ _ _ Hx) as Hy.
      rewrite lookup_insert_ne; [done|]. intros <-. by rewrite Hpp in Hy.
  - intros pp' ap'. destruct (decide (pp = pp')) as [<-|Hn].
    + rewrite lookup_insert_eq. intros [= <-]. exists id'. by rewrite lookup_insert_eq.
    + rewrite lookup_insert_ne by done. intros Hx. destruct (H4 _ _ Hx) as [i Hi]. exists i.
      rewrite lookup_insert_ne; [done|]. intros <-. rewrite Hap in Hi. by simplify_eq.
  - intros ap' i. destruct (decide (ap = ap')) as [<-|Hn]; [by rewrite lookup_insert_eq|].
    rewrite lookup_insert_ne by done. apply H5.
Qed.

End Pure.

(** ** The world *)

(** lwIP's output functions touch a flow only by hook calls and by their own
    changes to its block. *)
Class LwipTcpLaws (W : Type) `{!AdapterOS W} `{!LwipParams} `{!LwipTcp W} := {
  output_events : forall s : flow W, exists evs, (tcp_output s).2 = (run_events evs s).2;
  rexmit_events : forall s : flow W, exists evs, (tcp_shift_tcp_rack_rexmit_due s).2 = (run_events evs s).2;
  probe_events : forall s : flow W, exists evs, (tcp_shift_tcp_tlp_probe s).2 = (run_events evs s).2
}.

Section World.
Context {W : Type} `{!AdapterOS W} `{!LwipParams} `{!LwipTcp W} `{!LwipApi W}.
Local Abbreviation F := (flow W).
Local Abbreviation world := (cc_world W).
Implicit Types (w : world).

Definition ads w : gmap Z ((Z * Z) * option Z) := adapter_links <$> wd_adapters w.
Definition exts w : gmap Z (option cc_ext) := pb_ext_cc <$> wd_pcbs w.
Definition world_ok w : Prop := links_ok (gl_pacing (wd_gl w)) (ads w) (exts w) (wd_next w).

(** What [world_ok] reads. *)
Definition wview w := (gl_pacing (wd_gl w), ads w, exts w, wd_next w).
Lemma world_ok_view w w' : wview w' = wview w -> world_ok w -> world_ok w'.
Proof. intros E. injection E as E1 E2 E3 E4. unfold world_ok. by rewrite E1, E2, E3, E4. Qed.

(** lwIP and the application, between the calls of the process. *)
Inductive api_step w : world -> Prop :=
  | api_hook pp ev r w' : hook_call w pp 0 (run_event ev) = Some (r, w') -> api_step w w'
  | api_destroy pp w' : pcb_destroy w pp = Some w' -> api_step w w'
  | api_new pp pcb : wd_pcbs w !! pp = None -> pb_ext_cc pcb = NULL ->
      api_step w (mk_cc_world (wd_world w) (wd_gl w) (wd_adapters w) (<[pp := pcb]> (wd_pcbs w)) (wd_next w))
  | api_block pp f : (forall pcb, pb_ext_cc (f pcb) = pb_ext_cc pcb) -> api_step w (set_pcb_at pp f w).

(** ** Running a flow *)

Lemma run_flow_some {A} w ap pp a pcb (m : M F A) :
  wd_adapters w !! ap = Some a -> wd_pcbs w !! pp = Some pcb ->
  let r := m (mk_cc_flow (wd_world w) (wd_gl w) ap a pp pcb) in
  run_flow w ap pp m =
    Some (r.1, mk_cc_world (fw_world r.2) (fw_gl r.2) (<[ap := fw_ad r.2]> (wd_adapters w))
                 (<[pp := fw_pcb r.2]> (wd_pcbs w)) (wd_next w)).
Proof. intros Ha Hp. unfold run_flow. rewrite Ha, Hp. by destruct (m _). Qed.

Lemma run_flow_reg {A} w ap pp (m : M F A) :
  is_Some (wd_adapters w !! ap) -> is_Some (wd_pcbs w !! pp) -> frames reg m ->
  exists x w', run_flow w ap pp m = Some (x, w') /\ wview w' = wview w /\
    (forall ap', ap' <> ap -> wd_adapters w' !! ap' = wd_adapters w !! ap') /\
    (forall pp', pp' <> pp -> wd_pcbs w' !! pp' = wd_pcbs w !! pp').
Proof.
  intros [a Ha] [pcb Hp] Hm. rewrite (run_flow_some w ap pp a pcb m Ha Hp).
  set (s := mk_cc_flow _ _ _ _ _ _). specialize (Hm s).
  destruct (m s) as [x s']. cbn [fst snd] in *. eexists x, _. split; [done|].
  injection Hm as E1 E2 E3 E4 E5 E6 E7 E8. unfold wview, ads, exts. cbn [wd_gl wd_adapters wd_pcbs wd_next].
  rewrite !fmap_insert, E1, E8. cbn. split; [|split; intros; by apply lookup_insert_ne].
  rewrite !insert_id; [done|by rewrite lookup_fmap, Hp|].
  rewrite lookup_fmap, Ha. unfold adapter_links, flow_identity. cbn. by rewrite E3, E4, E5.
Qed.

Context (w : world) (Hok : world_ok w).

(** The pointers of a good world. *)
Lemma hook_exists pp pcb ap :
  wd_pcbs w !! pp = Some pcb -> pb_ext_cc pcb = Some (ExtHook ap) ->
  exists a, wd_adapters w !! ap = Some a /\ ad_pcb a = Some pp.
Proof.
  intros Hp He. destruct (lok_hook _ _ _ _ Hok pp ap) as [id Hid].
  { unfold exts. by rewrite lookup_fmap, Hp, <- He. }
  unfold ads in Hid. rewrite lookup_fmap in Hid. destruct (wd_adapters w !! ap) as [a|]; [|done].
  exists a. cbn in Hid. injection Hid as _ Hid. done.
Qed.
Lemma block_exists ap a pp :
  wd_adapters w !! ap = Some a -> ad_pcb a = Some pp ->
  exists pcb, wd_pcbs w !! pp = Some pcb /\ pb_ext_cc pcb = Some (ExtHook ap).
Proof.
  intros Ha Hp. pose proof (lok_pcb _ _ _ _ Hok ap (flow_identity a) pp) as Hx.
  unfold ads, exts in Hx. rewrite !lookup_fmap, Ha in Hx. unfold adapter_links in Hx. cbn in Hx.
  rewrite Hp in Hx. specialize (Hx eq_refl). destruct (wd_pcbs w !! pp) as [pcb|]; [|done].
  exists pcb. split; [done|]. by injection Hx.
Qed.
Lemma registered_block ap a :
  wd_adapters w !! ap = Some a -> ad_pacing_flow_id a <> 0 -> exists pp, ad_pcb a = Some pp.
Proof.
  intros Ha Hn. destruct (ad_pcb a) as [pp|] eqn:Ep; [by exists pp|].
  pose proof (lok_idle _ _ _ _ Hok ap (flow_identity a)) as Hx. unfold ads in Hx.
  rewrite lookup_fmap, Ha in Hx. unfold adapter_links in Hx. cbn in Hx. rewrite Ep in Hx. by specialize (Hx eq_refl).
Qed.

(** ** The entry points *)

Lemma hook_call_ok pp ev :
  is_Some (wd_pcbs w !! pp) ->
  exists r w', hook_call w pp 0 (run_event ev) = Some (r, w') /\ world_ok w'.
Proof.
  intros [pcb Hp]. unfold hook_call. rewrite Hp.
  destruct (pb_ext_cc pcb) as [[ap|i]|] eqn:Ee; [|by exists 0, w..].
  destruct (hook_exists pp pcb ap Hp Ee) as (a & Ha & _).
  destruct (run_flow_reg w ap pp (run_event ev)) as (x & w' & E & Hv & _); [by eexists|by eexists|apply reg_event|].
  exists x, w'. split; [done|]. by apply (world_ok_view w).
Qed.

Lemma destroy_ok pp :
  is_Some (wd_pcbs w !! pp) -> exists w', pcb_destroy w pp = Some w' /\ world_ok w' /\ wd_pcbs w' !! pp = None.
Proof.
  intros [pcb Hp]. unfold pcb_destroy. rewrite Hp.
  assert (Hx : exts w !! pp = Some (pb_ext_cc pcb : option cc_ext)) by (unfold exts; by rewrite lookup_fmap, Hp).
  destruct (pb_ext_cc pcb) as [[ap|i]|] eqn:Ee.
  2,3: eexists; split; [done|]; split; [|cbn; by apply lookup_delete_eq];
    unfold world_ok, exts, ads; cbn; rewrite fmap_delete; 
    exact (links_ok_drop _ _ _ _ Hok pp ltac:(intros ?; by rewrite Hx)).
  destruct (hook_exists pp pcb ap Hp Ee) as (a & Ha & Hap).
  rewrite (run_flow_some w ap pp a pcb _ Ha Hp). set (s := mk_cc_flow _ _ _ _ _ _).
  assert (Hid : (fst <$> ads w) !! ap = Some (flow_identity a)).
  { unfold ads. by rewrite !lookup_fmap, Ha. }
  destruct (release_flow_spec s (fst <$> ads w) (lok_registry _ _ _ _ Hok) Hid) as (R1 & R2 & R3).
  unfold tcp_shift_lwip_cc_pcb_destroyed. rewrite !bind_run. cbn [get_ad gets ret fst snd fw_ad s].
  set (s' := (release_flow s).2) in *. clearbody s'. injection R3 as L1 L2 L3 L4 L5.
  unfold flow_identity in R1. rewrite R2 in R1. cbn in L5.
  pose proof (links_ok_release _ _ _ _ Hok _ pp ap _ ltac:(by rewrite Hx, <- Ee) R1) as Hl.
  assert (Hads : forall x, ads (mk_cc_world (fw_world s') (fw_gl s') (<[ap := fw_ad s']> (wd_adapters w)) x (wd_next w))
    = <[ap := ((0, ad_pacing_generation (fw_ad s')), None)]> (ads w)).
  { intros x. unfold ads. cbn. rewrite fmap_insert. unfold adapter_links, flow_identity. by rewrite R2, L2. }
  assert (Hexts : forall x y z t, exts (mk_cc_world x y z (delete pp (<[pp := fw_pcb s']> (wd_pcbs w))) t)
    = delete pp (exts w)).
  { intros. unfold exts. cbn. by rewrite delete_insert_eq, fmap_delete. }
  destruct (ad_heap_owned a); eexists; (split; [done|]); (split; [|cbn; by apply lookup_delete_eq]);
    unfold world_ok; cbn [free_adapter wd_world wd_gl wd_adapters wd_pcbs wd_next]; rewrite Hexts.
  - replace (ads _) with (delete ap (<[ap := ((0, ad_pacing_generation (fw_ad s')), None)]> (ads w))).
    + exact (links_ok_free _ _ _ _ Hl ap (0, ad_pacing_generation (fw_ad s')) ltac:(by rewrite lookup_insert_eq)).
    + rewrite <- (Hads ∅). unfold ads. cbn. by rewrite fmap_delete.
  - by rewrite Hads.
Qed.

(** A block that no adapter is linked to may appear and change. *)
Lemma new_block_ok pp pcb :
  wd_pcbs w !! pp = None -> pb_ext_cc pcb = NULL ->
  world_ok (mk_cc_world (wd_world w) (wd_gl w) (wd_adapters w) (<[pp := pcb]> (wd_pcbs w)) (wd_next w)).
Proof.
  intros Hp He. unfold world_ok, exts. cbn. rewrite fmap_insert, He.
  apply (links_ok_block _ _ _ _ Hok); [done|]. intros ap. unfold exts. by rewrite lookup_fmap, Hp.
Qed.
Lemma set_block_view pp f :
  (forall pcb, pb_ext_cc (f pcb) = pb_ext_cc pcb) -> wview (set_pcb_at pp f w) = wview w.
Proof.
  intros Hf. assert (E : exts (set_pcb_at pp f w) = exts w); [|unfold wview; by rewrite E].
  unfold exts. cbn. apply map_eq. intros i. rewrite !lookup_fmap. destruct (decide (pp = i)) as [<-|Hn].
  - rewrite lookup_alter_eq. destruct (wd_pcbs w !! pp); cbn; [by rewrite Hf|done].
  - by rewrite lookup_alter_ne.
Qed.

End World.

Section Process.
Context {W : Type} `{!AdapterOS W} `{!LwipParams} `{!LwipTcp W} `{!LwipApi W} `{!LwipTcpLaws W}.
Local Abbreviation F := (flow W).
Local Abbreviation world := (cc_world W).
Implicit Types (w : world).

Lemma api_step_ok w w' : world_ok w -> api_step w w' -> world_ok w'.
Proof.
  intros Hok. destruct 1 as [pp ev r w' E|pp w' E|pp pcb Hn He|pp f Hf].
  - assert (Hp : is_Some (wd_pcbs w !! pp)).
    { unfold hook_call in E. by destruct (wd_pcbs w !! pp). }
    destruct (hook_call_ok w Hok pp ev Hp) as (r' & w'' & E' & Hok'). by simplify_eq.
  - assert (Hp : is_Some (wd_pcbs w !! pp)).
    { unfold pcb_destroy in E. by destruct (wd_pcbs w !! pp). }
    destruct (destroy_ok w Hok pp Hp) as (w'' & E' & Hok' & _). by simplify_eq.
  - by apply new_block_ok.
  - apply (world_ok_view w); [|done]. by apply set_block_view.
Qed.
Lemma api_steps_ok w w' : world_ok w -> rtc api_step w w' -> world_ok w'.
Proof. intros Hok Hs. induction Hs as [|w1 w2 w3 H1 _ IH]; [done|]. apply IH. by eapply api_step_ok. Qed.

(** ** Releases *)

Hint Extern 5 (frames reg _) => (apply reg_core; solve [auto with frames nocore]) : frames.
Hint Extern 4 (frames reg (upd_ad _)) => (apply reg_upd_ad; intros; repeat case_match; done) : frames.
Hint Extern 4 (frames reg (upd_pcb _)) => (apply reg_upd_pcb; intros; repeat case_match; done) : frames.

Lemma reg_of_events {A} (m : M F A) :
  (forall s, exists evs, (m s).2 = (run_events evs s).2) -> frames reg m.
Proof. intros Hm s. destruct (Hm s) as [evs ->]. apply reg_events. Qed.
Lemma reg_output : frames reg (tcp_output (W := W)).
Proof. apply reg_of_events, output_events. Qed.
Lemma reg_rexmit : frames reg (tcp_shift_tcp_rack_rexmit_due (W := W)).
Proof. apply reg_of_events, rexmit_events. Qed.
Lemma reg_probe : frames reg (tcp_shift_tcp_tlp_probe (W := W)).
Proof. apply reg_of_events, probe_events. Qed.
Hint Resolve reg_output reg_rexmit reg_probe : frames.

Lemma reg_resume_paced t : frames reg (resume_paced_flow (W := W) t).
Proof. unfold resume_paced_flow. frames_walk. Qed.
Lemma reg_resume_recovery kind t : frames reg (resume_recovery_flow (W := W) kind t).
Proof. unfold resume_recovery_flow, resume_tlp, resume_rack, restart_rto. frames_walk. Qed.

(** A release may change the adapter with its identity and that adapter's
    block, nothing else. *)
Definition touches_only (id gen : Z) w w' : Prop :=
  (forall ap a, wd_adapters w !! ap = Some a -> flow_identity a <> (id, gen) ->
     wd_adapters w' !! ap = Some a) /\
  (forall pp pcb, wd_pcbs w !! pp = Some pcb ->
     (forall ap a, wd_adapters w !! ap = Some a -> flow_identity a = (id, gen) -> ad_pcb a <> Some pp) ->
     wd_pcbs w' !! pp = Some pcb).

Lemma release_target w id gen ap :
  world_ok w -> 0 <= id -> registry_lookup (gl_pacing (wd_gl w)) id gen = Some ap ->
  exists a pp, wd_adapters w !! ap = Some a /\ flow_identity a = (id, gen) /\ ad_pcb a = Some pp /\
    is_Some (wd_pcbs w !! pp).
Proof.
  intros Hok Hid E. apply (registry_lookup_spec _ _ _ _ _ (lok_registry _ _ _ _ Hok) Hid) in E as [E Hn].
  unfold ads in E. rewrite !lookup_fmap in E. destruct (wd_adapters w !! ap) as [a|] eqn:Ea; [|done].
  cbn in E. injection E as E1 E2.
  destruct (registered_block w Hok ap a Ea ltac:(congruence)) as [pp Hp].
  destruct (block_exists w Hok ap a pp Ea Hp) as (pcb & Hpcb & _).
  exists a, pp. split; [done|]. split; [by unfold flow_identity; rewrite E1, E2|]. split; [done|]. by eexists.
Qed.

Lemma release_run w id gen ap a pp (m : M F Z) :
  world_ok w -> wd_adapters w !! ap = Some a -> flow_identity a = (id, gen) -> ad_pcb a = Some pp ->
  is_Some (wd_pcbs w !! pp) -> frames reg m ->
  exists r w', run_flow w ap pp m = Some (r, w') /\ world_ok w' /\ touches_only id gen w w'.
Proof.
  intros Hok Ha Hid Hp Hpcb Hm.
  destruct (run_flow_reg w ap pp m) as (r & w' & E & Hv & Hads & Hpcbs); [by eexists|done|done|].
  exists r, w'. split; [done|]. split; [by apply (world_ok_view w)|]. split.
  - intros ap' a' Ha' Hid'. rewrite Hads; [done|]. intros ->. by simplify_eq.
  - intros pp' pcb Hp' Hfree. rewrite Hpcbs; [done|]. intros ->. by apply (Hfree ap a).
Qed.

Lemma resume_paced_ok w id gen t :
  world_ok w -> 0 <= id ->
  exists r w', tcp_shift_lwip_cc_resume_paced w id gen t = Some (r, w') /\ world_ok w' /\ touches_only id gen w w'.
Proof.
  intros Hok Hid. unfold tcp_shift_lwip_cc_resume_paced.
  destruct (registry_lookup _ id gen) as [ap|] eqn:El.
  - destruct (release_target w id gen ap Hok Hid El) as (a & pp & Ha & Hi & Hp & Hpcb). rewrite Ha, Hp.
    apply (release_run w id gen ap a pp); try done. apply reg_resume_paced.
  - eexists _, _. split; [done|]. split; [by apply (world_ok_view w)|]. by split.
Qed.
Lemma resume_recovery_ok w id gen kind t :
  world_ok w -> 0 <= id ->
  exists r w', tcp_shift_lwip_cc_resume_recovery_timer w id gen kind t = Some (r, w') /\ world_ok w' /\
    touches_only id gen w w'.
Proof.
  intros Hok Hid. unfold tcp_shift_lwip_cc_resume_recovery_timer.
  destruct (registry_lookup _ id gen) as [ap|] eqn:El.
  - destruct (release_target w id gen ap Hok Hid El) as (a & pp & Ha & Hi & Hp & Hpcb). rewrite Ha, Hp.
    apply (release_run w id gen ap a pp); try done. apply reg_resume_recovery.
  - eexists _, _. split; [done|]. split; [done|]. by split.
Qed.

End Process.

(** lwIP's abort ends the block; its accept setter leaves the extension
    arguments alone; the application's callback acts through the interface. *)
Class LwipApiLaws (W : Type) `{!AdapterOS W} `{!LwipParams} `{!LwipTcp W} `{!LwipApi W} := {
  abort_destroys : forall (w w' : cc_world W) pp, pcb_destroy w pp = Some w' -> tcp_abort w pp = w';
  accept_keeps : forall pcb fn, pb_ext_cc (tcp_accept (W := W) pcb fn) = pb_ext_cc pcb;
  app_steps : forall (w : cc_world W) id arg newpcb err, rtc api_step w (app_accept w id arg newpcb err).2
}.

Section Accept.
Context {W : Type} `{!AdapterOS W} `{!LwipParams} `{!LwipTcp W} `{!LwipApi W}.
Context `{!LwipTcpLaws W} `{!LwipApiLaws W}.
Local Abbreviation F := (flow W).
Local Abbreviation world := (cc_world W).
Implicit Types (w : world).

(** The result of an entry point: it returns, to a good world. *)
Definition returns_ok (o : option (Z * world)) : Prop := exists r w', o = Some (r, w') /\ world_ok w'.

Lemma abort_with_ok w pp : world_ok w -> is_Some (wd_pcbs w !! pp) -> returns_ok (abort_with w pp).
Proof.
  intros Hok Hp. destruct (destroy_ok w Hok pp Hp) as (w' & E & Hok' & _).
  eexists _, _. split; [done|]. by rewrite (abort_destroys w w' pp E).
Qed.
Lemma refuse_ok w newpcb :
  world_ok w -> (forall pp, newpcb = Some pp -> is_Some (wd_pcbs w !! pp)) -> returns_ok (refuse w newpcb).
Proof.
  intros Hok Hp. destruct newpcb as [pp|]; cbn; [by apply abort_with_ok, Hp|]. by eexists _, _.
Qed.
Lemma call_app_ok w fn arg newpcb err : world_ok w -> returns_ok (call_app w fn arg newpcb err).
Proof.
  intros Hok. destruct fn; cbn; try (by eexists _, _).
  destruct (app_accept w id arg newpcb err) as [r w'] eqn:E. eexists _, _. split; [done|].
  apply (api_steps_ok w); [done|]. change w' with (r, w').2. rewrite <- E. apply app_steps.
Qed.

Lemma view_block w w' pp : wview w' = wview w -> is_Some (wd_pcbs w !! pp) -> is_Some (wd_pcbs w' !! pp).
Proof.
  intros E [pcb Hp]. injection E as _ _ E _. unfold exts in E.
  assert (Hx : (pb_ext_cc <$> wd_pcbs w') !! pp = Some (pb_ext_cc pcb)) by (rewrite E, lookup_fmap, Hp; done).
  rewrite lookup_fmap in Hx. by destruct (wd_pcbs w' !! pp).
Qed.
Lemma count_error_view w ap : wview (count_controller_error w ap) = wview w.
Proof. unfold count_controller_error. by repeat case_match. Qed.


(** A dispatcher's installation of its controller. *)
Lemma install_ok w ap pp (m : M F Z) fn arg err :
  world_ok w -> hook_adapter w pp = Some ap -> frames reg m ->
  returns_ok (match run_flow w ap pp m with
              | None => None
              | Some (rc, w) => if rc <? 0 then abort_with (count_controller_error w ap) pp
                                else call_app w fn arg (Some pp) err
              end).
Proof.
  intros Hok Hh Hm. unfold hook_adapter in Hh. destruct (wd_pcbs w !! pp) as [pcb|] eqn:Hp; [|done].
  destruct (pb_ext_cc pcb) as [[ap'|]|] eqn:He; try done. injection Hh as ->.
  destruct (hook_exists w Hok pp pcb ap Hp He) as (a & Ha & _).
  destruct (run_flow_reg w ap pp m) as (rc & w' & -> & Hv & _); [by eexists|by eexists|done|].
  pose proof (world_ok_view w w' Hv Hok) as Hok'. destruct (rc <? 0); [|by apply call_app_ok].
  apply abort_with_ok; [by apply (world_ok_view w'); [apply count_error_view|]|].
  apply (view_block w); [by rewrite count_error_view|by eexists].
Qed.

Lemma selector_accept_ok w arg newpcb err :
  world_ok w -> (forall pp, newpcb = Some pp -> is_Some (wd_pcbs w !! pp)) ->
  returns_ok (tcp_shift_cc_selector_accept w arg newpcb err).
Proof.
  intros Hok Hp. unfold tcp_shift_cc_selector_accept.
  destruct arg; try (by apply refuse_ok). destruct (ln_accept _) as [fn|]; [|by apply refuse_ok].
  destruct (_ || _); [by apply refuse_ok|]. destruct newpcb as [pp|]; [|by apply call_app_ok].
  destruct (negb _); [by apply call_app_ok|].
  destruct (hook_adapter w pp) as [ap|] eqn:Eh; [|by apply abort_with_ok, Hp].
  apply install_ok; [done|done|apply reg_reinit].
Qed.
Lemma bbr_accept_ok w arg newpcb err :
  world_ok w -> (forall pp, newpcb = Some pp -> is_Some (wd_pcbs w !! pp)) ->
  returns_ok (tcp_shift_lwip_bbr_accept_dispatch w arg newpcb err).
Proof.
  intros Hok Hp. unfold tcp_shift_lwip_bbr_accept_dispatch.
  destruct arg; try (by apply refuse_ok). destruct (ln_accept _) as [fn|]; [|by apply refuse_ok].
  destruct (negb _); [by apply refuse_ok|]. destruct newpcb as [pp|]; [|by apply call_app_ok].
  destruct (negb _); [by apply call_app_ok|].
  destruct (hook_adapter w pp) as [ap|] eqn:Eh; [|by apply abort_with_ok, Hp].
  assert (Ha : is_Some (wd_adapters w !! ap)).
  { unfold hook_adapter in Eh. destruct (wd_pcbs w !! pp) as [pcb|] eqn:Epp; [|done].
    destruct (pb_ext_cc pcb) as [[ap'|]|] eqn:He; try done. injection Eh as ->.
    destruct (hook_exists w Hok pp pcb ap Epp He) as (a & -> & _). by eexists. }
  destruct Ha as [a ->]. destruct (_ =? 0).
  - apply abort_with_ok; [by apply (world_ok_view w); [apply count_error_view|]|].
    apply (view_block w); [by rewrite count_error_view|by apply Hp].
  - apply install_ok; [done|done|apply reg_apply_bbr].
Qed.
Lemma call_accept_ok w fn arg newpcb err :
  world_ok w -> (forall pp, newpcb = Some pp -> is_Some (wd_pcbs w !! pp)) ->
  returns_ok (call_accept w fn arg newpcb err).
Proof.
  intros Hok Hp. destruct fn; cbn [call_accept];
    [by apply call_app_ok|by apply call_app_ok|by apply selector_accept_ok|by apply bbr_accept_ok].
Qed.


Lemma bind_world_ok w ap pp stats a :
  world_ok w -> wd_adapters w !! ap = Some a -> ad_pcb a = NULL -> is_Some (wd_pcbs w !! pp) ->
  exists rc w', run_flow w ap pp (tcp_shift_lwip_cc_adapter_bind stats) = Some (rc, w') /\
    world_ok w' /\ is_Some (wd_pcbs w' !! pp) /\
    (rc < 0 -> exists id, ads w' !! ap = Some (id, None)).
Proof.
  intros Hok Ha Hap [pcb Hp]. rewrite (run_flow_some w ap pp a pcb _ Ha Hp).
  set (s := mk_cc_flow _ _ _ _ _ _).
  assert (Hads : ads w !! ap = Some (flow_identity a, None)).
  { unfold ads. rewrite lookup_fmap, Ha. unfold adapter_links. cbn. by rewrite Hap. }
  assert (H0 : ad_pacing_flow_id a = 0) by exact (lok_idle _ _ _ _ Hok _ _ Hads).
  destruct (bind_spec stats s (fst <$> ads w)) as (R1 & R2 & R3 & R4).
  { apply (lok_registry _ _ _ _ Hok). }
  { intros id g. cbn. rewrite lookup_fmap, Hads. cbn. intros [= <- _]. done. }
  { done. }
  { done. }
  destruct (tcp_shift_lwip_cc_adapter_bind stats s) as [rc s']. cbn [fst snd] in *. cbn in R1, R2, R3, R4.
  eexists rc, _. split; [done|]. unfold world_ok, ads, exts. cbn. rewrite !fmap_insert. fold (ads w).
  split; [|split; [by rewrite lookup_insert_eq|]].
  - destruct R4 as [(Hrc & H1 & H2 & H3)|(Hrc & H1 & H2 & H3 & _)]; unfold adapter_links.
    + rewrite H2, H3. unfold flow_identity in *. rewrite H1 in *. rewrite (insert_id (pb_ext_cc <$> wd_pcbs w)).
      * exact (links_ok_unlinked _ _ _ _ Hok _ _ _ _ Hads R1).
      * by rewrite lookup_fmap, Hp.
    + rewrite H2, H3. refine (links_ok_bind _ _ _ _ Hok _ _ _ _ _ Hads _ R1).
      unfold exts. rewrite lookup_fmap, Hp. cbn. by rewrite H1.
  - intros Hrc. destruct R4 as [(_ & H1 & H2 & H3)|(Hrc' & _)]; [|lia].
    rewrite lookup_insert_eq. unfold adapter_links. rewrite H2. by eexists.
Qed.

Lemma accept_dispatch_ok w arg newpcb err :
  world_ok w -> (forall pp, newpcb = Some pp -> is_Some (wd_pcbs w !! pp)) ->
  returns_ok (tcp_shift_lwip_cc_accept_dispatch w arg newpcb err).
Proof.
  intros Hok Hp. unfold tcp_shift_lwip_cc_accept_dispatch.
  destruct arg; try (by apply refuse_ok). destruct (ln_accept _) as [fn|]; [|by apply refuse_ok].
  destruct (negb _); [by apply refuse_ok|]. destruct newpcb as [pp|]; [|by apply call_accept_ok].
  destruct (negb _); [by apply call_accept_ok|]. specialize (Hp pp eq_refl).
  unfold alloc_adapter. destruct (heap_alloc _ _) as [ok os]. destruct ok.
  2: { apply abort_with_ok; [by apply (world_ok_view w)|done]. }
  set (w1 := mk_cc_world _ _ _ _ _).
  assert (Hok1 : world_ok w1).
  { unfold world_ok, ads. cbn. rewrite fmap_insert. apply (links_ok_alloc _ _ _ _ Hok). }
  destruct (bind_world_ok w1 (wd_next w) pp true zero_adapter Hok1) as (rc & w2 & -> & Hok2 & Hp2 & Hf);
    [by cbn; rewrite lookup_insert_eq|done|done|].
  destruct (rc <? 0) eqn:Erc.
  - destruct (Hf ltac:(lia)) as [id Hid]. apply abort_with_ok; [|done].
    unfold world_ok, ads. cbn. rewrite fmap_delete.
    exact (links_ok_free _ _ _ _ Hok2 _ _ Hid).
  - apply call_accept_ok; [|by intros pp' [= <-]]. apply (world_ok_view w2); [|done].
    assert (E : ads (set_adapter_at (wd_next w) (fun a => a <| ad_heap_owned := true |>) w2) = ads w2);
      [|unfold wview; by rewrite E].
    unfold ads. cbn. apply map_eq. intros i. rewrite !lookup_fmap. destruct (decide (wd_next w = i)) as [<-|Hn].
    + rewrite lookup_alter_eq. by destruct (wd_adapters w2 !! wd_next w).
    + by rewrite lookup_alter_ne.
Qed.


(** ** Listening *)

Definition unhooked w pp : Prop := forall ap, exts w !! pp <> Some (Some (ExtHook ap)).
Lemma unhooked_view w w' pp : wview w' = wview w -> unhooked w pp -> unhooked w' pp.
Proof. intros E. injection E as _ _ E _. unfold unhooked. by rewrite E. Qed.

Lemma accept_at_view w pp fn : wview (accept_at pp fn w) = wview w.
Proof. apply set_block_view. intros pcb. apply accept_keeps. Qed.

Lemma listen_ok w pp fn : world_ok w -> unhooked w pp -> world_ok (tcp_shift_lwip_cc_accept w pp fn).
Proof.
  intros Hok Hu. unfold tcp_shift_lwip_cc_accept.
  assert (Hat : forall w' f, world_ok w' -> world_ok (accept_at pp f w')).
  { intros w' f. apply world_ok_view, accept_at_view. }
  destruct (negb _); [by apply Hat|]. destruct (listener_index _ _) as [index|]; apply Hat; [|done].
  set (w1 := set_globals _ w). set (g := fun pcb : tcp_pcb => _).
  assert (E : exts (set_pcb_at pp g w1) = exts w \/
              exts (set_pcb_at pp g w1) = <[pp := Some (ExtListener index)]> (exts w)).
  { unfold exts. cbn. destruct (wd_pcbs w !! pp) as [pcb|] eqn:Ep.
    - right. apply map_eq. intros i. rewrite lookup_fmap. destruct (decide (pp = i)) as [<-|Hn].
      + by rewrite lookup_alter_eq, Ep, lookup_insert_eq.
      + by rewrite lookup_alter_ne, lookup_insert_ne, lookup_fmap.
    - left. apply map_eq. intros i. rewrite !lookup_fmap. destruct (decide (pp = i)) as [<-|Hn].
      + by rewrite lookup_alter_eq, Ep.
      + by rewrite lookup_alter_ne. }
  unfold world_ok. destruct E as [-> | ->]; [done|]. by apply (links_ok_block _ _ _ _ Hok).
Qed.

Lemma listen_bbr_ok w pp fn :
  world_ok w -> unhooked w pp -> world_ok (tcp_shift_lwip_cc_accept_internal_bbr w pp fn).
Proof.
  intros Hok Hu. unfold tcp_shift_lwip_cc_accept_internal_bbr.
  assert (Hl : forall w' f, wview w' = wview w -> world_ok (tcp_shift_lwip_cc_accept w' pp f)).
  { intros w' f E. apply listen_ok; [by apply (world_ok_view w)|by apply (unhooked_view w)]. }
  destruct (negb _); [by apply Hl|]. destruct fn; [|by apply Hl; case_match].
  destruct (or_alloc _ _); [|by apply Hl]. apply Hl.
  etransitivity; [by apply set_block_view|done].
Qed.
Lemma listen_selected_ok w pp fn :
  world_ok w -> unhooked w pp -> world_ok (tcp_shift_lwip_cc_accept_selected w pp fn).
Proof.
  intros Hok Hu. unfold tcp_shift_lwip_cc_accept_selected.
  assert (Hl : forall w' f, wview w' = wview w -> world_ok (tcp_shift_lwip_cc_accept w' pp f)).
  { intros w' f E. apply listen_ok; [by apply (world_ok_view w)|by apply (unhooked_view w)]. }
  destruct (gl_selector_internal_bbr _); [by apply listen_bbr_ok|].
  destruct (negb _); [by apply Hl|]. destruct fn.
  - destruct (or_alloc _ _); [|by apply Hl]. destruct (tcp_shift_cc_selector_current _); [|by apply Hl].
    apply Hl. etransitivity; [by apply set_block_view|done].
  - apply (world_ok_view w); [|done]. etransitivity; [apply accept_at_view|]. by case_match.
Qed.

(** ** The process *)

Inductive process_step w : world -> Prop :=
  | step_api w' : api_step w w' -> process_step w w'
  | step_listen pp fn : unhooked w pp -> process_step w (tcp_shift_lwip_cc_accept_selected w pp fn)
  | step_accept arg newpcb err r w' :
      (forall pp, newpcb = Some pp -> is_Some (wd_pcbs w !! pp)) ->
      tcp_shift_lwip_cc_accept_dispatch w arg newpcb err = Some (r, w') -> process_step w w'
  | step_release id gen t r w' : 0 <= id ->
      tcp_shift_lwip_cc_resume_paced w id gen t = Some (r, w') -> process_step w w'
  | step_recovery id gen kind t r w' : 0 <= id ->
      tcp_shift_lwip_cc_resume_recovery_timer w id gen kind t = Some (r, w') -> process_step w w'.

(** No connection yet, and an empty registry. *)
Definition boot w : Prop :=
  wd_adapters w = ∅ /\ wd_pcbs w = ∅ /\ pv_entries (gl_pacing (wd_gl w)) = [] /\
  pv_active (gl_pacing (wd_gl w)) = 0.

Lemma boot_ok w : boot w -> world_ok w.
Proof.
  intros (Ha & Hp & He & Hn). unfold world_ok, ads, exts. rewrite Ha, Hp, !fmap_empty.
  split; try done. split; rewrite ?fmap_empty, ?He, ?Hn; try done. unfold registry_capacity. rewrite He. done.
Qed.

Lemma process_step_ok w w' : world_ok w -> process_step w w' -> world_ok w'.
Proof.
  intros Hok. destruct 1 as [w' H1|pp fn Hu|arg newpcb err r w' Hp E|id gen t r w' Hi E|id gen kind t r w' Hi E].
  - by eapply api_step_ok.
  - by apply listen_selected_ok.
  - destruct (accept_dispatch_ok w arg newpcb err Hok Hp) as (r' & w'' & E' & Hok'). by simplify_eq.
  - destruct (resume_paced_ok w id gen t Hok Hi) as (r' & w'' & E' & Hok' & _). by simplify_eq.
  - destruct (resume_recovery_ok w id gen kind t Hok Hi) as (r' & w'' & E' & Hok' & _). by simplify_eq.
Qed.
Lemma process_ok w0 w : boot w0 -> rtc process_step w0 w -> world_ok w.
Proof.
  intros Hb Hs. apply boot_ok in Hb. induction Hs as [|w1 w2 w3 H1 _ IH]; [done|].
  apply IH. by eapply process_step_ok.
Qed.

(** Two registered adapters have different identities. *)
Lemma identities_unique w ap ap' a a' :
  world_ok w -> wd_adapters w !! ap = Some a -> wd_adapters w !! ap' = Some a' ->
  ad_pacing_flow_id a <> 0 -> ad_pacing_flow_id a = ad_pacing_flow_id a' -> ap = ap'.
Proof.
  intros Hok Ha Ha' Hn E. pose proof (lok_registry _ _ _ _ Hok) as Hr.
  destruct (ok_slotted _ _ Hr ap (ad_pacing_flow_id a) (ad_pacing_generation a)) as (i & Ei & Hi).
  { unfold ads. by rewrite !lookup_fmap, Ha. }
  { done. }
  destruct (ok_slotted _ _ Hr ap' (ad_pacing_flow_id a') (ad_pacing_generation a')) as (j & Ej & Hj).
  { unfold ads. by rewrite !lookup_fmap, Ha'. }
  { congruence. }
  replace j with i in Hj by lia. rewrite Hi in Hj. by injection Hj.
Qed.

(** C21. No entry point follows a dangling pointer, and no timer reaches the
    wrong flow. In every world the process can reach from its start (through
    hook calls, lwIP creating, changing and destroying blocks, listening,
    accepting with any of the controllers, pacing releases and recovery
    timers, with an application that acts through the same interface): every
    hook call on an existing block, every end of a block and every accept
    return; every pacing release and recovery timer returns for every flow id
    and generation, also of flows that ended long ago, and changes at most the
    adapter that has exactly this identity now, and that adapter's block; no
    two registered adapters share a flow id; and the registry's count is the
    number of its occupied slots. *)
Theorem adapter_life_safe w0 w :
  boot w0 -> rtc process_step w0 w ->
  (forall pp ev, is_Some (wd_pcbs w !! pp) -> is_Some (hook_call w pp 0 (run_event ev))) /\
  (forall pp, is_Some (wd_pcbs w !! pp) -> is_Some (pcb_destroy w pp)) /\
  (forall arg newpcb err, (forall pp, newpcb = Some pp -> is_Some (wd_pcbs w !! pp)) ->
     is_Some (tcp_shift_lwip_cc_accept_dispatch w arg newpcb err)) /\
  (forall id gen t, 0 <= id -> exists r w',
     tcp_shift_lwip_cc_resume_paced w id gen t = Some (r, w') /\ touches_only id gen w w') /\
  (forall id gen kind t, 0 <= id -> exists r w',
     tcp_shift_lwip_cc_resume_recovery_timer w id gen kind t = Some (r, w') /\ touches_only id gen w w') /\
  (forall ap ap' a a', wd_adapters w !! ap = Some a -> wd_adapters w !! ap' = Some a' ->
     ad_pacing_flow_id a <> 0 -> ad_pacing_flow_id a = ad_pacing_flow_id a' -> ap = ap') /\
  pv_active (gl_pacing (wd_gl w)) = occupancy (pv_entries (gl_pacing (wd_gl w))).
Proof.
  intros Hb Hs. pose proof (process_ok w0 w Hb Hs) as Hok. split_and!.
  - intros pp ev Hp. destruct (hook_call_ok w Hok pp ev Hp) as (r & w' & -> & _). by eexists.
  - intros pp Hp. destruct (destroy_ok w Hok pp Hp) as (w' & -> & _). by eexists.
  - intros arg newpcb err Hp. destruct (accept_dispatch_ok w arg newpcb err Hok Hp) as (r & w' & -> & _). by eexists.
  - intros id gen t Hi. destruct (resume_paced_ok w id gen t Hok Hi) as (r & w' & E & _ & Ht). eauto.
  - intros id gen kind t Hi. destruct (resume_recovery_ok w id gen kind t Hok Hi) as (r & w' & E & _ & Ht). eauto.
  - intros ap ap' a a'. by apply identities_unique.
  - apply (ok_count _ _ (lok_registry _ _ _ _ Hok)).
Qed.

End Accept.

(** ** An example *)

(** lwIP that resends by nothing but a hook call, and an application that
    accepts every connection. *)
#[export] Instance example_tcp : LwipTcp ticks := {|
  tcp_output := let! _ := run_events [EvEffectiveCwnd 0] in ret 0;
  tcp_shift_tcp_rack_rexmit_due := ret 0;
  tcp_shift_tcp_tlp_probe := ret (0, (0, 0, false))
|}.
#[export] Instance example_tcp_laws : LwipTcpLaws ticks.
Proof.
  split; intros s; [exists [EvEffectiveCwnd 0]|by exists []|by exists []].
  cbn [tcp_output example_tcp]. by rewrite bind_run.
Qed.
#[export] Instance example_api : LwipApi ticks := {|
  tcp_accept pcb fn := pcb <| pb_accept := fn |>;
  tcp_abort w pp := default w (pcb_destroy w pp);
  app_accept w id arg newpcb err := (0, w)
|}.
#[export] Instance example_api_laws : LwipApiLaws ticks.
Proof.
  split; [intros w w' pp E; cbn; by rewrite E|done|]. intros. reflexivity.
Qed.

Definition example_boot : cc_world ticks := mk_cc_world 0 example_globals ∅ ∅ 1000.
(** A listener at address 1, a connection at address 2, accepted with Reno. *)
Definition example_listening : cc_world ticks :=
  let w := mk_cc_world 0 example_globals ∅ {[1 := example_pcb <| pb_state := LISTEN |>]} 1000 in
  tcp_shift_lwip_cc_accept_selected w 1 (Some (AcceptApp 7)).
Definition example_connected : cc_world ticks :=
  mk_cc_world (wd_world example_listening) (wd_gl example_listening) (wd_adapters example_listening)
    (<[2 := example_pcb]> (wd_pcbs example_listening)) (wd_next example_listening).
Definition example_accepted : cc_world ticks :=
  (default (0, example_connected)
    (tcp_shift_lwip_cc_accept_dispatch example_connected (ArgAdapter 0) (Some 2) ERR_OK)).2.

Lemma example_reached : rtc process_step example_boot example_accepted.
Proof.
  eapply rtc_l; [apply step_api, (api_new example_boot 1 (example_pcb <| pb_state := LISTEN |>)); reflexivity|].
  eapply rtc_l.
  { apply (step_listen _ 1 (Some (AcceptApp 7))). intros ap E. vm_compute in E. discriminate. }
  fold example_listening.
  eapply rtc_l; [apply step_api, (api_new example_listening 2 example_pcb); vm_compute; reflexivity|].
  fold example_connected. apply rtc_once.
  destruct (tcp_shift_lwip_cc_accept_dispatch example_connected (ArgAdapter 0) (Some 2) ERR_OK)
    as [[r w]|] eqn:E; [|vm_compute in E; discriminate].
  apply (step_accept _ (ArgAdapter 0) (Some 2) ERR_OK r).
  - intros pp [= <-]. vm_compute. by eexists.
  - rewrite E. unfold example_accepted. by rewrite E.
Qed.

(** After that accept the flow's identity is (1, 1); a release that names
    another generation of its slot returns and leaves its adapter alone. *)
Lemma adapter_life_safe_witness :
  (flow_identity <$> wd_adapters example_accepted !! 1000) = Some (1, 1) /\
  is_Some (pcb_destroy example_accepted 2) /\
  exists r w', tcp_shift_lwip_cc_resume_paced example_accepted 1 2 5 = Some (r, w') /\
    wd_adapters w' !! 1000 = wd_adapters example_accepted !! 1000.
Proof.
  destruct (adapter_life_safe example_boot example_accepted
    ltac:(repeat split; reflexivity) example_reached) as (_ & H2 & _ & H4 & _).
  assert (Hid : (flow_identity <$> wd_adapters example_accepted !! 1000) = Some (1, 1))
    by (vm_compute; reflexivity).
  split; [exact Hid|]. split; [apply H2; vm_compute; by eexists|].
  destruct (H4 1 2 5 ltac:(lia)) as (r & w' & E & Ht & _). exists r, w'. split; [exact E|].
  destruct (wd_adapters example_accepted !! 1000) as [a|] eqn:Ea; [|discriminate Hid].
  apply (Ht 1000 a Ea). apply Some_inj in Hid. rewrite Hid. discriminate.
Defined.
