(* ===== verification/AdapterAccept.v ===== *)
(** * Accepting under the configured controller

    An accepted connection reaches the application only with its adapter
    bound to it and the controller of its listener installed; otherwise lwIP
    is told to abort it. *)

From Stdlib Require Import ZArith Lia Bool List String.
From stdpp Require Import base tactics numbers list gmap.
From S2P Require Import Prelude StateMonad CC Observation Reno Cubic CubicController Rack Prr Registry.
From S2P Require Import AdapterData AdapterDelivery AdapterPacing AdapterRecovery AdapterRate.
From S2P Require Import AdapterPolicy Adapter Selector BbrInternal AdapterHooks AdapterFrame.
From S2P Require Import AdapterEvents AdapterWorld AdapterRegistry AdapterLife.
Local Open Scope Z_scope.

Section Install.
Context {W : Type} `{!AdapterOS W} `{!LwipParams}.
Local Abbreviation F := (flow W).
Implicit Types (s : F).

(** ** What installing a controller leaves alone *)

Definition bond s := (ad_bound (fw_ad s), ad_pcb (fw_ad s), fw_ptr s).
Definition seating s := (bond s, ad_ops (fw_ad s), ad_state (fw_ad s)).

Lemma bond_upd_ad f :
  (forall a, ad_bound (f a) = ad_bound a /\ ad_pcb (f a) = ad_pcb a) -> frames bond (upd_ad (W := W) f).
Proof. intros Hf s. unfold bond. cbn. by destruct (Hf (fw_ad s)) as (-> & ->). Qed.
Lemma seating_upd_ad f :
  (forall a, ad_bound (f a) = ad_bound a /\ ad_pcb (f a) = ad_pcb a /\ ad_ops (f a) = ad_ops a /\
             ad_state (f a) = ad_state a) -> frames seating (upd_ad (W := W) f).
Proof. intros Hf s. unfold seating, bond. cbn. by destruct (Hf (fw_ad s)) as (-> & -> & -> & ->). Qed.
Lemma seating_note f : frames seating (note (W := W) f).
Proof. intros s. unfold note, when, bind, get_ad, gets. by destruct (ad_stats (fw_ad s)). Qed.
Lemma seating_os {A} (f : W -> A * W) : frames seating (call_os f).
Proof. intros s. unfold call_os. by destruct (f (fw_world s)). Qed.
Lemma bond_of_seating {A} (m : M F A) : frames seating m -> frames bond m.
Proof. by apply (frames_through seating (fun x => x.1.1)). Qed.

Hint Extern 2 (frames bond (upd_ad _)) => (apply bond_upd_ad; intros; repeat case_match; done) : frames.
Hint Extern 2 (frames seating (upd_ad _)) => (apply seating_upd_ad; intros; repeat case_match; done) : frames.
Hint Extern 2 (frames seating (upd_pcb _)) => (intros ?; reflexivity) : frames.
Hint Extern 2 (frames seating (upd_binding _)) => (intros ?; reflexivity) : frames.
Hint Extern 2 (frames seating (upd_gl _)) => (intros ?; reflexivity) : frames.
Hint Extern 1 (frames seating (note _)) => (apply seating_note) : frames.
Hint Extern 1 (frames seating (note_policy _)) => (apply seating_note) : frames.
Hint Extern 1 (frames seating (note_pacing _)) => (apply seating_note) : frames.
Hint Extern 1 (frames seating (note_bbr _)) => (apply seating_note) : frames.
Hint Extern 1 (frames seating (call_os _)) => (apply seating_os) : frames.
Hint Extern 1 (frames seating get_ad) => (intros ?; reflexivity) : frames.
Hint Extern 1 (frames seating get_pcb) => (intros ?; reflexivity) : frames.
Hint Extern 1 (frames seating get_gl) => (intros ?; reflexivity) : frames.

Lemma seating_cubic inner active : frames seating (tcp_shift_cc_selector_set_cubic_pacing (W := W) inner active).
Proof. unfold tcp_shift_cc_selector_set_cubic_pacing. frames_walk. Qed.
Hint Resolve seating_cubic : frames.
Lemma seating_publish_initial inner t p :
  frames seating (tcp_shift_cc_selector_publish_initial_pacing (W := W) inner t p).
Proof.
  unfold tcp_shift_cc_selector_publish_initial_pacing, tcp_shift_cc_selector_apply_transport_pacing. frames_walk.
Qed.
Lemma seating_publish p : frames seating (publish_policy (W := W) p).
Proof. unfold publish_policy. frames_walk. Qed.
Lemma seating_attach : frames seating (tcp_shift_cc_selector_attach_transport_pacing (W := W)).
Proof. unfold tcp_shift_cc_selector_attach_transport_pacing. frames_walk. Qed.
Lemma seating_expand : frames seating (expand_sndbuf (W := W)).
Proof. unfold expand_sndbuf. frames_walk. Qed.
Lemma seating_record b : frames seating (tcp_shift_lwip_bbr_record_stats (W := W) b).
Proof. unfold tcp_shift_lwip_bbr_record_stats, binding_note. frames_walk. Qed.
Hint Resolve seating_publish_initial seating_publish seating_attach seating_expand seating_record : frames.

(** The controllers' [init] callbacks. *)
Lemma seating_callback (m : M F (Z * tcp_shift_cc_policy)) s :
  frames seating m -> seating (as_callback m s).1.2 = seating s.
Proof. intros Hm. unfold as_callback. rewrite <- (Hm s). by destruct (m s) as [[??]?]. Qed.
Lemma seating_init ops n t i :
  ops <> OpsPacedReno -> ops <> OpsPacedCubic -> frames seating (controller_init (W := W) ops n t i).
Proof.
  intros H1 H2 s. unfold controller_init, tcp_shift_cc_init. destruct (_ || _); [done|].
  destruct (ops_init (cc_vtable ops)) as [f|] eqn:Ef; [|done].
  assert (Hf : forall p, seating (f s t i p).1.2 = seating s).
  { intros p. destruct ops; try done; cbn in Ef; injection Ef as <-; apply seating_callback;
      [unfold on_builtin|unfold on_builtin|unfold tcp_shift_lwip_bbr_init, set_bbr_controller]; frames_walk. }
  specialize (Hf (mk_policy 0 0 0)).
  destruct (f s t i (mk_policy 0 0 0)) as [[rc s'] p']. by destruct (negb (rc =? 0)).
Qed.

(** ** The selector's installation *)

(** A loss-based controller in the handle, on its block; a registered flow is
    paced by the selector's table. *)
Record selected (ops : cc_ops_ref) s : Prop := mk_selected {
  sel_bound : ad_bound (fw_ad s) = true;
  sel_pcb : ad_pcb (fw_ad s) = Some (fw_ptr s);
  sel_ops : ad_ops (fw_ad s) = Some ops;
  sel_state : ad_state (fw_ad s) = Some StateBuiltin;
  sel_table : flow_unregistered (fw_ad s) = false -> hk_ops (ad_hook (fw_ad s)) = Some HookSelector
}.

Lemma attach_table s :
  (tcp_shift_cc_selector_attach_transport_pacing s).1 = 0 ->
  let a := fw_ad (tcp_shift_cc_selector_attach_transport_pacing s).2 in
  flow_unregistered a = false -> hk_ops (ad_hook a) = Some HookSelector.
Proof.
  unfold tcp_shift_cc_selector_attach_transport_pacing. rewrite !bind_run. cbn [get_ad get_gl gets fst snd].
  destruct (_ || _); [done|]. destruct (flow_unregistered (fw_ad s)) eqn:Eu.
  - rewrite bind_run. cbn [ret fst snd]. intros _ Hr.
    assert (E : reg (tcp_shift_cc_selector_set_cubic_pacing (ad_ops (fw_ad s)) 0 s).2 = reg s)
      by apply reg_core, core_set_cubic_pacing.
    injection E as _ _ E1 E2 _. unfold flow_unregistered in *. rewrite E1, E2 in Hr. congruence.
  - destruct (bool_decide _) eqn:Eb; [by apply bool_decide_eq_true in Eb|].
    destruct (_ && _); [done|]. by rewrite !bind_run.
Qed.

Lemma seated_attach ops s1 s2 :
  ad_bound (fw_ad s1) = true -> ad_pcb (fw_ad s1) = Some (fw_ptr s1) ->
  ad_ops (fw_ad s1) = Some ops -> ad_state (fw_ad s1) = Some StateBuiltin -> seating s2 = seating s1 ->
  (tcp_shift_cc_selector_attach_transport_pacing s2).1 = 0 ->
  selected ops (tcp_shift_cc_selector_attach_transport_pacing s2).2.
Proof.
  intros H1 H2 H3 H4 E Ha. pose proof (attach_table s2 Ha) as Ht. cbn zeta in Ht.
  pose proof (seating_attach s2) as E2. rewrite E in E2.
  set (s3 := (tcp_shift_cc_selector_attach_transport_pacing s2).2) in *. clearbody s3.
  injection E2 as F1 F2 F3 F4 F5. split; [congruence..|exact Ht].
Qed.

Lemma reinit_reno_selected t pcb s :
  ad_bound (fw_ad s) = true -> ad_pcb (fw_ad s) = Some (fw_ptr s) ->
  ad_ops (fw_ad s) = Some OpsReno -> ad_state (fw_ad s) = Some StateBuiltin ->
  0 <= (reinit_reno t pcb s).1 -> selected OpsReno (reinit_reno t pcb s).2.
Proof.
  intros H1 H2 H3 H4. unfold reinit_reno. rewrite bind_run.
  pose proof (seating_publish_initial (Some OpsReno) t (mk_policy (pb_cwnd pcb) (pb_ssthresh pcb) 0) s) as E.
  destruct (tcp_shift_cc_selector_publish_initial_pacing _ _ _ s) as [r s1]. cbn [fst snd] in *.
  destruct (negb _); [cbn; lia|]. rewrite bind_run.
  destruct (tcp_shift_cc_selector_attach_transport_pacing s1) as [rc s2] eqn:Ea. cbn [fst snd].
  destruct (rc =? 0) eqn:Er; cbn [negb ret fst snd]; [|lia]. intros _.
  change s2 with (rc, s2).2. rewrite <- Ea. apply (seated_attach _ s); try done. rewrite Ea. cbn. lia.
Qed.


Lemma reinit_other_selected ops t pcb s :
  tcp_shift_cc_selector_is_loss_based_ops (Some ops) = true ->
  ad_bound (fw_ad s) = true -> ad_pcb (fw_ad s) = Some (fw_ptr s) ->
  0 <= (reinit_other ops t pcb s).1 -> selected ops (reinit_other ops t pcb s).2.
Proof.
  intros Hlb H1 H2. unfold reinit_other. rewrite bind_run. cbn [upd_ad modify fst snd].
  set (s0 := set_ad _ s). rewrite bind_run. unfold adapter_controller_init. rewrite bind_run.
  assert (Hops : ops <> OpsPacedReno /\ ops <> OpsPacedCubic) by (by destruct ops).
  pose proof (seating_init ops TCP_SHIFT_CC_BUILTIN_STATE_CAPACITY t
    (mk_init (pb_cwnd pcb) (pb_ssthresh pcb) (pb_mss pcb)) (proj1 Hops) (proj2 Hops) s0) as E0.
  destruct (controller_init ops _ t _ s0) as [[rc policy] s1]. cbn [fst snd] in *.
  rewrite bind_run. cbn [upd_ad modify ret fst snd]. destruct (rc =? 0); [|cbn; lia]. cbn [negb orb].
  set (s2 := set_ad _ s1). injection E0 as F1 F2 F3 _ _.
  destruct (policy_out_of_range _ _); [cbn; lia|]. rewrite Hlb, bind_run.
  pose proof (seating_publish_initial (Some ops) t policy s2) as E1.
  destruct (tcp_shift_cc_selector_publish_initial_pacing _ _ _ s2) as [[rc3 policy3] s3]. cbn [fst snd] in *.
  destruct (negb _); [cbn; lia|]. rewrite !bind_run. cbn [upd_ad modify fst snd].
  set (s4 := (publish_policy policy3 _).2).
  assert (E4 : seating s4 = seating s2).
  { unfold s4. etransitivity; [apply seating_publish|exact E1]. }
  clearbody s4. destruct (tcp_shift_cc_selector_attach_transport_pacing s4) as [rc5 s5] eqn:Ea. cbn [fst snd].
  destruct (rc5 =? 0) eqn:Er; cbn [negb ret fst snd]; [|lia]. intros _.
  change s5 with (rc5, s5).2. rewrite <- Ea.
  apply (seated_attach _ s2); [by unfold s2; cbn; rewrite F1|by unfold s2; cbn; rewrite F2, F3|done|done|done|].
  rewrite Ea. cbn. lia.
Qed.

Lemma reinit_selected ops s :
  tcp_shift_cc_selector_is_loss_based_ops (Some ops) = true ->
  0 <= (tcp_shift_cc_selector_reinit (Some ops) s).1 ->
  selected ops (tcp_shift_cc_selector_reinit (Some ops) s).2.
Proof.
  intros Hlb. unfold tcp_shift_cc_selector_reinit. rewrite !bind_run. cbn [get_ad get_pcb gets fst snd].
  destruct (_ || _ || _) eqn:Eg; [cbn; lia|].
  apply orb_false_iff in Eg as [Eg E3]. apply orb_false_iff in Eg as [E1 E2].
  apply negb_false_iff in E1, E2, E3. apply bool_decide_eq_true in E2, E3.
  unfold live in E1. cbn in E1. apply andb_true_iff in E1 as [Hb Hs]. apply bool_decide_eq_true in Hs.
  set (t := mk_transport _ _ _ _). replace (live s).2 with s in * by done.
  destruct (bool_decide (ops = OpsReno)) eqn:Eo; [|by apply reinit_other_selected].
  apply bool_decide_eq_true in Eo as ->. by apply reinit_reno_selected.
Qed.

(** ** BBR's installation *)

Definition sidecar s : bool := negb (is_null (pb_ext_bbr (fw_pcb s))).
Lemma sidecar_core {A} (m : M F A) : frames core m -> frames sidecar m.
Proof.
  apply (frames_through core (fun '(_, _, _, _, pcb) => negb (is_null pcb.2))).
  intros s. unfold sidecar. cbn. by destruct (pb_ext_bbr (fw_pcb s)).
Qed.

Lemma active_frames {A} (m : M F A) :
  frames core m -> frames seating m -> frames tcp_shift_lwip_cc_internal_bbr_active m.
Proof.
  intros Hc Hf s. pose proof (sidecar_core m Hc s) as Hs.
  pose proof (f_equal (fun '(_, _, a, _, _) => hk_ops (ad_hook a)) (Hc s)) as Hh. cbn in Hh.
  specialize (Hf s). injection Hf as F1 F2 F3 F4 F5.
  unfold tcp_shift_lwip_cc_internal_bbr_active. fold (sidecar (m s).2) (sidecar s).
  by rewrite Hs, F1, F2, F4, F5, Hh.
Qed.

Lemma install_bbr_active policy s :
  ad_bound (fw_ad s) = true -> is_null (ad_pcb (fw_ad s)) = false -> sidecar s = true ->
  tcp_shift_lwip_cc_internal_bbr_active (install_bbr policy s).2 = true.
Proof.
  intros Hb Hp Hs. unfold install_bbr. rewrite bind_run.
  match goal with |- context [?k (upd_ad ?f s).2] =>
    assert (Hk : frames tcp_shift_lwip_cc_internal_bbr_active k) end.
  { apply active_frames; frames_walk. }
  rewrite (Hk _). unfold tcp_shift_lwip_cc_internal_bbr_active. cbn.
  rewrite Hb, Hp, !bool_decide_true by done. exact Hs.
Qed.

Lemma apply_bbr_active seed s :
  0 <= (tcp_shift_lwip_cc_apply_internal_bbr seed s).1 ->
  tcp_shift_lwip_cc_internal_bbr_active (tcp_shift_lwip_cc_apply_internal_bbr seed s).2 = true.
Proof.
  unfold tcp_shift_lwip_cc_apply_internal_bbr. rewrite !bind_run. cbn [get_ad get_pcb gets fst snd].
  destruct (negb (ad_bound (fw_ad s))) eqn:Hb; cbn [orb]; [cbn; lia|].
  destruct (is_null (ad_pcb (fw_ad s))) eqn:Hp; cbn [orb]; [cbn; lia|].
  apply negb_false_iff in Hb. destruct (_ || _); [cbn; lia|]. rewrite bind_run.
  pose proof (seating_os (fun w => heap_alloc w BBR_BINDING_SIZE) s) as E0.
  destruct (call_os _ s) as [ok s1]. cbn [fst snd] in *. destruct (_ || _); [cbn; lia|]. rewrite !bind_run.
  cbn [upd_pcb modify fst snd]. set (s2 := set_pcb _ s1). set (t := tcp_shift_lwip_bbr_transport_from_pcb _).
  set (i := mk_init _ _ _).
  pose proof (seating_init OpsBbr BBR_BINDING_SIZE t i ltac:(done) ltac:(done) s2) as E2.
  pose proof (sidecar_core _ (core_controller_init OpsBbr BBR_BINDING_SIZE t i) s2) as S2.
  destruct (controller_init OpsBbr _ t i s2) as [[rc policy] s3]. cbn [fst snd] in *.
  destruct (_ || _); [cbn; lia|]. rewrite bind_run. pose proof (seating_expand s3) as E3.
  assert (S3 : sidecar (expand_sndbuf s3).2 = sidecar s3).
  { unfold expand_sndbuf. rewrite !bind_run. cbn [get_pcb gets fst snd].
    set (x := _ s3 : bool * F). assert (Hx : fw_pcb x.2 = fw_pcb s3).
    { unfold x. destruct (TcpMemory.mp_ext _); [done|]. unfold call_os. by destruct (heap_alloc _ _). }
    destruct (TcpMemory.tcp_shift_lwip_tcp_memory_set_sndbuf_expand _ _ _ _) as [rc4 mem]. rewrite bind_run. cbn.
    unfold sidecar. cbn. by rewrite Hx. }
  destruct (expand_sndbuf s3) as [rc4 s4]. cbn [fst snd] in *. destruct (negb _); [cbn; lia|]. intros _.
  rewrite E2 in E3. change (seating s2) with (seating s1) in E3. rewrite E0 in E3. injection E3 as F1 F2 F3 _ _.
  apply install_bbr_active; [by rewrite F1|by rewrite F2|by rewrite S3, S2].
Qed.

End Install.

Section Dispatch.
Context {W : Type} `{!AdapterOS W} `{!LwipParams} `{!LwipTcp W} `{!LwipApi W}.
Local Abbreviation F := (flow W).
Local Abbreviation world := (cc_world W).
Implicit Types (w : world).

(** lwIP is told to abort the connection. *)
Definition refused (r : Z) w (pp : Z) : Prop := exists w1, r = ERR_ABRT /\ w = tcp_abort w1 pp.

(** The connection's hook is an adapter's, and its flow satisfies [P]. *)
Definition connected_under (P : F -> Prop) w (pp : Z) : Prop :=
  exists ap a pcb, wd_pcbs w !! pp = Some pcb /\ pb_ext_cc pcb = Some (ExtHook ap) /\
    wd_adapters w !! ap = Some a /\ P (mk_cc_flow (wd_world w) (wd_gl w) ap a pp pcb).

(** A dispatcher's installation: refused, or a call with the flow that the
    installation left. *)
Lemma installed (P : F -> Prop) w ap pp (m : M F Z) fn arg r w' :
  hook_adapter w pp = Some ap -> frames reg m -> (forall s, 0 <= (m s).1 -> P (m s).2) ->
  match run_flow w ap pp m with
  | None => None
  | Some (rc, w) => if rc <? 0 then abort_with (count_controller_error w ap) pp
                    else call_app w fn arg (Some pp) ERR_OK
  end = Some (r, w') ->
  refused r w' pp \/
  exists w1, connected_under P w1 pp /\ call_app w1 fn arg (Some pp) ERR_OK = Some (r, w').
Proof.
  intros Hh Hm HP. unfold hook_adapter in Hh. destruct (wd_pcbs w !! pp) as [pcb|] eqn:Hp; [|done].
  destruct (pb_ext_cc pcb) as [[ap'|]|] eqn:He; try done. injection Hh as ->.
  unfold run_flow. destruct (wd_adapters w !! ap) as [a|] eqn:Ha; [|done]. rewrite Hp.
  set (s := mk_cc_flow _ _ _ _ _ _). specialize (Hm s). specialize (HP s).
  destruct (m s) as [rc s'] eqn:Em. cbn [fst snd] in *. destruct (rc <? 0) eqn:Erc.
  - intros [= <- <-]. left. by eexists.
  - intros E. right. eexists. split; [|exact E]. injection Hm as E1 E2 E3 E4 E5 E6 E7 E8. cbn in *.
    exists ap, (fw_ad s'), (fw_pcb s'). cbn. rewrite !lookup_insert_eq, E8, He.
    split; [done|]. split; [done|]. split; [done|].
    replace (mk_cc_flow _ _ _ _ _ _) with s'; [apply HP; lia|]. destruct s'. cbn in *. by subst.
Qed.

(** C29. The application sees a connection only under its listener's
    controller. When the selector's dispatcher or BBR's gets a new connection,
    it either has lwIP abort it, or it calls the application's accept function
    with the application's own argument, and then the connection's hook is an
    adapter's whose flow runs what the listener was configured with: for the
    selector, the adapter is bound to this connection with the listener's
    controller in its handle, and a registered flow goes through the paced
    table; for BBR, the internal controller is active (its handle, table and
    sidecar are in place). *)
Theorem accepted_under_configured w j pp r w' :
  (tcp_shift_cc_selector_accept w (ArgSelector j) (Some pp) ERR_OK = Some (r, w') ->
   let b := nth j (gl_selector_bindings (wd_gl w)) zero_listener in
   refused r w' pp \/
   exists fn ops w1, ln_used b = true /\ ln_accept b = Some fn /\ ln_ops b = Some ops /\
     (tcp_shift_cc_selector_is_loss_based_ops (Some ops) = true -> connected_under (selected ops) w1 pp) /\
     call_app w1 fn (ln_callback_arg b) (Some pp) ERR_OK = Some (r, w')) /\
  (tcp_shift_lwip_bbr_accept_dispatch w (ArgBbr j) (Some pp) ERR_OK = Some (r, w') ->
   let b := nth j (gl_bbr_listeners (wd_gl w)) zero_listener in
   refused r w' pp \/
   exists fn w1, ln_used b = true /\ ln_accept b = Some fn /\
     connected_under (fun s => tcp_shift_lwip_cc_internal_bbr_active s = true) w1 pp /\
     call_app w1 fn (ln_callback_arg b) (Some pp) ERR_OK = Some (r, w')).
Proof.
  assert (Hrefuse : forall w0, refuse w0 (Some pp) = Some (r, w') -> refused r w' pp).
  { intros w0 [= <- <-]. by exists w0. }
  split; cbn zeta.
  - unfold tcp_shift_cc_selector_accept. set (b := nth j _ zero_listener).
    destruct (ln_accept b) as [fn|]; [|intros E; left; exact (Hrefuse w E)].
    destruct (ln_used b); [|intros E; left; exact (Hrefuse w E)].
    destruct (ln_ops b) as [ops|]; [|intros E; left; exact (Hrefuse w E)]. cbn [negb orb is_null Z.eqb].
    destruct (hook_adapter w pp) as [ap|] eqn:Eh; [|intros E; left; exact (Hrefuse w E)].
    set (P := fun s : F => tcp_shift_cc_selector_is_loss_based_ops (Some ops) = true -> selected ops s).
    assert (HP : forall s, 0 <= (tcp_shift_cc_selector_reinit (Some ops) s).1 ->
      P (tcp_shift_cc_selector_reinit (Some ops) s).2) by (intros s Hs Hlb; by apply reinit_selected).
    intros E. destruct (installed P _ _ _ _ _ _ _ _ Eh (reg_reinit _) HP E) as [Hr|(w1 & Hc & Hcall)]; [by left|].
    right. exists fn, ops, w1. split_and!; try done. intros Hlb.
    destruct Hc as (ap' & a & pcb & H1 & H2 & H3 & H4). exists ap', a, pcb. by split_and!; auto.
  - unfold tcp_shift_lwip_bbr_accept_dispatch. set (b := nth j _ zero_listener).
    destruct (ln_accept b) as [fn|]; [|intros E; left; exact (Hrefuse w E)].
    destruct (ln_used b); [|intros E; left; exact (Hrefuse w E)]. cbn [negb Z.eqb].
    destruct (hook_adapter w pp) as [ap|] eqn:Eh; [|intros E; left; exact (Hrefuse w E)].
    destruct (wd_adapters w !! ap) as [a|]; [|done].
    destruct (_ =? 0); [intros E; left; by eapply (Hrefuse _ E)|]. intros E.
    destruct (installed (fun s => tcp_shift_lwip_cc_internal_bbr_active s = true) _ _ _ _ _ _ _ _ Eh
      (reg_apply_bbr _) (apply_bbr_active _) E) as [Hr|(w1 & Hc & Hcall)]; [by left|].
    right. exists fn, w1. by split_and!.
Qed.

End Dispatch.

(** A bound flow whose listener was configured with CUBIC. *)
Definition example_bound : cc_world ticks :=
  mk_cc_world (fw_world example_flow)
    (fw_gl example_flow <| gl_selector_bindings :=
       [mk_listener (Some 1) (Some (AcceptApp 7)) (ArgApp 3) (Some OpsCubic) true] |>)
    {[100 := fw_ad example_flow]} {[200 := fw_pcb example_flow]} 1000.

(** Its accept, which the application gets to see. *)
Lemma accepted_under_configured_witness :
  exists w', tcp_shift_cc_selector_accept example_bound (ArgSelector 0) (Some 200) ERR_OK = Some (0, w') /\
  exists w1, connected_under (selected OpsCubic) w1 200 /\
    call_app w1 (AcceptApp 7) (ArgApp 3) (Some 200) ERR_OK = Some (0, w').
Proof.
  destruct (tcp_shift_cc_selector_accept example_bound (ArgSelector 0) (Some 200) ERR_OK) as [[r w']|] eqn:E;
    [|exfalso; vm_compute in E; discriminate E].
  assert (Hr : r = 0) by (vm_compute in E; by injection E). subst r. exists w'. split; [reflexivity|].
  destruct (proj1 (accepted_under_configured example_bound 0 200 0 w') E)
    as [(w1 & H0 & _)|(fn & ops & w1 & _ & H2 & H3 & H4 & H5)]; [discriminate H0|].
  injection H2 as <-. injection H3 as <-. exists w1. split; [exact (H4 eq_refl)|exact H5].
Defined.
