(* ===== verification/HostSys.v ===== *)
(** * The host: system calls, child processes and the packet-filter rules

    What the set-up code asks of the operating system, as the operations of a
    class [HostSys] over a state [W] of the machine: child processes, pipes,
    the dynamic loader and libnftables. [host] adds what the process itself
    holds (its errno, open descriptors, loaded libraries and nft contexts), so
    that leaks are visible. [HostLaws] states the documented behaviour of those
    operations that the code relies on, in terms of the rules a machine has. *)

From Stdlib Require Import ZArith Lia Bool List Ascii String.
From stdpp Require Import base tactics numbers list gmap strings.
From S2P Require Import Prelude CString StateMonad.
Local Open Scope Z_scope.

Definition EPERM : Z := 1.
Definition ENOENT : Z := 2.
Definition EINTR : Z := 4.
Definition EIO : Z := 5.
Definition ENOMEM : Z := 12.
Definition EACCES : Z := 13.
Definition EINVAL : Z := 22.
Definition ENAMETOOLONG : Z := 36.
Definition EPROTO : Z := 71.
Definition EOVERFLOW : Z := 75.
Definition EOPNOTSUPP : Z := 95.
Definition EAFNOSUPPORT : Z := 97.
Definition EALREADY : Z := 114.

(** [strlen] *)
Definition strlen (s : cstring) : Z := Z.of_nat (List.length s).

(** What a [char *] into a buffer denotes: the characters before the first NUL. *)
Fixpoint c_str (s : cstring) : cstring :=
  match s with
  | [] => []
  | c :: s' => if code c =? 0 then [] else c :: c_str s'
  end.

Fixpoint is_prefix (p s : cstring) : bool :=
  match p, s with
  | [], _ => true
  | x :: p', y :: s' => Ascii.eqb x y && is_prefix p' s'
  | _ :: _, [] => false
  end.

(** [strstr(s, p) != NULL] *)
Fixpoint strstr (s p : cstring) : bool :=
  is_prefix p s || match s with [] => false | _ :: s' => strstr s' p end.

(** ** Operations *)

Inductive exit_status : Type :=
| Exited (code : Z)
| Signaled.

Inductive wait_result : Type :=
| Reaped (status : exit_status)
| WaitInterrupted
| WaitFailed (err : Z).

Inductive read_result : Type :=
| ReadData (bytes : cstring)
| ReadInterrupted
(** end of file, or an error other than an interruption *)
| ReadEnd.

Inductive fgetc_result : Type :=
| OpenFailed (err : Z)
| AtEof
| GotChar (c : ascii) (close_error : option Z).

Class HostSys (W : Type) := {
  (** [inet_pton(AF_INET or AF_INET6, text, _)], by IP version *)
  sys_inet_pton : Z -> cstring -> option (list Z);
  (** [access(path, X_OK) == 0] *)
  sys_access : cstring -> W -> bool;
  (** [fopen], one [fgetc], [fclose] *)
  sys_first_char : cstring -> W -> fgetc_result;
  (** [pipe]: the error, if any *)
  sys_pipe : W -> option Z * W;
  (** [fork], the child running [execv(path, argv); _exit(127)], with its
      output to the pipe or not: an error or the child's pid *)
  sys_spawn : bool -> cstring -> list cstring -> W -> (Z + Z) * W;
  (** [read] of at most that many bytes from the pipe *)
  sys_read : Z -> W -> read_result * W;
  sys_waitpid : Z -> W -> wait_result * W;
  (** how often blocking calls may still be interrupted *)
  sys_retries : W -> nat;
  sys_dlopen : cstring -> W -> bool * W;
  sys_dlsym : cstring -> W -> bool;
  (** a write to standard error or output *)
  sys_fputs : Z -> cstring -> W -> W;
  nft_ctx_new : W -> bool * W;
  nft_ctx_buffer_output : W -> Z * W;
  nft_ctx_buffer_error : W -> Z * W;
  (** result and errno of [nft_run_cmd_from_buffer], dry or not *)
  nft_run_cmd : bool -> cstring -> W -> (Z * Z) * W;
  nft_output_buffer : W -> option cstring;
  nft_error_buffer : W -> option cstring
}.

Record host {W : Type} := {
  h_errno : Z;
  h_fds : Z;     (** open descriptors *)
  h_libs : Z;    (** loaded libraries *)
  h_ctxs : Z;    (** nft contexts *)
  h_world : W
}.
Arguments host : clear implicits.

Section Calls.
Context {W : Type} `{HostSys W}.

Definition set_errno (e : Z) : M (host W) unit := modify (fun h =>
  {| h_errno := e; h_fds := h_fds h; h_libs := h_libs h; h_ctxs := h_ctxs h; h_world := h_world h |}).
Definition add_fds (n : Z) : M (host W) unit := modify (fun h =>
  {| h_errno := h_errno h; h_fds := h_fds h + n; h_libs := h_libs h; h_ctxs := h_ctxs h; h_world := h_world h |}).
Definition add_libs (n : Z) : M (host W) unit := modify (fun h =>
  {| h_errno := h_errno h; h_fds := h_fds h; h_libs := h_libs h + n; h_ctxs := h_ctxs h; h_world := h_world h |}).
Definition add_ctxs (n : Z) : M (host W) unit := modify (fun h =>
  {| h_errno := h_errno h; h_fds := h_fds h; h_libs := h_libs h; h_ctxs := h_ctxs h + n; h_world := h_world h |}).

(** Calling the host. *)
Definition call {A} (f : W -> A * W) : M (host W) A := fun h =>
  ((f (h_world h)).1,
   {| h_errno := h_errno h; h_fds := h_fds h; h_libs := h_libs h; h_ctxs := h_ctxs h;
      h_world := (f (h_world h)).2 |}).
Definition ask {A} (f : W -> A) : M (host W) A := gets (fun h => f (h_world h)).

(** [errno = e; return -1;] *)
Definition fail_with (e : Z) : M (host W) Z := set_errno e ;; ret (-1).

(** The [do ... while (result < 0 && errno == EINTR)] of [tcp_shift_wait_child]. *)
Fixpoint wait_loop (fuel : nat) (child : Z) : M (host W) wait_result :=
  match fuel with
  | O => ret WaitInterrupted
  | S f =>
      let! r := call (sys_waitpid child) in
      match r with
      | WaitInterrupted => set_errno EINTR ;; wait_loop f child
      | WaitFailed e => set_errno e ;; ret r
      | Reaped _ => ret r
      end
  end.

Definition tcp_shift_wait_child (child : Z) : M (host W) Z :=
  let! fuel := ask (fun w => S (sys_retries w)) in
  let! r := wait_loop fuel child in
  match r with
  | Reaped (Exited c) => if c =? 0 then ret 0 else fail_with EPROTO
  | Reaped Signaled => fail_with EPROTO
  | _ => ret (-1)
  end.

(** [fork], [execv] in the child, and the wait for it. *)
Definition tcp_shift_legacy_run (tool : cstring) (argv : list cstring) : M (host W) Z :=
  let! child := call (sys_spawn false tool argv) in
  match child with
  | inl e => fail_with e
  | inr pid => tcp_shift_wait_child pid
  end.

End Calls.

(** ** Interfaces

    What is observed of a network interface. *)

Record iface := {
  if_mtu : Z;
  if_addr : list Z;
  if_netmask : list Z;
  if_flags : Z;
  if_addr6 : list cstring
}.

(** ** Rules

    The nat tables of the two legacy filters and the nftables tables, as far
    as the documentation of iptables(8) and nft(8) describes them. A rule is
    the list of its arguments; an nftables table is the script that made it. *)

Abbreviation rule := (list cstring).

Record nat_table := {
  nt_prerouting : list rule;
  nt_chains : gmap cstring (list rule)
}.

Record ruleset := {
  rs_nat4 : nat_table;
  rs_nat6 : nat_table;
  rs_nft : gmap (cstring * cstring) cstring
}.

Definition rs_nat (v : Z) (r : ruleset) : nat_table :=
  if v =? 4 then rs_nat4 r else rs_nat6 r.
Definition set_nat (v : Z) (t : nat_table) (r : ruleset) : ruleset :=
  if v =? 4 then {| rs_nat4 := t; rs_nat6 := rs_nat6 r; rs_nft := rs_nft r |}
  else {| rs_nat4 := rs_nat4 r; rs_nat6 := t; rs_nft := rs_nft r |}.
Definition set_nft (t : gmap (cstring * cstring) cstring) (r : ruleset) : ruleset :=
  {| rs_nat4 := rs_nat4 r; rs_nat6 := rs_nat6 r; rs_nft := t |}.
Definition set_chain (n : cstring) (rules : list rule) (t : nat_table) : nat_table :=
  {| nt_prerouting := nt_prerouting t; nt_chains := <[n := rules]> (nt_chains t) |}.
Definition del_chain (n : cstring) (t : nat_table) : nat_table :=
  {| nt_prerouting := nt_prerouting t; nt_chains := delete n (nt_chains t) |}.
Definition set_prerouting (rules : list rule) (t : nat_table) : nat_table :=
  {| nt_prerouting := rules; nt_chains := nt_chains t |}.

(** The chain or target a rule jumps to. *)
Fixpoint rule_target (r : rule) : option cstring :=
  match r with
  | [] => None
  | a :: r' => if str_eqb a (lit "-j") then head r' else rule_target r'
  end.

Definition refers (n : cstring) (r : rule) : bool :=
  match rule_target r with Some t => str_eqb t n | None => false end.

(** No rule of the table jumps to [n]. *)
Definition unreferenced (n : cstring) (t : nat_table) : bool :=
  forallb (fun r => negb (refers n r)) (nt_prerouting t) &&
  forallb (fun c : cstring * list rule => forallb (fun r => negb (refers n r)) c.2)
          (map_to_list (nt_chains t)).

Fixpoint rule_eqb (a b : rule) : bool :=
  match a, b with
  | [], [] => true
  | x :: a', y :: b' => str_eqb x y && rule_eqb a' b'
  | _, _ => false
  end.

(** Without the first rule equal to [r]. *)
Fixpoint remove_rule (r : rule) (l : list rule) : option (list rule) :=
  match l with
  | [] => None
  | x :: l' => if rule_eqb x r then Some l' else
                 match remove_rule r l' with Some l'' => Some (x :: l'') | None => None end
  end.

(** [iptables -w -t nat ...] on its table: [None] where the tool refuses. *)
Definition nat_command (op : cstring) (args : list cstring) (t : nat_table) : option nat_table :=
  match args with
  | [] => None
  | n :: r =>
      if str_eqb op (lit "-N") then
        match r, nt_chains t !! n with [], None => Some (set_chain n [] t) | _, _ => None end
      else if str_eqb op (lit "-A") then
        match nt_chains t !! n with Some l => Some (set_chain n (l ++ [r]) t) | None => None end
      else if str_eqb op (lit "-F") then
        match r, nt_chains t !! n with [], Some _ => Some (set_chain n [] t) | _, _ => None end
      else if str_eqb op (lit "-X") then
        match r, nt_chains t !! n with
        | [], Some [] => if unreferenced n t then Some (del_chain n t) else None
        | _, _ => None
        end
      else if str_eqb op (lit "-I") then
        match r with
        | one :: r' => if str_eqb n (lit "PREROUTING") && str_eqb one (lit "1")
                       then Some (set_prerouting (r' :: nt_prerouting t) t) else None
        | [] => None
        end
      else if str_eqb op (lit "-D") then
        if str_eqb n (lit "PREROUTING") then
          match remove_rule r (nt_prerouting t) with
          | Some l => Some (set_prerouting l t)
          | None => None
          end
        else None
      else None
  end.

Definition nat_argv (tool op : cstring) (args : list cstring) : list cstring :=
  [tool; lit "-w"; lit "-t"; lit "nat"; op] ++ args.
