(* ===== verification/HostSetup.v ===== *)
(** * The TUN file and the host's side of the interface

    src/host/tun.c, ifconfig.c and ifconfig_ipv6.c: opening a TUN device and
    giving the interface its size, address and state, over ioctl requests for
    IPv4 and over the [ip] tool for IPv6. The requests are the operations of
    [NetSys]; [NetLaws] says what a successful one does to the interface. *)

From Stdlib Require Import ZArith Lia Bool List Ascii String.
From stdpp Require Import base tactics numbers list gmap strings.
From S2P Require Import Prelude CString StateMonad HostSys.
Local Open Scope Z_scope.

Definition IFNAMSIZ : Z := 16.
Definition INET6_ADDRSTRLEN : Z := 46.
Definition AF_INET : Z := 2.
Definition IFF_UP : Z := 1.
Definition IFF_TUN_NO_PI : Z := 4097.

(** [ifr_ifru] *)
Inductive ifr_union : Type :=
| IfrZero
| IfrMtu (mtu : Z)
| IfrAddr (family : Z) (bytes : list Z)
| IfrFlags (flags : Z).

Record ifreq := { ifr_name : cstring; ifr_ifru : ifr_union }.

Inductive if_request : Type :=
| TUNSETIFF | SIOCSIFMTU | SIOCSIFADDR | SIOCSIFNETMASK | SIOCGIFFLAGS | SIOCSIFFLAGS.

Class NetSys (W : Type) := {
  (** [socket(AF_INET, SOCK_DGRAM | SOCK_CLOEXEC, 0)]: errno or a descriptor *)
  net_socket : W -> (Z + Z) * W;
  (** [open("/dev/net/tun", O_RDWR | O_NONBLOCK | O_CLOEXEC)] *)
  net_open_tun : W -> (Z + Z) * W;
  (** errno, or the request as the kernel leaves it *)
  net_ioctl : Z -> if_request -> ifreq -> W -> (Z + ifreq) * W
}.

Record tcp_shift_tun := { tun_fd : Z; tun_ifname : cstring }.

Section Setup.
Context {W : Type} `{HostSys W} `{NetSys W}.

(** [close(fd)] *)
Definition close_fd : M (host W) unit := add_fds (-1).

(** [saved_errno = errno; close(fd); errno = saved_errno; return -1;] *)
Definition close_fail : M (host W) Z :=
  let! saved_errno := gets h_errno in
  close_fd ;; fail_with saved_errno.

Definition ioctl_call (fd : Z) (request : if_request) (ifr : ifreq) : M (host W) (option ifreq) :=
  let! r := call (net_ioctl fd request ifr) in
  match r with
  | inl e => set_errno e ;; ret None
  | inr ifr' => ret (Some ifr')
  end.

(** ** tun.c *)

(** The object and the answer; a NULL object is refused by the caller's type. *)
Definition tcp_shift_tun_open (requested_name : option cstring) : M (host W) (Z * tcp_shift_tun) :=
  let closed := {| tun_fd := -1; tun_ifname := [] |} in
  let! r := call net_open_tun in
  match r with
  | inl e => let! rc := fail_with e in ret (rc, closed)
  | inr fd =>
      add_fds 1 ;;
      let name := match requested_name with Some n => n | None => [] end in
      if strlen name >=? IFNAMSIZ then
        close_fd ;; let! rc := fail_with ENAMETOOLONG in ret (rc, closed)
      else
        let! done := ioctl_call fd TUNSETIFF {| ifr_name := name; ifr_ifru := IfrFlags IFF_TUN_NO_PI |} in
        match done with
        | None => let! rc := close_fail in ret (rc, closed)
        | Some ifr => ret (0, {| tun_fd := fd; tun_ifname := take 15 (ifr_name ifr) |})
        end
  end.

Definition tcp_shift_tun_close (tun : tcp_shift_tun) : M (host W) tcp_shift_tun :=
  when (0 <=? tun_fd tun) close_fd ;; ret {| tun_fd := -1; tun_ifname := [] |}.

(** ** ifconfig.c *)

(** The cleared request with the name, or the errno. *)
Definition tcp_shift_ifreq_name (ifname : cstring) : Z + ifreq :=
  if (strlen ifname =? 0) || (strlen ifname >=? IFNAMSIZ) then inl ENAMETOOLONG
  else inr {| ifr_name := ifname; ifr_ifru := IfrZero |}.

Definition tcp_shift_ifreq_ipv4 (ifname address : cstring) : Z + ifreq :=
  match tcp_shift_ifreq_name ifname with
  | inl e => inl e
  | inr ifr =>
      match sys_inet_pton 4 address with
      | Some bytes => inr {| ifr_name := ifr_name ifr; ifr_ifru := IfrAddr AF_INET bytes |}
      | None => inl EINVAL
      end
  end.

(** [if (prepare < 0 || ioctl(...) < 0) goto fail;] and what follows. *)
Definition request (fd : Z) (r : if_request) (prepared : Z + ifreq)
    (next : ifreq -> M (host W) Z) : M (host W) Z :=
  match prepared with
  | inl e => set_errno e ;; close_fail
  | inr ifr =>
      let! answer := ioctl_call fd r ifr in
      match answer with None => close_fail | Some ifr' => next ifr' end
  end.

(** [ifr.ifr_mtu = (int)mtu] *)
Definition with_mtu (mtu : Z) (p : Z + ifreq) : Z + ifreq :=
  match p with
  | inr ifr => inr {| ifr_name := ifr_name ifr; ifr_ifru := IfrMtu (s32 mtu) |}
  | inl e => inl e
  end.

(** [ifr.ifr_flags = (short)(ifr.ifr_flags | IFF_UP)] *)
Definition with_up (ifr : ifreq) : ifreq :=
  {| ifr_name := ifr_name ifr;
     ifr_ifru := match ifr_ifru ifr with IfrFlags f => IfrFlags (Z.lor f IFF_UP) | u => u end |}.

(** [None] is a NULL argument. *)
Definition tcp_shift_host_configure_ipv4_tun (ifname host_ipv4 netmask : option cstring) (mtu : Z)
    : M (host W) Z :=
  match ifname, host_ipv4, netmask with
  | Some ifname, Some host_ipv4, Some netmask =>
      if mtu =? 0 then fail_with EINVAL
      else
        let! r := call net_socket in
        match r with
        | inl e => fail_with e
        | inr fd =>
            add_fds 1 ;;
            request fd SIOCSIFMTU (with_mtu mtu (tcp_shift_ifreq_name ifname)) (fun _ =>
            request fd SIOCSIFADDR (tcp_shift_ifreq_ipv4 ifname host_ipv4) (fun _ =>
            request fd SIOCSIFNETMASK (tcp_shift_ifreq_ipv4 ifname netmask) (fun _ =>
            request fd SIOCGIFFLAGS (tcp_shift_ifreq_name ifname) (fun ifr =>
            request fd SIOCSIFFLAGS (inr (with_up ifr)) (fun _ =>
            close_fd ;; ret 0)))))
        end
  | _, _, _ => fail_with EINVAL
  end.

(** ** ifconfig_ipv6.c *)

Definition ip_tools : list cstring := [lit "/usr/sbin/ip"; lit "/usr/bin/ip"; lit "/sbin/ip"; lit "/bin/ip"].

Fixpoint first_access (paths : list cstring) (w : W) : option cstring :=
  match paths with
  | [] => None
  | p :: paths' => if sys_access p w then Some p else first_access paths' w
  end.

Definition tcp_shift_find_ip_tool : M (host W) (option cstring) :=
  let! found := ask (first_access ip_tools) in
  match found with
  | Some p => ret (Some p)
  | None => set_errno ENOENT ;; ret None
  end.

Definition tcp_shift_run_ip (argv : list cstring) : M (host W) Z :=
  let! tool := tcp_shift_find_ip_tool in
  match tool with
  | None => ret (-1)
  | Some ip =>
      let! child := call (sys_spawn false ip argv) in
      match child with
      | inl e => fail_with e
      | inr pid => tcp_shift_wait_child pid
      end
  end.

(** Whether the text is accepted; every refusal is [EINVAL]. *)
Definition tcp_shift_validate_ipv6_cidr (cidr : option cstring) : bool :=
  match cidr with
  | None => false
  | Some text =>
      match strrchr text "/"%char with
      | None => false
      | Some (address, prefix_text) =>
          match address, prefix_text with
          | [], _ | _, [] => false
          | _, _ =>
              if strlen address >=? INET6_ADDRSTRLEN then false
              else match sys_inet_pton 6 address with
                   | None => false
                   | Some _ =>
                       match strtoull prefix_text with
                       | Some (prefix, [], false) => prefix <=? 128
                       | _ => false
                       end
                   end
          end
      end
  end.

Definition link_argv (ifname : cstring) (mtu : Z) : list cstring :=
  [lit "ip"; lit "link"; lit "set"; lit "dev"; ifname; lit "mtu"; print_dec mtu; lit "up"].
Definition addr_argv (ifname cidr : cstring) : list cstring :=
  [lit "ip"; lit "-6"; lit "addr"; lit "add"; cidr; lit "dev"; ifname; lit "nodad"].

Definition tcp_shift_host_configure_ipv6_tun (ifname cidr : option cstring) (mtu : Z) : M (host W) Z :=
  match ifname with
  | None => fail_with EINVAL
  | Some name =>
      if (strlen name =? 0) || (strlen name >=? IFNAMSIZ) || (mtu =? 0) ||
         negb (tcp_shift_validate_ipv6_cidr cidr) then fail_with EINVAL
      else if strlen (print_dec mtu) >=? 16 then fail_with EOVERFLOW
      else
        let! r := tcp_shift_run_ip (link_argv name mtu) in
        if r <? 0 then ret (-1)
        else tcp_shift_run_ip (addr_argv name (default [] cidr))
  end.

End Setup.
