(* ===== verification/Firewall.v ===== *)
(** * The host firewall

    src/host/firewall.c, firewall_legacy.c, firewall_nft.c and nft_control.c:
    one DNAT redirect from a public address and port to the TUN side, kept
    either as an nftables table of its own or as a chain and a jump of the
    legacy nat table. The firewall object is part of the state [fwst]; the
    machine is a [host] under the class [HostSys]. *)

From Stdlib Require Import ZArith Lia Bool List Ascii String.
From stdpp Require Import base tactics numbers list gmap strings.
From S2P Require Import Prelude CString StateMonad HostSys.
Local Open Scope Z_scope.

(** ** Data (firewall.h) *)

Definition TCP_SHIFT_FIREWALL_RESOURCE_MAX : Z := 64.
Definition TCP_SHIFT_FIREWALL_ADDRESS_MAX : Z := 64.

Definition TCP_SHIFT_FIREWALL_AUTO : Z := 0.
Definition TCP_SHIFT_FIREWALL_NFTABLES : Z := 1.
Definition TCP_SHIFT_FIREWALL_IPTABLES : Z := 2.
Definition TCP_SHIFT_FIREWALL_NONE : Z := 3.

(** A pointer member is [None] when NULL. *)
Record tcp_shift_firewall_spec := {
  sp_ip_version : Z;
  sp_resource_name : option cstring;
  sp_public_address : option cstring;
  sp_public_port : Z;
  sp_target_address : option cstring;
  sp_target_port : Z
}.

Record tcp_shift_firewall := {
  fw_backend : Z;
  fw_ip_version : Z;
  fw_installed : Z;
  fw_legacy_chain_created : Z;
  fw_legacy_jump_installed : Z;
  fw_resource_name : cstring;
  fw_public_address : cstring;
  fw_target_address : cstring;
  fw_public_port : Z;
  fw_target_port : Z
}.

(** The object after [memset] with zero. *)
Definition fw_zero : tcp_shift_firewall :=
  {| fw_backend := 0; fw_ip_version := 0; fw_installed := 0; fw_legacy_chain_created := 0;
     fw_legacy_jump_installed := 0; fw_resource_name := []; fw_public_address := [];
     fw_target_address := []; fw_public_port := 0; fw_target_port := 0 |}.

Definition set_backend (b : Z) (f : tcp_shift_firewall) : tcp_shift_firewall :=
  {| fw_backend := b; fw_ip_version := fw_ip_version f; fw_installed := fw_installed f;
     fw_legacy_chain_created := fw_legacy_chain_created f;
     fw_legacy_jump_installed := fw_legacy_jump_installed f;
     fw_resource_name := fw_resource_name f; fw_public_address := fw_public_address f;
     fw_target_address := fw_target_address f; fw_public_port := fw_public_port f;
     fw_target_port := fw_target_port f |}.
(** The three ownership flags. *)
Definition set_flags (installed chain jump : Z) (f : tcp_shift_firewall) : tcp_shift_firewall :=
  {| fw_backend := fw_backend f; fw_ip_version := fw_ip_version f; fw_installed := installed;
     fw_legacy_chain_created := chain; fw_legacy_jump_installed := jump;
     fw_resource_name := fw_resource_name f; fw_public_address := fw_public_address f;
     fw_target_address := fw_target_address f; fw_public_port := fw_public_port f;
     fw_target_port := fw_target_port f |}.
Definition set_installed (b : Z) (f : tcp_shift_firewall) : tcp_shift_firewall :=
  set_flags b (fw_legacy_chain_created f) (fw_legacy_jump_installed f) f.
Definition set_chain_created (b : Z) (f : tcp_shift_firewall) : tcp_shift_firewall :=
  set_flags (fw_installed f) b (fw_legacy_jump_installed f) f.
Definition set_jump_installed (b : Z) (f : tcp_shift_firewall) : tcp_shift_firewall :=
  set_flags (fw_installed f) (fw_legacy_chain_created f) b f.

(** ** Backends by name *)

(** The parsed backend; [None] is the [EINVAL] return. *)
Definition tcp_shift_firewall_backend_parse (text : option cstring) : option Z :=
  match text with
  | None | Some [] => Some TCP_SHIFT_FIREWALL_AUTO
  | Some t =>
      if str_eqb t (lit "auto") then Some TCP_SHIFT_FIREWALL_AUTO
      else if str_eqb t (lit "nftables") then Some TCP_SHIFT_FIREWALL_NFTABLES
      else if str_eqb t (lit "iptables") then Some TCP_SHIFT_FIREWALL_IPTABLES
      else if str_eqb t (lit "none") then Some TCP_SHIFT_FIREWALL_NONE
      else None
  end.

Definition tcp_shift_firewall_backend_name (backend : Z) : cstring :=
  if backend =? TCP_SHIFT_FIREWALL_AUTO then lit "auto"
  else if backend =? TCP_SHIFT_FIREWALL_NFTABLES then lit "nftables"
  else if backend =? TCP_SHIFT_FIREWALL_IPTABLES then lit "iptables"
  else if backend =? TCP_SHIFT_FIREWALL_NONE then lit "none"
  else lit "invalid".

(** ** Texts *)

(** ["%s:%u"] or ["[%s]:%u"] *)
Definition destination_text (f : tcp_shift_firewall) : cstring :=
  if fw_ip_version f =? 4
  then fw_target_address f ++ lit ":" ++ print_dec (fw_target_port f)
  else lit "[" ++ fw_target_address f ++ lit "]:" ++ print_dec (fw_target_port f).

(** [char port[6]; snprintf(port, sizeof(port), "%u", ...)] *)
Definition port_text (p : Z) : cstring := take 5 (print_dec p).

Definition nft_family (v : Z) : cstring := if v =? 4 then lit "ip" else lit "ip6".

Definition newline : cstring := [ascii_of_N 10].

Definition nft_install_batch (f : tcp_shift_firewall) : cstring :=
  let family := nft_family (fw_ip_version f) in
  let l4_guard := if fw_ip_version f =? 4 then [] else lit "meta l4proto tcp " in
  lit "create table " ++ family ++ lit " " ++ fw_resource_name f ++ newline ++
  lit "add chain " ++ family ++ lit " " ++ fw_resource_name f ++
  lit " prerouting { type nat hook prerouting priority -100; policy accept; }" ++ newline ++
  lit "add rule " ++ family ++ lit " " ++ fw_resource_name f ++ lit " prerouting " ++
  family ++ lit " daddr " ++ fw_public_address f ++ lit " " ++ l4_guard ++ lit "tcp dport " ++
  print_dec (fw_public_port f) ++ lit " counter dnat to " ++ destination_text f ++ newline.

Definition nft_delete_batch (f : tcp_shift_firewall) : cstring :=
  lit "delete table " ++ nft_family (fw_ip_version f) ++ lit " " ++ fw_resource_name f ++ newline.

(** The arguments of the rules after the chain's name. *)
Definition dnat_rule (f : tcp_shift_firewall) : rule :=
  [lit "-p"; lit "tcp"; lit "-j"; lit "DNAT"; lit "--to-destination"; destination_text f].
Definition jump_rule (f : tcp_shift_firewall) : rule :=
  [lit "-d"; fw_public_address f; lit "-p"; lit "tcp"; lit "--dport"; port_text (fw_public_port f);
   lit "-j"; fw_resource_name f].

(** The candidate tools. *)
Definition ipv4_legacy : list cstring :=
  [lit "/usr/sbin/iptables-legacy"; lit "/usr/bin/iptables-legacy";
   lit "/sbin/iptables-legacy"; lit "/bin/iptables-legacy"].
Definition ipv6_legacy : list cstring :=
  [lit "/usr/sbin/ip6tables-legacy"; lit "/usr/bin/ip6tables-legacy";
   lit "/sbin/ip6tables-legacy"; lit "/bin/ip6tables-legacy"].
Definition ipv4_plain : list cstring :=
  [lit "/usr/sbin/iptables"; lit "/usr/bin/iptables"; lit "/sbin/iptables"; lit "/bin/iptables"].
Definition ipv6_plain : list cstring :=
  [lit "/usr/sbin/ip6tables"; lit "/usr/bin/ip6tables"; lit "/sbin/ip6tables"; lit "/bin/ip6tables"].

(** ** State *)

Record fwst {W : Type} := { fs_fw : tcp_shift_firewall; fs_host : host W }.
Arguments fwst : clear implicits.

Section Firewall.
Context {W : Type} `{HostSys W}.

Definition on_host {A} (m : M (host W) A) : M (fwst W) A := fun s =>
  ((m (fs_host s)).1, {| fs_fw := fs_fw s; fs_host := (m (fs_host s)).2 |}).
Definition fw_get {A} (f : tcp_shift_firewall -> A) : M (fwst W) A := gets (fun s => f (fs_fw s)).
Definition fw_mod (f : tcp_shift_firewall -> tcp_shift_firewall) : M (fwst W) unit :=
  modify (fun s => {| fs_fw := f (fs_fw s); fs_host := fs_host s |}).
Definition fw_errno : M (fwst W) Z := gets (fun s => h_errno (fs_host s)).
Definition fw_fail (e : Z) : M (fwst W) Z := on_host (fail_with e).
Definition fw_set_errno (e : Z) : M (fwst W) unit := on_host (set_errno e).

(** ** Forwarding switches (firewall.c) *)

Definition tcp_shift_forwarding_enabled (path : cstring) : M (host W) Z :=
  let! r := ask (sys_first_char path) in
  match r with
  | OpenFailed e => fail_with e
  | AtEof => fail_with EIO
  | GotChar _ (Some e) => fail_with e
  | GotChar c None => ret (if Ascii.eqb c "1" then 1 else 0)
  end.

Definition tcp_shift_host_ipv4_forwarding_enabled : M (host W) Z :=
  tcp_shift_forwarding_enabled (lit "/proc/sys/net/ipv4/ip_forward").
Definition tcp_shift_host_ipv6_forwarding_enabled : M (host W) Z :=
  tcp_shift_forwarding_enabled (lit "/proc/sys/net/ipv6/conf/all/forwarding").

(** ** libnftables (nft_control.c) *)

(** The symbols [tcp_shift_nft_api_open] resolves, in its order. *)
Definition nft_symbols : list cstring :=
  [lit "nft_ctx_new"; lit "nft_ctx_free"; lit "nft_ctx_set_dry_run"; lit "nft_ctx_buffer_output";
   lit "nft_ctx_buffer_error"; lit "nft_ctx_get_output_buffer"; lit "nft_ctx_get_error_buffer";
   lit "nft_run_cmd_from_buffer"].

Definition tcp_shift_nft_load_symbol (name : cstring) : M (host W) Z :=
  let! found := ask (sys_dlsym name) in ret (if found then 0 else -1).

Fixpoint load_symbols (names : list cstring) : M (host W) Z :=
  match names with
  | [] => ret 1
  | n :: names' =>
      let! r := tcp_shift_nft_load_symbol n in
      if r <? 0 then add_libs (-1) ;; ret 0 else load_symbols names'
  end.

Fixpoint open_library (names : list cstring) : M (host W) bool :=
  match names with
  | [] => ret false
  | n :: names' =>
      let! ok := call (sys_dlopen n) in
      if ok then add_libs 1 ;; ret true else open_library names'
  end.

Definition tcp_shift_nft_api_open : M (host W) Z :=
  let! ok := open_library [lit "libnftables.so.1"; lit "libnftables.so"] in
  if negb ok then ret 0 else load_symbols nft_symbols.

(** The library is loaded when this runs. *)
Definition tcp_shift_nft_api_close : M (host W) unit := add_libs (-1).

Definition tcp_shift_nft_permission_error (saved_errno : Z) (message : option cstring) : bool :=
  (saved_errno =? EPERM) || (saved_errno =? EACCES) ||
  match message with
  | Some m => strstr m (lit "Operation not permitted") || strstr m (lit "Permission denied")
  | None => false
  end.

(** On 1 a context is held and the library is loaded. *)
Definition tcp_shift_nft_prepare : M (host W) Z :=
  let! available := tcp_shift_nft_api_open in
  if available <=? 0 then set_errno EOPNOTSUPP ;; ret available
  else
    let! created := call nft_ctx_new in
    if negb created then tcp_shift_nft_api_close ;; fail_with ENOMEM
    else
      add_ctxs 1 ;;
      let! o := call nft_ctx_buffer_output in
      let! e := (if negb (o =? 0) then ret 1 else call nft_ctx_buffer_error) in
      if negb (e =? 0) then
        add_ctxs (-1) ;; tcp_shift_nft_api_close ;; fail_with ENOMEM
      else ret 1.

Definition tcp_shift_nft_control_probe : M (host W) Z :=
  let! prepared := tcp_shift_nft_prepare in
  if prepared <=? 0 then ret prepared
  else
    set_errno 0 ;;
    let! (result, saved_errno) := call (nft_run_cmd false (lit "list tables")) in
    let! message := ask nft_error_buffer in
    let permission_error := tcp_shift_nft_permission_error saved_errno message in
    add_ctxs (-1) ;;
    tcp_shift_nft_api_close ;;
    if result =? 0 then ret 1
    else if permission_error then
      fail_with (if negb (saved_errno =? 0) then saved_errno else EPERM)
    else set_errno 0 ;; ret 0.

(** [None] is the NULL stream. *)
Definition tcp_shift_nft_emit (stream : option Z) (text : option cstring) : M (host W) unit :=
  match stream, text with
  | Some fd, Some (c :: t) =>
      call (fun w => (tt, sys_fputs fd (c :: t) w)) ;;
      when (negb (match last (c :: t) with Some x => code x =? 10 | None => true end))
           (call (fun w => (tt, sys_fputs fd newline w)))
  | _, _ => ret tt
  end.

Definition tcp_shift_nft_control_run (commands : option cstring) (dry_run : Z)
    (output_stream error_stream : option Z) : M (host W) Z :=
  match commands with
  | None | Some [] => fail_with EINVAL
  | Some text =>
      let! prepared := tcp_shift_nft_prepare in
      if prepared <=? 0 then
        when (prepared =? 0) (set_errno EOPNOTSUPP) ;; ret (-1)
      else
        set_errno 0 ;;
        let! (result, saved_errno) := call (nft_run_cmd (negb (dry_run =? 0)) text) in
        let! output := ask nft_output_buffer in
        let! message := ask nft_error_buffer in
        tcp_shift_nft_emit output_stream output ;;
        when (negb (result =? 0)) (tcp_shift_nft_emit error_stream message) ;;
        add_ctxs (-1) ;;
        tcp_shift_nft_api_close ;;
        if negb (result =? 0) then
          fail_with (if negb (saved_errno =? 0) then saved_errno else EPROTO)
        else ret 0
  end.

(** ** The nftables backend (firewall_nft.c) *)

Definition tcp_shift_firewall_nft_probe : M (host W) Z := tcp_shift_nft_control_probe.

Definition tcp_shift_firewall_nft_run (commands : cstring) (dry_run : Z) : M (host W) Z :=
  tcp_shift_nft_control_run (Some commands) dry_run None (Some 2).

Definition tcp_shift_firewall_nft_install : M (fwst W) Z :=
  let! fw := fw_get id in
  if negb (fw_backend fw =? TCP_SHIFT_FIREWALL_NFTABLES) then fw_fail EINVAL
  else if negb ((fw_ip_version fw =? 4) || (fw_ip_version fw =? 6)) then fw_fail EAFNOSUPPORT
  else if strlen (destination_text fw) >=? TCP_SHIFT_FIREWALL_ADDRESS_MAX + 16 then fw_fail EOVERFLOW
  else
    let batch := nft_install_batch fw in
    if strlen batch >=? 1024 then fw_fail EOVERFLOW
    else
      let! dry := on_host (tcp_shift_firewall_nft_run batch 1) in
      if dry <? 0 then ret (-1)
      else
        let! real := on_host (tcp_shift_firewall_nft_run batch 0) in
        if real <? 0 then ret (-1)
        else fw_mod (set_installed 1) ;; ret 0.

Definition tcp_shift_firewall_nft_remove : M (fwst W) Z :=
  let! fw := fw_get id in
  if negb (fw_backend fw =? TCP_SHIFT_FIREWALL_NFTABLES) || (fw_installed fw =? 0) then fw_fail EINVAL
  else if negb ((fw_ip_version fw =? 4) || (fw_ip_version fw =? 6)) then fw_fail EAFNOSUPPORT
  else
    let batch := nft_delete_batch fw in
    if strlen batch >=? 128 then fw_fail EOVERFLOW
    else
      let! r := on_host (tcp_shift_firewall_nft_run batch 0) in
      if r <? 0 then ret (-1) else fw_mod (set_installed 0) ;; ret 0.

(** ** The legacy backend (firewall_legacy.c) *)

Definition TCP_SHIFT_LEGACY_VERSION_MAX : Z := 256.

(** The reads of the version text: at most 255 bytes of it. *)
Fixpoint read_loop (fuel : nat) (buffer : cstring) : M (host W) cstring :=
  match fuel with
  | O => ret buffer
  | S f =>
      if strlen buffer + 1 <? TCP_SHIFT_LEGACY_VERSION_MAX then
        let! r := call (sys_read (TCP_SHIFT_LEGACY_VERSION_MAX - strlen buffer - 1)) in
        match r with
        | ReadData bytes => read_loop f (buffer ++ bytes)
        | ReadInterrupted => set_errno EINTR ;; read_loop f buffer
        | ReadEnd => ret buffer
        end
      else ret buffer
  end.

Definition tcp_shift_legacy_version_is_nf_tables (path : cstring) : M (host W) Z :=
  let! failed := call sys_pipe in
  match failed with
  | Some e => fail_with e
  | None =>
      add_fds 2 ;;
      let! child := call (sys_spawn true path [path; lit "--version"]) in
      match child with
      | inl e => add_fds (-1) ;; add_fds (-1) ;; fail_with e
      | inr pid =>
          add_fds (-1) ;;
          let! fuel := ask (fun w => (256 + sys_retries w)%nat) in
          let! buffer := read_loop fuel [] in
          add_fds (-1) ;;
          let! waited := tcp_shift_wait_child pid in
          if waited <? 0 then ret (-1)
          else ret (if strstr (c_str buffer) (lit "nf_tables") then 1 else 0)
      end
  end.

Fixpoint find_legacy (paths : list cstring) : M (host W) (option cstring) :=
  match paths with
  | [] => ret None
  | p :: paths' =>
      let! ok := ask (sys_access p) in
      if ok then ret (Some p) else find_legacy paths'
  end.

Fixpoint find_plain (paths : list cstring) : M (host W) (option cstring) :=
  match paths with
  | [] => ret None
  | p :: paths' =>
      let! ok := ask (sys_access p) in
      if negb ok then find_plain paths'
      else
        let! nft_backend := tcp_shift_legacy_version_is_nf_tables p in
        if nft_backend =? 0 then ret (Some p) else find_plain paths'
  end.

(** [None] is NULL. *)
Definition tcp_shift_legacy_find_tool (ip_version : Z) : M (host W) (option cstring) :=
  if negb ((ip_version =? 4) || (ip_version =? 6)) then set_errno EAFNOSUPPORT ;; ret None
  else
    let legacy := if ip_version =? 4 then ipv4_legacy else ipv6_legacy in
    let plain := if ip_version =? 4 then ipv4_plain else ipv6_plain in
    let! first := find_legacy legacy in
    match first with
    | Some p => ret (Some p)
    | None =>
        let! second := find_plain plain in
        match second with
        | Some p => ret (Some p)
        | None => set_errno ENOENT ;; ret None
        end
    end.

Definition tcp_shift_firewall_legacy_probe (ip_version : Z) : M (host W) Z :=
  let! tool := tcp_shift_legacy_find_tool ip_version in
  ret (match tool with Some _ => 1 | None => 0 end).

Definition tcp_shift_legacy_delete_jump (fw : tcp_shift_firewall) (tool : cstring) : M (host W) Z :=
  tcp_shift_legacy_run tool (nat_argv tool (lit "-D") (lit "PREROUTING" :: jump_rule fw)).
Definition tcp_shift_legacy_flush_chain (fw : tcp_shift_firewall) (tool : cstring) : M (host W) Z :=
  tcp_shift_legacy_run tool (nat_argv tool (lit "-F") [fw_resource_name fw]).
Definition tcp_shift_legacy_delete_chain (fw : tcp_shift_firewall) (tool : cstring) : M (host W) Z :=
  tcp_shift_legacy_run tool (nat_argv tool (lit "-X") [fw_resource_name fw]).

(** The first half of the rollback: the jump; [result] and [saved_errno]. *)
Definition rollback_jump (tool : cstring) : M (fwst W) (Z * Z) :=
  let! fw := fw_get id in
  if negb (fw_legacy_jump_installed fw =? 0) then
    let! r := on_host (tcp_shift_legacy_delete_jump fw tool) in
    if r =? 0 then fw_mod (set_jump_installed 0) ;; ret (0, 0)
    else let! e := fw_errno in ret (-1, e)
  else ret (0, 0).

(** The second half: the chain, only once no jump leads to it. *)
Definition rollback_chain (tool : cstring) (result saved_errno : Z) : M (fwst W) (Z * Z) :=
  let! fw := fw_get id in
  if negb (fw_legacy_chain_created fw =? 0) && (fw_legacy_jump_installed fw =? 0) then
    let failed := let! e := fw_errno in ret (-1, if saved_errno =? 0 then e else saved_errno) in
    let! flushed := on_host (tcp_shift_legacy_flush_chain fw tool) in
    if flushed <? 0 then failed
    else
      let! deleted := on_host (tcp_shift_legacy_delete_chain fw tool) in
      if deleted =? 0 then fw_mod (set_chain_created 0) ;; ret (result, saved_errno)
      else failed
  else ret (result, saved_errno).

Definition tcp_shift_legacy_rollback (tool : cstring) : M (fwst W) Z :=
  let! (result, saved_errno) := rollback_jump tool in
  let! (result, saved_errno) := rollback_chain tool result saved_errno in
  fw_mod (fun fw => set_installed
    (if negb (fw_legacy_jump_installed fw =? 0) || negb (fw_legacy_chain_created fw =? 0) then 1 else 0) fw) ;;
  when (result <? 0) (fw_set_errno (if negb (saved_errno =? 0) then saved_errno else EPROTO)) ;;
  ret result.

(** The failure exit of the two later commands. *)
Definition install_undo (tool : cstring) : M (fwst W) Z :=
  let! saved_errno := fw_errno in
  let! _ := tcp_shift_legacy_rollback tool in
  fw_set_errno saved_errno ;; ret (-1).

Definition tcp_shift_firewall_legacy_install : M (fwst W) Z :=
  let! fw := fw_get id in
  if negb (fw_backend fw =? TCP_SHIFT_FIREWALL_IPTABLES) then fw_fail EINVAL
  else
    let! found := on_host (tcp_shift_legacy_find_tool (fw_ip_version fw)) in
    match found with
    | None => ret (-1)
    | Some tool =>
        if negb ((fw_ip_version fw =? 4) || (fw_ip_version fw =? 6)) then fw_fail EAFNOSUPPORT
        else if strlen (destination_text fw) >=? TCP_SHIFT_FIREWALL_ADDRESS_MAX + 16 then fw_fail EOVERFLOW
        else
          let! created := on_host (tcp_shift_legacy_run tool
            (nat_argv tool (lit "-N") [fw_resource_name fw])) in
          if created <? 0 then ret (-1)
          else
            fw_mod (set_chain_created 1) ;;
            let! dnat := on_host (tcp_shift_legacy_run tool
              (nat_argv tool (lit "-A") (fw_resource_name fw :: dnat_rule fw))) in
            if dnat <? 0 then install_undo tool
            else
              let! jump := on_host (tcp_shift_legacy_run tool
                (nat_argv tool (lit "-I") (lit "PREROUTING" :: lit "1" :: jump_rule fw))) in
              if jump <? 0 then install_undo tool
              else fw_mod (set_jump_installed 1) ;; fw_mod (set_installed 1) ;; ret 0
    end.

Definition tcp_shift_firewall_legacy_remove : M (fwst W) Z :=
  let! fw := fw_get id in
  if negb (fw_backend fw =? TCP_SHIFT_FIREWALL_IPTABLES) || (fw_installed fw =? 0) then fw_fail EINVAL
  else
    let! found := on_host (tcp_shift_legacy_find_tool (fw_ip_version fw)) in
    match found with
    | None => ret (-1)
    | Some tool => tcp_shift_legacy_rollback tool
    end.

(** ** The firewall (firewall.c) *)

(** 0, or the errno of the refusal. *)
Definition tcp_shift_firewall_valid_resource (name : option cstring) : Z :=
  match name with
  | None => EINVAL
  | Some [] => ENAMETOOLONG
  | Some (c :: rest) =>
      if strlen (c :: rest) >=? TCP_SHIFT_FIREWALL_RESOURCE_MAX then ENAMETOOLONG
      else if negb (islower c || isupper c || Ascii.eqb c "_") then EINVAL
      else if forallb (fun b => isalnum b || Ascii.eqb b "_") rest then 0
      else EINVAL
  end.

Definition tcp_shift_firewall_valid_ip (text : option cstring) (ip_version : Z) : Z :=
  if negb ((ip_version =? 4) || (ip_version =? 6)) then EAFNOSUPPORT
  else match text with
       | None => EINVAL
       | Some t => match sys_inet_pton ip_version t with Some _ => 0 | None => EINVAL end
       end.

Definition tcp_shift_firewall_prepare (spec : option tcp_shift_firewall_spec) : M (fwst W) Z :=
  let! fw := fw_get id in
  match spec with
  | None => fw_fail EINVAL
  | Some sp =>
      if (sp_public_port sp =? 0) || (sp_target_port sp =? 0) then fw_fail EINVAL
      else if negb (fw_installed fw =? 0) then fw_fail EALREADY
      else
        let r := tcp_shift_firewall_valid_resource (sp_resource_name sp) in
        let p := tcp_shift_firewall_valid_ip (sp_public_address sp) (sp_ip_version sp) in
        let t := tcp_shift_firewall_valid_ip (sp_target_address sp) (sp_ip_version sp) in
        if negb (r =? 0) then fw_fail r
        else if negb (p =? 0) then fw_fail p
        else if negb (t =? 0) then fw_fail t
        else
          let name := default [] (sp_resource_name sp) in
          let public := default [] (sp_public_address sp) in
          let target := default [] (sp_target_address sp) in
          if (strlen public >=? TCP_SHIFT_FIREWALL_ADDRESS_MAX) ||
             (strlen target >=? TCP_SHIFT_FIREWALL_ADDRESS_MAX) then fw_fail ENAMETOOLONG
          else
            fw_mod (fun _ =>
              {| fw_backend := 0; fw_ip_version := sp_ip_version sp; fw_installed := 0;
                 fw_legacy_chain_created := 0; fw_legacy_jump_installed := 0;
                 fw_resource_name := name; fw_public_address := public;
                 fw_target_address := target; fw_public_port := sp_public_port sp;
                 fw_target_port := sp_target_port sp |}) ;;
            ret 0
  end.

(** [saved_errno = ...; memset(firewall, 0, ...); errno = saved_errno; return -1;] *)
Definition install_refuse (e : Z) : M (fwst W) Z :=
  fw_mod (fun _ => fw_zero) ;; fw_fail e.

(** The choice among the backends: [inl] is the early return. *)
Definition select_nft (requested_backend : Z) : M (fwst W) (Z + Z) :=
  if (requested_backend =? TCP_SHIFT_FIREWALL_AUTO) ||
     (requested_backend =? TCP_SHIFT_FIREWALL_NFTABLES) then
    let! probe := on_host tcp_shift_firewall_nft_probe in
    let! e := fw_errno in
    if probe <? 0 then let! r := install_refuse e in ret (inl r)
    else if 0 <? probe then ret (inr TCP_SHIFT_FIREWALL_NFTABLES)
    else if requested_backend =? TCP_SHIFT_FIREWALL_NFTABLES then
      let! r := install_refuse EOPNOTSUPP in ret (inl r)
    else ret (inr TCP_SHIFT_FIREWALL_IPTABLES)
  else ret (inr requested_backend).

Definition select_legacy (selected : Z) : M (fwst W) (option Z) :=
  if selected =? TCP_SHIFT_FIREWALL_IPTABLES then
    let! v := fw_get fw_ip_version in
    let! probe := on_host (tcp_shift_firewall_legacy_probe v) in
    let! e := fw_errno in
    if probe <=? 0 then
      let! r := install_refuse (if probe <? 0 then e else ENOENT) in ret (Some r)
    else ret None
  else ret None.

(** What follows a failed backend. *)
Definition install_failed : M (fwst W) Z :=
  let! saved_errno := fw_errno in
  fw_mod (fun fw =>
    if (fw_installed fw =? 0) && (fw_legacy_chain_created fw =? 0) &&
       (fw_legacy_jump_installed fw =? 0) then fw_zero
    else set_installed 1 fw) ;;
  fw_fail saved_errno.

Definition tcp_shift_firewall_install (requested_backend : Z)
    (spec : option tcp_shift_firewall_spec) : M (fwst W) Z :=
  let! prepared := tcp_shift_firewall_prepare spec in
  if prepared <? 0 then ret (-1)
  else if requested_backend =? TCP_SHIFT_FIREWALL_NONE then
    fw_mod (set_backend TCP_SHIFT_FIREWALL_NONE) ;; ret 0
  else
    let! choice := select_nft requested_backend in
    match choice with
    | inl r => ret r
    | inr selected =>
        let! refused := select_legacy selected in
        match refused with
        | Some r => ret r
        | None =>
            fw_mod (set_backend selected) ;;
            let! r := (if selected =? TCP_SHIFT_FIREWALL_NFTABLES then tcp_shift_firewall_nft_install
                       else if selected =? TCP_SHIFT_FIREWALL_IPTABLES then tcp_shift_firewall_legacy_install
                       else fw_fail EINVAL) in
            if r =? 0 then ret 0 else install_failed
        end
    end.

Definition tcp_shift_firewall_remove : M (fwst W) Z :=
  let! fw := fw_get id in
  if fw_installed fw =? 0 then ret 0
  else if fw_backend fw =? TCP_SHIFT_FIREWALL_NFTABLES then tcp_shift_firewall_nft_remove
  else if fw_backend fw =? TCP_SHIFT_FIREWALL_IPTABLES then tcp_shift_firewall_legacy_remove
  else fw_fail EINVAL.

End Firewall.
