(* ===== verification/FirewallSpec.v ===== *)
(** * The firewall never leaks and never forgets

    The documented behaviour of the tools and of libnftables that the firewall
    code relies on ([HostLaws]), what the product owns of a machine's rules
    ([owns]), and the theorems: after any sequence of installs and removals,
    with any failures of the host, the rules are the rules from before plus
    exactly what the firewall object records, and nothing else is held. *)

From Stdlib Require Import ZArith Lia Bool List Ascii String.
From stdpp Require Import base tactics numbers list gmap strings.
From S2P Require Import Prelude CString StateMonad HostSys Firewall.
Local Open Scope Z_scope.

(** ** The laws *)

Definition plain_tools (v : Z) : list cstring := if v =? 4 then ipv4_plain else ipv6_plain.
Definition legacy_tools (v : Z) : list cstring := if v =? 4 then ipv4_legacy else ipv6_legacy.

(** A prepared object: its texts passed the checks of [tcp_shift_firewall_prepare]. *)
Record fw_ok `{HostSys W} (fw : tcp_shift_firewall) : Prop := {
  ok_version : fw_ip_version fw = 4 \/ fw_ip_version fw = 6;
  ok_name : tcp_shift_firewall_valid_resource (Some (fw_resource_name fw)) = 0;
  ok_public : tcp_shift_firewall_valid_ip (Some (fw_public_address fw)) (fw_ip_version fw) = 0;
  ok_target : tcp_shift_firewall_valid_ip (Some (fw_target_address fw)) (fw_ip_version fw) = 0;
  ok_public_len : strlen (fw_public_address fw) < TCP_SHIFT_FIREWALL_ADDRESS_MAX;
  ok_target_len : strlen (fw_target_address fw) < TCP_SHIFT_FIREWALL_ADDRESS_MAX
}.

Definition nft_key (fw : tcp_shift_firewall) : cstring * cstring :=
  (nft_family (fw_ip_version fw), fw_resource_name fw).

Class HostLaws (W : Type) `{HostSys W} := {
  (** the rules of the machine *)
  host_rules : W -> ruleset;
  (** the status a child that was not waited for has or will have *)
  host_child : W -> Z -> option exit_status;
  (** what is still to be read from the pipe *)
  host_output : W -> cstring;
  (** the executable works on the legacy nat table of that version *)
  legacy_tool : Z -> cstring -> bool;

  law_pipe w : host_rules (sys_pipe w).2 = host_rules w;
  law_spawn_failed out path argv w e w' :
    sys_spawn out path argv w = (inl e, w') -> host_rules w' = host_rules w;
  (** iptables(8): exit status 0 exactly when the command was applied, in one
      commit; any other end of the process leaves the table as it was *)
  law_iptables v tool op args w pid w' :
    legacy_tool v tool = true -> sys_spawn false tool (nat_argv tool op args) w = (inr pid, w') ->
    (host_child w' pid = Some (Exited 0) /\
     exists t, nat_command op args (rs_nat v (host_rules w)) = Some t /\
               host_rules w' = set_nat v t (host_rules w)) \/
    (exists st, host_child w' pid = Some st /\ st <> Exited 0 /\ host_rules w' = host_rules w);
  (** [iptables --version] changes nothing and names the nf_tables variant *)
  law_version path w pid w' :
    sys_spawn true path [path; lit "--version"] w = (inr pid, w') ->
    host_rules w' = host_rules w /\
    exists st, host_child w' pid = Some st /\
      forall v, In path (plain_tools v) -> st = Exited 0 ->
        strstr (c_str (take 255 (host_output w'))) (lit "nf_tables") = false ->
        legacy_tool v path = true;
  law_legacy v path : In path (legacy_tools v) -> legacy_tool v path = true;
  (** read(2) of a pipe whose writer is the child *)
  law_read size w r w' :
    0 < size -> sys_read size w = (r, w') ->
    host_rules w' = host_rules w /\ (forall pid, host_child w' pid = host_child w pid) /\
    match r with
    | ReadData d => 0 < strlen d <= size /\ host_output w = d ++ host_output w' /\
                    (sys_retries w' <= sys_retries w)%nat
    | ReadInterrupted => host_output w' = host_output w /\ (sys_retries w' < sys_retries w)%nat
    | ReadEnd => host_output w = []
    end;
  (** waitpid(2) of a child that exists: its status or an interruption *)
  law_wait pid st w r w' :
    host_child w pid = Some st -> sys_waitpid pid w = (r, w') ->
    host_rules w' = host_rules w /\
    (r = Reaped st \/
     (r = WaitInterrupted /\ host_child w' pid = Some st /\ (sys_retries w' < sys_retries w)%nat));
  law_dlopen n w : host_rules (sys_dlopen n w).2 = host_rules w;
  law_fputs fd t w : host_rules (sys_fputs fd t w) = host_rules w;
  law_ctx_new w : host_rules (nft_ctx_new w).2 = host_rules w;
  law_buffer_output w : host_rules (nft_ctx_buffer_output w).2 = host_rules w;
  law_buffer_error w : host_rules (nft_ctx_buffer_error w).2 = host_rules w;
  (** nft(8): a batch is one transaction, a dry run and a listing change nothing *)
  law_nft_dry t w : host_rules (nft_run_cmd true t w).2 = host_rules w;
  law_nft_list w : host_rules (nft_run_cmd false (lit "list tables") w).2 = host_rules w;
  law_nft_failed t w :
    (nft_run_cmd false t w).1.1 <> 0 -> host_rules (nft_run_cmd false t w).2 = host_rules w;
  law_nft_create fw w :
    fw_ok fw -> (nft_run_cmd false (nft_install_batch fw) w).1.1 = 0 ->
    rs_nft (host_rules w) !! nft_key fw = None /\
    host_rules (nft_run_cmd false (nft_install_batch fw) w).2 =
      set_nft (<[nft_key fw := nft_install_batch fw]> (rs_nft (host_rules w))) (host_rules w);
  law_nft_delete fw w :
    fw_ok fw -> (nft_run_cmd false (nft_delete_batch fw) w).1.1 = 0 ->
    host_rules (nft_run_cmd false (nft_delete_batch fw) w).2 =
      set_nft (delete (nft_key fw) (rs_nft (host_rules w))) (host_rules w)
}.

(** ** What the product owns *)

Section Owns.
Context {W : Type} `{HostSys W}.

Definition version_of (fw : tcp_shift_firewall) : Z := fw_ip_version fw.

(** The legacy table with the product's chain, and with the jump to it. *)
Definition with_chain (fw : tcp_shift_firewall) (content : list rule) (base : ruleset) : ruleset :=
  set_nat (fw_ip_version fw)
    (set_chain (fw_resource_name fw) content (rs_nat (fw_ip_version fw) base)) base.
Definition with_redirect (fw : tcp_shift_firewall) (base : ruleset) : ruleset :=
  let t := rs_nat (fw_ip_version fw) base in
  set_nat (fw_ip_version fw)
    (set_prerouting (jump_rule fw :: nt_prerouting t)
       (set_chain (fw_resource_name fw) [dnat_rule fw] t)) base.
Definition with_table (fw : tcp_shift_firewall) (base : ruleset) : ruleset :=
  set_nft (<[nft_key fw := nft_install_batch fw]> (rs_nft base)) base.

(** [owns base fw rules]: the machine has [rules], which are [base] and what
    [fw] records. *)
Inductive owns (base : ruleset) (fw : tcp_shift_firewall) : ruleset -> Prop :=
| owns_nothing :
    fw_installed fw = 0 -> fw_legacy_chain_created fw = 0 -> fw_legacy_jump_installed fw = 0 ->
    owns base fw base
| owns_table :
    fw_ok fw -> fw_backend fw = TCP_SHIFT_FIREWALL_NFTABLES -> fw_installed fw = 1 ->
    fw_legacy_chain_created fw = 0 -> fw_legacy_jump_installed fw = 0 ->
    rs_nft base !! nft_key fw = None ->
    owns base fw (with_table fw base)
| owns_chain content :
    fw_ok fw -> fw_backend fw = TCP_SHIFT_FIREWALL_IPTABLES -> fw_installed fw = 1 ->
    fw_legacy_chain_created fw = 1 -> fw_legacy_jump_installed fw = 0 ->
    nt_chains (rs_nat (fw_ip_version fw) base) !! fw_resource_name fw = None ->
    content = [] \/ content = [dnat_rule fw] ->
    owns base fw (with_chain fw content base)
| owns_redirect :
    fw_ok fw -> fw_backend fw = TCP_SHIFT_FIREWALL_IPTABLES -> fw_installed fw = 1 ->
    fw_legacy_chain_created fw = 1 -> fw_legacy_jump_installed fw = 1 ->
    nt_chains (rs_nat (fw_ip_version fw) base) !! fw_resource_name fw = None ->
    owns base fw (with_redirect fw base).

End Owns.

(** ** Rules *)

Lemma rs_nat_set v t r : rs_nat v (set_nat v t r) = t.
Proof. unfold rs_nat, set_nat. by destruct (v =? 4). Qed.

Lemma set_nat_set v t t' r : set_nat v t (set_nat v t' r) = set_nat v t r.
Proof. unfold set_nat. by destruct (v =? 4). Qed.

Lemma set_nat_id v r : set_nat v (rs_nat v r) r = r.
Proof. unfold rs_nat, set_nat. by destruct (v =? 4), r. Qed.

Lemma str_eqb_refl a : str_eqb a a = true.
Proof. by apply str_eqb_eq. Qed.

Lemma rule_eqb_refl r : rule_eqb r r = true.
Proof. induction r as [|x r IH]; cbn; [done|]. by rewrite str_eqb_refl. Qed.

Lemma chain_gone n c t : nt_chains t !! n = None -> del_chain n (set_chain n c t) = t.
Proof.
  intros Hn. destruct t as [p cs]. unfold del_chain, set_chain; cbn in *.
  by rewrite delete_insert_id.
Qed.

Lemma chain_made n c t : nt_chains (set_chain n c t) !! n = Some c.
Proof. apply lookup_insert_eq. Qed.

Create Rewrite HintDb rules.
#[export] Hint Rewrite rs_nat_set set_nat_set set_nat_id str_eqb_refl rule_eqb_refl : rules.

(** What each command of the legacy backend does when it succeeds. *)
Section Commands.
Context {W : Type} `{HostSys W}.
Implicit Types (fw : tcp_shift_firewall) (base : ruleset).

Lemma create_command v n base t :
  nat_command (lit "-N") [n] (rs_nat v base) = Some t ->
  nt_chains (rs_nat v base) !! n = None /\ t = set_chain n [] (rs_nat v base).
Proof. cbn. destruct (_ !! n); [done|]. by intros [= <-]. Qed.

Lemma append_command fw base t :
  nat_command (lit "-A") (fw_resource_name fw :: dnat_rule fw)
    (rs_nat (fw_ip_version fw) (with_chain fw [] base)) = Some t ->
  set_nat (fw_ip_version fw) t (with_chain fw [] base) = with_chain fw [dnat_rule fw] base.
Proof.
  unfold with_chain. autorewrite with rules. cbn. rewrite lookup_insert_eq. intros [= <-].
  autorewrite with rules. f_equal. unfold set_chain; cbn. by rewrite insert_insert_eq.
Qed.

Lemma jump_command fw base t :
  nat_command (lit "-I") (lit "PREROUTING" :: lit "1" :: jump_rule fw)
    (rs_nat (fw_ip_version fw) (with_chain fw [dnat_rule fw] base)) = Some t ->
  set_nat (fw_ip_version fw) t (with_chain fw [dnat_rule fw] base) = with_redirect fw base.
Proof.
  unfold with_chain, with_redirect. autorewrite with rules. cbn -[jump_rule dnat_rule set_nat]. intros [= <-].
  by autorewrite with rules.
Qed.

Lemma unjump_command fw base t :
  nat_command (lit "-D") (lit "PREROUTING" :: jump_rule fw)
    (rs_nat (fw_ip_version fw) (with_redirect fw base)) = Some t ->
  set_nat (fw_ip_version fw) t (with_redirect fw base) = with_chain fw [dnat_rule fw] base.
Proof.
  unfold with_chain, with_redirect. autorewrite with rules.
  cbn -[jump_rule dnat_rule set_nat remove_rule]. cbn [remove_rule].
  rewrite rule_eqb_refl. intros [= <-]. by autorewrite with rules.
Qed.

Lemma flush_command fw content base t :
  nat_command (lit "-F") [fw_resource_name fw]
    (rs_nat (fw_ip_version fw) (with_chain fw content base)) = Some t ->
  set_nat (fw_ip_version fw) t (with_chain fw content base) = with_chain fw [] base.
Proof.
  unfold with_chain. autorewrite with rules. cbn. rewrite lookup_insert_eq. intros [= <-].
  autorewrite with rules. f_equal. unfold set_chain; cbn. by rewrite insert_insert_eq.
Qed.

Lemma unchain_command fw base t :
  nt_chains (rs_nat (fw_ip_version fw) base) !! fw_resource_name fw = None ->
  nat_command (lit "-X") [fw_resource_name fw]
    (rs_nat (fw_ip_version fw) (with_chain fw [] base)) = Some t ->
  set_nat (fw_ip_version fw) t (with_chain fw [] base) = base.
Proof.
  intros Hn. unfold with_chain. autorewrite with rules. cbn -[unreferenced set_nat set_chain del_chain]. rewrite chain_made.
  destruct (unreferenced _ _); [|done]. intros [= <-].
  rewrite chain_gone by done. apply set_nat_id.
Qed.

End Commands.

(** ** What is observed of a host *)

Section Observe.
Context {W : Type} `{HL : HostLaws W}.

Definition rules_of (h : host W) : ruleset := host_rules (h_world h).
(** What the process holds. *)
Definition ledger (h : host W) : Z * Z * Z := (h_fds h, h_libs h, h_ctxs h).

End Observe.

Ltac led := unfold ledger in *; cbn in *; simplify_eq;
  repeat first [done | lia | f_equal].

(** ** Quiet computations *)

Section Host.
Context {W : Type} `{HL : HostLaws W}.
Implicit Types (h : host W).

(** [m] leaves the rules alone. *)
Definition quiet {A} (m : M (host W) A) : Prop := forall r, keeps (fun h => rules_of h = r) m.

Lemma quiet_call {A} (f : W -> A * W) : (forall w, host_rules (f w).2 = host_rules w) -> quiet (call f).
Proof. intros Hf r h Hh. cbn. unfold rules_of in *; cbn. by rewrite Hf. Qed.

Lemma quiet_errno e : quiet (set_errno e).
Proof. intros r h Hh. exact Hh. Qed.
Lemma quiet_fds n : quiet (add_fds n).
Proof. intros r h Hh. exact Hh. Qed.
Lemma quiet_libs n : quiet (add_libs n).
Proof. intros r h Hh. exact Hh. Qed.
Lemma quiet_ctxs n : quiet (add_ctxs n).
Proof. intros r h Hh. exact Hh. Qed.
Lemma quiet_fail e : quiet (fail_with e).
Proof. intros r. unfold fail_with. apply keeps_bind; [apply quiet_errno|intros ?; apply keeps_ret]. Qed.

Lemma quiet_load names : quiet (load_symbols names).
Proof.
  intros r. induction names as [|n names IH]; cbn [load_symbols]; [apply keeps_ret|].
  apply keeps_bind; [unfold tcp_shift_nft_load_symbol, ask; keeps_walk|]. intros x.
  destruct (x <? 0); [|apply IH]. keeps_walk. apply quiet_libs.
Qed.

Lemma quiet_open names : quiet (open_library names).
Proof.
  intros r. induction names as [|n names IH]; cbn [open_library]; [apply keeps_ret|].
  apply keeps_bind; [apply quiet_call, law_dlopen|]. intros [|]; [|apply IH].
  keeps_walk. apply quiet_libs.
Qed.

Lemma quiet_prepare : quiet tcp_shift_nft_prepare.
Proof.
  intros r. unfold tcp_shift_nft_prepare, tcp_shift_nft_api_open, tcp_shift_nft_api_close.
  keeps_walk; try first [apply quiet_open | apply quiet_load | apply quiet_libs | apply quiet_ctxs
    | apply quiet_errno | apply quiet_fail | apply quiet_call];
    auto using law_ctx_new, law_buffer_output, law_buffer_error.
Qed.

Lemma quiet_emit fd t : quiet (tcp_shift_nft_emit fd t).
Proof.
  intros r. unfold tcp_shift_nft_emit. keeps_walk; apply quiet_call; intros w; apply law_fputs.
Qed.

(** *** The ledger *)

(** [m] ends with the process holding what it held. *)
Definition balanced {A} (m : M (host W) A) : Prop := forall h, ledger (m h).2 = ledger h.

Lemma balanced_bind {A B} (m : M (host W) A) (k : A -> M (host W) B) :
  balanced m -> (forall a, balanced (k a)) -> balanced (bind m k).
Proof. intros Hm Hk h. rewrite bind_run. by rewrite Hk, Hm. Qed.

Lemma ledger_load names h :
  let p := load_symbols names h in
  (p.1 = 1 /\ ledger p.2 = ledger h) \/
  (p.1 = 0 /\ ledger p.2 = (h_fds h, h_libs h - 1, h_ctxs h)).
Proof.
  cbn. revert h. induction names as [|n names IH]; intros h; [by left|]. cbn.
  destruct (sys_dlsym n (h_world h)); cbn; [apply IH|right; split; [done|f_equal; f_equal; lia]].
Qed.

Lemma ledger_open names h :
  let p := open_library names h in
  ledger p.2 = (h_fds h, h_libs h + (if p.1 then 1 else 0), h_ctxs h).
Proof.
  cbn. revert h. induction names as [|n names IH]; intros h; [cbn; by rewrite Z.add_0_r|].
  cbn [open_library]. rewrite bind_run. cbn [call fst snd].
  destruct (sys_dlopen n (h_world h)) as [[|] w]; cbn [fst snd]; [done|]. by rewrite IH.
Qed.

Lemma ledger_api h :
  let p := tcp_shift_nft_api_open h in
  (p.1 = 1 /\ ledger p.2 = (h_fds h, h_libs h + 1, h_ctxs h)) \/ (p.1 = 0 /\ ledger p.2 = ledger h).
Proof.
  cbn -[open_library load_symbols]. unfold tcp_shift_nft_api_open. rewrite bind_run.
  pose proof (ledger_open [lit "libnftables.so.1"; lit "libnftables.so"] h) as Ho.
  destruct (open_library _ h) as [ok h1]; cbn [fst snd] in *. destruct ok; cbn [negb].
  - pose proof (ledger_load nft_symbols h1) as Hl. cbn zeta in Hl. unfold ledger in *.
    destruct Hl as [[E1 E2]|[E1 E2]]; [left|right]; (split; [done|]); rewrite E2; led.
  - right. cbn. split; [done|]. rewrite Ho, Z.add_0_r. done.
Qed.

(** A context and the library are held exactly when the answer is positive. *)
Lemma ledger_prepare h :
  let p := tcp_shift_nft_prepare h in
  (p.1 = 1 /\ ledger p.2 = (h_fds h, h_libs h + 1, h_ctxs h + 1)) \/
  ((p.1 = 0 \/ p.1 = -1) /\ ledger p.2 = ledger h).
Proof.
  cbn zeta. unfold tcp_shift_nft_prepare. rewrite bind_run. pose proof (ledger_api h) as Ha. cbn zeta in Ha.
  destruct (tcp_shift_nft_api_open h) as [a h1]; cbn [fst snd] in *.
  destruct Ha as [[-> Ea]|[-> Ea]]; [|right; split; [by left|exact Ea]].
  change (1 <=? 0) with false. cbn iota. rewrite bind_run. cbn [call fst snd].
  destruct (nft_ctx_new (h_world h1)) as [[|] w2]; cbn [fst snd negb]; [|right; split; [by right|led]].
  do 2 (rewrite bind_run; cbn [call add_ctxs modify fst snd h_world]).
  destruct (nft_ctx_buffer_output w2) as [o w3]; cbn [fst snd].
  rewrite bind_run. destruct (o =? 0); cbn [negb].
  - cbn [call fst snd h_world]. destruct (nft_ctx_buffer_error w3) as [e w4]; cbn [fst snd].
    destruct (e =? 0); cbn [negb]; [left; split; [done|led]|right; split; [by right|led]].
  - right. split; [by right|led].
Qed.

Lemma ledger_emit fd t : balanced (tcp_shift_nft_emit fd t).
Proof.
  intros h. unfold tcp_shift_nft_emit. destruct fd as [fd|], t as [[|c t]|]; try done.
  rewrite bind_run. cbn [call fst snd]. by destruct (negb _).
Qed.

Lemma probe_spec h :
  let p := tcp_shift_firewall_nft_probe h in
  ledger p.2 = ledger h /\ rules_of p.2 = rules_of h.
Proof.
  cbn zeta. unfold tcp_shift_firewall_nft_probe, tcp_shift_nft_control_probe. rewrite bind_run.
  pose proof (ledger_prepare h) as Hl. pose proof (quiet_prepare _ h eq_refl) as Hq. cbn zeta in Hl.
  destruct (tcp_shift_nft_prepare h) as [a h1]; cbn [fst snd] in *.
  destruct Hl as [[-> El]|[[-> | ->] El]]; [|by cbn|by cbn].
  cbn. pose proof (law_nft_list (h_world h1)) as Hn.
  unfold rules_of in *. destruct (nft_run_cmd false _ (h_world h1)) as [[r e] w2]; cbn in *.
  repeat case_match; cbn; (split; [led|congruence]).
Qed.

(** What running a batch answers, and what it does. *)
Lemma nft_run_spec text dry h :
  text <> [] ->
  let p := tcp_shift_firewall_nft_run text dry h in
  ledger p.2 = ledger h /\
  ((p.1 = -1 /\ rules_of p.2 = rules_of h) \/
   (p.1 = 0 /\ exists w, host_rules w = rules_of h /\
      (nft_run_cmd (negb (dry =? 0)) text w).1.1 = 0 /\
      rules_of p.2 = host_rules (nft_run_cmd (negb (dry =? 0)) text w).2)).
Proof.
  intros Ht. cbn zeta. unfold tcp_shift_firewall_nft_run, tcp_shift_nft_control_run.
  destruct text as [|c text]; [done|]. set (txt := c :: text). rewrite bind_run.
  pose proof (ledger_prepare h) as Hl. pose proof (quiet_prepare _ h eq_refl) as Hq. cbn zeta in Hl.
  destruct (tcp_shift_nft_prepare h) as [a h1]; cbn [fst snd] in *.
  destruct Hl as [[-> El]|[[-> | ->] El]];
    [|cbn; split; [done|left; by split]|cbn; split; [done|left; by split]].
  change (1 <=? 0) with false. cbn iota. set (d := negb (dry =? 0)).
  pose proof (law_nft_dry txt (h_world h1)) as Hdry. pose proof (law_nft_failed txt (h_world h1)) as Hf.
  assert (Hr : (nft_run_cmd d txt (h_world h1)).1.1 <> 0 ->
               host_rules (nft_run_cmd d txt (h_world h1)).2 = rules_of h).
  { intros Hne. rewrite <- Hq. unfold rules_of. destruct d; [exact Hdry|by apply Hf]. }
  assert (Hw : exists w, host_rules w = rules_of h /\ w = h_world h1) by (eexists; eauto).
  do 2 (rewrite bind_run; cbn [call set_errno modify fst snd h_world]).
  destruct (nft_run_cmd d txt (h_world h1)) as [[r e] w2] eqn:Er; cbn [fst snd] in *.
  do 3 (rewrite bind_run; cbn [ask gets fst snd h_world]).
  change (tcp_shift_nft_emit None (nft_output_buffer w2)) with (ret (S := host W) tt). cbn [ret fst snd].
  rewrite bind_run. destruct (r =? 0) eqn:E0; cbn [negb when].
  - apply Z.eqb_eq in E0 as ->. split; [led|]. right. split; [done|].
    exists (h_world h1). rewrite Er. by cbn.
  - apply Z.eqb_neq in E0. specialize (Hr E0).
    match goal with |- context [tcp_shift_nft_emit _ _ ?h] => set (h2 := h) end.
    pose proof (ledger_emit (Some 2) (nft_error_buffer w2) h2) as Hel.
    pose proof (quiet_emit (Some 2) (nft_error_buffer w2) _ h2 eq_refl) as Heq. cbn beta in Heq.
    destruct (tcp_shift_nft_emit (Some 2) _ h2) as [[] h3]; cbn [fst snd] in *.
    cbn. split; [subst h2; led|]. left. split; [done|]. unfold rules_of in *; cbn in *. congruence.
Qed.

(** *** Children *)

Lemma wait_loop_spec fuel : forall h pid st,
  host_child (h_world h) pid = Some st -> (sys_retries (h_world h) < fuel)%nat ->
  let p := wait_loop fuel pid h in
  p.1 = Reaped st /\ ledger p.2 = ledger h /\ rules_of p.2 = rules_of h.
Proof.
  cbn zeta. induction fuel as [|f IH]; intros h pid st Hc Hf; [lia|]. cbn [wait_loop]. rewrite bind_run.
  cbn [call fst snd]. pose proof (law_wait pid st (h_world h)) as Hw.
  destruct (sys_waitpid pid (h_world h)) as [r w']; cbn [fst snd].
  destruct (Hw r w' Hc eq_refl) as [Hr [-> | (-> & Hc' & Hlt)]]; [done|].
  rewrite bind_run. match goal with |- context [wait_loop f pid ?x] =>
    destruct (IH x pid st Hc' ltac:(cbn; lia)) as (E1 & E2 & E3) end.
  split; [exact E1|]. split; [by rewrite E2|]. rewrite E3. exact Hr.
Qed.

(** The wait ends, and tells whether the child exited with status 0. *)
Lemma wait_child_spec h pid st :
  host_child (h_world h) pid = Some st ->
  let p := tcp_shift_wait_child pid h in
  ((p.1 = 0 /\ st = Exited 0) \/ (p.1 = -1 /\ st <> Exited 0)) /\
  ledger p.2 = ledger h /\ rules_of p.2 = rules_of h.
Proof.
  intros Hc. cbn zeta. unfold tcp_shift_wait_child. rewrite bind_run. cbn [ask gets fst snd]. rewrite bind_run.
  destruct (wait_loop_spec (S (sys_retries (h_world h))) h pid st Hc ltac:(lia)) as (E1 & E2 & E3).
  destruct (wait_loop _ pid h) as [r h1]; cbn [fst snd] in *. subst r.
  destruct st as [c|]; [destruct (c =? 0) eqn:Ec|]; (split; [|by split]).
  - left. split; [done|]. f_equal. lia.
  - right. split; [done|]. intros [= ->]. done.
  - by right.
Qed.

(** One command of the legacy tool: applied, or refused with the table as it was. *)
Lemma legacy_run_spec v tool op args h :
  legacy_tool v tool = true ->
  let p := tcp_shift_legacy_run tool (nat_argv tool op args) h in
  ledger p.2 = ledger h /\
  ((p.1 = 0 /\ exists t, nat_command op args (rs_nat v (rules_of h)) = Some t /\
                       rules_of p.2 = set_nat v t (rules_of h)) \/
   (p.1 = -1 /\ rules_of p.2 = rules_of h)).
Proof.
  intros Ht. cbn zeta. unfold tcp_shift_legacy_run. rewrite bind_run. cbn [call fst snd].
  pose proof (law_spawn_failed false tool (nat_argv tool op args) (h_world h)) as Hsf.
  pose proof (fun pid w' => law_iptables v tool op args (h_world h) pid w' Ht) as Hi.
  destruct (sys_spawn false tool _ (h_world h)) as [[e|pid] w1]; cbn [fst snd] in *.
  { split; [done|]. right. split; [done|]. by apply (Hsf e w1). }
  match goal with |- context [tcp_shift_wait_child _ ?x] => set (h1 := x) end.
  destruct (Hi pid w1 eq_refl) as [(Hc & t & Hn & Hr)|(st & Hc & Hne & Hr)].
  - destruct (wait_child_spec h1 pid (Exited 0) Hc) as ([[E _]|[_ E]] & El & Er); [|done].
    split; [by rewrite El|]. left. split; [done|]. exists t. split; [done|]. rewrite Er. exact Hr.
  - destruct (wait_child_spec h1 pid st Hc) as ([[_ E]|[E _]] & El & Er); [done|].
    split; [by rewrite El|]. right. split; [done|]. rewrite Er. exact Hr.
Qed.

(** *** The tool *)

(** The version text is read up to 255 bytes, however the reads split it. *)
Lemma read_loop_spec fuel : forall h buffer,
  strlen buffer <= 255 -> (255 - Z.to_nat (strlen buffer) + sys_retries (h_world h) < fuel)%nat ->
  let p := read_loop fuel buffer h in
  p.1 = take 255 (buffer ++ host_output (h_world h)) /\
  ledger p.2 = ledger h /\ rules_of p.2 = rules_of h /\
  forall pid, host_child (h_world p.2) pid = host_child (h_world h) pid.
Proof.
  cbn zeta. unfold strlen. induction fuel as [|f IH]; intros h buffer Hb Hf; [lia|]. cbn [read_loop]. unfold strlen.
  destruct (_ <? TCP_SHIFT_LEGACY_VERSION_MAX) eqn:E; unfold TCP_SHIFT_LEGACY_VERSION_MAX in E.
  2: { cbn. split; [|done]. rewrite take_app_le, take_ge by lia. done. }
  rewrite bind_run. cbn [call fst snd]. unfold TCP_SHIFT_LEGACY_VERSION_MAX.
  pose proof (law_read (256 - Z.of_nat (List.length buffer) - 1) (h_world h)) as Hl.
  destruct (sys_read _ (h_world h)) as [r w']; cbn [fst snd].
  destruct (Hl r w' ltac:(lia) eq_refl) as (Hr & Hc & Hm). unfold strlen in Hm. destruct r as [d| |].
  - destruct Hm as (Hd & Ho & Hle). match goal with |- context [read_loop f _ ?x] =>
      destruct (IH x (buffer ++ d)) as (E1 & E2 & E3 & E4) end;
      [rewrite length_app; lia|rewrite length_app; cbn; lia|].
    split; [rewrite E1; cbn; by rewrite <- app_assoc, <- Ho|]. split; [by rewrite E2|].
    split; [rewrite E3; exact Hr|]. intros pid. rewrite E4. apply Hc.
  - destruct Hm as (Ho & Hlt). rewrite bind_run. match goal with |- context [read_loop f _ ?x] =>
      destruct (IH x buffer) as (E1 & E2 & E3 & E4) end;
      [lia|cbn; lia|].
    split; [rewrite E1; cbn; by rewrite Ho|]. split; [by rewrite E2|].
    split; [rewrite E3; exact Hr|]. intros pid. rewrite E4. apply Hc.
  - cbn. rewrite Hm, app_nil_r, take_ge by lia. done.
Qed.

(** Answer 0: the executable is the legacy variant. *)
Lemma version_spec v path h :
  In path (plain_tools v) ->
  let p := tcp_shift_legacy_version_is_nf_tables path h in
  ledger p.2 = ledger h /\ rules_of p.2 = rules_of h /\ (p.1 = 0 -> legacy_tool v path = true).
Proof.
  intros Hin. cbn zeta. unfold tcp_shift_legacy_version_is_nf_tables. rewrite bind_run. cbn [call fst snd].
  pose proof (law_pipe (h_world h)) as Hp.
  destruct (sys_pipe (h_world h)) as [[e|] w1]; cbn [fst snd] in *; [done|].
  do 2 (rewrite bind_run; cbn [call add_fds modify fst snd h_world]).
  pose proof (law_spawn_failed true path [path; lit "--version"] w1) as Hsf.
  pose proof (law_version path w1) as Hv.
  destruct (sys_spawn true path _ w1) as [[e|pid] w2]; cbn [fst snd].
  { cbn. unfold rules_of; cbn. rewrite (Hsf e w2 eq_refl), Hp. split; [led|done]. }
  destruct (Hv pid w2 eq_refl) as (Hr & st & Hc & Hleg).
  do 3 (rewrite bind_run; cbn [ask gets add_fds modify fst snd h_world]).
  match goal with |- context [read_loop ?f [] ?x] =>
    destruct (read_loop_spec f x [] ltac:(unfold strlen; cbn [List.length]; lia) ltac:(unfold strlen; cbn [List.length h_world]; lia)) as (E1 & E2 & E3 & E4);
    destruct (read_loop f [] x) as [b h3]; cbn [fst snd h_world] in *
  end.
  do 2 (rewrite bind_run; cbn [add_fds modify fst snd h_world]).
  match goal with |- context [tcp_shift_wait_child pid ?x] =>
    destruct (wait_child_spec x pid st) as (Hres & El & Er); [cbn; by rewrite E4|];
    destruct (tcp_shift_wait_child pid x) as [r h4]; cbn [fst snd] in *
  end.
  assert (Hr4 : rules_of h4 = rules_of h).
  { rewrite Er. unfold rules_of in *; cbn in *. congruence. }
  assert (Hl4 : ledger h4 = ledger h) by (rewrite El; led).
  destruct Hres as [[-> ->]|[-> _]]; cbn -[strstr c_str take lit]; (split; [done|split; [done|]]); [|done].
  destruct (strstr (c_str b) _) eqn:Es; [done|]. intros _. apply Hleg; [done|done|]. subst b. exact Es.
Qed.

Lemma find_plain_spec v paths : forall h,
  (forall p, In p paths -> In p (plain_tools v)) ->
  let p := find_plain paths h in
  ledger p.2 = ledger h /\ rules_of p.2 = rules_of h /\
  forall tool, p.1 = Some tool -> legacy_tool v tool = true.
Proof.
  cbn zeta. induction paths as [|p paths IH]; intros h Hin; [done|]. cbn [find_plain]. rewrite bind_run.
  cbn [ask gets fst snd]. destruct (sys_access p (h_world h)); cbn [negb]; [|apply IH; cbn in *; auto].
  rewrite bind_run. destruct (version_spec v p h) as (E1 & E2 & E3); [cbn in *; auto|].
  destruct (tcp_shift_legacy_version_is_nf_tables p h) as [r h1]; cbn [fst snd] in *.
  destruct (r =? 0) eqn:Er; [apply Z.eqb_eq in Er; split; [done|split; [done|intros ? [= <-]; auto]]|].
  destruct (IH h1) as (F1 & F2 & F3); [cbn in *; auto|]. by rewrite F1, F2.
Qed.

Lemma find_legacy_spec paths h :
  let p := find_legacy paths h in p.2 = h /\ forall tool, p.1 = Some tool -> In tool paths.
Proof.
  cbn zeta. induction paths as [|p paths IH]; [done|]. cbn [find_legacy]. rewrite bind_run.
  cbn [ask gets fst snd]. destruct (sys_access p (h_world h)); [split; [done|intros ? [= <-]; by left]|].
  destruct IH as [E1 E2]. split; [done|]. intros tool Ht. right. auto.
Qed.

(** The tool works on the legacy table of the version asked for. *)
Lemma find_tool_spec v h :
  let p := tcp_shift_legacy_find_tool v h in
  ledger p.2 = ledger h /\ rules_of p.2 = rules_of h /\
  forall tool, p.1 = Some tool -> legacy_tool v tool = true /\ (v = 4 \/ v = 6).
Proof.
  cbn zeta. unfold tcp_shift_legacy_find_tool. fold (legacy_tools v) (plain_tools v).
  destruct ((v =? 4) || (v =? 6)) eqn:Ev; cbn [negb]; [|done]. rewrite bind_run.
  destruct (find_legacy_spec (legacy_tools v) h) as [E1 E2].
  destruct (find_legacy _ h) as [[t|] h1]; cbn [fst snd] in *; subst h1.
  { split; [done|split; [done|]]. intros ? [= <-]. split; [apply law_legacy; auto|lia]. }
  rewrite bind_run. destruct (find_plain_spec v (plain_tools v) h) as (F1 & F2 & F3); [done|].
  destruct (find_plain _ h) as [[t|] h1]; cbn [fst snd] in *; [|done].
  split; [done|split; [done|]]. intros ? [= <-]. split; [auto|lia].
Qed.

End Host.
