(* ===== verification/FirewallLife.v ===== *)
(** * The firewall's life

    The operations on the firewall object against the ownership relation:
    rollback, both backends, install and remove, and sequences of them. *)

From Stdlib Require Import ZArith Lia Bool List Ascii String.
From stdpp Require Import base tactics numbers list gmap strings.
From S2P Require Import Prelude CString StateMonad HostSys Firewall FirewallSpec.
Local Open Scope Z_scope.

Section Life.
Context {W : Type} `{HL : HostLaws W}.
Implicit Types (s : fwst W) (fw : tcp_shift_firewall) (base : ruleset).

Definition st_rules (s : fwst W) : ruleset := rules_of (fs_host s).
Definition st_ledger (s : fwst W) : Z * Z * Z := ledger (fs_host s).

Lemma fw_ok_flags a b c fw : fw_ok fw -> fw_ok (set_flags a b c fw).
Proof. intros []. by constructor. Qed.

Lemma fw_ok_backend b fw : fw_ok fw -> fw_ok (set_backend b fw).
Proof. intros []. by constructor. Qed.

#[local] Hint Resolve fw_ok_flags fw_ok_backend : core.

Ltac st := unfold st_ledger, st_rules, ledger, rules_of in *; cbn in *; congruence.

(** ** Rollback *)

(** The jump goes first; the chain is touched only when it is gone. *)
Lemma rollback_jump_spec base v tool s :
  legacy_tool v tool = true -> fw_ip_version (fs_fw s) = v ->
  fw_backend (fs_fw s) = TCP_SHIFT_FIREWALL_IPTABLES -> fw_legacy_chain_created (fs_fw s) = 1 ->
  owns base (set_installed 1 (fs_fw s)) (st_rules s) ->
  let p := rollback_jump tool s in
  st_ledger p.2 = st_ledger s /\
  owns base (set_installed 1 (fs_fw p.2)) (st_rules p.2) /\
  fw_legacy_chain_created (fs_fw p.2) = 1 /\
  ((p.1.1 = 0 /\ fs_fw p.2 = set_jump_installed 0 (fs_fw s)) \/
   (p.1.1 = -1 /\ fs_fw p.2 = fs_fw s /\ fw_legacy_jump_installed (fs_fw s) = 1)).
Proof.
  intros Ht Hv Hb Hc Ho. cbn zeta. unfold rollback_jump. rewrite bind_run. cbn [fw_get gets fst snd]. unfold id.
  destruct s as [fw h]. cbn [fs_fw fs_host] in *. unfold st_rules in *. cbn [fs_host] in *.
  assert (Hj : fw_legacy_jump_installed fw = 0 \/
    (fw_legacy_jump_installed fw = 1 /\ rules_of h = with_redirect fw base /\ fw_ok fw /\
     nt_chains (rs_nat (fw_ip_version fw) base) !! fw_resource_name fw = None)).
  { inversion Ho; cbn in *; try (left; done). right. split; [done|]. split; [done|]. split; [|done].
    match goal with H : fw_ok _ |- _ => destruct H end. by constructor. }
  destruct Hj as [Hj|(Hj & Hr & Hok & Hn)]; rewrite Hj; cbn [negb Z.eqb Pos.eqb].
  { split; [done|]. split; [exact Ho|]. split; [exact Hc|]. left. split; [done|].
    destruct fw; cbn in *. unfold set_jump_installed, set_flags; cbn. by subst. }
  rewrite bind_run. cbn [on_host fst snd fs_host fs_fw].
  destruct (legacy_run_spec v tool (lit "-D") (lit "PREROUTING" :: jump_rule fw) h Ht) as (El & Hres).
  fold (tcp_shift_legacy_delete_jump fw tool) in El, Hres.
  destruct (tcp_shift_legacy_delete_jump fw tool h) as [r h1]; cbn [fst snd] in *.
  destruct Hres as [(-> & t & Hcmd & Hr1)|(-> & Hr1)]; cbn.
  - split; [exact El|]. split; [|split; [exact Hc|by left]].
    rewrite Hr1, Hr. subst v. rewrite Hr in Hcmd. apply unjump_command in Hcmd. rewrite Hcmd.
    apply (owns_chain base (set_installed 1 (set_jump_installed 0 fw)) [dnat_rule fw]); auto.
    by apply fw_ok_flags, fw_ok_flags.
  - split; [exact El|]. split; [by rewrite Hr1|]. split; [exact Hc|by right].
Qed.

Lemma rollback_chain_spec base v tool r0 e0 s :
  legacy_tool v tool = true -> fw_ip_version (fs_fw s) = v ->
  fw_backend (fs_fw s) = TCP_SHIFT_FIREWALL_IPTABLES -> fw_legacy_chain_created (fs_fw s) = 1 ->
  fw_legacy_jump_installed (fs_fw s) = 0 ->
  owns base (set_installed 1 (fs_fw s)) (st_rules s) ->
  let p := rollback_chain tool r0 e0 s in
  st_ledger p.2 = st_ledger s /\
  ((p.1.1 = r0 /\ fs_fw p.2 = set_chain_created 0 (fs_fw s) /\ st_rules p.2 = base) \/
   (p.1.1 = -1 /\ fs_fw p.2 = fs_fw s /\ owns base (set_installed 1 (fs_fw s)) (st_rules p.2))).
Proof.
  intros Ht Hv Hb Hc Hj Ho. cbn zeta. unfold rollback_chain. rewrite bind_run. cbn [fw_get gets fst snd]. unfold id.
  destruct s as [fw h]. cbn [fs_fw fs_host] in *. unfold st_rules in *. cbn [fs_host] in *.
  assert (Hx : exists content, rules_of h = with_chain fw content base /\ fw_ok (set_installed 1 fw) /\
    nt_chains (rs_nat (fw_ip_version fw) base) !! fw_resource_name fw = None).
  { inversion Ho; cbn in *; try congruence. eexists. split; [done|]. by split. }
  destruct Hx as (content & Hr & Hok & Hn). rewrite Hc, Hj. cbn [negb Z.eqb andb].
  rewrite bind_run. cbn [on_host fst snd fs_host fs_fw].
  destruct (legacy_run_spec v tool (lit "-F") [fw_resource_name fw] h Ht) as (El & Hres).
  fold (tcp_shift_legacy_flush_chain fw tool) in El, Hres.
  destruct (tcp_shift_legacy_flush_chain fw tool h) as [r h1]; cbn [fst snd] in *. subst v.
  destruct Hres as [(-> & t & Hcmd & Hr1)|(-> & Hr1)].
  2: { cbn. split; [exact El|]. right. split; [done|split; [done|]]. by rewrite Hr1. }
  rewrite Hr in Hcmd, Hr1. apply flush_command in Hcmd. rewrite Hcmd in Hr1. cbn [Z.ltb Z.compare].
  rewrite bind_run. cbn [on_host fst snd fs_host fs_fw].
  destruct (legacy_run_spec _ tool (lit "-X") [fw_resource_name fw] h1 Ht) as (El2 & Hres).
  fold (tcp_shift_legacy_delete_chain fw tool) in El2, Hres.
  destruct (tcp_shift_legacy_delete_chain fw tool h1) as [r h2]; cbn [fst snd] in *.
  destruct Hres as [(-> & t2 & Hcmd2 & Hr2)|(-> & Hr2)]; cbn.
  - split; [by st|]. left. split; [done|split; [done|]]. rewrite Hr2, Hr1.
    rewrite Hr1 in Hcmd2. by apply unchain_command in Hcmd2.
  - split; [by st|]. right. split; [done|split; [done|]]. rewrite Hr2, Hr1.
    apply (owns_chain base (set_installed 1 fw) []); auto.
Qed.

(** After a rollback the object says exactly what is left. *)
Lemma rollback_spec base v tool s :
  legacy_tool v tool = true -> fw_ip_version (fs_fw s) = v ->
  fw_backend (fs_fw s) = TCP_SHIFT_FIREWALL_IPTABLES -> fw_legacy_chain_created (fs_fw s) = 1 ->
  owns base (set_installed 1 (fs_fw s)) (st_rules s) ->
  let p := tcp_shift_legacy_rollback tool s in
  st_ledger p.2 = st_ledger s /\ owns base (fs_fw p.2) (st_rules p.2) /\
  ((p.1 = 0 /\ fs_fw p.2 = set_flags 0 0 0 (fs_fw s)) \/ (p.1 = -1 /\ fw_installed (fs_fw p.2) = 1)).
Proof.
  intros Ht Hv Hb Hc Ho. cbn zeta. unfold tcp_shift_legacy_rollback. rewrite bind_run.
  destruct (rollback_jump_spec base v tool s Ht Hv Hb Hc Ho) as (L1 & O1 & C1 & Hj).
  destruct (rollback_jump tool s) as [[r1 e1] s1]; cbn [fst snd] in *. rewrite bind_run.
  destruct Hj as [[-> E1]|(-> & E1 & J1)].
  - destruct (rollback_chain_spec base v tool 0 e1 s1) as (L2 & Hc2); try done; try (by rewrite E1).
    destruct (rollback_chain tool 0 e1 s1) as [[r2 e2] s2]; cbn [fst snd] in *.
    destruct Hc2 as [(-> & E2 & R2)|(-> & E2 & O2)].
    + cbn. rewrite E2, E1. cbn. split; [by st|].
      split; [|by left]. unfold st_rules in *. cbn. rewrite R2. by apply owns_nothing.
    + cbn [Z.ltb Z.compare when]. cbn. rewrite E2, C1, E1. cbn.
      split; [by st|]. split; [|by right].
      rewrite E1 in O2. exact O2.
  - assert (E2 : rollback_chain tool (-1) e1 s1 = (-1, e1, s1)).
    { unfold rollback_chain. rewrite bind_run. cbn [fw_get gets fst snd]. unfold id. rewrite E1, J1.
      by rewrite andb_false_r. }
    rewrite E2. cbn. rewrite E1, J1. cbn. split; [exact L1|]. split; [|by right]. rewrite E1 in O1. exact O1.
Qed.

(** ** The backends *)

Lemma install_batch_nonempty fw : nft_install_batch fw <> [].
Proof. done. Qed.

Lemma delete_batch_nonempty fw : nft_delete_batch fw <> [].
Proof. done. Qed.

(** The table is there on success and only then. *)
Lemma nft_install_spec s :
  fw_ok (fs_fw s) -> fw_backend (fs_fw s) = TCP_SHIFT_FIREWALL_NFTABLES ->
  let p := tcp_shift_firewall_nft_install s in
  st_ledger p.2 = st_ledger s /\
  ((p.1 = 0 /\ fs_fw p.2 = set_installed 1 (fs_fw s) /\
    rs_nft (st_rules s) !! nft_key (fs_fw s) = None /\
    st_rules p.2 = with_table (fs_fw s) (st_rules s)) \/
   (p.1 = -1 /\ fs_fw p.2 = fs_fw s /\ st_rules p.2 = st_rules s)).
Proof.
  intros Hok Hb. cbn zeta. unfold tcp_shift_firewall_nft_install. rewrite bind_run.
  destruct s as [fw h]. cbn [fw_get gets fst snd fs_fw] in *. unfold id.
  repeat (case_match; [cbn; split; [done|by right]|]). rewrite bind_run. cbn [on_host fst snd fs_host fs_fw].
  destruct (nft_run_spec (nft_install_batch fw) 1 h (install_batch_nonempty fw)) as (L1 & Q1).
  destruct (tcp_shift_firewall_nft_run _ 1 h) as [r h1]; cbn [fst snd] in *.
  destruct Q1 as [(-> & R1)|(-> & w & Rw & _ & R1)];
    [cbn; split; [exact L1|right; split; [done|split; [done|exact R1]]]|].
  change (negb (1 =? 0)) with true in R1. rewrite law_nft_dry in R1.
  cbn [Z.ltb Z.compare]. rewrite bind_run. cbn [on_host fst snd fs_host fs_fw].
  destruct (nft_run_spec (nft_install_batch fw) 0 h1 (install_batch_nonempty fw)) as (L2 & Q2).
  destruct (tcp_shift_firewall_nft_run _ 0 h1) as [r h2]; cbn [fst snd] in *.
  assert (Rh : rules_of h1 = rules_of h) by congruence.
  destruct Q2 as [(-> & R2)|(-> & w2 & Rw2 & Hz & R2)]; cbn [Z.ltb Z.compare].
  - cbn. split; [st|]. right. split; [done|split; [done|st]].
  - change (negb (0 =? 0)) with false in *.
    destruct (law_nft_create fw w2 Hok Hz) as [Hn Hr]. rewrite Hr, Rw2, Rh in R2. rewrite Rw2, Rh in Hn.
    cbn. split; [st|]. left. by split.
Qed.

Lemma table_gone fw base :
  rs_nft base !! nft_key fw = None ->
  set_nft (delete (nft_key fw) (rs_nft (with_table fw base))) (with_table fw base) = base.
Proof.
  intros Hn. unfold with_table. destruct base as [n4 n6 t]. unfold set_nft; cbn in *.
  by rewrite delete_insert_id.
Qed.

Lemma nft_remove_spec base s :
  owns base (fs_fw s) (st_rules s) -> fw_backend (fs_fw s) = TCP_SHIFT_FIREWALL_NFTABLES ->
  fw_installed (fs_fw s) <> 0 ->
  let p := tcp_shift_firewall_nft_remove s in
  st_ledger p.2 = st_ledger s /\ owns base (fs_fw p.2) (st_rules p.2) /\
  ((p.1 = 0 /\ fw_installed (fs_fw p.2) = 0) \/ (p.1 = -1 /\ fs_fw p.2 = fs_fw s)).
Proof.
  intros Ho Hb Hi. cbn zeta. unfold tcp_shift_firewall_nft_remove. rewrite bind_run.
  destruct s as [fw h]. cbn [fw_get gets fst snd fs_fw] in *. unfold id, st_rules in *. cbn [fs_host] in *.
  repeat (case_match; [cbn; split; [done|split; [exact Ho|by right]]|]).
  rewrite bind_run. cbn [on_host fst snd fs_host fs_fw].
  destruct (nft_run_spec (nft_delete_batch fw) 0 h (delete_batch_nonempty fw)) as (L1 & Q1).
  destruct (tcp_shift_firewall_nft_run _ 0 h) as [r h1]; cbn [fst snd] in *.
  destruct Q1 as [(-> & R1)|(-> & w & Rw & Hz & R1)]; cbn [Z.ltb Z.compare].
  - cbn. split; [exact L1|]. split; [by rewrite R1|by right].
  - assert (Hx : fw_ok fw /\ rs_nft base !! nft_key fw = None /\ rules_of h = with_table fw base /\
       fw_legacy_chain_created fw = 0 /\ fw_legacy_jump_installed fw = 0).
    { unfold TCP_SHIFT_FIREWALL_NFTABLES in *. inversion Ho; unfold TCP_SHIFT_FIREWALL_IPTABLES in *; cbn in *; try congruence. done. }
    destruct Hx as (Hok & Hn & Hr & Hc & Hj). change (negb (0 =? 0)) with false in *.
    rewrite (law_nft_delete fw w Hok Hz), Rw, Hr, (table_gone fw base Hn) in R1.
    cbn. split; [exact L1|]. split; [rewrite R1; by apply owns_nothing|by left].
Qed.

(** The failure exit: the rollback, whatever it could undo. *)
Lemma install_undo_spec base v tool s :
  legacy_tool v tool = true -> fw_ip_version (fs_fw s) = v ->
  fw_backend (fs_fw s) = TCP_SHIFT_FIREWALL_IPTABLES -> fw_legacy_chain_created (fs_fw s) = 1 ->
  owns base (set_installed 1 (fs_fw s)) (st_rules s) ->
  let p := install_undo tool s in
  st_ledger p.2 = st_ledger s /\ owns base (fs_fw p.2) (st_rules p.2) /\ p.1 = -1.
Proof.
  intros Ht Hv Hb Hc Ho. cbn zeta. unfold install_undo. do 2 rewrite bind_run. cbn [fw_errno gets fst snd].
  destruct (rollback_spec base v tool s Ht Hv Hb Hc Ho) as (L & O & _).
  destruct (tcp_shift_legacy_rollback tool s) as [r s1]; cbn [fst snd] in *. cbn.
  split; [st|]. split; [exact O|done].
Qed.

(** The same after the chain was created, with or without its rule. *)
Lemma undo_chain_spec base tool fw h content :
  legacy_tool (fw_ip_version fw) tool = true -> fw_ok fw ->
  fw_backend fw = TCP_SHIFT_FIREWALL_IPTABLES -> fw_legacy_jump_installed fw = 0 ->
  nt_chains (rs_nat (fw_ip_version fw) base) !! fw_resource_name fw = None ->
  content = [] \/ content = [dnat_rule fw] -> rules_of h = with_chain fw content base ->
  let p := install_undo tool {| fs_fw := set_chain_created 1 fw; fs_host := h |} in
  st_ledger p.2 = ledger h /\ owns base (fs_fw p.2) (st_rules p.2) /\ p.1 = -1.
Proof.
  intros Ht Hok Hb Hj Hn Hc Hr. apply (install_undo_spec base (fw_ip_version fw)); try done.
  unfold st_rules; cbn. rewrite Hr.
  apply (owns_chain base (set_installed 1 (set_chain_created 1 fw)) content); auto.
  by apply fw_ok_flags, fw_ok_flags.
Qed.

Lemma legacy_install_spec s :
  fw_ok (fs_fw s) -> fw_backend (fs_fw s) = TCP_SHIFT_FIREWALL_IPTABLES ->
  fw_installed (fs_fw s) = 0 -> fw_legacy_chain_created (fs_fw s) = 0 ->
  fw_legacy_jump_installed (fs_fw s) = 0 ->
  let p := tcp_shift_firewall_legacy_install s in
  st_ledger p.2 = st_ledger s /\ owns (st_rules s) (fs_fw p.2) (st_rules p.2) /\
  ((p.1 = 0 /\ fs_fw p.2 = set_flags 1 1 1 (fs_fw s)) \/ p.1 = -1).
Proof.
  intros Hok Hb Hi Hc Hj. cbn zeta. unfold tcp_shift_firewall_legacy_install. rewrite bind_run.
  destruct s as [fw h]. cbn [fw_get gets fst snd fs_fw] in *. unfold id.
  assert (Ho : owns (rules_of h) fw (rules_of h)) by (by apply owns_nothing).
  rewrite Hb. cbn [negb Z.eqb Pos.eqb TCP_SHIFT_FIREWALL_IPTABLES].
  rewrite bind_run. cbn [on_host fst snd fs_host fs_fw].
  destruct (find_tool_spec (fw_ip_version fw) h) as (L1 & R1 & Ht).
  destruct (tcp_shift_legacy_find_tool _ h) as [[tool|] h1]; cbn [fst snd] in *.
  2: { cbn. split; [exact L1|]. split; [|by right]. unfold st_rules; cbn. by rewrite R1. }
  destruct (Ht tool eq_refl) as [Hleg _]. clear Ht.
  repeat (case_match; [cbn; split; [exact L1|]; split; [|by right]; unfold st_rules; cbn;
    change (owns (rules_of h) fw (rules_of h1)); by rewrite R1|]).
  rewrite bind_run. cbn [on_host fst snd fs_host fs_fw].
  destruct (legacy_run_spec _ tool (lit "-N") [fw_resource_name fw] h1 Hleg) as (L2 & Q2).
  destruct (tcp_shift_legacy_run tool _ h1) as [r2 h2]; cbn [fst snd] in *.
  destruct Q2 as [(-> & t & Hcmd & R2)|(-> & R2)]; cbn [Z.ltb Z.compare].
  2: { cbn. split; [st|]. split; [|by right]. unfold st_rules; cbn. by rewrite R2, R1. }
  apply create_command in Hcmd as [Hn ->]. rewrite R1 in Hn, R2. fold (with_chain fw [] (rules_of h)) in R2.
  do 2 rewrite bind_run. cbn [fw_mod modify on_host fst snd fs_host fs_fw].
  destruct (legacy_run_spec _ tool (lit "-A") (fw_resource_name fw :: dnat_rule fw) h2 Hleg) as (L3 & Q3).
  destruct (tcp_shift_legacy_run tool _ h2) as [r3 h3]; cbn [fst snd] in *.
  destruct Q3 as [(-> & t3 & Hcmd3 & R3)|(-> & R3)]; cbn [Z.ltb Z.compare].
  2: { destruct (undo_chain_spec (rules_of h) tool fw h3 []) as (L4 & O4 & E4); auto; [congruence|].
       split; [st|]. split; [exact O4|by right]. }
  rewrite R2 in R3, Hcmd3. apply append_command in Hcmd3. rewrite Hcmd3 in R3.
  rewrite bind_run. cbn [on_host fst snd fs_host fs_fw].
  destruct (legacy_run_spec _ tool (lit "-I") (lit "PREROUTING" :: lit "1" :: jump_rule fw) h3 Hleg) as (L4 & Q4).
  destruct (tcp_shift_legacy_run tool _ h3) as [r4 h4]; cbn [fst snd] in *.
  destruct Q4 as [(-> & t4 & Hcmd4 & R4)|(-> & R4)]; cbn [Z.ltb Z.compare].
  2: { destruct (undo_chain_spec (rules_of h) tool fw h4 [dnat_rule fw]) as (L5 & O5 & E5); auto; [congruence|].
       split; [st|]. split; [exact O5|by right]. }
  rewrite R3 in R4, Hcmd4. apply jump_command in Hcmd4. rewrite Hcmd4 in R4.
  cbn. split; [st|]. split; [|by left]. unfold st_rules; cbn. rewrite R4.
  apply (owns_redirect (rules_of h) (set_flags 1 1 1 fw)); auto.
Qed.

Lemma legacy_remove_spec base s :
  owns base (fs_fw s) (st_rules s) -> fw_backend (fs_fw s) = TCP_SHIFT_FIREWALL_IPTABLES ->
  fw_installed (fs_fw s) <> 0 ->
  let p := tcp_shift_firewall_legacy_remove s in
  st_ledger p.2 = st_ledger s /\ owns base (fs_fw p.2) (st_rules p.2) /\
  ((p.1 = 0 /\ fw_installed (fs_fw p.2) = 0) \/ (p.1 = -1 /\ fw_installed (fs_fw p.2) <> 0)).
Proof.
  intros Ho Hb Hi. cbn zeta. unfold tcp_shift_firewall_legacy_remove. rewrite bind_run.
  destruct s as [fw h]. cbn [fw_get gets fst snd fs_fw] in *. unfold id, st_rules in *. cbn [fs_host] in *.
  assert (Hx : fw_legacy_chain_created fw = 1 /\ set_installed 1 fw = fw).
  { unfold TCP_SHIFT_FIREWALL_IPTABLES in *. unfold set_installed, set_flags.
    inversion Ho; unfold TCP_SHIFT_FIREWALL_NFTABLES in *; destruct fw; cbn in *; split; congruence. }
  destruct Hx as [Hc Hs]. case_match; [cbn; split; [done|split; [exact Ho|by right]]|].
  rewrite bind_run. cbn [on_host fst snd fs_host fs_fw].
  destruct (find_tool_spec (fw_ip_version fw) h) as (L1 & R1 & Ht).
  destruct (tcp_shift_legacy_find_tool _ h) as [[tool|] h1]; cbn [fst snd] in *.
  2: { cbn. split; [exact L1|]. split; [by rewrite R1|by right]. }
  destruct (Ht tool eq_refl) as [Hleg _].
  destruct (rollback_spec base (fw_ip_version fw) tool {| fs_fw := fw; fs_host := h1 |}) as (L2 & O2 & Hres);
    try done; [unfold st_rules; cbn; by rewrite Hs, R1|].
  split; [st|]. split; [exact O2|].
  destruct Hres as [(-> & E)|(-> & E)]; [left; by rewrite E|right; by rewrite E].
Qed.

(** ** The whole firewall *)

(** A prepared object comes from a description that passed every check. *)
Lemma prepare_spec spec s :
  let p := tcp_shift_firewall_prepare spec s in
  st_ledger p.2 = st_ledger s /\ st_rules p.2 = st_rules s /\
  ((p.1 = -1 /\ fs_fw p.2 = fs_fw s) \/
   (p.1 = 0 /\ fw_installed (fs_fw s) = 0 /\ fw_ok (fs_fw p.2) /\
    fw_installed (fs_fw p.2) = 0 /\ fw_legacy_chain_created (fs_fw p.2) = 0 /\
    fw_legacy_jump_installed (fs_fw p.2) = 0)).
Proof.
  cbn zeta. unfold tcp_shift_firewall_prepare. rewrite bind_run. destruct s as [fw h].
  cbn [fw_get gets fst snd fs_fw]. unfold id.
  destruct spec as [sp|]; [|cbn; split; [done|split; [done|by left]]].
  destruct (_ || _) eqn:E1; [cbn; split; [done|split; [done|by left]]|].
  destruct (fw_installed fw =? 0) eqn:E2; cbn [negb]; [|cbn; split; [done|split; [done|by left]]].
  cbn zeta. destruct (tcp_shift_firewall_valid_resource _ =? 0) eqn:E3; cbn [negb]; [|cbn; split; [done|split; [done|by left]]].
  destruct (tcp_shift_firewall_valid_ip (sp_public_address sp) _ =? 0) eqn:E4; cbn [negb]; [|cbn; split; [done|split; [done|by left]]].
  destruct (tcp_shift_firewall_valid_ip (sp_target_address sp) _ =? 0) eqn:E5; cbn [negb]; [|cbn; split; [done|split; [done|by left]]].
  match goal with |- context [if ?c || ?d then fw_fail ENAMETOOLONG else _] => destruct (c || d) eqn:E6 end; [cbn; split; [done|split; [done|by left]]|].
  cbn. split; [done|]. split; [done|]. right. split; [done|]. split; [lia|]. split; [|done].
  apply orb_false_iff in E6 as [E6 E7]. apply Z.eqb_eq in E3, E4, E5.
  assert (Hv : sp_ip_version sp = 4 \/ sp_ip_version sp = 6).
  { unfold tcp_shift_firewall_valid_ip in E4. destruct (_ || _) eqn:Ev in E4; [lia|done]. }
  destruct (sp_resource_name sp) as [n|]; [|done].
  unfold tcp_shift_firewall_valid_ip in E4, E5. destruct (negb _) eqn:Ev in E4, E5; [done|].
  destruct (sp_public_address sp) as [a|]; [|done]. destruct (sp_target_address sp) as [b|]; [|done].
  constructor; cbn in *; try done; try lia; unfold tcp_shift_firewall_valid_ip; by rewrite Ev.
Qed.

Lemma select_nft_spec b s :
  let p := select_nft b s in
  st_ledger p.2 = st_ledger s /\ st_rules p.2 = st_rules s /\
  match p.1 with inl r => r = -1 /\ fs_fw p.2 = fw_zero | inr _ => fs_fw p.2 = fs_fw s end.
Proof.
  cbn zeta. unfold select_nft. destruct (_ || _); [|done]. rewrite bind_run. destruct s as [fw h].
  cbn [on_host fst snd fs_fw fs_host]. destruct (probe_spec h) as [L1 R1].
  destruct (tcp_shift_firewall_nft_probe h) as [r h1]; cbn [fst snd] in *. cbn.
  destruct (r <? 0); [cbn; repeat split; first [done|st]|].
  destruct (0 <? r); [cbn; repeat split; first [done|st]|].
  destruct (_ =? _); cbn; repeat split; first [done|st].
Qed.

Lemma legacy_probe_spec v h :
  let p := tcp_shift_firewall_legacy_probe v h in
  ledger p.2 = ledger h /\ rules_of p.2 = rules_of h /\ (p.1 = 0 \/ p.1 = 1).
Proof.
  cbn zeta. unfold tcp_shift_firewall_legacy_probe. rewrite bind_run.
  destruct (find_tool_spec v h) as (L1 & R1 & _).
  destruct (tcp_shift_legacy_find_tool v h) as [[t|] h1]; cbn [ret fst snd] in *; auto.
Qed.

Lemma select_legacy_spec b s :
  let p := select_legacy b s in
  st_ledger p.2 = st_ledger s /\ st_rules p.2 = st_rules s /\
  match p.1 with Some r => r = -1 /\ fs_fw p.2 = fw_zero | None => fs_fw p.2 = fs_fw s end.
Proof.
  cbn zeta. unfold select_legacy. destruct (_ =? _); [|done]. rewrite bind_run. destruct s as [fw h].
  cbn [fw_get gets fst snd fs_fw]. rewrite bind_run. cbn [on_host fst snd fs_fw fs_host].
  destruct (legacy_probe_spec (fw_ip_version fw) h) as (L1 & R1 & Hr).
  destruct (tcp_shift_firewall_legacy_probe _ h) as [r h1]; cbn [fst snd] in *.
  destruct Hr as [-> | ->]; cbn; repeat split; first [done|st].
Qed.

(** What a failed backend leaves: nothing, or an object that still owns it. *)
Lemma install_failed_spec base s :
  owns base (fs_fw s) (st_rules s) ->
  let p := install_failed s in
  st_ledger p.2 = st_ledger s /\ owns base (fs_fw p.2) (st_rules p.2) /\ p.1 = -1.
Proof.
  intros Ho. cbn zeta. destruct s as [fw h]. cbn. split; [done|]. split; [|done].
  unfold st_rules in *; cbn in *.
  assert (Hs : fw_installed fw = 1 -> set_installed 1 fw = fw) by (destruct fw; cbn; by intros ->).
  destruct (fw_installed fw =? 0) eqn:E0; cbn [andb].
  - assert (Hb : rules_of h = base /\ fw_legacy_chain_created fw = 0 /\ fw_legacy_jump_installed fw = 0)
      by (inversion Ho; first [done|lia]).
    destruct Hb as (Hr & -> & ->). change (owns base fw_zero (rules_of h)). rewrite Hr. by apply owns_nothing.
  - rewrite Hs; [exact Ho|]. inversion Ho; first [done|lia].
Qed.

(** The redirect of [fw] is in place: through nftables or the legacy table. *)
Definition redirected (base : ruleset) (fw : tcp_shift_firewall) (rules : ruleset) : Prop :=
  fw_installed fw = 1 /\ fw_ok fw /\
  ((fw_backend fw = TCP_SHIFT_FIREWALL_NFTABLES /\ rules = with_table fw base) \/
   (fw_backend fw = TCP_SHIFT_FIREWALL_IPTABLES /\ rules = with_redirect fw base)).

Lemma backend_install_spec sel s :
  fw_ok (fs_fw s) -> fw_installed (fs_fw s) = 0 -> fw_legacy_chain_created (fs_fw s) = 0 ->
  fw_legacy_jump_installed (fs_fw s) = 0 -> fw_backend (fs_fw s) = sel ->
  let m := if sel =? TCP_SHIFT_FIREWALL_NFTABLES then tcp_shift_firewall_nft_install
           else if sel =? TCP_SHIFT_FIREWALL_IPTABLES then tcp_shift_firewall_legacy_install
           else fw_fail EINVAL in
  let p := m s in
  st_ledger p.2 = st_ledger s /\ owns (st_rules s) (fs_fw p.2) (st_rules p.2) /\
  ((p.1 = 0 /\ redirected (st_rules s) (fs_fw p.2) (st_rules p.2)) \/ p.1 = -1).
Proof.
  intros Hok Hi Hc Hj Hb. cbn zeta. subst sel.
  destruct (_ =? TCP_SHIFT_FIREWALL_NFTABLES) eqn:E1; [apply Z.eqb_eq in E1|].
  - destruct (nft_install_spec s Hok E1) as (L & [(-> & Ef & Hn & Hr)|(-> & Ef & Hr)]);
      (split; [done|]); rewrite Ef, Hr; (split; [|first [by right|left]]).
    + apply (owns_table _ (set_installed 1 (fs_fw s))); auto. by apply fw_ok_flags.
    + split; [done|]. split; [done|]. split; [by apply fw_ok_flags|by left].
    + by apply owns_nothing.
  - destruct (_ =? TCP_SHIFT_FIREWALL_IPTABLES) eqn:E2; [apply Z.eqb_eq in E2|].
    + destruct (legacy_install_spec s Hok E2 Hi Hc Hj) as (L & O & Hres). split; [done|]. split; [done|].
      destruct Hres as [[-> Ef]|Hm]; [left|by right]. split; [done|]. rewrite Ef in O |- *.
      split; [done|]. split; [auto|]. right. split; [done|]. inversion O; cbn in *; try congruence; done.
    + cbn. split; [done|]. split; [by apply owns_nothing|by right].
Qed.

(** Install: the rules are the old ones and the redirect, or what the object
    still records; on success the redirect is in place. *)
Lemma install_spec base b spec s :
  owns base (fs_fw s) (st_rules s) ->
  let p := tcp_shift_firewall_install b spec s in
  st_ledger p.2 = st_ledger s /\ owns base (fs_fw p.2) (st_rules p.2) /\
  (p.1 = 0 \/ p.1 = -1) /\
  (p.1 = 0 -> fw_installed (fs_fw s) = 0 /\
     if b =? TCP_SHIFT_FIREWALL_NONE then fw_installed (fs_fw p.2) = 0
     else redirected base (fs_fw p.2) (st_rules p.2)) /\
  (fw_installed (fs_fw s) <> 0 -> fs_fw p.2 = fs_fw s).
Proof.
  intros Ho. cbn zeta. unfold tcp_shift_firewall_install. rewrite bind_run.
  destruct (prepare_spec spec s) as (L1 & R1 & Hp).
  destruct (tcp_shift_firewall_prepare spec s) as [r s1]; cbn [fst snd] in *.
  destruct Hp as [(-> & E)|(-> & Hi0 & Hok & Hi & Hc & Hj)].
  { cbn. split; [done|]. split; [by rewrite E, R1|]. split; [by right|]. split; [done|done]. }
  assert (Hbase : st_rules s = base).
  { inversion Ho; first [done|congruence]. }
  rewrite Hbase in R1. cbn [Z.ltb Z.compare]. destruct (b =? TCP_SHIFT_FIREWALL_NONE).
  { cbn. split; [st|]. split; [|split; [by left|done]].
    unfold st_rules in *; cbn. rewrite R1. by apply owns_nothing. }
  rewrite bind_run. destruct (select_nft_spec b s1) as (L2 & R2 & E2).
  destruct (select_nft b s1) as [[r|sel] s2]; cbn [fst snd] in *.
  { destruct E2 as [-> E2]. cbn. split; [st|]. rewrite E2, R2, R1.
    split; [by apply owns_nothing|]. split; [by right|]. done. }
  rewrite bind_run. destruct (select_legacy_spec sel s2) as (L3 & R3 & E3).
  destruct (select_legacy sel s2) as [[r|] s3]; cbn [fst snd] in *.
  { destruct E3 as [-> E3]. cbn. split; [st|]. rewrite E3, R3, R2, R1.
    split; [by apply owns_nothing|]. split; [by right|]. done. }
  do 2 rewrite bind_run. cbn [fw_mod modify fst snd].
  match goal with |- context [(if _ then tcp_shift_firewall_nft_install else _) ?x] => set (s4 := x) end.
  assert (F4 : fs_fw s4 = set_backend sel (fs_fw s1)) by (subst s4; cbn; congruence).
  destruct (backend_install_spec sel s4) as (L5 & O5 & H5);
    [rewrite F4; by apply fw_ok_backend|by rewrite F4..|].
  assert (R4 : st_rules s4 = base) by (subst s4; unfold st_rules in *; cbn; congruence).
  assert (L4 : st_ledger s4 = st_ledger s) by (subst s4; st). cbn zeta in L5, O5, H5. rewrite R4 in O5, H5.
  match goal with |- context [(if _ then tcp_shift_firewall_nft_install else ?y) s4] =>
    destruct ((if sel =? TCP_SHIFT_FIREWALL_NFTABLES then tcp_shift_firewall_nft_install else y) s4) as [r s5] end.
  cbn [fst snd] in *. destruct H5 as [[-> H5]|Hm]; [|subst r]; cbn [Z.eqb Z.compare].
  - cbn. split; [congruence|]. split; [done|]. split; [by left|]. done.
  - destruct (install_failed_spec base s5 O5) as (L6 & O6 & E6). rewrite E6.
    split; [congruence|]. split; [done|]. split; [by right|]. done.
Qed.

(** Remove: on success nothing is left; on failure the object still owns. *)
Lemma remove_spec base s :
  owns base (fs_fw s) (st_rules s) ->
  let p := tcp_shift_firewall_remove s in
  st_ledger p.2 = st_ledger s /\ owns base (fs_fw p.2) (st_rules p.2) /\
  ((p.1 = 0 /\ fw_installed (fs_fw p.2) = 0) \/ (p.1 = -1 /\ fw_installed (fs_fw p.2) <> 0)).
Proof.
  intros Ho. cbn zeta. unfold tcp_shift_firewall_remove. rewrite bind_run. cbn [fw_get gets fst snd]. unfold id.
  destruct (fw_installed (fs_fw s) =? 0) eqn:Ei; [cbn; split; [done|split; [done|left; lia]]|].
  destruct (fw_backend _ =? TCP_SHIFT_FIREWALL_NFTABLES) eqn:E1;
    [|destruct (fw_backend _ =? TCP_SHIFT_FIREWALL_IPTABLES) eqn:E2].
  - destruct (nft_remove_spec base s Ho) as (L & O & Hres); [lia|lia|]. split; [done|]. split; [done|].
    destruct Hres as [?|[? E]]; [by left|right]. rewrite E. split; [done|lia].
  - destruct (legacy_remove_spec base s Ho) as (L & O & Hres); [lia|lia|]. done.
  - cbn. split; [done|]. split; [exact Ho|]. right. split; [done|]. cbn. lia.
Qed.

(** ** Sequences of operations *)

Inductive fw_op : Type :=
| OpInstall (backend : Z) (spec : option tcp_shift_firewall_spec)
| OpRemove.

Definition fw_run (op : fw_op) : M (fwst W) Z :=
  match op with
  | OpInstall b spec => tcp_shift_firewall_install b spec
  | OpRemove => tcp_shift_firewall_remove
  end.

Fixpoint fw_runs (ops : list fw_op) : M (fwst W) unit :=
  match ops with
  | [] => ret tt
  | op :: ops' => let! _ := fw_run op in fw_runs ops'
  end.

Lemma fw_run_owns base op s :
  owns base (fs_fw s) (st_rules s) ->
  let p := fw_run op s in st_ledger p.2 = st_ledger s /\ owns base (fs_fw p.2) (st_rules p.2).
Proof.
  intros Ho. destruct op as [b spec|]; cbn [fw_run].
  - destruct (install_spec base b spec s Ho) as (L & O & _). by split.
  - destruct (remove_spec base s Ho) as (L & O & _). by split.
Qed.

Lemma fw_runs_owns base ops : forall s,
  owns base (fs_fw s) (st_rules s) ->
  let p := fw_runs ops s in st_ledger p.2 = st_ledger s /\ owns base (fs_fw p.2) (st_rules p.2).
Proof.
  cbn zeta. induction ops as [|op ops IH]; intros s Ho; [done|]. cbn [fw_runs]. rewrite bind_run.
  destruct (fw_run_owns base op s Ho) as [L1 O1]. destruct (IH _ O1) as [L2 O2].
  split; [by rewrite L2|done].
Qed.

Lemma owns_installed base fw rules : owns base fw rules -> fw_installed fw = 0 -> rules = base.
Proof. intros Ho Hi. inversion Ho; first [done|congruence]. Qed.

(** C30. Whatever is installed and removed, in whatever order, with whichever
    backend, and however the tools, the loader, the pipes and the child
    processes fail: the rules of the machine are the ones from before together
    with exactly what the firewall object records as its own, so that an
    object that is not installed has left nothing behind; no descriptor,
    library or nft context stays open. An install answers 0 only when the
    redirect it was asked for is in place (or none was asked for) and otherwise
    -1; a removal answers 0 exactly when the rules are the original ones again,
    and one that fails keeps the object installed, so that it can be tried
    again. *)
Theorem firewall_never_leaks (s : fwst W) (ops : list fw_op) :
  fs_fw s = fw_zero ->
  let s' := (fw_runs ops s).2 in
  owns (st_rules s) (fs_fw s') (st_rules s') /\ st_ledger s' = st_ledger s /\
  (fw_installed (fs_fw s') = 0 -> st_rules s' = st_rules s) /\
  (forall b spec, let q := tcp_shift_firewall_install b spec s' in
     (q.1 = 0 \/ q.1 = -1) /\
     (q.1 = 0 -> b <> TCP_SHIFT_FIREWALL_NONE -> redirected (st_rules s) (fs_fw q.2) (st_rules q.2)) /\
     (fw_installed (fs_fw s') <> 0 -> q.1 = -1 /\ fs_fw q.2 = fs_fw s')) /\
  (let q := tcp_shift_firewall_remove s' in
   (q.1 = 0 /\ fw_installed (fs_fw q.2) = 0 /\ st_rules q.2 = st_rules s) \/
   (q.1 = -1 /\ fw_installed (fs_fw q.2) <> 0)).
Proof.
  intros Hz. cbn zeta. assert (Ho : owns (st_rules s) (fs_fw s) (st_rules s)) by (rewrite Hz; by apply owns_nothing).
  destruct (fw_runs_owns (st_rules s) ops s Ho) as [L O]. set (s' := (fw_runs ops s).2) in *.
  split; [done|]. split; [done|]. split; [by apply owns_installed|]. split.
  - intros b spec. destruct (install_spec _ b spec s' O) as (_ & _ & Hr & H0 & Hk). split; [done|]. split.
    + intros E Hb. destruct (H0 E) as [_ Hx]. apply Z.eqb_neq in Hb. by rewrite Hb in Hx.
    + intros Hi. split; [|auto]. destruct Hr as [E|E]; [|done]. by destruct (H0 E) as [Hi0 _].
  - destruct (remove_spec _ s' O) as (_ & O' & [[E Hi]|[E Hi]]); [left|by right].
    split; [done|]. split; [done|]. by apply (owns_installed _ _ _ O').
Qed.

End Life.
