(* ===== verification/FirewallHost.v ===== *)
(** * The firewall on a host

    First a simulated host: an instance of [HostSys] that keeps rules, children
    and faults, with the laws of [HostLaws]; commands are applied as documented
    unless the next fault says that they fail, and waits are interrupted a given
    number of times. It evaluates, and so carries the witnesses. Then what the
    firewall sends: the nft scripts and the iptables arguments of a prepared
    object fit their buffers and read back as exactly the words they are meant
    to be, so that no name or address that passed the checks can add a word or a
    line. Last, on a host that does not fail commands it could carry out, the
    removal of whatever is owned succeeds, including what a failed install or a
    failed removal left. *)

From Stdlib Require Import ZArith Lia Bool List Ascii String.
From stdpp Require Import base tactics numbers list gmap strings.
From S2P Require Import Prelude CString StateMonad HostSys Firewall FirewallSpec FirewallLife HostSetup.
Local Open Scope Z_scope.

(** ** A simulated host *)

Record sim := {
  sim_rules : ruleset;
  sim_children : gmap Z exit_status;
  sim_pid : Z;
  sim_output : cstring;
  sim_retries : nat;
  sim_bin : list cstring;     (** the executables there are *)
  sim_ifs : gmap cstring iface;
  sim_nft : bool;             (** libnftables is installed *)
  sim_faults : list bool      (** whether the next command fails *)
}.

Definition sim_set_rules (r : ruleset) (w : sim) : sim :=
  {| sim_rules := r; sim_children := sim_children w; sim_pid := sim_pid w;
     sim_output := sim_output w; sim_retries := sim_retries w; sim_bin := sim_bin w; sim_ifs := sim_ifs w; sim_nft := sim_nft w;
     sim_faults := sim_faults w |}.
Definition sim_fault (w : sim) : bool := match sim_faults w with b :: _ => b | [] => false end.
(** A child with that status was started; the fault is used up. *)
Definition sim_child (st : exit_status) (out : cstring) (w : sim) : sim :=
  {| sim_rules := sim_rules w; sim_children := <[sim_pid w := st]> (sim_children w);
     sim_pid := sim_pid w + 1; sim_output := out; sim_retries := sim_retries w; sim_bin := sim_bin w; sim_ifs := sim_ifs w; sim_nft := sim_nft w;
     sim_faults := tail (sim_faults w) |}.

Definition mem (p : cstring) (l : list cstring) : bool := existsb (str_eqb p) l.
Definition sim_tools (v : Z) : list cstring := legacy_tools v ++ plain_tools v.
Definition sim_version (tool : cstring) : Z := if mem tool (sim_tools 4) then 4 else 6.

Definition sim_set_if (n : cstring) (i : iface) (w : sim) : sim :=
  {| sim_rules := sim_rules w; sim_children := sim_children w; sim_pid := sim_pid w;
     sim_output := sim_output w; sim_retries := sim_retries w; sim_bin := sim_bin w;
     sim_ifs := <[n := i]> (sim_ifs w); sim_nft := sim_nft w; sim_faults := sim_faults w |}.
Definition sim_if (w : sim) (n : cstring) : iface :=
  default {| if_mtu := 1500; if_addr := []; if_netmask := []; if_flags := 0; if_addr6 := [] |} (sim_ifs w !! n).

(** The [ip] tool on the two commands it is given. *)
Definition sim_ip (argv : list cstring) (w : sim) : option sim :=
  match argv with
  | [_; a; _; _; n; _; t; _] =>
      if str_eqb a (lit "link") then
        let i := sim_if w n in
        match strtoull t with
        | Some (m, _, _) => Some (sim_set_if n {| if_mtu := m; if_addr := if_addr i; if_netmask := if_netmask i;
                                    if_flags := Z.lor (if_flags i) IFF_UP; if_addr6 := if_addr6 i |} w)
        | None => None
        end
      else
        let i := sim_if w t in
        Some (sim_set_if t {| if_mtu := if_mtu i; if_addr := if_addr i; if_netmask := if_netmask i;
                              if_flags := if_flags i; if_addr6 := if_addr6 i ++ [n] |} w)
  | _ => None
  end.

Definition sim_spawn (out : bool) (path : cstring) (argv : list cstring) (w : sim) : (Z + Z) * sim :=
  if out then (inr (sim_pid w), sim_child (Exited 0) (lit "iptables v1.8.7 (legacy)") w)
  else if mem path ip_tools then
    match (if sim_fault w then None else sim_ip argv w) with
    | Some w' => (inr (sim_pid w), sim_child (Exited 0) [] w')
    | None => (inr (sim_pid w), sim_child (Exited 1) [] w)
    end
  else
    let v := sim_version path in
    let applied := match argv with
                   | _ :: _ :: _ :: _ :: op :: args => nat_command op args (rs_nat v (sim_rules w))
                   | _ => None
                   end in
    match (if sim_fault w then None else applied) with
    | Some t => (inr (sim_pid w), sim_child (Exited 0) [] (sim_set_rules (set_nat v t (sim_rules w)) w))
    | None => (inr (sim_pid w), sim_child (Exited 1) [] w)
    end.

Definition sim_read (size : Z) (w : sim) : read_result * sim :=
  match sim_output w with
  | [] => (ReadEnd, w)
  | o => (ReadData (take (Z.to_nat size) o),
          {| sim_rules := sim_rules w; sim_children := sim_children w; sim_pid := sim_pid w;
             sim_output := drop (Z.to_nat size) o; sim_retries := sim_retries w; sim_bin := sim_bin w; sim_ifs := sim_ifs w; sim_nft := sim_nft w;
             sim_faults := sim_faults w |})
  end.

Definition sim_waitpid (pid : Z) (w : sim) : wait_result * sim :=
  match sim_retries w with
  | S n => (WaitInterrupted,
            {| sim_rules := sim_rules w; sim_children := sim_children w; sim_pid := sim_pid w;
               sim_output := sim_output w; sim_retries := n; sim_bin := sim_bin w; sim_ifs := sim_ifs w; sim_nft := sim_nft w;
               sim_faults := sim_faults w |})
  | O => match sim_children w !! pid with
         | Some st => (Reaped st,
             {| sim_rules := sim_rules w; sim_children := delete pid (sim_children w);
                sim_pid := sim_pid w; sim_output := sim_output w; sim_retries := 0;
                sim_bin := sim_bin w; sim_ifs := sim_ifs w; sim_nft := sim_nft w; sim_faults := sim_faults w |})
         | None => (WaitFailed 10, w)
         end
  end.

(** The text after a prefix. *)
Fixpoint strip (p s : cstring) : option cstring :=
  match p, s with
  | [], _ => Some s
  | x :: p', y :: s' => if Ascii.eqb x y then strip p' s' else None
  | _ :: _, [] => None
  end.

(** The family and the name that follow a command. *)
Definition table_key (command text : cstring) : option (cstring * cstring) :=
  match strip command text with
  | Some rest =>
      match strchr rest " "%char with
      | Some (family, rest') =>
          match strchr rest' (ascii_of_N 10) with
          | Some (name, _) => Some (family, name)
          | None => None
          end
      | None => None
      end
  | None => None
  end.

Definition sim_used (w : sim) : sim :=
  {| sim_rules := sim_rules w; sim_children := sim_children w; sim_pid := sim_pid w;
     sim_output := sim_output w; sim_retries := sim_retries w; sim_bin := sim_bin w; sim_ifs := sim_ifs w; sim_nft := sim_nft w;
     sim_faults := tail (sim_faults w) |}.

Definition sim_commit (text : cstring) (w : sim) : option ruleset :=
  let r := sim_rules w in
  match table_key (lit "create table ") text with
  | Some k => match rs_nft r !! k with
              | None => Some (set_nft (<[k := text]> (rs_nft r)) r)
              | Some _ => None
              end
  | None => match table_key (lit "delete table ") text with
            | Some k => match rs_nft r !! k with
                        | Some _ => Some (set_nft (delete k (rs_nft r)) r)
                        | None => None
                        end
            | None => None
            end
  end.

Definition sim_nft_run (dry : bool) (text : cstring) (w : sim) : (Z * Z) * sim :=
  if sim_fault w then ((-1, 0), sim_used w)
  else if dry || str_eqb text (lit "list tables") then ((0, 0), sim_used w)
  else match sim_commit text w with
       | Some r => ((0, 0), sim_set_rules r (sim_used w))
       | None => ((-1, 0), sim_used w)
       end.

Definition sim_pton (v : Z) (t : cstring) : option (list Z) :=
  if forallb (fun c => isdigit c || ((97 <=? code c) && (code c <=? 102)) ||
                       Ascii.eqb c (if (v =? 4)%Z then "."%char else ":"%char)) t
  then Some [] else None.

#[export] Instance sim_host : HostSys sim := {
  sys_inet_pton := sim_pton;
  sys_access p w := mem p (sim_bin w);
  sys_first_char _ _ := GotChar "1"%char None;
  sys_pipe w := (None, w);
  sys_spawn := sim_spawn;
  sys_read := sim_read;
  sys_waitpid := sim_waitpid;
  sys_retries := sim_retries;
  sys_dlopen _ w := (sim_nft w, w);
  sys_dlsym _ _ := true;
  sys_fputs _ _ w := w;
  nft_ctx_new w := (true, w);
  nft_ctx_buffer_output w := (0, w);
  nft_ctx_buffer_error w := (0, w);
  nft_run_cmd := sim_nft_run;
  nft_output_buffer _ := None;
  nft_error_buffer _ := None
}.

(** ** Its laws *)

Lemma strip_app p s : strip p (p ++ s) = Some s.
Proof. induction p as [|c p IH]; cbn; [done|]. by rewrite Ascii.eqb_refl. Qed.

Lemma valid_resource_char n c :
  tcp_shift_firewall_valid_resource (Some n) = 0 -> isalnum c = false -> Ascii.eqb c "_" = false ->
  Forall (fun x => Ascii.eqb x c = false) n.
Proof.
  unfold tcp_shift_firewall_valid_resource. destruct n as [|x n]; [done|]. intros Hv Hc Hu.
  destruct (_ >=? _); [done|]. destruct (negb _) eqn:Ex; [done|]. destruct (forallb _ n) eqn:En; [|done].
  assert (Hb : forall y, isalnum y || Ascii.eqb y "_" = true -> Ascii.eqb y c = false).
  { intros y Hy. apply Ascii.eqb_neq. intros ->. rewrite Hc, Hu in Hy. done. }
  constructor.
  - apply Hb. unfold isalnum. apply negb_false_iff in Ex. destruct (isdigit x); [done|exact Ex].
  - apply Forall_forall. intros y Hy. apply Hb. rewrite forallb_forall in En. apply En. by apply list_elem_of_In.
Qed.

Lemma key_of_batch command fw rest :
  fw_ok fw ->
  table_key command (command ++ nft_family (fw_ip_version fw) ++ lit " " ++ fw_resource_name fw ++
                     newline ++ rest) = Some (nft_key fw).
Proof.
  intros Hok. unfold table_key. rewrite strip_app.
  change (lit " " ++ ?x) with (" "%char :: x).
  rewrite strchr_none_prefix by (unfold nft_family; destruct (_ =? 4); repeat constructor).
  unfold newline. cbn [app]. rewrite strchr_none_prefix; [done|].
  by apply valid_resource_char; [apply (ok_name _ Hok)|..].
Qed.

Lemma create_key fw : fw_ok fw -> table_key (lit "create table ") (nft_install_batch fw) = Some (nft_key fw).
Proof. intros Hok. unfold nft_install_batch. by apply key_of_batch. Qed.

Lemma delete_key fw : fw_ok fw -> table_key (lit "delete table ") (nft_delete_batch fw) = Some (nft_key fw).
Proof. intros Hok. unfold nft_delete_batch. by apply (key_of_batch _ fw []). Qed.

Lemma sim_tool_version v tool :
  mem tool (sim_tools v) = true ->
  rs_nat (sim_version tool) = rs_nat v /\ set_nat (sim_version tool) = set_nat v.
Proof.
  unfold sim_version, rs_nat, set_nat, sim_tools, legacy_tools, plain_tools. destruct (v =? 4) eqn:E; intros Hm.
  - change (4 =? 4) with true. cbn iota. rewrite Hm. done.
  - assert (H6 : mem tool (ipv4_legacy ++ ipv4_plain) = false); [|change (4 =? 4) with true; cbn iota; by rewrite H6].
    unfold mem in Hm. apply existsb_exists in Hm as (p & Hin & Hp). apply str_eqb_eq in Hp as ->.
    cbn in Hin. repeat (destruct Hin as [<-|Hin]; [reflexivity|]). done.
Qed.

Lemma tool_not_ip v tool : mem tool (sim_tools v) = true -> mem tool ip_tools = false.
Proof.
  unfold sim_tools, legacy_tools, plain_tools. unfold mem at 1. intros Hm.
  apply existsb_exists in Hm as (p & Hin & Hp). apply str_eqb_eq in Hp as ->.
  destruct (v =? 4); cbn in Hin; repeat (destruct Hin as [<-|Hin]; [reflexivity|]); done.
Qed.

Lemma mem_in p l : In p l -> mem p l = true.
Proof. intros Hin. apply existsb_exists. exists p. split; [done|apply str_eqb_refl]. Qed.

#[export] Program Instance sim_laws : HostLaws sim := {
  host_rules := sim_rules;
  host_child w pid := sim_children w !! pid;
  host_output := sim_output;
  legacy_tool v p := mem p (sim_tools v)
}.
Next Obligation. done. Qed.
Next Obligation.
  intros out path argv w e w'. cbn. unfold sim_spawn. destruct out; [done|].
  destruct (mem path ip_tools); by case_match.
Qed.
Next Obligation.
  intros v tool op args w pid w' Hm. cbn -[mem ip_tools]. unfold sim_spawn, nat_argv. cbn [app].
  destruct (sim_tool_version v tool Hm) as [-> ->]. rewrite (tool_not_ip v tool Hm).
  destruct (sim_fault w); [|destruct (nat_command op args _) as [t|] eqn:Ec]; intros [= <- <-]; cbn.
  - right. exists (Exited 1). by rewrite lookup_insert_eq.
  - left. rewrite lookup_insert_eq. split; [done|]. by exists t.
  - right. exists (Exited 1). by rewrite lookup_insert_eq.
Qed.
Next Obligation.
  intros path w pid w'. cbn. intros [= <- <-]. split; [done|]. exists (Exited 0). cbn.
  rewrite lookup_insert_eq. split; [done|]. intros v Hin _ _. apply mem_in. apply in_or_app. by right.
Qed.
Next Obligation. intros v path Hin. apply mem_in, in_or_app. by left. Qed.
Next Obligation.
  intros size w r w' Hs. cbn. unfold sim_read. destruct (sim_output w) as [|c o] eqn:Eo; intros [= <- <-]; cbn; [done|].
  split; [done|]. split; [done|]. split; [|split; [by rewrite take_drop|lia]].
  unfold strlen. rewrite length_take. cbn. lia.
Qed.
Next Obligation.
  intros pid st w r w' Hc. cbn. unfold sim_waitpid. rewrite Hc.
  destruct (sim_retries w) as [|n] eqn:En; intros [= <- <-]; cbn; [auto|].
  split; [done|]. right. repeat split; [done|lia].
Qed.
Next Obligation. done. Qed.
Next Obligation. done. Qed.
Next Obligation. done. Qed.
Next Obligation. done. Qed.
Next Obligation. done. Qed.
Next Obligation. intros t w. cbn. unfold sim_nft_run. by destruct (sim_fault w). Qed.
Next Obligation. intros w. cbn. unfold sim_nft_run. by destruct (sim_fault w). Qed.
Next Obligation.
  intros t w. cbn. unfold sim_nft_run. destruct (sim_fault w); [done|]. case_match; [done|]. by case_match.
Qed.
Next Obligation.
  intros fw w Hok. cbn -[nft_install_batch nft_delete_batch]. unfold sim_nft_run. destruct (sim_fault w); [done|].
  change (str_eqb (nft_install_batch fw) (lit "list tables")) with false. cbn [orb].
  unfold sim_commit. rewrite create_key by done.
  destruct (rs_nft (sim_rules w) !! nft_key fw); [done|]. done.
Qed.
Next Obligation.
  intros fw w Hok. cbn -[nft_install_batch nft_delete_batch]. unfold sim_nft_run. destruct (sim_fault w); [done|].
  change (str_eqb (nft_delete_batch fw) (lit "list tables")) with false. cbn [orb].
  unfold sim_commit. change (table_key (lit "create table ") (nft_delete_batch fw)) with (@None (cstring * cstring)).
  rewrite delete_key by done.
  by destruct (rs_nft (sim_rules w) !! nft_key fw).
Qed.

(** ** Runs *)

Definition ex_spec : tcp_shift_firewall_spec :=
  {| sp_ip_version := 4; sp_resource_name := Some (lit "tcp_shift_p2");
     sp_public_address := Some (lit "203.0.113.10"); sp_public_port := 18090;
     sp_target_address := Some (lit "10.0.0.2"); sp_target_port := 18090 |}.

(** A machine with a foreign chain and a jump to it. *)
Definition ex_nat : nat_table :=
  {| nt_prerouting := [[lit "-j"; lit "DOCKER"]]; nt_chains := {[ lit "DOCKER" := [] ]} |}.
Definition ex_rules : ruleset :=
  {| rs_nat4 := ex_nat; rs_nat6 := {| nt_prerouting := []; nt_chains := empty |}; rs_nft := empty |}.

Definition ex_state (bin : list cstring) (nft : bool) (faults : list bool) : fwst sim :=
  {| fs_fw := fw_zero;
     fs_host := {| h_errno := 0; h_fds := 3; h_libs := 0; h_ctxs := 0;
                   h_world := {| sim_rules := ex_rules; sim_children := empty; sim_pid := 100;
                                 sim_output := []; sim_retries := 2; sim_bin := bin; sim_ifs := empty; sim_nft := nft;
                                 sim_faults := faults |} |} |}.

(** Two probes of the version, the chain, its rule (which fails), the flush and
    the deletion of the chain (which fails as well). *)
Definition ex_failing : fwst sim :=
  ex_state [lit "/usr/sbin/iptables"] false [false; false; false; true; false; true].

(** The failed install leaves a chain, the object still owns it, and the removal
    gives the original rules back. *)
Lemma firewall_never_leaks_witness :
  let s' := (fw_runs [OpInstall TCP_SHIFT_FIREWALL_AUTO (Some ex_spec)] ex_failing).2 in
  fw_installed (fs_fw s') = 1 /\
  nt_chains (rs_nat 4 (st_rules s')) !! lit "tcp_shift_p2" = Some [] /\
  st_ledger s' = (3, 0, 0) /\ st_rules (tcp_shift_firewall_remove s').2 = ex_rules.
Proof.
  cbn zeta. destruct (firewall_never_leaks ex_failing
    [OpInstall TCP_SHIFT_FIREWALL_AUTO (Some ex_spec)] eq_refl) as (_ & L & _ & _ & Hr).
  split; [vm_compute; reflexivity|]. split; [vm_compute; reflexivity|]. split; [exact L|].
  destruct Hr as [(_ & _ & Hr)|[Hr _]]; [exact Hr|].
  exfalso. revert Hr. vm_compute. discriminate.
Defined.

(** ** The commands the firewall sends *)

(** ** Words *)

(** The pieces between the occurrences of [c]. *)
Fixpoint split_at (c : ascii) (s : cstring) : list cstring :=
  match s with
  | [] => [[]]
  | x :: s' =>
      if Ascii.eqb x c then [] :: split_at c s'
      else match split_at c s' with
           | w :: ws => (x :: w) :: ws
           | [] => [[x]]
           end
  end.

Fixpoint join (c : ascii) (ws : list cstring) : cstring :=
  match ws with
  | [] => []
  | [w] => w
  | w :: ws' => w ++ c :: join c ws'
  end.

Definition lacks (c : ascii) (s : cstring) : Prop := Forall (fun x => Ascii.eqb x c = false) s.

Lemma split_at_lacks c s : lacks c s -> split_at c s = [s].
Proof. induction 1 as [|x s Hx _ IH]; cbn; [done|]. by rewrite Hx, IH. Qed.

Lemma split_at_app c a b : lacks c a -> split_at c (a ++ c :: b) = a :: split_at c b.
Proof. induction 1 as [|x a Hx _ IH]; cbn; [by rewrite Ascii.eqb_refl|]. by rewrite Hx, IH. Qed.

Lemma split_join c ws : ws <> [] -> Forall (lacks c) ws -> split_at c (join c ws) = ws.
Proof.
  intros Hne Hw. destruct Hw as [|w ws Hw Hws]; [done|]. clear Hne. revert w Hw.
  induction Hws as [|w' ws Hw' Hws IH]; intros w Hw; cbn [join]; [by apply split_at_lacks|].
  rewrite split_at_app by done. f_equal. by apply IH.
Qed.

Lemma lacks_app c a b : lacks c a -> lacks c b -> lacks c (a ++ b).
Proof. apply Forall_app_2. Qed.

Lemma lacks_join c d ws : Ascii.eqb d c = false -> Forall (lacks c) ws -> lacks c (join d ws).
Proof.
  intros Hd Hw. destruct Hw as [|w ws Hw Hws]; [constructor|]. revert w Hw.
  induction Hws as [|w' ws Hw' Hws IH]; intros w Hw; cbn [join]; [done|].
  apply lacks_app; [done|]. constructor; [done|]. by apply IH.
Qed.

(** ** Lengths *)

Lemma strlen_app a b : strlen (a ++ b) = strlen a + strlen b.
Proof. unfold strlen. rewrite length_app. lia. Qed.

Lemma print_fuel_strlen fuel : forall n acc k,
  0 <= n < 10 ^ Z.of_nat k -> (1 <= k)%nat -> strlen (print_fuel fuel n acc) <= Z.of_nat k + strlen acc.
Proof.
  induction fuel as [|f IH]; intros n acc k Hn Hk; cbn [print_fuel]; [lia|].
  destruct (n <? 10) eqn:E; [unfold strlen; cbn; lia|].
  destruct k as [|[|k]]; [lia|cbn in Hn; lia|].
  assert (Hd : 0 <= n / 10 < 10 ^ Z.of_nat (S k)).
  { rewrite Nat2Z.inj_succ, Z.pow_succ_r in Hn by lia.
    split; [apply Z.div_pos; lia|apply Z.div_lt_upper_bound; lia]. }
  specialize (IH (n / 10) (digit_char (n mod 10) :: acc) (S k) Hd ltac:(lia)). unfold strlen in *. cbn in *. lia.
Qed.

Lemma port_length p : 0 <= p <= 65535 -> strlen (print_dec p) <= 5.
Proof.
  intros Hp. pose proof (print_fuel_strlen 20 p [] 5) as Hl. cbn [Z.of_nat] in Hl.
  change (strlen []) with 0 in Hl. unfold print_dec. lia.
Qed.

Lemma name_length n : tcp_shift_firewall_valid_resource (Some n) = 0 -> strlen n < TCP_SHIFT_FIREWALL_RESOURCE_MAX.
Proof.
  unfold tcp_shift_firewall_valid_resource. destruct n as [|c n]; [done|].
  destruct (_ >=? _) eqn:E; [done|]. lia.
Qed.

Lemma family_length v : strlen (nft_family v) <= 3.
Proof. unfold nft_family. by destruct (v =? 4). Qed.

Section Text.
Context {W : Type} `{HS : HostSys W}.
Implicit Types (fw : tcp_shift_firewall).

(** Both ports are [uint16_t]. *)
Definition ports_ok (fw : tcp_shift_firewall) : Prop :=
  0 <= fw_public_port fw <= 65535 /\ 0 <= fw_target_port fw <= 65535.

Lemma destination_fits fw :
  fw_ok fw -> ports_ok fw -> strlen (destination_text fw) < TCP_SHIFT_FIREWALL_ADDRESS_MAX + 16.
Proof.
  intros Hok [_ Hp]. pose proof (ok_target_len fw Hok). pose proof (port_length _ Hp).
  unfold destination_text, TCP_SHIFT_FIREWALL_ADDRESS_MAX in *. destruct (_ =? 4); rewrite !strlen_app.
  - change (strlen (lit ":")) with 1. lia.
  - change (strlen (lit "[")) with 1. change (strlen (lit "]:")) with 2. lia.
Qed.

Lemma delete_batch_fits fw : fw_ok fw -> strlen (nft_delete_batch fw) < 128.
Proof.
  intros Hok. pose proof (name_length _ (ok_name fw Hok)). pose proof (family_length (fw_ip_version fw)).
  unfold nft_delete_batch, TCP_SHIFT_FIREWALL_RESOURCE_MAX in *. rewrite !strlen_app.
  change (strlen (lit "delete table ")) with 13. change (strlen (lit " ")) with 1. change (strlen newline) with 1. lia.
Qed.

Lemma install_batch_fits fw : fw_ok fw -> ports_ok fw -> strlen (nft_install_batch fw) < 1024.
Proof.
  intros Hok Hp. pose proof (name_length _ (ok_name fw Hok)). pose proof (family_length (fw_ip_version fw)).
  pose proof (ok_public_len fw Hok). pose proof (destination_fits fw Hok Hp).
  pose proof (port_length _ (proj1 Hp)).
  unfold nft_install_batch, TCP_SHIFT_FIREWALL_RESOURCE_MAX, TCP_SHIFT_FIREWALL_ADDRESS_MAX in *. cbn zeta.
  rewrite !strlen_app.
  change (strlen (lit "create table ")) with 13. change (strlen (lit " ")) with 1. change (strlen newline) with 1.
  change (strlen (lit "add chain ")) with 10. change (strlen (lit "add rule ")) with 9.
  change (strlen (lit " prerouting { type nat hook prerouting priority -100; policy accept; }")) with 70.
  change (strlen (lit " prerouting ")) with 12. change (strlen (lit " daddr ")) with 7.
  change (strlen (lit "tcp dport ")) with 10. change (strlen (lit " counter dnat to ")) with 17.
  assert (Hg : strlen (if fw_ip_version fw =? 4 then [] else lit "meta l4proto tcp ") <= 17)
    by (by destruct (_ =? 4)). lia.
Qed.

(** inet_pton(3): an address is written with hexadecimal digits, colons and
    dots only. *)
Definition addr_char (c : ascii) : bool :=
  isdigit c || ((97 <=? code c) && (code c <=? 102)) || ((65 <=? code c) && (code c <=? 70)) ||
  Ascii.eqb c ":" || Ascii.eqb c ".".

Definition pton_text : Prop :=
  forall v t b, sys_inet_pton v t = Some b -> forallb addr_char t = true.

(** The words of the three commands of the install script. *)
Definition install_words (fw : tcp_shift_firewall) : list (list cstring) :=
  let family := nft_family (fw_ip_version fw) in
  let guard := if fw_ip_version fw =? 4 then [] else [lit "meta"; lit "l4proto"; lit "tcp"] in
  [ [lit "create"; lit "table"; family; fw_resource_name fw];
    [lit "add"; lit "chain"; family; fw_resource_name fw; lit "prerouting"; lit "{"; lit "type";
     lit "nat"; lit "hook"; lit "prerouting"; lit "priority"; lit "-100;"; lit "policy";
     lit "accept;"; lit "}"];
    [lit "add"; lit "rule"; family; fw_resource_name fw; lit "prerouting"; family; lit "daddr";
     fw_public_address fw] ++ guard ++
    [lit "tcp"; lit "dport"; print_dec (fw_public_port fw); lit "counter"; lit "dnat"; lit "to";
     destination_text fw] ].
Definition delete_words (fw : tcp_shift_firewall) : list (list cstring) :=
  [ [lit "delete"; lit "table"; nft_family (fw_ip_version fw); fw_resource_name fw] ].

(** Commands as a script: words between blanks, a newline after each. *)
Definition script (commands : list (list cstring)) : cstring :=
  join (ascii_of_N 10) (map (join " "%char) commands ++ [[]]).
Definition read_script (text : cstring) : list (list cstring) :=
  map (split_at " "%char) (split_at (ascii_of_N 10) text).

Lemma install_script fw : nft_install_batch fw = script (install_words fw).
Proof.
  unfold nft_install_batch, script, install_words, newline. cbn zeta.
  destruct (fw_ip_version fw =? 4); cbn -[nft_family print_dec destination_text];
    repeat (progress (rewrite <- ?app_assoc; cbn [app])); reflexivity.
Qed.

Lemma delete_script fw : nft_delete_batch fw = script (delete_words fw).
Proof.
  unfold nft_delete_batch, script, delete_words, newline. cbn -[nft_family].
  repeat (progress (rewrite <- ?app_assoc; cbn [app])); reflexivity.
Qed.

(** A word of such a script. *)
Definition word_ok (w : cstring) : Prop := lacks " "%char w /\ lacks (ascii_of_N 10) w.

Lemma read_script_script commands :
  Forall (fun ws => ws <> [] /\ Forall word_ok ws) commands ->
  read_script (script commands) = commands ++ [[[]]].
Proof.
  intros Hc. unfold read_script, script. rewrite split_join.
  - rewrite map_app, map_map. cbn. f_equal.
    induction Hc as [|ws commands [Hne Hw] _ IH]; cbn; [done|]. rewrite IH, split_join; [done|done|].
    eapply Forall_impl; [exact Hw|]. by intros w [].
  - by destruct commands.
  - apply Forall_app. split; [|repeat constructor]. apply Forall_map. eapply Forall_impl; [exact Hc|].
    intros ws [_ Hw]. apply lacks_join; [done|]. eapply Forall_impl; [exact Hw|]. by intros w [].
Qed.

(** The variable words. *)
Lemma forallb_lacks (f : ascii -> bool) c w : f c = false -> forallb f w = true -> lacks c w.
Proof.
  intros Hc Hw. apply Forall_forall. intros x Hx. apply Ascii.eqb_neq. intros ->.
  rewrite forallb_forall in Hw. rewrite (Hw c) in Hc; [done|by apply list_elem_of_In].
Qed.

Lemma name_word fw : fw_ok fw -> word_ok (fw_resource_name fw).
Proof. intros Hok. split; apply valid_resource_char; try done; apply (ok_name fw Hok). Qed.

Lemma digits_lack n c : 0 <= n -> isdigit c = false -> lacks c (print_dec n).
Proof.
  intros Hn Hc. eapply Forall_impl; [by apply print_dec_digits|]. intros x Hx.
  apply Ascii.eqb_neq. intros ->. congruence.
Qed.

Lemma addr_lacks v t c :
  pton_text -> tcp_shift_firewall_valid_ip (Some t) v = 0 -> addr_char c = false -> lacks c t.
Proof.
  intros Hp Hv Hc. unfold tcp_shift_firewall_valid_ip in Hv. destruct (negb _); [done|].
  destruct (sys_inet_pton v t) as [b|] eqn:E; [|done]. by apply (forallb_lacks addr_char), (Hp _ _ _ E).
Qed.

Lemma family_word v : word_ok (nft_family v).
Proof. unfold nft_family. destruct (v =? 4); split; repeat constructor. Qed.

Lemma destination_lacks fw c :
  pton_text -> fw_ok fw -> ports_ok fw -> addr_char c = false -> Ascii.eqb c "[" = false -> Ascii.eqb c "]" = false ->
  lacks c (destination_text fw).
Proof.
  intros Hp Hok [_ Hpt] Hc Hl Hr.
  assert (Ht : lacks c (fw_target_address fw)) by (eapply addr_lacks; [done|apply (ok_target fw Hok)|done]).
  assert (Hd : lacks c (print_dec (fw_target_port fw))).
  { apply digits_lack; [lia|]. unfold addr_char in Hc. by destruct (isdigit c). }
  assert (Hcolon : Ascii.eqb ":" c = false).
  { rewrite Ascii.eqb_sym. unfold addr_char in Hc. by destruct (Ascii.eqb c ":"), (isdigit c), (_ && _), (_ && _). }
  rewrite Ascii.eqb_sym in Hl, Hr.
  unfold destination_text. destruct (_ =? 4); repeat (apply lacks_app; [|]); try done; by repeat constructor.
Qed.

Lemma variable_words fw :
  pton_text -> fw_ok fw -> ports_ok fw ->
  word_ok (fw_public_address fw) /\ word_ok (print_dec (fw_public_port fw)) /\ word_ok (destination_text fw).
Proof.
  intros Hp Hok Hpt. repeat split.
  1,2: by eapply addr_lacks; [|apply (ok_public fw Hok)|].
  1,2: apply digits_lack; [destruct Hpt; lia|done].
  all: by apply destination_lacks.
Qed.

Lemma script_words fw :
  pton_text -> fw_ok fw -> ports_ok fw ->
  Forall (fun ws => ws <> [] /\ Forall word_ok ws) (install_words fw) /\
  Forall (fun ws => ws <> [] /\ Forall word_ok ws) (delete_words fw).
Proof.
  intros Hp Hok Hpt. destruct (variable_words fw Hp Hok Hpt) as (H1 & H2 & H3).
  pose proof (name_word fw Hok) as H4. pose proof (family_word (fw_ip_version fw)) as H5.
  unfold install_words, delete_words. cbn zeta.
  destruct (_ =? 4); cbn [app]; split; repeat first [exact H1|exact H2|exact H3|exact H4|exact H5|constructor|done].
Qed.

(** C31. Whatever description passes the checks: its texts fit the buffers the
    code prints them into (so no command is ever truncated or refused for its
    length), and the nft scripts read back, blank by blank and line by line, as
    exactly the intended words, with the name, the addresses and the ports each
    a single word: nothing a caller puts into a description adds a word or a
    command. *)
Theorem firewall_scripts_exact fw :
  pton_text -> fw_ok fw -> ports_ok fw ->
  strlen (destination_text fw) < TCP_SHIFT_FIREWALL_ADDRESS_MAX + 16 /\
  strlen (nft_install_batch fw) < 1024 /\ strlen (nft_delete_batch fw) < 128 /\
  port_text (fw_public_port fw) = print_dec (fw_public_port fw) /\
  read_script (nft_install_batch fw) = install_words fw ++ [[[]]] /\
  read_script (nft_delete_batch fw) = delete_words fw ++ [[[]]].
Proof.
  intros Hp Hok Hpt. destruct (script_words fw Hp Hok Hpt) as [Hi Hd].
  split; [by apply destination_fits|]. split; [by apply install_batch_fits|].
  split; [by apply delete_batch_fits|]. split.
  { unfold port_text. apply take_ge. pose proof (port_length _ (proj1 Hpt)) as Hl. unfold strlen in Hl. lia. }
  rewrite install_script, delete_script. split; by apply read_script_script.
Qed.

End Text.

(** ** On the simulated host *)

Definition ex_fw6 : tcp_shift_firewall :=
  {| fw_backend := TCP_SHIFT_FIREWALL_NFTABLES; fw_ip_version := 6; fw_installed := 0;
     fw_legacy_chain_created := 0; fw_legacy_jump_installed := 0;
     fw_resource_name := lit "tcp_shift_p2_ipv6"; fw_public_address := lit "2001:db8::10";
     fw_target_address := lit "fd00::2"; fw_public_port := 443; fw_target_port := 65535 |}.

Lemma sim_pton_text : pton_text (W := sim).
Proof.
  intros v t b E. cbn in E. unfold sim_pton in E. destruct (forallb _ t) eqn:Ef; [|done].
  rewrite forallb_forall in *. intros c Hc. specialize (Ef c Hc). unfold addr_char.
  destruct (isdigit c), ((97 <=? code c) && (code c <=? 102)), ((65 <=? code c) && (code c <=? 70)); try done.
  cbn [orb] in *. destruct (v =? 4); rewrite Ef; [by rewrite orb_true_r|done].
Qed.

Lemma firewall_scripts_exact_witness :
  fw_ok (W := sim) ex_fw6 /\ ports_ok ex_fw6 /\
  read_script (nft_delete_batch ex_fw6) = [[lit "delete"; lit "table"; lit "ip6"; lit "tcp_shift_p2_ipv6"]; [[]]].
Proof.
  assert (Hok : fw_ok (W := sim) ex_fw6) by (constructor; first [by right|reflexivity]).
  assert (Hp : ports_ok ex_fw6) by (split; cbn; lia).
  split; [exact Hok|]. split; [exact Hp|].
  destruct (firewall_scripts_exact (W := sim) ex_fw6 sim_pton_text Hok Hp) as (_ & _ & _ & _ & _ & Hd). exact Hd.
Defined.

(** ** Teardown completes *)

(** A host in working order, and it stays so. *)
Class HealthyHost (W : Type) `{HostLaws W} (healthy : W -> Prop) := {
  hl_tool v w : v = 4 \/ v = 6 -> healthy w ->
    existsb (fun p => sys_access p w) (legacy_tools v) = true;
  hl_spawn v tool op args t w : healthy w -> legacy_tool v tool = true ->
    In op [lit "-D"; lit "-F"; lit "-X"] ->
    nat_command op args (rs_nat v (host_rules w)) = Some t ->
    exists pid w', sys_spawn false tool (nat_argv tool op args) w = (inr pid, w') /\
      host_child w' pid = Some (Exited 0) /\ healthy w';
  hl_wait pid w : healthy w -> healthy (sys_waitpid pid w).2;
  hl_dlopen w : healthy w ->
    (sys_dlopen (lit "libnftables.so.1") w).1 = true /\ healthy (sys_dlopen (lit "libnftables.so.1") w).2;
  hl_dlsym n w : healthy w -> In n nft_symbols -> sys_dlsym n w = true;
  hl_ctx w : healthy w -> (nft_ctx_new w).1 = true /\ healthy (nft_ctx_new w).2;
  hl_output w : healthy w -> (nft_ctx_buffer_output w).1 = 0 /\ healthy (nft_ctx_buffer_output w).2;
  hl_error w : healthy w -> (nft_ctx_buffer_error w).1 = 0 /\ healthy (nft_ctx_buffer_error w).2;
  hl_delete fw w : healthy w -> fw_ok fw -> is_Some (rs_nft (host_rules w) !! nft_key fw) ->
    (nft_run_cmd false (nft_delete_batch fw) w).1.1 = 0
}.

(** The kernel keeps no jump to a chain that does not exist. *)
Definition closed_jumps (r : ruleset) : Prop :=
  forall v n, nt_chains (rs_nat v r) !! n = None -> unreferenced n (rs_nat v r) = true.

Section Retry.
Context {W : Type} `{HH : HealthyHost W healthy}.
Implicit Types (s : fwst W) (h : host W) (fw : tcp_shift_firewall).

Lemma unreferenced_chain n t : unreferenced n t = true -> unreferenced n (set_chain n [] t) = true.
Proof.
  unfold unreferenced. rewrite !andb_true_iff. intros [Hp Hc]. split; [done|]. cbn.
  rewrite !forallb_forall in *. intros [k l] Hin. apply list_elem_of_In, elem_of_map_to_list in Hin.
  destruct (decide (k = n)) as [->|Hk].
  - rewrite lookup_insert_eq in Hin. by injection Hin as <-.
  - rewrite lookup_insert_ne in Hin by done. apply (Hc (k, l)), list_elem_of_In, elem_of_map_to_list. exact Hin.
Qed.

Lemma wait_loop_healthy fuel pid : forall h, healthy (h_world h) -> healthy (h_world (wait_loop fuel pid h).2).
Proof.
  induction fuel as [|f IH]; intros h Hh; [done|]. cbn [wait_loop]. rewrite bind_run. cbn [call fst snd].
  pose proof (hl_wait pid (h_world h) Hh) as Hw.
  destruct (sys_waitpid pid (h_world h)) as [[st| |e] w]; cbn [fst snd] in *; [done| |done].
  rewrite bind_run. by apply IH.
Qed.

Lemma wait_child_healthy pid h : healthy (h_world h) -> healthy (h_world (tcp_shift_wait_child pid h).2).
Proof.
  intros Hh. unfold tcp_shift_wait_child. rewrite bind_run. cbn [ask gets fst snd]. rewrite bind_run.
  pose proof (wait_loop_healthy (S (sys_retries (h_world h))) pid h Hh) as Hw.
  destruct (wait_loop _ pid h) as [r h1]; cbn [fst snd] in *. by repeat case_match.
Qed.

(** A command the table allows is carried out. *)
Lemma run_healthy v tool op args h :
  healthy (h_world h) -> legacy_tool v tool = true -> In op [lit "-D"; lit "-F"; lit "-X"] ->
  is_Some (nat_command op args (rs_nat v (rules_of h))) ->
  let p := tcp_shift_legacy_run tool (nat_argv tool op args) h in p.1 = 0 /\ healthy (h_world p.2).
Proof.
  intros Hh Ht Hop [t Hc]. cbn zeta. unfold tcp_shift_legacy_run. rewrite bind_run. cbn [call fst snd].
  destruct (hl_spawn v tool op args t (h_world h) Hh Ht Hop Hc) as (pid & w' & E & Hst & Hw). rewrite E. cbn [fst snd].
  match goal with |- context [tcp_shift_wait_child pid ?x] =>
    destruct (wait_child_spec x pid (Exited 0) Hst) as (Hr & _ & _);
    pose proof (wait_child_healthy pid x Hw) end.
  destruct Hr as [[-> _]|[_ Hne]]; done.
Qed.

Lemma find_tool_healthy v h :
  v = 4 \/ v = 6 -> healthy (h_world h) ->
  let p := tcp_shift_legacy_find_tool v h in (exists tool, p.1 = Some tool) /\ p.2 = h.
Proof.
  intros Hv Hh. cbn zeta. unfold tcp_shift_legacy_find_tool. fold (legacy_tools v) (plain_tools v).
  destruct ((v =? 4) || (v =? 6)) eqn:Ev; [|lia]. cbn [negb]. rewrite bind_run.
  pose proof (hl_tool v (h_world h) Hv Hh) as Ha.
  assert (Hf : exists tool, find_legacy (legacy_tools v) h = (Some tool, h)).
  { induction (legacy_tools v) as [|p l IH]; [done|]. cbn [find_legacy existsb] in *. rewrite bind_run.
    cbn [ask gets fst snd]. destruct (sys_access p (h_world h)); [by exists p|by apply IH]. }
  destruct Hf as [tool ->]. cbn. eauto.
Qed.

Lemma rollback_jump_healthy base tool s :
  healthy (h_world (fs_host s)) -> legacy_tool (fw_ip_version (fs_fw s)) tool = true ->
  owns base (set_installed 1 (fs_fw s)) (st_rules s) ->
  let p := rollback_jump tool s in p.1.1 = 0 /\ healthy (h_world (fs_host p.2)).
Proof.
  intros Hh Ht Ho. cbn zeta. unfold rollback_jump. rewrite bind_run. cbn [fw_get gets fst snd]. unfold id.
  destruct s as [fw h]; cbn [fs_fw fs_host] in *. unfold st_rules in *; cbn [fs_host] in *.
  destruct (fw_legacy_jump_installed fw =? 0) eqn:Ej; cbn [negb]; [done|].
  rewrite bind_run. cbn [on_host fst snd fs_host fs_fw].
  assert (Hr : rules_of h = with_redirect fw base) by (inversion Ho; cbn in *; first [lia|done]).
  destruct (run_healthy (fw_ip_version fw) tool (lit "-D") (lit "PREROUTING" :: jump_rule fw) h) as [E1 E2];
    [exact Hh|exact Ht|by left| |].
  { rewrite Hr. unfold with_redirect. rewrite rs_nat_set. cbn -[jump_rule remove_rule]. cbn [remove_rule].
    by rewrite rule_eqb_refl. }
  unfold tcp_shift_legacy_delete_jump. destruct (tcp_shift_legacy_run tool _ h) as [r h1]; cbn [fst snd] in *.
  subst r. done.
Qed.

Lemma rollback_chain_healthy base tool s e0 :
  healthy (h_world (fs_host s)) -> legacy_tool (fw_ip_version (fs_fw s)) tool = true -> closed_jumps base ->
  fw_legacy_chain_created (fs_fw s) = 1 -> fw_legacy_jump_installed (fs_fw s) = 0 ->
  owns base (set_installed 1 (fs_fw s)) (st_rules s) ->
  (rollback_chain tool 0 e0 s).1.1 = 0.
Proof.
  intros Hh Ht Hcl Hc Hj Ho. unfold rollback_chain. rewrite bind_run. cbn [fw_get gets fst snd]. unfold id.
  destruct s as [fw h]; cbn [fs_fw fs_host] in *. unfold st_rules in *; cbn [fs_host] in *.
  rewrite Hc, Hj. cbn [negb Z.eqb andb]. rewrite bind_run. cbn [on_host fst snd fs_host fs_fw].
  assert (Hx : exists content, rules_of h = with_chain fw content base /\
    nt_chains (rs_nat (fw_ip_version fw) base) !! fw_resource_name fw = None).
  { inversion Ho; cbn in *; try congruence. eexists. by split. }
  destruct Hx as (content & Hr & Hn).
  destruct (run_healthy (fw_ip_version fw) tool (lit "-F") [fw_resource_name fw] h) as [E1 E2];
    [exact Hh|exact Ht|by right; left| |].
  { rewrite Hr. unfold with_chain. rewrite rs_nat_set. cbn -[set_chain]. by rewrite chain_made. }
  destruct (legacy_run_spec _ tool (lit "-F") [fw_resource_name fw] h Ht) as (_ & Hres).
  unfold tcp_shift_legacy_flush_chain. destruct (tcp_shift_legacy_run tool _ h) as [r h1]; cbn [fst snd] in *.
  subst r. destruct Hres as [(_ & t & Hcmd & Hr1)|(? & _)]; [|done]. rewrite Hr in Hr1, Hcmd.
  apply flush_command in Hcmd. rewrite Hcmd in Hr1. cbn [Z.ltb Z.compare].
  rewrite bind_run. cbn [on_host fst snd fs_host fs_fw].
  destruct (run_healthy (fw_ip_version fw) tool (lit "-X") [fw_resource_name fw] h1) as [F1 F2];
    [exact E2|exact Ht|by right; right; left| |].
  { rewrite Hr1. unfold with_chain. rewrite rs_nat_set. cbn -[set_chain unreferenced]. rewrite chain_made.
    by rewrite (unreferenced_chain _ _ (Hcl _ _ Hn)). }
  unfold tcp_shift_legacy_delete_chain. destruct (tcp_shift_legacy_run tool _ h1) as [r h2]; cbn [fst snd] in *.
  by subst r.
Qed.

Lemma rollback_healthy base tool s :
  healthy (h_world (fs_host s)) -> legacy_tool (fw_ip_version (fs_fw s)) tool = true -> closed_jumps base ->
  fw_backend (fs_fw s) = TCP_SHIFT_FIREWALL_IPTABLES -> fw_legacy_chain_created (fs_fw s) = 1 ->
  owns base (set_installed 1 (fs_fw s)) (st_rules s) ->
  (tcp_shift_legacy_rollback tool s).1 = 0.
Proof.
  intros Hh Ht Hcl Hb Hc Ho. unfold tcp_shift_legacy_rollback. rewrite bind_run.
  destruct (rollback_jump_healthy base tool s Hh Ht Ho) as [R1 H1].
  destruct (rollback_jump_spec base _ tool s Ht eq_refl Hb Hc Ho) as (_ & O1 & C1 & Hj).
  destruct (rollback_jump tool s) as [[r1 e1] s1]; cbn [fst snd] in *. subst r1.
  destruct Hj as [[_ E1]|(? & _)]; [|done]. rewrite bind_run.
  pose proof (rollback_chain_healthy base tool s1 e1) as R2.
  destruct (rollback_chain tool 0 e1 s1) as [[r2 e2] s2]; cbn [fst snd] in *.
  rewrite R2; [done|done|by rewrite E1|done|done|by rewrite E1|done].
Qed.

Lemma load_healthy names : forall h,
  healthy (h_world h) -> (forall n, In n names -> In n nft_symbols) -> load_symbols names h = (1, h).
Proof.
  induction names as [|n names IH]; intros h Hh Hin; [done|]. cbn. cbn [In] in Hin.
  rewrite (hl_dlsym n (h_world h) Hh) by auto. cbn. apply IH; auto.
Qed.

Lemma prepare_healthy h :
  healthy (h_world h) ->
  let p := tcp_shift_nft_prepare h in p.1 = 1 /\ healthy (h_world p.2).
Proof.
  intros Hh. cbn zeta. unfold tcp_shift_nft_prepare, tcp_shift_nft_api_open. rewrite bind_run.
  cbn [open_library]. rewrite !bind_run. cbn [call fst snd].
  destruct (hl_dlopen (h_world h) Hh) as [-> H1]. cbn [fst snd negb].
  rewrite !bind_run. cbn [add_libs modify fst snd ret negb].
  rewrite load_healthy by done. cbn [fst snd]. change (1 <=? 0) with false. cbn iota.
  rewrite !bind_run. cbn [call fst snd h_world].
  destruct (hl_ctx _ H1) as [-> H2]. cbn [negb]. rewrite !bind_run. cbn [add_ctxs modify call fst snd h_world].
  destruct (hl_output _ H2) as [-> H3]. cbn [Z.eqb negb call fst snd h_world].
  destruct (hl_error _ H3) as [-> H4]. done.
Qed.

Lemma nft_run_healthy fw h :
  healthy (h_world h) -> fw_ok fw -> is_Some (rs_nft (rules_of h) !! nft_key fw) ->
  (tcp_shift_firewall_nft_run (nft_delete_batch fw) 0 h).1 = 0.
Proof.
  intros Hh Hok Hs. unfold tcp_shift_firewall_nft_run, tcp_shift_nft_control_run.
  destruct (nft_delete_batch fw) as [|c t] eqn:Et; [done|]. rewrite <- Et. rewrite bind_run.
  destruct (prepare_healthy h Hh) as [E1 H1]. pose proof (quiet_prepare _ h eq_refl) as Hq.
  destruct (tcp_shift_nft_prepare h) as [r h1]; cbn [fst snd] in *. subst r.
  change (1 <=? 0) with false. cbn iota. do 2 (rewrite bind_run; cbn [call set_errno modify fst snd h_world]).
  change (negb (0 =? 0)) with false. pose proof (hl_delete fw (h_world h1) H1 Hok) as Hd.
  unfold rules_of in *. rewrite Hq in Hd. specialize (Hd Hs).
  destruct (nft_run_cmd false _ (h_world h1)) as [[r e] w]; cbn [fst snd] in *. subst r.
  do 3 (rewrite bind_run; cbn [ask gets fst snd]).
  change (tcp_shift_nft_emit None (nft_output_buffer w)) with (ret (S := host W) tt). done.
Qed.

Lemma nft_remove_healthy base s :
  healthy (h_world (fs_host s)) -> owns base (fs_fw s) (st_rules s) ->
  fw_backend (fs_fw s) = TCP_SHIFT_FIREWALL_NFTABLES -> fw_installed (fs_fw s) <> 0 ->
  (tcp_shift_firewall_nft_remove s).1 = 0.
Proof.
  intros Hh Ho Hb Hi. unfold tcp_shift_firewall_nft_remove. rewrite bind_run.
  destruct s as [fw h]; cbn [fw_get gets fst snd fs_fw fs_host] in *. unfold id, st_rules in *. cbn [fs_host] in *.
  assert (Hx : fw_ok fw /\ is_Some (rs_nft (rules_of h) !! nft_key fw)).
  { unfold TCP_SHIFT_FIREWALL_NFTABLES in *. inversion Ho; unfold TCP_SHIFT_FIREWALL_IPTABLES in *; try congruence.
    split; [done|]. cbn. rewrite lookup_insert_eq. eauto. }
  destruct Hx as [Hok Hsome]. rewrite Hb. apply Z.eqb_neq in Hi. rewrite Hi. cbn [negb orb Z.eqb Pos.eqb TCP_SHIFT_FIREWALL_NFTABLES].
  destruct (ok_version fw Hok) as [Hv|Hv]; rewrite Hv; cbn [negb orb Z.eqb Pos.eqb].
  all: pose proof (delete_batch_fits fw Hok) as Hl; destruct (strlen _ >=? 128) eqn:El; [lia|].
  all: rewrite bind_run; cbn [on_host fst snd fs_host fs_fw];
    pose proof (nft_run_healthy fw h Hh Hok Hsome) as Hr;
    destruct (tcp_shift_firewall_nft_run _ 0 h) as [r h1]; cbn [fst snd] in *; by subst r.
Qed.

(** A healthy host removes whatever is owned. *)
Lemma remove_healthy base s :
  healthy (h_world (fs_host s)) -> closed_jumps base -> owns base (fs_fw s) (st_rules s) ->
  (tcp_shift_firewall_remove s).1 = 0.
Proof.
  intros Hh Hcl Ho. unfold tcp_shift_firewall_remove. rewrite bind_run. cbn [fw_get gets fst snd]. unfold id.
  destruct (fw_installed (fs_fw s) =? 0) eqn:Ei; [done|].
  destruct (fw_backend _ =? TCP_SHIFT_FIREWALL_NFTABLES) eqn:E1;
    [apply (nft_remove_healthy base); [done|done|lia|lia]|].
  assert (Hx : fw_backend (fs_fw s) = TCP_SHIFT_FIREWALL_IPTABLES /\ fw_legacy_chain_created (fs_fw s) = 1 /\
               fw_ok (fs_fw s) /\ set_installed 1 (fs_fw s) = fs_fw s).
  { destruct s as [fw h]; cbn [fs_fw] in *. unfold set_installed, set_flags.
    inversion Ho; try lia; (split; [done|split; [done|split; [done|destruct fw; cbn in *; congruence]]]). }
  destruct Hx as (Hb & Hc & Hok & Hs). rewrite Hb. cbn [Z.eqb Pos.eqb TCP_SHIFT_FIREWALL_IPTABLES].
  unfold tcp_shift_firewall_legacy_remove. rewrite bind_run. cbn [fw_get gets fst snd]. unfold id.
  rewrite Hb, Ei. cbn [Z.eqb Pos.eqb negb orb TCP_SHIFT_FIREWALL_IPTABLES]. rewrite bind_run.
  cbn [on_host fst snd].
  destruct (find_tool_healthy (fw_ip_version (fs_fw s)) (fs_host s) (ok_version _ Hok) Hh) as [[tool E] Eh].
  destruct (find_tool_spec (fw_ip_version (fs_fw s)) (fs_host s)) as (_ & _ & Ht).
  destruct (tcp_shift_legacy_find_tool _ (fs_host s)) as [r h1]; cbn [fst snd] in *. subst r h1.
  destruct (Ht tool eq_refl) as [Hleg _].
  apply (rollback_healthy base); try done. cbn [fs_fw]. by rewrite Hs.
Qed.

(** C32. Teardown can always be completed: whatever sequence of installs and
    removals came before and however they failed, once the host is in working
    order one removal answers 0 and the machine has its original rules. *)
Theorem firewall_teardown_completes s ops :
  fs_fw s = fw_zero -> closed_jumps (st_rules s) ->
  let s' := (fw_runs ops s).2 in
  healthy (h_world (fs_host s')) ->
  let q := tcp_shift_firewall_remove s' in
  q.1 = 0 /\ fw_installed (fs_fw q.2) = 0 /\ st_rules q.2 = st_rules s /\ st_ledger q.2 = st_ledger s.
Proof.
  intros Hz Hcl. cbn zeta. intros Hh.
  assert (Ho : owns (st_rules s) (fs_fw s) (st_rules s)) by (rewrite Hz; by apply owns_nothing).
  destruct (fw_runs_owns (st_rules s) ops s Ho) as [L O]. set (s' := (fw_runs ops s).2) in *.
  pose proof (remove_healthy _ s' Hh Hcl O) as E. destruct (remove_spec _ s' O) as (L' & O' & [[_ Hi]|[E' _]]).
  - split; [done|]. split; [done|]. split; [by apply (owns_installed _ _ _ O')|congruence].
  - congruence.
Qed.

End Retry.

(** ** On the simulated host *)

Definition sim_healthy (w : sim) : Prop :=
  sim_faults w = [] /\ sim_nft w = true /\
  mem (lit "/usr/sbin/iptables-legacy") (sim_bin w) = true /\
  mem (lit "/usr/sbin/ip6tables-legacy") (sim_bin w) = true.

Lemma sim_fault_healthy w : sim_healthy w -> sim_fault w = false.
Proof. intros [E _]. unfold sim_fault. by rewrite E. Qed.

#[export] Instance sim_is_healthy : HealthyHost sim sim_healthy.
Proof.
  split; cbn -[mem lit legacy_tools sim_tools ip_tools]; try done.
  - intros v w Hv (_ & _ & H4 & H6). destruct Hv as [-> | ->].
    + change (legacy_tools 4) with ipv4_legacy. unfold ipv4_legacy. cbn [existsb]. by rewrite H4.
    + change (legacy_tools 6) with ipv6_legacy. unfold ipv6_legacy. cbn [existsb]. by rewrite H6.
  - intros v tool op args t w Hh Ht _ Hc. unfold sim_spawn, nat_argv. cbn [app].
    destruct (sim_tool_version v tool Ht) as [-> ->]. rewrite (tool_not_ip v tool Ht).
    rewrite (sim_fault_healthy w Hh), Hc. destruct Hh as (Hf & Hn & H4 & H6).
    do 2 eexists. split; [done|]. split; [apply lookup_insert_eq|].
    split; [cbn; by rewrite Hf|]. split; [exact Hn|]. split; [exact H4|exact H6].
  - intros pid w Hh. unfold sim_waitpid. destruct (sim_retries w); [|done]. by destruct (sim_children w !! pid).
  - intros w Hh. split; [apply Hh|done].
  - intros fw w Hh Hok [x Hx]. unfold sim_nft_run. rewrite (sim_fault_healthy w Hh).
    change (str_eqb (nft_delete_batch fw) (lit "list tables")) with false. cbn [orb]. unfold sim_commit.
    change (table_key (lit "create table ") (nft_delete_batch fw)) with (@None (cstring * cstring)).
    rewrite delete_key by done. cbn iota. by rewrite Hx.
Qed.

Lemma ex_rules_closed : closed_jumps ex_rules.
Proof.
  intros v n Hn. unfold rs_nat in *. destruct (v =? 4).
  2: { unfold unreferenced. cbn [ex_rules rs_nat6 nt_prerouting nt_chains forallb]. by rewrite map_to_list_empty. }
  assert (E : str_eqb (lit "DOCKER") n = false).
  { destruct (str_eqb _ n) eqn:E; [|done]. apply str_eqb_eq in E as <-. cbn [ex_rules rs_nat4 ex_nat nt_chains] in Hn.
    by rewrite lookup_singleton_eq in Hn. }
  assert (Hr : refers n [lit "-j"; lit "DOCKER"] = false) by exact E.
  unfold unreferenced. cbn [ex_rules rs_nat4 ex_nat nt_prerouting nt_chains forallb].
  by rewrite map_to_list_singleton, Hr.
Qed.

(** The chain is created, its rule fails, the flush is done and the deletion
    fails; afterwards the host works. *)
Definition ex_recovering : fwst sim :=
  ex_state [lit "/usr/sbin/iptables-legacy"; lit "/usr/sbin/ip6tables-legacy"] true
    [false; true; false; true].

Lemma firewall_teardown_completes_witness :
  let s' := (fw_runs [OpInstall TCP_SHIFT_FIREWALL_IPTABLES (Some ex_spec)] ex_recovering).2 in
  fw_installed (fs_fw s') = 1 /\ (tcp_shift_firewall_remove s').1 = 0 /\
  st_rules (tcp_shift_firewall_remove s').2 = ex_rules.
Proof.
  cbn zeta.
  assert (Hh : sim_healthy (h_world (fs_host
    (fw_runs [OpInstall TCP_SHIFT_FIREWALL_IPTABLES (Some ex_spec)] ex_recovering).2)))
    by (unfold sim_healthy; vm_compute; repeat split; reflexivity).
  destruct (firewall_teardown_completes (HH := sim_is_healthy) ex_recovering
    [OpInstall TCP_SHIFT_FIREWALL_IPTABLES (Some ex_spec)] eq_refl ex_rules_closed Hh) as (E & _ & Hr & _).
  split; [vm_compute; reflexivity|]. split; [exact E|exact Hr].
Defined.
