(* ===== verification/HostSetupSpec.v ===== *)
(** * What the set-up of the interface does

    The documented effect of the requests and of the [ip] tool on an
    interface, and the theorem that the configuration functions apply exactly
    their steps, in order, up to the first failure, and hold no descriptor
    afterwards. *)

From Stdlib Require Import ZArith Lia Bool List Ascii String.
From stdpp Require Import base tactics numbers list gmap strings.
From S2P Require Import Prelude CString StateMonad HostSys Firewall FirewallSpec FirewallLife FirewallHost HostSetup.
Local Open Scope Z_scope.

(** netdevice(7): what a successful request does to the interface. *)
Definition apply_request (r : if_request) (u : ifr_union) (i : iface) : iface :=
  match r, u with
  | SIOCSIFMTU, IfrMtu m =>
      {| if_mtu := m; if_addr := if_addr i; if_netmask := if_netmask i; if_flags := if_flags i; if_addr6 := if_addr6 i |}
  | SIOCSIFADDR, IfrAddr _ b =>
      {| if_mtu := if_mtu i; if_addr := b; if_netmask := if_netmask i; if_flags := if_flags i; if_addr6 := if_addr6 i |}
  | SIOCSIFNETMASK, IfrAddr _ b =>
      {| if_mtu := if_mtu i; if_addr := if_addr i; if_netmask := b; if_flags := if_flags i; if_addr6 := if_addr6 i |}
  | SIOCSIFFLAGS, IfrFlags f =>
      {| if_mtu := if_mtu i; if_addr := if_addr i; if_netmask := if_netmask i; if_flags := f; if_addr6 := if_addr6 i |}
  | _, _ => i
  end.

(** ip(8) [link set dev ... mtu ... up] and [addr add]. *)
Definition link_up (mtu : Z) (i : iface) : iface :=
  {| if_mtu := mtu; if_addr := if_addr i; if_netmask := if_netmask i;
     if_flags := Z.lor (if_flags i) IFF_UP; if_addr6 := if_addr6 i |}.
Definition add_addr6 (cidr : cstring) (i : iface) : iface :=
  {| if_mtu := if_mtu i; if_addr := if_addr i; if_netmask := if_netmask i; if_flags := if_flags i;
     if_addr6 := if_addr6 i ++ [cidr] |}.

(** The interfaces with one of them changed. *)
Definition on_if (n : cstring) (f : iface -> iface) (ifs : cstring -> iface) : cstring -> iface :=
  fun m => if str_eqb m n then f (ifs m) else ifs m.

Class NetLaws (W : Type) `{HostLaws W} `{NetSys W} := {
  host_if : W -> cstring -> iface;
  law_socket w : (forall m, host_if (net_socket w).2 m = host_if w m) /\
    host_rules (net_socket w).2 = host_rules w;
  law_open_tun w r w' : net_open_tun w = (r, w') ->
    host_rules w' = host_rules w /\ match r with inr fd => 0 <= fd | inl _ => True end;
  law_ioctl_rules fd r ifr w : host_rules (net_ioctl fd r ifr w).2 = host_rules w;
  law_ioctl_failed fd r ifr w e w' : net_ioctl fd r ifr w = (inl e, w') -> forall m, host_if w' m = host_if w m;
  law_ioctl fd r ifr w ifr' w' : r <> TUNSETIFF -> net_ioctl fd r ifr w = (inr ifr', w') ->
    (forall m, host_if w' m = on_if (ifr_name ifr) (apply_request r (ifr_ifru ifr)) (host_if w) m) /\
    (r = SIOCGIFFLAGS -> ifr' = {| ifr_name := ifr_name ifr;
                                   ifr_ifru := IfrFlags (if_flags (host_if w (ifr_name ifr))) |});
  (** a child of ip(8): it changes no packet filter, and with status 0 it did its work *)
  law_ip tool argv w pid w' : In tool ip_tools -> sys_spawn false tool argv w = (inr pid, w') ->
    host_rules w' = host_rules w /\
    exists st, host_child w' pid = Some st /\
      (st = Exited 0 -> forall n t, 0 <= t < 4294967296 -> argv = link_argv n t ->
         forall m, host_if w' m = on_if n (link_up t) (host_if w) m) /\
      (st = Exited 0 -> forall n c, argv = addr_argv n c ->
         forall m, host_if w' m = on_if n (add_addr6 c) (host_if w) m);
  law_wait_if pid w m : host_if (sys_waitpid pid w).2 m = host_if w m
}.

Section Spec.
Context {W : Type} `{NL : NetLaws W}.
Implicit Types (h : host W).

Definition ifs_of (h : host W) : cstring -> iface := host_if (h_world h).

(** ** The TUN file *)

Lemma tun_open_spec name h :
  let p := tcp_shift_tun_open name h in
  rules_of p.2 = rules_of h /\
  ((p.1.1 = 0 /\ 0 <= tun_fd p.1.2 /\ strlen (tun_ifname p.1.2) < IFNAMSIZ /\
    ledger p.2 = (h_fds h + 1, h_libs h, h_ctxs h)) \/
   (p.1.1 = -1 /\ tun_fd p.1.2 = -1 /\ ledger p.2 = ledger h)).
Proof.
  cbn zeta. unfold tcp_shift_tun_open. rewrite bind_run. cbn [call fst snd].
  pose proof (law_open_tun (h_world h)) as Ho.
  destruct (net_open_tun (h_world h)) as [[e|fd] w1]; cbn [fst snd] in *;
    destruct (Ho _ _ eq_refl) as [Hr Hfd].
  { cbn. split; [exact Hr|]. right. done. }
  rewrite bind_run. cbn [add_fds modify fst snd].
  destruct (_ >=? IFNAMSIZ); [cbn; split; [exact Hr|]; right; split; [done|split; [done|led]]|].
  rewrite bind_run. unfold ioctl_call. rewrite bind_run. cbn [call fst snd h_world].
  match goal with |- context [net_ioctl fd TUNSETIFF ?i w1] =>
    pose proof (law_ioctl_rules fd TUNSETIFF i w1) as Hi; destruct (net_ioctl fd TUNSETIFF i w1) as [[e|ifr'] w2] end;
    cbn [fst snd] in *; cbn; (split; [unfold rules_of in *; cbn in *; congruence|]); [right|left].
  - split; [done|split; [done|led]].
  - split; [done|]. split; [done|]. split; [|done]. unfold strlen. rewrite length_take. unfold IFNAMSIZ. lia.
Qed.

Lemma tun_close_spec tun h :
  let p := tcp_shift_tun_close tun h in
  rules_of p.2 = rules_of h /\ tun_fd p.1 = -1 /\
  ledger p.2 = (h_fds h - (if 0 <=? tun_fd tun then 1 else 0), h_libs h, h_ctxs h).
Proof.
  cbn zeta. unfold tcp_shift_tun_close. rewrite bind_run. cbn [ret fst snd tun_fd].
  destruct (0 <=? tun_fd tun); cbn [when]; (split; [done|split; [done|led]]).
Qed.

(** ** IPv4: five requests *)

(** One request with what follows, on the three observations: refused, with
    everything as it was and the descriptor closed, or granted. *)
Lemma request_spec fd r prepared next h :
  r <> TUNSETIFF ->
  let closed := (h_fds h - 1, h_libs h, h_ctxs h) in
  let p := request fd r prepared next h in
  (p.1 = -1 /\ ledger p.2 = closed /\ rules_of p.2 = rules_of h /\
   forall m, ifs_of p.2 m = ifs_of h m) \/
  (exists ifr ifr' h', prepared = inr ifr /\ p = next ifr' h' /\
     ledger h' = ledger h /\ rules_of h' = rules_of h /\
     (forall m, ifs_of h' m = on_if (ifr_name ifr) (apply_request r (ifr_ifru ifr)) (ifs_of h) m) /\
     (r = SIOCGIFFLAGS -> ifr' = {| ifr_name := ifr_name ifr;
                                    ifr_ifru := IfrFlags (if_flags (ifs_of h (ifr_name ifr))) |})).
Proof.
  intros Hr. cbn zeta. unfold request. destruct prepared as [e|ifr].
  { left. cbn. split; [done|]. split; [led|done]. }
  rewrite bind_run. unfold ioctl_call. rewrite bind_run. cbn [call fst snd].
  pose proof (law_ioctl_rules fd r ifr (h_world h)) as Hrules.
  pose proof (law_ioctl_failed fd r ifr (h_world h)) as Hf.
  pose proof (law_ioctl fd r ifr (h_world h)) as Hok.
  destruct (net_ioctl fd r ifr (h_world h)) as [[e|ifr'] w1]; cbn [fst snd] in *.
  - left. cbn. split; [done|]. split; [led|]. unfold ifs_of. cbn. split; [exact Hrules|by apply (Hf e)].
  - right. destruct (Hok ifr' w1 Hr eq_refl) as [Hi Hg].
    do 3 eexists. split; [done|]. split; [cbn; done|]. split; [done|]. split; [exact Hrules|]. by split.
Qed.

(** The steps in order; [k] of them were applied. *)
Definition ipv4_steps (mtu : Z) (addr mask : list Z) : list (iface -> iface) :=
  [apply_request SIOCSIFMTU (IfrMtu (s32 mtu)); apply_request SIOCSIFADDR (IfrAddr AF_INET addr);
   apply_request SIOCSIFNETMASK (IfrAddr AF_INET mask);
   fun i => apply_request SIOCSIFFLAGS (IfrFlags (Z.lor (if_flags i) IFF_UP)) i].

Fixpoint run_steps (steps : list (iface -> iface)) (i : iface) : iface :=
  match steps with [] => i | f :: steps' => run_steps steps' (f i) end.

(** [k] steps applied to the interface, nothing to the others. *)
Definition configured (n : cstring) (k : nat) (steps : list (iface -> iface)) (h h' : host W) : Prop :=
  forall m, ifs_of h' m = on_if n (run_steps (take k steps)) (ifs_of h) m.

Lemma run_steps_app l f i : run_steps (l ++ [f]) i = f (run_steps l i).
Proof. revert i. induction l as [|g l IH]; intros i; cbn; [done|]. apply IH. Qed.

Lemma configured_0 n steps h h' : (forall m, ifs_of h' m = ifs_of h m) -> configured n 0 steps h h'.
Proof. intros Hs m. rewrite Hs. unfold on_if. cbn. by destruct (str_eqb m n). Qed.

Lemma configured_same n k steps h h1 h2 :
  configured n k steps h h1 -> (forall m, ifs_of h2 m = ifs_of h1 m) -> configured n k steps h h2.
Proof. intros Hk Hs m. rewrite Hs. apply Hk. Qed.

(** The next step, applied to what the interface is by then. *)
Lemma configured_next n k steps f h h1 h2 g :
  configured n k steps h h1 -> steps !! k = Some f ->
  (forall m, ifs_of h2 m = on_if n g (ifs_of h1) m) -> g (ifs_of h1 n) = f (ifs_of h1 n) ->
  configured n (S k) steps h h2.
Proof.
  intros Hk Hf Hg Hgf m. rewrite Hg. unfold on_if. rewrite (take_S_r _ _ _ Hf), run_steps_app.
  destruct (str_eqb m n) eqn:E; [|rewrite Hk; unfold on_if; by rewrite E].
  apply str_eqb_eq in E as ->. rewrite Hgf, Hk. unfold on_if. by rewrite str_eqb_refl.
Qed.

Lemma ifreq_name_some n ifr : tcp_shift_ifreq_name n = inr ifr -> ifr_name ifr = n.
Proof. unfold tcp_shift_ifreq_name. case_match; [done|]. by intros [= <-]. Qed.

Lemma ifreq_ipv4_some n a ifr :
  tcp_shift_ifreq_ipv4 n a = inr ifr ->
  ifr_name ifr = n /\ exists b, sys_inet_pton 4 a = Some b /\ ifr_ifru ifr = IfrAddr AF_INET b.
Proof.
  unfold tcp_shift_ifreq_ipv4. destruct (tcp_shift_ifreq_name n) eqn:E; [done|].
  destruct (sys_inet_pton 4 a) as [b|]; [|done]. intros [= <-]. cbn. split; [by apply ifreq_name_some|eauto].
Qed.

(** Between two requests: the socket is open and [k] steps are done. *)
Definition midway (n : cstring) (k : nat) (steps : list (iface -> iface)) (h hk : host W) : Prop :=
  ledger hk = (h_fds h + 1, h_libs h, h_ctxs h) /\ rules_of hk = rules_of h /\ configured n k steps h hk.

(** What such a function answers and leaves. *)
Definition outcome (n : cstring) (steps : list (iface -> iface)) (h : host W) (p : Z * host W) : Prop :=
  ledger p.2 = ledger h /\ rules_of p.2 = rules_of h /\
  ((p.1 = 0 /\ configured n (List.length steps) steps h p.2) \/
   (p.1 = -1 /\ exists k, (k < List.length steps)%nat /\ configured n k steps h p.2)).

(** One more request: the outcome is that of what follows it. *)
Lemma request_chain n k k' steps h hk fd r prepared next :
  r <> TUNSETIFF -> (k < List.length steps)%nat -> midway n k steps h hk ->
  (forall ifr, prepared = inr ifr ->
     ifr_name ifr = n /\
     (k' = k /\ (forall i, apply_request r (ifr_ifru ifr) i = i) \/
      k' = S k /\ exists f, steps !! k = Some f /\
        apply_request r (ifr_ifru ifr) (ifs_of hk n) = f (ifs_of hk n))) ->
  (forall ifr ifr' h', prepared = inr ifr -> midway n k' steps h h' ->
     (r = SIOCGIFFLAGS -> ifr' = {| ifr_name := n; ifr_ifru := IfrFlags (if_flags (ifs_of h' n)) |}) ->
     outcome n steps h (next ifr' h')) ->
  outcome n steps h (request fd r prepared next hk).
Proof.
  intros Hr Hk (L & R & C) Hstep Hnext.
  destruct (request_spec fd r prepared next hk Hr) as [(E & L1 & R1 & I1)|(ifr & ifr' & h' & P & E & L1 & R1 & I1 & G)].
  - unfold outcome. rewrite E. split; [led|]. split; [congruence|]. right. split; [done|]. exists k. split; [done|].
    by eapply configured_same.
  - rewrite E. destruct (Hstep ifr P) as [N Hs]. rewrite N in I1, G.
    destruct Hs as [[-> Hid]|(-> & f & Hf & Hg)].
    + assert (Hsame : forall m, ifs_of h' m = ifs_of hk m).
      { intros m. rewrite I1. unfold on_if. destruct (str_eqb m n); [apply Hid|done]. }
      apply (Hnext ifr); [done| |].
      * split; [by rewrite L1|]. split; [congruence|]. by eapply configured_same.
      * intros Hg. rewrite Hsame. by apply G.
    + apply (Hnext ifr); [done| |].
      * split; [by rewrite L1|]. split; [congruence|]. by eapply configured_next.
      * intros ->. rewrite I1. unfold on_if. rewrite str_eqb_refl. by apply G.
Qed.

Lemma ipv4_spec n a b mtu h :
  outcome n (ipv4_steps mtu (default [] (sys_inet_pton 4 a)) (default [] (sys_inet_pton 4 b))) h
    (tcp_shift_host_configure_ipv4_tun (Some n) (Some a) (Some b) mtu h).
Proof.
  unfold tcp_shift_host_configure_ipv4_tun. destruct (mtu =? 0).
  { cbn. split; [done|]. split; [done|]. right. split; [done|]. exists 0%nat. split; [cbn; lia|]. by apply configured_0. }
  rewrite bind_run. cbn [call fst snd]. destruct (law_socket (h_world h)) as [Hif Hru].
  destruct (net_socket (h_world h)) as [[e|fd] w0]; cbn [fst snd] in *.
  { cbn. split; [done|]. split; [exact Hru|]. right. split; [done|]. exists 0%nat. split; [cbn; lia|].
    apply configured_0. exact Hif. }
  rewrite bind_run. cbn [add_fds modify fst snd].
  eapply (request_chain n 0 1); [done|cbn; lia| | |].
  { split; [done|]. split; [exact Hru|]. apply configured_0. exact Hif. }
  { intros ifr P. unfold with_mtu in P. destruct (tcp_shift_ifreq_name n) eqn:En; [done|]. injection P as <-. cbn.
    split; [by apply ifreq_name_some|]. right. split; [done|]. by eexists. }
  intros _ _ h1 _ M1 _. eapply (request_chain n 1 2); [done|cbn; lia|exact M1| |].
  { intros ifr P. apply ifreq_ipv4_some in P as (N & x & E & ->). rewrite E. split; [done|]. right. split; [done|]. by eexists. }
  intros _ _ h2 _ M2 _. eapply (request_chain n 2 3); [done|cbn; lia|exact M2| |].
  { intros ifr P. apply ifreq_ipv4_some in P as (N & x & E & ->). rewrite E. split; [done|]. right. split; [done|]. by eexists. }
  intros _ _ h3 _ M3 _. eapply (request_chain n 3 3); [done|cbn; lia|exact M3| |].
  { intros ifr P. unfold tcp_shift_ifreq_name in P. destruct (_ || _); [done|]. injection P as <-. by split; [|left]. }
  intros _ ifr h4 _ M4 G. rewrite (G eq_refl). eapply (request_chain n 3 4); [done|cbn; lia|exact M4| |].
  { intros i [= <-]. split; [done|]. right. split; [done|]. by eexists. }
  intros _ _ h5 _ (L5 & R5 & C5) _. cbn. split; [led|]. split; [exact R5|]. left. by split.
Qed.

(** A request fails when it could not be prepared or what follows fails. *)
Lemma request_fails fd r prepared next h :
  (forall ifr ifr' h', prepared = inr ifr -> (next ifr' h').1 = -1) ->
  (request fd r prepared next h).1 = -1.
Proof.
  intros Hn. unfold request. destruct prepared as [e|ifr]; [done|]. rewrite bind_run.
  destruct (ioctl_call fd r ifr h) as [[ifr'|] h']; cbn [fst snd]; [by eapply Hn|done].
Qed.

(** Texts that are not addresses, names that do not fit and a size of zero are refused. *)
Lemma ipv4_refuses n a b mtu h :
  sys_inet_pton 4 a = None \/ sys_inet_pton 4 b = None \/ strlen n = 0 \/ strlen n >= IFNAMSIZ \/ mtu = 0 ->
  (tcp_shift_host_configure_ipv4_tun (Some n) (Some a) (Some b) mtu h).1 = -1.
Proof.
  intros Hbad. unfold tcp_shift_host_configure_ipv4_tun. destruct (mtu =? 0) eqn:Em; [done|].
  rewrite bind_run. cbn [call fst snd]. destruct (net_socket (h_world h)) as [[e|fd] w0]; cbn [fst snd]; [done|].
  rewrite bind_run. apply request_fails. intros ifr1 _ h1 P1.
  assert (Hn : 0 < strlen n < IFNAMSIZ).
  { unfold with_mtu, tcp_shift_ifreq_name in P1. destruct (_ || _) eqn:E in P1; [done|]. unfold strlen in *. lia. }
  apply request_fails. intros ifr2 _ h2 P2. apply ifreq_ipv4_some in P2 as (_ & x & Ea & _).
  apply request_fails. intros ifr3 _ h3 P3. apply ifreq_ipv4_some in P3 as (_ & y & Eb & _).
  exfalso. destruct Hbad as [?|[?|[?|[?|?]]]]; [congruence|congruence|lia|lia|lia].
Qed.

(** ** IPv6: two commands *)

Lemma wait_loop_if fuel pid : forall h m, ifs_of (wait_loop fuel pid h).2 m = ifs_of h m.
Proof.
  induction fuel as [|f IH]; intros h m; [done|]. cbn [wait_loop]. rewrite bind_run. cbn [call fst snd].
  pose proof (law_wait_if pid (h_world h) m) as Hw.
  destruct (sys_waitpid pid (h_world h)) as [[st| |e] w]; cbn [fst snd] in *; [exact Hw| |exact Hw].
  rewrite bind_run, IH. exact Hw.
Qed.

Lemma wait_child_if pid h m : ifs_of (tcp_shift_wait_child pid h).2 m = ifs_of h m.
Proof.
  unfold tcp_shift_wait_child. rewrite bind_run. cbn [ask gets fst snd]. rewrite bind_run.
  pose proof (wait_loop_if (S (sys_retries (h_world h))) pid h m) as Hw.
  destruct (wait_loop _ pid h) as [r h1]; cbn [fst snd] in *. by repeat case_match.
Qed.

Lemma first_access_in paths w p : first_access paths w = Some p -> In p paths.
Proof.
  induction paths as [|q paths IH]; cbn; [done|]. destruct (sys_access q w); [intros [= <-]; by left|]. auto.
Qed.

Ltac refused := cbn; split; [done|]; split; [done|]; split; [by right|done].

Lemma run_ip_spec argv h :
  let p := tcp_shift_run_ip argv h in
  ledger p.2 = ledger h /\ rules_of p.2 = rules_of h /\ (p.1 = 0 \/ p.1 = -1) /\
  (p.1 = 0 -> (forall n t, 0 <= t < 4294967296 -> argv = link_argv n t -> forall m, ifs_of p.2 m = on_if n (link_up t) (ifs_of h) m) /\
              (forall n c, argv = addr_argv n c -> forall m, ifs_of p.2 m = on_if n (add_addr6 c) (ifs_of h) m)).
Proof.
  cbn zeta. unfold tcp_shift_run_ip. rewrite bind_run. unfold tcp_shift_find_ip_tool. rewrite bind_run. cbn [ask gets fst snd].
  destruct (first_access ip_tools (h_world h)) as [ip|] eqn:Ef; [|refused].
  apply first_access_in in Ef. cbn [ret fst snd]. rewrite bind_run. cbn [call fst snd].
  pose proof (law_spawn_failed false ip argv (h_world h)) as Hsf.
  pose proof (law_ip ip argv (h_world h)) as Hip.
  destruct (sys_spawn false ip argv (h_world h)) as [[e|pid] w1]; cbn [fst snd] in *.
  { cbn. split; [done|]. split; [by apply (Hsf e)|]. split; [by right|done]. }
  destruct (Hip pid w1 Ef eq_refl) as (Hr & st & Hc & Hlink & Haddr).
  match goal with |- context [tcp_shift_wait_child pid ?x] =>
    destruct (wait_child_spec x pid st Hc) as (Hres & L & R); pose proof (wait_child_if pid x) as I;
    destruct (tcp_shift_wait_child pid x) as [r h2]; cbn [fst snd] in * end.
  split; [by rewrite L|]. split; [rewrite R; exact Hr|]. split; [destruct Hres as [[-> _]|[-> _]]; auto|].
  intros ->. destruct Hres as [[_ ->]|[? _]]; [|done].
  split; [intros n t Ht E m|intros n c E m]; rewrite I; [by apply (Hlink eq_refl)|by apply (Haddr eq_refl)].
Qed.

Lemma ipv6_spec n cidr mtu h :
  0 <= mtu < 4294967296 ->
  let p := tcp_shift_host_configure_ipv6_tun (Some n) cidr mtu h in
  ledger p.2 = ledger h /\ rules_of p.2 = rules_of h /\ (p.1 = 0 \/ p.1 = -1) /\
  (p.1 = 0 -> exists c, cidr = Some c /\ tcp_shift_validate_ipv6_cidr cidr = true /\
     forall m, ifs_of p.2 m = on_if n (fun i => add_addr6 c (link_up mtu i)) (ifs_of h) m).
Proof.
  intros Hmtu. cbn zeta. unfold tcp_shift_host_configure_ipv6_tun.
  destruct (_ || negb (tcp_shift_validate_ipv6_cidr cidr)) eqn:Ev; [refused|].
  destruct (strlen (print_dec mtu) >=? 16); [refused|].
  apply orb_false_iff in Ev as [_ Ev]. apply negb_false_iff in Ev. destruct cidr as [c|]; [|done]. cbn [default from_option].
  rewrite bind_run. destruct (run_ip_spec (link_argv n mtu) h) as (L1 & R1 & E1 & I1).
  destruct (tcp_shift_run_ip (link_argv n mtu) h) as [r1 h1]; cbn [fst snd] in *.
  destruct E1 as [-> | ->]; cbn [Z.ltb Z.compare]; [|refused].
  destruct (I1 eq_refl) as [Hl _]. specialize (Hl n mtu Hmtu eq_refl).
  destruct (run_ip_spec (addr_argv n c) h1) as (L2 & R2 & E2 & I2). unfold id.
  split; [congruence|]. split; [congruence|]. split; [done|]. intros E0. exists c. split; [done|]. split; [done|].
  destruct (I2 E0) as [_ Ha]. intros m. rewrite (Ha n c eq_refl). unfold on_if. rewrite Hl. unfold on_if.
  by destruct (str_eqb m n).
Qed.


End Spec.

(** ** On the simulated host *)

Definition sim_ioctl (fd : Z) (r : if_request) (ifr : ifreq) (w : sim) : (Z + ifreq) * sim :=
  if sim_fault w then (inl EPERM, sim_used w)
  else
    let i := sim_if w (ifr_name ifr) in
    (inr (match r with
          | SIOCGIFFLAGS => {| ifr_name := ifr_name ifr; ifr_ifru := IfrFlags (if_flags i) |}
          | _ => ifr
          end),
     match r with
     | TUNSETIFF => sim_used w
     | _ => sim_set_if (ifr_name ifr) (apply_request r (ifr_ifru ifr) i) (sim_used w)
     end).

#[export] Instance sim_net : NetSys sim := {
  net_socket w := (inr 7, w);
  net_open_tun w := (inr 6, w);
  net_ioctl := sim_ioctl
}.

Lemma sim_if_set n i w m : sim_if (sim_set_if n i w) m = if str_eqb m n then i else sim_if w m.
Proof.
  unfold sim_if. cbn. destruct (str_eqb m n) eqn:E.
  - apply str_eqb_eq in E as ->. by rewrite lookup_insert_eq.
  - rewrite lookup_insert_ne; [done|]. intros ->. by rewrite str_eqb_refl in E.
Qed.

Lemma sim_if_child st out w m : sim_if (sim_child st out w) m = sim_if w m.
Proof. done. Qed.

#[export] Program Instance sim_net_laws : NetLaws sim := { host_if := sim_if }.
Next Obligation. done. Qed.
Next Obligation. intros w r w' [= <- <-]. by split. Qed.
Next Obligation.
  intros fd r ifr w. cbn. unfold sim_ioctl. destruct (sim_fault w); [done|]. by destruct r.
Qed.
Next Obligation.
  intros fd r ifr w e w'. cbn. unfold sim_ioctl. destruct (sim_fault w); [|by destruct r].
  intros [= <- <-]. done.
Qed.
Next Obligation.
  intros fd r ifr w ifr' w' Hr. cbn. unfold sim_ioctl. destruct (sim_fault w); [done|].
  intros [= <- <-]. split; [|by intros ->]. intros m. unfold on_if.
  destruct r; [done|..]; rewrite sim_if_set; destruct (str_eqb m (ifr_name ifr)) eqn:E; try done;
    apply str_eqb_eq in E as ->; done.
Qed.
Next Obligation.
  intros tool argv w pid w' Hin. cbn -[mem ip_tools]. unfold sim_spawn. rewrite (mem_in _ _ Hin).
  destruct (sim_fault w); [|destruct (sim_ip argv w) as [w1|] eqn:Ei]; intros [= <- <-].
  - split; [done|]. exists (Exited 1). cbn. rewrite lookup_insert_eq. by repeat split.
  - split; [cbn; unfold sim_ip in Ei; repeat case_match; simplify_eq; done|].
    exists (Exited 0). cbn -[link_argv addr_argv sim_child]. split.
    { cbn. unfold sim_ip in Ei. assert (Hp : sim_pid w1 = sim_pid w /\ sim_children w1 = sim_children w)
        by (repeat case_match; simplify_eq; done).
      destruct Hp as [-> ->]. apply lookup_insert_eq. }
    split; intros _ n t.
    + intros Ht -> m. cbn -[print_dec strtoull] in Ei. rewrite <- (app_nil_r (print_dec t)), strtoull_print in Ei by (done || lia).
      injection Ei as <-. rewrite sim_if_child, sim_if_set. unfold on_if.
      destruct (str_eqb m n) eqn:E; [apply str_eqb_eq in E as ->|]; done.
    + intros -> m. cbn in Ei. injection Ei as <-. rewrite sim_if_child, sim_if_set. unfold on_if.
      destruct (str_eqb m n) eqn:E; [apply str_eqb_eq in E as ->|]; done.
  - split; [done|]. exists (Exited 1). cbn. rewrite lookup_insert_eq. by repeat split.
Qed.
Next Obligation.
  intros pid w m. cbn. unfold sim_waitpid. destruct (sim_retries w); [|done]. by destruct (sim_children w !! pid).
Qed.

Definition ex_host : host sim :=
  fs_host (ex_state [lit "/sbin/ip"] true [false; false; true]).

