(* ===== verification/ServiceMain.v ===== *)
(** * The service processes (p2_main.c, p2_ipv6_main.c, p1_main.c, p1_ipv6_main.c)

    Arguments, start-up, the serving loop and the teardown. The TUN file, the
    interface and the firewall are the functions of [HostSetup] and
    [Firewall]; the parts of the data path (device, event loop, timers, bridge,
    probe listener, controller registry), which have models of their own, are
    called through [ServiceParts]. Every such call is recorded in a log, so
    that the order of start-up and teardown can be stated. Messages and the
    final statistics only print and are left out. The build is the one with
    the recovery timer. *)

From Stdlib Require Import ZArith Lia Bool List Ascii String.
From stdpp Require Import base tactics numbers list gmap strings.
From S2P Require Import Prelude CString StateMonad HostSys HostSetup Firewall.
Local Open Scope Z_scope.

Definition EXIT_SUCCESS : Z := 0.
Definition EXIT_FAILURE : Z := 1.
Definition TCP_SHIFT_P2_MTU : Z := 1500.
Definition TCP_SHIFT_P1_MTU : Z := 1500.
Definition TCP_SHIFT_P1_DEFAULT_PORT : Z := 18080.
Definition TCP_SHIFT_P1_IPV6_DEFAULT_PORT : Z := 18082.

(** Calls to the parts of the data path. *)
Inductive part_op : Type :=
| SignalInstall
| LwipInit
| CcConfigure (name : cstring)
| L3Attach (version tun_fd : Z)
| L3Detach
| LoopInit
| LoopRunOnce
| LoopClose
| PacerConfigure
| PacerClear
| RecoveryConfigure
| RecoveryClear
| BridgeStart (version public_port backend_port : Z)
| BridgeStop
| ProbeStart (version port : Z)
| ProbeStop.

Class ServiceParts (W : Type) := {
  part_call : part_op -> W -> Z * W;
  (** [tcp_shift_lwip_cc_configured_controller_name() != NULL] *)
  cc_available : W -> bool;
  (** [tcp_shift_stop], which a signal sets *)
  stop_flag : W -> bool;
  (** [ip4addr_aton] and [ip6addr_aton], by version *)
  addr_aton : Z -> cstring -> bool
}.

Inductive event : Type :=
| EvPart (op : part_op) (rc : Z)
| EvTunOpen (rc : Z)
| EvTunClose
| EvFwInstall (rc : Z)
| EvFwRemove (rc : Z).

Record svc {W : Type} := {
  sv_host : host W;
  sv_fw : tcp_shift_firewall;
  sv_tun : tcp_shift_tun;
  (** the flags [l3_attached], [loop_started], [pacer_configured], [bridge_started]
      (and [listener_started]) *)
  sv_l3 : bool;
  sv_loop : bool;
  sv_pacer : bool;
  sv_bridge : bool;
  sv_log : list event
}.
Arguments svc : clear implicits.

(** ** Arguments *)

(** [parse_port]: [strtoul] of the whole text, 1 to 65535. *)
Definition parse_port (text : cstring) : option Z :=
  match strtoull text with
  | Some (value, [], false) => if (value =? 0) || (value >? 65535) then None else Some value
  | _ => None
  end.

(** A negated number wraps into the range. *)
Example parse_port_wraps : parse_port (lit "-18446744073709551535") = Some 81.
Proof. vm_compute. reflexivity. Qed.

Record service_args := {
  sa_tun : cstring;
  sa_address : cstring;
  sa_netmask : cstring;
  sa_host : cstring;
  sa_public_port : Z;
  sa_backend_port : Z;
  sa_cc : cstring;
  sa_public : option cstring;
  sa_firewall : Z
}.

Section Main.
Context {W : Type} `{HostSys W} `{NetSys W} `{ServiceParts W}.

Definition parse_addr (v : Z) (text : cstring) : bool := addr_aton v text.

(** p2_main.c: [argv[1..]] and the environment; [None] is [EXIT_FAILURE]. *)
Definition p2_args (argv : list cstring) (env : option cstring) : option service_args :=
  match argv with
  | tun :: address :: netmask :: host :: pport :: bport :: rest =>
      if 2 <? Z.of_nat (List.length rest) then None
      else if negb (parse_addr 4 address && parse_addr 4 netmask && parse_addr 4 host) then None
      else match parse_port pport, parse_port bport with
           | Some p, Some b =>
               let public := rest !! 1%nat in
               if match public with Some t => negb (parse_addr 4 t) | None => false end then None
               else match tcp_shift_firewall_backend_parse env with
                    | None => None
                    | Some backend =>
                        Some {| sa_tun := tun; sa_address := address; sa_netmask := netmask;
                                sa_host := host; sa_public_port := p; sa_backend_port := b;
                                sa_cc := default (lit "reno") (rest !! 0%nat);
                                sa_public := public; sa_firewall := backend |}
                    end
           | _, _ => None
           end
  | _ => None
  end.

(** p2_ipv6_main.c *)
Definition p2_ipv6_args (argv : list cstring) (env : option cstring) : option service_args :=
  match argv with
  | tun :: address :: host :: pport :: bport :: rest =>
      if 2 <? Z.of_nat (List.length rest) then None
      else if negb (parse_addr 6 address) then None
      else match parse_port pport, parse_port bport with
           | Some p, Some b =>
               let public := rest !! 1%nat in
               if match public with Some t => negb (parse_addr 6 t) | None => false end then None
               else match tcp_shift_firewall_backend_parse env with
                    | None => None
                    | Some backend =>
                        Some {| sa_tun := tun; sa_address := address; sa_netmask := [];
                                sa_host := host; sa_public_port := p; sa_backend_port := b;
                                sa_cc := default (lit "reno") (rest !! 0%nat);
                                sa_public := public; sa_firewall := backend |}
                    end
           | _, _ => None
           end
  | _ => None
  end.

(** p1_main.c: the listening port is optional. *)
Definition p1_args (argv : list cstring) (env : option cstring) : option service_args :=
  match argv with
  | tun :: address :: netmask :: host :: rest =>
      if 2 <? Z.of_nat (List.length rest) then None
      else if negb (parse_addr 4 address && parse_addr 4 netmask && parse_addr 4 host) then None
      else match match rest with [] => Some TCP_SHIFT_P1_DEFAULT_PORT | t :: _ => parse_port t end with
           | Some p =>
               let public := rest !! 1%nat in
               if match public with Some t => negb (parse_addr 4 t) | None => false end then None
               else match tcp_shift_firewall_backend_parse env with
                    | None => None
                    | Some backend =>
                        Some {| sa_tun := tun; sa_address := address; sa_netmask := netmask;
                                sa_host := host; sa_public_port := p; sa_backend_port := 0;
                                sa_cc := []; sa_public := public; sa_firewall := backend |}
                    end
           | None => None
           end
  | _ => None
  end.

(** p1_ipv6_main.c *)
Definition p1_ipv6_args (argv : list cstring) (env : option cstring) : option service_args :=
  match argv with
  | tun :: address :: host :: rest =>
      if 2 <? Z.of_nat (List.length rest) then None
      else if negb (parse_addr 6 address) then None
      else match match rest with [] => Some TCP_SHIFT_P1_IPV6_DEFAULT_PORT | t :: _ => parse_port t end with
           | Some p =>
               let public := rest !! 1%nat in
               if match public with Some t => negb (parse_addr 6 t) | None => false end then None
               else match tcp_shift_firewall_backend_parse env with
                    | None => None
                    | Some backend =>
                        Some {| sa_tun := tun; sa_address := address; sa_netmask := [];
                                sa_host := host; sa_public_port := p; sa_backend_port := 0;
                                sa_cc := []; sa_public := public; sa_firewall := backend |}
                    end
           | None => None
           end
  | _ => None
  end.

(** ** The state *)

Definition sv_event (e : event) : M (svc W) unit := modify (fun s =>
  {| sv_host := sv_host s; sv_fw := sv_fw s; sv_tun := sv_tun s; sv_l3 := sv_l3 s; sv_loop := sv_loop s;
     sv_pacer := sv_pacer s; sv_bridge := sv_bridge s; sv_log := sv_log s ++ [e] |}).

Definition set_up (l3 loop pacer bridge : bool) : M (svc W) unit := modify (fun s =>
  {| sv_host := sv_host s; sv_fw := sv_fw s; sv_tun := sv_tun s; sv_l3 := l3; sv_loop := loop;
     sv_pacer := pacer; sv_bridge := bridge; sv_log := sv_log s |}).

(** A call on the host alone. *)
Definition sv_on_host {A} (m : M (host W) A) : M (svc W) A := fun s =>
  ((m (sv_host s)).1,
   {| sv_host := (m (sv_host s)).2; sv_fw := sv_fw s; sv_tun := sv_tun s; sv_l3 := sv_l3 s;
      sv_loop := sv_loop s; sv_pacer := sv_pacer s; sv_bridge := sv_bridge s; sv_log := sv_log s |}).

(** A call on the firewall object and the host. *)
Definition sv_on_fw {A} (m : M (fwst W) A) : M (svc W) A := fun s =>
  let p := m {| fs_fw := sv_fw s; fs_host := sv_host s |} in
  (p.1,
   {| sv_host := fs_host p.2; sv_fw := fs_fw p.2; sv_tun := sv_tun s; sv_l3 := sv_l3 s;
      sv_loop := sv_loop s; sv_pacer := sv_pacer s; sv_bridge := sv_bridge s; sv_log := sv_log s |}).

Definition sv_set_tun (t : tcp_shift_tun) : M (svc W) unit := modify (fun s =>
  {| sv_host := sv_host s; sv_fw := sv_fw s; sv_tun := t; sv_l3 := sv_l3 s; sv_loop := sv_loop s;
     sv_pacer := sv_pacer s; sv_bridge := sv_bridge s; sv_log := sv_log s |}).

Definition part (op : part_op) : M (svc W) Z :=
  let! rc := sv_on_host (call (part_call op)) in
  sv_event (EvPart op rc) ;; ret rc.

Definition open_tun (name : cstring) : M (svc W) Z :=
  let! (rc, tun) := sv_on_host (tcp_shift_tun_open (Some name)) in
  sv_set_tun tun ;; sv_event (EvTunOpen rc) ;; ret rc.

Definition close_tun : M (svc W) unit :=
  let! tun := gets sv_tun in
  let! tun := sv_on_host (tcp_shift_tun_close tun) in
  sv_set_tun tun ;; sv_event EvTunClose.

Definition configure_tun (v : Z) (a : service_args) : M (svc W) Z :=
  let! tun := gets sv_tun in
  sv_on_host
    (if v =? 4
     then tcp_shift_host_configure_ipv4_tun (Some (tun_ifname tun)) (Some (sa_host a)) (Some (sa_netmask a)) 1500
     else tcp_shift_host_configure_ipv6_tun (Some (tun_ifname tun)) (Some (sa_host a)) 1500).

(** The description both public services install: their own port on both sides. *)
Definition ingress_spec (v : Z) (resource : cstring) (a : service_args) (public : cstring)
    : tcp_shift_firewall_spec :=
  {| sp_ip_version := v; sp_resource_name := Some resource; sp_public_address := Some public;
     sp_public_port := sa_public_port a; sp_target_address := Some (sa_address a);
     sp_target_port := sa_public_port a |}.

Definition install_ingress (v : Z) (resource : cstring) (a : service_args) : M (svc W) Z :=
  match sa_public a with
  | None => ret 0
  | Some public =>
      let! rc := sv_on_fw (tcp_shift_firewall_install (sa_firewall a) (Some (ingress_spec v resource a public))) in
      sv_event (EvFwInstall rc) ;; ret rc
  end.

(** [if (ingress.installed != 0 && remove < 0) status = EXIT_FAILURE;] *)
Definition remove_ingress (status : Z) : M (svc W) Z :=
  let! installed := gets (fun s => fw_installed (sv_fw s)) in
  if installed =? 0 then ret status
  else
    let! rc := sv_on_fw tcp_shift_firewall_remove in
    sv_event (EvFwRemove rc) ;; ret (if rc <? 0 then EXIT_FAILURE else status).

(** [while (tcp_shift_stop == 0) if (run_once < 0) ...]; [None] is out of fuel. *)
Fixpoint serve (fuel : nat) : M (svc W) (option Z) :=
  match fuel with
  | O => ret None
  | S f =>
      let! stop := sv_on_host (ask stop_flag) in
      if stop then ret (Some EXIT_SUCCESS)
      else
        let! rc := part LoopRunOnce in
        if rc <? 0 then ret (Some EXIT_FAILURE) else serve f
  end.

(** Whether public traffic can be forwarded; not asked without a public address. *)
Definition forwarding_ok (v : Z) (a : service_args) : M (svc W) bool :=
  match sa_public a with
  | None => ret true
  | Some _ =>
      let! f := sv_on_host (if v =? 4 then tcp_shift_host_ipv4_forwarding_enabled
                            else tcp_shift_host_ipv6_forwarding_enabled) in
      ret (0 <? f)
  end.

(** ** The product process *)

(** From the interface to the firewall; [false] is [goto out]. *)
Definition p2_bring_up (v : Z) (a : service_args) : M (svc W) bool :=
  let! rc := configure_tun v a in
  if rc <? 0 then ret false else
  let! tun := gets sv_tun in
  let! rc := part (L3Attach v (tun_fd tun)) in
  if rc <? 0 then ret false else
  set_up true false false false ;;
  let! rc := part LoopInit in
  if rc <? 0 then ret false else
  set_up true true false false ;;
  let! rc := part PacerConfigure in
  if rc <? 0 then ret false else
  set_up true true true false ;;
  let! rc := part RecoveryConfigure in
  if rc <? 0 then ret false else
  let! rc := part (BridgeStart v (sa_public_port a) (sa_backend_port a)) in
  if rc <? 0 then ret false else
  set_up true true true true ;;
  let! rc := install_ingress v (lit "tcp_shift_p2") a in
  ret (negb (rc <? 0)).

(** The label [out]. *)
Definition p2_out (status : Z) : M (svc W) Z :=
  let! status := remove_ingress status in
  let! s := gets id in
  when (sv_bridge s) (let! _ := part BridgeStop in ret tt) ;;
  (let! _ := part RecoveryClear in ret tt) ;;
  when (sv_pacer s) (let! _ := part PacerClear in ret tt) ;;
  when (sv_loop s) (let! _ := part LoopClose in ret tt) ;;
  when (sv_l3 s) (let! _ := part L3Detach in ret tt) ;;
  close_tun ;;
  ret status.

(** From the controller to the TUN file: [false] is [return EXIT_FAILURE]. *)
Definition p2_prepare (v : Z) (a : service_args) : M (svc W) bool :=
  let! rc := part (CcConfigure (sa_cc a)) in
  if rc <? 0 then ret false else
  let! named := sv_on_host (ask cc_available) in
  if negb named then ret false else
  let! forwarding := forwarding_ok v a in
  if negb forwarding then ret false else
  let! rc := part SignalInstall in
  if rc <? 0 then ret false else
  let! _ := part LwipInit in
  let! rc := open_tun (sa_tun a) in
  ret (negb (rc <? 0)).

(** After the arguments; [None] is out of fuel. *)
Definition p2_run (fuel : nat) (v : Z) (a : service_args) : M (svc W) (option Z) :=
  let! ready := p2_prepare v a in
  if negb ready then ret (Some EXIT_FAILURE) else
  let! up := p2_bring_up v a in
  if negb up then let! st := p2_out EXIT_FAILURE in ret (Some st) else
  let! status := serve fuel in
  match status with
  | None => ret None
  | Some status => let! st := p2_out status in ret (Some st)
  end.

Definition p2_main (fuel : nat) (argv : list cstring) (env : option cstring) : M (svc W) (option Z) :=
  match p2_args argv env with
  | None => ret (Some EXIT_FAILURE)
  | Some a => p2_run fuel 4 a
  end.

Definition p2_ipv6_main (fuel : nat) (argv : list cstring) (env : option cstring) : M (svc W) (option Z) :=
  match p2_ipv6_args argv env with
  | None => ret (Some EXIT_FAILURE)
  | Some a => p2_run fuel 6 a
  end.

(** ** The probe process *)

(** How far start-up came: the label it leaves through, or all the way. *)
Inductive p1_reached : Type := OutTun | OutL3 | OutListener | OutLoop | P1Up.

Definition p1_bring_up (v : Z) (a : service_args) : M (svc W) p1_reached :=
  let! rc := configure_tun v a in
  if rc <? 0 then ret OutTun else
  let! tun := gets sv_tun in
  let! rc := part (L3Attach v (tun_fd tun)) in
  if rc <? 0 then ret OutTun else
  let! rc := part (ProbeStart v (sa_public_port a)) in
  if rc <? 0 then ret OutL3 else
  let! rc := part LoopInit in
  if rc <? 0 then ret OutListener else
  let! forwarding := forwarding_ok v a in
  if negb forwarding then ret OutLoop else
  let! rc := install_ingress v (lit "tcp_shift_p1") a in
  ret (if rc <? 0 then OutLoop else P1Up).

(** The labels [out_tun], [out_l3], [out_listener] and [out_loop]; each falls
    through to the one before. *)
Definition p1_out_tun (status : Z) : M (svc W) Z :=
  close_tun ;; ret status.
Definition p1_out_l3 (status : Z) : M (svc W) Z :=
  let! _ := part L3Detach in p1_out_tun status.
Definition p1_out_listener (status : Z) : M (svc W) Z :=
  let! _ := part ProbeStop in p1_out_l3 status.
Definition p1_out_loop (status : Z) : M (svc W) Z :=
  let! status := remove_ingress status in
  let! _ := part LoopClose in p1_out_listener status.

Definition p1_out (from : p1_reached) (status : Z) : M (svc W) Z :=
  match from with
  | OutTun => p1_out_tun status
  | OutL3 => p1_out_l3 status
  | OutListener => p1_out_listener status
  | OutLoop | P1Up => p1_out_loop status
  end.

Definition p1_run (fuel : nat) (v : Z) (a : service_args) : M (svc W) (option Z) :=
  let! rc := part SignalInstall in
  if rc <? 0 then ret (Some EXIT_FAILURE) else
  let! _ := part LwipInit in
  let! rc := open_tun (sa_tun a) in
  if rc <? 0 then ret (Some EXIT_FAILURE) else
  let! reached := p1_bring_up v a in
  match reached with
  | P1Up =>
      let! status := serve fuel in
      match status with
      | None => ret None
      | Some status => let! st := p1_out P1Up status in ret (Some st)
      end
  | _ => let! st := p1_out reached EXIT_FAILURE in ret (Some st)
  end.

Definition p1_main (fuel : nat) (argv : list cstring) (env : option cstring) : M (svc W) (option Z) :=
  match p1_args argv env with
  | None => ret (Some EXIT_FAILURE)
  | Some a => p1_run fuel 4 a
  end.

Definition p1_ipv6_main (fuel : nat) (argv : list cstring) (env : option cstring) : M (svc W) (option Z) :=
  match p1_ipv6_args argv env with
  | None => ret (Some EXIT_FAILURE)
  | Some a => p1_run fuel 6 a
  end.

End Main.
