(* ===== verification/ServiceMainSpec.v ===== *)
(** * Start-up and teardown are a stack

    The log of a service process replayed against the layers it may hold:
    a layer is started on top of the ones it needs and stopped only when it is
    the top one, the loop turns and the firewall is touched only under the
    complete stack. *)

From Stdlib Require Import ZArith Lia Bool List Ascii String.
From stdpp Require Import base tactics numbers list gmap strings.
From S2P Require Import Prelude CString StateMonad HostSys HostSetup.
From S2P Require Import Firewall FirewallSpec FirewallLife FirewallHost HostSetupSpec ServiceMain.
Local Open Scope Z_scope.

Inductive layer : Type := LTun | LL3 | LLoop | LPacer | LRecovery | LBridge | LProbe.
#[export] Instance layer_eq_dec : EqDecision layer.
Proof. solve_decision. Defined.

Definition p2_full : list layer := [LBridge; LRecovery; LPacer; LLoop; LL3; LTun].
Definition p1_full : list layer := [LLoop; LProbe; LL3; LTun].

(** Start a layer that needs [below] as the top one. *)
Definition start (below new : layer) (rc : Z) (st : list layer) : option (list layer) :=
  match st with
  | l :: _ => if decide (l = below) then Some (if rc <? 0 then st else new :: st) else None
  | [] => None
  end.
Definition stop (l : layer) (st : list layer) : option (list layer) :=
  match st with
  | l' :: st' => if decide (l' = l) then Some st' else None
  | [] => None
  end.
Definition only (st want : list layer) : option (list layer) :=
  if decide (st = want) then Some st else None.

Section Replay.
Variable full : list layer.

Definition replay_step (e : event) (st : list layer) : option (list layer) :=
  match e with
  | EvTunOpen rc => match st with [] => Some (if rc <? 0 then [] else [LTun]) | _ => None end
  | EvTunClose => stop LTun st
  | EvFwInstall _ | EvFwRemove _ => only st full
  | EvPart op rc =>
      match op with
      | SignalInstall | LwipInit | CcConfigure _ => only st []
      | L3Attach _ _ => start LTun LL3 rc st
      | L3Detach => stop LL3 st
      | LoopInit => match start LL3 LLoop rc st with Some st' => Some st' | None => start LProbe LLoop rc st end
      | LoopRunOnce => only st full
      | LoopClose => stop LLoop st
      | PacerConfigure => start LLoop LPacer rc st
      | PacerClear => stop LPacer st
      | RecoveryConfigure => start LPacer LRecovery rc st
      | RecoveryClear => match st with LRecovery :: st' => Some st' | _ => Some st end
      | BridgeStart _ _ _ => start LRecovery LBridge rc st
      | BridgeStop => stop LBridge st
      | ProbeStart _ _ => start LL3 LProbe rc st
      | ProbeStop => stop LProbe st
      end
  end.

Fixpoint replay (log : list event) (st : list layer) : option (list layer) :=
  match log with
  | [] => Some st
  | e :: log' => match replay_step e st with Some st' => replay log' st' | None => None end
  end.

Lemma replay_app log e st st' :
  replay log st = Some st' -> replay (log ++ [e]) st = replay_step e st'.
Proof.
  revert st. induction log as [|x log IH]; intros st; cbn.
  - intros [= ->]. by destruct (replay_step e st').
  - destruct (replay_step x st); [apply IH|done].
Qed.

End Replay.

(** The parts of the data path do not touch the packet filter. *)
Class PartLaws (W : Type) `{NetLaws W} `{ServiceParts W} := {
  law_part op w : host_rules (part_call op w).2 = host_rules w
}.

Section Spec.
Context {W : Type} `{PL : PartLaws W}.
Implicit Types (s : svc W).

Definition has_tun (st : list layer) : bool := bool_decide (LTun ∈ st).
Definition plus_fd (n : Z) (l : Z * Z * Z) : Z * Z * Z := let '(f, a, b) := l in (f + n, a, b).

(** What holds between two calls of a process. *)
Record stage (base : ruleset) (led0 : Z * Z * Z) (full st : list layer) (s : svc W) : Prop := {
  sg_replay : replay full (sv_log s) [] = Some st;
  sg_owns : owns base (sv_fw s) (rules_of (sv_host s));
  sg_ledger : ledger (sv_host s) = if has_tun st then plus_fd 1 led0 else led0;
  sg_tun : has_tun st = true -> 0 <= tun_fd (sv_tun s)
}.

(** The four flags. *)
Definition flags (s : svc W) : bool * bool * bool * bool := (sv_l3 s, sv_loop s, sv_pacer s, sv_bridge s).

Lemma part_stage base led0 full st s op (next : Z -> list layer) :
  stage base led0 full st s ->
  (forall rc, replay_step full (EvPart op rc) st = Some (next rc)) ->
  (forall rc, has_tun (next rc) = has_tun st) ->
  let p := part op s in
  stage base led0 full (next p.1) p.2 /\ flags p.2 = flags s /\ sv_fw p.2 = sv_fw s.
Proof.
  intros [Hr Ho Hl Ht] Hstep Htun. cbn zeta. unfold part. rewrite bind_run. cbn [sv_on_host call fst snd].
  pose proof (law_part op (h_world (sv_host s))) as Hlaw.
  destruct (part_call op (h_world (sv_host s))) as [rc w]; cbn [fst snd] in *. cbn.
  split; [|done]. constructor; cbn.
  - by rewrite (replay_app _ _ _ _ _ Hr).
  - unfold rules_of in *. cbn. by rewrite Hlaw.
  - rewrite Htun. exact Hl.
  - rewrite Htun. exact Ht.
Qed.

(** A call that leaves the stack, the rules and the descriptors alone. *)
Lemma on_host_stage {A} base led0 full st s (m : M (host W) A) :
  stage base led0 full st s ->
  rules_of (m (sv_host s)).2 = rules_of (sv_host s) -> ledger (m (sv_host s)).2 = ledger (sv_host s) ->
  let p := sv_on_host m s in
  stage base led0 full st p.2 /\ flags p.2 = flags s /\ sv_fw p.2 = sv_fw s.
Proof.
  intros [Hr Ho Hl Ht] R L. cbn. split; [|done]. constructor; cbn; [done| |by rewrite L|done]. by rewrite R.
Qed.

Lemma configure_stage base led0 full st s v a :
  stage base led0 full st s ->
  let p := configure_tun v a s in
  stage base led0 full st p.2 /\ flags p.2 = flags s /\ sv_fw p.2 = sv_fw s.
Proof.
  intros Hs. cbn zeta. unfold configure_tun. rewrite bind_run. cbn [gets fst snd]. apply on_host_stage; [done|..].
  - destruct (v =? 4); [apply ipv4_spec|apply ipv6_spec; lia].
  - destruct (v =? 4); [apply ipv4_spec|apply ipv6_spec; lia].
Qed.

Lemma forwarding_stage base led0 full st s v a :
  stage base led0 full st s ->
  let p := forwarding_ok v a s in
  stage base led0 full st p.2 /\ flags p.2 = flags s /\ sv_fw p.2 = sv_fw s.
Proof.
  intros Hs. cbn zeta. unfold forwarding_ok. destruct (sa_public a); [|done]. rewrite bind_run.
  match goal with |- context [sv_on_host ?m s] => destruct (on_host_stage base led0 full st s m Hs) as (Q1 & Q2 & Q3) end.
  - destruct (v =? 4); cbn; by repeat case_match.
  - destruct (v =? 4); cbn; by repeat case_match.
  - cbn. done.
Qed.

(** Install and removal happen under the complete stack. *)
Lemma on_fw_stage base led0 full s op :
  stage base led0 full full s ->
  let p := sv_on_fw (fw_run op) s in
  stage base led0 full full p.2 /\ flags p.2 = flags s /\ sv_log p.2 = sv_log s /\ sv_tun p.2 = sv_tun s.
Proof.
  intros [Hr Ho Hl Ht]. cbn zeta. unfold sv_on_fw.
  destruct (fw_run_owns base op {| fs_fw := sv_fw s; fs_host := sv_host s |} Ho) as [L O]. cbn [fst snd] in *.
  split; [|done]. constructor; cbn; [done|exact O|by rewrite <- Hl|done].
Qed.

Lemma event_stage base led0 full st st' s e :
  stage base led0 full st s -> replay_step full e st = Some st' -> has_tun st' = has_tun st ->
  stage base led0 full st' (sv_event e s).2.
Proof.
  intros [Hr Ho Hl Ht] He Htun. constructor; cbn; [by rewrite (replay_app _ _ _ _ _ Hr)|done|by rewrite Htun|by rewrite Htun].
Qed.

Lemma only_full full st : only st full = if decide (st = full) then Some st else None.
Proof. done. Qed.

Lemma install_stage base led0 full s v r a :
  stage base led0 full full s ->
  let p := install_ingress v r a s in
  stage base led0 full full p.2 /\ flags p.2 = flags s.
Proof.
  intros Hs. cbn zeta. unfold install_ingress. destruct (sa_public a) as [public|]; [|done]. rewrite bind_run.
  destruct (on_fw_stage base led0 full s (OpInstall (sa_firewall a) (Some (ingress_spec v r a public))) Hs)
    as (Q1 & Q2 & _). cbn [fw_run] in *.
  destruct (sv_on_fw _ s) as [rc s1]; cbn [fst snd] in *. rewrite bind_run. cbn [ret fst snd].
  split; [|exact Q2]. eapply event_stage; [exact Q1| |done]. cbn. unfold only. by rewrite decide_True.
Qed.

Lemma remove_stage base led0 full st s status :
  stage base led0 full st s -> (fw_installed (sv_fw s) <> 0 -> st = full) ->
  let p := remove_ingress status s in
  stage base led0 full st p.2 /\ flags p.2 = flags s /\
  ((p.1 = status /\ fw_installed (sv_fw p.2) = 0) \/ p.1 = EXIT_FAILURE).
Proof.
  intros Hs Hfull. cbn zeta. unfold remove_ingress. rewrite bind_run. cbn [gets fst snd].
  destruct (fw_installed (sv_fw s) =? 0) eqn:E; [cbn; split; [done|split; [done|left; lia]]|].
  assert (st = full) as -> by (apply Hfull; lia). rewrite bind_run.
  destruct (on_fw_stage base led0 full s OpRemove Hs) as (Q1 & Q2 & _).
  destruct (remove_spec base {| fs_fw := sv_fw s; fs_host := sv_host s |} (sg_owns _ _ _ _ _ Hs)) as (_ & _ & Hrc).
  cbn [fw_run] in *. unfold sv_on_fw in *. cbn [fst snd] in *. rewrite bind_run. cbn [ret fst snd].
  split; [|split; [exact Q2|]].
  - eapply event_stage; [exact Q1| |done]. cbn. unfold only. by rewrite decide_True.
  - destruct Hrc as [[-> Hi]|[-> Hi]]; [left|by right]. by split.
Qed.

Lemma serve_stage base led0 full fuel : forall s,
  stage base led0 full full s ->
  let p := serve fuel s in
  stage base led0 full full p.2 /\ flags p.2 = flags s /\
  (p.1 = None \/ p.1 = Some EXIT_SUCCESS \/ p.1 = Some EXIT_FAILURE).
Proof.
  cbn zeta. induction fuel as [|f IH]; intros s Hs; [cbn; auto|]. cbn [serve]. rewrite bind_run. cbn [sv_on_host ask gets fst snd].
  match goal with |- context [{| sv_host := sv_host s; sv_fw := _ |}] => idtac end.
  match goal with |- context [(if _ then _ else _) ?x] => assert (E : x = s) by (by destruct s); rewrite E; clear E end.
  destruct (stop_flag _); [cbn; auto|]. rewrite bind_run.
  destruct (part_stage base led0 full full s LoopRunOnce (fun _ => full) Hs) as (Q1 & Q2 & Q3); [|done|].
  { intros rc. cbn. unfold only. by rewrite decide_True. }
  destruct (part LoopRunOnce s) as [rc s1]; cbn [fst snd] in *.
  destruct (rc <? 0); [cbn; auto|]. destruct (IH s1 Q1) as (R1 & R2 & R3). split; [done|]. split; [congruence|done].
Qed.

Lemma open_stage base led0 full s name :
  stage base led0 full [] s ->
  let p := open_tun name s in
  stage base led0 full (if p.1 <? 0 then [] else [LTun]) p.2 /\ flags p.2 = flags s /\ sv_fw p.2 = sv_fw s.
Proof.
  intros [Hr Ho Hl Ht]. cbn zeta. unfold open_tun. rewrite bind_run. cbn [sv_on_host fst snd].
  destruct (tun_open_spec (Some name) (sv_host s)) as (R & Hres).
  destruct (tcp_shift_tun_open (Some name) (sv_host s)) as [[rc tun] h1]; cbn [fst snd] in *.
  cbn. split; [|by split]. change (has_tun []) with false in Hl. cbn iota in Hl.
  destruct Hres as [(-> & Hfd & _ & L)|(-> & Hfd & L)]; cbn [Z.ltb Z.compare];
    constructor; cbn; try done; try (by rewrite (replay_app _ _ _ _ _ Hr)); try (by rewrite R).
  - rewrite L. change (has_tun [LTun]) with true. cbn iota. by rewrite <- Hl.
  - by rewrite L.
Qed.

Lemma close_stage base led0 full s :
  stage base led0 full [LTun] s ->
  let p := close_tun s in stage base led0 full [] p.2 /\ sv_fw p.2 = sv_fw s.
Proof.
  intros [Hr Ho Hl Ht]. cbn zeta. unfold close_tun. rewrite bind_run. cbn [gets fst snd]. rewrite bind_run.
  cbn [sv_on_host fst snd]. destruct (tun_close_spec (sv_tun s) (sv_host s)) as (R & _ & L).
  destruct (tcp_shift_tun_close (sv_tun s) (sv_host s)) as [tun h1]; cbn [fst snd] in *. cbn. split; [|done].
  assert (Hfd : 0 <= tun_fd (sv_tun s)) by (by apply Ht). apply Z.leb_le in Hfd. rewrite Hfd in L.
  constructor; cbn; try done; [by rewrite (replay_app _ _ _ _ _ Hr)|by rewrite R|].
  rewrite L. change (has_tun [LTun]) with true in Hl. cbn iota in Hl. unfold ledger, plus_fd in Hl.
  destruct led0 as [[f x] y]. injection Hl as -> -> ->. change (has_tun []) with false. cbn iota. repeat f_equal. lia.
Qed.

(** ** The product process *)

(** The layers a set of flags stands for; the recovery timer has none. *)
Definition p2_layers (recovery : bool) (f : bool * bool * bool * bool) : list layer :=
  let '(l3, loop, pacer, bridge) := f in
  (if bridge then [LBridge] else []) ++ (if recovery then [LRecovery] else []) ++
  (if pacer then [LPacer] else []) ++ (if loop then [LLoop] else []) ++
  (if l3 then [LL3] else []) ++ [LTun].

(** The flags tell the layers, and the firewall is in use only under all of them. *)
Definition p2_at (base : ruleset) (led0 : Z * Z * Z) (s : svc W) : Prop :=
  exists recovery, stage base led0 p2_full (p2_layers recovery (flags s)) s /\
    (sv_bridge s = true -> recovery = true) /\
    (fw_installed (sv_fw s) <> 0 -> p2_layers recovery (flags s) = p2_full).

Lemma set_up_stage base led0 full st s a b c d :
  stage base led0 full st s -> stage base led0 full st (set_up a b c d s).2.
Proof. intros []. by constructor. Qed.

Lemma p2_at_intro base led0 s recovery f :
  stage base led0 p2_full (p2_layers recovery f) s -> flags s = f -> (f.2 = true -> recovery = true) ->
  fw_installed (sv_fw s) = 0 -> p2_at base led0 s.
Proof. intros Hs <- Hb Hi. exists recovery. split; [done|]. split; [exact Hb|]. intros ?. congruence. Qed.

(** A starting call: refused, with everything as it was, or one layer more. *)
Lemma start_stage base led0 s op recovery recovery' f f' :
  stage base led0 p2_full (p2_layers recovery f) s -> flags s = f ->
  (forall rc, replay_step p2_full (EvPart op rc) (p2_layers recovery f) =
              Some (if rc <? 0 then p2_layers recovery f else p2_layers recovery' f')) ->
  let p := part op s in
  flags p.2 = f /\ sv_fw p.2 = sv_fw s /\
  stage base led0 p2_full (if p.1 <? 0 then p2_layers recovery f else p2_layers recovery' f') p.2.
Proof.
  intros Hs Hf Hstep. cbn zeta.
  destruct (part_stage base led0 p2_full _ s op _ Hs Hstep) as (Q1 & Q2 & Q3).
  - assert (Ht : forall r g, has_tun (p2_layers r g) = true) by (intros [] [[[[] []] []] []]; reflexivity).
    intros rc. destruct (rc <? 0); by rewrite !Ht.
  - split; [by rewrite Q2|]. by split.
Qed.

(** One stage of start-up: the call and its error exit. *)
Ltac start_layer op r f r' f' :=
  rewrite bind_run;
  match goal with Hs : stage ?base ?led0 p2_full (p2_layers r f) ?x, Hf : flags ?x = f, Hi : fw_installed (sv_fw ?x) = 0 |- _ =>
    let Q1 := fresh "F" in let Q2 := fresh "Q" in let Q3 := fresh "S" in
    destruct (start_stage base led0 x op r r' f f' Hs Hf) as (Q1 & Q2 & Q3);
    [intros ?; reflexivity|];
    rewrite <- Q2 in Hi; clear Q2 Hs Hf;
    destruct (part op x) as [? ?]; cbn [fst snd] in *
  end;
  match goal with |- context [if ?rc <? 0 then _ else _] => destruct (rc <? 0) end;
  [cbn; split; [by eapply p2_at_intro|done]|].

(** The flag that records it. *)
Ltac raise_flag a b c d :=
  rewrite bind_run;
  match goal with Hs : stage ?base ?led0 ?full ?st ?x, Hf : flags ?x = _, Hi : fw_installed (sv_fw ?x) = 0 |- _ =>
    let y := fresh "s" in
    apply (set_up_stage _ _ _ _ _ a b c d) in Hs;
    assert (fw_installed (sv_fw (set_up a b c d x).2) = 0) by exact Hi; clear Hi Hf;
    assert (flags (set_up a b c d x).2 = (a, b, c, d)) by reflexivity;
    generalize dependent (set_up a b c d x).2; clear x; intros y; intros
  end.

Lemma p2_bring_up_stage base led0 v a s :
  stage base led0 p2_full [LTun] s -> flags s = (false, false, false, false) ->
  fw_installed (sv_fw s) = 0 ->
  let p := p2_bring_up v a s in
  p2_at base led0 p.2 /\ (p.1 = true -> stage base led0 p2_full p2_full p.2).
Proof.
  intros Hs Hf Hi. cbn zeta. unfold p2_bring_up. rewrite bind_run.
  destruct (configure_stage base led0 p2_full [LTun] s v a Hs) as (S0 & F0 & W0).
  destruct (configure_tun v a s) as [rc0 s0]; cbn [fst snd] in *. rewrite Hf in F0. rewrite <- W0 in Hi. clear Hs Hf W0 s.
  change [LTun] with (p2_layers false (false, false, false, false)) in S0.
  destruct (rc0 <? 0); [cbn; split; [by eapply p2_at_intro|done]|].
  rewrite bind_run. cbn [gets fst snd].
  start_layer (L3Attach v (tun_fd (sv_tun s0))) false (false, false, false, false) false (true, false, false, false).
  raise_flag true false false false.
  start_layer LoopInit false (true, false, false, false) false (true, true, false, false).
  raise_flag true true false false.
  start_layer PacerConfigure false (true, true, false, false) false (true, true, true, false).
  raise_flag true true true false.
  start_layer RecoveryConfigure false (true, true, true, false) true (true, true, true, false).
  start_layer (BridgeStart v (sa_public_port a) (sa_backend_port a)) true (true, true, true, false) true (true, true, true, true).
  raise_flag true true true true. rewrite bind_run.
  match goal with Hs : stage _ _ _ _ ?x, Hf : flags ?x = _ |- _ =>
    destruct (install_stage base led0 p2_full x v (lit "tcp_shift_p2") a Hs) as [S9 F9]; rewrite Hf in F9;
    destruct (install_ingress v (lit "tcp_shift_p2") a x) as [rc9 s9]; cbn [fst snd ret] in * end.
  split; [|done]. exists true. rewrite F9. by split.
Qed.

(** A stopping call takes the top layer off. *)
Lemma stop_stage base led0 full st st' s op :
  stage base led0 full st s -> (forall rc, replay_step full (EvPart op rc) st = Some st') -> has_tun st' = has_tun st ->
  stage base led0 full st' (part op s).2 /\ flags (part op s).2 = flags s /\ sv_fw (part op s).2 = sv_fw s.
Proof. intros Hs Hr Ht. by apply (part_stage base led0 full st s op (fun _ => st')). Qed.

(** A call whose result is dropped. *)
Local Notation part_call_only op := (bind (part op) (fun _ => ret tt)).

(** The same under its flag. *)
Lemma stop_when base led0 full st s (b : bool) op l :
  stage base led0 full ((if b then [l] else []) ++ st) s ->
  (forall rc, replay_step full (EvPart op rc) (l :: st) = Some st) -> has_tun st = true ->
  let p := when b (part_call_only op) s in
  stage base led0 full st p.2 /\ sv_fw p.2 = sv_fw s.
Proof.
  intros Hs Hr Ht. cbn zeta. destruct b; cbn [when app] in *; [|done]. rewrite bind_run. cbn [ret fst snd].
  destruct (stop_stage base led0 full (l :: st) st s op Hs Hr) as (Q1 & _ & Q3); [|by split].
  rewrite Ht. unfold has_tun in *. apply bool_decide_eq_true in Ht. symmetry. apply bool_decide_eq_true. by right.
Qed.

(** The layers below each one. *)
Definition under_l3 : list layer := [LTun].
Definition under_loop (l3 : bool) : list layer := (if l3 then [LL3] else []) ++ under_l3.
Definition under_pacer (loop l3 : bool) : list layer := (if loop then [LLoop] else []) ++ under_loop l3.
Definition under_recovery (pacer loop l3 : bool) : list layer :=
  (if pacer then [LPacer] else []) ++ under_pacer loop l3.
Definition under_bridge (r pacer loop l3 : bool) : list layer :=
  (if r then [LRecovery] else []) ++ under_recovery pacer loop l3.

(** The recovery timer is cleared whether it was configured or not. *)
Lemma clear_recovery_stage base led0 r pacer loop l3 s :
  stage base led0 p2_full (under_bridge r pacer loop l3) s ->
  let p := part_call_only RecoveryClear s in
  stage base led0 p2_full (under_recovery pacer loop l3) p.2 /\ sv_fw p.2 = sv_fw s.
Proof.
  intros Hs. cbn zeta. rewrite bind_run. cbn [ret fst snd].
  destruct (stop_stage base led0 p2_full _ (under_recovery pacer loop l3) s RecoveryClear Hs) as (Q1 & _ & Q3).
  - intros rc. by destruct r, pacer, loop, l3.
  - by destruct r, pacer, loop, l3.
  - by split.
Qed.

(** Everything is taken down, whatever was up. *)
Lemma p2_out_stage base led0 status s :
  p2_at base led0 s ->
  let p := p2_out status s in
  stage base led0 p2_full [] p.2 /\
  ((p.1 = status /\ fw_installed (sv_fw p.2) = 0) \/ p.1 = EXIT_FAILURE).
Proof.
  intros (r & Hs & Hb & Hfull). cbn zeta. unfold p2_out. rewrite bind_run.
  destruct (remove_stage base led0 p2_full _ s status Hs Hfull) as (S1 & F1 & Hrc).
  destruct (remove_ingress status s) as [st s1]; cbn [fst snd] in *. rewrite bind_run. cbn [gets fst snd]. unfold id.
  clear Hs Hfull Hb. rewrite <- F1 in S1. clear F1 s.
  destruct s1 as [h fw tun l3 loop pacer bridge log]. cbn [sv_bridge sv_pacer sv_loop sv_l3].
  match type of S1 with stage _ _ _ _ ?x => set (s1 := x) in * end.
  change (stage base led0 p2_full ((if bridge then [LBridge] else []) ++ under_bridge r pacer loop l3) s1) in S1.
  assert (Ht : has_tun (under_bridge r pacer loop l3) = true /\ has_tun (under_pacer loop l3) = true /\
               has_tun (under_loop l3) = true) by (by destruct r, pacer, loop, l3).
  destruct Ht as (T1 & T2 & T3). rewrite bind_run.
  destruct (stop_when base led0 p2_full _ s1 bridge BridgeStop LBridge S1 ltac:(intros; reflexivity) T1) as [S2 F2].
  destruct (when bridge _ s1) as [[] s2]; cbn [fst snd] in *. rewrite bind_run.
  destruct (clear_recovery_stage base led0 r pacer loop l3 s2 S2) as [S3 F3].
  destruct (part_call_only RecoveryClear s2) as [[] s3]; cbn [fst snd] in *. rewrite bind_run.
  destruct (stop_when base led0 p2_full _ s3 pacer PacerClear LPacer S3 ltac:(intros; reflexivity) T2) as [S4 F4].
  destruct (when pacer _ s3) as [[] s4]; cbn [fst snd] in *. rewrite bind_run.
  destruct (stop_when base led0 p2_full _ s4 loop LoopClose LLoop S4 ltac:(intros; reflexivity) T3) as [S5 F5].
  destruct (when loop _ s4) as [[] s5]; cbn [fst snd] in *. rewrite bind_run.
  destruct (stop_when base led0 p2_full _ s5 l3 L3Detach LL3 S5 ltac:(intros; reflexivity) ltac:(reflexivity)) as [S6 F6].
  destruct (when l3 _ s5) as [[] s6]; cbn [fst snd] in *. rewrite bind_run.
  destruct (close_stage base led0 p2_full s6 S6) as [S7 F7].
  destruct (close_tun s6) as [[] s7]; cbn [ret fst snd] in *. split; [done|].
  assert (E : sv_fw s7 = sv_fw s1) by congruence. rewrite E. exact Hrc.
Qed.

(** A process as it enters [main]. *)
Record fresh (s : svc W) : Prop := {
  fresh_log : sv_log s = [];
  fresh_fw : sv_fw s = fw_zero;
  fresh_flags : flags s = (false, false, false, false)
}.

(** Before the TUN file there is nothing to give back. *)
Definition idle (base : ruleset) (led0 : Z * Z * Z) (full : list layer) (s : svc W) : Prop :=
  stage base led0 full [] s /\ flags s = (false, false, false, false) /\ sv_fw s = fw_zero.

Lemma fresh_idle full s : fresh s -> idle (rules_of (sv_host s)) (ledger (sv_host s)) full s.
Proof.
  intros [Hl Hf Hg]. split; [|done]. constructor; [by rewrite Hl|rewrite Hf; by apply owns_nothing|done|done].
Qed.

Lemma idle_part base led0 full s op :
  idle base led0 full s ->
  match op with SignalInstall | LwipInit | CcConfigure _ => True | _ => False end ->
  idle base led0 full (part op s).2.
Proof.
  intros (Hs & Hf & Hw) Hop.
  destruct (part_stage base led0 full [] s op (fun _ => []) Hs) as (Q1 & Q2 & Q3); [|done|].
  { intros rc. by destruct op. }
  split; [done|]. split; congruence.
Qed.

Lemma idle_open base led0 full s name :
  idle base led0 full s ->
  let p := open_tun name s in
  if p.1 <? 0 then idle base led0 full p.2
  else stage base led0 full [LTun] p.2 /\ flags p.2 = (false, false, false, false) /\ sv_fw p.2 = fw_zero.
Proof.
  intros (Hs & Hf & Hw). cbn zeta. destruct (open_stage base led0 full s name Hs) as (Q1 & Q2 & Q3).
  destruct (open_tun name s) as [rc s1]; cbn [fst snd] in *.
  destruct (rc <? 0); (split; [done|split; congruence]).
Qed.

Lemma idle_forwarding base led0 full s v a :
  idle base led0 full s -> idle base led0 full (forwarding_ok v a s).2.
Proof.
  intros (Hs & Hf & Hw). destruct (forwarding_stage base led0 full [] s v a Hs) as (Q1 & Q2 & Q3).
  split; [done|]. split; congruence.
Qed.

Lemma ask_id {A} (f : W -> A) s : (sv_on_host (ask f) s).2 = s.
Proof. by destruct s. Qed.

(** The next call before the TUN file. *)
Ltac idle_call lemma :=
  rewrite bind_run;
  match goal with Hi : idle ?base ?led0 ?full ?x |- _ =>
    match goal with |- context [?m x] =>
      let Q := fresh "I" in
      assert (Q : idle base led0 full (m x).2) by (by apply lemma);
      clear Hi; destruct (m x) as [? ?]; cbn [fst snd] in *
    end
  end.

Lemma p2_prepare_stage base led0 v a s :
  idle base led0 p2_full s ->
  let p := p2_prepare v a s in
  if p.1 then stage base led0 p2_full [LTun] p.2 /\ flags p.2 = (false, false, false, false) /\ sv_fw p.2 = fw_zero
  else idle base led0 p2_full p.2.
Proof.
  intros Hi. cbn zeta. unfold p2_prepare.
  idle_call idle_part. destruct (_ <? 0); [done|].
  rewrite bind_run, ask_id. destruct (negb _); [done|].
  idle_call idle_forwarding. destruct (negb _); [done|].
  idle_call idle_part. destruct (_ <? 0); [done|].
  idle_call idle_part. rewrite bind_run.
  match goal with Q : idle _ _ _ ?x |- _ => pose proof (idle_open _ _ _ x (sa_tun a) Q) as Ho end. cbn zeta in Ho.
  destruct (open_tun (sa_tun a) _) as [rc s9]; cbn [fst snd ret] in *. by destruct (rc <? 0).
Qed.

(** ** The probe process *)

(** The layers under each label. *)
Definition p1_layers (r : p1_reached) : list layer :=
  match r with
  | OutTun => [LTun]
  | OutL3 => [LL3; LTun]
  | OutListener => [LProbe; LL3; LTun]
  | OutLoop | P1Up => p1_full
  end.
Definition p1_looping (r : p1_reached) : bool := match r with OutLoop | P1Up => true | _ => false end.
Definition p1_at (base : ruleset) (led0 : Z * Z * Z) (r : p1_reached) (s : svc W) : Prop :=
  stage base led0 p1_full (p1_layers r) s /\ (fw_installed (sv_fw s) <> 0 -> p1_looping r = true).

Lemma p1_start base led0 s op r r' :
  p1_at base led0 r s -> p1_looping r = false ->
  (forall rc, replay_step p1_full (EvPart op rc) (p1_layers r) =
              Some (if rc <? 0 then p1_layers r else p1_layers r')) ->
  let p := part op s in p1_at base led0 (if p.1 <? 0 then r else r') p.2.
Proof.
  intros [Hs Hf] Hr Hstep. cbn zeta.
  destruct (part_stage base led0 p1_full _ s op _ Hs Hstep) as (Q1 & _ & Q3).
  { intros rc. by destruct (rc <? 0), r, r'. }
  split; [by destruct ((part op s).1 <? 0)|]. rewrite Q3. intros Hi. specialize (Hf Hi). congruence.
Qed.

Ltac p1_layer op r r' :=
  rewrite bind_run;
  match goal with Hs : p1_at ?base ?led0 r ?x |- _ =>
    let Q := fresh "P" in
    pose proof (p1_start base led0 x op r r' Hs eq_refl ltac:(intros ?; reflexivity)) as Q; cbn zeta in Q;
    clear Hs; destruct (part op x) as [? ?]; cbn [fst snd] in *
  end;
  match goal with |- context [if ?rc <? 0 then _ else _] => destruct (rc <? 0) end; [done|].

Lemma p1_bring_up_at base led0 v a s :
  p1_at base led0 OutTun s -> p1_at base led0 (p1_bring_up v a s).1 (p1_bring_up v a s).2.
Proof.
  intros [Hs Hf]. unfold p1_bring_up. rewrite bind_run.
  destruct (configure_stage base led0 p1_full [LTun] s v a Hs) as (S0 & _ & W0).
  destruct (configure_tun v a s) as [rc0 s0]; cbn [fst snd] in *.
  assert (P0 : p1_at base led0 OutTun s0) by (split; [done|by rewrite W0]). clear Hs Hf S0 W0.
  destruct (rc0 <? 0); [done|]. rewrite bind_run. cbn [gets fst snd].
  p1_layer (L3Attach v (tun_fd (sv_tun s0))) OutTun OutL3.
  p1_layer (ProbeStart v (sa_public_port a)) OutL3 OutListener.
  p1_layer LoopInit OutListener OutLoop. rewrite bind_run.
  match goal with P : p1_at _ _ OutLoop ?x |- _ => destruct P as [S4 _];
    destruct (forwarding_stage base led0 p1_full p1_full x v a S4) as (S5 & _);
    destruct (forwarding_ok v a x) as [ok s5]; cbn [fst snd] in * end.
  destruct (negb ok); [by split|]. rewrite bind_run.
  destruct (install_stage base led0 p1_full s5 v (lit "tcp_shift_p1") a S5) as [S6 _].
  destruct (install_ingress v (lit "tcp_shift_p1") a s5) as [rc6 s6]; cbn [fst snd ret] in *.
  by destruct (rc6 <? 0).
Qed.

(** Each label takes down what is up there, and falls through. *)
Definition takes_down (base : ruleset) (led0 : Z * Z * Z) (st : list layer) (m : Z -> M (svc W) Z) : Prop :=
  forall status s, stage base led0 p1_full st s ->
    let p := m status s in
    stage base led0 p1_full [] p.2 /\ p.1 = status /\ sv_fw p.2 = sv_fw s.

Lemma out_tun_down base led0 : takes_down base led0 [LTun] p1_out_tun.
Proof.
  intros status s Hs. cbn zeta. unfold p1_out_tun. rewrite bind_run. cbn [ret fst snd].
  by destruct (close_stage base led0 p1_full s Hs).
Qed.

Lemma falls_through base led0 l st op m :
  takes_down base led0 st m -> (forall rc, replay_step p1_full (EvPart op rc) (l :: st) = Some st) ->
  has_tun st = has_tun (l :: st) ->
  takes_down base led0 (l :: st) (fun status => bind (part op) (fun _ => m status)).
Proof.
  intros Hm Hr Ht status s Hs. cbn zeta. rewrite bind_run.
  destruct (stop_stage base led0 p1_full (l :: st) st s op Hs Hr Ht) as (S1 & _ & <-). by apply Hm.
Qed.

Lemma out_l3_down base led0 : takes_down base led0 [LL3; LTun] p1_out_l3.
Proof. by apply falls_through; [apply out_tun_down|..]. Qed.

Lemma out_listener_down base led0 : takes_down base led0 [LProbe; LL3; LTun] p1_out_listener.
Proof. by apply falls_through; [apply out_l3_down|..]. Qed.

Lemma out_loop_down base led0 :
  takes_down base led0 p1_full (fun status => bind (part LoopClose) (fun _ => p1_out_listener status)).
Proof. by apply falls_through; [apply out_listener_down|..]. Qed.

Lemma p1_out_stage base led0 r status s :
  p1_at base led0 r s ->
  let p := p1_out r status s in
  stage base led0 p1_full [] p.2 /\
  ((p.1 = status /\ fw_installed (sv_fw p.2) = 0) \/ p.1 = EXIT_FAILURE).
Proof.
  intros [Hs Hf]. cbn zeta.
  assert (Hidle : p1_looping r = false -> fw_installed (sv_fw s) = 0).
  { intros Hr. destruct (Z.eq_dec (fw_installed (sv_fw s)) 0) as [?|Hn]; [done|]. specialize (Hf Hn). congruence. }
  assert (Hdown : forall st m, takes_down base led0 st m -> stage base led0 p1_full st s -> p1_looping r = false ->
    stage base led0 p1_full [] (m status s).2 /\
    (((m status s).1 = status /\ fw_installed (sv_fw (m status s).2) = 0) \/ (m status s).1 = EXIT_FAILURE)).
  { intros st m Hm Hst Hr. destruct (Hm status s Hst) as (? & ? & ->). split; [done|left; auto]. }
  assert (Hloop : stage base led0 p1_full p1_full s ->
    stage base led0 p1_full [] (p1_out_loop status s).2 /\
    (((p1_out_loop status s).1 = status /\ fw_installed (sv_fw (p1_out_loop status s).2) = 0) \/
     (p1_out_loop status s).1 = EXIT_FAILURE)).
  { intros Hst. unfold p1_out_loop. rewrite bind_run.
    destruct (remove_stage base led0 p1_full p1_full s status Hst ltac:(done)) as (S1 & _ & Hrc).
    destruct (out_loop_down base led0 (remove_ingress status s).1 _ S1) as (S2 & E2 & F2). cbn beta in *.
    rewrite E2, F2. by split. }
  destruct r; cbn [p1_out p1_layers] in *; [| | |by apply Hloop..].
  - by apply (Hdown [LTun]); [apply out_tun_down|..].
  - by apply (Hdown [LL3; LTun]); [apply out_l3_down|..].
  - by apply (Hdown [LProbe; LL3; LTun]); [apply out_listener_down|..].
Qed.

(** ** Both *)

(** What a process leaves: after an exit nothing is up, the descriptors are the
    ones from before and so are the rules, unless a removal failed and the
    object says so; out of fuel it is still serving. *)
Definition shut_down (full : list layer) (s0 : svc W) (r : option Z) (s : svc W) : Prop :=
  match r with
  | Some status =>
      (status = EXIT_SUCCESS \/ status = EXIT_FAILURE) /\
      replay full (sv_log s) [] = Some [] /\ ledger (sv_host s) = ledger (sv_host s0) /\
      owns (rules_of (sv_host s0)) (sv_fw s) (rules_of (sv_host s)) /\
      (status = EXIT_SUCCESS -> rules_of (sv_host s) = rules_of (sv_host s0))
  | None => replay full (sv_log s) [] = Some full
  end.

Lemma shut_down_intro full s0 s status st :
  stage (rules_of (sv_host s0)) (ledger (sv_host s0)) full [] s ->
  (status = EXIT_SUCCESS \/ status = EXIT_FAILURE) ->
  (st = status /\ fw_installed (sv_fw s) = 0) \/ st = EXIT_FAILURE ->
  shut_down full s0 (Some st) s.
Proof.
  intros [Hr Ho Hl _] Hst Hrc. cbn. split; [destruct Hrc as [[-> _]| ->]; auto|].
  split; [done|]. split; [done|]. split; [done|]. intros ->.
  destruct Hrc as [[_ Hi]|]; [by apply (owns_installed _ _ _ Ho)|done].
Qed.

Lemma idle_shut_down full s0 s :
  idle (rules_of (sv_host s0)) (ledger (sv_host s0)) full s -> shut_down full s0 (Some EXIT_FAILURE) s.
Proof. intros (Hs & _ & Hw). apply (shut_down_intro _ _ _ EXIT_FAILURE); [done|auto|auto]. Qed.

Lemma p2_run_shut_down fuel v a s : fresh s -> shut_down p2_full s (p2_run fuel v a s).1 (p2_run fuel v a s).2.
Proof.
  intros Hf. pose proof (fresh_idle p2_full s Hf) as Hi. unfold p2_run. rewrite bind_run.
  pose proof (p2_prepare_stage _ _ v a s Hi) as Hp. cbn zeta in Hp.
  destruct (p2_prepare v a s) as [[] s1]; cbn [fst snd negb] in *; [|by apply idle_shut_down].
  destruct Hp as (S1 & F1 & W1). rewrite bind_run.
  destruct (p2_bring_up_stage _ _ v a s1 S1 F1 ltac:(by rewrite W1)) as [A2 S2].
  assert (Hout : forall status s', status = EXIT_SUCCESS \/ status = EXIT_FAILURE ->
    p2_at (rules_of (sv_host s)) (ledger (sv_host s)) s' ->
    shut_down p2_full s (Some (p2_out status s').1) (p2_out status s').2).
  { intros status s' Hst Hat. destruct (p2_out_stage _ _ status s' Hat) as [S9 Hrc]. by eapply shut_down_intro. }
  destruct (p2_bring_up v a s1) as [[] s2]; cbn [fst snd negb] in *; rewrite bind_run; cbn [ret fst snd]; [|by apply Hout; auto].
  destruct (serve_stage _ _ p2_full fuel s2 (S2 eq_refl)) as (S3 & F3 & Hst).
  destruct (serve fuel s2) as [st s3]; cbn [fst snd] in *.
  destruct st as [st|]; cbn [ret fst snd]; [|apply S3]. rewrite bind_run. cbn [ret fst snd].
  apply Hout; [destruct Hst as [?|[[= ->]|[= ->]]]; auto; done|].
  destruct A2 as (r & Q1 & Q2 & Q3). exists true.
  assert (E : p2_layers r (flags s2) = p2_full).
  { pose proof (sg_replay _ _ _ _ _ Q1) as E1. rewrite (sg_replay _ _ _ _ _ (S2 eq_refl)) in E1. by injection E1. }
  assert (E3 : flags s3 = (true, true, true, true)).
  { rewrite F3. destruct (flags s2) as [[[[] []] []] []], r; done. }
  rewrite E3. by split.
Qed.

Lemma p1_run_shut_down fuel v a s : fresh s -> shut_down p1_full s (p1_run fuel v a s).1 (p1_run fuel v a s).2.
Proof.
  intros Hf. pose proof (fresh_idle p1_full s Hf) as Hi. unfold p1_run.
  idle_call idle_part. destruct (_ <? 0); [by apply idle_shut_down|]. idle_call idle_part. rewrite bind_run.
  match goal with Q : idle _ _ _ ?x |- _ => pose proof (idle_open _ _ _ x (sa_tun a) Q) as Ho end. cbn zeta in Ho.
  destruct (open_tun (sa_tun a) _) as [rc s3]; cbn [fst snd] in *.
  destruct (rc <? 0); [by apply idle_shut_down|]. destruct Ho as (S3 & _ & W3). rewrite bind_run.
  assert (P3 : p1_at (rules_of (sv_host s)) (ledger (sv_host s)) OutTun s3) by (split; [done|by rewrite W3]).
  pose proof (p1_bring_up_at _ _ v a s3 P3) as P4.
  destruct (p1_bring_up v a s3) as [r s4]; cbn [fst snd] in *.
  assert (Hout : forall status r' s', status = EXIT_SUCCESS \/ status = EXIT_FAILURE ->
    p1_at (rules_of (sv_host s)) (ledger (sv_host s)) r' s' ->
    shut_down p1_full s (Some (p1_out r' status s').1) (p1_out r' status s').2).
  { intros status r' s' Hst Hat. destruct (p1_out_stage _ _ r' status s' Hat) as [S9 Hrc]. by eapply shut_down_intro. }
  destruct r; try (rewrite bind_run; cbn [ret fst snd]; by apply Hout; auto).
  rewrite bind_run. destruct P4 as [S4 _].
  destruct (serve_stage _ _ p1_full fuel s4 S4) as (S5 & _ & Hst).
  destruct (serve fuel s4) as [st s5]; cbn [fst snd] in *.
  destruct st as [st|]; cbn [ret fst snd]; [|apply S5]. rewrite bind_run. cbn [ret fst snd].
  apply Hout; [destruct Hst as [?|[[= ->]|[= ->]]]; auto; done|by split].
Qed.


(** ** The programs end *)

(** The world after that many turns of the loop, and a turn that is the last. *)
Fixpoint turns (n : nat) (w : W) : W :=
  match n with O => w | S m => turns m (part_call LoopRunOnce w).2 end.
Definition ends_at (n : nat) (w : W) : Prop :=
  stop_flag (turns n w) = true \/ (part_call LoopRunOnce (turns n w)).1 < 0.

(** Enough fuel gives a result, and more fuel the same one. *)
Definition settles {A} (m : nat -> M (svc W) (option A)) (s : svc W) : Prop :=
  exists n, is_Some (m n s).1 /\ forall fuel, (n <= fuel)%nat -> m fuel s = m n s.

Lemma settles_const {A} (m : M (svc W) (option A)) s : is_Some (m s).1 -> settles (fun _ => m) s.
Proof. intros Hm. exists 0%nat. by split. Qed.

Lemma settles_then {A B} (m : nat -> M (svc W) (option A)) (k : A -> M (svc W) B) s :
  settles m s ->
  settles (fun fuel => bind (m fuel) (fun r =>
    match r with None => ret None | Some a => bind (k a) (fun b => ret (Some b)) end)) s.
Proof.
  intros (n & [a Ha] & Hm). exists n. split.
  - rewrite bind_run, Ha. by rewrite bind_run.
  - intros fuel Hle. by rewrite !bind_run, (Hm fuel Hle).
Qed.

Lemma serve_settles n : forall s, ends_at n (h_world (sv_host s)) -> settles serve s.
Proof.
  assert (Hstep : forall s fuel, serve (S fuel) s =
    if stop_flag (h_world (sv_host s)) then (Some EXIT_SUCCESS, s)
    else if (part LoopRunOnce s).1 <? 0 then (Some EXIT_FAILURE, (part LoopRunOnce s).2)
    else serve fuel (part LoopRunOnce s).2).
  { intros s fuel. cbn [serve]. rewrite bind_run, ask_id. cbn [sv_on_host ask gets fst].
    destruct (stop_flag _); [done|]. rewrite bind_run. by destruct (_ <? 0). }
  induction n as [|n IH]; intros s Hend.
  - exists 1%nat. assert (E : forall fuel, (1 <= fuel)%nat -> serve fuel s = serve 1 s /\ is_Some (serve 1 s).1).
    { intros [|f] Hf; [lia|]. rewrite !Hstep. destruct (stop_flag _) eqn:Es; [done|].
      destruct Hend as [Hend|Hend]; cbn [turns] in Hend; [congruence|].
      assert (Hrc : (part LoopRunOnce s).1 = (part_call LoopRunOnce (h_world (sv_host s))).1)
        by (unfold part; rewrite bind_run; cbn [sv_on_host call fst snd]; by destruct (part_call _ _)).
      rewrite Hrc. apply Z.ltb_lt in Hend. by rewrite Hend. }
    split; [by apply (E 1%nat)|]. intros fuel Hf. by apply E.
  - destruct (IH (part LoopRunOnce s).2) as (m & Hm & Hall).
    { assert (Hw : h_world (sv_host (part LoopRunOnce s).2) = (part_call LoopRunOnce (h_world (sv_host s))).2)
        by (unfold part; rewrite bind_run; cbn [sv_on_host call fst snd]; by destruct (part_call _ _)).
      rewrite Hw. exact Hend. }
    exists (S m). split.
    + rewrite Hstep. destruct (stop_flag _); [done|]. by destruct (_ <? 0).
    + intros [|f] Hf; [lia|]. rewrite !Hstep, (Hall f) by lia. done.
Qed.

Lemma p2_run_settles v a s :
  (forall w, exists n, ends_at n w) -> settles (fun fuel => p2_run fuel v a) s.
Proof.
  intros Hend. unfold settles, p2_run. setoid_rewrite bind_run.
  destruct (p2_prepare v a s) as [[] s1]; cbn [fst snd negb]; [|by apply settles_const].
  setoid_rewrite bind_run. destruct (p2_bring_up v a s1) as [[] s2]; cbn [fst snd negb].
  - apply (settles_then serve p2_out). destruct (Hend (h_world (sv_host s2))) as [n Hn]. by apply (serve_settles n).
  - apply settles_const. by rewrite bind_run.
Qed.

Lemma p1_run_settles v a s :
  (forall w, exists n, ends_at n w) -> settles (fun fuel => p1_run fuel v a) s.
Proof.
  intros Hend. unfold settles, p1_run. setoid_rewrite bind_run.
  destruct (part SignalInstall s) as [rc1 s1]; cbn [fst snd].
  destruct (rc1 <? 0); [by apply settles_const|]. setoid_rewrite bind_run. setoid_rewrite bind_run.
  destruct (open_tun (sa_tun a) _) as [rc2 s2]; cbn [fst snd].
  destruct (rc2 <? 0); [by apply settles_const|]. setoid_rewrite bind_run.
  destruct (p1_bring_up v a s2) as [r s3]; cbn [fst snd].
  destruct r; try (apply settles_const; by rewrite bind_run).
  apply (settles_then serve (p1_out P1Up)). destruct (Hend (h_world (sv_host s3))) as [n Hn]. by apply (serve_settles n).
Qed.

(** If from every state of the machine some turn of the loop fails or is
    followed by a stop signal, each of the four programs ends, with an exit
    status that no longer depends on how long one waits. *)
Theorem service_ends (argv : list cstring) (env : option cstring) (s : svc W) :
  (forall w, exists n, ends_at n w) ->
  settles (fun fuel => p2_main fuel argv env) s /\ settles (fun fuel => p2_ipv6_main fuel argv env) s /\
  settles (fun fuel => p1_main fuel argv env) s /\ settles (fun fuel => p1_ipv6_main fuel argv env) s.
Proof.
  intros Hend. unfold p2_main, p2_ipv6_main, p1_main, p1_ipv6_main.
  split; [|split; [|split]]; (case_match; [|by apply settles_const]);
    by (apply p2_run_settles || apply p1_run_settles).
Qed.

End Spec.

(** ** On the simulated host *)

(** Every part starts; the loop turns until the faults are used up. *)
#[export] Instance sim_parts : ServiceParts sim := {
  part_call op w := match op with LoopRunOnce => (if sim_fault w then -1 else 0, sim_used w) | _ => (0, w) end;
  cc_available _ := true;
  stop_flag w := match sim_faults w with [] => true | _ => false end;
  addr_aton v t := match sim_pton v t with Some _ => true | None => false end
}.

#[export] Instance sim_part_laws : PartLaws sim.
Proof. constructor. intros op w. by destruct op. Qed.

Definition ex_svc (bin : list cstring) (nft : bool) (faults : list bool) : svc sim :=
  {| sv_host := fs_host (ex_state bin nft faults); sv_fw := fw_zero;
     sv_tun := {| tun_fd := -1; tun_ifname := [] |};
     sv_l3 := false; sv_loop := false; sv_pacer := false; sv_bridge := false; sv_log := [] |}.

Definition ex_argv : list cstring :=
  [lit "ts0"; lit "10.0.0.2"; lit "255.255.255.252"; lit "10.0.0.1"; lit "18090"; lit "18091"; lit "bbr"; lit "203.0.113.10"].


Lemma sim_ends (w : sim) : exists n, ends_at n w.
Proof.
  exists (List.length (sim_faults w)). left. cut (sim_faults (turns (List.length (sim_faults w)) w) = []).
  { intros E. cbn. by rewrite E. }
  remember (sim_faults w) as l eqn:El. revert w El. induction l as [|b l IH]; intros w El; cbn [List.length turns]; [done|].
  apply IH. cbn. by rewrite <- El.
Qed.

(** The netmask request fails, and the program ends with a failure. *)
Lemma service_ends_witness :
  settles (fun fuel => p2_main fuel ex_argv None) (ex_svc [] true [false; false; false; true]) /\
  (p2_main 1 ex_argv None (ex_svc [] true [false; false; false; true])).1 = Some EXIT_FAILURE.
Proof.
  destruct (service_ends ex_argv None (ex_svc [] true [false; false; false; true]) sim_ends) as [Hs _].
  split; [exact Hs|vm_compute; reflexivity].
Defined.
