(* ===== verification/ServiceLaunch.v ===== *)
(** * The launcher (main.c)

    Options, loading the configuration and starting the service program of the
    listener's family with its settings on the command line and the firewall
    backend in the environment. [getopt_long] gives the list of options it
    recognises; the exec calls either replace the process or return an errno.
    The theorem composes the configuration loader, the launcher, the argument
    parsers of the services and the checks of the interface and firewall
    components: what was loaded is what the service runs with. *)

From Stdlib Require Import ZArith Lia Bool List Ascii String.
From stdpp Require Import base tactics numbers list gmap strings.
From S2P Require Import Prelude CString StateMonad ServiceConfig ServiceConfigSpec HostSys.
From S2P Require Import HostSetup Firewall FirewallHost HostSetupSpec ServiceMain ServiceMainSpec.
Local Open Scope Z_scope.

Definition PATH_MAX : Z := 4096.

(** What [getopt_long] returns, with [optarg]. *)
Inductive main_option : Type := OptConfig (arg : cstring) | OptCheck | OptHelp | OptUnknown.

(** How the launcher ends: an exit status, or the program that replaced it
    with its arguments after the name and [TCP_SHIFT_FIREWALL_BACKEND]. *)
Inductive launch : Type :=
| Exits (status : Z)
| Replaced (path : cstring) (args : list cstring) (backend : cstring).

(** The system calls of the launcher. *)
Record launch_sys := {
  readlink_exe : option cstring;            (** [/proc/self/exe] *)
  setenv_ok : bool;
  execv_errno : cstring -> option Z;        (** [None]: the process was replaced *)
  execvp_errno : cstring -> option Z;
  (** the lines of a file, [None] when it cannot be opened, and [ferror] *)
  file_lines : cstring -> option (list cstring) * bool
}.

Section Launch.
Variable sys : launch_sys.
Variable inet_pton : Z -> cstring -> option (list Z).
Variable inet_ntop : Z -> list Z -> Z -> option cstring.

Definition resolve_sibling (name : cstring) (path_size : Z) : option cstring :=
  match readlink_exe sys with
  | None => None
  | Some executable =>
      if strlen executable >=? PATH_MAX then None
      else match strrchr executable "/"%char with
           | None => None
           | Some (directory, _) =>
               let path := directory ++ "/"%char :: name in
               if strlen path >=? path_size then None else Some path
           end
  end.

Definition service_binary (config : tcp_shift_service_config) : cstring :=
  if sc_ip_version config =? 4 then lit "tcp-shift-p2" else lit "tcp-shift-p2-ipv6".

(** [args[1..]]; a port is printed into six bytes. *)
Definition service_args_of (config : tcp_shift_service_config) : list cstring :=
  let host := if sc_ip_version config =? 4 then sc_tun_host_address config else sc_tun_host_cidr config in
  let public_port := port_text (sc_public_port config) in
  let backend_port := port_text (sc_backend_port config) in
  if sc_ip_version config =? 4 then
    [sc_tun_name config; sc_tun_guest_address config; sc_tun_netmask config; host;
     public_port; backend_port; sc_cc config; sc_public_address config]
  else
    [sc_tun_name config; sc_tun_guest_address config; host;
     public_port; backend_port; sc_cc config; sc_public_address config].

(** [None] is a return of -1. *)
Definition exec_service (config : tcp_shift_service_config) : option launch :=
  let binary := service_binary config in
  let replaced path := Replaced path (service_args_of config) (sc_firewall_backend config) in
  let search := match execvp_errno sys binary with None => Some (replaced binary) | Some _ => None end in
  if negb (setenv_ok sys) then None
  else match resolve_sibling binary PATH_MAX with
       | Some child_path =>
           match execv_errno sys child_path with
           | None => Some (replaced child_path)
           | Some e => if negb (e =? ENOENT) then None else search
           end
       | None => search
       end.

(** The option loop: an exit status, or the path and the check flag. *)
Fixpoint option_loop (options : list main_option) (config_path : option cstring) (check_only : bool)
    : Z + option cstring * bool :=
  match options with
  | [] => inr (config_path, check_only)
  | OptConfig arg :: rest =>
      match config_path with
      | Some _ => inl 2
      | None => option_loop rest (Some arg) check_only
      end
  | OptCheck :: rest => option_loop rest config_path true
  | OptHelp :: _ => inl 0
  | OptUnknown :: _ => inl 2
  end.

(** [argc], the recognised options and whether [optind == argc] after them. *)
Definition main (argc : Z) (options : list main_option) (all_used : bool) : launch :=
  if argc =? 1 then Exits 0
  else match option_loop options None false with
       | inl status => Exits status
       | inr (config_path, check_only) =>
           match config_path with
           | Some ((_ :: _) as path) =>
               if negb all_used then Exits 2
               else
                 let '(stream, read_error) := file_lines sys path in
                 let '(rc, config, _) :=
                   tcp_shift_service_config_load inet_pton inet_ntop (Some path) stream read_error
                     zero_service_config in
                 if negb (rc =? 0) then Exits 1
                 else if check_only then Exits 0
                 else match exec_service config with
                      | None => Exits 1
                      | Some l => l
                      end
           | _ => Exits 2
           end
       end.

End Launch.

(** ** What reaches the service *)

Section Spec.
Context {W : Type} `{HS : HostSys W} `{SP : ServiceParts W}.
Context (pton : Z -> cstring -> option (list Z)) (ntop : Z -> list Z -> Z -> option cstring)
  {Hinet : InetText pton ntop}.
Variable sys : launch_sys.
(** The components share the C library's [inet_pton]. *)
Hypothesis same_pton : forall v t, sys_inet_pton v t = pton v t.
(** [INET6_ADDRSTRLEN] bytes hold every printed IPv6 address. *)
Hypothesis ipv6_text_fits : forall p t, ntop 6 p 64 = Some t -> strlen t < INET6_ADDRSTRLEN.
(** lwIP reads the addresses the C library prints. *)
Hypothesis aton_reads : forall v p t, ntop v p 64 = Some t -> addr_aton v t = true.

Lemma port_text_exact p : 1 <= p <= 65535 -> port_text p = print_dec p.
Proof. intros Hp. unfold port_text. apply take_ge. pose proof (port_length p ltac:(lia)) as Hl. unfold strlen in Hl. lia. Qed.

Lemma parse_port_print p : 1 <= p <= 65535 -> parse_port (port_text p) = Some p.
Proof.
  intros Hp. rewrite (port_text_exact p Hp). unfold parse_port.
  rewrite <- (app_nil_r (print_dec p)), strtoull_print by (done || lia).
  destruct (p =? 0) eqn:E0; [lia|]. destruct (p >? 65535) eqn:E1; [lia|]. done.
Qed.

Lemma backend_parse_name b :
  valid_firewall_backend b = true ->
  exists code, tcp_shift_firewall_backend_parse (Some b) = Some code /\ tcp_shift_firewall_backend_name code = b.
Proof.
  unfold valid_firewall_backend. rewrite !orb_true_iff, !str_eqb_eq. intros [[[->| ->]| ->]| ->]; eexists; by split.
Qed.

(** What the service of a configuration runs with. *)
Definition settings (c : tcp_shift_service_config) (a : service_args) : Prop :=
  sa_tun a = sc_tun_name c /\ sa_address a = sc_tun_guest_address c /\ sa_netmask a = sc_tun_netmask c /\
  sa_host a = (if sc_ip_version c =? 4 then sc_tun_host_address c else sc_tun_host_cidr c) /\
  sa_public_port a = sc_public_port c /\ sa_backend_port a = sc_backend_port c /\ sa_cc a = sc_cc c /\
  sa_public a = Some (sc_public_address c) /\
  tcp_shift_firewall_backend_name (sa_firewall a) = sc_firewall_backend c.

(** The argument parser of the program that is started. *)
Definition service_parse (v : Z) : list cstring -> option cstring -> option service_args :=
  if v =? 4 then p2_args else p2_ipv6_args.

Lemma args_roundtrip c :
  config_wf pton ntop c ->
  exists a, service_parse (sc_ip_version c) (service_args_of c) (Some (sc_firewall_backend c)) = Some a /\ settings c a.
Proof.
  intros [_ Hv _ Hfw _ (p & [_ Hp] & _) [Hpp Hbp] (h & g & prefix & [_ Hh] & [_ Hg] & _ & Hpre & _ & _ & Hm)].
  destruct (backend_parse_name _ Hfw) as (code & Hparse & Hname).
  unfold service_parse, service_args_of, settings. destruct Hv as [Hv|Hv]; rewrite Hv in *;
    [change (4 =? 4) with true in *|change (6 =? 4) with false in *]; cbn iota in *.
  - unfold p2_args, parse_addr. change (2 <? Z.of_nat (List.length [sc_cc c; sc_public_address c])) with false. cbn iota. change ([sc_cc c; sc_public_address c] !! 0%nat) with (Some (sc_cc c)).
    change ([sc_cc c; sc_public_address c] !! 1%nat) with (Some (sc_public_address c)). cbn iota beta zeta.
    rewrite (aton_reads _ _ _ Hg), (aton_reads _ _ _ Hm), (aton_reads _ _ _ Hh), !parse_port_print by done.
    rewrite (aton_reads _ _ _ Hp), Hparse. eexists. split; [done|]. cbn. by repeat split.
  - unfold p2_ipv6_args, parse_addr. change (2 <? Z.of_nat (List.length [sc_cc c; sc_public_address c])) with false. cbn iota. change ([sc_cc c; sc_public_address c] !! 0%nat) with (Some (sc_cc c)).
    change ([sc_cc c; sc_public_address c] !! 1%nat) with (Some (sc_public_address c)). cbn iota beta zeta.
    rewrite (aton_reads _ _ _ Hg), !parse_port_print by done.
    rewrite (aton_reads _ _ _ Hp), Hparse. eexists. split; [done|]. cbn. by repeat split.
Qed.

(** The IPv6 prefix and the firewall description of a configuration pass the
    checks of the components that use them. *)
Lemma cidr_accepted c :
  config_wf pton ntop c -> sc_ip_version c = 6 -> tcp_shift_validate_ipv6_cidr (Some (sc_tun_host_cidr c)) = true.
Proof.
  intros [_ _ _ _ _ _ _ (h & g & prefix & [Hh1 Hh2] & _ & _ & Hpre & Hcidr & _ & _)] Hv.
  rewrite Hv in *. change (6 =? 4) with false in *. cbn iota in *. rewrite Hcidr. unfold tcp_shift_validate_ipv6_cidr.
  rewrite strrchr_none_suffix by (apply digits_avoid; [lia|done]).
  destruct (ntop_chars 6 _ _ _ Hh2) as [Hne _]. destruct (print_dec_nonempty prefix) as (d & ds & Ed).
  destruct (sc_tun_host_address c) as [|x t] eqn:Et; [done|]. rewrite Ed. rewrite <- Ed.
  pose proof (ipv6_text_fits _ _ Hh2) as Hl. destruct (strlen (x :: t) >=? INET6_ADDRSTRLEN) eqn:El; [lia|].
  rewrite same_pton, Hh1, <- (app_nil_r (print_dec prefix)), strtoull_print by (done || lia). lia.
Qed.

Lemma ingress_accepted c a (s : fwst W) :
  config_wf pton ntop c -> settings c a -> fw_installed (fs_fw s) = 0 ->
  (tcp_shift_firewall_prepare
     (Some (ingress_spec (sc_ip_version c) (lit "tcp_shift_p2") a (sc_public_address c))) s).1 = 0.
Proof.
  intros [_ Hv _ _ _ (p & [Hp1 Hp2] & _) [Hpp _] (h & g & prefix & _ & [Hg1 Hg2] & _)]
    (_ & Ha & _ & _ & Hport & _) Hi.
  unfold tcp_shift_firewall_prepare. rewrite bind_run. cbn [fw_get gets fst snd].
  unfold ingress_spec; cbn [sp_public_port sp_target_port sp_resource_name sp_public_address sp_target_address sp_ip_version].
  unfold id. rewrite Hport, Hi, Ha. destruct (sc_public_port c =? 0) eqn:E0; [lia|].
  change (tcp_shift_firewall_valid_resource (Some (lit "tcp_shift_p2"))) with 0.
  unfold tcp_shift_firewall_valid_ip. rewrite !same_pton, Hp1, Hg1. cbn [default orb negb].
  assert (Hl : forall t q, ntop (sc_ip_version c) q 64 = Some t -> (strlen t >=? TCP_SHIFT_FIREWALL_ADDRESS_MAX) = false).
  { intros t q Hq. pose proof (ntop_fits _ _ _ _ Hq) as Hs. unfold slen in Hs. unfold strlen, TCP_SHIFT_FIREWALL_ADDRESS_MAX. lia. }
  rewrite (Hl _ _ Hp2), (Hl _ _ Hg2). by destruct Hv as [-> | ->].
Qed.

Lemma option_loop_path options : forall path check path' check',
  option_loop options path check = inr (path', check') ->
  path' = path \/ exists f, path' = Some f /\ In (OptConfig f) options.
Proof.
  induction options as [|o options IH]; intros path check path' check'; cbn [option_loop]; [intros [= -> ->]; auto|].
  destruct o as [f| | |]; try done.
  - destruct path; [done|]. intros Hl. right. destruct (IH _ _ _ _ Hl) as [->|(f' & -> & Hin)]; [exists f|exists f'; split; [done|by right]].
    split; [done|by left].
  - intros Hl. destruct (IH _ _ _ _ Hl) as [->|(f' & -> & Hin)]; [by left|right; exists f'; split; [done|by right]].
Qed.

(** A load that answers 0 opened and read the file, and gave a configuration
    that meets the constraints. *)
Lemma service_config_load_ok path stream err c0 rc c e :
  tcp_shift_service_config_load pton ntop (Some path) stream err c0 = (rc, c, e) -> rc = 0 ->
  exists lines, stream = Some lines /\ err = false /\ rc = 0 /\ e = None /\ config_wf pton ntop c.
Proof.
  unfold tcp_shift_service_config_load. destruct path as [|ch path]; [intros [= <- <- <-]; done|].
  destruct stream as [lines|]; [|intros [= <- <- <-]; done].
  destruct (config_lines _ _ _ _ _) as [m|[st cfg]]; [intros [= <- <- <-]; done|].
  destruct err; [intros [= <- <- <-]; done|].
  destruct (finalize_config pton ntop cfg st) as [m|c1] eqn:Ef; intros [= <- <- <-]; [done|]. intros _.
  exists lines. repeat (split; [done|]). by apply (finalize_config_sound pton ntop st cfg).
Qed.

Lemma exec_service_replaced c path args backend :
  exec_service sys c = Some (Replaced path args backend) ->
  args = service_args_of c /\ backend = sc_firewall_backend c /\
  (path = service_binary c \/ exists directory, path = directory ++ "/"%char :: service_binary c).
Proof.
  unfold exec_service. destruct (setenv_ok sys); [|done]. cbn [negb].
  destruct (resolve_sibling sys (service_binary c) PATH_MAX) as [child|] eqn:Er.
  - destruct (execv_errno sys child) as [e|].
    + destruct (negb _); [done|]. destruct (execvp_errno _ _); [done|]. intros [= <- <- <-]. auto.
    + intros [= <- <- <-]. split; [done|]. split; [done|]. right. unfold resolve_sibling in Er.
      destruct (readlink_exe sys) as [exe|]; [|done]. destruct (_ >=? _); [done|].
      destruct (strrchr exe _) as [[dir ?]|]; [|done]. destruct (_ >=? _); [done|]. injection Er as <-. by exists dir.
  - destruct (execvp_errno _ _); [done|]. intros [= <- <- <-]. auto.
Qed.

(** C34. The launcher hands over exactly what it loaded. When it is replaced by
    a service program, that is because a file named by [--config] loaded, the
    program is the one of the listener's family, its argument parser succeeds
    on what it is given, and every setting it gets (names, addresses, ports,
    controller, firewall backend) is the one of the configuration; the checks
    the service makes later on the IPv6 prefix and on its firewall description
    pass as well. And [--check] answers 0 exactly for the files that load,
    without starting anything. *)
Theorem launch_settings_exact (argc : Z) (options : list main_option) (all_used : bool) :
  (forall path args backend,
     main sys pton ntop argc options all_used = Replaced path args backend ->
     exists file lines c a,
       In (OptConfig file) options /\ file_lines sys file = (Some lines, false) /\
       tcp_shift_service_config_load pton ntop (Some file) (Some lines) false zero_service_config = (0, c, None) /\
       (path = service_binary c \/ exists directory, path = directory ++ "/"%char :: service_binary c) /\
       service_parse (sc_ip_version c) args (Some backend) = Some a /\ settings c a /\
       (sc_ip_version c = 6 -> tcp_shift_validate_ipv6_cidr (Some (sa_host a)) = true) /\
       forall s : fwst W, fw_installed (fs_fw s) = 0 ->
         (tcp_shift_firewall_prepare
            (Some (ingress_spec (sc_ip_version c) (lit "tcp_shift_p2") a (sc_public_address c))) s).1 = 0) /\
  (forall file lines read_error, file <> [] -> argc <> 1 -> file_lines sys file = (Some lines, read_error) ->
     main sys pton ntop argc [OptConfig file; OptCheck] true =
     Exits (if (tcp_shift_service_config_load pton ntop (Some file) (Some lines) read_error
                  zero_service_config).1.1 =? 0 then 0 else 1)).
Proof.
  split.
  - intros path args backend. unfold main. destruct (argc =? 1); [done|].
    destruct (option_loop options None false) as [?|[[file|] check]] eqn:Eo; [done| |done].
    destruct (option_loop_path _ _ _ _ _ Eo) as [?|(f & [= <-] & Hin)]; [done|].
    destruct file as [|ch file]; [done|]. destruct all_used; [|done]. cbn [negb].
    destruct (file_lines sys (ch :: file)) as [stream err] eqn:Ef.
    destruct (tcp_shift_service_config_load _ _ _ _ _ _) as [[rc c] e] eqn:El.
    pose proof (service_config_load_ok _ _ _ _ _ _ _ El) as Hok.
    destruct (rc =? 0) eqn:Erc; [|done]. destruct check; [done|]. cbn [negb].
    destruct (exec_service sys c) as [l|] eqn:Ex; [|done]. intros ->.
    destruct Hok as (lines & -> & -> & -> & -> & Hwf); [lia|].
    destruct (exec_service_replaced _ _ _ _ Ex) as (-> & -> & Hpath).
    destruct (args_roundtrip c Hwf) as (a & Ha & Hset).
    exists (ch :: file), lines, c, a. repeat (split; [done|]). split.
    + intros Hv. destruct Hset as (_ & _ & _ & -> & _). rewrite Hv. change (6 =? 4) with false. by apply cidr_accepted.
    + intros s Hi. by apply ingress_accepted.
  - intros file lines err Hfile Hargc Ef. unfold main. destruct (argc =? 1) eqn:E1; [lia|]. cbn [option_loop].
    destruct file as [|ch file]; [done|]. cbn [negb]. rewrite Ef.
    destruct (tcp_shift_service_config_load _ _ _ _ _ _) as [[rc c] e]. cbn [fst snd]. by destruct (rc =? 0).
Qed.

End Spec.

(** ** An IPv4 launch *)

(** The simulated host with the address functions of the sample configuration. *)
Definition quad_host : HostSys sim := {|
  sys_inet_pton := quad_pton; sys_access := @sys_access sim _; sys_first_char := @sys_first_char sim _;
  sys_pipe := @sys_pipe sim _; sys_spawn := @sys_spawn sim _; sys_read := @sys_read sim _;
  sys_waitpid := @sys_waitpid sim _; sys_retries := @sys_retries sim _; sys_dlopen := @sys_dlopen sim _;
  sys_dlsym := @sys_dlsym sim _; sys_fputs := @sys_fputs sim _; nft_ctx_new := @nft_ctx_new sim _;
  nft_ctx_buffer_output := @nft_ctx_buffer_output sim _; nft_ctx_buffer_error := @nft_ctx_buffer_error sim _;
  nft_run_cmd := @nft_run_cmd sim _; nft_output_buffer := @nft_output_buffer sim _;
  nft_error_buffer := @nft_error_buffer sim _
|}.

(** The sibling program does not exist, the search path finds it. *)
Definition ex_launch : launch_sys := {|
  readlink_exe := Some (lit "/opt/bin/tcp-shift");
  setenv_ok := true;
  execv_errno _ := Some ENOENT;
  execvp_errno _ := None;
  file_lines f := if str_eqb f (lit "f") then (Some sample_file, false) else (None, false)
|}.

Lemma quad_fits p t : quad_ntop 6 p 64 = Some t -> strlen t < INET6_ADDRSTRLEN.
Proof. unfold quad_ntop. by repeat (case_match; try done). Qed.

Lemma quad_aton v p t : quad_ntop v p 64 = Some t -> @addr_aton sim sim_parts v t = true.
Proof.
  intros Hq. destruct (@ntop_chars quad_pton quad_ntop quad_inet _ _ _ _ Hq) as [_ Hc].
  assert (v = 4) as ->.
  { unfold quad_ntop in Hq. destruct (v =? 4) eqn:E; [lia|]. by repeat (case_match; try done). }
  cbn. unfold sim_pton. change (4 =? 4) with true. cbn iota.
  assert (Hf : forallb (fun c => isdigit c || (97 <=? code c) && (code c <=? 102) || Ascii.eqb c ".") t = true).
  { apply forallb_forall. intros c Hin. rewrite Forall_forall in Hc. specialize (Hc c ltac:(by apply list_elem_of_In)).
    unfold address_char in Hc. change (4 =? 4) with true in Hc. cbn iota in Hc.
    destruct (isdigit c); [done|]. cbn in *. rewrite Hc. apply orb_true_r. }
  by rewrite Hf.
Qed.

Lemma launch_settings_exact_witness :
  main ex_launch quad_pton quad_ntop 3 [OptConfig (lit "f")] true =
    Replaced (lit "tcp-shift-p2") (service_args_of sample_config) (lit "auto") /\
  (exists a, p2_args (service_args_of sample_config) (Some (lit "auto")) = Some a /\ sa_public_port a = 443) /\
  main ex_launch quad_pton quad_ntop 4 [OptConfig (lit "f"); OptCheck] true = Exits 0.
Proof.
  assert (E : main ex_launch quad_pton quad_ntop 3 [OptConfig (lit "f")] true =
    Replaced (lit "tcp-shift-p2") (service_args_of sample_config) (lit "auto")) by (vm_compute; reflexivity).
  destruct (@launch_settings_exact sim quad_host sim_parts quad_pton quad_ntop quad_inet ex_launch
    ltac:(done) quad_fits quad_aton 3 [OptConfig (lit "f")] true) as [Hr _].
  destruct (@launch_settings_exact sim quad_host sim_parts quad_pton quad_ntop quad_inet ex_launch
    ltac:(done) quad_fits quad_aton 4 [] true) as [_ Hc].
  split; [exact E|]. split.
  - destruct (Hr _ _ _ E) as (file & lines & c & a & [[= <-]|[]] & Hf & Hl & _ & Hp & Hs & _).
    change (file_lines ex_launch (lit "f")) with (Some sample_file, false) in Hf. injection Hf as <-.
    assert (c = sample_config) as -> by (pose proof (eq_trans (eq_sym Hl) sample_load) as Hx; congruence).
    exists a. split; [exact Hp|]. destruct Hs as (_ & _ & _ & _ & -> & _). reflexivity.
  - rewrite (Hc (lit "f") sample_file false ltac:(done) ltac:(lia) eq_refl). vm_compute. reflexivity.
Defined.
