(* ===== verification/AdapterWake.v ===== *)
(** * No lost wake-ups

    A flow whose send was deferred waits for its release, and one that waits
    for RACK or TLP for its recovery timer. [TimerService] is what the adapter
    needs of the two services it schedules with: an event that was accepted
    stays pending until it is cancelled or handed back. Against it: in every
    life of a flow, a flow that marks itself scheduled has a pending event. *)

From Stdlib Require Import ZArith Lia Bool List.
From stdpp Require Import base tactics numbers list relations.
From S2P Require Import Prelude StateMonad CC Observation Reno Cubic CubicController Registry Rack Prr TransportPacing FlowPacer.
From S2P Require Import AdapterData AdapterDelivery AdapterPacing AdapterRecovery AdapterRate.
From S2P Require Import AdapterPolicy Adapter Selector BbrInternal AdapterHooks AdapterFrame AdapterEvents AdapterWorld AdapterLife.
Local Open Scope Z_scope.

Inductive service : Type := SvPacing | SvRecovery.
#[export] Instance service_eq_dec : EqDecision service.
Proof. solve_decision. Defined.

Class TimerService (W : Type) `{!AdapterOS W} := {
  ops_of : service -> tcp_shift_lwip_cc_timer_ops;
  (** what the services keep between calls *)
  ts_ok : W -> Prop;
  (** an event of a flow and generation is queued *)
  pending : service -> W -> Z -> Z -> Prop;
  ts_clock w : ts_ok w -> ts_ok (monotonic_clock w).2 /\
    forall sv f g, pending sv w f g -> pending sv (monotonic_clock w).2 f g;
  ts_alloc w n : ts_ok w -> ts_ok (heap_alloc w n).2 /\
    forall sv f g, pending sv w f g -> pending sv (heap_alloc w n).2 f g;
  ts_schedule sv fn w arg f g d n :
    to_schedule (ops_of sv) = Some fn -> ts_ok w ->
    let p := timer_schedule w fn arg f g d n in
    ts_ok p.2 /\ (0 <= p.1 -> pending sv p.2 f g) /\
    forall sv' f' g', pending sv' w f' g' -> pending sv' p.2 f' g';
  ts_cancel sv fn w arg f g :
    to_cancel (ops_of sv) = Some fn -> ts_ok w ->
    let p := timer_cancel w fn arg f g in
    ts_ok p.2 /\
    forall sv' f' g', sv' <> sv \/ (f', g') <> (f, g) -> pending sv' w f' g' -> pending sv' p.2 f' g'
}.

Section Wake.
Context {W : Type} `{!AdapterOS W} `{!LwipParams} `{!TimerService W}.
Local Abbreviation F := (flow W).
Implicit Types (s : F).

Definition scheduled_of (sv : service) (a : tcp_shift_lwip_cc_adapter) : bool :=
  match sv with SvPacing => ad_pacing_scheduled a | SvRecovery => ad_recovery_timer_scheduled a end.

(** Both services are the configured ones, and what is marked is pending. *)
Record wired s : Prop := {
  wi_pacing : pv_ops (gl_pacing (fw_gl s)) = Some (ops_of SvPacing);
  wi_recovery : rv_ops (gl_recovery (fw_gl s)) = Some (ops_of SvRecovery);
  wi_ok : ts_ok (fw_world s)
}.
Definition marked (sv : service) s : Prop :=
  scheduled_of sv (fw_ad s) = true ->
  pending sv (fw_world s) (ad_pacing_flow_id (fw_ad s)) (ad_pacing_generation (fw_ad s)).
Definition woken s : Prop := wired s /\ forall sv, marked sv s.

Definition woken_kept s s' : Prop := woken s -> woken s'.
#[local] Instance woken_kept_preorder : PreOrder woken_kept.
Proof. split; [by intros s Hs|]. intros s1 s2 s3 H1 H2 Hs. by apply H2, H1. Qed.

(** ** The writes *)

(** A change of the adapter that marks nothing and keeps the registration. *)
Definition unmarking (f : tcp_shift_lwip_cc_adapter -> tcp_shift_lwip_cc_adapter) : Prop :=
  forall a, ad_pacing_flow_id (f a) = ad_pacing_flow_id a /\
    ad_pacing_generation (f a) = ad_pacing_generation a /\
    forall sv, scheduled_of sv (f a) = true -> scheduled_of sv a = true.

Lemma wake_ad f : unmarking f -> steps woken_kept (upd_ad (W := W) f).
Proof.
  intros Hf s [[H1 H2 H3] Hm]. split; [by split|]. intros sv Hsv. unfold marked in Hm. cbn in *.
  destruct (Hf (fw_ad s)) as (-> & -> & Hs). auto.
Qed.
Lemma wake_pcb f : steps woken_kept (upd_pcb (W := W) f).
Proof. by intros s [[H1 H2 H3] Hm]. Qed.
Lemma wake_note f : steps woken_kept (note (W := W) f).
Proof.
  intros s Hs. unfold note, when, bind, get_ad, gets. destruct (ad_stats (fw_ad s)); [|done].
  destruct Hs as [[H1 H2 H3] Hm]. split; [by split|]. exact Hm.
Qed.
Lemma wake_clock : steps woken_kept (call_os (W := W) monotonic_clock).
Proof.
  intros s [[H1 H2 H3] Hm]. unfold call_os. destruct (ts_clock _ H3) as [Ho Hp].
  destruct (monotonic_clock (fw_world s)) as [x w]. split; [by split|]. intros sv Hsv. by apply Hp, Hm.
Qed.
Lemma wake_alloc n : steps woken_kept (call_os (fun w : W => heap_alloc w n)).
Proof.
  intros s [[H1 H2 H3] Hm]. unfold call_os. destruct (ts_alloc _ n H3) as [Ho Hp].
  destruct (heap_alloc (fw_world s) n) as [x w]. split; [by split|]. intros sv Hsv. by apply Hp, Hm.
Qed.

Hint Extern 2 (steps woken_kept (upd_ad _)) =>
  (apply wake_ad; intros ?; repeat case_match; (split; [reflexivity|split; [reflexivity|intros []; cbn; done]])) : steps.
Hint Resolve wake_pcb wake_note wake_clock wake_alloc : steps.
Hint Extern 1 (steps woken_kept (note_policy _)) => (apply wake_note) : steps.
Hint Extern 1 (steps woken_kept (note_delivery _)) => (apply wake_note) : steps.
Hint Extern 1 (steps woken_kept (note_rate _)) => (apply wake_note) : steps.
Hint Extern 1 (steps woken_kept (note_pacing _)) => (apply wake_note) : steps.
Hint Extern 1 (steps woken_kept (note_recovery _)) => (apply wake_note) : steps.
Hint Extern 1 (steps woken_kept (note_bbr _)) => (apply wake_note) : steps.
Hint Extern 1 (steps woken_kept (note_bbr_timeout _)) => (apply wake_note) : steps.
Hint Extern 1 (steps woken_kept get_ad) => (apply steps_gets; tc_solve) : steps.
Hint Extern 1 (steps woken_kept get_pcb) => (apply steps_gets; tc_solve) : steps.
Hint Extern 1 (steps woken_kept get_gl) => (apply steps_gets; tc_solve) : steps.
Hint Extern 1 (steps woken_kept live) => (intros ?; reflexivity) : steps.
Hint Extern 1 (steps woken_kept tcp_shift_lwip_cc_hook_get) => (intros ?; reflexivity) : steps.
Hint Extern 1 (steps woken_kept flow_transport) => (intros ?; reflexivity) : steps.

(** ** The services' calls *)

(** After a cancellation only the service in question may be marked in vain. *)
Definition half (sv : service) s : Prop := wired s /\ forall sv', sv' <> sv -> marked sv' s.

Lemma cancel_half sv fn arg s :
  half sv s -> to_cancel (ops_of sv) = Some fn ->
  let p := call_os (fun w => timer_cancel w fn arg (ad_pacing_flow_id (fw_ad s))
                               (ad_pacing_generation (fw_ad s))) s in
  half sv p.2 /\ fw_ad p.2 = fw_ad s /\ fw_gl p.2 = fw_gl s.
Proof.
  intros [[H1 H2 H3] Hm] Hfn. cbn zeta. unfold call_os.
  destruct (ts_cancel sv fn (fw_world s) arg (ad_pacing_flow_id (fw_ad s)) (ad_pacing_generation (fw_ad s)) Hfn H3)
    as [Ho Hp].
  destruct (timer_cancel _ _ _ _ _) as [rc w]. cbn [fst snd] in *. split; [|done]. split; [by split|].
  intros sv' Hne Hsv. cbn. apply Hp; [by left|]. by apply Hm.
Qed.

Lemma woken_half sv s : woken s -> half sv s.
Proof. intros [Hw Hm]. split; [done|]. auto. Qed.

(** Unmarking the service in question is enough then. *)
Lemma wake_unmark sv f s :
  half sv s -> unmarking f -> (forall a, scheduled_of sv (f a) = false) -> woken (set_ad f s).
Proof.
  intros [[H1 H2 H3] Hm] Hf Hsv. split; [by split|]. intros sv' Hsc. cbn in *.
  destruct (Hf (fw_ad s)) as (-> & -> & Hs). destruct (decide (sv' = sv)) as [->|Hne]; [congruence|].
  by apply Hm, Hs.
Qed.

(** An accepted event may be marked. *)
Lemma wake_scheduled sv fn arg d n s :
  woken s -> to_schedule (ops_of sv) = Some fn ->
  let p := call_os (fun w => timer_schedule w fn arg (ad_pacing_flow_id (fw_ad s))
                               (ad_pacing_generation (fw_ad s)) d n) s in
  woken p.2 /\ fw_ad p.2 = fw_ad s /\ fw_gl p.2 = fw_gl s /\
  (0 <= p.1 -> pending sv (fw_world p.2) (ad_pacing_flow_id (fw_ad s)) (ad_pacing_generation (fw_ad s))).
Proof.
  intros [[H1 H2 H3] Hm] Hfn. cbn zeta. unfold call_os.
  destruct (ts_schedule sv fn (fw_world s) arg (ad_pacing_flow_id (fw_ad s)) (ad_pacing_generation (fw_ad s)) d n Hfn H3)
    as (Ho & Hnew & Hp).
  destruct (timer_schedule _ _ _ _ _ _ _) as [rc w]. cbn [fst snd] in *.
  split; [split; [by split|]|done]. intros sv' Hsv. cbn. by apply Hp, Hm.
Qed.

Lemma wake_mark sv f s :
  woken s -> pending sv (fw_world s) (ad_pacing_flow_id (fw_ad s)) (ad_pacing_generation (fw_ad s)) ->
  (forall a, ad_pacing_flow_id (f a) = ad_pacing_flow_id a /\ ad_pacing_generation (f a) = ad_pacing_generation a /\
     forall sv', sv' <> sv -> scheduled_of sv' (f a) = scheduled_of sv' a) ->
  woken (set_ad f s).
Proof.
  intros [[H1 H2 H3] Hm] Hnew Hf. split; [by split|]. intros sv' Hsc. cbn in *.
  destruct (Hf (fw_ad s)) as (-> & -> & Hs). destruct (decide (sv' = sv)) as [->|Hne]; [done|].
  apply Hm. by rewrite <- Hs.
Qed.

Lemma wake_scheduler_error : steps woken_kept (pacing_scheduler_error (W := W)).
Proof. unfold pacing_scheduler_error. steps_walk. Qed.
Lemma wake_pacing_off : steps woken_kept (pacing_off (W := W)).
Proof. unfold pacing_off. steps_walk. Qed.
Lemma wake_now : steps woken_kept (tcp_shift_delivery_now_ns (W := W)).
Proof. unfold tcp_shift_delivery_now_ns. steps_walk. Qed.
Hint Resolve wake_scheduler_error wake_pacing_off wake_now : steps.

(** What a note leaves for the rest of a cancellation. *)
Lemma note_half f sv s : half sv s -> half sv (note (W := W) f s).2.
Proof.
  intros [[H1 H2 H3] Hm]. unfold note, when, bind, get_ad, gets. destruct (ad_stats (fw_ad s)); [|by split].
  split; [by split|]. exact Hm.
Qed.

Ltac unmark_tac := intros ?; repeat case_match; (split; [reflexivity|split; [reflexivity|intros []; cbn; done]]).

Lemma wake_pacing_cancel : steps woken_kept (tcp_shift_pacing_cancel (W := W)).
Proof.
  intros s Hs. unfold tcp_shift_pacing_cancel. rewrite bind_run. cbn [get_ad gets fst snd].
  destruct (ad_pacing_scheduled (fw_ad s)) eqn:Esc; [|done]. cbn [negb]. rewrite bind_run. cbn [get_gl gets fst snd].
  assert (Hend : forall (failed : bool) s', half SvPacing s' ->
    woken ((when failed pacing_scheduler_error ;; upd_ad (fun a => a <| ad_pacing_scheduled := false |>)) s').2).
  { intros failed s' Hh. rewrite bind_run. cbn [upd_ad modify snd].
    apply (wake_unmark SvPacing); [|unmark_tac|done]. destruct failed; [by apply note_half|done]. }
  rewrite bind_run, (wi_pacing s (proj1 Hs)). cbn [service_fn]. apply Hend.
  destruct (to_cancel (ops_of SvPacing)) as [fn|] eqn:Efn; [|by apply woken_half].
  destruct (ad_pacing_flow_id (fw_ad s) =? 0); [by apply woken_half|].
  rewrite bind_run. cbn [ret fst snd]. by apply cancel_half, Efn; apply woken_half.
Qed.

Lemma timer_cancel_half s : half SvRecovery s -> woken (tcp_shift_recovery_timer_cancel (W := W) s).2.
Proof.
  intros Hs. unfold tcp_shift_recovery_timer_cancel. rewrite bind_run. cbn [get_ad gets fst snd].
  destruct (ad_recovery_timer_scheduled (fw_ad s)) eqn:Esc; cbn [negb]; cycle 1.
  { destruct Hs as [Hw Hm]. split; [done|]. intros sv Hsv. destruct sv; [by apply Hm|]. cbn in Hsv. congruence. }
  rewrite bind_run. cbn [get_gl gets fst snd].
  rewrite bind_run, (wi_recovery s (proj1 Hs)). cbn [service_fn upd_ad modify snd].
  apply (wake_unmark SvRecovery); [|unmark_tac|done].
  destruct (to_cancel (ops_of SvRecovery)) as [fn|] eqn:Efn; [|done].
  destruct (ad_pacing_flow_id (fw_ad s) =? 0); [done|]. cbn [negb when].
  rewrite bind_run. cbn [ret fst snd]. by apply cancel_half.
Qed.
Lemma wake_timer_cancel : steps woken_kept (tcp_shift_recovery_timer_cancel (W := W)).
Proof. intros s Hs. by apply timer_cancel_half, woken_half. Qed.

Lemma wake_disarm : steps woken_kept (recovery_timer_disarm (W := W)).
Proof.
  intros s Hs. unfold recovery_timer_disarm. rewrite !bind_run. cbn [get_ad get_gl gets fst snd].
  rewrite (wi_recovery s (proj1 Hs)). cbn [service_fn].
  destruct (to_cancel (ops_of SvRecovery)) as [fn|] eqn:Efn.
  2:{ cbn [ret fst snd]. rewrite bind_run. by apply wake_timer_cancel. }
  rewrite bind_run.
  destruct (cancel_half SvRecovery fn (rv_arg (gl_recovery (fw_gl s))) s (woken_half _ _ Hs) Efn) as (Hh & Ea & Eg).
  destruct (call_os _ s) as [rc s1]. cbn [ret fst snd] in *. destruct (rc <? 0); rewrite bind_run; cbn [ret snd].
  - by apply timer_cancel_half.
  - cbn [upd_ad modify]. apply (wake_unmark SvRecovery); [done|unmark_tac|done].
Qed.

Lemma wake_arm d k : steps woken_kept (recovery_timer_arm (W := W) d k).
Proof.
  intros s Hs. unfold recovery_timer_arm. rewrite !bind_run. cbn [get_ad get_gl gets fst snd].
  rewrite (wi_recovery s (proj1 Hs)). cbn [service_fn].
  destruct (to_schedule (ops_of SvRecovery)) as [fn|] eqn:Efn; [|done].
  destruct (ad_pacing_flow_id (fw_ad s) =? 0); [done|]. rewrite bind_run.
  destruct (wake_scheduled SvRecovery fn (rv_arg (gl_recovery (fw_gl s))) d k s Hs Efn) as (Hw & Ea & _ & Hnew).
  destruct (call_os _ s) as [rc s1]. cbn [fst snd] in *. destruct (rc <? 0) eqn:Erc; [done|].
  cbn [upd_ad modify snd]. apply (wake_mark SvRecovery); [done|rewrite Ea; apply Hnew; lia|].
  intros a. split; [done|]. split; [done|]. by intros [].
Qed.

Lemma wake_defer d n : steps woken_kept (pacing_defer (W := W) d n).
Proof.
  intros s Hs. unfold pacing_defer. rewrite !bind_run. cbn [get_ad get_gl gets fst snd].
  rewrite (wi_pacing s (proj1 Hs)). cbn [service_fn].
  assert (Hoff : steps woken_kept (pacing_scheduler_error (W := W) ;; pacing_off ;; ret 1)) by steps_walk.
  destruct (to_schedule (ops_of SvPacing)) as [fn|] eqn:Efn; [|by apply Hoff].
  destruct (ad_pacing_flow_id (fw_ad s) =? 0); [by apply Hoff|]. rewrite bind_run.
  match goal with |- woken ((if (?m s).1 then _ else _) _).2 => assert (Hm : woken (m s).2) end.
  { destruct (ad_pacing_scheduled (fw_ad s)); [done|]. rewrite bind_run.
    destruct (wake_scheduled SvPacing fn (pv_arg (gl_pacing (fw_gl s))) d n s Hs Efn) as (Hw & Ea & _ & Hnew).
    destruct (call_os _ s) as [rc s1]. cbn [fst snd] in *. destruct (rc <? 0) eqn:Erc; [done|].
    rewrite bind_run. cbn [ret upd_ad modify snd]. apply (wake_mark SvPacing); [done|rewrite Ea; apply Hnew; lia|].
    intros a. split; [done|]. split; [done|]. by intros []. }
  match goal with |- woken ((if (?m s).1 then _ else _) _).2 => destruct (m s) as [[] s1]; cbn [fst snd] in * end.
  - by apply Hoff.
  - rewrite bind_run. by apply wake_note.
Qed.
Hint Resolve wake_pacing_cancel wake_timer_cancel wake_disarm wake_arm wake_defer : steps.

(** ** The adapter's functions *)

Lemma wake_note_tx n now : steps woken_kept (tcp_shift_pacing_note_tx (W := W) n now).
Proof. unfold tcp_shift_pacing_note_tx. steps_walk. Qed.
Hint Resolve wake_note_tx : steps.
Lemma wake_send_eligible n : steps woken_kept (tcp_shift_lwip_cc_on_segment_send_eligible (W := W) n).
Proof. unfold tcp_shift_lwip_cc_on_segment_send_eligible. steps_walk. Qed.
Hint Resolve wake_send_eligible : steps.
Lemma wake_effective_cwnd : steps woken_kept (tcp_shift_lwip_cc_effective_cwnd (W := W)).
Proof. unfold tcp_shift_lwip_cc_effective_cwnd. steps_walk. Qed.
Hint Resolve wake_effective_cwnd : steps.
Lemma wake_prr_inflight : steps woken_kept (tcp_shift_lwip_cc_prr_inflight (W := W)).
Proof. unfold tcp_shift_lwip_cc_prr_inflight. steps_walk. Qed.
Hint Resolve wake_prr_inflight : steps.
Lemma wake_prr_reset : steps woken_kept (tcp_shift_lwip_cc_prr_reset_live (W := W)).
Proof. unfold tcp_shift_lwip_cc_prr_reset_live. steps_walk. Qed.
Hint Resolve wake_prr_reset : steps.
Lemma wake_prr_note_delivery : steps woken_kept (tcp_shift_lwip_cc_prr_note_delivery (W := W)).
Proof. unfold tcp_shift_lwip_cc_prr_note_delivery. steps_walk. Qed.
Hint Resolve wake_prr_note_delivery : steps.
Lemma wake_prr_publish r n b : steps woken_kept (prr_publish (W := W) r n b).
Proof. unfold prr_publish. steps_walk. Qed.
Hint Resolve wake_prr_publish : steps.
Lemma wake_prr_apply_ack n safe : steps woken_kept (tcp_shift_lwip_cc_prr_apply_ack (W := W) n safe).
Proof. unfold tcp_shift_lwip_cc_prr_apply_ack. steps_walk. Qed.
Hint Resolve wake_prr_apply_ack : steps.
Lemma wake_prr_begin : steps woken_kept (tcp_shift_lwip_cc_prr_begin (W := W)).
Proof. unfold tcp_shift_lwip_cc_prr_begin. steps_walk. Qed.
Hint Resolve wake_prr_begin : steps.
Lemma wake_prr_ack_begin : steps woken_kept (tcp_shift_lwip_cc_prr_ack_begin (W := W)).
Proof. unfold tcp_shift_lwip_cc_prr_ack_begin. steps_walk. Qed.
Hint Resolve wake_prr_ack_begin : steps.
Lemma wake_prr_active : steps woken_kept (tcp_shift_lwip_cc_prr_active (W := W)).
Proof. unfold tcp_shift_lwip_cc_prr_active. steps_walk. Qed.
Hint Resolve wake_prr_active : steps.
Lemma wake_record_stats : steps woken_kept (tcp_shift_rack_record_stats (W := W)).
Proof. unfold tcp_shift_rack_record_stats. steps_walk. Qed.
Hint Resolve wake_record_stats : steps.
Lemma wake_deadline now : steps woken_kept (tcp_shift_rack_detection_deadline (W := W) now).
Proof. unfold tcp_shift_rack_detection_deadline. steps_walk. Qed.
Hint Resolve wake_deadline : steps.
Lemma wake_arm_detection now : steps woken_kept (tcp_shift_rack_arm_detection_timer (W := W) now).
Proof. unfold tcp_shift_rack_arm_detection_timer. steps_walk. Qed.
Hint Resolve wake_arm_detection : steps.
Lemma wake_pto_disarm : steps woken_kept (pto_disarm (W := W)).
Proof. unfold pto_disarm. steps_walk. Qed.
Hint Resolve wake_pto_disarm : steps.
Lemma wake_arm_pto now : steps woken_kept (tcp_shift_tlp_arm_pto (W := W) now).
Proof. unfold tcp_shift_tlp_arm_pto. steps_walk. Qed.
Hint Resolve wake_arm_pto : steps.
Lemma wake_rack_loss_status seg : steps woken_kept (tcp_shift_lwip_cc_rack_loss_status (W := W) seg).
Proof. unfold tcp_shift_lwip_cc_rack_loss_status. steps_walk. Qed.
Hint Resolve wake_rack_loss_status : steps.
Lemma wake_set_cubic_pacing inner active : steps woken_kept (tcp_shift_cc_selector_set_cubic_pacing (W := W) inner active).
Proof. unfold tcp_shift_cc_selector_set_cubic_pacing. steps_walk. Qed.
Hint Resolve wake_set_cubic_pacing : steps.
Lemma wake_apply_transport_pacing inner t p : steps woken_kept (tcp_shift_cc_selector_apply_transport_pacing (W := W) inner t p).
Proof. unfold tcp_shift_cc_selector_apply_transport_pacing. steps_walk. Qed.
Hint Resolve wake_apply_transport_pacing : steps.
Lemma wake_upd_binding f : steps woken_kept (upd_binding (W := W) f).
Proof. unfold upd_binding. steps_walk. Qed.
Hint Resolve wake_upd_binding : steps.
Lemma wake_set_bbr_controller c : steps woken_kept (set_bbr_controller (W := W) c).
Proof. unfold set_bbr_controller. steps_walk. Qed.
Hint Resolve wake_set_bbr_controller : steps.
Lemma wake_bbr_now : steps woken_kept (tcp_shift_lwip_bbr_now_ns (W := W)).
Proof. unfold tcp_shift_lwip_bbr_now_ns. steps_walk. Qed.
Hint Resolve wake_bbr_now : steps.
Lemma wake_bbr_note_cwnd b : steps woken_kept (tcp_shift_lwip_bbr_note_recovery_cwnd (W := W) b).
Proof. unfold tcp_shift_lwip_bbr_note_recovery_cwnd, binding_note. steps_walk. Qed.
Hint Resolve wake_bbr_note_cwnd : steps.
Lemma wake_bbr_record b : steps woken_kept (tcp_shift_lwip_bbr_record_stats (W := W) b).
Proof. unfold tcp_shift_lwip_bbr_record_stats, binding_note. steps_walk. Qed.
Hint Resolve wake_bbr_record : steps.
Lemma wake_bbr_init t i p : steps woken_kept (tcp_shift_lwip_bbr_init (W := W) t i p).
Proof. unfold tcp_shift_lwip_bbr_init. steps_walk. Qed.
Hint Resolve wake_bbr_init : steps.
Lemma wake_bbr_on_ack t a p : steps woken_kept (tcp_shift_lwip_bbr_on_ack (W := W) t a p).
Proof. unfold tcp_shift_lwip_bbr_on_ack, binding_note. steps_walk. Qed.
Hint Resolve wake_bbr_on_ack : steps.
Lemma wake_bbr_on_loss t l p : steps woken_kept (tcp_shift_lwip_bbr_on_loss (W := W) t l p).
Proof. unfold tcp_shift_lwip_bbr_on_loss, binding_note. steps_walk. Qed.
Hint Resolve wake_bbr_on_loss : steps.
Lemma wake_bbr_note_timeout b t : steps woken_kept (bbr_note_timeout (W := W) b t).
Proof. unfold bbr_note_timeout, binding_note. steps_walk. Qed.
Hint Resolve wake_bbr_note_timeout : steps.
Lemma wake_bbr_on_timeout t p : steps woken_kept (tcp_shift_lwip_bbr_on_timeout (W := W) t p).
Proof. unfold tcp_shift_lwip_bbr_on_timeout. steps_walk. Qed.
Hint Resolve wake_bbr_on_timeout : steps.

(** ** The controllers *)

Lemma as_callback_woken (m : M F (Z * tcp_shift_cc_policy)) s :
  steps woken_kept m -> woken s -> woken (as_callback m s).1.2.
Proof. intros Hm Hs. unfold as_callback. specialize (Hm s Hs). by destruct (m s) as [[??]?]. Qed.

Lemma wake_on_builtin {S} view store (f : S -> Z * S * tcp_shift_cc_policy) :
  steps woken_kept (on_builtin (W := W) view store f).
Proof. unfold on_builtin. steps_walk. Qed.

Record wakes_vtable (o : tcp_shift_cc_ops F) : Prop := {
  wakes_on_ack : forall f, ops_on_ack o = Some f -> forall s t a p, woken s -> woken (f s t a p).1.2;
  wakes_on_loss : forall f, ops_on_loss o = Some f -> forall s t l p, woken s -> woken (f s t l p).1.2;
  wakes_on_ecn : forall f, ops_on_ecn o = Some f -> forall s t p, woken s -> woken (f s t p).1.2;
  wakes_on_timeout : forall f, ops_on_timeout o = Some f -> forall s t p, woken s -> woken (f s t p).1.2
}.

Lemma builtin_wakes {S} view store (ops : tcp_shift_cc_ops S) :
  wakes_vtable (builtin_vtable (W := W) view store ops).
Proof.
  split; cbn; intros f Hf; intros; apply fmap_Some in Hf as (g & _ & ->);
    (apply as_callback_woken; [apply wake_on_builtin|done]).
Qed.

Lemma paced_wakes inner raw t p :
  (forall f, raw = Some f -> forall p s, woken s -> woken (f p s).1.2) ->
  steps woken_kept (paced_callback (W := W) inner raw t p).
Proof.
  intros Hraw s Hs. unfold paced_callback. destruct raw as [f|]; [|done].
  specialize (Hraw f eq_refl p s Hs). destruct (f p s) as [[rc s'] p'] eqn:E. cbn in Hraw.
  case_match; [done|]. by apply wake_apply_transport_pacing.
Qed.

Ltac paced_tac Hq :=
  intros f [= <-]; intros; apply as_callback_woken; [|done]; apply paced_wakes; intros g Hg; intros;
  apply fmap_Some in Hg as (h & Hh & ->); by eapply Hq.

Lemma paced_reno_wakes : wakes_vtable (tcp_shift_cc_selector_paced_reno_ops (W := W)).
Proof.
  pose proof (builtin_wakes as_reno builtin_reno tcp_shift_reno_ops) as Hq.
  split; [paced_tac (wakes_on_ack _ Hq)|paced_tac (wakes_on_loss _ Hq)
         |paced_tac (wakes_on_ecn _ Hq)|paced_tac (wakes_on_timeout _ Hq)].
Qed.

Lemma paced_cubic_wakes : wakes_vtable (tcp_shift_cc_selector_paced_cubic_ops (W := W)).
Proof.
  pose proof (builtin_wakes as_cubic builtin_cubic tcp_shift_cubic_ops) as Hq.
  split; [paced_tac (wakes_on_ack _ Hq)|paced_tac (wakes_on_loss _ Hq)
         |paced_tac (wakes_on_ecn _ Hq)|paced_tac (wakes_on_timeout _ Hq)].
Qed.

Lemma bbr_wakes : wakes_vtable (tcp_shift_lwip_internal_bbr_ops (W := W)).
Proof.
  split; cbn; intros f Hf; simplify_eq; intros; (apply as_callback_woken; [|done]);
    auto using wake_bbr_on_ack, wake_bbr_on_loss, wake_bbr_on_timeout.
Qed.

Lemma cc_vtable_wakes ops : wakes_vtable (cc_vtable (W := W) ops).
Proof.
  destruct ops; [apply builtin_wakes|apply builtin_wakes|apply paced_reno_wakes
                |apply paced_cubic_wakes|apply bbr_wakes].
Qed.

Lemma cc_call_woken s p callback :
  (forall o f, callback (cc_vtable o) = Some f -> forall s p, woken s -> woken (f s p).1.2) -> woken s ->
  woken (handle_result s (cc_call (cc_handle s) p callback)).2.
Proof.
  intros Hcb Hs. unfold cc_call, cc_handle. cbn.
  destruct (ad_ops (fw_ad s)) as [o|]; cbn; [|by destruct (ad_state (fw_ad s))].
  destruct (ad_state (fw_ad s)) as [st|]; cbn; [|done].
  destruct (callback (cc_vtable o)) as [f|] eqn:Ef; [|done].
  specialize (Hcb o f Ef s p Hs). by destruct (f s p) as [[rc s'] p'].
Qed.

Lemma handle_woken s rc p : woken s -> woken (handle_result s (rc, Some (cc_handle s), p)).2.
Proof. intros Hs. cbn. unfold cc_handle. cbn. by destruct (ad_state (fw_ad s)). Qed.

Ltac dispatch_tac :=
  case_match; [by apply handle_woken|]; apply cc_call_woken; [|done]; intros o f Hf; intros;
  apply fmap_Some in Hf as (g & Hg & ->).

Lemma wake_controller_on_ack t a : steps woken_kept (controller_on_ack (W := W) t a).
Proof.
  intros s Hs. unfold controller_on_ack, tcp_shift_cc_on_ack. dispatch_tac.
  by eapply wakes_on_ack; [apply cc_vtable_wakes|..].
Qed.
Lemma wake_controller_on_loss t l : steps woken_kept (controller_on_loss (W := W) t l).
Proof.
  intros s Hs. unfold controller_on_loss, tcp_shift_cc_on_loss. dispatch_tac.
  by eapply wakes_on_loss; [apply cc_vtable_wakes|..].
Qed.
Lemma wake_controller_on_ecn t : steps woken_kept (controller_on_ecn (W := W) t).
Proof.
  intros s Hs. unfold controller_on_ecn, tcp_shift_cc_on_ecn. dispatch_tac.
  by eapply wakes_on_ecn; [apply cc_vtable_wakes|..].
Qed.
Lemma wake_controller_on_timeout t : steps woken_kept (controller_on_timeout (W := W) t).
Proof.
  intros s Hs. unfold controller_on_timeout, tcp_shift_cc_on_timeout. dispatch_tac.
  by eapply wakes_on_timeout; [apply cc_vtable_wakes|..].
Qed.
Hint Resolve wake_controller_on_ack wake_controller_on_loss wake_controller_on_ecn
  wake_controller_on_timeout : steps.

Lemma wake_publish p : steps woken_kept (publish_policy (W := W) p).
Proof. unfold publish_policy. steps_walk. Qed.
Hint Resolve wake_publish : steps.
Lemma wake_apply_policy p : steps woken_kept (tcp_shift_lwip_cc_apply_policy (W := W) p).
Proof. unfold tcp_shift_lwip_cc_apply_policy. steps_walk. Qed.
Hint Resolve wake_apply_policy : steps.
Lemma wake_bbr_apply_policy p : steps woken_kept (tcp_shift_lwip_bbr_apply_policy (W := W) p).
Proof. unfold tcp_shift_lwip_bbr_apply_policy. steps_walk. Qed.
Hint Resolve wake_bbr_apply_policy : steps.
Lemma wake_disable : steps woken_kept (tcp_shift_lwip_cc_disable_on_error (W := W)).
Proof. unfold tcp_shift_lwip_cc_disable_on_error. steps_walk. Qed.
Hint Resolve wake_disable : steps.
Lemma wake_apply_or_disable (m : M F (Z * tcp_shift_cc_policy)) :
  steps woken_kept m -> steps woken_kept (apply_or_disable m).
Proof. intros Hm. unfold apply_or_disable. steps_walk. Qed.
Hint Resolve wake_apply_or_disable : steps.
Lemma wake_count_loss : steps woken_kept (count_loss (W := W)).
Proof. unfold count_loss. steps_walk. Qed.
Hint Resolve wake_count_loss : steps.
Lemma wake_on_tlp_loss n : steps woken_kept (tcp_shift_lwip_cc_on_tlp_loss (W := W) n).
Proof. unfold tcp_shift_lwip_cc_on_tlp_loss. steps_walk. Qed.
Hint Resolve wake_on_tlp_loss : steps.
Lemma wake_binding_from : steps woken_kept (tcp_shift_lwip_bbr_binding_from_adapter (W := W)).
Proof. unfold tcp_shift_lwip_bbr_binding_from_adapter. steps_walk. Qed.
Hint Resolve wake_binding_from : steps.
Lemma wake_upd_rack f : steps woken_kept (upd_rack (W := W) f).
Proof. unfold upd_rack. steps_walk. Qed.
Hint Resolve wake_upd_rack : steps.
Lemma wake_refresh_sacked : steps woken_kept (refresh_sacked (W := W)).
Proof. unfold refresh_sacked. steps_walk. Qed.
Hint Resolve wake_refresh_sacked : steps.
Lemma wake_refresh_rtt : steps woken_kept (refresh_rtt_estimates (W := W)).
Proof. unfold refresh_rtt_estimates. steps_walk. Qed.
Hint Resolve wake_refresh_rtt : steps.
Lemma wake_update_srtt r : steps woken_kept (update_srtt (W := W) r).
Proof. unfold update_srtt. steps_walk. Qed.
Hint Resolve wake_update_srtt : steps.
Lemma wake_bbr_tlp_loss n : steps woken_kept (tcp_shift_lwip_bbr_hook_tlp_loss (W := W) n).
Proof. unfold tcp_shift_lwip_bbr_hook_tlp_loss. steps_walk. Qed.
Lemma wake_selector_tlp_loss n : steps woken_kept (tcp_shift_cc_selector_pacing_on_tlp_loss (W := W) n).
Proof. unfold tcp_shift_cc_selector_pacing_on_tlp_loss. steps_walk. Qed.
Hint Resolve wake_bbr_tlp_loss wake_selector_tlp_loss : steps.
Lemma wake_hook_tlp_loss n : steps woken_kept (tcp_shift_lwip_cc_hook_tlp_loss (W := W) n).
Proof. unfold tcp_shift_lwip_cc_hook_tlp_loss. steps_walk. Qed.
Hint Resolve wake_hook_tlp_loss : steps.
Lemma wake_tlp_on_ack : steps woken_kept (tlp_on_ack (W := W)).
Proof. unfold tlp_on_ack. steps_walk. Qed.
Hint Resolve wake_tlp_on_ack : steps.
Lemma wake_controller_ack a : steps woken_kept (controller_ack (W := W) a).
Proof. unfold controller_ack. steps_walk. Qed.
Hint Resolve wake_controller_ack : steps.
Lemma wake_note_dsack q l : steps woken_kept (note_dsack (W := W) q l).
Proof. unfold note_dsack. steps_walk. Qed.
Hint Resolve wake_note_dsack : steps.
Lemma wake_tlp_dupack b : steps woken_kept (tcp_shift_lwip_cc_on_tlp_dupack (W := W) b).
Proof. unfold tcp_shift_lwip_cc_on_tlp_dupack. steps_walk. Qed.
Hint Resolve wake_tlp_dupack : steps.
Lemma wake_prr_enter : steps woken_kept (prr_enter (W := W)).
Proof. unfold prr_enter. steps_walk. Qed.
Hint Resolve wake_prr_enter : steps.
Lemma wake_controller_loss n (m : M F unit) : steps woken_kept m -> steps woken_kept (controller_loss n m).
Proof. intros Hm. unfold controller_loss. steps_walk. Qed.
Hint Resolve wake_controller_loss : steps.
Lemma wake_rack_retrans_loss n : steps woken_kept (tcp_shift_lwip_cc_on_rack_retrans_loss (W := W) n).
Proof. unfold tcp_shift_lwip_cc_on_rack_retrans_loss. steps_walk; apply wake_controller_loss; steps_walk. Qed.
Hint Resolve wake_rack_retrans_loss : steps.
Lemma wake_on_loss n : steps woken_kept (tcp_shift_lwip_cc_on_loss (W := W) n).
Proof. unfold tcp_shift_lwip_cc_on_loss. steps_walk. Qed.
Hint Resolve wake_on_loss : steps.
Lemma wake_on_ecn : steps woken_kept (tcp_shift_lwip_cc_on_ecn (W := W)).
Proof. unfold tcp_shift_lwip_cc_on_ecn. steps_walk. Qed.
Hint Resolve wake_on_ecn : steps.
Lemma wake_ecn_gate b : steps woken_kept (tcp_shift_lwip_cc_on_ecn_rto_gate (W := W) b).
Proof. unfold tcp_shift_lwip_cc_on_ecn_rto_gate. steps_walk. Qed.
Hint Resolve wake_ecn_gate : steps.
Lemma wake_prr_finish c : steps woken_kept (prr_finish (W := W) c).
Proof. unfold prr_finish. steps_walk. Qed.
Hint Resolve wake_prr_finish : steps.
Lemma wake_recovery_exit q : steps woken_kept (tcp_shift_lwip_cc_on_recovery_exit (W := W) q).
Proof. unfold tcp_shift_lwip_cc_on_recovery_exit. steps_walk. Qed.
Hint Resolve wake_recovery_exit : steps.
Lemma wake_on_timeout : steps woken_kept (tcp_shift_lwip_cc_on_timeout (W := W)).
Proof. unfold tcp_shift_lwip_cc_on_timeout. steps_walk. Qed.
Hint Resolve wake_on_timeout : steps.

(** ** The ledger *)

Lemma wake_upd_slot i f : steps woken_kept (upd_slot (W := W) i f).
Proof. unfold upd_slot. steps_walk. Qed.
Hint Resolve wake_upd_slot : steps.
Lemma wake_grow : steps woken_kept (tcp_shift_delivery_grow (W := W)).
Proof. unfold tcp_shift_delivery_grow. steps_walk. Qed.
Hint Resolve wake_grow : steps.
Lemma wake_room : steps woken_kept (delivery_room (W := W)).
Proof. unfold delivery_room. steps_walk. Qed.
Hint Resolve wake_room : steps.
Lemma wake_create seg : steps woken_kept (tcp_shift_delivery_create (W := W) seg).
Proof. unfold tcp_shift_delivery_create. steps_walk. Qed.
Hint Resolve wake_create : steps.
Lemma wake_release i : steps woken_kept (tcp_shift_delivery_release_slot (W := W) i).
Proof. unfold tcp_shift_delivery_release_slot. steps_walk. Qed.
Hint Resolve wake_release : steps.
Lemma wake_prr_note_tx n : steps woken_kept (prr_note_tx (W := W) n).
Proof. unfold prr_note_tx. steps_walk. Qed.
Hint Resolve wake_prr_note_tx : steps.
Lemma wake_ledger_tx seg q n now : steps woken_kept (delivery_note_tx (W := W) seg q n now).
Proof. unfold delivery_note_tx. steps_walk. Qed.
Hint Resolve wake_ledger_tx : steps.
Lemma wake_tx_gap now : steps woken_kept (note_tx_gap (W := W) now).
Proof. unfold note_tx_gap. steps_walk. Qed.
Hint Resolve wake_tx_gap : steps.
Lemma wake_segment_tx seg q n : steps woken_kept (tcp_shift_lwip_cc_on_segment_tx (W := W) seg q n).
Proof. unfold tcp_shift_lwip_cc_on_segment_tx. steps_walk. Qed.
Hint Resolve wake_segment_tx : steps.
Lemma wake_segment_acked seg n : steps woken_kept (tcp_shift_lwip_cc_on_segment_acked (W := W) seg n).
Proof. unfold tcp_shift_lwip_cc_on_segment_acked, metadata_miss. steps_walk. Qed.
Hint Resolve wake_segment_acked : steps.
Lemma wake_rate_stats r : steps woken_kept (tcp_shift_rate_record_stats (W := W) r).
Proof. unfold tcp_shift_rate_record_stats. steps_walk. Qed.
Hint Resolve wake_rate_stats : steps.
Lemma wake_finalize c n now t p : steps woken_kept (tcp_shift_delivery_finalize_rate_sample (W := W) c n now t p).
Proof. unfold tcp_shift_delivery_finalize_rate_sample. steps_walk. Qed.
Hint Resolve wake_finalize : steps.
Lemma wake_delivery_pass fuel now : steps woken_kept (rack_delivery_pass (W := W) fuel now).
Proof. induction fuel as [|fuel IH]; cbn [rack_delivery_pass]; steps_walk. Qed.
Lemma wake_reordering_pass fuel : steps woken_kept (rack_reordering_pass (W := W) fuel).
Proof. induction fuel as [|fuel IH]; cbn [rack_reordering_pass]; steps_walk. Qed.
Hint Resolve wake_delivery_pass wake_reordering_pass : steps.
Lemma wake_process_slots now : steps woken_kept (tcp_shift_rack_process_delivered_slots (W := W) now).
Proof. unfold tcp_shift_rack_process_delivered_slots. steps_walk. Qed.
Hint Resolve wake_process_slots : steps.
Lemma wake_build_sample newly b : steps woken_kept (build_sample (W := W) newly b).
Proof. unfold build_sample. steps_walk. Qed.
Hint Resolve wake_build_sample : steps.
Lemma wake_rate_sample : steps woken_kept (tcp_shift_delivery_build_rate_sample (W := W)).
Proof. unfold tcp_shift_delivery_build_rate_sample. steps_walk. Qed.
Hint Resolve wake_rate_sample : steps.
Lemma wake_sack_sample l b : steps woken_kept (tcp_shift_delivery_build_sack_rate_sample (W := W) l b).
Proof. unfold tcp_shift_delivery_build_sack_rate_sample. steps_walk. Qed.
Hint Resolve wake_sack_sample : steps.
Lemma wake_prepare_ack n : steps woken_kept (tcp_shift_lwip_cc_prepare_ack (W := W) n).
Proof. unfold tcp_shift_lwip_cc_prepare_ack. steps_walk. Qed.
Hint Resolve wake_prepare_ack : steps.
Lemma wake_on_ack_observe n : steps woken_kept (tcp_shift_lwip_cc_on_ack_observe (W := W) n).
Proof. unfold tcp_shift_lwip_cc_on_ack_observe. steps_walk. Qed.
Hint Resolve wake_on_ack_observe : steps.
Lemma wake_on_ack n : steps woken_kept (tcp_shift_lwip_cc_on_ack (W := W) n).
Proof. unfold tcp_shift_lwip_cc_on_ack. steps_walk. Qed.
Hint Resolve wake_on_ack : steps.
Lemma wake_sack_deliver q l b : steps woken_kept (sack_deliver (W := W) q l b).
Proof. unfold sack_deliver. steps_walk. Qed.
Hint Resolve wake_sack_deliver : steps.
Lemma wake_on_sack q l : steps woken_kept (tcp_shift_lwip_cc_on_sack (W := W) q l).
Proof. unfold tcp_shift_lwip_cc_on_sack. steps_walk. Qed.
Hint Resolve wake_on_sack : steps.
Lemma wake_app_limited : steps woken_kept (tcp_shift_lwip_cc_mark_app_limited (W := W)).
Proof. unfold tcp_shift_lwip_cc_mark_app_limited. steps_walk. Qed.
Hint Resolve wake_app_limited : steps.

(** ** The tables and the hooks *)

Lemma wake_with_base m : steps woken_kept m -> steps woken_kept (with_base m).
Proof. intros Hm. unfold with_base. steps_walk. Qed.
Lemma wake_with_base_unit m : steps woken_kept m -> steps woken_kept (with_base_unit m).
Proof. intros Hm. unfold with_base_unit. steps_walk. Qed.
Lemma wake_paced m : steps woken_kept m -> steps woken_kept (with_paced_handle m).
Proof. intros Hm. unfold with_paced_handle. steps_walk. Qed.
Lemma wake_bbr_base {A} (fb ad sel : M F A) :
  steps woken_kept fb -> steps woken_kept ad -> steps woken_kept sel -> steps woken_kept (with_bbr_base fb ad sel).
Proof. intros H1 H2 H3. unfold with_bbr_base. steps_walk. Qed.
Lemma wake_dispatch {A} (un ad sel bbr : M F A) :
  steps woken_kept un -> steps woken_kept ad -> steps woken_kept sel -> steps woken_kept bbr ->
  steps woken_kept (hook_dispatch un ad sel bbr).
Proof. intros H1 H2 H3 H4. unfold hook_dispatch. steps_walk. Qed.
Lemma wake_handled m : steps woken_kept m -> steps woken_kept (handled m).
Proof. intros Hm. unfold handled. steps_walk. Qed.
Lemma wake_int_of m : steps woken_kept m -> steps woken_kept (int_of m).
Proof. intros Hm. unfold int_of. steps_walk. Qed.
Lemma wake_void_of m : steps woken_kept m -> steps woken_kept (void_of m).
Proof. intros Hm. unfold void_of. steps_walk. Qed.
Lemma wake_upd_hook f : steps woken_kept (upd_hook (W := W) f).
Proof. apply wake_ad. unmark_tac. Qed.
Hint Resolve wake_upd_hook : steps.

Ltac hooks_walk :=
  repeat (first [ solve [auto with steps nocore] | apply wake_bbr_base | apply wake_dispatch
                | apply wake_handled | apply wake_int_of | apply wake_void_of
                | apply wake_with_base | apply wake_with_base_unit | apply wake_paced
                | steps_step ]).

Lemma wake_selector_eligible n : steps woken_kept (tcp_shift_cc_selector_pacing_send_eligible (W := W) n).
Proof. unfold tcp_shift_cc_selector_pacing_send_eligible. steps_walk. Qed.
Hint Resolve wake_selector_eligible : steps.

Lemma wake_event ev : steps woken_kept (run_event (W := W) ev).
Proof.
  destruct ev; cbn [run_event].
  - unfold tcp_shift_lwip_cc_hook_ack_begin, tcp_shift_cc_selector_pacing_on_ack_begin,
      tcp_shift_lwip_bbr_hook_ack_begin, tcp_shift_cc_selector_pacing_on_ack_begin. hooks_walk.
  - unfold tcp_shift_lwip_cc_hook_ack, tcp_shift_lwip_bbr_hook_ack,
      tcp_shift_cc_selector_pacing_on_ack, tcp_shift_cc_selector_call_paced_ack. hooks_walk.
  - unfold tcp_shift_lwip_cc_hook_ack_observe, tcp_shift_lwip_bbr_hook_ack_observe,
      tcp_shift_cc_selector_pacing_on_ack_observe. hooks_walk.
  - unfold tcp_shift_lwip_cc_hook_sack, tcp_shift_lwip_bbr_hook_sack, credit_entry,
      tcp_shift_cc_selector_pacing_on_sack. hooks_walk.
  - unfold tcp_shift_lwip_cc_hook_loss, tcp_shift_lwip_cc_hook_recovery_mark_enter,
      tcp_shift_lwip_bbr_hook_loss, own_recovery, tcp_shift_cc_selector_pacing_on_loss,
      tcp_shift_cc_selector_call_paced_loss. hooks_walk.
  - unfold tcp_shift_lwip_cc_hook_ecn, tcp_shift_cc_selector_pacing_on_ecn,
      tcp_shift_cc_selector_call_paced_ecn. hooks_walk.
  - unfold tcp_shift_lwip_cc_hook_ecn_rto_gate, tcp_shift_cc_selector_pacing_on_ecn_rto_gate. hooks_walk.
  - unfold tcp_shift_lwip_cc_hook_rack_retrans_loss, tcp_shift_lwip_bbr_hook_rack_retrans_loss,
      tcp_shift_cc_selector_pacing_on_rack_retrans_loss,
      tcp_shift_cc_selector_call_paced_rack_retrans_loss. hooks_walk.
  - hooks_walk.
  - unfold tcp_shift_lwip_cc_hook_tlp_dupack, tcp_shift_lwip_bbr_hook_tlp_dupack,
      tcp_shift_cc_selector_pacing_on_tlp_dupack. hooks_walk.
  - unfold tcp_shift_lwip_cc_hook_recovery_exit, tcp_shift_lwip_cc_hook_recovery_mark_exit,
      tcp_shift_lwip_bbr_hook_recovery_exit, bbr_note_recovery_exit, binding_note,
      tcp_shift_cc_selector_pacing_on_recovery_exit. hooks_walk.
  - unfold tcp_shift_lwip_cc_hook_take_recovery_exit. hooks_walk.
  - unfold tcp_shift_lwip_cc_hook_timeout, tcp_shift_lwip_cc_hook_recovery_reset,
      tcp_shift_lwip_bbr_hook_timeout, tcp_shift_cc_selector_pacing_on_timeout,
      tcp_shift_cc_selector_call_paced_timeout. hooks_walk.
  - unfold tcp_shift_lwip_cc_hook_prr_active, tcp_shift_cc_selector_pacing_prr_active. hooks_walk.
  - unfold tcp_shift_lwip_cc_hook_rack_loss_status, tcp_shift_lwip_bbr_hook_rack_loss_status,
      tcp_shift_cc_selector_pacing_rack_loss_status. hooks_walk.
  - unfold tcp_shift_lwip_cc_hook_effective_cwnd, tcp_shift_lwip_bbr_hook_effective_cwnd,
      tcp_shift_cc_selector_pacing_effective_cwnd. hooks_walk.
  - unfold tcp_shift_lwip_cc_hook_segment_send_eligible, tcp_shift_lwip_bbr_hook_send_eligible. hooks_walk.
  - unfold tcp_shift_lwip_cc_hook_segment_tx, tcp_shift_lwip_bbr_hook_segment_tx,
      tcp_shift_cc_selector_pacing_on_segment_tx. hooks_walk.
  - unfold tcp_shift_lwip_cc_hook_segment_acked, tcp_shift_lwip_bbr_hook_segment_acked,
      tcp_shift_cc_selector_pacing_on_segment_acked. hooks_walk.
  - hooks_walk.
  - hooks_walk.
Qed.

Lemma wake_events evs : forall s, woken s -> woken (run_events (W := W) evs s).2.
Proof.
  induction evs as [|ev evs IH]; intros s Hs; [done|]. rewrite run_events_cons. by apply IH, wake_event.
Qed.

(** ** Refusals *)

(** PRR has no credit for the segment. *)
Definition prr_blocks (n : Z) s : Prop :=
  pr_active (ad_prr (fw_ad s)) = true /\ ad_prr_send_credit_bytes (fw_ad s) < n.
Definition waits (n : Z) s (m : M F Z) : Prop :=
  (m s).1 = 0 -> prr_blocks n s \/ ad_pacing_scheduled (fw_ad (m s).2) = true.

Lemma note_keeps_ad f s : fw_ad (note (W := W) f s).2 = fw_ad s.
Proof. unfold note, when, bind, get_ad, gets. by destruct (ad_stats (fw_ad s)). Qed.

Lemma defer_waits d n s : (pacing_defer d n s).1 = 0 -> ad_pacing_scheduled (fw_ad (pacing_defer d n s).2) = true.
Proof.
  unfold pacing_defer. rewrite !bind_run. cbn [get_ad get_gl gets fst snd].
  destruct (service_fn _ _) as [fn|]; [|by rewrite !bind_run]. destruct (_ =? 0); [by rewrite !bind_run|].
  rewrite bind_run. destruct (ad_pacing_scheduled (fw_ad s)) eqn:Esc; cbn [ret fst snd].
  - rewrite bind_run. cbn [ret fst snd]. intros _. unfold note_pacing. by rewrite note_keeps_ad.
  - rewrite bind_run. destruct (call_os _ s) as [rc s1]. cbn [fst snd].
    destruct (rc <? 0); cbn [ret fst snd]; [by rewrite !bind_run|]. rewrite bind_run. cbn [ret fst snd upd_ad modify].
    rewrite bind_run. cbn [ret fst snd]. intros _. unfold note_pacing. by rewrite note_keeps_ad.
Qed.

Lemma eligible_waits n s : waits n s (tcp_shift_lwip_cc_on_segment_send_eligible n).
Proof.
  unfold waits, tcp_shift_lwip_cc_on_segment_send_eligible. rewrite bind_run.
  replace (live s).2 with s by done. destruct (_ || _); [done|]. rewrite bind_run. cbn [get_ad gets fst snd].
  destruct (pr_active (ad_prr (fw_ad s)) && (n >? ad_prr_send_credit_bytes (fw_ad s))) eqn:Eb.
  { intros _. left. unfold prr_blocks. rewrite andb_true_iff in Eb. split; [apply Eb|lia]. }
  destruct (_ =? 0); [done|]. rewrite bind_run. destruct (tcp_shift_delivery_now_ns s) as [now s1]. cbn [fst snd].
  destruct (now =? 0); [done|]. destruct (_ =? 0); [done|]. intros E. right. by apply defer_waits.
Qed.

Lemma selector_waits n s : waits n s (tcp_shift_cc_selector_pacing_send_eligible n).
Proof.
  unfold waits, tcp_shift_cc_selector_pacing_send_eligible. rewrite !bind_run. cbn [get_ad get_gl gets ret fst snd].
  destruct (gl_selector_base_hook_ops (fw_gl s)) as [[]|]; try done.
  intros E. destruct (eligible_waits n s E) as [Hb|Hs]; [by left|right].
  destruct (tcp_shift_lwip_cc_on_segment_send_eligible n s) as [rc s1]. cbn [fst snd] in *.
  unfold tcp_shift_cc_selector_set_cubic_pacing, when. destruct (_ && _); [|done].
  destruct (bool_decide _); [|done]. cbn. by repeat case_match.
Qed.

Lemma hook_waits n s :
  (tcp_shift_lwip_cc_hook_segment_send_eligible n s).1 = false ->
  prr_blocks n s \/ ad_pacing_scheduled (fw_ad (tcp_shift_lwip_cc_hook_segment_send_eligible n s).2) = true.
Proof.
  unfold tcp_shift_lwip_cc_hook_segment_send_eligible, handled. rewrite bind_run. cbn [ret fst snd].
  match goal with |- negb ((?m s).1 =? 0) = false -> _ => assert (Hm : waits n s m) end.
  { unfold waits, hook_dispatch. rewrite bind_run. unfold tcp_shift_lwip_cc_hook_get. cbn [fst snd].
    destruct (bool_decide _); [|done]. destruct (hk_ops _) as [[]|]; [apply eligible_waits|apply selector_waits| |done].
    unfold tcp_shift_lwip_bbr_hook_send_eligible, with_bbr_base. rewrite bind_run.
    replace (tcp_shift_lwip_bbr_binding_from_adapter s).2 with s by done.
    destruct (tcp_shift_lwip_bbr_binding_from_adapter s).1 as [b|]; [|done].
    destruct (bb_base_hook_ops b) as [[]|]; [apply eligible_waits|apply selector_waits|done..]. }
  intros E. apply Hm. lia.
Qed.

End Wake.

(** ** The life of a flow *)

Section Life.
Context {W : Type} `{!AdapterOS W} `{!LwipParams} `{!TimerService W} `{!LwipTcp W} `{!LwipTcpLaws W}.
Local Abbreviation F := (flow W).
Implicit Types (s : F).

Ltac through_events lemma :=
  intros s Hs; destruct (lemma s) as [evs ->]; by apply wake_events.

Lemma wake_output : steps woken_kept (tcp_output (W := W)).
Proof. through_events output_events. Qed.
Lemma wake_rexmit : steps woken_kept (tcp_shift_tcp_rack_rexmit_due (W := W)).
Proof. through_events rexmit_events. Qed.
Lemma wake_probe : steps woken_kept (tcp_shift_tcp_tlp_probe (W := W)).
Proof. through_events probe_events. Qed.

#[local] Existing Instance woken_kept_preorder.
Hint Resolve wake_output wake_rexmit wake_probe wake_pcb wake_deadline wake_arm_detection wake_now
  wake_upd_rack wake_scheduler_error : steps.
Hint Extern 1 (steps woken_kept (note_pacing _)) => (apply wake_note) : steps.
Hint Extern 1 (steps woken_kept get_ad) => (apply steps_gets; tc_solve) : steps.

Lemma wake_restart_rto : steps woken_kept (restart_rto (W := W)).
Proof. apply wake_pcb. Qed.
Hint Resolve wake_restart_rto : steps.
Lemma wake_resume_tlp : steps woken_kept (resume_tlp (W := W)).
Proof. unfold resume_tlp. steps_walk. Qed.
Lemma wake_resume_rack now : steps woken_kept (resume_rack (W := W) now).
Proof. unfold resume_rack. steps_walk. Qed.
Hint Resolve wake_resume_tlp wake_resume_rack : steps.

(** A release starts by unmarking what the loop took from the queue. *)
Lemma wake_resume_paced now s : half SvPacing s -> woken (resume_paced_flow now s).2.
Proof.
  intros Hh. unfold resume_paced_flow. rewrite bind_run. cbn [upd_ad modify snd fst].
  apply (wake_unmark SvPacing (fun a => a <| ad_pacing_scheduled := false |>)) in Hh;
    [|intros a; split; [done|split; [done|by intros []]]|done].
  revert Hh. generalize (set_ad (fun a => a <| ad_pacing_scheduled := false |>) s). intros s1 Hs.
  match goal with |- woken (?m s1).2 => assert (Hm : steps woken_kept m) by steps_walk end. by apply Hm.
Qed.

Lemma wake_resume_recovery kind now s : half SvRecovery s -> woken (resume_recovery_flow kind now s).2.
Proof.
  intros Hh. unfold resume_recovery_flow. rewrite bind_run. cbn [upd_ad modify snd fst].
  match goal with |- woken (_ (set_ad ?f s)).2 => apply (wake_unmark SvRecovery f) in Hh;
    [|intros a; split; [done|split; [done|by intros []]]|done]; revert Hh; generalize (set_ad f s) end.
  intros s1 Hs.
  match goal with |- woken (?m s1).2 => assert (Hm : steps woken_kept m) by steps_walk end. by apply Hm.
Qed.

(** A change of the world that keeps the flow's events of a service. *)
Definition keeps_events (sv : service) s (w : W) : Prop :=
  pending sv (fw_world s) (ad_pacing_flow_id (fw_ad s)) (ad_pacing_generation (fw_ad s)) ->
  pending sv w (ad_pacing_flow_id (fw_ad s)) (ad_pacing_generation (fw_ad s)).

(** What happens to a flow: a hook call; the loop took a pacing or a recovery
    event of the flow from its queue and releases it; something else changed
    the world, but not this flow's events. *)
Inductive wake_step : F -> F -> Prop :=
| wake_hook ev s : wake_step s (run_event ev s).2
| wake_pacing s w now :
    ts_ok w -> keeps_events SvRecovery s w -> wake_step s (resume_paced_flow now (set_world w s)).2
| wake_recovery s w kind now :
    ts_ok w -> keeps_events SvPacing s w -> wake_step s (resume_recovery_flow kind now (set_world w s)).2
| wake_elsewhere s w :
    ts_ok w -> (forall sv, keeps_events sv s w) -> wake_step s (set_world w s).

Lemma half_world sv w s :
  woken s -> ts_ok w -> (forall sv', sv' <> sv -> keeps_events sv' s w) -> half sv (set_world w s).
Proof. intros [[H1 H2 H3] Hm] Hok Hk. split; [by split|]. intros sv' Hne Hsc. by apply Hk, Hm. Qed.

Lemma wake_step_woken s s' : wake_step s s' -> woken s -> woken s'.
Proof.
  intros Hst Hs. destruct Hst as [ev s|s w now Hok Hk|s w kind now Hok Hk|s w Hok Hk].
  - by apply wake_event.
  - apply wake_resume_paced, half_world; [done|done|]. intros [] Hne; done.
  - apply wake_resume_recovery, half_world; [done|done|]. intros [] Hne; done.
  - destruct Hs as [[H1 H2 H3] Hm]. split; [by split|]. intros sv Hsc. by apply Hk, Hm.
Qed.

Lemma life_woken s s' : rtc wake_step s s' -> woken s -> woken s'.
Proof. induction 1 as [|s1 s2 s3 H1 _ IH]; [done|]. intros Hs. by apply IH, (wake_step_woken s1). Qed.

End Life.
