(* ===== verification/ServiceTimers.v ===== *)
(** * The timer services of the product process (p2_main.c)

    The functions that connect the transport adapter to the event loop: the
    adapter schedules and cancels through a table of two functions, which reach
    the loop's pacing scheduler or its recovery timer, and the loop releases a
    due event through a callback, which resumes the flow. [p2_adapter_os] is
    the adapter's view of a process that is wired like this, and
    [p2_timer_service] discharges what the adapter needs of it; so a deferred
    send has its event in the loop's queue. *)

From Stdlib Require Import ZArith Lia Bool List.
From stdpp Require Import base tactics numbers list gmap relations.
From S2P Require Import Prelude StateMonad CC PacerHeap Pacer PacerSpec L3Tun LwipLoop Prr.
From S2P Require Import AdapterData AdapterDelivery AdapterPacing AdapterRecovery AdapterRate.
From S2P Require Import AdapterPolicy Adapter Selector BbrInternal AdapterHooks AdapterFrame AdapterEvents AdapterWorld AdapterLife AdapterWake.
Local Open Scope Z_scope.

(** Names for the functions whose addresses are stored. *)
Abbreviation FN_PACER_SCHEDULE := 1.
Abbreviation FN_PACER_CANCEL := 2.
Abbreviation FN_RECOVERY_SCHEDULE := 3.
Abbreviation FN_RECOVERY_CANCEL := 4.
Abbreviation FN_PACER_RELEASE := 5.
Abbreviation FN_RECOVERY_RELEASE := 6.
(** The address of the loop, the argument of all of them. *)
Abbreviation LOOP_ADDRESS := 1.

Definition tcp_shift_p2_pacer_ops : tcp_shift_lwip_cc_timer_ops :=
  mk_timer_ops 1 (Some FN_PACER_SCHEDULE) (Some FN_PACER_CANCEL).
Definition tcp_shift_p2_recovery_timer_ops : tcp_shift_lwip_cc_timer_ops :=
  mk_timer_ops 2 (Some FN_RECOVERY_SCHEDULE) (Some FN_RECOVERY_CANCEL).

(** The clock and the allocator of the process. *)
Class ProcessOS (B : Type) := {
  proc_clock : B -> option (Z * Z) * B;
  proc_alloc : B -> Z -> bool * B
}.

Section Glue.
Context {B : Type} `{!PacerOS B} `{!ProcessOS B}.
Local Abbreviation T := (tcp_shift_lwip_loop * B)%type.

Definition tcp_shift_p2_pacer_schedule (w : T) (flow_id generation deadline_ns bytes : Z) : Z * T :=
  let '(rc, loop, b) := tcp_shift_lwip_loop_pacer_schedule w.2 w.1
                          (mk_event (u64 deadline_ns) flow_id generation bytes) in
  (rc, (loop, b)).

Definition tcp_shift_p2_pacer_cancel (w : T) (flow_id generation : Z) : Z * T :=
  let '(rc, loop, _, b) := tcp_shift_lwip_loop_pacer_cancel w.2 w.1 flow_id generation 0 in
  (rc, (loop, b)).

Definition tcp_shift_p2_recovery_schedule (w : T) (flow_id generation deadline_ns kind : Z) : Z * T :=
  let '(rc, loop, b) := tcp_shift_lwip_loop_recovery_schedule w.2 w.1
                          (mk_recovery_event (u64 deadline_ns) flow_id generation kind) in
  (rc, (loop, b)).

Definition tcp_shift_p2_recovery_cancel (w : T) (flow_id generation : Z) : Z * T :=
  let '(rc, loop, _, b) := tcp_shift_lwip_loop_recovery_cancel w.2 w.1 flow_id generation 0 in
  (rc, (loop, b)).

(** The adapter's calls, through the stored addresses. *)
#[export] Instance p2_adapter_os : AdapterOS T := {
  monotonic_clock w := let '(r, b) := proc_clock w.2 in (r, (w.1, b));
  heap_alloc w n := let '(r, b) := proc_alloc w.2 n in (r, (w.1, b));
  timer_schedule w fn _ flow_id generation deadline_ns x :=
    if fn =? FN_PACER_SCHEDULE then tcp_shift_p2_pacer_schedule w flow_id generation deadline_ns x
    else tcp_shift_p2_recovery_schedule w flow_id generation deadline_ns x;
  timer_cancel w fn _ flow_id generation :=
    if fn =? FN_PACER_CANCEL then tcp_shift_p2_pacer_cancel w flow_id generation
    else tcp_shift_p2_recovery_cancel w flow_id generation
}.

(** The process: the heap of flows over the loop. *)
Definition set_loop (loop : tcp_shift_lwip_loop) (w : cc_world T) : cc_world T :=
  mk_cc_world (loop, (wd_world w).2) (wd_gl w) (wd_adapters w) (wd_pcbs w) (wd_next w).

Definition tcp_shift_p2_configure_pacer (w : cc_world T) : Z * cc_world T :=
  let '(rc, loop) := tcp_shift_lwip_loop_set_pacer_release (wd_world w).1 (Some FN_PACER_RELEASE) in
  let w := set_loop loop w in
  if rc <? 0 then (-1, w)
  else
    let '(rc, g) := tcp_shift_lwip_cc_configure_pacer (wd_gl w) (Some tcp_shift_p2_pacer_ops) LOOP_ADDRESS in
    (rc, set_globals (fun _ => g) w).

Definition tcp_shift_p2_configure_recovery_timer (w : cc_world T) : Z * cc_world T :=
  let '(rc, loop) := tcp_shift_lwip_loop_set_recovery_release (wd_world w).1 (Some FN_RECOVERY_RELEASE) in
  let w := set_loop loop w in
  if rc <? 0 then (-1, w)
  else
    let '(rc, g) := tcp_shift_lwip_cc_configure_recovery_timer (wd_gl w)
                      (Some tcp_shift_p2_recovery_timer_ops) LOOP_ADDRESS in
    (rc, set_globals (fun _ => g) w).

(** The release callbacks; [None] for NULL. *)
Definition tcp_shift_p2_pacer_release `{!LwipParams} `{!LwipTcp T} (w : cc_world T)
    (event : ptr tcp_shift_pacer_event) (actual_release_ns : Z) : option (Z * cc_world T) :=
  match event with
  | None => Some (-1, w)
  | Some e => tcp_shift_lwip_cc_resume_paced w (ev_flow_id e) (ev_generation e) actual_release_ns
  end.

Definition tcp_shift_p2_recovery_release `{!LwipParams} `{!LwipTcp T} (w : cc_world T)
    (event : ptr tcp_shift_lwip_loop_recovery_event) (actual_release_ns : Z) : option (Z * cc_world T) :=
  match event with
  | None => Some (-1, w)
  | Some e => tcp_shift_lwip_cc_resume_recovery_timer w (re_flow_id e) (re_generation e) (re_kind e)
                actual_release_ns
  end.

(** The IPv6 program (p2_ipv6_main.c) has its own copies, with the same bodies. *)
Definition tcp_shift_p2_ipv6_pacer_ops := tcp_shift_p2_pacer_ops.
Definition tcp_shift_p2_ipv6_recovery_timer_ops := tcp_shift_p2_recovery_timer_ops.
Definition tcp_shift_p2_ipv6_pacer_schedule := tcp_shift_p2_pacer_schedule.
Definition tcp_shift_p2_ipv6_pacer_cancel := tcp_shift_p2_pacer_cancel.
Definition tcp_shift_p2_ipv6_recovery_schedule := tcp_shift_p2_recovery_schedule.
Definition tcp_shift_p2_ipv6_recovery_cancel := tcp_shift_p2_recovery_cancel.
Definition tcp_shift_p2_ipv6_configure_pacer := tcp_shift_p2_configure_pacer.
Definition tcp_shift_p2_ipv6_configure_recovery_timer := tcp_shift_p2_configure_recovery_timer.
Definition tcp_shift_p2_ipv6_pacer_release `{!LwipParams} `{!LwipTcp T} := tcp_shift_p2_pacer_release.
Definition tcp_shift_p2_ipv6_recovery_release `{!LwipParams} `{!LwipTcp T} := tcp_shift_p2_recovery_release.

End Glue.

(** ** A pacer programs only its own timer *)

Section Other.
Context {B : Type} `{!PacerOS B} (timer : B -> Z -> Z) `{!PacerOSLaws B timer}.

Definition own_timer (p : tcp_shift_pacer) (w : B) (p' : tcp_shift_pacer) (w' : B) : Prop :=
  pc_timer_fd p' = pc_timer_fd p /\ forall fd, fd <> pc_timer_fd p -> timer w' fd = timer w fd.

Lemma sync_own w p rc p' w' : tcp_shift_pacer_sync_timer w p = (rc, p', w') -> own_timer p w p' w'.
Proof.
  unfold tcp_shift_pacer_sync_timer. intros E. destruct (_ =? 0).
  - destruct (_ =? 0); [by injection E as <- <- <-|].
    destruct (timerfd_settime _ _ _ _) as [rc1 w1] eqn:E1. pose proof (settime_other _ _ _ _ _ _ E1) as Ho.
    destruct (rc1 <? 0); injection E as <- <- <-; by split.
  - destruct (_ =? _); [by injection E as <- <- <-|].
    destruct (timerfd_settime _ _ _ _) as [rc1 w1] eqn:E1. pose proof (settime_other _ _ _ _ _ _ E1) as Ho.
    destruct (rc1 <? 0); injection E as <- <- <-; by split.
Qed.

Lemma reserve_own w p rc p' w' : tcp_shift_pacer_reserve w p = (rc, p', w') -> own_timer p w p' w'.
Proof.
  unfold tcp_shift_pacer_reserve. intros E. repeat (case_match; try (by injection E as <- <- <-)).
  all: match goal with R : realloc _ _ _ = _ |- _ => pose proof (realloc_timer _ _ _ _ _ R) as Ht end;
    injection E as <- <- <-; by split.
Qed.

Lemma schedule_own w p e rc p' w' : tcp_shift_pacer_schedule w p e = (rc, p', w') -> own_timer p w p' w'.
Proof.
  unfold tcp_shift_pacer_schedule. intros E. destruct (_ || _); [by injection E as <- <- <-|].
  destruct (tcp_shift_pacer_reserve w p) as [[rc1 p1] w1] eqn:E1. destruct (reserve_own _ _ _ _ _ E1) as [F1 T1].
  destruct (rc1 <? 0); [injection E as <- <- <-; by split|].
  match type of E with context [tcp_shift_pacer_sync_timer _ ?r] => set (p2 := r) in * end.
  destruct (tcp_shift_pacer_sync_timer w1 p2) as [[rc3 p3] w3] eqn:E3. destruct (sync_own _ _ _ _ _ E3) as [F3 T3].
  assert (F2 : pc_timer_fd p2 = pc_timer_fd p) by (rewrite <- F1; unfold p2; cbn; by destruct (_ >? _)).
  destruct (rc3 <? 0); injection E as <- <- <-; split.
  - unfold schedule_rollback. rewrite <- F2, <- F3. by repeat case_match.
  - intros fd Hfd. rewrite T3 by congruence. by apply T1.
  - congruence.
  - intros fd Hfd. rewrite T3 by congruence. by apply T1.
Qed.

Lemma cancel_own w p f g c rc p' c' w' :
  tcp_shift_pacer_cancel w p f g c = (rc, p', c', w') -> own_timer p w p' w'.
Proof.
  unfold tcp_shift_pacer_cancel. intros E. destruct (_ <? 0); [by injection E as <- <- <- <-|].
  destruct (cancel_loop _ _ _ _ _ _ _) as [[h i] n]. destruct (n =? 0)%nat; [by injection E as <- <- <- <-|].
  match type of E with context [tcp_shift_pacer_sync_timer _ ?r] => set (p2 := r) in * end.
  destruct (tcp_shift_pacer_sync_timer w p2) as [[rc3 p3] w3] eqn:E3. destruct (sync_own _ _ _ _ _ E3) as [F3 T3].
  destruct (rc3 <? 0); injection E as <- <- <- <-; by split.
Qed.

Lemma pop_own w p now e rc p' e' w' :
  tcp_shift_pacer_pop_due w p now e = (rc, p', e', w') -> own_timer p w p' w'.
Proof.
  unfold tcp_shift_pacer_pop_due. intros E. destruct (_ <? 0); [by injection E as <- <- <- <-|].
  destruct (_ || _); [by injection E as <- <- <- <-|].
  match type of E with context [tcp_shift_pacer_sync_timer _ ?r] => set (p2 := r) in * end.
  destruct (tcp_shift_pacer_sync_timer w p2) as [[rc3 p3] w3] eqn:E3. destruct (sync_own _ _ _ _ _ E3) as [F3 T3].
  assert (F2 : pc_timer_fd p2 = pc_timer_fd p) by (unfold p2, pop_remove, tcp_shift_pacer_sift_down; cbn; by destruct (negb _)).
  destruct (rc3 <? 0); injection E as <- <- <- <-; (split; [congruence|]); intros fd Hfd; apply T3; congruence.
Qed.

Lemma consume_own w p x rc p' x' w' :
  tcp_shift_pacer_consume_timer w p x = (rc, p', x', w') -> own_timer p w p' w'.
Proof.
  unfold tcp_shift_pacer_consume_timer. intros E. destruct (_ <? 0); [by injection E as <- <- <- <-|].
  destruct (timerfd_read w (pc_timer_fd p)) as [r w1] eqn:E1. pose proof (read_timer _ _ _ _ E1) as Hr.
  destruct r; [destruct (negb _)|..]; injection E as <- <- <- <-; by split.
Qed.

End Other.

(** ** The loop is the adapter's timer services *)

(** The clock and the allocator leave the timers alone. *)
Class ProcessLaws (B : Type) `{!PacerOS B} `{!ProcessOS B} (timer : B -> Z -> Z) := {
  clock_timer b fd : timer (proc_clock b).2 fd = timer b fd;
  alloc_timer b n fd : timer (proc_alloc b n).2 fd = timer b fd
}.

Definition pacer_of (sv : service) (loop : tcp_shift_lwip_loop) : tcp_shift_pacer :=
  match sv with SvPacing => lp_pacer loop | SvRecovery => lp_recovery_timer loop end.
Definition set_pacer (sv : service) (p : tcp_shift_pacer) (loop : tcp_shift_lwip_loop) : tcp_shift_lwip_loop :=
  match sv with SvPacing => loop <| lp_pacer := p |> | SvRecovery => loop <| lp_recovery_timer := p |> end.
Definition p2_ops (sv : service) : tcp_shift_lwip_cc_timer_ops :=
  match sv with SvPacing => tcp_shift_p2_pacer_ops | SvRecovery => tcp_shift_p2_recovery_timer_ops end.

Section Service.
Context {B : Type} `{!PacerOS B} `{!ProcessOS B}.
Context (timer : B -> Z -> Z) `{!PacerOSLaws B timer} `{!ProcessLaws B timer}.
Local Abbreviation T := (tcp_shift_lwip_loop * B)%type.
Implicit Types (w : T) (sv : service).

(** Two well-formed pacers, each with a timer of its own. *)
Definition p2_ok w : Prop :=
  (forall sv, pacer_wf timer w.2 (pacer_of sv w.1)) /\
  pc_timer_fd (lp_pacer w.1) <> pc_timer_fd (lp_recovery_timer w.1).

(** An event of the flow and generation is in the loop's queue. *)
Definition p2_pending sv w (f g : Z) : Prop :=
  exists e, e ∈ queue (pacer_of sv w.1) /\ event_of f g e = true.

Lemma pacer_wf_same w b' p :
  (forall fd, timer b' fd = timer w.2 fd) -> pacer_wf timer w.2 p -> pacer_wf timer b' p.
Proof. intros H (H1 & H2 & H3 & H4). unfold pacer_wf. by rewrite H. Qed.

Lemma p2_ok_same w b' : (forall fd, timer b' fd = timer w.2 fd) -> p2_ok w -> p2_ok (w.1, b').
Proof. intros H [H1 H2]. split; [|done]. intros sv. by apply (pacer_wf_same w). Qed.

(** One service changes its pacer: the other one is as before. *)
Lemma p2_ok_set sv w p' b' :
  p2_ok w -> own_timer timer (pacer_of sv w.1) w.2 p' b' -> pacer_wf timer b' p' -> p2_ok (set_pacer sv p' w.1, b').
Proof.
  intros [H1 H2] [Hf Ht] Hp. destruct w as [loop b]; cbn [fst snd] in *.
  pose proof (H1 SvPacing) as Hpa. pose proof (H1 SvRecovery) as Hre. cbn [pacer_of] in Hpa, Hre.
  split.
  - intros sv'. destruct sv, sv'; cbn in *; try done.
    + destruct Hre as (A1 & A2 & A3 & A4). unfold pacer_wf. rewrite Ht by done. done.
    + destruct Hpa as (A1 & A2 & A3 & A4). unfold pacer_wf. rewrite Ht by done. done.
  - destruct sv; cbn in *; congruence.
Qed.

Lemma pending_set_other sv sv' w p' b' f g :
  sv' <> sv -> p2_pending sv' w f g -> p2_pending sv' (set_pacer sv p' w.1, b') f g.
Proof. intros Hne. by destruct sv, sv'. Qed.
Lemma pending_set_own sv w p' b' f g :
  (exists e, e ∈ queue p' /\ event_of f g e = true) -> p2_pending sv (set_pacer sv p' w.1, b') f g.
Proof. unfold p2_pending. by destruct sv. Qed.

(** *** Scheduling *)

(** The glue refuses, or it is the pacer's operation. *)
Lemma p2_schedule_cases sv fn w arg f g d n :
  to_schedule (p2_ops sv) = Some fn ->
  timer_schedule w fn arg f g d n = (-1, w) \/
  exists rc p' b', tcp_shift_pacer_schedule w.2 (pacer_of sv w.1) (mk_event (u64 d) f g n) = (rc, p', b') /\
    timer_schedule w fn arg f g d n = (rc, (set_pacer sv p' w.1, b')).
Proof.
  intros Hfn. destruct w as [loop b].
  destruct sv; injection Hfn as <-; cbn [timer_schedule p2_adapter_os];
    [change (FN_PACER_SCHEDULE =? FN_PACER_SCHEDULE) with true|change (FN_RECOVERY_SCHEDULE =? FN_PACER_SCHEDULE) with false];
    cbn match; unfold tcp_shift_p2_pacer_schedule, tcp_shift_p2_recovery_schedule,
      tcp_shift_lwip_loop_pacer_schedule, tcp_shift_lwip_loop_recovery_schedule; cbn [fst snd pacer_of set_pacer];
    match goal with |- context [match ?r with Some _ => _ | None => _ end] => destruct r end; try (by left);
    match goal with |- context [if ?c then _ else _] => destruct c end; try (by left);
    cbn [re_deadline_ns re_flow_id re_generation re_kind];
    destruct (tcp_shift_pacer_schedule _ _ _) as [[rc p'] b']; right; by exists rc, p', b'.
Qed.

Lemma p2_schedule_law sv fn w arg f g d n :
  to_schedule (p2_ops sv) = Some fn -> p2_ok w ->
  let p := timer_schedule w fn arg f g d n in
  p2_ok p.2 /\ (0 <= p.1 -> p2_pending sv p.2 f g) /\
  forall sv' f' g', p2_pending sv' w f' g' -> p2_pending sv' p.2 f' g'.
Proof.
  intros Hfn Hok. cbn zeta.
  destruct (p2_schedule_cases sv fn w arg f g d n Hfn) as [->|(rc & p' & b' & E & ->)]; cbn [fst snd].
  { split; [done|]. split; [lia|done]. }
  pose proof (proj1 Hok sv) as Hwf.
  assert (He : event_wf (mk_event (u64 d) f g n)) by (unfold event_wf; cbn; apply u64_range).
  destruct (schedule_ok timer _ _ _ _ _ _ Hwf He E) as (Hwf' & _ & Hq).
  split; [apply p2_ok_set; [done|by eapply schedule_own|done]|]. split.
  - intros Hrc. apply pending_set_own. destruct Hq as [(_ & Hq & _)|(-> & _ & _)]; [|lia].
    exists (mk_event (u64 d) f g n). split; [rewrite Hq; by left|]. unfold event_of. cbn. by rewrite !Z.eqb_refl.
  - intros sv' f' g' Hp. destruct (decide (sv' = sv)) as [->|Hne]; [|by apply pending_set_other].
    apply pending_set_own. destruct Hp as (e & He' & Hev). exists e. split; [|done].
    destruct Hq as [(_ & -> & _)|(_ & -> & _)]; [by right|done].
Qed.

(** *** Cancelling *)

Lemma p2_cancel_cases sv fn w arg f g :
  to_cancel (p2_ops sv) = Some fn ->
  timer_cancel w fn arg f g = (-1, w) \/
  exists rc p' c b', tcp_shift_pacer_cancel w.2 (pacer_of sv w.1) f g 0 = (rc, p', c, b') /\
    timer_cancel w fn arg f g = (rc, (set_pacer sv p' w.1, b')).
Proof.
  intros Hfn. destruct w as [loop b].
  destruct sv; injection Hfn as <-; cbn [timer_cancel p2_adapter_os];
    [change (FN_PACER_CANCEL =? FN_PACER_CANCEL) with true|change (FN_RECOVERY_CANCEL =? FN_PACER_CANCEL) with false];
    cbn match; unfold tcp_shift_p2_pacer_cancel, tcp_shift_p2_recovery_cancel,
      tcp_shift_lwip_loop_pacer_cancel, tcp_shift_lwip_loop_recovery_cancel; cbn [fst snd pacer_of set_pacer];
    match goal with |- context [if ?c then _ else _] => destruct c end; try (by left);
    destruct (tcp_shift_pacer_cancel _ _ _ _ _) as [[[rc p'] c] b']; right; by exists rc, p', c, b'.
Qed.

Lemma p2_cancel_law sv fn w arg f g :
  to_cancel (p2_ops sv) = Some fn -> p2_ok w ->
  let p := timer_cancel w fn arg f g in
  p2_ok p.2 /\
  forall sv' f' g', sv' <> sv \/ (f', g') <> (f, g) -> p2_pending sv' w f' g' -> p2_pending sv' p.2 f' g'.
Proof.
  intros Hfn Hok. cbn zeta.
  destruct (p2_cancel_cases sv fn w arg f g Hfn) as [->|(rc & p' & c & b' & E & ->)]; cbn [fst snd]; [done|].
  pose proof (proj1 Hok sv) as Hwf.
  destruct (cancel_ok timer _ _ _ _ _ _ _ _ _ Hwf E) as (Hwf' & _ & Hq & _).
  split; [apply p2_ok_set; [done|by eapply cancel_own|done]|].
  intros sv' f' g' Hne Hp. destruct (decide (sv' = sv)) as [->|]; [|by apply pending_set_other].
  destruct Hne as [|Hne]; [done|]. apply pending_set_own. destruct Hp as (e & He & Hev). exists e. split; [|done].
  rewrite Hq. apply list_elem_of_In, filter_In. split; [by apply list_elem_of_In|].
  unfold event_of in *. destruct ((ev_flow_id e =? f) && (ev_generation e =? g)) eqn:E2; [|done].
  exfalso. apply Hne. f_equal; lia.
Qed.

#[export] Instance p2_timer_service : TimerService T.
Proof.
  refine {| ops_of := p2_ops; ts_ok := p2_ok; pending := p2_pending |}.
  - intros w Hok. cbn. pose proof (clock_timer w.2) as Hc. destruct (proc_clock w.2) as [r b].
    split; [by apply p2_ok_same|done].
  - intros w n Hok. cbn. pose proof (alloc_timer w.2 n) as Hc. destruct (proc_alloc w.2 n) as [r b].
    split; [by apply p2_ok_same|done].
  - apply p2_schedule_law.
  - apply p2_cancel_law.
Defined.

End Service.

(** ** The start of the process *)

Section Configure.
Context {B : Type} `{!PacerOS B} `{!ProcessOS B}.
Local Abbreviation T := (tcp_shift_lwip_loop * B)%type.
Implicit Types (w : cc_world T).

(** Both services are the loop's, and the loop has the release callbacks. *)
Record configured w : Prop := {
  cf_pacing : pv_ops (gl_pacing (wd_gl w)) = Some tcp_shift_p2_pacer_ops;
  cf_recovery : rv_ops (gl_recovery (wd_gl w)) = Some tcp_shift_p2_recovery_timer_ops;
  cf_pacer_release : lp_pacer_release (wd_world w).1 = Some FN_PACER_RELEASE;
  cf_recovery_release : lp_recovery_release (wd_world w).1 = Some FN_RECOVERY_RELEASE
}.

Lemma configure_ok w w1 w2 :
  pv_ops (gl_pacing (wd_gl w)) = NULL -> rv_ops (gl_recovery (wd_gl w)) = NULL ->
  tcp_shift_p2_configure_pacer w = (0, w1) -> tcp_shift_p2_configure_recovery_timer w1 = (0, w2) ->
  configured w2.
Proof.
  intros Hp Hr E1 E2. destruct w as [[loop b] g ads pcbs nx]. cbn in Hp, Hr.
  unfold tcp_shift_p2_configure_pacer, tcp_shift_lwip_loop_set_pacer_release in E1. cbn in E1.
  destruct (_ || negb _) in E1; cbn in E1; [done|].
  unfold tcp_shift_lwip_cc_configure_pacer in E1. cbn in E1. rewrite Hp in E1. cbn in E1.
  destruct (negb _) in E1; cbn in E1; [done|]. injection E1 as <-.
  unfold tcp_shift_p2_configure_recovery_timer, tcp_shift_lwip_loop_set_recovery_release in E2. cbn in E2.
  destruct (_ || negb _) in E2; cbn in E2; [done|].
  unfold tcp_shift_lwip_cc_configure_recovery_timer in E2. cbn in E2. rewrite Hr in E2. cbn in E2.
  destruct (negb _) in E2; cbn in E2; [done|]. injection E2 as <-. by split.
Qed.

End Configure.

(** ** The life of a flow in the process *)

Section Life.
Context {B : Type} `{!PacerOS B} `{!ProcessOS B} `{!LwipParams}.
Context (timer : B -> Z -> Z) `{!PacerOSLaws B timer} `{!ProcessLaws B timer}.
Local Abbreviation T := (tcp_shift_lwip_loop * B)%type.
Context `{!LwipTcp T} `{!LwipTcpLaws T}.
Implicit Types (s : flow T) (sv : service).

Definition own_event s (e : tcp_shift_pacer_event) : bool :=
  event_of (ad_pacing_flow_id (fw_ad s)) (ad_pacing_generation (fw_ad s)) e.

(** The loop takes the earliest due event of a service. *)
Definition loop_pops sv (now : Z) s (rc : Z) (e : tcp_shift_pacer_event) (w : T) : Prop :=
  exists e0 p b, tcp_shift_pacer_pop_due (fw_world s).2 (pacer_of sv (fw_world s).1) now e0 = (rc, p, e, b) /\
    w = (set_pacer sv p (fw_world s).1, b).

(** What the process does, as one flow sees it: a hook call of the flow; its
    due event is taken and released; another flow's event is taken; the
    services are called for another flow; a timer is read; the loop changes
    what is not its pacers, and the system what is not a timer. *)
Inductive p2_step : flow T -> flow T -> Prop :=
| p2_hook ev s : p2_step s (run_event ev s).2
| p2_released now s e w :
    loop_pops SvPacing now s 1 e w -> own_event s e = true ->
    p2_step s (resume_paced_flow now (set_world w s)).2
| p2_recovered now s e w :
    loop_pops SvRecovery now s 1 e w -> own_event s e = true ->
    p2_step s (resume_recovery_flow (ev_bytes e) now (set_world w s)).2
| p2_other_due sv now s e w :
    loop_pops sv now s 1 e w -> own_event s e = false -> p2_step s (set_world w s)
| p2_none_due sv now s e w : loop_pops sv now s 0 e w -> p2_step s (set_world w s)
| p2_other_schedules sv fn arg f g d n s :
    to_schedule (p2_ops sv) = Some fn -> p2_step s (set_world (timer_schedule (fw_world s) fn arg f g d n).2 s)
| p2_other_cancels sv fn arg f g s :
    to_cancel (p2_ops sv) = Some fn ->
    (ad_pacing_flow_id (fw_ad s), ad_pacing_generation (fw_ad s)) <> (f, g) ->
    p2_step s (set_world (timer_cancel (fw_world s) fn arg f g).2 s)
| p2_reads sv x rc p x' b s :
    tcp_shift_pacer_consume_timer (fw_world s).2 (pacer_of sv (fw_world s).1) x = (rc, p, x', b) ->
    p2_step s (set_world (set_pacer sv p (fw_world s).1, b) s)
| p2_elsewhere loop b s :
    (forall sv, pacer_of sv loop = pacer_of sv (fw_world s).1) ->
    (forall sv, timer b (pc_timer_fd (pacer_of sv loop)) = timer (fw_world s).2 (pc_timer_fd (pacer_of sv loop))) ->
    p2_step s (set_world (loop, b) s).

Lemma pops_ok sv now s rc e w :
  0 <= rc -> p2_ok timer (fw_world s) -> loop_pops sv now s rc e w ->
  p2_ok timer w /\ forall sv' f g, p2_pending sv' (fw_world s) f g ->
    sv' <> sv \/ rc = 0 \/ event_of f g e = false -> p2_pending sv' w f g.
Proof.
  intros Hrc Hok (e0 & p & b & E & ->). pose proof (proj1 Hok sv) as Hwf.
  destruct (pop_due_ok timer _ _ _ _ _ _ _ _ Hwf E) as (Hwf' & _ & Hq).
  split; [apply p2_ok_set; [done|by eapply pop_own|done]|].
  intros sv' f g Hp Hc. destruct (decide (sv' = sv)) as [->|Hne]; [|by apply pending_set_other].
  apply pending_set_own. destruct Hp as (x & Hx & Hev). exists x. split; [|done].
  destruct Hq as [(-> & -> & _)|(Hr & Hq & _)]; [done|].
  rewrite Hq in Hx. apply elem_of_cons in Hx as [->|Hx]; [|done].
  destruct Hc as [Hc|[Hc|Hc]]; [done| |congruence]. lia.
Qed.

Lemma consume_pending sv x rc p x' b s :
  p2_ok timer (fw_world s) ->
  tcp_shift_pacer_consume_timer (fw_world s).2 (pacer_of sv (fw_world s).1) x = (rc, p, x', b) ->
  p2_ok timer (set_pacer sv p (fw_world s).1, b) /\
  forall sv' f g, p2_pending sv' (fw_world s) f g -> p2_pending sv' (set_pacer sv p (fw_world s).1, b) f g.
Proof.
  intros Hok E. pose proof (proj1 Hok sv) as Hwf.
  destruct (consume_ok timer _ _ _ _ _ _ _ Hwf E) as (Hwf' & _ & Hq & _).
  split; [apply p2_ok_set; [done|by eapply consume_own|done]|].
  intros sv' f g Hp. destruct (decide (sv' = sv)) as [->|Hne]; [|by apply pending_set_other].
  apply pending_set_own. by rewrite Hq.
Qed.

(** Each of these is a step the adapter's theorem knows. *)
Lemma p2_step_wakes s s' : p2_ok timer (fw_world s) -> p2_step s s' -> wake_step s s'.
Proof.
  intros Hok Hst.
  destruct Hst as [ev s|now s e w Hpop He|now s e w Hpop He|sv now s e w Hpop He|sv now s e w Hpop
    |sv fn arg f g d n s Hfn|sv fn arg f g s Hfn Hne|sv x rc p x' b s Hc|loop b s Hp Ht].
  - apply wake_hook.
  - destruct (pops_ok SvPacing now s 1 e w ltac:(lia) Hok Hpop) as [H1 H2]. apply wake_pacing; [done|].
    intros Hx. apply H2; [done|by left].
  - destruct (pops_ok SvRecovery now s 1 e w ltac:(lia) Hok Hpop) as [H1 H2]. apply wake_recovery; [done|].
    intros Hx. apply H2; [done|by left].
  - destruct (pops_ok sv now s 1 e w ltac:(lia) Hok Hpop) as [H1 H2]. apply wake_elsewhere; [done|].
    intros sv' Hx. apply H2; [done|auto].
  - destruct (pops_ok sv now s 0 e w ltac:(lia) Hok Hpop) as [H1 H2]. apply wake_elsewhere; [done|].
    intros sv' Hx. apply H2; [done|auto].
  - destruct (p2_schedule_law timer sv fn (fw_world s) arg f g d n Hfn Hok) as (H1 & _ & H3).
    apply wake_elsewhere; [done|]. intros sv' Hx. by apply H3.
  - destruct (p2_cancel_law timer sv fn (fw_world s) arg f g Hfn Hok) as (H1 & H3).
    apply wake_elsewhere; [done|]. intros sv' Hx. apply H3; [by right|done].
  - destruct (consume_pending _ _ _ _ _ _ _ Hok Hc) as [H1 H2]. apply wake_elsewhere; [done|].
    intros sv' Hx. by apply H2.
  - destruct Hok as [H1 H2]. apply wake_elsewhere.
    + split; cbn [fst snd].
      * intros sv. destruct (H1 sv) as (A1 & A2 & A3 & A4). specialize (Ht sv). rewrite Hp in *.
        unfold pacer_wf. by rewrite Ht.
      * pose proof (Hp SvPacing) as Hp1. pose proof (Hp SvRecovery) as Hp2. cbn in Hp1, Hp2. congruence.
    + intros sv (e & He & Hev). exists e. cbn. by rewrite Hp.
Qed.

Lemma p2_life_woken s s' : rtc p2_step s s' -> woken s -> woken s'.
Proof.
  induction 1 as [|s1 s2 s3 H1 _ IH]; [done|]. intros Hs. apply IH, (wake_step_woken s1); [|done].
  apply p2_step_wakes; [apply Hs|done].
Qed.

(** A flow of the configured process that has scheduled nothing yet. *)
Record starts_in (w : cc_world T) s : Prop := {
  si_pacing : pv_ops (gl_pacing (fw_gl s)) = pv_ops (gl_pacing (wd_gl w));
  si_recovery : rv_ops (gl_recovery (fw_gl s)) = rv_ops (gl_recovery (wd_gl w));
  si_ok : p2_ok timer (fw_world s);
  si_idle : forall sv, scheduled_of sv (fw_ad s) = false
}.

Lemma starts_woken w s : configured w -> starts_in w s -> woken s.
Proof.
  intros [C1 C2 _ _] [H1 H2 H3 H4]. split.
  - split; [by rewrite H1|by rewrite H2|done].
  - intros sv Hsc. by rewrite H4 in Hsc.
Qed.

(** The callbacks run that release on the flow the registry names. *)
Lemma pacer_release_resumes (w : cc_world T) e now ap a pp :
  registry_lookup (gl_pacing (wd_gl w)) (ev_flow_id e) (ev_generation e) = Some ap ->
  wd_adapters w !! ap = Some a -> ad_pcb a = Some pp ->
  tcp_shift_p2_pacer_release w (Some e) now = run_flow w ap pp (resume_paced_flow now).
Proof. intros H1 H2 H3. cbn. unfold tcp_shift_lwip_cc_resume_paced. by rewrite H1, H2, H3. Qed.
Lemma recovery_release_resumes (w : cc_world T) e now ap a pp :
  registry_lookup (gl_pacing (wd_gl w)) (ev_flow_id e) (ev_generation e) = Some ap ->
  wd_adapters w !! ap = Some a -> ad_pcb a = Some pp ->
  tcp_shift_p2_recovery_release w (Some (recovery_event_of e)) now
    = run_flow w ap pp (resume_recovery_flow (ev_bytes e) now).
Proof. intros H1 H2 H3. cbn. unfold tcp_shift_lwip_cc_resume_recovery_timer. cbn. by rewrite H1, H2, H3. Qed.

(** An event of the flow is in the loop's queue. *)
Definition queued sv s : Prop := exists e, e ∈ queue (pacer_of sv (fw_world s).1) /\ own_event s e = true.

End Life.

(** C36. No wake-up of a flow is lost between the adapter and the event loop of
    the product process. Once the process has configured both services, take a
    flow that has scheduled nothing yet, and any number of hook calls, releases,
    expiries, and operations of the other flows on the two timer queues: a flow
    that counts on a pacing or a recovery event has that event, with its own
    identifier and generation, in the loop's queue of that service; and when it
    is then refused a segment, recovery has no credit for the segment, or the
    release that will resume the flow is in the pacing queue. *)
Theorem deferred_send_is_woken {B : Type} `{!PacerOS B} `{!ProcessOS B} `{!LwipParams}
    (timer : B -> Z -> Z) `{!PacerOSLaws B timer} `{!ProcessLaws B timer}
    `{!LwipTcp (tcp_shift_lwip_loop * B)} `{!LwipTcpLaws (tcp_shift_lwip_loop * B)}
    (w w1 w2 : cc_world (tcp_shift_lwip_loop * B)) (s s' : flow (tcp_shift_lwip_loop * B)) :
  pv_ops (gl_pacing (wd_gl w)) = NULL -> rv_ops (gl_recovery (wd_gl w)) = NULL ->
  tcp_shift_p2_configure_pacer w = (0, w1) -> tcp_shift_p2_configure_recovery_timer w1 = (0, w2) ->
  starts_in timer w2 s -> rtc (p2_step timer) s s' ->
  (forall sv, scheduled_of sv (fw_ad s') = true -> queued sv s') /\
  (forall n, let r := tcp_shift_lwip_cc_hook_segment_send_eligible n s' in
    r.1 = false -> prr_blocks n s' \/ queued SvPacing r.2).
Proof.
  intros Hp Hr E1 E2 Hst Hlife. pose proof (configure_ok w w1 w2 Hp Hr E1 E2) as Hc.
  pose proof (p2_life_woken timer s s' Hlife (starts_woken timer w2 s Hc Hst)) as Hs.
  split; [intros sv; apply Hs|]. intros n. cbn zeta. intros Hf.
  destruct (hook_waits n s' Hf) as [Hb|Hb]; [by left|right].
  pose proof (wake_event (EvSendEligible n) s' Hs) as [_ Hm]. cbn [run_event] in Hm. unfold int_of in Hm.
  revert Hm Hb. rewrite bind_run. cbn [ret fst snd]. intros Hm Hb. by apply (Hm SvPacing).
Qed.

(** ** A concrete process *)

Module SampleProcess.
(** The clock stands at one second; lwIP's output asks for the window once. *)
Abbreviation T := (tcp_shift_lwip_loop * SampleOS.world)%type.
#[global] Instance process : ProcessOS SampleOS.world := {|
  proc_clock b := (Some (1, 0), b);
  proc_alloc b _ := (true, b)
|}.
#[global] Instance process_laws : ProcessLaws SampleOS.world SampleOS.timer.
Proof. by split. Qed.
#[global] Instance tcp : LwipTcp T := {|
  tcp_output := let! _ := run_events [EvEffectiveCwnd 0] in ret 0;
  tcp_shift_tcp_rack_rexmit_due := ret 0;
  tcp_shift_tcp_tlp_probe := ret (0, (0, 0, false))
|}.
#[global] Instance tcp_laws : LwipTcpLaws T.
Proof.
  split; intros s; [exists [EvEffectiveCwnd 0]|by exists []|by exists []].
  cbn [tcp_output tcp]. by rewrite bind_run.
Qed.

(** A loop with two empty pacers, on the timers 3 and 4. *)
Definition loop0 : tcp_shift_lwip_loop :=
  zero_loop <| lp_epoll_fd := 5 |> <| lp_pacer := SampleOS.p1 |>
            <| lp_recovery_timer := SampleOS.p1 <| pc_timer_fd := 4 |> |>.
Definition w0 : cc_world T := mk_cc_world (loop0, [(3, 0)]) zero_globals ∅ ∅ 1.
Definition w1 : cc_world T := (tcp_shift_p2_configure_pacer w0).2.
Definition w2 : cc_world T := (tcp_shift_p2_configure_recovery_timer w1).2.

(** A BBR flow of the process, then after 20000 bytes at once, then after a
    send that is deferred. *)
Definition bound : flow T :=
  (tcp_shift_lwip_cc_adapter_bind true (mk_cc_flow (wd_world w2) (wd_gl w2) 100 zero_adapter 200 example_pcb)).2.
Definition fresh : flow T := (tcp_shift_lwip_cc_apply_internal_bbr 7 bound).2.
Definition sent : flow T := (run_event (EvSegmentTx 1 5000 20000) fresh).2.
Definition deferred : flow T := (run_event (EvSendEligible 1000) sent).2.

Lemma fresh_starts : starts_in SampleOS.timer w2 fresh.
Proof.
  split; [by vm_compute|by vm_compute| |by intros []; vm_compute].
  assert (E : fw_world fresh = wd_world w2) by (by vm_compute). rewrite E.
  destruct (pacer_reach_wf SampleOS.timer 2 true SampleOS.p1 SampleOS.w1) as [(H1 & H2 & H3 & H4) _];
    [lia|apply SampleOS.reach1|].
  split; [|by vm_compute]. intros []; split_and!; try done.
Qed.
End SampleProcess.

Lemma deferred_send_is_woken_witness :
  let s := SampleProcess.deferred in
  (scheduled_of SvPacing (fw_ad s) = true /\ queued SvPacing s) /\
  ((tcp_shift_lwip_cc_hook_segment_send_eligible 500 s).1 = false /\
   (prr_blocks 500 s \/ queued SvPacing (tcp_shift_lwip_cc_hook_segment_send_eligible 500 s).2)).
Proof.
  cbn zeta.
  destruct (deferred_send_is_woken SampleOS.timer SampleProcess.w0 SampleProcess.w1 SampleProcess.w2
              SampleProcess.fresh SampleProcess.deferred) as [H1 H2].
  - reflexivity.
  - reflexivity.
  - vm_compute. reflexivity.
  - vm_compute. reflexivity.
  - apply SampleProcess.fresh_starts.
  - apply (rtc_l _ _ SampleProcess.sent); [apply (p2_hook _ (EvSegmentTx 1 5000 20000))|].
    apply (rtc_l _ _ SampleProcess.deferred); [apply (p2_hook _ (EvSendEligible 1000))|]. apply rtc_refl.
  - assert (Hs : scheduled_of SvPacing (fw_ad SampleProcess.deferred) = true) by (vm_compute; reflexivity).
    assert (Hf : (tcp_shift_lwip_cc_hook_segment_send_eligible 500 SampleProcess.deferred).1 = false)
      by (vm_compute; reflexivity).
    split; split; [exact Hs|exact (H1 SvPacing Hs)|exact Hf|exact (H2 500 Hf)].
Defined.
