(* ===== verification/Qualification.v ===== *)
(** * The pacing qualification controller ([src/lwip/cc_pacing_qualification.c])

    A build of the adapter for pacing experiments: the loss-based controllers
    with a rate derived from the window, optionally capped, and a table of
    batch allowances that lets a flow send a quantum between two tests of its
    pacing deadline. The callbacks wrap those of another hook table, the one
    the first attached flow had. The state is one flow with the table, the base
    table, and what the flow's hook and handle point to in this build. The
    listeners are registered in the heap of [AdapterWorld.v]. *)

From Stdlib Require Import ZArith Lia Bool List Ascii String.
From stdpp Require Import base tactics numbers list gmap relations.
From S2P Require Import Prelude CString StateMonad CC Observation Reno Cubic CubicController Registry TransportPacing.
From S2P Require Import AdapterData AdapterDelivery AdapterPacing AdapterRecovery AdapterRate.
From S2P Require Import AdapterPolicy Adapter Selector BbrInternal AdapterHooks AdapterWorld.
Local Open Scope Z_scope.

Abbreviation TCP_SHIFT_PACING_QUALIFICATION_MAX_QUANTUM_FLOWS := 64%nat.

(** ** Modes *)

Definition mode_is (mode : option cstring) (names : list string) : bool :=
  match mode with
  | None => false
  | Some m => existsb (fun n => str_eqb m (lit n)) names
  end.

Definition tcp_shift_pacing_qualification_linux_mode (mode : option cstring) : bool :=
  mode_is mode ["linux"; "linux-cap"; "linux-quantum"; "linux-cap-quantum"]%string.
Definition tcp_shift_pacing_qualification_quantum_mode (mode : option cstring) : bool :=
  mode_is mode ["linux-quantum"; "linux-cap-quantum"]%string.

(** The digits of a cap; [None] for -1. *)
Fixpoint cap_digits (cursor : cstring) (parsed : Z) : option Z :=
  match cursor with
  | [] => Some parsed
  | c :: cursor' =>
      if (code c <? 48) || (code c >? 57) then None
      else
        let digit := code c - 48 in
        if parsed >? (UINT64_MAX - digit) / 10 then None
        else cap_digits cursor' (parsed *w64 10 +w64 digit)
  end.

(** The two environment variables; [None] for -1, 0 for no cap. *)
Definition tcp_shift_pacing_qualification_linux_rate_cap (mode value : option cstring) : option Z :=
  if negb (mode_is mode ["linux-cap"; "linux-cap-quantum"]%string) then Some 0
  else
    match value with
    | None | Some [] => None
    | Some text =>
        match cap_digits text 0 with
        | None => None
        | Some parsed => if parsed =? 0 then None else Some parsed
        end
    end.

(** ** Hook tables *)

Record hook_vtable (S : Type) := mk_hook_vtable {
  hv_on_ack_begin : ptr (M S unit);
  hv_on_ack : ptr (Z -> M S Z);
  hv_on_ack_observe : ptr (Z -> M S Z);
  hv_on_sack : ptr (Z -> list tcp_shift_lwip_sack_range -> M S Z);
  hv_on_loss : ptr (Z -> M S Z);
  hv_on_ecn : ptr (M S Z);
  hv_on_ecn_rto_gate : ptr (bool -> M S unit);
  hv_on_rack_retrans_loss : ptr (Z -> M S Z);
  hv_on_tlp_loss : ptr (Z -> M S Z);
  hv_on_tlp_dupack : ptr (bool -> M S unit);
  hv_on_timeout : ptr (M S Z);
  hv_on_recovery_exit : ptr (Z -> M S Z);
  hv_rack_loss_status : ptr (Z -> M S (Z * Z));
  hv_prr_active : ptr (M S bool);
  hv_effective_cwnd : ptr (M S Z);
  hv_on_segment_send_eligible : ptr (Z -> M S Z);
  hv_on_segment_tx : ptr (Z -> Z -> Z -> M S unit);
  hv_on_segment_acked : ptr (Z -> Z -> M S unit)
}.
Arguments mk_hook_vtable {S}.
Arguments hv_on_ack_begin {S}. Arguments hv_on_ack {S}. Arguments hv_on_ack_observe {S}.
Arguments hv_on_sack {S}. Arguments hv_on_loss {S}. Arguments hv_on_ecn {S}.
Arguments hv_on_ecn_rto_gate {S}. Arguments hv_on_rack_retrans_loss {S}. Arguments hv_on_tlp_loss {S}.
Arguments hv_on_tlp_dupack {S}. Arguments hv_on_timeout {S}. Arguments hv_on_recovery_exit {S}.
Arguments hv_rack_loss_status {S}. Arguments hv_prr_active {S}. Arguments hv_effective_cwnd {S}.
Arguments hv_on_segment_send_eligible {S}. Arguments hv_on_segment_tx {S}. Arguments hv_on_segment_acked {S}.

(** The tables of the adapter, the selector and the BBR sidecar. *)
Section Tables.
Context {W : Type} `{!AdapterOS W} `{!LwipParams}.

Definition tcp_shift_lwip_cc_hook_ops : hook_vtable (flow W) := {|
  hv_on_ack_begin := Some tcp_shift_lwip_cc_prr_ack_begin;
  hv_on_ack := Some tcp_shift_lwip_cc_on_ack;
  hv_on_ack_observe := Some tcp_shift_lwip_cc_on_ack_observe;
  hv_on_sack := Some tcp_shift_lwip_cc_on_sack;
  hv_on_loss := Some tcp_shift_lwip_cc_on_loss;
  hv_on_ecn := Some tcp_shift_lwip_cc_on_ecn;
  hv_on_ecn_rto_gate := Some tcp_shift_lwip_cc_on_ecn_rto_gate;
  hv_on_rack_retrans_loss := Some tcp_shift_lwip_cc_on_rack_retrans_loss;
  hv_on_tlp_loss := Some tcp_shift_lwip_cc_on_tlp_loss;
  hv_on_tlp_dupack := Some tcp_shift_lwip_cc_on_tlp_dupack;
  hv_on_timeout := Some tcp_shift_lwip_cc_on_timeout;
  hv_on_recovery_exit := Some tcp_shift_lwip_cc_on_recovery_exit;
  hv_rack_loss_status := Some tcp_shift_lwip_cc_rack_loss_status;
  hv_prr_active := Some tcp_shift_lwip_cc_prr_active;
  hv_effective_cwnd := Some tcp_shift_lwip_cc_effective_cwnd;
  hv_on_segment_send_eligible := Some tcp_shift_lwip_cc_on_segment_send_eligible;
  hv_on_segment_tx := Some tcp_shift_lwip_cc_on_segment_tx;
  hv_on_segment_acked := Some tcp_shift_lwip_cc_on_segment_acked
|}.

Definition tcp_shift_cc_selector_pacing_hook_ops : hook_vtable (flow W) := {|
  hv_on_ack_begin := Some tcp_shift_cc_selector_pacing_on_ack_begin;
  hv_on_ack := Some tcp_shift_cc_selector_pacing_on_ack;
  hv_on_ack_observe := Some tcp_shift_cc_selector_pacing_on_ack_observe;
  hv_on_sack := Some tcp_shift_cc_selector_pacing_on_sack;
  hv_on_loss := Some tcp_shift_cc_selector_pacing_on_loss;
  hv_on_ecn := Some tcp_shift_cc_selector_pacing_on_ecn;
  hv_on_ecn_rto_gate := Some tcp_shift_cc_selector_pacing_on_ecn_rto_gate;
  hv_on_rack_retrans_loss := Some tcp_shift_cc_selector_pacing_on_rack_retrans_loss;
  hv_on_tlp_loss := Some tcp_shift_cc_selector_pacing_on_tlp_loss;
  hv_on_tlp_dupack := Some tcp_shift_cc_selector_pacing_on_tlp_dupack;
  hv_on_timeout := Some tcp_shift_cc_selector_pacing_on_timeout;
  hv_on_recovery_exit := Some tcp_shift_cc_selector_pacing_on_recovery_exit;
  hv_rack_loss_status := Some tcp_shift_cc_selector_pacing_rack_loss_status;
  hv_prr_active := Some tcp_shift_cc_selector_pacing_prr_active;
  hv_effective_cwnd := Some tcp_shift_cc_selector_pacing_effective_cwnd;
  hv_on_segment_send_eligible := Some tcp_shift_cc_selector_pacing_send_eligible;
  hv_on_segment_tx := Some tcp_shift_cc_selector_pacing_on_segment_tx;
  hv_on_segment_acked := Some tcp_shift_cc_selector_pacing_on_segment_acked
|}.

Definition tcp_shift_lwip_bbr_hook_ops : hook_vtable (flow W) := {|
  hv_on_ack_begin := Some tcp_shift_lwip_bbr_hook_ack_begin;
  hv_on_ack := Some tcp_shift_lwip_bbr_hook_ack;
  hv_on_ack_observe := Some tcp_shift_lwip_bbr_hook_ack_observe;
  hv_on_sack := Some tcp_shift_lwip_bbr_hook_sack;
  hv_on_loss := Some tcp_shift_lwip_bbr_hook_loss;
  hv_on_ecn := NULL;
  hv_on_ecn_rto_gate := NULL;
  hv_on_rack_retrans_loss := Some tcp_shift_lwip_bbr_hook_rack_retrans_loss;
  hv_on_tlp_loss := Some tcp_shift_lwip_bbr_hook_tlp_loss;
  hv_on_tlp_dupack := Some tcp_shift_lwip_bbr_hook_tlp_dupack;
  hv_on_timeout := Some tcp_shift_lwip_bbr_hook_timeout;
  hv_on_recovery_exit := Some tcp_shift_lwip_bbr_hook_recovery_exit;
  hv_rack_loss_status := Some tcp_shift_lwip_bbr_hook_rack_loss_status;
  hv_prr_active := NULL;
  hv_effective_cwnd := Some tcp_shift_lwip_bbr_hook_effective_cwnd;
  hv_on_segment_send_eligible := Some tcp_shift_lwip_bbr_hook_send_eligible;
  hv_on_segment_tx := Some tcp_shift_lwip_bbr_hook_segment_tx;
  hv_on_segment_acked := Some tcp_shift_lwip_bbr_hook_segment_acked
|}.

Definition hook_tables (r : hook_ops_ref) : hook_vtable (flow W) :=
  match r with
  | HookAdapter => tcp_shift_lwip_cc_hook_ops
  | HookSelector => tcp_shift_cc_selector_pacing_hook_ops
  | HookBbr => tcp_shift_lwip_bbr_hook_ops
  end.

(** The dispatch of [AdapterHooks.v] is the lookup in these tables. *)
Lemma dispatch_is_table {A} (f : hook_vtable (flow W) -> ptr (M (flow W) A)) (unbound : M (flow W) A) s h t :
  (tcp_shift_lwip_cc_hook_get s).1 = Some h -> hk_ops h = Some t ->
  hook_dispatch unbound (default unbound (f tcp_shift_lwip_cc_hook_ops))
    (default unbound (f tcp_shift_cc_selector_pacing_hook_ops)) (default unbound (f tcp_shift_lwip_bbr_hook_ops)) s
  = default unbound (f (hook_tables t)) s.
Proof.
  intros Hg Ht. unfold hook_dispatch. rewrite bind_run.
  replace (tcp_shift_lwip_cc_hook_get s).2 with s by done. rewrite Hg, Ht. by destruct t.
Qed.

End Tables.

(** ** The sidecar *)

Record quantum_flow := mk_quantum_flow {
  qf_adapter : ptr Z;
  qf_rate_bytes_per_sec : Z;
  qf_grants : Z;
  qf_quantum_bytes : Z;
  qf_remaining_bytes : Z
}.
#[export] Instance eta_quantum_flow : Eta quantum_flow := fun r =>
  mk_quantum_flow (qf_adapter r) (qf_rate_bytes_per_sec r) (qf_grants r) (qf_quantum_bytes r)
    (qf_remaining_bytes r).
#[export] Instance quantum_flow_eq_dec : EqDecision quantum_flow.
Proof. solve_decision. Defined.
Definition zero_quantum_flow : quantum_flow := mk_quantum_flow NULL 0 0 0 0.
#[export] Instance quantum_flow_inhabited : Inhabited quantum_flow := populate zero_quantum_flow.

(** The tables and vtables a flow of this build can point to. *)
Inductive quantum_hook_ref := BaseHook (ops : hook_ops_ref) | QuantumHook.
Inductive quantum_ops_ref := RawOps (ops : cc_ops_ref) | LinuxReno | LinuxCubic | FixedReno.

(** [q_self] is the callbacks' [arg], the adapter; [q_hook] and [q_ops] are the
    flow's [hook.ops] and [controller.ops], [q_state] is [controller.state];
    [q_base] is the base table. *)
Record qual (F : Type) := mk_qual {
  q_flow : F;
  q_self : Z;
  q_hook : ptr quantum_hook_ref;
  q_ops : ptr quantum_ops_ref;
  q_state : ptr cc_state_ref;
  q_flows : list quantum_flow;
  q_base : ptr hook_ops_ref
}.
Arguments mk_qual {F}. Arguments q_flow {F}. Arguments q_self {F}. Arguments q_hook {F}.
Arguments q_ops {F}. Arguments q_state {F}. Arguments q_flows {F}. Arguments q_base {F}.
#[export] Instance eta_qual F : Eta (qual F) := fun r =>
  mk_qual (q_flow r) (q_self r) (q_hook r) (q_ops r) (q_state r) (q_flows r) (q_base r).

Fixpoint quantum_index (adapter : ptr Z) (flows : list quantum_flow) : option nat :=
  match flows with
  | [] => None
  | f :: flows' => if bool_decide (qf_adapter f = adapter) then Some 0%nat
                   else S <$> quantum_index adapter flows'
  end.

Definition tcp_shift_pacing_qualification_quantum_find (adapter : Z) (flows : list quantum_flow)
    : option nat := quantum_index (Some adapter) flows.

(** The slot, cleared, and the table with it. *)
Definition tcp_shift_pacing_qualification_quantum_alloc (adapter : Z) (flows : list quantum_flow)
    : option nat * list quantum_flow :=
  let fresh := zero_quantum_flow <| qf_adapter := Some adapter |> in
  match tcp_shift_pacing_qualification_quantum_find adapter flows with
  | Some i => (Some i, <[i := fresh]> flows)
  | None =>
      match quantum_index NULL flows with
      | Some i => (Some i, <[i := fresh]> flows)
      | None => (None, flows)
      end
  end.

(** [quantum_refresh] of a slot, from the flow's rate and segment size. *)
Definition refresh_slot (rate mss : Z) (f : quantum_flow) : quantum_flow :=
  let quantum := tcp_shift_transport_pacing_quantum_bytes rate mss in
  let f := if negb (qf_rate_bytes_per_sec f =? rate) || negb (qf_quantum_bytes f =? quantum)
           then f <| qf_remaining_bytes := 0 |> else f in
  f <| qf_rate_bytes_per_sec := rate |> <| qf_quantum_bytes := quantum |>.

Section Callbacks.
Context {W : Type} `{!AdapterOS W} `{!LwipParams}.
Local Abbreviation F := (flow W).
Local Abbreviation Q := (qual F).
(** The other modules' tables, whatever they do. *)
Context (tables : hook_ops_ref -> hook_vtable F).

Definition on_flow {A} (m : M F A) : M Q A := fun s =>
  let '(x, f) := m (q_flow s) in (x, s <| q_flow := f |>).
Definition upd_slot_at (i : nat) (g : quantum_flow -> quantum_flow) : M Q unit :=
  modify (fun s => s <| q_flows := alter g i (q_flows s) |>).

Definition base_table (s : Q) : ptr (hook_vtable F) := tables <$> q_base s.

(** A callback of the base table, or a value without one. *)
Definition from_base {A} (entry : hook_vtable F -> ptr (M F A)) (absent : A) : M Q A := fun s =>
  match base_table s with
  | None => (absent, s)
  | Some t => match entry t with None => (absent, s) | Some m => on_flow m s end
  end.

Definition own_slot : M Q (option nat) :=
  gets (fun s => tcp_shift_pacing_qualification_quantum_find (q_self s) (q_flows s)).

(** The slot found is this adapter's, so its rate and segment size are read. *)
Definition tcp_shift_pacing_qualification_quantum_refresh (slot : option nat) : M Q unit :=
  match slot with
  | None => ret tt
  | Some i =>
      let! s := gets (fun s => s) in
      let a := fw_ad (q_flow s) in
      let mss := if is_null (ad_pcb a) then 0 else pb_mss (fw_pcb (q_flow s)) in
      upd_slot_at i (refresh_slot (ad_pacing_rate_bytes_per_sec a) mss)
  end.

(** A callback of the base table, then a refresh. *)
Definition base_then_refresh (m : M Q Z) : M Q Z :=
  let! result := m in
  let! slot := own_slot in
  tcp_shift_pacing_qualification_quantum_refresh slot ;;
  ret result.

(** ** The wrapping hook table *)

Definition tcp_shift_pacing_qualification_quantum_on_ack_begin : M Q unit :=
  from_base hv_on_ack_begin tt.
Definition tcp_shift_pacing_qualification_quantum_on_ack_observe (acked_bytes : Z) : M Q Z :=
  from_base (fun t => (fun f => f acked_bytes) <$> hv_on_ack_observe t) 0.
Definition tcp_shift_pacing_qualification_quantum_on_sack (ack_seq : Z)
    (ranges : list tcp_shift_lwip_sack_range) : M Q Z :=
  from_base (fun t => (fun f => f ack_seq ranges) <$> hv_on_sack t) 0.
Definition tcp_shift_pacing_qualification_quantum_on_recovery_exit (ack_seq : Z) : M Q Z :=
  from_base (fun t => (fun f => f ack_seq) <$> hv_on_recovery_exit t) 0.
Definition tcp_shift_pacing_qualification_quantum_prr_active : M Q bool :=
  from_base hv_prr_active false.
Definition tcp_shift_pacing_qualification_quantum_on_ack (acked_bytes : Z) : M Q Z :=
  base_then_refresh (from_base (fun t => (fun f => f acked_bytes) <$> hv_on_ack t) 0).
Definition tcp_shift_pacing_qualification_quantum_on_loss (lost_bytes : Z) : M Q Z :=
  base_then_refresh (from_base (fun t => (fun f => f lost_bytes) <$> hv_on_loss t) 0).
Definition tcp_shift_pacing_qualification_quantum_on_rack_retrans_loss (lost_bytes : Z) : M Q Z :=
  base_then_refresh (from_base (fun t => (fun f => f lost_bytes) <$> hv_on_rack_retrans_loss t) 0).
Definition tcp_shift_pacing_qualification_quantum_on_tlp_dupack (sack_seen : bool) : M Q unit :=
  from_base (fun t => (fun f => f sack_seen) <$> hv_on_tlp_dupack t) tt.
Definition tcp_shift_pacing_qualification_quantum_on_tlp_loss (lost_bytes : Z) : M Q Z :=
  from_base (fun t => (fun f => f lost_bytes) <$> hv_on_tlp_loss t) 0.
Definition tcp_shift_pacing_qualification_quantum_on_ecn : M Q Z := from_base hv_on_ecn 0.
Definition tcp_shift_pacing_qualification_quantum_on_ecn_rto_gate (entering : bool) : M Q unit :=
  from_base (fun t => (fun f => f entering) <$> hv_on_ecn_rto_gate t) tt.
Definition tcp_shift_pacing_qualification_quantum_on_timeout : M Q Z :=
  base_then_refresh (from_base hv_on_timeout 0).
Definition tcp_shift_pacing_qualification_quantum_rack_loss_status (segment : Z) : M Q (Z * Z) :=
  from_base (fun t => (fun f => f segment) <$> hv_rack_loss_status t) (-1, 0).
Definition tcp_shift_pacing_qualification_quantum_effective_cwnd : M Q Z := fun s =>
  from_base hv_effective_cwnd (pb_cwnd (fw_pcb (q_flow s))) s.
Definition tcp_shift_pacing_qualification_quantum_on_segment_tx (segment seq_start payload_bytes : Z)
    : M Q unit :=
  from_base (fun t => (fun f => f segment seq_start payload_bytes) <$> hv_on_segment_tx t) tt.
Definition tcp_shift_pacing_qualification_quantum_on_segment_acked (segment payload_bytes : Z) : M Q unit :=
  from_base (fun t => (fun f => f segment payload_bytes) <$> hv_on_segment_acked t) tt.

(** The base table's test of a segment, 1 without one. *)
Definition base_eligible (payload_bytes : Z) : M Q Z :=
  from_base (fun t => (fun f => f payload_bytes) <$> hv_on_segment_send_eligible t) 1.
Definition base_tests (s : Q) : bool :=
  match base_table s with
  | Some t => negb (is_null (hv_on_segment_send_eligible t))
  | None => false
  end.

(** The test with the slot of the flow: the batch first, then the base table. *)
Definition slot_eligible (i : nat) (payload_bytes : Z) : M Q Z :=
  tcp_shift_pacing_qualification_quantum_refresh (Some i) ;;
  let! flows := gets q_flows in
  let flow := flows !!! i in
  if qf_remaining_bytes flow >=? payload_bytes then
    upd_slot_at i (fun f => f <| qf_remaining_bytes := qf_remaining_bytes f -w32 payload_bytes |>) ;;
    ret 1
  else
    upd_slot_at i (fun f => f <| qf_remaining_bytes := 0 |>) ;;
    let! eligible := base_eligible payload_bytes in
    if eligible =? 0 then ret 0
    else
      upd_slot_at i (fun f =>
        let allowance := if qf_quantum_bytes f <? payload_bytes then payload_bytes else qf_quantum_bytes f in
        f <| qf_remaining_bytes := allowance -w32 payload_bytes |> <| qf_grants := qf_grants f +w64 1 |>) ;;
      ret 1.

Definition tcp_shift_pacing_qualification_quantum_send_eligible (payload_bytes : Z) : M Q Z :=
  let! slot := own_slot in
  let! active := tcp_shift_pacing_qualification_quantum_prr_active in
  if active : bool then base_eligible payload_bytes
  else
    let! tests := gets base_tests in
    match slot with
    | Some i => if (payload_bytes =? 0) || negb tests then base_eligible payload_bytes
                else slot_eligible i payload_bytes
    | None => base_eligible payload_bytes
    end.

Definition tcp_shift_pacing_qualification_quantum_hook_ops : hook_vtable Q := {|
  hv_on_ack_begin := Some tcp_shift_pacing_qualification_quantum_on_ack_begin;
  hv_on_ack := Some tcp_shift_pacing_qualification_quantum_on_ack;
  hv_on_ack_observe := Some tcp_shift_pacing_qualification_quantum_on_ack_observe;
  hv_on_sack := Some tcp_shift_pacing_qualification_quantum_on_sack;
  hv_on_loss := Some tcp_shift_pacing_qualification_quantum_on_loss;
  hv_on_ecn := Some tcp_shift_pacing_qualification_quantum_on_ecn;
  hv_on_ecn_rto_gate := Some tcp_shift_pacing_qualification_quantum_on_ecn_rto_gate;
  hv_on_rack_retrans_loss := Some tcp_shift_pacing_qualification_quantum_on_rack_retrans_loss;
  hv_on_tlp_loss := Some tcp_shift_pacing_qualification_quantum_on_tlp_loss;
  hv_on_tlp_dupack := Some tcp_shift_pacing_qualification_quantum_on_tlp_dupack;
  hv_on_timeout := Some tcp_shift_pacing_qualification_quantum_on_timeout;
  hv_on_recovery_exit := Some tcp_shift_pacing_qualification_quantum_on_recovery_exit;
  hv_rack_loss_status := Some tcp_shift_pacing_qualification_quantum_rack_loss_status;
  hv_prr_active := Some tcp_shift_pacing_qualification_quantum_prr_active;
  hv_effective_cwnd := Some tcp_shift_pacing_qualification_quantum_effective_cwnd;
  hv_on_segment_send_eligible := Some tcp_shift_pacing_qualification_quantum_send_eligible;
  hv_on_segment_tx := Some tcp_shift_pacing_qualification_quantum_on_segment_tx;
  hv_on_segment_acked := Some tcp_shift_pacing_qualification_quantum_on_segment_acked
|}.

(** The base table is set before any flow has the wrapping one. *)
Definition tcp_shift_pacing_qualification_quantum_attach : M Q Z :=
  let! s := gets (fun s => s) in
  if is_null (ad_pcb (fw_ad (q_flow s))) then ret (-1)
  else
    match q_hook s with
    | None => ret (-1)
    | Some hook =>
        let known := match q_base s, hook with
                     | None, _ => true
                     | Some base, BaseHook ops => bool_decide (base = ops)
                     | Some _, QuantumHook => false
                     end in
        if negb known then ret (-1)
        else
          match q_base s, hook with
          | None, BaseHook ops => modify (fun s => s <| q_base := Some ops |>)
          | _, _ => ret tt
          end ;;
          let '(slot, flows) := tcp_shift_pacing_qualification_quantum_alloc (q_self s) (q_flows s) in
          match slot with
          | None => ret (-1)
          | Some i =>
              modify (fun s => s <| q_flows := flows |>) ;;
              tcp_shift_pacing_qualification_quantum_refresh (Some i) ;;
              modify (fun s => s <| q_hook := Some QuantumHook |>) ;;
              ret 0
          end
    end.

End Callbacks.

(** ** The controllers *)

Section Controllers.
Context {W : Type} `{!AdapterOS W} `{!LwipParams}.
Local Abbreviation F := (flow W).
Local Abbreviation Q := (qual F).
(** The environment: the mode and the cap. *)
Context (mode value : option cstring).

Definition tcp_shift_pacing_qualification_cwnd_limit : Z := UINT32_MAX.

(** Result: the code and [*policy]. *)
Definition tcp_shift_pacing_qualification_publish_linux_rate (transport : tcp_shift_cc_transport)
    (policy : tcp_shift_cc_policy) : M F (Z * tcp_shift_cc_policy) :=
  match tcp_shift_pacing_qualification_linux_rate_cap mode value with
  | None => ret (-1, policy)
  | Some rate_cap =>
      let! a := get_ad in
      let '(rc, paced) := tcp_shift_transport_pacing_apply_window_fallback (Some transport)
                            (smoothed_rtt_ns (ad_srtt a)) rate_cap (Some policy) in
      ret (rc, default policy paced)
  end.

(** A raw callback, then the rate. *)
Definition inner_then_rate (raw : ptr (tcp_shift_cc_policy -> F -> Z * F * tcp_shift_cc_policy))
    (transport : tcp_shift_cc_transport) (policy : tcp_shift_cc_policy) : M F (Z * tcp_shift_cc_policy) :=
  fun s =>
    match raw with
    | None => ((-1, policy), s)
    | Some f =>
        let '(result, s, policy) := f policy s in
        if negb (result =? 0) then ((result, policy), s)
        else tcp_shift_pacing_qualification_publish_linux_rate transport policy s
    end.

Definition tcp_shift_pacing_qualification_inner_init (inner : tcp_shift_cc_ops F) transport init policy
    : M F (Z * tcp_shift_cc_policy) :=
  if ops_state_size inner >? TCP_SHIFT_CC_BUILTIN_STATE_CAPACITY then ret (-1, policy)
  else
    upd_ad (fun a => a <| ad_controller_state := zero_builtin |>) ;;
    inner_then_rate ((fun f p s => f s transport init p) <$> ops_init inner) transport policy.
Definition tcp_shift_pacing_qualification_inner_ack (inner : tcp_shift_cc_ops F) transport ack policy :=
  inner_then_rate ((fun f p s => f s transport ack p) <$> ops_on_ack inner) transport policy.
Definition tcp_shift_pacing_qualification_inner_loss (inner : tcp_shift_cc_ops F) transport loss policy :=
  inner_then_rate ((fun f p s => f s transport loss p) <$> ops_on_loss inner) transport policy.
Definition tcp_shift_pacing_qualification_inner_timeout (inner : tcp_shift_cc_ops F) transport policy :=
  inner_then_rate ((fun f p s => f s transport p) <$> ops_on_timeout inner) transport policy.

Definition tcp_shift_pacing_qualification_reno_init s transport init policy :=
  as_callback (tcp_shift_pacing_qualification_inner_init (reno_vtable (W := W)) transport init policy) s.
Definition tcp_shift_pacing_qualification_reno_ack s transport ack policy :=
  as_callback (tcp_shift_pacing_qualification_inner_ack (reno_vtable (W := W)) transport ack policy) s.
Definition tcp_shift_pacing_qualification_reno_loss s transport loss policy :=
  as_callback (tcp_shift_pacing_qualification_inner_loss (reno_vtable (W := W)) transport loss policy) s.
Definition tcp_shift_pacing_qualification_reno_timeout s transport policy :=
  as_callback (tcp_shift_pacing_qualification_inner_timeout (reno_vtable (W := W)) transport policy) s.

(** The flow is paced now, which HyStart++ is told. *)
Definition tcp_shift_pacing_qualification_cubic_init s transport init policy :=
  as_callback
    (let! r := tcp_shift_pacing_qualification_inner_init (cubic_vtable (W := W)) transport init policy in
     when (r.1 =? 0) (tcp_shift_cc_selector_set_cubic_pacing (Some OpsCubic) 1) ;;
     ret r) s.
Definition tcp_shift_pacing_qualification_cubic_ack s transport ack policy :=
  as_callback (tcp_shift_pacing_qualification_inner_ack (cubic_vtable (W := W)) transport ack policy) s.
Definition tcp_shift_pacing_qualification_cubic_loss s transport loss policy :=
  as_callback (tcp_shift_pacing_qualification_inner_loss (cubic_vtable (W := W)) transport loss policy) s.
Definition tcp_shift_pacing_qualification_cubic_timeout s transport policy :=
  as_callback (tcp_shift_pacing_qualification_inner_timeout (cubic_vtable (W := W)) transport policy) s.

Definition tcp_shift_linux_paced_reno_qualification_ops : tcp_shift_cc_ops F := {|
  ops_name := Some "reno-linux-pacing-qualification"%string;
  ops_state_size := ADAPTER_SIZE;
  ops_init := Some tcp_shift_pacing_qualification_reno_init;
  ops_on_ack := Some tcp_shift_pacing_qualification_reno_ack;
  ops_on_loss := Some tcp_shift_pacing_qualification_reno_loss;
  ops_on_ecn := NULL;
  ops_on_timeout := Some tcp_shift_pacing_qualification_reno_timeout
|}.
Definition tcp_shift_linux_paced_cubic_qualification_ops : tcp_shift_cc_ops F := {|
  ops_name := Some "cubic-linux-pacing-qualification"%string;
  ops_state_size := ADAPTER_SIZE;
  ops_init := Some tcp_shift_pacing_qualification_cubic_init;
  ops_on_ack := Some tcp_shift_pacing_qualification_cubic_ack;
  ops_on_loss := Some tcp_shift_pacing_qualification_cubic_loss;
  ops_on_ecn := NULL;
  ops_on_timeout := Some tcp_shift_pacing_qualification_cubic_timeout
|}.

(** [tcp_shift_cc_init(&adapter->controller, wrapper, adapter, ...)] *)
Definition wrapper_init (ref : quantum_ops_ref) (wrapper : tcp_shift_cc_ops F) transport init
    : M Q (Z * tcp_shift_cc_policy) := fun s =>
  let '(rc, _, state, policy) :=
    tcp_shift_cc_init (Some (mk_cc NULL NULL)) (Some wrapper) (Some (q_flow s)) ADAPTER_SIZE
      (Some transport) (Some init) (Some (mk_policy 0 0 0)) in
  let s := s <| q_flow := default (q_flow s) state |> in
  ((rc, default (mk_policy 0 0 0) policy),
   if rc =? 0 then s <| q_ops := Some ref |> <| q_state := Some StateAdapter |>
   else s <| q_ops := NULL |> <| q_state := NULL |>).

Definition tcp_shift_pacing_qualification_reinit_linux : M Q Z :=
  let! ok := on_flow live in
  let! s := gets (fun s => s) in
  let pcb := fw_pcb (q_flow s) in
  let wrapper := match q_ops s with
                 | Some (RawOps OpsReno) => Some (LinuxReno, tcp_shift_linux_paced_reno_qualification_ops)
                 | Some (RawOps OpsCubic) => Some (LinuxCubic, tcp_shift_linux_paced_cubic_qualification_ops)
                 | _ => None
                 end in
  match wrapper with
  | None => ret (-1)
  | Some (ref, wrapper) =>
      if negb ok then ret (-1)
      else
        let transport := mk_transport (pb_mss pcb) (pb_snd_nxt pcb -w32 pb_lastack pcb) (pb_snd_wnd pcb)
                           tcp_shift_pacing_qualification_cwnd_limit in
        let init := mk_init (pb_cwnd pcb) (pb_ssthresh pcb) (pb_mss pcb) in
        let! r := wrapper_init ref wrapper transport init in
        let '(rc, policy) := r in
        if negb (rc =? 0) || policy_out_of_range policy tcp_shift_pacing_qualification_cwnd_limit
        then ret (-1)
        else
          on_flow (upd_ad (fun a => a <| ad_pacing_next_send_ns := 0 |>) ;; publish_policy policy) ;;
          ret 0
  end.

(** [accept] for a new connection with an adapter: whether the application's
    callback is called; otherwise the connection is aborted. *)
Definition accept_connection (linux_mode quantum_mode : bool) : M Q bool :=
  let controller_error := on_flow (note_policy (W := W) (fun st => st <| st_controller_errors :=
                                                              st_controller_errors st +w64 1 |>)) in
  if linux_mode then
    let! rc := tcp_shift_pacing_qualification_reinit_linux in
    if rc <? 0 then controller_error ;; ret false
    else
      let! rc := if quantum_mode then tcp_shift_pacing_qualification_quantum_attach else ret 0 in
      if rc <? 0 then controller_error ;; ret false else ret true
  else
    let! ok := on_flow live in
    let! s := gets (fun s => s) in
    match q_ops s, q_state s with
    | Some (RawOps OpsReno), Some StateBuiltin =>
        if ok : bool then modify (fun s => s <| q_ops := Some FixedReno |>) ;; ret true
        else controller_error ;; ret false
    | _, _ => controller_error ;; ret false
    end.

End Controllers.

(** ** Listeners *)

Record qualification_binding := mk_qualification_binding {
  qb_listener : ptr Z;
  qb_accept : ptr accept_fn;
  qb_callback_arg : callback_arg;
  qb_linux_mode : bool;
  qb_quantum_mode : bool;
  qb_used : bool
}.
Definition zero_qualification_binding : qualification_binding :=
  mk_qualification_binding NULL NULL (ArgApp 0) false false false.

(** What the accept callback does with a connection that lwIP offers: it is
    refused, the application's callback gets it as it is, or it is set up. *)
Inductive offer := OfferRefused | OfferPassed | OfferSetUp (linux_mode quantum_mode : bool).
Definition accept_offer (binding : ptr qualification_binding) (newpcb : ptr Z) (err : Z) : offer :=
  match binding with
  | None => OfferRefused
  | Some b =>
      if negb (qb_used b) || is_null (qb_accept b) then OfferRefused
      else if is_null newpcb || negb (err =? ERR_OK) then OfferPassed
      else OfferSetUp (qb_linux_mode b) (qb_quantum_mode b)
  end.

Fixpoint binding_index (p : qualification_binding -> bool) (table : list qualification_binding) : option nat :=
  match table with
  | [] => None
  | b :: table' => if p b then Some 0%nat else S <$> binding_index p table'
  end.
Definition tcp_shift_pacing_qualification_find (listener : Z) (table : list qualification_binding) : option nat :=
  binding_index (fun b => qb_used b && bool_decide (qb_listener b = Some listener)) table.
Definition tcp_shift_pacing_qualification_alloc (table : list qualification_binding) : option nat :=
  binding_index (fun b => negb (qb_used b)) table.

Section Listeners.
Context {W : Type} `{!AdapterOS W} `{!LwipParams} `{!LwipTcp W} `{!LwipApi W}.
(** The accept callback of this file is, to the modules below it, an
    application's: its name, and that of a binding as its argument. *)
Context (qualification_accept : Z) (binding_name : nat -> Z).

Definition accept_in_mode (linux : bool) (w : cc_world W) (pp : Z) (accept : ptr accept_fn) : cc_world W :=
  if linux then tcp_shift_lwip_cc_accept_selected w pp accept else tcp_shift_lwip_cc_accept w pp accept.

Definition tcp_shift_lwip_cc_accept_fixed_pacing (mode : option cstring) (w : cc_world W)
    (table : list qualification_binding) (pp : Z) (accept : ptr accept_fn)
    : cc_world W * list qualification_binding :=
  let linux := tcp_shift_pacing_qualification_linux_mode mode in
  if negb (is_listener w pp) then (accept_in_mode linux w pp accept, table)
  else
    let found := tcp_shift_pacing_qualification_find pp table in
    match accept with
    | None =>
        let linux := match found ≫= (fun i => table !! i) with Some b => qb_linux_mode b | None => false end in
        let table := match found with
                     | Some i => <[i := zero_qualification_binding]> table
                     | None => table
                     end in
        (if linux then tcp_shift_lwip_cc_accept_selected w pp NULL else accept_at pp NULL w, table)
    | Some _ =>
        match or_alloc found (tcp_shift_pacing_qualification_alloc table) with
        | None => (accept_in_mode linux w pp NULL, table)
        | Some i =>
            let b := mk_qualification_binding (Some pp) accept (callback_arg_of w pp) linux
                       (tcp_shift_pacing_qualification_quantum_mode mode) true in
            let w := set_pcb_at pp (fun pcb => pcb <| pb_callback_arg := ArgApp (binding_name i) |>) w in
            (accept_in_mode linux w pp (Some (AcceptApp qualification_accept)), <[i := b]> table)
        end
    end.

Lemma binding_before p table i j x :
  binding_index p table = Some i -> (j < i)%nat -> table !! j = Some x -> p x = false.
Proof.
  revert i j. induction table as [|b table IH]; intros i j Hi Hj Hx; [done|]. cbn in Hi.
  destruct (p b) eqn:E; [injection Hi as <-; lia|]. apply fmap_Some in Hi as (k & Hk & ->).
  destruct j as [|j]; [by injection Hx as <-|]. apply (IH k j); [done|lia|done].
Qed.
Lemma binding_lookup p table i : binding_index p table = Some i -> exists b, table !! i = Some b /\ p b = true.
Proof.
  revert i. induction table as [|b table IH]; intros i Hi; [done|]. cbn in Hi.
  destruct (p b) eqn:E; [injection Hi as <-; by exists b|]. apply fmap_Some in Hi as (k & Hk & ->). by apply IH.
Qed.
Lemma binding_none p table j x : binding_index p table = None -> table !! j = Some x -> p x = false.
Proof.
  revert j. induction table as [|b table IH]; intros j Hi Hx; [done|]. cbn in Hi.
  destruct (p b) eqn:E; [done|]. apply fmap_None in Hi. destruct j as [|j]; [by injection Hx as <-|]. by apply (IH j).
Qed.
Lemma binding_insert p table i b x :
  table !! i = Some x -> p b = true -> (forall j y, (j < i)%nat -> table !! j = Some y -> p y = false) ->
  binding_index p (<[i := b]> table) = Some i.
Proof.
  revert i. induction table as [|b0 table IH]; intros i Hi Hb Hlt; [done|]. destruct i as [|i]; [cbn; by rewrite Hb|].
  change (<[S i := b]> (b0 :: table)) with (b0 :: <[i := b]> table). cbn [binding_index].
  rewrite (Hlt 0%nat b0) by (done || lia). rewrite (IH i); [done|done|done|].
  intros j y Hj Hy. apply (Hlt (S j)); [lia|done].
Qed.

(** A registered listener is found again with its callback, its argument and
    the modes of the moment; only a full table leaves it out. *)
Lemma registered mode w table pp fn :
  is_listener w pp = true ->
  let table' := (tcp_shift_lwip_cc_accept_fixed_pacing mode w table pp (Some fn)).2 in
  (exists i, tcp_shift_pacing_qualification_find pp table' = Some i /\
     table' !! i = Some (mk_qualification_binding (Some pp) (Some fn) (callback_arg_of w pp)
       (tcp_shift_pacing_qualification_linux_mode mode) (tcp_shift_pacing_qualification_quantum_mode mode) true)) \/
  (table' = table /\ tcp_shift_pacing_qualification_find pp table = None /\
   tcp_shift_pacing_qualification_alloc table = None).
Proof.
  intros Hl. cbn zeta. unfold tcp_shift_lwip_cc_accept_fixed_pacing. rewrite Hl. cbn [negb].
  destruct (tcp_shift_pacing_qualification_find pp table) as [i|] eqn:Ef; cbn [or_alloc].
  - left. exists i. cbn [snd]. destruct (binding_lookup _ _ _ Ef) as (x & Hx & _).
    split; [|apply list_lookup_insert_eq, (lookup_lt_Some _ _ _ Hx)].
    apply (binding_insert _ _ _ _ x); [done|cbn; by rewrite bool_decide_true|]. intros j y Hj Hy. exact (binding_before _ _ _ _ _ Ef Hj Hy).
  - destruct (tcp_shift_pacing_qualification_alloc table) as [i|] eqn:Ea; [|by right].
    left. exists i. cbn [snd]. destruct (binding_lookup _ _ _ Ea) as (x & Hx & _).
    split; [|apply list_lookup_insert_eq, (lookup_lt_Some _ _ _ Hx)].
    apply (binding_insert _ _ _ _ x); [done|cbn; by rewrite bool_decide_true|]. intros j y _ Hy. exact (binding_none _ _ _ _ Ef Hy).
Qed.

End Listeners.

(** ** The cap is read exactly *)

Lemma scan_digits_ge s : forall acc, 0 <= acc -> acc <= (scan_digits s acc).1.
Proof.
  induction s as [|c s IH]; intros acc Ha; cbn; [lia|]. destruct (isdigit c) eqn:E; [|cbn; lia].
  assert (48 <= code c) by (unfold isdigit in E; lia). specialize (IH (acc * 10 + (code c - 48))). lia.
Qed.

(** The loop reads a number, and refuses other characters and overflow. *)
Lemma cap_digits_spec s : forall acc, in_u64 acc ->
  cap_digits s acc = match scan_digits s acc with
                     | (v, []) => if v <=? UINT64_MAX then Some v else None
                     | _ => None
                     end.
Proof.
  induction s as [|c s IH]; intros acc Ha; cbn [cap_digits scan_digits].
  { by replace (acc <=? UINT64_MAX) with true by lia. }
  assert (Ed : isdigit c = negb ((code c <? 48) || (code c >? 57))) by (unfold isdigit; lia).
  destruct ((code c <? 48) || (code c >? 57)) eqn:E; rewrite Ed; cbn [negb]; [done|].
  assert (H48 : 48 <= code c <= 57) by lia.
  assert (Hdiv : (UINT64_MAX - (code c - 48)) / 10 < acc <-> UINT64_MAX < acc * 10 + (code c - 48)).
  { pose proof (Z.div_mod (UINT64_MAX - (code c - 48)) 10 ltac:(lia)).
    pose proof (Z.mod_pos_bound (UINT64_MAX - (code c - 48)) 10 ltac:(lia)). lia. }
  destruct (acc >? _) eqn:E2.
  - pose proof (scan_digits_ge s (acc * 10 + (code c - 48)) ltac:(lia)) as Hge.
    destruct (scan_digits s _) as [v [|]]; [|done]. cbn in Hge. by replace (v <=? UINT64_MAX) with false by lia.
  - rewrite (u64_small (acc * 10)), u64_small by lia. apply IH. lia.
Qed.

(** A printed cap is read back; zero, more than 64 bits and any other character
    are refused. *)
Lemma linux_rate_cap_exact (text : cstring) :
  tcp_shift_pacing_qualification_linux_rate_cap (Some (lit "linux-cap")) (Some text) =
  match text, scan_digits text 0 with
  | _ :: _, (v, []) => if (0 <? v) && (v <=? UINT64_MAX) then Some v else None
  | _, _ => None
  end.
Proof.
  destruct text as [|c text]; [done|]. unfold tcp_shift_pacing_qualification_linux_rate_cap.
  replace (mode_is _ _) with true by done. cbn [negb]. rewrite cap_digits_spec by lia.
  pose proof (scan_digits_ge (c :: text) 0 ltac:(lia)) as Hge.
  destruct (scan_digits (c :: text) 0) as [v [|]]; [|done]. cbn in Hge. destruct (v <=? UINT64_MAX) eqn:E1, (v =? 0) eqn:E2, (0 <? v) eqn:E3; cbn; rewrite ?E2; done || lia.
Qed.

(** ** Batches *)

Inductive quantum_event :=
  | QAckBegin | QAck (n : Z) | QAckObserve (n : Z) | QSack (q : Z) (l : list tcp_shift_lwip_sack_range)
  | QLoss (n : Z) | QEcn | QEcnRtoGate (b : bool) | QRackRetransLoss (n : Z) | QTlpLoss (n : Z)
  | QTlpDupack (b : bool) | QTimeout | QRecoveryExit (q : Z) | QRackLossStatus (seg : Z) | QPrrActive
  | QEffectiveCwnd | QSend (n : Z) | QSegmentTx (seg q n : Z) | QSegmentAcked (seg n : Z).

Section Batches.
Context {W : Type} `{!AdapterOS W} `{!LwipParams}.
Local Abbreviation F := (flow W).
Local Abbreviation Q := (qual F).
Context (tables : hook_ops_ref -> hook_vtable F).
Implicit Types (s : Q).

Definition unit_of (m : M Q unit) : M Q Z := m ;; ret 0.

(** A call through the wrapping table. *)
Definition run_quantum (ev : quantum_event) : M Q Z :=
  let t := tcp_shift_pacing_qualification_quantum_hook_ops tables in
  match ev with
  | QAckBegin => unit_of (default (ret tt) (hv_on_ack_begin t))
  | QAck n => default (fun _ => ret 0) (hv_on_ack t) n
  | QAckObserve n => default (fun _ => ret 0) (hv_on_ack_observe t) n
  | QSack q l => default (fun _ _ => ret 0) (hv_on_sack t) q l
  | QLoss n => default (fun _ => ret 0) (hv_on_loss t) n
  | QEcn => default (ret 0) (hv_on_ecn t)
  | QEcnRtoGate b => unit_of (default (fun _ => ret tt) (hv_on_ecn_rto_gate t) b)
  | QRackRetransLoss n => default (fun _ => ret 0) (hv_on_rack_retrans_loss t) n
  | QTlpLoss n => default (fun _ => ret 0) (hv_on_tlp_loss t) n
  | QTlpDupack b => unit_of (default (fun _ => ret tt) (hv_on_tlp_dupack t) b)
  | QTimeout => default (ret 0) (hv_on_timeout t)
  | QRecoveryExit q => default (fun _ => ret 0) (hv_on_recovery_exit t) q
  | QRackLossStatus seg => let! r := default (fun _ => ret (0, 0)) (hv_rack_loss_status t) seg in ret r.1
  | QPrrActive => let! b := default (ret false) (hv_prr_active t) in ret (Z.b2z b)
  | QEffectiveCwnd => default (ret 0) (hv_effective_cwnd t)
  | QSend n => default (fun _ => ret 1) (hv_on_segment_send_eligible t) n
  | QSegmentTx seg q n => unit_of (default (fun _ _ _ => ret tt) (hv_on_segment_tx t) seg q n)
  | QSegmentAcked seg n => unit_of (default (fun _ _ => ret tt) (hv_on_segment_acked t) seg n)
  end.

Definition slot_of s : option quantum_flow :=
  quantum_index (Some (q_self s)) (q_flows s) ≫= (fun i => q_flows s !! i).

(** What a call releases on the account of the slot [f], which it leaves as
    [f'], and what a test of the base table that passed allows. *)
Definition released (ev : quantum_event) (rc : Z) (f f' : quantum_flow) : Z :=
  match ev with
  | QSend n => if negb (rc =? 0) && negb (bool_decide (f' = f)) then n else 0
  | _ => 0
  end.
Definition allowed (ev : quantum_event) (f f' : quantum_flow) : Z :=
  match ev with
  | QSend n => if qf_grants f' =? qf_grants f then 0 else Z.max (qf_quantum_bytes f') n
  | _ => 0
  end.

(** *** What a call does to the table *)

Definition keeps_owner (g : quantum_flow -> quantum_flow) : Prop := forall f, qf_adapter (g f) = qf_adapter f.
Definition alter_own (g : quantum_flow -> quantum_flow) s : list quantum_flow :=
  match quantum_index (Some (q_self s)) (q_flows s) with
  | Some i => alter g i (q_flows s)
  | None => q_flows s
  end.
(** The call changes the flow's own slot with [g] and no other. *)
Definition touched g s s' : Prop := q_self s' = q_self s /\ q_flows s' = alter_own g s.

Lemma alter_owners g (i : nat) (l : list quantum_flow) : keeps_owner g -> qf_adapter <$> alter g i l = qf_adapter <$> l.
Proof.
  intros Hg. revert i. induction l as [|f l IH]; intros [|i]; try done; cbn; [by rewrite Hg|]. f_equal. apply IH.
Qed.
Lemma index_owners x (l l' : list quantum_flow) : qf_adapter <$> l' = qf_adapter <$> l -> quantum_index x l' = quantum_index x l.
Proof.
  revert l'. induction l as [|f l IH]; intros [|f' l'] E; try done. injection E as E1 E2. cbn. rewrite E1.
  destruct (bool_decide _); [done|]. by rewrite (IH l').
Qed.
Lemma index_lookup x (l : list quantum_flow) i : quantum_index x l = Some i -> exists f, l !! i = Some f /\ qf_adapter f = x.
Proof.
  revert i. induction l as [|f l IH]; intros i E; [done|]. cbn in E. case_bool_decide as Hf.
  - injection E as <-. by exists f.
  - apply fmap_Some in E as (j & Ej & ->). by apply IH.
Qed.

Lemma alter_own_owners g s : keeps_owner g -> qf_adapter <$> alter_own g s = qf_adapter <$> q_flows s.
Proof. intros Hg. unfold alter_own. destruct (quantum_index _ _); [by apply alter_owners|done]. Qed.

Lemma touched_id s s' : q_self s' = q_self s -> q_flows s' = q_flows s -> touched id s s'.
Proof.
  intros H1 H2. split; [done|]. rewrite H2. unfold alter_own. destruct (quantum_index _ _) as [i|]; [|done].
  symmetry. by apply list_alter_id.
Qed.
Lemma touched_trans g h s1 s2 s3 :
  keeps_owner g -> touched g s1 s2 -> touched h s2 s3 -> touched (h ∘ g) s1 s3.
Proof.
  intros Hg [A1 A2] [B1 B2]. split; [congruence|]. rewrite B2. unfold alter_own. rewrite A1, A2.
  rewrite (index_owners _ (q_flows s1)) by (by apply alter_own_owners). unfold alter_own.
  destruct (quantum_index _ (q_flows s1)) as [i|]; [|done]. by rewrite list_alter_alter_eq.
Qed.
Lemma touched_slot g s s' : keeps_owner g -> touched g s s' -> slot_of s' = g <$> slot_of s.
Proof.
  intros Hg [A1 A2]. unfold slot_of. rewrite A1, A2, (index_owners _ (q_flows s)) by (by apply alter_own_owners).
  unfold alter_own. destruct (quantum_index _ _) as [i|]; [|done]. cbn. apply list_lookup_alter_eq.
Qed.

Lemma on_flow_touched {A} (m : M F A) s : touched id s (on_flow m s).2.
Proof. unfold on_flow. destruct (m (q_flow s)). by apply touched_id. Qed.
Lemma from_base_touched {A} (entry : hook_vtable F -> ptr (M F A)) absent s :
  touched id s (from_base tables entry absent s).2.
Proof.
  unfold from_base. destruct (base_table tables s) as [t|]; [|by apply touched_id].
  destruct (entry t); [apply on_flow_touched|by apply touched_id].
Qed.

Lemma upd_slot_touched g i s :
  quantum_index (Some (q_self s)) (q_flows s) = Some i -> touched g s (upd_slot_at i g s).2.
Proof. intros Hi. split; [done|]. unfold alter_own. by rewrite Hi. Qed.

Lemma refresh_owner rate mss : keeps_owner (refresh_slot rate mss).
Proof. intros f. unfold refresh_slot. by destruct (_ || _). Qed.
Lemma id_owner : keeps_owner id.
Proof. by intros f. Qed.

(** *** The account of a slot *)

Definition slot_wf (f : quantum_flow) : Prop := 0 <= qf_remaining_bytes f <= qf_quantum_bytes f /\ qf_quantum_bytes f <= UINT32_MAX.
Definition event_sized (ev : quantum_event) : Prop := match ev with QSend n => 0 <= n <= 65535 | _ => True end.
Definition accounted (ev : quantum_event) (rc : Z) (f f' : quantum_flow) : Prop :=
  released ev rc f f' + qf_remaining_bytes f' <= qf_remaining_bytes f + allowed ev f f' /\ slot_wf f'.

Lemma quantum_range rate mss : 0 <= tcp_shift_transport_pacing_quantum_bytes rate mss <= UINT32_MAX.
Proof.
  unfold tcp_shift_transport_pacing_quantum_bytes. destruct (_ || _); [lia|]. cbv zeta.
  destruct (_ >? UINT32_MAX); [lia|]. apply u32_range.
Qed.

(** A refresh can only drop the credit. *)
Lemma refresh_wf rate mss f :
  slot_wf f ->
  let f' := refresh_slot rate mss f in
  slot_wf f' /\ qf_grants f' = qf_grants f /\ (qf_remaining_bytes f' = 0 \/ f' = f).
Proof.
  intros Hf. cbn zeta. pose proof (quantum_range rate mss). unfold refresh_slot, slot_wf in *.
  destruct (_ || _) eqn:E; cbn; [split; [lia|]; auto|].
  apply orb_false_iff in E as [E1 E2]. apply negb_false_iff in E1, E2. apply Z.eqb_eq in E1, E2.
  split; [lia|]. split; [done|]. right. rewrite <- E2, <- E1. by destruct f.
Qed.

Lemma kept_accounted ev rc f : (forall n, ev <> QSend n) -> slot_wf f -> accounted ev rc f f.
Proof.
  intros Hev Hf. split; [|done]. unfold released, allowed. destruct ev; try lia. by destruct (Hev n).
Qed.
Lemma refresh_accounted rate mss ev rc f :
  (forall n, ev <> QSend n) -> slot_wf f -> accounted ev rc f (refresh_slot rate mss f).
Proof.
  intros Hev Hf. destruct (refresh_wf rate mss f Hf) as (H1 & _ & [H2|H2]); [|rewrite H2; by apply kept_accounted].
  split; [|done]. rewrite H2. unfold released, allowed, slot_wf in *. destruct ev; try lia. by destruct (Hev n).
Qed.
(** A call that only asked the base table. *)
Lemma asked_accounted n rc f : slot_wf f -> accounted (QSend n) rc f f.
Proof.
  intros Hf. split; [|done]. unfold released, allowed. rewrite bool_decide_true, Z.eqb_refl, andb_false_r by done. lia.
Qed.

(** A passed test and the batch it opens. *)
Definition grant_slot (n : Z) (f : quantum_flow) : quantum_flow :=
  let allowance := if qf_quantum_bytes f <? n then n else qf_quantum_bytes f in
  f <| qf_remaining_bytes := allowance -w32 n |> <| qf_grants := qf_grants f +w64 1 |>.

Lemma next_grant g : (u64 (g + 1) =? g) = false.
Proof. apply Z.eqb_neq. unfold u64. intros E. pose proof (Z.div_mod (g + 1) 18446744073709551616 ltac:(lia)). lia. Qed.

Lemma spend_accounted n f :
  0 < n <= 65535 -> slot_wf f -> n <= qf_remaining_bytes f ->
  accounted (QSend n) 1 f (f <| qf_remaining_bytes := qf_remaining_bytes f -w32 n |>).
Proof.
  intros Hn Hf Hr. unfold slot_wf in Hf. assert (E : qf_remaining_bytes f -w32 n = qf_remaining_bytes f - n)
    by (apply u32_small; lia).
  split; cbn; rewrite E; [|unfold slot_wf; cbn; lia]. rewrite Z.eqb_refl. case_match; lia.
Qed.
Lemma refuse_accounted n f : 0 < n -> slot_wf f -> accounted (QSend n) 0 f (f <| qf_remaining_bytes := 0 |>).
Proof. intros Hn Hf. unfold slot_wf in Hf. split; cbn; [rewrite Z.eqb_refl; lia|unfold slot_wf; cbn; lia]. Qed.
Lemma grant_accounted n f f0 :
  0 < n <= 65535 -> slot_wf f -> slot_wf f0 -> qf_grants f = qf_grants f0 -> accounted (QSend n) 1 f0 (grant_slot n f).
Proof.
  intros Hn Hf Hf0 Hg. unfold slot_wf in *. unfold grant_slot.
  set (a := if qf_quantum_bytes f <? n then n else qf_quantum_bytes f).
  assert (Ha : a = Z.max (qf_quantum_bytes f) n) by (unfold a; destruct (_ <? _) eqn:E; lia).
  assert (Hu : a -w32 n = a - n) by (apply u32_small; lia).
  split; cbn; rewrite Hu, ?Hg, ?next_grant; [|unfold slot_wf; cbn; lia]. case_match; lia.
Qed.

(** *** Every call keeps the account *)

(** A call changes only the flow's own slot, and keeps its account. *)
Definition keeps_account (ev : quantum_event) s (r : Z * Q) : Prop :=
  exists g, keeps_owner g /\ touched g s r.2 /\
    forall f, slot_of s = Some f -> slot_wf f -> accounted ev r.1 f (g f).

Lemma refresh_touched s :
  exists rate mss, touched (refresh_slot rate mss) s
    (tcp_shift_pacing_qualification_quantum_refresh (own_slot s).1 s).2.
Proof.
  exists (ad_pacing_rate_bytes_per_sec (fw_ad (q_flow s))).
  exists (if is_null (ad_pcb (fw_ad (q_flow s))) then 0 else pb_mss (fw_pcb (q_flow s))).
  unfold own_slot, gets, tcp_shift_pacing_qualification_quantum_find. cbn [fst].
  destruct (quantum_index _ _) as [i|] eqn:E; cbn [tcp_shift_pacing_qualification_quantum_refresh].
  - rewrite bind_run. by apply upd_slot_touched.
  - split; [done|]. unfold alter_own. by rewrite E.
Qed.

Lemma forwarded_accounted ev m s :
  (forall n, ev <> QSend n) -> touched id s (m s).2 -> keeps_account ev s (m s).
Proof.
  intros Hev T. exists id. split; [apply id_owner|]. split; [done|]. intros f _ Hf. by apply kept_accounted.
Qed.

Lemma refreshed_accounted ev (entry : hook_vtable F -> ptr (M F Z)) absent s :
  (forall n, ev <> QSend n) ->
  keeps_account ev s (base_then_refresh (from_base tables entry absent) s).
Proof.
  intros Hev. unfold base_then_refresh. rewrite bind_run.
  pose proof (from_base_touched entry absent s) as T1. destruct (from_base tables entry absent s) as [rc s1].
  cbn [fst snd] in *. rewrite bind_run. replace (own_slot s1).2 with s1 by done.
  destruct (refresh_touched s1) as (rate & mss & T2). rewrite bind_run. cbn [ret fst snd].
  exists (refresh_slot rate mss). split; [apply refresh_owner|].
  split; [exact (touched_trans id _ _ _ _ id_owner T1 T2)|]. intros f _ Hf. by apply refresh_accounted.
Qed.

Lemma asked_keeps n m s s1 :
  touched id s s1 -> (forall x, touched id x (m x).2) -> keeps_account (QSend n) s (m s1).
Proof.
  intros T1 Hm. exists id. split; [apply id_owner|].
  split; [exact (touched_trans id id _ _ _ id_owner T1 (Hm s1))|]. intros f _ Hf. by apply asked_accounted.
Qed.

Definition at_slot (i : nat) s : Prop := quantum_index (Some (q_self s)) (q_flows s) = Some i.

Lemma touched_at g i s s' : keeps_owner g -> touched g s s' -> at_slot i s -> at_slot i s'.
Proof.
  intros Hg [A1 A2] Hi. unfold at_slot. rewrite A1, A2, <- Hi. by apply index_owners, alter_own_owners.
Qed.
Lemma at_slot_of i s : at_slot i s -> slot_of s = Some (q_flows s !!! i).
Proof.
  intros Hi. unfold slot_of. rewrite Hi. cbn. destruct (index_lookup _ _ _ Hi) as (f & Hf & _).
  by rewrite Hf, (list_lookup_total_correct _ _ _ Hf).
Qed.

Lemma drop_owner g : keeps_owner g -> keeps_owner (fun f => g f <| qf_remaining_bytes := 0 |>).
Proof. intros Hg f. apply Hg. Qed.
Lemma grant_owner n g : keeps_owner g -> keeps_owner (fun f => grant_slot n (g f)).
Proof. intros Hg f. apply Hg. Qed.
Lemma spend_owner n g :
  keeps_owner g -> keeps_owner (fun f => g f <| qf_remaining_bytes := qf_remaining_bytes (g f) -w32 n |>).
Proof. intros Hg f. apply Hg. Qed.

(** The part after a batch that is used up: ask the base table. *)
Lemma ask_keeps rate mss i n s s2 :
  touched (refresh_slot rate mss) s s2 -> at_slot i s2 -> 0 < n <= 65535 ->
  keeps_account (QSend n) s ((upd_slot_at i (fun f => f <| qf_remaining_bytes := 0 |>) ;;
    let! eligible := base_eligible tables n in
    if eligible =? 0 then ret 0 else upd_slot_at i (grant_slot n) ;; ret 1) s2).
Proof.
  intros T Hi Hn. pose proof (refresh_owner rate mss) as Ho. pose proof (drop_owner _ Ho) as Hz.
  rewrite bind_run. pose proof (upd_slot_touched (fun f => f <| qf_remaining_bytes := 0 |>) i s2 Hi) as T3.
  pose proof (touched_trans _ _ _ _ _ Ho T T3) as T4. pose proof (touched_at _ _ _ _ (drop_owner _ id_owner) T3 Hi) as Hi3.
  destruct (upd_slot_at i _ s2) as [u s3]. cbn [fst snd] in *. rewrite bind_run.
  pose proof (from_base_touched (fun t => (fun f => f n) <$> hv_on_segment_send_eligible t) 1 s3) as T5.
  fold (base_eligible tables n) in T5. destruct (base_eligible tables n s3) as [e s4]. cbn [fst snd] in *.
  pose proof (touched_trans _ _ _ _ _ Hz T4 T5) as T6. pose proof (touched_at _ _ _ _ id_owner T5 Hi3) as Hi4.
  destruct (e =? 0).
  - exists (fun f => refresh_slot rate mss f <| qf_remaining_bytes := 0 |>). split; [done|]. split; [exact T6|].
    intros f _ Hwf. destruct (refresh_wf rate mss f Hwf) as (H1 & H2 & _). revert H1 H2.
    generalize (refresh_slot rate mss f). intros x H1 H2. unfold accounted, released, allowed, slot_wf in *.
    cbn. rewrite H2, Z.eqb_refl. lia.
  - rewrite bind_run. cbn [ret fst snd].
    exists (fun f => grant_slot n (refresh_slot rate mss f <| qf_remaining_bytes := 0 |>)).
    split; [by apply grant_owner|].
    split; [exact (touched_trans _ _ _ _ _ Hz T6 (upd_slot_touched (grant_slot n) i s4 Hi4))|].
    intros f _ Hwf. destruct (refresh_wf rate mss f Hwf) as (H1 & H2 & _). revert H1 H2.
    generalize (refresh_slot rate mss f). intros x H1 H2.
    apply grant_accounted; [done| |done|done]. unfold slot_wf in *. cbn. lia.
Qed.

Lemma slot_keeps i n s s1 :
  touched id s s1 -> at_slot i s1 -> 0 < n <= 65535 -> keeps_account (QSend n) s (slot_eligible tables i n s1).
Proof.
  intros T1 Hi Hn. destruct (refresh_touched s1) as (rate & mss & T2). revert T2.
  unfold own_slot, gets, tcp_shift_pacing_qualification_quantum_find. cbn [fst]. rewrite Hi. intros T2.
  pose proof (refresh_owner rate mss) as Ho. unfold slot_eligible. rewrite bind_run.
  destruct (tcp_shift_pacing_qualification_quantum_refresh (Some i) s1) as [u s2]. cbn [fst snd] in *.
  pose proof (touched_trans id _ _ _ _ id_owner T1 T2) as T. change (_ ∘ id) with (refresh_slot rate mss) in T.
  pose proof (touched_at _ _ _ _ Ho T2 Hi) as Hi2. rewrite bind_run. cbn [gets fst snd].
  destruct (qf_remaining_bytes (q_flows s2 !!! i) >=? n) eqn:Er; [|by apply (ask_keeps rate mss)].
  rewrite bind_run. cbn [ret fst snd].
  exists (fun f => refresh_slot rate mss f <| qf_remaining_bytes := qf_remaining_bytes (refresh_slot rate mss f) -w32 n |>).
  split; [by apply spend_owner|].
  split; [exact (touched_trans _ _ _ _ _ Ho T (upd_slot_touched _ i s2 Hi2))|].
  intros f Hf Hwf. pose proof (touched_slot _ _ _ Ho T) as E. rewrite (at_slot_of _ _ Hi2), Hf in E. injection E as E.
  rewrite E in Er. destruct (refresh_wf rate mss f Hwf) as (H1 & _ & [H3|H3]); [lia|]. rewrite H3 in *.
  apply spend_accounted; [done|done|lia].
Qed.

Lemma send_keeps n s :
  0 <= n <= 65535 -> keeps_account (QSend n) s (tcp_shift_pacing_qualification_quantum_send_eligible tables n s).
Proof.
  intros Hn. unfold tcp_shift_pacing_qualification_quantum_send_eligible. rewrite bind_run.
  replace (own_slot s).2 with s by done. rewrite bind_run.
  pose proof (from_base_touched hv_prr_active false s) as T1.
  fold (tcp_shift_pacing_qualification_quantum_prr_active tables) in T1.
  destruct (tcp_shift_pacing_qualification_quantum_prr_active tables s) as [active s1]. cbn [fst snd] in *.
  assert (Hb : forall x, touched id x (base_eligible tables n x).2) by (intros x; apply from_base_touched).
  destruct active; [by apply asked_keeps|]. rewrite bind_run. cbn [gets fst snd].
  destruct (own_slot s).1 as [i|] eqn:Ei; [|by apply asked_keeps].
  destruct ((n =? 0) || negb (base_tests tables s1)) eqn:En; [by apply asked_keeps|].
  apply slot_keeps; [done| |lia]. by apply (touched_at id _ s).
Qed.

Lemma call_keeps ev s : event_sized ev -> keeps_account ev s (run_quantum ev s).
Proof.
  intros Hev. destruct ev; cbn [run_quantum default];
    try (by apply refreshed_accounted); try (by apply send_keeps);
    apply forwarded_accounted; try done; unfold unit_of; rewrite ?bind_run; apply from_base_touched.
Qed.

(** *** Sequences of calls *)

(** What the calls release on the slot's account, and what the passed tests of
    the base table allow. *)
Fixpoint meter (evs : list quantum_event) s : Z * Z * Q :=
  match evs with
  | [] => (0, 0, s)
  | ev :: evs' =>
      let '(rc, s1) := run_quantum ev s in
      let '(r, a, s2) := meter evs' s1 in
      match slot_of s, slot_of s1 with
      | Some f, Some f' => (released ev rc f f' + r, allowed ev f f' + a, s2)
      | _, _ => (r, a, s2)
      end
  end.

(** The slots of the other flows are as they were. *)
Definition others_kept s s' : Prop :=
  q_self s' = q_self s /\ qf_adapter <$> q_flows s' = qf_adapter <$> q_flows s /\
  forall i f, q_flows s !! i = Some f -> qf_adapter f <> Some (q_self s) -> q_flows s' !! i = Some f.

Lemma touched_others g s s' : keeps_owner g -> touched g s s' -> others_kept s s'.
Proof.
  intros Hg [A1 A2]. split; [done|]. split; [rewrite A2; by apply alter_own_owners|].
  intros i f Hf Hne. rewrite A2. unfold alter_own. destruct (quantum_index _ _) as [j|] eqn:E; [|done].
  destruct (index_lookup _ _ _ E) as (f' & Hf' & Ho). rewrite list_lookup_alter_ne; [done|]. intros ->. congruence.
Qed.

Lemma others_trans s1 s2 s3 : others_kept s1 s2 -> others_kept s2 s3 -> others_kept s1 s3.
Proof.
  intros (A1 & A2 & A3) (B1 & B2 & B3). split; [congruence|]. split; [congruence|].
  intros i f Hf Hne. apply B3; [by apply A3|congruence].
Qed.

Lemma meter_ok evs : forall s f, Forall event_sized evs -> slot_of s = Some f -> slot_wf f ->
  let '(r, a, s') := meter evs s in
  exists f', slot_of s' = Some f' /\ slot_wf f' /\ r + qf_remaining_bytes f' <= qf_remaining_bytes f + a /\
    others_kept s s'.
Proof.
  induction evs as [|ev evs IH]; intros s f Hevs Hf Hwf; cbn [meter].
  { exists f. split; [done|]. split; [done|]. split; [lia|]. by split_and!. }
  apply Forall_cons in Hevs as [Hev Hevs]. destruct (call_keeps ev s Hev) as (g & Hg & T & Ha).
  specialize (Ha f Hf Hwf). pose proof (touched_slot _ _ _ Hg T) as Hs1.
  destruct (run_quantum ev s) as [rc s1]. cbn [fst snd] in *. rewrite Hf in Hs1. cbn in Hs1.
  destruct Ha as [Ha Hwf1]. specialize (IH s1 (g f) Hevs Hs1 Hwf1).
  destruct (meter evs s1) as [[r a] s2]. rewrite Hf, Hs1. destruct IH as (f' & H1 & H2 & H3 & H4).
  exists f'. split; [done|]. split; [done|]. split; [lia|]. by apply (others_trans _ s1), H4; apply (touched_others g).
Qed.

(** *** Attaching *)

Lemma insert_owner i x (l : list quantum_flow) v a :
  qf_adapter v = Some a ->
  quantum_index x l = Some i -> (forall j, (j < i)%nat -> (qf_adapter <$> l) !! j <> Some (Some a)) ->
  quantum_index (Some a) (<[i := v]> l) = Some i.
Proof.
  intros Hv. revert i. induction l as [|f l IH]; intros i Hi Hlt; [done|]. cbn in Hi. case_bool_decide as Hx.
  - injection Hi as <-. cbn. by rewrite bool_decide_true.
  - apply fmap_Some in Hi as (j & Hj & ->). change (<[S j := v]> (f :: l)) with (f :: <[j := v]> l).
    cbn [quantum_index]. rewrite bool_decide_false.
    + rewrite (IH j Hj); [done|]. intros k Hk. apply (Hlt (S k)). lia.
    + intros E. apply (Hlt 0%nat); [lia|]. cbn. by rewrite E.
Qed.
Lemma index_before x (l : list quantum_flow) i j :
  quantum_index x l = Some i -> (j < i)%nat -> (qf_adapter <$> l) !! j <> Some x.
Proof.
  revert i j. induction l as [|f l IH]; intros i j Hi Hj; [done|]. cbn in Hi. case_bool_decide as Hx.
  - injection Hi as <-. lia.
  - apply fmap_Some in Hi as (k & Hk & ->). destruct j as [|j]; cbn; [congruence|]. apply (IH k); [done|lia].
Qed.
Lemma index_none x (l : list quantum_flow) j : quantum_index x l = None -> (qf_adapter <$> l) !! j <> Some x.
Proof.
  revert j. induction l as [|f l IH]; intros j Hi; [done|]. cbn in Hi. case_bool_decide as Hx; [done|].
  apply fmap_None in Hi. destruct j as [|j]; cbn; [congruence|]. by apply IH.
Qed.

(** The slot that [alloc] gives is cleared, the adapter's, and was free or the
    adapter's before. *)
Lemma alloc_ok a l i l' :
  tcp_shift_pacing_qualification_quantum_alloc a l = (Some i, l') ->
  quantum_index (Some a) l' = Some i /\ l' = <[i := zero_quantum_flow <| qf_adapter := Some a |>]> l /\
  exists f, l !! i = Some f /\ (qf_adapter f = Some a \/ qf_adapter f = NULL).
Proof.
  unfold tcp_shift_pacing_qualification_quantum_alloc, tcp_shift_pacing_qualification_quantum_find.
  destruct (quantum_index (Some a) l) as [k|] eqn:E.
  - intros Eq. injection Eq as -> <-. destruct (index_lookup _ _ _ E) as (f & Hf & Ho).
    split; [|split; [done|exists f; auto]]. apply (insert_owner i (Some a)); [done|done|]. intros j Hj. by eapply index_before.
  - destruct (quantum_index NULL l) as [k|] eqn:E2; [|done]. intros Eq. injection Eq as -> <-.
    destruct (index_lookup _ _ _ E2) as (f & Hf & Ho).
    split; [|split; [done|exists f; auto]]. apply (insert_owner i NULL); [done|done|]. intros j _. by eapply index_none.
Qed.

Definition occupied_kept (a : Z) (l l' : list quantum_flow) : Prop :=
  forall i f, l !! i = Some f -> qf_adapter f <> Some a -> qf_adapter f <> NULL -> l' !! i = Some f.

(** Attaching fails and leaves the table alone, or the flow gets a slot without
    credit and the slots of the others stay. *)
Lemma attach_ok s rc s' :
  tcp_shift_pacing_qualification_quantum_attach s = (rc, s') ->
  q_self s' = q_self s /\
  ((rc = -1 /\ q_flows s' = q_flows s) \/
   (rc = 0 /\ q_hook s' = Some QuantumHook /\ occupied_kept (q_self s) (q_flows s) (q_flows s') /\
    (exists i f, q_flows s !! i = Some f /\ (qf_adapter f = Some (q_self s) \/ qf_adapter f = NULL) /\
       qf_adapter <$> q_flows s' = <[i := Some (q_self s)]> (qf_adapter <$> q_flows s)) /\
    exists f, slot_of s' = Some f /\ slot_wf f /\ qf_remaining_bytes f = 0)).
Proof.
  unfold tcp_shift_pacing_qualification_quantum_attach. rewrite bind_run. cbn [gets fst snd]. intros E.
  destruct (is_null _); [injection E as <- <-; auto|]. destruct (q_hook s) as [hook|]; [|injection E as <- <-; auto].
  destruct (negb _); [injection E as <- <-; auto|]. rewrite bind_run in E.
  match type of E with context [match q_base s with _ => _ end] =>
    match type of E with (let '(_, _) := _ in _) (?m s).2 = _ => set (s1 := (m s).2) in * end end.
  assert (Hs1 : q_self s1 = q_self s /\ q_flows s1 = q_flows s) by (unfold s1; by destruct (q_base s), hook).
  clearbody s1. destruct Hs1 as [Hself Hflows].
  destruct (tcp_shift_pacing_qualification_quantum_alloc (q_self s) (q_flows s)) as [slot l] eqn:Ea.
  destruct slot as [i|]; [|injection E as <- <-; rewrite Hself, Hflows; auto].
  destruct (alloc_ok _ _ _ _ Ea) as (Hi & Hl & f & Hf & Hof).
  rewrite !bind_run in E. cbn [modify fst snd] in E. set (s2 := s1 <| q_flows := l |>) in *.
  assert (Hat : at_slot i s2) by (unfold at_slot, s2; cbn; by rewrite Hself).
  destruct (refresh_touched s2) as (rate & mss & T). revert T.
  unfold own_slot, gets, tcp_shift_pacing_qualification_quantum_find. cbn [fst]. rewrite Hat. intros T.
  destruct (tcp_shift_pacing_qualification_quantum_refresh (Some i) s2) as [u s3]. cbn [fst snd ret] in *.
  injection E as <- <-. pose proof (touched_slot _ _ _ (refresh_owner rate mss) T) as Hs.
  pose proof T as [T1 T2]. split; [cbn; rewrite T1; exact Hself|]. right. split; [done|]. split; [done|].
  split; [|split].
  2:{ exists i, f. split; [done|]. split; [done|]. cbn. rewrite T2, (alter_own_owners _ s2 (refresh_owner rate mss)).
      unfold s2. cbn. by rewrite Hl, list_fmap_insert. }
  - intros j x Hj Hx1 Hx2. cbn. rewrite T2. unfold alter_own. rewrite Hat.
    assert (i <> j) by (intros ->; rewrite Hf in Hj; injection Hj as ->; by destruct Hof).
    rewrite list_lookup_alter_ne by done. unfold s2. cbn. rewrite Hl. by rewrite list_lookup_insert_ne.
  - change (slot_of (s3 <| q_hook := Some QuantumHook |>)) with (slot_of s3). rewrite Hs.
    rewrite (at_slot_of i s2 Hat). unfold s2. cbn [q_flows set_field]. cbn. rewrite Hl.
    rewrite list_lookup_total_insert_eq by (by apply lookup_lt_Some in Hf).
    eexists. split; [reflexivity|]. pose proof (quantum_range rate mss).
    unfold refresh_slot. destruct (_ || _); cbn; unfold slot_wf; cbn; lia.
Qed.

End Batches.


(** ** Slots are never freed *)

Section Slots.
Context {W : Type} `{!AdapterOS W}.
Local Abbreviation Q := (qual (flow W)).
Context (tables : hook_ops_ref -> hook_vtable (flow W)).

(** A callback of some flow, or an attachment. *)
Inductive table_step : list quantum_flow -> list quantum_flow -> Prop :=
| step_call ev (s : Q) : event_sized ev -> table_step (q_flows s) (q_flows (run_quantum tables ev s).2)
| step_attach (s : Q) : table_step (q_flows s) (q_flows (tcp_shift_pacing_qualification_quantum_attach s).2).

Definition table_full (l : list quantum_flow) : Prop := quantum_index NULL l = None.

(** A full table keeps its owners: no step clears a slot. *)
Lemma full_step l l' : table_step l l' -> table_full l -> qf_adapter <$> l' = qf_adapter <$> l.
Proof.
  intros Hst Hfull. destruct Hst as [ev s Hev|s].
  - destruct (call_keeps tables ev s Hev) as (g & Hg & T & _). by destruct (touched_others g _ _ Hg T) as (_ & H & _).
  - destruct (tcp_shift_pacing_qualification_quantum_attach s) as [rc s'] eqn:E.
    destruct (attach_ok s rc s' E) as (_ & [[_ H]|(_ & _ & _ & (i & f & Hf & [Ho|Ho] & H) & _)]); cbn [snd]; rewrite H.
    + done.
    + apply list_insert_id. by rewrite list_lookup_fmap, Hf, <- Ho.
    + destruct (index_none NULL (q_flows s) i Hfull). by rewrite list_lookup_fmap, Hf, <- Ho.
Qed.

Lemma full_steps l l' : rtc table_step l l' -> table_full l -> qf_adapter <$> l' = qf_adapter <$> l.
Proof.
  induction 1 as [|l1 l2 l3 H1 _ IH]; [done|]. intros Hf. pose proof (full_step _ _ H1 Hf) as E.
  rewrite <- E. apply IH. unfold table_full. by rewrite (index_owners _ l1).
Qed.

Lemma full_refuses (s : Q) :
  table_full (q_flows s) -> quantum_index (Some (q_self s)) (q_flows s) = None ->
  (tcp_shift_pacing_qualification_quantum_attach s).1 = -1.
Proof.
  intros Hf Hn. destruct (tcp_shift_pacing_qualification_quantum_attach s) as [rc s'] eqn:E.
  destruct (attach_ok s rc s' E) as (_ & [[-> _]|(_ & _ & _ & (i & f & Hl & [Ho|Ho] & _) & _)]); [done| |].
  - destruct (index_none _ _ i Hn). by rewrite list_lookup_fmap, Hl, <- Ho.
  - destruct (index_none _ _ i Hf). by rewrite list_lookup_fmap, Hl, <- Ho.
Qed.

Lemma reinit_table mode value (s : Q) :
  let s' := (tcp_shift_pacing_qualification_reinit_linux mode value s).2 in
  q_self s' = q_self s /\ q_flows s' = q_flows s.
Proof.
  cbn zeta. unfold tcp_shift_pacing_qualification_reinit_linux. rewrite bind_run.
  replace (on_flow live s).2 with s by (by destruct s). rewrite bind_run. cbn [gets fst snd].
  destruct (match q_ops s with Some _ => _ | None => _ end) as [[ref wrapper]|]; [|done].
  destruct (negb _); [done|]. rewrite bind_run. unfold wrapper_init.
  destruct (tcp_shift_cc_init _ _ _ _ _ _ _) as [[[rc h] st] pol]. cbn [fst snd].
  set (s1 := if rc =? 0 then _ else _).
  assert (H1 : q_self s1 = q_self s /\ q_flows s1 = q_flows s) by (unfold s1; by destruct (rc =? 0)).
  destruct (_ || _); [done|]. rewrite bind_run. cbn [ret snd].
  pose proof (on_flow_touched (upd_ad (fun a => a <| ad_pacing_next_send_ns := 0 |>) ;;
    publish_policy (default (mk_policy 0 0 0) pol)) s1) as [T1 T2].
  rewrite T1, T2. split; [apply H1|]. rewrite <- (proj2 H1). unfold alter_own.
  destruct (quantum_index _ _); [|done]. by apply list_alter_id.
Qed.

End Slots.

(** The allowance table gives out each of its slots once. When it is full,
    every connection with another adapter is aborted from then on, whatever
    connections are closed. *)
Theorem quantum_table_never_frees {W : Type} `{!AdapterOS W} (tables : hook_ops_ref -> hook_vtable (flow W))
    (l l' : list quantum_flow) (s : qual (flow W)) mode value :
  table_full l -> quantum_index (Some (q_self s)) l = None -> rtc (table_step tables) l l' -> q_flows s = l' ->
  (accept_connection mode value true true s).1 = false.
Proof.
  intros Hf Hn Hst Hs. pose proof (full_steps tables l l' Hst Hf) as E. unfold accept_connection.
  rewrite bind_run.
  pose proof (reinit_table mode value s) as Hr.
  destruct (tcp_shift_pacing_qualification_reinit_linux mode value s) as [rc s1]. cbn [fst snd] in *.
  destruct Hr as [Hr1 Hr2]. destruct (rc <? 0); [by rewrite bind_run|]. rewrite bind_run.
  rewrite (full_refuses s1).
  - change (-1 <? 0) with true. cbn match. by rewrite bind_run.
  - unfold table_full. rewrite Hr2, Hs. by rewrite (index_owners _ l).
  - rewrite Hr1, Hr2, Hs. by rewrite (index_owners _ l).
Qed.

(** ** A concrete flow *)

Module SampleQualification.
(** A Reno flow whose first hook table is the adapter's. *)
Definition tables : hook_ops_ref -> hook_vtable (flow ticks) := hook_tables.
Definition mode : option cstring := Some (lit "linux-quantum").
Definition start (flows : list quantum_flow) : qual (flow ticks) :=
  mk_qual example_flow 100 (Some (BaseHook HookAdapter)) (Some (RawOps OpsReno)) (Some StateBuiltin) flows NULL.
Definition ready : qual (flow ticks) :=
  (tcp_shift_pacing_qualification_reinit_linux mode None (start (replicate 64 zero_quantum_flow))).2.
Definition attached : qual (flow ticks) := (tcp_shift_pacing_qualification_quantum_attach ready).2.
Definition calls : list quantum_event :=
  [QSend 1000; QSegmentTx 1 5000 1000; QSend 1000; QSegmentTx 2 6000 1000; QSend 1000].
(** 64 adapters, none of which is the flow's. *)
Definition full : list quantum_flow :=
  (fun i => zero_quantum_flow <| qf_adapter := Some (Z.of_nat i) |>) <$> seq 0 64.
End SampleQualification.


Lemma quantum_table_never_frees_witness :
  (accept_connection SampleQualification.mode None true true
     (SampleQualification.start SampleQualification.full)).1 = false.
Proof.
  refine (quantum_table_never_frees SampleQualification.tables SampleQualification.full
    SampleQualification.full (SampleQualification.start SampleQualification.full)
    SampleQualification.mode None _ _ _ _).
  - vm_compute. reflexivity.
  - vm_compute. reflexivity.
  - apply rtc_refl.
  - reflexivity.
Defined.
