(* ===== verification/Probe.v ===== *)
(** * The probe listener and the platform functions

    [src/lwip/probe_listener.c]: the test services' listener, which accepts
    connections, counts and discards what they send and closes when they do.
    [src/platform.c]: the clock and the random numbers lwIP asks for. lwIP's
    calls are the operations of [ProbeTcp]; [ProbeLaws] states its documented
    ownership rules over the control blocks and buffers in use. *)

From Stdlib Require Import ZArith Lia Bool List.
From stdpp Require Import base tactics numbers gmap.
From S2P Require Import Prelude StateMonad.
Local Open Scope Z_scope.

Abbreviation ERR_OK := 0.
Abbreviation ERR_VAL := (-6).
Abbreviation ERR_ABRT := (-13).

(** [pbuf_tot_len]: [p->tot_len]. *)
Class ProbeTcp (W : Type) := {
  tcp_new_ip_type : Z -> W -> option Z * W;
  tcp_bind : Z -> Z -> Z -> W -> Z * W;
  tcp_listen_with_backlog_and_err : Z -> Z -> W -> (option Z * Z) * W;
  tcp_close : Z -> W -> Z * W;
  tcp_abort : Z -> W -> W;
  tcp_recved : Z -> Z -> W -> W;
  pbuf_free : Z -> W -> W;
  pbuf_tot_len : W -> Z -> Z;
  (** the callback argument (whether it is the listener) and the callbacks *)
  tcp_arg : Z -> bool -> W -> W;
  tcp_accept : Z -> bool -> W -> W;
  tcp_recv_and_err : Z -> W -> W
}.

Record tcp_shift_probe_listener := mk_probe {
  pl_pcb : ptr Z;
  pl_port : Z;
  pl_accepts : Z;
  pl_rx_bytes : Z;
  pl_errors : Z
}.
#[export] Instance eta_probe : Eta tcp_shift_probe_listener := fun r =>
  mk_probe (pl_pcb r) (pl_port r) (pl_accepts r) (pl_rx_bytes r) (pl_errors r).
Definition zero_probe : tcp_shift_probe_listener := mk_probe NULL 0 0 0 0.

Section Probe.
Context {W : Type} `{!ProbeTcp W}.

(** The listener's object and lwIP. *)
Record probe := mk_probe_state { pb_listener : tcp_shift_probe_listener; pb_world : W }.
Local Abbreviation P := (M probe).

Definition with_listener (f : tcp_shift_probe_listener -> tcp_shift_probe_listener) : P unit :=
  modify (fun s => mk_probe_state (f (pb_listener s)) (pb_world s)).
Definition lwip {A} (f : W -> A * W) : P A := fun s =>
  ((f (pb_world s)).1, mk_probe_state (pb_listener s) (f (pb_world s)).2).
Definition lwip_do (f : W -> W) : P unit := lwip (fun w => (tt, f w)).
Definition count_error : P unit := with_listener (fun l => l <| pl_errors := pl_errors l +w64 1 |>).

(** The callbacks' [arg] is the listener or NULL. *)
Definition tcp_shift_probe_error (arg : bool) : P unit := when arg count_error.

Definition tcp_shift_probe_recv (arg : bool) (pcb : Z) (p : ptr Z) (err : Z) : P Z :=
  if negb arg then
    match p with Some b => lwip_do (pbuf_free b) | None => ret tt end ;;
    lwip_do (tcp_abort pcb) ;; ret ERR_ABRT
  else
    match p with
    | None =>
        let! close_err := lwip (tcp_close pcb) in
        if negb (close_err =? ERR_OK) then count_error ;; lwip_do (tcp_abort pcb) ;; ret ERR_ABRT
        else ret ERR_OK
    | Some b =>
        if negb (err =? ERR_OK) then count_error ;; lwip_do (pbuf_free b) ;; ret err
        else
          let! len := gets (fun s => pbuf_tot_len (pb_world s) b) in
          with_listener (fun l => l <| pl_rx_bytes := pl_rx_bytes l +w64 len |>) ;;
          lwip_do (tcp_recved pcb len) ;;
          lwip_do (pbuf_free b) ;;
          ret ERR_OK
    end.

Definition tcp_shift_probe_accept (arg : bool) (newpcb : ptr Z) (err : Z) : P Z :=
  match newpcb with
  | None => ret ERR_VAL
  | Some pcb =>
      if negb arg || negb (err =? ERR_OK) then ret ERR_VAL
      else
        with_listener (fun l => l <| pl_accepts := pl_accepts l +w64 1 |>) ;;
        lwip_do (tcp_arg pcb true) ;;
        lwip_do (tcp_recv_and_err pcb) ;;
        ret ERR_OK
  end.

Definition tcp_shift_probe_listener_start_type (port ip_type bind_address : Z) : P Z :=
  if port =? 0 then ret (-1)
  else
    with_listener (fun _ => zero_probe <| pl_port := port |>) ;;
    let! pcb := lwip (tcp_new_ip_type ip_type) in
    match pcb with
    | None => ret (-1)
    | Some pcb =>
        let! err := lwip (tcp_bind pcb bind_address port) in
        if negb (err =? ERR_OK) then lwip_do (tcp_abort pcb) ;; ret (-1)
        else
          let! r := lwip (tcp_listen_with_backlog_and_err pcb 4) in
          match r.1 with
          | None => lwip_do (tcp_abort pcb) ;; ret (-1)
          | Some listening =>
              if negb (r.2 =? ERR_OK) then ret (-1)
              else
                with_listener (fun l => l <| pl_pcb := Some listening |>) ;;
                lwip_do (tcp_arg listening true) ;;
                lwip_do (tcp_accept listening true) ;;
                ret 0
          end
    end.

Abbreviation IPADDR_TYPE_V4 := 0.
Abbreviation IPADDR_TYPE_V6 := 6.
(** The wildcard address of a family. *)
Abbreviation IP_ADDR_ANY ip_type := (ip_type) (only parsing).

Definition tcp_shift_probe_listener_start (port : Z) : P Z :=
  tcp_shift_probe_listener_start_type port IPADDR_TYPE_V4 (IP_ADDR_ANY IPADDR_TYPE_V4).
Definition tcp_shift_probe_listener_start_ipv6 (port : Z) : P Z :=
  tcp_shift_probe_listener_start_type port IPADDR_TYPE_V6 (IP_ADDR_ANY IPADDR_TYPE_V6).

Definition tcp_shift_probe_listener_stop : P unit :=
  let! l := gets pb_listener in
  match pl_pcb l with
  | None => ret tt
  | Some pcb =>
      lwip_do (tcp_arg pcb false) ;;
      lwip_do (tcp_accept pcb false) ;;
      let! err := lwip (tcp_close pcb) in
      when (negb (err =? ERR_OK)) (count_error ;; lwip_do (tcp_abort pcb)) ;;
      with_listener (fun l => l <| pl_pcb := NULL |>)
  end.

End Probe.
Arguments probe W : clear implicits.
Arguments mk_probe_state {W}.

(** ** Ownership *)

(** lwIP's rules: a block is in use from its creation to its close or abort,
    listening replaces the block it is given, and a buffer is in use until it
    is freed. *)
Class ProbeLaws (W : Type) `{!ProbeTcp W} (pcbs bufs : W -> gset Z) := {
  new_law t w : let '(r, w') := tcp_new_ip_type t w in
    bufs w' = bufs w /\
    match r with Some p => (p ∉ pcbs w) /\ pcbs w' = {[p]} ∪ pcbs w | None => pcbs w' = pcbs w end;
  bind_law p a n w : pcbs (tcp_bind p a n w).2 = pcbs w /\ bufs (tcp_bind p a n w).2 = bufs w;
  listen_law p n w : let '((r, e), w') := tcp_listen_with_backlog_and_err p n w in
    bufs w' = bufs w /\
    match r with
    | Some l => e = ERR_OK /\ (l ∉ pcbs w ∖ {[p]}) /\ pcbs w' = {[l]} ∪ pcbs w ∖ {[p]}
    | None => pcbs w' = pcbs w
    end;
  close_law p w : let '(e, w') := tcp_close p w in
    bufs w' = bufs w /\ pcbs w' = (if e =? ERR_OK then pcbs w ∖ {[p]} else pcbs w);
  abort_law p w : pcbs (tcp_abort p w) = pcbs w ∖ {[p]} /\ bufs (tcp_abort p w) = bufs w;
  recved_law p n w : pcbs (tcp_recved p n w) = pcbs w /\ bufs (tcp_recved p n w) = bufs w;
  free_law b w : pcbs (pbuf_free b w) = pcbs w /\ bufs (pbuf_free b w) = bufs w ∖ {[b]};
  arg_law p x w : pcbs (tcp_arg p x w) = pcbs w /\ bufs (tcp_arg p x w) = bufs w;
  accept_law p x w : pcbs (tcp_accept p x w) = pcbs w /\ bufs (tcp_accept p x w) = bufs w;
  callbacks_law p w : pcbs (tcp_recv_and_err p w) = pcbs w /\ bufs (tcp_recv_and_err p w) = bufs w
}.

Section Ownership.
Context {W : Type} `{!ProbeTcp W} (pcbs bufs : W -> gset Z) `{!ProbeLaws W pcbs bufs}.
Implicit Types (s : probe W).

(** The two sets after a step. *)
Definition owns s (ps bs : gset Z) : Prop := pcbs (pb_world s) = ps /\ bufs (pb_world s) = bs.

Lemma probe_stop_ok s l ps bs :
  owns s ps bs -> pl_pcb (pb_listener s) = Some l ->
  let s' := (tcp_shift_probe_listener_stop s).2 in
  owns s' (ps ∖ {[l]}) bs /\ pl_pcb (pb_listener s') = NULL.
Proof.
  intros [Hp Hb] Hl. cbn zeta. unfold tcp_shift_probe_listener_stop. rewrite bind_run. cbn [gets fst snd]. rewrite Hl.
  rewrite !bind_run. cbn [lwip_do lwip fst snd pb_world pb_listener].
  pose proof (close_law l (tcp_accept l false (tcp_arg l false (pb_world s)))) as Hc.
  destruct (accept_law l false (tcp_arg l false (pb_world s))) as [A1 A2].
  destruct (arg_law l false (pb_world s)) as [B1 B2].
  destruct (tcp_close l _) as [e w]. cbn [fst snd]. rewrite A1, A2, B1, B2, Hp, Hb in Hc. destruct Hc as [C1 C2].
  destruct (e =? ERR_OK); cbn [negb when].
  - split; [|done]. by split.
  - rewrite bind_run. cbn. destruct (abort_law l w) as [D1 D2]. split; [|done]. split; cbn; congruence.
Qed.

Lemma probe_start_ok port t a s ps bs :
  owns s ps bs ->
  let '(rc, s') := tcp_shift_probe_listener_start_type port t a s in
  if rc =? 0
  then exists l, pl_pcb (pb_listener s') = Some l /\ (l ∉ ps) /\ owns s' ({[l]} ∪ ps) bs
  else owns s' ps bs.
Proof.
  intros [Hp Hb]. unfold tcp_shift_probe_listener_start_type. destruct (port =? 0); [by split|].
  rewrite bind_run. cbn [with_listener modify fst snd]. rewrite bind_run. cbn [lwip fst snd pb_world pb_listener].
  pose proof (new_law t (pb_world s)) as Hn. destruct (tcp_new_ip_type t (pb_world s)) as [[p|] w1]; cbn [fst snd].
  2:{ destruct Hn as [N1 N2]. split; cbn; congruence. }
  destruct Hn as (N1 & N2 & N3). rewrite bind_run. cbn [lwip fst snd pb_world pb_listener].
  destruct (bind_law p a port w1) as [B1 B2]. destruct (tcp_bind p a port w1) as [e w2]. cbn [fst snd] in *.
  rewrite Hp, Hb in *. assert (Hdiff : ({[p]} ∪ ps) ∖ {[p]} = ps) by set_solver.
  destruct (e =? ERR_OK); cbn [negb].
  2:{ rewrite bind_run. cbn. destruct (abort_law p w2) as [D1 D2]. split; cbn; rewrite ?D1, ?D2; congruence. }
  rewrite bind_run. cbn [lwip fst snd pb_world pb_listener].
  pose proof (listen_law p 4 w2) as Hl. destruct (tcp_listen_with_backlog_and_err p 4 w2) as [[r e2] w3].
  cbn [fst snd]. destruct r as [l|].
  - destruct Hl as (L1 & -> & L2 & L3). rewrite B1, N3, Hdiff in L2, L3. cbn [negb Z.eqb].
    rewrite !bind_run. cbn. exists l. split; [done|]. split; [done|].
    destruct (arg_law l true w3) as [E1 E2]. destruct (accept_law l true (tcp_arg l true w3)) as [F1 F2].
    split; cbn; rewrite ?F1, ?F2, ?E1, ?E2; congruence.
  - destruct Hl as [L1 L2]. rewrite bind_run. cbn. destruct (abort_law p w3) as [D1 D2]. split; cbn; rewrite ?D1, ?D2; congruence.
Qed.

(** A callback of lwIP, which passes no error with data or at the end of a
    stream: the buffer is freed, once; the block is closed or aborted exactly
    at the end of the stream or without a listener, and the result says when
    it was aborted; what a listener receives is counted. *)
Lemma probe_recv_ok arg pcb p s ps bs :
  owns s ps bs ->
  let '(rc, s') := tcp_shift_probe_recv arg pcb p ERR_OK s in
  let ended := negb arg || is_null p in
  owns s' (if ended then ps ∖ {[pcb]} else ps) (match p with Some b => bs ∖ {[b]} | None => bs end) /\
  (rc = ERR_OK \/ rc = ERR_ABRT /\ ended = true) /\
  pl_rx_bytes (pb_listener s') =
    match p with
    | Some b => if arg then pl_rx_bytes (pb_listener s) +w64 pbuf_tot_len (pb_world s) b
                else pl_rx_bytes (pb_listener s)
    | None => pl_rx_bytes (pb_listener s)
    end.
Proof.
  intros [Hp Hb]. unfold tcp_shift_probe_recv. destruct arg; cbn [negb orb].
  - destruct p as [b|]; cbn [is_null].
    + change (negb (ERR_OK =? ERR_OK)) with false. cbn match. rewrite !bind_run. cbn.
      destruct (free_law b (tcp_recved pcb (pbuf_tot_len (pb_world s) b) (pb_world s))) as [F1 F2].
      destruct (recved_law pcb (pbuf_tot_len (pb_world s) b) (pb_world s)) as [R1 R2].
      split; [split; cbn; congruence|]. auto.
    + rewrite bind_run. cbn [lwip fst snd pb_world pb_listener]. pose proof (close_law pcb (pb_world s)) as Hc.
      destruct (tcp_close pcb (pb_world s)) as [e w]. cbn [fst snd]. destruct Hc as [C1 C2].
      destruct (e =? ERR_OK); cbn [negb].
      * split; [split; cbn; congruence|]. auto.
      * rewrite !bind_run. cbn. destruct (abort_law pcb w) as [D1 D2]. split; [split; cbn; congruence|]. auto.
  - rewrite bind_run. destruct p as [b|]; cbn [is_null].
    + rewrite bind_run. cbn. destruct (abort_law pcb (pbuf_free b (pb_world s))) as [D1 D2].
      destruct (free_law b (pb_world s)) as [F1 F2]. split; [split; cbn; congruence|]. auto.
    + rewrite bind_run. cbn. destruct (abort_law pcb (pb_world s)) as [D1 D2]. split; [split; cbn; congruence|]. auto.
Qed.

End Ownership.

(** A world that follows the rules. *)
Module SampleProbe.
Record world := { in_use : gset Z; buffers : gset Z }.
Definition use (f : gset Z -> gset Z) (w : world) : world := {| in_use := f (in_use w); buffers := buffers w |}.
#[global] Instance tcp : ProbeTcp world := {|
  tcp_new_ip_type _ w := (Some (fresh (in_use w)), use (union {[fresh (in_use w)]}) w);
  tcp_bind _ _ _ w := (ERR_OK, w);
  tcp_listen_with_backlog_and_err p _ w :=
    let l := fresh (in_use w ∖ {[p]}) in ((Some l, ERR_OK), use (fun ps => {[l]} ∪ ps ∖ {[p]}) w);
  tcp_close p w := (ERR_OK, use (fun ps => ps ∖ {[p]}) w);
  tcp_abort p w := use (fun ps => ps ∖ {[p]}) w;
  tcp_recved _ _ w := w;
  pbuf_free b w := {| in_use := in_use w; buffers := buffers w ∖ {[b]} |};
  pbuf_tot_len _ _ := 1000;
  tcp_arg _ _ w := w;
  tcp_accept _ _ w := w;
  tcp_recv_and_err _ w := w
|}.
#[global] Instance laws : ProbeLaws world in_use buffers.
Proof.
  split; intros; cbn; try done.
  - split; [done|]. split; [apply is_fresh|done].
  - split; [done|]. split; [done|]. split; [apply is_fresh|done].
Qed.
End SampleProbe.

(** ** The platform *)

Inductive random_result := RandomInterrupted | RandomFailed | RandomBytes (count value : Z).

Class PlatformOS (W : Type) := {
  platform_clock : W -> option (Z * Z) * W;
  getrandom : W -> random_result * W;
  getpid : W -> Z
}.

Section Platform.
Context {W : Type} `{!PlatformOS W}.

Definition sys_now : M W Z :=
  let! ts := platform_clock in
  match ts with
  | None => ret 0
  | Some (tv_sec, tv_nsec) =>
      let millis := (u64 tv_sec *w64 1000) +w64 (u64 tv_nsec / 1000000) in
      ret (u32 millis)
  end.

(** The [do ... while (ret < 0 && errno == EINTR)]; [None] is out of fuel. *)
Fixpoint random_loop (fuel : nat) : M W (option random_result) :=
  match fuel with
  | O => ret None
  | S fuel' =>
      let! r := getrandom in
      match r with
      | RandomInterrupted => random_loop fuel'
      | _ => ret (Some r)
      end
  end.

Definition lwip_port_rand (fuel : nat) : M W (option Z) :=
  let! r := random_loop fuel in
  match r with
  | None => ret None
  | Some (RandomBytes count value) =>
      if count =? 4 then ret (Some (u32 value))
      else let! now := sys_now in let! pid := gets getpid in ret (Some (Z.lxor (u32 now) (u32 pid)))
  | Some _ => let! now := sys_now in let! pid := gets getpid in ret (Some (Z.lxor (u32 now) (u32 pid)))
  end.

End Platform.

(** The milliseconds of a time, unbounded. *)
Definition millis_of (ts : Z * Z) : Z := ts.1 * 1000 + ts.2 / 1000000.

(** lwIP measures time by 32-bit differences: they are exact over intervals
    below [2^32] milliseconds, whatever wraps in between. *)
Lemma sys_now_elapsed {W} `{!PlatformOS W} (w1 w2 : W) t1 t2 :
  (platform_clock w1).1 = Some t1 -> (platform_clock w2).1 = Some t2 ->
  0 <= t1.1 < 2 ^ 53 -> 0 <= t1.2 < 1000000000 -> 0 <= t2.1 < 2 ^ 53 -> 0 <= t2.2 < 1000000000 ->
  0 <= millis_of t2 - millis_of t1 < 4294967296 ->
  (sys_now w2).1 -w32 (sys_now w1).1 = millis_of t2 - millis_of t1.
Proof.
  intros E1 E2 A1 A2 B1 B2 Hd.
  assert (Hnow : forall w t, (platform_clock w).1 = Some t -> 0 <= t.1 < 2 ^ 53 -> 0 <= t.2 < 1000000000 ->
    (sys_now w).1 = u32 (millis_of t)).
  { intros w [sec nsec] E Hs Hn. unfold sys_now. rewrite bind_run, E. cbn [fst snd ret] in *.
    change (2 ^ 53) with 9007199254740992 in Hs. unfold millis_of. cbn [fst snd].
    assert (0 <= nsec / 1000000 < 1000) by (split; [apply Z.div_pos; lia|apply Z.div_lt_upper_bound; lia]).
    rewrite (u64_small sec), (u64_small nsec), (u64_small (sec * 1000)), u64_small by lia. done. }
  rewrite (Hnow w1 t1), (Hnow w2 t2) by done. unfold u32. rewrite <- Zminus_mod. apply Z.mod_small. lia.
Qed.

(** A random number that was drawn in full is returned as it is; a degraded
    host gets one all the same. *)
Lemma port_rand_returns {W} `{!PlatformOS W} (w : W) fuel r w' :
  random_loop fuel w = (Some r, w') ->
  exists v, (lwip_port_rand fuel w).1 = Some v /\ 0 <= v <= UINT32_MAX /\
    (forall value, r = RandomBytes 4 value -> v = u32 value).
Proof.
  intros E. unfold lwip_port_rand. rewrite bind_run, E. cbn [fst snd].
  assert (Hx : forall a b, 0 <= Z.lxor (u32 a) (u32 b) <= UINT32_MAX).
  { intros a b. pose proof (u32_range a). pose proof (u32_range b).
    assert (0 <= Z.lxor (u32 a) (u32 b)) by (apply Z.lxor_nonneg; lia). split; [done|].
    enough (Z.lxor (u32 a) (u32 b) < 2 ^ 32) by (change (2 ^ 32) with 4294967296 in *; lia).
    destruct (Z.eq_dec (Z.lxor (u32 a) (u32 b)) 0) as [->|Hne]; [lia|].
    apply Z.log2_lt_pow2; [lia|]. eapply Z.le_lt_trans; [apply Z.log2_lxor; lia|].
    assert (Hl : forall x, 0 <= x <= UINT32_MAX -> Z.log2 x < 32).
    { intros x Hx. destruct (Z.eq_dec x 0) as [->|]; [done|]. apply Z.log2_lt_pow2; [lia|].
      change (2 ^ 32) with 4294967296. lia. }
    apply Z.max_lub_lt; by apply Hl. }
  destruct r as [| |count value].
  1,2: rewrite !bind_run; eexists; split; [reflexivity|]; split; [apply Hx|done].
  destruct (count =? 4) eqn:Ec.
  - eexists. split; [reflexivity|]. split; [apply u32_range|]. intros v Hv. by injection Hv as _ ->.
  - rewrite !bind_run. eexists. split; [reflexivity|]. split; [apply Hx|]. intros v Hv. injection Hv as -> _. lia.
Qed.
